(* ===== verification/_CoqProject ===== *)
-Q . S2P
Prelude.v
Bytes.v
CString.v
Proto.v
Skb.v
FwInfo.v
Utils.v
Format.v
Libc.v
Dump.v
FwCtrl.v
Channel.v
FwCmds.v
Iwpriv.v
IwprivGet.v
BootDl.v
Ota.v
Device.v
Tx.v
Core.v
IfTest.v
Entry.v
AppLib.v
AppFacts.v
ProcFile.v
HgTools.v
Invariant.v
System.v
Lifecycle.v
Usb.v
AhFreq.v
Sdio.v
Bus.v
Wire.v
MmcSpi.v
LibOta.v
OtaTool.v
OtaTable.v
Netat.v
