(* ===== verification/Prelude.v ===== *)
(** * TXW8301 FMAC Linux driver: a verification development

    The program is the Linux driver of the Taixin TXW8301 Wi-Fi HaLow chip and
    its user-space tools: a kernel module ([src/hgic_fmac], [src/utils]) that
    talks to firmware on the chip over USB or SDIO, an application library and
    command tools on top of its ioctls and procfs files ([src/tools/test_app]),
    and tools that reach a chip over the network instead ([src/tools/test_app],
    libota.c and libnetat.c).  This library models their own logic as executable
    definitions, one per C function and under its C name, and proves what makes
    each part correct, and where it is not.

    ** Parts, files and source

    Runtime and shared data:
    - [Prelude]: outcomes, the state monad with [post] and [keeps], the class
      [Inside] of a component inside another's state, buffers with C's bounds,
      memory in chunks.
    - [Bytes], [CString], [Format], [Libc], [Skb]: integers at their width and
      little-endian access; the string functions, the printf and scanf formats
      and the allocations the code uses; the part of the kernel's socket buffers
      it uses.  These are the language and its runtime, written once.
    - [Proto] (hgic.h, hgic_def.h): frame headers, command, event and frame
      type numbers, the identifier macros, the bus description.

    The driver:
    - [FwCtrl] (utils/fwctrl.c, lines 1-280): the control channel.  [hgic_fwctrl]
      is [struct hgic_fwctrl]; [world] adds the scripts of the environment and
      logs of the frames sent and the callbacks made.  [Channel] is its abstract
      specification, calls that are open and answers that arrived, and the
      simulation.
    - [FwCmds] (utils/fwctrl.c, the rest): the command wrappers.
    - [Iwpriv], [IwprivGet] (utils/iwpriv.c): the [name=value] interface, its
      set and get handlers and their tables.
    - [Utils] (utils/utils.c), [FwInfo] (utils/fwinfo.c): parsing helpers;
      image header, CRCs, code check.  [Dump]: the hex dumps of the driver and of
      the library, and the question for an interface's address.
    - [BootDl] (utils/fwdl.c): the boot loader protocol and the download;
      [boot] is [struct hgic_bootdl] over a [world].
    - [Ota] (utils/ota.c): the update; [hgic_ota] is [struct hgic_ota].
    - [Device] (hgic_fmac/core.c, event.c, the event reader of procfs.c):
      [hgicf_wdev] is [struct hgicf_wdev], which contains the control channel
      and the downloader (two instances of [Inside]); the receive path and the
      events.
    - [Tx] (hgic_fmac/core.c): the transmit path and its work.
    - [Core] (hgic_fmac/core.c): firmware loading, delayed initialisation, the
      configuration file, the watchdog, power management, interface operations.
    - [IfTest] (hgic_fmac/core.c): the interface traffic test.
    - [Lifecycle] (hgic_fmac/core.c): probe and removal, with the works and the
      timer that a removal meets.
    - [Entry] (hgic_fmac/ctrl.c, procfs.c, core.c): the ioctl entry points and the
      procfs files.
    - [ProcFile] (hgic_fmac/procfs.c; the tools' helpers of test_app/iwpriv.c): the
      directory and the four files, how they are made and removed, and who reads
      and writes them.
    - [Usb] (utils/if_usb.c), [Sdio] (utils/if_sdio.c): the transports.  [Bus]
      (struct hgic_bus of hgic_def.h) is what a transport promises the driver, a
      class with the two transports as its instances, and the system of the driver
      with its transport; [Wire] follows a frame from the queues to the USB wire and
      a block from there to the network stack.
    - [MmcSpi] (utils/mmc_spi.c): the MMC host over an SPI controller that an
      SDIO chip on SPI is driven through.
    - [Invariant]: the invariant of the control channel under every text
      command.  [System]: the actions of the whole device as a step relation
      and the invariant of its reachable states.

    The tools:
    - [AppLib] (test_app/iwpriv.c): the application library, one definition per
      function; [AppFacts]: the library, the driver and the channel together.
    - [HgTools] (test_app/hgpriv.c, hgicf.c): the command tool and the event
      daemon.
    - [AhFreq] (utils/ah_freqinfo.c): the regional frequency table and its
      setting through the application library.
    - [LibOta] (test_app/libota.c), [OtaTool], [OtaTable] (test_app/hgota.c and
      the rest of libota.c): the network update tool, its download, and its table
      of stations and configurations with the table's picture on the screen.
    - [Netat] (test_app/libnetat.c, libnetat_cli.c): AT commands over the network.

    Calls go downwards in this order: [AppLib] and [HgTools] enter the driver
    through [Entry], [AhFreq] through [AppLib]; [Entry] calls [Iwpriv] and
    [IwprivGet], which call [FwCmds], which calls [FwCtrl]; [BootDl] and [Ota] send through [FwCtrl]; [Core] runs
    [BootDl], [Iwpriv] (for the lines of the configuration file) and [FwCmds] on
    the device; [Tx] takes the frames [FwCtrl] queued and hands them
    to the bus, which is [Usb] or [Sdio] ([Bus] puts them
    together); [ProcFile] leads from the library to [Entry] and [Ota]; below [Sdio] are the kernel's MMC core,
    which is not part of the repository, and [MmcSpi].

    ** How the code is modelled

    A function that cannot fail is a function; one that accesses memory returns
    an [outcome], which is [Fault] for what C leaves undefined or the kernel
    panics on (an access out of bounds, a NULL dereference, an over- or
    under-run of a socket buffer) and for a loop that does not end; one that
    changes state is in the monad [M].  Memory is a list of bytes, and a
    pointer into it the list from there on, so that what lies behind an object
    is part of the model where the code can reach it.  Integers are [Z] with
    the conversion of each cast written out ([u8], [u16], [u32], [s32], ...).

    What the code shares with others is explicit:
    - other threads, the bus and the receive work act while a command sleeps:
      [w_env] holds one list of [action]s per sleep, and the theorems quantify
      over all of them.  Between sleeps the code holds its spinlocks or works on
      its own frames, so it runs in one step.
    - allocations draw from [w_alloc]: failure, or the former contents of the
      memory.  When it is empty they succeed with zeroed memory.
    - the bus's transmit function answers from [d_bus_env] and its [reinit] from
      [d_reinit]; a transmission may report frames back, as sent or as failed, and
      deliver blocks before it returns, in any order.
    - below the transports the surroundings are a parameter: in [Usb] scripts of
      results, in [Sdio] and [MmcSpi] a state of any type and a function from a
      request to its answer and the next state, with a log of the requests.
    - a tool's surroundings are the scripts of what its sockets, files and
      console deliver, with logs of what it sends and prints.
    - the firmware loader ([rf]), module parameters, uninitialised stack bytes
      ([stk]) and the signedness of [char] ([sc]) are parameters.
    Jiffies are an unbounded counter.  The host is little-endian, the build is
    the Linux one ([HGIC_CMD_START] is 0).  Kernel messages, the tools' messages
    about errors, locks and sleeps of a fixed time have no counterpart, except where
    a transport's conversation contains them; what a tool prints as its result is
    modelled.

    Loops are structural where they consume data.  The others carry fuel:
    - one round per byte to send in the download and update loops;
    - 2049 rounds for the 2048-byte configuration buffer;
    - one round per byte in the aggregation loops;
    - in the network tools, one round per frame that arrives (and ten more for
      the waits of an update, one for those of an AT command);
    - one round per test of the running flag in the interface test;
    - five rounds for the three of an SDIO re-initialisation;
    - in [MmcSpi], one round per unit of time until the timeout.
    The theorems state that this is enough by giving a result, and where a loop
    of the code does not end ([rx_malformed_frames], [tx_agg_oversize_livelock])
    they state that no fuel is.

    ** What the theorems show

    - Control channel: for every interleaving, a command gets its own response
      or none, leaves nothing behind, and never accesses memory out of bounds
      when responses are honest; the channel refines its abstract specification;
      cookies are unique in any 32768 consecutive commands; headers decode to
      what they were built from.
    - Commands and text interface: each wrapper sends exactly the frame of its
      command; [name=value] runs exactly the handler of that name; every text
      command keeps the channel's invariant; the ioctl and the procfs file do the
      same.
    - Application library and tools: a setting reaches the handler of its name
      and the firmware with its value, if the allocator gives the library a byte
      more than it asks for, and is a write outside a block otherwise; a queried
      number comes back and is printed; up to 16 events of the chip appear on the
      screen in order.
    - Images: the CRCs and the update checksum detect every one-byte change; the
      getters read back the fields an image was built with; downloads and
      updates deliver the image, each fragment once and in order, and stop at
      the first error (on SDIO a download reads beyond an image whose last
      fragment does not fill its last block).
    - Data path: aggregated blocks are delivered exactly; the transmit work
      drains control before data, numbers data frames consecutively, stops at a
      sleep command and holds data until firmware runs; aggregation packs
      the longest prefix that fits and puts the next frame back; the event list is
      bounded and in order.
    - Bring-up and removal: firmware is loaded exactly once, a running one not at
      all; the watchdog on every branch; the configuration file is its lines, as
      long as it fits its buffer and does not begin with a line feed; a
      probe establishes the invariant, every reachable state has it, a removal
      is safe against the works and the timer it meets.
    - Region: a plan is a valid entry of the table and reaches the chip.
    - The driver on its bus: the driver uses its bus only by asking it frame by
      frame, so every run with a transport is a run over scripted replies: what
      is proved for all scripts holds over USB and SDIO, and no frame is lost.
      On a good day everything queued is on the wire, in order, and everything
      received is with the network stack.
    - The files under /proc: what is made is removed, whatever the kernel refuses;
      an update by file name reaches the chip as exactly the image.
    - Transports: every frame given to USB or SDIO is completed exactly once,
      whatever the controller does, when its padding is inside its buffer: SDIO
      reads that of an aligned frame there without a look.  Received lengths stay
      within the buffers; re-initialisation ends.
    - MMC over SPI: a request returns whatever the card does, in a bounded time,
      unless its data fail their CRC before the core knows the card; data and
      responses that arrive a few bits late are realigned exactly, and the cases
      where the code loses them are stated; the blocks of a write are on the wire
      behind their tokens, in order.
    - Network tools: behind the conversion of its argument, which leaves its
      array, an update ends, and delivers the image to a station that answers
      without an error; a scan finds the stations that report; configurations come
      back as they were sent; the AT tool sends its command to the station that
      answered.
    - Faults of the code: the theorems and lemmas named above and in the files
      under words such as "overread", "overflows", "leaks" give the inputs.

    ** What is not modelled

    The bluetooth glue (utils/bluetooth.c) is compiled out; module
    registration and parameters, the build files and the hooks for other
    operating systems have no logic; the duplicate copies of the protocol headers
    under tools declare what [Proto] already states;
    option parsing that only assigns a string, and shell scripts.  The kernel's MMC
    core, USB core, network stack and allocator are parameters. *)
From stdpp Require Export base numbers list.
#[global] Open Scope Z_scope.

#[global] Arguments Z.eqb : simpl never.
#[global] Arguments Z.leb : simpl never.
#[global] Arguments Z.ltb : simpl never.
#[global] Arguments Z.modulo : simpl never.
#[global] Arguments Z.div : simpl never.
#[global] Arguments Z.lor : simpl never.
#[global] Arguments Z.land : simpl never.
#[global] Arguments Z.shiftl : simpl never.
#[global] Arguments Z.shiftr : simpl never.
#[global] Arguments Z.to_nat : simpl never.

(** ** Faults and outcomes

    A C function either returns or performs an operation the language or the
    kernel gives no result to.  [Fault] records which. *)
Inductive fault :=
  | OutOfBounds     (* access outside the object a pointer points into *)
  | NullDeref       (* dereference of NULL *)
  | SkbPanic        (* skb_over_panic / skb_under_panic *)
  | Overflow        (* arithmetic without a result: a conversion to an integer type that cannot hold it, a division by zero *)
  | Diverges.       (* a loop that never exits *)

Inductive outcome (A : Type) :=
  | Ret (a : A)
  | Fault (f : fault).
Arguments Ret {A} a.
Arguments Fault {A} f.

#[export] Instance fault_eq_dec : EqDecision fault.
Proof. solve_decision. Defined.
#[export] Instance outcome_eq_dec `{EqDecision A} : EqDecision (outcome A).
Proof. solve_decision. Defined.

Definition obind {A B} (m : outcome A) (k : A -> outcome B) : outcome B :=
  match m with Ret a => k a | Fault f => Fault f end.

Definition oguard (b : bool) (f : fault) : outcome unit :=
  if b then Ret tt else Fault f.

(** ** The state monad the stateful components are written in *)
Definition M (S A : Type) : Type := S -> outcome (A * S).

Definition ret {S A} (a : A) : M S A := fun s => Ret (a, s).
Definition bind {S A B} (m : M S A) (k : A -> M S B) : M S B :=
  fun s => match m s with Ret (a, s') => k a s' | Fault f => Fault f end.
Definition fail {S A} (f : fault) : M S A := fun _ => Fault f.
Definition gets {S A} (g : S -> A) : M S A := fun s => Ret (g s, s).
Definition modify {S} (g : S -> S) : M S unit := fun s => Ret (tt, g s).
Definition lift {S A} (o : outcome A) : M S A :=
  fun s => match o with Ret a => Ret (a, s) | Fault f => Fault f end.

Declare Scope prog_scope.
Delimit Scope prog_scope with prog.
Notation "'let!' x := m 'in' k" := (bind m (fun x => k))
  (at level 10, x name, m at level 100, k at level 200,
   format "'[v' 'let!'  x  :=  m  'in' '/' k ']'") : prog_scope.
Notation "'let!' ' p := m 'in' k" := (bind m (fun x => match x with p => k end))
  (at level 10, p pattern, m at level 100, k at level 200) : prog_scope.
Notation "m ;;; k" := (bind m (fun _ => k))
  (at level 199, right associativity, format "'[v' m  ;;; '/' k ']'") : prog_scope.
Notation "'leto' x := m 'in' k" := (obind m (fun x => k))
  (at level 10, x name, m at level 100, k at level 200) : prog_scope.
#[global] Open Scope prog_scope.

Create HintDb prog discriminated.
Create Rewrite HintDb len.

Lemma bind_Ret {S A B} (m : M S A) (k : A -> M S B) s a s' :
  m s = Ret (a, s') -> bind m k s = k a s'.
Proof. unfold bind. by intros ->. Qed.

Lemma bind_lift {S A B} (o : outcome A) (k : A -> M S B) s a :
  o = Ret a -> bind (lift o) k s = k a s.
Proof. by intros ->. Qed.

Lemma bind_inv {S A B} (m : M S A) (k : A -> M S B) s b s'' :
  bind m k s = Ret (b, s'') ->
  exists a s', m s = Ret (a, s') /\ k a s' = Ret (b, s'').
Proof. unfold bind. destruct (m s) as [[a s']|] eqn:E; [|done]. eauto. Qed.

Lemma obind_inv {A B} (m : outcome A) (k : A -> outcome B) b :
  obind m k = Ret b -> exists a, m = Ret a /\ k a = Ret b.
Proof. destruct m; simpl; [eauto|done]. Qed.

Lemma bind_ext {S A B} (m : M S A) (k k' : A -> M S B) s :
  (forall a s', k a s' = k' a s') -> bind m k s = bind m k' s.
Proof. unfold bind. intros E. by destruct (m s) as [[]|]. Qed.

(** ** A component inside another's state

    What a component that contains another promises: the part can be read and
    replaced, and nothing else depends on it.  Computations on the part then run
    on the whole. *)
Class Inside (T S : Type) := {
  part : S -> T;
  put_part : T -> S -> S;
  part_put t s : part (put_part t s) = t;
  put_part_part s : put_part (part s) s = s;
  put_part_put t u s : put_part t (put_part u s) = put_part t s }.

Definition on_part {T S} `{Inside T S} {A} (m : M T A) : M S A := fun s =>
  match m (part s) with
  | Ret (a, t) => Ret (a, put_part t s)
  | Fault f => Fault f
  end.

Section Inside.
Context {T S : Type} `{Inside T S}.

Lemma on_part_Ret {A} (m : M T A) (s : S) a t :
  m (part s) = Ret (a, t) -> on_part m s = Ret (a, put_part t s).
Proof. unfold on_part. by intros ->. Qed.

Lemma on_part_Fault {A} (m : M T A) (s : S) f : m (part s) = Fault f -> on_part m s = Fault f.
Proof. unfold on_part. by intros ->. Qed.

Lemma on_part_inv {A} (m : M T A) (s : S) a s' :
  on_part m s = Ret (a, s') -> exists t, m (part s) = Ret (a, t) /\ s' = put_part t s.
Proof. unfold on_part. destruct (m (part s)) as [[b t]|]; [|done]. intros [= -> <-]. by exists t. Qed.

(** Running a computation on the part commutes with sequencing. *)
Lemma on_part_bind {A B} (m : M T A) (k : A -> M T B) (s : S) :
  on_part (bind m k) s = bind (on_part m) (fun a => on_part (k a)) s.
Proof.
  unfold on_part, bind. destruct (m (part s)) as [[a t]|]; [|done]. rewrite part_put.
  destruct (k a t) as [[b u]|]; [|done]. by rewrite put_part_put.
Qed.

Lemma on_part_ret {A} (a : A) (s : S) : on_part (ret a) s = ret a s.
Proof. unfold on_part, ret. by rewrite put_part_part. Qed.
End Inside.

(** ** Fault freedom of a computation from a state *)
Definition no_fault {A} (o : outcome A) : Prop := exists a, o = Ret a.

Lemma no_fault_Ret {A} (a : A) : no_fault (Ret a).
Proof. by exists a. Qed.
#[export] Hint Resolve no_fault_Ret : prog.

(** ** What every returning run establishes *)
Definition post {S A} (m : M S A) (s : S) (Q : A -> S -> Prop) : Prop :=
  forall a s', m s = Ret (a, s') -> Q a s'.

(** [keeps P m]: whenever [m] returns, it preserves [P]. *)
Definition keeps {S A} (P : S -> Prop) (m : M S A) : Prop :=
  forall s, P s -> post m s (fun _ s' => P s').

Section Post.
Context {S A B : Type}.
Implicit Types (s : S) (P : S -> Prop).

Lemma post_ret (a : A) s (Q : A -> S -> Prop) : Q a s -> post (ret a) s Q.
Proof. intros H b s' [= <- <-]. done. Qed.
Lemma post_fail f s (Q : A -> S -> Prop) : post (fail f) s Q.
Proof. intros b s' [=]. Qed.
Lemma post_gets (g : S -> A) s (Q : A -> S -> Prop) : Q (g s) s -> post (gets g) s Q.
Proof. intros H b s' [= <- <-]. done. Qed.
Lemma post_modify (g : S -> S) s (Q : unit -> S -> Prop) : Q tt (g s) -> post (modify g) s Q.
Proof. intros H b s' [= <- <-]. done. Qed.
Lemma post_lift (o : outcome A) s (Q : A -> S -> Prop) : (forall a, o = Ret a -> Q a s) -> post (lift o) s Q.
Proof. intros H b s'. unfold lift. destruct o; [|done]. intros [= <- <-]. by apply H. Qed.
Lemma post_bind (m : M S A) (k : A -> M S B) s (Q : B -> S -> Prop) :
  post m s (fun a s' => post (k a) s' Q) -> post (bind m k) s Q.
Proof. intros H b s' (a & s1 & H1 & H2)%bind_inv. exact (H _ _ H1 _ _ H2). Qed.
Lemma post_mono (m : M S A) s (Q Q' : A -> S -> Prop) :
  post m s Q -> (forall a s', Q a s' -> Q' a s') -> post m s Q'.
Proof. unfold post. eauto. Qed.

Lemma keeps_ret P (a : A) : keeps P (ret a).
Proof. intros s Hs. by apply post_ret. Qed.
Lemma keeps_fail P f : keeps P (fail (A:=A) f).
Proof. intros s Hs. apply post_fail. Qed.
Lemma keeps_gets P (g : S -> A) : keeps P (gets g).
Proof. intros s Hs. by apply post_gets. Qed.
Lemma keeps_lift P (o : outcome A) : keeps P (lift o).
Proof. intros s Hs. by apply post_lift. Qed.
Lemma keeps_modify P (g : S -> S) : (forall s, P s -> P (g s)) -> keeps P (modify g).
Proof. intros H s Hs. apply post_modify. by apply H. Qed.
Lemma keeps_bind P (m : M S A) (k : A -> M S B) :
  keeps P m -> (forall a, keeps P (k a)) -> keeps P (bind m k).
Proof.
  intros Hm Hk s Hs. apply post_bind. apply (post_mono _ _ _ _ (Hm s Hs)). intros a s' Hs'. by apply Hk.
Qed.
End Post.

Lemma post_on_part {T S A} `{Inside T S} (m : M T A) (s : S) Q :
  post m (part s) (fun a t => Q a (put_part t s)) -> post (on_part m) s Q.
Proof. intros H' a s' (t & E & ->)%on_part_inv. by apply H'. Qed.

(** Sequencing after a computation that keeps [P]. *)
Lemma post_bind_keeps {S A B} (P : S -> Prop) (m : M S A) (k : A -> M S B) s Q :
  keeps P m -> P s -> (forall a s', P s' -> post (k a) s' Q) -> post (bind m k) s Q.
Proof. intros Hm Hs Hk. apply post_bind. apply (post_mono _ _ _ _ (Hm s Hs)). intros a s' Hs'. by apply Hk. Qed.

Lemma post_keeps {S A} (P : S -> Prop) (m : M S A) s (Q : A -> S -> Prop) :
  keeps P m -> P s -> (forall a s', P s' -> Q a s') -> post m s Q.
Proof. intros Hm Hs HQ. apply (post_mono _ _ _ _ (Hm s Hs)). auto. Qed.

(** A step on the part keeps what the whole says about the part. *)
Lemma keeps_on_part {T S A} `{Inside T S} (P : T -> Prop) (R : S -> Prop) (m : M T A) :
  keeps P m -> (forall s, R s -> P (part s)) -> (forall s t, R s -> P t -> R (put_part t s)) -> keeps R (on_part m).
Proof. intros Hm H1 H2 s Hs. apply post_on_part. intros a t E. apply H2, (Hm _ (H1 s Hs) _ _ E). done. Qed.

Create HintDb keeps discriminated.
#[export] Hint Resolve keeps_ret keeps_fail keeps_gets keeps_lift : keeps.

Ltac head_of t := lazymatch t with ?f _ => head_of f | _ => t end.
(** Walks through a computation: sequencing and case distinctions are split,
    what the [keeps] database knows is used, and anything else is unfolded. *)
Ltac keeps_step :=
  lazymatch goal with
  | |- keeps _ (bind _ _) => apply keeps_bind; [|intros ?]
  | |- keeps _ (match ?x with _ => _ end) => destruct x
  | |- keeps _ (let _ := _ in _) => cbv zeta
  | |- keeps _ (modify _) => apply keeps_modify
  | |- keeps _ ?m => first [solve [eauto 3 with keeps nocore]
                           | let h := head_of m in progress unfold h; cbv beta ]
  end.
Ltac keeps_tac := repeat keeps_step.

(** ** Inversion of successful runs *)
Ltac run_inv :=
  repeat match goal with
  | H : bind _ _ _ = Ret _ |- _ =>
      let a := fresh "a" in let s := fresh "s" in
      let H1 := fresh "Hrun" in let H2 := fresh "Hrun" in
      apply bind_inv in H as (a & s & H1 & H2)
  | H : obind _ _ = Ret _ |- _ =>
      let a := fresh "a" in let H1 := fresh "Hrun" in let H2 := fresh "Hrun" in
      apply obind_inv in H as (a & H1 & H2)
  | H : ret _ _ = Ret _ |- _ => unfold ret in H
  | H : gets _ _ = Ret _ |- _ => unfold gets in H
  | H : modify _ _ = Ret _ |- _ => unfold modify in H
  | H : fail _ _ = Ret _ |- _ => discriminate H
  | H : Fault _ = Ret _ |- _ => discriminate H
  | H : Ret _ = Ret _ |- _ => injection H; clear H; intros; subst
  end.

(** ** Lists indexed by C integers *)
Definition zlen {A} (l : list A) : Z := Z.of_nat (length l).

Lemma zlen_nil {A} : zlen (@nil A) = 0.
Proof. done. Qed.
Lemma zlen_cons {A} (x : A) l : zlen (x :: l) = 1 + zlen l.
Proof. unfold zlen. simpl. lia. Qed.
Lemma zlen_app {A} (l k : list A) : zlen (l ++ k) = zlen l + zlen k.
Proof. unfold zlen. rewrite length_app. lia. Qed.
Lemma zlen_nonneg {A} (l : list A) : 0 <= zlen l.
Proof. unfold zlen. lia. Qed.
#[export] Hint Resolve zlen_nonneg : prog.
#[export] Hint Rewrite @zlen_nil @zlen_cons @zlen_app : len.

Definition ztake {A} (n : Z) (l : list A) : list A := take (Z.to_nat n) l.
Definition zdrop {A} (n : Z) (l : list A) : list A := drop (Z.to_nat n) l.

Lemma zlen_ztake {A} n (l : list A) : 0 <= n <= zlen l -> zlen (ztake n l) = n.
Proof. unfold zlen, ztake. rewrite length_take. lia. Qed.
Lemma zlen_zdrop {A} n (l : list A) : 0 <= n <= zlen l -> zlen (zdrop n l) = zlen l - n.
Proof. unfold zlen, zdrop. rewrite length_drop. lia. Qed.
Lemma ztake_zdrop {A} n (l : list A) : ztake n l ++ zdrop n l = l.
Proof. apply take_drop. Qed.
Lemma ztake_app_length {A} n (l k : list A) : n = zlen l -> ztake n (l ++ k) = l.
Proof. unfold zlen, ztake. intros ->. rewrite Nat2Z.id. apply take_app_length. Qed.
Lemma zdrop_app_length {A} n (l k : list A) : n = zlen l -> zdrop n (l ++ k) = k.
Proof. unfold zlen, zdrop. intros ->. rewrite Nat2Z.id. apply drop_app_length. Qed.
Lemma ztake_all {A} n (l : list A) : zlen l <= n -> ztake n l = l.
Proof. unfold zlen, ztake. intros. apply take_ge. lia. Qed.
Lemma zdrop_all {A} n (l : list A) : zlen l <= n -> zdrop n l = [].
Proof. unfold zlen, zdrop. intros. apply drop_ge. lia. Qed.

Lemma ztake_0 {A} (l : list A) : ztake 0 l = [].
Proof. done. Qed.
Lemma zdrop_0 {A} (l : list A) : zdrop 0 l = l.
Proof. done. Qed.
Lemma zdrop_zdrop {A} n m (l : list A) : 0 <= n -> 0 <= m -> zdrop n (zdrop m l) = zdrop (m + n) l.
Proof. unfold zdrop. intros. rewrite drop_drop. f_equal. lia. Qed.
Lemma zlen_resize {A} n (x : A) l : 0 <= n -> zlen (resize (Z.to_nat n) x l) = n.
Proof. intros. unfold zlen. rewrite length_resize. lia. Qed.
Lemma zlen_replicate {A} n (x : A) : 0 <= n -> zlen (replicate (Z.to_nat n) x) = n.
Proof. intros. unfold zlen. rewrite length_replicate. lia. Qed.
Lemma split_at {A} n (l : list A) : 0 <= n <= zlen l -> exists a b, l = a ++ b /\ zlen a = n /\ zlen b = zlen l - n.
Proof.
  intros H. exists (ztake n l), (zdrop n l). by rewrite ztake_zdrop, zlen_ztake, zlen_zdrop by lia.
Qed.

(** ** Reads and writes of a buffer, with C's bounds *)
Definition mem_read (l : list Z) (off n : Z) : outcome (list Z) :=
  if (0 <=? off) && (0 <=? n) && (off + n <=? zlen l)
  then Ret (ztake n (zdrop off l)) else Fault OutOfBounds.

Definition mem_write (l : list Z) (off : Z) (bs : list Z) : outcome (list Z) :=
  if (0 <=? off) && (off + zlen bs <=? zlen l)
  then Ret (ztake off l ++ bs ++ zdrop (off + zlen bs) l) else Fault OutOfBounds.

Definition mem_get (l : list Z) (off : Z) : outcome Z :=
  if 0 <=? off then
    match l !! Z.to_nat off with Some b => Ret b | None => Fault OutOfBounds end
  else Fault OutOfBounds.

(** A pointer that may be NULL is an option. *)
Definition deref {A} (p : option A) : outcome A :=
  match p with Some a => Ret a | None => Fault NullDeref end.

Lemma mem_read_ok l off n :
  0 <= off -> 0 <= n -> off + n <= zlen l ->
  mem_read l off n = Ret (ztake n (zdrop off l)).
Proof.
  intros. unfold mem_read.
  destruct (Z.leb_spec 0 off), (Z.leb_spec 0 n), (Z.leb_spec (off + n) (zlen l)); simpl; done || lia.
Qed.

Lemma mem_read_inv l off n bs :
  mem_read l off n = Ret bs ->
  0 <= off /\ 0 <= n /\ off + n <= zlen l /\ bs = ztake n (zdrop off l) /\ zlen bs = n.
Proof.
  unfold mem_read.
  destruct (Z.leb_spec 0 off), (Z.leb_spec 0 n), (Z.leb_spec (off + n) (zlen l)); simpl; try done.
  intros [= <-]. repeat split; try done. rewrite zlen_ztake; [done|]. rewrite zlen_zdrop; lia.
Qed.

Lemma mem_write_ok l off bs :
  0 <= off -> off + zlen bs <= zlen l ->
  mem_write l off bs = Ret (ztake off l ++ bs ++ zdrop (off + zlen bs) l).
Proof.
  intros. unfold mem_write.
  destruct (Z.leb_spec 0 off), (Z.leb_spec (off + zlen bs) (zlen l)); simpl; done || lia.
Qed.

Lemma mem_write_inv l off bs l' :
  mem_write l off bs = Ret l' ->
  0 <= off /\ off + zlen bs <= zlen l /\ l' = ztake off l ++ bs ++ zdrop (off + zlen bs) l.
Proof.
  unfold mem_write.
  destruct (Z.leb_spec 0 off), (Z.leb_spec (off + zlen bs) (zlen l)); simpl; try done.
  by intros [= <-].
Qed.

Lemma mem_write_length l off bs l' : mem_write l off bs = Ret l' -> zlen l' = zlen l.
Proof.
  unfold mem_write.
  destruct (Z.leb_spec 0 off), (Z.leb_spec (off + zlen bs) (zlen l)); simpl; try done.
  intros [= <-]. pose proof (zlen_nonneg bs).
  rewrite !zlen_app, zlen_ztake, zlen_zdrop; lia.
Qed.

(** Reading back what was written, at the same place. *)
Lemma mem_read_write l off bs l' :
  mem_write l off bs = Ret l' -> mem_read l' off (zlen bs) = Ret bs.
Proof.
  intros W. pose proof (mem_write_length _ _ _ _ W) as L. revert W. unfold mem_write.
  destruct (Z.leb_spec 0 off), (Z.leb_spec (off + zlen bs) (zlen l)); simpl; try done.
  intros [= <-]. pose proof (zlen_nonneg bs).
  rewrite mem_read_ok; [|lia..]. f_equal.
  rewrite zdrop_app_length by (rewrite zlen_ztake; lia). by apply ztake_app_length.
Qed.

(** The write in the middle of a split buffer. *)
Lemma mem_write_mid l pre old post new off :
  l = pre ++ old ++ post -> off = zlen pre -> zlen old = zlen new ->
  mem_write l off new = Ret (pre ++ new ++ post).
Proof.
  intros -> -> E. pose proof (zlen_nonneg pre). pose proof (zlen_nonneg post).
  rewrite mem_write_ok by (rewrite ?zlen_app; lia). do 2 f_equal.
  - by apply ztake_app_length.
  - f_equal. rewrite app_assoc. apply zdrop_app_length. rewrite zlen_app. lia.
Qed.

Lemma mem_read_mid l pre mid post off n :
  l = pre ++ mid ++ post -> off = zlen pre -> n = zlen mid -> mem_read l off n = Ret mid.
Proof.
  intros -> -> ->. pose proof (zlen_nonneg pre). pose proof (zlen_nonneg mid).
  pose proof (zlen_nonneg post).
  rewrite mem_read_ok by (rewrite ?zlen_app; lia). f_equal.
  rewrite zdrop_app_length by done. by apply ztake_app_length.
Qed.

(** Access beyond a prefix. *)
Lemma mem_read_skip pre l off n :
  zlen pre <= off -> mem_read (pre ++ l) off n = mem_read l (off - zlen pre) n.
Proof.
  intros H. pose proof (zlen_nonneg pre). unfold mem_read. rewrite zlen_app.
  destruct (Z.leb_spec 0 off), (Z.leb_spec 0 (off - zlen pre)), (Z.leb_spec 0 n),
    (Z.leb_spec (off + n) (zlen pre + zlen l)), (Z.leb_spec (off - zlen pre + n) (zlen l));
    simpl; try done; try lia.
  do 2 f_equal. unfold zdrop. rewrite drop_app_ge by (unfold zlen in *; lia). f_equal.
  unfold zlen in *. lia.
Qed.

Lemma mem_get_skip pre l off :
  zlen pre <= off -> mem_get (pre ++ l) off = mem_get l (off - zlen pre).
Proof.
  intros H. pose proof (zlen_nonneg pre). unfold mem_get.
  destruct (Z.leb_spec 0 off), (Z.leb_spec 0 (off - zlen pre)); try lia.
  rewrite lookup_app_r by (unfold zlen in *; lia).
  replace (Z.to_nat off - length pre)%nat with (Z.to_nat (off - zlen pre)) by (unfold zlen; lia). done.
Qed.

(** ** Cutting a block into fragments of at most [f] elements *)
Fixpoint fragments (fuel : nat) (f : Z) (code : list Z) : list (list Z) :=
  match fuel with
  | O => []
  | S k => if zlen code =? 0 then [] else ztake f code :: fragments k f (zdrop f code)
  end.

Lemma fragments_concat fuel f code :
  0 < f -> zlen code <= Z.of_nat fuel -> concat (fragments fuel f code) = code.
Proof.
  intros Hf. revert code. induction fuel as [|k IH]; intros code Hl; simpl.
  - by destruct code; [|rewrite zlen_cons in Hl; pose proof (zlen_nonneg code); lia].
  - destruct (Z.eqb_spec (zlen code) 0) as [E|E].
    { by destruct code; [|rewrite zlen_cons in E; pose proof (zlen_nonneg code); lia]. }
    pose proof (zlen_nonneg code). simpl. rewrite IH; [by apply ztake_zdrop|].
    destruct (Z.le_gt_cases (zlen code) f); [rewrite zdrop_all; [unfold zlen; simpl; lia|done]|].
    rewrite zlen_zdrop; lia.
Qed.

Lemma fragments_sizes fuel f code :
  0 < f -> Forall (fun bs => 0 < zlen bs <= f) (fragments fuel f code).
Proof.
  intros Hf. revert code. induction fuel as [|k IH]; intros code; simpl; [done|].
  destruct (Z.eqb_spec (zlen code) 0); [done|]. constructor; [|done]. pose proof (zlen_nonneg code).
  destruct (Z.le_gt_cases (zlen code) f); [rewrite ztake_all; lia|rewrite zlen_ztake; lia].
Qed.

Lemma fragments_end fuel f code : zlen code = 0 -> fragments fuel f code = [].
Proof. intros E. destruct fuel; simpl; [done|]. by rewrite E. Qed.

(** Reading a block from its start gives what is there and some bytes behind it. *)
Lemma read_padded d rest n :
  zlen d <= n <= zlen (d ++ rest) -> exists pad, mem_read (d ++ rest) 0 n = Ret (d ++ pad) /\ zlen (d ++ pad) = n.
Proof.
  intros Hn. pose proof (zlen_nonneg d). exists (ztake (n - zlen d) rest). rewrite zlen_app in Hn.
  rewrite mem_read_ok by (rewrite ?zlen_app; lia). rewrite zdrop_0. split.
  - f_equal. unfold ztake, zlen in *. rewrite take_app, take_ge by lia. do 2 f_equal. lia.
  - rewrite zlen_app, zlen_ztake; lia.
Qed.

Lemma copy_padded d (p : list Z) n :
  zlen d <= n <= zlen p ->
  exists p' pad, mem_write p 0 d = Ret p' /\ mem_read p' 0 n = Ret (d ++ pad) /\ zlen (d ++ pad) = n.
Proof.
  intros Hn. pose proof (zlen_nonneg d).
  assert (mem_write p 0 d = Ret (d ++ zdrop (zlen d) p)) as E by (rewrite mem_write_ok by lia; by rewrite Z.add_0_l).
  destruct (read_padded d (zdrop (zlen d) p) n) as (pad & E1 & E2); [rewrite zlen_app, zlen_zdrop; lia|].
  eexists _, pad. by split.
Qed.

(** ** Memory in chunks *)
(** A block is what its chunks are: a write that hits a chunk replaces it. *)
Lemma mem_write_chunk ls i old new off :
  ls !! i = Some old -> off = zlen (concat (take i ls)) -> zlen old = zlen new ->
  mem_write (concat ls) off new = Ret (concat (<[i := new]> ls)).
Proof.
  intros Hi -> Hl. pose proof (lookup_lt_Some _ _ _ Hi) as L.
  rewrite <- (take_drop_middle ls i old Hi) at 1. rewrite insert_take_drop, !concat_app by done. cbn [concat].
  by apply mem_write_mid with (old := old).
Qed.
Lemma mem_read_chunk ls i c off n :
  ls !! i = Some c -> off = zlen (concat (take i ls)) -> n = zlen c -> mem_read (concat ls) off n = Ret c.
Proof.
  intros Hi -> ->. rewrite <- (take_drop_middle ls i c Hi) at 1. rewrite concat_app. cbn [concat].
  by apply mem_read_mid with (pre := concat (take i ls)) (post := concat (drop (S i) ls)).
Qed.

(** A block cut into chunks of given sizes, and the rest. *)
Fixpoint cut (ns : list Z) (l : list Z) : list (list Z) :=
  match ns with [] => [l] | n :: ns => ztake n l :: cut ns (zdrop n l) end.
Lemma concat_cut ns l : concat (cut ns l) = l.
Proof. revert l. induction ns as [|n ns IH]; intros l; cbn [cut concat]; [apply app_nil_r|]. by rewrite IH, ztake_zdrop. Qed.
(** What is read of a prefix is read of the whole. *)
Lemma mem_read_prefix f rest off n bs : mem_read f off n = Ret bs -> mem_read (f ++ rest) off n = Ret bs.
Proof.
  intros (H1 & H2 & H3 & -> & _)%mem_read_inv. pose proof (zlen_nonneg rest).
  rewrite mem_read_ok by (rewrite ?zlen_app; lia). f_equal. unfold ztake, zdrop.
  rewrite drop_app_le, take_app_le; [done| |]; rewrite ?length_drop; unfold zlen in *; lia.
Qed.
Lemma mem_get_prefix f rest off b : mem_get f off = Ret b -> mem_get (f ++ rest) off = Ret b.
Proof.
  unfold mem_get. destruct (Z.leb_spec 0 off); [|done]. destruct (f !! Z.to_nat off) eqn:E; [|done].
  by rewrite (lookup_app_l_Some _ _ _ _ E).
Qed.
