(* ===== verification/Bytes.v ===== *)
(** * Machine integers and bytes

    The C integer types at their width, bytes as integers in [0, 256), and the
    kernel's unaligned little-endian accessors [put_unaligned_le16/32] and
    [get_unaligned_le16/32], which the driver uses for every field it puts on
    or takes off the wire. *)
From S2P Require Import Prelude.

(** ** Conversions: the value an expression has after a C cast *)
Definition u8 (z : Z) : Z := z mod 2 ^ 8.
Definition u16 (z : Z) : Z := z mod 2 ^ 16.
Definition u32 (z : Z) : Z := z mod 2 ^ 32.
Definition s8 (z : Z) : Z := (z + 2 ^ 7) mod 2 ^ 8 - 2 ^ 7.
Definition s16 (z : Z) : Z := (z + 2 ^ 15) mod 2 ^ 16 - 2 ^ 15.
Definition s32 (z : Z) : Z := (z + 2 ^ 31) mod 2 ^ 32 - 2 ^ 31.

Definition is_byte (b : Z) : Prop := 0 <= b < 256.
Definition is_bytes (l : list Z) : Prop := Forall is_byte l.
Definition byteb (b : Z) : bool := (0 <=? b) && (b <? 256).
Definition bytesb (l : list Z) : bool := forallb byteb l.

#[export] Instance is_byte_dec b : Decision (is_byte b).
Proof. unfold is_byte. apply _. Defined.
#[export] Instance is_bytes_dec l : Decision (is_bytes l).
Proof. unfold is_bytes. apply _. Defined.

Lemma bytesb_spec l : bytesb l = true <-> is_bytes l.
Proof.
  unfold bytesb, is_bytes. rewrite forallb_forall, Forall_forall.
  setoid_rewrite list_elem_of_In. unfold byteb, is_byte.
  split; intros H x Hx; specialize (H x Hx); lia.
Qed.

Lemma u8_range z : 0 <= u8 z < 256.
Proof. apply Z.mod_pos_bound. lia. Qed.
Lemma u16_range z : 0 <= u16 z < 65536.
Proof. apply Z.mod_pos_bound. lia. Qed.
Lemma u32_range z : 0 <= u32 z < 4294967296.
Proof. apply Z.mod_pos_bound. lia. Qed.
Lemma s16_range z : -32768 <= s16 z < 32768.
Proof. unfold s16. pose proof (Z.mod_pos_bound (z + 2 ^ 15) (2 ^ 16)). lia. Qed.
Lemma s32_range z : -2147483648 <= s32 z < 2147483648.
Proof. unfold s32. pose proof (Z.mod_pos_bound (z + 2 ^ 31) (2 ^ 32)). lia. Qed.

Lemma u8_id z : 0 <= z < 256 -> u8 z = z.
Proof. intros. by apply Z.mod_small. Qed.
Lemma u16_id z : 0 <= z < 65536 -> u16 z = z.
Proof. intros. by apply Z.mod_small. Qed.
Lemma u32_id z : 0 <= z < 4294967296 -> u32 z = z.
Proof. intros. by apply Z.mod_small. Qed.
Lemma s16_id z : -32768 <= z < 32768 -> s16 z = z.
Proof. intros. unfold s16. rewrite Z.mod_small; lia. Qed.
Lemma s32_id z : -2147483648 <= z < 2147483648 -> s32 z = z.
Proof. intros. unfold s32. rewrite Z.mod_small; lia. Qed.

Lemma is_byte_u8 z : is_byte (u8 z).
Proof. apply u8_range. Qed.
#[export] Hint Resolve is_byte_u8 u8_range u16_range u32_range s16_range s32_range : prog.

(** The sign of a 16-bit pattern is its top bit. *)
Lemma s16_u16 z : s16 (u16 z) = s16 z.
Proof. unfold s16, u16. f_equal. by rewrite Zplus_mod_idemp_l. Qed.
Lemma u16_s16 z : u16 (s16 z) = u16 z.
Proof. unfold s16, u16. rewrite Zminus_mod_idemp_l. f_equal. lia. Qed.
Lemma u32_s32 z : u32 (s32 z) = u32 z.
Proof. unfold s32, u32. rewrite Zminus_mod_idemp_l. f_equal. lia. Qed.
Lemma s32_u32 z : s32 (u32 z) = s32 z.
Proof. unfold s32, u32. f_equal. by rewrite Zplus_mod_idemp_l. Qed.
Lemma u8_u32 z : u8 (u32 z) = u8 z.
Proof. unfold u8, u32. apply Z.mod_mod_divide. by exists (2 ^ 24). Qed.

(** ** Little-endian accessors *)
Definition put_unaligned_le16 (v : Z) : list Z := [u8 v; u8 (Z.shiftr v 8)].
Definition put_unaligned_le32 (v : Z) : list Z :=
  [u8 v; u8 (Z.shiftr v 8); u8 (Z.shiftr v 16); u8 (Z.shiftr v 24)].

Definition get_unaligned_le16 (p : list Z) : outcome Z :=
  match p with
  | b0 :: b1 :: _ => Ret (Z.lor b0 (Z.shiftl b1 8))
  | _ => Fault OutOfBounds
  end.
Definition get_unaligned_le32 (p : list Z) : outcome Z :=
  match p with
  | b0 :: b1 :: b2 :: b3 :: _ =>
      Ret (Z.lor b0 (Z.lor (Z.shiftl b1 8) (Z.lor (Z.shiftl b2 16) (Z.shiftl b3 24))))
  | _ => Fault OutOfBounds
  end.

#[global] Arguments get_unaligned_le16 : simpl never.
#[global] Arguments get_unaligned_le32 : simpl never.
#[global] Arguments put_unaligned_le16 : simpl never.
#[global] Arguments put_unaligned_le32 : simpl never.

(** The or of a low part and a shifted high part is their sum. *)
Lemma lor_shiftl_add a b n : 0 <= n -> 0 <= a < 2 ^ n -> Z.lor a (Z.shiftl b n) = a + b * 2 ^ n.
Proof.
  intros Hn Ha. rewrite Z.shiftl_mul_pow2 by done. rewrite <- Z.add_lor_land.
  enough (Z.land a (b * 2 ^ n) = 0) as E by lia.
  apply Z.bits_inj'. intros i Hi. rewrite Z.land_spec, Z.bits_0.
  destruct (Z.lt_ge_cases i n).
  - rewrite Z.mul_pow2_bits_low by done. by rewrite andb_false_r.
  - destruct (decide (a = 0)) as [->|]; [by rewrite Z.bits_0|].
    rewrite Z.bits_above_log2; [done|lia|]. apply Z.log2_lt_pow2; [lia|].
    apply Z.lt_le_trans with (2 ^ n); [lia|]. apply Z.pow_le_mono_r; lia.
Qed.

Lemma get_le16_eq b0 b1 l :
  is_byte b0 -> get_unaligned_le16 (b0 :: b1 :: l) = Ret (b0 + b1 * 256).
Proof. intros. unfold get_unaligned_le16. by rewrite lor_shiftl_add. Qed.

Lemma get_le32_eq b0 b1 b2 b3 l :
  is_byte b0 -> is_byte b1 -> is_byte b2 ->
  get_unaligned_le32 (b0 :: b1 :: b2 :: b3 :: l)
  = Ret (b0 + b1 * 256 + b2 * 65536 + b3 * 16777216).
Proof.
  unfold is_byte. intros. unfold get_unaligned_le32. f_equal.
  assert (forall x n m, 0 <= n -> 0 <= m -> Z.shiftl x (n + m) = Z.shiftl (Z.shiftl x n) m) as E
    by (intros; by rewrite Z.shiftl_shiftl).
  pose proof (E b3 8 16 ltac:(lia) ltac:(lia)) as E1. change (8 + 16) with 24 in E1.
  rewrite E1, <- Z.shiftl_lor, (lor_shiftl_add b2) by lia.
  pose proof (E (b2 + b3 * 2 ^ 8) 8 8 ltac:(lia) ltac:(lia)) as E2. change (8 + 8) with 16 in E2.
  rewrite E2, <- Z.shiftl_lor, (lor_shiftl_add b1) by lia.
  rewrite lor_shiftl_add by lia. lia.
Qed.

Lemma put_le16_eq v : put_unaligned_le16 v = [v mod 256; v / 256 mod 256].
Proof. unfold put_unaligned_le16, u8. by rewrite Z.shiftr_div_pow2. Qed.
Lemma put_le32_eq v :
  put_unaligned_le32 v = [v mod 256; v / 256 mod 256; v / 65536 mod 256; v / 16777216 mod 256].
Proof. unfold put_unaligned_le32, u8. by rewrite !Z.shiftr_div_pow2. Qed.

Lemma get_put_le16 v l : get_unaligned_le16 (put_unaligned_le16 v ++ l) = Ret (u16 v).
Proof.
  rewrite put_le16_eq. simpl. rewrite (get_le16_eq _ _ l) by (apply Z.mod_pos_bound; lia).
  f_equal. unfold u16. change (2 ^ 16) with (256 * 256).
  rewrite Z.rem_mul_r by lia. lia.
Qed.

Lemma get_put_le32 v l : get_unaligned_le32 (put_unaligned_le32 v ++ l) = Ret (u32 v).
Proof.
  rewrite put_le32_eq. simpl.
  rewrite (get_le32_eq _ _ _ _ l) by (apply Z.mod_pos_bound; lia).
  f_equal. unfold u32.
  change (2 ^ 32) with (256 * (256 * (256 * 256))).
  rewrite !Z.rem_mul_r by lia.
  assert (v / 65536 = v / 256 / 256) as -> by (by rewrite Z.div_div).
  assert (v / 16777216 = v / 256 / 256 / 256) as -> by (by rewrite !Z.div_div). lia.
Qed.

Lemma put_le16_zlen v : zlen (put_unaligned_le16 v) = 2.
Proof. done. Qed.
Lemma put_le32_zlen v : zlen (put_unaligned_le32 v) = 4.
Proof. done. Qed.
Lemma put_le16_bytes v : is_bytes (put_unaligned_le16 v).
Proof. repeat constructor; apply u8_range. Qed.
Lemma put_le32_bytes v : is_bytes (put_unaligned_le32 v).
Proof. repeat constructor; apply u8_range. Qed.
#[export] Hint Resolve put_le16_bytes put_le32_bytes : prog.

Lemma put_le16_u16 v : put_unaligned_le16 (u16 v) = put_unaligned_le16 v.
Proof.
  rewrite !put_le16_eq. unfold u16. change (2 ^ 16) with (256 * 256).
  rewrite Z.rem_mul_r by lia. f_equal; [|f_equal].
  - rewrite Z.add_mod, Z.mul_comm, Z.mod_mul, Z.add_0_r, !Z.mod_mod by lia. done.
  - rewrite Z.mul_comm, Z.div_add, Z.div_small by (try apply Z.mod_pos_bound; lia).
    by rewrite Z.add_0_l, Z.mod_mod.
Qed.

Lemma is_bytes_app l k : is_bytes l -> is_bytes k -> is_bytes (l ++ k).
Proof. apply Forall_app_2. Qed.
Lemma is_bytes_take n l : is_bytes l -> is_bytes (ztake n l).
Proof. apply Forall_take. Qed.
Lemma is_bytes_drop n l : is_bytes l -> is_bytes (zdrop n l).
Proof. apply Forall_drop. Qed.
#[export] Hint Resolve is_bytes_app is_bytes_take is_bytes_drop : prog.
