(* ===== verification/CString.v ===== *)
(** * C strings

    A [char *] is the list of the bytes from the pointer to the end of the
    object it points into; a scan that leaves the object without meeting its
    stopping condition is an [OutOfBounds] fault.  The functions are the ones
    the driver calls: [strlen], [strchr], [strcmp], [strsep], [strstr], the
    kernel's [simple_strtol]/[simple_strtoul] (prefix detection for base 0 and
    16, accumulation modulo 2^64) and the [%d] conversion of [sscanf]. *)
From Stdlib Require Import String Ascii.
From S2P Require Import Prelude Bytes.

(** String literals of the source. *)
Definition byte_of_ascii (c : ascii) : Z := Z.of_N (N_of_ascii c).
Definition str (s : string) : list Z := map byte_of_ascii (list_ascii_of_string s).
Definition chr (s : string) : Z := default 0 (head (str s)).

(** The characters before the terminator, when there is one. *)
Fixpoint cstr (l : list Z) : outcome (list Z) :=
  match l with
  | [] => Fault OutOfBounds
  | b :: l' => if b =? 0 then Ret [] else leto s := cstr l' in Ret (b :: s)
  end.

Definition strlen (l : list Z) : outcome Z := leto s := cstr l in Ret (zlen s).

Fixpoint strchr (l : list Z) (c : Z) : outcome (option Z) :=
  match l with
  | [] => Fault OutOfBounds
  | b :: l' =>
      if b =? c then Ret (Some 0)
      else if b =? 0 then Ret None
      else leto r := strchr l' c in Ret (Z.succ <$> r)
  end.

(** [strcmp (a, b) == 0] *)
Fixpoint strcmp_eq (a b : list Z) : outcome bool :=
  match a, b with
  | x :: a', y :: b' =>
      if negb (x =? y) then Ret false
      else if x =? 0 then Ret true else strcmp_eq a' b'
  | _, _ => Fault OutOfBounds
  end.

(** [strncasecmp (a, b, n) == 0] *)
Definition to_lower (c : Z) : Z := if (65 <=? c) && (c <=? 90) then c + 32 else c.
Fixpoint strncasecmp_eq (a b : list Z) (n : nat) {struct n} : outcome bool :=
  match n with
  | O => Ret true
  | S n =>
      match a, b with
      | x :: a', y :: b' =>
          if negb (to_lower x =? to_lower y) then Ret false
          else if to_lower x =? 0 then Ret true else strncasecmp_eq a' b' n
      | _, _ => Fault OutOfBounds
      end
  end.

(** [strcasecmp (a, b) == 0] *)
Fixpoint strcasecmp_eq (a b : list Z) : outcome bool :=
  match a, b with
  | x :: a', y :: b' =>
      if negb (to_lower x =? to_lower y) then Ret false
      else if to_lower x =? 0 then Ret true else strcasecmp_eq a' b'
  | _, _ => Fault OutOfBounds
  end.

(** [memcmp (a, b, n) == 0] for a literal [b] of [n] bytes: the kernel's loop
    stops at the first difference. *)
Fixpoint memcmp_eq (a b : list Z) : outcome bool :=
  match b, a with
  | [], _ => Ret true
  | y :: b', x :: a' => if x =? y then memcmp_eq a' b' else Ret false
  | _ :: _, [] => Fault OutOfBounds
  end.

(** [strsep(&s, ",")]: the token, and the new value of [s] (NULL at the end).
    The separator is overwritten by a terminator, in place: the token pointer
    still ranges over the rest of the buffer. *)
Fixpoint strsep (l : list Z) (c : Z) : outcome (list Z * option (list Z)) :=
  match l with
  | [] => Fault OutOfBounds
  | b :: l' =>
      if b =? 0 then Ret (b :: l', None)
      else if b =? c then Ret (0 :: l', Some l')
      else leto r := strsep l' c in Ret (b :: fst r, snd r)
  end.

(** [strstr]: the suffix at the first occurrence. *)
Fixpoint strstr_content (s f : list Z) (tail : list Z) : option (list Z) :=
  if bool_decide (take (length f) s = f) then Some (s ++ tail) else
  match s with [] => None | _ :: s' => strstr_content s' f tail end.
Definition strstr (l f : list Z) : outcome (option (list Z)) :=
  leto s := cstr l in Ret (strstr_content s f (zdrop (zlen s) l)).

(** ** Numbers *)
Definition isdigit (c : Z) : bool := (48 <=? c) && (c <=? 57).
Definition tolower (c : Z) : Z := Z.lor c 32.
Definition isxdigit (c : Z) : bool :=
  isdigit c || ((97 <=? tolower c) && (tolower c <=? 102)).
Definition isspace (c : Z) : bool := ((9 <=? c) && (c <=? 13)) || (c =? 32) || (c =? 160).

Definition digit_val (c : Z) : option Z :=
  if isdigit c then Some (c - 48)
  else if (97 <=? tolower c) && (tolower c <=? 102) then Some (tolower c - 97 + 10)
  else None.

(** _parse_integer: digits below [base], accumulated modulo 2^64. *)
Fixpoint parse_integer (base acc : Z) (l : list Z) : outcome (Z * list Z) :=
  match l with
  | [] => Fault OutOfBounds
  | c :: l' =>
      match digit_val c with
      | Some v => if v <? base then parse_integer base ((acc * base + v) mod 2 ^ 64) l'
                  else Ret (acc, l)
      | None => Ret (acc, l)
      end
  end.

(** _parse_integer_fixup_radix *)
Definition fixup_radix (l : list Z) (base : Z) : outcome (Z * list Z) :=
  leto c0 := mem_get l 0 in
  leto b := (if base =? 0 then
               if c0 =? 48 then
                 leto c1 := mem_get l 1 in
                 if tolower c1 =? 120 then
                   leto c2 := mem_get l 2 in Ret (if isxdigit c2 then 16 else 8)
                 else Ret 8
               else Ret 10
             else Ret base) in
  if (b =? 16) && (c0 =? 48) then
    leto c1 := mem_get l 1 in
    Ret (b, if tolower c1 =? 120 then zdrop 2 l else l)
  else Ret (b, l).

Definition strtoull_end (l : list Z) (base : Z) : outcome (Z * list Z) :=
  leto r := fixup_radix l base in parse_integer (fst r) 0 (snd r).

Definition strtoll_end (l : list Z) (base : Z) : outcome (Z * list Z) :=
  leto c := mem_get l 0 in
  if c =? 45 then leto r := strtoull_end (zdrop 1 l) base in Ret (- fst r, snd r)
  else strtoull_end l base.

(** The value; every use in the driver converts it to at most 32 bits. *)
Definition simple_strtol (l : list Z) (base : Z) : outcome Z :=
  leto r := strtoll_end l base in Ret (fst r).
Definition simple_strtoul (l : list Z) (base : Z) : outcome Z :=
  leto r := strtoull_end l base in Ret (fst r).

Fixpoint skip_spaces (l : list Z) : outcome (list Z) :=
  match l with
  | [] => Fault OutOfBounds
  | c :: l' => if isspace c then skip_spaces l' else Ret l
  end.

(** One [%d]: [None] when the conversion fails and scanning stops. *)
Definition scan_d (l : list Z) : outcome (option (Z * list Z)) :=
  leto c := mem_get l 0 in
  if c =? 0 then Ret None else
  leto l1 := skip_spaces l in
  leto d0 := mem_get l1 0 in
  leto d := (if d0 =? 45 then mem_get l1 1 else Ret d0) in
  if isdigit d then leto r := strtoll_end l1 10 in Ret (Some r) else Ret None.

(** [sscanf] with a format of [%d] separated by the literal bytes [seps]: the
    values converted. *)
Fixpoint sscanf_d (l : list Z) (seps : list Z) : outcome (list Z) :=
  leto r := scan_d l in
  match r with
  | None => Ret []
  | Some (v, l') =>
      match seps with
      | [] => Ret [s32 v]
      | c :: seps' =>
          leto c' := mem_get l' 0 in
          if c' =? c then leto vs := sscanf_d (zdrop 1 l') seps' in Ret (s32 v :: vs)
          else Ret [s32 v]
      end
  end.

(** ** Lemmas *)

(** A terminated string: content without NUL, a NUL, and anything after. *)
Definition no_nul (s : list Z) : Prop := Forall (fun b => b <> 0) s.
Definition nul_terminated (l : list Z) : Prop := 0 ∈ l.

#[export] Instance no_nul_dec s : Decision (no_nul s).
Proof. unfold no_nul. apply _. Defined.

Lemma cstr_app s l : no_nul s -> cstr (s ++ 0 :: l) = Ret s.
Proof.
  induction 1 as [|b s Hb _ IH]; simpl; [done|].
  destruct (Z.eqb_spec b 0); [done|]. by rewrite IH.
Qed.

Lemma cstr_inv l s : cstr l = Ret s -> exists l', l = s ++ 0 :: l' /\ no_nul s.
Proof.
  revert s. induction l as [|b l IH]; simpl; [done|]. intros s.
  destruct (Z.eqb_spec b 0) as [->|Hb].
  - intros [= <-]. exists l. split; [done|constructor].
  - intros H. run_inv. destruct (IH _ Hrun) as (l' & -> & ?). exists l'. split; [done|by constructor].
Qed.

Lemma cstr_total l : nul_terminated l -> exists s, cstr l = Ret s.
Proof.
  unfold nul_terminated. induction l as [|b l IH]; simpl; [by intros ?%not_elem_of_nil|].
  intros H. destruct (Z.eqb_spec b 0); [by eexists|].
  apply elem_of_cons in H as [?|H]; [congruence|].
  destruct (IH H) as [s ->]. by eexists.
Qed.

Lemma strlen_app s l : no_nul s -> strlen (s ++ 0 :: l) = Ret (zlen s).
Proof. intros. unfold strlen. by rewrite cstr_app. Qed.

Lemma strchr_found s c l :
  Forall (fun b => b <> 0 /\ b <> c) s -> strchr (s ++ c :: l) c = Ret (Some (zlen s)).
Proof.
  induction 1 as [|b s [Hb Hc] _ IH]; simpl.
  - by rewrite Z.eqb_refl.
  - destruct (Z.eqb_spec b c); [done|]. destruct (Z.eqb_spec b 0); [done|].
    rewrite IH, zlen_cons. simpl. do 2 f_equal. lia.
Qed.

Lemma strchr_none s c l :
  c <> 0 -> Forall (fun b => b <> 0 /\ b <> c) s -> strchr (s ++ 0 :: l) c = Ret None.
Proof.
  intros Hc. induction 1 as [|b s [? ?] _ IH]; simpl.
  - destruct (Z.eqb_spec 0 c); [congruence|done].
  - destruct (Z.eqb_spec b c); [done|]. destruct (Z.eqb_spec b 0); [done|]. by rewrite IH.
Qed.

Lemma strchr_inv l c i :
  strchr l c = Ret (Some i) ->
  exists s l', l = s ++ c :: l' /\ zlen s = i /\ Forall (fun b => b <> 0 /\ b <> c) s.
Proof.
  revert i. induction l as [|b l IH]; simpl; [done|]. intros i.
  destruct (Z.eqb_spec b c) as [->|Hc].
  - intros [= <-]. exists [], l. repeat split; constructor.
  - destruct (Z.eqb_spec b 0); [done|]. intros H. run_inv.
    destruct a as [j|]; [|done]. simpl in *.
    destruct (IH _ Hrun) as (s & l' & -> & Hl & ?). exists (b :: s), l'.
    rewrite zlen_cons. split; [done|]. split; [|by constructor].
    match goal with E : Some _ = Some _ |- _ => injection E end. lia.
Qed.

Lemma strsep_token s c l :
  Forall (fun b => b <> 0 /\ b <> c) s -> c <> 0 ->
  strsep (s ++ c :: l) c = Ret (s ++ 0 :: l, Some l).
Proof.
  intros Hs Hc. induction Hs as [|b s [? ?] _ IH]; simpl.
  - destruct (Z.eqb_spec c 0); [done|]. by rewrite Z.eqb_refl.
  - destruct (Z.eqb_spec b 0); [done|]. destruct (Z.eqb_spec b c); [done|]. by rewrite IH.
Qed.

Lemma strsep_last s c l :
  Forall (fun b => b <> 0 /\ b <> c) s -> strsep (s ++ 0 :: l) c = Ret (s ++ 0 :: l, None).
Proof.
  induction 1 as [|b s [? ?] _ IH]; simpl; [done|].
  destruct (Z.eqb_spec b 0); [done|]. destruct (Z.eqb_spec b c); [done|]. by rewrite IH.
Qed.

Lemma strcmp_eq_refl s l l' : no_nul s -> strcmp_eq (s ++ 0 :: l) (s ++ 0 :: l') = Ret true.
Proof.
  induction 1 as [|b s Hb _ IH]; simpl; [done|].
  rewrite Z.eqb_refl. simpl. by destruct (Z.eqb_spec b 0).
Qed.

(** Two terminated strings are equal exactly when their contents are. *)
Lemma strcmp_eq_spec s t l l' :
  no_nul s -> no_nul t ->
  strcmp_eq (s ++ 0 :: l) (t ++ 0 :: l') = Ret (bool_decide (s = t)).
Proof.
  intros Hs. revert t. induction Hs as [|b s Hb _ IH]; intros t Ht; destruct t as [|b' t]; simpl.
  - done.
  - inversion Ht; subst. destruct (Z.eqb_spec 0 b'); [congruence|done].
  - destruct (Z.eqb_spec b 0); [congruence|done].
  - inversion Ht; subst. destruct (Z.eqb_spec b b') as [->|]; simpl.
    + destruct (Z.eqb_spec b' 0); [done|]. rewrite IH by done.
      f_equal. apply bool_decide_ext. naive_solver.
    + rewrite bool_decide_eq_false_2; naive_solver.
Qed.

(** ** Decimal numerals *)
Definition dec_string (s : list Z) : Prop := Forall (fun c => isdigit c = true) s /\ s <> [].
Definition dec_val (s : list Z) : Z := fold_left (fun a c => a * 10 + (c - 48)) s 0.

Lemma isdigit_range c : isdigit c = true <-> 48 <= c <= 57.
Proof. unfold isdigit. lia. Qed.

Lemma digit_val_digit c : isdigit c = true -> digit_val c = Some (c - 48).
Proof. unfold digit_val. by intros ->. Qed.

Definition non_digit (base c : Z) : Prop :=
  match digit_val c with Some v => base <= v | None => True end.

Lemma parse_integer_app ds c l acc :
  Forall (fun c => isdigit c = true) ds -> non_digit 10 c ->
  parse_integer 10 (acc mod 2 ^ 64) (ds ++ c :: l)
  = Ret (fold_left (fun a c => a * 10 + (c - 48)) ds acc mod 2 ^ 64, c :: l).
Proof.
  intros Hd Hc. revert acc. induction Hd as [|d ds Hd _ IH]; intros acc; cbn [app parse_integer fold_left].
  - unfold non_digit in Hc. destruct (digit_val c) as [v|]; [|done].
    destruct (Z.ltb_spec v 10); [lia|done].
  - rewrite digit_val_digit by done. apply isdigit_range in Hd.
    destruct (Z.ltb_spec (d - 48) 10); [|lia].
    rewrite <- (IH (acc * 10 + (d - 48))). f_equal.
    by rewrite Z.add_mod, Z.mul_mod_idemp_l, <- Z.add_mod by lia.
Qed.

Lemma isdigit_cons_inv s : dec_string s -> exists c s', s = c :: s' /\ 48 <= c <= 57.
Proof.
  intros [H ?]. destruct H as [|c s' Hc]; [done|]. exists c, s'. by apply isdigit_range in Hc.
Qed.

Lemma mem_get_head c l : mem_get (c :: l) 0 = Ret c.
Proof. done. Qed.

Lemma strtoll_dec s c l :
  dec_string s -> non_digit 10 c -> strtoll_end (s ++ c :: l) 10 = Ret (dec_val s mod 2 ^ 64, c :: l).
Proof.
  intros Hs Hc. destruct (isdigit_cons_inv _ Hs) as (d & s' & E & Hd).
  unfold strtoll_end, strtoull_end, fixup_radix.
  rewrite E. cbn [app]. rewrite !mem_get_head. cbn [obind].
  destruct (Z.eqb_spec d 45); [lia|]. 
  change (10 =? 0) with false. cbn [obind]. change (10 =? 16) with false. cbn [obind andb fst snd].
  change (d :: s' ++ c :: l) with ((d :: s') ++ c :: l). rewrite <- E.
  pose proof (parse_integer_app s c l 0 (proj1 Hs) Hc) as P.
  rewrite Z.mod_0_l in P by lia. by rewrite P.
Qed.

Lemma simple_strtol_dec s c l :
  dec_string s -> non_digit 10 c -> simple_strtol (s ++ c :: l) 10 = Ret (dec_val s mod 2 ^ 64).
Proof. intros. unfold simple_strtol. by rewrite strtoll_dec. Qed.

(** Base 0 reads a numeral that does not start with 0 as decimal. *)
Lemma simple_strtol_dec0 s c l :
  dec_string s -> head s <> Some 48 -> non_digit 10 c ->
  simple_strtol (s ++ c :: l) 0 = Ret (dec_val s mod 2 ^ 64).
Proof.
  intros Hs Hz Hc. destruct (isdigit_cons_inv _ Hs) as (d & s' & E & Hd).
  unfold simple_strtol, strtoll_end, strtoull_end, fixup_radix.
  rewrite E. cbn [app]. rewrite !mem_get_head. cbn [obind].
  destruct (Z.eqb_spec d 45); [lia|]. change (0 =? 0) with true. cbn [obind fst snd].
  destruct (Z.eqb_spec d 48) as [->|]; [by rewrite E in Hz|].
  cbn [obind]. change (10 =? 16) with false. cbn [obind andb fst snd].
  change (d :: s' ++ c :: l) with ((d :: s') ++ c :: l). rewrite <- E.
  pose proof (parse_integer_app s c l 0 (proj1 Hs) Hc) as P.
  rewrite Z.mod_0_l in P by lia. by rewrite P.
Qed.

Lemma dec_string_no_nul s : dec_string s -> no_nul s.
Proof.
  intros [H _]. eapply Forall_impl; [exact H|]. intros c Hc%isdigit_range. simpl. lia.
Qed.

Lemma non_digit_comma : non_digit 10 44.
Proof. done. Qed.
Lemma non_digit_nul : non_digit 10 0.
Proof. done. Qed.
#[export] Hint Resolve non_digit_comma non_digit_nul dec_string_no_nul : prog.

Lemma to_lower_nul c : to_lower c = 0 <-> c = 0.
Proof. unfold to_lower. destruct (Z.leb_spec 65 c), (Z.leb_spec c 90); simpl; lia. Qed.

(** A case-insensitive comparison with a prefix. *)
Lemma strncasecmp_eq_spec p s l l' :
  no_nul s -> (length p <= length s)%nat ->
  strncasecmp_eq (s ++ l) (p ++ l') (length p)
  = Ret (bool_decide (map to_lower (take (length p) s) = map to_lower p)).
Proof.
  intros Hs. revert s Hs. induction p as [|b p IH]; intros s Hs Hl; [by rewrite bool_decide_eq_true_2|].
  destruct Hs as [|a s Ha Hs]; cbn [length] in Hl; [lia|].
  cbn [app length strncasecmp_eq take map].
  destruct (Z.eqb_spec (to_lower a) (to_lower b)) as [E|E]; cbn [negb].
  - destruct (Z.eqb_spec (to_lower a) 0) as [E0|]; [by destruct Ha; apply to_lower_nul|].
    rewrite IH by (done || lia). f_equal. apply bool_decide_ext. rewrite E.
    split; [by intros ->|by intros [= ->]].
  - rewrite bool_decide_eq_false_2; [done|]. by intros [= ? _].
Qed.
