(* ===== verification/Proto.v ===== *)
(** * The host/firmware protocol (hgic.h, hgic_def.h)

    Every frame between the driver and the chip starts with the packed 8-byte
    [struct hgic_hdr]; control frames extend it to the 12-byte
    [struct hgic_ctrl_hdr].  Fields are read and written here at the byte
    offsets of those structures on a little-endian host. *)
From S2P Require Import Prelude Bytes.

Definition HGIC_CMD_START : Z := 0.
Definition HGIC_WDEV_ID_AP : Z := 2.
Definition HGIC_WDEV_ID_STA : Z := 1.
Definition HGIC_HDR_TX_MAGIC : Z := 0x1A2B.
Definition HGIC_HDR_RX_MAGIC : Z := 0x2B1A.
Definition HGIC_TX_COOKIE_MASK : Z := 0x7FFF.
Definition HGIC_CMD_TIMEOUT : Z := 500.

Definition EINVAL : Z := 22.
Definition ENOMEM : Z := 12.
Definition ENOTSUPP : Z := 524.
Definition EIO : Z := 5.
Definition EFAULT : Z := 14.
Definition ETIMEDOUT : Z := 110.

(** ** Enumerations *)
Inductive hgic_bus_type :=
  | HGIC_BUS_SDIO | HGIC_BUS_USB | HGIC_BUS_HWSIM | HGIC_BUS_WLOE | HGIC_BUS_SDSPI.
#[export] Instance hgic_bus_type_eq_dec : EqDecision hgic_bus_type.
Proof. solve_decision. Defined.

Inductive hgic_bus_flag :=
  | HGIC_BUS_FLAGS_DISABLE_REINIT | HGIC_BUS_FLAGS_SLEEP | HGIC_BUS_FLAGS_INBOOT
  | HGIC_BUS_FLAGS_NOPOLL | HGIC_BUS_FLAGS_SOFTFC | HGIC_BUS_FLAGS_ERROR.
#[export] Instance hgic_bus_flag_eq_dec : EqDecision hgic_bus_flag.
Proof. solve_decision. Defined.

Inductive hgic_hdr_type :=
  | HGIC_HDR_TYPE_ACK | HGIC_HDR_TYPE_FRM | HGIC_HDR_TYPE_CMD | HGIC_HDR_TYPE_EVENT
  | HGIC_HDR_TYPE_FIRMWARE | HGIC_HDR_TYPE_NLMSG | HGIC_HDR_TYPE_BOOTDL | HGIC_HDR_TYPE_TEST
  | HGIC_HDR_TYPE_FRM2 | HGIC_HDR_TYPE_TEST2 | HGIC_HDR_TYPE_SOFTFC | HGIC_HDR_TYPE_OTA
  | HGIC_HDR_TYPE_CMD2 | HGIC_HDR_TYPE_EVENT2 | HGIC_HDR_TYPE_BOOTDL_DATA | HGIC_HDR_TYPE_IFBR
  | HGIC_HDR_TYPE_BEACON | HGIC_HDR_TYPE_AGGFRM | HGIC_HDR_TYPE_BLUETOOTH.

Definition type_code (t : hgic_hdr_type) : Z :=
  match t with
  | HGIC_HDR_TYPE_ACK => 1 | HGIC_HDR_TYPE_FRM => 2 | HGIC_HDR_TYPE_CMD => 3
  | HGIC_HDR_TYPE_EVENT => 4 | HGIC_HDR_TYPE_FIRMWARE => 5 | HGIC_HDR_TYPE_NLMSG => 6
  | HGIC_HDR_TYPE_BOOTDL => 7 | HGIC_HDR_TYPE_TEST => 8 | HGIC_HDR_TYPE_FRM2 => 9
  | HGIC_HDR_TYPE_TEST2 => 10 | HGIC_HDR_TYPE_SOFTFC => 11 | HGIC_HDR_TYPE_OTA => 12
  | HGIC_HDR_TYPE_CMD2 => 13 | HGIC_HDR_TYPE_EVENT2 => 14 | HGIC_HDR_TYPE_BOOTDL_DATA => 15
  | HGIC_HDR_TYPE_IFBR => 16 | HGIC_HDR_TYPE_BEACON => 17 | HGIC_HDR_TYPE_AGGFRM => 18
  | HGIC_HDR_TYPE_BLUETOOTH => 19
  end.
Coercion type_code : hgic_hdr_type >-> Z.

Inductive hgic_cmd :=
   | HGIC_CMD_DEV_OPEN | HGIC_CMD_DEV_CLOSE | HGIC_CMD_SET_MAC | HGIC_CMD_SET_SSID
   | HGIC_CMD_SET_BSSID | HGIC_CMD_SET_COUNTRY | HGIC_CMD_SET_CHANNEL
   | HGIC_CMD_SET_CENTER_FREQ | HGIC_CMD_SET_RTS_THRESHOLD | HGIC_CMD_SET_FRG_THRESHOLD
   | HGIC_CMD_SET_KEY_MGMT | HGIC_CMD_SET_WPA_PSK | HGIC_CMD_SET_KEY | HGIC_CMD_SCAN
   | HGIC_CMD_GET_SCAN_LIST | HGIC_CMD_SET_BSSID_FILTER | HGIC_CMD_DISCONNECT
   | HGIC_CMD_GET_BSSID | HGIC_CMD_SET_WBNAT | HGIC_CMD_GET_STATUS
   | HGIC_CMD_SET_LISTEN_INTERVAL | HGIC_CMD_SET_TX_POWER | HGIC_CMD_GET_TX_POWER
   | HGIC_CMD_SET_TX_LCOUNT | HGIC_CMD_SET_TX_SCOUNT | HGIC_CMD_ADD_STA | HGIC_CMD_REMOVE_STA
   | HGIC_CMD_SET_TX_BW | HGIC_CMD_SET_TX_MCS | HGIC_CMD_SET_FREQ_RANGE | HGIC_CMD_ACS_ENABLE
   | HGIC_CMD_SET_PRIMARY_CHAN | HGIC_CMD_SET_BG_RSSI | HGIC_CMD_SET_BSS_BW
   | HGIC_CMD_TESTMODE_CMD | HGIC_CMD_SET_AID | HGIC_CMD_GET_FW_STATE | HGIC_CMD_SET_TXQ_PARAM
   | HGIC_CMD_SET_CHAN_LIST | HGIC_CMD_GET_CONN_STATE | HGIC_CMD_SET_WORK_MODE
   | HGIC_CMD_SET_PAIRED_STATIONS | HGIC_CMD_GET_FW_INFO | HGIC_CMD_PAIRING
   | HGIC_CMD_GET_TEMPERATURE | HGIC_CMD_ENTER_SLEEP | HGIC_CMD_OTA | HGIC_CMD_GET_SSID
   | HGIC_CMD_GET_WPA_PSK | HGIC_CMD_GET_SIGNAL | HGIC_CMD_GET_TX_BITRATE
   | HGIC_CMD_SET_BEACON_INT | HGIC_CMD_GET_STA_LIST | HGIC_CMD_SAVE_CFG | HGIC_CMD_JOIN_GROUP
   | HGIC_CMD_SET_ETHER_TYPE | HGIC_CMD_GET_STA_COUNT | HGIC_CMD_SET_HEARTBEAT_INT
   | HGIC_CMD_SET_MCAST_KEY | HGIC_CMD_SET_AGG_CNT | HGIC_CMD_GET_AGG_CNT | HGIC_CMD_GET_BSS_BW
   | HGIC_CMD_GET_FREQ_RANGE | HGIC_CMD_GET_CHAN_LIST | HGIC_CMD_RADIO_ONOFF
   | HGIC_CMD_SET_PS_HEARTBEAT | HGIC_CMD_SET_WAKEUP_STA | HGIC_CMD_SET_PS_HEARTBEAT_RESP
   | HGIC_CMD_SET_PS_WAKEUP_DATA | HGIC_CMD_SET_PS_CONNECT | HGIC_CMD_SET_BSS_MAX_IDLE
   | HGIC_CMD_SET_WKIO_MODE | HGIC_CMD_SET_DTIM_PERIOD | HGIC_CMD_SET_PS_MODE
   | HGIC_CMD_LOAD_DEF | HGIC_CMD_DISASSOC_STA | HGIC_CMD_SET_APLOST_TIME
   | HGIC_CMD_GET_WAKEUP_REASON | HGIC_CMD_UNPAIR | HGIC_CMD_SET_AUTO_CHAN_SWITCH
   | HGIC_CMD_SET_REASSOC_WKHOST | HGIC_CMD_SET_WAKEUP_IO | HGIC_CMD_DBGINFO_OUTPUT
   | HGIC_CMD_SET_SYSDBG | HGIC_CMD_SET_AUTO_SLEEP_TIME | HGIC_CMD_GET_KEY_MGMT
   | HGIC_CMD_SET_PAIR_AUTOSTOP | HGIC_CMD_SET_SUPER_PWR | HGIC_CMD_SET_REPEATER_SSID
   | HGIC_CMD_SET_REPEATER_PSK | HGIC_CMD_CFG_AUTO_SAVE | HGIC_CMD_SEND_CUST_MGMT
   | HGIC_CMD_GET_BATTERY_LEVEL | HGIC_CMD_SET_DCDC13 | HGIC_CMD_SET_ACKTMO
   | HGIC_CMD_GET_MODULETYPE | HGIC_CMD_PA_PWRCTRL_DIS | HGIC_CMD_SET_DHCPC
   | HGIC_CMD_GET_DHCPC_RESULT | HGIC_CMD_SET_WKUPDATA_MASK | HGIC_CMD_GET_WKDATA_BUFF
   | HGIC_CMD_GET_DISASSOC_REASON | HGIC_CMD_SET_WKUPDATA_SAVEEN
   | HGIC_CMD_SET_CUST_DRIVER_DATA | HGIC_CMD_SET_MCAST_TXPARAM | HGIC_CMD_SET_STA_FREQINFO
   | HGIC_CMD_SET_RESET_STA | HGIC_CMD_SET_UART_FIXLEN | HGIC_CMD_GET_UART_FIXLEN
   | HGIC_CMD_SET_ANT_AUTO | HGIC_CMD_SET_ANT_SEL | HGIC_CMD_GET_ANT_SEL
   | HGIC_CMD_SET_WKUP_HOST_REASON | HGIC_CMD_SET_MAC_FILTER_EN | HGIC_CMD_SET_ATCMD
   | HGIC_CMD_SET_ROAMING | HGIC_CMD_SET_AP_HIDE | HGIC_CMD_SET_DUAL_ANT
   | HGIC_CMD_SET_MAX_TCNT | HGIC_CMD_SET_ASSERT_HOLDUP | HGIC_CMD_SET_AP_PSMODE_EN
   | HGIC_CMD_SET_DUPFILTER_EN | HGIC_CMD_SET_DIS_1V1_M2U | HGIC_CMD_SET_DIS_PSCONNECT
   | HGIC_CMD_SET_RTC | HGIC_CMD_GET_RTC | HGIC_CMD_SET_KICK_ASSOC | HGIC_CMD_START_ASSOC
   | HGIC_CMD_SET_AUTOSLEEP | HGIC_CMD_SEND_BLENC_DATA | HGIC_CMD_SET_BLENC_EN | HGIC_CMD_RESET
   | HGIC_CMD_SET_HWSCAN | HGIC_CMD_GET_TXQ_PARAM | HGIC_CMD_SET_PROMISC
   | HGIC_CMD_SET_USER_EDCA | HGIC_CMD_SET_FIX_TXRATE | HGIC_CMD_SET_NAV_MAX
   | HGIC_CMD_CLEAR_NAV | HGIC_CMD_SET_CCA_PARAM | HGIC_CMD_SET_TX_MODGAIN | HGIC_CMD_GET_NAV
   | HGIC_CMD_SET_BEACON_START | HGIC_CMD_SET_BLE_OPEN | HGIC_CMD_GET_MODE
   | HGIC_CMD_GET_BGRSSI | HGIC_CMD_SEND_BLENC_ADVDATA | HGIC_CMD_SEND_BLENC_SCANRESP
   | HGIC_CMD_SEND_BLENC_DEVADDR | HGIC_CMD_SEND_BLENC_ADVINTERVAL
   | HGIC_CMD_SEND_BLENC_STARTADV | HGIC_CMD_SET_RTS_DURATION | HGIC_CMD_STANDBY_CFG
   | HGIC_CMD_SET_CONNECT_PAIRONLY | HGIC_CMD_SET_DIFFCUST_CONN | HGIC_CMD_GET_CENTER_FREQ
   | HGIC_CMD_SET_WAIT_PSMODE | HGIC_CMD_SET_AP_CHAN_SWITCH | HGIC_CMD_SET_CCA_FOR_CE
   | HGIC_CMD_SET_DISABLE_PRINT | HGIC_CMD_SET_APEP_PADDING | HGIC_CMD_GET_ACS_RESULT
   | HGIC_CMD_GET_WIFI_STATUS_CODE | HGIC_CMD_GET_WIFI_REASON_CODE | HGIC_CMD_SET_WATCHDOG
   | HGIC_CMD_SET_RETRY_FALLBACK_CNT | HGIC_CMD_SET_FALLBACK_MCS | HGIC_CMD_GET_XOSC_VALUE
   | HGIC_CMD_SET_XOSC_VALUE | HGIC_CMD_GET_FREQ_OFFSET | HGIC_CMD_SET_CALI_PERIOD
   | HGIC_CMD_SET_BLENC_ADVFILTER | HGIC_CMD_SET_MAX_TX_DELAY | HGIC_CMD_GET_STA_INFO
   | HGIC_CMD_SEND_MGMTFRAME | HGIC_CMD_SET_PS_HBDATA_MASK | HGIC_CMD_SET_SLEEP_ROAMING
   | HGIC_CMD_SET_EDCA_LIMIT_MAX | HGIC_CMD_SET_EDCA_SLOT_TIME | HGIC_CMD_SET_EDCA_LIMIT_MIN
   | HGIC_CMD_SET_SIGNAL_THRESHOLD | HGIC_CMD_SET_ROAMING_BSSID | HGIC_CMD_GET_LINK_QUALITY
   | HGIC_CMD_SET_NAV_LIMIT_MAX | HGIC_CMD_SET_TXPOWER_LEVEL | HGIC_CMD_SET_DISABLE_BSS
   | HGIC_CMD_SET_RESP_IND | HGIC_CMD_SET_SHORT_GI | HGIC_CMD_SET_NDP_PROBE
   | HGIC_CMD_SET_CTRL_RESP_1M | HGIC_CMD_SET_AMPDU_EN | HGIC_CMD_SET_DUP_1M
   | HGIC_CMD_SET_RMESH_DEVMAX | HGIC_CMD_SET_RMESH_AID | HGIC_CMD_SET_RMESH_DEVICE
   | HGIC_CMD_SET_RMESH_NOTFW | HGIC_CMD_SET_RMESH_RSSIMIN | HGIC_CMD_GET_RMESH_DEVICE
   | HGIC_CMD_GET_RMESH_MESHID.

Definition cmd_code (c : hgic_cmd) : Z :=
  match c with
  | HGIC_CMD_DEV_OPEN => 1
  | HGIC_CMD_DEV_CLOSE => 2
  | HGIC_CMD_SET_MAC => 3
  | HGIC_CMD_SET_SSID => 4
  | HGIC_CMD_SET_BSSID => 5
  | HGIC_CMD_SET_COUNTRY => 6
  | HGIC_CMD_SET_CHANNEL => 7
  | HGIC_CMD_SET_CENTER_FREQ => 8
  | HGIC_CMD_SET_RTS_THRESHOLD => 9
  | HGIC_CMD_SET_FRG_THRESHOLD => 10
  | HGIC_CMD_SET_KEY_MGMT => 11
  | HGIC_CMD_SET_WPA_PSK => 12
  | HGIC_CMD_SET_KEY => 13
  | HGIC_CMD_SCAN => 14
  | HGIC_CMD_GET_SCAN_LIST => 15
  | HGIC_CMD_SET_BSSID_FILTER => 16
  | HGIC_CMD_DISCONNECT => 17
  | HGIC_CMD_GET_BSSID => 18
  | HGIC_CMD_SET_WBNAT => 19
  | HGIC_CMD_GET_STATUS => 20
  | HGIC_CMD_SET_LISTEN_INTERVAL => 21
  | HGIC_CMD_SET_TX_POWER => 22
  | HGIC_CMD_GET_TX_POWER => 23
  | HGIC_CMD_SET_TX_LCOUNT => 24
  | HGIC_CMD_SET_TX_SCOUNT => 25
  | HGIC_CMD_ADD_STA => 26
  | HGIC_CMD_REMOVE_STA => 27
  | HGIC_CMD_SET_TX_BW => 28
  | HGIC_CMD_SET_TX_MCS => 29
  | HGIC_CMD_SET_FREQ_RANGE => 30
  | HGIC_CMD_ACS_ENABLE => 31
  | HGIC_CMD_SET_PRIMARY_CHAN => 32
  | HGIC_CMD_SET_BG_RSSI => 33
  | HGIC_CMD_SET_BSS_BW => 34
  | HGIC_CMD_TESTMODE_CMD => 35
  | HGIC_CMD_SET_AID => 36
  | HGIC_CMD_GET_FW_STATE => 37
  | HGIC_CMD_SET_TXQ_PARAM => 38
  | HGIC_CMD_SET_CHAN_LIST => 39
  | HGIC_CMD_GET_CONN_STATE => 40
  | HGIC_CMD_SET_WORK_MODE => 41
  | HGIC_CMD_SET_PAIRED_STATIONS => 42
  | HGIC_CMD_GET_FW_INFO => 43
  | HGIC_CMD_PAIRING => 44
  | HGIC_CMD_GET_TEMPERATURE => 45
  | HGIC_CMD_ENTER_SLEEP => 46
  | HGIC_CMD_OTA => 47
  | HGIC_CMD_GET_SSID => 48
  | HGIC_CMD_GET_WPA_PSK => 49
  | HGIC_CMD_GET_SIGNAL => 50
  | HGIC_CMD_GET_TX_BITRATE => 51
  | HGIC_CMD_SET_BEACON_INT => 52
  | HGIC_CMD_GET_STA_LIST => 53
  | HGIC_CMD_SAVE_CFG => 54
  | HGIC_CMD_JOIN_GROUP => 55
  | HGIC_CMD_SET_ETHER_TYPE => 56
  | HGIC_CMD_GET_STA_COUNT => 57
  | HGIC_CMD_SET_HEARTBEAT_INT => 58
  | HGIC_CMD_SET_MCAST_KEY => 59
  | HGIC_CMD_SET_AGG_CNT => 60
  | HGIC_CMD_GET_AGG_CNT => 61
  | HGIC_CMD_GET_BSS_BW => 62
  | HGIC_CMD_GET_FREQ_RANGE => 63
  | HGIC_CMD_GET_CHAN_LIST => 64
  | HGIC_CMD_RADIO_ONOFF => 65
  | HGIC_CMD_SET_PS_HEARTBEAT => 66
  | HGIC_CMD_SET_WAKEUP_STA => 67
  | HGIC_CMD_SET_PS_HEARTBEAT_RESP => 68
  | HGIC_CMD_SET_PS_WAKEUP_DATA => 69
  | HGIC_CMD_SET_PS_CONNECT => 70
  | HGIC_CMD_SET_BSS_MAX_IDLE => 71
  | HGIC_CMD_SET_WKIO_MODE => 72
  | HGIC_CMD_SET_DTIM_PERIOD => 73
  | HGIC_CMD_SET_PS_MODE => 74
  | HGIC_CMD_LOAD_DEF => 75
  | HGIC_CMD_DISASSOC_STA => 76
  | HGIC_CMD_SET_APLOST_TIME => 77
  | HGIC_CMD_GET_WAKEUP_REASON => 78
  | HGIC_CMD_UNPAIR => 79
  | HGIC_CMD_SET_AUTO_CHAN_SWITCH => 80
  | HGIC_CMD_SET_REASSOC_WKHOST => 81
  | HGIC_CMD_SET_WAKEUP_IO => 82
  | HGIC_CMD_DBGINFO_OUTPUT => 83
  | HGIC_CMD_SET_SYSDBG => 84
  | HGIC_CMD_SET_AUTO_SLEEP_TIME => 85
  | HGIC_CMD_GET_KEY_MGMT => 86
  | HGIC_CMD_SET_PAIR_AUTOSTOP => 87
  | HGIC_CMD_SET_SUPER_PWR => 88
  | HGIC_CMD_SET_REPEATER_SSID => 89
  | HGIC_CMD_SET_REPEATER_PSK => 90
  | HGIC_CMD_CFG_AUTO_SAVE => 91
  | HGIC_CMD_SEND_CUST_MGMT => 92
  | HGIC_CMD_GET_BATTERY_LEVEL => 93
  | HGIC_CMD_SET_DCDC13 => 94
  | HGIC_CMD_SET_ACKTMO => 95
  | HGIC_CMD_GET_MODULETYPE => 96
  | HGIC_CMD_PA_PWRCTRL_DIS => 97
  | HGIC_CMD_SET_DHCPC => 98
  | HGIC_CMD_GET_DHCPC_RESULT => 99
  | HGIC_CMD_SET_WKUPDATA_MASK => 100
  | HGIC_CMD_GET_WKDATA_BUFF => 101
  | HGIC_CMD_GET_DISASSOC_REASON => 102
  | HGIC_CMD_SET_WKUPDATA_SAVEEN => 103
  | HGIC_CMD_SET_CUST_DRIVER_DATA => 104
  | HGIC_CMD_SET_MCAST_TXPARAM => 105
  | HGIC_CMD_SET_STA_FREQINFO => 106
  | HGIC_CMD_SET_RESET_STA => 107
  | HGIC_CMD_SET_UART_FIXLEN => 108
  | HGIC_CMD_GET_UART_FIXLEN => 109
  | HGIC_CMD_SET_ANT_AUTO => 110
  | HGIC_CMD_SET_ANT_SEL => 111
  | HGIC_CMD_GET_ANT_SEL => 112
  | HGIC_CMD_SET_WKUP_HOST_REASON => 113
  | HGIC_CMD_SET_MAC_FILTER_EN => 114
  | HGIC_CMD_SET_ATCMD => 115
  | HGIC_CMD_SET_ROAMING => 116
  | HGIC_CMD_SET_AP_HIDE => 117
  | HGIC_CMD_SET_DUAL_ANT => 118
  | HGIC_CMD_SET_MAX_TCNT => 119
  | HGIC_CMD_SET_ASSERT_HOLDUP => 120
  | HGIC_CMD_SET_AP_PSMODE_EN => 121
  | HGIC_CMD_SET_DUPFILTER_EN => 122
  | HGIC_CMD_SET_DIS_1V1_M2U => 123
  | HGIC_CMD_SET_DIS_PSCONNECT => 124
  | HGIC_CMD_SET_RTC => 125
  | HGIC_CMD_GET_RTC => 126
  | HGIC_CMD_SET_KICK_ASSOC => 127
  | HGIC_CMD_START_ASSOC => 128
  | HGIC_CMD_SET_AUTOSLEEP => 129
  | HGIC_CMD_SEND_BLENC_DATA => 130
  | HGIC_CMD_SET_BLENC_EN => 131
  | HGIC_CMD_RESET => 132
  | HGIC_CMD_SET_HWSCAN => 133
  | HGIC_CMD_GET_TXQ_PARAM => 134
  | HGIC_CMD_SET_PROMISC => 135
  | HGIC_CMD_SET_USER_EDCA => 136
  | HGIC_CMD_SET_FIX_TXRATE => 137
  | HGIC_CMD_SET_NAV_MAX => 138
  | HGIC_CMD_CLEAR_NAV => 139
  | HGIC_CMD_SET_CCA_PARAM => 140
  | HGIC_CMD_SET_TX_MODGAIN => 141
  | HGIC_CMD_GET_NAV => 142
  | HGIC_CMD_SET_BEACON_START => 143
  | HGIC_CMD_SET_BLE_OPEN => 144
  | HGIC_CMD_GET_MODE => 145
  | HGIC_CMD_GET_BGRSSI => 146
  | HGIC_CMD_SEND_BLENC_ADVDATA => 147
  | HGIC_CMD_SEND_BLENC_SCANRESP => 148
  | HGIC_CMD_SEND_BLENC_DEVADDR => 149
  | HGIC_CMD_SEND_BLENC_ADVINTERVAL => 150
  | HGIC_CMD_SEND_BLENC_STARTADV => 151
  | HGIC_CMD_SET_RTS_DURATION => 152
  | HGIC_CMD_STANDBY_CFG => 153
  | HGIC_CMD_SET_CONNECT_PAIRONLY => 154
  | HGIC_CMD_SET_DIFFCUST_CONN => 155
  | HGIC_CMD_GET_CENTER_FREQ => 156
  | HGIC_CMD_SET_WAIT_PSMODE => 157
  | HGIC_CMD_SET_AP_CHAN_SWITCH => 158
  | HGIC_CMD_SET_CCA_FOR_CE => 159
  | HGIC_CMD_SET_DISABLE_PRINT => 160
  | HGIC_CMD_SET_APEP_PADDING => 161
  | HGIC_CMD_GET_ACS_RESULT => 162
  | HGIC_CMD_GET_WIFI_STATUS_CODE => 163
  | HGIC_CMD_GET_WIFI_REASON_CODE => 164
  | HGIC_CMD_SET_WATCHDOG => 165
  | HGIC_CMD_SET_RETRY_FALLBACK_CNT => 166
  | HGIC_CMD_SET_FALLBACK_MCS => 167
  | HGIC_CMD_GET_XOSC_VALUE => 168
  | HGIC_CMD_SET_XOSC_VALUE => 169
  | HGIC_CMD_GET_FREQ_OFFSET => 170
  | HGIC_CMD_SET_CALI_PERIOD => 171
  | HGIC_CMD_SET_BLENC_ADVFILTER => 172
  | HGIC_CMD_SET_MAX_TX_DELAY => 173
  | HGIC_CMD_GET_STA_INFO => 174
  | HGIC_CMD_SEND_MGMTFRAME => 175
  | HGIC_CMD_SET_PS_HBDATA_MASK => 183
  | HGIC_CMD_SET_SLEEP_ROAMING => 188
  | HGIC_CMD_SET_EDCA_LIMIT_MAX => 189
  | HGIC_CMD_SET_EDCA_SLOT_TIME => 190
  | HGIC_CMD_SET_EDCA_LIMIT_MIN => 191
  | HGIC_CMD_SET_SIGNAL_THRESHOLD => 192
  | HGIC_CMD_SET_ROAMING_BSSID => 193
  | HGIC_CMD_GET_LINK_QUALITY => 194
  | HGIC_CMD_SET_NAV_LIMIT_MAX => 195
  | HGIC_CMD_SET_TXPOWER_LEVEL => 196
  | HGIC_CMD_SET_DISABLE_BSS => 197
  | HGIC_CMD_SET_RESP_IND => 198
  | HGIC_CMD_SET_SHORT_GI => 199
  | HGIC_CMD_SET_NDP_PROBE => 200
  | HGIC_CMD_SET_CTRL_RESP_1M => 201
  | HGIC_CMD_SET_AMPDU_EN => 202
  | HGIC_CMD_SET_DUP_1M => 203
  | HGIC_CMD_SET_RMESH_DEVMAX => 204
  | HGIC_CMD_SET_RMESH_AID => 205
  | HGIC_CMD_SET_RMESH_DEVICE => 206
  | HGIC_CMD_SET_RMESH_NOTFW => 207
  | HGIC_CMD_SET_RMESH_RSSIMIN => 208
  | HGIC_CMD_GET_RMESH_DEVICE => 209
  | HGIC_CMD_GET_RMESH_MESHID => 210
  end.
Coercion cmd_code : hgic_cmd >-> Z.

Inductive hgic_event :=
   | HGIC_EVENT_STATE_CHG | HGIC_EVENT_CH_SWICH | HGIC_EVENT_DISCONNECT_REASON
   | HGIC_EVENT_ASSOC_STATUS | HGIC_EVENT_SCANNING | HGIC_EVENT_SCAN_DONE
   | HGIC_EVENT_TX_BITRATE | HGIC_EVENT_PAIR_START | HGIC_EVENT_PAIR_SUCCESS
   | HGIC_EVENT_PAIR_DONE | HGIC_EVENT_CONECT_START | HGIC_EVENT_CONECTED
   | HGIC_EVENT_DISCONECTED | HGIC_EVENT_SIGNAL | HGIC_EVENT_DISCONNET_LOG
   | HGIC_EVENT_REQUEST_PARAM | HGIC_EVENT_TESTMODE_STATE | HGIC_EVENT_FWDBG_INFO
   | HGIC_EVENT_CUSTOMER_MGMT | HGIC_EVENT_SLEEP_FAIL | HGIC_EVENT_DHCPC_DONE
   | HGIC_EVENT_CONNECT_FAIL | HGIC_EVENT_CUST_DRIVER_DATA | HGIC_EVENT_UNPAIR_STA
   | HGIC_EVENT_BLENC_DATA | HGIC_EVENT_HWSCAN_RESULT | HGIC_EVENT_EXCEPTION_INFO
   | HGIC_EVENT_DSLEEP_WAKEUP | HGIC_EVENT_STA_MIC_ERROR | HGIC_EVENT_ACS_DONE
   | HGIC_EVENT_FW_INIT_DONE | HGIC_EVENT_ROAM_CONECTED | HGIC_EVENT_MGMT_FRAME.

Definition event_code (e : hgic_event) : Z :=
  match e with
  | HGIC_EVENT_STATE_CHG => 1
  | HGIC_EVENT_CH_SWICH => 2
  | HGIC_EVENT_DISCONNECT_REASON => 3
  | HGIC_EVENT_ASSOC_STATUS => 4
  | HGIC_EVENT_SCANNING => 5
  | HGIC_EVENT_SCAN_DONE => 6
  | HGIC_EVENT_TX_BITRATE => 7
  | HGIC_EVENT_PAIR_START => 8
  | HGIC_EVENT_PAIR_SUCCESS => 9
  | HGIC_EVENT_PAIR_DONE => 10
  | HGIC_EVENT_CONECT_START => 11
  | HGIC_EVENT_CONECTED => 12
  | HGIC_EVENT_DISCONECTED => 13
  | HGIC_EVENT_SIGNAL => 14
  | HGIC_EVENT_DISCONNET_LOG => 15
  | HGIC_EVENT_REQUEST_PARAM => 16
  | HGIC_EVENT_TESTMODE_STATE => 17
  | HGIC_EVENT_FWDBG_INFO => 18
  | HGIC_EVENT_CUSTOMER_MGMT => 19
  | HGIC_EVENT_SLEEP_FAIL => 20
  | HGIC_EVENT_DHCPC_DONE => 21
  | HGIC_EVENT_CONNECT_FAIL => 22
  | HGIC_EVENT_CUST_DRIVER_DATA => 23
  | HGIC_EVENT_UNPAIR_STA => 24
  | HGIC_EVENT_BLENC_DATA => 25
  | HGIC_EVENT_HWSCAN_RESULT => 26
  | HGIC_EVENT_EXCEPTION_INFO => 27
  | HGIC_EVENT_DSLEEP_WAKEUP => 28
  | HGIC_EVENT_STA_MIC_ERROR => 29
  | HGIC_EVENT_ACS_DONE => 30
  | HGIC_EVENT_FW_INIT_DONE => 31
  | HGIC_EVENT_ROAM_CONECTED => 32
  | HGIC_EVENT_MGMT_FRAME => 33
  end.
Coercion event_code : hgic_event >-> Z.

(** The decoder the firmware applies. *)
Definition cmd_of_code (z : Z) : option hgic_cmd :=
  match z with
  | 1 => Some HGIC_CMD_DEV_OPEN
  | 2 => Some HGIC_CMD_DEV_CLOSE
  | 3 => Some HGIC_CMD_SET_MAC
  | 4 => Some HGIC_CMD_SET_SSID
  | 5 => Some HGIC_CMD_SET_BSSID
  | 6 => Some HGIC_CMD_SET_COUNTRY
  | 7 => Some HGIC_CMD_SET_CHANNEL
  | 8 => Some HGIC_CMD_SET_CENTER_FREQ
  | 9 => Some HGIC_CMD_SET_RTS_THRESHOLD
  | 10 => Some HGIC_CMD_SET_FRG_THRESHOLD
  | 11 => Some HGIC_CMD_SET_KEY_MGMT
  | 12 => Some HGIC_CMD_SET_WPA_PSK
  | 13 => Some HGIC_CMD_SET_KEY
  | 14 => Some HGIC_CMD_SCAN
  | 15 => Some HGIC_CMD_GET_SCAN_LIST
  | 16 => Some HGIC_CMD_SET_BSSID_FILTER
  | 17 => Some HGIC_CMD_DISCONNECT
  | 18 => Some HGIC_CMD_GET_BSSID
  | 19 => Some HGIC_CMD_SET_WBNAT
  | 20 => Some HGIC_CMD_GET_STATUS
  | 21 => Some HGIC_CMD_SET_LISTEN_INTERVAL
  | 22 => Some HGIC_CMD_SET_TX_POWER
  | 23 => Some HGIC_CMD_GET_TX_POWER
  | 24 => Some HGIC_CMD_SET_TX_LCOUNT
  | 25 => Some HGIC_CMD_SET_TX_SCOUNT
  | 26 => Some HGIC_CMD_ADD_STA
  | 27 => Some HGIC_CMD_REMOVE_STA
  | 28 => Some HGIC_CMD_SET_TX_BW
  | 29 => Some HGIC_CMD_SET_TX_MCS
  | 30 => Some HGIC_CMD_SET_FREQ_RANGE
  | 31 => Some HGIC_CMD_ACS_ENABLE
  | 32 => Some HGIC_CMD_SET_PRIMARY_CHAN
  | 33 => Some HGIC_CMD_SET_BG_RSSI
  | 34 => Some HGIC_CMD_SET_BSS_BW
  | 35 => Some HGIC_CMD_TESTMODE_CMD
  | 36 => Some HGIC_CMD_SET_AID
  | 37 => Some HGIC_CMD_GET_FW_STATE
  | 38 => Some HGIC_CMD_SET_TXQ_PARAM
  | 39 => Some HGIC_CMD_SET_CHAN_LIST
  | 40 => Some HGIC_CMD_GET_CONN_STATE
  | 41 => Some HGIC_CMD_SET_WORK_MODE
  | 42 => Some HGIC_CMD_SET_PAIRED_STATIONS
  | 43 => Some HGIC_CMD_GET_FW_INFO
  | 44 => Some HGIC_CMD_PAIRING
  | 45 => Some HGIC_CMD_GET_TEMPERATURE
  | 46 => Some HGIC_CMD_ENTER_SLEEP
  | 47 => Some HGIC_CMD_OTA
  | 48 => Some HGIC_CMD_GET_SSID
  | 49 => Some HGIC_CMD_GET_WPA_PSK
  | 50 => Some HGIC_CMD_GET_SIGNAL
  | 51 => Some HGIC_CMD_GET_TX_BITRATE
  | 52 => Some HGIC_CMD_SET_BEACON_INT
  | 53 => Some HGIC_CMD_GET_STA_LIST
  | 54 => Some HGIC_CMD_SAVE_CFG
  | 55 => Some HGIC_CMD_JOIN_GROUP
  | 56 => Some HGIC_CMD_SET_ETHER_TYPE
  | 57 => Some HGIC_CMD_GET_STA_COUNT
  | 58 => Some HGIC_CMD_SET_HEARTBEAT_INT
  | 59 => Some HGIC_CMD_SET_MCAST_KEY
  | 60 => Some HGIC_CMD_SET_AGG_CNT
  | 61 => Some HGIC_CMD_GET_AGG_CNT
  | 62 => Some HGIC_CMD_GET_BSS_BW
  | 63 => Some HGIC_CMD_GET_FREQ_RANGE
  | 64 => Some HGIC_CMD_GET_CHAN_LIST
  | 65 => Some HGIC_CMD_RADIO_ONOFF
  | 66 => Some HGIC_CMD_SET_PS_HEARTBEAT
  | 67 => Some HGIC_CMD_SET_WAKEUP_STA
  | 68 => Some HGIC_CMD_SET_PS_HEARTBEAT_RESP
  | 69 => Some HGIC_CMD_SET_PS_WAKEUP_DATA
  | 70 => Some HGIC_CMD_SET_PS_CONNECT
  | 71 => Some HGIC_CMD_SET_BSS_MAX_IDLE
  | 72 => Some HGIC_CMD_SET_WKIO_MODE
  | 73 => Some HGIC_CMD_SET_DTIM_PERIOD
  | 74 => Some HGIC_CMD_SET_PS_MODE
  | 75 => Some HGIC_CMD_LOAD_DEF
  | 76 => Some HGIC_CMD_DISASSOC_STA
  | 77 => Some HGIC_CMD_SET_APLOST_TIME
  | 78 => Some HGIC_CMD_GET_WAKEUP_REASON
  | 79 => Some HGIC_CMD_UNPAIR
  | 80 => Some HGIC_CMD_SET_AUTO_CHAN_SWITCH
  | 81 => Some HGIC_CMD_SET_REASSOC_WKHOST
  | 82 => Some HGIC_CMD_SET_WAKEUP_IO
  | 83 => Some HGIC_CMD_DBGINFO_OUTPUT
  | 84 => Some HGIC_CMD_SET_SYSDBG
  | 85 => Some HGIC_CMD_SET_AUTO_SLEEP_TIME
  | 86 => Some HGIC_CMD_GET_KEY_MGMT
  | 87 => Some HGIC_CMD_SET_PAIR_AUTOSTOP
  | 88 => Some HGIC_CMD_SET_SUPER_PWR
  | 89 => Some HGIC_CMD_SET_REPEATER_SSID
  | 90 => Some HGIC_CMD_SET_REPEATER_PSK
  | 91 => Some HGIC_CMD_CFG_AUTO_SAVE
  | 92 => Some HGIC_CMD_SEND_CUST_MGMT
  | 93 => Some HGIC_CMD_GET_BATTERY_LEVEL
  | 94 => Some HGIC_CMD_SET_DCDC13
  | 95 => Some HGIC_CMD_SET_ACKTMO
  | 96 => Some HGIC_CMD_GET_MODULETYPE
  | 97 => Some HGIC_CMD_PA_PWRCTRL_DIS
  | 98 => Some HGIC_CMD_SET_DHCPC
  | 99 => Some HGIC_CMD_GET_DHCPC_RESULT
  | 100 => Some HGIC_CMD_SET_WKUPDATA_MASK
  | 101 => Some HGIC_CMD_GET_WKDATA_BUFF
  | 102 => Some HGIC_CMD_GET_DISASSOC_REASON
  | 103 => Some HGIC_CMD_SET_WKUPDATA_SAVEEN
  | 104 => Some HGIC_CMD_SET_CUST_DRIVER_DATA
  | 105 => Some HGIC_CMD_SET_MCAST_TXPARAM
  | 106 => Some HGIC_CMD_SET_STA_FREQINFO
  | 107 => Some HGIC_CMD_SET_RESET_STA
  | 108 => Some HGIC_CMD_SET_UART_FIXLEN
  | 109 => Some HGIC_CMD_GET_UART_FIXLEN
  | 110 => Some HGIC_CMD_SET_ANT_AUTO
  | 111 => Some HGIC_CMD_SET_ANT_SEL
  | 112 => Some HGIC_CMD_GET_ANT_SEL
  | 113 => Some HGIC_CMD_SET_WKUP_HOST_REASON
  | 114 => Some HGIC_CMD_SET_MAC_FILTER_EN
  | 115 => Some HGIC_CMD_SET_ATCMD
  | 116 => Some HGIC_CMD_SET_ROAMING
  | 117 => Some HGIC_CMD_SET_AP_HIDE
  | 118 => Some HGIC_CMD_SET_DUAL_ANT
  | 119 => Some HGIC_CMD_SET_MAX_TCNT
  | 120 => Some HGIC_CMD_SET_ASSERT_HOLDUP
  | 121 => Some HGIC_CMD_SET_AP_PSMODE_EN
  | 122 => Some HGIC_CMD_SET_DUPFILTER_EN
  | 123 => Some HGIC_CMD_SET_DIS_1V1_M2U
  | 124 => Some HGIC_CMD_SET_DIS_PSCONNECT
  | 125 => Some HGIC_CMD_SET_RTC
  | 126 => Some HGIC_CMD_GET_RTC
  | 127 => Some HGIC_CMD_SET_KICK_ASSOC
  | 128 => Some HGIC_CMD_START_ASSOC
  | 129 => Some HGIC_CMD_SET_AUTOSLEEP
  | 130 => Some HGIC_CMD_SEND_BLENC_DATA
  | 131 => Some HGIC_CMD_SET_BLENC_EN
  | 132 => Some HGIC_CMD_RESET
  | 133 => Some HGIC_CMD_SET_HWSCAN
  | 134 => Some HGIC_CMD_GET_TXQ_PARAM
  | 135 => Some HGIC_CMD_SET_PROMISC
  | 136 => Some HGIC_CMD_SET_USER_EDCA
  | 137 => Some HGIC_CMD_SET_FIX_TXRATE
  | 138 => Some HGIC_CMD_SET_NAV_MAX
  | 139 => Some HGIC_CMD_CLEAR_NAV
  | 140 => Some HGIC_CMD_SET_CCA_PARAM
  | 141 => Some HGIC_CMD_SET_TX_MODGAIN
  | 142 => Some HGIC_CMD_GET_NAV
  | 143 => Some HGIC_CMD_SET_BEACON_START
  | 144 => Some HGIC_CMD_SET_BLE_OPEN
  | 145 => Some HGIC_CMD_GET_MODE
  | 146 => Some HGIC_CMD_GET_BGRSSI
  | 147 => Some HGIC_CMD_SEND_BLENC_ADVDATA
  | 148 => Some HGIC_CMD_SEND_BLENC_SCANRESP
  | 149 => Some HGIC_CMD_SEND_BLENC_DEVADDR
  | 150 => Some HGIC_CMD_SEND_BLENC_ADVINTERVAL
  | 151 => Some HGIC_CMD_SEND_BLENC_STARTADV
  | 152 => Some HGIC_CMD_SET_RTS_DURATION
  | 153 => Some HGIC_CMD_STANDBY_CFG
  | 154 => Some HGIC_CMD_SET_CONNECT_PAIRONLY
  | 155 => Some HGIC_CMD_SET_DIFFCUST_CONN
  | 156 => Some HGIC_CMD_GET_CENTER_FREQ
  | 157 => Some HGIC_CMD_SET_WAIT_PSMODE
  | 158 => Some HGIC_CMD_SET_AP_CHAN_SWITCH
  | 159 => Some HGIC_CMD_SET_CCA_FOR_CE
  | 160 => Some HGIC_CMD_SET_DISABLE_PRINT
  | 161 => Some HGIC_CMD_SET_APEP_PADDING
  | 162 => Some HGIC_CMD_GET_ACS_RESULT
  | 163 => Some HGIC_CMD_GET_WIFI_STATUS_CODE
  | 164 => Some HGIC_CMD_GET_WIFI_REASON_CODE
  | 165 => Some HGIC_CMD_SET_WATCHDOG
  | 166 => Some HGIC_CMD_SET_RETRY_FALLBACK_CNT
  | 167 => Some HGIC_CMD_SET_FALLBACK_MCS
  | 168 => Some HGIC_CMD_GET_XOSC_VALUE
  | 169 => Some HGIC_CMD_SET_XOSC_VALUE
  | 170 => Some HGIC_CMD_GET_FREQ_OFFSET
  | 171 => Some HGIC_CMD_SET_CALI_PERIOD
  | 172 => Some HGIC_CMD_SET_BLENC_ADVFILTER
  | 173 => Some HGIC_CMD_SET_MAX_TX_DELAY
  | 174 => Some HGIC_CMD_GET_STA_INFO
  | 175 => Some HGIC_CMD_SEND_MGMTFRAME
  | 183 => Some HGIC_CMD_SET_PS_HBDATA_MASK
  | 188 => Some HGIC_CMD_SET_SLEEP_ROAMING
  | 189 => Some HGIC_CMD_SET_EDCA_LIMIT_MAX
  | 190 => Some HGIC_CMD_SET_EDCA_SLOT_TIME
  | 191 => Some HGIC_CMD_SET_EDCA_LIMIT_MIN
  | 192 => Some HGIC_CMD_SET_SIGNAL_THRESHOLD
  | 193 => Some HGIC_CMD_SET_ROAMING_BSSID
  | 194 => Some HGIC_CMD_GET_LINK_QUALITY
  | 195 => Some HGIC_CMD_SET_NAV_LIMIT_MAX
  | 196 => Some HGIC_CMD_SET_TXPOWER_LEVEL
  | 197 => Some HGIC_CMD_SET_DISABLE_BSS
  | 198 => Some HGIC_CMD_SET_RESP_IND
  | 199 => Some HGIC_CMD_SET_SHORT_GI
  | 200 => Some HGIC_CMD_SET_NDP_PROBE
  | 201 => Some HGIC_CMD_SET_CTRL_RESP_1M
  | 202 => Some HGIC_CMD_SET_AMPDU_EN
  | 203 => Some HGIC_CMD_SET_DUP_1M
  | 204 => Some HGIC_CMD_SET_RMESH_DEVMAX
  | 205 => Some HGIC_CMD_SET_RMESH_AID
  | 206 => Some HGIC_CMD_SET_RMESH_DEVICE
  | 207 => Some HGIC_CMD_SET_RMESH_NOTFW
  | 208 => Some HGIC_CMD_SET_RMESH_RSSIMIN
  | 209 => Some HGIC_CMD_GET_RMESH_DEVICE
  | 210 => Some HGIC_CMD_GET_RMESH_MESHID
  | _ => None
  end.

Lemma cmd_of_code_code c : cmd_of_code (cmd_code c) = Some c.
Proof. by destruct c. Qed.

(** Two commands never share a code: the firmware can tell them apart. *)
#[export] Instance cmd_code_inj : Inj (=) (=) cmd_code.
Proof.
  intros c d E. apply (f_equal cmd_of_code) in E. rewrite !cmd_of_code_code in E. congruence.
Qed.
#[export] Instance hgic_cmd_eq_dec : EqDecision hgic_cmd.
Proof. apply (inj_eq_dec cmd_code). Defined.

Lemma cmd_code_range c : 1 <= cmd_code c <= 210.
Proof. destruct c; simpl; lia. Qed.

(** ** Structure sizes *)
Definition sizeof_hgic_hdr : Z := 8.
Definition sizeof_hgic_ctrl_hdr : Z := 12.
Definition sizeof_hgic_frm_hdr : Z := 32.
Definition sizeof_hgic_frm_hdr2 : Z := 8.
Definition sizeof_hgic_fw_info : Z := 28.
Definition sizeof_hgic_sta_info : Z := 12.
Definition sizeof_hgic_rmesh_device : Z := 7.
Definition sizeof_hgic_link_quality : Z := 44.
Definition sizeof_hgic_txq_param : Z := 8.
Definition sizeof_hgic_mcast_txparam : Z := 4.
Definition sizeof_hgic_cca_ctl : Z := 4.
Definition sizeof_hgic_acs_result : Z := 8.
Definition sizeof_hgic_fallback_mcs : Z := 4.

(** ** Header fields, read at their offsets *)
Definition get16_at (l : list Z) (off : Z) : outcome Z :=
  leto b := mem_read l off 2 in get_unaligned_le16 b.
Definition get32_at (l : list Z) (off : Z) : outcome Z :=
  leto b := mem_read l off 4 in get_unaligned_le32 b.

Definition hdr_magic (l : list Z) : outcome Z := get16_at l 0.
Definition hdr_type (l : list Z) : outcome Z := mem_get l 2.
Definition hdr_ifidx (l : list Z) : outcome Z := leto b := mem_get l 3 in Ret (Z.land b 15).
Definition hdr_flags (l : list Z) : outcome Z := leto b := mem_get l 3 in Ret (Z.shiftr b 4).
Definition hdr_length (l : list Z) : outcome Z := get16_at l 4.
Definition hdr_cookie (l : list Z) : outcome Z := get16_at l 6.
Definition ctrl_cmd_id (l : list Z) : outcome Z := mem_get l 8.
Definition ctrl_cmd2_id (l : list Z) : outcome Z := get16_at l 8.
(** [cmd.status]: a short, two bytes into the union in both layouts. *)
Definition ctrl_status (l : list Z) : outcome Z := leto v := get16_at l 10 in Ret (s16 v).

Definition HDR_CMDID (l : list Z) : outcome Z :=
  leto t := hdr_type l in
  if t =? HGIC_HDR_TYPE_CMD2 then ctrl_cmd2_id l else ctrl_cmd_id l.
Definition HDR_EVTID (l : list Z) : outcome Z :=
  leto t := hdr_type l in
  if t =? HGIC_HDR_TYPE_EVENT2 then ctrl_cmd2_id l else ctrl_cmd_id l.

(** ** Header fields, written in place *)
Definition put16_at (l : list Z) (off v : Z) : outcome (list Z) :=
  mem_write l off (put_unaligned_le16 v).
Definition put8_at (l : list Z) (off v : Z) : outcome (list Z) := mem_write l off [u8 v].
(** A store to the 4-bit field [ifidx] keeps the other four bits of its byte. *)
Definition put_ifidx (l : list Z) (v : Z) : outcome (list Z) :=
  leto b := mem_get l 3 in
  mem_write l 3 [Z.lor (Z.land b 240) (Z.land v 15)].

Definition HDR_CMDID_SET (l : list Z) (id : Z) : outcome (list Z) :=
  if 255 <? id then
    leto l1 := put8_at l 2 HGIC_HDR_TYPE_CMD2 in put16_at l1 8 id
  else
    leto l1 := put8_at l 2 HGIC_HDR_TYPE_CMD in put8_at l1 8 id.
Definition HDR_EVTID_SET (l : list Z) (id : Z) : outcome (list Z) :=
  if 255 <? id then
    leto l1 := put8_at l 2 HGIC_HDR_TYPE_EVENT2 in put16_at l1 8 id
  else
    leto l1 := put8_at l 2 HGIC_HDR_TYPE_EVENT in put8_at l1 8 id.

(** ** Field access on split and on long enough buffers *)
Lemma get16_at_total d off : 0 <= off -> off + 2 <= zlen d -> exists v, get16_at d off = Ret v.
Proof.
  intros. unfold get16_at. rewrite mem_read_ok by lia. cbn [obind].
  assert (zlen (ztake 2 (zdrop off d)) = 2) as L by (rewrite zlen_ztake; [done|rewrite zlen_zdrop; lia]).
  destruct (ztake 2 (zdrop off d)) as [|a [|b l]]; [done|done|]. by eexists.
Qed.

Lemma mem_get_total d off : 0 <= off < zlen d -> exists v, mem_get d off = Ret v.
Proof.
  intros. unfold mem_get. destruct (Z.leb_spec 0 off); [|lia].
  destruct (lookup_lt_is_Some_2 d (Z.to_nat off)) as [v ->]; [unfold zlen in *; lia|by eexists].
Qed.

Lemma get16_at_mid l pre v post off :
  l = pre ++ put_unaligned_le16 v ++ post -> off = zlen pre -> get16_at l off = Ret (u16 v).
Proof.
  intros El Eo. unfold get16_at. rewrite (mem_read_mid _ pre (put_unaligned_le16 v) post) by done.
  cbn [obind]. rewrite <- (app_nil_r (put_unaligned_le16 v)). apply get_put_le16.
Qed.

Lemma get32_at_mid l pre v post off :
  l = pre ++ put_unaligned_le32 v ++ post -> off = zlen pre -> get32_at l off = Ret (u32 v).
Proof.
  intros El Eo. unfold get32_at. rewrite (mem_read_mid _ pre (put_unaligned_le32 v) post) by done.
  cbn [obind]. rewrite <- (app_nil_r (put_unaligned_le32 v)). apply get_put_le32.
Qed.

Lemma mem_get_mid l pre v post off :
  l = pre ++ v :: post -> off = zlen pre -> mem_get l off = Ret v.
Proof.
  intros -> ->. unfold mem_get. pose proof (zlen_nonneg pre). destruct (Z.leb_spec 0 (zlen pre)); [|lia].
  rewrite list_lookup_middle; [done|]. unfold zlen. lia.
Qed.

Lemma get16_at_skip pre l off :
  zlen pre <= off -> get16_at (pre ++ l) off = get16_at l (off - zlen pre).
Proof. intros. unfold get16_at. by rewrite mem_read_skip. Qed.
Lemma get32_at_skip pre l off :
  zlen pre <= off -> get32_at (pre ++ l) off = get32_at l (off - zlen pre).
Proof. intros. unfold get32_at. by rewrite mem_read_skip. Qed.
Lemma get16_at_here v l off : off = 0 -> get16_at (put_unaligned_le16 v ++ l) off = Ret (u16 v).
Proof. intros ->. by apply (get16_at_mid _ [] v l). Qed.
Lemma get32_at_here v l off : off = 0 -> get32_at (put_unaligned_le32 v ++ l) off = Ret (u32 v).
Proof. intros ->. by apply (get32_at_mid _ [] v l). Qed.
Lemma mem_get_here v l off : off = 0 -> mem_get ([v] ++ l) off = Ret v.
Proof. by intros ->. Qed.

(** Find a field of a concatenation whose pieces have known lengths. *)
Ltac field_at :=
  repeat first [rewrite get32_at_skip by lia | rewrite get16_at_skip by lia | rewrite mem_get_skip by lia];
  first [apply get32_at_here; lia | apply get16_at_here; lia | apply mem_get_here; lia].
