(* ===== verification/Skb.v ===== *)
(** * Socket buffers

    The part of the kernel's [struct sk_buff] the driver relies on: a block of
    memory with the data window somewhere inside it.  [skb_reserve] and
    [skb_pull] move the start of the window forward, [skb_push] back,
    [skb_put] moves its end; the two functions that can leave the block panic.
    Memory outside the window is kept, since the driver stores through
    [skb->data] before it extends the window over the bytes. *)
From S2P Require Import Prelude Bytes.

Record skb := Skb { skb_head : list Z; skb_data : list Z; skb_tail : list Z }.

#[export] Instance skb_eq_dec : EqDecision skb.
Proof. solve_decision. Defined.

Definition skb_len (s : skb) : Z := zlen (skb_data s).
Definition skb_headroom (s : skb) : Z := zlen (skb_head s).
Definition skb_tailroom (s : skb) : Z := zlen (skb_tail s).

(** A buffer over a fresh block. *)
Definition skb_of_block (blk : list Z) : skb := Skb [] [] blk.

(** [skb_reserve] is only used on an empty window. *)
Definition skb_reserve (s : skb) (n : Z) : outcome skb :=
  if (0 <=? n) && (n <=? skb_tailroom s) && bool_decide (skb_data s = []) then
    Ret (Skb (skb_head s ++ ztake n (skb_tail s)) [] (zdrop n (skb_tail s)))
  else Fault SkbPanic.

Definition skb_put (s : skb) (n : Z) : outcome skb :=
  if (0 <=? n) && (n <=? skb_tailroom s) then
    Ret (Skb (skb_head s) (skb_data s ++ ztake n (skb_tail s)) (zdrop n (skb_tail s)))
  else Fault SkbPanic.

Definition skb_push (s : skb) (n : Z) : outcome skb :=
  if (0 <=? n) && (n <=? skb_headroom s) then
    let k := skb_headroom s - n in
    Ret (Skb (ztake k (skb_head s)) (zdrop k (skb_head s) ++ skb_data s) (skb_tail s))
  else Fault SkbPanic.

(** [skb_pull] does nothing (and returns NULL) beyond the window. *)
Definition skb_pull (s : skb) (n : Z) : skb :=
  if (0 <=? n) && (n <=? skb_len s) then
    Skb (skb_head s ++ ztake n (skb_data s)) (zdrop n (skb_data s)) (skb_tail s)
  else s.

(** A store through [skb->data + off]: it may reach into the tail room. *)
Definition skb_write (s : skb) (off : Z) (bs : list Z) : outcome skb :=
  leto m := mem_write (skb_data s ++ skb_tail s) off bs in
  Ret (Skb (skb_head s) (ztake (skb_len s) m) (zdrop (skb_len s) m)).

(** A load through [skb->data + off]. *)
Definition skb_read (s : skb) (off n : Z) : outcome (list Z) :=
  mem_read (skb_data s ++ skb_tail s) off n.

(** Apply a store to the window itself. *)
Definition skb_update (s : skb) (g : list Z -> outcome (list Z)) : outcome skb :=
  leto d := g (skb_data s) in Ret (Skb (skb_head s) d (skb_tail s)).
