(* ===== verification/FwInfo.v ===== *)
(** * The firmware image header (utils/fwinfo.c, utils/fwinfo.h)

    The CRCs the image is protected with, the header getters the boot
    downloader uses, and the check of the code against its CRC. *)
From S2P Require Import Prelude Bytes CString Proto.

(** ** CRCs *)
Definition crc_bit (poly crc : Z) : Z :=
  if Z.land crc 1 =? 0 then Z.shiftr crc 1 else Z.lxor (Z.shiftr crc 1) poly.
Definition crc_byte (poly crc b : Z) : Z := Nat.iter 8 (crc_bit poly) (Z.lxor crc b).
Definition crc_loop (poly crc : Z) (l : list Z) : Z := fold_left (crc_byte poly) l crc.

Definition hgic_crc16 (data : list Z) (length : Z) : outcome Z :=
  leto bs := mem_read data 0 length in Ret (crc_loop 0xA001 0xffff bs).
Definition hgic_crc32 (data : list Z) (length : Z) : outcome Z :=
  leto bs := mem_read data 0 length in Ret (Z.lxor (crc_loop 0xEDB88320 0xffffffff bs) 0xffffffff).

(** ** The header *)
Definition HGIC_FWINFO_BOOT_HDR : Z := 0x5a69.
Definition HGIC_FWINFO_SPI_HDR : Z := 1.
Definition HGIC_FWINFO_CODE_HDR : Z := 2.

(** Fields at their offsets: the boot header takes bytes 0-31, the SPI header
    32-105, the firmware information 106-130. *)
Definition boot_flag (d : list Z) : outcome Z := get16_at d 0.
Definition boot_to_sram_addr (d : list Z) : outcome Z := get32_at d 4.
Definition run_sram_addr (d : list Z) : outcome Z := get32_at d 8.
Definition boot_code_offset_addr (d : list Z) : outcome Z := get32_at d 12.
Definition mode_aes_en (d : list Z) : outcome Z :=
  leto m := get16_at d 26 in Ret (Z.land (Z.shiftr m 10) 1).
Definition mode_crc_en (d : list Z) : outcome Z :=
  leto m := get16_at d 26 in Ret (Z.land (Z.shiftr m 11) 1).
Definition spi_func_code (d : list Z) : outcome Z := mem_get d 32.
Definition fw_func_code (d : list Z) : outcome Z := mem_get d 106.
Definition fw_sdk_version (d : list Z) : outcome Z := get32_at d 108.
Definition fw_svn_version (d : list Z) : outcome Z := get32_at d 112.
Definition fw_chip_id (d : list Z) : outcome Z := get16_at d 120.
Definition fw_cpu_id (d : list Z) : outcome Z := mem_get d 122.
Definition fw_code_crc32 (d : list Z) : outcome Z := get32_at d 123.

Definition hgic_check_fwinfo_hdr (data : option (list Z)) : outcome Z :=
  match data with
  | None => Ret (- EINVAL)
  | Some d =>
      leto b := boot_flag d in
      if negb (b =? HGIC_FWINFO_BOOT_HDR) then Ret (- EINVAL) else
      leto f := fw_func_code d in
      if negb (f =? HGIC_FWINFO_CODE_HDR) then Ret (- EINVAL) else
      leto s := spi_func_code d in
      if negb (s =? HGIC_FWINFO_SPI_HDR) then Ret (- EINVAL) else Ret 0
  end.

(** The shape every getter has: the value, and the error code. *)
Definition get_fw_field (conv : Z -> Z) (field : list Z -> outcome Z) (data : option (list Z))
  : outcome (Z * Z) :=
  leto ret := hgic_check_fwinfo_hdr data in
  if negb (ret =? 0) then Ret (conv (-1), ret) else
  leto d := deref data in
  leto v := field d in Ret (conv v, 0).

Definition hgic_get_fw_aes_en := get_fw_field u16 mode_aes_en.
Definition hgic_get_fw_crc_en := get_fw_field u16 mode_crc_en.
Definition hgic_get_fw_dl_addr := get_fw_field u32 boot_to_sram_addr.
Definition hgic_get_fw_run_addr := get_fw_field u32 run_sram_addr.
Definition hgic_get_fw_code_offset := get_fw_field u32 boot_code_offset_addr.
Definition hgic_get_fw_local_crc32 := get_fw_field u32 fw_code_crc32.
Definition hgic_get_fw_sdk_version := get_fw_field u32 fw_sdk_version.
Definition hgic_get_fw_svn_version := get_fw_field u32 fw_svn_version.
Definition hgic_get_fw_chipid := get_fw_field u16 fw_chip_id.
Definition hgic_get_fw_cpuid := get_fw_field u8 fw_cpu_id.

Definition hgic_get_fw_code_checksum (data : option (list Z)) (len : Z) : outcome Z :=
  leto l := hgic_get_fw_local_crc32 data in
  if negb (snd l =? 0) then Ret (snd l) else
  leto o := hgic_get_fw_code_offset data in
  if negb (snd o =? 0) then Ret (snd o) else
  let code_len := s32 (len - fst o) in
  if code_len <? 0 then Ret (- EINVAL) else
  leto d := deref data in
  leto code := mem_read d (fst o) code_len in
  leto cur := hgic_crc32 code code_len in
  if negb (cur =? fst l) && negb (Z.lxor cur 0xffffffff =? fst l) then Ret (- EFAULT) else Ret 0.

(** ** The CRC register *)
Lemma land_1_bit x : Z.land x 1 = Z.b2z (Z.testbit x 0).
Proof. change 1 with (Z.ones 1). rewrite Z.land_ones, Z.bit0_mod by lia. done. Qed.

Section Crc.
(** A register of [n] bits whose polynomial has its top bit set. *)
Context (n poly : Z) (Hn : 8 <= n) (Hpoly : 0 <= poly < 2 ^ n) (Htop : Z.testbit poly (n - 1) = true).

Definition reg (x : Z) : Prop := 0 <= x < 2 ^ n.

Lemma reg_high x i : reg x -> n <= i -> Z.testbit x i = false.
Proof using All.
  intros Hx Hi. unfold reg in Hx. destruct (decide (x = 0)) as [->|]; [by rewrite Z.bits_0|].
  apply Z.bits_above_log2; [lia|]. apply Z.lt_le_trans with n; [|done]. by apply Z.log2_lt_pow2; lia.
Qed.

Lemma reg_bits x : 0 <= x -> (forall i, n <= i -> Z.testbit x i = false) -> reg x.
Proof using All.
  intros Hx H. split; [done|]. destruct (Z.lt_ge_cases x (2 ^ n)); [done|exfalso].
  assert (0 < x) by (pose proof (Z.pow_pos_nonneg 2 n); lia).
  assert (n <= Z.log2 x) as Hl by (by apply Z.log2_le_pow2).
  specialize (H _ Hl). by rewrite Z.bit_log2 in H.
Qed.

Lemma reg_lxor x y : reg x -> reg y -> reg (Z.lxor x y).
Proof using All.
  intros Hx Hy. apply reg_bits; [apply Z.lxor_nonneg; unfold reg in *; lia|].
  intros i Hi. rewrite Z.lxor_spec, !reg_high by done. done.
Qed.

Lemma reg_shiftr x : reg x -> reg (Z.shiftr x 1).
Proof using All.
  intros Hx. apply reg_bits; [apply Z.shiftr_nonneg; unfold reg in Hx; lia|].
  intros i Hi. rewrite Z.shiftr_spec by lia. apply reg_high; [done|lia].
Qed.

Lemma crc_bit_reg x : reg x -> reg (crc_bit poly x).
Proof using All.
  intros Hx. unfold crc_bit. destruct (Z.land x 1 =? 0); [by apply reg_shiftr|].
  apply reg_lxor; [by apply reg_shiftr|done].
Qed.

(** The top bit after a step is the bit shifted out, so a step loses nothing. *)
Lemma crc_bit_top x : reg x -> Z.testbit (crc_bit poly x) (n - 1) = Z.testbit x 0.
Proof using All.
  intros Hx. unfold crc_bit. rewrite land_1_bit.
  assert (Z.testbit (Z.shiftr x 1) (n - 1) = false) as Hs
    by (rewrite Z.shiftr_spec by lia; apply reg_high; [done|lia]).
  destruct (Z.testbit x 0); simpl.
  - change (1 =? 0) with false. by rewrite Z.lxor_spec, Hs, Htop.
  - change (0 =? 0) with true. done.
Qed.

Lemma crc_bit_inj x y : reg x -> reg y -> crc_bit poly x = crc_bit poly y -> x = y.
Proof using All.
  intros Hx Hy E. assert (Z.testbit x 0 = Z.testbit y 0) as E0
    by (rewrite <- !crc_bit_top by done; by rewrite E).
  unfold crc_bit in E. rewrite !land_1_bit, E0 in E.
  assert (Z.shiftr x 1 = Z.shiftr y 1) as Es.
  { destruct (Z.b2z (Z.testbit y 0) =? 0); [done|].
    apply (f_equal (fun z => Z.lxor z poly)) in E.
    by rewrite !Z.lxor_assoc, Z.lxor_nilpotent, !Z.lxor_0_r in E. }
  apply Z.bits_inj'. intros i Hi. destruct (decide (i = 0)) as [->|]; [done|].
  replace i with ((i - 1) + 1) by lia. rewrite <- !(Z.shiftr_spec _ 1) by lia. by rewrite Es.
Qed.

Lemma crc_bits_reg k x : reg x -> reg (Nat.iter k (crc_bit poly) x).
Proof using All. induction k; simpl; [done|]. intros. apply crc_bit_reg. auto. Qed.

Lemma crc_bits_inj k x y :
  reg x -> reg y -> Nat.iter k (crc_bit poly) x = Nat.iter k (crc_bit poly) y -> x = y.
Proof using All.
  induction k as [|k IH]; simpl; [done|]. intros Hx Hy E.
  apply IH; [done|done|]. by apply crc_bit_inj; [apply crc_bits_reg..|].
Qed.

Lemma byte_reg b : is_byte b -> reg b.
Proof using All.
  unfold is_byte, reg. intros. split; [lia|]. apply Z.lt_le_trans with (2 ^ 8); [lia|].
  apply Z.pow_le_mono_r; lia.
Qed.

Lemma crc_byte_reg c b : reg c -> is_byte b -> reg (crc_byte poly c b).
Proof using All. intros. apply crc_bits_reg, reg_lxor; [done|by apply byte_reg]. Qed.

Lemma crc_loop_reg c l : reg c -> is_bytes l -> reg (crc_loop poly c l).
Proof using All.
  intros Hc Hl. revert c Hc. induction Hl; intros c Hc; [done|]. simpl. apply IHHl. by apply crc_byte_reg.
Qed.

Lemma crc_byte_inj c c' b b' :
  reg c -> reg c' -> is_byte b -> is_byte b' ->
  crc_byte poly c b = crc_byte poly c' b' -> Z.lxor c b = Z.lxor c' b'.
Proof using All.
  intros. eapply crc_bits_inj; [| |done]; apply reg_lxor; try done; by apply byte_reg.
Qed.

Lemma crc_loop_inj c c' l :
  reg c -> reg c' -> is_bytes l -> crc_loop poly c l = crc_loop poly c' l -> c = c'.
Proof using All.
  intros Hc Hc' Hl. revert c c' Hc Hc'. induction Hl as [|b l Hb Hl IH]; intros c c' Hc Hc' E; [done|].
  simpl in E. apply IH in E; [|by apply crc_byte_reg..]. apply crc_byte_inj in E; try done.
  apply (f_equal (fun z => Z.lxor z b)) in E.
  by rewrite !Z.lxor_assoc, Z.lxor_nilpotent, !Z.lxor_0_r in E.
Qed.

(** A change of one byte always changes the register. *)
Lemma crc_loop_one_byte c pre a b post :
  reg c -> is_bytes pre -> is_bytes post -> is_byte a -> is_byte b ->
  crc_loop poly c (pre ++ a :: post) = crc_loop poly c (pre ++ b :: post) -> a = b.
Proof using All.
  intros Hc Hp Hq Ha Hb. unfold crc_loop. rewrite !fold_left_app. simpl.
  fold (crc_loop poly c pre). set (c1 := crc_loop poly c pre).
  assert (reg c1) by (by apply crc_loop_reg). intros E.
  apply (crc_loop_inj (crc_byte poly c1 a) (crc_byte poly c1 b)) in E; try done; try by apply crc_byte_reg.
  apply crc_byte_inj in E; try done. apply (f_equal (fun z => Z.lxor c1 z)) in E.
  by rewrite <- !Z.lxor_assoc, Z.lxor_nilpotent, !Z.lxor_0_l in E.
Qed.
End Crc.

Lemma crc32_poly : 0 <= 0xEDB88320 < 2 ^ 32 /\ Z.testbit 0xEDB88320 (32 - 1) = true.
Proof. done. Qed.
Lemma crc16_poly : 0 <= 0xA001 < 2 ^ 16 /\ Z.testbit 0xA001 (16 - 1) = true.
Proof. done. Qed.

Lemma mem_read_all (l : list Z) : mem_read l 0 (zlen l) = Ret l.
Proof.
  rewrite mem_read_ok by (pose proof (zlen_nonneg l); lia). by rewrite zdrop_0, ztake_all.
Qed.

(** ** Properties *)

(** C38. Both CRCs detect every change of a single byte: two blocks of the same
    length that differ in exactly one position have different checksums, and the
    checksums fit their 32 and 16 bits. *)
Theorem crc_detects_one_byte pre post a b :
  is_bytes pre -> is_bytes post -> is_byte a -> is_byte b -> a <> b ->
  let d := pre ++ a :: post in let d' := pre ++ b :: post in
  exists c c' k k',
    hgic_crc32 d (zlen d) = Ret c /\ hgic_crc32 d' (zlen d') = Ret c' /\ c <> c' /\ 0 <= c < 2 ^ 32 /\
    hgic_crc16 d (zlen d) = Ret k /\ hgic_crc16 d' (zlen d') = Ret k' /\ k <> k' /\ 0 <= k < 2 ^ 16.
Proof.
  intros Hp Hq Ha Hb Hab d d'. unfold hgic_crc32, hgic_crc16. rewrite !mem_read_all. cbn [obind].
  destruct crc32_poly as [P32 T32]. destruct crc16_poly as [P16 T16].
  assert (is_bytes d) as Hd by (apply is_bytes_app; [done|by constructor]).
  do 4 eexists. split; [reflexivity|]. split; [reflexivity|]. split; [|split].
  - intros E. apply (f_equal (fun z => Z.lxor z 0xffffffff)) in E.
    rewrite !Z.lxor_assoc, Z.lxor_nilpotent, !Z.lxor_0_r in E.
    apply (crc_loop_one_byte 32 0xEDB88320) in E; done.
  - apply (reg_lxor 32 0xEDB88320); try done. by apply (crc_loop_reg 32 0xEDB88320).
  - split; [reflexivity|]. split; [reflexivity|]. split.
    + intros E. apply (crc_loop_one_byte 16 0xA001) in E; done.
    + by apply (crc_loop_reg 16 0xA001).
Qed.

Lemma crc_detects_one_byte_witness :
  let d := [1; 2] ++ 3 :: [4] in let d' := [1; 2] ++ 7 :: [4] in
  exists c c' k k',
    hgic_crc32 d (zlen d) = Ret c /\ hgic_crc32 d' (zlen d') = Ret c' /\ c <> c' /\ 0 <= c < 2 ^ 32 /\
    hgic_crc16 d (zlen d) = Ret k /\ hgic_crc16 d' (zlen d') = Ret k' /\ k <> k' /\ 0 <= k < 2 ^ 16.
Proof.
  apply (crc_detects_one_byte [1; 2] [4] 3 7); [repeat constructor; vm_compute; done|
    repeat constructor; vm_compute; done|vm_compute; split; done|vm_compute; split; done|done].
Defined.

(** The CRCs are the published ones their comments name: CRC-32 and
    CRC-16/MODBUS of the nine bytes 123456789 are their standard check values. *)
Lemma crc_check_values :
  hgic_crc32 [49; 50; 51; 52; 53; 54; 55; 56; 57] 9 = Ret 0xCBF43926 /\
  hgic_crc16 [49; 50; 51; 52; 53; 54; 55; 56; 57] 9 = Ret 0x4B37.
Proof. split; vm_compute; reflexivity. Qed.

(** ** The layout *)
Record image := Image {
  im_dl_addr : Z; im_run_addr : Z; im_code_offset : Z; im_mode : Z;
  im_sdk : Z; im_svn : Z; im_chip : Z; im_cpu : Z; im_crc : Z;
  im_fill1 : list Z;     (* bytes 2-3 *)
  im_fill2 : list Z;     (* bytes 16-25 *)
  im_fill3 : list Z;     (* bytes 28-31 *)
  im_fill4 : list Z;     (* bytes 33-105 *)
  im_fill5 : Z;          (* byte 107 *)
  im_fill6 : list Z;     (* bytes 116-119 *)
  im_rest : list Z }.    (* from byte 127 *)

Record image_ok (i : image) : Prop := {
  io_fill1 : zlen (im_fill1 i) = 2; io_fill2 : zlen (im_fill2 i) = 10;
  io_fill3 : zlen (im_fill3 i) = 4; io_fill4 : zlen (im_fill4 i) = 73;
  io_fill6 : zlen (im_fill6 i) = 4 }.

Definition image_bytes (i : image) : list Z :=
  put_unaligned_le16 HGIC_FWINFO_BOOT_HDR ++ im_fill1 i ++ put_unaligned_le32 (im_dl_addr i)
  ++ put_unaligned_le32 (im_run_addr i) ++ put_unaligned_le32 (im_code_offset i) ++ im_fill2 i
  ++ put_unaligned_le16 (im_mode i) ++ im_fill3 i
  ++ [HGIC_FWINFO_SPI_HDR] ++ im_fill4 i
  ++ [HGIC_FWINFO_CODE_HDR] ++ [im_fill5 i] ++ put_unaligned_le32 (im_sdk i)
  ++ put_unaligned_le32 (im_svn i) ++ im_fill6 i ++ put_unaligned_le16 (im_chip i)
  ++ [im_cpu i] ++ put_unaligned_le32 (im_crc i) ++ im_rest i.

Lemma image_fields i :
  image_ok i -> let d := image_bytes i in
  boot_flag d = Ret HGIC_FWINFO_BOOT_HDR /\ boot_to_sram_addr d = Ret (u32 (im_dl_addr i)) /\
  run_sram_addr d = Ret (u32 (im_run_addr i)) /\ boot_code_offset_addr d = Ret (u32 (im_code_offset i)) /\
  get16_at d 26 = Ret (u16 (im_mode i)) /\ spi_func_code d = Ret HGIC_FWINFO_SPI_HDR /\
  fw_func_code d = Ret HGIC_FWINFO_CODE_HDR /\ fw_sdk_version d = Ret (u32 (im_sdk i)) /\
  fw_svn_version d = Ret (u32 (im_svn i)) /\ fw_chip_id d = Ret (u16 (im_chip i)) /\
  fw_cpu_id d = Ret (im_cpu i) /\ fw_code_crc32 d = Ret (u32 (im_crc i)).
Proof.
  intros [H1 H2 H3 H4 H6] d. unfold d, image_bytes.
  assert (forall v, zlen (put_unaligned_le32 v) = 4) as L32 by done.
  assert (forall v, zlen (put_unaligned_le16 v) = 2) as L16 by done.
  assert (forall v : Z, zlen [v] = 1) as L1 by done.
  pose proof (L16 HGIC_FWINFO_BOOT_HDR). pose proof (L32 (im_dl_addr i)). pose proof (L32 (im_run_addr i)).
  pose proof (L32 (im_code_offset i)). pose proof (L16 (im_mode i)). pose proof (L1 HGIC_FWINFO_SPI_HDR).
  pose proof (L1 HGIC_FWINFO_CODE_HDR). pose proof (L1 (im_fill5 i)). pose proof (L32 (im_sdk i)).
  pose proof (L32 (im_svn i)). pose proof (L16 (im_chip i)). pose proof (L1 (im_cpu i)).
  repeat split; unfold boot_flag, boot_to_sram_addr, run_sram_addr, boot_code_offset_addr, spi_func_code,
    fw_func_code, fw_sdk_version, fw_svn_version, fw_chip_id, fw_cpu_id, fw_code_crc32; field_at.
Qed.

Lemma check_hdr_ok i : image_ok i -> hgic_check_fwinfo_hdr (Some (image_bytes i)) = Ret 0.
Proof.
  intros Hi. destruct (image_fields i Hi) as (E0 & _ & _ & _ & _ & E5 & E6 & _).
  unfold hgic_check_fwinfo_hdr. rewrite E0. cbn [obind]. rewrite E6. cbn [obind]. by rewrite E5.
Qed.

Lemma get_field_ok i conv f v :
  image_ok i -> f (image_bytes i) = Ret v ->
  get_fw_field conv f (Some (image_bytes i)) = Ret (conv v, 0).
Proof. intros Hi Ef. unfold get_fw_field. rewrite check_hdr_ok by done. simpl. by rewrite Ef. Qed.

Lemma u16_u16 v : u16 (u16 v) = u16 v.
Proof. unfold u16. by rewrite Z.mod_mod. Qed.
Lemma u32_u32 v : u32 (u32 v) = u32 v.
Proof. unfold u32. by rewrite Z.mod_mod. Qed.

(** Bit [k] of a 16-bit word, as a bit-field load gives it. *)
Lemma field_bit v k : 0 <= k < 16 -> Z.land (Z.shiftr (u16 v) k) 1 = Z.b2z (Z.testbit v k).
Proof.
  intros Hk. rewrite land_1_bit, Z.shiftr_spec by lia. unfold u16.
  by rewrite Z.add_0_l, Z.mod_pow2_bits_low by lia.
Qed.

Lemma mode_bits i :
  image_ok i -> mode_aes_en (image_bytes i) = Ret (Z.b2z (Z.testbit (im_mode i) 10)) /\
  mode_crc_en (image_bytes i) = Ret (Z.b2z (Z.testbit (im_mode i) 11)).
Proof.
  intros Hi. destruct (image_fields i Hi) as (_ & _ & _ & _ & E4 & _).
  unfold mode_aes_en, mode_crc_en. rewrite E4. cbn [obind]. by rewrite !field_bit by lia.
Qed.

(** Every getter returns, with error code 0, the field the image was built
    with: the offsets agree with the packed layout of the three headers, and the
    encryption and CRC enables are bits 10 and 11 of the mode word. *)
Lemma fw_getters_roundtrip i :
  image_ok i -> let d := Some (image_bytes i) in
  hgic_check_fwinfo_hdr d = Ret 0 /\
  hgic_get_fw_dl_addr d = Ret (u32 (im_dl_addr i), 0) /\
  hgic_get_fw_run_addr d = Ret (u32 (im_run_addr i), 0) /\
  hgic_get_fw_code_offset d = Ret (u32 (im_code_offset i), 0) /\
  hgic_get_fw_local_crc32 d = Ret (u32 (im_crc i), 0) /\
  hgic_get_fw_sdk_version d = Ret (u32 (im_sdk i), 0) /\
  hgic_get_fw_svn_version d = Ret (u32 (im_svn i), 0) /\
  hgic_get_fw_chipid d = Ret (u16 (im_chip i), 0) /\
  hgic_get_fw_cpuid d = Ret (u8 (im_cpu i), 0) /\
  hgic_get_fw_aes_en d = Ret (Z.b2z (Z.testbit (im_mode i) 10), 0) /\
  hgic_get_fw_crc_en d = Ret (Z.b2z (Z.testbit (im_mode i) 11), 0).
Proof.
  intros Hi d. destruct (image_fields i Hi) as (E0 & E1 & E2 & E3 & E4 & E5 & E6 & E7 & E8 & E9 & E10 & E11).
  destruct (mode_bits i Hi) as [M1 M2]. split; [by apply check_hdr_ok|].
  unfold hgic_get_fw_dl_addr, hgic_get_fw_run_addr, hgic_get_fw_code_offset,
    hgic_get_fw_local_crc32, hgic_get_fw_sdk_version, hgic_get_fw_svn_version, hgic_get_fw_chipid,
    hgic_get_fw_cpuid, hgic_get_fw_aes_en, hgic_get_fw_crc_en, d.
  erewrite !(get_field_ok i) by eassumption. rewrite !u32_u32, u16_u16.
  do 8 (split; [done|]). by destruct (Z.testbit (im_mode i) 10), (Z.testbit (im_mode i) 11).
Qed.

Definition demo_image : image :=
  Image 0x20000000 0x20000101 131 0xC00 0x02010001 4321 0x4002 0 0xCBF43926
    [2; 30] (replicate 10 0) (replicate 4 0) (replicate 73 9) 25 (replicate 4 0)
    (replicate 4 0 ++ [49; 50; 51; 52; 53; 54; 55; 56; 57]).
Lemma demo_image_ok : image_ok demo_image.
Proof. split; reflexivity. Qed.

Lemma fw_getters_roundtrip_witness :
  hgic_get_fw_dl_addr (Some (image_bytes demo_image)) = Ret (0x20000000, 0).
Proof. exact (proj1 (proj2 (fw_getters_roundtrip demo_image demo_image_ok))). Defined.

(** The code check: for a well-formed image whose code starts inside it, the
    check succeeds exactly when the stored CRC is the CRC-32 of the code or its
    complement, and is -EFAULT otherwise; a code offset beyond the length the
    caller gives is refused with -EINVAL when the difference is representable,
    and read outside the image when it is not. *)
Lemma code_checksum_spec i len crc :
  image_ok i -> let d := image_bytes i in let off := u32 (im_code_offset i) in
  0 <= len <= zlen d -> zlen d < 2 ^ 31 ->
  (off <= len -> hgic_crc32 (zdrop off (ztake len d)) (len - off) = Ret crc ->
     hgic_get_fw_code_checksum (Some d) len
     = Ret (if decide (u32 (im_crc i) = crc \/ u32 (im_crc i) = Z.lxor crc 0xffffffff) then 0 else - EFAULT)) /\
  (len < off <= len + 2 ^ 31 -> hgic_get_fw_code_checksum (Some d) len = Ret (- EINVAL)) /\
  (len + 2 ^ 31 < off -> hgic_get_fw_code_checksum (Some d) len = Fault OutOfBounds).
Proof.
  intros Hi d off Hlen Hd. destruct (image_fields i Hi) as (E0 & _ & _ & E3 & _ & E5 & E6 & _ & _ & _ & _ & E11).
  pose proof (get_field_ok i u32 fw_code_crc32 _ Hi E11) as G1.
  pose proof (get_field_ok i u32 boot_code_offset_addr _ Hi E3) as G2.
  rewrite u32_u32 in G1, G2. fold off in G2.
  change (hgic_get_fw_local_crc32 (Some d) = Ret (u32 (im_crc i), 0)) in G1.
  change (hgic_get_fw_code_offset (Some d) = Ret (off, 0)) in G2.
  assert (0 <= off < 2 ^ 32) as Hoff by apply u32_range.
  unfold hgic_get_fw_code_checksum. rewrite G1. cbn [obind snd]. change (negb (0 =? 0)) with false. cbv iota.
  rewrite G2. cbn [obind snd fst]. change (negb (0 =? 0)) with false. cbv iota.
  split; [|split].
  - intros Ho Hcrc. rewrite s32_id by lia. destruct (Z.ltb_spec (len - off) 0); [lia|].
    cbn [deref obind]. rewrite mem_read_ok by lia. cbn [obind].
    assert (ztake (len - off) (zdrop off d) = zdrop off (ztake len d)) as ->.
    { unfold ztake, zdrop. rewrite take_drop_commute. f_equal. f_equal. lia. }
    rewrite Hcrc. cbn [obind].
    destruct (Z.eqb_spec crc (u32 (im_crc i))), (Z.eqb_spec (Z.lxor crc 0xffffffff) (u32 (im_crc i)));
      cbn [negb andb]; case_decide; try done; intuition congruence.
  - intros Ho. assert (s32 (len - off) = len - off) as -> by (apply s32_id; lia).
    by destruct (Z.ltb_spec (len - off) 0); [|lia].
  - intros Ho. assert (s32 (len - off) = len - off + 2 ^ 32) as ->.
    { rewrite <- s32_u32. unfold u32. replace (len - off) with (len - off + 2 ^ 32 + (-1) * 2 ^ 32) by lia.
      rewrite Z.mod_add, Z.mod_small by lia. rewrite s32_id by lia. lia. }
    destruct (Z.ltb_spec (len - off + 2 ^ 32) 0); [lia|]. cbn [deref obind]. unfold mem_read.
    destruct (Z.leb_spec (off + (len - off + 2 ^ 32)) (zlen d)); [lia|]. by rewrite andb_false_r.
Qed.

Lemma code_checksum_spec_witness :
  hgic_get_fw_code_checksum (Some (image_bytes demo_image)) 140
  = Ret (if decide (u32 0xCBF43926 = 0xCBF43926 \/ u32 0xCBF43926 = Z.lxor 0xCBF43926 0xffffffff) then 0 else - EFAULT).
Proof.
  refine (proj1 (code_checksum_spec demo_image 140 0xCBF43926 demo_image_ok _ _) _ _);
    [vm_compute; split; done|vm_compute; done|vm_compute; done|vm_compute; reflexivity].
Defined.
