(* ===== verification/Utils.v ===== *)
(** * Helpers (utils/utils.c)

    Text parsing of the configuration file and of MAC addresses, the test by
    which the bus recognises a sleep command, and buffer re-alignment. *)
From Stdlib Require Import String.
From S2P Require Import Prelude Bytes CString Proto Skb.

(** ** Definitions *)
Fixpoint skip_ff (n : nat) (data : list Z) : outcome Z :=
  match n with
  | O => Ret 0
  | S n =>
      leto b := mem_get data 0 in
      if b =? 255 then leto r := skip_ff n (zdrop 1 data) in Ret (r + 1) else Ret 0
  end.
Definition hgic_skip_padding (data : list Z) : outcome Z := skip_ff 3 data.

(** The text after the field name and the character that follows it. *)
Definition config_value (conf field : list Z) : outcome (option (list Z)) :=
  leto p := strstr conf field in Ret (zdrop (zlen field + 1) <$> p).

Definition hgic_config_read_int (conf field : list Z) : outcome Z :=
  leto p := config_value conf field in
  match p with
  | Some p => leto v := simple_strtol p 10 in Ret (s32 v)
  | None => Ret 0
  end.

Fixpoint copy_line (ptr : list Z) (size : nat) : outcome (list Z) :=
  match ptr with
  | [] => Fault OutOfBounds
  | c :: ptr' =>
      if (c =? 0) || (c =? 13) || (c =? 10) then Ret []
      else match size with
           | O => Ret []
           | S size => leto r := copy_line ptr' size in Ret (c :: r)
           end
  end.

(** The result, and the bytes stored at [str] (no terminator is stored). *)
Definition hgic_config_read_str (conf field : list Z) (size : Z) : outcome (Z * list Z) :=
  leto p := config_value conf field in
  match p with
  | Some p => leto s := copy_line p (Z.to_nat size) in Ret (0, s)
  | None => Ret (-1, [])
  end.

(** The digits at [ptr], added to [val] in [int] arithmetic. *)
Fixpoint read_digits (val : Z) (ptr : list Z) : outcome (Z * list Z) :=
  match ptr with
  | [] => Fault OutOfBounds
  | c :: ptr' =>
      if (48 <=? c) && (c <=? 57) then read_digits (s32 (s32 (val * 10) + (c - 0x30))) ptr'
      else Ret (val, ptr)
  end.

Fixpoint read_array (conv : Z -> Z) (count : nat) (ptr : list Z) : outcome (list Z) :=
  match count with
  | O => Ret []
  | S count =>
      leto r := read_digits 0 ptr in
      leto c := mem_get (snd r) 0 in
      if fst r =? 0 then Ret []
      else if negb (c =? 44) then Ret [conv (fst r)]
      else leto l := read_array conv count (zdrop 1 (snd r)) in Ret (conv (fst r) :: l)
  end.

(** The elements stored; their number is the result. *)
Definition hgic_config_read_u32_array (conf field : list Z) (count : Z) : outcome (list Z) :=
  leto p := config_value conf field in
  match p with Some p => read_array u32 (Z.to_nat count) p | None => Ret [] end.
Definition hgic_config_read_u16_array (conf field : list Z) (count : Z) : outcome (list Z) :=
  leto p := config_value conf field in
  match p with Some p => read_array u16 (Z.to_nat count) p | None => Ret [] end.

Definition hgic_hex2num (c : Z) : Z :=
  if (48 <=? c) && (c <=? 57) then c - 48
  else if (97 <=? c) && (c <=? 102) then c - 97 + 10
  else if (65 <=? c) && (c <=? 70) then c - 65 + 10
  else 0.

Definition hgic_hex2byte (hex : list Z) : outcome Z :=
  leto a := mem_get hex 0 in
  leto b := mem_get hex 1 in
  Ret (Z.lor (Z.shiftl (hgic_hex2num a) 4) (hgic_hex2num b)).

(** The loop over the colon-separated fields; [n] fields are still wanted.
    The condition reads [*ptr] before it counts. *)
Fixpoint pick_fields (n : nat) (ptr : option (list Z)) : outcome (list Z) :=
  match ptr with
  | None => Ret []
  | Some ptr =>
      leto c := mem_get ptr 0 in
      if c =? 0 then Ret [] else
      match n with
      | O => Ret []
      | S n =>
          leto p := strchr ptr 58 in
          match p with
          | Some i =>
              leto b := hgic_hex2byte (ztake i ptr ++ 0 :: zdrop (i + 1) ptr) in
              leto r := pick_fields n (Some (zdrop (i + 1) ptr)) in Ret (u8 b :: r)
          | None => leto b := hgic_hex2byte ptr in Ret [u8 b]
          end
      end
  end.

(** [stk]: the three bytes of the local [tmp[20]] the copy leaves uninitialised.
    The result is whether six fields were found, and the six bytes of [addr]. *)
Definition hgic_pick_macaddr (stk : list Z) (mac_str : option (list Z)) : outcome (bool * list Z) :=
  leto s := deref mac_str in
  leto t := mem_read s 0 17 in
  leto l := pick_fields 6 (Some (t ++ resize 3 0 stk)) in
  Ret (bool_decide (zlen l = 6), l ++ replicate (6 - length l) 0).

Fixpoint strip_loop (fuel : nat) (s : list Z) (i : Z) : outcome (list Z) :=
  match fuel with
  | O => Fault Diverges
  | S fuel =>
      leto c := mem_get s i in
      if (c =? 13) || (c =? 10) then
        leto s := mem_write s i [0] in strip_loop fuel s (u32 (i - 1))
      else Ret s
  end.
Definition hgic_strip_tail (s : list Z) (len : Z) : outcome (list Z) :=
  strip_loop (S (S (length s))) s (u32 (len - 1)).

Definition hgic_is_enter_sleep (data : list Z) : outcome Z :=
  leto m := hdr_magic data in
  leto t := hdr_type data in
  if ((m =? HGIC_HDR_TX_MAGIC) || (m =? HGIC_HDR_RX_MAGIC))
     && ((t =? HGIC_HDR_TYPE_CMD) || (t =? HGIC_HDR_TYPE_CMD2)) then
    leto id := HDR_CMDID data in
    if id =? HGIC_CMD_ENTER_SLEEP then get16_at data sizeof_hgic_ctrl_hdr else Ret 0
  else Ret 0.

(** [blk] is the block the allocator returned for the size below (or nothing),
    [addr] its address. *)
Definition skb_expand_size (s : skb) (head_size align : Z) : Z :=
  Z.max (skb_headroom s) head_size + skb_tailroom s + skb_len s + align.
Definition hgic_skb_expand (blk : option (list Z)) (addr : Z) (s : skb) (head_size align : Z)
  : outcome (option skb) :=
  let headerlen := Z.max (skb_headroom s) head_size in
  match blk with
  | None => Ret None
  | Some blk =>
      leto n := skb_reserve (skb_of_block blk) headerlen in
      let pad := (- (addr + headerlen)) mod align in
      leto n := skb_reserve n pad in
      leto n := skb_put n (skb_len s) in
      leto n := skb_write n 0 (skb_data s) in
      Ret (Some n)
  end.

Definition hgic_clear_queue {A} (q : list A) : list A := [].

(** ** Lemmas *)
Definition hex_digit (v : Z) : Z := if v <? 10 then 48 + v else 97 + (v - 10).
Definition hex_byte (b : Z) : list Z := [hex_digit (b / 16); hex_digit (b mod 16)].

Lemma hex2num_digit v : 0 <= v < 16 -> hgic_hex2num (hex_digit v) = v.
Proof.
  intros. unfold hgic_hex2num, hex_digit. destruct (Z.ltb_spec v 10).
  - destruct (Z.leb_spec 48 (48 + v)), (Z.leb_spec (48 + v) 57); simpl; lia.
  - destruct (Z.leb_spec 48 (97 + (v - 10))), (Z.leb_spec (97 + (v - 10)) 57); simpl; try lia.
    destruct (Z.leb_spec 97 (97 + (v - 10))), (Z.leb_spec (97 + (v - 10)) 102); simpl; lia.
Qed.

Lemma hex_digit_range v : 0 <= v < 16 -> 48 <= hex_digit v <= 57 \/ 97 <= hex_digit v <= 102.
Proof. intros. unfold hex_digit. destruct (Z.ltb_spec v 10); lia. Qed.

Lemma hex2byte_byte b l : is_byte b -> hgic_hex2byte (hex_byte b ++ l) = Ret b.
Proof.
  intros Hb. unfold hgic_hex2byte, hex_byte, is_byte in *.
  assert (0 <= b / 16 < 16) by (split; [apply Z.div_pos; lia|apply Z.div_lt_upper_bound; lia]).
  pose proof (Z.mod_pos_bound b 16).
  change (mem_get _ 0) with (Ret (hex_digit (b / 16))). cbn [obind app].
  change (mem_get _ 1) with (Ret (hex_digit (b mod 16))). cbn [obind].
  rewrite !hex2num_digit by lia. f_equal. rewrite Z.lor_comm, lor_shiftl_add by lia.
  pose proof (Z.div_mod b 16). lia.
Qed.

Lemma hex_byte_no_colon b : is_byte b -> Forall (fun c => c <> 0 /\ c <> 58) (hex_byte b).
Proof.
  intros Hb. unfold is_byte in Hb.
  assert (0 <= b / 16 < 16) by (split; [apply Z.div_pos; lia|apply Z.div_lt_upper_bound; lia]).
  pose proof (Z.mod_pos_bound b 16).
  pose proof (hex_digit_range (b / 16)). pose proof (hex_digit_range (b mod 16)).
  repeat constructor; lia.
Qed.

Lemma pick_fields_step n b l :
  is_byte b -> pick_fields (S n) (Some (hex_byte b ++ 58 :: l))
  = (leto r := pick_fields n (Some l) in Ret (b :: r)).
Proof.
  intros Hb. cbn [pick_fields].
  pose proof (hex_byte_no_colon b Hb) as Hc.
  change (mem_get (hex_byte b ++ 58 :: l) 0) with (Ret (hex_digit (b / 16))). cbn [obind].
  destruct (Z.eqb_spec (hex_digit (b / 16)) 0) as [E|_]; [by inversion Hc as [|? ? []]|].
  rewrite strchr_found by done. cbn [obind].
  rewrite ztake_app_length by done.
  replace (hex_byte b ++ 58 :: l) with ((hex_byte b ++ [58]) ++ l) by (by rewrite <- app_assoc).
  rewrite zdrop_app_length by done. rewrite hex2byte_byte by done. cbn [obind].
  by rewrite u8_id.
Qed.

(** The text of a MAC address. *)
Definition mac_text (b0 b1 b2 b3 b4 b5 : Z) : list Z :=
  hex_byte b0 ++ 58 :: hex_byte b1 ++ 58 :: hex_byte b2 ++ 58 ::
  hex_byte b3 ++ 58 :: hex_byte b4 ++ 58 :: hex_byte b5.

Lemma mac_text_fields b0 b1 b2 b3 b4 b5 l :
  is_byte b0 -> is_byte b1 -> is_byte b2 -> is_byte b3 -> is_byte b4 ->
  pick_fields 6 (Some (mac_text b0 b1 b2 b3 b4 b5 ++ l))
  = (leto r := pick_fields 1 (Some (hex_byte b5 ++ l)) in Ret (b0 :: b1 :: b2 :: b3 :: b4 :: r)).
Proof.
  intros. unfold mac_text. repeat rewrite <- ?app_assoc, <- ?app_comm_cons.
  rewrite !pick_fields_step by done.
  by destruct (pick_fields 1 (Some (hex_byte b5 ++ l))).
Qed.

Lemma mac_text_read b0 b1 b2 b3 b4 b5 l :
  mem_read (mac_text b0 b1 b2 b3 b4 b5 ++ l) 0 17 = Ret (mac_text b0 b1 b2 b3 b4 b5).
Proof. by apply (mem_read_mid _ [] _ l). Qed.

(** The bytes the last field's scan meets decide whether it stays in bounds. *)
Lemma last_field b l c :
  is_byte b -> c = 0 \/ c = 58 /\ l <> [] -> pick_fields 1 (Some (hex_byte b ++ c :: l)) = Ret [b].
Proof.
  intros Hb [->|[-> Hl]].
  - cbn [pick_fields]. pose proof (hex_byte_no_colon b Hb) as Hc.
    change (mem_get (hex_byte b ++ 0 :: l) 0) with (Ret (hex_digit (b / 16))). cbn [obind].
    destruct (Z.eqb_spec (hex_digit (b / 16)) 0) as [E|_]; [by inversion Hc as [|? ? []]|].
    rewrite strchr_none by done. cbn [obind]. rewrite hex2byte_byte by done. cbn [obind].
    by rewrite u8_id.
  - rewrite pick_fields_step by done. destruct l as [|x l]; [done|].
    cbn [pick_fields]. rewrite mem_get_head. cbn [obind]. by destruct (x =? 0).
Qed.

(** Stack bytes that stop the scan of the last field. *)
Definition stk_ok (stk : list Z) : Prop :=
  exists j0 l, resize 3 0 stk = j0 :: l /\ l <> [] /\ (j0 = 0 \/ j0 = 58).

Lemma pick_macaddr_ok stk b0 b1 b2 b3 b4 b5 rest :
  Forall is_byte [b0; b1; b2; b3; b4; b5] -> stk_ok stk ->
  hgic_pick_macaddr stk (Some (mac_text b0 b1 b2 b3 b4 b5 ++ rest))
  = Ret (true, [b0; b1; b2; b3; b4; b5]).
Proof.
  intros H (j0 & l & E & Hl & Hj).
  repeat match goal with H : Forall _ (_ :: _) |- _ => apply Forall_cons in H as [? H] end.
  unfold hgic_pick_macaddr. cbn [deref obind]. rewrite mac_text_read. cbn [obind]. rewrite E.
  rewrite mac_text_fields, last_field by (done || (destruct Hj; [by left|by right])). reflexivity.
Qed.

(** ** Lists of numbers in the configuration *)
Lemma read_digits_app ds c l val :
  Forall (fun c => isdigit c = true) ds -> isdigit c = false -> 0 <= val ->
  fold_left (fun a c => a * 10 + (c - 48)) ds val < 2 ^ 31 ->
  read_digits val (ds ++ c :: l) = Ret (fold_left (fun a c => a * 10 + (c - 48)) ds val, c :: l).
Proof.
  intros Hd Hc. revert val. induction Hd as [|d ds Hd Hds IH]; intros val Hv Hm; cbn [app read_digits fold_left] in *.
  - unfold isdigit in Hc. by rewrite Hc.
  - unfold isdigit in Hd. rewrite Hd. apply isdigit_range in Hd as Hr.
    assert (forall ds v, Forall (fun c => isdigit c = true) ds -> 0 <= v ->
      v <= fold_left (fun a c => a * 10 + (c - 48)) ds v) as Hmono.
    { clear. intros ds v H. revert v. induction H as [|c ds Hc%isdigit_range _ IH]; intros v Hv; simpl; [lia|].
      specialize (IH (v * 10 + (c - 48))). lia. }
    pose proof (Hmono ds (val * 10 + (d - 48)) Hds ltac:(lia)).
    rewrite (s32_id (val * 10)), s32_id by lia. apply IH; lia.
Qed.

(** Numerals separated by commas, ended by [c]. *)
Fixpoint numerals (l : list (list Z)) (c : Z) (rest : list Z) : list Z :=
  match l with
  | [] => c :: rest
  | [s] => s ++ c :: rest
  | s :: l' => s ++ 44 :: numerals l' c rest
  end.

Definition config_numeral (s : list Z) : Prop := dec_string s /\ 0 < dec_val s < 2 ^ 31.

Lemma read_array_numerals conv l c rest n :
  Forall config_numeral l -> isdigit c = false -> c <> 44 -> l <> [] -> (length l <= n)%nat ->
  read_array conv n (numerals l c rest) = Ret (map (fun s => conv (dec_val s)) l).
Proof.
  intros Hl Hc H44. revert n. induction Hl as [|s l [Hs Hv] Hl IH]; intros n Hne Hn; [done|].
  destruct n as [|n]; [simpl in Hn; lia|]. cbn [read_array].
  destruct l as [|s' l'].
  - cbn [numerals]. rewrite read_digits_app by (done || apply Hs || apply Hv).
    fold (dec_val s). cbn [obind fst snd]. rewrite mem_get_head. cbn [obind].
    destruct (Z.eqb_spec (dec_val s) 0); [lia|]. by destruct (Z.eqb_spec c 44).
  - change (numerals (s :: s' :: l') c rest) with (s ++ 44 :: numerals (s' :: l') c rest).
    rewrite read_digits_app by (done || apply Hs || apply Hv).
    fold (dec_val s). cbn [obind fst snd]. rewrite mem_get_head. cbn [obind].
    destruct (Z.eqb_spec (dec_val s) 0); [lia|]. change (44 =? 44) with true. cbn [negb].
    change (zdrop 1 (44 :: numerals (s' :: l') c rest)) with (numerals (s' :: l') c rest).
    rewrite IH; [done|done|simpl in *; lia].
Qed.

(** ** Properties *)

(** A MAC address written as six two-digit fields is read back as its six
    bytes, whatever follows it in the text, provided the uninitialised rest of
    the local buffer happens to stop the scan of the last field. *)
Lemma pick_macaddr_roundtrip b0 b1 b2 b3 b4 b5 rest j0 j1 j2 :
  Forall is_byte [b0; b1; b2; b3; b4; b5] ->
  j0 = 0 \/ j0 = 58 ->
  hgic_pick_macaddr [j0; j1; j2] (Some (mac_text b0 b1 b2 b3 b4 b5 ++ rest))
  = Ret (true, [b0; b1; b2; b3; b4; b5]).
Proof.
  intros H Hj. apply pick_macaddr_ok; [done|].
  exists j0, [j1; j2]. split; [reflexivity|]. by destruct Hj; auto.
Qed.

Lemma pick_macaddr_roundtrip_witness :
  hgic_pick_macaddr [0; 7; 7] (Some (str "0a:1b:2c:3d:4e:ff" ++ [0])) = Ret (true, [10; 27; 44; 61; 78; 255]).
Proof.
  apply (pick_macaddr_roundtrip 10 27 44 61 78 255 [0] 0 7 7); [|by left].
  repeat constructor; vm_compute; done.
Defined.

(** The scan of the last field is only stopped by luck: for every valid MAC
    text, uninitialised stack bytes that are neither NUL nor a colon make
    [hgic_pick_macaddr] read past its local buffer. *)
Lemma pick_macaddr_stack_overread b0 b1 b2 b3 b4 b5 rest j0 j1 j2 :
  Forall is_byte [b0; b1; b2; b3; b4; b5] ->
  Forall (fun j => j <> 0 /\ j <> 58) [j0; j1; j2] ->
  hgic_pick_macaddr [j0; j1; j2] (Some (mac_text b0 b1 b2 b3 b4 b5 ++ rest)) = Fault OutOfBounds.
Proof.
  intros H Hj. inversion_clear H as [|? ? H0 H']. inversion_clear H' as [|? ? H1 H].
  inversion_clear H as [|? ? H2 H']. inversion_clear H' as [|? ? H3 H].
  inversion_clear H as [|? ? H4 H']. inversion_clear H' as [|? ? H5 _].
  unfold hgic_pick_macaddr. cbn [deref obind]. rewrite mac_text_read. cbn [obind].
  change (resize 3 0 [j0; j1; j2]) with [j0; j1; j2]. rewrite mac_text_fields by done.
  pose proof (hex_byte_no_colon b5 H5) as Hc. cbn [pick_fields].
  change (mem_get (hex_byte b5 ++ [j0; j1; j2]) 0) with (Ret (hex_digit (b5 / 16))). cbn [obind].
  destruct (Z.eqb_spec (hex_digit (b5 / 16)) 0) as [E|_]; [by inversion Hc as [|? ? []]|].
  assert (strchr (hex_byte b5 ++ [j0; j1; j2]) 58 = Fault OutOfBounds) as ->; [|done].
  assert (Forall (fun c => c <> 0 /\ c <> 58) (hex_byte b5 ++ [j0; j1; j2])) as Hall
    by (apply Forall_app; done).
  induction Hall as [|c l [? ?] _ IH]; [done|]. cbn [strchr].
  destruct (Z.eqb_spec c 58); [done|]. destruct (Z.eqb_spec c 0); [done|]. by rewrite IH.
Qed.

Lemma pick_macaddr_stack_overread_witness :
  hgic_pick_macaddr [1; 1; 1] (Some (str "0a:1b:2c:3d:4e:ff" ++ [0])) = Fault OutOfBounds.
Proof.
  apply (pick_macaddr_stack_overread 10 27 44 61 78 255 [0] 1 1 1); repeat constructor; vm_compute; done.
Defined.

(** A configuration entry [field=n1,n2,...] yields exactly its numbers, in
    order, when the array has room: numerals of values in 1 .. 2^31-1, ended by
    any character that is neither a digit nor a comma. *)
Lemma config_array_roundtrip before field sep l c rest count :
  no_nul before -> no_nul field -> no_nul (sep :: numerals l c []) -> c <> 0 ->
  (forall n, (n < length before)%nat ->
     take (length field) (drop n (before ++ field ++ sep :: numerals l c [])) <> field) ->
  Forall config_numeral l -> l <> [] -> isdigit c = false -> c <> 44 -> zlen l <= count ->
  hgic_config_read_u32_array (before ++ field ++ sep :: numerals l c (0 :: rest)) field count
  = Ret (map dec_val l).
Proof.
  intros Hb Hf Hn Hc0 Hfirst Hl Hne Hc H44 Hcnt.
  assert (forall l c r, numerals l c r = numerals l c [] ++ r) as Hnum.
  { clear. intros l c r. induction l as [|s [|s' l'] IH]; [done|simpl; by rewrite <- app_assoc|].
    change (numerals (s :: s' :: l') c r) with (s ++ 44 :: numerals (s' :: l') c r).
    rewrite IH. change (numerals (s :: s' :: l') c []) with (s ++ 44 :: numerals (s' :: l') c []).
    by rewrite <- app_assoc. }
  set (line := before ++ field ++ sep :: numerals l c []) in *.
  assert (before ++ field ++ sep :: numerals l c (0 :: rest) = line ++ 0 :: rest) as ->.
  { unfold line. rewrite (Hnum l c (0 :: rest)), <- !app_assoc. by cbn [app]. }
  assert (no_nul line) as Hline by (unfold line; repeat (apply Forall_app; split; [done|]); done).
  unfold hgic_config_read_u32_array, config_value, strstr. rewrite cstr_app by done. cbn [obind].
  rewrite zdrop_app_length by done.
  assert (forall t, strstr_content line field t = Some (field ++ sep :: numerals l c [] ++ t)) as Hstr.
  { intros t. unfold line. unfold line in Hfirst. clear - Hfirst.
    induction before as [|x b IH]; cbn [app].
    - set (r := sep :: numerals l c []).
      assert (take (length field) (field ++ r) = field) as E by apply take_app_length.
      assert (exists x y, field ++ r = x :: y) as (x & y & Exy) by (destruct field; eauto).
      change (sep :: numerals l c [] ++ t) with (r ++ t). rewrite (app_assoc field).
      rewrite Exy in *. cbn [strstr_content]. by rewrite bool_decide_eq_true_2.
    - cbn [strstr_content]. rewrite bool_decide_eq_false_2.
      + apply IH. intros n Hn. apply (Hfirst (S n)). simpl. lia.
      + apply (Hfirst 0%nat). simpl. lia. }
  rewrite Hstr. cbn [obind fmap option_fmap option_map].
  replace (field ++ sep :: numerals l c [] ++ 0 :: rest)
    with ((field ++ [sep]) ++ numerals l c (0 :: rest)) by (rewrite (Hnum l c (0 :: rest)), <- app_assoc; done).
  rewrite zdrop_app_length by (by rewrite zlen_app).
  rewrite read_array_numerals; [|done..|unfold zlen in Hcnt; lia]. f_equal.
  apply map_ext_in. intros s Hs%list_elem_of_In.
  rewrite Forall_forall in Hl. destruct (Hl s Hs) as [_ ?]. apply u32_id. lia.
Qed.

Lemma config_array_roundtrip_witness :
  hgic_config_read_u32_array (str "a=1
freq=9080,9160
" ++ 0 :: [7]) (str "freq") 8 = Ret [9080; 9160].
Proof.
  apply (config_array_roundtrip (str "a=1
") (str "freq") 61 [str "9080"; str "9160"] 10 [7] 8); try done.
  - repeat constructor; done.
  - repeat constructor; done.
  - repeat constructor; done.
  - intros n Hn. do 4 (destruct n as [|n]; [vm_compute; done|]). simpl in Hn. lia.
  - repeat constructor; try done.
Defined.

(** The bus recognises exactly the sleep commands: on a command frame with a
    16-bit payload field, [hgic_is_enter_sleep] returns that field when the
    frame is ENTER_SLEEP and 0 for every other command. *)
Lemma is_enter_sleep_spec d id v :
  hdr_magic d = Ret HGIC_HDR_TX_MAGIC ->
  hdr_type d = Ret (type_code HGIC_HDR_TYPE_CMD) \/ hdr_type d = Ret (type_code HGIC_HDR_TYPE_CMD2) ->
  HDR_CMDID d = Ret (cmd_code id) -> get16_at d sizeof_hgic_ctrl_hdr = Ret v ->
  hgic_is_enter_sleep d = Ret (if decide (id = HGIC_CMD_ENTER_SLEEP) then v else 0).
Proof.
  intros Hm Ht Hid Hv. unfold hgic_is_enter_sleep. rewrite Hm. cbn [obind].
  destruct (Z.eqb_spec (cmd_code id) (cmd_code HGIC_CMD_ENTER_SLEEP)) as [E|E].
  - apply (inj cmd_code) in E as ->. rewrite decide_True by done.
    destruct Ht as [-> | ->]; cbn [obind]; rewrite Hid, Hv; reflexivity.
  - rewrite decide_False by (by intros ->).
    destruct Ht as [-> | ->]; cbn [obind]; rewrite Hid; cbn [obind];
      (destruct (Z.eqb_spec (cmd_code id) (cmd_code HGIC_CMD_ENTER_SLEEP)); done).
Qed.

Lemma is_enter_sleep_spec_witness :
  hgic_is_enter_sleep [0x2B; 0x1A; 3; 1; 18; 0; 5; 0; 46; 0; 0; 0; 255; 255; 1; 2; 3; 4]
  = Ret (if decide (HGIC_CMD_ENTER_SLEEP = HGIC_CMD_ENTER_SLEEP) then 65535 else 0).
Proof. apply is_enter_sleep_spec; [reflexivity|left; reflexivity|reflexivity|reflexivity]. Defined.

(** Re-alignment keeps the frame: the new buffer holds the same bytes at an
    address that is a multiple of the alignment, with at least the head room
    that was asked for. *)
Lemma skb_expand_aligned blk addr s head_size align :
  1 <= align -> 0 <= head_size -> zlen blk = skb_expand_size s head_size align ->
  exists n, hgic_skb_expand (Some blk) addr s head_size align = Ret (Some n) /\
    skb_data n = skb_data s /\ head_size <= skb_headroom n /\
    (addr + skb_headroom n) mod align = 0.
Proof.
  intros Ha Hh Hl. unfold skb_expand_size, skb_tailroom, skb_len, skb_headroom in *.
  pose proof (zlen_nonneg (skb_head s)). pose proof (zlen_nonneg (skb_data s)).
  pose proof (zlen_nonneg (skb_tail s)).
  unfold hgic_skb_expand, skb_headroom. set (h := Z.max (zlen (skb_head s)) head_size) in *.
  assert (0 <= h /\ head_size <= h) as [Hh0 Hh1] by (unfold h; lia). clearbody h.
  pose proof (Z.mod_pos_bound (- (addr + h)) align) as Hp.
  set (pad := (- (addr + h)) mod align) in *.
  assert (forall t n d hd, 0 <= n <= zlen t -> d = [] ->
    skb_reserve (Skb hd d t) n = Ret (Skb (hd ++ ztake n t) [] (zdrop n t))) as R.
  { intros t n d hd Hn ->. unfold skb_reserve, skb_tailroom. cbn [skb_tail skb_data skb_head].
    rewrite bool_decide_eq_true_2 by done.
    destruct (Z.leb_spec 0 n), (Z.leb_spec n (zlen t)); simpl; done || lia. }
  unfold skb_of_block. rewrite R by (done || lia). cbn [obind app].
  rewrite R by (done || (rewrite zlen_zdrop; lia)). cbn [obind].
  rewrite zdrop_zdrop by lia. set (t := zdrop (h + pad) blk).
  assert (zlen (skb_data s) <= zlen t) as Ht by (unfold t; rewrite zlen_zdrop; lia).
  unfold skb_put, skb_tailroom. cbn [skb_tail skb_data skb_head].
  destruct (Z.leb_spec 0 (skb_len s)), (Z.leb_spec (skb_len s) (zlen t)); unfold skb_len in *; try lia.
  cbn [andb obind app]. unfold skb_write. cbn [skb_tail skb_data skb_head].
  rewrite ztake_zdrop.
  rewrite (mem_write_mid t [] (ztake (zlen (skb_data s)) t) (zdrop (zlen (skb_data s)) t));
    [|by rewrite app_nil_l, ztake_zdrop|done|by rewrite zlen_ztake].
  cbn [obind app]. eexists. split; [reflexivity|]. cbn [skb_data skb_head]. unfold skb_len. cbn [skb_data].
  rewrite zlen_ztake by done. split; [by apply ztake_app_length|].
  rewrite zlen_app, !zlen_ztake; [|rewrite zlen_zdrop; lia|lia]. split; [lia|].
  unfold pad. rewrite Z.add_assoc, Zplus_mod_idemp_r. replace (addr + h + - (addr + h)) with 0 by lia. done.
Qed.

Lemma skb_expand_aligned_witness :
  exists n, hgic_skb_expand (Some (replicate 13 7)) 1002 (Skb [0; 0] [1; 2; 3] []) 6 4 = Ret (Some n) /\
    skb_data n = [1; 2; 3] /\ 6 <= skb_headroom n /\ (1002 + skb_headroom n) mod 4 = 0.
Proof. apply (skb_expand_aligned (replicate 13 7) 1002 (Skb [0; 0] [1; 2; 3] []) 6 4); [lia|lia|reflexivity]. Defined.

(** Line ends at the end of what is left are cleared. *)
Lemma strip_loop_clears pre d z fuel :
  Forall (fun b => b = 13 \/ b = 10) d -> zlen pre + zlen d < 2 ^ 31 -> (length d <= fuel)%nat ->
  strip_loop fuel (pre ++ d ++ z) (u32 (zlen pre + zlen d - 1))
  = strip_loop (fuel - length d) (pre ++ replicate (length d) 0 ++ z) (u32 (zlen pre - 1)).
Proof.
  pose proof (zlen_nonneg pre). intros Hd. revert z fuel. induction d as [|b d IH] using rev_ind; intros z fuel Hl Hf.
  - change (zlen []) with 0. rewrite Nat.sub_0_r. simpl. do 2 f_equal. lia.
  - apply Forall_app in Hd as [Hd Hb]. inversion_clear Hb as [|? ? Hb' _].
    rewrite length_app in Hf. simpl in Hf. destruct fuel as [|fuel]; [lia|].
    pose proof (zlen_nonneg d). rewrite !zlen_app in *. change (zlen [b]) with 1 in *.
    rewrite (u32_id (zlen pre + (zlen d + 1) - 1)) by lia. cbn [strip_loop].
    assert (mem_get (pre ++ (d ++ [b]) ++ z) (zlen pre + (zlen d + 1) - 1) = Ret b) as ->.
    { replace (pre ++ (d ++ [b]) ++ z) with ((pre ++ d) ++ b :: z) by (by rewrite <- !app_assoc).
      rewrite (mem_get_mid _ (pre ++ d) b z); [done|done|rewrite zlen_app; lia]. }
    cbn [obind]. replace ((b =? 13) || (b =? 10)) with true by (destruct Hb' as [-> | ->]; done).
    rewrite (mem_write_mid _ (pre ++ d) [b] z);
      [|by rewrite <- !app_assoc|rewrite zlen_app; lia|done].
    cbn [obind]. replace (zlen pre + (zlen d + 1) - 1 - 1) with (zlen pre + zlen d - 1) by lia.
    rewrite <- app_assoc, IH by (done || lia). rewrite length_app. cbn [length].
    rewrite replicate_add, <- app_assoc. cbn [replicate app]. f_equal. lia.
Qed.

(** [hgic_strip_tail] ends and clears exactly the line ends at the end of a
    text that has a character before them; a text of line ends only makes its
    unsigned index wrap, and the access is out of bounds. *)
Lemma strip_tail_spec s c tail :
  c <> 13 /\ c <> 10 -> Forall (fun b => b = 13 \/ b = 10) tail -> zlen s + zlen tail < 2 ^ 30 ->
  hgic_strip_tail (s ++ c :: tail) (zlen (s ++ c :: tail)) = Ret (s ++ c :: replicate (length tail) 0) /\
  (tail <> [] -> hgic_strip_tail tail (zlen tail) = Fault OutOfBounds).
Proof.
  intros [Hc1 Hc2] Ht Hlen. pose proof (zlen_nonneg s). pose proof (zlen_nonneg tail).
  split.
  - unfold hgic_strip_tail.
    assert (exists pre, pre = s ++ [c] /\ zlen pre = zlen s + 1) as (pre & Epre & Hpre)
      by (eexists; split; [done|by rewrite zlen_app]).
    replace (s ++ c :: tail) with (pre ++ tail) by (rewrite Epre; by rewrite <- app_assoc).
    rewrite zlen_app. pose proof (strip_loop_clears pre tail [] (S (S (length (pre ++ tail)))) Ht) as L0.
    rewrite !app_nil_r in L0. rewrite L0 by (rewrite ?length_app; lia).
    rewrite Hpre, u32_id by lia.
    replace (S (S (length (pre ++ tail))) - length tail)%nat with (S (S (length pre)))
      by (rewrite !length_app; lia).
    rewrite Epre.
    cbn [strip_loop]. rewrite <- app_assoc.
    assert (mem_get (s ++ [c] ++ replicate (length tail) 0) (zlen s + 1 - 1) = Ret c) as ->.
    { unfold mem_get. destruct (Z.leb_spec 0 (zlen s + 1 - 1)); [|lia].
      cbn [app]. rewrite list_lookup_middle; [done|unfold zlen; lia]. }
    cbn [obind]. destruct (Z.eqb_spec c 13); [done|]. by destruct (Z.eqb_spec c 10).
  - intros Hne. unfold hgic_strip_tail. rewrite <- (app_nil_r tail) at 2.
    pose proof (strip_loop_clears [] tail [] (S (S (length tail))) Ht) as L0. cbn [app] in L0.
    change (zlen [] + zlen tail - 1) with (zlen tail - 1) in L0.
    rewrite L0; [|change (zlen []) with 0; lia|lia].
    replace (S (S (length tail)) - length tail)%nat with 2%nat by lia.
    change (u32 (zlen [] - 1)) with 4294967295. cbn [strip_loop].
    assert (mem_get (replicate (length tail) 0 ++ []) 4294967295 = Fault OutOfBounds) as ->; [|done].
    unfold mem_get. change (0 <=? 4294967295) with true. cbv iota.
    rewrite lookup_ge_None_2; [done|]. rewrite app_nil_r, length_replicate. unfold zlen in *. lia.
Qed.

Lemma strip_tail_spec_witness :
  hgic_strip_tail [65; 13; 10] 3 = Ret [65; 0; 0] /\
  ([13; 10] <> [] -> hgic_strip_tail [13; 10] 2 = Fault OutOfBounds).
Proof. apply (strip_tail_spec [] 65 [13; 10]); 
    [lia|constructor; [by left|constructor; [by right|constructor]]|vm_compute; done]. Defined.
