(* ===== verification/Format.v ===== *)
(** * Formatted output

    The kernel's [sprintf] as the driver uses it: the format string is walked
    byte by byte and [%d], [%u], [%x], [%s], a field width, which may be filled
    with zeros, and the kernel's [%pM] are replaced by the text of the next
    argument.  [sprintf_at] is the call with
    its effect on the buffer: the text and its terminator are stored, and a
    buffer that is too short is a fault, not a longer buffer.

    The lemmas give the text of a number its length and read it back. *)
From Stdlib Require Import String.
From S2P Require Import Prelude Bytes CString Utils.

(** ** Numbers as text *)
(** The decimal digits of [n], before [acc]; a 64-bit number has at most 20. *)
Fixpoint dec_digits (fuel : nat) (n : Z) (acc : list Z) : list Z :=
  match fuel with
  | O => acc
  | S fuel =>
      let acc := 48 + n mod 10 :: acc in
      if n / 10 =? 0 then acc else dec_digits fuel (n / 10) acc
  end.
Definition unsigned_text (n : Z) : list Z := dec_digits 20 n [].
Definition signed_text (v : Z) : list Z := if v <? 0 then 45 :: unsigned_text (- v) else unsigned_text v.

(** Hexadecimal digits; a 64-bit number has at most 16. *)
Fixpoint hex_digits (fuel : nat) (n : Z) (acc : list Z) : list Z :=
  match fuel with
  | O => acc
  | S fuel =>
      let acc := hex_digit (n mod 16) :: acc in
      if n / 16 =? 0 then acc else hex_digits fuel (n / 16) acc
  end.
Definition hex_text (n : Z) : list Z := hex_digits 16 n [].

(** ** The format *)
Inductive farg :=
  | AInt (v : Z)         (* an integer, as wide as the conversion takes it *)
  | AMem (p : list Z).   (* a pointer: the memory from there on *)

(** In the text, in a conversion of the given field width, filled with zeros or
    blanks, in one of a long integer, behind [%p]. *)
Inductive fstate := Text | Conv (zero : bool) (width : Z) | Long | Ptr.

Definition fill (zero : bool) : Z := if zero then 48 else 32.
Definition pad_left (c w : Z) (t : list Z) : list Z := replicate (Z.to_nat (w - zlen t)) c ++ t.

(** [%d] 100, [%u] 117, [%x] 120, [%s] 115 *)
Definition conv_text (c : Z) (a : farg) : outcome (list Z) :=
  match a with
  | AInt v => if c =? 100 then Ret (signed_text (s32 v))
              else if c =? 117 then Ret (unsigned_text (u32 v))
              else if c =? 120 then Ret (hex_text (u32 v)) else Fault OutOfBounds
  | AMem p => if c =? 115 then cstr p else Fault OutOfBounds
  end.

(** [%lu] and [%lx] 120 *)
Definition long_text (c : Z) (a : farg) : outcome (list Z) :=
  match a with
  | AInt v => if c =? 117 then Ret (unsigned_text (v mod 2 ^ 64))
              else if c =? 120 then Ret (hex_text (v mod 2 ^ 64)) else Fault OutOfBounds
  | AMem _ => Fault OutOfBounds
  end.

(** Six bytes in hexadecimal with colons between them. *)
Definition mac_conv (p : list Z) : outcome (list Z) :=
  leto b := mem_read p 0 6 in
  match b with
  | [b0; b1; b2; b3; b4; b5] => Ret (mac_text b0 b1 b2 b3 b4 b5)
  | _ => Fault OutOfBounds
  end.

(** A conversion without an argument reads a register or the stack, and a
    format that ends in a conversion is not completed: the program has neither,
    and fills only unsigned numbers with zeros. *)
Fixpoint format (st : fstate) (fmt : list Z) (args : list farg) : outcome (list Z) :=
  match fmt with
  | [] => match st with Text => Ret [] | _ => Fault OutOfBounds end
  | c :: fmt =>
      match st with
      | Text => if c =? 37 then format (Conv false 0) fmt args
                else leto r := format Text fmt args in Ret (c :: r)
      | Conv z w =>
          if isdigit c then format (Conv (z || ((w =? 0) && (c =? 48))) (w * 10 + (c - 48))) fmt args
          else if c =? 112 then format Ptr fmt args
          else if c =? 108 then format Long fmt args
          else match args with
               | a :: args =>
                   leto t := conv_text c a in
                   leto r := format Text fmt args in Ret (pad_left (fill z) w t ++ r)
               | [] => Fault OutOfBounds
               end
      | Long => match args with
                | a :: args =>
                    leto t := long_text c a in
                    leto r := format Text fmt args in Ret (t ++ r)
                | [] => Fault OutOfBounds
                end
      | Ptr => match args with
               | AMem p :: args =>
                   leto t := mac_conv p in
                   leto r := format Text fmt args in Ret (t ++ r)
               | _ => Fault OutOfBounds
               end
      end
  end.

Definition crlf : list Z := [13; 10].
Definition lf : list Z := [10].
Definition tab : list Z := [9].

(** [sprintf(buf + off, fmt, ...)]: the length of the text and the buffer. *)
Definition sprintf_at (buf : list Z) (off : Z) (fmt : list Z) (args : list farg) : outcome (Z * list Z) :=
  leto t := format Text fmt args in
  leto buf := mem_write buf off (t ++ [0]) in Ret (zlen t, buf).

(** [snprintf(buf + off, size - off, fmt, ...)]: the text is cut to the room
    that is left; without room the kernel warns and writes nothing. *)
Definition snprintf_at (buf : list Z) (off size : Z) (fmt : list Z) (args : list farg) : outcome (Z * list Z) :=
  leto t := format Text fmt args in
  let room := size - off in
  if room <? 0 then Ret (0, buf) else
  if room =? 0 then Ret (zlen t, buf) else
  leto buf := mem_write buf off (ztake (room - 1) t ++ [0]) in Ret (zlen t, buf).

(** ** Lemmas *)
Lemma dec_digits_spec fuel n acc :
  0 <= n < 10 ^ Z.of_nat (S fuel) ->
  exists ds, dec_digits (S fuel) n acc = ds ++ acc /\ dec_string ds /\ dec_val ds = n /\
    n < 10 ^ zlen ds /\ (10 <= n -> 10 ^ (zlen ds - 1) <= n) /\ (n < 10 -> zlen ds = 1).
Proof.
  revert n acc. induction fuel as [|fuel IH]; intros n acc Hn.
  - cbn [dec_digits]. change (10 ^ Z.of_nat 1) with 10 in Hn.
    rewrite Z.div_small, Z.mod_small by lia. exists [48 + n].
    split; [done|]. split; [split; [|done]; repeat constructor; apply isdigit_range; lia|].
    unfold dec_val. simpl. change (zlen [48 + n]) with 1. lia.
  - remember (S fuel) as f. cbn [dec_digits]. pose proof (Z.div_mod n 10). pose proof (Z.mod_pos_bound n 10).
    assert (isdigit (48 + n mod 10) = true) as Hd by (apply isdigit_range; lia).
    destruct (Z.eqb_spec (n / 10) 0) as [E|E].
    + exists [48 + n mod 10]. split; [done|]. split; [split; [|done]; by repeat constructor|].
      unfold dec_val. simpl. change (zlen [48 + n mod 10]) with 1. lia.
    + assert (0 <= n / 10) by (apply Z.div_pos; lia).
      assert (n / 10 < 10 ^ Z.of_nat f) as Hlt.
      { apply Z.div_lt_upper_bound; [lia|]. replace (Z.of_nat (S f)) with (Z.succ (Z.of_nat f)) in Hn by lia.
        rewrite Z.pow_succ_r in Hn by lia. lia. }
      subst f. destruct (IH (n / 10) (48 + n mod 10 :: acc) ltac:(lia)) as (ds & E1 & [Hf _] & E2 & B1 & B2 & B3).
      exists (ds ++ [48 + n mod 10]). rewrite E1, <- app_assoc. split; [done|].
      split; [split; [apply Forall_app; split; [done|by repeat constructor]|by destruct ds]|].
      unfold dec_val in *. rewrite fold_left_app, E2. cbn [fold_left]. rewrite zlen_app. change (zlen [_]) with 1.
      pose proof (zlen_nonneg ds). replace (zlen ds + 1 - 1) with (zlen ds) by lia.
      replace (10 ^ (zlen ds + 1)) with (10 * 10 ^ zlen ds) by (rewrite Z.pow_add_r by lia; lia).
      split; [lia|]. split; [lia|]. split; [|lia]. intros Hge.
      destruct (Z_lt_ge_dec (n / 10) 10) as [Hs|Hs]; [rewrite (B3 Hs); lia|].
      specialize (B2 ltac:(lia)). replace (zlen ds) with (Z.succ (zlen ds - 1)) by lia.
      rewrite Z.pow_succ_r; [lia|]. assert (zlen ds <> 0); [|lia]. intros E0. rewrite E0 in B1. simpl in B1. lia.
Qed.

Lemma unsigned_text_spec n :
  0 <= n < 2 ^ 64 ->
  dec_string (unsigned_text n) /\ dec_val (unsigned_text n) = n /\
  n < 10 ^ zlen (unsigned_text n) /\ (10 <= n -> 10 ^ (zlen (unsigned_text n) - 1) <= n) /\
  (n < 10 -> zlen (unsigned_text n) = 1).
Proof.
  intros Hn. destruct (dec_digits_spec 19 n []) as (ds & E & H); [change (10 ^ Z.of_nat 20) with 100000000000000000000; lia|].
  unfold unsigned_text. rewrite E, app_nil_r. done.
Qed.

(** The length of a numeral and the size of its number. *)
Lemma unsigned_text_zlen n k : 0 <= n < 2 ^ 64 -> 1 <= k -> zlen (unsigned_text n) <= k <-> n < 10 ^ k.
Proof.
  intros Hn Hk. destruct (unsigned_text_spec n Hn) as (_ & _ & B1 & B2 & B3).
  destruct (Z_lt_ge_dec n 10) as [Hs|Hs].
  - rewrite B3 by lia. split; [|lia]. intros _. apply Z.lt_le_trans with (10 ^ 1); [lia|]. apply Z.pow_le_mono_r; lia.
  - specialize (B2 ltac:(lia)). split; intros H.
    + apply Z.lt_le_trans with (10 ^ zlen (unsigned_text n)); [done|]. apply Z.pow_le_mono_r; lia.
    + destruct (Z_lt_ge_dec k (zlen (unsigned_text n))) as [Hl|]; [|lia]. exfalso.
      assert (10 ^ k <= 10 ^ (zlen (unsigned_text n) - 1)); [|lia]. apply Z.pow_le_mono_r; lia.
Qed.

Lemma signed_text_zlen v k :
  - 2 ^ 63 <= v < 2 ^ 63 -> 2 <= k -> zlen (signed_text v) <= k <-> - 10 ^ (k - 1) < v < 10 ^ k.
Proof.
  intros Hv Hk. unfold signed_text. pose proof (Z.pow_pos_nonneg 10 (k - 1)). pose proof (Z.pow_pos_nonneg 10 k).
  destruct (Z.ltb_spec v 0) as [Hn|Hn].
  - rewrite zlen_cons. pose proof (unsigned_text_zlen (- v) (k - 1)). lia.
  - pose proof (unsigned_text_zlen v k). lia.
Qed.

Lemma int_text_zlen v : - 2 ^ 31 <= v < 2 ^ 31 -> zlen (signed_text v) <= 11.
Proof. intros. apply signed_text_zlen; [lia|lia|]. change (10 ^ (11 - 1)) with 10000000000. change (10 ^ 11) with 100000000000. lia. Qed.

Lemma signed_text_no_nul v : - 2 ^ 63 <= v < 2 ^ 63 -> no_nul (signed_text v).
Proof.
  intros Hv. unfold signed_text. destruct (Z.ltb_spec v 0).
  - constructor; [done|]. apply dec_string_no_nul, unsigned_text_spec. lia.
  - apply dec_string_no_nul, unsigned_text_spec. lia.
Qed.

(** A number printed is read back by the kernel's [simple_strtol]. *)
Lemma strtol_signed_text v c l :
  - 2 ^ 63 <= v < 2 ^ 63 -> non_digit 10 c -> simple_strtol (signed_text v ++ c :: l) 10 = Ret v.
Proof.
  intros Hv Hc. unfold signed_text. destruct (Z.ltb_spec v 0).
  - destruct (unsigned_text_spec (- v)) as (D & V & _); [lia|].
    assert (strtoull_end (unsigned_text (- v) ++ c :: l) 10 = Ret (- v, c :: l)) as E.
    { pose proof (strtoll_dec _ c l D Hc) as E. unfold strtoll_end in E.
      destruct (isdigit_cons_inv _ D) as (d & s' & Ed & Hd). rewrite Ed in *. cbn [app] in *. rewrite mem_get_head in E.
      cbn [obind] in E. destruct (Z.eqb_spec d 45); [lia|]. rewrite E, V, Z.mod_small by lia. done. }
    unfold simple_strtol, strtoll_end. cbn [app]. rewrite mem_get_head. cbn [obind]. 
    change (zdrop 1 (45 :: unsigned_text (- v) ++ c :: l)) with (unsigned_text (- v) ++ c :: l).
    change (45 =? 45) with true. cbn [obind]. rewrite E. cbn [obind fst]. f_equal. lia.
  - destruct (unsigned_text_spec v) as (D & V & _); [lia|].
    rewrite simple_strtol_dec by done. by rewrite V, Z.mod_small by lia.
Qed.

(** *** Walking the format *)
Lemma format_lit lit fmt args :
  Forall (fun c => c <> 37) lit ->
  format Text (lit ++ fmt) args = (leto r := format Text fmt args in Ret (lit ++ r)).
Proof.
  induction 1 as [|c lit Hc _ IH]; cbn [app]; [by destruct (format Text fmt args)|].
  cbn [format]. destruct (Z.eqb_spec c 37); [done|]. rewrite IH. by destruct (format Text fmt args).
Qed.

Lemma pad_left_0 c t : pad_left c 0 t = t.
Proof. unfold pad_left. by replace (Z.to_nat (0 - zlen t)) with 0%nat by (pose proof (zlen_nonneg t); lia). Qed.

Lemma format_d v fmt args :
  format Text (37 :: 100 :: fmt) (AInt v :: args)
  = (leto r := format Text fmt args in Ret (signed_text (s32 v) ++ r)).
Proof.
  cbn [format]. change (37 =? 37) with true. change (isdigit 100) with false. change (100 =? 112) with false. change (100 =? 108) with false.
  cbn [conv_text]. change (100 =? 100) with true. cbn [obind]. by rewrite pad_left_0.
Qed.

Lemma mac_conv_ok b0 b1 b2 b3 b4 b5 l : mac_conv (b0 :: b1 :: b2 :: b3 :: b4 :: b5 :: l) = Ret (mac_text b0 b1 b2 b3 b4 b5).
Proof.
  unfold mac_conv. rewrite (mem_read_mid _ [] [b0; b1; b2; b3; b4; b5] l); done.
Qed.

Lemma format_mac b0 b1 b2 b3 b4 b5 l fmt args :
  format Text (37 :: 112 :: 77 :: fmt) (AMem (b0 :: b1 :: b2 :: b3 :: b4 :: b5 :: l) :: args)
  = (leto r := format Text fmt args in Ret (mac_text b0 b1 b2 b3 b4 b5 ++ r)).
Proof.
  cbn [format]. change (37 =? 37) with true. change (isdigit 112) with false. change (112 =? 112) with true.
  cbn [format]. by rewrite mac_conv_ok.
Qed.

Lemma sprintf_ok buf off fmt args t :
  format Text fmt args = Ret t -> 0 <= off -> off + zlen t + 1 <= zlen buf ->
  exists buf', sprintf_at buf off fmt args = Ret (zlen t, buf') /\ zlen buf' = zlen buf /\
    buf' = ztake off buf ++ (t ++ [0]) ++ zdrop (off + zlen t + 1) buf.
Proof.
  intros E H0 Hf. unfold sprintf_at. rewrite E. cbn [obind].
  assert (exists b, mem_write buf off (t ++ [0]) = Ret b) as [b Eb].
  { eexists. apply mem_write_ok; rewrite ?zlen_app; change (zlen [0]) with 1; lia. }
  exists b. rewrite Eb. split; [done|]. split; [by eapply mem_write_length|].
  rewrite mem_write_ok in Eb by (rewrite ?zlen_app; change (zlen [0]) with 1; lia). injection Eb as <-.
  rewrite zlen_app. change (zlen [0]) with 1. by rewrite !Z.add_assoc.
Qed.

Lemma format_nil lit args : Forall (fun c => c <> 37) lit -> format Text lit args = Ret lit.
Proof. intros H. pose proof (format_lit lit [] args H) as E. rewrite !app_nil_r in E. rewrite E. cbn [format obind]. by rewrite app_nil_r. Qed.

Lemma snprintf_ok buf off size fmt args t :
  format Text fmt args = Ret t -> 0 <= off -> off + zlen t < size -> size <= zlen buf ->
  exists buf', snprintf_at buf off size fmt args = Ret (zlen t, buf') /\ zlen buf' = zlen buf /\
    ztake (off + zlen t) buf' = ztake off buf ++ t.
Proof.
  intros E H0 Hf Hs. unfold snprintf_at. rewrite E. cbn [obind]. cbv zeta. pose proof (zlen_nonneg t).
  destruct (Z.ltb_spec (size - off) 0); [lia|]. destruct (Z.eqb_spec (size - off) 0); [lia|].
  rewrite (ztake_all (size - off - 1)) by lia.
  rewrite mem_write_ok by (rewrite ?zlen_app; change (zlen [0]) with 1; lia). cbn [obind].
  eexists. split; [reflexivity|]. rewrite !zlen_app. change (zlen [0]) with 1. split.
  - rewrite zlen_ztake, zlen_zdrop by lia. lia.
  - rewrite <- (app_assoc t), app_assoc. apply ztake_app_length. rewrite zlen_app, zlen_ztake; lia.
Qed.

(** A text that does not fit, with its terminator, is written past the buffer. *)
Lemma sprintf_overflow buf off fmt args t :
  format Text fmt args = Ret t -> 0 <= off -> zlen buf < off + zlen t + 1 ->
  sprintf_at buf off fmt args = Fault OutOfBounds.
Proof.
  intros E H0 Hf. unfold sprintf_at. rewrite E. cbn [obind]. unfold mem_write.
  rewrite zlen_app. change (zlen [0]) with 1. destruct ((0 <=? off) && (off + (zlen t + 1) <=? zlen buf)) eqn:Eb; [lia|done].
Qed.

(** *** Faults *)
(** The only fault formatted output has is to leave a buffer. *)
Definition only_bounds {A} (o : outcome A) : Prop := forall f, o = Fault f -> f = OutOfBounds.

Lemma bounds_bind {A B} (o : outcome A) (k : A -> outcome B) :
  only_bounds o -> (forall a, only_bounds (k a)) -> only_bounds (obind o k).
Proof. intros Ho Hk f. destruct o as [a|g]; simpl; [apply Hk|]. intros [= <-]. by apply Ho. Qed.
Lemma bounds_Ret {A} (a : A) : only_bounds (Ret a).
Proof. by intros f. Qed.
Lemma bounds_fault {A} : only_bounds (Fault (A:=A) OutOfBounds).
Proof. by intros f [= <-]. Qed.
Lemma bounds_read l off n : only_bounds (mem_read l off n).
Proof. unfold mem_read. destruct (_ && _); [apply bounds_Ret|apply bounds_fault]. Qed.
Lemma bounds_write l off bs : only_bounds (mem_write l off bs).
Proof. unfold mem_write. destruct (_ && _); [apply bounds_Ret|apply bounds_fault]. Qed.
Lemma bounds_get l off : only_bounds (mem_get l off).
Proof. unfold mem_get. destruct (0 <=? off); [destruct (l !! _)|]; auto using @bounds_Ret, @bounds_fault. Qed.
Lemma bounds_cstr l : only_bounds (cstr l).
Proof.
  induction l as [|c l IH]; [apply bounds_fault|]. cbn [cstr]. destruct (c =? 0); [apply bounds_Ret|].
  apply bounds_bind; [done|]. intros s. apply bounds_Ret.
Qed.
Lemma bounds_format fmt st args : only_bounds (format st fmt args).
Proof.
  assert (forall q, only_bounds (mac_conv q)) as Hm.
  { intros q. apply bounds_bind; [apply bounds_read|]. intros b. repeat (destruct b as [|? b]; auto using @bounds_Ret, @bounds_fault). }
  assert (forall c a, only_bounds (conv_text c a)) as Hc.
  { intros c [v|q]; simpl; repeat case_match; auto using @bounds_Ret, @bounds_fault, bounds_cstr. }
  assert (forall c a, only_bounds (long_text c a)) as Hlo.
  { intros c [v|q]; simpl; repeat case_match; auto using @bounds_Ret, @bounds_fault. }
  revert st args. induction fmt as [|c fmt IH]; intros st args; cbn [format].
  - destruct st; auto using @bounds_Ret, @bounds_fault.
  - repeat case_match; auto using @bounds_fault; apply bounds_bind; auto; intros a; auto using @bounds_Ret; apply bounds_bind; auto using @bounds_Ret.
Qed.

Lemma bounds_sprintf buf off fmt args : only_bounds (sprintf_at buf off fmt args).
Proof.
  apply bounds_bind; [apply bounds_format|]. intros t.
  apply bounds_bind; [apply bounds_write|]. intros b. apply bounds_Ret.
Qed.

(** What a call that returns has done. *)
Lemma sprintf_inv buf off fmt args n b :
  sprintf_at buf off fmt args = Ret (n, b) ->
  exists t, format Text fmt args = Ret t /\ n = zlen t /\ off + n + 1 <= zlen buf /\ zlen b = zlen buf.
Proof.
  intros H. apply obind_inv in H as (t & E & H). apply obind_inv in H as (b' & Ew & H). injection H as <- <-.
  exists t. split; [done|]. split; [done|]. split; [|by eapply mem_write_length].
  apply mem_write_inv in Ew as (_ & Hf & _). rewrite zlen_app in Hf. change (zlen [0]) with 1 in Hf. lia.
Qed.

Lemma format_mac_inv q fmt args t :
  format Text (37 :: 112 :: 77 :: fmt) (AMem q :: args) = Ret t ->
  exists m t', t = m ++ t' /\ zlen m = 17 /\ format Text fmt args = Ret t'.
Proof.
  cbn [format]. change (37 =? 37) with true. change (isdigit 112) with false. change (112 =? 112) with true.
  intros H. apply obind_inv in H as (m & Em & H). apply obind_inv in H as (t' & Et & H). injection H as <-.
  exists m, t'. split; [done|]. split; [|done]. unfold mac_conv in Em. apply obind_inv in Em as (b & _ & Em).
  do 6 (destruct b as [|? b]; [done|]). destruct b; [|done]. by injection Em as <-.
Qed.

(** A format whose conversions are all of integers, and as many as there are
    arguments, always has a text. *)
Fixpoint ints_ok (st : fstate) (fmt : list Z) (n : nat) : bool :=
  match fmt with
  | [] => match st, n with Text, O => true | _, _ => false end
  | c :: fmt =>
      match st with
      | Text => if c =? 37 then ints_ok (Conv false 0) fmt n else ints_ok Text fmt n
      | Conv z w =>
          if isdigit c then ints_ok (Conv (z || ((w =? 0) && (c =? 48))) (w * 10 + (c - 48))) fmt n
          else if c =? 112 then false
          else if c =? 108 then ints_ok Long fmt n
          else match n with S n => ((c =? 100) || (c =? 117)) && ints_ok Text fmt n | O => false end
      | Long => match n with S n => ((c =? 117) || (c =? 120)) && ints_ok Text fmt n | O => false end
      | Ptr => false
      end
  end.

Lemma format_ints fmt st vs : ints_ok st fmt (length vs) = true -> no_fault (format st fmt (map AInt vs)).
Proof.
  revert st vs. induction fmt as [|c fmt IH]; intros st vs; cbn [ints_ok format].
  - destruct st, vs; simpl; try done. by eexists.
  - destruct st as [|z w| |]; try done.
    + destruct (c =? 37); intros H; apply IH in H; [done|]. destruct H as [t ->]. by eexists.
    + destruct (isdigit c); [apply IH|]. destruct (c =? 112); [done|]. destruct (c =? 108); [apply IH|].
      destruct vs as [|v vs]; simpl; [done|]. intros [Hc H]%andb_true_iff. apply IH in H as [t ->].
      destruct (c =? 100); [by eexists|]. destruct (c =? 117); [by eexists|done].
    + destruct vs as [|v vs]; simpl; [done|]. intros [Hc H]%andb_true_iff. apply IH in H as [t ->].
      destruct (c =? 117); [by eexists|]. destruct (c =? 120); [by eexists|done].
Qed.
