(* ===== verification/Libc.v ===== *)
(** * The C library functions the application uses

    [atoi] and [sscanf] of the user-space C library, on memory as the rest of
    the development has it: a text is what precedes the first byte 0, and
    reading on beyond the memory is a fault.  A number that does not fit an
    [int] has no defined result in C and is a fault as well.  Printing is that
    of [Format], which is the same in both libraries for the conversions the
    program uses.

    The lemmas read back what is printed: a signed number in decimal and a MAC
    address in hexadecimal. *)
From Stdlib Require Import String.
From S2P Require Import Prelude Bytes CString Utils Format.

(** ** Definitions *)
(** A string literal in memory. *)
Definition lit (s : string) : list Z := str s ++ [0].

(** [isspace] in the C locale. *)
Definition isblank (c : Z) : bool := ((9 <=? c) && (c <=? 13)) || (c =? 32).
Fixpoint skip_blanks (l : list Z) : outcome (list Z) :=
  match l with
  | [] => Fault OutOfBounds
  | c :: l' => if isblank c then skip_blanks l' else Ret l
  end.

(** At most [width] digits of the base: the number, whether there was a digit,
    and what follows. *)
Fixpoint scan_digits (base : Z) (width : nat) (acc : Z) (some : bool) (l : list Z) : outcome (Z * bool * list Z) :=
  match width with
  | O => Ret (acc, some, l)
  | S width =>
      match l with
      | [] => Fault OutOfBounds
      | c :: l' =>
          match digit_val c with
          | Some v => if v <? base then scan_digits base width (acc * base + v) true l' else Ret (acc, some, l)
          | None => Ret (acc, some, l)
          end
      end
  end.

(** A number behind blanks: a sign and digits, both counted by the width. *)
Definition scan_num (base : Z) (width : nat) (l : list Z) : outcome (option (Z * list Z)) :=
  leto l := skip_blanks l in
  leto c := mem_get l 0 in
  let signed := (c =? 45) || (c =? 43) in
  leto r := scan_digits base (if signed then pred width else width) 0 false (if signed then zdrop 1 l else l) in
  let '(v, some, l) := r in
  Ret (if some then Some (if c =? 45 then - v else v, l) else None).

Definition int_of (v : Z) : outcome Z := if (- 2 ^ 31 <=? v) && (v <? 2 ^ 31) then Ret v else Fault Overflow.

(** More digits than the memory has bytes are never read. *)
Definition atoi (l : list Z) : outcome Z :=
  leto r := scan_num 10 (S (length l)) l in
  match r with Some (v, _) => int_of v | None => Ret 0 end.

(** [sscanf] with [%d] and [%x], a field width and literals: the values stored
    by the conversions before the first that does not match.  [conv] is the
    width read so far in a conversion. *)
Fixpoint sscanf (conv : option Z) (fmt l : list Z) : outcome (list Z) :=
  match fmt with
  | [] => Ret []
  | c :: fmt =>
      match conv with
      | None =>
          if c =? 37 then sscanf (Some 0) fmt l else
          leto x := mem_get l 0 in
          if x =? c then sscanf None fmt (zdrop 1 l) else Ret []
      | Some w =>
          if isdigit c then sscanf (Some (w * 10 + (c - 48))) fmt l else
          leto r := scan_num (if c =? 120 then 16 else 10) (if w =? 0 then S (length l) else Z.to_nat w) l in
          match r with
          | None => Ret []
          | Some (v, l) =>
              leto v := (if c =? 120 then Ret (s32 v) else int_of v) in
              leto vs := sscanf None fmt l in Ret (v :: vs)
          end
      end
  end.

(** ** Lemmas *)
Lemma int_of_ok v : - 2 ^ 31 <= v < 2 ^ 31 -> int_of v = Ret v.
Proof. intros H. unfold int_of. destruct (Z.leb_spec (- 2 ^ 31) v), (Z.ltb_spec v (2 ^ 31)); [done|lia..]. Qed.

Lemma scan_digits_dec ds c l w acc some :
  Forall (fun c => isdigit c = true) ds -> non_digit 10 c -> (length ds < w)%nat ->
  scan_digits 10 w acc some (ds ++ c :: l)
  = Ret (fold_left (fun a c => a * 10 + (c - 48)) ds acc, some || negb (bool_decide (ds = [])), c :: l).
Proof.
  intros Hd Hc. revert w acc some. induction Hd as [|d ds Hd _ IH]; intros w acc some Hw; (destruct w as [|w]; [simpl in Hw; lia|]).
  - cbn [app scan_digits]. unfold non_digit in Hc. rewrite orb_false_r. destruct (digit_val c) as [v|]; [|done].
    by destruct (Z.ltb_spec v 10); [lia|].
  - cbn [app scan_digits fold_left]. rewrite digit_val_digit by done. apply isdigit_range in Hd as Hr.
    destruct (Z.ltb_spec (d - 48) 10); [|lia]. rewrite IH by (simpl in Hw; lia). simpl. by rewrite orb_true_r.
Qed.

(** A number in front of something that is no digit. *)
Lemma scan_num_signed v c l w :
  - 2 ^ 63 <= v < 2 ^ 63 -> non_digit 10 c -> (length (signed_text v) < w)%nat ->
  scan_num 10 w (signed_text v ++ c :: l) = Ret (Some (v, c :: l)).
Proof.
  intros Hv Hc Hw.
  assert (forall n w0, 0 <= n < 2 ^ 64 -> (length (unsigned_text n) < w0)%nat ->
    scan_digits 10 w0 0 false (unsigned_text n ++ c :: l) = Ret (n, true, c :: l)) as K.
  { intros n w0 Hn Hw0. destruct (unsigned_text_spec n Hn) as ([D Dne] & V & _). rewrite scan_digits_dec by done.
    rewrite bool_decide_false by done. unfold dec_val in V. by rewrite V. }
  unfold signed_text in *. destruct (Z.ltb_spec v 0).
  - destruct w as [|w]; [simpl in Hw; lia|]. unfold scan_num. cbn [app skip_blanks]. change (isblank 45) with false. cbn [obind].
    rewrite mem_get_head. cbn [obind]. change ((45 =? 45) || (45 =? 43)) with true. cbn [pred].
    change (zdrop 1 (45 :: unsigned_text (- v) ++ c :: l)) with (unsigned_text (- v) ++ c :: l).
    rewrite K by (simpl in Hw; lia). cbn [obind]. change (45 =? 45) with true. by rewrite Z.opp_involutive.
  - destruct (unsigned_text_spec v) as (D & _); [lia|]. destruct (isdigit_cons_inv _ D) as (d & s' & E & Hd).
    specialize (K v w ltac:(lia) Hw). rewrite E in *. unfold scan_num. cbn [app skip_blanks].
    assert (isblank d = false) as -> by (unfold isblank; destruct (Z.leb_spec 9 d), (Z.leb_spec d 13), (Z.eqb_spec d 32); simpl; lia).
    cbn [obind]. rewrite mem_get_head. cbn [obind app] in *. destruct (Z.eqb_spec d 45), (Z.eqb_spec d 43); [lia..|]. cbn [orb].
    by rewrite K.
Qed.

Lemma signed_text_nonempty v : - 2 ^ 63 <= v < 2 ^ 63 -> 0 < zlen (signed_text v).
Proof.
  intros Hv. assert (signed_text v <> []) as Hne.
  { unfold signed_text. destruct (Z.ltb_spec v 0); [done|]. by destruct (unsigned_text_spec v ltac:(lia)) as ([_ Hne] & _). }
  destruct (signed_text v) as [|c l]; [done|]. rewrite zlen_cons. pose proof (zlen_nonneg l). lia.
Qed.

Lemma atoi_signed_text v c l :
  - 2 ^ 31 <= v < 2 ^ 31 -> non_digit 10 c -> atoi (signed_text v ++ c :: l) = Ret v.
Proof.
  intros Hv Hc. unfold atoi. rewrite scan_num_signed by (done || lia || (rewrite length_app; simpl; lia)).
  cbn [obind]. by apply int_of_ok.
Qed.

(** *** Literals and conversions in [sscanf] *)
Lemma sscanf_lit lit fmt l :
  Forall (fun c => c <> 37) lit -> sscanf None (lit ++ fmt) (lit ++ l) = sscanf None fmt l.
Proof.
  induction 1 as [|c lit Hc _ IH]; cbn [app]; [done|]. cbn [sscanf]. destruct (Z.eqb_spec c 37); [done|].
  rewrite mem_get_head. cbn [obind]. rewrite Z.eqb_refl. exact IH.
Qed.

Lemma sscanf_d v c fmt l :
  - 2 ^ 31 <= v < 2 ^ 31 -> non_digit 10 c ->
  sscanf None (37 :: 100 :: fmt) (signed_text v ++ c :: l) = (leto vs := sscanf None fmt (c :: l) in Ret (v :: vs)).
Proof.
  intros Hv Hc. cbn [sscanf]. change (37 =? 37) with true. change (isdigit 100) with false. change (100 =? 120) with false.
  change (0 =? 0) with true. cbn [obind]. rewrite scan_num_signed by (done || lia || (rewrite length_app; simpl; lia)). cbn [obind].
  by rewrite int_of_ok by done.
Qed.

Lemma hex_digit_val v : 0 <= v < 16 -> digit_val (hex_digit v) = Some v.
Proof.
  intros Hv. assert (v ∈ seqZ 0 16) as H by (apply elem_of_seqZ; lia). clear Hv.
  revert v H. apply Forall_forall. vm_compute. by repeat constructor.
Qed.

Lemma hex_digit_blank v : 0 <= v < 16 ->
  isblank (hex_digit v) = false /\ (hex_digit v =? 45) = false /\ (hex_digit v =? 43) = false.
Proof.
  intros Hv. assert (v ∈ seqZ 0 16) as H by (apply elem_of_seqZ; lia). clear Hv.
  revert v H. apply Forall_forall. vm_compute. by repeat constructor.
Qed.

Lemma byte_halves b : is_byte b -> 0 <= b / 16 < 16 /\ 0 <= b mod 16 < 16.
Proof.
  unfold is_byte. intros Hb. pose proof (Z.mod_pos_bound b 16).
  split; [split; [apply Z.div_pos; lia|apply Z.div_lt_upper_bound; lia]|lia].
Qed.

(** Two hexadecimal digits. *)
Lemma scan_num_byte b l : is_byte b -> scan_num 16 2 (hex_byte b ++ l) = Ret (Some (b, l)).
Proof.
  intros Hb. destruct (byte_halves b Hb) as [H1 H2]. destruct (hex_digit_blank _ H1) as (B1 & B2 & B3).
  unfold scan_num, hex_byte. cbn [app skip_blanks]. rewrite B1. cbn [obind]. rewrite mem_get_head. cbn [obind]. rewrite B2, B3. cbn [orb].
  cbn [scan_digits]. rewrite (hex_digit_val _ H1). destruct (Z.ltb_spec (b / 16) 16); [|lia].
  rewrite (hex_digit_val _ H2). destruct (Z.ltb_spec (b mod 16) 16); [|lia]. cbn [obind].
  do 4 f_equal. pose proof (Z.div_mod b 16). lia.
Qed.

Lemma sscanf_byte b fmt l :
  is_byte b -> sscanf None (37 :: 48 :: 50 :: 120 :: fmt) (hex_byte b ++ l) = (leto vs := sscanf None fmt l in Ret (b :: vs)).
Proof.
  intros Hb. cbn [sscanf]. change (37 =? 37) with true. change (isdigit 48) with true. change (isdigit 50) with true.
  change (isdigit 120) with false. cbn [obind]. change (120 =? 120) with true.
  change ((0 * 10 + (48 - 48)) * 10 + (50 - 48) =? 0) with false.
  change (Z.to_nat ((0 * 10 + (48 - 48)) * 10 + (50 - 48))) with 2%nat.
  rewrite scan_num_byte by done. cbn [obind]. by rewrite s32_id by (unfold is_byte in Hb; lia).
Qed.

Definition MACSTR : list Z := str "%02x:%02x:%02x:%02x:%02x:%02x".

(** A MAC address is read from its text, whatever follows it. *)
Lemma sscanf_mac b0 b1 b2 b3 b4 b5 fmt l :
  Forall is_byte [b0; b1; b2; b3; b4; b5] ->
  sscanf None (MACSTR ++ fmt) (mac_text b0 b1 b2 b3 b4 b5 ++ l)
  = (leto vs := sscanf None fmt l in Ret (b0 :: b1 :: b2 :: b3 :: b4 :: b5 :: vs)).
Proof.
  intros H. repeat match goal with H : Forall _ (_ :: _) |- _ => apply Forall_cons in H as [? H] end.
  change (MACSTR ++ fmt) with (37 :: 48 :: 50 :: 120 :: 58 :: 37 :: 48 :: 50 :: 120 :: 58 :: 37 :: 48 :: 50 :: 120 :: 58 :: 37 :: 48 :: 50 :: 120 :: 58 :: 37 :: 48 :: 50 :: 120 :: 58 :: 37 :: 48 :: 50 :: 120 :: fmt).
  unfold mac_text. repeat rewrite <- ?app_assoc, <- ?app_comm_cons.
  assert (forall b fmt l, is_byte b -> sscanf None (37 :: 48 :: 50 :: 120 :: 58 :: fmt) (hex_byte b ++ 58 :: l)
    = (leto vs := sscanf None fmt l in Ret (b :: vs))) as K.
  { intros b f k Hb. rewrite sscanf_byte by done.
    by rewrite (sscanf_lit [58] f k ltac:(by repeat constructor) : sscanf None (58 :: f) (58 :: k) = _). }
  do 5 (rewrite K by done). rewrite sscanf_byte by done. by destruct (sscanf None fmt l).
Qed.

(** *** Printing *)
Lemma hex_text_byte b : is_byte b -> pad_left 48 2 (hex_text b) = hex_byte b.
Proof.
  intros Hb. destruct (byte_halves b Hb) as [H1 H2]. unfold hex_text, hex_byte, is_byte in *. cbn [hex_digits].
  destruct (Z.eqb_spec (b / 16) 0) as [E|E]; [by rewrite E|].
  rewrite (Z.div_small (b / 16) 16), (Z.mod_small (b / 16) 16) by lia. done.
Qed.

Lemma format_s m s fmt args :
  cstr m = Ret s -> format Text (37 :: 115 :: fmt) (AMem m :: args) = (leto r := format Text fmt args in Ret (s ++ r)).
Proof.
  intros E. cbn [format]. change (37 =? 37) with true. change (isdigit 115) with false. change (115 =? 112) with false.
  change (115 =? 108) with false. cbn [conv_text]. change (115 =? 115) with true. rewrite E. cbn [obind]. by rewrite pad_left_0.
Qed.

Lemma format_byte b fmt args :
  is_byte b -> format Text (37 :: 48 :: 50 :: 120 :: fmt) (AInt b :: args) = (leto r := format Text fmt args in Ret (hex_byte b ++ r)).
Proof.
  intros Hb. cbn [format]. change (37 =? 37) with true. change (isdigit 48) with true. change (isdigit 50) with true.
  change (isdigit 120) with false. change (120 =? 112) with false. change (120 =? 108) with false.
  cbn [conv_text]. change (120 =? 100) with false. change (120 =? 117) with false. change (120 =? 120) with true. cbn [obind].
  change (fill _) with 48. change ((0 * 10 + (48 - 48)) * 10 + (50 - 48)) with 2.
  rewrite u32_id by (unfold is_byte in Hb; lia). by rewrite hex_text_byte.
Qed.

Lemma format_macstr b0 b1 b2 b3 b4 b5 fmt args :
  Forall is_byte [b0; b1; b2; b3; b4; b5] ->
  format Text (MACSTR ++ fmt) (map AInt [b0; b1; b2; b3; b4; b5] ++ args)
  = (leto r := format Text fmt args in Ret (mac_text b0 b1 b2 b3 b4 b5 ++ r)).
Proof.
  intros H. repeat match goal with H : Forall _ (_ :: _) |- _ => apply Forall_cons in H as [? H] end.
  change (MACSTR ++ fmt) with (37 :: 48 :: 50 :: 120 :: 58 :: 37 :: 48 :: 50 :: 120 :: 58 :: 37 :: 48 :: 50 :: 120 :: 58 :: 37 :: 48 :: 50 :: 120 :: 58 :: 37 :: 48 :: 50 :: 120 :: 58 :: 37 :: 48 :: 50 :: 120 :: fmt).
  unfold mac_text. cbn [map app].
  assert (forall b fmt args, is_byte b -> format Text (37 :: 48 :: 50 :: 120 :: 58 :: fmt) (AInt b :: args)
    = (leto r := format Text fmt args in Ret (hex_byte b ++ 58 :: r))) as K.
  { intros b f a Hb. rewrite format_byte by done.
    rewrite (format_lit [58] f a ltac:(by repeat constructor) : format Text (58 :: f) a = _). by destruct (format Text f a). }
  do 5 (rewrite K by done). rewrite format_byte by done.
  destruct (format Text fmt args) as [r|]; [|done]. cbn [obind]. by repeat rewrite <- ?app_assoc, <- ?app_comm_cons.
Qed.

(** The text of an address given as six bytes, the way the tools print one. *)
Definition mac_str (m : list Z) : list Z :=
  match m with [b0; b1; b2; b3; b4; b5] => mac_text b0 b1 b2 b3 b4 b5 | _ => [] end.
Definition mac_ok (m : list Z) : Prop := zlen m = 6 /\ Forall is_byte m.
Lemma land_byte b : is_byte b -> Z.land b 0xff = b.
Proof. intros H. change 0xff with (Z.ones 8). rewrite Z.land_ones by lia. unfold is_byte in H. apply Z.mod_small. lia. Qed.
Lemma format_mac_args m fmt args :
  mac_ok m ->
  format Text (MACSTR ++ fmt) (map (fun b => AInt (Z.land b 0xff)) m ++ args) = (leto r := format Text fmt args in Ret (mac_str m ++ r)).
Proof.
  intros [Hl Hb]. destruct m as [|b0 [|b1 [|b2 [|b3 [|b4 [|b5 [|]]]]]]]; try (vm_compute in Hl; discriminate); [|exfalso; unfold zlen in Hl; simpl in Hl; lia].
  cbn [mac_str]. rewrite <- (format_macstr b0 b1 b2 b3 b4 b5 fmt args Hb). f_equal.
  repeat (apply Forall_cons in Hb as [? Hb]). cbn [map]. by rewrite !land_byte by done.
Qed.
