(* ===== verification/Dump.v ===== *)
(** * Hex dumps and addresses (utils/utils.c: hgic_print_hex; test_app/iwpriv.c: hgics_dump_hex, hgic_get_if_mac)

    The driver and the application library each print memory in hexadecimal, and
    the library asks a socket for the address of an interface. *)
From Stdlib Require Import String.
From S2P Require Import Prelude Bytes CString Format Libc Utils.

(** ** The driver's *)
Definition print_gap (i : Z) : list Z :=
  if (0 <? i) && (i mod 16 =? 0) then crlf else if (0 <? i) && (i mod 8 =? 0) then str "  " else [].
Fixpoint print_hex_loop (l : list Z) (i : Z) : outcome (list Z) :=
  match l with
  | [] => Ret []
  | b :: l =>
      leto t := format Text (str "%02x ") [AInt (Z.land b 0xff)] in
      leto r := print_hex_loop l (i + 1) in Ret (print_gap i ++ t ++ r)
  end.
(** A negative length prints no byte. *)
Definition hgic_print_hex (buf : list Z) (len : Z) : outcome (list Z) :=
  leto bs := mem_read buf 0 (Z.max 0 len) in
  leto t := print_hex_loop bs 0 in Ret (t ++ crlf ++ crlf).

(** ** The library's *)
Definition dump_gap (newline i : Z) : list Z :=
  if (0 <? i) && negb (newline =? 0) then
    (if Z.land i 0x7 =? 0 then str "   " else []) ++ (if Z.land i 0xf =? 0 then crlf else [])
  else [].
Fixpoint dump_hex_loop (newline : Z) (l : list Z) (i : Z) : outcome (list Z) :=
  match l with
  | [] => Ret []
  | b :: l =>
      leto t := format Text (str "%02x ") [AInt (Z.land b 0xff)] in
      leto r := dump_hex_loop newline l (i + 1) in Ret (dump_gap newline i ++ t ++ r)
  end.
Definition hgics_dump_hex (s data : option (list Z)) (len newline : Z) : outcome (list Z) :=
  match data with
  | Some data =>
      if len =? 0 then Ret [] else
      leto title := match s with Some s => cstr s | None => Ret [] end in
      leto bs := mem_read data 0 (Z.max 0 len) in
      leto t := dump_hex_loop newline bs 0 in Ret (title ++ t ++ crlf)
  | None => Ret []
  end.

(** ** The address of an interface *)
(** [ifr]: what the request structure held; [open_socket] tells whether there is a
    socket, and the ioctl, given the name, gives the address or fails.  The name is
    copied into the first 16 of the 40 bytes of the structure. *)
Definition hgic_get_if_mac (open_socket : bool) (SIOCGIFHWADDR : list Z -> option (list Z)) (ifr ifname : list Z)
  : outcome (Z * list Z) :=
  if negb open_socket then Ret (-1, replicate 6 0) else
  leto n := cstr ifname in
  leto ifr := mem_write (resize 40 0 ifr) 0 (n ++ [0]) in
  leto asked := cstr ifr in
  Ret match SIOCGIFHWADDR asked with Some sa_data => (0, ztake 6 sa_data) | None => (-1, replicate 6 0) end.

(** ** What they print *)
(** The digits of a byte in both dumps, whatever its sign as a [char]. *)
Definition hex_of (b : Z) : list Z := hex_byte (Z.land b 0xff).
Definition printing (c : Z) : bool := negb ((c =? 32) || (c =? 13) || (c =? 10)).

Lemma land_ff_byte b : is_byte (Z.land b 0xff).
Proof. change 0xff with (Z.ones 8). rewrite Z.land_ones by lia. unfold is_byte. pose proof (Z.mod_pos_bound b (2 ^ 8) ltac:(lia)). lia. Qed.
Lemma format_hex_blank b : format Text (str "%02x ") [AInt (Z.land b 0xff)] = Ret (hex_of b ++ [32]).
Proof. exact (format_byte (Z.land b 0xff) [32] [] (land_ff_byte b)). Qed.

Lemma hex_of_prints b : List.filter printing (hex_of b) = hex_of b.
Proof.
  unfold hex_of, hex_byte. pose proof (land_ff_byte b) as H. revert H. generalize (Z.land b 0xff). clear b. intros b H. unfold is_byte in H.
  assert (forall v, 0 <= v < 16 -> printing (hex_digit v) = true) as K.
  { intros v Hv. unfold printing. pose proof (hex_digit_range v Hv).
    by rewrite (proj2 (Z.eqb_neq _ 32)), (proj2 (Z.eqb_neq _ 13)), (proj2 (Z.eqb_neq _ 10)) by lia. }
  cbn [List.filter]. rewrite !K; [done| |]; [apply Z.mod_pos_bound; lia|].
  split; [apply Z.div_pos; lia|apply Z.div_lt_upper_bound; lia].
Qed.
Lemma gaps_blank i newline : List.filter printing (print_gap i) = [] /\ List.filter printing (dump_gap newline i) = [].
Proof. unfold print_gap, dump_gap. split; repeat case_match; vm_compute; done. Qed.

(** Nothing but the bytes, in order, two digits each. *)
Lemma print_hex_loop_text l i : exists t, print_hex_loop l i = Ret t /\ List.filter printing t = concat (map hex_of l).
Proof.
  revert i. induction l as [|b l IH]; intros i; cbn [print_hex_loop]; [by exists []|].
  rewrite format_hex_blank. cbn [obind]. destruct (IH (i + 1)) as (t & -> & E). eexists. split; [reflexivity|].
  rewrite !List.filter_app, hex_of_prints, E. cbn [map concat]. rewrite (proj1 (gaps_blank i 0)).
  change (List.filter printing [32]) with (@nil Z). by rewrite app_nil_r.
Qed.
Lemma dump_hex_loop_text newline l i : exists t, dump_hex_loop newline l i = Ret t /\ List.filter printing t = concat (map hex_of l).
Proof.
  revert i. induction l as [|b l IH]; intros i; cbn [dump_hex_loop]; [by exists []|].
  rewrite format_hex_blank. cbn [obind]. destruct (IH (i + 1)) as (t & -> & E). eexists. split; [reflexivity|].
  rewrite !List.filter_app, hex_of_prints, E. cbn [map concat]. rewrite (proj2 (gaps_blank i newline)).
  change (List.filter printing [32]) with (@nil Z). by rewrite app_nil_r.
Qed.
Lemma print_hex_shows buf len :
  0 <= len <= zlen buf -> exists t, hgic_print_hex buf len = Ret t /\ List.filter printing t = concat (map hex_of (ztake len buf)).
Proof.
  intros H. unfold hgic_print_hex. rewrite Z.max_r, mem_read_ok by lia. cbn [obind]. rewrite zdrop_0.
  destruct (print_hex_loop_text (ztake len buf) 0) as (t & -> & E). eexists. split; [reflexivity|].
  rewrite List.filter_app, E. change (List.filter printing (crlf ++ crlf)) with (@nil Z). by rewrite app_nil_r.
Qed.
Lemma dump_hex_shows buf len newline :
  0 < len <= zlen buf ->
  exists t, hgics_dump_hex None (Some buf) len newline = Ret t /\ List.filter printing t = concat (map hex_of (ztake len buf)).
Proof.
  intros H. unfold hgics_dump_hex. destruct (Z.eqb_spec len 0); [lia|]. rewrite Z.max_r, mem_read_ok by lia. cbn [obind]. rewrite zdrop_0.
  destruct (dump_hex_loop_text newline (ztake len buf) 0) as (t & -> & E). eexists. split; [reflexivity|].
  cbn [app]. rewrite List.filter_app, E. change (List.filter printing crlf) with (@nil Z). by rewrite app_nil_r.
Qed.

(** An interface name that fits is asked for as it is; a longer one overflows the
    request. *)
Lemma get_if_mac_asks ask ifr n z :
  no_nul n ->
  hgic_get_if_mac true ask ifr (n ++ 0 :: z)
  = if zlen n <=? 39 then Ret match ask n with Some a => (0, ztake 6 a) | None => (-1, replicate 6 0) end else Fault OutOfBounds.
Proof.
  intros Hn. unfold hgic_get_if_mac. cbn [negb]. rewrite cstr_app by done. cbn [obind]. pose proof (zlen_nonneg n).
  assert (zlen (resize 40 0 ifr) = 40) as Hr by apply (zlen_resize 40 0 ifr ltac:(lia)).
  unfold mem_write. rewrite zlen_app, Hr. change (zlen [0]) with 1. destruct (Z.leb_spec (zlen n) 39).
  - destruct (Z.leb_spec (0 + (zlen n + 1)) 40); [|lia]. change (0 <=? 0) with true. cbn [andb obind]. rewrite ztake_0. cbn [app].
    rewrite <- app_assoc. cbn [app]. by rewrite cstr_app.
  - destruct (Z.leb_spec (0 + (zlen n + 1)) 40); [lia|]. by rewrite andb_false_r.
Qed.
