(* ===== verification/FwCtrl.v ===== *)
(** * The firmware control channel (utils/fwctrl.c, its first 280 lines)

    A command is a frame with a fresh cookie, queued for the bus thread; the
    caller puts a stack-allocated [hgic_cmd_response] on the pending list and
    sleeps; the receive work matches a response frame to a pending entry by
    cookie and wakes the caller, which takes the entry off the list whether
    or not a response came.

    Everything other threads may do while the caller sleeps is an explicit
    script of [action]s, one script per sleep; the theorems quantify over all
    scripts.  Allocations draw from an oracle of failures and of the contents
    of fresh memory. *)
From S2P Require Import Prelude Bytes CString Proto Skb.

(** ** Data *)
Record hgic_fw_info := FwInfo {
  fi_version : Z; fi_svn_version : Z; fi_chip_id : Z; fi_cpu_id : Z;
  fi_mac : list Z; fi_app_version : Z; fi_smt_dat : Z }.

Record hgic_bus := Bus {
  bus_type : hgic_bus_type;
  drv_tx_headroom : Z;
  bus_flags : list hgic_bus_flag;
  bootdl_pktlen : Z;
  bootdl_cksum : Z;
  blk_size : Z;
  bus_has_reinit : bool }.

(** [pe_thread] identifies the stack frame the response structure lives in:
    0 is the thread whose run a theorem follows. *)
Record hgic_cmd_response := Response {
  pe_thread : nat; pe_cookie : Z; pe_skb : option skb; pe_done : bool }.

Record hgic_fwctrl := FwCtrl {
  fc_cookie : Z;
  fc_pd_list : list hgic_cmd_response;
  fc_rxq : list skb;
  fc_txq : list skb;
  fc_wq : bool;
  fc_qc_mode : Z;
  fc_radio_onoff : Z;
  fc_fwinfo : option hgic_fw_info;
  fc_bus : hgic_bus }.

(** Calls out of the component, through its function pointers. *)
Inductive callout :=
  | CO_schedule                 (* ctrl->schedule: kick the transmit work *)
  | CO_rx_event (d : skb)       (* ctrl->rx_event *)
  | CO_reinit.                  (* bus->reinit *)

(** What other threads do while the caller sleeps. *)
Inductive action :=
  | ATx                                        (* the bus thread sends the head of txq *)
  | ARx (data : list Z)                        (* the bus delivers a control frame *)
  | AWork                                      (* the control work runs *)
  | ACookie                                    (* another thread takes a cookie *)
  | ABegin (t : nat) (cookie : Z) (s : skb)    (* thread t+1 queues a command *)
  | AEnd (t : nat)                             (* thread t+1 wakes or times out *)
  | AClear                                     (* hgic_fwctrl_clear_pdlist *)
  | ASleep (b : bool).                         (* the bus enters or leaves sleep *)

Record world := World {
  w_ctrl : hgic_fwctrl;
  w_env : list (list action);
  w_alloc : list (option (list Z));
  w_sent : list skb;
  w_calls : list callout }.

(** A component that contains a control channel runs its operations on it. *)
Definition on_world {S} `{Inside world S} {A} (m : M world A) : M S A := on_part m.

(** Updates, one per field the code assigns. *)
Definition on_ctrl (g : hgic_fwctrl -> hgic_fwctrl) (w : world) : world :=
  World (g (w_ctrl w)) (w_env w) (w_alloc w) (w_sent w) (w_calls w).
Definition set_cookie v (c : hgic_fwctrl) :=
  FwCtrl v (fc_pd_list c) (fc_rxq c) (fc_txq c) (fc_wq c) (fc_qc_mode c) (fc_radio_onoff c)
         (fc_fwinfo c) (fc_bus c).
Definition set_pd_list v (c : hgic_fwctrl) :=
  FwCtrl (fc_cookie c) v (fc_rxq c) (fc_txq c) (fc_wq c) (fc_qc_mode c) (fc_radio_onoff c)
         (fc_fwinfo c) (fc_bus c).
Definition set_rxq v (c : hgic_fwctrl) :=
  FwCtrl (fc_cookie c) (fc_pd_list c) v (fc_txq c) (fc_wq c) (fc_qc_mode c) (fc_radio_onoff c)
         (fc_fwinfo c) (fc_bus c).
Definition set_txq v (c : hgic_fwctrl) :=
  FwCtrl (fc_cookie c) (fc_pd_list c) (fc_rxq c) v (fc_wq c) (fc_qc_mode c) (fc_radio_onoff c)
         (fc_fwinfo c) (fc_bus c).
Definition set_radio_onoff v (c : hgic_fwctrl) :=
  FwCtrl (fc_cookie c) (fc_pd_list c) (fc_rxq c) (fc_txq c) (fc_wq c) (fc_qc_mode c) v
         (fc_fwinfo c) (fc_bus c).
Definition set_fwinfo v (c : hgic_fwctrl) :=
  FwCtrl (fc_cookie c) (fc_pd_list c) (fc_rxq c) (fc_txq c) (fc_wq c) (fc_qc_mode c)
         (fc_radio_onoff c) v (fc_bus c).
Definition set_bus v (c : hgic_fwctrl) :=
  FwCtrl (fc_cookie c) (fc_pd_list c) (fc_rxq c) (fc_txq c) (fc_wq c) (fc_qc_mode c)
         (fc_radio_onoff c) (fc_fwinfo c) v.
Definition set_bus_flags v (b : hgic_bus) :=
  Bus (bus_type b) (drv_tx_headroom b) v (bootdl_pktlen b) (bootdl_cksum b) (blk_size b)
      (bus_has_reinit b).
Definition log_call (o : callout) (w : world) : world :=
  World (w_ctrl w) (w_env w) (w_alloc w) (w_sent w) (w_calls w ++ [o]).

Definition test_bit (f : hgic_bus_flag) (c : hgic_fwctrl) : bool :=
  bool_decide (f ∈ bus_flags (fc_bus c)).
Definition set_bit (f : hgic_bus_flag) (c : hgic_fwctrl) : hgic_fwctrl :=
  set_bus (set_bus_flags (f :: bus_flags (fc_bus c)) (fc_bus c)) c.
Definition clear_bit (f : hgic_bus_flag) (c : hgic_fwctrl) : hgic_fwctrl :=
  set_bus (set_bus_flags (filter (fun g => g <> f) (bus_flags (fc_bus c))) (fc_bus c)) c.

(** ** Memory *)
Definition alloc (n : Z) : M world (option (list Z)) := fun w =>
  let n := u32 n in
  let blk junk := resize (Z.to_nat n) 0 junk in
  let w' := World (w_ctrl w) (w_env w) (tail (w_alloc w)) (w_sent w) (w_calls w) in
  if 2 ^ 31 <=? n then Ret (None, w) else
  match w_alloc w with
  | [] => Ret (Some (blk []), w')
  | None :: _ => Ret (None, w')
  | Some junk :: _ => Ret (Some (blk junk), w')
  end.

Definition dev_alloc_skb (n : Z) : M world (option skb) :=
  let! b := alloc n in ret (skb_of_block <$> b).
Definition kmalloc (n : Z) : M world (option (list Z)) := alloc n.
Definition kzalloc (n : Z) : M world (option (list Z)) :=
  let! b := alloc n in ret ((fun l => replicate (length l) 0) <$> b).

(** ** Operations *)
Definition hgic_ctrl_cookie : M world Z :=
  let! cookie := gets (fun w => fc_cookie (w_ctrl w)) in
  modify (on_ctrl (set_cookie (Z.land (u16 (cookie + 1)) HGIC_TX_COOKIE_MASK))) ;;;
  ret cookie.

Definition hgic_alloc_ctrl_skb (size : Z) : M world (option skb) :=
  let! room := gets (fun w => drv_tx_headroom (fc_bus (w_ctrl w))) in
  let! skb := dev_alloc_skb (room + sizeof_hgic_ctrl_hdr + size + 4) in
  match skb with
  | None => ret None
  | Some skb =>
      let! skb := lift (skb_reserve skb room) in
      let! skb := lift (skb_write skb 0 (replicate (Z.to_nat (sizeof_hgic_ctrl_hdr + size)) 0)) in
      let! skb := lift (skb_reserve skb sizeof_hgic_ctrl_hdr) in
      let! skb := lift (skb_put skb size) in
      ret (Some skb)
  end.

(** The stores [hgic_fwctrl_send_cmd] makes into the pushed header. *)
Definition fill_cmd_hdr (ifidx cmd_id cookie : Z) (d : list Z) : outcome (list Z) :=
  let id := u16 (cmd_id - HGIC_CMD_START) in
  leto d := mem_write d 8 [0; 0; 0; 0] in
  leto d := put16_at d 0 HGIC_HDR_TX_MAGIC in
  leto d := put16_at d 4 (zlen d) in
  leto d := put16_at d 6 cookie in
  leto d := put_ifidx d ifidx in
  HDR_CMDID_SET d id.

(** *** The two halves of [hgic_fwctrl_send_data], around the sleep *)
Definition txq_enqueue (s : skb) (q : list skb) : list skb :=
  (if 4 <? zlen q then tail q else q) ++ [s].

Definition send_begin (t : nat) (cookie : Z) (s : skb) : M world unit :=
  modify (on_ctrl (fun c => set_pd_list (Response t cookie None false :: fc_pd_list c) c)) ;;;
  modify (on_ctrl (fun c => set_txq (txq_enqueue s (fc_txq c)) c)) ;;;
  modify (log_call CO_schedule).

Definition is_thread (t : nat) (e : hgic_cmd_response) : bool := Nat.eqb (pe_thread e) t.

Definition send_end (t : nat) : M world (option skb) := fun w =>
  let l := fc_pd_list (w_ctrl w) in
  Ret (match head (List.filter (is_thread t) l) with Some e => pe_skb e | None => None end,
       on_ctrl (set_pd_list (List.filter (fun e => negb (is_thread t e)) l)) w).

(** *** The receive side *)
Fixpoint match_response (s : skb) (l : list hgic_cmd_response)
  : outcome (list hgic_cmd_response * bool) :=
  match l with
  | [] => Ret ([], false)
  | e :: l' =>
      leto c := hdr_cookie (skb_data s) in
      if pe_cookie e =? c then
        Ret (Response (pe_thread e) (pe_cookie e) (Some s) true :: l', true)
      else leto r := match_response s l' in Ret (e :: fst r, snd r)
  end.

Definition hgic_fwctrl_rx_response (s : skb) : M world unit :=
  let! l := gets (fun w => fc_pd_list (w_ctrl w)) in
  let! r := lift (match_response s l) in
  modify (on_ctrl (set_pd_list (fst r))).

Definition hgic_fwctrl_clear_pdlist : M world unit :=
  modify (on_ctrl (fun c => set_pd_list
    (map (fun e => Response (pe_thread e) (pe_cookie e) (pe_skb e) true) (fc_pd_list c)) c)).

Definition is_response_type (t : Z) : bool :=
  (t =? HGIC_HDR_TYPE_CMD) || (t =? HGIC_HDR_TYPE_CMD2) ||
  (t =? HGIC_HDR_TYPE_BOOTDL) || (t =? HGIC_HDR_TYPE_OTA).
Definition is_event_type (t : Z) : bool :=
  (t =? HGIC_HDR_TYPE_EVENT) || (t =? HGIC_HDR_TYPE_EVENT2).

Fixpoint work_loop (q : list skb) : M world unit :=
  match q with
  | [] => ret tt
  | s :: q' =>
      modify (on_ctrl (set_rxq q')) ;;;
      let! t := lift (hdr_type (skb_data s)) in
      (if is_response_type t then hgic_fwctrl_rx_response s
       else if is_event_type t then modify (log_call (CO_rx_event s))
       else ret tt) ;;;
      work_loop q'
  end.
Definition hgic_fwctrl_work : M world unit :=
  let! q := gets (fun w => fc_rxq (w_ctrl w)) in work_loop q.

Definition hgic_fwctrl_rx (data : list Z) (len : Z) : M world unit :=
  let! wq := gets (fun w => fc_wq (w_ctrl w)) in
  if wq then
    let! s := dev_alloc_skb len in
    match s with
    | Some s =>
        let! bs := lift (mem_read data 0 len) in
        let! s := lift (skb_write s 0 bs) in
        let! s := lift (skb_put s len) in
        modify (on_ctrl (fun c => set_rxq (fc_rxq c ++ [s]) c))
    | None => ret tt
    end
  else ret tt.

(** ** Interleaving *)
Definition has_thread (t : nat) (l : list hgic_cmd_response) : bool := existsb (is_thread t) l.

Definition run_action (a : action) : M world unit :=
  match a with
  | ATx => fun w =>
      match fc_txq (w_ctrl w) with
      | [] => Ret (tt, w)
      | s :: q => Ret (tt, World (set_txq q (w_ctrl w)) (w_env w) (w_alloc w) (w_sent w ++ [s]) (w_calls w))
      end
  | ARx data => hgic_fwctrl_rx data (zlen data)
  | AWork => hgic_fwctrl_work
  | ACookie => hgic_ctrl_cookie ;;; ret tt
  | ABegin t c s => fun w =>
      if has_thread (S t) (fc_pd_list (w_ctrl w)) then Ret (tt, w) else send_begin (S t) c s w
  | AEnd t => send_end (S t) ;;; ret tt
  | AClear => hgic_fwctrl_clear_pdlist
  | ASleep b => modify (on_ctrl (if b then set_bit HGIC_BUS_FLAGS_SLEEP
                                 else clear_bit HGIC_BUS_FLAGS_SLEEP))
  end.

Fixpoint run_actions (l : list action) : M world unit :=
  match l with [] => ret tt | a :: l' => run_action a ;;; run_actions l' end.

(** [wait_for_completion_timeout]: whatever happens until the caller runs
    again, a completion or the timeout. *)
Definition wait : M world unit := fun w =>
  match w_env w with
  | [] => Ret (tt, w)
  | l :: e => run_actions l (World (w_ctrl w) e (w_alloc w) (w_sent w) (w_calls w))
  end.

Definition hgic_fwctrl_send_data (s : skb) (cookie timeout : Z) : M world (option skb) :=
  send_begin 0 cookie s ;;;
  (if timeout =? 0 then ret tt else wait) ;;;
  send_end 0.

Definition hgic_fwctrl_send_cmd (ifidx cmd_id : Z) (s : skb) : M world (option skb) :=
  let! cookie := hgic_ctrl_cookie in
  let! s := lift (skb_push s sizeof_hgic_ctrl_hdr) in
  let! s := lift (skb_update s (fill_cmd_hdr ifidx cmd_id cookie)) in
  hgic_fwctrl_send_data s cookie HGIC_CMD_TIMEOUT.

(** What [hgic_fwctrl_do_cmd] takes from the response: the 16-bit status, and
    when it is positive that many bytes of payload, cut to the caller's buffer. *)
Definition cmd_result (out : option (list Z)) (out_size : Z) (resp : option skb)
  : outcome (Z * option (list Z)) :=
  match resp with
  | None => Ret (-1, out)
  | Some resp =>
      leto r := ctrl_status (skb_data resp) in
      match out with
      | Some o =>
          if 0 <? r then
            leto bs := skb_read resp sizeof_hgic_ctrl_hdr (if out_size <? r then out_size else r) in
            leto o := mem_write o 0 bs in
            Ret (r, Some o)
          else Ret (r, out)
      | None => Ret (r, out)
      end
  end.

(** The payload copy, with its terminating store one byte further. *)
Definition copy_payload (inp : option (list Z)) (in_len : Z) (skb : skb) : outcome Skb.skb :=
  match inp with
  | Some inp =>
      if 0 <? in_len then
        leto bs := mem_read inp 0 in_len in
        leto skb := skb_write skb 0 bs in
        skb_write skb in_len [0]
      else Ret skb
  | None => Ret skb
  end.

(** The result of a command, and the caller's output buffer after it. *)
Definition hgic_fwctrl_do_cmd (ifidx cmd_id : Z) (inp : option (list Z)) (in_len : Z)
    (out : option (list Z)) (out_size : Z) : M world (Z * option (list Z)) :=
  let in_len := u32 in_len in
  let out_size := u32 out_size in
  if 2000 <? in_len then ret (- EINVAL, out) else
  let! skb := hgic_alloc_ctrl_skb in_len in
  match skb with
  | None => ret (-1, out)
  | Some skb =>
      let! skb := lift (copy_payload inp in_len skb) in
      let! resp := hgic_fwctrl_send_cmd ifidx cmd_id skb in
      lift (cmd_result out out_size resp)
  end.

Definition hgic_fwctrl_set_byte (ifidx cmd_id val : Z) : M world Z :=
  let! r := hgic_fwctrl_do_cmd ifidx cmd_id (Some [u8 val]) 1 None 0 in ret (fst r).

Definition hgic_fwctrl_set_int_val (ifidx cmd_id val : Z) : M world Z :=
  let! r := hgic_fwctrl_do_cmd ifidx cmd_id (Some (put_unaligned_le32 (u32 val))) 4 None 0 in
  ret (fst r).

(** [data] is uninitialised stack memory. *)
Definition hgic_fwctrl_get_int_val (data : list Z) (ifidx cmd_id : Z) : M world Z :=
  let! r := hgic_fwctrl_do_cmd ifidx cmd_id None 0 (Some (resize 4 0 data)) 4 in
  if fst r =? 4 then
    let! d := lift (deref (snd r)) in
    let! v := lift (get_unaligned_le32 d) in ret (s32 v)
  else ret (-1).

Definition hgic_fwctrl_get_short_val (ifidx cmd_id : Z) : M world Z :=
  let! r := hgic_fwctrl_do_cmd ifidx cmd_id None 0 None 0 in ret (s16 (fst r)).

Definition hgic_fwctrl_set_bytes (ifidx cmd_id : Z) (data : option (list Z)) (len : Z) : M world Z :=
  let! r := hgic_fwctrl_do_cmd ifidx cmd_id data len None 0 in ret (fst r).

Definition hgic_fwctrl_get_bytes (ifidx cmd_id : Z) (buff : option (list Z)) (len : Z)
  : M world (Z * option (list Z)) :=
  hgic_fwctrl_do_cmd ifidx cmd_id None 0 buff len.

(** [wq]: whether the work queue could be allocated. *)
Definition hgic_fwctrl_init (bus : hgic_bus) (wq : bool) : hgic_fwctrl :=
  FwCtrl 0 [] [] [] wq 0 1 None bus.

Definition hgic_fwctrl_release : M world unit :=
  hgic_fwctrl_clear_pdlist ;;;
  modify (on_ctrl (set_txq [])) ;;;
  modify (on_ctrl (set_rxq [])).

(** ** Allocation *)
Definition pop_alloc (w : world) : world :=
  World (w_ctrl w) (w_env w) (tail (w_alloc w)) (w_sent w) (w_calls w).
(** The next allocation is the oracle's to refuse. *)
Definition alloc_fails (w : world) : bool :=
  match w_alloc w with None :: _ => true | _ => false end.

Lemma alloc_spec n w :
  0 <= n < 2 ^ 31 ->
  if alloc_fails w then alloc n w = Ret (None, pop_alloc w)
  else exists blk, zlen blk = n /\ alloc n w = Ret (Some blk, pop_alloc w).
Proof.
  intros Hn. unfold alloc_fails, alloc. rewrite u32_id by lia.
  destruct (Z.leb_spec (2 ^ 31) n); [lia|]. unfold pop_alloc.
  destruct (w_alloc w) as [|[junk|] l]; simpl;
    [eexists; split; [|done]; apply zlen_resize; lia..|done].
Qed.

Lemma alloc_empty n w :
  0 <= n < 2 ^ 31 -> w_alloc w = [] -> alloc n w = Ret (Some (replicate (Z.to_nat n) 0), w).
Proof.
  intros Hn Ha. unfold alloc. rewrite Ha, u32_id by lia. destruct (Z.leb_spec (2 ^ 31) n); [lia|].
  rewrite resize_nil. do 2 f_equal. destruct w; simpl in *; by subst.
Qed.

(** ** The socket buffer of a command *)
Lemma skb_reserve_ok s n :
  0 <= n <= skb_tailroom s -> skb_data s = [] ->
  skb_reserve s n = Ret (Skb (skb_head s ++ ztake n (skb_tail s)) [] (zdrop n (skb_tail s))).
Proof.
  intros Hn Hd. unfold skb_reserve. rewrite bool_decide_eq_true_2 by done.
  destruct (Z.leb_spec 0 n), (Z.leb_spec n (skb_tailroom s)); simpl; done || lia.
Qed.

Lemma skb_put_app h d a t :
  skb_put (Skb h d (a ++ t)) (zlen a) = Ret (Skb h (d ++ a) t).
Proof.
  unfold skb_put, skb_tailroom; simpl. rewrite zlen_app.
  pose proof (zlen_nonneg a). pose proof (zlen_nonneg t).
  destruct (Z.leb_spec 0 (zlen a)), (Z.leb_spec (zlen a) (zlen a + zlen t)); simpl; try lia.
  by rewrite ztake_app_length, zdrop_app_length.
Qed.

Lemma skb_push_app h a d t :
  skb_push (Skb (h ++ a) d t) (zlen a) = Ret (Skb h (a ++ d) t).
Proof.
  unfold skb_push, skb_headroom; simpl. rewrite zlen_app.
  pose proof (zlen_nonneg a). pose proof (zlen_nonneg h).
  destruct (Z.leb_spec 0 (zlen a)), (Z.leb_spec (zlen a) (zlen h + zlen a)); simpl; try lia.
  by rewrite ztake_app_length, zdrop_app_length by lia.
Qed.

(** A store at the start of the bytes after [skb->data]. *)
Lemma skb_write_start s bs rest :
  skb_data s ++ skb_tail s = rest ->
  zlen bs <= zlen rest ->
  skb_write s 0 bs
  = Ret (Skb (skb_head s) (ztake (skb_len s) (bs ++ zdrop (zlen bs) rest))
             (zdrop (skb_len s) (bs ++ zdrop (zlen bs) rest))).
Proof. intros E L. unfold skb_write. rewrite E, mem_write_ok by lia. done. Qed.

Lemma replicate_split n m : 0 <= n -> 0 <= m ->
  replicate (Z.to_nat (n + m)) 0 = replicate (Z.to_nat n) 0 ++ replicate (Z.to_nat m) 0.
Proof. intros. by rewrite Z2Nat.inj_add, replicate_add. Qed.

Lemma alloc_ctrl_skb_spec size w :
  let room := drv_tx_headroom (fc_bus (w_ctrl w)) in
  0 <= room < 2 ^ 20 -> 0 <= size <= 2000 ->
  if alloc_fails w then hgic_alloc_ctrl_skb size w = Ret (None, pop_alloc w)
  else exists h t, zlen h = room /\ zlen t = 4 /\
    hgic_alloc_ctrl_skb size w
    = Ret (Some (Skb (h ++ replicate 12 0) (replicate (Z.to_nat size) 0) t), pop_alloc w).
Proof.
  intros room Hr Hs. unfold hgic_alloc_ctrl_skb, dev_alloc_skb, bind, gets, ret. fold room.
  assert (exists n, n = room + sizeof_hgic_ctrl_hdr + size + 4) as [n En] by eauto.
  rewrite <- En. unfold sizeof_hgic_ctrl_hdr in *. clearbody room.
  pose proof (alloc_spec n w ltac:(lia)) as A.
  destruct (alloc_fails w); [by rewrite A|].
  destruct A as (blk & Hl & ->). cbn [fmap option_fmap option_map].
  exists (ztake room blk), (zdrop (n - 4) blk).
  rewrite zlen_ztake, zlen_zdrop by lia. do 2 (split; [lia|]).
  unfold skb_of_block, lift.
  rewrite skb_reserve_ok; [|unfold skb_tailroom; cbn [skb_tail]; lia|done].
  cbn [skb_head skb_data skb_tail app].
  assert (zdrop (12 + size) (zdrop room blk) = zdrop (n - 4) blk) as E.
  { rewrite zdrop_zdrop by lia. f_equal. lia. }
  assert (zlen (zdrop (n - 4) blk) = 4) as E4 by (rewrite zlen_zdrop; lia).
  rewrite (skb_write_start _ _ (zdrop room blk)); [|done|
    rewrite zlen_replicate, zlen_zdrop; lia].
  rewrite zlen_replicate, replicate_split, E by lia.
  change (skb_len _) with 0. cbn [skb_head]. rewrite <- app_assoc.
  rewrite ztake_0, zdrop_0.
  rewrite skb_reserve_ok; [|unfold skb_tailroom; cbn [skb_tail];
    rewrite !zlen_app, !zlen_replicate; lia|done].
  cbn [skb_head skb_tail]. rewrite ztake_app_length, zdrop_app_length by done.
  pose proof (skb_put_app (ztake room blk ++ replicate 12 0) [] (replicate (Z.to_nat size) 0)
    (zdrop (n - 4) blk)) as P.
  rewrite zlen_replicate in P by lia. change (Z.to_nat 12) with 12%nat. by rewrite P.
Qed.

(** ** The request frame *)
Definition payload (inp : option (list Z)) (n : Z) : list Z :=
  match inp with Some i => ztake n i | None => replicate (Z.to_nat n) 0 end.

(** The caller passes at least the bytes it announces. *)
Definition input_ok (inp : option (list Z)) (n : Z) : Prop :=
  match inp with Some i => n <= zlen i | None => True end.

Definition cmd_frame (ifidx id cookie : Z) (pl : list Z) : list Z :=
  [0x2B; 0x1A; if 255 <? id then 13 else 3; Z.land ifidx 15]
  ++ put_unaligned_le16 (12 + zlen pl) ++ put_unaligned_le16 cookie
  ++ (if 255 <? id then put_unaligned_le16 id else [u8 id; 0]) ++ [0; 0] ++ pl.

Lemma payload_zlen inp n : 0 <= n -> input_ok inp n -> zlen (payload inp n) = n.
Proof. destruct inp; simpl; intros; [apply zlen_ztake; lia|by apply zlen_replicate]. Qed.

Lemma copy_payload_spec inp n h t :
  0 <= n -> input_ok inp n -> zlen t = 4 ->
  exists t', zlen t' = 4 /\
    copy_payload inp n (Skb h (replicate (Z.to_nat n) 0) t) = Ret (Skb h (payload inp n) t').
Proof.
  intros Hn Hi Ht. destruct inp as [i|]; simpl; [|by exists t].
  destruct (Z.ltb_spec 0 n); cycle 1.
  { exists t. split; [done|]. by replace n with 0 by lia. }
  simpl in Hi. rewrite mem_read_ok by lia. cbn [obind]. rewrite zdrop_0.
  pose proof (zlen_ztake n i ltac:(lia)) as L.
  assert (exists a t1, t = a :: t1) as (a & t1 & ->) by (destruct t as [|a t1]; [done|eauto]).
  exists (0 :: t1). split; [by rewrite <- Ht, !zlen_cons|].
  unfold skb_write at 1, skb_len. cbn [skb_data skb_tail skb_head].
  rewrite (mem_write_mid _ [] (replicate (Z.to_nat n) 0) (a :: t1));
    [|done|done|rewrite zlen_replicate; lia].
  cbn [obind app]. rewrite zlen_replicate, ztake_app_length, zdrop_app_length by lia.
  unfold skb_write, skb_len. cbn [skb_data skb_tail skb_head].
  rewrite (mem_write_mid _ (ztake n i) [a] t1) by (done || lia).
  cbn [obind]. by rewrite L, ztake_app_length, zdrop_app_length by lia.
Qed.

Lemma fill_cmd_hdr_spec ifidx cmd_id cookie pl :
  fill_cmd_hdr ifidx cmd_id cookie (replicate 12 0 ++ pl)
  = Ret (cmd_frame ifidx (u16 cmd_id) cookie pl).
Proof.
  unfold fill_cmd_hdr, cmd_frame, HGIC_CMD_START, put16_at, put_ifidx. rewrite Z.sub_0_r.
  cbn [replicate app].
  rewrite (mem_write_mid _ (replicate 8 0) (replicate 4 0) pl) by done. cbn [obind replicate app].
  rewrite (mem_write_mid _ [] [0;0] (replicate 10 0 ++ pl)) by done. cbn [obind app].
  rewrite (mem_write_mid _ [0x2B; 0x1A; 0; 0] [0;0] (replicate 6 0 ++ pl)) by done.
  change (zlen (_ ++ _)) with (zlen (replicate 12 0 ++ pl)).
  rewrite (zlen_app (replicate 12 0) pl). change (zlen (replicate 12 0)) with 12.
  cbn [obind app]. set (len := put_unaligned_le16 (12 + zlen pl)). set (ck := put_unaligned_le16 cookie).
  rewrite (mem_write_mid _ ([0x2B; 0x1A; 0; 0] ++ len) [0;0] (replicate 4 0 ++ pl)) by done.
  cbn [obind app]. change (mem_get _ 3) with (Ret 0). cbn [obind].
  rewrite (mem_write_mid _ [0x2B; 0x1A; 0] [0] (len ++ ck ++ replicate 4 0 ++ pl)) by done.
  cbn [obind app]. change (Z.land 0 240) with 0. rewrite Z.lor_0_l.
  unfold HDR_CMDID_SET, put8_at, put16_at. set (fl := Z.land ifidx 15).
  destruct (255 <? u16 cmd_id).
  - rewrite (mem_write_mid _ [0x2B; 0x1A] [0] (fl :: len ++ ck ++ replicate 4 0 ++ pl)) by done.
    cbn [obind app].
    by rewrite (mem_write_mid _ ([0x2B; 0x1A; 13; fl] ++ len ++ ck) [0; 0] ([0; 0] ++ pl)).
  - rewrite (mem_write_mid _ [0x2B; 0x1A] [0] (fl :: len ++ ck ++ replicate 4 0 ++ pl)) by done.
    cbn [obind app].
    by rewrite (mem_write_mid _ ([0x2B; 0x1A; 3; fl] ++ len ++ ck) [0] ([0; 0; 0] ++ pl)).
Qed.

(** ** A command up to the sleep *)
Definition take_cookie (w : world) : world :=
  on_ctrl (set_cookie (Z.land (u16 (fc_cookie (w_ctrl w) + 1)) HGIC_TX_COOKIE_MASK)) w.
Definition bus_ok (w : world) : Prop := 0 <= drv_tx_headroom (fc_bus (w_ctrl w)) < 2 ^ 20.

Lemma send_cmd_spec ifidx cmd_id h pl t w :
  hgic_fwctrl_send_cmd ifidx cmd_id (Skb (h ++ replicate 12 0) pl t) w
  = hgic_fwctrl_send_data
      (Skb h (cmd_frame ifidx (u16 cmd_id) (fc_cookie (w_ctrl w)) pl) t)
      (fc_cookie (w_ctrl w)) HGIC_CMD_TIMEOUT (take_cookie w).
Proof.
  unfold hgic_fwctrl_send_cmd, hgic_ctrl_cookie, bind, gets, modify, ret, lift.
  change sizeof_hgic_ctrl_hdr with (zlen (replicate 12 0)). rewrite skb_push_app.
  unfold skb_update. cbn [skb_data skb_head skb_tail].
  by rewrite fill_cmd_hdr_spec.
Qed.

Lemma do_cmd_spec ifidx cmd_id inp in_len out out_size w :
  0 <= in_len <= 2000 -> input_ok inp in_len -> bus_ok w ->
  let c := fc_cookie (w_ctrl w) in
  if alloc_fails w then
    hgic_fwctrl_do_cmd ifidx cmd_id inp in_len out out_size w = Ret ((-1, out), pop_alloc w)
  else exists s,
    skb_data s = cmd_frame ifidx (u16 cmd_id) c (payload inp in_len) /\
    hgic_fwctrl_do_cmd ifidx cmd_id inp in_len out out_size w
    = (let! r := hgic_fwctrl_send_data s c HGIC_CMD_TIMEOUT in
       lift (cmd_result out (u32 out_size) r)) (take_cookie (pop_alloc w)).
Proof.
  intros Hn Hi Hb c. unfold hgic_fwctrl_do_cmd. rewrite (u32_id in_len) by lia.
  destruct (Z.ltb_spec 2000 in_len); [lia|].
  pose proof (alloc_ctrl_skb_spec in_len w Hb Hn) as A.
  destruct (alloc_fails w); [by rewrite (bind_Ret _ _ _ _ _ A)|].
  destruct A as (h & t & Hh & Ht & A). rewrite (bind_Ret _ _ _ _ _ A).
  destruct (copy_payload_spec inp in_len (h ++ replicate 12 0) t) as (t' & Ht' & C); [lia|done..|].
  exists (Skb h (cmd_frame ifidx (u16 cmd_id) c (payload inp in_len)) t').
  split; [done|]. unfold bind at 1, lift at 1. rewrite C.
  unfold bind. by rewrite send_cmd_spec.
Qed.

(** What the caller's world is when it falls asleep. *)
Definition asleep (s : skb) (cookie : Z) (w : world) : world :=
  log_call CO_schedule
    (on_ctrl (fun c => set_txq (txq_enqueue s (fc_txq c)) c)
      (on_ctrl (fun c => set_pd_list (Response 0 cookie None false :: fc_pd_list c) c) w)).

Lemma send_data_spec s cookie timeout w :
  timeout <> 0 ->
  hgic_fwctrl_send_data s cookie timeout w
  = (wait ;;; send_end 0) (asleep s cookie w).
Proof.
  intros. unfold hgic_fwctrl_send_data, send_begin, bind, modify.
  destruct (Z.eqb_spec timeout 0); [done|reflexivity].
Qed.

(** ** Cookies *)
Lemma next_cookie c :
  0 <= c <= HGIC_TX_COOKIE_MASK -> Z.land (u16 (c + 1)) HGIC_TX_COOKIE_MASK = (c + 1) mod 2 ^ 15.
Proof.
  unfold HGIC_TX_COOKIE_MASK. intros. change 0x7fff with (Z.ones 15).
  rewrite Z.land_ones by lia. by rewrite u16_id by lia.
Qed.

Lemma ctrl_cookie_spec w : hgic_ctrl_cookie w = Ret (fc_cookie (w_ctrl w), take_cookie w).
Proof. done. Qed.

Fixpoint take_cookies (n : nat) : M world (list Z) :=
  match n with
  | O => ret []
  | S n => let! c := hgic_ctrl_cookie in let! l := take_cookies n in ret (c :: l)
  end.

Lemma take_cookies_spec n w :
  0 <= fc_cookie (w_ctrl w) <= HGIC_TX_COOKIE_MASK ->
  exists w' l, take_cookies n w = Ret (l, w') /\ length l = n /\
    0 <= fc_cookie (w_ctrl w') <= HGIC_TX_COOKIE_MASK /\
    forall i, (i < n)%nat -> l !! i = Some ((fc_cookie (w_ctrl w) + Z.of_nat i) mod 2 ^ 15).
Proof.
  revert w. induction n as [|n IH]; intros w Hw; simpl.
  - exists w, []. repeat split; try done; lia.
  - set (w1 := take_cookie w).
    assert (fc_cookie (w_ctrl w1) = (fc_cookie (w_ctrl w) + 1) mod 2 ^ 15) as E1
      by (unfold w1; simpl; by apply next_cookie).
    destruct (IH w1) as (w' & l & El & Hl & Hw' & Hi).
    { rewrite E1. unfold HGIC_TX_COOKIE_MASK. pose proof (Z.mod_pos_bound (fc_cookie (w_ctrl w) + 1) (2 ^ 15)). lia. }
    exists w', (fc_cookie (w_ctrl w) :: l).
    rewrite (bind_Ret _ _ _ _ _ (ctrl_cookie_spec w)), (bind_Ret _ _ _ _ _ El).
    split; [done|]. split; [simpl; lia|]. split; [done|].
    intros [|i] Hlt; simpl.
    + rewrite Z.add_0_r, Z.mod_small; [done|]. unfold HGIC_TX_COOKIE_MASK in *. lia.
    + rewrite Hi by lia. rewrite E1, Zplus_mod_idemp_l. do 2 f_equal. lia.
Qed.

(** ** The invariant of the channel, under any interleaving *)
Section Invariant.
(** The control frames the bus delivers, and how many frames may be queued. *)
Context (F : list Z -> Prop) (B : Z).

Definition answers (e : hgic_cmd_response) (s : skb) : Prop :=
    hdr_cookie (skb_data s) = Ret (pe_cookie e) /\
    (exists t, hdr_type (skb_data s) = Ret t /\ is_response_type t = true) /\
    F (skb_data s).
Definition entry_ok (e : hgic_cmd_response) : Prop :=
    forall s, pe_skb e = Some s -> answers e s.

Record ctrl_ok (c : hgic_fwctrl) : Prop := {
    co_entries : Forall entry_ok (fc_pd_list c);
    co_threads : NoDup (map pe_thread (fc_pd_list c));
    co_rxq : Forall (fun s => F (skb_data s)) (fc_rxq c);
    co_txq : zlen (fc_txq c) <= B;
    co_cookie : 0 <= fc_cookie c <= HGIC_TX_COOKIE_MASK }.

Definition action_ok (a : action) : Prop :=
    match a with ARx d => F d | _ => True end.
End Invariant.

Section Bounded.
(** The control queue keeps any bound of at least five frames. *)
Variable B : Z.
Hypothesis HB : 5 <= B.

(** The pending entries, seen without what the responses write into them. *)
Definition pending (w : world) : list (nat * Z) :=
  map (fun e => (pe_thread e, pe_cookie e)) (fc_pd_list (w_ctrl w)).

Definition own_entry (c : Z) (w : world) : Prop := (0%nat, c) ∈ pending w.

Lemma match_response_pending s l l' b :
  match_response s l = Ret (l', b) ->
  map (fun e => (pe_thread e, pe_cookie e)) l' = map (fun e => (pe_thread e, pe_cookie e)) l.
Proof.
  revert l' b. induction l as [|e l IH]; simpl; intros l' b H; run_inv; [done|].
  destruct (pe_cookie e =? a) eqn:E; run_inv; [done|].
  simpl. f_equal. destruct a0 as [l1 b1]. by eapply IH.
Qed.

Lemma match_response_ok F s l l' b :
  match_response s l = Ret (l', b) ->
  (exists t, hdr_type (skb_data s) = Ret t /\ is_response_type t = true) -> F (skb_data s) ->
  Forall (entry_ok F) l -> Forall (entry_ok F) l'.
Proof.
  intros H Ht Hf Hl. revert l' b H. induction Hl as [|e l He Hl IH]; simpl; intros l' b H; run_inv; [done|].
  destruct (Z.eqb_spec (pe_cookie e) a) as [->|]; run_inv.
  - constructor; [|done]. intros s' [= <-]. by split.
  - constructor; [done|]. destruct a0 as [l1 b1]. by eapply IH.
Qed.

Lemma pending_threads w w' :
  pending w = pending w' ->
  map pe_thread (fc_pd_list (w_ctrl w)) = map pe_thread (fc_pd_list (w_ctrl w')).
Proof.
  intros E. apply (f_equal (map fst)) in E. unfold pending in E.
  by rewrite !map_map in E.
Qed.

Lemma rx_response_ok F s w w' r :
  hgic_fwctrl_rx_response s w = Ret (r, w') ->
  (exists t, hdr_type (skb_data s) = Ret t /\ is_response_type t = true) -> F (skb_data s) ->
  ctrl_ok F B (w_ctrl w) ->
  ctrl_ok F B (w_ctrl w') /\ pending w' = pending w.
Proof.
  unfold hgic_fwctrl_rx_response, bind, gets, lift, modify. intros H Ht Hf [? ? ? ? ?].
  destruct (match_response s (fc_pd_list (w_ctrl w))) as [[l b]|] eqn:E; [|done].
  injection H as <- <-. cbn [fst].
  assert (pending (on_ctrl (set_pd_list l) w) = pending w) as P
    by (unfold pending; simpl; by eapply match_response_pending).
  split; [|done]. split; simpl; try done.
  - by eapply match_response_ok.
  - apply pending_threads in P. simpl in P. by rewrite P.
Qed.

Lemma work_loop_ok F q w w' r :
  work_loop q w = Ret (r, w') ->
  Forall (fun s => F (skb_data s)) q ->
  ctrl_ok F B (w_ctrl w) ->
  ctrl_ok F B (w_ctrl w') /\ pending w' = pending w.
Proof.
  revert w w' r. induction q as [|s q IH]; intros w w' r H Hq Hw; [by injection H as <- <-|].
  apply Forall_cons in Hq as [Hs Hq]. cbn [work_loop] in H.
  unfold bind at 1, modify at 1 in H. set (w1 := on_ctrl (set_rxq q) w) in H.
  assert (ctrl_ok F B (w_ctrl w1)) as Hw1 by (destruct Hw; by split).
  change (pending w) with (pending w1). clearbody w1.
  unfold bind at 1, lift in H. destruct (hdr_type (skb_data s)) as [t|] eqn:Et; [|done].
  apply bind_inv in H as ([] & w2 & H1 & H2).
  assert (ctrl_ok F B (w_ctrl w2) /\ pending w2 = pending w1) as [Hw2 <-]; [|by eapply IH].
  destruct (is_response_type t) eqn:E1; [eapply rx_response_ok in H1; eauto|].
  destruct (is_event_type t); by injection H1 as <-.
Qed.

Lemma zlen_mem_whole (d : list Z) : mem_read d 0 (zlen d) = Ret d.
Proof.
  rewrite mem_read_ok by (pose proof (zlen_nonneg d); lia).
  by rewrite zdrop_0, ztake_all.
Qed.

(** Fill a fresh buffer with [d], as every receive path does. *)
Lemma fill_block blk d :
  zlen d <= zlen blk ->
  exists t, (leto s := skb_write (skb_of_block blk) 0 d in skb_put s (zlen d))
            = Ret (Skb [] d t) /\ zlen t = zlen blk - zlen d.
Proof.
  intros H. exists (zdrop (zlen d) blk). split; [|apply zlen_zdrop; pose proof (zlen_nonneg d); lia].
  rewrite (skb_write_start _ _ blk) by done.
  unfold skb_of_block, skb_len. cbn [skb_data skb_head obind]. change (zlen []) with 0.
  rewrite ztake_0, zdrop_0. by rewrite skb_put_app.
Qed.

(** [hgic_fwctrl_rx] appends the frame or, for want of memory or of a work
    queue, drops it. *)
Lemma fwctrl_rx_spec d w :
  zlen d < 2 ^ 31 ->
  exists w', hgic_fwctrl_rx d (zlen d) w = Ret (tt, w') /\
    w_env w' = w_env w /\ w_sent w' = w_sent w /\ w_calls w' = w_calls w /\
    (w_ctrl w' = w_ctrl w \/
     w_ctrl w' = set_rxq (fc_rxq (w_ctrl w) ++ [Skb [] d []]) (w_ctrl w)) /\
    (fc_wq (w_ctrl w) = true -> alloc_fails w = false -> w_ctrl w' <> w_ctrl w).
Proof.
  intros Hd. pose proof (zlen_nonneg d). unfold hgic_fwctrl_rx, bind at 1, gets at 1.
  destruct (fc_wq (w_ctrl w)) eqn:Ewq; cycle 1.
  { eexists; split; [done|]. repeat split; auto; congruence. }
  pose proof (alloc_spec (zlen d) w ltac:(lia)) as A.
  unfold dev_alloc_skb. destruct (alloc_fails w) eqn:Ea.
  - unfold bind, ret. rewrite A. simpl. eexists; split; [done|]. repeat split; auto; congruence.
  - destruct A as (blk & Hb & A). unfold bind, ret, lift. rewrite A. cbn [fmap option_fmap option_map].
    rewrite zlen_mem_whole. destruct (fill_block blk d) as (t & Hf & Hz); [lia|].
    assert (t = []) as -> by (destruct t; [done|rewrite zlen_cons in Hz; pose proof (zlen_nonneg t); lia]).
    destruct (skb_write (skb_of_block blk) 0 d) as [s|]; [|done]. cbn [obind] in Hf. rewrite Hf.
    eexists; split; [done|]. simpl. repeat split; eauto.
    intros _ _ E. apply (f_equal fc_rxq) in E. simpl in E.
    apply (f_equal length) in E. rewrite length_app in E. simpl in E. lia.
Qed.

Lemma filter_threads_NoDup (P : hgic_cmd_response -> bool) l :
  NoDup (map pe_thread l) -> NoDup (map pe_thread (List.filter P l)).
Proof.
  induction l as [|e l IH]; simpl; [done|]. intros [Hn Hd]%NoDup_cons.
  destruct (P e); [|by apply IH]. simpl. apply NoDup_cons. split; [|by apply IH].
  intros (x & Hx & Hin)%list_elem_of_fmap. apply Hn. apply list_elem_of_fmap. exists x.
  split; [done|]. apply list_elem_of_In. apply list_elem_of_In in Hin. by apply filter_In in Hin as [? _].
Qed.

Lemma filter_entries_ok (P : hgic_cmd_response -> bool) (Q : hgic_cmd_response -> Prop) l :
  Forall Q l -> Forall Q (List.filter P l).
Proof. induction 1; simpl; [done|]. destruct (P x); [by constructor|done]. Qed.

Lemma txq_enqueue_bound s q : zlen q <= B -> zlen (txq_enqueue s q) <= B.
Proof.
  unfold txq_enqueue. intros. rewrite zlen_app. change (zlen [s]) with 1.
  destruct (Z.ltb_spec 4 (zlen q)); [|lia].
  destruct q; [done|]. rewrite zlen_cons in *. simpl. lia.
Qed.

Lemma send_begin_ok F t c s w w' r :
  send_begin t c s w = Ret (r, w') ->
  has_thread t (fc_pd_list (w_ctrl w)) = false ->
  ctrl_ok F B (w_ctrl w) ->
  ctrl_ok F B (w_ctrl w') /\ pending w' = (t, c) :: pending w.
Proof.
  intros [= <- <-] Ht [? ? ? ? ?]. split; [|done]. split; simpl; try done.
  - by constructor.
  - apply NoDup_cons. split; [|done]. intros (e & -> & He)%list_elem_of_fmap.
    enough (has_thread (pe_thread e) (fc_pd_list (w_ctrl w)) = true) by congruence.
    apply existsb_exists. exists e. rewrite <- list_elem_of_In. split; [done|].
    apply Nat.eqb_refl.
  - by apply txq_enqueue_bound.
Qed.

Lemma send_end_ok F t w w' r :
  send_end t w = Ret (r, w') ->
  ctrl_ok F B (w_ctrl w) ->
  ctrl_ok F B (w_ctrl w') /\ has_thread t (fc_pd_list (w_ctrl w')) = false /\
  forall u c, u <> t -> (u, c) ∈ pending w -> (u, c) ∈ pending w'.
Proof.
  intros [= <- <-] [? ? ? ? ?]. split; [split; simpl; try done|].
  - by apply filter_entries_ok.
  - by apply filter_threads_NoDup.
  - split.
    + simpl. apply not_true_iff_false. intros (e & [_ He]%filter_In & E)%existsb_exists.
      by rewrite E in He.
    + intros u c Hu (e & [= -> ->] & He)%list_elem_of_fmap. apply list_elem_of_fmap.
      exists e. split; [done|]. simpl. apply list_elem_of_In, filter_In.
      split; [by apply list_elem_of_In|]. unfold is_thread.
      apply negb_true_iff, Nat.eqb_neq. done.
Qed.

Lemma fwctrl_rx_inv d w w' r :
  hgic_fwctrl_rx d (zlen d) w = Ret (r, w') ->
  w_ctrl w' = w_ctrl w \/
  exists s, skb_data s = d /\ w_ctrl w' = set_rxq (fc_rxq (w_ctrl w) ++ [s]) (w_ctrl w).
Proof.
  unfold hgic_fwctrl_rx, bind at 1, gets at 1. destruct (fc_wq (w_ctrl w)); [|by intros [= <- <-]; left].
  intros (s & w1 & H1 & H)%bind_inv.
  assert (w_ctrl w1 = w_ctrl w /\ (forall x, s = Some x -> exists b, x = skb_of_block b)) as [E Hs].
  { unfold dev_alloc_skb, bind, ret, alloc in H1.
    destruct (2 ^ 31 <=? u32 (zlen d)); [|destruct (w_alloc w) as [|[]]];
      injection H1 as <- <-; (split; [done|intros x [= <-]; eauto]). }
  rewrite <- E. destruct s as [s|]; [|by injection H as <- <-; left].
  destruct (Hs s eq_refl) as [blk ->]. right.
  unfold bind, lift in H. rewrite zlen_mem_whole in H.
  assert (zlen d <= zlen blk) as L.
  { destruct (skb_write (skb_of_block blk) 0 d) as [s1|] eqn:E1; [|done].
    apply obind_inv in E1 as (m & (_ & E1 & _)%mem_write_inv & _). simpl in E1. lia. }
  destruct (fill_block blk d L) as (t & Hf & _).
  destruct (skb_write (skb_of_block blk) 0 d) as [s1|]; [|done]. cbn [obind] in Hf.
  rewrite Hf in H. injection H as <- <-. by exists (Skb [] d t).
Qed.

Lemma run_action_ok F a w w' r :
  run_action a w = Ret (r, w') -> action_ok F a ->
  ctrl_ok F B (w_ctrl w) ->
  ctrl_ok F B (w_ctrl w') /\ (forall c, own_entry c w -> own_entry c w').
Proof.
  intros H Ha Hw. destruct a as [|d| | |t c s|t| |b]; cbn [run_action] in H.
  - destruct (fc_txq (w_ctrl w)) as [|s q] eqn:Eq; injection H as <- <-; [done|].
    split; [|done]. destruct Hw as [? ? ? Hq ?]. split; simpl; try done.
    rewrite Eq, zlen_cons in Hq. lia.
  - apply fwctrl_rx_inv in H. unfold own_entry, pending.
    destruct H as [->|(s & <- & ->)]; [done|]. split; [|done].
    destruct Hw as [? ? ? ? ?]. split; simpl; try done.
    apply Forall_app. split; [done|]. by constructor.
  - apply bind_inv in H as (q & w1 & [= <- <-] & H). unfold own_entry.
    apply work_loop_ok with (F := F) in H as [? ->]; [done|apply Hw|done].
  - injection H as <- <-. split; [|done]. destruct Hw as [? ? ? ? Hc]. split; simpl; try done.
    rewrite next_cookie by done. unfold HGIC_TX_COOKIE_MASK.
    pose proof (Z.mod_pos_bound (fc_cookie (w_ctrl w) + 1) (2 ^ 15)). lia.
  - destruct (has_thread (S t) (fc_pd_list (w_ctrl w))) eqn:E; [by injection H as <- <-|].
    apply send_begin_ok with (F := F) in H as [? P]; [|done..]. split; [done|].
    intros c' Hc. unfold own_entry. rewrite P. by apply elem_of_cons; right.
  - apply bind_inv in H as (q & w1 & H & [= <- <-]).
    apply send_end_ok with (F := F) in H as (? & _ & P); [|done]. split; [done|].
    intros c Hc. by apply P.
  - injection H as <- <-. destruct Hw as [He Ht ? ? ?]. split; [split; simpl; try done|].
    + apply Forall_map. eapply Forall_impl; [exact He|]. done.
    + by rewrite map_map.
    + intros c. unfold own_entry, pending. simpl. by rewrite map_map.
  - injection H as <- <-. split; [|by destruct b]. destruct Hw; destruct b; by split.
Qed.

Lemma run_actions_ok F l w w' r :
  run_actions l w = Ret (r, w') -> Forall (action_ok F) l ->
  ctrl_ok F B (w_ctrl w) ->
  ctrl_ok F B (w_ctrl w') /\ (forall c, own_entry c w -> own_entry c w').
Proof.
  intros H Hl. revert w H. induction Hl as [|a l Ha _ IH]; intros w H Hw; [by injection H as <- <-|].
  cbn [run_actions] in H. apply bind_inv in H as ([] & w1 & H1 & H2).
  apply (run_action_ok F) in H1 as [Hw1 P1]; [|done..].
  apply IH in H2 as [Hw2 P2]; [|done]. split; [done|]. intros c Hc. by apply P2, P1.
Qed.

(** The frames the script of the next sleep delivers. *)
Definition script (w : world) : list action := default [] (head (w_env w)).

Lemma wait_ok F w w' r :
  wait w = Ret (r, w') -> Forall (action_ok F) (script w) ->
  ctrl_ok F B (w_ctrl w) ->
  ctrl_ok F B (w_ctrl w') /\ (forall c, own_entry c w -> own_entry c w').
Proof.
  unfold wait, script. destruct (w_env w) as [|l e]; intros H Hl Hw; [by injection H as <- <-|].
  by apply (run_actions_ok F) in H.
Qed.

Lemma own_entry_unique F c w e :
  ctrl_ok F B (w_ctrl w) -> own_entry c w ->
  head (List.filter (is_thread 0) (fc_pd_list (w_ctrl w))) = Some e ->
  pe_cookie e = c /\ entry_ok F e.
Proof.
  intros [He Hn ? ? ?] Ho. unfold own_entry, pending in Ho.
  revert He Hn Ho. generalize (fc_pd_list (w_ctrl w)) as l.
  induction l as [|x l IH]; intros He Hn Ho Hh; [done|]. simpl in *.
  apply Forall_cons in He as [Hx He]. apply NoDup_cons in Hn as [Hx1 Hn].
  destruct (is_thread 0 x) eqn:Et.
  - injection Hh as <-. apply Nat.eqb_eq in Et. split; [|done].
    apply elem_of_cons in Ho as [[= E1 E2]|Ho]; [done|]. exfalso. apply Hx1.
    rewrite Et. apply list_elem_of_fmap in Ho as (y & [= E1 E2] & Hy).
    apply list_elem_of_fmap. by exists y.
  - apply Nat.eqb_neq in Et. apply elem_of_cons in Ho as [[= E1 E2]|Ho]; [congruence|].
    by apply IH.
Qed.

(** The whole of [hgic_fwctrl_send_data]. *)
Lemma send_data_ok F s c timeout w w' r :
  hgic_fwctrl_send_data s c timeout w = Ret (r, w') ->
  Forall (action_ok F) (script w) -> ctrl_ok F B (w_ctrl w) ->
  has_thread 0 (fc_pd_list (w_ctrl w)) = false ->
  ctrl_ok F B (w_ctrl w') /\ has_thread 0 (fc_pd_list (w_ctrl w')) = false /\
  forall x, r = Some x -> answers F (Response 0 c None false) x.
Proof.
  unfold hgic_fwctrl_send_data. intros H Hs Hw Ht.
  apply bind_inv in H as ([] & w1 & H1 & H). apply bind_inv in H as ([] & w2 & H2 & H3).
  assert (script w1 = script w) as Es by (by injection H1 as <-).
  apply (send_begin_ok F) in H1 as [Hw1 P1]; [|done..].
  assert (ctrl_ok F B (w_ctrl w2) /\ own_entry c w2) as [Hw2 P2].
  { assert (own_entry c w1) as P by (unfold own_entry; rewrite P1; by apply elem_of_cons; left).
    destruct (timeout =? 0); [by injection H2 as <-|].
    apply (wait_ok F) in H2 as [? P2]; [by auto|by rewrite Es|done]. }
  pose proof (send_end_ok F _ _ _ _ H3 Hw2) as (Hw3 & Ht3 & _).
  split; [done|]. split; [done|]. intros x ->. injection H3 as Hx _.
  destruct (head _) as [e|] eqn:Eh; [|done].
  destruct (own_entry_unique F c w2 e) as [<- Ho]; [done..|]. by apply Ho.
Qed.

(** ** Fault freedom *)
(** Frames the receive work can parse. *)
Definition parsable (d : list Z) : Prop := sizeof_hgic_ctrl_hdr <= zlen d < 2 ^ 31.

Lemma match_response_total s l : parsable (skb_data s) -> exists r, match_response s l = Ret r.
Proof.
  intros [H _]. destruct (get16_at_total (skb_data s) 6) as [c Hc]; [unfold sizeof_hgic_ctrl_hdr in H; lia..|].
  induction l as [|e l [r IH]]; cbn [match_response]; [by eexists|].
  unfold hdr_cookie. rewrite Hc. cbn [obind]. rewrite IH. cbn [obind].
  destruct (pe_cookie e =? c); by eexists.
Qed.

Lemma work_loop_total q w :
  Forall (fun s => parsable (skb_data s)) q -> exists w', work_loop q w = Ret (tt, w').
Proof.
  intros Hq. revert w. induction Hq as [|s q Hs _ IH]; intros w; [by eexists|].
  cbn [work_loop]. unfold bind at 1, modify at 1. set (w1 := on_ctrl _ w). clearbody w1.
  destruct (mem_get_total (skb_data s) 2) as [t Ht];
    [unfold parsable, sizeof_hgic_ctrl_hdr in Hs; lia|].
  unfold bind at 1, lift, hdr_type. rewrite Ht.
  assert (exists w2, (if is_response_type t then hgic_fwctrl_rx_response s
    else if is_event_type t then modify (log_call (CO_rx_event s)) else ret tt) w1 = Ret (tt, w2))
    as [w2 H2].
  { destruct (is_response_type t).
    - unfold hgic_fwctrl_rx_response, bind, gets, lift, modify.
      destruct (match_response_total s (fc_pd_list (w_ctrl w1)) Hs) as [r ->]. by eexists.
    - destruct (is_event_type t); by eexists. }
  rewrite (bind_Ret _ _ _ _ _ H2). apply IH.
Qed.

Lemma run_actions_total l w :
  Forall (action_ok parsable) l -> ctrl_ok parsable B (w_ctrl w) ->
  exists w', run_actions l w = Ret (tt, w').
Proof.
  intros Hl. revert w. induction Hl as [|a l Ha _ IH]; intros w Hw; [by eexists|].
  assert (exists w1, run_action a w = Ret (tt, w1)) as [w1 H1].
  { destruct a as [|d| | |t c s|t| |b]; cbn [run_action]; try by eexists.
    - destruct (fc_txq (w_ctrl w)); by eexists.
    - destruct (fwctrl_rx_spec d w) as (w1 & -> & _); [apply Ha|by eexists].
    - unfold hgic_fwctrl_work, bind, gets. apply work_loop_total, Hw.
    - destruct (has_thread _ _); by eexists. }
  cbn [run_actions]. rewrite (bind_Ret _ _ _ _ _ H1).
  apply IH. by apply (run_action_ok parsable) in H1 as [? _].
Qed.

Lemma send_data_total s c timeout w :
  Forall (action_ok parsable) (script w) -> ctrl_ok parsable B (w_ctrl w) ->
  has_thread 0 (fc_pd_list (w_ctrl w)) = false ->
  exists r w', hgic_fwctrl_send_data s c timeout w = Ret (r, w').
Proof.
  intros Hs Hw Ht. unfold hgic_fwctrl_send_data.
  destruct (send_begin 0 c s w) as [[[] w1]|] eqn:E1; [|done].
  rewrite (bind_Ret _ _ _ _ _ E1).
  assert (script w1 = script w) as Es by (by injection E1 as <-).
  apply (send_begin_ok parsable) in E1 as [Hw1 _]; [|done..].
  assert (exists w2, (if timeout =? 0 then ret tt else wait) w1 = Ret (tt, w2)) as [w2 H2].
  { destruct (timeout =? 0); [by eexists|]. unfold wait. rewrite <- Es in Hs.
    unfold script in Hs. destruct (w_env w1) as [|l e]; [by eexists|]. by apply run_actions_total. }
  rewrite (bind_Ret _ _ _ _ _ H2). by do 2 eexists.
Qed.
End Bounded.

(** ** Decoding a request *)
Definition resp_frame (ty cookie id status : Z) (body : list Z) : list Z :=
  [0x1A; 0x2B; ty; 1] ++ put_unaligned_le16 (12 + zlen body) ++ put_unaligned_le16 cookie
  ++ [u8 id; 0] ++ put_unaligned_le16 status ++ body.

Lemma resp_frame_cookie ty cookie id status body :
  hdr_cookie (resp_frame ty cookie id status body) = Ret (u16 cookie).
Proof.
  apply (get16_at_mid _ ([0x1A; 0x2B; ty; 1] ++ put_unaligned_le16 (12 + zlen body)) _
    ([u8 id; 0] ++ put_unaligned_le16 status ++ body)); [|done]. by rewrite <- app_assoc.
Qed.

Lemma resp_frame_status ty cookie id status body :
  ctrl_status (resp_frame ty cookie id status body) = Ret (s16 status).
Proof.
  unfold ctrl_status. erewrite (get16_at_mid _ ([0x1A; 0x2B; ty; 1]
    ++ put_unaligned_le16 (12 + zlen body) ++ put_unaligned_le16 cookie ++ [u8 id; 0]) status body);
    [cbn [obind]; by rewrite s16_u16|by rewrite <- !app_assoc|done].
Qed.

Lemma resp_frame_zlen ty cookie id status body :
  zlen (resp_frame ty cookie id status body) = 12 + zlen body.
Proof. unfold resp_frame. rewrite !zlen_app, !put_le16_zlen. unfold zlen. simpl. lia. Qed.

Lemma filter_no_thread t l :
  has_thread t l = false -> List.filter (fun e => negb (is_thread t e)) l = l.
Proof.
  induction l as [|e l IH]; simpl; [done|].
  destruct (is_thread t e); simpl; [done|]. intros. by rewrite IH.
Qed.

Lemma cmd_result_body s out_size o status body n h ty c id t :
  s = Skb h (resp_frame ty c id status body) t ->
  n = Z.max 0 (Z.min (s16 status) out_size) -> n <= zlen body -> out_size <= zlen o -> 0 <= out_size ->
  cmd_result (Some o) out_size (Some s) = Ret (s16 status, Some (ztake n body ++ zdrop n o)).
Proof.
  intros -> En Hn Ho H0. unfold cmd_result. cbn [skb_data]. rewrite resp_frame_status. cbn [obind].
  destruct (Z.ltb_spec 0 (s16 status)); cycle 1.
  { replace n with 0 by lia. by rewrite ztake_0, zdrop_0. }
  replace (if out_size <? s16 status then out_size else s16 status) with n
    by (destruct (Z.ltb_spec out_size (s16 status)); lia).
  unfold skb_read. cbn [skb_data skb_tail]. unfold resp_frame.
  set (p := [0x1A; 0x2B; ty; 1] ++ put_unaligned_le16 (12 + zlen body) ++ put_unaligned_le16 c
    ++ [u8 id; 0] ++ put_unaligned_le16 status).
  rewrite (mem_read_mid _ p (ztake n body) (zdrop n body ++ t)); [|
    unfold p; rewrite <- !app_assoc; rewrite (app_assoc (ztake n body)), ztake_zdrop; done|
    done|rewrite zlen_ztake; lia].
  cbn [obind]. pose proof (zlen_ztake n body ltac:(lia)) as L.
  rewrite (mem_write_mid _ [] (ztake n o) (zdrop n o));
    [done|by rewrite app_nil_l, ztake_zdrop|done|rewrite zlen_ztake; lia].
Qed.

(** The sleep in which the bus thread sends the command, the chip's answer
    arrives, and the control work runs. *)
Definition answered_by (d : list Z) : list action := [ATx; ARx d; AWork].

Lemma work_one x ty l b w :
  fc_rxq (w_ctrl w) = [x] -> hdr_type (skb_data x) = Ret ty -> is_response_type ty = true ->
  match_response x (fc_pd_list (w_ctrl w)) = Ret (l, b) ->
  hgic_fwctrl_work w = Ret (tt, on_ctrl (set_pd_list l) (on_ctrl (set_rxq []) w)).
Proof.
  intros Hq Ht Hr Hm. unfold hgic_fwctrl_work, bind at 1, gets. rewrite Hq.
  cbn [work_loop]. unfold modify at 1, bind at 1, bind at 1, lift. rewrite Ht, Hr.
  unfold hgic_fwctrl_rx_response, bind, gets, lift, modify.
  cbn [on_ctrl w_ctrl set_rxq fc_pd_list]. by rewrite Hm.
Qed.

Lemma fwctrl_rx_ok d w :
  zlen d < 2 ^ 31 -> fc_wq (w_ctrl w) = true -> alloc_fails w = false ->
  hgic_fwctrl_rx d (zlen d) w
  = Ret (tt, on_ctrl (fun c => set_rxq (fc_rxq c ++ [Skb [] d []]) c) (pop_alloc w)).
Proof.
  intros Hd Hwq Ha. pose proof (zlen_nonneg d). unfold hgic_fwctrl_rx, bind at 1, gets at 1. rewrite Hwq.
  pose proof (alloc_spec (zlen d) w ltac:(lia)) as A. rewrite Ha in A. destruct A as (blk & Hb & A).
  unfold dev_alloc_skb, bind, ret, lift. rewrite A. cbn [fmap option_fmap option_map].
  rewrite zlen_mem_whole. destruct (fill_block blk d) as (t & Hf & Hz); [lia|].
  assert (t = []) as -> by (destruct t; [done|rewrite zlen_cons in Hz; pose proof (zlen_nonneg t); lia]).
  destruct (skb_write (skb_of_block blk) 0 d) as [s|]; [|done]. cbn [obind] in Hf. by rewrite Hf.
Qed.

(** The world after an exchange in which frame [s] was sent and [d] answered it. *)
Definition exchanged (s : skb) (w : world) : world :=
  World (w_ctrl w) (tail (w_env w)) (tail (w_alloc w)) (w_sent w ++ [s]) (w_calls w ++ [CO_schedule]).

Lemma send_data_frame s c ty d e timeout w :
  w_env w = answered_by d :: e -> timeout <> 0 ->
  hdr_type d = Ret ty -> is_response_type ty = true -> hdr_cookie d = Ret c -> zlen d < 2 ^ 31 ->
  fc_txq (w_ctrl w) = [] -> fc_rxq (w_ctrl w) = [] -> fc_wq (w_ctrl w) = true ->
  alloc_fails w = false -> has_thread 0 (fc_pd_list (w_ctrl w)) = false ->
  hgic_fwctrl_send_data s c timeout w = Ret (Some (Skb [] d []), exchanged s w).
Proof.
  intros He Hto Hd Hty Hc Hl Htx Hrx Hwq Ha Ht.
  set (w1 := World (set_pd_list (Response 0 c None false :: fc_pd_list (w_ctrl w)) (w_ctrl w))
               e (w_alloc w) (w_sent w ++ [s]) (w_calls w ++ [CO_schedule])).
  pose proof (fwctrl_rx_ok d w1 Hl Hwq Ha) as E2.
  set (w2 := on_ctrl _ (pop_alloc w1)) in E2.
  assert (match_response (Skb [] d []) (fc_pd_list (w_ctrl w2))
    = Ret (Response 0 c (Some (Skb [] d [])) true :: fc_pd_list (w_ctrl w), true)) as M
    by (simpl; rewrite Hc; cbn [obind]; by rewrite Z.eqb_refl).
  assert (fc_rxq (w_ctrl w2) = [Skb [] d []]) as Hq2 by (simpl; by rewrite Hrx).
  pose proof (work_one (Skb [] d []) ty _ _ w2 Hq2 Hd Hty M) as K.
  set (w3 := on_ctrl (set_pd_list _) _) in K.
  assert (wait (asleep s c w) = Ret (tt, w3)) as W.
  { unfold wait. cbn [asleep on_ctrl log_call w_env w_ctrl w_alloc w_sent w_calls].
    rewrite He. unfold answered_by. cbn [run_actions].
    rewrite (bind_Ret _ _ _ tt w1); cycle 1.
    { cbn [run_action w_ctrl set_txq set_pd_list fc_txq]. rewrite Htx. unfold w1.
      change (txq_enqueue s []) with [s]. cbn. by rewrite <- Htx at 1; destruct (w_ctrl w). }
    rewrite (bind_Ret _ _ _ _ _ E2). by rewrite (bind_Ret _ _ _ _ _ K). }
  rewrite send_data_spec, (bind_Ret _ _ _ _ _ W) by done.
  unfold send_end, exchanged. rewrite He. do 2 f_equal. unfold on_ctrl. cbn.
  rewrite (filter_no_thread 0 _ Ht). f_equal. rewrite <- Hrx at 1. by destruct (w_ctrl w).
Qed.

Lemma send_data_answered s c ty id status body e w :
  w_env w = answered_by (resp_frame ty c id status body) :: e ->
  is_response_type ty = true -> 0 <= c <= HGIC_TX_COOKIE_MASK -> zlen body < 2 ^ 30 ->
  fc_txq (w_ctrl w) = [] -> fc_rxq (w_ctrl w) = [] -> fc_wq (w_ctrl w) = true ->
  alloc_fails w = false -> has_thread 0 (fc_pd_list (w_ctrl w)) = false ->
  hgic_fwctrl_send_data s c HGIC_CMD_TIMEOUT w
  = Ret (Some (Skb [] (resp_frame ty c id status body) []), exchanged s w).
Proof.
  intros He Hty Hc Hb Htx Hrx Hwq Ha Ht. unfold HGIC_TX_COOKIE_MASK in Hc.
  apply (send_data_frame s c ty _ e); try done; [|rewrite resp_frame_zlen; lia].
  rewrite resp_frame_cookie, u16_id; [done|lia].
Qed.

(** ** Properties of the control channel *)

(** A world in which the caller has nothing pending and all queues are empty. *)
Record quiet (w : world) : Prop := {
  q_bus : bus_ok w;
  q_wq : fc_wq (w_ctrl w) = true;
  q_txq : fc_txq (w_ctrl w) = [];
  q_rxq : fc_rxq (w_ctrl w) = [];
  q_own : has_thread 0 (fc_pd_list (w_ctrl w)) = false;
  q_cookie : 0 <= fc_cookie (w_ctrl w) <= HGIC_TX_COOKIE_MASK;
  q_alloc : w_alloc w = [] }.

Definition demo_bus : hgic_bus := Bus HGIC_BUS_USB 64 [] 4096 0 512 true.
Definition demo_world (scripts : list (list action)) : world :=
  World (hgic_fwctrl_init demo_bus true) scripts [] [] [].

Lemma demo_quiet scripts : quiet (demo_world scripts).
Proof. split; try done. Qed.

Lemma quiet_cookie w : quiet w -> quiet (take_cookie w).
Proof.
  intros []. split; try done. simpl. rewrite next_cookie by done.
  pose proof (Z.mod_pos_bound (fc_cookie (w_ctrl w) + 1) (2 ^ 15)). unfold HGIC_TX_COOKIE_MASK. lia.
Qed.
Lemma quiet_exchanged s w : quiet w -> quiet (exchanged s w).
Proof. intros []. split; try done. simpl. by rewrite q_alloc. Qed.

(** A command that the chip answers; the channel is quiet again afterwards. *)
Lemma do_cmd_exchange ifidx cmd_id inp in_len out out_size ty id status body e w :
  quiet w -> 0 <= in_len <= 2000 -> input_ok inp in_len -> 0 <= out_size < 2 ^ 32 ->
  w_env w = answered_by (resp_frame ty (fc_cookie (w_ctrl w)) id status body) :: e ->
  is_response_type ty = true -> zlen body < 2 ^ 30 ->
  exists s w',
    hgic_fwctrl_do_cmd ifidx cmd_id inp in_len out out_size w
    = lift (cmd_result out out_size
        (Some (Skb [] (resp_frame ty (fc_cookie (w_ctrl w)) id status body) []))) w' /\
    skb_data s = cmd_frame ifidx (u16 cmd_id) (fc_cookie (w_ctrl w)) (payload inp in_len) /\
    w_sent w' = w_sent w ++ [s] /\ fc_pd_list (w_ctrl w') = fc_pd_list (w_ctrl w) /\
    quiet w' /\ w_env w' = e /\ fc_cookie (w_ctrl w') = (fc_cookie (w_ctrl w) + 1) mod 2 ^ 15.
Proof.
  intros Hq Hin Hi Ho He Hty Hb. pose proof Hq as [].
  assert (alloc_fails w = false) as Ha by (unfold alloc_fails; by rewrite q_alloc0).
  pose proof (do_cmd_spec ifidx cmd_id inp in_len out out_size w Hin Hi q_bus0) as D.
  cbv zeta in D. rewrite Ha in D. destruct D as (s & Es & ->).
  set (c := fc_cookie (w_ctrl w)) in *.
  pose proof (send_data_answered s c ty id status body e (take_cookie (pop_alloc w)) He Hty q_cookie0 Hb
    q_txq0 q_rxq0 q_wq0) as E. unfold alloc_fails in E. simpl in E. rewrite q_alloc0 in E.
  exists s, (exchanged s (take_cookie (pop_alloc w))).
  rewrite (bind_Ret _ _ _ _ _ (E eq_refl q_own0)). split; [by rewrite u32_id by lia|]. do 3 (split; [done|]). split.
  - apply quiet_exchanged, quiet_cookie. split; try done. simpl. by rewrite q_alloc0.
  - split; [simpl; by rewrite He|]. simpl. by apply next_cookie.
Qed.

Lemma do_cmd_reply ifidx cmd_id inp in_len out out_size ty id status body e w :
  quiet w -> 0 <= in_len <= 2000 -> input_ok inp in_len -> 0 <= out_size < 2 ^ 32 ->
  w_env w = answered_by (resp_frame ty (fc_cookie (w_ctrl w)) id status body) :: e ->
  is_response_type ty = true -> zlen body < 2 ^ 30 ->
  exists s w',
    hgic_fwctrl_do_cmd ifidx cmd_id inp in_len out out_size w
    = lift (cmd_result out out_size
        (Some (Skb [] (resp_frame ty (fc_cookie (w_ctrl w)) id status body) []))) w' /\
    skb_data s = cmd_frame ifidx (u16 cmd_id) (fc_cookie (w_ctrl w)) (payload inp in_len) /\
    w_sent w' = w_sent w ++ [s] /\ fc_pd_list (w_ctrl w') = fc_pd_list (w_ctrl w).
Proof.
  intros Hq Hin Hi Ho He Hty Hb.
  destruct (do_cmd_exchange ifidx cmd_id inp in_len out out_size ty id status body e w Hq Hin Hi Ho He Hty Hb)
    as (s & w' & E & H1 & H2 & H3 & _). by exists s, w'.
Qed.

Lemma do_cmd_timeout ifidx cmd_id inp in_len out out_size w :
  quiet w -> 0 <= in_len <= 2000 -> input_ok inp in_len -> w_env w = [] -> exists s w',
  hgic_fwctrl_do_cmd ifidx cmd_id inp in_len out out_size w = Ret ((-1, out), w') /\
  skb_data s = cmd_frame ifidx (u16 cmd_id) (fc_cookie (w_ctrl w)) (payload inp in_len) /\
  fc_txq (w_ctrl w') = [s] /\ fc_pd_list (w_ctrl w') = fc_pd_list (w_ctrl w) /\
  fc_cookie (w_ctrl w') = (fc_cookie (w_ctrl w) + 1) mod 2 ^ 15 /\
  fc_bus (w_ctrl w') = fc_bus (w_ctrl w) /\ w_calls w' = w_calls w ++ [CO_schedule].
Proof.
  intros [] Hl Hi He.
  pose proof (do_cmd_spec ifidx cmd_id inp in_len out out_size w ltac:(lia) Hi q_bus0) as D.
  cbv zeta in D. unfold alloc_fails in D. rewrite q_alloc0 in D. destruct D as (s & Es & ->).
  exists s. unfold bind. rewrite send_data_spec by done. unfold bind, wait.
  cbn [asleep on_ctrl log_call w_env take_cookie pop_alloc]. rewrite He.
  eexists. split; [reflexivity|]. split; [done|].
  cbn [on_ctrl w_ctrl w_calls fc_bus set_pd_list set_txq set_cookie fc_txq fc_pd_list fc_cookie
       asleep log_call take_cookie pop_alloc].
  rewrite q_txq0. split; [done|]. split; [exact (filter_no_thread 0 _ q_own0)|].
  split; [by apply next_cookie|done].
Qed.

(** C6. Under every interleaving of the bus threads, the receive work and other
    callers, a command that gets a response gets one that carries the command's
    own cookie, has a response type, and was delivered by the bus; and when the
    call returns, the caller's stack-allocated response structure is off the
    pending list and the channel's invariant still holds. *)
Theorem send_cmd_response_matches F B ifidx cmd_id s w w' r :
  5 <= B ->
  hgic_fwctrl_send_cmd ifidx cmd_id s w = Ret (r, w') ->
  ctrl_ok F B (w_ctrl w) -> Forall (action_ok F) (script w) ->
  has_thread 0 (fc_pd_list (w_ctrl w)) = false ->
  ctrl_ok F B (w_ctrl w') /\ has_thread 0 (fc_pd_list (w_ctrl w')) = false /\
  forall x, r = Some x ->
    hdr_cookie (skb_data x) = Ret (fc_cookie (w_ctrl w)) /\
    (exists t, hdr_type (skb_data x) = Ret t /\ is_response_type t = true) /\
    F (skb_data x).
Proof.
  intros HB H Hw Hs Ht. unfold hgic_fwctrl_send_cmd in H.
  rewrite (bind_Ret _ _ _ _ _ (ctrl_cookie_spec w)) in H.
  apply bind_inv in H as (s1 & w1 & H1 & H). apply bind_inv in H as (s2 & w2 & H2 & H).
  assert (w1 = take_cookie w) as -> by (unfold lift in H1; destruct (skb_push _ _); congruence).
  assert (w2 = take_cookie w) as -> by (unfold lift in H2; destruct (skb_update _ _); congruence).
  apply (send_data_ok B HB F) in H as (? & ? & A); [|done| |done].
  - split; [done|]. split; [done|]. intros x ->. by apply (A x).
  - destruct Hw as [? ? ? ? Hc]. split; simpl; try done.
    rewrite next_cookie by done. unfold HGIC_TX_COOKIE_MASK.
    pose proof (Z.mod_pos_bound (fc_cookie (w_ctrl w) + 1) (2 ^ 15)). lia.
Qed.

Lemma send_cmd_response_matches_witness :
  exists w', forall F : list Z -> Prop,
    F (resp_frame 3 0 7 0 []) -> F (resp_frame 3 9 7 0 []) ->
    ctrl_ok F 5 (w_ctrl w').
Proof.
  pose (sc := [ATx; ARx (resp_frame 3 9 7 0 []); ABegin 2 9 (Skb [] (replicate 12 0) []);
               ARx (resp_frame 3 0 7 0 []); AWork; AEnd 2]).
  pose (s := Skb (replicate 12 0) [1; 2] []).
  destruct (hgic_fwctrl_send_cmd 1 7 s (demo_world [sc])) as [[r w']|] eqn:E; [|by vm_compute in E].
  exists w'. intros F H1 H2.
  refine (proj1 (send_cmd_response_matches F 5 1 7 s (demo_world [sc]) w' r _ E _ _ _)).
  - done.
  - split; simpl; [constructor|constructor|constructor|done|done].
  - repeat constructor; done.
  - reflexivity.
Defined.

(** C8. A command on a quiet channel that the chip answers: the frame on the bus
    is the command frame with the caller's payload, the result is the response's
    16-bit status, and the caller's buffer receives min(status, out_size) bytes
    of the response's body (none when the status is not positive) and keeps the
    rest; the pending list is what it was. *)
Theorem do_cmd_answered ifidx cmd_id inp in_len o out_size ty id status body e w :
  quiet w -> 0 <= in_len <= 2000 -> input_ok inp in_len ->
  0 <= out_size <= zlen o -> zlen o < 2 ^ 32 ->
  w_env w = answered_by (resp_frame ty (fc_cookie (w_ctrl w)) id status body) :: e ->
  is_response_type ty = true -> zlen body < 2 ^ 30 ->
  Z.min (s16 status) out_size <= zlen body ->
  exists s w' n,
    hgic_fwctrl_do_cmd ifidx cmd_id inp in_len (Some o) out_size w
    = Ret ((s16 status, Some (ztake n body ++ zdrop n o)), w') /\
    n = Z.max 0 (Z.min (s16 status) out_size) /\
    skb_data s = cmd_frame ifidx (u16 cmd_id) (fc_cookie (w_ctrl w)) (payload inp in_len) /\
    w_sent w' = w_sent w ++ [s] /\ fc_pd_list (w_ctrl w') = fc_pd_list (w_ctrl w).
Proof.
  intros Hq Hin Hi Ho Hmax He Hty Hb Hm.
  destruct (do_cmd_reply ifidx cmd_id inp in_len (Some o) out_size ty id status body e w)
    as (s & w' & E & Hs & Hsent & Hpd); try done; try lia.
  exists s, w', (Z.max 0 (Z.min (s16 status) out_size)). rewrite E. unfold lift.
  pose proof (zlen_nonneg body).
  erewrite cmd_result_body; [|reflexivity|reflexivity|lia..]. done.
Qed.

Lemma do_cmd_answered_witness :
  let w := demo_world [answered_by (resp_frame 3 0 63 4 [1; 2; 3; 4])] in
  exists s w' n,
    hgic_fwctrl_do_cmd 2 300 None 0 (Some [9; 9; 9; 9; 9; 9]) 6 w
    = Ret ((4, Some (ztake n [1; 2; 3; 4] ++ zdrop n [9; 9; 9; 9; 9; 9])), w') /\
    n = 4 /\ skb_data s = cmd_frame 2 300 0 [] /\ w_sent w' = [s] /\ fc_pd_list (w_ctrl w') = [].
Proof.
  refine (do_cmd_answered 2 300 None 0 [9; 9; 9; 9; 9; 9] 6 3 63 4 [1; 2; 3; 4] [] _
    (demo_quiet _) _ I _ _ eq_refl eq_refl _ _); vm_compute; split || done; done.
Defined.

(** The error paths: a payload of more than 2000 bytes is refused with
    -EINVAL and nothing happens; without memory the result is -1 and no cookie
    is consumed; without a response before the timeout the result is -1, the
    request stays queued for the bus, the output buffer is untouched and the
    pending entry is gone. *)
Lemma do_cmd_errors ifidx cmd_id inp in_len out out_size w :
  input_ok inp in_len -> quiet w -> 0 <= in_len < 2 ^ 32 ->
  (2000 < in_len ->
     hgic_fwctrl_do_cmd ifidx cmd_id inp in_len out out_size w = Ret ((- EINVAL, out), w)) /\
  (in_len <= 2000 -> forall l,
     let w1 := World (w_ctrl w) (w_env w) (None :: l) (w_sent w) (w_calls w) in
     hgic_fwctrl_do_cmd ifidx cmd_id inp in_len out out_size w1 = Ret ((-1, out), pop_alloc w1)) /\
  (in_len <= 2000 -> w_env w = [] -> exists s w',
     hgic_fwctrl_do_cmd ifidx cmd_id inp in_len out out_size w = Ret ((-1, out), w') /\
     skb_data s = cmd_frame ifidx (u16 cmd_id) (fc_cookie (w_ctrl w)) (payload inp in_len) /\
     fc_txq (w_ctrl w') = [s] /\ fc_pd_list (w_ctrl w') = fc_pd_list (w_ctrl w) /\
     fc_cookie (w_ctrl w') = (fc_cookie (w_ctrl w) + 1) mod 2 ^ 15).
Proof.
  intros Hi [] Hn. split; [|split].
  - intros Hl. unfold hgic_fwctrl_do_cmd. rewrite u32_id by lia.
    destruct (Z.ltb_spec 2000 in_len); [done|lia].
  - intros Hl l w1.
    by pose proof (do_cmd_spec ifidx cmd_id inp in_len out out_size w1 ltac:(lia) Hi q_bus0).
  - intros Hl He.
    destruct (do_cmd_timeout ifidx cmd_id inp in_len out out_size w) as (s & w' & ? & ? & ? & ? & ? & _);
      [by split|lia|done|done|]. by exists s, w'.
Qed.

Lemma do_cmd_errors_witness :
  hgic_fwctrl_do_cmd 1 4 (Some (replicate 2001 7)) 2001 None 0 (demo_world []) = Ret ((-22, None), demo_world []).
Proof.
  refine (proj1 (do_cmd_errors 1 4 (Some (replicate 2001 7)) 2001 None 0 (demo_world [])
    _ (demo_quiet _) _) _); vm_compute; try split; done.
Defined.

(** A command frame decodes to what was asked for: the transmit magic, the
    interface in its four bits, the total length, the cookie, and the command
    identifier on either side of the 255 boundary that selects the CMD or the
    CMD2 layout; the payload follows the 12-byte header. *)
Lemma cmd_hdr_roundtrip ifidx cmd_id cookie pl d :
  0 <= cmd_id < 65536 -> 0 <= ifidx < 16 -> 0 <= cookie < 65536 -> zlen pl <= 2000 ->
  fill_cmd_hdr ifidx cmd_id cookie (replicate 12 0 ++ pl) = Ret d ->
  hdr_magic d = Ret HGIC_HDR_TX_MAGIC /\ HDR_CMDID d = Ret cmd_id /\
  hdr_type d = Ret (if 255 <? cmd_id then type_code HGIC_HDR_TYPE_CMD2 else type_code HGIC_HDR_TYPE_CMD) /\
  hdr_ifidx d = Ret ifidx /\ hdr_flags d = Ret 0 /\
  hdr_length d = Ret (zlen d) /\ hdr_cookie d = Ret cookie /\
  ctrl_status d = Ret 0 /\ zdrop sizeof_hgic_ctrl_hdr d = pl.
Proof.
  intros Hc Hf Hk Hp E. rewrite fill_cmd_hdr_spec in E. injection E as <-.
  rewrite u16_id by lia. unfold cmd_frame. pose proof (zlen_nonneg pl) as Hp0.
  set (ty := if 255 <? cmd_id then 13 else 3). set (fl := Z.land ifidx 15).
  set (idb := if 255 <? cmd_id then put_unaligned_le16 cmd_id else [u8 cmd_id; 0]).
  set (len := put_unaligned_le16 (12 + zlen pl)). set (ck := put_unaligned_le16 cookie).
  assert (zlen idb = 2) as Hidb by (unfold idb; by destruct (255 <? cmd_id)).
  assert (fl = ifidx) as Efl.
  { unfold fl. change 15 with (Z.ones 4). rewrite Z.land_ones by lia. by rewrite Z.mod_small. }
  split.
  { unfold hdr_magic. by rewrite (get16_at_mid _ [] 0x1A2B (ty :: fl :: len ++ ck ++ idb ++ [0; 0] ++ pl)). }
  split; [|split; [by destruct (255 <? cmd_id)|split; [|split; [|split; [|split; [|split]]]]]].
  - unfold HDR_CMDID, ctrl_cmd2_id, ctrl_cmd_id. change (hdr_type _) with (Ret ty). cbn [obind].
    unfold ty, idb. destruct (Z.ltb_spec 255 cmd_id); change (type_code HGIC_HDR_TYPE_CMD2) with 13.
    + change (13 =? 13) with true. cbv iota.
      rewrite (get16_at_mid _ ([0x2B; 0x1A; 13; fl] ++ len ++ ck) cmd_id ([0; 0] ++ pl)) by done.
      by rewrite u16_id by lia.
    + change (3 =? 13) with false. cbv iota. change (mem_get _ 8) with (Ret (u8 cmd_id)).
      by rewrite u8_id by lia.
  - change (hdr_ifidx _) with (Ret (Z.land fl 15)). f_equal. rewrite Efl. unfold fl in Efl. exact Efl.
  - change (hdr_flags _) with (Ret (Z.shiftr fl 4)). rewrite Efl, Z.shiftr_div_pow2 by lia.
    f_equal. apply Z.div_small. lia.
  - unfold hdr_length. rewrite (get16_at_mid _ [0x2B; 0x1A; ty; fl] (12 + zlen pl) (ck ++ idb ++ [0; 0] ++ pl)) by done.
    rewrite u16_id by lia. f_equal. rewrite !zlen_app, Hidb. unfold len, ck.
    rewrite !put_le16_zlen. change (zlen [0x2B; 0x1A; ty; fl]) with 4. change (zlen [0; 0]) with 2. lia.
  - unfold hdr_cookie. rewrite (get16_at_mid _ ([0x2B; 0x1A; ty; fl] ++ len) cookie (idb ++ [0; 0] ++ pl)) by done.
    by rewrite u16_id by lia.
  - unfold ctrl_status. rewrite (get16_at_mid _ ([0x2B; 0x1A; ty; fl] ++ len ++ ck ++ idb) 0 pl);
      [done|unfold len, ck; rewrite <- !app_assoc; done|].
    rewrite !zlen_app, Hidb. done.
  - rewrite !app_assoc. apply zdrop_app_length. rewrite !zlen_app, Hidb. done.
Qed.

Lemma cmd_hdr_roundtrip_witness :
  let d := cmd_frame 2 300 77 [1; 2; 3] in
  hdr_magic d = Ret HGIC_HDR_TX_MAGIC /\ HDR_CMDID d = Ret 300 /\
  hdr_type d = Ret (if 255 <? 300 then type_code HGIC_HDR_TYPE_CMD2 else type_code HGIC_HDR_TYPE_CMD) /\
  hdr_ifidx d = Ret 2 /\ hdr_flags d = Ret 0 /\
  hdr_length d = Ret (zlen d) /\ hdr_cookie d = Ret 77 /\
  ctrl_status d = Ret 0 /\ zdrop sizeof_hgic_ctrl_hdr d = [1; 2; 3].
Proof. apply (cmd_hdr_roundtrip 2 300 77 [1; 2; 3]); [lia|lia|lia|vm_compute; done|reflexivity]. Defined.

Lemma ctrl_ok_mono (F G : list Z -> Prop) B c : (forall d, F d -> G d) -> ctrl_ok F B c -> ctrl_ok G B c.
Proof.
  intros HFG [He ? Hr ? ?]. split; try done.
  - eapply Forall_impl; [exact He|]. intros e H s Hs. destruct (H s Hs) as (? & ? & ?).
    split; [done|]. split; auto.
  - eapply Forall_impl; [exact Hr|]. auto.
Qed.

(** A frame whose status does not promise more payload than it carries. *)
Definition honest (d : list Z) : Prop :=
  parsable d /\ forall st, ctrl_status d = Ret st -> sizeof_hgic_ctrl_hdr + st <= zlen d.

(** The caller's output buffer is as large as it says. *)
Definition output_ok (out : option (list Z)) (n : Z) : Prop :=
  match out with Some o => n <= zlen o | None => True end.

Lemma cmd_result_total out out_size r :
  output_ok out out_size -> 0 <= out_size -> (forall x, r = Some x -> honest (skb_data x)) ->
  no_fault (cmd_result out out_size r).
Proof.
  intros Ho Hs Hr. destruct r as [x|]; [|by eexists]. destruct (Hr x eq_refl) as [[Hp _] Hh].
  unfold cmd_result. unfold ctrl_status in *.
  destruct (get16_at_total (skb_data x) 10) as [v Hv]; [unfold sizeof_hgic_ctrl_hdr in Hp; lia..|].
  rewrite Hv in *. cbn [obind] in *. specialize (Hh _ eq_refl).
  destruct out as [o|]; [|by eexists]. destruct (Z.ltb_spec 0 (s16 v)); [|by eexists].
  assert (exists n, n = (if out_size <? s16 v then out_size else s16 v)) as [n En] by eauto.
  rewrite <- En. assert (0 <= n <= s16 v /\ n <= out_size) as [Hn1 Hn2]
    by (destruct (Z.ltb_spec out_size (s16 v)); lia).
  unfold skb_read, sizeof_hgic_ctrl_hdr in *. pose proof (zlen_nonneg (skb_tail x)).
  rewrite mem_read_ok by (rewrite ?zlen_app; lia). cbn [obind]. simpl in Ho.
  rewrite mem_write_ok; [by eexists|lia|].
  rewrite zlen_ztake; [lia|]. rewrite zlen_zdrop; rewrite zlen_app; lia.
Qed.

(** C7. No memory fault: when the frames the bus delivers are complete headers
    whose status does not exceed their payload, and the caller's buffers are as
    long as it says, a command runs to completion under every interleaving. *)
Theorem do_cmd_no_fault B ifidx cmd_id inp in_len out out_size w :
  5 <= B ->
  ctrl_ok honest B (w_ctrl w) -> Forall (action_ok honest) (script w) ->
  has_thread 0 (fc_pd_list (w_ctrl w)) = false -> bus_ok w ->
  0 <= in_len < 2 ^ 32 -> 0 <= out_size < 2 ^ 32 -> input_ok inp in_len -> output_ok out out_size ->
  no_fault (hgic_fwctrl_do_cmd ifidx cmd_id inp in_len out out_size w).
Proof.
  intros HB Hw Hs Ht Hb Hin Hout Hi Ho.
  destruct (Z.lt_ge_cases 2000 in_len) as [Hl|Hl].
  { unfold hgic_fwctrl_do_cmd. rewrite u32_id by lia.
    destruct (Z.ltb_spec 2000 in_len); [by eexists|lia]. }
  pose proof (do_cmd_spec ifidx cmd_id inp in_len out out_size w ltac:(lia) Hi Hb) as D. cbv zeta in D.
  destruct (alloc_fails w); [rewrite D; by eexists|]. destruct D as (s & _ & ->).
  set (w1 := take_cookie (pop_alloc w)).
  assert (ctrl_ok honest B (w_ctrl w1)) as Hw1.
  { destruct Hw as [? ? ? ? Hc]. split; simpl; try done.
    rewrite next_cookie by done. unfold HGIC_TX_COOKIE_MASK.
    pose proof (Z.mod_pos_bound (fc_cookie (w_ctrl w) + 1) (2 ^ 15)). lia. }
  assert (forall d, honest d -> parsable d) as HP by (by intros d []).
  destruct (send_data_total B HB s (fc_cookie (w_ctrl w)) HGIC_CMD_TIMEOUT w1) as (r & w2 & E).
  - change (script w1) with (script w). eapply Forall_impl; [exact Hs|]. intros []; simpl; auto.
  - by eapply ctrl_ok_mono.
  - done.
  - rewrite (bind_Ret _ _ _ _ _ E). unfold lift. rewrite u32_id by lia.
    apply (send_data_ok B HB honest) in E as (_ & _ & A); [|done..].
    destruct (cmd_result_total out out_size r) as [x ->]; [done|lia| |by eexists].
    intros x ->. by apply (A x).
Qed.

Lemma do_cmd_no_fault_witness :
  no_fault (hgic_fwctrl_do_cmd 1 63 None 0 (Some [0; 0; 0; 0]) 4
    (demo_world [[ATx; ARx (resp_frame 3 0 63 4 [1; 2; 3; 4]); AWork; AClear]])).
Proof.
  apply (do_cmd_no_fault 5).
  - done.
  - split; simpl; [constructor|constructor|constructor|vm_compute; done|vm_compute; split; done].
  - repeat constructor; try (vm_compute; done).
    intros st E. vm_compute in E. injection E as <-. vm_compute. done.
  - reflexivity.
  - split; vm_compute; done.
  - split; vm_compute; done.
  - split; vm_compute; done.
  - exact I.
  - vm_compute. done.
Defined.

(** The driver trusts the status field as a length: a response whose status
    exceeds the payload it carries (and whose excess the caller's buffer would
    hold) makes the command read past the end of the response. *)
Lemma do_cmd_status_overread ifidx cmd_id inp in_len o out_size ty id status body e w :
  quiet w -> 0 <= in_len <= 2000 -> input_ok inp in_len -> 0 <= out_size < 2 ^ 32 ->
  w_env w = answered_by (resp_frame ty (fc_cookie (w_ctrl w)) id status body) :: e ->
  is_response_type ty = true -> zlen body < 2 ^ 30 ->
  zlen body < Z.min (s16 status) out_size ->
  hgic_fwctrl_do_cmd ifidx cmd_id inp in_len (Some o) out_size w = Fault OutOfBounds.
Proof.
  intros Hq Hin Hi Ho He Hty Hb Hm.
  destruct (do_cmd_reply ifidx cmd_id inp in_len (Some o) out_size ty id status body e w)
    as (s & w' & E & _); [done..|]. rewrite E. unfold lift, cmd_result.
  cbn [skb_data]. rewrite resp_frame_status. cbn [obind]. pose proof (zlen_nonneg body).
  destruct (Z.ltb_spec 0 (s16 status)); [|lia].
  unfold skb_read, mem_read, sizeof_hgic_ctrl_hdr. cbn [skb_data skb_tail]. rewrite app_nil_r, resp_frame_zlen.
  destruct (Z.ltb_spec out_size (s16 status));
    match goal with |- context [?a <=? 12 + zlen body] => destruct (Z.leb_spec a (12 + zlen body)) end;
    try lia; by rewrite andb_false_r.
Qed.

Lemma do_cmd_status_overread_witness :
  hgic_fwctrl_do_cmd 1 63 None 0 (Some (replicate 12 0)) 12
    (demo_world [answered_by (resp_frame 3 0 63 12 [1; 2; 3; 4])]) = Fault OutOfBounds.
Proof.
  refine (do_cmd_status_overread 1 63 None 0 (replicate 12 0) 12 3 63 12 [1; 2; 3; 4] [] _
    (demo_quiet _) _ I _ eq_refl eq_refl _ _); vm_compute; split || done; done.
Defined.

(** Cookies identify commands: they stay in 15 bits, and two commands among
    any 32768 consecutive ones never carry the same cookie. *)
Lemma cookies_distinct n w :
  0 <= fc_cookie (w_ctrl w) <= HGIC_TX_COOKIE_MASK ->
  exists l w', take_cookies n w = Ret (l, w') /\
    Forall (fun c => 0 <= c <= HGIC_TX_COOKIE_MASK) l /\
    forall i j ci cj, l !! i = Some ci -> l !! j = Some cj ->
      (i < j)%nat -> Z.of_nat j - Z.of_nat i < 32768 -> ci <> cj.
Proof.
  intros Hw. destruct (take_cookies_spec n w Hw) as (w' & l & E & Hl & _ & Hi).
  exists l, w'. split; [done|]. set (c0 := fc_cookie (w_ctrl w)) in *.
  assert (forall i c, l !! i = Some c -> c = (c0 + Z.of_nat i) mod 2 ^ 15) as Hc.
  { intros i c H. assert (i < n)%nat by (rewrite <- Hl; by apply lookup_lt_Some in H).
    rewrite Hi in H by done. congruence. }
  split.
  - apply Forall_lookup. intros i c ->%Hc. unfold HGIC_TX_COOKIE_MASK.
    pose proof (Z.mod_pos_bound (c0 + Z.of_nat i) (2 ^ 15)). lia.
  - intros i j ci cj ->%Hc ->%Hc Hij Hd Heq.
    pose proof (Z.div_mod (c0 + Z.of_nat i) (2 ^ 15)). pose proof (Z.div_mod (c0 + Z.of_nat j) (2 ^ 15)). lia.
Qed.

Lemma cookies_distinct_witness :
  exists l w', take_cookies 3 (demo_world []) = Ret (l, w') /\
    Forall (fun c => 0 <= c <= HGIC_TX_COOKIE_MASK) l /\
    forall i j ci cj, l !! i = Some ci -> l !! j = Some cj ->
      (i < j)%nat -> Z.of_nat j - Z.of_nat i < 32768 -> ci <> cj.
Proof. apply (cookies_distinct 3 (demo_world [])). vm_compute. split; done. Defined.
