(* ===== verification/Channel.v ===== *)
(** * The contract of the control channel

    What [FwCtrl] promises the code that sends through it, without queues,
    lists or frames in flight: a finite map from the threads with a call under
    way to the cookie of the call and the answer it has so far, and the frames
    the bus has delivered.  A call begins, is answered by a delivered frame that
    carries its cookie, and ends.  The control channel refines it. *)
From stdpp Require Import gmap relations.
From S2P Require Import Prelude Bytes CString Proto Skb FwCtrl.

(** ** The specification *)
Record call := Call { cl_cookie : Z; cl_answer : option (list Z) }.
Record chan := Chan { ch_calls : gmap nat call; ch_heard : list (list Z) }.

(** A frame that can answer the call with this cookie. *)
Definition answer_for (c : Z) (d : list Z) : Prop :=
  hdr_cookie d = Ret c /\ exists t, hdr_type d = Ret t /\ is_response_type t = true.

Inductive chan_step : chan -> chan -> Prop :=
  | CS_begin t c m h : m !! t = None -> chan_step (Chan m h) (Chan (<[t := Call c None]> m) h)
  | CS_hear d m h : chan_step (Chan m h) (Chan m (d :: h))
  | CS_answer t c a d m h :
      m !! t = Some (Call c a) -> d ∈ h -> answer_for c d ->
      chan_step (Chan m h) (Chan (<[t := Call c (Some d)]> m) h)
  | CS_end t m h : chan_step (Chan m h) (Chan (delete t m) h).

(** Whatever happens, an answer is a delivered frame with the call's cookie. *)
Definition chan_ok (C : chan) : Prop :=
  map_Forall (fun _ k => forall d, cl_answer k = Some d -> d ∈ ch_heard C /\ answer_for (cl_cookie k) d) (ch_calls C).

Lemma chan_step_ok C C' : chan_step C C' -> chan_ok C -> chan_ok C'.
Proof.
  unfold chan_ok. destruct 1 as [t c m h Hm|d m h|t c a d m h Hm Hd Ha|t m h]; cbn [ch_calls ch_heard]; intros HC.
  - by apply map_Forall_insert_2.
  - eapply map_Forall_impl; [exact HC|]. intros ? k Hk d' Hd'. destruct (Hk d' Hd'). split; [by right|done].
  - apply map_Forall_insert_2; [|done]. cbn [cl_answer cl_cookie]. by intros d' [= <-].
  - by apply map_Forall_delete.
Qed.

Lemma chan_steps_ok C C' : rtc chan_step C C' -> chan_ok C -> chan_ok C'.
Proof. induction 1; eauto using chan_step_ok. Qed.

(** ** The abstraction *)
Definition call_of (e : hgic_cmd_response) : call := Call (pe_cookie e) (skb_data <$> pe_skb e).
Definition calls (l : list hgic_cmd_response) : gmap nat call :=
  list_to_map (map (fun e => (pe_thread e, call_of e)) l).

(** The state of the channel seen as [C]. *)
Record refines (w : world) (C : chan) : Prop := {
  rf_calls : ch_calls C = calls (fc_pd_list (w_ctrl w));
  rf_threads : NoDup (map pe_thread (fc_pd_list (w_ctrl w)));
  rf_heard : Forall (fun s => skb_data s ∈ ch_heard C) (fc_rxq (w_ctrl w)) }.

Lemma calls_cons e l : calls (e :: l) = <[pe_thread e := call_of e]> (calls l).
Proof. done. Qed.

Lemma calls_no_thread t l : has_thread t l = false -> calls l !! t = None.
Proof.
  induction l as [|e l IH]; [done|]. cbn [has_thread existsb]. intros [He Hl]%orb_false_iff.
  rewrite calls_cons, lookup_insert_ne; [by apply IH|]. by apply Nat.eqb_neq in He.
Qed.

Lemma calls_end t l : calls (List.filter (fun e => negb (is_thread t e)) l) = delete t (calls l).
Proof.
  induction l as [|e l IH]; [symmetry; apply delete_empty|]. cbn [List.filter]. rewrite calls_cons.
  destruct (is_thread t e) eqn:E; cbn [negb]; unfold is_thread in E.
  - apply Nat.eqb_eq in E as ->. by rewrite delete_insert_eq.
  - apply Nat.eqb_neq in E. by rewrite calls_cons, IH, delete_insert_ne.
Qed.

(** What a thread finds when it wakes. *)
Lemma calls_answer t l :
  (calls l !! t) ≫= cl_answer
  = skb_data <$> match head (List.filter (is_thread t) l) with Some e => pe_skb e | None => None end.
Proof.
  induction l as [|e l IH]; [done|]. cbn [List.filter]. rewrite calls_cons. unfold is_thread at 1.
  destruct (Nat.eqb_spec (pe_thread e) t) as [->|Hne]; [by rewrite lookup_insert_eq|by rewrite lookup_insert_ne].
Qed.

Lemma match_refines s l l' b :
  match_response s l = Ret (l', b) -> NoDup (map pe_thread l) ->
  (exists t, hdr_type (skb_data s) = Ret t /\ is_response_type t = true) ->
  map pe_thread l' = map pe_thread l /\
  (calls l' = calls l \/ exists t c a, calls l !! t = Some (Call c a) /\ answer_for c (skb_data s) /\
     calls l' = <[t := Call c (Some (skb_data s))]> (calls l)).
Proof.
  intros H Hn Ht. revert l' b H Hn. induction l as [|e l IH]; intros l' b H Hn.
  { injection H as <- <-. split; [done|by left]. }
  cbn [match_response] in H. destruct (hdr_cookie (skb_data s)) as [c|] eqn:Ec; [|done]. cbn [obind] in H.
  destruct (Z.eqb_spec (pe_cookie e) c) as [E|E].
  - injection H as <- <-. split; [done|]. right. exists (pe_thread e), c, (skb_data <$> pe_skb e).
    rewrite !calls_cons, lookup_insert_eq, insert_insert_eq. unfold call_of. cbn [pe_cookie pe_skb pe_thread].
    rewrite E. by repeat split.
  - destruct (match_response s l) as [[l1 b1]|] eqn:El; [|done]. injection H as <- <-.
    cbn [map] in Hn. apply NoDup_cons in Hn as [Hne Hn]. destruct (IH l1 b1 eq_refl Hn) as [Em Hc].
    cbn [fst map]. split; [by rewrite Em|]. rewrite !calls_cons.
    destruct Hc as [->|(t & c' & a & Hl & Ha & ->)]; [by left|]. right. exists t, c', a.
    assert (pe_thread e <> t) as Hte.
    { intros <-. apply Hne. assert (is_Some (calls l !! pe_thread e)) as Hs by (by rewrite Hl).
      destruct (has_thread (pe_thread e) l) eqn:Hh; [|by rewrite calls_no_thread in Hs; [destruct Hs|]].
      apply existsb_exists in Hh as (x & Hx%list_elem_of_In & Hx2). apply Nat.eqb_eq in Hx2 as <-.
      by apply (list_elem_of_fmap_2 pe_thread). }
    rewrite lookup_insert_ne by done. split; [done|]. split; [done|]. by rewrite insert_insert_ne.
Qed.

(** ** The refinement *)
Definition simulated (w' : world) (C : chan) : Prop :=
  exists C', rtc chan_step C C' /\ refines w' C'.

Lemma refines_calls w w' C :
  refines w C -> fc_pd_list (w_ctrl w') = fc_pd_list (w_ctrl w) ->
  Forall (fun s => skb_data s ∈ ch_heard C) (fc_rxq (w_ctrl w')) -> simulated w' C.
Proof.
  intros [Hc Ht Hh] E Hr. exists C. split; [done|]. by split; rewrite ?E.
Qed.

Lemma refines_same w w' C :
  refines w C -> fc_pd_list (w_ctrl w') = fc_pd_list (w_ctrl w) -> fc_rxq (w_ctrl w') = fc_rxq (w_ctrl w) ->
  simulated w' C.
Proof. intros R E1 E2. apply (refines_calls w); [done..|]. rewrite E2. apply R. Qed.

Lemma begin_refines t c s w C :
  refines w C -> has_thread t (fc_pd_list (w_ctrl w)) = false ->
  exists C' w', send_begin t c s w = Ret (tt, w') /\ chan_step C C' /\ refines w' C' /\ ch_calls C' = <[t := Call c None]> (ch_calls C).
Proof.
  intros [Hc Ht Hh] Hn. destruct C as [m h]. cbn [ch_calls ch_heard] in *.
  exists (Chan (<[t := Call c None]> m) h). eexists. split; [reflexivity|].
  split; [apply CS_begin; rewrite Hc; by apply calls_no_thread|]. split; [|done].
  split; cbn; [by rewrite Hc|..|done]. apply NoDup_cons. split; [|done].
  intros (e & He & Hin)%list_elem_of_fmap. assert (has_thread t (fc_pd_list (w_ctrl w)) = true) as E; [|by rewrite E in Hn].
  apply existsb_exists. exists e. split; [by apply list_elem_of_In|]. by apply Nat.eqb_eq.
Qed.

Lemma end_refines t w C r w' :
  refines w C -> send_end t w = Ret (r, w') ->
  refines w' (Chan (delete t (ch_calls C)) (ch_heard C)) /\ skb_data <$> r = (ch_calls C !! t) ≫= cl_answer.
Proof.
  intros [Hc Ht Hh] H. unfold send_end in H. injection H as <- <-.
  split; [split; cbn [ch_calls ch_heard on_ctrl w_ctrl set_pd_list fc_pd_list fc_rxq];
    [by rewrite Hc, calls_end| |done]|by rewrite Hc, calls_answer].
  by apply (filter_threads_NoDup (fun e => negb (is_thread t e))).
Qed.

Lemma rx_response_refines s w w' r C :
  hgic_fwctrl_rx_response s w = Ret (r, w') -> refines w C -> skb_data s ∈ ch_heard C ->
  (exists t, hdr_type (skb_data s) = Ret t /\ is_response_type t = true) ->
  exists C', rtc chan_step C C' /\ refines w' C' /\ ch_heard C' = ch_heard C.
Proof.
  unfold hgic_fwctrl_rx_response, bind, gets, lift, modify. intros H [Hc Ht Hh] Hs Hty.
  destruct (match_response s (fc_pd_list (w_ctrl w))) as [[l b]|] eqn:E; [|done]. injection H as _ <-.
  destruct (match_refines s _ l b E Ht Hty) as [Em Hl]. destruct C as [m h]. cbn [ch_calls ch_heard] in *. subst m.
  destruct Hl as [El|(t & c & a & Hl & Ha & El)].
  - exists (Chan (calls (fc_pd_list (w_ctrl w))) h). split; [done|]. split; [|done].
    split; cbn [ch_calls ch_heard on_ctrl w_ctrl set_pd_list fc_pd_list fc_rxq fst]; [by rewrite El|by rewrite Em|done].
  - exists (Chan (<[t := Call c (Some (skb_data s))]> (calls (fc_pd_list (w_ctrl w)))) h).
    split; [by apply rtc_once, (CS_answer t c a)|]. split; [|done]. split; cbn [ch_calls ch_heard on_ctrl w_ctrl set_pd_list fc_pd_list fc_rxq fst]; [by rewrite El|by rewrite Em|done].
Qed.

Lemma work_loop_refines q w w' r C :
  work_loop q w = Ret (r, w') -> refines w C -> Forall (fun s => skb_data s ∈ ch_heard C) q -> simulated w' C.
Proof.
  intros H HR Hq. revert w w' C H HR Hq. induction q as [|s q IH]; intros w w' C H HR Hq.
  { injection H as _ <-. by exists C. }
  apply Forall_cons in Hq as [Hs Hq]. cbn [work_loop] in H. unfold bind at 1, modify at 1 in H.
  set (w1 := on_ctrl (set_rxq q) w) in H.
  assert (refines w1 C) as R1 by (destruct HR; by split). clearbody w1.
  unfold bind at 1, lift in H. destruct (hdr_type (skb_data s)) as [t|] eqn:Et; [|done].
  apply bind_inv in H as ([] & w2 & H1 & H2).
  assert (exists C', rtc chan_step C C' /\ refines w2 C' /\ ch_heard C' = ch_heard C) as (C' & S & R2 & Eh).
  { destruct (is_response_type t) eqn:E1; [apply (rx_response_refines s w1 w2 tt); eauto|].
    exists C. split; [done|]. split; [|done]. destruct (is_event_type t); injection H1 as <-; [destruct R1; by split|done]. }
  destruct (IH w2 w' C' H2 R2) as (C2 & S2 & R3); [by rewrite Eh|]. exists C2. split; [by etrans|done].
Qed.

Lemma run_action_refines a w w' r C :
  run_action a w = Ret (r, w') -> refines w C -> simulated w' C.
Proof.
  intros H HR. pose proof HR as [Hc Ht Hh]. destruct a as [|d| | |t c s|t| |b]; cbn [run_action] in H.
  - destruct (fc_txq (w_ctrl w)); injection H as _ <-; by apply (refines_same w).
  - apply fwctrl_rx_inv in H as [E|(s & Es & E)]; [by apply (refines_same w); rewrite ?E|].
    destruct C as [m h]. exists (Chan m (d :: h)). split; [by apply rtc_once, CS_hear|]. cbn [ch_calls ch_heard] in *.
    split; rewrite E; cbn [set_rxq fc_pd_list fc_rxq ch_calls ch_heard]; [done|done|].
    apply Forall_app. split; [eapply Forall_impl; [exact Hh|]; by right|]. apply Forall_singleton. rewrite Es. by left.
  - by apply (work_loop_refines (fc_rxq (w_ctrl w)) w w' r C).
  - apply bind_inv in H as (x & w1 & H1 & H2). injection H1 as _ <-. injection H2 as _ <-. by apply (refines_same w).
  - destruct (has_thread (S t) (fc_pd_list (w_ctrl w))) eqn:E; [injection H as _ <-; by apply (refines_same w)|].
    destruct (begin_refines (S t) c s w C HR E) as (C' & w2 & E2 & S2 & R2 & _). rewrite H in E2. injection E2 as _ <-.
    exists C'. split; [by apply rtc_once|done].
  - apply bind_inv in H as (x & w1 & H1 & H2). injection H2 as _ <-.
    destruct (end_refines (S t) w C x w1 HR H1) as [R _]. destruct C as [m h].
    exists (Chan (delete (S t) m) h). split; [by apply rtc_once, CS_end|done].
  - injection H as _ <-. exists C. split; [done|].
    assert (forall l, calls (map (fun e => Response (pe_thread e) (pe_cookie e) (pe_skb e) true) l) = calls l) as E
      by (induction l as [|e l IH]; [done|]; cbn [map]; by rewrite !calls_cons, IH).
    split; cbn [on_ctrl w_ctrl set_pd_list fc_pd_list fc_rxq]; [by rewrite E| |done].
    by rewrite map_map.
  - injection H as _ <-. by apply (refines_same w); destruct b.
Qed.

Lemma run_actions_refines l w w' r C :
  run_actions l w = Ret (r, w') -> refines w C -> simulated w' C.
Proof.
  revert w C. induction l as [|a l IH]; intros w C H HR; [injection H as _ <-; by exists C|].
  cbn [run_actions] in H. apply bind_inv in H as ([] & w1 & H1 & H2).
  destruct (run_action_refines a w w1 tt C H1 HR) as (C1 & S1 & R1).
  destruct (IH w1 C1 H2 R1) as (C2 & S2 & R2). exists C2. split; [by etrans|done].
Qed.

Lemma wait_refines w w' r C : wait w = Ret (r, w') -> refines w C -> simulated w' C.
Proof.
  unfold wait. destruct (w_env w) as [|l e]; intros H HR; [injection H as _ <-; by exists C|].
  eapply run_actions_refines; [exact H|]. destruct HR; by split.
Qed.

(** ** The refinement theorem *)

(** C1. The control channel implements its specification.  Whatever any other
    thread, the bus or the receive work does is a sequence of specified steps;
    and sending is a call: it begins with its cookie, any specified steps
    follow, it ends, and what it returns is exactly the answer the
    specification then has for it -- so it is a frame the bus delivered that
    carries the cookie. *)
Theorem channel_refines w C :
  refines w C -> chan_ok C ->
  (forall a r w', run_action a w = Ret (r, w') ->
     exists C', rtc chan_step C C' /\ refines w' C' /\ chan_ok C') /\
  (forall s c tmo r w', has_thread 0 (fc_pd_list (w_ctrl w)) = false ->
     hgic_fwctrl_send_data s c tmo w = Ret (r, w') ->
     exists C1 C2, chan_step C C1 /\ ch_calls C1 !! 0%nat = Some (Call c None) /\ rtc chan_step C1 C2 /\
       refines w' (Chan (delete 0%nat (ch_calls C2)) (ch_heard C2)) /\
       skb_data <$> r = (ch_calls C2 !! 0%nat) ≫= cl_answer /\ chan_ok C2).
Proof.
  intros HR Hok. split.
  - intros a r w' H. destruct (run_action_refines a w w' r C H HR) as (C' & S & R).
    exists C'. eauto using chan_steps_ok.
  - intros s c tmo r w' Hn H. unfold hgic_fwctrl_send_data in H.
    destruct (begin_refines 0 c s w C HR Hn) as (C1 & w1 & E1 & S1 & R1 & Ec).
    rewrite (bind_Ret _ _ _ _ _ E1) in H. apply bind_inv in H as ([] & w2 & H2 & H3).
    assert (simulated w2 C1) as (C2 & S2 & R2)
      by (destruct (tmo =? 0); [injection H2 as <-; by exists C1|by eapply wait_refines]).
    destruct (end_refines 0 w2 C2 r w' R2 H3) as [R3 Ea].
    exists C1, C2. rewrite Ec, lookup_insert_eq. do 5 (split; [done|]).
    apply (chan_steps_ok C1); [done|]. by apply (chan_step_ok C).
Qed.

Lemma channel_refines_witness :
  let w := demo_world [answered_by (resp_frame 3 0 63 4 [1; 2; 3; 4])] in
  exists r w', hgic_fwctrl_send_data (Skb [] [7] []) 0 5 w = Ret (r, w') /\
    exists C2, skb_data <$> r = (ch_calls C2 !! 0%nat) ≫= cl_answer /\ chan_ok C2.
Proof.
  set (w := demo_world [answered_by (resp_frame 3 0 63 4 [1; 2; 3; 4])]).
  destruct (hgic_fwctrl_send_data (Skb [] [7] []) 0 5 w) as [[r w']|] eqn:E; [|by vm_compute in E].
  exists r, w'. split; [done|].
  destruct (proj2 (channel_refines w (Chan ∅ []) (Build_refines w (Chan ∅ []) eq_refl (NoDup_nil_2) (Forall_nil_2 _))
    (map_Forall_empty _)) (Skb [] [7] []) 0 5 r w' eq_refl E) as (C1 & C2 & _ & _ & _ & _ & A & K).
  by exists C2.
Defined.
