(* ===== verification/FwCmds.v ===== *)
(** * The command wrappers (utils/fwctrl.c from line 282)

    One definition per function of the file, under its C name: the conversion
    of each argument to its parameter's type, the bytes of the payload, and the
    command it goes out under.  Buffers the C code leaves uninitialised on its
    stack are arguments ([stk], [data]). *)
From Stdlib Require Import String.
From S2P Require Import Prelude Bytes CString Proto Skb FwCtrl.

(** STR_LEN: 0 for a null pointer. *)
Definition STR_LEN (s : option (list Z)) : M world Z :=
  match s with Some s => lift (strlen s) | None => ret 0 end.

(** [cmd] is both input and output; the terminator is stored at the index the
    firmware returned. *)
Definition hgic_fwctrl_testmode_cmd (ifidx : Z) (cmd : option (list Z)) (size : Z)
  : M world (Z * option (list Z)) :=
  let! n := STR_LEN cmd in
  let! r := hgic_fwctrl_do_cmd ifidx HGIC_CMD_TESTMODE_CMD cmd n cmd (u32 size) in
  let! buf := lift (deref (snd r)) in
  let! buf := lift (if fst r <? 0 then mem_write buf 0 (str "failed" ++ [0])
                    else mem_write buf (fst r) [0]) in
  ret (fst r, Some buf).

Definition hgic_fwctrl_get_status (ifidx : Z) (buff : list Z) (len : Z)
  : M world (Z * option (list Z)) :=
  hgic_fwctrl_get_bytes ifidx HGIC_CMD_GET_STATUS (Some buff) (u32 len).

Definition hgic_fwctrl_get_conn_state (ifidx : Z) : M world Z :=
  let! r := hgic_fwctrl_do_cmd ifidx HGIC_CMD_GET_CONN_STATE None 0 None 0 in ret (fst r).

(** The fields of the structure, decoded from its bytes. *)
Definition decode_fw_info (b : list Z) : outcome hgic_fw_info :=
  leto version := get32_at b 0 in
  leto svn := get32_at b 4 in
  leto app := get32_at b 20 in
  leto chip := get16_at b 8 in
  leto cpu := get16_at b 10 in
  leto mac := mem_read b 12 6 in
  leto smt := get32_at b 24 in
  Ret (FwInfo version svn chip cpu mac app smt).

(** [stk] is the uninitialised local [_info]. *)
Definition hgic_fwctrl_get_fwinfo (stk : list Z) (ifidx : Z) (info : hgic_fw_info)
  : M world (Z * hgic_fw_info) :=
  let! r := hgic_fwctrl_get_bytes ifidx HGIC_CMD_GET_FW_INFO
              (Some (resize (Z.to_nat sizeof_hgic_fw_info) 0 stk)) sizeof_hgic_fw_info in
  if 0 <? fst r then
    let! b := lift (deref (snd r)) in
    let! i := lift (decode_fw_info b) in ret (fst r, i)
  else ret (fst r, info).

Definition hgic_fwctrl_set_countryregion (ifidx : Z) (country_code : option (list Z)) : M world Z :=
  let! n := STR_LEN country_code in hgic_fwctrl_set_bytes ifidx HGIC_CMD_SET_COUNTRY country_code n.

Definition hgic_fwctrl_set_ssid (ifidx : Z) (ssid : option (list Z)) : M world Z :=
  let! n := STR_LEN ssid in hgic_fwctrl_set_bytes ifidx HGIC_CMD_SET_SSID ssid n.

Definition hgic_fwctrl_set_bssid (ifidx : Z) (bssid : list Z) : M world Z :=
  hgic_fwctrl_set_bytes ifidx HGIC_CMD_SET_BSSID (Some bssid) 6.

Definition hgic_fwctrl_set_channel (ifidx channel : Z) : M world Z :=
  hgic_fwctrl_set_int_val ifidx HGIC_CMD_SET_CHANNEL (u32 channel).

Definition hgic_fwctrl_set_bssid_filter (ifidx : Z) (bssid_filter : option (list Z)) : M world Z :=
  let! n := STR_LEN bssid_filter in hgic_fwctrl_set_bytes ifidx HGIC_CMD_SET_BSSID_FILTER bssid_filter n.

Definition hgic_fwctrl_set_rts_threshold (ifidx rts_threshold : Z) : M world Z :=
  hgic_fwctrl_set_int_val ifidx HGIC_CMD_SET_RTS_THRESHOLD (u32 rts_threshold).

Definition hgic_fwctrl_set_frag_threshold (ifidx frag_threshold : Z) : M world Z :=
  hgic_fwctrl_set_int_val ifidx HGIC_CMD_SET_FRG_THRESHOLD (u32 frag_threshold).

Definition hgic_fwctrl_set_key_mgmt (ifidx : Z) (key_mgmt : option (list Z)) : M world Z :=
  let! n := STR_LEN key_mgmt in hgic_fwctrl_set_bytes ifidx HGIC_CMD_SET_KEY_MGMT key_mgmt n.

Definition hgic_fwctrl_set_wpa_psk (ifidx : Z) (wpa_psk : option (list Z)) : M world Z :=
  let! n := STR_LEN wpa_psk in hgic_fwctrl_set_bytes ifidx HGIC_CMD_SET_WPA_PSK wpa_psk n.

Definition hgic_fwctrl_set_wbnat (ifidx enable : Z) : M world Z :=
  hgic_fwctrl_set_int_val ifidx HGIC_CMD_SET_WBNAT (u32 enable).

Definition hgic_fwctrl_set_freq_range (ifidx freq_start freq_end bss_bw : Z) : M world Z :=
  let data := put_unaligned_le32 freq_start ++ put_unaligned_le32 freq_end
              ++ put_unaligned_le32 bss_bw in
  hgic_fwctrl_set_bytes ifidx HGIC_CMD_SET_FREQ_RANGE (Some data) 12.

Definition hgic_fwctrl_set_bss_bw (ifidx bss_bw : Z) : M world Z :=
  hgic_fwctrl_set_byte ifidx HGIC_CMD_SET_BSS_BW (u8 bss_bw).

Definition hgic_fwctrl_set_tx_bw (ifidx tx_bw : Z) : M world Z :=
  hgic_fwctrl_set_byte ifidx HGIC_CMD_SET_TX_BW (u8 tx_bw).

Definition hgic_fwctrl_set_tx_mcs (ifidx tx_mcs : Z) : M world Z :=
  hgic_fwctrl_set_byte ifidx HGIC_CMD_SET_TX_MCS (u8 tx_mcs).

Definition hgic_fwctrl_set_acs (ifidx acs acs_tmo : Z) : M world Z :=
  hgic_fwctrl_set_bytes ifidx HGIC_CMD_ACS_ENABLE (Some [u8 acs; u8 acs_tmo]) 2.

Definition hgic_fwctrl_set_bgrssi (ifidx bgrssi : Z) : M world Z :=
  hgic_fwctrl_set_byte ifidx HGIC_CMD_SET_BG_RSSI (u8 bgrssi).

Fixpoint put_chans (buf : list Z) (off : Z) (l : list Z) : outcome (list Z) :=
  match l with
  | [] => Ret buf
  | c :: l' => leto b := put16_at buf off c in put_chans b (off + 2) l'
  end.

Definition hgic_fwctrl_set_chan_list (ifidx : Z) (chan_list : list Z) (cnt : Z) : M world Z :=
  let cnt := u32 cnt in
  let! buf := kzalloc (u32 (1 + cnt) * 2) in
  match buf with
  | None => ret (-1)
  | Some buf =>
      let! buf := lift (put16_at buf 0 cnt) in
      let! chans := lift (mem_read chan_list 0 cnt) in
      let! buf := lift (put_chans buf 2 chans) in
      hgic_fwctrl_set_bytes ifidx HGIC_CMD_SET_CHAN_LIST (Some buf) (u32 (1 + cnt) * 2)
  end.

Definition hgic_fwctrl_set_mode (ifidx : Z) (mode : option (list Z)) : M world Z :=
  let! n := STR_LEN mode in hgic_fwctrl_set_bytes ifidx HGIC_CMD_SET_WORK_MODE mode n.

Definition hgic_fwctrl_set_paired_stas (ifidx : Z) (paired_stas : option (list Z)) (len : Z) : M world Z :=
  hgic_fwctrl_set_bytes ifidx HGIC_CMD_SET_PAIRED_STATIONS paired_stas (u32 len).

Definition hgic_fwctrl_set_pairing (ifidx pair_number ngo multi role : Z) : M world Z :=
  let val := put_unaligned_le32 pair_number ++ [u8 ngo; u8 multi; u8 (s8 role)] in
  hgic_fwctrl_set_bytes ifidx HGIC_CMD_PAIRING (Some val) 7.

Definition hgic_fwctrl_open_dev (ifidx : Z) : M world Z :=
  let! r := hgic_fwctrl_do_cmd ifidx HGIC_CMD_DEV_OPEN None 0 None 0 in ret (fst r).

Definition hgic_fwctrl_close_dev (ifidx : Z) : M world Z :=
  let! r := hgic_fwctrl_do_cmd ifidx HGIC_CMD_DEV_CLOSE None 0 None 0 in ret (fst r).

Definition hgic_fwctrl_set_txpower (ifidx tx_power : Z) : M world Z :=
  hgic_fwctrl_set_int_val ifidx HGIC_CMD_SET_TX_POWER (u32 tx_power).

Definition hgic_fwctrl_get_txpower (ifidx : Z) : M world Z := hgic_fwctrl_get_short_val ifidx HGIC_CMD_GET_TX_POWER.

Definition hgic_fwctrl_set_listen_interval (ifidx listen_interval : Z) : M world Z :=
  hgic_fwctrl_set_int_val ifidx HGIC_CMD_SET_LISTEN_INTERVAL (u32 listen_interval).

Definition hgic_fwctrl_set_center_freq (ifidx center_freq : Z) : M world Z :=
  hgic_fwctrl_set_int_val ifidx HGIC_CMD_SET_CENTER_FREQ (u32 center_freq).

Definition hgic_fwctrl_set_tx_count (ifidx short_frm_tx_count long_frm_tx_count : Z) : M world Z :=
  let data := put_unaligned_le32 short_frm_tx_count ++ put_unaligned_le32 long_frm_tx_count in
  hgic_fwctrl_set_bytes ifidx HGIC_CMD_SET_TX_LCOUNT (Some data) 8.

Definition hgic_fwctrl_set_key (ifidx cmd : Z) (addr key : list Z) (len : Z) : M world Z :=
  let len := u8 len in
  let! buff := kmalloc (len + 10) in
  match buff with
  | None => ret (- ENOMEM)
  | Some buff =>
      let! buff := lift (put8_at buff 0 cmd) in
      let! buff := lift (put8_at buff 1 len) in
      let! a := lift (mem_read addr 0 6) in
      let! buff := lift (mem_write buff 2 a) in
      let! k := lift (mem_read key 0 len) in
      let! buff := lift (mem_write buff 8 k) in
      hgic_fwctrl_set_bytes ifidx HGIC_CMD_SET_KEY (Some buff) (len + 8)
  end.

Definition hgic_fwctrl_add_sta (ifidx aid : Z) (addr : list Z) : M world Z :=
  let! a := lift (mem_read addr 0 6) in
  hgic_fwctrl_set_bytes ifidx HGIC_CMD_ADD_STA (Some (put_unaligned_le16 aid ++ a)) 8.

Definition hgic_fwctrl_del_sta (ifidx : Z) (addr : list Z) : M world Z :=
  hgic_fwctrl_set_bytes ifidx HGIC_CMD_REMOVE_STA (Some addr) 6.

Definition hgic_fwctrl_set_primary_chan (ifidx primary_chan : Z) : M world Z :=
  hgic_fwctrl_set_byte ifidx HGIC_CMD_SET_PRIMARY_CHAN (u8 primary_chan).

Definition hgic_fwctrl_set_aid (ifidx aid : Z) : M world Z :=
  hgic_fwctrl_set_int_val ifidx HGIC_CMD_SET_AID (u32 aid).

Definition hgic_fwctrl_set_mac (ifidx : Z) (mac : list Z) : M world Z :=
  let! a := lift (mem_read mac 0 6) in
  hgic_fwctrl_set_bytes ifidx HGIC_CMD_SET_MAC (Some (a ++ [u8 ifidx])) 7.

Definition hgic_fwctrl_get_scan_list (ifidx : Z) (buff : list Z) (size : Z)
  : M world (Z * option (list Z)) :=
  hgic_fwctrl_get_bytes ifidx HGIC_CMD_GET_SCAN_LIST (Some buff) (u32 size).

Definition hgic_fwctrl_scan (ifidx scan_cmd : Z) : M world Z :=
  hgic_fwctrl_set_byte ifidx HGIC_CMD_SCAN (u8 scan_cmd).

Definition hgic_fwctrl_set_txq_param (ifidx ac : Z) (param : list Z) : M world Z :=
  let! txq := kmalloc (1 + sizeof_hgic_txq_param) in
  match txq with
  | None => ret (- ENOMEM)
  | Some txq =>
      let! txq := lift (put8_at txq 0 ac) in
      let! p := lift (mem_read param 0 sizeof_hgic_txq_param) in
      let! txq := lift (mem_write txq 1 p) in
      hgic_fwctrl_set_bytes ifidx HGIC_CMD_SET_TXQ_PARAM (Some txq) (1 + sizeof_hgic_txq_param)
  end.

Definition hgic_fwctrl_set_user_edca (ifidx ac : Z) (param : list Z) : M world Z :=
  let! txq := kmalloc (1 + sizeof_hgic_txq_param) in
  match txq with
  | None => ret (- ENOMEM)
  | Some txq =>
      let! txq := lift (put8_at txq 0 ac) in
      let! p := lift (mem_read param 0 sizeof_hgic_txq_param) in
      let! txq := lift (mem_write txq 1 p) in
      hgic_fwctrl_set_bytes ifidx HGIC_CMD_SET_USER_EDCA (Some txq) (1 + sizeof_hgic_txq_param)
  end.

Definition hgic_fwctrl_get_temperature : M world Z := hgic_fwctrl_get_short_val 1 HGIC_CMD_GET_TEMPERATURE.

(** The last two bytes of the 8-byte local are not sent. *)
Definition hgic_fwctrl_enter_sleep (ifidx sleep sleep_ms : Z) : M world Z :=
  let buff := put_unaligned_le16 sleep ++ put_unaligned_le32 sleep_ms in
  hgic_fwctrl_set_bytes ifidx HGIC_CMD_ENTER_SLEEP (Some buff) 6.

Definition hgic_fwctrl_get_sta_list (ifidx : Z) (sta_list : list Z) (size : Z)
  : M world (Z * option (list Z)) :=
  let! r := hgic_fwctrl_get_bytes ifidx HGIC_CMD_GET_STA_LIST (Some sta_list)
              (u32 size * sizeof_hgic_sta_info) in
  ret (if 0 <? fst r then fst r / sizeof_hgic_sta_info else fst r, snd r).

Definition hgic_fwctrl_set_beacon_int (ifidx beacon_int : Z) : M world Z :=
  hgic_fwctrl_set_int_val ifidx HGIC_CMD_SET_BEACON_INT (u32 beacon_int).

Definition hgic_fwctrl_get_mode (ifidx : Z) (mode : list Z) (size : Z)
  : M world (Z * option (list Z)) :=
  hgic_fwctrl_get_bytes ifidx HGIC_CMD_GET_MODE (Some mode) (u32 size).

Definition hgic_fwctrl_get_ssid (ifidx : Z) (ssid : list Z) (size : Z)
  : M world (Z * option (list Z)) :=
  hgic_fwctrl_get_bytes ifidx HGIC_CMD_GET_SSID (Some ssid) (u32 size).

Definition hgic_fwctrl_get_bssid (ifidx : Z) (bssid : list Z) (len : Z)
  : M world (Z * option (list Z)) :=
  hgic_fwctrl_get_bytes ifidx HGIC_CMD_GET_BSSID (Some bssid) (u32 len).

Definition hgic_fwctrl_get_wpapsk (ifidx : Z) (psk : list Z) (size : Z)
  : M world (Z * option (list Z)) :=
  hgic_fwctrl_get_bytes ifidx HGIC_CMD_GET_WPA_PSK (Some psk) (u32 size).

Definition hgic_fwctrl_save_cfg (ifidx : Z) : M world Z :=
  let! r := hgic_fwctrl_do_cmd ifidx HGIC_CMD_SAVE_CFG None 0 None 0 in ret (fst r).

Definition hgic_fwctrl_join_group (ifidx : Z) (addr : list Z) (aid : Z) : M world Z :=
  let! a := lift (mem_read addr 0 6) in
  hgic_fwctrl_set_bytes ifidx HGIC_CMD_JOIN_GROUP (Some (a ++ [u8 aid])) 7.

Definition hgic_fwctrl_set_ethertype (ifidx ethertype : Z) : M world Z :=
  hgic_fwctrl_set_bytes ifidx HGIC_CMD_SET_ETHER_TYPE (Some (put_unaligned_le16 ethertype)) 2.

Definition hgic_fwctrl_get_sta_count (ifidx : Z) : M world Z :=
  let! r := hgic_fwctrl_do_cmd ifidx HGIC_CMD_GET_STA_COUNT None 0 None 0 in ret (fst r).

Definition hgic_fwctrl_get_agg_cnt (ifidx : Z) (agg : list Z) (size : Z)
  : M world (Z * option (list Z)) :=
  hgic_fwctrl_get_bytes ifidx HGIC_CMD_GET_AGG_CNT (Some agg) (u8 size).

Definition hgic_fwctrl_set_agg_cnt (ifidx : Z) (agg : list Z) : M world Z :=
  hgic_fwctrl_set_bytes ifidx HGIC_CMD_SET_AGG_CNT (Some agg) 2.

Definition hgic_fwctrl_get_bss_bw (ifidx : Z) : M world Z := hgic_fwctrl_get_short_val ifidx HGIC_CMD_GET_BSS_BW.

(** The three values are stored only when the answer is 12 bytes long. *)
Definition hgic_fwctrl_get_freq_range (stk : list Z) (ifidx : Z) : M world (bool * option (Z * Z * Z)) :=
  let! r := hgic_fwctrl_get_bytes ifidx HGIC_CMD_GET_FREQ_RANGE (Some (resize 12 0 stk)) 12 in
  if fst r =? 12 then
    let! b := lift (deref (snd r)) in
    let! v0 := lift (get32_at b 0) in
    let! v1 := lift (get32_at b 4) in
    let! v2 := lift (get32_at b 8) in
    ret (true, Some (v0, v1, v2))
  else ret (false, None).

Definition hgic_fwctrl_get_chan_list (ifidx : Z) (chan_list : list Z) (count : Z)
  : M world (Z * option (list Z)) :=
  let! r := hgic_fwctrl_get_bytes ifidx HGIC_CMD_GET_CHAN_LIST (Some chan_list) (u16 count * 2) in
  ret (if 0 <? fst r then fst r / 2 else 0, snd r).

Definition hgic_fwctrl_wakeup_sta (ifidx : Z) (addr : list Z) : M world Z :=
  hgic_fwctrl_set_bytes ifidx HGIC_CMD_SET_WAKEUP_STA (Some addr) 6.

Definition hgic_fwctrl_set_ps_heartbeat (ifidx ipaddr dport period hb_tmo : Z) : M world Z :=
  let val := put_unaligned_le32 ipaddr ++ put_unaligned_le32 dport
             ++ put_unaligned_le32 period ++ put_unaligned_le32 hb_tmo in
  hgic_fwctrl_set_bytes ifidx HGIC_CMD_SET_PS_HEARTBEAT (Some val) 16.

Definition hgic_fwctrl_set_ps_heartbeat_resp (ifidx : Z) (data : option (list Z)) (size : Z) : M world Z :=
  hgic_fwctrl_set_bytes ifidx HGIC_CMD_SET_PS_HEARTBEAT_RESP data (u32 size).

Definition hgic_fwctrl_set_ps_wakeup_data (ifidx : Z) (data : option (list Z)) (size : Z) : M world Z :=
  hgic_fwctrl_set_bytes ifidx HGIC_CMD_SET_PS_WAKEUP_DATA data (u32 size).

Definition hgic_fwctrl_set_ps_connect (ifidx period roundup : Z) : M world Z :=
  hgic_fwctrl_set_bytes ifidx HGIC_CMD_SET_PS_CONNECT (Some [u8 period; u8 roundup]) 2.

Definition hgic_fwctrl_radio_onoff (ifidx onoff : Z) : M world Z :=
  hgic_fwctrl_set_byte ifidx HGIC_CMD_RADIO_ONOFF (u8 onoff).

Definition hgic_fwctrl_set_bss_max_idle (ifidx max_idle : Z) : M world Z :=
  hgic_fwctrl_set_int_val ifidx HGIC_CMD_SET_BSS_MAX_IDLE (u32 max_idle).

Definition hgic_fwctrl_set_wkio_mode (ifidx mode : Z) : M world Z :=
  hgic_fwctrl_set_byte ifidx HGIC_CMD_SET_WKIO_MODE (u8 mode).

Definition hgic_fwctrl_set_dtim_period (ifidx period : Z) : M world Z :=
  hgic_fwctrl_set_int_val ifidx HGIC_CMD_SET_DTIM_PERIOD (u32 period).

Definition hgic_fwctrl_set_ps_mode (ifidx mode : Z) : M world Z :=
  hgic_fwctrl_set_byte ifidx HGIC_CMD_SET_PS_MODE (u8 mode).

Definition hgic_fwctrl_set_load_def (ifidx rst : Z) : M world Z :=
  hgic_fwctrl_set_byte ifidx HGIC_CMD_LOAD_DEF (u8 rst).

Definition hgic_fwctrl_disassoc_sta (ifidx : Z) (addr : list Z) : M world Z :=
  hgic_fwctrl_set_bytes ifidx HGIC_CMD_DISASSOC_STA (Some addr) 6.

Definition hgic_fwctrl_set_aplost_time (ifidx aplost_time : Z) : M world Z :=
  hgic_fwctrl_set_int_val ifidx HGIC_CMD_SET_APLOST_TIME (u32 aplost_time).

Definition hgic_fwctrl_get_wkreason (ifidx : Z) : M world Z :=
  let! r := hgic_fwctrl_do_cmd ifidx HGIC_CMD_GET_WAKEUP_REASON None 0 None 0 in ret (fst r).

Definition hgic_fwctrl_unpair (ifidx : Z) (addr : list Z) : M world Z :=
  hgic_fwctrl_set_bytes ifidx HGIC_CMD_UNPAIR (Some addr) 6.

Definition hgic_fwctrl_set_auto_chswitch (ifidx enable : Z) : M world Z :=
  hgic_fwctrl_set_byte ifidx HGIC_CMD_SET_AUTO_CHAN_SWITCH (u8 enable).

Definition hgic_fwctrl_set_mcast_key (ifidx : Z) (mcast_key : option (list Z)) : M world Z :=
  let! n := STR_LEN mcast_key in hgic_fwctrl_set_bytes ifidx HGIC_CMD_SET_MCAST_KEY mcast_key n.

Definition hgic_fwctrl_set_reassoc_wkhost (ifidx enable : Z) : M world Z :=
  hgic_fwctrl_set_byte ifidx HGIC_CMD_SET_REASSOC_WKHOST (u8 enable).

Definition hgic_fwctrl_set_wakeup_io (ifidx io edge : Z) : M world Z :=
  hgic_fwctrl_set_bytes ifidx HGIC_CMD_SET_WAKEUP_IO (Some [u8 io; u8 edge]) 2.

Definition hgic_fwctrl_set_dbginfo_output (ifidx enable : Z) : M world Z :=
  hgic_fwctrl_set_byte ifidx HGIC_CMD_DBGINFO_OUTPUT (u8 enable).

Definition hgic_fwctrl_set_sysdbg (ifidx : Z) (cmd : option (list Z)) : M world Z :=
  let! n := STR_LEN cmd in hgic_fwctrl_set_bytes ifidx HGIC_CMD_SET_SYSDBG cmd n.

Definition hgic_fwctrl_set_autosleep_time (ifidx time : Z) : M world Z :=
  hgic_fwctrl_set_byte ifidx HGIC_CMD_SET_AUTO_SLEEP_TIME (u8 time).

Definition hgic_fwctrl_get_key_mgmt (ifidx : Z) (ssid : list Z) (size : Z)
  : M world (Z * option (list Z)) :=
  hgic_fwctrl_get_bytes ifidx HGIC_CMD_GET_KEY_MGMT (Some ssid) (u32 size).

Definition hgic_fwctrl_set_super_pwr (ifidx enable : Z) : M world Z :=
  hgic_fwctrl_set_byte ifidx HGIC_CMD_SET_SUPER_PWR (u8 enable).

Definition hgic_fwctrl_set_repeater_ssid (ifidx : Z) (ssid : option (list Z)) : M world Z :=
  let! n := STR_LEN ssid in hgic_fwctrl_set_bytes ifidx HGIC_CMD_SET_REPEATER_SSID ssid n.

Definition hgic_fwctrl_set_repeater_psk (ifidx : Z) (wpa_psk : option (list Z)) : M world Z :=
  let! n := STR_LEN wpa_psk in hgic_fwctrl_set_bytes ifidx HGIC_CMD_SET_REPEATER_PSK wpa_psk n.

Definition hgic_fwctrl_set_auto_save (ifidx enable : Z) : M world Z :=
  hgic_fwctrl_set_byte ifidx HGIC_CMD_CFG_AUTO_SAVE (u8 enable).

Definition hgic_fwctrl_set_pair_autostop (ifidx enable : Z) : M world Z :=
  hgic_fwctrl_set_byte ifidx HGIC_CMD_SET_PAIR_AUTOSTOP (u8 enable).

Definition hgic_fwctrl_send_cust_mgmt (ifidx : Z) (data : option (list Z)) (len : Z) : M world Z :=
  hgic_fwctrl_set_bytes ifidx HGIC_CMD_SEND_CUST_MGMT data (u32 len).

Definition hgic_fwctrl_send_mgmtframe (ifidx : Z) (data : option (list Z)) (len : Z) : M world Z :=
  hgic_fwctrl_set_bytes ifidx HGIC_CMD_SEND_MGMTFRAME data (u32 len).

Definition hgic_fwctrl_get_battery_level (ifidx : Z) : M world Z := hgic_fwctrl_get_short_val ifidx HGIC_CMD_GET_BATTERY_LEVEL.

Definition hgic_fwctrl_set_dcdc13v (ifidx enable : Z) : M world Z :=
  hgic_fwctrl_set_byte ifidx HGIC_CMD_SET_DCDC13 (u8 enable).

Definition hgic_fwctrl_set_acktmo (ifidx tmo : Z) : M world Z :=
  hgic_fwctrl_set_int_val ifidx HGIC_CMD_SET_ACKTMO (u32 tmo).

Definition hgic_fwctrl_get_module_type (ifidx : Z) : M world Z := hgic_fwctrl_get_short_val ifidx HGIC_CMD_GET_MODULETYPE.

Definition hgic_fwctrl_set_pa_pwrctl_dis (ifidx dis : Z) : M world Z :=
  hgic_fwctrl_set_byte ifidx HGIC_CMD_PA_PWRCTRL_DIS (u8 dis).

Definition hgic_fwctrl_set_dhcpc (ifidx en : Z) : M world Z :=
  hgic_fwctrl_set_byte ifidx HGIC_CMD_SET_DHCPC (u8 en).

Definition hgic_fwctrl_get_dhcpc_result (ifidx : Z) (buff : list Z) (len : Z)
  : M world (Z * option (list Z)) :=
  hgic_fwctrl_get_bytes ifidx HGIC_CMD_GET_DHCPC_RESULT (Some buff) (s32 len).

Definition hgic_fwctrl_set_wkdata_mask (ifidx offset : Z) (mask : list Z) (mask_len : Z) : M world Z :=
  let mask_len := if 16 <? u8 mask_len then 16 else u8 mask_len in
  let! data := lift (put16_at (replicate 128 0) 0 offset) in
  let! m := lift (mem_read mask 0 mask_len) in
  let! data := lift (mem_write data 2 m) in
  hgic_fwctrl_set_bytes ifidx HGIC_CMD_SET_WKUPDATA_MASK (Some data) (mask_len + 2).

Definition hgic_fwctrl_set_hbdata_mask (ifidx offset : Z) (mask : list Z) (mask_len : Z) : M world Z :=
  let mask_len := if 64 <? u8 mask_len then 64 else u8 mask_len in
  let! data := lift (put16_at (replicate 128 0) 0 offset) in
  let! data := lift (put16_at data 2 mask_len) in
  let! m := lift (mem_read mask 0 mask_len) in
  let! data := lift (mem_write data 4 m) in
  hgic_fwctrl_set_bytes ifidx HGIC_CMD_SET_PS_HBDATA_MASK (Some data) (mask_len + 4).

Definition hgic_fwctrl_get_wkdata_buff (ifidx : Z) (buff : list Z) (len : Z)
  : M world (Z * option (list Z)) :=
  hgic_fwctrl_get_bytes ifidx HGIC_CMD_GET_WKDATA_BUFF (Some buff) (s32 len).

Definition hgic_fwctrl_get_disassoc_reason (ifidx : Z) : M world Z := hgic_fwctrl_get_short_val ifidx HGIC_CMD_GET_DISASSOC_REASON.

Definition hgic_fwctrl_set_wkdata_save (ifidx save : Z) : M world Z :=
  hgic_fwctrl_set_byte ifidx HGIC_CMD_SET_WKUPDATA_SAVEEN (u8 save).

Definition hgic_fwctrl_set_cust_driver_data (ifidx : Z) (data : option (list Z)) (len : Z) : M world Z :=
  hgic_fwctrl_set_bytes ifidx HGIC_CMD_SET_CUST_DRIVER_DATA data (u32 len).

Definition hgic_fwctrl_set_mcast_txparam (ifidx : Z) (param : list Z) : M world Z :=
  hgic_fwctrl_set_bytes ifidx HGIC_CMD_SET_MCAST_TXPARAM (Some param) sizeof_hgic_mcast_txparam.

Definition hgic_fwctrl_set_freqinfo (ifidx : Z) (data : option (list Z)) (len : Z) : M world Z :=
  hgic_fwctrl_set_bytes ifidx HGIC_CMD_SET_STA_FREQINFO data (u32 len).

Definition hgic_fwctrl_reset_sta (ifidx : Z) (addr : list Z) : M world Z :=
  hgic_fwctrl_set_bytes ifidx HGIC_CMD_SET_RESET_STA (Some addr) 6.

Definition hgic_fwctrl_set_ant_auto (ifidx en : Z) : M world Z :=
  hgic_fwctrl_set_byte ifidx HGIC_CMD_SET_ANT_AUTO (u8 en).

Definition hgic_fwctrl_select_ant (ifidx ant : Z) : M world Z :=
  hgic_fwctrl_set_byte ifidx HGIC_CMD_SET_ANT_SEL (u8 ant).

Definition hgic_fwctrl_get_ant_sel (ifidx : Z) : M world Z := hgic_fwctrl_get_short_val ifidx HGIC_CMD_GET_ANT_SEL.

Definition hgic_fwctrl_set_wkhost_reasons (ifidx : Z) (reasons : option (list Z)) (count : Z) : M world Z :=
  hgic_fwctrl_set_bytes ifidx HGIC_CMD_SET_WKUP_HOST_REASON reasons (u8 count).

Definition hgic_fwctrl_set_mac_filter (ifidx en : Z) : M world Z :=
  hgic_fwctrl_set_byte ifidx HGIC_CMD_SET_MAC_FILTER_EN (u8 en).

Definition hgic_fwctrl_set_atcmd (ifidx : Z) (atcmd : option (list Z)) : M world Z :=
  let! s := lift (deref atcmd) in
  let! has_prefix := lift (strncasecmp_eq s (str "at+" ++ [0]) 3) in
  let! n := lift (strlen s) in
  if negb has_prefix then
    let! tmp := kzalloc (n + 12) in
    match tmp with
    | Some tmp =>
        let! tmp := lift (mem_write tmp 0 (str "at+" ++ [0])) in
        let! s := lift (cstr s) in
        let! tmp := lift (mem_write tmp 3 (s ++ [0])) in
        let! n := lift (strlen tmp) in
        hgic_fwctrl_set_bytes ifidx HGIC_CMD_SET_ATCMD (Some tmp) n
    | None => ret (- ENOMEM)
    end
  else hgic_fwctrl_set_bytes ifidx HGIC_CMD_SET_ATCMD atcmd n.

Definition hgic_fwctrl_set_roaming (ifidx : Z) (vals : option (list Z)) (count : Z) : M world Z :=
  hgic_fwctrl_set_bytes ifidx HGIC_CMD_SET_ROAMING vals (u8 count).

Definition hgic_fwctrl_set_ap_hide (ifidx hide : Z) : M world Z :=
  hgic_fwctrl_set_byte ifidx HGIC_CMD_SET_AP_HIDE (u8 hide).

Definition hgic_fwctrl_set_frm_tx_maxcnt (ifidx txcnt : Z) : M world Z :=
  hgic_fwctrl_set_byte ifidx HGIC_CMD_SET_MAX_TCNT (u8 txcnt).

Definition hgic_fwctrl_set_assert_holdup (ifidx holdup : Z) : M world Z :=
  hgic_fwctrl_set_byte ifidx HGIC_CMD_SET_ASSERT_HOLDUP (u8 holdup).

Definition hgic_fwctrl_set_ap_psmode_en (ifidx en : Z) : M world Z :=
  hgic_fwctrl_set_byte ifidx HGIC_CMD_SET_AP_PSMODE_EN (u8 en).

Definition hgic_fwctrl_set_dupfilter_en (ifidx en : Z) : M world Z :=
  hgic_fwctrl_set_byte ifidx HGIC_CMD_SET_DUPFILTER_EN (u8 en).

Definition hgic_fwctrl_set_1v1_m2u_dis (ifidx dis : Z) : M world Z :=
  hgic_fwctrl_set_byte ifidx HGIC_CMD_SET_DIS_1V1_M2U (u8 dis).

Definition hgic_fwctrl_set_psconnect_dis (ifidx dis : Z) : M world Z :=
  hgic_fwctrl_set_byte ifidx HGIC_CMD_SET_DIS_PSCONNECT (u8 dis).

Definition hgic_fwctrl_set_blenc_en (ifidx : Z) (data : list Z) : M world Z :=
  hgic_fwctrl_set_bytes ifidx HGIC_CMD_SET_BLENC_EN (Some data) 2.

Definition hgic_fwctrl_blenc_send_data (ifidx : Z) (data : option (list Z)) (len : Z) : M world Z :=
  hgic_fwctrl_set_bytes ifidx HGIC_CMD_SEND_BLENC_DATA data (u32 len).

Definition hgic_fwctrl_blenc_set_advdata (ifidx : Z) (data : option (list Z)) (len : Z) : M world Z :=
  hgic_fwctrl_set_bytes ifidx HGIC_CMD_SEND_BLENC_ADVDATA data (u32 len).

Definition hgic_fwctrl_blenc_set_scanresp (ifidx : Z) (data : option (list Z)) (len : Z) : M world Z :=
  hgic_fwctrl_set_bytes ifidx HGIC_CMD_SEND_BLENC_SCANRESP data (u32 len).

Definition hgic_fwctrl_blenc_set_devaddr (ifidx : Z) (addr : list Z) : M world Z :=
  hgic_fwctrl_set_bytes ifidx HGIC_CMD_SEND_BLENC_DEVADDR (Some addr) 6.

Definition hgic_fwctrl_blenc_set_advinterval (ifidx interval : Z) : M world Z :=
  hgic_fwctrl_set_int_val ifidx HGIC_CMD_SEND_BLENC_ADVINTERVAL (u32 interval).

Definition hgic_fwctrl_blenc_start_adv (ifidx en : Z) : M world Z :=
  hgic_fwctrl_set_byte ifidx HGIC_CMD_SEND_BLENC_STARTADV (u32 en).

Definition hgic_fwctrl_reset (ifidx : Z) : M world Z :=
  let! r := hgic_fwctrl_do_cmd ifidx HGIC_CMD_RESET None 0 None 0 in ret (fst r).

Definition hgic_fwctrl_set_hwscan (ifidx period interval chan max : Z) : M world Z :=
  let val := [u8 period; u8 interval] ++ put_unaligned_le16 chan ++ [u8 max] in
  hgic_fwctrl_set_bytes ifidx HGIC_CMD_SET_HWSCAN (Some val) 5.

Definition hgic_fwctrl_get_txq_param (ifidx : Z) (param : list Z) : M world (Z * option (list Z)) :=
  hgic_fwctrl_get_bytes ifidx HGIC_CMD_GET_TXQ_PARAM (Some param) (4 * sizeof_hgic_txq_param).

Definition hgic_fwctrl_set_promisc (ifidx enable : Z) : M world Z :=
  hgic_fwctrl_set_byte ifidx HGIC_CMD_SET_PROMISC (u8 enable).

Definition hgic_fwctrl_set_fix_txrate (ifidx txrate : Z) : M world Z :=
  hgic_fwctrl_set_int_val ifidx HGIC_CMD_SET_FIX_TXRATE (u32 txrate).

Definition hgic_fwctrl_set_nav_max (ifidx nav_max : Z) : M world Z :=
  hgic_fwctrl_set_int_val ifidx HGIC_CMD_SET_NAV_MAX (u32 nav_max).

Definition hgic_fwctrl_clear_nav (ifidx : Z) : M world Z :=
  hgic_fwctrl_set_int_val ifidx HGIC_CMD_SET_NAV_MAX 0.

Definition hgic_fwctrl_set_cca_param (ifidx : Z) (cca : option (list Z)) : M world Z :=
  hgic_fwctrl_set_bytes ifidx HGIC_CMD_SET_CCA_PARAM cca sizeof_hgic_cca_ctl.

Definition hgic_fwctrl_set_tx_modulation_gain (ifidx : Z) (gain_table : option (list Z)) (size : Z) : M world Z :=
  hgic_fwctrl_set_bytes ifidx HGIC_CMD_SET_TX_MODGAIN gain_table (u32 size).

Definition hgic_fwctrl_get_nav (ifidx : Z) : M world Z := hgic_fwctrl_get_short_val ifidx HGIC_CMD_GET_NAV.

Definition hgic_fwctrl_get_bgrssi (ifidx channel : Z) (resp : list Z) : M world (Z * option (list Z)) :=
  hgic_fwctrl_do_cmd ifidx HGIC_CMD_GET_BGRSSI (Some [u8 channel]) 1 (Some resp) 3.

(** A bluetooth frame: queued without a pending entry, so nothing waits for it. *)
Definition fill_hci_hdr (type : Z) (d : list Z) : outcome (list Z) :=
  leto d := mem_write d 0 (replicate (Z.to_nat sizeof_hgic_ctrl_hdr) 0) in
  leto d := put16_at d 0 HGIC_HDR_TX_MAGIC in
  leto d := put8_at d 2 HGIC_HDR_TYPE_BLUETOOTH in
  leto d := put_ifidx d 1 in
  leto d := put16_at d 4 (zlen d) in
  put8_at d 8 type.

Definition hgic_fwctrl_send_hci_data (type : Z) (data : list Z) (len : Z) : M world Z :=
  let len := u32 len in
  let! room := gets (fun w => drv_tx_headroom (fc_bus (w_ctrl w))) in
  let! skb := dev_alloc_skb (room + sizeof_hgic_ctrl_hdr + len + 4) in
  match skb with
  | None => ret (- ENOMEM)
  | Some skb =>
      let! skb := lift (skb_reserve skb room) in
      let! bs := lift (mem_read data 0 len) in
      let! skb := lift (skb_write skb sizeof_hgic_ctrl_hdr bs) in
      let! skb := lift (skb_put skb (sizeof_hgic_ctrl_hdr + len)) in
      let! skb := lift (skb_update skb (fill_hci_hdr (u8 type))) in
      modify (on_ctrl (fun c => set_txq (fc_txq c ++ [skb]) c)) ;;;
      modify (log_call CO_schedule) ;;;
      ret 0
  end.

Definition hgic_fwctrl_set_beacon_start (ifidx start : Z) : M world Z :=
  hgic_fwctrl_set_byte ifidx HGIC_CMD_SET_BEACON_START (u8 start).

Definition hgic_fwctrl_ble_open (ifidx open : Z) : M world Z :=
  hgic_fwctrl_set_byte ifidx HGIC_CMD_SET_BLE_OPEN (u8 open).

Definition hgic_fwctrl_set_rts_duration (ifidx duration : Z) : M world Z :=
  hgic_fwctrl_set_int_val ifidx HGIC_CMD_SET_RTS_DURATION (s32 duration).

Definition hgic_fwctrl_set_disable_print (ifidx dis : Z) : M world Z :=
  hgic_fwctrl_set_byte ifidx HGIC_CMD_SET_DISABLE_PRINT (s32 dis).

Definition hgic_fwctrl_set_conn_paironly (ifidx en : Z) : M world Z :=
  hgic_fwctrl_set_byte ifidx HGIC_CMD_SET_CONNECT_PAIRONLY (s32 en).

Definition hgic_fwctrl_get_center_freq (ifidx : Z) : M world Z := hgic_fwctrl_get_short_val ifidx HGIC_CMD_GET_CENTER_FREQ.

Definition hgic_fwctrl_set_wait_psmode (ifidx wait_psmode : Z) : M world Z :=
  hgic_fwctrl_set_byte ifidx HGIC_CMD_SET_WAIT_PSMODE (u8 wait_psmode).

Definition hgic_fwctrl_set_diffcust_conn (ifidx en : Z) : M world Z :=
  hgic_fwctrl_set_byte ifidx HGIC_CMD_SET_DIFFCUST_CONN (u8 en).

Definition hgic_fwctrl_set_ap_chan_switch (ifidx chan counter : Z) : M world Z :=
  hgic_fwctrl_set_bytes ifidx HGIC_CMD_SET_AP_CHAN_SWITCH (Some [u8 chan; u8 counter]) 2.

Definition hgic_fwctrl_set_cca_for_ce (ifidx en : Z) : M world Z :=
  hgic_fwctrl_set_byte ifidx HGIC_CMD_SET_CCA_FOR_CE (u8 en).

Definition hgic_fwctrl_set_standby (ifidx channel sleep_period : Z) : M world Z :=
  let val := [u8 channel] ++ put_unaligned_le32 sleep_period in
  hgic_fwctrl_set_bytes ifidx HGIC_CMD_STANDBY_CFG (Some val) 5.

Definition hgic_fwctrl_set_rtc (ifidx rtc : Z) : M world Z :=
  hgic_fwctrl_set_int_val ifidx HGIC_CMD_SET_RTC (u32 rtc).

Definition hgic_fwctrl_get_rtc (ifidx : Z) (rtc : list Z) : M world (Z * option (list Z)) :=
  hgic_fwctrl_get_bytes ifidx HGIC_CMD_GET_RTC (Some rtc) 4.

Definition hgic_fwctrl_set_apep_padding (ifidx en : Z) : M world Z :=
  hgic_fwctrl_set_byte ifidx HGIC_CMD_SET_APEP_PADDING (s32 en).

Definition hgic_fwctrl_get_acs_result (ifidx : Z) (result : list Z) (size : Z)
  : M world (Z * option (list Z)) :=
  hgic_fwctrl_get_bytes ifidx HGIC_CMD_GET_ACS_RESULT (Some result) (u8 size * sizeof_hgic_acs_result).

Definition hgic_fwctrl_get_reason_code (ifidx : Z) : M world Z := hgic_fwctrl_get_short_val ifidx HGIC_CMD_GET_WIFI_REASON_CODE.

Definition hgic_fwctrl_get_status_code (ifidx : Z) : M world Z := hgic_fwctrl_get_short_val ifidx HGIC_CMD_GET_WIFI_STATUS_CODE.

Definition hgic_fwctrl_set_watchdog (ifidx enable : Z) : M world Z :=
  hgic_fwctrl_set_byte ifidx HGIC_CMD_SET_WATCHDOG (u8 enable).

Definition hgic_fwctrl_set_retry_fallback_cnt (ifidx cnt : Z) : M world Z :=
  hgic_fwctrl_set_byte ifidx HGIC_CMD_SET_RETRY_FALLBACK_CNT (u8 cnt).

Definition hgic_fwctrl_set_fallback_mcs (ifidx : Z) (mcs : list Z) : M world Z :=
  hgic_fwctrl_set_bytes ifidx HGIC_CMD_SET_FALLBACK_MCS (Some mcs) sizeof_hgic_fallback_mcs.

Definition hgic_fwctrl_get_xosc (data : list Z) (ifidx : Z) : M world Z :=
  hgic_fwctrl_get_int_val data ifidx HGIC_CMD_GET_XOSC_VALUE.

Definition hgic_fwctrl_set_xosc (ifidx xosc : Z) : M world Z :=
  hgic_fwctrl_set_int_val ifidx HGIC_CMD_SET_XOSC_VALUE (s32 xosc).

Definition hgic_fwctrl_get_freq_offset (stk : list Z) (ifidx : Z) (addr : list Z) : M world Z :=
  let! r := hgic_fwctrl_do_cmd ifidx HGIC_CMD_GET_FREQ_OFFSET (Some addr) 6 (Some (resize 4 0 stk)) 4 in
  if fst r =? 4 then
    let! d := lift (deref (snd r)) in
    let! v := lift (get_unaligned_le32 d) in ret (s32 v)
  else ret (-1).

Definition hgic_fwctrl_set_freq_cali_period (ifidx cali_period : Z) : M world Z :=
  hgic_fwctrl_set_int_val ifidx HGIC_CMD_SET_CALI_PERIOD (u16 cali_period).

Definition hgic_fwctrl_set_blenc_adv_filter (ifidx filter : Z) : M world Z :=
  hgic_fwctrl_set_int_val ifidx HGIC_CMD_SET_BLENC_ADVFILTER (u32 filter).

Definition hgic_fwctrl_set_max_tx_delay (ifidx tmo : Z) : M world Z :=
  hgic_fwctrl_set_int_val ifidx HGIC_CMD_SET_MAX_TX_DELAY (u32 tmo).

Definition hgic_fwctrl_get_sta_info (ifidx : Z) (mac info : list Z) : M world (Z * option (list Z)) :=
  hgic_fwctrl_do_cmd ifidx HGIC_CMD_GET_STA_INFO (Some mac) 6 (Some info) sizeof_hgic_sta_info.

Definition hgic_fwctrl_get_signal (ifidx : Z) : M world Z := hgic_fwctrl_get_short_val ifidx HGIC_CMD_GET_SIGNAL.

Definition hgic_fwctrl_set_heartbeat_int (ifidx val : Z) : M world Z :=
  hgic_fwctrl_set_int_val ifidx HGIC_CMD_SET_HEARTBEAT_INT (u32 val).

Definition hgic_fwctrl_get_tx_bitrate (data : list Z) (ifidx : Z) : M world Z :=
  hgic_fwctrl_get_int_val data ifidx HGIC_CMD_GET_TX_BITRATE.

Definition hgic_fwctrl_set_sleep_roaming (ifidx enable rssi : Z) : M world Z :=
  hgic_fwctrl_set_bytes ifidx HGIC_CMD_SET_SLEEP_ROAMING (Some [u8 enable; u8 (s8 rssi)]) 2.

Definition hgic_fwctrl_set_roaming_bssid (ifidx : Z) (bssid : list Z) : M world Z :=
  hgic_fwctrl_set_bytes ifidx HGIC_CMD_SET_ROAMING_BSSID (Some bssid) 6.

Definition hgic_fwctrl_get_link_quality (ifidx : Z) (link : list Z) : M world (Z * option (list Z)) :=
  hgic_fwctrl_get_bytes ifidx HGIC_CMD_GET_LINK_QUALITY (Some link) sizeof_hgic_link_quality.

Definition hgic_fwctrl_set_bss_disabled (ifidx dis : Z) (bssid : list Z) : M world Z :=
  let! a := lift (mem_read bssid 0 6) in
  hgic_fwctrl_set_bytes ifidx HGIC_CMD_SET_DISABLE_BSS (Some (u8 dis :: a)) 7.

Definition hgic_fwctrl_set_kick_assoc (ifidx enable : Z) : M world Z :=
  hgic_fwctrl_set_int_val ifidx HGIC_CMD_SET_KICK_ASSOC (u32 enable).

Definition hgic_fwctrl_set_start_assoc (ifidx start : Z) : M world Z :=
  hgic_fwctrl_set_int_val ifidx HGIC_CMD_START_ASSOC (u32 start).

Definition hgic_fwctrl_set_rmesh_devmax (ifidx devmax : Z) : M world Z :=
  hgic_fwctrl_set_int_val ifidx HGIC_CMD_SET_RMESH_DEVMAX (u8 devmax).

Definition hgic_fwctrl_set_rmesh_aid (ifidx aid : Z) : M world Z :=
  hgic_fwctrl_set_int_val ifidx HGIC_CMD_SET_RMESH_AID (u8 aid).

Definition hgic_fwctrl_set_rmesh_device (ifidx aid : Z) (mac : list Z) : M world Z :=
  let! a := lift (mem_read mac 0 6) in
  hgic_fwctrl_set_bytes ifidx HGIC_CMD_SET_RMESH_DEVICE (Some (u8 aid :: a)) 7.

Definition hgic_fwctrl_set_rmesh_notfw (ifidx not : Z) : M world Z :=
  hgic_fwctrl_set_int_val ifidx HGIC_CMD_SET_RMESH_NOTFW (u8 not).

Definition hgic_fwctrl_set_rmesh_rssimin (ifidx rssi_min : Z) : M world Z :=
  hgic_fwctrl_set_int_val ifidx HGIC_CMD_SET_RMESH_RSSIMIN (s8 rssi_min).

Definition hgic_fwctrl_get_rmesh_device (ifidx : Z) (dev : list Z) (cnt : Z)
  : M world (Z * option (list Z)) :=
  hgic_fwctrl_get_bytes ifidx HGIC_CMD_SET_RMESH_DEVICE (Some dev) (u32 cnt * sizeof_hgic_rmesh_device).

Definition hgic_fwctrl_set_rmesh_meshid (ifidx : Z) (meshid : list Z) : M world Z :=
  hgic_fwctrl_set_bytes ifidx HGIC_CMD_GET_RMESH_MESHID (Some meshid) 6.

(** ** What a wrapper puts on the bus *)

(** On a quiet channel nothing answers, [m] queues exactly one frame: the
    command frame of [id] with payload [pl]. *)
Definition emits {A} (w : world) (m : M world A) (ifidx id : Z) (pl : list Z) : Prop :=
  exists s w' a, m w = Ret (a, w') /\ fc_txq (w_ctrl w') = [s] /\
    skb_data s = cmd_frame ifidx id (fc_cookie (w_ctrl w)) pl.

Lemma do_cmd_emits ifidx cmd_id inp n out out_size w :
  quiet w -> w_env w = [] -> 0 <= n <= 2000 -> input_ok inp n ->
  emits w (hgic_fwctrl_do_cmd ifidx cmd_id inp n out out_size) ifidx (u16 cmd_id) (payload inp n).
Proof.
  intros Hq He Hn Hi.
  destruct (do_cmd_timeout ifidx cmd_id inp n out out_size w Hq Hn Hi He) as (s & w' & E & Hs & Ht & _).
  by exists s, w', (-1, out).
Qed.

Lemma bind_emits {A B} w (m : M world A) (k : A -> B) ifidx id pl :
  emits w m ifidx id pl -> emits w (let! r := m in ret (k r)) ifidx id pl.
Proof.
  intros (s & w' & a & E & Ht & Hs). exists s, w', (k a).
  by rewrite (bind_Ret _ _ _ _ _ E).
Qed.

Lemma cmd_code_u16 (c : hgic_cmd) : u16 c = c.
Proof. apply u16_id. pose proof (cmd_code_range c). lia. Qed.

Lemma set_bytes_emits ifidx (c : hgic_cmd) data n w :
  quiet w -> w_env w = [] -> 0 <= n <= 2000 -> input_ok data n ->
  emits w (hgic_fwctrl_set_bytes ifidx c data n) ifidx c (payload data n).
Proof. intros. apply bind_emits. rewrite <- (cmd_code_u16 c) at 2. by apply do_cmd_emits. Qed.

Lemma set_byte_emits ifidx (c : hgic_cmd) v w :
  quiet w -> w_env w = [] -> emits w (hgic_fwctrl_set_byte ifidx c v) ifidx c [u8 v].
Proof.
  intros. apply bind_emits. rewrite <- (cmd_code_u16 c) at 2.
  apply (do_cmd_emits _ _ (Some [u8 v]) 1); done.
Qed.

Lemma set_int_val_emits ifidx (c : hgic_cmd) v w :
  quiet w -> w_env w = [] ->
  emits w (hgic_fwctrl_set_int_val ifidx c v) ifidx c (put_unaligned_le32 (u32 v)).
Proof.
  intros. apply bind_emits. rewrite <- (cmd_code_u16 c) at 2.
  apply (do_cmd_emits _ _ (Some (put_unaligned_le32 (u32 v))) 4); done.
Qed.

Lemma get_short_val_emits ifidx (c : hgic_cmd) w :
  quiet w -> w_env w = [] -> emits w (hgic_fwctrl_get_short_val ifidx c) ifidx c [].
Proof. intros. apply bind_emits. rewrite <- (cmd_code_u16 c) at 2. by apply (do_cmd_emits _ _ None 0). Qed.

Lemma no_arg_emits ifidx (c : hgic_cmd) w :
  quiet w -> w_env w = [] ->
  emits w (let! r := hgic_fwctrl_do_cmd ifidx c None 0 None 0 in ret (fst r)) ifidx c [].
Proof. intros. apply bind_emits. rewrite <- (cmd_code_u16 c) at 2. by apply (do_cmd_emits _ _ None 0). Qed.

(** The wrappers of scalar arguments, with the interface their command goes to
    and the command of hgic.h they stand for. *)
Definition scalar_wrappers (ifidx v : Z) : list (M world Z * Z * hgic_cmd) :=
  [ (hgic_fwctrl_get_conn_state ifidx, ifidx, HGIC_CMD_GET_CONN_STATE);
    (hgic_fwctrl_set_channel ifidx v, ifidx, HGIC_CMD_SET_CHANNEL);
    (hgic_fwctrl_set_rts_threshold ifidx v, ifidx, HGIC_CMD_SET_RTS_THRESHOLD);
    (hgic_fwctrl_set_frag_threshold ifidx v, ifidx, HGIC_CMD_SET_FRG_THRESHOLD);
    (hgic_fwctrl_set_wbnat ifidx v, ifidx, HGIC_CMD_SET_WBNAT);
    (hgic_fwctrl_set_bss_bw ifidx v, ifidx, HGIC_CMD_SET_BSS_BW);
    (hgic_fwctrl_set_tx_bw ifidx v, ifidx, HGIC_CMD_SET_TX_BW);
    (hgic_fwctrl_set_tx_mcs ifidx v, ifidx, HGIC_CMD_SET_TX_MCS);
    (hgic_fwctrl_set_acs ifidx v v, ifidx, HGIC_CMD_ACS_ENABLE);
    (hgic_fwctrl_set_bgrssi ifidx v, ifidx, HGIC_CMD_SET_BG_RSSI);
    (hgic_fwctrl_open_dev ifidx, ifidx, HGIC_CMD_DEV_OPEN);
    (hgic_fwctrl_close_dev ifidx, ifidx, HGIC_CMD_DEV_CLOSE);
    (hgic_fwctrl_set_txpower ifidx v, ifidx, HGIC_CMD_SET_TX_POWER);
    (hgic_fwctrl_get_txpower ifidx, ifidx, HGIC_CMD_GET_TX_POWER);
    (hgic_fwctrl_set_center_freq ifidx v, ifidx, HGIC_CMD_SET_CENTER_FREQ);
    (hgic_fwctrl_set_primary_chan ifidx v, ifidx, HGIC_CMD_SET_PRIMARY_CHAN);
    (hgic_fwctrl_set_aid ifidx v, ifidx, HGIC_CMD_SET_AID);
    (hgic_fwctrl_scan ifidx v, ifidx, HGIC_CMD_SCAN);
    (hgic_fwctrl_get_temperature, 1, HGIC_CMD_GET_TEMPERATURE);
    (hgic_fwctrl_set_beacon_int ifidx v, ifidx, HGIC_CMD_SET_BEACON_INT);
    (hgic_fwctrl_save_cfg ifidx, ifidx, HGIC_CMD_SAVE_CFG);
    (hgic_fwctrl_get_sta_count ifidx, ifidx, HGIC_CMD_GET_STA_COUNT);
    (hgic_fwctrl_get_bss_bw ifidx, ifidx, HGIC_CMD_GET_BSS_BW);
    (hgic_fwctrl_set_ps_connect ifidx v v, ifidx, HGIC_CMD_SET_PS_CONNECT);
    (hgic_fwctrl_radio_onoff ifidx v, ifidx, HGIC_CMD_RADIO_ONOFF);
    (hgic_fwctrl_set_bss_max_idle ifidx v, ifidx, HGIC_CMD_SET_BSS_MAX_IDLE);
    (hgic_fwctrl_set_wkio_mode ifidx v, ifidx, HGIC_CMD_SET_WKIO_MODE);
    (hgic_fwctrl_set_dtim_period ifidx v, ifidx, HGIC_CMD_SET_DTIM_PERIOD);
    (hgic_fwctrl_set_ps_mode ifidx v, ifidx, HGIC_CMD_SET_PS_MODE);
    (hgic_fwctrl_set_load_def ifidx v, ifidx, HGIC_CMD_LOAD_DEF);
    (hgic_fwctrl_set_aplost_time ifidx v, ifidx, HGIC_CMD_SET_APLOST_TIME);
    (hgic_fwctrl_get_wkreason ifidx, ifidx, HGIC_CMD_GET_WAKEUP_REASON);
    (hgic_fwctrl_set_auto_chswitch ifidx v, ifidx, HGIC_CMD_SET_AUTO_CHAN_SWITCH);
    (hgic_fwctrl_set_reassoc_wkhost ifidx v, ifidx, HGIC_CMD_SET_REASSOC_WKHOST);
    (hgic_fwctrl_set_wakeup_io ifidx v v, ifidx, HGIC_CMD_SET_WAKEUP_IO);
    (hgic_fwctrl_set_dbginfo_output ifidx v, ifidx, HGIC_CMD_DBGINFO_OUTPUT);
    (hgic_fwctrl_set_autosleep_time ifidx v, ifidx, HGIC_CMD_SET_AUTO_SLEEP_TIME);
    (hgic_fwctrl_set_super_pwr ifidx v, ifidx, HGIC_CMD_SET_SUPER_PWR);
    (hgic_fwctrl_set_auto_save ifidx v, ifidx, HGIC_CMD_CFG_AUTO_SAVE);
    (hgic_fwctrl_set_pair_autostop ifidx v, ifidx, HGIC_CMD_SET_PAIR_AUTOSTOP);
    (hgic_fwctrl_get_battery_level ifidx, ifidx, HGIC_CMD_GET_BATTERY_LEVEL);
    (hgic_fwctrl_set_dcdc13v ifidx v, ifidx, HGIC_CMD_SET_DCDC13);
    (hgic_fwctrl_set_acktmo ifidx v, ifidx, HGIC_CMD_SET_ACKTMO);
    (hgic_fwctrl_get_module_type ifidx, ifidx, HGIC_CMD_GET_MODULETYPE);
    (hgic_fwctrl_set_pa_pwrctl_dis ifidx v, ifidx, HGIC_CMD_PA_PWRCTRL_DIS);
    (hgic_fwctrl_set_dhcpc ifidx v, ifidx, HGIC_CMD_SET_DHCPC);
    (hgic_fwctrl_get_disassoc_reason ifidx, ifidx, HGIC_CMD_GET_DISASSOC_REASON);
    (hgic_fwctrl_set_wkdata_save ifidx v, ifidx, HGIC_CMD_SET_WKUPDATA_SAVEEN);
    (hgic_fwctrl_set_ant_auto ifidx v, ifidx, HGIC_CMD_SET_ANT_AUTO);
    (hgic_fwctrl_select_ant ifidx v, ifidx, HGIC_CMD_SET_ANT_SEL);
    (hgic_fwctrl_get_ant_sel ifidx, ifidx, HGIC_CMD_GET_ANT_SEL);
    (hgic_fwctrl_set_mac_filter ifidx v, ifidx, HGIC_CMD_SET_MAC_FILTER_EN);
    (hgic_fwctrl_set_ap_hide ifidx v, ifidx, HGIC_CMD_SET_AP_HIDE);
    (hgic_fwctrl_set_frm_tx_maxcnt ifidx v, ifidx, HGIC_CMD_SET_MAX_TCNT);
    (hgic_fwctrl_set_assert_holdup ifidx v, ifidx, HGIC_CMD_SET_ASSERT_HOLDUP);
    (hgic_fwctrl_set_ap_psmode_en ifidx v, ifidx, HGIC_CMD_SET_AP_PSMODE_EN);
    (hgic_fwctrl_set_dupfilter_en ifidx v, ifidx, HGIC_CMD_SET_DUPFILTER_EN);
    (hgic_fwctrl_set_1v1_m2u_dis ifidx v, ifidx, HGIC_CMD_SET_DIS_1V1_M2U);
    (hgic_fwctrl_set_psconnect_dis ifidx v, ifidx, HGIC_CMD_SET_DIS_PSCONNECT);
    (hgic_fwctrl_blenc_set_advinterval ifidx v, ifidx, HGIC_CMD_SEND_BLENC_ADVINTERVAL);
    (hgic_fwctrl_blenc_start_adv ifidx v, ifidx, HGIC_CMD_SEND_BLENC_STARTADV);
    (hgic_fwctrl_reset ifidx, ifidx, HGIC_CMD_RESET);
    (hgic_fwctrl_set_promisc ifidx v, ifidx, HGIC_CMD_SET_PROMISC);
    (hgic_fwctrl_set_fix_txrate ifidx v, ifidx, HGIC_CMD_SET_FIX_TXRATE);
    (hgic_fwctrl_set_nav_max ifidx v, ifidx, HGIC_CMD_SET_NAV_MAX);
    (hgic_fwctrl_clear_nav ifidx, ifidx, HGIC_CMD_SET_NAV_MAX);
    (hgic_fwctrl_get_nav ifidx, ifidx, HGIC_CMD_GET_NAV);
    (hgic_fwctrl_set_beacon_start ifidx v, ifidx, HGIC_CMD_SET_BEACON_START);
    (hgic_fwctrl_ble_open ifidx v, ifidx, HGIC_CMD_SET_BLE_OPEN);
    (hgic_fwctrl_set_rts_duration ifidx v, ifidx, HGIC_CMD_SET_RTS_DURATION);
    (hgic_fwctrl_set_disable_print ifidx v, ifidx, HGIC_CMD_SET_DISABLE_PRINT);
    (hgic_fwctrl_set_conn_paironly ifidx v, ifidx, HGIC_CMD_SET_CONNECT_PAIRONLY);
    (hgic_fwctrl_get_center_freq ifidx, ifidx, HGIC_CMD_GET_CENTER_FREQ);
    (hgic_fwctrl_set_wait_psmode ifidx v, ifidx, HGIC_CMD_SET_WAIT_PSMODE);
    (hgic_fwctrl_set_diffcust_conn ifidx v, ifidx, HGIC_CMD_SET_DIFFCUST_CONN);
    (hgic_fwctrl_set_ap_chan_switch ifidx v v, ifidx, HGIC_CMD_SET_AP_CHAN_SWITCH);
    (hgic_fwctrl_set_cca_for_ce ifidx v, ifidx, HGIC_CMD_SET_CCA_FOR_CE);
    (hgic_fwctrl_set_rtc ifidx v, ifidx, HGIC_CMD_SET_RTC);
    (hgic_fwctrl_set_apep_padding ifidx v, ifidx, HGIC_CMD_SET_APEP_PADDING);
    (hgic_fwctrl_get_reason_code ifidx, ifidx, HGIC_CMD_GET_WIFI_REASON_CODE);
    (hgic_fwctrl_get_status_code ifidx, ifidx, HGIC_CMD_GET_WIFI_STATUS_CODE);
    (hgic_fwctrl_set_watchdog ifidx v, ifidx, HGIC_CMD_SET_WATCHDOG);
    (hgic_fwctrl_set_retry_fallback_cnt ifidx v, ifidx, HGIC_CMD_SET_RETRY_FALLBACK_CNT);
    (hgic_fwctrl_set_xosc ifidx v, ifidx, HGIC_CMD_SET_XOSC_VALUE);
    (hgic_fwctrl_set_freq_cali_period ifidx v, ifidx, HGIC_CMD_SET_CALI_PERIOD);
    (hgic_fwctrl_set_blenc_adv_filter ifidx v, ifidx, HGIC_CMD_SET_BLENC_ADVFILTER);
    (hgic_fwctrl_set_max_tx_delay ifidx v, ifidx, HGIC_CMD_SET_MAX_TX_DELAY);
    (hgic_fwctrl_get_signal ifidx, ifidx, HGIC_CMD_GET_SIGNAL);
    (hgic_fwctrl_set_heartbeat_int ifidx v, ifidx, HGIC_CMD_SET_HEARTBEAT_INT);
    (hgic_fwctrl_set_sleep_roaming ifidx v v, ifidx, HGIC_CMD_SET_SLEEP_ROAMING);
    (hgic_fwctrl_set_kick_assoc ifidx v, ifidx, HGIC_CMD_SET_KICK_ASSOC);
    (hgic_fwctrl_set_start_assoc ifidx v, ifidx, HGIC_CMD_START_ASSOC);
    (hgic_fwctrl_set_rmesh_devmax ifidx v, ifidx, HGIC_CMD_SET_RMESH_DEVMAX);
    (hgic_fwctrl_set_rmesh_aid ifidx v, ifidx, HGIC_CMD_SET_RMESH_AID);
    (hgic_fwctrl_set_rmesh_notfw ifidx v, ifidx, HGIC_CMD_SET_RMESH_NOTFW);
    (hgic_fwctrl_set_rmesh_rssimin ifidx v, ifidx, HGIC_CMD_SET_RMESH_RSSIMIN) ].

(** [hgic_fwctrl_get_freq_range] on an answer of exactly twelve bytes. *)
Lemma get_freq_range_reply stk ifidx ty id b0 b1 b2 e w :
  quiet w -> is_response_type ty = true ->
  let body := put_unaligned_le32 b0 ++ put_unaligned_le32 b1 ++ put_unaligned_le32 b2 in
  w_env w = answered_by (resp_frame ty (fc_cookie (w_ctrl w)) id 12 body) :: e ->
  exists w', hgic_fwctrl_get_freq_range stk ifidx w = Ret ((true, Some (u32 b0, u32 b1, u32 b2)), w').
Proof.
  intros Hq Hty body He. unfold hgic_fwctrl_get_freq_range, hgic_fwctrl_get_bytes.
  assert (zlen (resize 12 0 stk) = 12) as Hl by (apply (zlen_resize 12); lia).
  destruct (do_cmd_reply ifidx HGIC_CMD_GET_FREQ_RANGE None 0 (Some (resize 12 0 stk)) 12 ty id 12 body e w)
    as (s & w' & E & _); try done.
  unfold lift in E. rewrite (cmd_result_body _ 12 _ 12 body 12 [] ty _ id [] eq_refl eq_refl) in E by (done || lia).
  change (s16 12) with 12 in E. rewrite (bind_Ret _ _ _ _ _ E). cbn [fst snd]. change (12 =? 12) with true. cbv iota.
  rewrite (zdrop_all 12) by lia. rewrite ztake_all, app_nil_r by done.
  unfold bind, lift, deref, get32_at. unfold body.
  rewrite (mem_read_mid _ [] (put_unaligned_le32 b0) (put_unaligned_le32 b1 ++ put_unaligned_le32 b2)) by done.
  cbn [obind]. rewrite <- (app_nil_r (put_unaligned_le32 b0)), get_put_le32.
  rewrite (mem_read_mid _ (put_unaligned_le32 b0) (put_unaligned_le32 b1) (put_unaligned_le32 b2)) by done.
  cbn [obind]. rewrite <- (app_nil_r (put_unaligned_le32 b1)), get_put_le32.
  rewrite (mem_read_mid _ (put_unaligned_le32 b0 ++ put_unaligned_le32 b1) (put_unaligned_le32 b2) []);
    [|by rewrite app_nil_r, <- app_assoc|done|done].
  cbn [obind]. rewrite <- (app_nil_r (put_unaligned_le32 b2)), get_put_le32. by eexists.
Qed.

(** ** Properties *)

#[local] Opaque hgic_fwctrl_set_byte hgic_fwctrl_set_int_val hgic_fwctrl_set_bytes
  hgic_fwctrl_get_short_val hgic_fwctrl_do_cmd.

(** Every scalar wrapper queues exactly one frame on a quiet channel, and it
    is the frame of the command hgic.h defines for it, for every interface and
    every argument. *)
Lemma scalar_wrappers_send_their_command ifidx v w :
  quiet w -> w_env w = [] ->
  Forall (fun p => exists pl, emits w (fst (fst p)) (snd (fst p)) (cmd_code (snd p)) pl)
         (scalar_wrappers ifidx v).
Proof.
  intros Hq He. repeat apply Forall_cons_2; try apply Forall_nil_2; cbn [fst snd]; eexists;
    first [ by apply set_byte_emits | by apply set_int_val_emits | by apply get_short_val_emits
          | by apply no_arg_emits | apply set_bytes_emits; [done|done|lia|vm_compute; done] ].
Qed.

#[local] Transparent hgic_fwctrl_set_byte hgic_fwctrl_set_int_val hgic_fwctrl_set_bytes
  hgic_fwctrl_get_short_val hgic_fwctrl_do_cmd.

Lemma scalar_wrappers_send_their_command_witness :
  Forall (fun p => exists pl, emits (demo_world []) (fst (fst p)) (snd (fst p)) (cmd_code (snd p)) pl)
         (scalar_wrappers 1 5).
Proof. exact (scalar_wrappers_send_their_command 1 5 (demo_world []) (demo_quiet []) eq_refl). Defined.

(** The frequency range survives the trip through the firmware: if the chip
    answers GET_FREQ_RANGE with the payload SET_FREQ_RANGE was sent with, the
    getter returns the three values the setter was given, modulo 2^32. *)
Lemma freq_range_roundtrip stk ifidx start end_ bw ty id w :
  quiet w -> w_env w = [] -> is_response_type ty = true ->
  exists pl, emits w (hgic_fwctrl_set_freq_range ifidx start end_ bw) ifidx HGIC_CMD_SET_FREQ_RANGE pl /\
  forall e, let w1 := World (w_ctrl w)
                 (answered_by (resp_frame ty (fc_cookie (w_ctrl w)) id 12 pl) :: e) [] [] [] in
    exists w', hgic_fwctrl_get_freq_range stk ifidx w1
               = Ret ((true, Some (u32 start, u32 end_, u32 bw)), w').
Proof.
  intros Hq He Hty. eexists. split; [apply set_bytes_emits; [done|done|lia|vm_compute; done]|].
  intros e w1. apply (get_freq_range_reply _ _ ty id _ _ _ e); [by destruct Hq|done|].
  unfold w1. cbn [w_env w_ctrl payload]. by rewrite ztake_all.
Qed.

Lemma freq_range_roundtrip_witness :
  exists pl, emits (demo_world []) (hgic_fwctrl_set_freq_range 2 9080 9240 8) 2 HGIC_CMD_SET_FREQ_RANGE pl /\
  forall e, let w1 := World (w_ctrl (demo_world []))
                 (answered_by (resp_frame 13 (fc_cookie (w_ctrl (demo_world []))) 63 12 pl) :: e) [] [] [] in
    exists w', hgic_fwctrl_get_freq_range [] 2 w1 = Ret ((true, Some (u32 9080, u32 9240, u32 8)), w').
Proof. exact (freq_range_roundtrip [] 2 9080 9240 8 13 63 (demo_world []) (demo_quiet []) eq_refl eq_refl). Defined.

(** [hgic_fwctrl_get_chan_list] returns the count the firmware claims, not
    the count it stored: whenever the status exceeds the caller's array, the
    number returned is larger than the array. *)
Lemma get_chan_list_count_unbounded ifidx chans count ty id status body e w :
  quiet w -> is_response_type ty = true -> 0 <= count < 65536 -> zlen chans = count * 2 ->
  w_env w = answered_by (resp_frame ty (fc_cookie (w_ctrl w)) id status body) :: e ->
  0 <= status < 32768 -> status <= zlen body -> zlen body < 2 ^ 30 -> (count + 1) * 2 <= status ->
  exists n buf w', hgic_fwctrl_get_chan_list ifidx chans count w = Ret ((n, Some buf), w') /\
    n = status / 2 /\ count < n /\ zlen buf = count * 2.
Proof.
  intros Hq Hty Hc Hl He Hs Hb Hm Hgt. unfold hgic_fwctrl_get_chan_list, hgic_fwctrl_get_bytes.
  rewrite (u16_id count) by lia.
  destruct (do_cmd_reply ifidx HGIC_CMD_GET_CHAN_LIST None 0 (Some chans) (count * 2) ty id status body e w)
    as (s & w' & E & _); try done; try lia. unfold lift in E.
  rewrite (cmd_result_body _ (count * 2) chans status body (count * 2) [] ty _ id [] eq_refl) in E
    by (rewrite ?s16_id; lia).
  rewrite s16_id in E by lia.
  rewrite (bind_Ret _ _ _ _ _ E). cbn [fst snd]. destruct (Z.ltb_spec 0 status); [|lia].
  do 3 eexists. split; [reflexivity|]. split; [done|]. split.
  - apply Z.lt_le_trans with (count + 1); [lia|]. apply Z.div_le_lower_bound; lia.
  - rewrite (zdrop_all (count * 2)) by lia. rewrite app_nil_r, zlen_ztake; lia.
Qed.

Lemma get_chan_list_count_unbounded_witness :
  exists n buf w', hgic_fwctrl_get_chan_list 2 (replicate 4 0) 2
      (demo_world [answered_by (resp_frame 3 0 64 8 [1; 0; 2; 0; 3; 0; 4; 0])]) = Ret ((n, Some buf), w') /\
    n = 4 /\ 2 < n /\ zlen buf = 4.
Proof.
  refine (get_chan_list_count_unbounded 2 (replicate 4 0) 2 3 64 8 [1; 0; 2; 0; 3; 0; 4; 0] [] _
    (demo_quiet _) eq_refl _ eq_refl eq_refl _ _ _ _); vm_compute; try split; done.
Defined.

(** [hgic_fwctrl_set_atcmd] always sends a command that starts with AT+: a
    string that already does is sent as it is, any other is prefixed. *)
Lemma set_atcmd_prefix ifidx s rest w :
  quiet w -> w_env w = [] -> no_nul s -> 3 <= zlen s <= 1000 ->
  exists pl, emits w (hgic_fwctrl_set_atcmd ifidx (Some (s ++ 0 :: rest))) ifidx HGIC_CMD_SET_ATCMD pl /\
    map to_lower (ztake 3 pl) = str "at+" /\
    pl = (if bool_decide (map to_lower (ztake 3 s) = str "at+") then s else str "at+" ++ s).
Proof.
  intros Hq He Hs Hl. unfold hgic_fwctrl_set_atcmd.
  unfold emits. rewrite (bind_lift _ _ _ _ (eq_refl : deref (Some (s ++ 0 :: rest)) = _)).
  assert (strncasecmp_eq (s ++ 0 :: rest) (str "at+" ++ [0]) 3
    = Ret (bool_decide (map to_lower (ztake 3 s) = str "at+"))) as C.
  { apply (strncasecmp_eq_spec (str "at+") s); [done|]. unfold zlen in Hl. simpl. lia. }
  rewrite (bind_lift _ _ _ _ C), (bind_lift _ _ _ _ (strlen_app s rest Hs)).
  case_bool_decide as Hp; cbn [negb].
  - exists (payload (Some (s ++ 0 :: rest)) (zlen s)).
    assert (payload (Some (s ++ 0 :: rest)) (zlen s) = s) as -> by (by apply ztake_app_length).
    split; [|done].
    pose proof (set_bytes_emits ifidx HGIC_CMD_SET_ATCMD (Some (s ++ 0 :: rest)) (zlen s) w
      Hq He ltac:(lia)) as X.
    cbn [payload input_ok] in X. rewrite ztake_app_length in X by done. apply X.
    rewrite zlen_app. pose proof (zlen_nonneg (0 :: rest)). lia.
  - assert (exists blk, kzalloc (zlen s + 12) w = Ret (Some blk, pop_alloc w) /\ zlen blk = zlen s + 12)
      as (blk & Ek & Hblk).
    { unfold kzalloc, bind, ret. pose proof (alloc_spec (zlen s + 12) w ltac:(lia)) as A.
      unfold alloc_fails in A. rewrite (q_alloc w Hq) in A. destruct A as (b & Hb & ->).
      eexists. split; [reflexivity|]. unfold zlen in *. rewrite length_replicate. lia. }
    rewrite (bind_Ret _ _ _ _ _ Ek).
    set (pre := str "at+"). assert (zlen pre = 3) as Hpre by done.
    set (b4 := zdrop 4 blk). assert (zlen b4 = zlen s + 8) as Hb4 by (unfold b4; rewrite zlen_zdrop; lia).
    erewrite bind_lift; [|apply (mem_write_mid blk [] (ztake 4 blk) b4);
      [unfold b4; by rewrite app_nil_l, ztake_zdrop|done|rewrite zlen_ztake; [done|lia]]].
    rewrite (bind_lift _ _ _ _ (cstr_app s rest Hs)).
    erewrite bind_lift; [|apply (mem_write_mid _ pre ([0] ++ ztake (zlen s) b4) (zdrop (zlen s) b4));
      [by rewrite <- (ztake_zdrop (zlen s) b4) at 1|done|
       rewrite !zlen_app, zlen_ztake by lia; change (zlen [0]) with 1; lia]].
    rewrite <- app_assoc. cbn [app]. rewrite (app_assoc pre s).
    assert (no_nul (pre ++ s)) as Hn by (apply Forall_app; split; [repeat constructor; done|done]).
    rewrite (bind_lift _ _ _ _ (strlen_app _ _ Hn)).
    exists (pre ++ s). split; [|split; [|done]].
    + assert (0 <= zlen (pre ++ s) <= 2000) as Hps by (rewrite zlen_app, Hpre; lia).
      assert (quiet (pop_alloc w)) as Hq' by (destruct Hq; split; try done; simpl; by rewrite q_alloc).
      pose proof (set_bytes_emits ifidx HGIC_CMD_SET_ATCMD (Some ((pre ++ s) ++ 0 :: zdrop (zlen s) b4))
        (zlen (pre ++ s)) (pop_alloc w) Hq' He Hps) as X.
      cbn [payload input_ok] in X. rewrite ztake_app_length in X by done. apply X.
      rewrite (zlen_app (pre ++ s)). pose proof (zlen_nonneg (0 :: zdrop (zlen s) b4)). lia.
    + by rewrite ztake_app_length.
Qed.

Lemma set_atcmd_prefix_witness :
  exists pl, emits (demo_world []) (hgic_fwctrl_set_atcmd 1 (Some (str "reset" ++ 0 :: []))) 1 HGIC_CMD_SET_ATCMD pl /\
    map to_lower (ztake 3 pl) = str "at+" /\
    pl = (if bool_decide (map to_lower (ztake 3 (str "reset")) = str "at+") then str "reset" else str "at+" ++ str "reset").
Proof.
  refine (set_atcmd_prefix 1 (str "reset") [] (demo_world []) (demo_quiet []) eq_refl _ _).
  - repeat constructor; done.
  - vm_compute. split; done.
Defined.
