(* ===== verification/Iwpriv.v ===== *)
(** * The text command interface, its set half (utils/iwpriv.c)

    A user writes [name=value]; [hgic_iwpriv_set_proc] copies it in, splits it
    at the first equals sign, looks the name up in the table and hands the rest
    of the text to the handler, which parses it and issues a firmware command.
    One definition per handler, under its C name. *)
From Stdlib Require Import String.
From S2P Require Import Prelude Bytes CString Proto Skb Utils FwCtrl FwCmds.

(** ** Parsing shared by the handlers *)
Definition strtol (data : option (list Z)) (base : Z) : M world Z :=
  let! s := lift (deref data) in lift (simple_strtol s base).
Definition strtoul (data : option (list Z)) (base : Z) : M world Z :=
  let! s := lift (deref data) in lift (simple_strtoul s base).

(** [if (data == NULL) return -EINVAL;] *)
Definition nonnull (data : option (list Z)) (m : M world Z) : M world Z :=
  match data with Some _ => m | None => ret (- EINVAL) end.
(** [if (data == NULL || strlen(data) == 0) return -EINVAL;] *)
Definition nonempty (data : option (list Z)) (m : M world Z) : M world Z :=
  match data with
  | Some s => let! n := lift (strlen s) in if n =? 0 then ret (- EINVAL) else m
  | None => ret (- EINVAL)
  end.

(** The loop of the [hgic_pick_values] macro, [n] array slots being left: the
    token is split off before the room is checked. *)
Fixpoint pick_values (conv : Z -> Z) (n : nat) (s : option (list Z)) : outcome (list Z) :=
  match s with
  | None => Ret []
  | Some s =>
      leto r := strsep s 44 in
      match n with
      | O => Ret []
      | S n =>
          leto v := simple_strtol (fst r) 0 in
          leto l := pick_values conv n (snd r) in Ret (conv v :: l)
      end
  end.

(** The array, padded with zeros, and the number of values picked. *)
Definition hgic_pick_values (conv : Z -> Z) (data : option (list Z)) (size : Z) : M world (list Z * Z) :=
  let pad l := l ++ replicate (Z.to_nat size - length l) 0 in
  match data with
  | None => ret (pad [], 0)
  | Some s =>
      let! n := lift (strlen s) in
      if n =? 0 then ret (pad [], 0) else
      let! l := lift (pick_values conv (Z.to_nat size) (Some s)) in ret (pad l, zlen l)
  end.

Definition at_ (k : nat) (l : list Z) : Z := default 0 (l !! k).

Section Handlers.
(** Uninitialised stack bytes (of [hgic_pick_macaddr]), and whether [char] is
    signed on the platform. *)
Context (stk : list Z) (signed_char : bool).

Definition char_of (b : Z) : Z := if signed_char then s8 b else b.

Definition hgic_iwpriv_set_countryregion (ifidx : Z) (data : option (list Z)) (count : Z) : M world Z :=
  match data with
  | None => ret (- EINVAL)
  | Some s =>
      let! n := lift (strlen s) in
      if negb (n =? 2) then ret (- EINVAL) else hgic_fwctrl_set_countryregion ifidx data
  end.

Definition hgic_iwpriv_set_ssid (ifidx : Z) (data : option (list Z)) (count : Z) : M world Z :=
  hgic_fwctrl_set_ssid ifidx data.

Definition hgic_iwpriv_set_bssid (ifidx : Z) (data : option (list Z)) (count : Z) : M world Z :=
  nonnull data (
    if negb (ifidx =? HGIC_WDEV_ID_STA) then ret (- EINVAL) else
    let! r := lift (hgic_pick_macaddr stk data) in hgic_fwctrl_set_bssid ifidx (snd r)).

Definition hgic_iwpriv_set_channel (ifidx : Z) (data : option (list Z)) (count : Z) : M world Z :=
  nonnull data (let! v := strtol data 10 in hgic_fwctrl_set_channel ifidx v).

Definition hgic_iwpriv_set_bssid_filter (ifidx : Z) (data : option (list Z)) (count : Z) : M world Z :=
  hgic_fwctrl_set_bssid_filter ifidx data.

Definition hgic_iwpriv_set_rts_threshold (ifidx : Z) (data : option (list Z)) (count : Z) : M world Z :=
  nonnull data (let! v := strtol data 10 in hgic_fwctrl_set_rts_threshold ifidx v).

Definition hgic_iwpriv_set_frag_threshold (ifidx : Z) (data : option (list Z)) (count : Z) : M world Z :=
  nonnull data (let! v := strtol data 10 in hgic_fwctrl_set_frag_threshold ifidx v).

Definition hgic_iwpriv_set_key_mgmt (ifidx : Z) (data : option (list Z)) (count : Z) : M world Z :=
  hgic_fwctrl_set_key_mgmt ifidx data.

Definition hgic_iwpriv_set_wpa_psk (ifidx : Z) (data : option (list Z)) (count : Z) : M world Z :=
  hgic_fwctrl_set_wpa_psk ifidx data.

Definition hgic_iwpriv_set_freq_range (ifidx : Z) (data : option (list Z)) (count : Z) : M world Z :=
  nonempty data (let! v := hgic_pick_values u32 data 3 in
  hgic_fwctrl_set_freq_range ifidx (at_ 0 (fst v)) (at_ 1 (fst v)) (at_ 2 (fst v))).

Definition hgic_iwpriv_set_bss_bw (ifidx : Z) (data : option (list Z)) (count : Z) : M world Z :=
  let! v := strtol data 10 in
  let bss_bw := u8 v in
  hgic_fwctrl_set_bss_bw ifidx bss_bw.

Definition hgic_iwpriv_set_tx_bw (ifidx : Z) (data : option (list Z)) (count : Z) : M world Z :=
  let! v := strtol data 10 in
  let tx_bw := u8 v in
  hgic_fwctrl_set_tx_bw ifidx tx_bw.

Definition hgic_iwpriv_set_tx_mcs (ifidx : Z) (data : option (list Z)) (count : Z) : M world Z :=
  let! v := strtol data 10 in
  let tx_mcs := u8 v in
  hgic_fwctrl_set_tx_mcs ifidx tx_mcs.

Definition hgic_iwpriv_set_acs (ifidx : Z) (data : option (list Z)) (count : Z) : M world Z :=
  nonempty data (let! v := hgic_pick_values u16 data 2 in
  hgic_fwctrl_set_acs ifidx (at_ 0 (fst v)) (at_ 1 (fst v))).

Definition hgic_iwpriv_set_bgrssi (ifidx : Z) (data : option (list Z)) (count : Z) : M world Z :=
  let! v := strtol data 10 in
  let rssi := u8 v in
  hgic_fwctrl_set_bgrssi ifidx rssi.

Definition hgic_iwpriv_set_chan_list (ifidx : Z) (data : option (list Z)) (count : Z) : M world Z :=
  nonempty data (let! v := hgic_pick_values u16 data 32 in
  hgic_fwctrl_set_chan_list ifidx (fst v) (snd v)).

Definition hgic_iwpriv_set_mode (ifidx : Z) (data : option (list Z)) (count : Z) : M world Z :=
  nonnull data (hgic_fwctrl_set_mode ifidx data).

(** The loop over the comma-separated addresses: the block after it and the
    number of addresses stored. *)
Fixpoint paired_loop (fuel : nat) (ptr mac : list Z) (i : Z) : outcome (list Z * Z) :=
  match fuel with
  | O => Fault Diverges
  | S fuel =>
      leto c := mem_get ptr 0 in
      if c =? 0 then Ret (mac, i) else
      leto p := strchr ptr 44 in
      let tok := match p with Some k => ztake k ptr ++ 0 :: zdrop (k + 1) ptr | None => ptr end in
      leto r := hgic_pick_macaddr stk (Some tok) in
      leto mac := mem_write mac (i * 6) (snd r) in
      if fst r then
        match p with
        | Some k => paired_loop fuel (zdrop (k + 1) ptr) mac (i + 1)
        | None => Ret (mac, i + 1)
        end
      else Ret (mac, i)
  end.

Definition hgic_iwpriv_set_paired_stas (ifidx : Z) (data : option (list Z)) (count : Z) : M world Z :=
  nonempty data (
    let! s := lift (deref data) in
    let! len := lift (strlen s) in
    let! mac := kzalloc len in
    match mac with
    | None => ret (- ENOMEM)
    | Some mac =>
        let! r := lift (paired_loop (S (length s)) s mac 0) in
        hgic_fwctrl_set_paired_stas ifidx (Some (fst r)) (snd r * 6)
    end).

Definition hgic_iwpriv_set_pairing (ifidx : Z) (data : option (list Z)) (count : Z) : M world Z :=
  nonnull data (let! v := hgic_pick_values s32 data 4 in
  hgic_fwctrl_set_pairing ifidx (at_ 0 (fst v)) (at_ 1 (fst v)) (at_ 2 (fst v)) (at_ 3 (fst v))).

Definition hgic_iwpriv_set_beacon_int (ifidx : Z) (data : option (list Z)) (count : Z) : M world Z :=
  let! v := strtol data 10 in
  let beacon_int := u32 v in
  hgic_fwctrl_set_beacon_int ifidx beacon_int.

Definition hgic_iwpriv_set_radio_onoff (ifidx : Z) (data : option (list Z)) (count : Z) : M world Z :=
  let! v := strtol data 10 in
  modify (on_ctrl (set_radio_onoff (u8 v))) ;;;
  let! onoff := gets (fun w => fc_radio_onoff (w_ctrl w)) in
  hgic_fwctrl_radio_onoff ifidx onoff.

Definition hgic_iwpriv_join_group (ifidx : Z) (data : option (list Z)) (count : Z) : M world Z :=
  nonnull data (
    let! s := lift (deref data) in
    let! r := lift (hgic_pick_macaddr stk data) in
    let! aid := strtol (Some (zdrop 18 s)) 10 in
    hgic_fwctrl_join_group ifidx (snd r) (u32 aid)).

Definition hgic_iwpriv_set_ethertype (ifidx : Z) (data : option (list Z)) (count : Z) : M world Z :=
  nonnull data (let! v := strtol data 16 in
  let type := u16 v in
  hgic_fwctrl_set_ethertype ifidx type).

Definition hgic_iwpriv_set_txpower (ifidx : Z) (data : option (list Z)) (count : Z) : M world Z :=
  nonnull data (let! v := strtol data 10 in
  let type := u16 v in
  hgic_fwctrl_set_txpower ifidx type).

Definition hgic_iwpriv_set_aggcnt (ifidx : Z) (data : option (list Z)) (count : Z) : M world Z :=
  nonnull data (let! v := hgic_pick_values u8 data 2 in
  hgic_fwctrl_set_agg_cnt ifidx (fst v)).

Definition hgic_iwpriv_set_ps_connect (ifidx : Z) (data : option (list Z)) (count : Z) : M world Z :=
  nonnull data (let! v := hgic_pick_values u8 data 2 in
  hgic_fwctrl_set_ps_connect ifidx (at_ 0 (fst v)) (at_ 1 (fst v))).

Definition hgic_iwpriv_set_bss_max_idle (ifidx : Z) (data : option (list Z)) (count : Z) : M world Z :=
  nonnull data (let! v := strtol data 10 in
  let max_idle := u32 v in
  hgic_fwctrl_set_bss_max_idle ifidx max_idle).

Definition hgic_iwpriv_set_dtim_period (ifidx : Z) (data : option (list Z)) (count : Z) : M world Z :=
  nonnull data (let! v := strtol data 10 in
  let period := u32 v in
  hgic_fwctrl_set_dtim_period ifidx period).

Definition hgic_iwpriv_set_wkio_mode (ifidx : Z) (data : option (list Z)) (count : Z) : M world Z :=
  nonnull data (let! v := strtol data 10 in
  let mode := u32 v in
  hgic_fwctrl_set_wkio_mode ifidx mode).

Definition hgic_iwpriv_set_load_def (ifidx : Z) (data : option (list Z)) (count : Z) : M world Z :=
  nonnull data (let! v := strtol data 10 in
  let rst := u32 v in
  hgic_fwctrl_set_load_def ifidx rst).

Definition hgic_iwpriv_set_disassoc_sta (ifidx : Z) (data : option (list Z)) (count : Z) : M world Z :=
  nonnull data (let! r := lift (hgic_pick_macaddr stk data) in hgic_fwctrl_disassoc_sta ifidx (snd r)).

Definition hgic_iwpriv_set_ps_mode (ifidx : Z) (data : option (list Z)) (count : Z) : M world Z :=
  nonnull data (let! v := strtol data 10 in
  let mode := u32 v in
  hgic_fwctrl_set_ps_mode ifidx mode).

Definition hgic_iwpriv_set_aplost_time (ifidx : Z) (data : option (list Z)) (count : Z) : M world Z :=
  nonnull data (let! v := strtol data 10 in
  let time := u32 v in
  hgic_fwctrl_set_aplost_time ifidx time).

Definition hgic_iwpriv_set_unpair (ifidx : Z) (data : option (list Z)) (count : Z) : M world Z :=
  let! r := lift (hgic_pick_macaddr stk data) in hgic_fwctrl_unpair ifidx (snd r).

Definition hgic_iwpriv_set_auto_chswitch (ifidx : Z) (data : option (list Z)) (count : Z) : M world Z :=
  nonnull data (let! v := strtol data 10 in
  let enable := u32 v in
  hgic_fwctrl_set_auto_chswitch ifidx (Z.b2z (enable =? 1))).

Definition hgic_iwpriv_set_mcast_key (ifidx : Z) (data : option (list Z)) (count : Z) : M world Z :=
  nonnull data (hgic_fwctrl_set_mcast_key ifidx data).

Definition hgic_iwpriv_set_reassoc_wkhost (ifidx : Z) (data : option (list Z)) (count : Z) : M world Z :=
  nonnull data (let! v := strtol data 10 in
  let enable := u32 v in
  hgic_fwctrl_set_reassoc_wkhost ifidx (Z.b2z (enable =? 1))).

Definition hgic_iwpriv_set_wakeup_io (ifidx : Z) (data : option (list Z)) (count : Z) : M world Z :=
  let! v := hgic_pick_values u8 data 2 in
  hgic_fwctrl_set_wakeup_io ifidx (at_ 0 (fst v)) (at_ 1 (fst v)).

Definition hgic_iwpriv_set_dbginfo_output (ifidx : Z) (data : option (list Z)) (count : Z) : M world Z :=
  let! enable := (match data with Some _ => strtol data 10 | None => ret 0 end) in
  hgic_fwctrl_set_dbginfo_output ifidx (Z.b2z (u32 enable =? 1)).

Definition hgic_iwpriv_set_sysdbg (ifidx : Z) (data : option (list Z)) (count : Z) : M world Z :=
  nonnull data (hgic_fwctrl_set_sysdbg ifidx data).

Definition hgic_iwpriv_set_primary_chan (ifidx : Z) (data : option (list Z)) (count : Z) : M world Z :=
  nonnull data (let! v := strtol data 10 in
  let chan := u32 v in
  hgic_fwctrl_set_primary_chan ifidx chan).

Definition hgic_iwpriv_set_autosleep_time (ifidx : Z) (data : option (list Z)) (count : Z) : M world Z :=
  nonnull data (let! v := strtol data 10 in
  let time := u32 v in
  hgic_fwctrl_set_autosleep_time ifidx time).

Definition hgic_iwpriv_set_super_pwr (ifidx : Z) (data : option (list Z)) (count : Z) : M world Z :=
  nonnull data (let! v := strtol data 10 in
  let enable := u32 v in
  hgic_fwctrl_set_super_pwr ifidx enable).

Definition hgic_iwpriv_set_repeater_ssid (ifidx : Z) (data : option (list Z)) (count : Z) : M world Z :=
  hgic_fwctrl_set_repeater_ssid ifidx data.

Definition hgic_iwpriv_set_repeater_psk (ifidx : Z) (data : option (list Z)) (count : Z) : M world Z :=
  hgic_fwctrl_set_repeater_psk ifidx data.

Definition hgic_iwpriv_set_auto_save (ifidx : Z) (data : option (list Z)) (count : Z) : M world Z :=
  nonnull data (let! v := strtol data 10 in
  let enable := u32 v in
  hgic_fwctrl_set_auto_save ifidx enable).

Definition hgic_iwpriv_set_pair_autostop (ifidx : Z) (data : option (list Z)) (count : Z) : M world Z :=
  nonnull data (let! v := strtol data 10 in
  let enable := u32 v in
  hgic_fwctrl_set_pair_autostop ifidx enable).

Definition hgic_iwpriv_set_dcdc13v (ifidx : Z) (data : option (list Z)) (count : Z) : M world Z :=
  nonnull data (let! v := strtol data 10 in
  let enable := u32 v in
  hgic_fwctrl_set_dcdc13v ifidx enable).

Definition hgic_iwpriv_set_acktmo (ifidx : Z) (data : option (list Z)) (count : Z) : M world Z :=
  nonnull data (let! v := strtol data 10 in
  let tmo := u32 v in
  hgic_fwctrl_set_acktmo ifidx tmo).

Definition hgic_iwpriv_set_pa_pwrctl_dis (ifidx : Z) (data : option (list Z)) (count : Z) : M world Z :=
  nonnull data (let! v := strtol data 10 in
  let dis := u32 v in
  hgic_fwctrl_set_pa_pwrctl_dis ifidx dis).

Definition hgic_iwpriv_set_dhcpc (ifidx : Z) (data : option (list Z)) (count : Z) : M world Z :=
  nonnull data (let! v := strtol data 10 in
  let en := u32 v in
  hgic_fwctrl_set_dhcpc ifidx en).

Definition hgic_iwpriv_set_wkdata_save (ifidx : Z) (data : option (list Z)) (count : Z) : M world Z :=
  nonnull data (let! v := strtol data 10 in
  let en := u32 v in
  hgic_fwctrl_set_wkdata_save ifidx en).

Definition hgic_iwpriv_set_mcast_txparam (ifidx : Z) (data : option (list Z)) (count : Z) : M world Z :=
  nonnull data (let! v := hgic_pick_values u8 data 4 in
  hgic_fwctrl_set_mcast_txparam ifidx (fst v)).

Definition hgic_iwpriv_set_resetsta (ifidx : Z) (data : option (list Z)) (count : Z) : M world Z :=
  nonnull data (
    if negb (ifidx =? HGIC_WDEV_ID_STA) then ret (- EINVAL) else
    let! r := lift (hgic_pick_macaddr stk data) in hgic_fwctrl_reset_sta ifidx (snd r)).

Definition hgic_iwpriv_set_ant_auto (ifidx : Z) (data : option (list Z)) (count : Z) : M world Z :=
  nonnull data (let! v := strtol data 10 in
  let en := u32 v in
  hgic_fwctrl_set_ant_auto ifidx en).

Definition hgic_iwpriv_set_select_ant (ifidx : Z) (data : option (list Z)) (count : Z) : M world Z :=
  nonnull data (let! v := strtol data 10 in
  let ant := u32 v in
  hgic_fwctrl_select_ant ifidx ant).

Definition hgic_iwpriv_set_wkhost_reasons (ifidx : Z) (data : option (list Z)) (count : Z) : M world Z :=
  nonnull data (let! v := hgic_pick_values u8 data 32 in
  hgic_fwctrl_set_wkhost_reasons ifidx (Some (fst v ++ [0])) (snd v + 1)).

Definition hgic_iwpriv_set_mac_filter (ifidx : Z) (data : option (list Z)) (count : Z) : M world Z :=
  nonnull data (let! v := strtol data 10 in
  let en := u32 v in
  hgic_fwctrl_set_mac_filter ifidx en).

Definition hgic_iwpriv_set_atcmd (ifidx : Z) (data : option (list Z)) (count : Z) : M world Z :=
  hgic_fwctrl_set_atcmd ifidx data.

Definition hgic_iwpriv_set_roaming (ifidx : Z) (data : option (list Z)) (count : Z) : M world Z :=
  nonnull data (let! v := hgic_pick_values (fun z => u8 (s8 z)) data 8 in
  hgic_fwctrl_set_roaming ifidx (Some (fst v)) (snd v)).

Definition hgic_iwpriv_set_ap_hide (ifidx : Z) (data : option (list Z)) (count : Z) : M world Z :=
  nonnull data (let! v := strtol data 10 in
  let hide := u32 v in
  hgic_fwctrl_set_ap_hide ifidx hide).

Definition hgic_iwpriv_set_max_txcnt (ifidx : Z) (data : option (list Z)) (count : Z) : M world Z :=
  nonnull data (let! v := strtol data 10 in
  let txcnt := u32 v in
  hgic_fwctrl_set_frm_tx_maxcnt ifidx txcnt).

Definition hgic_iwpriv_set_assert_holdup (ifidx : Z) (data : option (list Z)) (count : Z) : M world Z :=
  nonnull data (let! v := strtol data 10 in
  let holdup := u32 v in
  hgic_fwctrl_set_assert_holdup ifidx holdup).

Definition hgic_iwpriv_set_ap_psmode (ifidx : Z) (data : option (list Z)) (count : Z) : M world Z :=
  nonnull data (let! v := strtol data 10 in
  let en := u32 v in
  hgic_fwctrl_set_ap_psmode_en ifidx en).

Definition hgic_iwpriv_set_dupfilter_en (ifidx : Z) (data : option (list Z)) (count : Z) : M world Z :=
  nonnull data (let! v := strtol data 10 in
  let en := u32 v in
  hgic_fwctrl_set_dupfilter_en ifidx en).

Definition hgic_iwpriv_set_dis_1v1m2u (ifidx : Z) (data : option (list Z)) (count : Z) : M world Z :=
  nonnull data (let! v := strtol data 10 in
  let en := u32 v in
  hgic_fwctrl_set_1v1_m2u_dis ifidx en).

Definition hgic_iwpriv_set_dis_psconnect (ifidx : Z) (data : option (list Z)) (count : Z) : M world Z :=
  nonnull data (let! v := strtol data 10 in
  let en := u32 v in
  hgic_fwctrl_set_psconnect_dis ifidx en).

Definition hgic_iwpriv_reset (ifidx : Z) (data : option (list Z)) (count : Z) : M world Z :=
  hgic_fwctrl_reset ifidx.

Definition hgic_iwpriv_set_heartbeat (ifidx : Z) (data : option (list Z)) (count : Z) : M world Z :=
  let! s := lift (deref data) in
  let! v := lift (sscanf_d s [46; 46; 46; 44; 44; 44]) in
  let arg k dflt := u32 (default dflt (v !! k)) in
  let ipaddr := Z.lor (Z.lor (Z.lor (Z.shiftl (Z.land (arg 0%nat 0) 0xff) 24)
                                    (Z.shiftl (Z.land (arg 1%nat 0) 0xff) 16))
                             (Z.shiftl (Z.land (arg 2%nat 0) 0xff) 8))
                      (Z.land (arg 3%nat 0) 0xff) in
  hgic_fwctrl_set_ps_heartbeat ifidx ipaddr (arg 4%nat 0) (arg 5%nat 0) (arg 6%nat 300).

Definition hgic_iwpriv_set_heartbeat_resp (ifidx : Z) (data : option (list Z)) (count : Z) : M world Z :=
  hgic_fwctrl_set_ps_heartbeat_resp ifidx data count.

Definition hgic_iwpriv_set_wakeup_data (ifidx : Z) (data : option (list Z)) (count : Z) : M world Z :=
  hgic_fwctrl_set_ps_wakeup_data ifidx data count.

Definition hgic_iwpriv_wakeup_sta (ifidx : Z) (data : option (list Z)) (count : Z) : M world Z :=
  let! r := lift (hgic_pick_macaddr stk data) in hgic_fwctrl_wakeup_sta ifidx (snd r).

Definition hgic_iwpriv_send_custmgmt (ifidx : Z) (data : option (list Z)) (count : Z) : M world Z :=
  hgic_fwctrl_send_cust_mgmt ifidx data count.

Definition hgic_iwpriv_send_mgmtframe (ifidx : Z) (data : option (list Z)) (count : Z) : M world Z :=
  hgic_fwctrl_send_mgmtframe ifidx data count.

Definition hgic_iwpriv_set_wkdata_mask (ifidx : Z) (data : option (list Z)) (count : Z) : M world Z :=
  let len := u8 (if 128 <? count then 128 else count) in
  let! s := lift (deref data) in
  let! c := lift (mem_get s 0) in
  hgic_fwctrl_set_wkdata_mask ifidx (char_of c) (zdrop 1 s) (len - 1).

Definition hgic_iwpriv_set_hbdata_mask (ifidx : Z) (data : option (list Z)) (count : Z) : M world Z :=
  let len := u8 (if 128 <? count then 128 else count) in
  let! s := lift (deref data) in
  let! c := lift (mem_get s 0) in
  hgic_fwctrl_set_hbdata_mask ifidx (char_of c) (zdrop 2 s) (len - 2).

Definition hgic_iwpriv_set_driverdata (ifidx : Z) (data : option (list Z)) (count : Z) : M world Z :=
  hgic_fwctrl_set_cust_driver_data ifidx data count.

Definition hgic_iwpriv_set_freqinfo (ifidx : Z) (data : option (list Z)) (count : Z) : M world Z :=
  hgic_fwctrl_set_freqinfo ifidx data count.

Definition hgic_iwpriv_set_blenc (ifidx : Z) (data : option (list Z)) (count : Z) : M world Z :=
  let! s := lift (deref data) in
  let! en := lift (memcmp_eq s (str "EN:")) in
  let! r :=
    (if en : bool then
       let! v := hgic_pick_values u8 (Some (zdrop 3 s)) 2 in hgic_fwctrl_set_blenc_en ifidx (fst v)
     else
     let! b := lift (memcmp_eq s (str "DATA:")) in
     if b : bool then hgic_fwctrl_blenc_send_data ifidx (Some (zdrop 5 s)) (count - 5) else
     let! b := lift (memcmp_eq s (str "DEV_ADDR:")) in
     if b : bool then hgic_fwctrl_blenc_set_devaddr ifidx (zdrop 9 s) else
     let! b := lift (memcmp_eq s (str "ADV_DATA:")) in
     if b : bool then hgic_fwctrl_blenc_set_advdata ifidx (Some (zdrop 9 s)) (count - 9) else
     let! b := lift (memcmp_eq s (str "SCAN_RESP:")) in
     if b : bool then hgic_fwctrl_blenc_set_scanresp ifidx (Some (zdrop 10 s)) (count - 10) else
     let! b := lift (memcmp_eq s (str "ADV_INT:")) in
     if b : bool then
       let! v := strtol (Some (zdrop 8 s)) 10 in hgic_fwctrl_blenc_set_advinterval ifidx v else
     let! b := lift (memcmp_eq s (str "ADV_EN:")) in
     if b : bool then
       let! v := strtol (Some (zdrop 7 s)) 10 in hgic_fwctrl_blenc_start_adv ifidx v else
     let! b := lift (memcmp_eq s (str "HCI_DATA:")) in
     if b : bool then
       let! c := lift (mem_get s 9) in
       hgic_fwctrl_send_hci_data c (zdrop 10 s) (count - 10) else
     let! b := lift (memcmp_eq s (str "ADV_FILTER:")) in
     if b : bool then
       let! v := strtol (Some (zdrop 11 s)) 10 in hgic_fwctrl_set_blenc_adv_filter ifidx v
     else ret (-1)) in
  ret (if r =? 0 then 0 else - EINVAL).

Definition hgic_iwpriv_enter_sleep (ifidx : Z) (data : option (list Z)) (count : Z) : M world Z :=
  nonnull data (
    let! v := hgic_pick_values u32 data 2 in
    let v0 := at_ 0 (fst v) in
    let v1 := at_ 1 (fst v) in
    let! err :=
      (if negb (v0 =? 0) then
         let! asleep := gets (fun w => test_bit HGIC_BUS_FLAGS_SLEEP (w_ctrl w)) in
         if negb asleep then
           let! fw := gets (fun w => fc_fwinfo (w_ctrl w)) in
           let! fw := lift (deref fw) in
           let v0 := if fi_version fw <? 0x02000000 then 0xffff else v0 in
           let! err := hgic_fwctrl_enter_sleep ifidx v0 v1 in
           (if negb (err =? 0) then modify (on_ctrl (clear_bit HGIC_BUS_FLAGS_SLEEP)) else ret tt) ;;;
           ret err
         else ret 0
       else
         let! asleep := gets (fun w => test_bit HGIC_BUS_FLAGS_SLEEP (w_ctrl w)) in
         if asleep : bool then
           modify (on_ctrl (clear_bit HGIC_BUS_FLAGS_SLEEP)) ;;;
           let! has := gets (fun w => bus_has_reinit (fc_bus (w_ctrl w))) in
           (if has : bool then modify (log_call CO_reinit) else ret tt) ;;;
           hgic_fwctrl_enter_sleep ifidx 0 0
         else ret 0) in
    ret (if err =? 0 then 0 else - EINVAL)).

Definition hgic_iwpriv_set_hwscan (ifidx : Z) (data : option (list Z)) (count : Z) : M world Z :=
  let! v := hgic_pick_values u16 data 4 in
  hgic_fwctrl_set_hwscan ifidx (at_ 0 (fst v)) (at_ 1 (fst v)) (at_ 2 (fst v)) (at_ 3 (fst v)).

Definition hgic_iwpriv_set_user_edca (ifidx : Z) (data : option (list Z)) (count : Z) : M world Z :=
  let! s := lift (deref data) in
  let! ac := lift (mem_get s 0) in
  let! txq := lift (mem_read s 1 sizeof_hgic_txq_param) in
  hgic_fwctrl_set_user_edca ifidx ac txq.

Definition hgic_iwpriv_set_fix_txrate (ifidx : Z) (data : option (list Z)) (count : Z) : M world Z :=
  let! v := strtoul data 10 in
  let txrate := u32 v in
  hgic_fwctrl_set_fix_txrate ifidx txrate.

Definition hgic_iwpriv_set_nav_max (ifidx : Z) (data : option (list Z)) (count : Z) : M world Z :=
  let! v := strtoul data 10 in
  let nav := u32 v in
  hgic_fwctrl_set_nav_max ifidx nav.

Definition hgic_iwpriv_clear_nav (ifidx : Z) (data : option (list Z)) (count : Z) : M world Z :=
  hgic_fwctrl_clear_nav ifidx.

Definition hgic_iwpriv_set_cca_param (ifidx : Z) (data : option (list Z)) (count : Z) : M world Z :=
  hgic_fwctrl_set_cca_param ifidx data.

Definition hgic_iwpriv_set_tx_modulation_gain (ifidx : Z) (data : option (list Z)) (count : Z) : M world Z :=
  hgic_fwctrl_set_tx_modulation_gain ifidx data count.

Definition hgic_iwpriv_set_rts_duration (ifidx : Z) (data : option (list Z)) (count : Z) : M world Z :=
  let! v := strtol data 10 in
  let duration := s32 v in
  hgic_fwctrl_set_rts_duration ifidx duration.

Definition hgic_iwpriv_set_disable_print (ifidx : Z) (data : option (list Z)) (count : Z) : M world Z :=
  let! v := strtol data 10 in
  let dis := s32 v in
  hgic_fwctrl_set_disable_print ifidx dis.

Definition hgic_iwpriv_set_conn_paironly (ifidx : Z) (data : option (list Z)) (count : Z) : M world Z :=
  let! v := strtol data 10 in
  let dis := s32 v in
  hgic_fwctrl_set_conn_paironly ifidx dis.

Definition hgic_iwpriv_set_wait_psmode (ifidx : Z) (data : option (list Z)) (count : Z) : M world Z :=
  let! v := strtol data 10 in
  let mode := s32 v in
  hgic_fwctrl_set_wait_psmode ifidx mode.

Definition hgic_iwpriv_set_diffcust_conn (ifidx : Z) (data : option (list Z)) (count : Z) : M world Z :=
  let! v := strtol data 10 in
  let en := s32 v in
  hgic_fwctrl_set_diffcust_conn ifidx en.

Definition hgic_iwpriv_set_standby (ifidx : Z) (data : option (list Z)) (count : Z) : M world Z :=
  nonnull data (let! v := hgic_pick_values u32 data 2 in
  hgic_fwctrl_set_standby ifidx (u8 (at_ 0 (fst v))) (at_ 1 (fst v))).

Definition hgic_iwpriv_set_ap_chan_switch (ifidx : Z) (data : option (list Z)) (count : Z) : M world Z :=
  nonnull data (let! v := hgic_pick_values u8 data 2 in
  hgic_fwctrl_set_ap_chan_switch ifidx (at_ 0 (fst v)) (at_ 1 (fst v))).

Definition hgic_iwpriv_set_cca_for_ce (ifidx : Z) (data : option (list Z)) (count : Z) : M world Z :=
  let! v := strtol data 10 in
  let en := s32 v in
  hgic_fwctrl_set_cca_for_ce ifidx en.

Definition hgic_iwpriv_set_rtc (ifidx : Z) (data : option (list Z)) (count : Z) : M world Z :=
  let! v := strtol data 10 in
  let rtc := u32 v in
  hgic_fwctrl_set_rtc ifidx rtc.

Definition hgic_iwpriv_set_apep_padding (ifidx : Z) (data : option (list Z)) (count : Z) : M world Z :=
  let! v := strtol data 10 in
  let en := u32 v in
  hgic_fwctrl_set_apep_padding ifidx en.

Definition hgic_iwpriv_set_watchdog (ifidx : Z) (data : option (list Z)) (count : Z) : M world Z :=
  let! v := strtol data 10 in
  let en := u32 v in
  hgic_fwctrl_set_watchdog ifidx en.

Definition hgic_iwpriv_set_retry_fallback_cnt (ifidx : Z) (data : option (list Z)) (count : Z) : M world Z :=
  let! v := strtol data 10 in
  let cnt := s32 v in
  hgic_fwctrl_set_retry_fallback_cnt ifidx cnt.

Definition hgic_iwpriv_set_fallback_mcs (ifidx : Z) (data : option (list Z)) (count : Z) : M world Z :=
  let! v := hgic_pick_values u8 data 4 in
  hgic_fwctrl_set_fallback_mcs ifidx [at_ 0 (fst v); at_ 1 (fst v); at_ 2 (fst v); at_ 3 (fst v)].

Definition hgic_iwpriv_set_xosc (ifidx : Z) (data : option (list Z)) (count : Z) : M world Z :=
  let! v := strtol data 10 in
  let val := s32 v in
  hgic_fwctrl_set_xosc ifidx val.

Definition hgic_iwpriv_set_freq_cali_period (ifidx : Z) (data : option (list Z)) (count : Z) : M world Z :=
  let! v := strtol data 10 in
  let val := s32 v in
  hgic_fwctrl_set_freq_cali_period ifidx val.

Definition hgic_iwpriv_set_customer_dvrdata (ifidx : Z) (data : option (list Z)) (count : Z) : M world Z :=
  let! s := lift (deref data) in
  let! id := lift (get_unaligned_le16 s) in
  hgic_fwctrl_set_bytes ifidx id (Some (zdrop 2 s)) (count - 2).

Definition hgic_iwpriv_set_max_tx_delay (ifidx : Z) (data : option (list Z)) (count : Z) : M world Z :=
  let! v := strtol data 10 in
  let val := s32 v in
  hgic_fwctrl_set_max_tx_delay ifidx val.

Definition hgic_iwpriv_set_heartbeat_int (ifidx : Z) (data : option (list Z)) (count : Z) : M world Z :=
  let! v := strtol data 10 in
  let val := s32 v in
  hgic_fwctrl_set_heartbeat_int ifidx val.

Definition hgic_iwpriv_set_sleep_roaming (ifidx : Z) (data : option (list Z)) (count : Z) : M world Z :=
  let! v := hgic_pick_values s8 data 2 in
  hgic_fwctrl_set_sleep_roaming ifidx (at_ 0 (fst v)) (at_ 1 (fst v)).

Definition hgic_iwpriv_set_roaming_bssid (ifidx : Z) (data : option (list Z)) (count : Z) : M world Z :=
  let! r := lift (hgic_pick_macaddr stk data) in hgic_fwctrl_set_roaming_bssid ifidx (snd r).

Definition hgic_iwpriv_set_bss_disabled (ifidx : Z) (data : option (list Z)) (count : Z) : M world Z :=
  nonnull data (
    let! s := lift (deref data) in
    let! r := lift (hgic_pick_macaddr stk data) in
    let! dis := strtol (Some (zdrop 18 s)) 10 in
    hgic_fwctrl_set_bss_disabled ifidx (u32 dis) (snd r)).

Definition hgic_iwpriv_set_kick_assoc (ifidx : Z) (data : option (list Z)) (count : Z) : M world Z :=
  let! v := strtol data 10 in
  let val := s32 v in
  hgic_fwctrl_set_kick_assoc ifidx val.

Definition hgic_iwpriv_set_start_assoc (ifidx : Z) (data : option (list Z)) (count : Z) : M world Z :=
  let! v := strtol data 10 in
  let val := s32 v in
  hgic_fwctrl_set_start_assoc ifidx val.

Definition hgic_iwpriv_set_rmesh_devmax (ifidx : Z) (data : option (list Z)) (count : Z) : M world Z :=
  let! v := strtol data 10 in
  let val := s32 v in
  hgic_fwctrl_set_rmesh_devmax ifidx val.

Definition hgic_iwpriv_set_rmesh_aid (ifidx : Z) (data : option (list Z)) (count : Z) : M world Z :=
  let! v := strtol data 10 in
  let val := s32 v in
  hgic_fwctrl_set_rmesh_aid ifidx val.

Definition hgic_iwpriv_set_rmesh_device (ifidx : Z) (data : option (list Z)) (count : Z) : M world Z :=
  let! s := lift (deref data) in
  let! aid := lift (mem_get s 0) in
  hgic_fwctrl_set_rmesh_device ifidx aid (zdrop 1 s).

Definition hgic_iwpriv_set_rmesh_notfw (ifidx : Z) (data : option (list Z)) (count : Z) : M world Z :=
  let! v := strtol data 10 in
  let val := s32 v in
  hgic_fwctrl_set_rmesh_notfw ifidx val.

Definition hgic_iwpriv_set_rmesh_rssimin (ifidx : Z) (data : option (list Z)) (count : Z) : M world Z :=
  let! v := strtol data 10 in
  let val := s32 v in
  hgic_fwctrl_set_rmesh_rssimin ifidx val.

Definition hgic_iwpriv_set_rmesh_meshid (ifidx : Z) (data : option (list Z)) (count : Z) : M world Z :=
  let! r := lift (hgic_pick_macaddr stk data) in hgic_fwctrl_set_rmesh_meshid ifidx (snd r).

(** The table, in its order: the first entry whose name matches is used. *)
Definition hgpriv_sets : list (string * (Z -> option (list Z) -> Z -> M world Z)) :=
  [ ("country_region"%string, hgic_iwpriv_set_countryregion);
    ("ssid"%string, hgic_iwpriv_set_ssid);
    ("bssid"%string, hgic_iwpriv_set_bssid);
    ("channel"%string, hgic_iwpriv_set_channel);
    ("rts_threshold"%string, hgic_iwpriv_set_rts_threshold);
    ("frag_threshold"%string, hgic_iwpriv_set_frag_threshold);
    ("key_mgmt"%string, hgic_iwpriv_set_key_mgmt);
    ("wpa_psk"%string, hgic_iwpriv_set_wpa_psk);
    ("bssid_filter"%string, hgic_iwpriv_set_bssid_filter);
    ("freq_range"%string, hgic_iwpriv_set_freq_range);
    ("bss_bw"%string, hgic_iwpriv_set_bss_bw);
    ("tx_bw"%string, hgic_iwpriv_set_tx_bw);
    ("tx_mcs"%string, hgic_iwpriv_set_tx_mcs);
    ("acs"%string, hgic_iwpriv_set_acs);
    ("bgrssi"%string, hgic_iwpriv_set_bgrssi);
    ("chan_list"%string, hgic_iwpriv_set_chan_list);
    ("mode"%string, hgic_iwpriv_set_mode);
    ("paired_stas"%string, hgic_iwpriv_set_paired_stas);
    ("pairing"%string, hgic_iwpriv_set_pairing);
    ("beacon_int"%string, hgic_iwpriv_set_beacon_int);
    ("radio_onoff"%string, hgic_iwpriv_set_radio_onoff);
    ("join_group"%string, hgic_iwpriv_join_group);
    ("ether_type"%string, hgic_iwpriv_set_ethertype);
    ("txpower"%string, hgic_iwpriv_set_txpower);
    ("agg_cnt"%string, hgic_iwpriv_set_aggcnt);
    ("ps_connect"%string, hgic_iwpriv_set_ps_connect);
    ("bss_max_idle"%string, hgic_iwpriv_set_bss_max_idle);
    ("wkio_mode"%string, hgic_iwpriv_set_wkio_mode);
    ("loaddef"%string, hgic_iwpriv_set_load_def);
    ("disassoc_sta"%string, hgic_iwpriv_set_disassoc_sta);
    ("dtim_period"%string, hgic_iwpriv_set_dtim_period);
    ("ps_mode"%string, hgic_iwpriv_set_ps_mode);
    ("aplost_time"%string, hgic_iwpriv_set_aplost_time);
    ("unpair"%string, hgic_iwpriv_set_unpair);
    ("auto_chswitch"%string, hgic_iwpriv_set_auto_chswitch);
    ("mcast_key"%string, hgic_iwpriv_set_mcast_key);
    ("reassoc_wkhost"%string, hgic_iwpriv_set_reassoc_wkhost);
    ("wakeup_io"%string, hgic_iwpriv_set_wakeup_io);
    ("dbginfo"%string, hgic_iwpriv_set_dbginfo_output);
    ("sysdbg"%string, hgic_iwpriv_set_sysdbg);
    ("primary_chan"%string, hgic_iwpriv_set_primary_chan);
    ("autosleep_time"%string, hgic_iwpriv_set_autosleep_time);
    ("super_pwr"%string, hgic_iwpriv_set_super_pwr);
    ("r_ssid"%string, hgic_iwpriv_set_repeater_ssid);
    ("r_psk"%string, hgic_iwpriv_set_repeater_psk);
    ("auto_save"%string, hgic_iwpriv_set_auto_save);
    ("pair_autostop"%string, hgic_iwpriv_set_pair_autostop);
    ("dcdc13"%string, hgic_iwpriv_set_dcdc13v);
    ("acktmo"%string, hgic_iwpriv_set_acktmo);
    ("pa_pwrctl_dis"%string, hgic_iwpriv_set_pa_pwrctl_dis);
    ("dhcpc"%string, hgic_iwpriv_set_dhcpc);
    ("wkdata_save"%string, hgic_iwpriv_set_wkdata_save);
    ("mcast_txparam"%string, hgic_iwpriv_set_mcast_txparam);
    ("reset_sta"%string, hgic_iwpriv_set_resetsta);
    ("ant_auto"%string, hgic_iwpriv_set_ant_auto);
    ("ant_sel"%string, hgic_iwpriv_set_select_ant);
    ("wkhost_reason"%string, hgic_iwpriv_set_wkhost_reasons);
    ("macfilter"%string, hgic_iwpriv_set_mac_filter);
    ("atcmd"%string, hgic_iwpriv_set_atcmd);
    ("roaming"%string, hgic_iwpriv_set_roaming);
    ("ap_hide"%string, hgic_iwpriv_set_ap_hide);
    ("max_txcnt"%string, hgic_iwpriv_set_max_txcnt);
    ("assert_holdup"%string, hgic_iwpriv_set_assert_holdup);
    ("ap_psmode"%string, hgic_iwpriv_set_ap_psmode);
    ("dupfilter"%string, hgic_iwpriv_set_dupfilter_en);
    ("dis_1v1m2u"%string, hgic_iwpriv_set_dis_1v1m2u);
    ("dis_psconnect"%string, hgic_iwpriv_set_dis_psconnect);
    ("reset"%string, hgic_iwpriv_reset);
    ("heartbeat"%string, hgic_iwpriv_set_heartbeat);
    ("heartbeat_resp"%string, hgic_iwpriv_set_heartbeat_resp);
    ("wakeup_data"%string, hgic_iwpriv_set_wakeup_data);
    ("wakeup"%string, hgic_iwpriv_wakeup_sta);
    ("custmgmt"%string, hgic_iwpriv_send_custmgmt);
    ("mgmtframe"%string, hgic_iwpriv_send_mgmtframe);
    ("wkdata_mask"%string, hgic_iwpriv_set_wkdata_mask);
    ("hbdata_mask"%string, hgic_iwpriv_set_hbdata_mask);
    ("driverdata"%string, hgic_iwpriv_set_driverdata);
    ("freqinfo"%string, hgic_iwpriv_set_freqinfo);
    ("blenc"%string, hgic_iwpriv_set_blenc);
    ("sleep"%string, hgic_iwpriv_enter_sleep);
    ("hwscan"%string, hgic_iwpriv_set_hwscan);
    ("user_edca"%string, hgic_iwpriv_set_user_edca);
    ("fix_txrate"%string, hgic_iwpriv_set_fix_txrate);
    ("nav_max"%string, hgic_iwpriv_set_nav_max);
    ("clr_nav"%string, hgic_iwpriv_clear_nav);
    ("cca_param"%string, hgic_iwpriv_set_cca_param);
    ("tx_modgain"%string, hgic_iwpriv_set_tx_modulation_gain);
    ("rts_duration"%string, hgic_iwpriv_set_rts_duration);
    ("disable_print"%string, hgic_iwpriv_set_disable_print);
    ("conn_paironly"%string, hgic_iwpriv_set_conn_paironly);
    ("diffcust_conn"%string, hgic_iwpriv_set_diffcust_conn);
    ("wait_psmode"%string, hgic_iwpriv_set_wait_psmode);
    ("standby"%string, hgic_iwpriv_set_standby);
    ("ap_chansw"%string, hgic_iwpriv_set_ap_chan_switch);
    ("cca_ce"%string, hgic_iwpriv_set_cca_for_ce);
    ("rtc"%string, hgic_iwpriv_set_rtc);
    ("apep_padding"%string, hgic_iwpriv_set_apep_padding);
    ("watchdog"%string, hgic_iwpriv_set_watchdog);
    ("retry_fallback_cnt"%string, hgic_iwpriv_set_retry_fallback_cnt);
    ("fallback_mcs"%string, hgic_iwpriv_set_fallback_mcs);
    ("xosc"%string, hgic_iwpriv_set_xosc);
    ("freq_cali_period"%string, hgic_iwpriv_set_freq_cali_period);
    ("cust_drvdata"%string, hgic_iwpriv_set_customer_dvrdata);
    ("max_txdelay"%string, hgic_iwpriv_set_max_tx_delay);
    ("heartbeat_int"%string, hgic_iwpriv_set_heartbeat_int);
    ("sleep_roaming"%string, hgic_iwpriv_set_sleep_roaming);
    ("roaming_bssid"%string, hgic_iwpriv_set_roaming_bssid);
    ("bss_disable"%string, hgic_iwpriv_set_bss_disabled);
    ("kick_assoc"%string, hgic_iwpriv_set_kick_assoc);
    ("start_assoc"%string, hgic_iwpriv_set_start_assoc);
    ("rmesh_devmax"%string, hgic_iwpriv_set_rmesh_devmax);
    ("rmesh_aid"%string, hgic_iwpriv_set_rmesh_aid);
    ("rmesh_device"%string, hgic_iwpriv_set_rmesh_device);
    ("rmesh_notfw"%string, hgic_iwpriv_set_rmesh_notfw);
    ("rmesh_rssimin"%string, hgic_iwpriv_set_rmesh_rssimin);
    ("rmesh_meshid"%string, hgic_iwpriv_set_rmesh_meshid) ].

(** ** The entry point *)
Record iwreq := Iwreq {
  iw_length : Z;          (* u.data.length *)
  iw_user : list Z;       (* the user memory behind u.data.pointer *)
  iw_uncopied : Z }.      (* bytes copy_from_user fails to copy *)

(** The bytes copied in, zero-padded to [len]; [None] when the copy failed. *)
Definition hgic_copyfrom_iwreq (rq : iwreq) (len : Z) : outcome (Z * list Z) :=
  let buf := replicate (Z.to_nat len) 0 in
  if 0 <? len then
    let n := if len <=? iw_length rq then len else iw_length rq in
    leto bs := mem_read (iw_user rq) 0 n in
    leto buf := mem_write buf 0 (ztake (n - iw_uncopied rq) bs) in
    Ret (iw_uncopied rq, buf)
  else Ret (0, buf).

(** [strcmp(buff, set->name) == 0], over the table. *)
Fixpoint lookup_set {A} (buff : list Z) (t : list (string * A)) : outcome (option A) :=
  match t with
  | [] => Ret None
  | (n, h) :: t' =>
      leto eq := strcmp_eq buff (str n ++ [0]) in
      if eq : bool then Ret (Some h) else lookup_set buff t'
  end.

Definition hgic_iwpriv_set_proc (ifidx : Z) (rq : iwreq) : M world Z :=
  let len := iw_length rq in
  let! buff := kmalloc (len + 1) in
  match buff with
  | None => ret (- ENOMEM)
  | Some _ =>
      let! c := lift (hgic_copyfrom_iwreq rq (len + 1)) in
      if negb (fst c =? 0) then ret (- ENOTSUPP) else
      let buff := snd c in
      let! p := lift (strchr buff 61) in
      match p with
      | None => ret (- ENOTSUPP)
      | Some i =>
          let buff := ztake i buff ++ 0 :: zdrop (i + 1) buff in
          let! h := lift (lookup_set buff hgpriv_sets) in
          match h with
          | Some set => set ifidx (Some (zdrop (i + 1) buff)) (u32 (len - (i + 1)))
          | None => ret (- ENOTSUPP)
          end
      end
  end.
End Handlers.

(** ** Lemmas *)
Lemma pop_alloc_quiet w : quiet w -> pop_alloc w = w.
Proof. intros Hq. unfold pop_alloc. rewrite (q_alloc w Hq). simpl. rewrite <- (q_alloc w Hq). by destruct w. Qed.

Lemma kmalloc_quiet n w :
  quiet w -> 0 <= n < 2 ^ 31 -> exists blk, kmalloc n w = Ret (Some blk, w) /\ zlen blk = n.
Proof.
  intros Hq Hn. pose proof (alloc_spec n w Hn) as A. unfold alloc_fails in A.
  rewrite (q_alloc w Hq), pop_alloc_quiet in A by done. destruct A as (blk & ? & ?). by exists blk.
Qed.

(** A name in the text up to the separator. *)
Definition clean (s : list Z) : Prop := Forall (fun b => b <> 0 /\ b <> 61) s.

Lemma clean_no_nul s : clean s -> no_nul s.
Proof. intros H. eapply Forall_impl; [exact H|]. by intros b []. Qed.

Definition text_req (text : list Z) : iwreq := Iwreq (zlen text) text 0.

Lemma copyfrom_text text :
  hgic_copyfrom_iwreq (text_req text) (zlen text + 1) = Ret (0, text ++ [0]).
Proof.
  unfold hgic_copyfrom_iwreq, text_req. cbn [iw_length iw_user iw_uncopied].
  pose proof (zlen_nonneg text). destruct (Z.ltb_spec 0 (zlen text + 1)); [|lia].
  destruct (Z.leb_spec (zlen text + 1) (zlen text)); [lia|].
  rewrite zlen_mem_whole. cbn [obind]. rewrite Z.sub_0_r, ztake_all by lia.
  rewrite replicate_split by lia.
  rewrite (mem_write_mid _ [] (replicate (Z.to_nat (zlen text)) 0) [0]);
    [done|done|done|by rewrite zlen_replicate by lia].
Qed.

Lemma lookup_set_spec {A} (t : list (string * A)) name rest :
  clean name -> Forall (fun p => clean (str (fst p))) t ->
  lookup_set (name ++ 0 :: rest) t
  = Ret (snd <$> head (filter (fun p => str (fst p) = name) t)).
Proof.
  intros Hn Ht. induction Ht as [|[s h] t Hs Ht IH]; [done|]. cbn [lookup_set].
  rewrite strcmp_eq_spec by (by apply clean_no_nul). cbn [obind].
  rewrite filter_cons. cbn [fst]. case_bool_decide as E; [by rewrite decide_True|].
  rewrite decide_False by congruence. done.
Qed.

Lemma sets_clean stk sc : Forall (fun p => clean (str (fst p))) (hgpriv_sets stk sc).
Proof.
  assert (forallb (fun p => forallb (fun b => negb (b =? 0) && negb (b =? 61)) (str (fst p)))
    (hgpriv_sets stk sc) = true) as H by (vm_compute; done).
  rewrite forallb_forall in H. apply Forall_forall. intros p Hp%list_elem_of_In.
  specialize (H p Hp). rewrite forallb_forall in H. apply Forall_forall.
  intros b Hb%list_elem_of_In. specialize (H b Hb). lia.
Qed.

Lemma str_inj a b : str a = str b -> a = b.
Proof.
  intros E. apply (f_equal (map (fun z => Ascii.ascii_of_N (Z.to_N z)))) in E.
  unfold str, byte_of_ascii in E. rewrite !map_map in E.
  assert (forall l, map (fun x => Ascii.ascii_of_N (Z.to_N (Z.of_N (Ascii.N_of_ascii x)))) l = l) as Hid.
  { intros l. rewrite <- (map_id l) at 2. apply map_ext. intros x. by rewrite N2Z.id, Ascii.ascii_N_embedding. }
  rewrite !Hid in E. rewrite <- (string_of_list_ascii_of_string a), E. apply string_of_list_ascii_of_string.
Qed.

(** In a table without duplicates a name selects its entry, and a name that is
    not in the table selects none. *)
Lemma table_found {A} (t : list (string * A)) n h :
  NoDup (map fst t) -> (n, h) ∈ t -> snd <$> head (filter (fun p => str (fst p) = str n) t) = Some h.
Proof.
  induction t as [|[m g] t IH]; intros Hnd Hin; [by apply not_elem_of_nil in Hin|].
  rewrite filter_cons. cbn [fst]. simpl in Hnd. apply NoDup_cons in Hnd as [Hm Hnd].
  apply elem_of_cons in Hin as [[= -> ->]|Hin]; [by rewrite decide_True|].
  rewrite decide_False; [by apply IH|]. intros E%str_inj. subst m. apply Hm.
  apply list_elem_of_fmap. by exists (n, h).
Qed.
Lemma table_missing {A} (t : list (string * A)) name :
  (forall p, p ∈ t -> str (fst p) <> name) -> filter (fun p => str (fst p) = name) t = [].
Proof.
  intros Hno. induction t as [|p t IH]; [done|].
  rewrite filter_cons, decide_False by (apply Hno; by left).
  apply IH. intros q Hin. apply Hno. by right.
Qed.

Lemma set_proc_text stk sc ifidx name value w :
  quiet w -> clean name -> zlen name + zlen value < 65535 ->
  hgic_iwpriv_set_proc stk sc ifidx (text_req (name ++ 61 :: value)) w
  = match snd <$> head (filter (fun p => str (fst p) = name) (hgpriv_sets stk sc)) with
    | Some h => h ifidx (Some (value ++ [0])) (zlen value) w
    | None => Ret (- ENOTSUPP, w)
    end.
Proof.
  intros Hq Hn Hl. pose proof (zlen_nonneg name). pose proof (zlen_nonneg value).
  unfold hgic_iwpriv_set_proc. cbn [text_req iw_length].
  set (text := name ++ 61 :: value). assert (zlen text = zlen name + 1 + zlen value) as Ht
    by (unfold text; rewrite zlen_app, zlen_cons; lia).
  destruct (kmalloc_quiet (zlen text + 1) w Hq ltac:(lia)) as (blk & Ek & _).
  rewrite (bind_Ret _ _ _ _ _ Ek), (bind_lift _ _ _ _ (copyfrom_text text)).
  cbn [fst snd]. change (negb (0 =? 0)) with false. cbv iota.
  assert (text ++ [0] = name ++ 61 :: (value ++ [0])) as E by (unfold text; by rewrite <- app_assoc).
  rewrite E. rewrite (bind_lift _ _ _ _ (strchr_found name 61 (value ++ [0]) Hn)).
  rewrite ztake_app_length by done.
  replace (name ++ 61 :: value ++ [0]) with ((name ++ [61]) ++ value ++ [0]) by (by rewrite <- app_assoc).
  rewrite zdrop_app_length by (by rewrite zlen_app).
  rewrite (bind_lift _ _ _ _ (lookup_set_spec (hgpriv_sets stk sc) name (value ++ [0]) Hn (sets_clean stk sc))).
  destruct (snd <$> _) as [h|]; [|done].
  replace (name ++ 0 :: value ++ [0]) with ((name ++ [0]) ++ value ++ [0]) by (by rewrite <- app_assoc).
  rewrite zdrop_app_length by (by rewrite zlen_app).
  replace (zlen text - (zlen name + 1)) with (zlen value) by lia. by rewrite u32_id by lia.
Qed.

Fixpoint distinctb (l : list string) : bool :=
  match l with [] => true | x :: l => negb (existsb (String.eqb x) l) && distinctb l end.
Lemma distinctb_NoDup l : distinctb l = true -> NoDup l.
Proof.
  induction l as [|x l IH]; simpl; [constructor|]. intros [Hx Hl]%andb_true_iff.
  apply NoDup_cons. split; [|by apply IH]. intros Hin.
  apply negb_true_iff in Hx. enough (existsb (String.eqb x) l = true) by congruence.
  apply existsb_exists. exists x. rewrite <- list_elem_of_In. by rewrite String.eqb_refl.
Qed.

(** A token of a comma-separated list: a decimal numeral that base 0 reads as
    decimal. *)
Definition value_numeral (s : list Z) : Prop := dec_string s /\ head s <> Some 48 /\ dec_val s < 2 ^ 64.

Lemma dec_val_nonneg s : Forall (fun c => isdigit c = true) s -> 0 <= dec_val s.
Proof.
  intros H. unfold dec_val.
  enough (forall v, 0 <= v -> 0 <= fold_left (fun a c => a * 10 + (c - 48)) s v) by auto with lia.
  induction H as [|c s Hc%isdigit_range _ IH]; intros v Hv; simpl; [lia|]. apply IH. lia.
Qed.

Lemma numeral_no_comma s : dec_string s -> Forall (fun b => b <> 0 /\ b <> 44) s.
Proof. intros [H _]. eapply Forall_impl; [exact H|]. intros c Hc%isdigit_range. simpl. lia. Qed.

Lemma pick_values_numerals conv l rest n :
  Forall value_numeral l -> l <> [] -> (length l <= n)%nat ->
  pick_values conv n (Some (numerals l 0 rest)) = Ret (map (fun s => conv (dec_val s)) l).
Proof.
  intros Hl. revert n. induction Hl as [|s l (Hs & Hz & Hv) Hl IH]; intros n Hne Hn; [done|].
  destruct n as [|n]; [simpl in Hn; lia|]. cbn [pick_values].
  assert (dec_val s mod 2 ^ 64 = dec_val s) as Em by (apply Z.mod_small; split; [apply dec_val_nonneg, Hs|done]).
  destruct l as [|s' l'].
  - cbn [numerals]. rewrite strsep_last by (by apply numeral_no_comma). cbn [obind fst snd].
    rewrite simple_strtol_dec0 by (done || apply non_digit_nul). cbn [obind map]. rewrite Em.
    destruct n; done.
  - change (numerals (s :: s' :: l') 0 rest) with (s ++ 44 :: numerals (s' :: l') 0 rest).
    rewrite strsep_token by (done || by apply numeral_no_comma). cbn [obind fst snd].
    rewrite simple_strtol_dec0 by (done || apply non_digit_nul). cbn [obind]. rewrite Em.
    rewrite IH; [done|done|simpl in *; lia].
Qed.

Lemma pick_values_run conv l size w :
  Forall value_numeral l -> l <> [] -> zlen l <= size ->
  hgic_pick_values conv (Some (numerals l 0 [])) size w
  = Ret ((map (fun s => conv (dec_val s)) l ++ replicate (Z.to_nat size - length l) 0, zlen l), w).
Proof.
  intros Hl Hne Hs. unfold hgic_pick_values.
  assert (exists c, no_nul c /\ numerals l 0 [] = c ++ [0] /\ c <> []) as (c & Hc & Ec & Hne').
  { clear Hs. induction Hl as [|s l (Hd & ? & _) Hl IH]; [done|]. destruct l as [|s' l'].
    - exists s. split; [by apply dec_string_no_nul|]. split; [done|apply Hd].
    - destruct IH as (c & Hc & Ec & Hc'); [done|].
      change (numerals (s :: s' :: l') 0 []) with (s ++ 44 :: numerals (s' :: l') 0 []). rewrite Ec.
      exists (s ++ 44 :: c). split; [|split; [by rewrite <- app_assoc|by destruct s]].
      apply Forall_app. split; [by apply dec_string_no_nul|]. by constructor. }
  rewrite Ec at 1. rewrite (bind_lift _ _ _ _ (strlen_app c [] Hc)).
  destruct (Z.eqb_spec (zlen c) 0) as [E|_]; [destruct c; [done|rewrite zlen_cons in E; pose proof (zlen_nonneg c); lia]|].
  rewrite (bind_lift _ _ _ _ (pick_values_numerals conv l [] (Z.to_nat size) Hl Hne ltac:(unfold zlen in Hs; lia))).
  unfold ret. rewrite length_map. do 3 f_equal. unfold zlen. by rewrite length_map.
Qed.

Lemma numerals_nul l : l <> [] -> exists c, numerals l 0 [] = c ++ [0].
Proof.
  induction l as [|s [|s' l'] IH]; intros H; [done|by exists s|].
  destruct IH as [c Hc]; [done|].
  change (numerals (s :: s' :: l') 0 []) with (s ++ 44 :: numerals (s' :: l') 0 []). rewrite Hc.
  exists (s ++ 44 :: c). by rewrite <- app_assoc.
Qed.

(** ** Properties *)

(** C33. Dispatch: writing [name=value] runs the handler the table gives for that
    name, on the value text with its terminator and its length, and nothing
    else; no two entries of the table have the same name, so every entry can be
    reached; a name that is not in the table, or a text without an equals sign,
    returns -ENOTSUPP and changes nothing. *)
Theorem set_proc_dispatch stk sc ifidx w :
  quiet w ->
  NoDup (map fst (hgpriv_sets stk sc)) /\
  (forall n h value, (n, h) ∈ hgpriv_sets stk sc -> zlen (str n) + zlen value < 65535 ->
     hgic_iwpriv_set_proc stk sc ifidx (text_req (str n ++ 61 :: value)) w
     = h ifidx (Some (value ++ [0])) (zlen value) w) /\
  (forall name value, clean name -> (forall p, p ∈ hgpriv_sets stk sc -> str (fst p) <> name) ->
     zlen name + zlen value < 65535 ->
     hgic_iwpriv_set_proc stk sc ifidx (text_req (name ++ 61 :: value)) w = Ret (- ENOTSUPP, w)) /\
  (forall text, clean text -> zlen text < 65535 ->
     hgic_iwpriv_set_proc stk sc ifidx (text_req text) w = Ret (- ENOTSUPP, w)).
Proof.
  intros Hq.
  assert (NoDup (map fst (hgpriv_sets stk sc))) as Hnd.
  { apply distinctb_NoDup. vm_compute. done. }
  split; [done|]. split; [|split].
  - intros n h value Hin Hl. pose proof (sets_clean stk sc) as Hc.
    rewrite set_proc_text; [|done|rewrite Forall_forall in Hc; by apply (Hc (n, h))|done].
    by rewrite (table_found _ n h).
  - intros name value Hn Hno Hl. rewrite set_proc_text by done.
    by rewrite table_missing.
  - intros text Hc Hl. unfold hgic_iwpriv_set_proc. cbn [text_req iw_length].
    pose proof (zlen_nonneg text).
    destruct (kmalloc_quiet (zlen text + 1) w Hq ltac:(lia)) as (blk & Ek & _).
    rewrite (bind_Ret _ _ _ _ _ Ek), (bind_lift _ _ _ _ (copyfrom_text text)).
    cbn [fst snd]. change (negb (0 =? 0)) with false. cbv iota.
    by rewrite (bind_lift _ _ _ _ (strchr_none text 61 [] ltac:(done) Hc)).
Qed.

Lemma set_proc_dispatch_witness :
  hgic_iwpriv_set_proc [] true 1 (text_req (str "clr_nav" ++ 61 :: [49])) (demo_world [])
  = hgic_iwpriv_clear_nav 1 (Some [49; 0]) 1 (demo_world []).
Proof.
  destruct (set_proc_dispatch [] true 1 (demo_world []) (demo_quiet [])) as (_ & D & _).
  apply (D "clr_nav"%string hgic_iwpriv_clear_nav [49]); [|vm_compute; done].
  do 84 apply list_elem_of_further. apply list_elem_of_here.
Defined.

(** End to end, a number: [channel=N] for a decimal numeral N puts exactly
    one SET_CHANNEL frame on the bus whose payload is N as a little-endian
    32-bit integer (modulo 2^32). *)
Lemma set_channel_end_to_end stk sc ifidx s w :
  quiet w -> w_env w = [] -> dec_string s -> zlen s < 1000 ->
  exists pl, emits w (hgic_iwpriv_set_proc stk sc ifidx (text_req (str "channel" ++ 61 :: s)))
                   ifidx HGIC_CMD_SET_CHANNEL pl /\
    get_unaligned_le32 pl = Ret (u32 (dec_val s)).
Proof.
  intros Hq He Hs Hl. exists (put_unaligned_le32 (u32 (u32 (dec_val s mod 2 ^ 64)))). split.
  - unfold emits. rewrite set_proc_text; [|done|repeat constructor; done|change (zlen (str "channel")) with 7; lia].
    change (snd <$> _) with (Some hgic_iwpriv_set_channel). cbv iota.
    unfold hgic_iwpriv_set_channel, nonnull, strtol.
    rewrite (bind_Ret _ _ w (dec_val s mod 2 ^ 64) w).
    + by apply set_int_val_emits.
    + cbn [deref]. unfold bind, lift. by rewrite simple_strtol_dec by (done || apply non_digit_nul).
  - rewrite <- (app_nil_r (put_unaligned_le32 _)), get_put_le32. f_equal. unfold u32.
    rewrite !Z.mod_mod by lia. apply Z.mod_mod_divide. by exists (2 ^ 32).
Qed.

Lemma set_channel_end_to_end_witness :
  exists pl, emits (demo_world []) (hgic_iwpriv_set_proc [] true 1 (text_req (str "channel" ++ 61 :: str "149")))
                   1 HGIC_CMD_SET_CHANNEL pl /\
    get_unaligned_le32 pl = Ret (u32 149).
Proof.
  refine (set_channel_end_to_end [] true 1 (str "149") (demo_world []) (demo_quiet []) eq_refl _ _); [|vm_compute; done].
  split; [repeat constructor|done].
Defined.

(** End to end, a list: [freq_range=a,b,c] with decimal numerals sends one
    SET_FREQ_RANGE frame of twelve bytes, the three values in order. *)
Lemma set_freq_range_end_to_end stk sc ifidx a b c w :
  quiet w -> w_env w = [] -> Forall value_numeral [a; b; c] ->
  zlen a + zlen b + zlen c < 1000 ->
  emits w (hgic_iwpriv_set_proc stk sc ifidx (text_req (str "freq_range" ++ 61 :: a ++ 44 :: b ++ 44 :: c)))
        ifidx HGIC_CMD_SET_FREQ_RANGE
        (put_unaligned_le32 (u32 (dec_val a)) ++ put_unaligned_le32 (u32 (dec_val b))
         ++ put_unaligned_le32 (u32 (dec_val c))).
Proof.
  intros Hq He Hn Hl. unfold emits.
  rewrite set_proc_text; [|done|repeat constructor; done|
    change (zlen (str "freq_range")) with 10; rewrite zlen_app, zlen_cons, zlen_app, zlen_cons; lia].
  change (snd <$> _) with (Some hgic_iwpriv_set_freq_range). cbv iota.
  assert (((a ++ 44 :: b ++ 44 :: c) ++ [0]) = numerals [a; b; c] 0 []) as E
    by (cbn [numerals]; by rewrite <- app_assoc, <- app_comm_cons, <- app_assoc).
  rewrite E. unfold hgic_iwpriv_set_freq_range, nonempty.
  assert (no_nul (a ++ 44 :: b ++ 44 :: c)) as Hnn.
  { inversion_clear Hn as [|? ? [Ha _] H1]. inversion_clear H1 as [|? ? [Hb _] H2].
    inversion_clear H2 as [|? ? [Hc _] _].
    apply Forall_app; split; [by apply dec_string_no_nul|]. constructor; [done|].
    apply Forall_app; split; [by apply dec_string_no_nul|]. constructor; [done|]. by apply dec_string_no_nul. }
  assert (strlen (numerals [a; b; c] 0 []) = Ret (zlen (a ++ 44 :: b ++ 44 :: c))) as Hsl
    by (rewrite <- E; by apply strlen_app).
  rewrite (bind_lift _ _ _ _ Hsl).
  destruct (Z.eqb_spec (zlen (a ++ 44 :: b ++ 44 :: c)) 0) as [E0|_].
  { rewrite zlen_app, zlen_cons in E0. pose proof (zlen_nonneg a). pose proof (zlen_nonneg (b ++ 44 :: c)). lia. }
  rewrite (bind_Ret _ _ _ _ _ (pick_values_run u32 [a; b; c] 3 w Hn ltac:(done) ltac:(done))).
  apply (set_bytes_emits ifidx HGIC_CMD_SET_FREQ_RANGE); [done|done|lia|vm_compute; done].
Qed.

Lemma set_freq_range_end_to_end_witness :
  emits (demo_world []) (hgic_iwpriv_set_proc [] true 1 (text_req (str "freq_range" ++ 61 :: str "9080" ++ 44 :: str "9240" ++ 44 :: str "8")))
        1 HGIC_CMD_SET_FREQ_RANGE
        (put_unaligned_le32 9080 ++ put_unaligned_le32 9240 ++ put_unaligned_le32 8).
Proof.
  refine (set_freq_range_end_to_end [] true 1 (str "9080") (str "9240") (str "8") (demo_world []) (demo_quiet []) eq_refl _ _);
    [|vm_compute; done].
  repeat constructor; vm_compute; done.
Defined.

(** ** Lists of MAC addresses *)
Definition mac_str (m : list Z) : list Z :=
  match m with [b0; b1; b2; b3; b4; b5] => mac_text b0 b1 b2 b3 b4 b5 | _ => [] end.
Definition is_mac (m : list Z) : Prop := length m = 6%nat /\ is_bytes m.
Fixpoint mac_list (l : list (list Z)) : list Z :=
  match l with
  | [] => []
  | [m] => mac_str m
  | m :: l' => mac_str m ++ 44 :: mac_list l'
  end.

Lemma is_mac_inv m : is_mac m -> exists b0 b1 b2 b3 b4 b5,
  m = [b0; b1; b2; b3; b4; b5] /\ Forall is_byte [b0; b1; b2; b3; b4; b5].
Proof.
  intros [Hl Hb]. do 6 (destruct m as [|? m]; [done|]). destruct m; [|done]. by do 6 eexists.
Qed.

Lemma mac_str_chars m : is_mac m -> Forall (fun b => b <> 0 /\ b <> 44) (mac_str m).
Proof.
  intros (b0 & b1 & b2 & b3 & b4 & b5 & -> & H)%is_mac_inv. cbn [mac_str]. unfold mac_text.
  assert (forall b, is_byte b -> Forall (fun c => c <> 0 /\ c <> 44) (hex_byte b)) as Hh.
  { intros b Hb. unfold is_byte in Hb.
    assert (0 <= b / 16 < 16) by (split; [apply Z.div_pos; lia|apply Z.div_lt_upper_bound; lia]).
    pose proof (Z.mod_pos_bound b 16).
    pose proof (hex_digit_range (b / 16)). pose proof (hex_digit_range (b mod 16)).
    repeat constructor; lia. }
  repeat match goal with H : Forall _ (_ :: _) |- _ => apply Forall_cons in H as [? H] end.
  repeat (apply Forall_app; split; [by apply Hh|]; apply Forall_cons; split; [done|]). by apply Hh.
Qed.

Lemma mac_str_head m : is_mac m -> exists c s, mac_str m = c :: s /\ c <> 0.
Proof.
  intros Hm. pose proof (mac_str_chars m Hm) as Hc.
  destruct (is_mac_inv m Hm) as (b0 & b1 & b2 & b3 & b4 & b5 & -> & _). cbn [mac_str] in *.
  unfold mac_text, hex_byte in *. cbn [app] in *. do 2 eexists. split; [reflexivity|].
  apply Forall_cons in Hc as [[? _] _]. done.
Qed.

Lemma mac_list_cons m m' l : mac_list (m :: m' :: l) = mac_str m ++ 44 :: mac_list (m' :: l).
Proof. done. Qed.

Lemma paired_loop_spec stk l rest pre blk i fuel :
  stk_ok stk -> Forall is_mac l -> l <> [] -> (length l <= fuel)%nat ->
  zlen pre = i * 6 -> 6 * zlen l <= zlen blk ->
  paired_loop stk fuel (mac_list l ++ 0 :: rest) (pre ++ blk) i
  = Ret (pre ++ concat l ++ zdrop (6 * zlen l) blk, i + zlen l).
Proof.
  intros Hs Hl. revert pre blk i fuel. induction Hl as [|m l Hm Hl IH]; intros pre blk i fuel Hne Hf Hp Hb; [done|].
  destruct fuel as [|fuel]; [simpl in Hf; lia|]. rewrite zlen_cons in *. pose proof (zlen_nonneg l).
  destruct (mac_str_head m Hm) as (c & s & Es & Hc0).
  pose proof (mac_str_chars m Hm) as Hch.
  assert (zlen m = 6) as Hm6 by (destruct Hm as [E _]; unfold zlen; by rewrite E).
  assert (forall z, hgic_pick_macaddr stk (Some (mac_str m ++ z)) = Ret (true, m)) as Hpick.
  { intros z. destruct (is_mac_inv m Hm) as (b0 & b1 & b2 & b3 & b4 & b5 & -> & ?). by apply pick_macaddr_ok. }
  assert (forall b, mem_write (pre ++ ztake 6 blk ++ b) (i * 6) m = Ret (pre ++ m ++ b)) as Hw.
  { intros b. apply (mem_write_mid _ pre (ztake 6 blk) b); [done|lia|]. rewrite zlen_ztake; lia. }
  rewrite <- (ztake_zdrop 6 blk) at 1. cbn [paired_loop].
  assert (forall z, mem_get (mac_str m ++ z) 0 = Ret c) as Hg by (intros z; rewrite Es; apply mem_get_head).
  destruct l as [|m' l].
  - cbn [mac_list]. rewrite Hg. cbn [obind]. destruct (Z.eqb_spec c 0); [done|].
    rewrite strchr_none by done. cbn [obind]. rewrite Hpick. cbn [obind fst snd]. rewrite Hw.
    cbn [obind concat app]. rewrite app_nil_r. do 3 f_equal.
  - rewrite mac_list_cons, <- app_assoc, <- app_comm_cons, Hg. cbn [obind].
    destruct (Z.eqb_spec c 0); [done|]. rewrite strchr_found by done. cbn [obind].
    rewrite ztake_app_length by done. rewrite Hpick. cbn [obind fst snd]. rewrite Hw. cbn [obind].
    replace (mac_str m ++ 44 :: mac_list (m' :: l) ++ 0 :: rest)
      with ((mac_str m ++ [44]) ++ mac_list (m' :: l) ++ 0 :: rest) by (by rewrite <- app_assoc).
    rewrite zdrop_app_length by (by rewrite zlen_app).
    rewrite app_assoc, IH; [|done|simpl in *; lia|rewrite zlen_app; lia|rewrite zlen_zdrop; lia].
    rewrite zdrop_zdrop by lia. cbn [concat]. rewrite <- !app_assoc. do 2 f_equal; [|lia].
    replace (6 * (1 + zlen (m' :: l))) with (6 + 6 * zlen (m' :: l)) by lia. done.
Qed.

Lemma mac_list_no_nul l : Forall is_mac l -> no_nul (mac_list l).
Proof.
  induction 1 as [|m l Hm Hl IH]; [constructor|]. pose proof (mac_str_chars m Hm) as Hc.
  assert (no_nul (mac_str m)) by (eapply Forall_impl; [exact Hc|]; by intros b []).
  destruct l as [|m' l]; [done|]. rewrite mac_list_cons. apply Forall_app. split; [done|].
  by constructor.
Qed.

Lemma mac_list_zlen l : Forall is_mac l -> l <> [] -> zlen (mac_list l) = 18 * zlen l - 1.
Proof.
  induction 1 as [|m l Hm Hl IH]; intros Hne; [done|].
  assert (zlen (mac_str m) = 17) as Hm17.
  { by destruct (is_mac_inv m Hm) as (b0 & b1 & b2 & b3 & b4 & b5 & -> & _). }
  destruct l as [|m' l]; [done|]. rewrite mac_list_cons, zlen_app, zlen_cons, IH by done.
  rewrite !zlen_cons. lia.
Qed.

(** [paired_stas=mac1,mac2,...] sends one SET_PAIRED_STATIONS frame whose
    payload is the six-byte addresses, in the order written. *)
Lemma set_paired_stas_payload stk sc ifidx l w :
  quiet w -> w_env w = [] -> stk_ok stk -> Forall is_mac l -> l <> [] -> zlen l <= 300 ->
  emits w (hgic_iwpriv_set_proc stk sc ifidx (text_req (str "paired_stas" ++ 61 :: mac_list l)))
        ifidx HGIC_CMD_SET_PAIRED_STATIONS (concat l).
Proof.
  intros Hq He Hs Hl Hne Hc. pose proof (mac_list_zlen l Hl Hne) as Hz.
  assert (1 <= zlen l) as H1 by (destruct l; [done|rewrite zlen_cons; pose proof (zlen_nonneg l0); lia]).
  unfold emits. rewrite set_proc_text; [|done|repeat constructor; done|
    change (zlen (str "paired_stas")) with 11; lia].
  change (snd <$> _) with (Some (hgic_iwpriv_set_paired_stas stk)). cbv iota.
  pose proof (strlen_app (mac_list l) [] (mac_list_no_nul l Hl)) as Hsl. rewrite Hz in Hsl.
  unfold hgic_iwpriv_set_paired_stas, nonempty. rewrite (bind_lift _ _ _ _ Hsl).
  destruct (Z.eqb_spec (18 * zlen l - 1) 0); [lia|].
  rewrite (bind_lift _ _ _ _ (eq_refl : deref (Some (mac_list l ++ [0])) = _)), (bind_lift _ _ _ _ Hsl).
  assert (exists blk, kzalloc (18 * zlen l - 1) w = Ret (Some blk, w) /\ zlen blk = 18 * zlen l - 1)
    as (blk & Ek & Hb).
  { unfold kzalloc, bind. destruct (kmalloc_quiet (18 * zlen l - 1) w Hq ltac:(lia)) as (b & Eb & Hb).
    unfold kmalloc in Eb. rewrite Eb. eexists. split; [reflexivity|].
    unfold zlen in *. by rewrite length_replicate. }
  rewrite (bind_Ret _ _ _ _ _ Ek).
  assert ((length l <= S (length (mac_list l ++ [0%Z])))%nat) as Hf.
  { rewrite length_app. unfold zlen in Hz. lia. }
  pose proof (paired_loop_spec stk l [] [] blk 0 _ Hs Hl Hne Hf eq_refl ltac:(lia)) as P.
  cbn [app] in P. rewrite (bind_lift _ _ _ _ P). cbn [fst snd].
  assert (zlen (concat l) = 6 * zlen l) as Hcl.
  { clear - Hl. induction Hl as [|m l [Hm _] _ IH]; [done|]. cbn [concat].
    rewrite zlen_app, zlen_cons, IH. unfold zlen at 1. rewrite Hm. lia. }
  pose proof (set_bytes_emits ifidx HGIC_CMD_SET_PAIRED_STATIONS (Some (concat l ++ zdrop (6 * zlen l) blk))
    (6 * zlen l) w Hq He ltac:(lia)) as X. cbn [payload input_ok] in X.
  rewrite ztake_app_length in X by done.
  unfold hgic_fwctrl_set_paired_stas. rewrite u32_id by lia.
  replace ((0 + zlen l) * 6) with (6 * zlen l) by lia. apply X.
  rewrite zlen_app. pose proof (zlen_nonneg (zdrop (6 * zlen l) blk)). lia.
Qed.

Lemma set_paired_stas_payload_witness :
  let l := [[1; 2; 3; 4; 5; 6]; [170; 187; 204; 221; 238; 255]] in
  emits (demo_world []) (hgic_iwpriv_set_proc [] true 2 (text_req (str "paired_stas" ++ 61 :: mac_list l)))
        2 HGIC_CMD_SET_PAIRED_STATIONS (concat l).
Proof.
  intros l. refine (set_paired_stas_payload [] true 2 l (demo_world []) (demo_quiet []) eq_refl _ _ _ _).
  - exists 0, [0; 0]. split; [reflexivity|]. split; [done|by left].
  - repeat constructor; vm_compute; done.
  - done.
  - vm_compute. done.
Defined.

(** An empty value underflows the length of a mask: [wkdata_mask=] makes the
    handler compute the length 0 - 1 in eight bits, which the clamp turns into
    16, and the command copies bytes beyond the text. *)
Lemma wkdata_mask_underflow stk sc ifidx w :
  quiet w ->
  hgic_iwpriv_set_proc stk sc ifidx (text_req (str "wkdata_mask" ++ 61 :: [])) w = Fault OutOfBounds /\
  (forall c rest, zlen rest = 16 -> w_env w = [] -> 0 <= c < 128 ->
     emits w (hgic_iwpriv_set_wkdata_mask sc ifidx (Some (c :: rest)) 17) ifidx
           HGIC_CMD_SET_WKUPDATA_MASK (put_unaligned_le16 c ++ rest)).
Proof.
  intros Hq. split.
  - rewrite set_proc_text; [|done|repeat constructor; done|vm_compute; done].
    change (snd <$> _) with (Some (hgic_iwpriv_set_wkdata_mask sc)). cbv iota.
    unfold hgic_iwpriv_set_wkdata_mask. by destruct sc.
  - intros c rest Hr He Hc. unfold hgic_iwpriv_set_wkdata_mask, emits.
    rewrite (bind_lift _ _ _ _ (eq_refl : deref (Some (c :: rest)) = _)).
    rewrite (bind_lift _ _ _ _ (mem_get_head c rest)).
    change (zdrop 1 (c :: rest)) with rest. unfold hgic_fwctrl_set_wkdata_mask.
    change (u8 (u8 (if 128 <? 17 then 128 else 17) - 1)) with 16. change (16 <? 16) with false. cbv iota.
    assert (char_of sc c = c) as -> by (unfold char_of; destruct sc; [unfold s8; rewrite Z.mod_small; lia|done]).
    erewrite bind_lift; [|by apply (mem_write_mid _ [] [0; 0] (replicate 126 0))].
    erewrite bind_lift; [|apply (mem_read_mid _ [] rest []); [by rewrite app_nil_r|done|done]].
    erewrite bind_lift; [|by apply (mem_write_mid _ (put_unaligned_le16 c) (replicate 16 0) (replicate 110 0))].
    pose proof (set_bytes_emits ifidx HGIC_CMD_SET_WKUPDATA_MASK
      (Some (put_unaligned_le16 c ++ rest ++ replicate 110 0)) 18 w Hq He ltac:(lia)) as X.
    cbn [payload input_ok] in X. rewrite app_assoc, ztake_app_length in X by (by rewrite zlen_app, Hr).
    rewrite <- app_assoc in X. apply X. rewrite !zlen_app, Hr. vm_compute. done.
Qed.

Lemma wkdata_mask_underflow_witness :
  hgic_iwpriv_set_proc [] true 1 (text_req (str "wkdata_mask" ++ 61 :: [])) (demo_world []) = Fault OutOfBounds.
Proof. exact (proj1 (wkdata_mask_underflow [] true 1 (demo_world []) (demo_quiet []))). Defined.

(** A sleep command nobody answers. *)
Lemma enter_sleep_timeout ifidx w1 sl ms :
  quiet w1 -> w_env w1 = [] -> exists s w',
  hgic_fwctrl_enter_sleep ifidx sl ms w1 = Ret (-1, w') /\
  skb_data s = cmd_frame ifidx HGIC_CMD_ENTER_SLEEP (fc_cookie (w_ctrl w1)) (put_unaligned_le16 sl ++ put_unaligned_le32 ms) /\
  fc_txq (w_ctrl w') = [s] /\ fc_bus (w_ctrl w') = fc_bus (w_ctrl w1) /\ w_calls w' = w_calls w1 ++ [CO_schedule].
Proof.
  intros Hq1 He1. destruct (do_cmd_timeout ifidx HGIC_CMD_ENTER_SLEEP (Some (put_unaligned_le16 sl ++ put_unaligned_le32 ms)) 6 None 0 w1)
    as (s & w' & E & Hs & Htx & _ & _ & Hb & Hc); [done|lia|vm_compute; done|done|].
  exists s, w'. split; [|done]. unfold hgic_fwctrl_enter_sleep, hgic_fwctrl_set_bytes. by rewrite (bind_Ret _ _ _ _ _ E).
Qed.

(** The sleep handler as a state machine: a request to sleep while the bus
    sleeps, or to wake while it is awake, succeeds without a command; a wake
    request clears the sleep flag, re-initialises the bus and sends ENTER_SLEEP
    with zeros; a sleep request sends ENTER_SLEEP with the two values, the first
    forced to 0xffff for firmware before 2.0; a command that fails turns into
    -EINVAL, the flag cleared when it was a sleep request. *)
Lemma enter_sleep_cases ifidx a b fw w :
  quiet w -> w_env w = [] -> Forall value_numeral [a; b] -> fc_fwinfo (w_ctrl w) = Some fw ->
  dec_val a < 2 ^ 32 ->
  let data := Some ((a ++ 44 :: b) ++ [0]) in
  let run := hgic_iwpriv_enter_sleep ifidx data (zlen (a ++ 44 :: b)) w in
  let asleep := test_bit HGIC_BUS_FLAGS_SLEEP (w_ctrl w) in
  (dec_val a <> 0 -> asleep = true -> run = Ret (0, w)) /\
  (dec_val a = 0 -> asleep = false -> run = Ret (0, w)) /\
  (dec_val a <> 0 -> asleep = false -> exists s w',
     run = Ret (- EINVAL, w') /\ test_bit HGIC_BUS_FLAGS_SLEEP (w_ctrl w') = false /\
     fc_txq (w_ctrl w') = [s] /\
     skb_data s = cmd_frame ifidx HGIC_CMD_ENTER_SLEEP (fc_cookie (w_ctrl w))
       (put_unaligned_le16 (if fi_version fw <? 0x02000000 then 0xffff else dec_val a)
        ++ put_unaligned_le32 (u32 (dec_val b)))) /\
  (dec_val a = 0 -> asleep = true -> exists s w',
     run = Ret (- EINVAL, w') /\ test_bit HGIC_BUS_FLAGS_SLEEP (w_ctrl w') = false /\
     (bus_has_reinit (fc_bus (w_ctrl w)) = true -> CO_reinit ∈ w_calls w') /\
     fc_txq (w_ctrl w') = [s] /\
     skb_data s = cmd_frame ifidx HGIC_CMD_ENTER_SLEEP (fc_cookie (w_ctrl w)) [0; 0; 0; 0; 0; 0]).
Proof.
  intros Hq He Hn Hfw Ha data run asleep.
  assert (hgic_pick_values u32 data 2 w = Ret (([u32 (dec_val a); u32 (dec_val b)], 2), w)) as P.
  { unfold data. assert ((a ++ 44 :: b) ++ [0] = numerals [a; b] 0 []) as -> by (cbn [numerals]; by rewrite <- app_assoc).
    rewrite (pick_values_run u32 [a; b] 2 w Hn) by done. done. }
  assert (u32 (dec_val a) = dec_val a) as Hua.
  { apply u32_id. apply Forall_cons in Hn as [[[Hd _] _] _]. pose proof (dec_val_nonneg a Hd). lia. }
  rewrite Hua in P.
  unfold run, hgic_iwpriv_enter_sleep, nonnull, data. fold data. rewrite (bind_Ret _ _ _ _ _ P).
  cbn [fst snd at_ lookup list_lookup]. change (at_ 0 [dec_val a; u32 (dec_val b)]) with (dec_val a).
  change (at_ 1 [dec_val a; u32 (dec_val b)]) with (u32 (dec_val b)).
  unfold gets, modify, ret, lift. unfold asleep.
  split; [|split; [|split]]; intros Hv Hsl.
  - destruct (Z.eqb_spec (dec_val a) 0); [done|]. cbn [negb]. unfold bind. by rewrite Hsl.
  - rewrite Hv. change (negb (0 =? 0)) with false. cbv iota. unfold bind. by rewrite Hsl.
  - destruct (Z.eqb_spec (dec_val a) 0); [done|]. cbn [negb]. unfold bind. rewrite Hsl. cbn [negb].
    rewrite Hfw. cbn [deref].
    destruct (enter_sleep_timeout ifidx w (if fi_version fw <? 33554432 then 65535 else dec_val a) (u32 (dec_val b)) Hq He)
      as (s & w' & -> & Hs & Htx & Hb & _).
    exists s. eexists. split; [reflexivity|]. split; [|done]. unfold test_bit.
    apply bool_decide_eq_false_2. cbn [on_ctrl w_ctrl clear_bit set_bus set_bus_flags bus_flags fc_bus].
    intros [Hne _]%list_elem_of_filter. done.
  - rewrite Hv. change (negb (0 =? 0)) with false. cbv iota. unfold bind. rewrite Hsl.
    set (w1 := on_ctrl (clear_bit HGIC_BUS_FLAGS_SLEEP) w).
    set (w2 := if bus_has_reinit (fc_bus (w_ctrl w1)) then log_call CO_reinit w1 else w1).
    assert (quiet w2 /\ w_env w2 = [] /\ w_ctrl w2 = w_ctrl w1 /\ fc_cookie (w_ctrl w2) = fc_cookie (w_ctrl w))
      as (Hq2 & He2 & Hc2 & Hk2).
    { unfold w2. destruct Hq; destruct (bus_has_reinit _);
        (split; [constructor; assumption|split; [assumption|split; reflexivity]]). }
    destruct (enter_sleep_timeout ifidx w2 0 0 Hq2 He2) as (s & w' & E & Hs & Htx & Hb & Hcalls).
    rewrite Hk2 in Hs. exists s, w'. split; [|split; [|split; [|done]]].
    + unfold w2 in E. destruct (bus_has_reinit (fc_bus (w_ctrl w1))); by rewrite E.
    + unfold test_bit. rewrite Hb, Hc2. apply bool_decide_eq_false_2.
      cbn [w1 on_ctrl w_ctrl clear_bit set_bus set_bus_flags bus_flags fc_bus].
      intros [Hne _]%list_elem_of_filter. done.
    + intros Hr. rewrite Hcalls. apply elem_of_app. left. unfold w2.
      change (fc_bus (w_ctrl w1)) with (set_bus_flags (bus_flags (fc_bus (w_ctrl w1))) (fc_bus (w_ctrl w))).
      cbn [set_bus_flags bus_has_reinit]. rewrite Hr. apply elem_of_app. right. by left.
Qed.

Definition demo_fw : hgic_fw_info := FwInfo 0x01060400 0 0x4002 0 [0; 0; 0; 0; 0; 0] 0 0.
Definition demo_fw_world : world := on_ctrl (set_fwinfo (Some demo_fw)) (demo_world []).

Lemma enter_sleep_cases_witness : exists s w',
  hgic_iwpriv_enter_sleep 1 (Some (str "1,5000" ++ [0])) 6 demo_fw_world = Ret (- EINVAL, w') /\
  test_bit HGIC_BUS_FLAGS_SLEEP (w_ctrl w') = false /\ fc_txq (w_ctrl w') = [s] /\
  skb_data s = cmd_frame 1 HGIC_CMD_ENTER_SLEEP 0 (put_unaligned_le16 0xffff ++ put_unaligned_le32 5000).
Proof.
  refine (proj1 (proj2 (proj2 (enter_sleep_cases 1 (str "1") (str "5000") demo_fw demo_fw_world _ eq_refl _ eq_refl _))) _ eq_refl).
  - split; try done.
  - repeat constructor; vm_compute; done.
  - vm_compute. done.
  - vm_compute. done.
Defined.
