(* ===== verification/IwprivGet.v ===== *)
(** * The text command interface, its get half (utils/iwpriv.c)

    A user writes [name] or [name=argument] into the buffer of an ioctl;
    [hgic_iwpriv_get_proc] looks the name up in the table of getters, and the
    handler queries the firmware, formats what it answers and copies the text
    back over the request.  The request is part of the state of a handler: it
    is returned with the user memory and the length the handler left. *)
From Stdlib Require Import String.
From S2P Require Import Prelude Bytes CString Proto Skb Utils Format FwCtrl FwCmds Iwpriv.

(** The fields as the structure in memory holds them; [resv] is never written
    and the device is allocated cleared. *)
Definition encode_fw_info (i : hgic_fw_info) : list Z :=
  put_unaligned_le32 (fi_version i) ++ put_unaligned_le32 (fi_svn_version i) ++
  put_unaligned_le16 (fi_chip_id i) ++ put_unaligned_le16 (fi_cpu_id i) ++
  resize 6 0 (fi_mac i) ++ [0; 0] ++ put_unaligned_le32 (fi_app_version i) ++ put_unaligned_le32 (fi_smt_dat i).

Section Getters.
(** Uninitialised stack bytes, whether [char] is signed, whether the pointer of
    the request is a user pointer, and how many bytes the copy to it fails to
    store. *)
Context (stk : list Z) (signed_char : bool) (access_ok : Z -> bool) (unwritten : Z).

Definition stack (n : nat) : list Z := resize n 0 stk.

Definition hgic_copyto_iwreq (rq : iwreq) (buf : list Z) (len : Z) : outcome iwreq :=
  let len := if len <=? iw_length rq then len else iw_length rq in
  if access_ok len then
    if 0 <? len then
      leto bs := mem_read buf 0 len in
      leto user := mem_write (iw_user rq) 0 (ztake (len - unwritten) bs) in
      Ret (Iwreq (if unwritten =? 0 then u16 len else 0) user (iw_uncopied rq))
    else Ret (Iwreq 0 (iw_user rq) (iw_uncopied rq))
  else
    if 0 <? len then
      leto bs := mem_read buf 0 len in
      leto user := mem_write (iw_user rq) 0 bs in
      Ret (Iwreq (u16 len) user (iw_uncopied rq))
    else Ret (Iwreq 0 (iw_user rq) (iw_uncopied rq)).

(** [hgic_copyto_iwreq(wrqin, str, strlen(str)); return (0);] *)
Definition answer (rq : iwreq) (buf : list Z) (len : Z) : M world (Z * iwreq) :=
  let! rq := lift (hgic_copyto_iwreq rq buf len) in ret (0, rq).
Definition answer_str (rq : iwreq) (str : list Z) : M world (Z * iwreq) :=
  let! n := lift (strlen str) in answer rq str n.
(** The local [char str[size]], a number printed into it, the answer. *)
Definition answer_int (rq : iwreq) (size : nat) (v : Z) : M world (Z * iwreq) :=
  let! r := lift (sprintf_at (stack size) 0 (str "%d") [AInt v]) in answer_str rq (snd r).

(** ** Lists *)
Definition encrypt_text (encrypt : Z) : list Z :=
  (if encrypt =? 0 then str "NONE" else if encrypt =? 1 then str "WPA" else str "WPA2") ++ [0].

Definition sizeof_hgic_bss_info : Z := 42.
Definition sizeof_hgic_bss_info1 : Z := 48.

Definition bss_title : list Z :=
  crlf ++ str "BSSID            " ++ tab ++ str "SSID      " ++ tab ++ str "Encryption" ++ tab ++
  str "Frequence" ++ tab ++ str "Signal".

(** One line of the list: the structure at [p]. *)
Definition bss_line (p : list Z) (buf : list Z) (len : Z) : outcome (Z * list Z) :=
  leto encrypt := mem_get p 38 in
  leto signal := mem_get p 39 in
  leto freq := get16_at p 40 in
  sprintf_at buf len
    (str "%pM" ++ tab ++ str "%s" ++ tab ++ str " %10s" ++ tab ++ str "  %10d" ++ tab ++ str "%d" ++ lf)
    [AMem p; AMem (zdrop 6 p); AMem (encrypt_text encrypt); AInt freq; AInt (s8 signal)].
Definition bss1_line (p : list Z) (buf : list Z) (len : Z) : outcome (Z * list Z) :=
  leto b := mem_get p 38 in
  leto signal := mem_get p 39 in
  leto freq := get16_at p 40 in
  leto bss_bw := mem_get p 46 in
  sprintf_at buf len
    (str "%pM" ++ tab ++ str "%s" ++ tab ++ str " %10s" ++ tab ++ str "  %10d" ++ tab ++ str "%10d" ++ tab ++
     str "%10s" ++ tab ++ str "%d" ++ lf)
    [AMem p; AMem (zdrop 6 p); AMem (encrypt_text (Z.land b 63)); AInt freq; AInt (s8 signal);
     AMem (zdrop 42 p); AInt bss_bw].

(** [count] structures of [size] bytes, the next one at [p]. *)
Fixpoint bss_loop (line : list Z -> list Z -> Z -> outcome (Z * list Z)) (size : Z) (count : nat)
    (p : list Z) (buf : list Z) (len : Z) : outcome (Z * list Z) :=
  match count with
  | O => Ret (len, buf)
  | S count =>
      leto r := line p buf len in
      bss_loop line size count (zdrop size p) (snd r) (len + fst r)
  end.

Definition hgic_iwpriv_get_scan_list (ifidx : Z) (rq : iwreq) : M world (Z * iwreq) :=
  let! buf := kzalloc 1024 in
  let! print_buf := kzalloc 4096 in
  match buf, print_buf with
  | Some buf, Some print_buf =>
      let! r := hgic_fwctrl_get_scan_list ifidx buf 1024 in
      if 0 <? fst r then
        let! buf := lift (deref (snd r)) in
        let! b := lift (mem_get buf 38) in
        let! r := lift (
          if negb (Z.shiftr b 6 =? 1) then
            leto t := sprintf_at print_buf 0 (bss_title ++ lf) [] in
            bss_loop bss_line sizeof_hgic_bss_info (Z.to_nat (fst r / sizeof_hgic_bss_info)) buf (snd t) (fst t)
          else
            leto t := sprintf_at print_buf 0 (bss_title ++ tab ++ str "Country_region" ++ tab ++ str "BSS_BW" ++ lf) [] in
            bss_loop bss1_line sizeof_hgic_bss_info1 (Z.to_nat (fst r / sizeof_hgic_bss_info1)) buf (snd t) (fst t)) in
        answer (Iwreq (u16 (fst r)) (iw_user rq) (iw_uncopied rq)) (snd r) (fst r)
      else answer rq print_buf 2
  | _, _ => ret (- ENOMEM, rq)
  end.

Definition sta_fmt : list Z :=
  str "aid:%d, %pM, ps:%d, rssi:%d, evm:%d, tx_snr:%d, rx_snr:%d" ++ crlf.
(** The text of the structure at [p]. *)
Definition sta_line (p : list Z) (buf : list Z) (len : Z) : outcome (Z * list Z) :=
  leto aid := mem_get p 0 in
  leto ps := mem_get p 1 in
  leto rssi := mem_get p 8 in
  leto evm := mem_get p 9 in
  leto tx_snr := mem_get p 10 in
  leto rx_snr := mem_get p 11 in
  sprintf_at buf len sta_fmt
    [AInt aid; AMem (zdrop 2 p); AInt (Z.land ps 1); AInt (s8 rssi); AInt (s8 evm); AInt (s8 tx_snr); AInt (s8 rx_snr)].

(** [while (count-- > 0 && (len + 80) < 8192)], over structures of [size] bytes. *)
Fixpoint list_loop (line : list Z -> list Z -> Z -> outcome (Z * list Z)) (size : Z) (count : nat)
    (p : list Z) (buf : list Z) (len : Z) : outcome (Z * list Z) :=
  match count with
  | O => Ret (len, buf)
  | S count =>
      if len + 80 <? 8192 then
        leto r := line p buf len in
        list_loop line size count (zdrop size p) (snd r) (len + fst r)
      else Ret (len, buf)
  end.

(** [ptr = strchr(buf, '='); if (ptr) format = simple_strtol(ptr + 1, 0, 10);] *)
Definition pick_format (buf : list Z) : outcome Z :=
  leto p := strchr buf 61 in
  match p with
  | Some k => leto v := simple_strtol (zdrop (k + 1) buf) 10 in Ret (s32 v)
  | None => Ret 0
  end.

(** The two list handlers: the binary form, or a title and a line for each. *)
Definition answer_list (rq : iwreq) (format count size : Z) (title : list Z)
    (line : list Z -> list Z -> Z -> outcome (Z * list Z)) (buf print_buf : list Z) : M world (Z * iwreq) :=
  if format =? 1 then answer rq buf (s32 (count * size)) else
  let! r := lift (
    if 0 <? count then
      leto t := sprintf_at print_buf 0 title [AInt count] in
      list_loop line size (Z.to_nat count) buf (snd t) (fst t)
    else Ret (0, print_buf)) in
  answer rq (snd r) (fst r).

Definition hgic_iwpriv_get_sta_list (ifidx : Z) (rq : iwreq) : M world (Z * iwreq) :=
  let! buf := kzalloc 4096 in
  let! print_buf := kzalloc 8192 in
  match buf, print_buf with
  | Some buf, Some print_buf =>
      let! c := lift (hgic_copyfrom_iwreq rq 64) in
      let! buf := lift (mem_write buf 0 (snd c)) in
      let! format := lift (pick_format buf) in
      let! r := hgic_fwctrl_get_sta_list ifidx buf (4096 / sizeof_hgic_sta_info) in
      let! buf := lift (deref (snd r)) in
      answer_list rq format (fst r) sizeof_hgic_sta_info (str "%d sta:" ++ crlf) sta_line buf print_buf
  | _, _ => ret (- ENOMEM, rq)
  end.

(** ** Texts the firmware sends as they are *)
Definition hgic_iwpriv_get_mode (ifidx : Z) (rq : iwreq) : M world (Z * iwreq) :=
  let! r := hgic_fwctrl_get_mode ifidx (stack 13) 12 in
  let! mode := lift (deref (snd r)) in answer rq mode (fst r).

Definition hgic_iwpriv_get_ssid (ifidx : Z) (rq : iwreq) : M world (Z * iwreq) :=
  let! r := hgic_fwctrl_get_ssid ifidx (stack 33) 32 in
  let! ssid := lift (deref (snd r)) in answer rq ssid (fst r).

Definition hgic_iwpriv_get_bssid (ifidx : Z) (rq : iwreq) : M world (Z * iwreq) :=
  let! r := hgic_fwctrl_get_bssid ifidx (replicate 7 0) 7 in
  let! buf := (
    if 0 <? fst r then
      let! bssid := lift (deref (snd r)) in
      let! b6 := lift (mem_get bssid 6) in
      let! t := lift (sprintf_at (replicate 24 0) 0 (str "%pM,%d") [AMem bssid; AInt (char_of signed_char b6)]) in
      ret (snd t)
    else ret (replicate 24 0)) in
  answer_str rq buf.

Definition hgic_iwpriv_get_wpa_psk (ifidx : Z) (rq : iwreq) : M world (Z * iwreq) :=
  let! buf := kzalloc 80 in
  match buf with
  | None => ret (- ENOMEM, rq)
  | Some buf =>
      let! r := hgic_fwctrl_get_wpapsk ifidx buf 64 in
      let! buf := lift (deref (snd r)) in answer rq buf (fst r)
  end.

(** ** Numbers *)
Definition hgic_iwpriv_get_txpower (ifidx : Z) (rq : iwreq) : M world (Z * iwreq) :=
  let! txpower := hgic_fwctrl_get_txpower ifidx in answer_int rq 4 txpower.

Definition hgic_iwpriv_get_bss_bw (ifidx : Z) (rq : iwreq) : M world (Z * iwreq) :=
  let! bss_bw := hgic_fwctrl_get_bss_bw ifidx in answer_int rq 4 bss_bw.

Definition hgic_iwpriv_get_aggcnt (ifidx : Z) (rq : iwreq) : M world (Z * iwreq) :=
  let! r := hgic_fwctrl_get_agg_cnt ifidx (replicate 2 0) 2 in
  let! agg := lift (deref (snd r)) in
  let! t := (
    if fst r =? 0xff then
      let! tx := lift (mem_get agg 0) in
      let! rx := lift (mem_get agg 1) in
      lift (sprintf_at (stack 32) 0 (str "tx:%d,rx:%d") [AInt tx; AInt rx])
    else lift (sprintf_at (stack 32) 0 (str "tx:%d,rx:0") [AInt (fst r)])) in
  answer_str rq (snd t).

(** The local array has 16 entries, the loop runs to the count returned. *)
Fixpoint chan_loop (count : nat) (p : list Z) (buf : list Z) (len : Z) : outcome (Z * list Z) :=
  match count with
  | O => Ret (len, buf)
  | S count =>
      leto chan := get16_at p 0 in
      leto r := sprintf_at buf len (str "%d,") [AInt chan] in
      chan_loop count (zdrop 2 p) (snd r) (len + fst r)
  end.
Definition hgic_iwpriv_get_chan_list (ifidx : Z) (rq : iwreq) : M world (Z * iwreq) :=
  let! buf := kzalloc 128 in
  match buf with
  | None => ret (0, rq)
  | Some buf =>
      let! r := hgic_fwctrl_get_chan_list ifidx (stack 32) 16 in
      let! chan_list := lift (deref (snd r)) in
      let! t := lift (chan_loop (Z.to_nat (fst r)) chan_list buf 0) in
      answer rq (snd t) (fst t - 1)
  end.

Definition hgic_iwpriv_get_freq_range (ifidx : Z) (rq : iwreq) : M world (Z * iwreq) :=
  let! r := hgic_fwctrl_get_freq_range stk ifidx in
  let! buf := lift (
    match r with
    | (true, Some (v0, v1, v2)) =>
        leto t := sprintf_at (replicate 32 0) 0 (str "%d,%d,%d") [AInt v0; AInt v1; AInt v2] in Ret (snd t)
    | _ => Ret (replicate 32 0)
    end) in
  answer_str rq buf.

Definition hgic_iwpriv_get_key_mgmt (ifidx : Z) (rq : iwreq) : M world (Z * iwreq) :=
  let! r := hgic_fwctrl_get_key_mgmt ifidx (stack 32) 32 in
  let! buf := lift (deref (snd r)) in answer rq buf (fst r).

Definition hgic_iwpriv_get_battery_level (ifidx : Z) (rq : iwreq) : M world (Z * iwreq) :=
  let! val := hgic_fwctrl_get_battery_level ifidx in answer_int rq 4 val.

Definition hgic_iwpriv_get_module_type (ifidx : Z) (rq : iwreq) : M world (Z * iwreq) :=
  let! v := hgic_fwctrl_get_module_type ifidx in
  let type := u16 v in
  if negb (type =? 0) then answer_int rq 12 type else ret (0, rq).

Definition hgic_iwpriv_get_disassoc_reason (ifidx : Z) (rq : iwreq) : M world (Z * iwreq) :=
  let! reason := hgic_fwctrl_get_disassoc_reason ifidx in answer_int rq 12 reason.

Definition hgic_iwpriv_get_ant_sel (ifidx : Z) (rq : iwreq) : M world (Z * iwreq) :=
  let! ant := hgic_fwctrl_get_ant_sel ifidx in answer_int rq 12 ant.

Definition hgic_iwpriv_get_wkreason (ifidx : Z) (rq : iwreq) : M world (Z * iwreq) :=
  let! reason := hgic_fwctrl_get_wkreason ifidx in answer_int rq 12 reason.

Definition hgic_iwpriv_get_wkdata_buff (ifidx : Z) (rq : iwreq) : M world (Z * iwreq) :=
  let! buff := kmalloc 4096 in
  match buff with
  | None => ret (0, rq)
  | Some buff =>
      let! r := hgic_fwctrl_get_wkdata_buff ifidx buff 4096 in
      let! buff := lift (deref (snd r)) in answer rq buff (fst r)
  end.

Definition hgic_iwpriv_get_temperature (ifidx : Z) (rq : iwreq) : M world (Z * iwreq) :=
  let! temp := hgic_fwctrl_get_temperature in answer_int rq 12 temp.

Definition hgic_iwpriv_get_conn_state (ifidx : Z) (rq : iwreq) : M world (Z * iwreq) :=
  let! temp := hgic_fwctrl_get_conn_state ifidx in answer_int rq 12 temp.

Definition hgic_iwpriv_get_sta_count (ifidx : Z) (rq : iwreq) : M world (Z * iwreq) :=
  let! temp := hgic_fwctrl_get_sta_count ifidx in answer_int rq 12 temp.

Definition hgic_iwpriv_get_txq_param (ifidx : Z) (rq : iwreq) : M world (Z * iwreq) :=
  let! r := hgic_fwctrl_get_txq_param ifidx (stack 32) in
  if fst r =? 4 * sizeof_hgic_txq_param then
    let! param := lift (deref (snd r)) in answer rq param (4 * sizeof_hgic_txq_param)
  else ret (fst r, rq).

Definition hgic_iwpriv_get_nav (ifidx : Z) (rq : iwreq) : M world (Z * iwreq) :=
  let! temp := hgic_fwctrl_get_nav ifidx in answer_int rq 12 temp.

Definition hgic_iwpriv_get_rtc (ifidx : Z) (rq : iwreq) : M world (Z * iwreq) :=
  let! r := hgic_fwctrl_get_rtc ifidx (replicate 4 0) in
  let! b := lift (deref (snd r)) in
  let! rtc := lift (get32_at b 0) in
  let! t := lift (sprintf_at (stack 12) 0 (str "%u") [AInt rtc]) in answer_str rq (snd t).

(** The text is searched in 64 bytes that need not hold a terminator. *)
Definition hgic_iwpriv_get_bgrssi (ifidx : Z) (rq : iwreq) : M world (Z * iwreq) :=
  let! c := lift (hgic_copyfrom_iwreq rq 64) in
  let! ptr := lift (strchr (snd c) 61) in
  match ptr with
  | Some k =>
      if negb (fst c =? 0) then ret (- EINVAL, rq) else
      let! chan := lift (simple_strtoul (zdrop (k + 1) (snd c)) 10) in
      let! r := hgic_fwctrl_get_bgrssi ifidx (s32 chan) [0; 0; 0] in
      if fst r =? 3 then
        let! resp := lift (deref (snd r)) in
        let! r0 := lift (mem_get resp 0) in
        let! r1 := lift (mem_get resp 1) in
        let! r2 := lift (mem_get resp 2) in
        let! t := lift (sprintf_at (snd c) 0 (str "%d,%d,%d") [AInt (s8 r0); AInt (s8 r1); AInt (s8 r2)]) in
        answer_str rq (snd t)
      else ret (0, rq)
  | None => ret (- EINVAL, rq)
  end.

Definition hgic_iwpriv_get_center_freq (ifidx : Z) (rq : iwreq) : M world (Z * iwreq) :=
  let! temp := hgic_fwctrl_get_center_freq ifidx in answer_int rq 12 temp.

Definition hgic_iwpriv_get_acs_result (ifidx : Z) (rq : iwreq) : M world (Z * iwreq) :=
  let! result := kzalloc (32 * sizeof_hgic_acs_result) in
  match result with
  | None => ret (0, rq)
  | Some result =>
      let! r := hgic_fwctrl_get_acs_result ifidx result 32 in
      let! result := lift (deref (snd r)) in answer rq result (fst r)
  end.

Definition hgic_iwpriv_get_reason_code (ifidx : Z) (rq : iwreq) : M world (Z * iwreq) :=
  let! temp := hgic_fwctrl_get_reason_code ifidx in answer_int rq 12 temp.

Definition hgic_iwpriv_get_status_code (ifidx : Z) (rq : iwreq) : M world (Z * iwreq) :=
  let! temp := hgic_fwctrl_get_status_code ifidx in answer_int rq 12 temp.

Definition hgic_iwpriv_get_dhcpc_result (ifidx : Z) (rq : iwreq) : M world (Z * iwreq) :=
  let! r := hgic_fwctrl_get_dhcpc_result ifidx (stack 24) 24 in
  if fst r =? 24 then
    let! result := lift (deref (snd r)) in answer rq result 24
  else ret (fst r, rq).

Definition hgic_iwpriv_get_xosc (ifidx : Z) (rq : iwreq) : M world (Z * iwreq) :=
  let! temp := hgic_fwctrl_get_xosc stk ifidx in answer_int rq 12 temp.

Definition hgic_iwpriv_get_freq_offset (ifidx : Z) (rq : iwreq) : M world (Z * iwreq) :=
  let! c := lift (hgic_copyfrom_iwreq rq 64) in
  let! ptr := lift (strchr (snd c) 61) in
  match ptr with
  | Some k =>
      if negb (fst c =? 0) then ret (- EINVAL, rq) else
      let! m := lift (hgic_pick_macaddr stk (Some (zdrop (k + 1) (snd c)))) in
      let! v := hgic_fwctrl_get_freq_offset stk ifidx (snd m) in
      let! t := lift (sprintf_at (snd c) 0 (str "%d") [AInt v]) in answer_str rq (snd t)
  | None => ret (- EINVAL, rq)
  end.

(** Before the firmware runs the pointer is NULL: there is nothing behind it. *)
Definition hgic_iwpriv_get_fwinfo (ifidx : Z) (rq : iwreq) : M world (Z * iwreq) :=
  let! info := gets (fun w => fc_fwinfo (w_ctrl w)) in
  answer rq (match info with Some i => encode_fw_info i | None => [] end) sizeof_hgic_fw_info.

Definition hgic_iwpriv_get_sta_info (ifidx : Z) (rq : iwreq) : M world (Z * iwreq) :=
  let! print_buf := kzalloc 512 in
  match print_buf with
  | None => ret (- ENOMEM, rq)
  | Some print_buf =>
      let! c := lift (hgic_copyfrom_iwreq rq 64) in
      let! ptr := lift (strchr (snd c) 61) in
      match ptr with
      | Some k =>
          if negb (fst c =? 0) then ret (- EINVAL, rq) else
          let arg := zdrop (k + 1) (snd c) in
          let! m := lift (hgic_pick_macaddr stk (Some arg)) in
          let! p := lift (strchr (zdrop k (snd c)) 44) in
          let! format := lift (match p with
                               | Some j => leto v := simple_strtol (zdrop (k + j + 1) (snd c)) 10 in Ret (u8 v)
                               | None => Ret 0
                               end) in
          let! r := hgic_fwctrl_get_sta_info ifidx (snd m) (stack 12) in
          let! stainfo := lift (deref (snd r)) in
          if format =? 1 then answer rq stainfo (fst r) else
          let! t := lift (if 0 <? fst r then sta_line stainfo print_buf 0 else Ret (fst r, print_buf)) in
          answer rq (snd t) (fst t)
      | None => ret (- EINVAL, rq)
      end
  end.

Definition hgic_iwpriv_get_signal (ifidx : Z) (rq : iwreq) : M world (Z * iwreq) :=
  let! signal := hgic_fwctrl_get_signal ifidx in answer_int rq 12 (signal - 0x1000).

Definition hgic_iwpriv_get_tx_bitrate (ifidx : Z) (rq : iwreq) : M world (Z * iwreq) :=
  let! temp := hgic_fwctrl_get_tx_bitrate stk ifidx in answer_int rq 12 temp.

(** The argument is searched as above; a missing one selects the text. *)
Definition hgic_iwpriv_get_link_quality (ifidx : Z) (rq : iwreq) : M world (Z * iwreq) :=
  let! print_buf := kzalloc 512 in
  match print_buf with
  | None => ret (- ENOMEM, rq)
  | Some print_buf =>
      let! c := lift (hgic_copyfrom_iwreq rq 64) in
      let! f := lift (pick_format (snd c)) in
      let! r := hgic_fwctrl_get_link_quality ifidx (replicate 44 0) in
      let! info := lift (deref (snd r)) in
      if u8 f =? 1 then answer rq info sizeof_hgic_link_quality else
      let! bgrssi := lift (mem_get info 0) in
      let! rssi := lift (mem_get info 1) in
      let! evm := lift (mem_get info 2) in
      let! per := lift (mem_get info 3) in
      let! obss_stas := lift (get32_at info 4) in
      let! bss_stas := lift (get32_at info 8) in
      let! c0 := lift (get32_at info 12) in
      let! c1 := lift (get32_at info 16) in
      let! c2 := lift (get32_at info 20) in
      let! c3 := lift (get32_at info 24) in
      let! c4 := lift (get32_at info 28) in
      let! c5 := lift (get32_at info 32) in
      let! c6 := lift (get32_at info 36) in
      let! c7 := lift (get32_at info 40) in
      let! t := lift (sprintf_at print_buf 0
        (str "Link Quality: bgrssi=%d, rssi=%d, evm=%d, per=%d, obss_sta=%d, bss_stas=%d, cca=[%d,%d,%d,%d,%d,%d,%d,%d]" ++ crlf)
        [AInt (s8 bgrssi); AInt (s8 rssi); AInt (s8 evm); AInt (s8 per); AInt obss_stas; AInt bss_stas;
         AInt c0; AInt c1; AInt c2; AInt c3; AInt c4; AInt c5; AInt c6; AInt c7]) in
      answer rq (snd t) (fst t)
  end.

Definition rmesh_line (p : list Z) (buf : list Z) (len : Z) : outcome (Z * list Z) :=
  leto aid := mem_get p 0 in
  sprintf_at buf len (str "aid:%d, %pM" ++ crlf) [AInt aid; AMem (zdrop 1 p)].

(** The text buffer has 4096 bytes, the loop stops at 8192. *)
Definition hgic_iwpriv_get_rmesh_device (ifidx : Z) (rq : iwreq) : M world (Z * iwreq) :=
  let! buf := kzalloc 4096 in
  let! print_buf := kzalloc 4096 in
  match buf, print_buf with
  | Some buf, Some print_buf =>
      let! c := lift (hgic_copyfrom_iwreq rq 64) in
      let! buf := lift (mem_write buf 0 (snd c)) in
      let! format := lift (pick_format buf) in
      let! r := hgic_fwctrl_get_rmesh_device ifidx buf (4096 / sizeof_hgic_rmesh_device) in
      let! buf := lift (deref (snd r)) in
      answer_list rq format (fst r) sizeof_hgic_rmesh_device (str "%d dev:" ++ crlf) rmesh_line buf print_buf
  | _, _ => ret (- ENOMEM, rq)
  end.

(** ** The table and the entry points *)
Definition hgpriv_gets : list (string * (Z -> iwreq -> M world (Z * iwreq))) :=
  [ ("mode"%string, hgic_iwpriv_get_mode);
    ("sta_list"%string, hgic_iwpriv_get_sta_list);
    ("scan_list"%string, hgic_iwpriv_get_scan_list);
    ("ssid"%string, hgic_iwpriv_get_ssid);
    ("bssid"%string, hgic_iwpriv_get_bssid);
    ("wpa_psk"%string, hgic_iwpriv_get_wpa_psk);
    ("txpower"%string, hgic_iwpriv_get_txpower);
    ("agg_cnt"%string, hgic_iwpriv_get_aggcnt);
    ("bss_bw"%string, hgic_iwpriv_get_bss_bw);
    ("chan_list"%string, hgic_iwpriv_get_chan_list);
    ("freq_range"%string, hgic_iwpriv_get_freq_range);
    ("key_mgmt"%string, hgic_iwpriv_get_key_mgmt);
    ("battery_level"%string, hgic_iwpriv_get_battery_level);
    ("module_type"%string, hgic_iwpriv_get_module_type);
    ("disassoc_reason"%string, hgic_iwpriv_get_disassoc_reason);
    ("ant_sel"%string, hgic_iwpriv_get_ant_sel);
    ("wkreason"%string, hgic_iwpriv_get_wkreason);
    ("wkdata_buff"%string, hgic_iwpriv_get_wkdata_buff);
    ("temperature"%string, hgic_iwpriv_get_temperature);
    ("conn_state"%string, hgic_iwpriv_get_conn_state);
    ("sta_count"%string, hgic_iwpriv_get_sta_count);
    ("txq_param"%string, hgic_iwpriv_get_txq_param);
    ("nav"%string, hgic_iwpriv_get_nav);
    ("rtc"%string, hgic_iwpriv_get_rtc);
    ("bgrssi"%string, hgic_iwpriv_get_bgrssi);
    ("center_freq"%string, hgic_iwpriv_get_center_freq);
    ("acs_result"%string, hgic_iwpriv_get_acs_result);
    ("reason_code"%string, hgic_iwpriv_get_reason_code);
    ("status_code"%string, hgic_iwpriv_get_status_code);
    ("dhcpc_result"%string, hgic_iwpriv_get_dhcpc_result);
    ("xosc"%string, hgic_iwpriv_get_xosc);
    ("freq_offset"%string, hgic_iwpriv_get_freq_offset);
    ("fwinfo"%string, hgic_iwpriv_get_fwinfo);
    ("stainfo"%string, hgic_iwpriv_get_sta_info);
    ("signal"%string, hgic_iwpriv_get_signal);
    ("tx_bitrate"%string, hgic_iwpriv_get_tx_bitrate);
    ("link_quality"%string, hgic_iwpriv_get_link_quality);
    ("rmesh_device"%string, hgic_iwpriv_get_rmesh_device) ].

Definition hgic_iwpriv_get_proc (ifidx : Z) (rq : iwreq) : M world (Z * iwreq) :=
  let! c := lift (hgic_copyfrom_iwreq rq 128) in
  if fst c =? 0 then
    let field := snd c ++ [0; 0] in
    let! ptr := lift (strchr field 61) in
    let field := match ptr with Some k => ztake k field ++ 0 :: zdrop (k + 1) field | None => field end in
    let! get := lift (lookup_set field hgpriv_gets) in
    match get with
    | Some get => get ifidx rq
    | None => ret (- ENOTSUPP, rq)
    end
  else ret (- ENOTSUPP, rq).

(** [len += snprintf(buf + len, 4096 - len, "  %s\r\n", name)], for each name. *)
Fixpoint dump_names (names : list string) (buf : list Z) (len : Z) : outcome (Z * list Z) :=
  match names with
  | [] => Ret (len, buf)
  | n :: names =>
      leto r := snprintf_at buf len 4096 (str "  %s" ++ crlf) [AMem (str n ++ [0])] in
      dump_names names (snd r) (len + fst r)
  end.
Definition hgic_iwpriv_dump (rq : iwreq) : M world (Z * iwreq) :=
  let! buf := kmalloc 4096 in
  match buf with
  | None => ret (0, rq)
  | Some buf =>
      let! t := lift (
        leto a := snprintf_at buf 0 4096 (crlf ++ str "set:" ++ crlf) [] in
        leto b := dump_names (map fst (hgpriv_sets stk signed_char)) (snd a) (fst a) in
        leto c := snprintf_at (snd b) (fst b) 4096 (str "get:" ++ crlf) [] in
        dump_names (map fst hgpriv_gets) (snd c) (fst b + fst c)) in
      let! rq := lift (hgic_copyto_iwreq rq (snd t) (fst t)) in ret (fst t, rq)
  end.
End Getters.

(** ** Lemmas *)
(** The request with [t] copied back: cut to the length the user gave, behind
    it the user's memory as it was. *)
Definition put_answer (rq : iwreq) (t : list Z) : iwreq :=
  let n := Z.min (zlen t) (iw_length rq) in
  Iwreq n (ztake n t ++ zdrop n (iw_user rq)) (iw_uncopied rq).

(** A request whose length does not exceed the memory behind its pointer. *)
Record request_ok (rq : iwreq) : Prop := {
  rq_length : 0 <= iw_length rq < 65536;
  rq_room : iw_length rq <= zlen (iw_user rq);
  rq_copied : iw_uncopied rq = 0 }.

(** What the request says: the name up to the separator, a terminator or the
    end of what the user gave. *)
Definition says (rq : iwreq) (name : list Z) : Prop :=
  clean name /\ zlen name <= 128 /\
  exists rest, iw_user rq = name ++ rest /\
    (iw_length rq = zlen name \/ exists c rest', rest = c :: rest' /\ (c = 0 \/ c = 61) /\ zlen name < iw_length rq).

(** A request in a user buffer of [n] bytes. *)
Definition query (n : Z) (s : string) : iwreq := Iwreq n (resize (Z.to_nat n) 0 (str s)) 0.

Lemma query_ok n s : 0 <= n < 65536 -> request_ok (query n s).
Proof. intros Hn. split; cbn [iw_length iw_user iw_uncopied query]; [done| |done]. rewrite zlen_resize; lia. Qed.

Lemma query_says n s :
  forallb (fun b => negb (b =? 0) && negb (b =? 61)) (str s) = true -> zlen (str s) <= 128 -> zlen (str s) < n -> says (query n s) (str s).
Proof.
  intros Hc Hl Hn. split; [|split; [done|]].
  - apply Forall_forall. intros b Hb%list_elem_of_In. rewrite forallb_forall in Hc. specialize (Hc b Hb). lia.
  - exists (replicate (Z.to_nat n - length (str s)) 0). cbn [query iw_user iw_length]. unfold zlen in Hn.
    rewrite resize_ge by (unfold zlen; lia). split; [done|]. right.
    destruct (Z.to_nat n - length (str s))%nat as [|k] eqn:E; [unfold zlen in *; lia|].
    exists 0, (replicate k 0). by auto.
Qed.

Section Lemmas.
Context (stk : list Z) (signed_char : bool) (access_ok : Z -> bool).

Lemma copyto_ok unwritten rq t rest :
  unwritten = 0 -> request_ok rq ->
  hgic_copyto_iwreq access_ok unwritten rq (t ++ rest) (zlen t) = Ret (put_answer rq t).
Proof.
  intros -> [Hl Hr _]. unfold hgic_copyto_iwreq, put_answer. cbv zeta. pose proof (zlen_nonneg t).
  replace (if zlen t <=? iw_length rq then zlen t else iw_length rq) with (Z.min (zlen t) (iw_length rq))
    by (destruct (Z.leb_spec (zlen t) (iw_length rq)); lia).
  set (n := Z.min (zlen t) (iw_length rq)). assert (0 <= n <= zlen t /\ n <= iw_length rq) as Hn by lia.
  destruct (Z.ltb_spec 0 n); cycle 1.
  { replace n with 0 by lia. rewrite ztake_0, zdrop_0. by destruct (access_ok 0). }
  rewrite (mem_read_mid _ [] (ztake n t) (zdrop n t ++ rest)); [|by rewrite (app_assoc (ztake n t)), ztake_zdrop|done|by rewrite zlen_ztake by lia].
  cbn [obind]. rewrite Z.sub_0_r. rewrite (ztake_all n (ztake n t)) by (rewrite zlen_ztake; lia).
  rewrite mem_write_ok by (rewrite ?zlen_ztake; lia). cbn [obind]. rewrite zlen_ztake, ztake_0 by lia.
  rewrite u16_id by lia. by destruct (access_ok n).
Qed.

Lemma answer_str_ok unwritten rq t rest w :
  unwritten = 0 -> request_ok rq -> no_nul t ->
  answer_str access_ok unwritten rq (t ++ 0 :: rest) w = Ret ((0, put_answer rq t), w).
Proof.
  intros Hu Hr Ht. unfold answer_str, answer. rewrite (bind_lift _ _ _ _ (strlen_app t rest Ht)).
  by rewrite (bind_lift _ _ _ _ (copyto_ok unwritten rq t (0 :: rest) Hu Hr)).
Qed.

Lemma signed_text_int v : - 2 ^ 31 <= v < 2 ^ 31 -> format Text (str "%d") [AInt v] = Ret (signed_text v).
Proof.
  intros Hv. change (str "%d") with (37 :: 100 :: []). rewrite format_d. cbn [format obind].
  by rewrite app_nil_r, s32_id by lia.
Qed.

(** A number printed into a local array: the array decides. *)
Lemma answer_int_ok unwritten rq size v w :
  unwritten = 0 -> request_ok rq -> - 2 ^ 31 <= v < 2 ^ 31 ->
  answer_int stk access_ok unwritten rq size v w
  = if zlen (signed_text v) <? Z.of_nat size then Ret ((0, put_answer rq (signed_text v)), w) else Fault OutOfBounds.
Proof.
  intros Hu Hr Hv. unfold answer_int.
  assert (zlen (stack stk size) = Z.of_nat size) as Hs by (unfold stack, zlen; by rewrite length_resize).
  destruct (Z.ltb_spec (zlen (signed_text v)) (Z.of_nat size)).
  - destruct (sprintf_ok (stack stk size) 0 (str "%d") [AInt v] (signed_text v)) as (b & E & _ & Eb);
      [by apply signed_text_int|done|lia|].
    rewrite (bind_lift _ _ _ _ E). cbn [snd]. rewrite Eb, ztake_0. cbn [app]. rewrite <- app_assoc.
    apply answer_str_ok; [done|done|]. apply signed_text_no_nul. lia.
  - unfold bind, lift. by rewrite (sprintf_overflow _ 0 _ _ (signed_text v)) by (done || lia || by apply signed_text_int).
Qed.

(** What the user reads back from an answer that was not cut. *)
Lemma put_answer_read rq v :
  request_ok rq -> - 2 ^ 63 <= v < 2 ^ 63 -> zlen (signed_text v) <= iw_length rq ->
  mem_read (iw_user (put_answer rq (signed_text v))) 0 (iw_length (put_answer rq (signed_text v))) = Ret (signed_text v).
Proof.
  intros [Hl Hr _] Hv Hf. unfold put_answer. cbn [iw_user iw_length]. rewrite Z.min_l by lia.
  rewrite (mem_read_mid _ [] (ztake (zlen (signed_text v)) (signed_text v)) (zdrop (zlen (signed_text v)) (iw_user rq)));
    [by rewrite ztake_all|done|done|by rewrite ztake_all].
Qed.

(** ** Dispatch *)
Lemma gets_clean unwritten : Forall (fun p => clean (str (fst p))) (hgpriv_gets stk signed_char access_ok unwritten).
Proof.
  assert (forallb (fun p => forallb (fun b => negb (b =? 0) && negb (b =? 61)) (str (fst p)))
    (hgpriv_gets stk signed_char access_ok unwritten) = true) as H by (vm_compute; done).
  rewrite forallb_forall in H. apply Forall_forall. intros p Hp%list_elem_of_In.
  specialize (H p Hp). rewrite forallb_forall in H. apply Forall_forall.
  intros b Hb%list_elem_of_In. specialize (H b Hb). lia.
Qed.

Lemma gets_NoDup unwritten : NoDup (map fst (hgpriv_gets stk signed_char access_ok unwritten)).
Proof. apply distinctb_NoDup. vm_compute. done. Qed.

Lemma copyfrom_field rq n :
  request_ok rq -> 0 < n ->
  hgic_copyfrom_iwreq rq n
  = Ret (0, ztake (Z.min n (iw_length rq)) (iw_user rq) ++ replicate (Z.to_nat (n - Z.min n (iw_length rq))) 0).
Proof.
  intros [Hl Hr Hc] Hn. unfold hgic_copyfrom_iwreq. rewrite Hc. destruct (Z.ltb_spec 0 n); [|lia].
  replace (if n <=? iw_length rq then n else iw_length rq) with (Z.min n (iw_length rq))
    by (destruct (Z.leb_spec n (iw_length rq)); lia).
  set (m := Z.min n (iw_length rq)). rewrite mem_read_ok by lia. cbn [obind]. rewrite Z.sub_0_r, zdrop_0.
  rewrite (ztake_all m (ztake m _)) by (rewrite zlen_ztake; lia).
  assert (zlen (ztake m (iw_user rq)) = m) as Ht by (apply zlen_ztake; lia).
  rewrite mem_write_ok by (rewrite ?zlen_replicate; lia). cbn [obind]. rewrite ztake_0. cbn [app]. rewrite Ht, Z.add_0_l.
  do 3 f_equal. unfold zdrop. rewrite drop_replicate. f_equal. lia.
Qed.

Lemma get_proc_says unwritten ifidx rq name w :
  request_ok rq -> says rq name ->
  hgic_iwpriv_get_proc stk signed_char access_ok unwritten ifidx rq w
  = match snd <$> head (filter (fun p => str (fst p) = name) (hgpriv_gets stk signed_char access_ok unwritten)) with
    | Some h => h ifidx rq w
    | None => Ret ((- ENOTSUPP, rq), w)
    end.
Proof.
  intros Hr (Hn & Hs & rest & Eu & Hsep). unfold hgic_iwpriv_get_proc. pose proof (zlen_nonneg name).
  rewrite (bind_lift _ _ _ _ (copyfrom_field rq 128 Hr ltac:(lia))). cbn [fst snd]. change (0 =? 0) with true. cbv iota.
  set (m := Z.min 128 (iw_length rq)). set (field := _ ++ [0; 0]).
  assert (exists c tl, field = name ++ c :: tl /\ (c = 0 \/ c = 61)) as (c & tl & E & Hc).
  { destruct Hsep as [Hl|(c & rest' & -> & Hc & Hl)].
    - assert (m = zlen name) as Em by lia. assert (ztake m (iw_user rq) = name) as Et by (rewrite Eu; by apply ztake_app_length).
      unfold field. rewrite Et, <- app_assoc.
      destruct (replicate (Z.to_nat (128 - m)) 0) as [|z l] eqn:Er; [by exists 0, [0]; auto|].
      exists z, (l ++ [0; 0]). split; [done|]. left. apply (f_equal (fun x => z ∈ x)) in Er.
      assert (z ∈ z :: l) as Hz by left. rewrite <- Er in Hz. by apply elem_of_replicate in Hz as [-> _].
    - destruct (decide (zlen name < 128)) as [Hlt|].
      + exists c. unfold field, m. rewrite Eu. unfold ztake. rewrite take_app.
        rewrite take_ge by (unfold zlen in *; lia).
        destruct (Z.to_nat (Z.min 128 (iw_length rq)) - length name)%nat as [|k] eqn:Ek; [unfold zlen in *; lia|].
        cbn [take]. eexists. split; [|done]. rewrite <- !app_assoc. cbn [app]. done.
      + assert (m = zlen name) as Em by lia. exists 0, [0]. split; [|by left]. unfold field.
        rewrite Eu, ztake_app_length by done. replace (128 - m) with 0 by lia. by rewrite app_nil_r. }
  clearbody field m. subst field.
  destruct Hc as [->| ->].
  - rewrite (bind_lift _ _ _ _ (strchr_none name 61 tl ltac:(done) Hn)). cbv beta iota zeta.
    rewrite (bind_lift _ _ _ _ (lookup_set_spec _ name tl Hn (gets_clean unwritten))). by destruct (snd <$> _).
  - rewrite (bind_lift _ _ _ _ (strchr_found name 61 tl Hn)). cbv beta iota zeta. rewrite ztake_app_length by done.
    rewrite (bind_lift _ _ _ _ (lookup_set_spec _ name _ Hn (gets_clean unwritten))). by destruct (snd <$> _).
Qed.

(** ** Numbers *)
(** The getters of one number: the command, the size of the local array, what
    is subtracted. *)
Definition number_getters : list (string * Z * nat * Z) :=
  [ ("txpower"%string, cmd_code HGIC_CMD_GET_TX_POWER, 4%nat, 0);
    ("bss_bw"%string, cmd_code HGIC_CMD_GET_BSS_BW, 4%nat, 0);
    ("battery_level"%string, cmd_code HGIC_CMD_GET_BATTERY_LEVEL, 4%nat, 0);
    ("disassoc_reason"%string, cmd_code HGIC_CMD_GET_DISASSOC_REASON, 12%nat, 0);
    ("ant_sel"%string, cmd_code HGIC_CMD_GET_ANT_SEL, 12%nat, 0);
    ("wkreason"%string, cmd_code HGIC_CMD_GET_WAKEUP_REASON, 12%nat, 0);
    ("temperature"%string, cmd_code HGIC_CMD_GET_TEMPERATURE, 12%nat, 0);
    ("conn_state"%string, cmd_code HGIC_CMD_GET_CONN_STATE, 12%nat, 0);
    ("sta_count"%string, cmd_code HGIC_CMD_GET_STA_COUNT, 12%nat, 0);
    ("nav"%string, cmd_code HGIC_CMD_GET_NAV, 12%nat, 0);
    ("center_freq"%string, cmd_code HGIC_CMD_GET_CENTER_FREQ, 12%nat, 0);
    ("reason_code"%string, cmd_code HGIC_CMD_GET_WIFI_REASON_CODE, 12%nat, 0);
    ("status_code"%string, cmd_code HGIC_CMD_GET_WIFI_STATUS_CODE, 12%nat, 0);
    ("signal"%string, cmd_code HGIC_CMD_GET_SIGNAL, 12%nat, 0x1000) ].

Definition number_ifidx (name : string) (ifidx : Z) : Z := if String.eqb name "temperature" then 1 else ifidx.

(** The handlers of the table differ in nothing else. *)
Lemma number_getter_handler unwritten name cmd size off :
  (name, cmd, size, off) ∈ number_getters ->
  exists h, (name, h) ∈ hgpriv_gets stk signed_char access_ok unwritten /\
    (size = 4%nat \/ size = 12%nat) /\ 0 <= off <= 0x1000 /\ u16 cmd = cmd /\ clean (str name) /\ zlen (str name) <= 128 /\
    forall ifidx rq w st o w',
      hgic_fwctrl_do_cmd (number_ifidx name ifidx) cmd None 0 None 0 w = Ret ((s16 st, o), w') ->
      h ifidx rq w = answer_int stk access_ok unwritten rq size (s16 st - off) w'.
Proof.
  assert (forall v, s16 (s16 v) = s16 v) as Hs by (intros v; apply s16_id, s16_range).
  intros Hin. unfold number_getters in Hin.
  repeat (apply elem_of_cons in Hin as [[= -> -> -> ->]|Hin]; [
    eexists; split; [repeat first [apply list_elem_of_here | apply list_elem_of_further]|];
    split; [auto|]; split; [done|]; split; [done|]; split; [by repeat constructor|]; split; [done|];
    intros ifidx rq w st o w' E; unfold number_ifidx in E; cbn [String.eqb Ascii.eqb Bool.eqb] in E|]); 
    [..|by apply not_elem_of_nil in Hin].
  all: lazy beta delta [hgic_iwpriv_get_txpower hgic_iwpriv_get_bss_bw hgic_iwpriv_get_battery_level
    hgic_iwpriv_get_disassoc_reason hgic_iwpriv_get_ant_sel hgic_iwpriv_get_wkreason hgic_iwpriv_get_temperature
    hgic_iwpriv_get_conn_state hgic_iwpriv_get_sta_count hgic_iwpriv_get_nav hgic_iwpriv_get_center_freq
    hgic_iwpriv_get_reason_code hgic_iwpriv_get_status_code hgic_iwpriv_get_signal
    hgic_fwctrl_get_txpower hgic_fwctrl_get_bss_bw hgic_fwctrl_get_battery_level hgic_fwctrl_get_disassoc_reason
    hgic_fwctrl_get_ant_sel hgic_fwctrl_get_wkreason hgic_fwctrl_get_temperature hgic_fwctrl_get_conn_state
    hgic_fwctrl_get_sta_count hgic_fwctrl_get_nav hgic_fwctrl_get_center_freq hgic_fwctrl_get_reason_code
    hgic_fwctrl_get_status_code hgic_fwctrl_get_signal hgic_fwctrl_get_short_val bind ret].
  all: lazymatch type of E with ?l = _ => lazymatch goal with |- context [hgic_fwctrl_do_cmd ?i ?c None 0 None 0 ?x] =>
         change (hgic_fwctrl_do_cmd i c None 0 None 0 x) with l end end.
  all: rewrite E; cbv beta iota; cbn [fst]; by rewrite ?Hs, ?Z.sub_0_r.
Qed.

Lemma do_cmd_status ifidx cmd ty id status body e w :
  quiet w -> u16 cmd = cmd -> is_response_type ty = true -> zlen body < 2 ^ 30 ->
  w_env w = answered_by (resp_frame ty (fc_cookie (w_ctrl w)) id status body) :: e ->
  exists s w', hgic_fwctrl_do_cmd ifidx cmd None 0 None 0 w = Ret ((s16 status, None), w') /\
    skb_data s = cmd_frame ifidx cmd (fc_cookie (w_ctrl w)) [] /\
    w_sent w' = w_sent w ++ [s] /\ fc_pd_list (w_ctrl w') = fc_pd_list (w_ctrl w).
Proof.
  intros Hq Hc Hty Hb He.
  destruct (do_cmd_reply ifidx cmd None 0 None 0 ty id status body e w) as (s & w' & E & Hd & Hs & Hp);
    [done|lia|done|lia|done..|].
  exists s, w'. split; [|by rewrite Hc in Hd]. rewrite E. unfold lift, cmd_result. cbn [skb_data].
  by rewrite resp_frame_status.
Qed.

(** ** The list of stations *)
Record station := Station {
  st_aid : Z; st_ps : bool; st_mac : Z * Z * Z * Z * Z * Z;
  st_rssi : Z; st_evm : Z; st_tx_snr : Z; st_rx_snr : Z }.

Definition s8_range (v : Z) : Prop := -128 <= v < 128.
Definition station_ok (s : station) : Prop :=
  0 <= st_aid s < 256 /\ s8_range (st_rssi s) /\ s8_range (st_evm s) /\ s8_range (st_tx_snr s) /\ s8_range (st_rx_snr s).

Definition mac_list6 (m : Z * Z * Z * Z * Z * Z) : list Z :=
  let '(b0, b1, b2, b3, b4, b5) := m in [b0; b1; b2; b3; b4; b5].
Definition mac_str6 (m : Z * Z * Z * Z * Z * Z) : list Z :=
  let '(b0, b1, b2, b3, b4, b5) := m in mac_text b0 b1 b2 b3 b4 b5.

(** The structure on the wire, and its line. *)
Definition station_bytes (s : station) : list Z :=
  [st_aid s; if st_ps s then 1 else 0] ++ mac_list6 (st_mac s) ++
  [u8 (st_rssi s); u8 (st_evm s); u8 (st_tx_snr s); u8 (st_rx_snr s)].
Definition station_text (s : station) : list Z :=
  str "aid:" ++ signed_text (st_aid s) ++ str ", " ++ mac_str6 (st_mac s) ++ str ", ps:" ++
  signed_text (if st_ps s then 1 else 0) ++ str ", rssi:" ++ signed_text (st_rssi s) ++ str ", evm:" ++
  signed_text (st_evm s) ++ str ", tx_snr:" ++ signed_text (st_tx_snr s) ++ str ", rx_snr:" ++
  signed_text (st_rx_snr s) ++ crlf.

Lemma s8_u8 v : s8_range v -> s8 (u8 v) = v.
Proof. unfold s8_range, s8, u8. intros. Z.div_mod_to_equations. lia. Qed.

Lemma station_zlen s : zlen (station_bytes s) = 12.
Proof. unfold station_bytes. destruct (st_mac s) as [[[[[? ?] ?] ?] ?] ?]. done. Qed.

Lemma s8_text_zlen v : s8_range v -> 1 <= zlen (signed_text v) <= 4.
Proof.
  unfold s8_range. intros Hv. pose proof (signed_text_zlen v 4 ltac:(lia) ltac:(lia)) as H.
  change (10 ^ (4 - 1)) with 1000 in H. change (10 ^ 4) with 10000 in H.
  assert (1 <= zlen (signed_text v)); [|lia]. unfold signed_text. destruct (Z.ltb_spec v 0); [rewrite zlen_cons; pose proof (zlen_nonneg (unsigned_text (- v))); lia|].
  destruct (unsigned_text_spec v ltac:(lia)) as ([_ Hne] & _). destruct (unsigned_text v); [done|]. rewrite zlen_cons. pose proof (zlen_nonneg l). lia.
Qed.

Lemma mac_str6_zlen m : zlen (mac_str6 m) = 17.
Proof. destruct m as [[[[[? ?] ?] ?] ?] ?]. done. Qed.

Lemma station_text_zlen s : station_ok s -> zlen (station_text s) <= 81.
Proof.
  intros (Ha & H1 & H2 & H3 & H4). unfold station_text. rewrite !zlen_app, mac_str6_zlen.
  pose proof (signed_text_zlen (st_aid s) 3 ltac:(lia) ltac:(lia)) as E1. change (10 ^ (3 - 1)) with 100 in E1. change (10 ^ 3) with 1000 in E1.
  assert (zlen (signed_text (if st_ps s then 1 else 0)) = 1) as -> by (by destruct (st_ps s)).
  apply s8_text_zlen in H1, H2, H3, H4.
  repeat match goal with |- context [zlen (str ?x)] => let n := eval vm_compute in (zlen (str x)) in change (zlen (str x)) with n end.
  change (zlen crlf) with 2. lia.
Qed.

Lemma format_station s tl :
  station_ok s ->
  format Text sta_fmt
    [AInt (st_aid s); AMem (mac_list6 (st_mac s) ++ tl); AInt (if st_ps s then 1 else 0); AInt (st_rssi s); AInt (st_evm s);
     AInt (st_tx_snr s); AInt (st_rx_snr s)]
  = Ret (station_text s).
Proof.
  intros (Ha & H1 & H2 & H3 & H4). unfold s8_range in *.
  change sta_fmt with (str "aid:" ++ 37 :: 100 :: str ", " ++ 37 :: 112 :: 77 :: str ", ps:" ++ 37 :: 100 :: str ", rssi:" ++
    37 :: 100 :: str ", evm:" ++ 37 :: 100 :: str ", tx_snr:" ++ 37 :: 100 :: str ", rx_snr:" ++ 37 :: 100 :: crlf ++ []).
  unfold station_text, mac_list6, mac_str6. destruct (st_mac s) as [[[[[b0 b1] b2] b3] b4] b5]. cbn [app].
  assert (s32 (if st_ps s then 1 else 0) = if st_ps s then 1 else 0) as Ep by (by destruct (st_ps s)).
  repeat first [ rewrite format_lit by (by repeat constructor) | rewrite format_d | rewrite format_mac ].
  cbn [format obind]. rewrite Ep, !s32_id by lia. repeat rewrite <- ?app_assoc, ?app_nil_r. done.
Qed.

Lemma mem_get_at l k x : 0 <= k -> l !! Z.to_nat k = Some x -> mem_get l k = Ret x.
Proof. intros Hk E. unfold mem_get. destruct (Z.leb_spec 0 k); [|lia]. by rewrite E. Qed.

Lemma station_at s tl k x : 0 <= k < 12 -> station_bytes s !! Z.to_nat k = Some x -> mem_get (station_bytes s ++ tl) k = Ret x.
Proof. intros Hk E. apply mem_get_at; [lia|]. by apply lookup_app_l_Some. Qed.

(** The fields are read back from the structure. *)
Lemma sta_line_args s tl buf len :
  station_ok s ->
  sta_line (station_bytes s ++ tl) buf len
  = sprintf_at buf len sta_fmt
      [AInt (st_aid s); AMem (mac_list6 (st_mac s) ++ [u8 (st_rssi s); u8 (st_evm s); u8 (st_tx_snr s); u8 (st_rx_snr s)] ++ tl);
       AInt (if st_ps s then 1 else 0); AInt (st_rssi s); AInt (st_evm s); AInt (st_tx_snr s); AInt (st_rx_snr s)].
Proof.
  intros (_ & H1 & H2 & H3 & H4). unfold sta_line.
  assert (length (mac_list6 (st_mac s)) = 6%nat) as Hm by (by destruct (st_mac s) as [[[[[? ?] ?] ?] ?] ?]).
  rewrite (station_at s tl 0 (st_aid s)), (station_at s tl 1 (if st_ps s then 1 else 0)) by done. cbn [obind].
  assert (forall k x, [u8 (st_rssi s); u8 (st_evm s); u8 (st_tx_snr s); u8 (st_rx_snr s)] !! k = Some x ->
    station_bytes s !! (8 + k)%nat = Some x) as Hg.
  { intros k x Hk. unfold station_bytes. rewrite app_assoc. rewrite lookup_app_r by (rewrite length_app; simpl; lia).
    rewrite length_app, Hm. by replace (8 + k - _)%nat with k by (simpl; lia). }
  rewrite (station_at s tl 8 (u8 (st_rssi s))), (station_at s tl 9 (u8 (st_evm s))),
    (station_at s tl 10 (u8 (st_tx_snr s))), (station_at s tl 11 (u8 (st_rx_snr s)));
    [|lia|by apply (Hg 3%nat)|lia|by apply (Hg 2%nat)|lia|by apply (Hg 1%nat)|lia|by apply (Hg 0%nat)].
  cbn [obind]. rewrite !s8_u8 by done.
  assert (zdrop 2 (station_bytes s ++ tl) = mac_list6 (st_mac s) ++ [u8 (st_rssi s); u8 (st_evm s); u8 (st_tx_snr s); u8 (st_rx_snr s)] ++ tl) as ->.
  { unfold station_bytes. rewrite <- !app_assoc. by apply zdrop_app_length. }
  by replace (Z.land (if st_ps s then 1 else 0) 1) with (if st_ps s then 1 else 0) by (by destruct (st_ps s)).
Qed.

Lemma sta_line_ok s tl buf len :
  station_ok s -> 0 <= len -> len + 82 <= zlen buf ->
  exists buf', sta_line (station_bytes s ++ tl) buf len = Ret (zlen (station_text s), buf') /\ zlen buf' = zlen buf /\
    ztake (len + zlen (station_text s)) buf' = ztake len buf ++ station_text s.
Proof.
  intros Hs H0 Hf. pose proof (station_text_zlen s Hs) as Hz. pose proof (zlen_nonneg (station_text s)).
  rewrite sta_line_args by done.
  destruct (sprintf_ok buf len _ _ _ (format_station s
    ([u8 (st_rssi s); u8 (st_evm s); u8 (st_tx_snr s); u8 (st_rx_snr s)] ++ tl) Hs) H0 ltac:(lia)) as (buf' & E & Hl & Eb).
  exists buf'. split; [exact E|]. split; [done|].
  rewrite Eb, app_assoc, (app_assoc (ztake len buf)), <- app_assoc. apply ztake_app_length.
  rewrite zlen_app, zlen_ztake by lia. done.
Qed.

Lemma list_loop_stations l tl buf len :
  Forall station_ok l -> 0 <= len -> zlen buf = 8192 -> len + 81 * zlen l < 8192 ->
  exists buf', list_loop sta_line sizeof_hgic_sta_info (length l) (concat (map station_bytes l) ++ tl) buf len
    = Ret (len + zlen (concat (map station_text l)), buf') /\ zlen buf' = 8192 /\
    ztake (len + zlen (concat (map station_text l))) buf' = ztake len buf ++ concat (map station_text l).
Proof.
  intros Hl. revert buf len. induction Hl as [|s l Hs Hl IH]; intros buf len H0 Hb Hf; cbn [map concat length list_loop].
  { change (zlen []) with 0. exists buf. by rewrite Z.add_0_r, app_nil_r. }
  rewrite zlen_cons in Hf. pose proof (zlen_nonneg l). destruct (Z.ltb_spec (len + 80) 8192); [|lia].
  rewrite <- app_assoc.
  destruct (sta_line_ok s (concat (map station_bytes l) ++ tl) buf len Hs H0 ltac:(lia)) as (b1 & E1 & L1 & T1).
  rewrite E1. cbn [obind fst snd]. unfold sizeof_hgic_sta_info. rewrite zdrop_app_length by (by rewrite station_zlen).
  pose proof (station_text_zlen s Hs). pose proof (zlen_nonneg (station_text s)).
  destruct (IH b1 (len + zlen (station_text s)) ltac:(lia) ltac:(lia) ltac:(lia)) as (b2 & E2 & L2 & T2).
  exists b2. rewrite zlen_app, Z.add_assoc. split; [done|]. split; [done|]. by rewrite T2, T1, app_assoc.
Qed.

Lemma kzalloc_quiet n w :
  quiet w -> 0 <= n < 2 ^ 31 -> kzalloc n w = Ret (Some (replicate (Z.to_nat n) 0), w).
Proof.
  intros Hq Hn. unfold kzalloc. destruct (kmalloc_quiet n w Hq Hn) as (b & E & Hl). unfold kmalloc in E.
  rewrite (bind_Ret _ _ _ _ _ E). unfold ret. cbn. do 4 f_equal. unfold zlen in Hl. lia.
Qed.

Lemma copyfrom_query n s k :
  0 <= n < 65536 -> zlen (str s) <= n -> zlen (str s) <= k -> 0 < k ->
  hgic_copyfrom_iwreq (query n s) k = Ret (0, resize (Z.to_nat k) 0 (str s)).
Proof.
  intros Hn Hs Hk H0. rewrite copyfrom_field by (done || by apply query_ok). cbn [query iw_length iw_user]. do 2 f_equal.
  unfold zlen, ztake in *. rewrite !resize_ge by lia. rewrite take_app, take_ge, take_replicate by lia.
  rewrite <- app_assoc, <- replicate_add. do 2 f_equal. lia.
Qed.

(** The buffer the list handlers read the request into. *)
Lemma list_buffer s k m :
  zlen (str s) <= k <= m ->
  mem_write (replicate (Z.to_nat m) 0) 0 (resize (Z.to_nat k) 0 (str s)) = Ret (resize (Z.to_nat m) 0 (str s)).
Proof.
  intros Hk. pose proof (zlen_nonneg (str s)). rewrite mem_write_ok by (rewrite ?zlen_resize, ?zlen_replicate; lia).
  rewrite ztake_0, zlen_resize by lia. cbn [app]. unfold zdrop, zlen in *. rewrite drop_replicate, !resize_ge by lia.
  rewrite <- app_assoc, <- replicate_add. do 3 f_equal. lia.
Qed.

Lemma no_argument s m : clean (str s) -> zlen (str s) < m -> pick_format (resize (Z.to_nat m) 0 (str s)) = Ret 0.
Proof.
  intros Hc Hm. unfold pick_format, zlen in *. rewrite resize_ge by lia.
  destruct (Z.to_nat m - length (str s))%nat as [|k] eqn:E; [lia|]. cbn [replicate].
  by rewrite (strchr_none (str s) 61 (replicate k 0) ltac:(done) Hc).
Qed.

Lemma get_bytes_reply ifidx cmd o size ty id status body e w :
  quiet w -> u16 cmd = cmd -> is_response_type ty = true -> 0 <= size <= zlen o -> size < 2 ^ 32 -> zlen body < 2 ^ 30 ->
  0 <= status < 32768 -> Z.min status size <= zlen body ->
  w_env w = answered_by (resp_frame ty (fc_cookie (w_ctrl w)) id status body) :: e ->
  let n := Z.min status size in
  exists s w', hgic_fwctrl_get_bytes ifidx cmd (Some o) size w = Ret ((status, Some (ztake n body ++ zdrop n o)), w') /\
    skb_data s = cmd_frame ifidx cmd (fc_cookie (w_ctrl w)) [] /\ w_sent w' = w_sent w ++ [s].
Proof.
  intros Hq Hc Hty Ho Hs Hb Hst Hn He n.
  destruct (do_cmd_reply ifidx cmd None 0 (Some o) size ty id status body e w) as (s & w' & E & Hd & Hse & _);
    [done|lia|done|lia|done..|].
  exists s, w'. rewrite Hc in Hd. split; [|done]. unfold hgic_fwctrl_get_bytes. rewrite E. unfold lift.
  rewrite (cmd_result_body _ size o status body n [] ty (fc_cookie (w_ctrl w)) id [] eq_refl);
    rewrite ?s16_id by lia; [done|lia|lia|lia|lia].
Qed.

(** The text of the list, from the structures in the buffer. *)
Lemma station_list_text rq l rest w :
  request_ok rq -> Forall station_ok l -> 1 <= zlen l <= 100 ->
  answer_list access_ok 0 rq 0 (zlen l) 12 (str "%d sta:" ++ crlf) sta_line (concat (map station_bytes l) ++ rest)
    (replicate (Z.to_nat 8192) 0) w
  = Ret ((0, put_answer rq (signed_text (zlen l) ++ str " sta:" ++ crlf ++ concat (map station_text l))), w).
Proof.
  intros Hr Hl Hn. unfold answer_list. change (0 =? 1) with false. cbv iota.
  destruct (Z.ltb_spec 0 (zlen l)); [|lia].
  pose proof (signed_text_zlen (zlen l) 3 ltac:(lia) ltac:(lia)) as H3. change (10 ^ (3 - 1)) with 100 in H3. change (10 ^ 3) with 1000 in H3.
  set (title := signed_text (zlen l) ++ str " sta:" ++ crlf).
  assert (format Text (str "%d sta:" ++ crlf) [AInt (zlen l)] = Ret title) as Et.
  { change (str "%d sta:" ++ crlf) with (37 :: 100 :: (str " sta:" ++ crlf) ++ []). rewrite format_d, format_lit by (by repeat constructor).
    cbn [format obind]. by rewrite s32_id, app_nil_r by lia. }
  assert (zlen title <= 10) as Hti by (unfold title; rewrite !zlen_app; change (zlen (str " sta:")) with 5; change (zlen crlf) with 2; lia).
  pose proof (zlen_nonneg title). set (pb := replicate (Z.to_nat 8192) 0).
  assert (zlen pb = 8192) as Hpb by (apply zlen_replicate; lia).
  destruct (sprintf_ok pb 0 _ _ _ Et ltac:(lia) ltac:(lia)) as (b1 & E1 & L1 & T1).
  destruct (list_loop_stations l rest b1 (zlen title) Hl ltac:(lia) ltac:(lia) ltac:(lia)) as (b2 & E2 & L2 & T2).
  erewrite bind_lift; cycle 1.
  { rewrite E1. cbn [obind fst snd]. replace (Z.to_nat (zlen l)) with (length l) by (unfold zlen; lia). exact E2. }
  cbn [fst snd]. unfold answer.
  assert (ztake (zlen title) b1 = title) as Tt.
  { rewrite T1, ztake_0. cbn [app]. rewrite <- app_assoc. by apply ztake_app_length. }
  rewrite Tt, <- zlen_app in T2. rewrite <- zlen_app, <- (ztake_zdrop (zlen (title ++ concat (map station_text l))) b2), T2.
  rewrite (bind_lift _ _ _ _ (copyto_ok 0 rq _ _ eq_refl Hr)). unfold title. by rewrite <- !app_assoc.
Qed.

Lemma stations_zlen l : zlen (concat (map station_bytes l)) = 12 * zlen l.
Proof. induction l as [|s l IH]; [done|]. cbn [map concat]. rewrite zlen_app, station_zlen, zlen_cons. lia. Qed.

(** The handler on [n] structures. *)
Lemma sta_list_runs ifidx n l ty id e w :
  quiet w -> Forall station_ok l -> 1 <= zlen l <= 100 -> 8 < n < 65536 -> is_response_type ty = true ->
  w_env w = answered_by (resp_frame ty (fc_cookie (w_ctrl w)) id (12 * zlen l) (concat (map station_bytes l))) :: e ->
  let rq := query n "sta_list" in
  exists s w', hgic_iwpriv_get_sta_list access_ok 0 ifidx rq w
    = Ret ((0, put_answer rq (signed_text (zlen l) ++ str " sta:" ++ crlf ++ concat (map station_text l))), w') /\
    skb_data s = cmd_frame ifidx HGIC_CMD_GET_STA_LIST (fc_cookie (w_ctrl w)) [] /\ w_sent w' = w_sent w ++ [s].
Proof.
  intros Hq Hl Hn Hsz Hty He rq. pose proof (stations_zlen l) as Hb. set (body := concat (map station_bytes l)) in *.
  unfold hgic_iwpriv_get_sta_list. assert (zlen (str "sta_list") = 8) as H8 by done.
  rewrite (bind_Ret _ _ _ _ _ (kzalloc_quiet 4096 w Hq ltac:(lia))), (bind_Ret _ _ _ _ _ (kzalloc_quiet 8192 w Hq ltac:(lia))).
  rewrite (bind_lift _ _ _ _ (copyfrom_query n "sta_list" 64 ltac:(lia) ltac:(lia) ltac:(lia) ltac:(lia))). cbn [snd].
  rewrite (bind_lift _ _ _ _ (list_buffer "sta_list" 64 4096 ltac:(lia))).
  rewrite (bind_lift _ _ _ _ (no_argument "sta_list" 4096 ltac:(by repeat constructor) ltac:(lia))).
  set (o := resize (Z.to_nat 4096) 0 (str "sta_list")). assert (zlen o = 4096) as Ho by (apply zlen_resize; lia).
  change (4096 / sizeof_hgic_sta_info) with 341. unfold hgic_fwctrl_get_sta_list.
  change (u32 341 * sizeof_hgic_sta_info) with 4092.
  destruct (get_bytes_reply ifidx HGIC_CMD_GET_STA_LIST o 4092 ty id (12 * zlen l) body e w) as (s & w' & E & Hd & Hs);
    [done|done|done|lia|lia|lia|lia|lia|done|].
  exists s, w'. split; [|done]. cbv zeta in E. rewrite Z.min_l in E by lia.
  erewrite bind_Ret; [|erewrite bind_Ret; [|exact E]; cbn [fst snd]; destruct (Z.ltb_spec 0 (12 * zlen l)); [reflexivity|lia]].
  cbn [fst snd]. unfold sizeof_hgic_sta_info. rewrite (Z.mul_comm 12), Z.div_mul by lia.
  rewrite (bind_lift (deref (Some _)) _ w' _ eq_refl), ztake_all by lia.
  apply station_list_text; [apply query_ok; lia|done|done].
Qed.


(** ** The list of mesh devices *)
Lemma rmesh_line_inv p buf len n b :
  rmesh_line p buf len = Ret (n, b) -> 26 <= n /\ len + n + 1 <= zlen buf /\ zlen b = zlen buf.
Proof.
  intros H. apply obind_inv in H as (aid & _ & H). apply sprintf_inv in H as (t & E & -> & Hf & Hb).
  split; [|done]. change (str "aid:%d, %pM" ++ crlf) with (str "aid:" ++ 37 :: 100 :: str ", " ++ 37 :: 112 :: 77 :: crlf) in E.
  rewrite format_lit in E by (by repeat constructor). apply obind_inv in E as (t1 & E & [= <-]).
  rewrite format_d in E. apply obind_inv in E as (t2 & E & [= <-]).
  rewrite format_lit in E by (by repeat constructor). apply obind_inv in E as (t3 & E & [= <-]).
  apply format_mac_inv in E as (m & t4 & -> & Hm & [= <-]). repeat rewrite ?zlen_cons, ?zlen_app. rewrite Hm.
  change (zlen [])  with 0.
  assert (1 <= zlen (signed_text (s32 aid))); [|lia]. pose proof (s32_range aid). unfold signed_text.
  destruct (Z.ltb_spec (s32 aid) 0); [rewrite zlen_cons; pose proof (zlen_nonneg (unsigned_text (- s32 aid))); lia|].
  destruct (unsigned_text_spec (s32 aid) ltac:(lia)) as ([_ Hne] & _).
  destruct (unsigned_text (s32 aid)) as [|c l]; [done|]. rewrite zlen_cons. pose proof (zlen_nonneg l). lia.
Qed.

(** A buffer of 4096 bytes holds less than 158 lines, and the bound of the loop
    is never reached before its end. *)
Lemma rmesh_loop_bound count p buf len n b :
  zlen buf = 4096 -> 0 <= len <= 4096 ->
  list_loop rmesh_line 7 count p buf len = Ret (n, b) -> len + 26 * Z.of_nat count <= n /\ n <= 4096.
Proof.
  revert p buf len. induction count as [|count IH]; intros p buf len Hb Hl H; cbn [list_loop] in H; [injection H as <- <-; lia|].
  destruct (Z.ltb_spec (len + 80) 8192); [|lia]. apply obind_inv in H as ([k b1] & E & H).
  apply rmesh_line_inv in E as (Hk & Hf & Hb1). cbn [fst snd] in H. apply IH in H; [lia|lia|lia].
Qed.

Lemma rmesh_loop_bounds count p buf len : only_bounds (list_loop rmesh_line 7 count p buf len).
Proof.
  revert p buf len. induction count as [|count IH]; intros p buf len; cbn [list_loop]; [apply bounds_Ret|].
  destruct (len + 80 <? 8192); [|apply bounds_Ret]. apply bounds_bind; [|intros r; apply IH].
  apply bounds_bind; [apply bounds_get|]. intros a. apply bounds_sprintf.
Qed.

Lemma rmesh_list_faults rq count buf w :
  158 <= count < 2 ^ 15 ->
  answer_list access_ok 0 rq 0 count 7 (str "%d dev:" ++ crlf) rmesh_line buf (replicate (Z.to_nat 4096) 0) w = Fault OutOfBounds.
Proof.
  intros Hc. unfold answer_list. change (0 =? 1) with false. cbv iota. destruct (Z.ltb_spec 0 count); [|lia].
  unfold bind at 1, lift at 1.
  match goal with |- context [sprintf_at ?b 0 ?f ?a] => set (T := sprintf_at b 0 f a) end.
  match goal with |- match match ?o with _ => _ end with _ => _ end = _ => assert (only_bounds o) as Hb; [|destruct o as [[n b]|f] eqn:E] end.
  - apply bounds_bind; [apply bounds_sprintf|]. intros t. apply rmesh_loop_bounds.
  - exfalso. apply obind_inv in E as ([k b1] & E1 & E). apply sprintf_inv in E1 as (t & _ & -> & Hf & Hl).
    pose proof (zlen_nonneg t). rewrite zlen_replicate in * by lia.
    apply rmesh_loop_bound in E; cbn [fst snd] in *; lia.
  - by rewrite (Hb f eq_refl).
Qed.

Lemma rmesh_runs ifidx n ty id status body e w :
  quiet w -> 12 < n < 65536 -> is_response_type ty = true -> zlen body < 2 ^ 30 ->
  158 <= status < 2 ^ 15 -> status <= zlen body ->
  w_env w = answered_by (resp_frame ty (fc_cookie (w_ctrl w)) id status body) :: e ->
  hgic_iwpriv_get_rmesh_device access_ok 0 ifidx (query n "rmesh_device") w = Fault OutOfBounds.
Proof.
  intros Hq Hsz Hty Hz Hs Hb He. unfold hgic_iwpriv_get_rmesh_device. assert (zlen (str "rmesh_device") = 12) as H8 by done.
  do 2 rewrite (bind_Ret _ _ _ _ _ (kzalloc_quiet 4096 w Hq ltac:(lia))).
  rewrite (bind_lift _ _ _ _ (copyfrom_query n "rmesh_device" 64 ltac:(lia) ltac:(lia) ltac:(lia) ltac:(lia))). cbn [snd].
  rewrite (bind_lift _ _ _ _ (list_buffer "rmesh_device" 64 4096 ltac:(lia))).
  rewrite (bind_lift _ _ _ _ (no_argument "rmesh_device" 4096 ltac:(by repeat constructor) ltac:(lia))).
  set (o := resize (Z.to_nat 4096) 0 (str "rmesh_device")). assert (zlen o = 4096) as Ho by (apply zlen_resize; lia).
  change (4096 / sizeof_hgic_rmesh_device) with 585. unfold hgic_fwctrl_get_rmesh_device.
  change (u32 585 * sizeof_hgic_rmesh_device) with 4095.
  destruct (get_bytes_reply ifidx HGIC_CMD_SET_RMESH_DEVICE o 4095 ty id status body e w) as (s & w' & E & _);
    [done|done|done|lia|lia|lia|lia|lia|done|].
  cbv zeta in E. rewrite (bind_Ret _ _ _ _ _ E). cbn [fst snd].
  rewrite (bind_lift (deref (Some _)) _ w' _ eq_refl). by apply rmesh_list_faults.
Qed.

(** ** No handler writes beyond the length the user gave *)
(** The user memory behind the length is untouched. *)
Definition respects (rq rq' : iwreq) : Prop :=
  zlen (iw_user rq') = zlen (iw_user rq) /\ zdrop (iw_length rq) (iw_user rq') = zdrop (iw_length rq) (iw_user rq) /\
  iw_length rq' <= iw_length rq.
Definition answers_within (rq : iwreq) (r : Z * iwreq) (_ : world) : Prop := respects rq (snd r).
Definition respectful (h : Z -> iwreq -> M world (Z * iwreq)) : Prop :=
  forall ifidx rq w, 0 <= iw_length rq < 65536 -> post (h ifidx rq) w (answers_within rq).

Lemma respects_refl rq : respects rq rq.
Proof. by repeat split. Qed.

Lemma respects_write rq bs user n :
  mem_write (iw_user rq) 0 bs = Ret user -> zlen bs <= iw_length rq -> n <= iw_length rq ->
  respects rq (Iwreq n user (iw_uncopied rq)).
Proof.
  intros E Hb Hn. split; [by eapply mem_write_length|]. split; [|done]. cbn [iw_user].
  apply mem_write_inv in E as (_ & Hf & ->). rewrite ztake_0, Z.add_0_l. cbn [app].
  pose proof (zlen_nonneg bs). assert (iw_length rq = zlen bs + (iw_length rq - zlen bs)) as El by lia.
  rewrite El at 1. rewrite <- zdrop_zdrop, zdrop_app_length by lia. rewrite zdrop_zdrop by lia. f_equal. lia.
Qed.

Lemma copyto_respects unwritten rq buf len rq' :
  0 <= iw_length rq < 65536 -> 0 <= unwritten ->
  hgic_copyto_iwreq access_ok unwritten rq buf len = Ret rq' -> respects rq rq'.
Proof.
  intros Hl Hu H. unfold hgic_copyto_iwreq in H. cbv zeta in H.
  set (n := if len <=? iw_length rq then len else iw_length rq) in *.
  assert (n <= iw_length rq) as Hn by (unfold n; destruct (Z.leb_spec len (iw_length rq)); lia).
  assert (respects rq (Iwreq 0 (iw_user rq) (iw_uncopied rq))) as H0 by (split; [done|split; [done|]]; simpl; lia).
  destruct (Z.ltb_spec 0 n); cycle 1.
  { destruct (access_ok n); injection H as <-; exact H0. }
  destruct (access_ok n).
  - apply obind_inv in H as (bs & Hr & H). apply obind_inv in H as (user & Hw & H). injection H as <-.
    apply mem_read_inv in Hr as (_ & _ & _ & _ & Hb).
    apply (respects_write rq (ztake (n - unwritten) bs)); [done| |rewrite u16_id by lia; destruct (unwritten =? 0); lia].
    unfold ztake, zlen in *. rewrite length_take. lia.
  - apply obind_inv in H as (bs & Hr & H). apply obind_inv in H as (user & Hw & H). injection H as <-.
    apply mem_read_inv in Hr as (_ & _ & _ & _ & Hb).
    apply (respects_write rq bs); [done|lia|rewrite u16_id by lia; lia].
Qed.

Section Respect.
Context (unwritten : Z) (Hu : 0 <= unwritten).

Lemma respects_ret rq v w : post (ret (v, rq) : M world (Z * iwreq)) w (answers_within rq).
Proof. apply post_ret. apply respects_refl. Qed.
Lemma respects_answer rq buf len w :
  0 <= iw_length rq < 65536 -> post (answer access_ok unwritten rq buf len) w (answers_within rq).
Proof. intros Hl. apply post_bind, post_lift. intros rq' E. apply post_ret. by eapply copyto_respects. Qed.
Lemma respects_answer_str rq s w :
  0 <= iw_length rq < 65536 -> post (answer_str access_ok unwritten rq s) w (answers_within rq).
Proof. intros Hl. apply post_bind, post_lift. intros n _. by apply respects_answer. Qed.
Lemma respects_answer_int rq size v w :
  0 <= iw_length rq < 65536 -> post (answer_int stk access_ok unwritten rq size v) w (answers_within rq).
Proof. intros Hl. apply post_bind, post_lift. intros r _. by apply respects_answer_str. Qed.
Lemma respects_answer_list rq f c z t l b p w :
  0 <= iw_length rq < 65536 -> post (answer_list access_ok unwritten rq f c z t l b p) w (answers_within rq).
Proof.
  intros Hl. unfold answer_list. destruct (f =? 1); [by apply respects_answer|].
  apply post_bind, post_lift. intros r _. by apply respects_answer.
Qed.

(** Whatever runs before the answer. *)
Lemma respects_bind {A} (m : M world A) k rq w :
  (forall a w', post (k a) w' (answers_within rq)) ->
  post (bind m k) w (answers_within rq).
Proof. intros H. apply post_bind. intros a w' _. by apply H. Qed.
End Respect.
#[local] Hint Resolve respects_ret respects_answer respects_answer_str respects_answer_int respects_answer_list : core.

Ltac respect_step :=
  lazymatch goal with
  | |- post (bind _ _) _ _ => apply respects_bind; intros ? ?; cbv beta
  | |- post (match ?x with _ => _ end) _ _ => destruct x
  | |- post (let '_ := _ in _) _ _ => cbv zeta
  | |- _ => progress cbv zeta
  end.
Ltac respect := intros ifidx rq w Hl; lazymatch goal with |- post (?h _ _) _ _ => let f := head_of h in unfold f end; repeat respect_step; auto.

Lemma getters_respectful unwritten p :
  0 <= unwritten -> p ∈ hgpriv_gets stk signed_char access_ok unwritten -> fst p <> "scan_list"%string -> respectful (snd p).
Proof.
  intros Hu Hp Hn. unfold hgpriv_gets in Hp.
  repeat (apply elem_of_cons in Hp as [->|Hp]; [first [by destruct Hn | cbn [snd]; respect]|]).
  by apply not_elem_of_nil in Hp.
Qed.
End Lemmas.

(** A getter of one number: its frame goes out and the status is the number. *)
Lemma number_get_proc stk sc access_ok name cmd size off ifidx rq ty id status body e w :
  (name, cmd, size, off) ∈ number_getters -> quiet w -> request_ok rq -> says rq (str name) ->
  is_response_type ty = true -> zlen body < 2 ^ 30 ->
  w_env w = answered_by (resp_frame ty (fc_cookie (w_ctrl w)) id status body) :: e ->
  exists s w',
    hgic_iwpriv_get_proc stk sc access_ok 0 ifidx rq w = answer_int stk access_ok 0 rq size (s16 status - off) w' /\
    skb_data s = cmd_frame (number_ifidx name ifidx) cmd (fc_cookie (w_ctrl w)) [] /\ w_sent w' = w_sent w ++ [s].
Proof.
  intros Hin Hq Hr Hs Hty Hb He.
  destruct (number_getter_handler stk sc access_ok 0 name cmd size off Hin) as (h & Hh & _ & _ & Hc & _ & _ & E).
  destruct (do_cmd_status (number_ifidx name ifidx) cmd ty id status body e w Hq Hc Hty Hb He) as (s & w' & Ed & Hd & Hse & _).
  exists s, w'. split; [|done]. rewrite (get_proc_says stk sc access_ok 0 ifidx rq (str name)) by done.
  rewrite (table_found _ name h) by (done || apply gets_NoDup). by apply (E _ _ _ status None).
Qed.

(** ** Properties *)

(** Dispatch of a query.  However the name ends in the user's buffer -- by an
    equals sign, a terminator or the length -- the getter of that name runs on
    the request, and no other; the names of the table are distinct, so each can
    be reached; an unknown name returns -ENOTSUPP and leaves the request as it
    was. *)
Lemma get_proc_dispatch stk sc access_ok unwritten ifidx rq w :
  request_ok rq ->
  let gets := hgpriv_gets stk sc access_ok unwritten in
  NoDup (map fst gets) /\
  (forall n h, (n, h) ∈ gets -> says rq (str n) ->
     hgic_iwpriv_get_proc stk sc access_ok unwritten ifidx rq w = h ifidx rq w) /\
  (forall name, says rq name -> (forall p, p ∈ gets -> str (fst p) <> name) ->
     hgic_iwpriv_get_proc stk sc access_ok unwritten ifidx rq w = Ret ((- ENOTSUPP, rq), w)).
Proof.
  intros Hr gets. pose proof (gets_NoDup stk sc access_ok unwritten) as Hnd. split; [done|]. split.
  - intros n h Hin Hs. rewrite (get_proc_says stk sc access_ok unwritten ifidx rq (str n)) by done.
    by rewrite (table_found _ n h).
  - intros name Hs Hno. rewrite (get_proc_says stk sc access_ok unwritten ifidx rq name) by done.
    by rewrite table_missing.
Qed.

Lemma get_proc_dispatch_witness :
  hgic_iwpriv_get_proc [] true (fun _ => true) 0 1 (query 64 "fwinfo") (demo_world [])
  = hgic_iwpriv_get_fwinfo (fun _ => true) 0 1 (query 64 "fwinfo") (demo_world []).
Proof.
  destruct (get_proc_dispatch [] true (fun _ => true) 0 1 (query 64 "fwinfo") (demo_world [])) as (_ & D & _);
    [by apply query_ok|].
  apply (D "fwinfo"%string); [|by apply query_says].
  do 32 apply list_elem_of_further. apply list_elem_of_here.
Defined.

(** A number is printed and read back.  For each of the fourteen getters of a
    single number: the user writes its name, one frame of its command goes out,
    and when the chip answers with a status the user's buffer receives the
    decimal text of that 16-bit value (less 0x1000 for the signal), which
    [simple_strtol] reads back as the value -- provided the text fits the local
    array; three of the arrays have four bytes, and for these a value of
    1000 or more, or -100 or less, is written past the array. *)
Lemma number_getters_print stk sc access_ok name cmd size off ifidx rq ty id status body e w :
  (name, cmd, size, off) ∈ number_getters -> quiet w -> request_ok rq -> says rq (str name) ->
  is_response_type ty = true -> zlen body < 2 ^ 30 ->
  w_env w = answered_by (resp_frame ty (fc_cookie (w_ctrl w)) id status body) :: e ->
  let v := s16 status - off in
  let t := signed_text v in
  (size = 4%nat /\ (v <= -100 \/ 1000 <= v) ->
     hgic_iwpriv_get_proc stk sc access_ok 0 ifidx rq w = Fault OutOfBounds) /\
  (size = 12%nat \/ -100 < v < 1000 ->
     (exists s w', hgic_iwpriv_get_proc stk sc access_ok 0 ifidx rq w = Ret ((0, put_answer rq t), w') /\
        skb_data s = cmd_frame (number_ifidx name ifidx) cmd (fc_cookie (w_ctrl w)) [] /\ w_sent w' = w_sent w ++ [s]) /\
     (zlen t <= iw_length rq ->
        mem_read (iw_user (put_answer rq t)) 0 (iw_length (put_answer rq t)) = Ret t /\
        simple_strtol (t ++ [0]) 10 = Ret v)).
Proof.
  intros Hin Hq Hr Hs Hty Hb He v t. pose proof (s16_range status).
  destruct (number_getter_handler stk sc access_ok 0 name cmd size off Hin) as (_ & _ & Hsize & Hoff & _).
  destruct (number_get_proc stk sc access_ok name cmd size off ifidx rq ty id status body e w) as (s & w' & -> & Hd & Hse); [done..|].
  fold v.
  rewrite answer_int_ok by (done || lia). fold t.
  pose proof (signed_text_zlen v 3 ltac:(lia) ltac:(lia)) as H3. change (10 ^ (3 - 1)) with 100 in H3.
  change (10 ^ 3) with 1000 in H3. pose proof (int_text_zlen v ltac:(lia)). fold t in H3, H0. split.
  - intros [-> Hv]. destruct (Z.ltb_spec (zlen t) (Z.of_nat 4)); [lia|done].
  - intros Hf. split.
    + exists s, w'. split; [|done]. destruct (Z.ltb_spec (zlen t) (Z.of_nat size)); [done|]. destruct Hsize as [-> | ->]; lia.
    + intros Hl. split; [by apply put_answer_read; [|lia|]|]. by apply strtol_signed_text; [lia|].
Qed.

(** The chip reports channel 5, and a transmit power the array has no room for. *)
Lemma number_getters_print_witness :
  let w n := demo_world [answered_by (resp_frame 3 0 0 n [])] in
  hgic_iwpriv_get_proc [] true (fun _ => true) 0 1 (query 16 "txpower") (w 1000) = Fault OutOfBounds /\
  exists s w', hgic_iwpriv_get_proc [] true (fun _ => true) 0 1 (query 16 "signal") (w 5)
    = Ret ((0, put_answer (query 16 "signal") (str "-4091")), w') /\
    skb_data s = cmd_frame 1 HGIC_CMD_GET_SIGNAL 0 [] /\ w_sent w' = [s].
Proof.
  intros w. split.
  - apply (number_getters_print [] true (fun _ => true) "txpower" HGIC_CMD_GET_TX_POWER 4 0 1 (query 16 "txpower") 3 0 1000 [] [] (w 1000));
      [by left|apply demo_quiet|by apply query_ok|by apply query_says|done..|]. split; [done|]. vm_compute. by right.
  - apply (number_getters_print [] true (fun _ => true) "signal" HGIC_CMD_GET_SIGNAL 12 0x1000 1 (query 16 "signal") 3 0 5 [] [] (w 5));
      [do 13 apply list_elem_of_further; apply list_elem_of_here|apply demo_quiet|by apply query_ok|by apply query_says|done..|]. by left.
Defined.

(** A query writes only where the user said it may.  Whatever the chip
    answers and however long it makes the text, every getter but [scan_list]
    leaves the user memory behind the given length as it was and never returns
    a length above it. *)
Lemma get_proc_respects_length stk sc access_ok unwritten ifidx rq name w r w' :
  0 <= unwritten -> request_ok rq -> says rq name -> name <> str "scan_list" ->
  hgic_iwpriv_get_proc stk sc access_ok unwritten ifidx rq w = Ret (r, w') -> respects rq (snd r).
Proof.
  intros Hu Hr Hs Hn. rewrite (get_proc_says stk sc access_ok unwritten ifidx rq name) by done.
  destruct (head _) as [[n h]|] eqn:E; simpl; [|intros [= <- <-]; apply respects_refl].
  apply head_Some_elem_of, list_elem_of_filter in E as [En Hin]. simpl in En. intros H.
  apply (getters_respectful stk sc access_ok unwritten (n, h) Hu Hin) in H; [done| |by destruct Hr].
  simpl. intros ->. by apply Hn.
Qed.

Lemma get_proc_respects_length_witness :
  exists r w', hgic_iwpriv_get_proc [] true (fun _ => true) 0 1 (query 6 "ssid")
      (demo_world [answered_by (resp_frame 3 0 0 10 (str "0123456789"))]) = Ret (r, w') /\
    snd r = Iwreq 6 (str "012345") 0 /\ respects (query 6 "ssid") (snd r).
Proof.
  assert (exists w', hgic_iwpriv_get_proc [] true (fun _ => true) 0 1 (query 6 "ssid")
      (demo_world [answered_by (resp_frame 3 0 0 10 (str "0123456789"))]) = Ret ((0, Iwreq 6 (str "012345") 0), w')) as (w' & E)
    by (eexists; vm_compute; reflexivity).
  exists (0, Iwreq 6 (str "012345") 0), w'. split; [exact E|]. split; [done|].
  exact (get_proc_respects_length [] true (fun _ => true) 0 1 (query 6 "ssid") (str "ssid") _ _ w' (Z.le_refl 0)
    (query_ok 6 "ssid" ltac:(lia)) (query_says 6 "ssid" eq_refl ltac:(done) ltac:(done)) ltac:(done) E).
Defined.

(** The exception: one access point is enough for [scan_list] to write a
    hundred bytes into a request of 16. *)
Lemma scan_list_ignores_user_length :
  exists rq' w', hgic_iwpriv_get_proc [] true (fun _ => true) 0 1 (Iwreq 16 (resize 200 0 (str "scan_list")) 0)
      (demo_world [answered_by (resp_frame 3 0 0 42 (replicate 42 0))]) = Ret ((0, rq'), w') /\ iw_length rq' = 105.
Proof. eexists _, _. split; vm_compute; reflexivity. Qed.

(** The list of stations as text.  When the chip answers the query with up to
    100 stations, the user's buffer receives the title with their number and
    one line for each, in order, with every field of its structure as a signed
    decimal and the address as six bytes -- cut to the length the user gave. *)
Lemma sta_list_text stk sc access_ok ifidx n l ty id e w :
  quiet w -> Forall station_ok l -> 1 <= zlen l <= 100 -> 8 < n < 65536 -> is_response_type ty = true ->
  w_env w = answered_by (resp_frame ty (fc_cookie (w_ctrl w)) id (12 * zlen l) (concat (map station_bytes l))) :: e ->
  let rq := query n "sta_list" in
  exists s w', hgic_iwpriv_get_proc stk sc access_ok 0 ifidx rq w
    = Ret ((0, put_answer rq (signed_text (zlen l) ++ str " sta:" ++ crlf ++ concat (map station_text l))), w') /\
    skb_data s = cmd_frame ifidx HGIC_CMD_GET_STA_LIST (fc_cookie (w_ctrl w)) [] /\ w_sent w' = w_sent w ++ [s].
Proof.
  intros Hq Hl Hn Hsz Hty He rq.
  destruct (sta_list_runs access_ok ifidx n l ty id e w Hq Hl Hn Hsz Hty He) as (s & w' & E & H).
  exists s, w'. split; [|done]. etransitivity; [|exact E].
  rewrite (get_proc_says stk sc access_ok 0 ifidx rq (str "sta_list"));
    [|apply query_ok; lia|apply query_says; [done|done|change (zlen (str "sta_list")) with 8; lia]].
  rewrite (table_found _ "sta_list" (hgic_iwpriv_get_sta_list access_ok 0)); [done|apply gets_NoDup|].
  apply list_elem_of_further, list_elem_of_here.
Qed.

Definition demo_station : station := Station 1 true (2, 0xb, 3, 4, 5, 0xff) (-45) (-20) 30 28.
Lemma sta_list_text_witness :
  let w := demo_world [answered_by (resp_frame 3 0 0 12 (station_bytes demo_station))] in
  exists s w', hgic_iwpriv_get_proc [] true (fun _ => true) 0 1 (query 200 "sta_list") w
    = Ret ((0, put_answer (query 200 "sta_list")
        (str "1 sta:" ++ crlf ++ str "aid:1, 02:0b:03:04:05:ff, ps:1, rssi:-45, evm:-20, tx_snr:30, rx_snr:28" ++ crlf)), w') /\
    skb_data s = cmd_frame 1 HGIC_CMD_GET_STA_LIST 0 [] /\ w_sent w' = [s].
Proof.
  exact (sta_list_text [] true (fun _ => true) 1 200 [demo_station] 3 0 [] _ (demo_quiet _)
    ltac:(repeat constructor; vm_compute; done) ltac:(done) ltac:(done) eq_refl eq_refl).
Defined.

(** More stations, all of them with the longest numbers: the loop lets in a
    line whose terminator falls behind the buffer. *)
Definition loud (aid tx_snr : Z) : station := Station aid false (0, 0, 0, 0, 0, 0) (-101) (-101) tx_snr (-101).
Lemma sta_list_one_byte_over :
  let l := replicate 80 (loud 100 (-10)) ++ replicate 22 (loud 100 (-101)) in
  hgic_iwpriv_get_proc [] true (fun _ => true) 0 1 (query 16 "sta_list")
    (demo_world [answered_by (resp_frame 3 0 0 (12 * zlen l) (concat (map station_bytes l)))]) = Fault OutOfBounds.
Proof. vm_compute. reflexivity. Qed.

(** The list of mesh devices leaves its buffer.  The text has room for 4096
    bytes, the loop is bounded by 8192 and counts the bytes of the answer
    instead of its structures: an answer of 158 bytes or more -- 23 devices --
    always makes the handler write behind the buffer. *)
Lemma rmesh_text_overflows stk sc access_ok ifidx n ty id status body e w :
  quiet w -> 12 < n < 65536 -> is_response_type ty = true -> zlen body < 2 ^ 30 ->
  158 <= status < 2 ^ 15 -> status <= zlen body ->
  w_env w = answered_by (resp_frame ty (fc_cookie (w_ctrl w)) id status body) :: e ->
  hgic_iwpriv_get_proc stk sc access_ok 0 ifidx (query n "rmesh_device") w = Fault OutOfBounds.
Proof.
  intros Hq Hsz Hty Hz Hs Hb He. rewrite <- (rmesh_runs access_ok ifidx n ty id status body e w) by done.
  rewrite (get_proc_says stk sc access_ok 0 ifidx _ (str "rmesh_device"));
    [|apply query_ok; lia|apply query_says; [done|done|change (zlen (str "rmesh_device")) with 12; lia]].
  rewrite (table_found _ "rmesh_device" (hgic_iwpriv_get_rmesh_device access_ok 0)); [done|apply gets_NoDup|].
  do 37 apply list_elem_of_further. apply list_elem_of_here.
Qed.

Lemma rmesh_text_overflows_witness :
  hgic_iwpriv_get_proc [] true (fun _ => true) 0 1 (query 64 "rmesh_device")
    (demo_world [answered_by (resp_frame 3 0 0 161 (concat (replicate 23 [1; 2; 3; 4; 5; 6; 7])))]) = Fault OutOfBounds.
Proof.
  exact (rmesh_text_overflows [] true (fun _ => true) 1 64 3 0 161 (concat (replicate 23 [1; 2; 3; 4; 5; 6; 7])) [] _ (demo_quiet _)
    ltac:(done) eq_refl ltac:(done) ltac:(done) ltac:(done) eq_refl).
Defined.

(** One device is seven bytes, and is listed as seven devices. *)
Lemma rmesh_counts_bytes :
  exists rq' w', hgic_iwpriv_get_proc [] true (fun _ => true) 0 1 (query 400 "rmesh_device")
      (demo_world [answered_by (resp_frame 3 0 0 7 [1; 2; 3; 4; 5; 6; 7])]) = Ret ((0, rq'), w') /\
    ztake 34 (iw_user rq') = str "7 dev:" ++ crlf ++ str "aid:1, 02:03:04:05:06:07" ++ crlf /\ iw_length rq' = 192.
Proof. eexists _, _. split; [vm_compute; reflexivity|split; vm_compute; reflexivity]. Qed.

(** The list of all commands fits its buffer: every name of both tables is in it. *)
Definition name_line (n : string) : list Z := str "  " ++ str n ++ crlf.
Definition dump_text (sets gets : list string) : list Z :=
  crlf ++ str "set:" ++ crlf ++ concat (map name_line sets) ++ str "get:" ++ crlf ++ concat (map name_line gets).

Lemma dump_names_ok names buf len :
  Forall (fun n => no_nul (str n)) names -> 0 <= len -> len + zlen (concat (map name_line names)) < 4096 -> zlen buf = 4096 ->
  exists buf', dump_names names buf len = Ret (len + zlen (concat (map name_line names)), buf') /\ zlen buf' = 4096 /\
    ztake (len + zlen (concat (map name_line names))) buf' = ztake len buf ++ concat (map name_line names).
Proof.
  intros Hn. revert buf len. induction Hn as [|n names Hn _ IH]; intros buf len H0 Hf Hb; cbn [map concat dump_names] in *.
  { exists buf. change (zlen []) with 0. by rewrite Z.add_0_r, app_nil_r. }
  rewrite zlen_app in *. pose proof (zlen_nonneg (name_line n)). pose proof (zlen_nonneg (concat (map name_line names))).
  assert (format Text (str "  %s" ++ crlf) [AMem (str n ++ [0])] = Ret (name_line n)) as Ef.
  { change (str "  %s" ++ crlf) with (str "  " ++ 37 :: 115 :: crlf). rewrite format_lit by (by repeat constructor).
    cbn [format]. change (37 =? 37) with true. change (isdigit 115) with false. change (115 =? 112) with false. change (115 =? 108) with false.
    cbn [conv_text]. change (115 =? 115) with true. rewrite cstr_app by done. cbn [obind]. rewrite pad_left_0. done. }
  destruct (snprintf_ok buf len 4096 _ _ _ Ef) as (b1 & E1 & L1 & T1); [lia|lia|lia|].
  rewrite E1. cbn [obind fst snd]. destruct (IH b1 (len + zlen (name_line n)) ltac:(lia) ltac:(lia) ltac:(lia)) as (b2 & E2 & L2 & T2).
  exists b2. rewrite Z.add_assoc. split; [done|]. split; [done|]. by rewrite T2, T1, app_assoc.
Qed.

Lemma dump_lists_all stk sc access_ok rq w :
  quiet w -> request_ok rq ->
  let t := dump_text (map fst (hgpriv_sets stk sc)) (map fst (hgpriv_gets stk sc access_ok 0)) in
  hgic_iwpriv_dump stk sc access_ok 0 rq w = Ret ((zlen t, put_answer rq t), w) /\ zlen t < 4096.
Proof.
  intros Hq Hr t. unfold hgic_iwpriv_dump. destruct (kmalloc_quiet 4096 w Hq ltac:(lia)) as (b & E & Hb).
  rewrite (bind_Ret _ _ _ _ _ E). subst t. unfold dump_text.
  assert (forall l, forallb (fun n => forallb (fun b => negb (b =? 0)) (str n)) l = true -> Forall (fun n => no_nul (str n)) l) as Hnn.
  { intros l H. rewrite forallb_forall in H. apply Forall_forall. intros n Hn%list_elem_of_In. specialize (H n Hn).
    rewrite forallb_forall in H. apply Forall_forall. intros c Hc%list_elem_of_In. specialize (H c Hc). lia. }
  set (sets := map fst (hgpriv_sets stk sc)). set (gets := map fst (hgpriv_gets stk sc access_ok 0)).
  assert (Forall (fun n => no_nul (str n)) sets) as Hs by (apply Hnn; vm_compute; done).
  assert (Forall (fun n => no_nul (str n)) gets) as Hg by (apply Hnn; vm_compute; done).
  set (S1 := concat (map name_line sets)). set (G1 := concat (map name_line gets)).
  assert (zlen S1 = 1553) as Zs by (vm_compute; done). assert (zlen G1 = 475) as Zg by (vm_compute; done).
  clearbody sets gets.
  destruct (snprintf_ok b 0 4096 (crlf ++ str "set:" ++ crlf) [] (crlf ++ str "set:" ++ crlf)) as (b1 & E1 & L1 & T1);
    [by rewrite format_nil by (by repeat constructor)|lia|change (zlen (crlf ++ str "set:" ++ crlf)) with 8; lia|lia|].
  change (zlen (crlf ++ str "set:" ++ crlf)) with 8 in *.
  destruct (dump_names_ok sets b1 8 Hs ltac:(lia) ltac:(fold S1; lia) ltac:(lia)) as (b2 & E2 & L2 & T2). fold S1 in E2, T2.
  destruct (snprintf_ok b2 (8 + zlen S1) 4096 (str "get:" ++ crlf) [] (str "get:" ++ crlf)) as (b3 & E3 & L3 & T3);
    [by rewrite format_nil by (by repeat constructor)|lia|change (zlen (str "get:" ++ crlf)) with 6; lia|lia|].
  change (zlen (str "get:" ++ crlf)) with 6 in *.
  destruct (dump_names_ok gets b3 (8 + zlen S1 + 6) Hg ltac:(lia) ltac:(fold G1; lia) ltac:(lia)) as (b4 & E4 & L4 & T4). fold G1 in E4, T4.
  erewrite bind_lift; [|rewrite E1; cbn [obind fst snd]; rewrite E2; cbn [obind fst snd]; rewrite E3; cbn [obind fst snd]; exact E4].
  cbn [fst snd]. rewrite Z.add_0_l in T1. rewrite T3, T2, T1, ztake_0 in T4. cbn [app] in T4.
  match goal with |- context [put_answer rq ?x] => set (T := x) end.
  assert (zlen T = 8 + zlen S1 + 6 + zlen G1) as Ht by (unfold T; rewrite !zlen_app; change (zlen crlf) with 2; change (zlen (str "set:")) with 4; change (zlen (str "get:")) with 4; lia).
  rewrite <- Ht in T4 |- *. split; [|lia].
  assert (ztake (zlen T) b4 = T) as Et by (rewrite T4; unfold T; rewrite <- !app_assoc; done).
  rewrite <- (ztake_zdrop (zlen T) b4), Et.
  by rewrite (bind_lift _ _ _ _ (copyto_ok access_ok 0 rq T _ eq_refl Hr)).
Qed.
