(* ===== verification/BootDl.v ===== *)
(** * Boot download (utils/fwdl.c)

    The driver asks the chip's boot loader for its state, writes the firmware
    image into its memory in fragments -- a write-memory command followed by a
    data frame -- and tells it to run the code.  Commands travel over the
    control channel of FwCtrl; the answer to a data frame carries the cookie of
    the command before it.

    The kernel's firmware loader is the parameter [request_firmware]: its
    return code and the bytes of the image. *)
From Stdlib Require Import String.
From S2P Require Import Prelude Bytes CString Proto Skb FwInfo FwCtrl.

(** ** Data *)
Definition HG_BOOTDL_CMD_ENTER : Z := 0x00.
Definition HG_BOOTDL_CMD_WRITE_MEM : Z := 0x02.
Definition HG_BOOTDL_CMD_RUN : Z := 0x04.
Definition HG_BOOT_CMD_RUN_PREACT_AES_DEC : Z := 2 ^ 31.
Definition HG_BOOT_CMD_RUN_PREACT_CRC_CHK : Z := 2 ^ 30.
Definition HG_BOOT_CMD_RUN_PREACT_SP_CFG : Z := 2 ^ 29.
Definition HG_BOOTDL_CMD_WRITE_MEM_TMO : Z := 1000.
Definition HG_BOOTDL_CMD_NORMAL_TMO : Z := 100.
Definition STATE_FW : Z := 0.
Definition STATE_BOOT : Z := 1.
Definition HGIC_BUS_BOOTDL_CHECK_SUM : Z := 0.
Definition HGIC_BUS_BOOTDL_CHECK_CRC8 : Z := 1.
Definition HGIC_BUS_BOOTDL_CHECK_0XFD : Z := 2.
Definition HG_BOOTDL_RSP_ERR_IN_FW : Z := 0xFF.
Definition HG_BOOTDL_ERR_RSP_PACKET : Z := 2.
Definition BOOT_CMD_KEY : list Z := str "@huge-ic"%string.
(** Both headers are packed: [struct hgic_hdr] (8 bytes), then the fields. *)
Definition sizeof_hgic_bootdl_cmd_hdr : Z := 20.

Record hgic_bootdl_fw_info := BootFwInfo {
  bi_write_addr : Z; bi_aes_en : Z; bi_crc_en : Z; bi_sp_cfg : Z;
  bi_fw_len : Z; bi_local_crc32 : Z; bi_hdr_len : Z }.

Record hgic_bootdl := BootDl {
  bd_fw_info : hgic_bootdl_fw_info;
  bd_checksum_mode : Z;
  bd_last_cookie : Z;
  bd_frag_size : Z;
  bd_fw : option (list Z) }.

(** The downloader and the world of the control channel it uses. *)
Record boot := Boot { b_dl : hgic_bootdl; b_w : world }.

#[export] Instance world_in_boot : Inside world boot.
Proof. by refine {| part := b_w; put_part w b := Boot (b_dl b) w |}; [|intros []|]. Defined.
Definition on_dl (g : hgic_bootdl -> hgic_bootdl) (b : boot) : boot := Boot (g (b_dl b)) (b_w b).
Definition set_fw_info v (d : hgic_bootdl) :=
  BootDl v (bd_checksum_mode d) (bd_last_cookie d) (bd_frag_size d) (bd_fw d).
Definition set_last_cookie v (d : hgic_bootdl) :=
  BootDl (bd_fw_info d) (bd_checksum_mode d) v (bd_frag_size d) (bd_fw d).
Definition set_fw v (d : hgic_bootdl) :=
  BootDl (bd_fw_info d) (bd_checksum_mode d) (bd_last_cookie d) (bd_frag_size d) v.
Definition on_info (g : hgic_bootdl_fw_info -> hgic_bootdl_fw_info) : M boot unit :=
  modify (on_dl (fun d => set_fw_info (g (bd_fw_info d)) d)).

Definition hgic_bootdl_init (bus : hgic_bus) : hgic_bootdl :=
  BootDl (BootFwInfo 0 0 0 0 0 0 0) (u8 (bootdl_cksum bus)) 0 (u32 (bootdl_pktlen bus)) None.

(** ** Commands *)
Definition crc8 (p_buf : list Z) (len : Z) : Z := 0.

Definition hgic_bootdl_cmd_check_val (check_mode : Z) (m : list Z) (off len : Z) : outcome Z :=
  if check_mode =? HGIC_BUS_BOOTDL_CHECK_SUM then
    leto bs := mem_read m off len in Ret (fold_left (fun a b => u8 (a + b)) bs 0)
  else if check_mode =? HGIC_BUS_BOOTDL_CHECK_CRC8 then Ret (crc8 m len)
  else if check_mode =? HGIC_BUS_BOOTDL_CHECK_0XFD then Ret 0xFD
  else Ret 0.

Definition hgic_bootdl_alloc_cmd_skb (cmd_id : Z) : M boot (option skb) :=
  let! s := on_world (dev_alloc_skb (sizeof_hgic_bootdl_cmd_hdr + 4)) in
  match s with
  | None => ret None
  | Some s =>
      let! mode := gets (fun b => bd_checksum_mode (b_dl b)) in
      let! s := lift (skb_write s 0 (replicate (Z.to_nat sizeof_hgic_bootdl_cmd_hdr) 0)) in
      let! s := lift (skb_write s 8 [u8 cmd_id]) in
      let! s := lift (skb_write s 9 [12]) in
      let! s := lift (skb_write s 10 [mode]) in
      let! s := lift (skb_put s sizeof_hgic_bootdl_cmd_hdr) in
      ret (Some s)
  end.

(** Bytes of a response: command 8, result 9, data 10-13, check 15. *)
Definition hgic_bootdl_cmd_rsp_handle (cmd_flag cmd : Z) (resp : list Z) : outcome Z :=
  leto check := mem_get resp 15 in
  leto v := hgic_bootdl_cmd_check_val cmd_flag resp 8 8 in
  if negb (check =? v) then Ret HG_BOOTDL_ERR_RSP_PACKET else
  leto c := mem_get resp 8 in
  if negb (c =? cmd) then Ret HG_BOOTDL_ERR_RSP_PACKET else
  mem_get resp 9.

Definition fill_boot_hdr (cookie : Z) (d : list Z) : outcome (list Z) :=
  leto d := put16_at d 0 HGIC_HDR_TX_MAGIC in
  leto d := put16_at d 4 (zlen d) in
  leto d := put16_at d 6 cookie in
  put8_at d 2 HGIC_HDR_TYPE_BOOTDL.

Definition hgic_bootdl_send_cmd (s : skb) (timeout : Z) : M boot (option skb) :=
  let! cookie := on_world hgic_ctrl_cookie in
  let! s := lift (skb_update s (fill_boot_hdr cookie)) in
  modify (on_dl (set_last_cookie cookie)) ;;;
  on_world (hgic_fwctrl_send_data s cookie timeout).

Definition fill_boot_data_hdr (d : list Z) : outcome (list Z) :=
  leto d := mem_write d 0 (replicate (Z.to_nat sizeof_hgic_bootdl_cmd_hdr) 0) in
  leto d := put16_at d 0 HGIC_HDR_TX_MAGIC in
  put8_at d 2 HGIC_HDR_TYPE_BOOTDL_DATA.

Definition hgic_bootdl_send_data (s : skb) (timeout : Z) : M boot (option skb) :=
  let! cookie := gets (fun b => bd_last_cookie (b_dl b)) in
  let! s := lift (skb_push s sizeof_hgic_bootdl_cmd_hdr) in
  let! s := lift (skb_update s fill_boot_data_hdr) in
  on_world (hgic_fwctrl_send_data s cookie timeout).

Definition skb_mem (s : skb) : list Z := skb_data s ++ skb_tail s.

Definition hgic_bootdl_send_fw (s : option skb) (tmo : Z) : M boot Z :=
  match s with
  | None => ret (- EINVAL)
  | Some s =>
      let! resp := hgic_bootdl_send_data s tmo in
      match resp with
      | Some resp => lift (mem_get (skb_mem resp) 9)
      | None => ret (- EFAULT)
      end
  end.

(** [resp_data] is the caller's output word, if it passes one. *)
Definition hgic_bootdl_send_cmd_tmo (s : skb) (timeout : Z) (resp_data : option Z)
  : M boot (Z * option Z) :=
  let! cmd_flag := lift (mem_get (skb_mem s) 10) in
  let! cmd := lift (mem_get (skb_mem s) 8) in
  let! resp := hgic_bootdl_send_cmd s timeout in
  match resp with
  | Some resp =>
      let! r := lift (hgic_bootdl_cmd_rsp_handle cmd_flag cmd (skb_mem resp)) in
      if negb (r =? 0) && negb (r =? HG_BOOTDL_RSP_ERR_IN_FW) then ret (r, resp_data) else
      match resp_data with
      | Some _ => let! v := lift (get32_at (skb_mem resp) 10) in ret (r, Some v)
      | None => ret (r, None)
      end
  | None => ret (-1, resp_data)
  end.

(** The address and length fields, and the check byte over the eleven bytes
    from the command on. *)
Definition fill_boot_cmd (a l : list Z) (s : skb) : M boot skb :=
  let! mode := gets (fun b => bd_checksum_mode (b_dl b)) in
  let! s := lift (skb_write s 11 a) in
  let! s := lift (skb_write s 15 l) in
  let! c := lift (hgic_bootdl_cmd_check_val mode (skb_mem s) 8 11) in
  lift (skb_write s 19 [c]).

Definition hgic_bootdl_cmd_enter : M boot Z :=
  let! s := hgic_bootdl_alloc_cmd_skb HG_BOOTDL_CMD_ENTER in
  match s with
  | None => ret (- ENOMEM)
  | Some s =>
      let! s := fill_boot_cmd (ztake 4 BOOT_CMD_KEY) (zdrop 4 BOOT_CMD_KEY) s in
      let! r := hgic_bootdl_send_cmd_tmo s HG_BOOTDL_CMD_NORMAL_TMO None in
      if (fst r =? 0) || (fst r =? HG_BOOTDL_RSP_ERR_IN_FW) then
        ret (if fst r =? HG_BOOTDL_RSP_ERR_IN_FW then STATE_FW else STATE_BOOT)
      else ret (fst r)
  end.

Definition is_sdio (b : boot) : bool :=
  match bus_type (fc_bus (w_ctrl (b_w b))) with HGIC_BUS_SDIO => true | _ => false end.

Definition hgic_bootdl_cmd_write_memory (write_addr data_len : Z) : M boot Z :=
  let! s := hgic_bootdl_alloc_cmd_skb HG_BOOTDL_CMD_WRITE_MEM in
  match s with
  | None => ret (- ENOMEM)
  | Some s =>
      let! sdio := gets is_sdio in
      let! s := fill_boot_cmd (put_unaligned_le32 write_addr)
        (put_unaligned_le32 (if sdio then data_len else u32 (data_len + 1024))) s in
      let! r := hgic_bootdl_send_cmd_tmo s HG_BOOTDL_CMD_NORMAL_TMO None in
      ret (fst r)
  end.

(** The length word of the run command: the code length and three flags. *)
Definition run_word (i : hgic_bootdl_fw_info) : Z :=
  let temp := bi_fw_len i in
  let temp := if negb (bi_aes_en i =? 0) then Z.lor temp HG_BOOT_CMD_RUN_PREACT_AES_DEC else temp in
  let temp := if negb (bi_crc_en i =? 0) then Z.lor temp HG_BOOT_CMD_RUN_PREACT_CRC_CHK else temp in
  if negb (bi_sp_cfg i =? 0) then Z.lor temp HG_BOOT_CMD_RUN_PREACT_SP_CFG else temp.

Definition hgic_bootdl_cmd_run : M boot Z :=
  let! s := hgic_bootdl_alloc_cmd_skb HG_BOOTDL_CMD_RUN in
  match s with
  | None => ret (- ENOMEM)
  | Some s =>
      let! i := gets (fun b => bd_fw_info (b_dl b)) in
      let! s := fill_boot_cmd (put_unaligned_le32 (bi_write_addr i)) (put_unaligned_le32 (run_word i)) s in
      let! r := hgic_bootdl_send_cmd_tmo s HG_BOOTDL_CMD_NORMAL_TMO None in
      ret (fst r)
  end.

(** ** Downloading *)
(** The kernel's [ALIGN] on a 32-bit unsigned value. *)
Definition align32 (x a : Z) : Z := Z.land (u32 (x + (a - 1))) (u32 (Z.lnot (a - 1))).

Definition hgic_bootdl_fragment_proc (b : boot) (copy_len : Z) : Z :=
  let frag_size := bd_frag_size (b_dl b) in
  if is_sdio b then
    if copy_len <? frag_size then align32 copy_len (blk_size (fc_bus (w_ctrl (b_w b)))) else frag_size
  else if frag_size <? copy_len then frag_size else copy_len.

Section Download.
Variable request_firmware : list Z -> Z * list Z.

Definition hgic_bootdl_parse_fw (fw_name : list Z) : M boot Z :=
  let r := fst (request_firmware fw_name) in
  let fw := snd (request_firmware fw_name) in
  if negb (r =? 0) then ret r else
  modify (on_dl (set_fw (Some fw))) ;;;
  let! v := lift (hgic_get_fw_dl_addr (Some fw)) in
  on_info (fun i => BootFwInfo (fst v) (bi_aes_en i) (bi_crc_en i) (bi_sp_cfg i) (bi_fw_len i)
                               (bi_local_crc32 i) (bi_hdr_len i)) ;;;
  if negb (snd v =? 0) then ret (snd v) else
  let! v := lift (hgic_get_fw_aes_en (Some fw)) in
  on_info (fun i => BootFwInfo (bi_write_addr i) (u8 (fst v)) (bi_crc_en i) (bi_sp_cfg i) (bi_fw_len i)
                               (bi_local_crc32 i) (bi_hdr_len i)) ;;;
  if negb (snd v =? 0) then ret (snd v) else
  let! v := lift (hgic_get_fw_crc_en (Some fw)) in
  on_info (fun i => BootFwInfo (bi_write_addr i) (bi_aes_en i) (u8 (fst v)) (bi_sp_cfg i) (bi_fw_len i)
                               (bi_local_crc32 i) (bi_hdr_len i)) ;;;
  if negb (snd v =? 0) then ret (snd v) else
  let! v := lift (hgic_get_fw_local_crc32 (Some fw)) in
  on_info (fun i => BootFwInfo (bi_write_addr i) (bi_aes_en i) (bi_crc_en i) (bi_sp_cfg i) (bi_fw_len i)
                               (fst v) (bi_hdr_len i)) ;;;
  if negb (snd v =? 0) then ret (snd v) else
  let! v := lift (hgic_get_fw_code_offset (Some fw)) in
  on_info (fun i => BootFwInfo (bi_write_addr i) (bi_aes_en i) (bi_crc_en i) (bi_sp_cfg i) (bi_fw_len i)
                               (bi_local_crc32 i) (fst v)) ;;;
  if negb (snd v =? 0) then ret (snd v) else
  on_info (fun i => BootFwInfo (bi_write_addr i) (bi_aes_en i) (bi_crc_en i) 1
                               (u32 (zlen fw - bi_hdr_len i)) (bi_local_crc32 i) (bi_hdr_len i)) ;;;
  ret 0.

(** The fragment buffer: room for the header, then the bytes at [addr_offset]
    of the code. *)
Definition fragment_skb (addr_offset xfer_len : Z) : M boot (option skb) :=
  let! s := on_world (dev_alloc_skb (xfer_len + sizeof_hgic_bootdl_cmd_hdr)) in
  match s with
  | None => ret None
  | Some s =>
      let! s := lift (skb_reserve s sizeof_hgic_bootdl_cmd_hdr) in
      let! d := gets b_dl in
      let! fw := lift (deref (bd_fw d)) in
      let! bs := lift (mem_read fw (bi_hdr_len (bd_fw_info d) + addr_offset) xfer_len) in
      let! s := lift (skb_write s 0 bs) in
      let! s := lift (skb_put s xfer_len) in
      ret (Some s)
  end.

(** The loop, and the run command after it.  A round sends at least one byte
    when [frag_size] is positive, so [copy_len] rounds are enough. *)
Fixpoint download_loop (fuel : nat) (write_addr copy_len addr_offset : Z) : M boot Z :=
  if copy_len <=? 0 then hgic_bootdl_cmd_run else
  match fuel with
  | O => fail Diverges
  | S fuel =>
      let! xfer_len := gets (fun b => hgic_bootdl_fragment_proc b (u32 copy_len)) in
      let! s := fragment_skb addr_offset xfer_len in
      match s with
      | None => ret (- ENOMEM)
      | Some s =>
          let! r := hgic_bootdl_cmd_write_memory write_addr (skb_len s) in
          if negb (r =? 0) then ret r else
          let! r := hgic_bootdl_send_fw (Some s) HG_BOOTDL_CMD_WRITE_MEM_TMO in
          if negb (r =? 0) then ret r else
          download_loop fuel (u32 (write_addr + xfer_len)) (s32 (copy_len - xfer_len))
                        (u32 (addr_offset + xfer_len))
      end
  end.

Definition hgic_bootdl_download (fw_path : option (list Z)) : M boot Z :=
  match fw_path with
  | None => ret (- EINVAL)
  | Some fw_path =>
      let! r := hgic_bootdl_parse_fw fw_path in
      let! d := gets b_dl in
      let! r := (if negb (r =? 0) || match bd_fw d with None => true | _ => false end then ret r
                 else let copy_len := s32 (bi_fw_len (bd_fw_info d)) in
                      download_loop (Z.to_nat copy_len) (bi_write_addr (bd_fw_info d)) copy_len 0) in
      modify (on_dl (set_fw None)) ;;;
      ret r
  end.
End Download.

(** ** Frames *)
(** The check byte of the bytes [bs] in a mode. *)
Definition check_of (mode : Z) (bs : list Z) : Z :=
  if mode =? HGIC_BUS_BOOTDL_CHECK_SUM then fold_left (fun a b => u8 (a + b)) bs 0
  else if mode =? HGIC_BUS_BOOTDL_CHECK_CRC8 then 0
  else if mode =? HGIC_BUS_BOOTDL_CHECK_0XFD then 0xFD else 0.

Definition boot_cmd_frame (mode cookie cmd : Z) (a l : list Z) : list Z :=
  [0x2B; 0x1A; 7; 0] ++ put_unaligned_le16 20 ++ put_unaligned_le16 cookie
  ++ ([cmd; 12; mode] ++ a ++ l) ++ [check_of mode ([cmd; 12; mode] ++ a ++ l)].

Definition boot_data_frame (bs : list Z) : list Z :=
  [0x2B; 0x1A; 15; 0] ++ replicate 16 0 ++ bs.

(** A response: the command echoed, the result byte, four bytes of data, a
    reserved byte and the check byte. *)
Definition boot_resp (cookie cmd rsp : Z) (rd : list Z) (rsv check : Z) : list Z :=
  [0x1A; 0x2B; 7; 1; 16; 0] ++ put_unaligned_le16 cookie ++ ([cmd; rsp] ++ rd ++ [rsv; check]).

Lemma check_val_spec mode m pre bs post off n :
  m = pre ++ bs ++ post -> off = zlen pre -> n = zlen bs ->
  hgic_bootdl_cmd_check_val mode m off n = Ret (check_of mode bs).
Proof.
  intros Em Eo En. unfold hgic_bootdl_cmd_check_val, check_of, crc8.
  rewrite (mem_read_mid _ pre bs post) by done. by repeat case_match.
Qed.

Lemma rsp_handle_spec mode cmd cookie c rsp rd rsv check :
  zlen rd = 4 ->
  hgic_bootdl_cmd_rsp_handle mode cmd (boot_resp cookie c rsp rd rsv check)
  = Ret (if (check =? check_of mode ([c; rsp] ++ rd ++ [rsv; check])) && (c =? cmd) then rsp
         else HG_BOOTDL_ERR_RSP_PACKET).
Proof.
  intros Hrd. assert (exists a b e f, rd = [a; b; e; f]) as (a & b & e & f & ->).
  { unfold zlen in Hrd. destruct rd as [|a [|b [|e [|f [|? ?]]]]]; simpl in Hrd; try lia. eauto. }
  unfold hgic_bootdl_cmd_rsp_handle.
  rewrite (check_val_spec mode _ ([0x1A; 0x2B; 7; 1; 16; 0] ++ put_unaligned_le16 cookie)
    ([c; rsp; a; b; e; f; rsv; check]) []) by done.
  change (mem_get _ 15) with (Ret check). change (mem_get _ 8) with (Ret c).
  change (mem_get _ 9) with (Ret rsp). cbn [obind app].
  by destruct (_ =? _); cbn; [destruct (_ =? _)|].
Qed.

(** ** One exchange *)
Lemma alloc_cmd_skb_spec id b :
  w_alloc (b_w b) = [] ->
  hgic_bootdl_alloc_cmd_skb id b
  = Ret (Some (Skb [] (replicate 8 0 ++ [u8 id; 12; bd_checksum_mode (b_dl b)] ++ replicate 9 0) (replicate 4 0)), b).
Proof.
  intros Ha. unfold hgic_bootdl_alloc_cmd_skb, bind at 1, on_world, on_part, part, put_part, world_in_boot, dev_alloc_skb, bind at 1.
  rewrite alloc_empty by (done || (unfold sizeof_hgic_bootdl_cmd_hdr; lia)). by destruct b.
Qed.

Lemma fill_boot_cmd_spec id a l b :
  zlen a = 4 -> zlen l = 4 -> let mode := bd_checksum_mode (b_dl b) in
  fill_boot_cmd a l (Skb [] (replicate 8 0 ++ [u8 id; 12; mode] ++ replicate 9 0) (replicate 4 0)) b
  = Ret (Skb [] (replicate 8 0 ++ ([u8 id; 12; mode] ++ a ++ l) ++ [check_of mode ([u8 id; 12; mode] ++ a ++ l)])
             (replicate 4 0), b).
Proof.
  intros Ha Hl mode.
  assert (exists a1 a2 a3 a4, a = [a1; a2; a3; a4]) as (a1 & a2 & a3 & a4 & ->).
  { unfold zlen in Ha. destruct a as [|? [|? [|? [|? [|? ?]]]]]; simpl in Ha; try lia. eauto. }
  assert (exists a1 a2 a3 a4, l = [a1; a2; a3; a4]) as (l1 & l2 & l3 & l4 & ->).
  { unfold zlen in Hl. destruct l as [|? [|? [|? [|? [|? ?]]]]]; simpl in Hl; try lia. eauto. }
  unfold fill_boot_cmd, bind at 1, gets. fold mode.
  erewrite bind_lift by reflexivity. erewrite bind_lift by reflexivity. erewrite bind_lift; cycle 1.
  { exact (check_val_spec mode _ (replicate 8 0) ([u8 id; 12; mode] ++ [a1; a2; a3; a4] ++ [l1; l2; l3; l4])
      ([0] ++ replicate 4 0) 8 11 eq_refl eq_refl eq_refl). }
  reflexivity.
Qed.

Definition boot_after (s : skb) (b : boot) : boot :=
  Boot (set_last_cookie (fc_cookie (w_ctrl (b_w b))) (b_dl b)) (exchanged s (take_cookie (b_w b))).

Lemma resp_type cookie cmd rsp rd rsv check : hdr_type (boot_resp cookie cmd rsp rd rsv check) = Ret 7.
Proof. done. Qed.
Lemma resp_cookie cookie cmd rsp rd rsv check :
  hdr_cookie (boot_resp cookie cmd rsp rd rsv check) = Ret (u16 cookie).
Proof. by apply (get16_at_mid _ [0x1A; 0x2B; 7; 1; 16; 0] _ ([cmd; rsp] ++ rd ++ [rsv; check])). Qed.

Lemma send_data_exchange s c cookie cmd rsp rd rsv check e tmo w :
  quiet w -> w_env w = answered_by (boot_resp cookie cmd rsp rd rsv check) :: e -> tmo <> 0 ->
  c = u16 cookie -> zlen rd = 4 ->
  hgic_fwctrl_send_data s c tmo w
  = Ret (Some (Skb [] (boot_resp cookie cmd rsp rd rsv check) []), exchanged s w).
Proof.
  intros [] He Ht -> Hrd. apply (send_data_frame s _ 7 _ e); try done.
  - apply resp_cookie.
  - unfold boot_resp. rewrite !zlen_app, Hrd, put_le16_zlen. done.
  - unfold alloc_fails. by rewrite q_alloc.
Qed.

Lemma fill_boot_hdr_spec c body :
  zlen body = 12 ->
  fill_boot_hdr c (replicate 8 0 ++ body)
  = Ret ([0x2B; 0x1A; 7; 0] ++ put_unaligned_le16 20 ++ put_unaligned_le16 c ++ body).
Proof.
  intros Hb. unfold fill_boot_hdr, put16_at, put8_at.
  rewrite (mem_write_mid _ [] [0; 0] (replicate 6 0 ++ body)) by done. cbn [obind app].
  replace (zlen (_ ++ _ ++ body)) with 20 by (rewrite !zlen_app, Hb; done).
  rewrite (mem_write_mid _ [43; 26; 0; 0] [0; 0] ([0; 0] ++ body)) by done. cbn [obind].
  rewrite (mem_write_mid _ ([43; 26; 0; 0] ++ put_unaligned_le16 20) [0; 0] body) by done. cbn [obind].
  by rewrite (mem_write_mid _ [43; 26] [0] ([0] ++ put_unaligned_le16 20 ++ put_unaligned_le16 c ++ body)).
Qed.

(** A command before and after its header is filled in. *)
Definition boot_body (mode id : Z) (a l : list Z) : list Z :=
  ([id; 12; mode] ++ a ++ l) ++ [check_of mode ([id; 12; mode] ++ a ++ l)].
Definition boot_unsent (mode id : Z) (a l : list Z) : skb :=
  Skb [] (replicate 8 0 ++ boot_body mode id a l) (replicate 4 0).
Definition boot_skb (b : boot) (id : Z) (a l : list Z) : skb :=
  Skb [] (boot_cmd_frame (bd_checksum_mode (b_dl b)) (fc_cookie (w_ctrl (b_w b))) id a l) (replicate 4 0).

Lemma boot_send_cmd_spec mode id a l tmo b :
  zlen a = 4 -> zlen l = 4 -> mode = bd_checksum_mode (b_dl b) ->
  hgic_bootdl_send_cmd (boot_unsent mode id a l) tmo b
  = on_world (hgic_fwctrl_send_data (boot_skb b id a l) (fc_cookie (w_ctrl (b_w b))) tmo)
      (Boot (set_last_cookie (fc_cookie (w_ctrl (b_w b))) (b_dl b)) (take_cookie (b_w b))).
Proof.
  intros Ha Hl ->. unfold hgic_bootdl_send_cmd, boot_unsent, skb_update. cbn [skb_data skb_head skb_tail].
  unfold bind at 1. unfold on_world, on_part, part, put_part, world_in_boot. rewrite ctrl_cookie_spec.
  rewrite fill_boot_hdr_spec by (unfold boot_body; rewrite !zlen_app, Ha, Hl; done). reflexivity.
Qed.

(** What a command's caller gets from an answer. *)
Definition rsp_of (mode id c rsp : Z) (rd : list Z) (rsv check : Z) : Z :=
  if (check =? check_of mode ([c; rsp] ++ rd ++ [rsv; check])) && (c =? id) then rsp
  else HG_BOOTDL_ERR_RSP_PACKET.

Lemma send_tmo_answered mode id a l tmo c rsp rd rsv check e b :
  quiet (b_w b) -> zlen a = 4 -> zlen l = 4 -> tmo <> 0 -> mode = bd_checksum_mode (b_dl b) -> zlen rd = 4 ->
  w_env (b_w b) = answered_by (boot_resp (fc_cookie (w_ctrl (b_w b))) c rsp rd rsv check) :: e ->
  hgic_bootdl_send_cmd_tmo (boot_unsent mode id a l) tmo None b
  = Ret ((rsp_of mode id c rsp rd rsv check, None), boot_after (boot_skb b id a l) b).
Proof.
  intros Hq Ha Hl Ht Em Hrd He. unfold hgic_bootdl_send_cmd_tmo.
  rewrite (bind_lift _ _ _ mode), (bind_lift _ _ _ id) by done.
  unfold bind at 1. rewrite boot_send_cmd_spec by done. unfold on_world, on_part, part, put_part, world_in_boot. cbn [b_w b_dl].
  pose proof (q_cookie _ Hq) as Hc. unfold HGIC_TX_COOKIE_MASK in Hc.
  erewrite send_data_exchange; [|by apply quiet_cookie|exact He|done|by rewrite u16_id by lia|done].
  unfold skb_mem. cbn [skb_data skb_tail]. rewrite app_nil_r.
  rewrite (bind_lift _ _ _ _ (rsp_handle_spec mode id _ c rsp rd rsv check Hrd)).
  fold (rsp_of mode id c rsp rd rsv check). by destruct (negb _ && negb _).
Qed.

(** A chip that says nothing any more. *)
Definition silent (w : world) : Prop := w_alloc w = [] /\ w_env w = [].

Lemma send_tmo_timeout mode id a l tmo b :
  silent (b_w b) -> zlen a = 4 -> zlen l = 4 -> tmo <> 0 -> mode = bd_checksum_mode (b_dl b) ->
  exists b', hgic_bootdl_send_cmd_tmo (boot_unsent mode id a l) tmo None b = Ret ((-1, None), b') /\
    silent (b_w b') /\ fc_bus (w_ctrl (b_w b')) = fc_bus (w_ctrl (b_w b)) /\ w_sent (b_w b') = w_sent (b_w b).
Proof.
  intros [Hal He] Ha Hl Ht Em. unfold hgic_bootdl_send_cmd_tmo.
  rewrite (bind_lift _ _ _ mode), (bind_lift _ _ _ id) by done.
  unfold bind at 1. rewrite boot_send_cmd_spec by done. unfold on_world, on_part, part, put_part, world_in_boot. cbn [b_w b_dl].
  rewrite send_data_spec by done. unfold bind, wait. cbn [asleep on_ctrl log_call w_env take_cookie].
  rewrite He. eexists. split; [reflexivity|]. by split.
Qed.

Lemma alloc_fill id a l (b : boot) :
  w_alloc (b_w b) = [] -> 0 <= id < 256 -> zlen a = 4 -> zlen l = 4 ->
  let mode := bd_checksum_mode (b_dl b) in exists s,
  hgic_bootdl_alloc_cmd_skb id b = Ret (Some s, b) /\
    fill_boot_cmd a l s b = Ret (boot_unsent mode id a l, b).
Proof.
  intros Hw Hid Ha Hl mode. eexists. split; [by apply alloc_cmd_skb_spec|].
  rewrite fill_boot_cmd_spec by done. by rewrite (u8_id id) by lia.
Qed.

(** ** A whole download on a chip that answers every frame *)
Definition next (c : Z) : Z := (c + 1) mod 2 ^ 15.

(** The answer that accepts a command, in any check mode. *)
Definition ok_resp (mode cookie cmd : Z) : list Z :=
  boot_resp cookie cmd 0 [0; 0; 0; 0] (u8 (- cmd)) (if mode =? HGIC_BUS_BOOTDL_CHECK_0XFD then 0xFD else 0).

Lemma ok_rsp_of mode cmd :
  0 <= cmd < 256 ->
  rsp_of mode cmd cmd 0 [0; 0; 0; 0] (u8 (- cmd)) (if mode =? HGIC_BUS_BOOTDL_CHECK_0XFD then 0xFD else 0) = 0.
Proof.
  intros Hc. unfold rsp_of. rewrite Z.eqb_refl, andb_true_r.
  assert (forall a b : Z, a = b -> (if a =? b then 0 else HG_BOOTDL_ERR_RSP_PACKET) = 0) as K
    by (intros a b ->; by rewrite Z.eqb_refl).
  apply K. unfold check_of, HGIC_BUS_BOOTDL_CHECK_SUM, HGIC_BUS_BOOTDL_CHECK_CRC8, HGIC_BUS_BOOTDL_CHECK_0XFD.
  destruct (Z.eqb_spec mode 0) as [->|]; [|by destruct (Z.eqb_spec mode 1) as [->|]].
  cbn [app fold_left]. change (0 =? 2) with false. cbv iota.
  rewrite (Z.add_0_l cmd), !Z.add_0_r, (u8_id cmd), !(u8_id cmd) by lia.
  unfold u8. rewrite Z.add_mod_idemp_r by lia. by rewrite Z.add_opp_diag_r.
Qed.

Fixpoint boot_script (mode cookie : Z) (n : nat) : list (list action) :=
  match n with
  | O => [answered_by (ok_resp mode cookie HG_BOOTDL_CMD_RUN)]
  | S n => answered_by (ok_resp mode cookie HG_BOOTDL_CMD_WRITE_MEM)
           :: answered_by (ok_resp mode cookie HG_BOOTDL_CMD_WRITE_MEM)
           :: boot_script mode (next cookie) n
  end.

(** The length a fragment is announced with. *)
Definition announced (sdio : bool) (n : Z) : Z := if sdio then n else u32 (n + 1024).

(** The frames of a download: each fragment is announced with its address and
    its length -- plus 1024 on a bus other than SDIO --, and the last frame tells
    the chip to run the code. *)
Fixpoint boot_frames (sdio : bool) (mode cookie addr : Z) (frags : list (list Z)) (run : Z -> list Z) : list (list Z) :=
  match frags with
  | [] => [run cookie]
  | bs :: frags =>
      [boot_cmd_frame mode cookie HG_BOOTDL_CMD_WRITE_MEM (put_unaligned_le32 addr)
         (put_unaligned_le32 (announced sdio (zlen bs)));
       boot_data_frame bs]
      ++ boot_frames sdio mode (next cookie) (u32 (addr + zlen bs)) frags run
  end.

Definition run_frame (mode : Z) (i : hgic_bootdl_fw_info) (cookie : Z) : list Z :=
  boot_cmd_frame mode cookie HG_BOOTDL_CMD_RUN (put_unaligned_le32 (bi_write_addr i))
    (put_unaligned_le32 (run_word i)).

Lemma send_tmo_ok mode id a l tmo e b :
  quiet (b_w b) -> zlen a = 4 -> zlen l = 4 -> tmo <> 0 -> mode = bd_checksum_mode (b_dl b) -> 0 <= id < 256 ->
  w_env (b_w b) = answered_by (ok_resp mode (fc_cookie (w_ctrl (b_w b))) id) :: e ->
  hgic_bootdl_send_cmd_tmo (boot_unsent mode id a l) tmo None b
  = Ret ((0, None), boot_after (boot_skb b id a l) b).
Proof.
  intros Hq Ha Hl Ht Em Hid He. rewrite <- (ok_rsp_of mode id Hid).
  by apply (send_tmo_answered mode id a l tmo id 0 [0; 0; 0; 0] _ _ e).
Qed.


Lemma write_memory_ok addr n e b :
  quiet (b_w b) ->
  w_env (b_w b) = answered_by (ok_resp (bd_checksum_mode (b_dl b)) (fc_cookie (w_ctrl (b_w b)))
                                 HG_BOOTDL_CMD_WRITE_MEM) :: e ->
  hgic_bootdl_cmd_write_memory addr n b
  = Ret (0, boot_after (boot_skb b HG_BOOTDL_CMD_WRITE_MEM (put_unaligned_le32 addr)
              (put_unaligned_le32 (announced (is_sdio b) n))) b).
Proof.
  intros Hq He. unfold hgic_bootdl_cmd_write_memory.
  destruct (alloc_fill HG_BOOTDL_CMD_WRITE_MEM (put_unaligned_le32 addr)
    (put_unaligned_le32 (announced (is_sdio b) n)) b) as (s & A & F); [apply Hq|done..|].
  rewrite (bind_Ret _ _ _ _ _ A). unfold bind at 1, gets. fold (announced (is_sdio b) n).
  rewrite (bind_Ret _ _ _ _ _ F). erewrite bind_Ret; [|by apply (send_tmo_ok _ _ _ _ _ e)]. done.
Qed.

Lemma cmd_run_ok e b :
  quiet (b_w b) ->
  w_env (b_w b) = answered_by (ok_resp (bd_checksum_mode (b_dl b)) (fc_cookie (w_ctrl (b_w b)))
                                 HG_BOOTDL_CMD_RUN) :: e ->
  hgic_bootdl_cmd_run b
  = Ret (0, boot_after (boot_skb b HG_BOOTDL_CMD_RUN (put_unaligned_le32 (bi_write_addr (bd_fw_info (b_dl b))))
              (put_unaligned_le32 (run_word (bd_fw_info (b_dl b))))) b).
Proof.
  intros Hq He. unfold hgic_bootdl_cmd_run.
  destruct (alloc_fill HG_BOOTDL_CMD_RUN (put_unaligned_le32 (bi_write_addr (bd_fw_info (b_dl b))))
    (put_unaligned_le32 (run_word (bd_fw_info (b_dl b)))) b) as (s & A & F); [apply Hq|done..|].
  rewrite (bind_Ret _ _ _ _ _ A). unfold bind at 1, gets.
  rewrite (bind_Ret _ _ _ _ _ F). erewrite bind_Ret; [|by apply (send_tmo_ok _ _ _ _ _ e)]. done.
Qed.

Lemma fill_boot_data_hdr_spec bs :
  fill_boot_data_hdr (replicate 20 0 ++ bs) = Ret (boot_data_frame bs).
Proof.
  unfold fill_boot_data_hdr, put16_at, put8_at.
  rewrite (mem_write_mid _ [] (replicate 20 0) bs) by done. cbn [obind].
  rewrite (mem_write_mid _ [] [0; 0] (replicate 18 0 ++ bs)) by done. cbn [obind].
  by rewrite (mem_write_mid _ [43; 26] [0] (replicate 17 0 ++ bs)).
Qed.

Lemma send_fw_ok bs c e tmo b :
  quiet (b_w b) -> 0 <= bd_last_cookie (b_dl b) < 2 ^ 16 -> tmo <> 0 ->
  w_env (b_w b) = answered_by (ok_resp (bd_checksum_mode (b_dl b)) (bd_last_cookie (b_dl b)) c) :: e ->
  hgic_bootdl_send_fw (Some (Skb (replicate 20 0) bs [])) tmo b
  = Ret (0, Boot (b_dl b) (exchanged (Skb [] (boot_data_frame bs) []) (b_w b))).
Proof.
  intros Hq Hc Ht He. unfold hgic_bootdl_send_fw, hgic_bootdl_send_data.
  unfold bind at 1 2, gets. change sizeof_hgic_bootdl_cmd_hdr with (zlen (replicate 20 0)).
  rewrite (bind_lift _ _ _ _ (skb_push_app [] (replicate 20 0) bs [])).
  unfold skb_update. cbn [skb_data skb_head skb_tail]. rewrite fill_boot_data_hdr_spec.
  unfold bind at 1, lift at 1, on_world, on_part, part, put_part, world_in_boot. cbn [obind].
  erewrite send_data_exchange; [|done|exact He|done|by rewrite u16_id by lia|done]. done.
Qed.

Lemma fragment_skb_ok fw off n b :
  w_alloc (b_w b) = [] -> bd_fw (b_dl b) = Some fw ->
  let h := bi_hdr_len (bd_fw_info (b_dl b)) in
  0 <= h + off -> 0 <= n < 2 ^ 30 -> h + off + n <= zlen fw ->
  fragment_skb off n b = Ret (Some (Skb (replicate 20 0) (ztake n (zdrop (h + off) fw)) []), b).
Proof.
  intros Ha Hf h H0 Hn Hl. unfold fragment_skb, bind at 1, on_world, on_part, part, put_part, world_in_boot, dev_alloc_skb, bind at 1.
  rewrite alloc_empty by (done || (unfold sizeof_hgic_bootdl_cmd_hdr; lia)). unfold ret at 1.
  cbn [fmap option_fmap option_map]. replace (Boot (b_dl b) (b_w b)) with b by (by destruct b).
  unfold sizeof_hgic_bootdl_cmd_hdr. rewrite Z.add_comm, (replicate_split 20 n) by lia.
  unfold skb_of_block. erewrite bind_lift; cycle 1.
  { apply skb_reserve_ok; [|done]. unfold skb_tailroom. cbn [skb_tail].
    rewrite zlen_app, !zlen_replicate by lia. lia. }
  cbn [skb_head skb_tail app]. rewrite ztake_app_length, zdrop_app_length by done.
  unfold bind at 1, gets. rewrite Hf. rewrite (bind_lift _ _ _ fw) by done. fold h.
  rewrite (bind_lift _ _ _ _ (mem_read_ok fw (h + off) n H0 ltac:(lia) Hl)).
  set (bs := ztake n (zdrop (h + off) fw)).
  assert (zlen bs = n) as Hb by (unfold bs; rewrite zlen_ztake; [done|rewrite zlen_zdrop; lia]).
  rewrite (bind_lift _ _ _ (Skb (replicate 20 0) [] (bs ++ []))); cycle 1.
  { unfold skb_write. cbn [skb_data skb_tail skb_head app].
    rewrite (mem_write_mid _ [] (replicate (Z.to_nat n) 0) []);
      [done|by rewrite app_nil_r|done|rewrite zlen_replicate; lia]. }
  pose proof (skb_put_app (replicate 20 0) [] bs []) as P. rewrite Hb in P.
  by rewrite (bind_lift _ _ _ _ P).
Qed.

(** ** SDIO: the last fragment *)
Lemma align32_pow2 x k :
  0 <= k <= 20 -> 0 <= x < 2 ^ 30 -> align32 x (2 ^ k) = (x + (2 ^ k - 1)) / 2 ^ k * 2 ^ k.
Proof.
  intros Hk Hx. assert (0 < 2 ^ k <= 2 ^ 20) as Hp
    by (split; [apply Z.pow_pos_nonneg; lia|apply Z.pow_le_mono_r; lia]).
  unfold align32. rewrite (u32_id (x + _)) by lia. set (y := x + (2 ^ k - 1)).
  replace (2 ^ k - 1) with (Z.ones k) by (rewrite Z.ones_equiv; lia).
  unfold u32. rewrite <- (Z.land_ones _ 32) by lia. rewrite (Z.land_comm (Z.lnot _)), Z.land_assoc.
  rewrite (Z.land_ones y 32), (Z.mod_small y) by (unfold y; lia).
  rewrite <- Z.ldiff_land, Z.ldiff_ones_r by lia. by rewrite Z.shiftl_mul_pow2, Z.shiftr_div_pow2 by lia.
Qed.

(** The size of the last fragment: what whole packets leave of [n] bytes fills
    whole blocks of the bus.  Other buses have no blocks. *)
Definition fills_blocks (b : boot) (n : Z) : bool :=
  negb (is_sdio b) || ((n mod bd_frag_size (b_dl b)) mod blk_size (fc_bus (w_ctrl (b_w b))) =? 0).

(** What a round and the loop assume of the downloader. *)
Record loading (b : boot) (fw : list Z) (off : Z) : Prop := {
  ld_quiet : quiet (b_w b);
  ld_blk : is_sdio b = true -> exists k, 0 <= k <= 20 /\ blk_size (fc_bus (w_ctrl (b_w b))) = 2 ^ k;
  ld_frag : 0 < bd_frag_size (b_dl b) < 2 ^ 28;
  ld_fw : bd_fw (b_dl b) = Some fw;
  ld_hdr : 0 <= bi_hdr_len (bd_fw_info (b_dl b));
  ld_off : 0 <= off;
  ld_size : bi_hdr_len (bd_fw_info (b_dl b)) + off <= zlen fw < 2 ^ 31 }.

Definition code_at (b : boot) (fw : list Z) (off : Z) : list Z :=
  zdrop (bi_hdr_len (bd_fw_info (b_dl b)) + off) fw.

Lemma code_at_zlen b fw off :
  loading b fw off -> zlen (code_at b fw off) = zlen fw - (bi_hdr_len (bd_fw_info (b_dl b)) + off).
Proof. intros []. unfold code_at. rewrite zlen_zdrop; lia. Qed.

(** The downloader after a round that sent [bs]. *)
Definition round_done (b : boot) (addr : Z) (bs : list Z) : boot :=
  let b1 := boot_after (boot_skb b HG_BOOTDL_CMD_WRITE_MEM (put_unaligned_le32 addr)
                          (put_unaligned_le32 (announced (is_sdio b) (zlen bs)))) b in
  Boot (b_dl b1) (exchanged (Skb [] (boot_data_frame bs) []) (b_w b1)).

Lemma round_loading b fw off addr bs :
  loading b fw off -> bi_hdr_len (bd_fw_info (b_dl b)) + off + zlen bs <= zlen fw ->
  loading (round_done b addr bs) fw (off + zlen bs).
Proof.
  intros [] Hl. pose proof (zlen_nonneg bs). split; try done; simpl; try lia.
  by apply quiet_exchanged, quiet_exchanged, quiet_cookie.
Qed.

(** The size of a fragment, when the rest fills whole blocks and when not. *)
Lemma fragment_fits b fw off copy :
  loading b fw off -> 0 < copy < 2 ^ 31 -> bd_frag_size (b_dl b) <= copy \/ fills_blocks b copy = true ->
  hgic_bootdl_fragment_proc b (u32 copy) = Z.min (bd_frag_size (b_dl b)) copy.
Proof.
  intros [] Hc Hf. unfold hgic_bootdl_fragment_proc, fills_blocks in *. rewrite u32_id by lia.
  destruct (is_sdio b) eqn:Es; cbn [negb orb] in Hf; [|destruct (Z.ltb_spec (bd_frag_size (b_dl b)) copy); lia].
  destruct (Z.ltb_spec copy (bd_frag_size (b_dl b))); [|lia]. destruct Hf as [Hf|Hf]; [lia|].
  destruct (ld_blk0 eq_refl) as (k & Hk & Ek). rewrite Ek in *. rewrite align32_pow2 by lia.
  rewrite (Z.mod_small copy) in Hf by lia. apply Z.eqb_eq in Hf.
  assert (0 < 2 ^ k) by (apply Z.pow_pos_nonneg; lia).
  pose proof (Z.div_mod copy (2 ^ k) ltac:(lia)). rewrite Z.min_r by lia.
  rewrite <- (Z.div_unique (copy + (2 ^ k - 1)) (2 ^ k) (copy / 2 ^ k) (2 ^ k - 1)); lia.
Qed.

Lemma fragment_overruns b fw off copy :
  loading b fw off -> 0 < copy < bd_frag_size (b_dl b) -> fills_blocks b copy = false ->
  copy < hgic_bootdl_fragment_proc b (u32 copy) < 2 ^ 29.
Proof.
  intros [] Hc Hf. unfold hgic_bootdl_fragment_proc, fills_blocks in *. rewrite u32_id by lia.
  destruct (is_sdio b) eqn:Es; cbn [negb orb] in Hf; [|done].
  destruct (Z.ltb_spec copy (bd_frag_size (b_dl b))); [|lia].
  destruct (ld_blk0 eq_refl) as (k & Hk & Ek). rewrite Ek in *. rewrite align32_pow2 by lia.
  rewrite (Z.mod_small copy) in Hf by lia. apply Z.eqb_neq in Hf.
  assert (0 < 2 ^ k <= 2 ^ 20) by (split; [apply Z.pow_pos_nonneg; lia|apply Z.pow_le_mono_r; lia]).
  pose proof (Z.div_mod (copy + (2 ^ k - 1)) (2 ^ k) ltac:(lia)).
  pose proof (Z.mod_pos_bound (copy + (2 ^ k - 1)) (2 ^ k) ltac:(lia)).
  assert ((copy + (2 ^ k - 1)) / 2 ^ k * 2 ^ k <> copy) as K; [|lia].
  intros K. apply Hf. rewrite <- K. apply Z.mod_mul. lia.
Qed.

Lemma fills_rest b addr bs n :
  0 < bd_frag_size (b_dl b) -> 0 <= n -> bd_frag_size (b_dl b) <= n \/ fills_blocks b n = true ->
  fills_blocks (round_done b addr bs) (n - Z.min (bd_frag_size (b_dl b)) n) = fills_blocks b n.
Proof.
  intros Hf Hn Hd. unfold fills_blocks. change (is_sdio (round_done b addr bs)) with (is_sdio b).
  change (blk_size (fc_bus (w_ctrl (b_w (round_done b addr bs))))) with (blk_size (fc_bus (w_ctrl (b_w b)))).
  change (bd_frag_size (b_dl (round_done b addr bs))) with (bd_frag_size (b_dl b)).
  destruct (Z.le_gt_cases (bd_frag_size (b_dl b)) n) as [Hle|Hgt].
  - rewrite Z.min_l by done. replace (n - bd_frag_size (b_dl b)) with (n + (-1) * bd_frag_size (b_dl b)) by lia.
    by rewrite Z_mod_plus_full.
  - destruct Hd as [|Hd]; [lia|]. unfold fills_blocks in Hd. rewrite Hd, Z.min_r, Z.sub_diag by lia.
    by rewrite !Zmod_0_l, orb_true_r.
Qed.

Definition accepts (b : boot) (e : list (list action)) : Prop :=
  let ok := answered_by (ok_resp (bd_checksum_mode (b_dl b)) (fc_cookie (w_ctrl (b_w b))) HG_BOOTDL_CMD_WRITE_MEM) in
  w_env (b_w b) = ok :: ok :: e.

Lemma download_round k b fw off addr copy n e :
  loading b fw off ->
  copy = zlen (code_at b fw off) -> 0 < copy -> n = Z.min (bd_frag_size (b_dl b)) copy ->
  hgic_bootdl_fragment_proc b (u32 copy) = n -> accepts b e ->
  download_loop (S k) addr copy off b
  = download_loop k (u32 (addr + n)) (copy - n) (off + n) (round_done b addr (ztake n (code_at b fw off))).
Proof.
  intros L Ec Hc En Hp He. rewrite (code_at_zlen _ _ _ L) in Ec. destruct L. unfold code_at in *.
  cbn [download_loop]. destruct (Z.leb_spec copy 0); [lia|]. unfold bind at 1, gets. rewrite Hp.
  rewrite (bind_Ret _ _ _ _ _ (fragment_skb_ok fw off n b (q_alloc _ ld_quiet0) ld_fw0 ltac:(lia) ltac:(lia) ltac:(lia))).
  set (bs := ztake n _). assert (zlen bs = n) as Hb by (unfold bs; rewrite zlen_ztake; [done|rewrite zlen_zdrop; lia]).
  unfold skb_len. cbn [skb_data].
  rewrite (bind_Ret _ _ _ _ _ (write_memory_ok addr (zlen bs) _ b ld_quiet0 He)).
  change (negb (0 =? 0)) with false. cbv iota.
  pose proof (q_cookie _ ld_quiet0) as Hk. unfold HGIC_TX_COOKIE_MASK in Hk.
  erewrite bind_Ret; [|apply (send_fw_ok bs 2 e)]; cycle 1.
  - by apply quiet_exchanged, quiet_cookie.
  - simpl. lia.
  - done.
  - simpl. by rewrite He.
  - change (negb (0 =? 0)) with false. cbv iota.
    rewrite s32_id, (u32_id (off + n)) by lia. done.
Qed.

(** The last fragment does not fill its blocks: the copy leaves the image. *)
Lemma download_overread k b fw off addr :
  loading b fw off -> let copy := zlen (code_at b fw off) in
  0 < copy < bd_frag_size (b_dl b) -> fills_blocks b copy = false ->
  download_loop (S k) addr copy off b = Fault OutOfBounds.
Proof.
  intros L copy Hc Hf. pose proof (fragment_overruns b fw off copy L Hc Hf) as Hx.
  unfold copy in *. rewrite (code_at_zlen _ _ _ L) in *. destruct L. cbn [download_loop].
  set (n := zlen fw - _) in *. destruct (Z.leb_spec n 0); [lia|]. unfold bind at 1, gets.
  set (x := hgic_bootdl_fragment_proc b (u32 n)) in *.
  unfold bind at 1, fragment_skb, bind at 1, on_world, on_part, part, put_part, world_in_boot, dev_alloc_skb, bind at 1.
  rewrite alloc_empty by (apply ld_quiet0 || (unfold sizeof_hgic_bootdl_cmd_hdr; lia)). unfold ret at 1.
  cbn [fmap option_fmap option_map]. erewrite bind_lift; cycle 1.
  { apply skb_reserve_ok; [|done]. unfold skb_of_block, skb_tailroom, sizeof_hgic_bootdl_cmd_hdr. cbn [skb_tail].
    rewrite zlen_replicate; lia. }
  unfold bind at 1, gets. cbn [b_dl]. rewrite (bind_lift _ _ _ fw) by (by rewrite ld_fw0).
  unfold bind at 1, lift at 1, mem_read.
  destruct (Z.leb_spec (bi_hdr_len (bd_fw_info (b_dl b)) + off + x) (zlen fw)) as [G|G]; [lia|].
  by rewrite andb_false_r.
Qed.

(** What a complete download leaves. *)
Record delivered (b b' : boot) (addr : Z) (frags : list (list Z)) (e : list (list action)) : Prop := {
  dv_sent : map skb_data (w_sent (b_w b')) = map skb_data (w_sent (b_w b))
    ++ boot_frames (is_sdio b) (bd_checksum_mode (b_dl b)) (fc_cookie (w_ctrl (b_w b))) addr frags
         (run_frame (bd_checksum_mode (b_dl b)) (bd_fw_info (b_dl b)));
  dv_env : w_env (b_w b') = e;
  dv_quiet : quiet (b_w b');
  dv_cookie : fc_cookie (w_ctrl (b_w b')) = Nat.iter (S (length frags)) next (fc_cookie (w_ctrl (b_w b)));
  dv_bus : fc_bus (w_ctrl (b_w b')) = fc_bus (w_ctrl (b_w b));
  dv_dl : exists k, b_dl b' = set_last_cookie k (b_dl b) }.

Lemma download_loop_end fuel b fw off addr e :
  loading b fw off -> zlen (code_at b fw off) = 0 ->
  let mode := bd_checksum_mode (b_dl b) in let c := fc_cookie (w_ctrl (b_w b)) in
  let frags := fragments fuel (bd_frag_size (b_dl b)) (code_at b fw off) in
  w_env (b_w b) = boot_script mode c (length frags) ++ e ->
  exists b', download_loop fuel addr (zlen (code_at b fw off)) off b = Ret (0, b') /\ delivered b b' addr frags e.
Proof.
  intros L E mode c frags He. unfold frags in *. rewrite fragments_end in * by done. rewrite E.
  replace (download_loop fuel addr 0 off) with hgic_bootdl_cmd_run by (by destruct fuel).
  eexists. split; [by apply (cmd_run_ok e); [apply L|]|]. split; simpl.
  - by rewrite map_app.
  - by rewrite He.
  - by apply quiet_exchanged, quiet_cookie, L.
  - by rewrite next_cookie by apply (q_cookie _ (ld_quiet _ _ _ L)).
  - done.
  - by eexists.
Qed.

(** The rounds before the end, one by one. *)
Lemma delivered_round b b' addr bs frags e :
  quiet (b_w b) -> delivered (round_done b addr bs) b' (u32 (addr + zlen bs)) frags e ->
  delivered b b' addr (bs :: frags) e.
Proof.
  intros Hq [Hs He Hq' Hc Hb (k & Hd)]. pose proof (next_cookie _ (q_cookie _ Hq)) as Hn.
  split; try done.
  - rewrite Hs. simpl. rewrite Hn, !map_app, <- !app_assoc. done.
  - rewrite Hc. simpl. rewrite Hn. f_equal. symmetry. exact (Nat.iter_succ_r (length frags) next _).
  - exists k. by rewrite Hd.
Qed.

Lemma download_loop_ok fuel b fw off addr e :
  loading b fw off -> let n := zlen (code_at b fw off) in n <= Z.of_nat fuel ->
  let frags := fragments fuel (bd_frag_size (b_dl b)) (code_at b fw off) in
  w_env (b_w b) = boot_script (bd_checksum_mode (b_dl b)) (fc_cookie (w_ctrl (b_w b))) (length frags) ++ e ->
  if fills_blocks b n
  then exists b', download_loop fuel addr n off b = Ret (0, b') /\ delivered b b' addr frags e
  else download_loop fuel addr n off b = Fault OutOfBounds.
Proof.
  revert b off addr. induction fuel as [|k IH]; intros b off addr L n Hl frags He; unfold n in *; clear n;
    pose proof (ld_frag _ _ _ L) as Hf; pose proof (zlen_nonneg (code_at b fw off)) as H0;
    (destruct (Z.eqb_spec (zlen (code_at b fw off)) 0) as [E|E];
     [assert (fills_blocks b 0 = true) as F by (unfold fills_blocks; by rewrite !Zmod_0_l, orb_true_r);
      assert (fills_blocks b (zlen (code_at b fw off)) = true) as -> by (by rewrite E); by apply download_loop_end|]); [lia|].
  unfold frags in *; clear frags. set (f := bd_frag_size (b_dl b)) in *. set (copy := zlen (code_at b fw off)) in *.
  pose proof (ld_size _ _ _ L) as Hs. pose proof (ld_hdr _ _ _ L). pose proof (ld_off _ _ _ L).
  pose proof (code_at_zlen _ _ _ L) as Ez. fold copy in Ez.
  destruct (decide (f <= copy \/ fills_blocks b copy = true)) as [Hd|Hd]; cycle 1.
  { assert (fills_blocks b copy = false) as Hno by (by apply not_true_is_false; tauto).
    rewrite Hno. apply download_overread; [done|lia|done]. }
  set (n := Z.min f copy). set (bs := ztake n (code_at b fw off)).
  assert (ztake f (code_at b fw off) = bs /\ zdrop f (code_at b fw off) = zdrop n (code_at b fw off)) as [E1 E2].
  { unfold bs, n. destruct (Z.le_gt_cases f copy); [by rewrite Z.min_l by lia|].
    rewrite Z.min_r, !ztake_all, !zdrop_all by lia. done. }
  cbn [fragments] in He |- *. destruct (Z.eqb_spec (zlen (code_at b fw off)) 0); [done|].
  rewrite E1, E2 in *. cbn [length boot_script app] in He |- *.
  assert (0 < n <= copy /\ n <= f) as Hn by lia.
  assert (zlen bs = n) as Hb by (unfold bs; rewrite zlen_ztake; fold copy; lia).
  rewrite (download_round k b fw off addr copy n _ L eq_refl ltac:(lia) eq_refl
    (fragment_fits b fw off copy L ltac:(lia) Hd) He). fold bs.
  pose proof (round_loading b fw off addr bs L ltac:(lia)) as L'.
  assert (code_at (round_done b addr bs) fw (off + zlen bs) = zdrop n (code_at b fw off)) as Ec
    by (unfold code_at; simpl; rewrite zdrop_zdrop, Hb by lia; f_equal; lia).
  assert (zlen (zdrop n (code_at b fw off)) = copy - n) as En by (rewrite zlen_zdrop; fold copy; lia).
  specialize (IH _ (off + zlen bs) (u32 (addr + n)) L'). rewrite Ec, En, Hb in IH.
  change (bd_frag_size (b_dl (round_done b addr bs))) with f in IH. unfold n in IH at 3.
  rewrite fills_rest in IH by (done || lia).
  assert (w_env (b_w (round_done b addr bs)) = boot_script (bd_checksum_mode (b_dl b))
    (next (fc_cookie (w_ctrl (b_w b)))) (length (fragments k f (zdrop n (code_at b fw off)))) ++ e) as He'
    by (simpl; by rewrite He).
  simpl in IH. rewrite next_cookie in IH by apply (q_cookie _ (ld_quiet _ _ _ L)).
  specialize (IH ltac:(lia) He'). destruct (fills_blocks b copy); [|exact IH].
  destruct IH as (b' & R & D). exists b'. split; [exact R|]. apply delivered_round; [apply L|]. by rewrite Hb.
Qed.

(** ** The header of the image *)
Definition image_info (i : image) : hgic_bootdl_fw_info :=
  BootFwInfo (u32 (im_dl_addr i)) (Z.b2z (Z.testbit (im_mode i) 10)) (Z.b2z (Z.testbit (im_mode i) 11)) 1
    (u32 (zlen (image_bytes i) - u32 (im_code_offset i))) (u32 (im_crc i)) (u32 (im_code_offset i)).

Lemma parse_fw_ok rf i path b :
  image_ok i -> rf path = (0, image_bytes i) ->
  hgic_bootdl_parse_fw rf path b
  = Ret (0, on_dl (fun d => set_fw (Some (image_bytes i)) (set_fw_info (image_info i) d)) b).
Proof.
  intros Hi Hr. unfold hgic_bootdl_parse_fw. rewrite Hr. cbn [fst snd]. change (negb (0 =? 0)) with false. cbv iota.
  destruct (image_fields i Hi) as (_ & E1 & _ & E3 & _ & _ & _ & _ & _ & _ & _ & E11).
  destruct (mode_bits i Hi) as [M1 M2].
  unfold hgic_get_fw_dl_addr, hgic_get_fw_aes_en, hgic_get_fw_crc_en, hgic_get_fw_local_crc32, hgic_get_fw_code_offset.
  set (d := image_bytes i) in *. unfold bind at 1, modify at 1.
  rewrite (bind_lift _ _ _ _ (get_field_ok i u32 _ _ Hi E1)). cbn [fst snd].
  unfold bind at 1, on_info at 1, modify. change (negb (0 =? 0)) with false. cbv iota.
  rewrite (bind_lift _ _ _ _ (get_field_ok i u16 _ _ Hi M1)). cbn [fst snd].
  unfold bind at 1, on_info at 1, modify. change (negb (0 =? 0)) with false. cbv iota.
  rewrite (bind_lift _ _ _ _ (get_field_ok i u16 _ _ Hi M2)). cbn [fst snd].
  unfold bind at 1, on_info at 1, modify. change (negb (0 =? 0)) with false. cbv iota.
  rewrite (bind_lift _ _ _ _ (get_field_ok i u32 _ _ Hi E11)). cbn [fst snd].
  unfold bind at 1, on_info at 1, modify. change (negb (0 =? 0)) with false. cbv iota.
  rewrite (bind_lift _ _ _ _ (get_field_ok i u32 _ _ Hi E3)). cbn [fst snd].
  unfold bind at 1, on_info at 1, modify. change (negb (0 =? 0)) with false. cbv iota.
  assert (forall x, u8 (u16 (Z.b2z x)) = Z.b2z x) as B by (by intros []).
  rewrite !u32_u32, !B. reflexivity.
Qed.

(** What a download assumes: an image the firmware loader delivers, with its
    code offset inside it; a control channel nothing else uses; the packet length
    of the bus, and on SDIO a block size that is a power of two. *)
Record can_download (rf : list Z -> Z * list Z) (i : image) (path : list Z) (b : boot) : Prop := {
  cd_image : image_ok i;
  cd_loader : rf path = (0, image_bytes i);
  cd_offset : u32 (im_code_offset i) <= zlen (image_bytes i) < 2 ^ 31;
  cd_quiet : quiet (b_w b);
  cd_frag : 0 < bd_frag_size (b_dl b) < 2 ^ 28;
  cd_blk : is_sdio b = true -> exists k, 0 <= k <= 20 /\ blk_size (fc_bus (w_ctrl (b_w b))) = 2 ^ k }.

Definition code_of (i : image) : list Z := zdrop (u32 (im_code_offset i)) (image_bytes i).
Definition frags_of (i : image) (b : boot) : list (list Z) :=
  fragments (length (code_of i)) (bd_frag_size (b_dl b)) (code_of i).

(** What the download leaves: the frames of the whole image are sent. *)
Definition with_info (i : image) (b : boot) : boot := on_dl (fun d => set_fw (Some (image_bytes i)) (set_fw_info (image_info i) d)) b.

Lemma download_ok rf i path b e :
  can_download rf i path b ->
  w_env (b_w b) = boot_script (bd_checksum_mode (b_dl b)) (fc_cookie (w_ctrl (b_w b))) (length (frags_of i b)) ++ e ->
  if fills_blocks b (zlen (code_of i))
  then exists b1, hgic_bootdl_download rf (Some path) b = Ret (0, on_dl (set_fw None) b1) /\
         delivered (with_info i b) b1 (u32 (im_dl_addr i)) (frags_of i b) e
  else hgic_bootdl_download rf (Some path) b = Fault OutOfBounds.
Proof.
  intros [Hi Hr [Ho Hl] Hq Hf Hb] He. pose proof (u32_range (im_code_offset i)) as Hu.
  assert (zlen (code_of i) = zlen (image_bytes i) - u32 (im_code_offset i)) as Hz
    by (unfold code_of; rewrite zlen_zdrop; lia).
  pose proof (download_loop_ok (length (code_of i)) (with_info i b) (image_bytes i) 0 (u32 (im_dl_addr i)) e) as K.
  assert (code_at (with_info i b) (image_bytes i) 0 = code_of i) as Ec by (unfold code_at; simpl; by rewrite Z.add_0_r).
  rewrite Ec in K. specialize (K ltac:(split; try done; simpl; lia) ltac:(unfold zlen; lia) He).
  change (fills_blocks (with_info i b)) with (fills_blocks b) in K.
  assert (forall x, download_loop (length (code_of i)) (u32 (im_dl_addr i)) (zlen (code_of i)) 0 (with_info i b) = x ->
    hgic_bootdl_download rf (Some path) b
    = match x with Ret (r, b1) => Ret (r, on_dl (set_fw None) b1) | Fault g => Fault g end) as R.
  { intros x Hx. unfold hgic_bootdl_download. rewrite (bind_Ret _ _ _ _ _ (parse_fw_ok rf i path b Hi Hr)).
    fold (with_info i b). unfold bind at 1, gets.
    change (negb (0 =? 0) || match bd_fw (b_dl (with_info i b)) with None => true | _ => false end) with false. cbv iota zeta.
    change (bi_fw_len (bd_fw_info (b_dl (with_info i b)))) with (u32 (zlen (image_bytes i) - u32 (im_code_offset i))).
    change (bi_write_addr (bd_fw_info (b_dl (with_info i b)))) with (u32 (im_dl_addr i)).
    rewrite <- Hz, (u32_id (zlen (code_of i))), s32_id by (pose proof (zlen_nonneg (code_of i)); lia).
    replace (Z.to_nat (zlen (code_of i))) with (length (code_of i)) by (unfold zlen; lia).
    unfold bind at 1. rewrite Hx. by destruct x as [[r b1]|]. }
  destruct (fills_blocks b (zlen (code_of i))).
  - destruct K as (b1 & K & D). exists b1. split; [exact (R _ K)|exact D].
  - exact (R _ K).
Qed.

(** ** Properties *)

(** C12. A firmware download on any bus, the control channel being used by nothing
    else, to a chip that accepts every frame.  The fragments are non-empty, no
    longer than the bus's packet length, and concatenate to exactly the image's
    code.  On a bus other than SDIO, and on SDIO when the last fragment fills
    whole blocks, the download returns 0 and releases the image, and the frames it
    sent are, for each fragment in order, a write-memory command with the
    fragment's load address and length (plus 1024 on a bus other than SDIO) and
    the fragment's data frame, and at last the run command.  On SDIO with a last
    fragment that does not fill its last block the driver reads behind the
    image. *)
Theorem download_delivers_image rf i path b :
  can_download rf i path b ->
  let sdio := is_sdio b in let frags := frags_of i b in
  let mode := bd_checksum_mode (b_dl b) in let c := fc_cookie (w_ctrl (b_w b)) in
  w_env (b_w b) = boot_script mode c (length frags) ->
  concat frags = code_of i /\ Forall (fun bs => 0 < zlen bs <= bd_frag_size (b_dl b)) frags /\
  if negb sdio || ((zlen (code_of i) mod bd_frag_size (b_dl b)) mod blk_size (fc_bus (w_ctrl (b_w b))) =? 0)
  then exists b', hgic_bootdl_download rf (Some path) b = Ret (0, b') /\
    map skb_data (w_sent (b_w b')) = map skb_data (w_sent (b_w b))
      ++ boot_frames sdio mode c (u32 (im_dl_addr i)) frags (run_frame mode (image_info i)) /\
    bd_fw (b_dl b') = None
  else hgic_bootdl_download rf (Some path) b = Fault OutOfBounds.
Proof.
  intros Hc sdio frags mode c He. pose proof (cd_frag _ _ _ _ Hc).
  split; [apply fragments_concat; [lia|unfold zlen; lia]|]. split; [by apply fragments_sizes; lia|].
  rewrite <- (app_nil_r (boot_script _ _ _)) in He. pose proof (download_ok rf i path b [] Hc He) as K.
  change (negb sdio || _) with (fills_blocks b (zlen (code_of i))).
  destruct (fills_blocks b (zlen (code_of i))); [|exact K].
  destruct K as (b1 & R & D). eexists. split; [exact R|]. split; [exact (dv_sent _ _ _ _ _ D)|done].
Qed.

Definition demo_boot (scripts : list (list action)) : boot :=
  Boot (BootDl (BootFwInfo 0 0 0 0 0 0 0) 2 0 4 None) (demo_world scripts).

(** An SDIO bus with blocks of [2 ^ k]. *)
Definition demo_sdio (k : Z) (flags : list hgic_bus_flag) (scripts : list (list action)) : world :=
  World (hgic_fwctrl_init (Bus HGIC_BUS_SDIO 4 flags 4 2 (2 ^ k) true) true) scripts [] [] [].

Lemma demo_can_download w k :
  quiet w -> 0 <= k <= 20 ->
  blk_size (fc_bus (w_ctrl w)) = 2 ^ k \/ bus_type (fc_bus (w_ctrl w)) <> HGIC_BUS_SDIO ->
  can_download (fun _ => (0, image_bytes demo_image)) demo_image [1] (Boot (b_dl (demo_boot [])) w).
Proof.
  intros Hq Hk Hb. split; [exact demo_image_ok|done|vm_compute; by split|done|vm_compute; by split|].
  unfold is_sdio. cbn [b_w]. intros Hs. exists k. split; [done|]. destruct Hb as [|Hb]; [done|]. by destruct (bus_type _).
Qed.

(** Nine bytes of code in fragments of four: delivered over USB; with SDIO blocks
    of two the last fragment reads a byte behind the image. *)
Lemma download_delivers_image_witness :
  let frags := [[49; 50; 51; 52]; [53; 54; 55; 56]; [57]] in
  (exists b', hgic_bootdl_download (fun _ => (0, image_bytes demo_image)) (Some [1]) (demo_boot (boot_script 2 0 3))
             = Ret (0, b') /\
    map skb_data (w_sent (b_w b')) = boot_frames false 2 0 0x20000000 frags (run_frame 2 (image_info demo_image)) /\
    bd_fw (b_dl b') = None) /\
  hgic_bootdl_download (fun _ => (0, image_bytes demo_image)) (Some [1]) (Boot (b_dl (demo_boot [])) (demo_sdio 1 [] (boot_script 2 0 3)))
  = Fault OutOfBounds.
Proof.
  split.
  - refine (proj2 (proj2 (download_delivers_image (fun _ => (0, image_bytes demo_image)) demo_image [1]
      (demo_boot (boot_script 2 0 3)) _ eq_refl))). apply (demo_can_download _ 0); [apply demo_quiet|lia|by right].
  - refine (proj2 (proj2 (download_delivers_image (fun _ => (0, image_bytes demo_image)) demo_image [1]
      (Boot (b_dl (demo_boot [])) (demo_sdio 1 [] (boot_script 2 0 3))) _ eq_refl))).
    apply (demo_can_download _ 1); [by split|lia|by left].
Defined.

Lemma rsp_of_cases mode id c rsp rd rsv check :
  let good := check = check_of mode ([c; rsp] ++ rd ++ [rsv; check]) /\ c = id in
  (good /\ rsp_of mode id c rsp rd rsv check = rsp) \/ (~ good /\ rsp_of mode id c rsp rd rsv check = 2).
Proof.
  unfold rsp_of. destruct (Z.eqb_spec check (check_of mode ([c; rsp] ++ rd ++ [rsv; check]))), (Z.eqb_spec c id);
    cbn [andb]; [left|right..]; tauto.
Qed.

Lemma cmd_enter_silent b :
  silent (b_w b) ->
  exists b', hgic_bootdl_cmd_enter b = Ret (-1, b') /\ silent (b_w b') /\
    fc_bus (w_ctrl (b_w b')) = fc_bus (w_ctrl (b_w b)) /\ w_sent (b_w b') = w_sent (b_w b).
Proof.
  intros Hs. unfold hgic_bootdl_cmd_enter.
  destruct (alloc_fill HG_BOOTDL_CMD_ENTER (ztake 4 BOOT_CMD_KEY) (zdrop 4 BOOT_CMD_KEY) b) as (s & A & F);
    [apply Hs|done..|].
  rewrite (bind_Ret _ _ _ _ _ A), (bind_Ret _ _ _ _ _ F).
  destruct (send_tmo_timeout (bd_checksum_mode (b_dl b)) HG_BOOTDL_CMD_ENTER (ztake 4 BOOT_CMD_KEY) (zdrop 4 BOOT_CMD_KEY)
    HG_BOOTDL_CMD_NORMAL_TMO b Hs) as (b' & E & K); [done..|].
  exists b'. by rewrite (bind_Ret _ _ _ _ _ E).
Qed.

Lemma cmd_enter_spec c rsp rd rsv check e b :
  quiet (b_w b) -> zlen rd = 4 ->
  w_env (b_w b) = answered_by (boot_resp (fc_cookie (w_ctrl (b_w b))) c rsp rd rsv check) :: e ->
  let r := rsp_of (bd_checksum_mode (b_dl b)) HG_BOOTDL_CMD_ENTER c rsp rd rsv check in
  exists s, hgic_bootdl_cmd_enter b
    = Ret (if (r =? 0) || (r =? 255) then if r =? 255 then STATE_FW else STATE_BOOT else r, boot_after s b) /\
    skb_data s = boot_cmd_frame (bd_checksum_mode (b_dl b)) (fc_cookie (w_ctrl (b_w b))) HG_BOOTDL_CMD_ENTER
                   (str "@hug") (str "e-ic").
Proof.
  intros Hq Hrd He r. unfold hgic_bootdl_cmd_enter.
  destruct (alloc_fill HG_BOOTDL_CMD_ENTER (ztake 4 BOOT_CMD_KEY) (zdrop 4 BOOT_CMD_KEY) b) as (s & A & F);
    [apply Hq|done..|].
  rewrite (bind_Ret _ _ _ _ _ A), (bind_Ret _ _ _ _ _ F).
  erewrite bind_Ret; [|by apply (send_tmo_answered _ _ _ _ _ c rsp rd rsv check e)].
  cbn [fst]. fold r. exists (boot_skb b HG_BOOTDL_CMD_ENTER (str "@hug") (str "e-ic")).
  split; [by destruct (_ || _)|done].
Qed.

(** The state inquiry sends one ENTER frame with the key @huge-ic.  For an
    answer that passes the check, result 0 means the boot loader is running and
    255 that the firmware is; every other result byte is returned as it is, so
    the boot loader's own error 1 (unknown command) cannot be told from
    STATE_BOOT.  An answer that fails the check or echoes another command gives
    2, which is not negative either. *)
Lemma bootdl_enter_answers c rsp rd rsv check e b :
  quiet (b_w b) -> zlen rd = 4 ->
  w_env (b_w b) = answered_by (boot_resp (fc_cookie (w_ctrl (b_w b))) c rsp rd rsv check) :: e ->
  let mode := bd_checksum_mode (b_dl b) in
  let good := check = check_of mode ([c; rsp] ++ rd ++ [rsv; check]) /\ c = HG_BOOTDL_CMD_ENTER in
  exists r b', hgic_bootdl_cmd_enter b = Ret (r, b') /\
    (good -> rsp = 0 \/ rsp = 1 -> r = STATE_BOOT) /\ (good -> rsp = 255 -> r = STATE_FW) /\
    (good -> rsp <> 0 -> rsp <> 255 -> r = rsp) /\ (~ good -> r = 2) /\
    exists s, w_sent (b_w b') = w_sent (b_w b) ++ [s] /\
      skb_data s = boot_cmd_frame mode (fc_cookie (w_ctrl (b_w b))) HG_BOOTDL_CMD_ENTER (str "@hug") (str "e-ic").
Proof.
  intros Hq Hrd He mode good.
  destruct (cmd_enter_spec c rsp rd rsv check e b Hq Hrd He) as (s & E & Hs).
  assert (exists s', w_sent (b_w (boot_after s b)) = w_sent (b_w b) ++ [s'] /\
    skb_data s' = boot_cmd_frame mode (fc_cookie (w_ctrl (b_w b))) HG_BOOTDL_CMD_ENTER (str "@hug") (str "e-ic"))
    as Hx by (by exists s).
  do 2 eexists. split; [exact E|]. fold mode. clear E Hs.
  destruct (rsp_of_cases mode HG_BOOTDL_CMD_ENTER c rsp rd rsv check) as [[G ->]|[G ->]].
  - repeat split; intros; try exact Hx; try tauto; subst; try done; [by destruct H0 as [->| ->]|].
    by destruct (Z.eqb_spec rsp 0), (Z.eqb_spec rsp 255).
  - repeat split; intros; exact Hx || tauto || done.
Qed.

(** The unknown-command error of a boot loader, taken for STATE_BOOT. *)
Lemma bootdl_enter_answers_witness :
  let b := demo_boot [answered_by (boot_resp 0 0 1 [0; 0; 0; 0] 0 0xFD)] in
  exists r b', hgic_bootdl_cmd_enter b = Ret (r, b') /\ r = STATE_BOOT.
Proof.
  destruct (bootdl_enter_answers 0 1 [0; 0; 0; 0] 0 0xFD []
    (demo_boot [answered_by (boot_resp 0 0 1 [0; 0; 0; 0] 0 0xFD)]) (demo_quiet _) eq_refl eq_refl)
    as (r & b' & E & G & _).
  exists r, b'. split; [exact E|]. apply G; [split; reflexivity|by right].
Defined.

Lemma sum_fold l a : 0 <= a < 256 -> fold_left (fun a b => u8 (a + b)) l a = u8 (a + foldr Z.add 0 l).
Proof.
  revert a. induction l as [|b l IH]; intros a Ha; simpl; [by rewrite Z.add_0_r, u8_id|].
  rewrite IH by apply u8_range. unfold u8. rewrite Z.add_mod_idemp_l by lia. f_equal. lia.
Qed.
Lemma foldr_sum l a : foldr Z.add a l = a + foldr Z.add 0 l.
Proof. induction l as [|b l IH]; simpl; [lia|]. rewrite IH. lia. Qed.

(** In the summing check mode the check of a response covers the check byte
    itself, so the byte has no influence: a response is accepted exactly when
    the command, result, data and reserved bytes sum to 0 modulo 256, whatever
    the chip put in the check byte. *)
Lemma response_sum_ignores_check cmd cookie c rsp rd rsv check :
  zlen rd = 4 -> is_byte check ->
  hgic_bootdl_cmd_rsp_handle HGIC_BUS_BOOTDL_CHECK_SUM cmd (boot_resp cookie c rsp rd rsv check)
  = Ret (if decide (foldr Z.add 0 ([c; rsp] ++ rd ++ [rsv]) mod 256 = 0 /\ c = cmd) then rsp
         else HG_BOOTDL_ERR_RSP_PACKET).
Proof.
  intros Hrd Hc. rewrite rsp_handle_spec by done. unfold check_of. rewrite Z.eqb_refl.
  replace ([c; rsp] ++ rd ++ [rsv; check]) with (([c; rsp] ++ rd ++ [rsv]) ++ [check])
    by (by rewrite <- !app_assoc).
  set (l := [c; rsp] ++ rd ++ [rsv]). rewrite sum_fold by lia.
  rewrite foldr_app, (foldr_sum l (foldr Z.add 0 [check])). unfold is_byte in Hc. set (x := foldr Z.add 0 l).
  change (foldr Z.add 0 [check]) with (check + 0).
  assert (check = u8 (0 + (check + 0 + x)) <-> x mod 256 = 0) as K.
  { rewrite Z.add_0_l, Z.add_0_r. unfold u8. change (2 ^ 8) with 256.
    pose proof (Z.div_mod x 256 ltac:(lia)). pose proof (Z.mod_pos_bound x 256 ltac:(lia)).
    pose proof (Z.div_mod (check + x) 256 ltac:(lia)). pose proof (Z.mod_pos_bound (check + x) 256 ltac:(lia)).
    split; intros; nia. }
  case_decide as D; destruct (Z.eqb_spec check (u8 (0 + (check + 0 + x)))), (Z.eqb_spec c cmd);
    cbn [andb]; first [done|exfalso; tauto].
Qed.

(** A response with a correct check byte (the sum of the seven bytes before it)
    is refused. *)
Lemma response_sum_ignores_check_witness :
  hgic_bootdl_cmd_rsp_handle HGIC_BUS_BOOTDL_CHECK_SUM 2 (boot_resp 0 2 0 [0; 0; 0; 0] 0 2) = Ret 2.
Proof.
  refine (eq_trans (response_sum_ignores_check 2 0 2 0 [0; 0; 0; 0] 0 2 eq_refl _) _);
    [split; done|]. by rewrite decide_False by (intros [? _]; done).
Defined.
