(* ===== verification/Ota.v ===== *)
(** * Over-the-air firmware update (utils/ota.c)

    The update checks a firmware image against the running firmware, cuts the
    whole image into fragments with an OTA header each, queues them, and sends
    them one by one over the control channel, waiting for an answer to each.

    [o_held] counts the references to the image the driver holds.  The kernel's
    firmware loader is the parameter [request_firmware]: its return code and
    the bytes of the image. *)
From S2P Require Import Prelude Bytes CString Proto Skb FwInfo FwCtrl.

(** ** Data *)
Definition HG_OTA_FW_FLAGMENT_SIZE : Z := 1500.
Definition ENODEV : Z := 19.
(** [struct hgic_ota_hdr]: version 0, off 4, tot_len 8, len 12, checksum 14,
    chipid 16, err_code 18, data 20. *)
Definition sizeof_hgic_ota_hdr : Z := 20.
Definition sizeof_hgic_hdr : Z := 8.

Record hgic_ota := Ota {
  o_inited : Z;
  o_dataq : list skb;
  o_frag_size : Z;
  o_fw_len : Z;
  o_fwinfo : hgic_fw_info;      (* what ori_fw_info points to *)
  o_held : Z;
  o_w : world }.

#[export] Instance world_in_ota : Inside world hgic_ota.
Proof.
  by refine {| part := o_w;
    put_part w o := Ota (o_inited o) (o_dataq o) (o_frag_size o) (o_fw_len o) (o_fwinfo o) (o_held o) w |}; [|intros []|].
Defined.
Definition set_dataq q (o : hgic_ota) :=
  Ota (o_inited o) q (o_frag_size o) (o_fw_len o) (o_fwinfo o) (o_held o) (o_w o).
Definition set_fw_len n (o : hgic_ota) :=
  Ota (o_inited o) (o_dataq o) (o_frag_size o) n (o_fwinfo o) (o_held o) (o_w o).
Definition hold (n : Z) (o : hgic_ota) :=
  Ota (o_inited o) (o_dataq o) (o_frag_size o) (o_fw_len o) (o_fwinfo o) (o_held o + n) (o_w o).

Definition hgic_ota_init (w : world) (fw_info : hgic_fw_info) : hgic_ota :=
  Ota 1 [] HG_OTA_FW_FLAGMENT_SIZE 0 fw_info 0 w.

Definition hgic_ota_release_data : M hgic_ota unit := modify (set_dataq []).
Definition hgic_ota_release : M hgic_ota unit := fun o =>
  if negb (o_inited o =? 0) then Ret (tt, set_dataq [] o) else Ret (tt, o).

(** ** The checksum *)
(** Two bytes at a time; a last odd byte counts by itself. *)
Fixpoint sum_words (l : list Z) : Z :=
  match l with
  | a :: b :: l => (a + b * 256) + sum_words l
  | [a] => a
  | [] => 0
  end.
(** The folding loop; sixteen bits are left after two rounds. *)
Fixpoint fold_sum (fuel : nat) (sum : Z) : outcome Z :=
  if Z.shiftr sum 16 =? 0 then Ret sum else
  match fuel with
  | O => Fault Diverges
  | S fuel => fold_sum fuel (Z.land sum 0xffff + Z.shiftr sum 16)
  end.
Definition hgic_ota_check_sum (m : list Z) (off count : Z) : outcome Z :=
  leto bs := mem_read m off count in
  leto s := fold_sum 3 (sum_words bs) in
  Ret (u16 (Z.lnot s)).

(** ** Operations *)
Definition fill_ota_pkt_hdr (cookie : Z) (d : list Z) : outcome (list Z) :=
  leto d := put16_at d 0 HGIC_HDR_TX_MAGIC in
  leto d := put16_at d 4 (zlen d) in
  leto d := put16_at d 6 cookie in
  leto d := put8_at d 2 HGIC_HDR_TYPE_OTA in
  put_ifidx d HGIC_WDEV_ID_STA.

(** A cookie is taken and stored in the response structure, which is then
    cleared: the frame and the pending entry carry 0. *)
Definition hgic_ota_send_packet_tmo (s : skb) (tmo : Z) : M hgic_ota (option skb) :=
  let! _ := on_world hgic_ctrl_cookie in
  let resp_cookie := 0 in
  let! s := lift (skb_push s sizeof_hgic_hdr) in
  let! s := lift (skb_update s (fill_ota_pkt_hdr resp_cookie)) in
  on_world (hgic_fwctrl_send_data s resp_cookie tmo).

Definition fill_ota_hdr (chip_id payload_len fw_len offset version : Z) (d : list Z) : outcome (list Z) :=
  leto d := mem_write d 0 (replicate (Z.to_nat sizeof_hgic_ota_hdr) 0) in
  leto d := put16_at d 16 chip_id in
  leto d := put16_at d 12 payload_len in
  leto d := mem_write d 8 (put_unaligned_le32 fw_len) in
  leto d := mem_write d 4 (put_unaligned_le32 offset) in
  leto d := mem_write d 0 (put_unaligned_le32 version) in
  leto n := get16_at d 12 in
  leto c := hgic_ota_check_sum d sizeof_hgic_ota_hdr n in
  put16_at d 14 c.

Definition hgic_ota_fill_hdr (s : skb) (offset : Z) : M hgic_ota (Z * skb) :=
  let! o := gets (fun o => o) in
  if o_frag_size o <? skb_len s then ret (- EINVAL, s) else
  if o_fw_len o =? 0 then ret (- EINVAL, s) else
  let payload_len := u16 (skb_len s) in
  let! s := lift (skb_push s sizeof_hgic_ota_hdr) in
  let! s := lift (skb_update s (fill_ota_hdr (fi_chip_id (o_fwinfo o)) payload_len (o_fw_len o) offset
                                  (fi_version (o_fwinfo o)))) in
  ret (0, s).

Definition hgic_ota_check_hdr_info (o : hgic_ota) (data : option (list Z)) : outcome Z :=
  leto v := hgic_get_fw_sdk_version data in
  if negb (snd v =? 0) then Ret (snd v) else
  if negb (Z.land (fst v) 0xff =? Z.land (fi_version (o_fwinfo o)) 0xff) then Ret (- EFAULT) else
  leto v := hgic_get_fw_svn_version data in
  if negb (snd v =? 0) then Ret (snd v) else
  leto v := hgic_get_fw_chipid data in
  if negb (snd v =? 0) then Ret (snd v) else
  if negb (fst v =? fi_chip_id (o_fwinfo o)) then Ret (- EFAULT) else
  leto v := hgic_get_fw_cpuid data in
  if negb (snd v =? 0) then Ret (snd v) else
  if negb (fst v =? fi_cpu_id (o_fwinfo o)) then Ret (- EFAULT) else Ret 0.

(** The fragment loop: [copy_len] rounds are enough as each takes at least one
    byte when [frag_size] is positive. *)
Fixpoint fragment_loop (fuel : nat) (data : list Z) (copy_len addr_offset : Z) : M hgic_ota Z :=
  if copy_len =? 0 then modify (hold (-1)) ;;; ret 0 else
  match fuel with
  | O => fail Diverges
  | S fuel =>
      let! frag := gets o_frag_size in
      let xfer_len := if frag <? copy_len then frag else copy_len in
      let hdr_len := sizeof_hgic_ota_hdr + sizeof_hgic_hdr in
      let! s := on_world (dev_alloc_skb (xfer_len + hdr_len + 4)) in
      match s with
      | None => modify (hold (-1)) ;;; ret (- ENOMEM)
      | Some s =>
          let! s := lift (skb_reserve s hdr_len) in
          let! bs := lift (mem_read data addr_offset xfer_len) in
          let! s := lift (skb_write s 0 bs) in
          let! s := lift (skb_put s xfer_len) in
          let! r := hgic_ota_fill_hdr s addr_offset in
          if negb (fst r =? 0) then modify (hold (-1)) ;;; ret (- EFAULT) else
          modify (fun o => set_dataq (o_dataq o ++ [snd r]) o) ;;;
          fragment_loop fuel data (u32 (copy_len - xfer_len)) (u32 (addr_offset + xfer_len))
      end
  end.

Section Update.
Variable request_firmware : list Z -> Z * list Z.

(** The early returns after the image is loaded keep the reference. *)
Definition hgic_ota_parse_fw (fw_name : list Z) : M hgic_ota Z :=
  let r := fst (request_firmware fw_name) in
  let fw := snd (request_firmware fw_name) in
  if negb (r =? 0) then ret (- ENODEV) else
  modify (hold 1) ;;;
  let! o := gets (fun o => o) in
  let! r := lift (hgic_ota_check_hdr_info o (Some fw)) in
  if negb (r =? 0) then ret r else
  let! r := lift (hgic_get_fw_code_checksum (Some fw) (s32 (zlen fw))) in
  if negb (r =? 0) then ret r else
  let! v := lift (hgic_get_fw_code_offset (Some fw)) in
  if negb (snd v =? 0) then ret (snd v) else
  let fw_len := u32 (zlen fw) in
  modify (set_fw_len fw_len) ;;;
  fragment_loop (Z.to_nat fw_len) fw fw_len 0.

(** Send what is queued; the queue is cleared in any case. *)
Fixpoint send_loop (q : list skb) (tmo : Z) : M hgic_ota Z :=
  match q with
  | [] => hgic_ota_release_data ;;; ret 0
  | s :: q =>
      modify (set_dataq q) ;;;
      let! resp := hgic_ota_send_packet_tmo s tmo in
      match resp with
      | Some resp =>
          let resp := skb_pull resp sizeof_hgic_hdr in
          let! err_code := lift (get16_at (skb_data resp ++ skb_tail resp) 18) in
          if negb (err_code =? 0) then hgic_ota_release_data ;;; ret err_code else send_loop q tmo
      | None => hgic_ota_release_data ;;; ret (- ENODEV)
      end
  end.

Definition hgic_ota_send_fw (fw_name : list Z) (tmo : Z) : M hgic_ota Z :=
  let! r := hgic_ota_parse_fw fw_name in
  if negb (r =? 0) then hgic_ota_release_data ;;; ret r else
  let! q := gets o_dataq in
  send_loop q tmo.
End Update.

(** ** The checksum *)
(** Sixteen-bit ones' complement arithmetic: the folded sum, and its complement. *)
Definition checksum (bs : list Z) : Z :=
  match fold_sum 3 (sum_words bs) with Ret s => u16 (Z.lnot s) | Fault _ => 0 end.

Lemma sum_words_bound l : is_bytes l -> 0 <= 2 * sum_words l <= 65535 * (zlen l + 1).
Proof.
  unfold is_bytes. assert (forall n l, (length l <= n)%nat -> Forall is_byte l ->
    0 <= 2 * sum_words l <= 65535 * (zlen l + 1)) as H; [|by apply (H (length l))].
  clear l. induction n as [|n IH]; intros [|a [|b l]] Hn Hl; simpl in Hn |- *; rewrite ?zlen_cons; try lia;
    change (zlen []) with 0; try lia; inversion_clear Hl as [|? ? Ha Hl']; unfold is_byte in Ha; try lia.
  inversion_clear Hl' as [|? ? Hb Hl]. unfold is_byte in Hb. specialize (IH l ltac:(lia) Hl). lia.
Qed.

Lemma land_ffff x : Z.land x 0xffff = x mod 65536.
Proof. change 0xffff with (Z.ones 16). by rewrite Z.land_ones. Qed.
Lemma shiftr_16 x : Z.shiftr x 16 = x / 65536.
Proof. by rewrite Z.shiftr_div_pow2. Qed.

Lemma fold_sum_spec x :
  0 <= x < 2 ^ 31 -> exists s, fold_sum 3 x = Ret s /\ 0 <= s < 65536 /\ (s - x) mod 65535 = 0 /\ (s = 0 -> x = 0).
Proof.
  intros Hx. pose (f y := y mod 65536 + y / 65536).
  assert (forall y, 0 <= y -> 0 <= f y <= 65535 + y / 65536 /\ (f y - y) mod 65535 = 0 /\ (f y = 0 -> y = 0)) as F.
  { intros y Hy. unfold f. pose proof (Z.div_mod y 65536 ltac:(lia)).
    pose proof (Z.mod_pos_bound y 65536 ltac:(lia)). pose proof (Z.div_pos y 65536 Hy ltac:(lia)).
    split; [lia|]. split; [|lia].
    replace (y mod 65536 + y / 65536 - y) with (- (y / 65536) * 65535) by lia. by apply Z.mod_mul. }
  assert (forall n y, fold_sum (S n) y = if y / 65536 =? 0 then Ret y else fold_sum n (f y)) as U
    by (intros; simpl; by rewrite !shiftr_16, land_ffff).
  destruct (F x) as (F1 & F2 & F3); [lia|].
  assert (x / 65536 < 32768) by (apply Z.div_lt_upper_bound; lia).
  destruct (F (f x)) as (G1 & G2 & G3); [lia|].
  assert (f x / 65536 <= 1) by (pose proof (Z.div_lt_upper_bound (f x) 65536 2); lia).
  assert (f (f x) < 65536) as Hs.
  { unfold f at 1. pose proof (Z.div_mod (f x) 65536 ltac:(lia)).
    pose proof (Z.mod_pos_bound (f x) 65536 ltac:(lia)). nia. }
  rewrite !U. destruct (Z.eqb_spec (x / 65536) 0) as [E|E].
  { exists x. pose proof (Z.div_small_iff x 65536 ltac:(lia)). rewrite Z.sub_diag. repeat split; lia || done. }
  destruct (Z.eqb_spec (f x / 65536) 0) as [E1|E1].
  { exists (f x). pose proof (Z.div_small_iff (f x) 65536 ltac:(lia)). repeat split; lia || done. }
  exists (f (f x)). rewrite (Z.div_small (f (f x))) by lia. repeat split; try lia.
  replace (f (f x) - x) with ((f (f x) - f x) + (f x - x)) by lia. rewrite Z.add_mod, F2, G2 by lia. done.
Qed.

Lemma u16_lnot s : 0 <= s < 65536 -> u16 (Z.lnot s) = 65535 - s.
Proof.
  intros Hs. unfold u16, Z.lnot. replace (Z.pred (- s)) with (65535 - s + (-1) * 2 ^ 16) by lia.
  rewrite Z.mod_add by lia. apply Z.mod_small; lia.
Qed.

Lemma checksum_spec bs :
  is_bytes bs -> zlen bs <= 65535 -> exists s,
  fold_sum 3 (sum_words bs) = Ret s /\ checksum bs = 65535 - s /\ 0 <= s < 65536 /\
  (s - sum_words bs) mod 65535 = 0 /\ (s = 0 -> sum_words bs = 0).
Proof.
  intros Hb Hl. pose proof (sum_words_bound bs Hb) as B.
  assert (sum_words bs < 2 ^ 31) as L.
  { assert (sum_words bs <= 2147450880) by lia. lia. }
  destruct (fold_sum_spec (sum_words bs)) as (s & E & Hs & Hm); [lia|].
  exists s. unfold checksum. rewrite E, u16_lnot by lia. done.
Qed.

Lemma check_sum_ok m pre bs post off n :
  m = pre ++ bs ++ post -> off = zlen pre -> n = zlen bs -> is_bytes bs -> zlen bs <= 65535 ->
  hgic_ota_check_sum m off n = Ret (checksum bs).
Proof.
  intros Em Eo En Hb Hl. unfold hgic_ota_check_sum. rewrite (mem_read_mid _ pre bs post) by done. cbn [obind].
  destruct (checksum_spec bs Hb Hl) as (s & E & C & Hs & _). by rewrite E, C, <- u16_lnot.
Qed.

(** ** Frames *)
Definition ota_frame (chip ver tot off : Z) (bs : list Z) : list Z :=
  put_unaligned_le32 ver ++ put_unaligned_le32 off ++ put_unaligned_le32 tot
  ++ put_unaligned_le16 (zlen bs) ++ put_unaligned_le16 (checksum bs) ++ put_unaligned_le16 chip ++ [0; 0] ++ bs.

(** What goes to the bus: the frame behind a header whose cookie is 0. *)
Definition ota_packet (f : list Z) : list Z :=
  [0x2B; 0x1A; 12; 1] ++ put_unaligned_le16 (8 + zlen f) ++ [0; 0] ++ f.

Fixpoint ota_frames (chip ver tot off : Z) (frags : list (list Z)) : list (list Z) :=
  match frags with
  | [] => []
  | bs :: frags => ota_frame chip ver tot off bs :: ota_frames chip ver tot (off + zlen bs) frags
  end.

(** An answer: its error code is what the driver looks at. *)
Definition ota_resp (err : Z) : list Z :=
  [0x1A; 0x2B; 12; 1; 28; 0; 0; 0] ++ replicate 18 0 ++ put_unaligned_le16 err.

Definition unsent (f : list Z) : skb := Skb (replicate 8 0) f (replicate 4 0).

Lemma ota_frame_zlen chip ver tot off bs : zlen (ota_frame chip ver tot off bs) = 20 + zlen bs.
Proof. unfold ota_frame. rewrite !zlen_app. unfold zlen. simpl. lia. Qed.

Lemma fill_ota_hdr_spec chip tot off ver bs blk :
  zlen blk = 20 -> is_bytes bs -> zlen bs <= 65535 ->
  fill_ota_hdr chip (zlen bs) tot off ver (blk ++ bs) = Ret (ota_frame chip ver tot off bs).
Proof.
  intros Hb Hbs Hl. unfold fill_ota_hdr, put16_at.
  rewrite (mem_write_mid _ [] blk bs) by done. cbn [obind app].
  set (n := put_unaligned_le16 (zlen bs)). set (c := put_unaligned_le16 chip).
  set (t := put_unaligned_le32 tot). set (o := put_unaligned_le32 off). set (v := put_unaligned_le32 ver).
  change (replicate (Z.to_nat sizeof_hgic_ota_hdr) 0) with (replicate 20 0).
  rewrite (mem_write_mid _ (replicate 16 0) [0; 0] ([0; 0] ++ bs)) by done. cbn [obind].
  rewrite (mem_write_mid _ (replicate 12 0) [0; 0] ([0; 0] ++ c ++ [0; 0] ++ bs)) by done. cbn [obind].
  rewrite (mem_write_mid _ (replicate 8 0) (replicate 4 0) (n ++ [0; 0] ++ c ++ [0; 0] ++ bs)) by done. cbn [obind].
  rewrite (mem_write_mid _ (replicate 4 0) (replicate 4 0) (t ++ n ++ [0; 0] ++ c ++ [0; 0] ++ bs)) by done.
  cbn [obind].
  rewrite (mem_write_mid _ [] (replicate 4 0) (o ++ t ++ n ++ [0; 0] ++ c ++ [0; 0] ++ bs)) by done. cbn [obind].
  rewrite (get16_at_mid _ (v ++ o ++ t) (zlen bs) ([0; 0] ++ c ++ [0; 0] ++ bs)) by done. cbn [obind].
  pose proof (zlen_nonneg bs). rewrite u16_id by lia.
  rewrite (check_sum_ok _ (v ++ o ++ t ++ n ++ [0; 0] ++ c ++ [0; 0]) bs []);
    [|rewrite app_nil_r; cbn [app]; by rewrite <- ?app_assoc|done..]. cbn [obind].
  by rewrite (mem_write_mid _ (v ++ o ++ t ++ n) [0; 0] (c ++ [0; 0] ++ bs)).
Qed.

Lemma fill_hdr_ok bs off o :
  is_bytes bs -> zlen bs <= o_frag_size o -> o_frag_size o <= 65535 -> o_fw_len o <> 0 ->
  hgic_ota_fill_hdr (Skb (replicate 28 0) bs (replicate 4 0)) off o
  = Ret ((0, unsent (ota_frame (fi_chip_id (o_fwinfo o)) (fi_version (o_fwinfo o)) (o_fw_len o) off bs)), o).
Proof.
  intros Hb Hl Hf Hn. unfold hgic_ota_fill_hdr, bind at 1, gets. unfold skb_len at 1 2. cbn [skb_data].
  destruct (Z.ltb_spec (o_frag_size o) (zlen bs)); [lia|].
  destruct (Z.eqb_spec (o_fw_len o) 0); [done|]. pose proof (zlen_nonneg bs). rewrite u16_id by lia.
  rewrite (bind_lift _ _ _ _ (skb_push_app (replicate 8 0) (replicate 20 0) bs (replicate 4 0))).
  unfold skb_update. cbn [skb_data skb_head skb_tail].
  by rewrite fill_ota_hdr_spec by (done || lia).
Qed.

Lemma ota_frag_skb bs n (o : hgic_ota) :
  w_alloc (o_w o) = [] -> zlen bs = n -> n <= 65535 ->
  exists s, on_world (dev_alloc_skb (n + (sizeof_hgic_ota_hdr + sizeof_hgic_hdr) + 4)) o = Ret (Some s, o) /\
    (leto s := skb_reserve s (sizeof_hgic_ota_hdr + sizeof_hgic_hdr) in
     leto s := skb_write s 0 bs in skb_put s n) = Ret (Skb (replicate 28 0) bs (replicate 4 0)).
Proof.
  intros Ha <- Hn. pose proof (zlen_nonneg bs). unfold on_world, on_part, part, put_part, world_in_ota, dev_alloc_skb, bind.
  rewrite alloc_empty by (done || (unfold sizeof_hgic_ota_hdr, sizeof_hgic_hdr; lia)).
  eexists. split; [destruct o; reflexivity|].
  unfold sizeof_hgic_ota_hdr, sizeof_hgic_hdr. replace (zlen bs + (20 + 8) + 4) with (28 + (zlen bs + 4)) by lia.
  rewrite !replicate_split by lia. change (Z.to_nat 28) with 28%nat. change (Z.to_nat 4) with 4%nat.
  change (20 + 8) with 28. rewrite skb_reserve_ok; [|unfold skb_of_block, skb_tailroom; cbn [skb_tail];
    rewrite !zlen_app, zlen_replicate by lia; unfold zlen; simpl; lia|done].
  unfold skb_of_block. cbn [skb_head skb_tail app obind].
  rewrite ztake_app_length, zdrop_app_length by done.
  unfold skb_write. cbn [skb_data skb_tail skb_head app].
  rewrite (mem_write_mid _ [] (replicate (Z.to_nat (zlen bs)) 0) (replicate 4 0));
    [|done|done|rewrite zlen_replicate; lia].
  unfold skb_len. cbn [skb_data obind]. change (zlen []) with 0. rewrite ztake_0, zdrop_0. cbn [app].
  apply skb_put_app.
Qed.

(** Enough memory, a fragment size the 16-bit length field can hold, and an image. *)
Record fragmenting (o : hgic_ota) (data : list Z) (off : Z) : Prop := {
  fr_alloc : w_alloc (o_w o) = [];
  fr_frag : 0 < o_frag_size o <= 65535;
  fr_len : o_fw_len o <> 0;
  fr_bytes : is_bytes data;
  fr_off : 0 <= off <= zlen data;
  fr_size : zlen data < 2 ^ 31 }.

Lemma is_bytes_sub n m l : is_bytes l -> is_bytes (ztake n (zdrop m l)).
Proof. intros. by apply Forall_take, Forall_drop. Qed.

Lemma fragment_loop_ok fuel o data off :
  fragmenting o data off -> zlen data - off <= Z.of_nat fuel ->
  fragment_loop fuel data (zlen data - off) off o
  = Ret (0, hold (-1) (set_dataq (o_dataq o ++ map unsent
      (ota_frames (fi_chip_id (o_fwinfo o)) (fi_version (o_fwinfo o)) (o_fw_len o) off
         (fragments fuel (o_frag_size o) (zdrop off data)))) o)).
Proof.
  revert o off. induction fuel as [|k IH]; intros o off [] Hfu.
  { replace (zlen data - off) with 0 by lia. simpl. rewrite app_nil_r. by destruct o. }
  cbn [fragment_loop]. destruct (Z.eqb_spec (zlen data - off) 0) as [E|E].
  { rewrite fragments_end by (rewrite zlen_zdrop; lia). simpl. rewrite app_nil_r. by destruct o. }
  unfold bind at 1, gets. set (f := o_frag_size o) in *.
  set (n := if f <? zlen data - off then f else zlen data - off).
  assert (0 < n <= f /\ n <= zlen data - off) as Hn
    by (unfold n; destruct (Z.ltb_spec f (zlen data - off)); lia).
  cbn [fragments]. destruct (Z.eqb_spec (zlen (zdrop off data)) 0) as [E1|_]; [rewrite zlen_zdrop in E1; lia|].
  assert (ztake f (zdrop off data) = ztake n (zdrop off data) /\
          zdrop f (zdrop off data) = zdrop (off + n) data) as [-> ->].
  { unfold n. destruct (Z.ltb_spec f (zlen data - off)).
    - by rewrite zdrop_zdrop by lia.
    - rewrite !ztake_all, (zdrop_all f), (zdrop_all (off + _)) by (rewrite ?zlen_zdrop; lia). done. }
  set (bs := ztake n (zdrop off data)).
  assert (zlen bs = n) as Hb by (unfold bs; rewrite zlen_ztake; [done|rewrite zlen_zdrop; lia]).
  destruct (ota_frag_skb bs n o fr_alloc0 Hb ltac:(lia)) as (s & A & B).
  rewrite (bind_Ret _ _ _ _ _ A).
  destruct (skb_reserve s _) as [s1|]; [|done]. cbn [obind] in B. rewrite (bind_lift _ _ _ s1) by done.
  rewrite (bind_lift _ _ _ _ (mem_read_ok data off n ltac:(lia) ltac:(lia) ltac:(lia))). fold bs.
  destruct (skb_write s1 0 bs) as [s2|]; [|done]. cbn [obind] in B. rewrite (bind_lift _ _ _ s2) by done.
  rewrite (bind_lift _ _ _ _ B).
  assert (is_bytes bs) as Hbs by (by apply is_bytes_sub).
  rewrite (bind_Ret _ _ _ _ _ (fill_hdr_ok bs off o Hbs ltac:(lia) ltac:(lia) fr_len0)).
  cbn [fst snd]. change (negb (0 =? 0)) with false. cbv iota. unfold bind at 1, modify.
  rewrite !u32_id by lia. replace (zlen data - off - n) with (zlen data - (off + n)) by lia.
  rewrite IH; [|split; try done; simpl; lia|lia].
  destruct o; simpl. by rewrite Hb, <- app_assoc.
Qed.

Lemma ota_frames_length chip ver tot off frags : length (ota_frames chip ver tot off frags) = length frags.
Proof. revert off. induction frags; intros; simpl; auto. Qed.

(** ** Sending *)
Definition with_world (w : world) (o : hgic_ota) : hgic_ota :=
  Ota (o_inited o) (o_dataq o) (o_frag_size o) (o_fw_len o) (o_fwinfo o) (o_held o) w.

Lemma ota_frame_sent f :
  fill_ota_pkt_hdr 0 (replicate 8 0 ++ f) = Ret (ota_packet f).
Proof.
  unfold fill_ota_pkt_hdr, put16_at, put8_at, put_ifidx.
  rewrite (mem_write_mid _ [] [0; 0] (replicate 6 0 ++ f)) by done. cbn [obind].
  replace (zlen (_ ++ put_unaligned_le16 HGIC_HDR_TX_MAGIC ++ _)) with (8 + zlen f)
    by (rewrite !zlen_app; unfold zlen; simpl; lia).
  set (n := put_unaligned_le16 (8 + zlen f)).
  rewrite (mem_write_mid _ [0x2B; 0x1A; 0; 0] [0; 0] ([0; 0] ++ f)) by done. cbn [obind].
  rewrite (mem_write_mid _ ([0x2B; 0x1A; 0; 0] ++ n) [0; 0] f) by done. cbn [obind].
  rewrite (mem_write_mid _ [0x2B; 0x1A] [0] ([0] ++ n ++ [0; 0] ++ f)) by done. cbn [obind].
  change (mem_get _ 3) with (Ret 0). cbn [obind].
  by rewrite (mem_write_mid _ [0x2B; 0x1A; 12] [0] (n ++ [0; 0] ++ f)).
Qed.

Definition sent_skb (f : list Z) : skb := Skb [] (ota_packet f) (replicate 4 0).

Lemma send_packet_spec f tmo o :
  hgic_ota_send_packet_tmo (unsent f) tmo o
  = on_world (hgic_fwctrl_send_data (sent_skb f) 0 tmo) (with_world (take_cookie (o_w o)) o).
Proof.
  unfold hgic_ota_send_packet_tmo, bind at 1, on_world, on_part, part, put_part, world_in_ota. rewrite ctrl_cookie_spec.
  unfold unsent. change sizeof_hgic_hdr with (zlen (replicate 8 0)).
  rewrite (bind_lift _ _ _ _ (skb_push_app [] (replicate 8 0) f (replicate 4 0))).
  unfold skb_update. cbn [skb_data skb_head skb_tail]. by rewrite ota_frame_sent.
Qed.

Lemma send_packet_answered f tmo err e o :
  quiet (o_w o) -> tmo <> 0 -> w_env (o_w o) = answered_by (ota_resp err) :: e ->
  hgic_ota_send_packet_tmo (unsent f) tmo o
  = Ret (Some (Skb [] (ota_resp err) []), with_world (exchanged (sent_skb f) (take_cookie (o_w o))) o).
Proof.
  intros Hq Ht He. rewrite send_packet_spec. unfold on_world, on_part, part, put_part, world_in_ota. cbn [with_world o_w].
  pose proof (quiet_cookie _ Hq) as []. rewrite (send_data_frame _ _ 12 (ota_resp err) e); try done.
  unfold alloc_fails. by rewrite q_alloc.
Qed.

Lemma ota_resp_err err :
  let r := skb_pull (Skb [] (ota_resp err) []) sizeof_hgic_hdr in
  get16_at (skb_data r ++ skb_tail r) 18 = Ret (u16 err).
Proof. by apply (get16_at_mid _ (replicate 18 0) err []). Qed.

(** The state after frames [fs] were sent and answered. *)
Fixpoint sent_all (fs : list (list Z)) (w : world) : world :=
  match fs with
  | [] => w
  | f :: fs => sent_all fs (exchanged (sent_skb f) (take_cookie w))
  end.

Lemma sent_all_spec fs w :
  w_sent (sent_all fs w) = w_sent w ++ map sent_skb fs /\ w_env (sent_all fs w) = drop (length fs) (w_env w) /\
  (quiet w -> quiet (sent_all fs w)).
Proof.
  revert w. induction fs as [|f fs IH]; intros w; simpl; [by rewrite app_nil_r, drop_0|].
  destruct (IH (exchanged (sent_skb f) (take_cookie w))) as (-> & -> & Hq). simpl. rewrite <- app_assoc.
  split; [done|]. split; [by destruct (w_env w); simpl; rewrite ?drop_nil|].
  intros. apply Hq. by apply quiet_exchanged, quiet_cookie.
Qed.

(** A prefix of the queue that the chip accepts. *)
Lemma send_loop_prefix fs q tmo e o :
  quiet (o_w o) -> tmo <> 0 ->
  w_env (o_w o) = replicate (length fs) (answered_by (ota_resp 0)) ++ e ->
  exists o', send_loop (map unsent fs ++ q) tmo o = send_loop q tmo o' /\
    o_w o' = sent_all fs (o_w o) /\ o_held o' = o_held o.
Proof.
  revert o. induction fs as [|f fs IH]; intros o Hq Ht He; simpl in *; [by exists o|].
  unfold bind at 1, modify. set (o1 := set_dataq _ o).
  rewrite (bind_Ret _ _ _ _ _ (send_packet_answered f tmo 0 _ o1 Hq Ht He)).
  rewrite (bind_lift _ _ _ _ (ota_resp_err 0)). change (negb (u16 0 =? 0)) with false. cbv iota.
  destruct (IH (with_world (exchanged (sent_skb f) (take_cookie (o_w o1))) o1)) as (o' & E & Hw & Hh).
  - by apply quiet_exchanged, quiet_cookie.
  - done.
  - simpl. by rewrite He.
  - by exists o'.
Qed.

Lemma send_loop_error f q tmo err e o :
  quiet (o_w o) -> tmo <> 0 -> w_env (o_w o) = answered_by (ota_resp err) :: e -> u16 err <> 0 ->
  exists o', send_loop (unsent f :: q) tmo o = Ret (u16 err, o') /\ o_dataq o' = [] /\
    o_w o' = exchanged (sent_skb f) (take_cookie (o_w o)).
Proof.
  intros Hq Ht He Herr. cbn [send_loop]. unfold bind at 1, modify. set (o1 := set_dataq _ o).
  rewrite (bind_Ret _ _ _ _ _ (send_packet_answered f tmo err e o1 Hq Ht He)).
  rewrite (bind_lift _ _ _ _ (ota_resp_err err)). destruct (Z.eqb_spec (u16 err) 0); [done|].
  by eexists.
Qed.

Lemma send_loop_timeout f q tmo o :
  tmo <> 0 -> w_env (o_w o) = [] ->
  exists o', send_loop (unsent f :: q) tmo o = Ret (- ENODEV, o') /\ o_dataq o' = [] /\
    w_sent (o_w o') = w_sent (o_w o).
Proof.
  intros Ht He. cbn [send_loop]. unfold bind at 1, modify. unfold bind at 1. rewrite send_packet_spec.
  unfold on_world, on_part, part, put_part, world_in_ota. rewrite send_data_spec by done. unfold bind at 1, wait.
  cbn [asleep on_ctrl log_call w_env take_cookie with_world set_dataq o_w]. rewrite He.
  eexists. split; [reflexivity|by split].
Qed.

(** ** Accepting an image *)
Definition same_chip (i : image) (f : hgic_fw_info) : Prop :=
  Z.land (u32 (im_sdk i)) 0xff = Z.land (fi_version f) 0xff /\
  u16 (im_chip i) = fi_chip_id f /\ u8 (im_cpu i) = fi_cpu_id f.

#[export] Instance same_chip_dec i f : Decision (same_chip i f).
Proof. unfold same_chip. apply _. Defined.

Lemma check_hdr_info_spec i o :
  image_ok i ->
  hgic_ota_check_hdr_info o (Some (image_bytes i))
  = Ret (if decide (same_chip i (o_fwinfo o)) then 0 else - EFAULT).
Proof.
  intros Hi. destruct (image_fields i Hi) as (_ & _ & _ & _ & _ & _ & _ & E7 & E8 & E9 & E10 & _).
  unfold hgic_ota_check_hdr_info, hgic_get_fw_sdk_version, hgic_get_fw_svn_version, hgic_get_fw_chipid,
    hgic_get_fw_cpuid.
  rewrite (get_field_ok i u32 _ _ Hi E7), (get_field_ok i u32 _ _ Hi E8), (get_field_ok i u16 _ _ Hi E9),
    (get_field_ok i u8 _ _ Hi E10). cbn [obind fst snd]. change (negb (0 =? 0)) with false. cbv iota.
  rewrite u32_u32, u16_u16. unfold same_chip.
  repeat match goal with |- context [?x =? ?y] => destruct (Z.eqb_spec x y) end; cbn [negb];
    case_decide; try done; tauto.
Qed.

Definition image_frags (i : image) (f : Z) : list (list Z) :=
  fragments (length (image_bytes i)) f (image_bytes i).
Definition image_frames (i : image) (f : Z) (fi : hgic_fw_info) : list (list Z) :=
  ota_frames (fi_chip_id fi) (fi_version fi) (zlen (image_bytes i)) 0 (image_frags i f).

(** What a theorem about an update assumes of the driver and of the image. *)
Record updatable (rf : list Z -> Z * list Z) (i : image) (name : list Z) (o : hgic_ota) : Prop := {
  up_image : image_ok i;
  up_file : rf name = (0, image_bytes i);
  up_bytes : is_bytes (image_bytes i);
  up_size : zlen (image_bytes i) < 2 ^ 31;
  up_check : hgic_get_fw_code_checksum (Some (image_bytes i)) (zlen (image_bytes i)) = Ret 0;
  up_quiet : quiet (o_w o);
  up_frag : 0 < o_frag_size o <= 65535;
  up_queue : o_dataq o = [] }.

Lemma image_nonempty i : image_ok i -> 0 < zlen (image_bytes i).
Proof.
  intros _. unfold image_bytes. rewrite zlen_app. change (zlen (put_unaligned_le16 _)) with 2.
  match goal with |- 0 < 2 + zlen ?x => pose proof (zlen_nonneg x) end. lia.
Qed.

Lemma ota_parse_fw_ok rf i name o :
  updatable rf i name o -> same_chip i (o_fwinfo o) ->
  exists o', hgic_ota_parse_fw rf name o = Ret (0, o') /\ o_w o' = o_w o /\ o_held o' = o_held o /\
    o_dataq o' = map unsent (image_frames i (o_frag_size o) (o_fwinfo o)).
Proof.
  intros [] Hs. unfold hgic_ota_parse_fw. rewrite up_file0. cbn [fst snd]. change (negb (0 =? 0)) with false. cbv iota.
  pose proof (image_nonempty i up_image0) as Hn.
  unfold bind at 1 2, modify, gets. rewrite (bind_lift _ _ _ _ (check_hdr_info_spec i (hold 1 o) up_image0)).
  change (o_fwinfo (hold 1 o)) with (o_fwinfo o). rewrite decide_True by done. change (negb (0 =? 0)) with false. cbv iota.
  rewrite s32_id, (bind_lift _ _ _ _ up_check0) by lia. change (negb (0 =? 0)) with false. cbv iota.
  destruct (image_fields i up_image0) as (_ & _ & _ & E3 & _).
  unfold hgic_get_fw_code_offset. rewrite (bind_lift _ _ _ _ (get_field_ok i u32 _ _ up_image0 E3)).
  cbn [snd]. change (negb (0 =? 0)) with false. cbv iota zeta. rewrite u32_id by lia. unfold bind at 1.
  set (o1 := set_fw_len (zlen (image_bytes i)) (hold 1 o)).
  pose proof (fragment_loop_ok (Z.to_nat (zlen (image_bytes i))) o1 (image_bytes i) 0) as L.
  rewrite Z.sub_0_r, zdrop_0 in L. rewrite L; [|split; try done; simpl; try lia; apply up_quiet0|lia].
  eexists. split; [reflexivity|]. split; [done|]. split; [simpl; lia|]. simpl. rewrite up_queue0.
  unfold image_frames, image_frags. simpl. do 2 f_equal. unfold zlen. by rewrite Nat2Z.id.
Qed.

(** ** Properties *)

(** An update with an image for the running chip, on a quiet channel to a
    chip that accepts every packet: it returns 0, the packets it sent are the
    OTA frames of consecutive fragments -- with the chip id, the running
    version, the image's length, the fragment's offset, length and checksum --
    which concatenate to exactly the image file, and neither a queued packet
    nor a reference to the image is left behind. *)
Lemma ota_delivers_image rf i name tmo o :
  updatable rf i name o -> same_chip i (o_fwinfo o) -> tmo <> 0 ->
  let frags := image_frags i (o_frag_size o) in
  w_env (o_w o) = replicate (length frags) (answered_by (ota_resp 0)) ->
  concat frags = image_bytes i /\
  exists o', hgic_ota_send_fw rf name tmo o = Ret (0, o') /\
    map skb_data (w_sent (o_w o')) = map skb_data (w_sent (o_w o))
      ++ map ota_packet (image_frames i (o_frag_size o) (o_fwinfo o)) /\
    o_dataq o' = [] /\ o_held o' = o_held o.
Proof.
  intros Hu Hs Ht frags He.
  split; [apply fragments_concat; [apply Hu|unfold zlen; lia]|].
  destruct (ota_parse_fw_ok rf i name o Hu Hs) as (o1 & P & Hw & Hh & Hq).
  unfold hgic_ota_send_fw. rewrite (bind_Ret _ _ _ _ _ P). change (negb (0 =? 0)) with false. cbv iota.
  unfold bind at 1, gets. rewrite Hq, <- (app_nil_r (map unsent _)).
  destruct (send_loop_prefix (image_frames i (o_frag_size o) (o_fwinfo o)) [] tmo [] o1)
    as (o2 & -> & Hw2 & Hh2).
  - rewrite Hw. apply Hu.
  - done.
  - rewrite Hw, He, app_nil_r. unfold image_frames. by rewrite ota_frames_length.
  - eexists. split; [reflexivity|]. simpl. rewrite Hw2, Hw, Hh2, Hh.
    destruct (sent_all_spec (image_frames i (o_frag_size o) (o_fwinfo o)) (o_w o)) as (-> & _ & _).
    rewrite map_app, map_map. done.
Qed.

(** An update that fails on the way, after [k] accepted packets.  When the
    chip reports an error for the next packet, that 16-bit error is the
    (positive) result; when it does not answer, the result is -ENODEV.  In both
    cases nothing further is sent and the queue is emptied. *)
Lemma ota_stops_at_error rf i name tmo o k f rest err e :
  updatable rf i name o -> same_chip i (o_fwinfo o) -> tmo <> 0 ->
  let frames := image_frames i (o_frag_size o) (o_fwinfo o) in
  frames = k ++ f :: rest ->
  (w_env (o_w o) = replicate (length k) (answered_by (ota_resp 0)) ++ answered_by (ota_resp err) :: e ->
   u16 err <> 0 ->
   exists o', hgic_ota_send_fw rf name tmo o = Ret (u16 err, o') /\ o_dataq o' = [] /\
     map skb_data (w_sent (o_w o')) = map skb_data (w_sent (o_w o)) ++ map ota_packet (k ++ [f])) /\
  (w_env (o_w o) = replicate (length k) (answered_by (ota_resp 0)) ->
   exists o', hgic_ota_send_fw rf name tmo o = Ret (- ENODEV, o') /\ o_dataq o' = [] /\
     map skb_data (w_sent (o_w o')) = map skb_data (w_sent (o_w o)) ++ map ota_packet k).
Proof.
  intros Hu Hs Ht frames Hf.
  destruct (ota_parse_fw_ok rf i name o Hu Hs) as (o1 & P & Hw & _ & Hq). fold frames in Hq.
  rewrite Hf, map_app in Hq. pose proof (up_quiet _ _ _ _ Hu) as Hqu.
  destruct (sent_all_spec k (o_w o)) as (Es & Ee & Eq).
  unfold hgic_ota_send_fw. rewrite !(bind_Ret _ _ _ _ _ P). change (negb (0 =? 0)) with false. cbv iota.
  unfold bind, gets. rewrite Hq, map_cons. split.
  - intros He Herr.
    destruct (send_loop_prefix k (unsent f :: map unsent rest) tmo (answered_by (ota_resp err) :: e) o1)
      as (o2 & -> & Hw2 & _); [by rewrite Hw|done|by rewrite Hw|]. rewrite Hw in Hw2.
    destruct (send_loop_error f (map unsent rest) tmo err e o2) as (o3 & E & Hd & Hw3); try done.
    + rewrite Hw2. by apply Eq.
    + rewrite Hw2, Ee, He. by rewrite drop_app_length' by (by rewrite length_replicate).
    + exists o3. split; [done|]. split; [done|]. rewrite Hw3, Hw2. simpl. by rewrite Es, !map_app, map_map, <- app_assoc.
  - intros He.
    destruct (send_loop_prefix k (unsent f :: map unsent rest) tmo [] o1)
      as (o2 & -> & Hw2 & _); [by rewrite Hw|done|by rewrite Hw, app_nil_r|]. rewrite Hw in Hw2.
    destruct (send_loop_timeout f (map unsent rest) tmo o2) as (o3 & E & Hd & Hw3); [done| |].
    + rewrite Hw2, Ee, He. by rewrite drop_ge by (by rewrite length_replicate).
    + exists o3. split; [done|]. split; [done|]. by rewrite Hw3, Hw2, Es, map_app, map_map.
Qed.

Definition demo_fwinfo : hgic_fw_info := FwInfo 0x02030001 4321 0x4002 0 (replicate 6 1) 0 0.
Definition demo_ota (scripts : list (list action)) : hgic_ota :=
  Ota 1 [] 100 0 demo_fwinfo 0 (demo_world scripts).
Lemma demo_image_bytes : is_bytes (image_bytes demo_image).
Proof. unfold is_bytes, is_byte. apply (bool_decide_unpack _). vm_compute. exact I. Qed.
Lemma demo_updatable scripts :
  updatable (fun _ => (0, image_bytes demo_image)) demo_image [1] (demo_ota scripts).
Proof.
  split; [apply demo_image_ok|done|apply demo_image_bytes|done|vm_compute; reflexivity|apply demo_quiet| |done].
  vm_compute. by split.
Qed.
Lemma demo_same_chip scripts : same_chip demo_image (o_fwinfo (demo_ota scripts)).
Proof. repeat split. Qed.

Lemma ota_delivers_image_witness :
  let o := demo_ota (replicate 2 (answered_by (ota_resp 0))) in
  concat (image_frags demo_image 100) = image_bytes demo_image /\
  exists o', hgic_ota_send_fw (fun _ => (0, image_bytes demo_image)) [1] 5000 o = Ret (0, o') /\
    map skb_data (w_sent (o_w o')) = map ota_packet (image_frames demo_image 100 demo_fwinfo) /\
    o_dataq o' = [] /\ o_held o' = 0.
Proof.
  refine (ota_delivers_image _ demo_image [1] 5000 (demo_ota _) (demo_updatable _) (demo_same_chip _) _ _);
    [done|vm_compute; reflexivity].
Defined.

(** The chip refuses the second packet with error 2. *)
Lemma ota_stops_at_error_witness :
  let o := demo_ota [answered_by (ota_resp 0); answered_by (ota_resp 2)] in
  exists o', hgic_ota_send_fw (fun _ => (0, image_bytes demo_image)) [1] 5000 o = Ret (2, o') /\ o_dataq o' = [].
Proof.
  destruct (image_frames demo_image 100 demo_fwinfo) as [|f0 [|f1 l]] eqn:E;
    [vm_compute in E; discriminate..|].
  destruct (proj1 (ota_stops_at_error _ demo_image [1] 5000
    (demo_ota [answered_by (ota_resp 0); answered_by (ota_resp 2)]) [f0] f1 l 2 [] (demo_updatable _)
    (demo_same_chip _) ltac:(done) E) eq_refl ltac:(done)) as (o' & R & Q & _).
  exists o'. split; [exact R|exact Q].
Defined.

(** An image for another chip, processor or version line is refused with
    -EFAULT before anything is sent or queued; the reference to the image is
    never given back. *)
Lemma ota_refuses_other_chip rf i name tmo o :
  updatable rf i name o -> ~ same_chip i (o_fwinfo o) ->
  exists o', hgic_ota_send_fw rf name tmo o = Ret (- EFAULT, o') /\
    o_w o' = o_w o /\ o_dataq o' = [] /\ o_held o' = o_held o + 1.
Proof.
  intros [] Hs. unfold hgic_ota_send_fw, hgic_ota_parse_fw. rewrite up_file0. cbn [fst snd].
  change (negb (0 =? 0)) with false. cbv iota.
  unfold bind at 1 2 3, modify, gets.
  rewrite (bind_lift _ _ _ _ (check_hdr_info_spec i (hold 1 o) up_image0)).
  change (o_fwinfo (hold 1 o)) with (o_fwinfo o). rewrite decide_False by done.
  eexists. split; [reflexivity|by split].
Qed.

Lemma ota_refuses_other_chip_witness :
  let o := Ota 1 [] 100 0 (FwInfo 0x02030001 4321 0x8400 0 (replicate 6 1) 0 0) 0 (demo_world []) in
  exists o', hgic_ota_send_fw (fun _ => (0, image_bytes demo_image)) [1] 5000 o = Ret (-14, o') /\
    o_w o' = o_w o /\ o_dataq o' = [] /\ o_held o' = 1.
Proof.
  apply (ota_refuses_other_chip _ demo_image [1] 5000).
  - split; [apply demo_image_ok|done|apply demo_image_bytes|done|vm_compute; reflexivity|apply demo_quiet| |done].
    vm_compute. by split.
  - intros (_ & E & _). vm_compute in E. discriminate E.
Defined.

Lemma sum_words_one_byte pre a b post :
  exists w, (w = 1 \/ w = 256) /\
    sum_words (pre ++ a :: post) - sum_words (pre ++ b :: post) = w * (a - b).
Proof.
  assert (forall n pre, (length pre <= n)%nat -> exists w, (w = 1 \/ w = 256) /\
    sum_words (pre ++ a :: post) - sum_words (pre ++ b :: post) = w * (a - b)) as H; [|by apply (H (length pre))].
  clear pre. induction n as [|n IH]; intros [|x [|y pre]] Hn; simpl in Hn; try lia; cbn [app].
  1,2: exists 1; split; [by left|]; destruct post; simpl; lia.
  - exists 256. split; [by right|]. simpl. lia.
  - destruct (IH pre) as (w & Hw & E); [lia|]. exists w. split; [done|]. simpl. lia.
Qed.

(** The fragment checksum is computed without overflow, fits 16 bits, is the
    ones' complement of the ones' complement sum of the words (the words and
    the checksum add up to 0 modulo 65535), and changes whenever a single byte
    of the fragment changes. *)
Lemma ota_checksum_detects_one_byte pre post a b :
  is_bytes pre -> is_bytes post -> is_byte a -> is_byte b -> a <> b -> zlen pre + zlen post < 65535 ->
  let d := pre ++ a :: post in let d' := pre ++ b :: post in
  exists c c', hgic_ota_check_sum d 0 (zlen d) = Ret c /\ hgic_ota_check_sum d' 0 (zlen d') = Ret c' /\
    0 <= c < 65536 /\ (sum_words d + c) mod 65535 = 0 /\ c <> c'.
Proof.
  intros Hp Hq Ha Hb Hab Hl d d'.
  assert (forall x, is_byte x -> is_bytes (pre ++ x :: post) /\ zlen (pre ++ x :: post) <= 65535) as K.
  { intros x Hx. split; [apply is_bytes_app; [done|by constructor]|]. rewrite zlen_app, zlen_cons. lia. }
  destruct (K a Ha) as [Kd Ld], (K b Hb) as [Kd' Ld']. fold d in Kd, Ld. fold d' in Kd', Ld'.
  exists (checksum d), (checksum d').
  split; [by apply (check_sum_ok _ [] d []); rewrite ?app_nil_r|].
  split; [by apply (check_sum_ok _ [] d' []); rewrite ?app_nil_r|].
  destruct (checksum_spec d Kd Ld) as (s & _ & C & Hs & Hm & H0), (checksum_spec d' Kd' Ld') as (s' & _ & C' & Hs' & Hm' & H0').
  split; [lia|]. split.
  { rewrite C. replace (sum_words d + (65535 - s)) with (1 * 65535 - (s - sum_words d)) by lia.
    rewrite Zminus_mod, Z.mod_mul, Hm by lia. done. }
  rewrite C, C'. intros E. assert (s = s') as <- by lia. apply Hab.
  destruct (sum_words_one_byte pre a b post) as (w & Hw & E1).
  fold d d' in E1. apply Z.mod_divide in Hm as [x Hx], Hm' as [y Hy]; [|lia..].
  assert (w * (a - b) = (y - x) * 65535) as E2 by lia. unfold is_byte in *.
  assert (y - x = 0) by (destruct Hw as [-> | ->]; lia). destruct Hw as [-> | ->]; lia.
Qed.

Lemma ota_checksum_detects_one_byte_witness :
  exists c c', hgic_ota_check_sum [1; 2; 3] 0 3 = Ret c /\ hgic_ota_check_sum [1; 2; 7] 0 3 = Ret c' /\
    0 <= c < 65536 /\ (sum_words [1; 2; 3] + c) mod 65535 = 0 /\ c <> c'.
Proof.
  apply (ota_checksum_detects_one_byte [1; 2] [] 3 7);
    [repeat constructor; done|by constructor|by split|by split|done|done].
Defined.

(** Whatever the channel's cookie counter says, every packet goes out with
    cookie 0 and waits for cookie 0: a cookie is taken from the counter and
    then lost, so the answers to two packets cannot be told apart. *)
Lemma ota_cookie_always_zero f tmo o :
  exists s, hgic_ota_send_packet_tmo (unsent f) tmo o
    = on_world (hgic_fwctrl_send_data s 0 tmo) (with_world (take_cookie (o_w o)) o) /\
  hdr_cookie (skb_data s) = Ret 0 /\ skb_data s = ota_packet f.
Proof.
  exists (sent_skb f). split; [apply send_packet_spec|]. split; [|done].
  unfold hdr_cookie, sent_skb, ota_packet. cbn [skb_data].
  by rewrite (get16_at_mid _ ([0x2B; 0x1A; 12; 1] ++ put_unaligned_le16 (8 + zlen f)) 0 f).
Qed.
