(* ===== verification/Device.v ===== *)
(** * The device and its receive side (hgic_fmac/core.c, hgic_fmac/event.c)

    The state of one FMAC device -- flags, cookies, the network interface, the
    queues, flow control, the boot downloader and the world of the control
    channel -- and what happens to a block the bus delivers: dispatch on the
    frame type, single and aggregated data frames, control frames, window
    updates, and the events of the firmware with the list user space reads.

    [d_netif] lists the frames handed to the network stack, [d_bus_tx] the
    frames handed to the bus and [d_out] the work items scheduled, each oldest
    first.  [d_bus_env] scripts the bus: what each call of its transmit function
    returns, and the transmissions that end and the blocks that arrive
    meanwhile; [d_reinit] scripts the results of its reinitialisation. *)
From S2P Require Import Prelude Bytes CString Proto Skb FwInfo Utils FwCtrl BootDl.

(** ** Data *)
Inductive hgicf_dev_flags :=
  | HGICF_DEV_FLAGS_INITED | HGICF_DEV_FLAGS_RUNNING | HGICF_DEV_FLAGS_SUSPEND | HGICF_DEV_FLAGS_BOOTDL.
#[export] Instance hgicf_dev_flags_eq_dec : EqDecision hgicf_dev_flags.
Proof. solve_decision. Defined.

Record hgicf_vif := Vif {
  v_fwifidx : Z;
  v_opened : bool;
  v_needed_headroom : Z;
  v_needed_tailroom : Z;
  v_tx_bytes : Z;
  v_tx_dropped : Z;
  v_rx_bytes : Z;
  v_rx_dropped : Z }.
Definition set_v_opened (x : bool) (v : hgicf_vif) : hgicf_vif :=
  Vif (v_fwifidx v) x (v_needed_headroom v) (v_needed_tailroom v) (v_tx_bytes v) (v_tx_dropped v) (v_rx_bytes v) (v_rx_dropped v).
Definition set_v_tx_bytes (x : Z) (v : hgicf_vif) : hgicf_vif :=
  Vif (v_fwifidx v) (v_opened v) (v_needed_headroom v) (v_needed_tailroom v) x (v_tx_dropped v) (v_rx_bytes v) (v_rx_dropped v).
Definition set_v_tx_dropped (x : Z) (v : hgicf_vif) : hgicf_vif :=
  Vif (v_fwifidx v) (v_opened v) (v_needed_headroom v) (v_needed_tailroom v) (v_tx_bytes v) x (v_rx_bytes v) (v_rx_dropped v).
Definition set_v_rx_bytes (x : Z) (v : hgicf_vif) : hgicf_vif :=
  Vif (v_fwifidx v) (v_opened v) (v_needed_headroom v) (v_needed_tailroom v) (v_tx_bytes v) (v_tx_dropped v) x (v_rx_dropped v).
Definition set_v_rx_dropped (x : Z) (v : hgicf_vif) : hgicf_vif :=
  Vif (v_fwifidx v) (v_opened v) (v_needed_headroom v) (v_needed_tailroom v) (v_tx_bytes v) (v_tx_dropped v) (v_rx_bytes v) x.

(** What the bus calls the driver with: the end of a transmission, and a block
    received.  One call of the bus's transmit function: its result and what the
    driver is called with before it returns. *)
Inductive bus_event := BusDone (s : skb) (ok : bool) | BusRx (m : list Z).
Record bus_reply := Reply { br_ret : Z; br_heard : list bus_event }.

(** Work items, the timer, and calls of the bus's [reinit]. *)
Inductive output :=
  | OUT_detect_work | OUT_delay_init | OUT_tx_work | OUT_test_work | OUT_mod_timer | OUT_reinit | OUT_carrier_on.

Record hgicf_wdev := Wdev {
  d_flags : list hgicf_dev_flags;
  d_data_cookie : Z;
  d_rx_cookie : Z;
  d_fw_state : Z;
  d_soft_fc : bool;
  d_txwnd : Z;
  d_fwinfo : hgic_fw_info;
  d_vif : option hgicf_vif;
  d_tx_dataq : list skb;
  d_evt_list : list skb;
  d_evt_sema : Z;
  d_now : Z;
  d_last_rx : Z;
  d_if_test : Z;
  d_test_rx_len : Z;
  d_test_tx_len : Z;
  d_tx_ctrl : Z;
  d_tx_data : Z;
  d_tx_fail : Z;
  d_detect_tmr : Z;
  d_dl : hgic_bootdl;
  d_netif : list (list Z);
  d_bus_tx : list skb;
  d_bus_env : list bus_reply;
  d_reinit : list Z;
  d_out : list output;
  d_w : world }.

Definition set_d_flags (v : list hgicf_dev_flags) (d : hgicf_wdev) : hgicf_wdev :=
  Wdev v (d_data_cookie d) (d_rx_cookie d) (d_fw_state d) (d_soft_fc d) (d_txwnd d) (d_fwinfo d)
       (d_vif d) (d_tx_dataq d) (d_evt_list d) (d_evt_sema d) (d_now d) (d_last_rx d) (d_if_test d)
       (d_test_rx_len d) (d_test_tx_len d) (d_tx_ctrl d) (d_tx_data d) (d_tx_fail d) (d_detect_tmr
       d) (d_dl d) (d_netif d) (d_bus_tx d) (d_bus_env d) (d_reinit d) (d_out d) (d_w d).
Definition set_d_data_cookie (v : Z) (d : hgicf_wdev) : hgicf_wdev :=
  Wdev (d_flags d) v (d_rx_cookie d) (d_fw_state d) (d_soft_fc d) (d_txwnd d) (d_fwinfo d) (d_vif d)
       (d_tx_dataq d) (d_evt_list d) (d_evt_sema d) (d_now d) (d_last_rx d) (d_if_test d)
       (d_test_rx_len d) (d_test_tx_len d) (d_tx_ctrl d) (d_tx_data d) (d_tx_fail d) (d_detect_tmr
       d) (d_dl d) (d_netif d) (d_bus_tx d) (d_bus_env d) (d_reinit d) (d_out d) (d_w d).
Definition set_d_rx_cookie (v : Z) (d : hgicf_wdev) : hgicf_wdev :=
  Wdev (d_flags d) (d_data_cookie d) v (d_fw_state d) (d_soft_fc d) (d_txwnd d) (d_fwinfo d) (d_vif
       d) (d_tx_dataq d) (d_evt_list d) (d_evt_sema d) (d_now d) (d_last_rx d) (d_if_test d)
       (d_test_rx_len d) (d_test_tx_len d) (d_tx_ctrl d) (d_tx_data d) (d_tx_fail d) (d_detect_tmr
       d) (d_dl d) (d_netif d) (d_bus_tx d) (d_bus_env d) (d_reinit d) (d_out d) (d_w d).
Definition set_d_fw_state (v : Z) (d : hgicf_wdev) : hgicf_wdev :=
  Wdev (d_flags d) (d_data_cookie d) (d_rx_cookie d) v (d_soft_fc d) (d_txwnd d) (d_fwinfo d) (d_vif
       d) (d_tx_dataq d) (d_evt_list d) (d_evt_sema d) (d_now d) (d_last_rx d) (d_if_test d)
       (d_test_rx_len d) (d_test_tx_len d) (d_tx_ctrl d) (d_tx_data d) (d_tx_fail d) (d_detect_tmr
       d) (d_dl d) (d_netif d) (d_bus_tx d) (d_bus_env d) (d_reinit d) (d_out d) (d_w d).
Definition set_d_soft_fc (v : bool) (d : hgicf_wdev) : hgicf_wdev :=
  Wdev (d_flags d) (d_data_cookie d) (d_rx_cookie d) (d_fw_state d) v (d_txwnd d) (d_fwinfo d)
       (d_vif d) (d_tx_dataq d) (d_evt_list d) (d_evt_sema d) (d_now d) (d_last_rx d) (d_if_test d)
       (d_test_rx_len d) (d_test_tx_len d) (d_tx_ctrl d) (d_tx_data d) (d_tx_fail d) (d_detect_tmr
       d) (d_dl d) (d_netif d) (d_bus_tx d) (d_bus_env d) (d_reinit d) (d_out d) (d_w d).
Definition set_d_txwnd (v : Z) (d : hgicf_wdev) : hgicf_wdev :=
  Wdev (d_flags d) (d_data_cookie d) (d_rx_cookie d) (d_fw_state d) (d_soft_fc d) v (d_fwinfo d)
       (d_vif d) (d_tx_dataq d) (d_evt_list d) (d_evt_sema d) (d_now d) (d_last_rx d) (d_if_test d)
       (d_test_rx_len d) (d_test_tx_len d) (d_tx_ctrl d) (d_tx_data d) (d_tx_fail d) (d_detect_tmr
       d) (d_dl d) (d_netif d) (d_bus_tx d) (d_bus_env d) (d_reinit d) (d_out d) (d_w d).
Definition set_d_fwinfo (v : hgic_fw_info) (d : hgicf_wdev) : hgicf_wdev :=
  Wdev (d_flags d) (d_data_cookie d) (d_rx_cookie d) (d_fw_state d) (d_soft_fc d) (d_txwnd d) v
       (d_vif d) (d_tx_dataq d) (d_evt_list d) (d_evt_sema d) (d_now d) (d_last_rx d) (d_if_test d)
       (d_test_rx_len d) (d_test_tx_len d) (d_tx_ctrl d) (d_tx_data d) (d_tx_fail d) (d_detect_tmr
       d) (d_dl d) (d_netif d) (d_bus_tx d) (d_bus_env d) (d_reinit d) (d_out d) (d_w d).
Definition set_d_vif (v : option hgicf_vif) (d : hgicf_wdev) : hgicf_wdev :=
  Wdev (d_flags d) (d_data_cookie d) (d_rx_cookie d) (d_fw_state d) (d_soft_fc d) (d_txwnd d)
       (d_fwinfo d) v (d_tx_dataq d) (d_evt_list d) (d_evt_sema d) (d_now d) (d_last_rx d)
       (d_if_test d) (d_test_rx_len d) (d_test_tx_len d) (d_tx_ctrl d) (d_tx_data d) (d_tx_fail d)
       (d_detect_tmr d) (d_dl d) (d_netif d) (d_bus_tx d) (d_bus_env d) (d_reinit d) (d_out d) (d_w
       d).
Definition set_d_tx_dataq (v : list skb) (d : hgicf_wdev) : hgicf_wdev :=
  Wdev (d_flags d) (d_data_cookie d) (d_rx_cookie d) (d_fw_state d) (d_soft_fc d) (d_txwnd d)
       (d_fwinfo d) (d_vif d) v (d_evt_list d) (d_evt_sema d) (d_now d) (d_last_rx d) (d_if_test d)
       (d_test_rx_len d) (d_test_tx_len d) (d_tx_ctrl d) (d_tx_data d) (d_tx_fail d) (d_detect_tmr
       d) (d_dl d) (d_netif d) (d_bus_tx d) (d_bus_env d) (d_reinit d) (d_out d) (d_w d).
Definition set_d_evt_list (v : list skb) (d : hgicf_wdev) : hgicf_wdev :=
  Wdev (d_flags d) (d_data_cookie d) (d_rx_cookie d) (d_fw_state d) (d_soft_fc d) (d_txwnd d)
       (d_fwinfo d) (d_vif d) (d_tx_dataq d) v (d_evt_sema d) (d_now d) (d_last_rx d) (d_if_test d)
       (d_test_rx_len d) (d_test_tx_len d) (d_tx_ctrl d) (d_tx_data d) (d_tx_fail d) (d_detect_tmr
       d) (d_dl d) (d_netif d) (d_bus_tx d) (d_bus_env d) (d_reinit d) (d_out d) (d_w d).
Definition set_d_evt_sema (v : Z) (d : hgicf_wdev) : hgicf_wdev :=
  Wdev (d_flags d) (d_data_cookie d) (d_rx_cookie d) (d_fw_state d) (d_soft_fc d) (d_txwnd d)
       (d_fwinfo d) (d_vif d) (d_tx_dataq d) (d_evt_list d) v (d_now d) (d_last_rx d) (d_if_test d)
       (d_test_rx_len d) (d_test_tx_len d) (d_tx_ctrl d) (d_tx_data d) (d_tx_fail d) (d_detect_tmr
       d) (d_dl d) (d_netif d) (d_bus_tx d) (d_bus_env d) (d_reinit d) (d_out d) (d_w d).
Definition set_d_now (v : Z) (d : hgicf_wdev) : hgicf_wdev :=
  Wdev (d_flags d) (d_data_cookie d) (d_rx_cookie d) (d_fw_state d) (d_soft_fc d) (d_txwnd d)
       (d_fwinfo d) (d_vif d) (d_tx_dataq d) (d_evt_list d) (d_evt_sema d) v (d_last_rx d)
       (d_if_test d) (d_test_rx_len d) (d_test_tx_len d) (d_tx_ctrl d) (d_tx_data d) (d_tx_fail d)
       (d_detect_tmr d) (d_dl d) (d_netif d) (d_bus_tx d) (d_bus_env d) (d_reinit d) (d_out d) (d_w
       d).
Definition set_d_last_rx (v : Z) (d : hgicf_wdev) : hgicf_wdev :=
  Wdev (d_flags d) (d_data_cookie d) (d_rx_cookie d) (d_fw_state d) (d_soft_fc d) (d_txwnd d)
       (d_fwinfo d) (d_vif d) (d_tx_dataq d) (d_evt_list d) (d_evt_sema d) (d_now d) v (d_if_test d)
       (d_test_rx_len d) (d_test_tx_len d) (d_tx_ctrl d) (d_tx_data d) (d_tx_fail d) (d_detect_tmr
       d) (d_dl d) (d_netif d) (d_bus_tx d) (d_bus_env d) (d_reinit d) (d_out d) (d_w d).
Definition set_d_if_test (v : Z) (d : hgicf_wdev) : hgicf_wdev :=
  Wdev (d_flags d) (d_data_cookie d) (d_rx_cookie d) (d_fw_state d) (d_soft_fc d) (d_txwnd d)
       (d_fwinfo d) (d_vif d) (d_tx_dataq d) (d_evt_list d) (d_evt_sema d) (d_now d) (d_last_rx d) v
       (d_test_rx_len d) (d_test_tx_len d) (d_tx_ctrl d) (d_tx_data d) (d_tx_fail d) (d_detect_tmr
       d) (d_dl d) (d_netif d) (d_bus_tx d) (d_bus_env d) (d_reinit d) (d_out d) (d_w d).
Definition set_d_test_rx_len (v : Z) (d : hgicf_wdev) : hgicf_wdev :=
  Wdev (d_flags d) (d_data_cookie d) (d_rx_cookie d) (d_fw_state d) (d_soft_fc d) (d_txwnd d)
       (d_fwinfo d) (d_vif d) (d_tx_dataq d) (d_evt_list d) (d_evt_sema d) (d_now d) (d_last_rx d)
       (d_if_test d) v (d_test_tx_len d) (d_tx_ctrl d) (d_tx_data d) (d_tx_fail d) (d_detect_tmr d)
       (d_dl d) (d_netif d) (d_bus_tx d) (d_bus_env d) (d_reinit d) (d_out d) (d_w d).
Definition set_d_test_tx_len (v : Z) (d : hgicf_wdev) : hgicf_wdev :=
  Wdev (d_flags d) (d_data_cookie d) (d_rx_cookie d) (d_fw_state d) (d_soft_fc d) (d_txwnd d)
       (d_fwinfo d) (d_vif d) (d_tx_dataq d) (d_evt_list d) (d_evt_sema d) (d_now d) (d_last_rx d)
       (d_if_test d) (d_test_rx_len d) v (d_tx_ctrl d) (d_tx_data d) (d_tx_fail d) (d_detect_tmr d)
       (d_dl d) (d_netif d) (d_bus_tx d) (d_bus_env d) (d_reinit d) (d_out d) (d_w d).
Definition set_d_tx_ctrl (v : Z) (d : hgicf_wdev) : hgicf_wdev :=
  Wdev (d_flags d) (d_data_cookie d) (d_rx_cookie d) (d_fw_state d) (d_soft_fc d) (d_txwnd d)
       (d_fwinfo d) (d_vif d) (d_tx_dataq d) (d_evt_list d) (d_evt_sema d) (d_now d) (d_last_rx d)
       (d_if_test d) (d_test_rx_len d) (d_test_tx_len d) v (d_tx_data d) (d_tx_fail d) (d_detect_tmr
       d) (d_dl d) (d_netif d) (d_bus_tx d) (d_bus_env d) (d_reinit d) (d_out d) (d_w d).
Definition set_d_tx_data (v : Z) (d : hgicf_wdev) : hgicf_wdev :=
  Wdev (d_flags d) (d_data_cookie d) (d_rx_cookie d) (d_fw_state d) (d_soft_fc d) (d_txwnd d)
       (d_fwinfo d) (d_vif d) (d_tx_dataq d) (d_evt_list d) (d_evt_sema d) (d_now d) (d_last_rx d)
       (d_if_test d) (d_test_rx_len d) (d_test_tx_len d) (d_tx_ctrl d) v (d_tx_fail d) (d_detect_tmr
       d) (d_dl d) (d_netif d) (d_bus_tx d) (d_bus_env d) (d_reinit d) (d_out d) (d_w d).
Definition set_d_tx_fail (v : Z) (d : hgicf_wdev) : hgicf_wdev :=
  Wdev (d_flags d) (d_data_cookie d) (d_rx_cookie d) (d_fw_state d) (d_soft_fc d) (d_txwnd d)
       (d_fwinfo d) (d_vif d) (d_tx_dataq d) (d_evt_list d) (d_evt_sema d) (d_now d) (d_last_rx d)
       (d_if_test d) (d_test_rx_len d) (d_test_tx_len d) (d_tx_ctrl d) (d_tx_data d) v (d_detect_tmr
       d) (d_dl d) (d_netif d) (d_bus_tx d) (d_bus_env d) (d_reinit d) (d_out d) (d_w d).
Definition set_d_detect_tmr (v : Z) (d : hgicf_wdev) : hgicf_wdev :=
  Wdev (d_flags d) (d_data_cookie d) (d_rx_cookie d) (d_fw_state d) (d_soft_fc d) (d_txwnd d)
       (d_fwinfo d) (d_vif d) (d_tx_dataq d) (d_evt_list d) (d_evt_sema d) (d_now d) (d_last_rx d)
       (d_if_test d) (d_test_rx_len d) (d_test_tx_len d) (d_tx_ctrl d) (d_tx_data d) (d_tx_fail d) v
       (d_dl d) (d_netif d) (d_bus_tx d) (d_bus_env d) (d_reinit d) (d_out d) (d_w d).
Definition set_d_dl (v : hgic_bootdl) (d : hgicf_wdev) : hgicf_wdev :=
  Wdev (d_flags d) (d_data_cookie d) (d_rx_cookie d) (d_fw_state d) (d_soft_fc d) (d_txwnd d)
       (d_fwinfo d) (d_vif d) (d_tx_dataq d) (d_evt_list d) (d_evt_sema d) (d_now d) (d_last_rx d)
       (d_if_test d) (d_test_rx_len d) (d_test_tx_len d) (d_tx_ctrl d) (d_tx_data d) (d_tx_fail d)
       (d_detect_tmr d) v (d_netif d) (d_bus_tx d) (d_bus_env d) (d_reinit d) (d_out d) (d_w d).
Definition set_d_netif (v : list (list Z)) (d : hgicf_wdev) : hgicf_wdev :=
  Wdev (d_flags d) (d_data_cookie d) (d_rx_cookie d) (d_fw_state d) (d_soft_fc d) (d_txwnd d)
       (d_fwinfo d) (d_vif d) (d_tx_dataq d) (d_evt_list d) (d_evt_sema d) (d_now d) (d_last_rx d)
       (d_if_test d) (d_test_rx_len d) (d_test_tx_len d) (d_tx_ctrl d) (d_tx_data d) (d_tx_fail d)
       (d_detect_tmr d) (d_dl d) v (d_bus_tx d) (d_bus_env d) (d_reinit d) (d_out d) (d_w d).
Definition set_d_bus_tx (v : list skb) (d : hgicf_wdev) : hgicf_wdev :=
  Wdev (d_flags d) (d_data_cookie d) (d_rx_cookie d) (d_fw_state d) (d_soft_fc d) (d_txwnd d)
       (d_fwinfo d) (d_vif d) (d_tx_dataq d) (d_evt_list d) (d_evt_sema d) (d_now d) (d_last_rx d)
       (d_if_test d) (d_test_rx_len d) (d_test_tx_len d) (d_tx_ctrl d) (d_tx_data d) (d_tx_fail d)
       (d_detect_tmr d) (d_dl d) (d_netif d) v (d_bus_env d) (d_reinit d) (d_out d) (d_w d).
Definition set_d_bus_env (v : list bus_reply) (d : hgicf_wdev) : hgicf_wdev :=
  Wdev (d_flags d) (d_data_cookie d) (d_rx_cookie d) (d_fw_state d) (d_soft_fc d) (d_txwnd d)
       (d_fwinfo d) (d_vif d) (d_tx_dataq d) (d_evt_list d) (d_evt_sema d) (d_now d) (d_last_rx d)
       (d_if_test d) (d_test_rx_len d) (d_test_tx_len d) (d_tx_ctrl d) (d_tx_data d) (d_tx_fail d)
       (d_detect_tmr d) (d_dl d) (d_netif d) (d_bus_tx d) v (d_reinit d) (d_out d) (d_w d).
Definition set_d_reinit (v : list Z) (d : hgicf_wdev) : hgicf_wdev :=
  Wdev (d_flags d) (d_data_cookie d) (d_rx_cookie d) (d_fw_state d) (d_soft_fc d) (d_txwnd d)
       (d_fwinfo d) (d_vif d) (d_tx_dataq d) (d_evt_list d) (d_evt_sema d) (d_now d) (d_last_rx d)
       (d_if_test d) (d_test_rx_len d) (d_test_tx_len d) (d_tx_ctrl d) (d_tx_data d) (d_tx_fail d)
       (d_detect_tmr d) (d_dl d) (d_netif d) (d_bus_tx d) (d_bus_env d) v (d_out d) (d_w d).
Definition set_d_out (v : list output) (d : hgicf_wdev) : hgicf_wdev :=
  Wdev (d_flags d) (d_data_cookie d) (d_rx_cookie d) (d_fw_state d) (d_soft_fc d) (d_txwnd d)
       (d_fwinfo d) (d_vif d) (d_tx_dataq d) (d_evt_list d) (d_evt_sema d) (d_now d) (d_last_rx d)
       (d_if_test d) (d_test_rx_len d) (d_test_tx_len d) (d_tx_ctrl d) (d_tx_data d) (d_tx_fail d)
       (d_detect_tmr d) (d_dl d) (d_netif d) (d_bus_tx d) (d_bus_env d) (d_reinit d) v (d_w d).
Definition set_d_w (v : world) (d : hgicf_wdev) : hgicf_wdev :=
  Wdev (d_flags d) (d_data_cookie d) (d_rx_cookie d) (d_fw_state d) (d_soft_fc d) (d_txwnd d)
       (d_fwinfo d) (d_vif d) (d_tx_dataq d) (d_evt_list d) (d_evt_sema d) (d_now d) (d_last_rx d)
       (d_if_test d) (d_test_rx_len d) (d_test_tx_len d) (d_tx_ctrl d) (d_tx_data d) (d_tx_fail d)
       (d_detect_tmr d) (d_dl d) (d_netif d) (d_bus_tx d) (d_bus_env d) (d_reinit d) (d_out d) v.

#[export] Instance world_in_wdev : Inside world hgicf_wdev.
Proof. by refine {| part := d_w; put_part := set_d_w |}; [|intros []|]. Defined.
Definition dev_flag (f : hgicf_dev_flags) (d : hgicf_wdev) : bool := bool_decide (f ∈ d_flags d).
Definition bus_flag (f : hgic_bus_flag) (d : hgicf_wdev) : bool := test_bit f (w_ctrl (d_w d)).
Definition set_dev_flag (f : hgicf_dev_flags) (d : hgicf_wdev) := set_d_flags (f :: d_flags d) d.
Definition clear_dev_flag (f : hgicf_dev_flags) (d : hgicf_wdev) :=
  set_d_flags (filter (fun g => g <> f) (d_flags d)) d.
Definition set_bus_flag (f : hgic_bus_flag) (d : hgicf_wdev) := set_d_w (on_ctrl (set_bit f) (d_w d)) d.
Definition clear_bus_flag (f : hgic_bus_flag) (d : hgicf_wdev) := set_d_w (on_ctrl (clear_bit f) (d_w d)) d.
Definition emit (o : output) (d : hgicf_wdev) := set_d_out (d_out d ++ [o]) d.
Definition on_vif (g : hgicf_vif -> hgicf_vif) (d : hgicf_wdev) := set_d_vif (g <$> d_vif d) d.

Definition hgicf_data_cookie : M hgicf_wdev Z :=
  let! cookie := gets d_data_cookie in
  modify (set_d_data_cookie (u16 (cookie + 1))) ;;;
  ret cookie.

(** ** Receiving data frames *)
Definition u64 (x : Z) : Z := x mod 2 ^ 64.
(** [len > sizeof(...)]: the signed length is converted to [size_t]. *)
Definition longer_than (n len : Z) : bool := n <? u64 len.

(** [m] is the memory from [data] on. *)
Definition hgicf_rx_single_frm (m : list Z) (len : Z) : M hgicf_wdev unit :=
  let! v := gets d_vif in
  match v with
  | None => ret tt
  | Some v =>
      if longer_than 8 len then
        let! cookie := lift (hdr_cookie m) in
        modify (set_d_rx_cookie cookie) ;;;
        modify (on_vif (fun v => set_v_rx_bytes (u64 (v_rx_bytes v + len)) v)) ;;;
        let! flags := lift (hdr_flags m) in
        let data := zdrop 8 m in
        let len := s32 (len - (8 + flags)) in
        let! s := on_world (dev_alloc_skb (len + v_needed_headroom v + v_needed_tailroom v)) in
        match s with
        | Some s =>
            let! s := lift (skb_reserve s (v_needed_headroom v)) in
            let! bs := lift (mem_read data 0 len) in
            let! s := lift (skb_write s 0 bs) in
            let! s := lift (skb_put s len) in
            modify (fun d => set_d_netif (d_netif d ++ [skb_data s]) d)
        | None => modify (on_vif (fun v => set_v_rx_dropped (u64 (v_rx_dropped v + len)) v))
        end
      else ret tt
  end.

(** A sub-frame of length 0 leaves the loop where it was: with one round per
    byte of [len] the fuel only runs out then. *)
Fixpoint rx_agg_loop (fuel : nat) (m : list Z) (len : Z) : M hgicf_wdev unit :=
  if longer_than 8 len then
    match fuel with
    | O => fail Diverges
    | S fuel =>
        let! magic := lift (hdr_magic m) in
        let! length := lift (hdr_length m) in
        let! _ := lift (hdr_cookie m) in
        let! type := lift (hdr_type m) in
        if (magic =? HGIC_HDR_RX_MAGIC) && (type =? HGIC_HDR_TYPE_FRM2) && (length <=? len) then
          hgicf_rx_single_frm m length ;;;
          rx_agg_loop fuel (zdrop length m) (s32 (len - length))
        else ret tt
    end
  else ret tt.

Definition hgicf_rx_agg_frm (m : list Z) (len : Z) : M hgicf_wdev unit :=
  let! cookie := lift (hdr_cookie m) in
  modify (set_d_rx_cookie cookie) ;;;
  let len := s32 (len - 8) in
  rx_agg_loop (S (Z.to_nat len)) (zdrop 8 m) len.

(** ** Dispatch *)
(** The interface test's comparison stops at the first difference. *)
Fixpoint verify_loop (n : nat) (m : list Z) (i : Z) : outcome unit :=
  match n with
  | O => Ret tt
  | S n => leto b := mem_get m i in if negb (b =? 0xAA) then Ret tt else verify_loop n m (i + 1)
  end.

Definition is_ctrl_type (t : Z) : bool :=
  (t =? HGIC_HDR_TYPE_CMD) || (t =? HGIC_HDR_TYPE_CMD2) || (t =? HGIC_HDR_TYPE_EVENT) ||
  (t =? HGIC_HDR_TYPE_EVENT2) || (t =? HGIC_HDR_TYPE_OTA) || (t =? HGIC_HDR_TYPE_BOOTDL).

Definition touch : M hgicf_wdev unit := modify (fun d => set_d_last_rx (d_now d) d).

Definition rx_dispatch (m : list Z) (len : Z) : M hgicf_wdev unit :=
  let! type := lift (hdr_type m) in
  if (type =? HGIC_HDR_TYPE_FRM2) || (type =? HGIC_HDR_TYPE_AGGFRM) then
    touch ;;;
    let! d := gets (fun d => d) in
    if match d_vif d with None => true | _ => false end || negb (d_if_test d =? 0) then ret tt
    else if type =? HGIC_HDR_TYPE_AGGFRM then hgicf_rx_agg_frm m len
    else hgicf_rx_single_frm m len
  else if is_ctrl_type type then on_world (hgic_fwctrl_rx m len)
  else if type =? HGIC_HDR_TYPE_TEST2 then
    touch ;;;
    modify (fun d => set_d_test_rx_len (u32 (d_test_rx_len d + len)) d) ;;;
    let! t := gets d_if_test in
    if t =? 3 then lift (verify_loop 1492 m 8) else ret tt
  else if type =? HGIC_HDR_TYPE_SOFTFC then
    touch ;;;
    let! cookie := lift (hdr_cookie m) in
    modify (set_d_txwnd cookie)
  else ret tt.

(** [buf] is the receive buffer, [len] the number of bytes received into it. *)
Definition hgicf_rx_data (buf : list Z) (len : Z) : M hgicf_wdev Z :=
  let! i := lift (hgic_skip_padding buf) in
  let m := zdrop i buf in
  let len := len - i in
  let! magic := lift (hdr_magic m) in
  let! length := lift (hdr_length m) in
  let! _ := lift (hdr_cookie m) in
  if negb (magic =? HGIC_HDR_RX_MAGIC) then
    let! _ := lift (mem_read m 0 16) in ret (-1)
  else
  let! type := lift (hdr_type m) in
  if (len <? length) && negb (type =? HGIC_HDR_TYPE_BOOTDL) then ret (-1) else
  rx_dispatch m (if len <? length then len else length) ;;;
  ret 0.

(** ** Events *)
Definition HGIC_EVENT_MAX : Z := 16.

Definition event_enqueue (s : skb) (d : hgicf_wdev) : hgicf_wdev :=
  let l := d_evt_list d in
  let l := if HGIC_EVENT_MAX <? zlen l then tail l else l in
  set_d_evt_sema (d_evt_sema d + 1) (set_d_evt_list (l ++ [s]) d).

(** The debug text is printed up to its terminator. *)
Definition hgicf_rx_fw_event (s : skb) : M hgicf_wdev unit :=
  if skb_len s <? sizeof_hgic_ctrl_hdr then ret tt else
  let m := skb_data s ++ skb_tail s in
  let! evt_id := lift (HDR_EVTID m) in
  if evt_id =? HGIC_EVENT_FWDBG_INFO then
    let! _ := lift (strlen (zdrop sizeof_hgic_ctrl_hdr m)) in ret tt
  else modify (event_enqueue s).

(** The read of the events file: the bytes copied to user space. *)
Definition hgicf_fwevent_read : M hgicf_wdev (list Z) := fun d =>
  if d_evt_sema d <=? 0 then Ret ([], d) else
  let d := set_d_evt_sema (d_evt_sema d - 1) d in
  match d_evt_list d with
  | [] => Ret ([], d)
  | s :: l => Ret (skb_data s, set_d_evt_list l d)
  end.

(** ** Data frames as the chip sends them *)
Record subframe := Sub {
  sf_cookie : Z; sf_ifidx : Z; sf_payload : list Z; sf_pad : list Z }.

Definition sf_len (f : subframe) : Z := 8 + zlen (sf_payload f) + zlen (sf_pad f).
(** The flags nibble counts the padding after the payload. *)
Definition sf_bytes (f : subframe) : list Z :=
  [0x1A; 0x2B; type_code HGIC_HDR_TYPE_FRM2; sf_ifidx f + 16 * zlen (sf_pad f)]
  ++ put_unaligned_le16 (sf_len f) ++ put_unaligned_le16 (sf_cookie f) ++ sf_payload f ++ sf_pad f.

Record sf_ok (f : subframe) : Prop := {
  so_cookie : 0 <= sf_cookie f < 2 ^ 16; so_ifidx : 0 <= sf_ifidx f < 16;
  so_payload : 0 < zlen (sf_payload f); so_pad : zlen (sf_pad f) < 16; so_len : sf_len f < 2 ^ 16 }.

Lemma sf_header f rest :
  sf_ok f -> let m := sf_bytes f ++ rest in
  hdr_magic m = Ret HGIC_HDR_RX_MAGIC /\ hdr_type m = Ret (type_code HGIC_HDR_TYPE_FRM2) /\
  hdr_flags m = Ret (zlen (sf_pad f)) /\ hdr_length m = Ret (sf_len f) /\ hdr_cookie m = Ret (sf_cookie f) /\
  zlen (sf_bytes f) = sf_len f.
Proof.
  intros [] m. pose proof (zlen_nonneg (sf_pad f)).
  assert (0 <= sf_len f) as Hl by (unfold sf_len; pose proof (zlen_nonneg (sf_payload f)); lia).
  unfold m, sf_bytes. set (b := sf_ifidx f + 16 * zlen (sf_pad f)).
  split; [unfold hdr_magic; by erewrite (get16_at_mid _ [] HGIC_HDR_RX_MAGIC)|]. split; [done|]. split.
  { unfold hdr_flags. cbn [app]. change (mem_get _ 3) with (Ret b). cbn [obind]. f_equal. unfold b.
    rewrite Z.shiftr_div_pow2 by lia. change (2 ^ 4) with 16. symmetry. apply (Z.div_unique_pos _ _ _ (sf_ifidx f)); lia. }
  split.
  { unfold hdr_length. erewrite (get16_at_mid _ [0x1A; 0x2B; _; b]); [|by rewrite <- !app_assoc|done].
    by rewrite u16_id by lia. }
  split.
  { unfold hdr_cookie. erewrite (get16_at_mid _ ([0x1A; 0x2B; _; b] ++ put_unaligned_le16 (sf_len f)));
      [|by rewrite <- !app_assoc|done]. by rewrite u16_id by lia. }
  unfold sf_len. rewrite !zlen_app. unfold put_unaligned_le16, zlen. simpl. lia.
Qed.

Lemma longer_than_pos n len : 0 <= len < 2 ^ 31 -> longer_than n len = (n <? len).
Proof. intros. unfold longer_than, u64. by rewrite Z.mod_small by lia. Qed.

(** An interface the kernel could have created. *)
Definition vif_ok (v : hgicf_vif) : Prop :=
  0 <= v_needed_headroom v < 2 ^ 16 /\ 0 <= v_needed_tailroom v < 2 ^ 16.

(** The device after the payload of [f] was handed to the stack. *)
Definition delivered (f : subframe) (d : hgicf_wdev) : hgicf_wdev :=
  let d := set_d_rx_cookie (sf_cookie f) d in
  let d := on_vif (fun v => set_v_rx_bytes (u64 (v_rx_bytes v + sf_len f)) v) d in
  set_d_netif (d_netif d ++ [sf_payload f]) d.

Definition can_receive (d : hgicf_wdev) : Prop :=
  w_alloc (d_w d) = [] /\ exists v, d_vif d = Some v /\ vif_ok v.

Lemma delivered_can_receive f d : can_receive d -> can_receive (delivered f d).
Proof.
  intros (Ha & v & Hv & Hok). split; [done|]. unfold delivered, on_vif. simpl. rewrite Hv.
  by eexists.
Qed.

Lemma fill_reserved hr bs room :
  0 <= hr -> 0 <= room -> exists h t,
  (leto s := skb_reserve (skb_of_block (replicate (Z.to_nat (hr + (zlen bs + room))) 0)) hr in
   leto s := skb_write s 0 bs in skb_put s (zlen bs)) = Ret (Skb h bs t).
Proof.
  intros Hh Hr. pose proof (zlen_nonneg bs).
  exists (replicate (Z.to_nat hr) 0), (replicate (Z.to_nat room) 0).
  rewrite replicate_split by lia. rewrite skb_reserve_ok; [|unfold skb_of_block, skb_tailroom; cbn [skb_tail];
    rewrite !zlen_app, !zlen_replicate by lia; lia|done].
  unfold skb_of_block. cbn [skb_head skb_tail app obind].
  rewrite ztake_app_length, zdrop_app_length by (by rewrite zlen_replicate by lia).
  rewrite replicate_split by lia. unfold skb_write. cbn [skb_data skb_tail skb_head app].
  rewrite (mem_write_mid _ [] (replicate (Z.to_nat (zlen bs)) 0) (replicate (Z.to_nat room) 0));
    [|done|done|rewrite zlen_replicate; lia].
  unfold skb_len. cbn [skb_data obind]. change (zlen []) with 0. rewrite ztake_0, zdrop_0. cbn [app].
  by rewrite skb_put_app.
Qed.

Lemma rx_single_ok f rest d :
  can_receive d -> sf_ok f ->
  hgicf_rx_single_frm (sf_bytes f ++ rest) (sf_len f) d = Ret (tt, delivered f d).
Proof.
  intros (Ha & v & Hv & Hh & Ht) Hf. pose proof Hf as [].
  destruct (sf_header f rest Hf) as (_ & _ & Hfl & _ & Hc & _).
  pose proof (zlen_nonneg (sf_pad f)).
  unfold hgicf_rx_single_frm, bind at 1, gets. rewrite Hv.
  assert (8 < sf_len f) by (unfold sf_len; lia).
  rewrite longer_than_pos by lia. destruct (Z.ltb_spec 8 (sf_len f)); [|lia].
  rewrite (bind_lift _ _ _ _ Hc). unfold bind at 1 2, modify. rewrite (bind_lift _ _ _ _ Hfl).
  set (d1 := on_vif _ _). set (pl := sf_payload f) in *.
  assert (sf_len f - (8 + zlen (sf_pad f)) = zlen pl) as -> by (unfold sf_len, pl; lia).
  assert (zlen pl < 2 ^ 16) by (unfold sf_len in so_len0; fold pl in so_len0; lia). rewrite s32_id by lia.
  destruct (fill_reserved (v_needed_headroom v) pl (v_needed_tailroom v)) as (h & t & E); [lia..|].
  unfold bind at 1, on_world, on_part, part, put_part, world_in_wdev, dev_alloc_skb, bind at 1.
  rewrite alloc_empty by (done || lia). unfold ret at 1. cbn [fmap option_fmap option_map].
  replace (zlen pl + v_needed_headroom v + v_needed_tailroom v)
    with (v_needed_headroom v + (zlen pl + v_needed_tailroom v)) by lia.
  destruct (skb_reserve _ _) as [s1|]; [|done]. cbn [obind] in E. rewrite (bind_lift _ _ _ s1) by done.
  assert (mem_read (zdrop 8 (sf_bytes f ++ rest)) 0 (zlen pl) = Ret pl) as R.
  { apply (mem_read_mid _ [] pl (sf_pad f ++ rest)); [|done..].
    replace (sf_bytes f ++ rest) with (([0x1A; 0x2B; type_code HGIC_HDR_TYPE_FRM2; sf_ifidx f + 16 * zlen (sf_pad f)]
      ++ put_unaligned_le16 (sf_len f) ++ put_unaligned_le16 (sf_cookie f)) ++ pl ++ sf_pad f ++ rest)
      by (unfold sf_bytes; by rewrite <- !app_assoc). by apply zdrop_app_length. }
  rewrite (bind_lift _ _ _ _ R). destruct (skb_write s1 0 pl) as [s2|]; [|done]. cbn [obind] in E.
  rewrite (bind_lift _ _ _ s2) by done. rewrite (bind_lift _ _ _ _ E). by destruct d.
Qed.

Definition subs_bytes (fs : list subframe) : list Z := concat (map sf_bytes fs).

Lemma rx_agg_loop_ok fs fuel tail rest d :
  can_receive d -> Forall sf_ok fs -> (length fs <= fuel)%nat -> zlen tail <= 8 ->
  zlen (subs_bytes fs ++ tail) < 2 ^ 31 ->
  rx_agg_loop fuel (subs_bytes fs ++ tail ++ rest) (zlen (subs_bytes fs ++ tail)) d
  = Ret (tt, foldl (fun d f => delivered f d) d fs).
Proof.
  intros Hd Hfs. revert fuel d Hd. induction Hfs as [|f fs Hf Hfs IH]; intros fuel d Hd Hfu Ht Hl.
  { unfold subs_bytes. cbn [map concat app] in *. pose proof (zlen_nonneg tail).
    destruct fuel; cbn [rx_agg_loop]; rewrite longer_than_pos by lia; by destruct (Z.ltb_spec 8 (zlen tail)); [lia|]. }
  destruct fuel as [|fuel]; [simpl in Hfu; lia|]. unfold subs_bytes in *. cbn [map concat] in *.
  rewrite <- !app_assoc. set (m2 := concat (map sf_bytes fs) ++ tail ++ rest).
  rewrite <- app_assoc in Hl.
  destruct (sf_header f m2 Hf) as (Hm & Hty & _ & Hln & Hc & Hz).
  rewrite zlen_app, Hz in Hl |- *. pose proof (zlen_nonneg (concat (map sf_bytes fs) ++ tail)).
  assert (8 < sf_len f) by (destruct Hf; unfold sf_len; pose proof (zlen_nonneg (sf_pad f)); lia).
  cbn [rx_agg_loop]. rewrite longer_than_pos by lia.
  destruct (Z.ltb_spec 8 (sf_len f + zlen (concat (map sf_bytes fs) ++ tail))); [|lia].
  rewrite (bind_lift _ _ _ _ Hm), (bind_lift _ _ _ _ Hln), (bind_lift _ _ _ _ Hc), (bind_lift _ _ _ _ Hty).
  rewrite !Z.eqb_refl. destruct (Z.leb_spec (sf_len f) (sf_len f + zlen (concat (map sf_bytes fs) ++ tail))); [|lia].
  cbn [andb]. rewrite (bind_Ret _ _ _ _ _ (rx_single_ok f m2 d Hd Hf)).
  rewrite zdrop_app_length by done. rewrite s32_id by lia.
  replace (sf_len f + zlen (concat (map sf_bytes fs) ++ tail) - sf_len f)
    with (zlen (concat (map sf_bytes fs) ++ tail)) by lia.
  apply IH; [by apply delivered_can_receive|simpl in Hfu; lia|done|lia].
Qed.

Definition agg_block (cookie : Z) (fs : list subframe) (tail : list Z) : list Z :=
  [0x1A; 0x2B; type_code HGIC_HDR_TYPE_AGGFRM; 0] ++ put_unaligned_le16 (8 + zlen (subs_bytes fs ++ tail))
  ++ put_unaligned_le16 cookie ++ subs_bytes fs ++ tail.

Lemma skip_padding_spec (k : nat) b l :
  (k <= 3)%nat -> b <> 255 -> hgic_skip_padding (replicate k 255 ++ b :: l) = Ret (Z.of_nat k).
Proof.
  intros Hk Hb. apply Z.eqb_neq in Hb.
  destruct k as [|[|[|[|k]]]]; [..|lia]; unfold hgic_skip_padding, skip_ff; cbn [replicate app];
    repeat (change (mem_get (255 :: ?l) 0) with (Ret 255); cbn [obind]; change (255 =? 255) with true; cbv iota;
            change (zdrop 1 (255 :: ?l)) with l);
    change (mem_get (b :: l) 0) with (Ret b); cbn [obind]; rewrite ?Hb; done.
Qed.

Lemma foldl_delivered fs d :
  let d' := foldl (fun d f => delivered f d) d fs in
  d_netif d' = d_netif d ++ map sf_payload fs /\
  d_rx_cookie d' = foldl (fun _ f => sf_cookie f) (d_rx_cookie d) fs /\ d_w d' = d_w d /\ d_last_rx d' = d_last_rx d.
Proof.
  revert d. induction fs as [|f fs IH]; intros d; simpl; [by rewrite app_nil_r|].
  destruct (IH (delivered f d)) as (-> & -> & -> & ->). simpl. by rewrite <- app_assoc.
Qed.

Lemma subs_length fs : Forall sf_ok fs -> Z.of_nat (length fs) <= zlen (subs_bytes fs).
Proof.
  induction 1 as [|f fs Hf Hfs IH]; [done|]. unfold subs_bytes in *. cbn [map concat length].
  rewrite zlen_app. destruct (sf_header f [] Hf) as (_ & _ & _ & _ & _ & ->).
  destruct Hf. unfold sf_len. pose proof (zlen_nonneg (sf_pad f)). lia.
Qed.

(** ** Properties of the receive side *)

(** An aggregated block -- behind up to three padding bytes, with any
    sub-frames whose flags nibble counts their padding, up to eight trailing
    bytes, and whatever else is in the receive buffer -- hands exactly the
    sub-frames' payloads to the network stack, in order, and leaves the last
    sub-frame's cookie and the time of reception. *)
Lemma rx_agg_delivers (k : nat) cookie fs tail junk len d :
  can_receive d -> d_if_test d = 0 -> (k <= 3)%nat -> 0 <= cookie < 2 ^ 16 ->
  Forall sf_ok fs -> zlen tail <= 8 -> zlen (agg_block cookie fs tail) < 2 ^ 16 ->
  Z.of_nat k + zlen (agg_block cookie fs tail) <= len ->
  exists d', hgicf_rx_data (replicate k 255 ++ agg_block cookie fs tail ++ junk) len d = Ret (0, d') /\
    d_netif d' = d_netif d ++ map sf_payload fs /\
    d_rx_cookie d' = foldl (fun _ f => sf_cookie f) cookie fs /\
    d_last_rx d' = d_now d /\ d_w d' = d_w d.
Proof.
  intros Hd Hit Hk Hck Hfs Ht Hz Hlen. set (n := zlen (agg_block cookie fs tail)) in *.
  set (body := subs_bytes fs ++ tail). pose proof (zlen_nonneg body) as H0.
  assert (n = 8 + zlen body) as En by (unfold n, agg_block; fold body; rewrite !zlen_app; unfold put_unaligned_le16, zlen; simpl; lia).
  set (m := agg_block cookie fs tail ++ junk).
  assert (hdr_magic m = Ret HGIC_HDR_RX_MAGIC /\ hdr_type m = Ret (type_code HGIC_HDR_TYPE_AGGFRM) /\
    hdr_length m = Ret n /\ hdr_cookie m = Ret cookie) as (Hm & Hty & Hln & Hc).
  { unfold m, agg_block. fold body. rewrite <- En. split; [unfold hdr_magic; by erewrite (get16_at_mid _ [] HGIC_HDR_RX_MAGIC)|].
    split; [done|]. unfold hdr_length, hdr_cookie. split.
    - erewrite (get16_at_mid _ [0x1A; 0x2B; _; 0]); [|by rewrite <- !app_assoc|done]. by rewrite u16_id by lia.
    - erewrite (get16_at_mid _ ([0x1A; 0x2B; _; 0] ++ put_unaligned_le16 n)); [|by rewrite <- !app_assoc|done].
      by rewrite u16_id by lia. }
  unfold hgicf_rx_data. rewrite (bind_lift _ _ _ _ (skip_padding_spec k 0x1A (tl m) Hk ltac:(done))).
  rewrite zdrop_app_length by (unfold zlen; by rewrite length_replicate). fold m.
  rewrite (bind_lift _ _ _ _ Hm), (bind_lift _ _ _ _ Hln), (bind_lift _ _ _ _ Hc).
  change (negb (HGIC_HDR_RX_MAGIC =? HGIC_HDR_RX_MAGIC)) with false. cbv iota. rewrite (bind_lift _ _ _ _ Hty).
  replace (len - Z.of_nat k <? n) with false by (symmetry; apply Z.ltb_ge; lia). cbn [andb]. cbv iota.
  unfold rx_dispatch. unfold bind at 1. rewrite (bind_lift _ _ _ _ Hty).
  change ((type_code HGIC_HDR_TYPE_AGGFRM =? type_code HGIC_HDR_TYPE_FRM2) || (type_code HGIC_HDR_TYPE_AGGFRM =? type_code HGIC_HDR_TYPE_AGGFRM)) with true.
  cbv iota. unfold bind at 1 2, touch, modify, gets. set (d1 := set_d_last_rx (d_now d) d).
  destruct Hd as (Ha & v & Hv & Hok). change (d_vif d1) with (d_vif d). change (d_if_test d1) with (d_if_test d).
  rewrite Hv, Hit. change (false || negb (0 =? 0)) with false. cbv iota.
  change (type_code HGIC_HDR_TYPE_AGGFRM =? type_code HGIC_HDR_TYPE_AGGFRM) with true. cbv iota.
  unfold hgicf_rx_agg_frm. rewrite (bind_lift _ _ _ _ Hc). unfold bind at 1, modify.
  set (d2 := set_d_rx_cookie cookie d1). rewrite s32_id by lia.
  replace (n - 8) with (zlen body) by lia.
  assert (zdrop 8 m = subs_bytes fs ++ tail ++ junk) as ->.
  { unfold m, agg_block. fold body. 
    replace ((_ ++ _ ++ _ ++ subs_bytes fs ++ tail) ++ junk) with
      (([0x1A; 0x2B; type_code HGIC_HDR_TYPE_AGGFRM; 0] ++ put_unaligned_le16 (8 + zlen body) ++ put_unaligned_le16 cookie)
       ++ subs_bytes fs ++ tail ++ junk) by (by rewrite <- !app_assoc). by apply zdrop_app_length. }
  assert (length fs <= Z.to_nat (zlen body))%nat as Hfu
    by (apply subs_length in Hfs; unfold body; rewrite zlen_app; pose proof (zlen_nonneg tail); lia).
  unfold body. rewrite (rx_agg_loop_ok fs _ tail junk d2); [|split; [done|by exists v]|done|fold body; lia|done|fold body; lia].
  eexists. split; [reflexivity|]. destruct (foldl_delivered fs d2) as (-> & -> & -> & ->). done.
Qed.

Definition demo_vif : hgicf_vif := Vif 1 true 84 0 0 0 0 0.
Definition demo_dev (scripts : list (list action)) : hgicf_wdev :=
  Wdev [HGICF_DEV_FLAGS_RUNNING] 0 0 0 false 3 (FwInfo 0x02030001 4321 0x4002 0 (replicate 6 1) 0 0)
    (Some demo_vif) [] [] 0 1000 0 0 0 0 0 0 0 0 (BootDl (BootFwInfo 0 0 0 0 0 0 0) 2 0 2048 None)
    [] [] [] [] [] (demo_world scripts).
Lemma demo_can_receive scripts : can_receive (demo_dev scripts).
Proof. split; [done|]. exists demo_vif. by split. Qed.

Lemma rx_agg_delivers_witness :
  let fs := [Sub 7 1 [1; 2; 3; 4; 5] [0; 0; 0]; Sub 8 1 [6; 7; 8; 9] []] in
  exists d', hgicf_rx_data (replicate 2 255 ++ agg_block 6 fs [0; 0] ++ [9; 9; 9]) 40 (demo_dev []) = Ret (0, d') /\
    d_netif d' = [[1; 2; 3; 4; 5]; [6; 7; 8; 9]] /\ d_rx_cookie d' = 8.
Proof.
  destruct (rx_agg_delivers 2 6 [Sub 7 1 [1; 2; 3; 4; 5] [0; 0; 0]; Sub 8 1 [6; 7; 8; 9] []] [0; 0] [9; 9; 9] 40
    (demo_dev []) (demo_can_receive _)) as (d' & E & N & C & _);
    [done|lia|done|repeat constructor; vm_compute; done|done|done|vm_compute; done|].
  exists d'. split; [exact E|]. split; [exact N|exact C].
Defined.

(** Frames the chip should not send are not all refused.  A sub-frame of
    length 0 keeps the aggregation loop at the same place for ever; a frame
    whose flags nibble is larger than its payload makes the payload length
    negative and the copy runs out of the buffer. *)
Lemma rx_malformed_frames d v m len fuel length flags cookie :
  w_alloc (d_w d) = [] -> d_vif d = Some v -> vif_ok v -> 16 <= v_needed_headroom v ->
  8 < len < 2 ^ 31 -> 0 <= length < 2 ^ 16 -> 0 <= flags < 16 ->
  hdr_magic m = Ret HGIC_HDR_RX_MAGIC -> hdr_type m = Ret (type_code HGIC_HDR_TYPE_FRM2) ->
  hdr_length m = Ret length -> hdr_flags m = Ret flags -> hdr_cookie m = Ret cookie ->
  (length = 0 -> rx_agg_loop fuel m len d = Fault Diverges) /\
  (8 < length < 8 + flags -> exists f, hgicf_rx_single_frm m length d = Fault f).
Proof.
  intros Ha Hv [Hh Htr] Hr Hlen Hl Hfl Hm Hty Hln Hflags Hc. split.
  - intros ->. induction fuel as [|fuel IH]; cbn [rx_agg_loop]; rewrite longer_than_pos by lia;
      (destruct (Z.ltb_spec 8 len); [|lia]); [done|].
    rewrite (bind_lift _ _ _ _ Hm), (bind_lift _ _ _ _ Hln), (bind_lift _ _ _ _ Hc), (bind_lift _ _ _ _ Hty).
    rewrite !Z.eqb_refl. destruct (Z.leb_spec 0 len); [|lia]. cbn [andb].
    erewrite bind_Ret; [|unfold hgicf_rx_single_frm, bind at 1, gets; rewrite Hv; by change (longer_than 8 0) with false].
    rewrite Z.sub_0_r, s32_id by lia. exact IH.
  - intros Hlt. unfold hgicf_rx_single_frm, bind at 1, gets. rewrite Hv.
    rewrite longer_than_pos by lia. destruct (Z.ltb_spec 8 length); [|lia].
    rewrite (bind_lift _ _ _ _ Hc). unfold bind at 1 2, modify. rewrite (bind_lift _ _ _ _ Hflags).
    rewrite s32_id by lia. unfold bind at 1, on_world, on_part, part, put_part, world_in_wdev, dev_alloc_skb, bind at 1.
    rewrite alloc_empty by (done || lia). unfold ret at 1. cbn [fmap option_fmap option_map].
    unfold bind at 1, lift. destruct (skb_reserve _ _) as [s1|f]; [|by exists f].
    exists OutOfBounds. unfold bind, mem_read. destruct (Z.leb_spec 0 (length - (8 + flags))); [lia|].
    by rewrite andb_false_r.
Qed.

(** Length 0, and nine flag-counted bytes of padding in a frame of 12. *)
Lemma rx_malformed_frames_witness :
  rx_agg_loop 20 ([0x1A; 0x2B; 9; 0; 0; 0; 0; 0] ++ replicate 12 0) 20 (demo_dev []) = Fault Diverges /\
  exists f, hgicf_rx_single_frm ([0x1A; 0x2B; 9; 0x90; 12; 0; 0; 0] ++ replicate 4 0) 12 (demo_dev []) = Fault f.
Proof.
  split.
  - refine (proj1 (rx_malformed_frames (demo_dev []) demo_vif ([0x1A; 0x2B; 9; 0; 0; 0; 0; 0] ++ replicate 12 0) 20 20 0 0 0 eq_refl eq_refl _ _ _ _ _
      eq_refl eq_refl eq_refl eq_refl eq_refl) eq_refl); vm_compute; repeat split; done.
  - refine (proj2 (rx_malformed_frames (demo_dev []) demo_vif ([0x1A; 0x2B; 9; 0x90; 12; 0; 0; 0] ++ replicate 4 0) 12 0 12 9 0 eq_refl eq_refl _ _ _ _ _
      eq_refl eq_refl eq_refl eq_refl eq_refl) _); vm_compute; repeat split; done.
Defined.

(** ** The event list *)
(** What may happen to it: the firmware reports an event, or user space reads. *)
Inductive event_op := Arrive (s : skb) | Read.

Fixpoint run_events (ops : list event_op) : M hgicf_wdev (list (list Z)) :=
  match ops with
  | [] => ret []
  | Arrive s :: ops => hgicf_rx_fw_event s ;;; run_events ops
  | Read :: ops =>
      let! r := hgicf_fwevent_read in
      let! rs := run_events ops in ret (r :: rs)
  end.

(** Events other than debug output. *)
Definition kept_op (op : event_op) : Prop :=
  match op with
  | Arrive s => sizeof_hgic_ctrl_hdr <= skb_len s /\
      exists id, HDR_EVTID (skb_data s ++ skb_tail s) = Ret id /\ id <> event_code HGIC_EVENT_FWDBG_INFO
  | Read => True
  end.
Definition arrivals (ops : list event_op) : list (list Z) :=
  omap (fun op => match op with Arrive s => Some (skb_data s) | Read => None end) ops.
Definition nonempty (l : list Z) : bool := match l with [] => false | _ => true end.

Record events_ok (d : hgicf_wdev) : Prop := {
  eo_bound : zlen (d_evt_list d) <= HGIC_EVENT_MAX + 1;
  eo_sema : zlen (d_evt_list d) <= d_evt_sema d }.

Lemma rx_event_kept s d :
  kept_op (Arrive s) -> hgicf_rx_fw_event s d = Ret (tt, event_enqueue s d).
Proof.
  intros (Hl & id & Hid & Hne). unfold hgicf_rx_fw_event.
  destruct (Z.ltb_spec (skb_len s) sizeof_hgic_ctrl_hdr); [lia|].
  rewrite (bind_lift _ _ _ _ Hid). destruct (Z.eqb_spec id HGIC_EVENT_FWDBG_INFO); [done|]. done.
Qed.

Lemma map_sublist {A B} (g : A -> B) l k : sublist l k -> sublist (map g l) (map g k).
Proof. induction 1; simpl; by constructor. Qed.

Lemma enqueue_ok s d :
  events_ok d -> events_ok (event_enqueue s d) /\
  exists l, sublist l (d_evt_list d) /\ d_evt_list (event_enqueue s d) = l ++ [s].
Proof.
  intros [Hb Hs]. unfold event_enqueue, HGIC_EVENT_MAX in *.
  destruct (Z.ltb_spec 16 (zlen (d_evt_list d))).
  - assert (zlen (tail (d_evt_list d)) = zlen (d_evt_list d) - 1 /\ sublist (tail (d_evt_list d)) (d_evt_list d)) as [E S]
      by (destruct (d_evt_list d); [done|]; rewrite zlen_cons; cbn [tail]; split; [lia|by constructor]).
    split; [|by exists (tail (d_evt_list d))]. split; simpl; unfold HGIC_EVENT_MAX; rewrite zlen_app, E; change (zlen [s]) with 1; lia.
  - split; [|by exists (d_evt_list d)]. split; simpl; unfold HGIC_EVENT_MAX; rewrite zlen_app; change (zlen [s]) with 1; lia.
Qed.

(** The events read and the events still queued, oldest first. *)
Definition seen (reads : list (list Z)) (d : hgicf_wdev) : list (list Z) :=
  List.filter nonempty reads ++ map skb_data (d_evt_list d).

(** The event list under any sequence of events and reads: it never holds
    more than 17 events (one more than HGIC_EVENT_MAX), the semaphore never
    falls behind it, so a read with an event queued does not wait and returns
    the oldest; what user space reads, followed by what is still queued, is a
    subsequence of what arrived: nothing is duplicated or reordered, and
    events are lost only from the front. *)
Lemma events_in_order ops d pre :
  events_ok d -> Forall kept_op ops -> sublist (map skb_data (d_evt_list d)) pre ->
  exists reads d', run_events ops d = Ret (reads, d') /\ events_ok d' /\
    sublist (seen reads d') (pre ++ arrivals ops) /\
    (forall s l, d_evt_list d' = s :: l -> exists d2, hgicf_fwevent_read d' = Ret (skb_data s, d2) /\ d_evt_list d2 = l).
Proof.
  intros Hd Hk. revert d pre Hd. induction Hk as [|op ops Hop Hops IH]; intros d pre Hd Hpre.
  { exists [], d. split; [done|]. split; [done|]. split; [by rewrite app_nil_r|].
    intros s l E. unfold hgicf_fwevent_read. destruct Hd as [_ Hs]. rewrite E, zlen_cons in Hs.
    pose proof (zlen_nonneg l). destruct (Z.leb_spec (d_evt_sema d) 0); [lia|]. simpl. rewrite E. by eexists. }
  destruct op as [s|]; cbn [run_events arrivals omap list_omap].
  - rewrite (bind_Ret _ _ _ _ _ (rx_event_kept s d Hop)). destruct (enqueue_ok s d Hd) as (Hd' & l & Hl & El).
    destruct (IH (event_enqueue s d) (pre ++ [skb_data s]) Hd') as (rs & d' & E & Ho & Hsub & Hr).
    { rewrite El, map_app. apply sublist_app; [|done]. etrans; [|exact Hpre]. by apply map_sublist. }
    exists rs, d'. split; [done|]. split; [done|]. split; [|done]. by rewrite <- app_assoc in Hsub.
  - unfold bind at 1, hgicf_fwevent_read. destruct (Z.leb_spec (d_evt_sema d) 0) as [Hz|Hz].
    { destruct (IH d pre Hd Hpre) as (rs & d' & E & Ho & Hsub & Hr).
      exists ([] :: rs), d'. rewrite (bind_Ret _ _ _ _ _ E). done. }
    cbn [d_evt_list set_d_evt_sema]. destruct (d_evt_list d) as [|s l] eqn:El.
    + destruct (IH (set_d_evt_sema (d_evt_sema d - 1) d) pre) as (rs & d' & E & Ho & Hsub & Hr).
      { destruct Hd as [Hb Hs]. split; simpl; rewrite El; change (zlen []) with 0; unfold HGIC_EVENT_MAX; lia. }
      { simpl. by rewrite El. }
      exists ([] :: rs), d'. rewrite (bind_Ret _ _ _ _ _ E). done.
    + cbn [map] in Hpre. apply sublist_cons_l in Hpre as (k1 & k2 & -> & Hk2).
      destruct (IH (set_d_evt_list l (set_d_evt_sema (d_evt_sema d - 1) d)) k2) as (rs & d' & E & Ho & Hsub & Hr); [|done|].
      { destruct Hd as [Hb Hs]. rewrite El, zlen_cons in *. split; simpl; lia. }
      exists (skb_data s :: rs), d'. rewrite (bind_Ret _ _ _ _ _ E).
      split; [done|]. split; [done|]. split; [|done]. rewrite <- app_assoc. apply sublist_inserts_l. cbn [app].
      unfold seen in *. cbn [List.filter]. destruct (nonempty (skb_data s)); cbn [app]; by constructor.
Qed.

Definition demo_event (n : Z) : skb := Skb [] ([0x1A; 0x2B; 4; 1; 13; 0; 0; 0; 2; 0; 0; 0; n]) [].

Lemma events_in_order_witness :
  exists reads d', run_events [Arrive (demo_event 1); Read; Arrive (demo_event 2); Read; Read] (demo_dev [])
    = Ret (reads, d') /\ events_ok d'.
Proof.
  destruct (events_in_order [Arrive (demo_event 1); Read; Arrive (demo_event 2); Read; Read] (demo_dev []) [])
    as (reads & d' & E & Ho & _).
  - split; vm_compute; done.
  - repeat constructor; try (vm_compute; done); exists 2; by split.
  - done.
  - exists reads, d'. split; [exact E|exact Ho].
Defined.
