(* ===== verification/Tx.v ===== *)
(** * The transmit side (hgic_fmac/core.c)

    Frames of the network stack and control frames are queued; the transmit
    work sends control frames first, then data frames one by one or aggregated,
    under window flow control for old firmware, and drops what is queued while
    the chip sleeps.  The module parameters [txq_size] and [if_agg] are
    variables. *)
From S2P Require Import Prelude Bytes CString Proto Skb FwInfo Utils FwCtrl BootDl Device.

Definition TXWND_INIT_VAL : Z := 3.
Definition sizeof_hgic_frm_hdr2 : Z := 8.

(** ** Completion and the bus *)
Definition hgicf_tx_complete (s : skb) (success : bool) : M hgicf_wdev unit :=
  modify (fun d => if negb (d_if_test d =? 0) then set_d_test_tx_len (u32 (d_test_tx_len d + skb_len s)) d else d) ;;;
  if success then modify (clear_bus_flag HGIC_BUS_FLAGS_ERROR) else
  let m := skb_mem s in
  let! magic := lift (hdr_magic m) in
  (if magic =? HGIC_HDR_TX_MAGIC then
     let! type := lift (hdr_type m) in
     if (type =? HGIC_HDR_TYPE_CMD) || (type =? HGIC_HDR_TYPE_CMD2) then
       let! id := lift (HDR_CMDID m) in
       if id =? HGIC_CMD_ENTER_SLEEP then modify (clear_bus_flag HGIC_BUS_FLAGS_SLEEP) else ret tt
     else ret tt
   else ret tt) ;;;
  modify (fun d => set_d_tx_fail (u32 (d_tx_fail d + 1)) d) ;;;
  modify (set_bus_flag HGIC_BUS_FLAGS_ERROR) ;;;
  modify (fun d => if dev_flag HGICF_DEV_FLAGS_RUNNING d then emit OUT_detect_work d else d).

(** The callbacks of the bus, in the order it makes them. *)
Fixpoint hear (l : list bus_event) : M hgicf_wdev unit :=
  match l with
  | [] => ret tt
  | BusDone s ok :: l => hgicf_tx_complete s ok ;;; hear l
  | BusRx m :: l => hgicf_rx_data m (zlen m) ;;; hear l
  end.

(** The bus's transmit function: the frame is its own from now on.  Without a
    script it accepts the frame and completes it at once. *)
Definition tx_packet (s : skb) : M hgicf_wdev Z :=
  modify (fun d => set_d_bus_tx (d_bus_tx d ++ [s]) d) ;;;
  let! env := gets d_bus_env in
  let r := match env with [] => Reply 0 [BusDone s true] | r :: _ => r end in
  modify (set_d_bus_env (tail env)) ;;;
  hear (br_heard r) ;;;
  ret (br_ret r).

(** ** Flow control *)
Definition fill_txwnd_hdr (m : list Z) : outcome (list Z) :=
  leto m := put16_at m 0 HGIC_HDR_TX_MAGIC in
  leto m := put16_at m 4 10 in
  leto m := put16_at m 6 0 in
  leto m := put8_at m 2 HGIC_HDR_TYPE_SOFTFC in
  leto m := put_ifidx m 1 in
  leto b := mem_get m 3 in mem_write m 3 [Z.land b 15].

Definition hgicf_request_txwnd : M hgicf_wdev Z :=
  let! s := on_world (dev_alloc_skb 10) in
  match s with
  | None => ret (- ENOMEM)
  | Some s =>
      let! m := lift (fill_txwnd_hdr (skb_tail s)) in
      let! s := lift (skb_put (Skb (skb_head s) (skb_data s) m) 10) in
      tx_packet s
  end.

Definition hgicf_check_txwnd (min_wnd : Z) : M hgicf_wdev Z :=
  let! d := gets (fun d => d) in
  if negb (d_soft_fc d) || bus_flag HGIC_BUS_FLAGS_INBOOT d then ret 0 else
  if bus_flag HGIC_BUS_FLAGS_SLEEP d || dev_flag HGICF_DEV_FLAGS_SUSPEND d
     || negb (dev_flag HGICF_DEV_FLAGS_RUNNING d) then ret (-1) else
  (if d_txwnd d <? min_wnd then hgicf_request_txwnd ;;; ret tt else ret tt) ;;;
  let! wnd := gets d_txwnd in
  if wnd <? min_wnd then ret (-1) else
  modify (fun d => set_d_txwnd (d_txwnd d - 1) d) ;;;
  ret 0.

(** ** Frames *)
Definition fill_frm_hdr (fwifidx : Z) (d : list Z) : outcome (list Z) :=
  leto d := put_ifidx d fwifidx in
  leto d := put16_at d 4 (zlen d) in
  leto d := put16_at d 0 HGIC_HDR_TX_MAGIC in
  leto d := put8_at d 2 HGIC_HDR_TYPE_FRM2 in
  leto b := mem_get d 3 in mem_write d 3 [Z.land b 15].

(** The copy with more room that [skb_copy_expand] makes. *)
Definition skb_copy_expand (s : skb) (headroom tailroom : Z) : M world (option skb) :=
  let! n := dev_alloc_skb (headroom + skb_len s + tailroom) in
  match n with
  | None => ret None
  | Some n =>
      let! n := lift (skb_reserve n headroom) in
      let! n := lift (skb_write n 0 (skb_data s)) in
      let! n := lift (skb_put n (skb_len s)) in ret (Some n)
  end.

Section Transmit.
Variables txq_size if_agg : Z.

Definition hgicf_netif_xmit (s : skb) : M hgicf_wdev unit :=
  let! d := gets (fun d => d) in
  let! v := lift (deref (d_vif d)) in
  if negb (dev_flag HGICF_DEV_FLAGS_RUNNING d) || (u32 txq_size <? zlen (d_tx_dataq d))
     || bus_flag HGIC_BUS_FLAGS_SLEEP d then
    modify (on_vif (fun v => set_v_tx_dropped (u64 (v_tx_dropped v + skb_len s)) v))
  else
  let! s := (if skb_headroom s <? sizeof_hgic_frm_hdr2
             then on_world (skb_copy_expand s (v_needed_headroom v) (v_needed_tailroom v))
             else ret (Some s)) in
  match s with
  | None => ret tt
  | Some s =>
      let! s := lift (skb_push s sizeof_hgic_frm_hdr2) in
      let! s := lift (skb_update s (fill_frm_hdr (v_fwifidx v))) in
      modify (fun d => set_d_tx_dataq (d_tx_dataq d ++ [s]) d) ;;;
      modify (emit OUT_tx_work) ;;;
      modify (on_vif (fun v => set_v_tx_bytes (u64 (v_tx_bytes v + skb_len s)) v))
  end.

Definition hgicf_tx_single_frm (s : skb) : M hgicf_wdev unit :=
  modify (fun d => set_d_tx_data (u32 (d_tx_data d + 1)) d) ;;;
  let! cookie := hgicf_data_cookie in
  let! s := lift (skb_update s (fun d => put16_at d 6 cookie)) in
  tx_packet s ;;; ret tt.

(** The aggregation loop: [m] is the memory of the aggregate, [len] its length
    field.  One round per queued frame is enough. *)
Fixpoint agg_loop (fuel : nat) (s : skb) (m : list Z) (len : Z) : M hgicf_wdev (list Z * Z) :=
  match fuel with
  | O => fail Diverges
  | S fuel =>
      let! cpylen := lift (hdr_length (skb_mem s)) in
      if if_agg <? len + align32 cpylen 4 then
        modify (fun d => set_d_tx_dataq (s :: d_tx_dataq d) d) ;;;
        ret (m, len)
      else
        let! s := lift (skb_update s (fun d => put16_at d 4 (align32 cpylen 4))) in
        let! cookie := hgicf_data_cookie in
        let! s := lift (skb_update s (fun d => put16_at d 6 cookie)) in
        let! bs := lift (mem_read (skb_mem s) 0 cpylen) in
        let! m := lift (mem_write m len bs) in
        let! l := lift (hdr_length (skb_mem s)) in
        let len := u16 (len + l) in
        let! m := lift (put16_at m 4 len) in
        hgicf_tx_complete s true ;;;
        let! q := gets d_tx_dataq in
        match q with
        | [] => ret (m, len)
        | s :: q => modify (set_d_tx_dataq q) ;;; agg_loop fuel s m len
        end
  end.

Definition fill_agg_hdr (cookie : Z) (m : list Z) : outcome (list Z) :=
  leto m := mem_write m 0 (replicate 8 0) in
  leto m := put16_at m 0 HGIC_HDR_TX_MAGIC in
  leto m := put8_at m 2 HGIC_HDR_TYPE_AGGFRM in
  leto m := put16_at m 4 8 in
  put16_at m 6 cookie.

Definition hgicf_tx_agg_frm (s : skb) : M hgicf_wdev unit :=
  let! d := gets (fun d => d) in
  let! agg := on_world (dev_alloc_skb (drv_tx_headroom (fc_bus (w_ctrl (d_w d))) + if_agg)) in
  match agg with
  | Some agg =>
      let! cookie := hgicf_data_cookie in
      let! m := lift (fill_agg_hdr cookie (skb_tail agg)) in
      let! q := gets d_tx_dataq in
      let! r := agg_loop (S (length q)) s m 8 in
      if 8 <? snd r then
        modify (fun d => set_d_tx_data (u32 (d_tx_data d + 1)) d) ;;;
        let! agg := lift (skb_put (Skb (skb_head agg) (skb_data agg) (fst r)) (snd r)) in
        tx_packet agg ;;; ret tt
      else ret tt
  | None => hgicf_tx_single_frm s
  end.

(** ** The transmit work *)
Definition is_type (t : hgic_hdr_type) (x : Z) : bool := x =? type_code t.

Definition hgicf_tx_ctrl_frm : M hgicf_wdev unit :=
  let! q := gets (fun d => fc_txq (w_ctrl (d_w d))) in
  match q with
  | [] => ret tt
  | s :: q =>
      modify (fun d => set_d_w (on_ctrl (set_txq q) (d_w d)) d) ;;;
      let! type := lift (hdr_type (skb_mem s)) in
      let! inboot := gets (bus_flag HGIC_BUS_FLAGS_INBOOT) in
      let s := if is_type HGIC_HDR_TYPE_BOOTDL type then Some s
               else if is_type HGIC_HDR_TYPE_BOOTDL_DATA type then Some (skb_pull s sizeof_hgic_bootdl_cmd_hdr)
               else if inboot then None else Some s in
      match s with
      | None => ret tt
      | Some s =>
          let! sleep := lift (hgic_is_enter_sleep (skb_mem s)) in
          let sleep_cmd := u8 sleep in
          modify (fun d => set_d_tx_ctrl (u32 (d_tx_ctrl d + 1)) d) ;;;
          let! err := tx_packet s in
          if (err =? 0) && negb (sleep_cmd =? 0) then modify (set_bus_flag HGIC_BUS_FLAGS_SLEEP) else ret tt
      end
  end.

(** [goto _CTRLQ_TX] and the two while loops are one recursion: with the control
    queue empty it falls through to the data queue. *)
Fixpoint hgicf_tx_work (fuel : nat) : M hgicf_wdev unit :=
  match fuel with
  | O => fail Diverges
  | S fuel =>
      let! d := gets (fun d => d) in
      match fc_txq (w_ctrl (d_w d)) with
      | _ :: _ =>
          if bus_flag HGIC_BUS_FLAGS_SLEEP d || negb (dev_flag HGICF_DEV_FLAGS_RUNNING d) then
            modify (fun d => set_d_w (on_ctrl (set_txq []) (d_w d)) d) ;;; hgicf_tx_work fuel
          else hgicf_tx_ctrl_frm ;;; hgicf_tx_work fuel
      | [] =>
          match d_tx_dataq d with
          | _ :: _ =>
              if (d_fw_state d =? STATE_FW) && dev_flag HGICF_DEV_FLAGS_RUNNING d
                 && negb (dev_flag HGICF_DEV_FLAGS_SUSPEND d) then
                if bus_flag HGIC_BUS_FLAGS_SLEEP d || bus_flag HGIC_BUS_FLAGS_INBOOT d then
                  modify (set_d_tx_dataq []) ;;; hgicf_tx_work fuel
                else
                  let! r := hgicf_check_txwnd TXWND_INIT_VAL in
                  if negb (r =? 0) then hgicf_tx_work fuel else
                  let! l := gets d_tx_dataq in
                  (match l with
                   | s :: q =>
                       modify (set_d_tx_dataq q) ;;;
                       match q with
                       | _ :: _ => if negb (if_agg =? 0) then hgicf_tx_agg_frm s else hgicf_tx_single_frm s
                       | [] => hgicf_tx_single_frm s
                       end
                   | [] => ret tt
                   end) ;;;
                  hgicf_tx_work fuel
              else ret tt
          | [] => ret tt
          end
      end
  end.
End Transmit.

(** ** Sending on a bus that accepts everything *)
(** A reply of such a bus: frames are reported back as sent, now or later. *)
Definition accepts_frame (r : bus_reply) : Prop :=
  br_ret r = 0 /\ Forall (fun e => exists s, e = BusDone s true) (br_heard r).
(** Every frame takes one reply. *)
Definition one_reply_each (d d' : hgicf_wdev) : Prop :=
  exists l, d_bus_tx d' = d_bus_tx d ++ l /\ d_bus_env d' = drop (length l) (d_bus_env d).
Lemma no_reply d d' : d_bus_tx d' = d_bus_tx d -> d_bus_env d' = d_bus_env d -> one_reply_each d d'.
Proof. intros E1 E2. exists []. by rewrite app_nil_r. Qed.
#[local] Hint Extern 0 (one_reply_each _ _) => (apply no_reply; reflexivity) : core.
#[export] Instance one_reply_each_preorder : PreOrder one_reply_each.
Proof.
  split; [intros d; done|]. intros d1 d2 d3 (l & E1 & E2) (k & E3 & E4). exists (l ++ k).
  by rewrite E3, E1, E4, E2, drop_drop, length_app, app_assoc.
Qed.

(** What a transmission leaves alone, and the replies it takes. *)
Record kept (d d' : hgicf_wdev) : Prop := {
  k_flags : d_flags d' = d_flags d;
  k_state : d_fw_state d' = d_fw_state d;
  k_fc : d_soft_fc d' = d_soft_fc d;
  k_env : one_reply_each d d';
  k_test : d_if_test d' = d_if_test d;
  k_bus : forall f, f <> HGIC_BUS_FLAGS_ERROR -> bus_flag f d' = bus_flag f d;
  k_alloc : w_alloc (d_w d') = w_alloc (d_w d);
  k_room : drv_tx_headroom (fc_bus (w_ctrl (d_w d'))) = drv_tx_headroom (fc_bus (w_ctrl (d_w d))) }.

#[export] Instance kept_preorder : PreOrder kept.
Proof.
  split.
  - intros d. split; auto.
  - intros d1 d2 d3 [] []. split; try congruence; [by transitivity d2|]. intros f Hf. rewrite k_bus1 by done. auto.
Qed.

Lemma clear_bit_other f g c : f <> g -> test_bit f (clear_bit g c) = test_bit f c.
Proof.
  intros Hfg. unfold test_bit, clear_bit. simpl. apply bool_decide_ext. rewrite list_elem_of_filter. tauto.
Qed.

Lemma tx_complete_ok s d :
  exists d', hgicf_tx_complete s true d = Ret (tt, d') /\ kept d d' /\
    d_bus_tx d' = d_bus_tx d /\ d_tx_dataq d' = d_tx_dataq d /\ d_data_cookie d' = d_data_cookie d /\
    fc_txq (w_ctrl (d_w d')) = fc_txq (w_ctrl (d_w d)).
Proof.
  eexists. split; [reflexivity|]. 
  set (d1 := if negb (d_if_test d =? 0) then set_d_test_tx_len (u32 (d_test_tx_len d + skb_len s)) d else d).
  assert (kept d d1 /\ d_bus_tx d1 = d_bus_tx d /\ d_tx_dataq d1 = d_tx_dataq d /\
    d_data_cookie d1 = d_data_cookie d /\ d_w d1 = d_w d) as ([] & E1 & E2 & E3 & E4)
    by (unfold d1; by destruct (negb _)).
  split; [|simpl; by rewrite E4]. split; simpl; try done.
  intros f Hf. unfold bus_flag in *. rewrite <- k_bus0 by done. by apply clear_bit_other.
Qed.

Lemma hear_ok l d :
  Forall (fun e => exists s, e = BusDone s true) l ->
  exists d', hear l d = Ret (tt, d') /\ kept d d' /\
    d_bus_tx d' = d_bus_tx d /\ d_bus_env d' = d_bus_env d /\ d_tx_dataq d' = d_tx_dataq d /\
    d_data_cookie d' = d_data_cookie d /\ fc_txq (w_ctrl (d_w d')) = fc_txq (w_ctrl (d_w d)).
Proof.
  intros Hl. revert d. induction Hl as [|? l [s ->] _ IH]; intros d; cbn [hear]; [by exists d|].
  destruct (tx_complete_ok s d) as (d1 & E & K & E1 & E2 & E3 & E4). rewrite (bind_Ret _ _ _ _ _ E).
  destruct (IH d1) as (d' & -> & K' & F1 & F2 & F3 & F4 & F5). exists d'. split; [done|]. split; [by transitivity d1|].
  rewrite F1, F2, F3, F4, F5. destruct (k_env _ _ K) as (l' & G1 & G2). rewrite E1 in G1.
  rewrite <- (app_nil_r (d_bus_tx d)) in G1 at 1. apply app_inv_head in G1. subst l'. by rewrite G2.
Qed.
Lemma tx_packet_ok s d :
  Forall accepts_frame (d_bus_env d) ->
  exists d', tx_packet s d = Ret (0, d') /\ kept d d' /\
    d_bus_tx d' = d_bus_tx d ++ [s] /\ d_tx_dataq d' = d_tx_dataq d /\ d_data_cookie d' = d_data_cookie d /\
    fc_txq (w_ctrl (d_w d')) = fc_txq (w_ctrl (d_w d)).
Proof.
  intros He. unfold tx_packet, bind at 1 2 3, modify, gets. cbn [d_bus_env set_d_bus_tx].
  set (r := match d_bus_env d with [] => _ | r :: _ => r end). set (d1 := set_d_bus_env _ _).
  assert (accepts_frame r) as [-> Hr].
  { unfold r. destruct He as [|r' env Hr' _]; [|exact Hr']. split; [done|]. constructor; [by exists s|done]. }
  destruct (hear_ok (br_heard r) d1 Hr) as (d' & E & K & E1 & E2 & E3 & E4 & E5).
  rewrite (bind_Ret _ _ _ _ _ E). exists d'. split; [done|]. split; [|by rewrite E1].
  etrans; [|exact K]. split; try done. exists [s]. split; [done|]. by destruct (d_bus_env d).
Qed.

(** The device is up, the chip awake, past the boot, and its bus accepts. *)
Record up (d : hgicf_wdev) : Prop := {
  fl_run : dev_flag HGICF_DEV_FLAGS_RUNNING d = true;
  fl_sleep : bus_flag HGIC_BUS_FLAGS_SLEEP d = false;
  fl_boot : bus_flag HGIC_BUS_FLAGS_INBOOT d = false;
  fl_env : Forall accepts_frame (d_bus_env d) }.
(** Its firmware runs, and there is no soft flow control. *)
Record flowing (d : hgicf_wdev) : Prop := {
  fl_up : up d;
  fl_susp : dev_flag HGICF_DEV_FLAGS_SUSPEND d = false;
  fl_fc : d_soft_fc d = false;
  fl_state : d_fw_state d = STATE_FW }.
#[export] Hint Resolve fl_up : prog.

Lemma up_kept d d' : kept d d' -> up d -> up d'.
Proof.
  intros K []. destruct (k_env _ _ K) as (l & _ & El). destruct K. unfold dev_flag in *.
  split; unfold dev_flag; rewrite ?k_flags0, ?k_bus0; try done. rewrite El. by apply Forall_drop.
Qed.
Lemma flowing_kept d d' : kept d d' -> flowing d -> flowing d'.
Proof.
  intros K []. split; [by apply (up_kept d)|..].
  - unfold dev_flag. by rewrite (k_flags _ _ K).
  - by rewrite (k_fc _ _ K).
  - by rewrite (k_state _ _ K).
Qed.

(** A control frame that does not put the chip to sleep. *)
Definition awake (s : skb) : Prop :=
  exists t v, hdr_type (skb_mem s) = Ret t /\ t <> type_code HGIC_HDR_TYPE_BOOTDL_DATA /\
    hgic_is_enter_sleep (skb_mem s) = Ret v /\ u8 v = 0.
(** One that does. *)
Definition sleeping (s : skb) : Prop :=
  exists t v, hdr_type (skb_mem s) = Ret t /\ t <> type_code HGIC_HDR_TYPE_BOOTDL_DATA /\
    hgic_is_enter_sleep (skb_mem s) = Ret v /\ u8 v <> 0.

Definition ctrlq (d : hgicf_wdev) : list skb := fc_txq (w_ctrl (d_w d)).

(** One control frame: it is sent, and the sleep flag follows its type. *)
Lemma tx_ctrl_frm_ok s q d t v :
  up d -> ctrlq d = s :: q ->
  hdr_type (skb_mem s) = Ret t -> t <> type_code HGIC_HDR_TYPE_BOOTDL_DATA ->
  hgic_is_enter_sleep (skb_mem s) = Ret v ->
  exists d1, hgicf_tx_ctrl_frm d
      = Ret (tt, if negb (u8 v =? 0) then set_bus_flag HGIC_BUS_FLAGS_SLEEP d1 else d1) /\
    kept d d1 /\ d_bus_tx d1 = d_bus_tx d ++ [s] /\ d_tx_dataq d1 = d_tx_dataq d /\
    d_data_cookie d1 = d_data_cookie d /\ ctrlq d1 = q.
Proof.
  intros [] Hq Ht Hne Hv. unfold hgicf_tx_ctrl_frm, bind at 1, gets. fold (ctrlq d). rewrite Hq.
  unfold bind at 1, modify. set (d0 := set_d_w _ d). rewrite (bind_lift _ _ _ _ Ht).
  unfold bind at 1, gets. change (bus_flag HGIC_BUS_FLAGS_INBOOT d0) with (bus_flag HGIC_BUS_FLAGS_INBOOT d).
  rewrite fl_boot0. unfold is_type. apply Z.eqb_neq in Hne. rewrite Hne.
  replace (if t =? type_code HGIC_HDR_TYPE_BOOTDL then Some s else if false then Some (skb_pull s sizeof_hgic_bootdl_cmd_hdr)
    else if false then None else Some s)
    with (Some s) by (by destruct (t =? type_code HGIC_HDR_TYPE_BOOTDL)).
  cbv iota zeta. rewrite (bind_lift _ _ _ _ Hv). unfold bind at 1, modify.
  set (d2 := set_d_tx_ctrl _ d0). destruct (tx_packet_ok s d2) as (d' & E & K & E1 & E2 & E3 & E4); [done|].
  rewrite (bind_Ret _ _ _ _ _ E). change (0 =? 0) with true. cbn [andb].
  exists d'. split; [by destruct (negb _)|]. split; [|done]. etrans; [|exact K]. by split.
Qed.

Lemma tx_work_ctrl if_agg fuel pre q d :
  up d -> ctrlq d = pre ++ q -> Forall awake pre ->
  exists d', hgicf_tx_work if_agg (length pre + fuel) d = hgicf_tx_work if_agg fuel d' /\
    up d' /\ d_bus_tx d' = d_bus_tx d ++ pre /\ d_tx_dataq d' = d_tx_dataq d /\
    d_data_cookie d' = d_data_cookie d /\ ctrlq d' = q /\ kept d d'.
Proof.
  intros Hd Hq Hpre. revert d Hd Hq. induction Hpre as [|s pre (t & v & Ht & Hne & Hv & H0) Hpre IH]; intros d Hd Hq.
  { exists d. rewrite app_nil_r. do 6 (split; [done|]). reflexivity. }
  cbn [app] in Hq. cbn [length Nat.add hgicf_tx_work]. unfold bind at 1, gets. fold (ctrlq d). rewrite Hq.
  rewrite (fl_sleep d Hd), (fl_run d Hd). cbn [negb orb].
  destruct (tx_ctrl_frm_ok s _ d t v Hd Hq Ht Hne Hv) as (d1 & E & K & E1 & E2 & E3 & E4).
  rewrite H0 in E. cbn [negb] in E. rewrite (bind_Ret _ _ _ _ _ E).
  destruct (IH d1) as (d' & -> & Hd' & F1 & F2 & F3 & F4 & K'); [by apply (up_kept d)|done|].
  exists d'. rewrite F1, E1, <- app_assoc, F2, F3. do 3 (split; [done|]).
  split; [congruence|]. split; [congruence|]. split; [done|]. by transitivity d1.
Qed.

(** The data of a frame with a cookie stored in its header. *)
Definition with_cookie (c : Z) (m : list Z) : list Z := ztake 6 m ++ put_unaligned_le16 c ++ zdrop 8 m.
Fixpoint numbered (c : Z) (l : list (list Z)) : list (list Z) :=
  match l with [] => [] | m :: l => with_cookie c m :: numbered (u16 (c + 1)) l end.

Lemma put_cookie c m : 8 <= zlen m -> put16_at m 6 c = Ret (with_cookie c m).
Proof. intros. unfold put16_at. by rewrite mem_write_ok by (rewrite ?put_le16_zlen; lia). Qed.

Lemma tx_single_ok s d :
  Forall accepts_frame (d_bus_env d) -> 8 <= zlen (skb_data s) ->
  exists d' s', hgicf_tx_single_frm s d = Ret (tt, d') /\ kept d d' /\ d_bus_tx d' = d_bus_tx d ++ [s'] /\
    skb_data s' = with_cookie (d_data_cookie d) (skb_data s) /\ d_tx_dataq d' = d_tx_dataq d /\
    d_data_cookie d' = u16 (d_data_cookie d + 1) /\ ctrlq d' = ctrlq d.
Proof.
  intros He Hl. unfold hgicf_tx_single_frm, bind at 1, modify. set (d0 := set_d_tx_data _ d).
  unfold hgicf_data_cookie, bind at 1 2 3, gets, modify. unfold ret at 1, skb_update.
  rewrite put_cookie by done. cbn [obind]. set (s' := Skb _ _ _). unfold bind at 1, lift.
  set (d1 := set_d_data_cookie _ d0). destruct (tx_packet_ok s' d1) as (d' & E & K & E1 & E2 & E3 & E4); [done|].
  rewrite (bind_Ret _ _ _ _ _ E). exists d', s'. split; [done|].
  split; [etrans; [|exact K]; by split|]. done.
Qed.

Lemma tx_work_data fuel q d :
  flowing d -> ctrlq d = [] -> d_tx_dataq d = q -> Forall (fun s => 8 <= zlen (skb_data s)) q ->
  exists d', hgicf_tx_work 0 (length q + S fuel) d = Ret (tt, d') /\
    map skb_data (d_bus_tx d') = map skb_data (d_bus_tx d) ++ numbered (d_data_cookie d) (map skb_data q) /\
    d_tx_dataq d' = [] /\ ctrlq d' = [] /\ kept d d'.
Proof.
  intros Hd Hc Hq Hl. revert d Hd Hc Hq. induction Hl as [|s q Hs Hl IH]; intros d Hd Hc Hq.
  { exists d. cbn [length Nat.add hgicf_tx_work]. unfold bind, gets. fold (ctrlq d). rewrite Hc, Hq.
    cbn [map numbered]. rewrite app_nil_r. do 4 (split; [done|]). reflexivity. }
  cbn [length Nat.add hgicf_tx_work]. unfold bind at 1, gets. fold (ctrlq d). rewrite Hc, Hq.
  pose proof (fl_up d Hd) as Hu.
  rewrite (fl_state d Hd), (fl_run d Hu), (fl_susp d Hd), (fl_sleep d Hu), (fl_boot d Hu).
  change ((STATE_FW =? STATE_FW) && true && negb false) with true. cbn [orb]. cbv iota.
  assert (hgicf_check_txwnd TXWND_INIT_VAL d = Ret (0, d)) as C
    by (unfold hgicf_check_txwnd, bind, gets; by rewrite (fl_fc d Hd)).
  rewrite (bind_Ret _ _ _ _ _ C). change (negb (0 =? 0)) with false. cbv iota.
  unfold bind at 1, gets. rewrite Hq. set (d0 := set_d_tx_dataq q d).
  destruct (tx_single_ok s d0) as (d1 & s' & E & K & E1 & E2 & E3 & E4 & E5); [apply Hu|done|].
  erewrite bind_Ret; [|unfold bind, modify; fold d0; destruct q; exact E].
  destruct (IH d1) as (d' & -> & F1 & F2 & F3 & F4).
  - apply (flowing_kept d0); [done|]. destruct Hd, Hu. by repeat split.
  - by rewrite E5.
  - done.
  - exists d'. split; [done|]. split; [rewrite F1, E1, map_app, <- app_assoc, E4; simpl; by rewrite E2|].
    do 2 (split; [done|]). etrans; [|exact F4]. etrans; [|exact K]. by split.
Qed.

Lemma tx_work_run d :
  flowing d -> Forall awake (ctrlq d) -> Forall (fun s => 8 <= zlen (skb_data s)) (d_tx_dataq d) ->
  exists d', hgicf_tx_work 0 (length (ctrlq d) + (length (d_tx_dataq d) + 1)) d = Ret (tt, d') /\
    map skb_data (d_bus_tx d') = map skb_data (d_bus_tx d) ++ map skb_data (ctrlq d)
      ++ numbered (d_data_cookie d) (map skb_data (d_tx_dataq d)) /\
    d_tx_dataq d' = [] /\ ctrlq d' = [] /\ kept d d'.
Proof.
  intros Hd Hc Hl.
  destruct (tx_work_ctrl 0 (length (d_tx_dataq d) + 1) (ctrlq d) [] d (fl_up d Hd)) as (d1 & -> & _ & E1 & E2 & E3 & E4 & K);
    [by rewrite app_nil_r|done|].
  destruct (tx_work_data 0 (d_tx_dataq d) d1 (flowing_kept d d1 K Hd) E4 E2 Hl) as (d' & E & F1 & F2 & F3 & F4).
  exists d'. split; [exact E|]. rewrite F1, E1, E3, map_app, <- app_assoc. do 3 (split; [done|]). by transitivity d1.
Qed.

(** ** Properties of the transmit side *)

(** With the chip awake and a bus that accepts every frame, the transmit work
    returns with both queues empty and has sent every control frame before
    every data frame, each kind in its order, data frames numbered with
    consecutive cookies and otherwise unchanged. *)
Lemma tx_work_drains d :
  flowing d -> Forall awake (ctrlq d) -> Forall (fun s => 8 <= zlen (skb_data s)) (d_tx_dataq d) ->
  exists d', hgicf_tx_work 0 (length (ctrlq d) + (length (d_tx_dataq d) + 1)) d = Ret (tt, d') /\
    map skb_data (d_bus_tx d') = map skb_data (d_bus_tx d) ++ map skb_data (ctrlq d)
      ++ numbered (d_data_cookie d) (map skb_data (d_tx_dataq d)) /\
    d_tx_dataq d' = [] /\ ctrlq d' = [] /\ bus_flag HGIC_BUS_FLAGS_SLEEP d' = false.
Proof.
  intros Hd Hc Hl. destruct (tx_work_run d Hd Hc Hl) as (d' & E & F1 & F2 & F3 & K). exists d'.
  do 4 (split; [done|]). by destruct (fl_up d' (flowing_kept d d' K Hd)).
Qed.

Definition demo_cmd (c : Z) : skb := Skb [] ([0x2B; 0x1A; 3; 1; 12; 0; c; 0; 4; 0; 0; 0]) [0; 0].
Definition demo_frame (n : Z) : skb := Skb [] ([0x2B; 0x1A; 9; 1; 10; 0; 0; 0; n; n]) [].
(** ENTER_SLEEP with a sleep type. *)
Definition demo_sleep (lo hi : Z) : skb :=
  Skb [] ([0x2B; 0x1A; 3; 1; 18; 0; 5; 0; u8 (cmd_code HGIC_CMD_ENTER_SLEEP); 0; 0; 0; lo; hi; 0; 0; 0; 0]) [].
Definition demo_tx (cq dq : list skb) : hgicf_wdev :=
  set_d_fw_state STATE_FW (set_d_tx_dataq dq
    (let d := demo_dev [] in set_d_w (on_ctrl (set_txq cq) (d_w d)) d)).
Lemma demo_flowing cq dq : flowing (demo_tx cq dq).
Proof. by repeat split. Qed.

Lemma tx_work_drains_witness :
  let d := demo_tx [demo_cmd 1; demo_cmd 2] [demo_frame 7; demo_frame 8] in
  exists d', hgicf_tx_work 0 5 d = Ret (tt, d') /\
    map skb_data (d_bus_tx d') = [skb_data (demo_cmd 1); skb_data (demo_cmd 2);
      [0x2B; 0x1A; 9; 1; 10; 0; 0; 0; 7; 7]; [0x2B; 0x1A; 9; 1; 10; 0; 1; 0; 8; 8]].
Proof.
  destruct (tx_work_drains (demo_tx [demo_cmd 1; demo_cmd 2] [demo_frame 7; demo_frame 8]) (demo_flowing _ _))
    as (d' & E & S & _).
  - repeat constructor; exists 3, 0; repeat split; done.
  - repeat constructor; vm_compute; done.
  - exists d'. split; [exact E|exact S].
Defined.

(** Until the firmware runs (or while the device is suspended) data frames
    wait: the transmit work returns, has sent exactly the control frames, and
    left the data queue as it was. *)
Lemma data_waits_for_firmware if_agg d :
  up d -> d_fw_state d <> STATE_FW \/ dev_flag HGICF_DEV_FLAGS_SUSPEND d = true -> Forall awake (ctrlq d) ->
  exists d', hgicf_tx_work if_agg (length (ctrlq d) + 1) d = Ret (tt, d') /\
    d_bus_tx d' = d_bus_tx d ++ ctrlq d /\ d_tx_dataq d' = d_tx_dataq d /\ ctrlq d' = [] /\ kept d d'.
Proof.
  intros Hd Hs Hc.
  destruct (tx_work_ctrl if_agg 1 (ctrlq d) [] d Hd) as (d1 & -> & _ & E1 & E2 & _ & E4 & K);
    [by rewrite app_nil_r|done|].
  exists d1. split; [|done]. cbn [hgicf_tx_work]. unfold bind at 1, gets. fold (ctrlq d1). rewrite E4.
  destruct (d_tx_dataq d1); [done|]. rewrite (k_state _ _ K). unfold dev_flag in *. rewrite (k_flags _ _ K).
  destruct Hs as [Hs%Z.eqb_neq| ->]; [by rewrite Hs|]. by rewrite andb_false_r.
Qed.

Lemma data_waits_for_firmware_witness :
  let d := set_d_fw_state STATE_BOOT (demo_tx [demo_cmd 1] [demo_frame 7]) in
  exists d', hgicf_tx_work 0 2 d = Ret (tt, d') /\ d_bus_tx d' = [demo_cmd 1] /\ d_tx_dataq d' = [demo_frame 7].
Proof.
  destruct (data_waits_for_firmware 0 (set_d_fw_state STATE_BOOT (demo_tx [demo_cmd 1] [demo_frame 7])))
    as (d' & E & S & Q & _).
  - by split.
  - by left.
  - repeat constructor; exists 3, 0; repeat split; done.
  - exists d'. split; [exact E|]. split; [exact S|exact Q].
Defined.

Lemma set_bit_self f c : test_bit f (set_bit f c) = true.
Proof. unfold test_bit, set_bit. simpl. apply bool_decide_eq_true. by left. Qed.

(** The rounds after the chip went to sleep. *)
Lemma tx_work_asleep if_agg d :
  dev_flag HGICF_DEV_FLAGS_RUNNING d = true -> bus_flag HGIC_BUS_FLAGS_SLEEP d = true ->
  d_fw_state d = STATE_FW -> dev_flag HGICF_DEV_FLAGS_SUSPEND d = false ->
  exists d', hgicf_tx_work if_agg 3 d = Ret (tt, d') /\ d_bus_tx d' = d_bus_tx d /\
    d_tx_dataq d' = [] /\ ctrlq d' = [] /\ bus_flag HGIC_BUS_FLAGS_SLEEP d' = true.
Proof.
  intros Hr Hs Hf Hsu.
  assert (forall k d1, ctrlq d1 = [] -> dev_flag HGICF_DEV_FLAGS_RUNNING d1 = true ->
    bus_flag HGIC_BUS_FLAGS_SLEEP d1 = true -> d_fw_state d1 = STATE_FW ->
    dev_flag HGICF_DEV_FLAGS_SUSPEND d1 = false ->
    exists d', hgicf_tx_work if_agg (S (S k)) d1 = Ret (tt, d') /\ d_bus_tx d' = d_bus_tx d1 /\
      d_tx_dataq d' = [] /\ ctrlq d' = [] /\ bus_flag HGIC_BUS_FLAGS_SLEEP d' = true) as K.
  { intros k d1 Hc Hr1 Hs1 Hf1 Hsu1. cbn [hgicf_tx_work]. unfold bind at 1, gets. fold (ctrlq d1). rewrite Hc.
    destruct (d_tx_dataq d1) as [|s q] eqn:Hq; [by exists d1|].
    rewrite Hr1, Hs1, Hf1, Hsu1. change ((STATE_FW =? STATE_FW) && true && negb false) with true. cbn [orb]. cbv iota.
    unfold bind at 1, modify. unfold bind at 1, gets. fold (ctrlq (set_d_tx_dataq [] d1)).
    change (ctrlq (set_d_tx_dataq [] d1)) with (ctrlq d1). rewrite Hc. by eexists. }
  destruct (ctrlq d) as [|s q] eqn:Hq; [by apply (K 1%nat)|].
  remember 2%nat as two eqn:E2. cbn [hgicf_tx_work]. unfold bind at 1, gets. fold (ctrlq d).
  rewrite Hq, Hs, E2. cbn [orb]. unfold bind at 1, modify.
  by destruct (K 0%nat (set_d_w (on_ctrl (set_txq []) (d_w d)) d)) as (d' & ?); [..|by exists d'].
Qed.

(** A sleep command the bus accepts is the last frame sent: the frames queued
    before it went out, in order; the control frames behind it and all data
    frames are dropped, and the bus is marked asleep.  What counts as a sleep
    command is the low byte of its 16-bit sleep type. *)
Lemma tx_stops_at_sleep if_agg d pre s post :
  flowing d -> ctrlq d = pre ++ s :: post -> Forall awake pre -> sleeping s ->
  exists d', hgicf_tx_work if_agg (length pre + 4) d = Ret (tt, d') /\
    d_bus_tx d' = d_bus_tx d ++ pre ++ [s] /\ d_tx_dataq d' = [] /\ ctrlq d' = [] /\
    bus_flag HGIC_BUS_FLAGS_SLEEP d' = true.
Proof.
  intros Hd Hq Hpre (t & v & Ht & Hne & Hv & Hv0).
  destruct (tx_work_ctrl if_agg 4 pre (s :: post) d (fl_up d Hd) Hq Hpre) as (d1 & -> & Hd1 & E1 & _ & _ & E4 & K1).
  change 4%nat with (S 3). remember 3%nat as three eqn:Et. cbn [hgicf_tx_work].
  unfold bind at 1, gets. fold (ctrlq d1). rewrite E4, (fl_sleep d1 Hd1), (fl_run d1 Hd1). cbn [negb orb].
  destruct (tx_ctrl_frm_ok s post d1 t v Hd1 E4 Ht Hne Hv) as (d2 & E & K & F1 & _ & _ & _).
  apply Z.eqb_neq in Hv0. rewrite Hv0 in E. cbn [negb] in E. rewrite (bind_Ret _ _ _ _ _ E), Et.
  assert (kept d d2) as K2 by (by transitivity d1). pose proof (flowing_kept d d2 K2 Hd) as [[] ? ? ?].
  destruct (tx_work_asleep if_agg (set_bus_flag HGIC_BUS_FLAGS_SLEEP d2)) as (d' & R & G1 & G2 & G3 & G4);
    [done|apply set_bit_self|done|done|].
  exists d'. split; [exact R|]. rewrite G1. simpl. by rewrite F1, E1, <- app_assoc.
Qed.

Lemma tx_stops_at_sleep_witness :
  let d := demo_tx [demo_cmd 1; demo_sleep 1 0; demo_cmd 2] [demo_frame 7] in
  exists d', hgicf_tx_work 0 5 d = Ret (tt, d') /\ d_bus_tx d' = [demo_cmd 1; demo_sleep 1 0] /\
    d_tx_dataq d' = [] /\ ctrlq d' = [].
Proof.
  destruct (tx_stops_at_sleep 0 (demo_tx [demo_cmd 1; demo_sleep 1 0; demo_cmd 2] [demo_frame 7])
    [demo_cmd 1] (demo_sleep 1 0) [demo_cmd 2] (demo_flowing _ _) eq_refl) as (d' & E & S & Q & C & _).
  - repeat constructor; exists 3, 0; repeat split; done.
  - exists 3, 1. repeat split; done.
  - exists d'. split; [exact E|]. split; [exact S|]. split; [exact Q|exact C].
Defined.

(** A sleep type such as 256 is a sleep command to the chip but not here. *)
Lemma sleep_type_256_not_noticed : awake (demo_sleep 0 1) /\ hgic_is_enter_sleep (skb_mem (demo_sleep 0 1)) = Ret 256.
Proof. split; [exists 3, 256; repeat split; done|vm_compute; reflexivity]. Qed.

(** ** Aggregation *)
Definition agg_hdr (len c : Z) : list Z :=
  [0x2B; 0x1A; type_code HGIC_HDR_TYPE_AGGFRM; 0] ++ put_unaligned_le16 len ++ put_unaligned_le16 c.

Lemma fill_agg_hdr_spec c m : 8 <= zlen m -> fill_agg_hdr c m = Ret (agg_hdr 8 c ++ zdrop 8 m).
Proof.
  intros Hl. destruct (split_at 8 m) as (a & b & -> & Ha & Hb); [lia|].
  rewrite zdrop_app_length by done. unfold fill_agg_hdr, put16_at, put8_at.
  rewrite (mem_write_mid _ [] a b) by done. cbn [obind].
  rewrite (mem_write_mid _ [] [0; 0] (replicate 6 0 ++ b)) by done. cbn [obind].
  rewrite (mem_write_mid _ [43; 26] [0] (replicate 5 0 ++ b)) by done. cbn [obind].
  rewrite (mem_write_mid _ [43; 26; 18; 0] [0; 0] ([0; 0] ++ b)) by done. cbn [obind].
  by rewrite (mem_write_mid _ ([43; 26; 18; 0] ++ put_unaligned_le16 8) [0; 0] b).
Qed.

Lemma alloc_agg (n : Z) (d : hgicf_wdev) :
  w_alloc (d_w d) = [] -> 0 <= n < 2 ^ 31 ->
  on_world (dev_alloc_skb n) d = Ret (Some (Skb [] [] (replicate (Z.to_nat n) 0)), d).
Proof.
  intros Ha Hn. unfold on_world, on_part, part, put_part, world_in_wdev, dev_alloc_skb, bind. rewrite alloc_empty by done. by destruct d.
Qed.

Lemma tx_agg_requeue if_agg s d L :
  w_alloc (d_w d) = [] -> 0 <= if_agg < 2 ^ 20 -> bus_ok (d_w d) ->
  8 <= drv_tx_headroom (fc_bus (w_ctrl (d_w d))) + if_agg ->
  hdr_length (skb_mem s) = Ret L -> if_agg < 8 + align32 L 4 ->
  hgicf_tx_agg_frm if_agg s d
  = Ret (tt, set_d_tx_dataq (s :: d_tx_dataq d) (set_d_data_cookie (u16 (d_data_cookie d + 1)) d)).
Proof.
  intros Ha Hi Hb Hr HL Hbig. unfold bus_ok in Hb. unfold hgicf_tx_agg_frm, bind at 1, gets.
  rewrite (bind_Ret _ _ _ _ _ (alloc_agg (drv_tx_headroom (fc_bus (w_ctrl (d_w d))) + if_agg) d Ha ltac:(lia))). cbn [skb_head skb_data skb_tail].
  unfold hgicf_data_cookie, bind at 1 2 3, gets, modify. unfold ret at 1.
  erewrite bind_lift by (apply fill_agg_hdr_spec; rewrite zlen_replicate by lia; lia).
  unfold bind at 1, gets. unfold bind at 1. cbn [agg_loop]. rewrite (bind_lift _ _ _ _ HL).
  destruct (Z.ltb_spec if_agg (8 + align32 L 4)); [|lia]. reflexivity.
Qed.

(** A queued frame that does not fit the aggregate is put back in front of
    the queue; with a second frame queued behind it the transmit work takes it
    out again and never gets past it, and nothing is sent. *)
Lemma tx_agg_oversize_livelock if_agg d s s2 q L fuel :
  flowing d -> ctrlq d = [] -> d_tx_dataq d = s :: s2 :: q ->
  w_alloc (d_w d) = [] -> bus_ok (d_w d) -> 8 <= if_agg < 2 ^ 20 ->
  hdr_length (skb_mem s) = Ret L -> if_agg < 8 + align32 L 4 ->
  hgicf_tx_work if_agg fuel d = Fault Diverges.
Proof.
  intros Hd Hc Hq Ha Hb Hi HL Hbig. revert d Hd Hc Hq Ha Hb.
  induction fuel as [|fuel IH]; intros d Hd Hc Hq Ha Hb; [done|].
  cbn [hgicf_tx_work]. unfold bind at 1, gets. fold (ctrlq d). rewrite Hc, Hq.
  pose proof (fl_up d Hd) as Hu.
  rewrite (fl_state d Hd), (fl_run d Hu), (fl_susp d Hd), (fl_sleep d Hu), (fl_boot d Hu).
  change ((STATE_FW =? STATE_FW) && true && negb false) with true. cbn [orb]. cbv iota.
  assert (hgicf_check_txwnd TXWND_INIT_VAL d = Ret (0, d)) as C
    by (unfold hgicf_check_txwnd, bind, gets; by rewrite (fl_fc d Hd)).
  rewrite (bind_Ret _ _ _ _ _ C). change (negb (0 =? 0)) with false. cbv iota.
  unfold bind at 1, gets. rewrite Hq. destruct (Z.eqb_spec if_agg 0); [lia|]. cbn [negb].
  set (d0 := set_d_tx_dataq (s2 :: q) d).
  pose proof (tx_agg_requeue if_agg s d0 L Ha ltac:(lia) Hb ltac:(unfold bus_ok in Hb; simpl; lia) HL Hbig) as R.
  erewrite bind_Ret; [|unfold bind, modify; fold d0; exact R].
  apply IH; [|done..]. destruct Hd, Hu. by repeat split.
Qed.

Lemma tx_agg_oversize_livelock_witness :
  hgicf_tx_work 16 100 (demo_tx [] [demo_frame 7; demo_frame 8]) = Fault Diverges.
Proof.
  apply (tx_agg_oversize_livelock 16 _ (demo_frame 7) (demo_frame 8) [] 10 100 (demo_flowing _ _));
    try reflexivity; vm_compute; try split; done.
Defined.

(** A frame inside an aggregate: its length rounded up to four, its cookie, and
    zeros up to the rounded length. *)
Definition pad4 (n : Z) : Z := align32 n 4.
Definition with_len (n : Z) (m : list Z) : list Z := ztake 4 m ++ put_unaligned_le16 n ++ zdrop 6 m.
Definition agg_sub (c : Z) (m : list Z) : list Z :=
  with_cookie c (with_len (pad4 (zlen m)) m) ++ replicate (Z.to_nat (pad4 (zlen m) - zlen m)) 0.
Fixpoint agg_subs (c : Z) (l : list (list Z)) : list Z :=
  match l with [] => [] | m :: l => agg_sub c m ++ agg_subs (u16 (c + 1)) l end.

Lemma agg_subs_cons c m l : agg_subs c (m :: l) = agg_sub c m ++ agg_subs (u16 (c + 1)) l.
Proof. done. Qed.

(** A queued data frame, whose length field is its length. *)
Definition data_frame (s : skb) : Prop :=
  8 <= zlen (skb_data s) < 2 ^ 15 /\ hdr_length (skb_mem s) = Ret (zlen (skb_data s)).

Lemma pad4_spec n : 0 <= n < 2 ^ 30 -> n <= pad4 n < n + 4 /\ pad4 n mod 4 = 0.
Proof.
  intros Hn. unfold pad4.
  assert (align32 n 4 = (n + (4 - 1)) / 4 * 4) as -> by (apply (align32_pow2 n 2); lia).
  pose proof (Z.div_mod (n + (4 - 1)) 4 ltac:(lia)). pose proof (Z.mod_pos_bound (n + (4 - 1)) 4 ltac:(lia)).
  split; [lia|]. by apply Z.mod_mul.
Qed.

Lemma with_len_zlen n m : 6 <= zlen m -> zlen (with_len n m) = zlen m.
Proof. intros. unfold with_len. rewrite !zlen_app, zlen_ztake, zlen_zdrop, put_le16_zlen by lia. lia. Qed.
Lemma with_cookie_zlen n m : 8 <= zlen m -> zlen (with_cookie n m) = zlen m.
Proof. intros. unfold with_cookie. rewrite !zlen_app, zlen_ztake, zlen_zdrop, put_le16_zlen by lia. lia. Qed.

Lemma agg_sub_zlen c m : 8 <= zlen m < 2 ^ 30 -> zlen (agg_sub c m) = pad4 (zlen m).
Proof.
  intros H. pose proof (pad4_spec (zlen m) ltac:(lia)). unfold agg_sub.
  rewrite zlen_app, with_cookie_zlen, with_len_zlen, zlen_replicate by (rewrite ?with_len_zlen; lia). lia.
Qed.

(** The length field of the rewritten frame. *)
Lemma sub_length c n m t :
  8 <= zlen m -> 0 <= n < 2 ^ 16 -> hdr_length (with_cookie c (with_len n m) ++ t) = Ret n.
Proof.
  intros Hm Hn. unfold hdr_length.
  destruct (split_at 4 m) as (a & b & -> & Ha & Hb); [lia|].
  destruct (split_at 2 b) as (b1 & b2 & -> & Hb1 & Hb2); [lia|].
  destruct (split_at 2 b2) as (b3 & b4 & -> & Hb3 & Hb4); [lia|].
  unfold with_len. rewrite (ztake_app_length 4 a) by done.
  rewrite (app_assoc a b1), (zdrop_app_length 6 (a ++ b1)) by (rewrite zlen_app; lia).
  rewrite (app_assoc a (put_unaligned_le16 n)). unfold with_cookie. rewrite (ztake_app_length 6 (a ++ _)) by (rewrite zlen_app, put_le16_zlen; lia).
  rewrite <- !app_assoc. erewrite (get16_at_mid _ a n); [|done|done]. by rewrite u16_id by lia.
Qed.

(** One round of the loop, up to its completion call. *)
Lemma agg_step if_agg fuel s c0 body room d :
  data_frame s -> let c := d_data_cookie d in let n := pad4 (zlen (skb_data s)) in
  let len := 8 + zlen body in
  len + n <= if_agg -> len + n < 2 ^ 16 -> n <= room ->
  exists d1, kept d d1 /\ d_bus_tx d1 = d_bus_tx d /\ d_tx_dataq d1 = d_tx_dataq d /\
    d_data_cookie d1 = u16 (c + 1) /\ ctrlq d1 = ctrlq d /\
    agg_loop if_agg (S fuel) s (agg_hdr len c0 ++ body ++ replicate (Z.to_nat room) 0) len d
    = (let m := agg_hdr (len + n) c0 ++ (body ++ agg_sub c (skb_data s)) ++ replicate (Z.to_nat (room - n)) 0 in
       match d_tx_dataq d with
       | [] => Ret ((m, len + n), d1)
       | s :: q => agg_loop if_agg fuel s m (len + n) (set_d_tx_dataq q d1)
       end).
Proof.
  intros [Hs HL] c n len Hag Ht Hr. set (m0 := skb_data s) in *.
  pose proof (pad4_spec (zlen m0) ltac:(lia)) as [Hn _]. fold n in Hn.
  cbn [agg_loop]. rewrite (bind_lift _ _ _ _ HL). fold m0. fold (pad4 (zlen m0)). fold n.
  destruct (Z.ltb_spec if_agg (len + n)); [lia|].
  unfold skb_update at 1. fold m0.
  assert (put16_at m0 4 n = Ret (with_len n m0)) as P
    by (unfold put16_at; rewrite mem_write_ok by (rewrite ?put_le16_zlen; lia); by rewrite put_le16_zlen).
  rewrite P. cbn [obind]. set (s1 := Skb (skb_head s) (with_len n m0) (skb_tail s)).
  rewrite (bind_lift _ _ _ s1) by done. unfold hgicf_data_cookie, bind at 1 2 3, gets, modify. unfold ret at 1.
  fold c. set (d0 := set_d_data_cookie (u16 (c + 1)) d).
  unfold skb_update. cbn [skb_data s1]. rewrite put_cookie by (rewrite with_len_zlen; lia). cbn [obind].
  set (m1 := with_cookie c (with_len n m0)). set (s2 := Skb _ m1 _). rewrite (bind_lift _ _ _ s2) by done.
  assert (zlen m1 = zlen m0) as Hz by (unfold m1; rewrite with_cookie_zlen, with_len_zlen by (rewrite ?with_len_zlen; lia); done).
  unfold skb_mem. cbn [skb_data skb_tail s2].
  rewrite (bind_lift _ _ _ m1) by (apply (mem_read_mid _ [] m1 (skb_tail s)); done).
  assert (replicate (Z.to_nat room) 0 = replicate (Z.to_nat (zlen m1)) 0 ++ replicate (Z.to_nat (n - zlen m0)) 0
    ++ replicate (Z.to_nat (room - n)) 0) as Er.
  { rewrite Hz, <- !replicate_split by lia. do 2 f_equal. lia. }
  assert (zlen (agg_hdr len c0 ++ body) = len) as Hh by (rewrite zlen_app; unfold len; done).
  erewrite bind_lift; cycle 1.
  { eapply (mem_write_mid _ (agg_hdr len c0 ++ body) (replicate (Z.to_nat (zlen m1)) 0));
      [rewrite Er, <- app_assoc; reflexivity|done|rewrite zlen_replicate; lia]. }
  rewrite (bind_lift _ _ _ n) by (apply sub_length; lia). 
  assert (0 <= len) by (unfold len; pose proof (zlen_nonneg body); lia). rewrite (u16_id (len + n)) by lia.
  set (m2 := agg_hdr (len + n) c0 ++ (body ++ agg_sub c m0) ++ replicate (Z.to_nat (room - n)) 0).
  erewrite bind_lift; cycle 1.
  { unfold put16_at. eapply (mem_write_mid _ [0x2B; 0x1A; _; 0] (put_unaligned_le16 len));
      [unfold agg_hdr; rewrite <- !app_assoc; reflexivity|done|done]. }
  replace (_ ++ put_unaligned_le16 (len + n) ++ _) with m2
    by (unfold m2, agg_hdr, agg_sub; fold n m1; by rewrite <- !app_assoc).
  destruct (tx_complete_ok s2 d0) as (d1 & E & K & E1 & E2 & E3 & E4).
  exists d1. split; [etrans; [|exact K]; by split|]. do 4 (split; [done|]).
  rewrite (bind_Ret _ _ _ _ _ E). unfold bind at 1, gets. rewrite E2.
  change (d_tx_dataq d0) with (d_tx_dataq d). by destruct (d_tx_dataq d).
Qed.

(** The frames that fit into [room] bytes, taken one after the other until one does
    not, and the rest. *)
Fixpoint fit (room : Z) (l : list skb) : list skb * list skb :=
  match l with
  | [] => ([], [])
  | s :: q =>
      let n := pad4 (zlen (skb_data s)) in
      if room <? n then ([], l) else let '(p, r) := fit (room - n) q in (s :: p, r)
  end.
Lemma fit_cons room s q :
  fit room (s :: q) = (let n := pad4 (zlen (skb_data s)) in
    if room <? n then ([], s :: q) else let '(p, r) := fit (room - n) q in (s :: p, r)).
Proof. done. Qed.
Lemma fit_greedy room l c :
  Forall data_frame l -> 0 <= room ->
  let '(packed, rest) := fit room l in
  l = packed ++ rest /\ zlen (agg_subs c (map skb_data packed)) <= room /\
  match rest with [] => True | x :: _ => room < zlen (agg_subs c (map skb_data packed)) + pad4 (zlen (skb_data x)) end.
Proof.
  intros Hl. revert room c. induction Hl as [|s q Hs Hq IH]; intros room c Hr; cbn [fit]; [by split|].
  destruct (Z.ltb_spec room (pad4 (zlen (skb_data s)))) as [Hn|Hn]; [split; [done|]; cbn; change (zlen []) with 0; lia|].
  specialize (IH (room - pad4 (zlen (skb_data s))) (u16 (c + 1)) ltac:(lia)). destruct (fit _ q) as [p r]. destruct IH as (-> & H1 & H2).
  split; [done|]. cbn [map]. rewrite agg_subs_cons, zlen_app, agg_sub_zlen by (destruct Hs; lia). split; [lia|]. destruct r; [done|lia].
Qed.

Lemma agg_loop_ok if_agg fuel q s c0 body room d :
  Forall data_frame (s :: q) -> d_tx_dataq d = q -> (length q < fuel)%nat ->
  let len := 8 + zlen body in let l := fit (if_agg - len) (s :: q) in
  let subs := agg_subs (d_data_cookie d) (map skb_data (fst l)) in
  len <= if_agg -> if_agg < 2 ^ 16 -> if_agg - len <= room ->
  exists d' room', agg_loop if_agg fuel s (agg_hdr len c0 ++ body ++ replicate (Z.to_nat room) 0) len d
    = Ret ((agg_hdr (len + zlen subs) c0 ++ (body ++ subs) ++ replicate (Z.to_nat room') 0, len + zlen subs), d') /\
    kept d d' /\ d_bus_tx d' = d_bus_tx d /\ d_tx_dataq d' = snd l /\ ctrlq d' = ctrlq d.
Proof.
  revert fuel s body room d. induction q as [|s' q IH]; intros fuel s body room d Hfr Hq Hfu len l subs Hag Ht Hr.
  all: destruct fuel as [|fuel]; [simpl in Hfu; lia|]; inversion_clear Hfr as [|? ? Hs Hfr'].
  all: pose proof (pad4_spec (zlen (skb_data s)) ltac:(destruct Hs; lia)) as [Hn _]; unfold subs, l; clear subs l.
  all: set (n := pad4 (zlen (skb_data s))) in *; rewrite fit_cons; cbv zeta; fold n.
  all: destruct (Z.ltb_spec (if_agg - len) n) as [Hbig|Hfit];
    [cbn [fst snd map agg_subs agg_loop]; rewrite (bind_lift _ _ _ _ (proj2 Hs));
     fold (pad4 (zlen (skb_data s))); fold n; destruct (Z.ltb_spec if_agg (len + n)); [|lia];
     change (zlen []) with 0; rewrite Z.add_0_r, app_nil_r; unfold bind, modify, ret; rewrite Hq;
     eexists _, room; split; [reflexivity|]; by repeat split|].
  - destruct (agg_step if_agg fuel s c0 body room d Hs) as (d1 & K & E1 & E2 & E3 & E4 & E); [fold n len; lia..|].
    cbn [fit fst snd map]. rewrite agg_subs_cons. cbn [agg_subs]. rewrite app_nil_r, agg_sub_zlen by (destruct Hs; lia).
    fold n len in E |- *. rewrite E, Hq. exists d1, (room - n). by rewrite E2, Hq, E1, E4.
  - destruct (agg_step if_agg fuel s c0 body room d Hs) as (d1 & K & E1 & E2 & E3 & E4 & E); [fold n len; lia..|].
    fold n len in E. rewrite E, Hq. cbv zeta.
    assert (zlen (body ++ agg_sub (d_data_cookie d) (skb_data s)) = zlen body + n) as Hb
      by (rewrite zlen_app, agg_sub_zlen by (destruct Hs; lia); done).
    destruct (IH fuel s' (body ++ agg_sub (d_data_cookie d) (skb_data s)) (room - n) (set_d_tx_dataq q d1))
      as (d' & room' & R & K' & F1 & F2 & F3); try done; cbn [d_data_cookie set_d_tx_dataq]; rewrite ?Hb; unfold len in *;
      [simpl in Hfu; lia|lia..|].
    rewrite Hb in R, F2. cbn [d_data_cookie set_d_tx_dataq] in R. rewrite E3 in R.
    replace (if_agg - (8 + (zlen body + n))) with (if_agg - (8 + zlen body) - n) in R, F2 by lia.
    replace (8 + zlen body + n) with (8 + (zlen body + n)) by lia.
    destruct (fit (if_agg - (8 + zlen body) - n) (s' :: q)) as [p r]. cbn [fst snd map] in *.
    rewrite agg_subs_cons, zlen_app, agg_sub_zlen by (destruct Hs; lia). fold n.
    match goal with |- context [agg_sub _ _ ++ ?r] => set (rest := r) in * end.
    replace (8 + zlen body + (n + zlen rest)) with (8 + (zlen body + n) + zlen rest) by lia.
    exists d', room'. rewrite (app_assoc body). split; [exact R|].
    split; [etrans; [exact K|]; etrans; [|exact K']; by split|]. by rewrite F1, F2, F3.
Qed.

(** C36. Aggregation takes the queued frames one after the other as long as the next
    one fits, and sends them as one frame: a header with the total length and the
    next cookie, then each of them in order, with its own consecutive cookie,
    padded to a multiple of four bytes and with its length field saying so.  The
    first frame that does not fit is back at the head of the queue, unchanged,
    with all the others behind it; when not even the first fits, nothing is sent
    and the whole queue is as it was. *)
Theorem tx_agg_packs if_agg s q d :
  Forall accepts_frame (d_bus_env d) -> w_alloc (d_w d) = [] -> bus_ok (d_w d) -> Forall data_frame (s :: q) -> d_tx_dataq d = q ->
  8 <= if_agg < 2 ^ 16 ->
  let c := d_data_cookie d in
  let '(packed, rest) := fit (if_agg - 8) (s :: q) in
  let subs := agg_subs (u16 (c + 1)) (map skb_data packed) in
  (s :: q = packed ++ rest /\ 8 + zlen subs <= if_agg /\
   match rest with [] => True | x :: _ => if_agg < 8 + zlen subs + pad4 (zlen (skb_data x)) end) /\
  exists d', hgicf_tx_agg_frm if_agg s d = Ret (tt, d') /\ d_tx_dataq d' = rest /\ ctrlq d' = ctrlq d /\
    match packed with
    | [] => d_bus_tx d' = d_bus_tx d
    | _ => exists a, d_bus_tx d' = d_bus_tx d ++ [a] /\ skb_data a = agg_hdr (8 + zlen subs) c ++ subs
    end.
Proof.
  intros He Ha Hb Hfr Hq Hi c. unfold bus_ok in Hb.
  pose proof (fit_greedy (if_agg - 8) (s :: q) (u16 (c + 1)) Hfr ltac:(lia)) as G.
  set (hr := drv_tx_headroom (fc_bus (w_ctrl (d_w d)))) in *. set (d0 := set_d_data_cookie (u16 (c + 1)) d).
  destruct (agg_loop_ok if_agg (S (length (d_tx_dataq d0))) q s c [] (hr + if_agg - 8) d0)
    as (d1 & room' & R & K & E1 & E2 & E3); [done|done|simpl; rewrite Hq; lia|change (zlen []) with 0; lia..|].
  change (zlen []) with 0 in R, E2. rewrite Z.add_0_r in R, E2. change (d_data_cookie d0) with (u16 (c + 1)) in R.
  destruct (fit (if_agg - 8) (s :: q)) as [packed rest]. cbn [fst snd] in R, E2. set (subs := agg_subs (u16 (c + 1)) (map skb_data packed)) in *.
  pose proof (zlen_nonneg subs) as Hnn. split; [destruct G as (? & ? & ?); split; [done|]; split; [lia|destruct rest; [done|lia]]|].
  unfold hgicf_tx_agg_frm, bind at 1, gets. fold hr.
  rewrite (bind_Ret _ _ _ _ _ (alloc_agg (hr + if_agg) d Ha ltac:(lia))). cbn [skb_head skb_data skb_tail].
  unfold hgicf_data_cookie, bind at 1 2 3, gets, modify. unfold ret at 1. fold c.
  erewrite bind_lift by (apply fill_agg_hdr_spec; rewrite zlen_replicate by lia; lia).
  unfold bind at 1, gets. fold d0.
  assert (zdrop 8 (replicate (Z.to_nat (hr + if_agg)) 0) = replicate (Z.to_nat (hr + if_agg - 8)) 0) as ->.
  { replace (hr + if_agg) with (8 + (hr + if_agg - 8)) at 1 by lia. rewrite replicate_split by lia. by apply zdrop_app_length. }
  rewrite !app_nil_l in R. rewrite (bind_Ret _ _ _ _ _ R). cbn [fst snd].
  destruct packed as [|x packed].
  - change subs with (@nil Z). change (8 <? 8 + zlen []) with false. cbv iota. exists d1. by split.
  - assert (0 < zlen subs) as Hpos.
    { unfold subs. cbn [map]. rewrite agg_subs_cons, zlen_app. destruct G as (Gp & _).
      assert (data_frame x) as [Hx _] by (rewrite Gp in Hfr; by inversion Hfr). rewrite agg_sub_zlen by lia.
      pose proof (pad4_spec (zlen (skb_data x)) ltac:(lia)) as [? _]. pose proof (zlen_nonneg (agg_subs (u16 (u16 (c + 1) + 1)) (map skb_data packed))). lia. }
    destruct (Z.ltb_spec 8 (8 + zlen subs)); [|lia]. unfold bind at 1, modify.
    set (a := agg_hdr (8 + zlen subs) c ++ subs). pose proof (skb_put_app [] [] a (replicate (Z.to_nat room') 0)) as P.
    assert (zlen a = 8 + zlen subs) as Hza by (unfold a; by rewrite zlen_app).
    rewrite Hza in P. unfold a in P at 1. rewrite <- app_assoc in P. rewrite (bind_lift _ _ _ _ P).
    set (d2 := set_d_tx_data _ d1).
    destruct (tx_packet_ok (Skb [] ([] ++ a) (replicate (Z.to_nat room') 0)) d2) as (d' & E & K' & F1 & F2 & F3 & F4).
    { destruct (k_env _ _ K) as (l' & _ & El). change (d_bus_env d2) with (d_bus_env d1). rewrite El. by apply Forall_drop. }
    rewrite (bind_Ret _ _ _ _ _ E). eexists d'. split; [reflexivity|]. split; [by rewrite F2|]. split; [unfold ctrlq; by rewrite F4|].
    eexists. split; [by rewrite F1; simpl; rewrite E1|done].
Qed.

(** Two frames of ten bytes, each padded to twelve: room for one of them only, the
    second stays; and room for both. *)
Lemma tx_agg_packs_witness :
  (exists d' a, hgicf_tx_agg_frm 24 (demo_frame 7) (demo_tx [] [demo_frame 8]) = Ret (tt, d') /\
     d_tx_dataq d' = [demo_frame 8] /\ d_bus_tx d' = [a] /\
     skb_data a = agg_hdr 20 0 ++ [0x2B; 0x1A; 9; 1; 12; 0; 1; 0; 7; 7; 0; 0]) /\
  (exists d' a, hgicf_tx_agg_frm 1024 (demo_frame 7) (demo_tx [] [demo_frame 8]) = Ret (tt, d') /\
     d_tx_dataq d' = [] /\ d_bus_tx d' = [a] /\
     skb_data a = agg_hdr 32 0 ++
       [0x2B; 0x1A; 9; 1; 12; 0; 1; 0; 7; 7; 0; 0] ++ [0x2B; 0x1A; 9; 1; 12; 0; 2; 0; 8; 8; 0; 0]).
Proof.
  assert (Forall data_frame [demo_frame 7; demo_frame 8]) as Hf by (repeat constructor; vm_compute; done). split.
  - destruct (tx_agg_packs 24 (demo_frame 7) [demo_frame 8] (demo_tx [] [demo_frame 8]) ltac:(by constructor) eq_refl
      ltac:(vm_compute; split; done) Hf eq_refl ltac:(lia)) as (_ & d' & E & Q & _ & a & S & D).
    exists d', a. split; [exact E|]. split; [exact Q|]. split; [exact S|exact D].
  - destruct (tx_agg_packs 1024 (demo_frame 7) [demo_frame 8] (demo_tx [] [demo_frame 8]) ltac:(by constructor) eq_refl
      ltac:(vm_compute; split; done) Hf eq_refl ltac:(lia)) as (_ & d' & E & Q & _ & a & S & D).
    exists d', a. split; [exact E|]. split; [exact Q|]. split; [exact S|exact D].
Defined.
