(* ===== verification/Core.v ===== *)
(** * Bring-up and supervision of the device (hgic_fmac/core.c)

    Loading the firmware, the delayed initialisation that follows, the
    configuration file, the watchdog that reloads a silent chip, and the
    power-management and network-device operations.

    [rf] is the kernel's firmware loader (as in BootDl), [fw_file] and the
    other module parameters are variables, and so are the kernel's answers:
    whether an interface could be registered, and the configuration file. *)
From Stdlib Require Import String.
From S2P Require Import Prelude Bytes CString Proto Skb FwInfo Utils FwCtrl FwCmds Iwpriv BootDl Device Tx.

(** The downloader and the control channel of the device. *)
#[export] Instance boot_in_wdev : Inside boot hgicf_wdev.
Proof.
  by refine {| part d := Boot (d_dl d) (d_w d); put_part b d := set_d_w (b_w b) (set_d_dl (b_dl b) d) |};
    [intros [] ?|intros []|].
Defined.
Definition on_boot {A} (m : M boot A) : M hgicf_wdev A := on_part m.

(** [bus->reinit], scripted by [d_reinit]. *)
Definition bus_reinit : M hgicf_wdev Z :=
  let! l := gets d_reinit in
  modify (set_d_reinit (tail l)) ;;;
  modify (emit OUT_reinit) ;;;
  ret (default 0 (head l)).
Definition has_reinit (d : hgicf_wdev) : bool := bus_has_reinit (fc_bus (w_ctrl (d_w d))).

Definition hgicf_match_devid (dev_id : Z) : bool := (dev_id =? 0x4002) || (dev_id =? 0x8400).

Section Core.
Variable rf : list Z -> Z * list Z.
Variable fw_file : list Z.
Variables no_bootdl qc_mode : bool.
Variable if_test : Z.
(** Uninitialised stack bytes, and the signedness of [char]. *)
Variable stk : list Z.
Variable sc : bool.

(** ** Loading the firmware *)
(** [while (status != STATE_FW && retry-- > 0 && err)] *)
Fixpoint boot_loop (retry : nat) (status err : Z) : M hgicf_wdev (Z * Z) :=
  if status =? STATE_FW then ret (status, err) else
  match retry with
  | O => ret (status, err)
  | S retry =>
      if err =? 0 then ret (status, err) else
      let! status := on_boot hgic_bootdl_cmd_enter in
      let! err := (if status =? STATE_BOOT then on_boot (hgic_bootdl_download rf (Some fw_file)) else ret err) in
      boot_loop retry status err
  end.

(** [while (retry-- > 0 && RUNNING && STATE_FW != status)] *)
Fixpoint reinit_loop (retry : nat) (status : Z) : M hgicf_wdev Z :=
  match retry with
  | O => ret status
  | S retry =>
      let! run := gets (dev_flag HGICF_DEV_FLAGS_RUNNING) in
      if run && negb (STATE_FW =? status) then
        let! r := bus_reinit in
        let! status := (if r =? 0 then on_boot hgic_bootdl_cmd_enter else ret status) in
        reinit_loop retry status
      else ret status
  end.

Definition hgicf_download_fw : M hgicf_wdev bool :=
  let status := if no_bootdl || qc_mode then STATE_FW else -1 in
  modify (set_bus_flag HGIC_BUS_FLAGS_INBOOT) ;;;
  let! r := boot_loop 10 status (-1) in
  let status := fst r in
  let err := snd r in
  modify (clear_bus_flag HGIC_BUS_FLAGS_INBOOT) ;;;
  let! status := (if (status =? STATE_BOOT) && (err =? 0) then
      modify (set_dev_flag HGICF_DEV_FLAGS_BOOTDL) ;;;
      let! d := gets (fun d => d) in
      if has_reinit d && bus_flag HGIC_BUS_FLAGS_NOPOLL d then reinit_loop 50 status else ret status
    else ret status) in
  modify (emit OUT_mod_timer) ;;;
  modify (set_d_fw_state (u8 status)) ;;;
  ret (status =? STATE_FW).

(** ** The configuration file *)
(** One line from [pos] on, of the buffer [conf]: the buffer with the line end
    overwritten, and where the next line starts. *)
Definition config_line (conf : list Z) (pos : Z) : outcome (list Z * option Z) :=
  leto p := strchr (zdrop pos conf) 10 in
  match p with
  | None => Ret (conf, None)
  | Some i =>
      let ptr := pos + i in
      leto c := mem_get conf (ptr - 1) in
      leto conf := (if c =? 13 then mem_write conf (ptr - 1) [0] else Ret conf) in
      leto conf := mem_write conf ptr [0] in
      Ret (conf, Some (ptr + 1))
  end.

(** There are at most as many lines as bytes. *)
Fixpoint config_loop (fuel : nat) (ifidx : Z) (conf : list Z) (pos : Z) : M hgicf_wdev unit :=
  match fuel with
  | O => fail Diverges
  | S fuel =>
      let! r := lift (config_line conf pos) in
      let! n := lift (strlen (zdrop pos (fst r))) in
      (if 0 <? n then
         on_world (hgic_iwpriv_set_proc stk sc ifidx (Iwreq n (zdrop pos (fst r)) 0)) ;;; ret tt
       else ret tt) ;;;
      match snd r with
      | Some next => config_loop fuel ifidx (fst r) next
      | None => ret tt
      end
  end.

(** [file]: what the file holds, if it can be opened. *)
Definition hgicf_load_config (file : option (list Z)) : M hgicf_wdev unit :=
  match file with
  | None => ret tt
  | Some text =>
      let! v := gets d_vif in
      let! v := lift (deref v) in
      config_loop 2049 (v_fwifidx v) (resize 2048 0 (ztake 2048 text)) 0
  end.

(** ** Delayed initialisation *)
Variable file : option (list Z).
(** Whether the kernel registers the interface. *)
Variable iface_ok : bool.

Definition hgicf_create_iface : M hgicf_wdev unit :=
  let! room := gets (fun d => drv_tx_headroom (fc_bus (w_ctrl (d_w d)))) in
  modify (set_d_vif (if iface_ok then Some (Vif 0 false (room + sizeof_hgic_frm_hdr2 + 4) 0 0 0 0 0) else None)).

(** The [__reinit] label. *)
Definition init_again : M hgicf_wdev unit :=
  let! d := gets (fun d => d) in
  if has_reinit d && dev_flag HGICF_DEV_FLAGS_RUNNING d then modify (emit OUT_delay_init) else ret tt.

Definition init_iface : M hgicf_wdev bool :=
  hgicf_create_iface ;;;
  let! v := gets d_vif in
  match v with
  | None => ret false
  | Some v =>
      modify (set_d_vif (Some (Vif HGIC_WDEV_ID_STA (v_opened v) (v_needed_headroom v) (v_needed_tailroom v)
                                 (v_tx_bytes v) (v_tx_dropped v) (v_rx_bytes v) (v_rx_dropped v)))) ;;;
      let! r := on_world (hgic_fwctrl_get_conn_state HGIC_WDEV_ID_STA) in
      (if r =? 9 then modify (emit OUT_carrier_on) else ret tt) ;;;
      (if negb (if_test =? 0)
       then modify (set_d_if_test if_test) ;;; modify (emit OUT_test_work) else ret tt) ;;;
      modify (set_dev_flag HGICF_DEV_FLAGS_INITED) ;;;
      ret true
  end.

Definition hgicf_delay_init : M hgicf_wdev unit :=
  let! run := gets (dev_flag HGICF_DEV_FLAGS_RUNNING) in
  if negb run then ret tt else
  let! up := hgicf_download_fw in
  modify (clear_dev_flag HGICF_DEV_FLAGS_SUSPEND) ;;;
  if negb up then init_again else
  touch ;;;
  let! info := gets d_fwinfo in
  let! r := on_world (hgic_fwctrl_get_fwinfo stk HGIC_WDEV_ID_STA info) in
  modify (set_d_fwinfo (snd r)) ;;;
  if fst r <=? 0 then init_again else
  let soft_fc := fi_version (snd r) <? 0x2000000 in
  modify (set_d_soft_fc soft_fc) ;;;
  modify (fun d => set_d_w (on_ctrl (set_fwinfo (Some (snd r))) (d_w d)) d) ;;;
  modify (if soft_fc then set_bus_flag HGIC_BUS_FLAGS_SOFTFC else clear_bus_flag HGIC_BUS_FLAGS_SOFTFC) ;;;
  let! inited := gets (dev_flag HGICF_DEV_FLAGS_INITED) in
  let! ok := (if negb inited then init_iface else ret true) in
  if negb ok then init_again else
  if negb qc_mode then hgicf_load_config file else ret tt.

(** ** The watchdog *)
(** [while (retry-- > 0 && status != STATE_FW)] *)
Fixpoint detect_loop (retry : nat) (status : Z) : M hgicf_wdev Z :=
  match retry with
  | O => ret status
  | S retry =>
      if status =? STATE_FW then ret status else
      let! status := on_boot hgic_bootdl_cmd_enter in detect_loop retry status
  end.

(** [timer]: HGIC_DETECT_TIMER in jiffies. *)
Variable timer : Z.

Definition rearm : M hgicf_wdev unit :=
  modify (fun d => if dev_flag HGICF_DEV_FLAGS_RUNNING d then emit OUT_mod_timer d else d).

Definition hgicf_detect_work : M hgicf_wdev unit :=
  modify (fun d => set_d_detect_tmr (u32 (d_detect_tmr d + 1)) d) ;;;
  let! d := gets (fun d => d) in
  (if negb (bus_flag HGIC_BUS_FLAGS_SLEEP d) && dev_flag HGICF_DEV_FLAGS_RUNNING d
      && (dev_flag HGICF_DEV_FLAGS_SUSPEND d || bus_flag HGIC_BUS_FLAGS_ERROR d
          || (d_last_rx d + timer <? d_now d)) then
     let! status := detect_loop 4 (-1) in
     let! fw_state := gets d_fw_state in
     if negb (status =? STATE_FW) || negb (fw_state =? STATE_FW) then
       modify (fun d => set_d_w (on_ctrl (set_txq []) (d_w d)) d) ;;;
       modify (set_d_tx_dataq []) ;;;
       let! re := gets has_reinit in
       (if re then bus_reinit ;;; ret tt else ret tt) ;;;
       let! run := gets (dev_flag HGICF_DEV_FLAGS_RUNNING) in
       if run then
         modify (set_d_soft_fc false) ;;;
         modify (set_d_fw_state (u8 (-1))) ;;;
         modify (set_dev_flag HGICF_DEV_FLAGS_SUSPEND) ;;;
         modify (emit OUT_delay_init)
       else ret tt
     else ret tt
   else ret tt) ;;;
  rearm.

Definition hgicf_detect_timer (d : hgicf_wdev) : hgicf_wdev :=
  if dev_flag HGICF_DEV_FLAGS_RUNNING d then emit OUT_detect_work d else d.

(** The bus calls this at the end of its own set-up. *)
Definition hgicf_probe_post (d : hgicf_wdev) : hgicf_wdev := emit OUT_delay_init d.

(** ** Power management *)
Definition hgicf_core_suspend : M hgicf_wdev Z :=
  let! d := gets (fun d => d) in
  if bus_flag HGIC_BUS_FLAGS_SLEEP d then ret 0 else
  let v0 := if fi_version (d_fwinfo d) <? 0x02000000 then 0xffff else 1 in
  on_world (hgic_fwctrl_enter_sleep HGIC_WDEV_ID_STA v0 0xffffffff).

Definition hgicf_core_resume : M hgicf_wdev Z :=
  modify (clear_bus_flag HGIC_BUS_FLAGS_SLEEP) ;;;
  let! re := gets has_reinit in
  (if re then bus_reinit ;;; ret tt else ret tt) ;;;
  on_world (hgic_fwctrl_enter_sleep HGIC_WDEV_ID_STA 0 0).

(** ** Network-device operations *)
Definition if_running (k : hgicf_vif -> M hgicf_wdev Z) : M hgicf_wdev Z :=
  let! v := gets d_vif in
  let! v := lift (deref v) in
  let! run := gets (dev_flag HGICF_DEV_FLAGS_RUNNING) in
  if negb run then ret 0 else k v.

Definition hgicf_netif_open : M hgicf_wdev Z := if_running (fun v =>
  modify (on_vif (set_v_opened true)) ;;;
  on_world (hgic_fwctrl_open_dev (v_fwifidx v))).

Definition hgicf_netif_stop : M hgicf_wdev Z := if_running (fun v =>
  modify (on_vif (set_v_opened false)) ;;;
  on_world (hgic_fwctrl_close_dev (v_fwifidx v))).

(** [eth_mac_addr] is the kernel's: its result, and whether the address of the
    interface changes. *)
Definition hgicf_netif_change_mac (eth_mac_addr : Z) (addr : list Z) : M hgicf_wdev Z := if_running (fun v =>
  let! r := on_world (hgic_fwctrl_set_mac (v_fwifidx v) addr) in
  if r =? 0 then ret eth_mac_addr else ret r).
End Core.

(** ** Configuration files *)
(** A line and how it ends. *)
Record cline := Line { l_text : list Z; l_crlf : bool }.
Definition line_bytes (l : cline) : list Z := l_text l ++ (if l_crlf l then [13; 10] else [10]).
Definition no_eol (s : list Z) : Prop := Forall (fun b => b <> 0 /\ b <> 10) s.
#[export] Instance no_eol_dec s : Decision (no_eol s).
Proof. unfold no_eol. apply _. Defined.
Definition line_ok (l : cline) : Prop :=
  no_eol (l_text l) /\ (l_crlf l = false -> list.last (l_text l) <> Some 13).
(** Lines, and a rest that is not ended. *)
Definition config_text (ls : list cline) (rest : list Z) : list Z := concat (map line_bytes ls) ++ rest.

(** What the file asks for: every non-empty line is one set command, in order. *)
Fixpoint run_lines (stk : list Z) (sc : bool) (ifidx : Z) (ls : list (list Z)) : M hgicf_wdev unit :=
  match ls with
  | [] => ret tt
  | t :: ls =>
      (match t with
       | [] => ret tt
       | _ => on_world (hgic_iwpriv_set_proc stk sc ifidx (text_req t)) ;;; ret tt
       end) ;;; run_lines stk sc ifidx ls
  end.

Lemma set_proc_prefix stk sc ifidx text rest :
  hgic_iwpriv_set_proc stk sc ifidx (Iwreq (zlen text) (text ++ rest) 0)
  = hgic_iwpriv_set_proc stk sc ifidx (text_req text).
Proof.
  unfold hgic_iwpriv_set_proc. cbn [text_req iw_length].
  assert (hgic_copyfrom_iwreq (Iwreq (zlen text) (text ++ rest) 0) (zlen text + 1)
    = hgic_copyfrom_iwreq (text_req text) (zlen text + 1)) as ->; [|done].
  unfold hgic_copyfrom_iwreq, text_req. cbn [iw_length iw_user iw_uncopied].
  destruct (_ <=? zlen text) eqn:E; [lia|].
  by rewrite (mem_read_mid _ [] text rest), (mem_read_mid text [] text []) by (rewrite ?app_nil_r; done).
Qed.

Lemma no_eol_no_nul s : no_eol s -> no_nul s.
Proof. intros H. eapply Forall_impl; [exact H|]. by intros b []. Qed.

(** A line ended by a line feed: [c] is the byte before it. *)
Lemma config_line_lf pre s c post :
  no_eol s -> c <> 13 -> list.last (pre ++ s) = Some c ->
  config_line (pre ++ s ++ 10 :: post) (zlen pre) = Ret (pre ++ s ++ 0 :: post, Some (zlen pre + (zlen s + 1))).
Proof.
  intros Hs Hc Hl. unfold config_line. rewrite zdrop_app_length by done.
  rewrite strchr_found by (eapply Forall_impl; [exact Hs|]; naive_solver). cbn [obind].
  apply last_Some in Hl as [k Hk].
  assert (zlen pre + zlen s = zlen k + 1) as E by (rewrite <- zlen_app, Hk, zlen_app; done).
  rewrite (mem_get_mid _ k c (10 :: post)); [|rewrite app_assoc, Hk, <- app_assoc; done|lia]. cbn [obind].
  apply Z.eqb_neq in Hc. rewrite Hc. cbn [obind].
  rewrite (mem_write_mid _ (pre ++ s) [10] post [0]); [|by rewrite <- app_assoc|by rewrite zlen_app|done].
  cbn [obind]. rewrite <- app_assoc. by rewrite Z.add_assoc.
Qed.

Lemma config_line_crlf pre s post :
  no_eol s ->
  config_line (pre ++ s ++ 13 :: 10 :: post) (zlen pre)
  = Ret (pre ++ s ++ 0 :: 0 :: post, Some (zlen pre + (zlen s + 2))).
Proof.
  intros Hs. unfold config_line. rewrite zdrop_app_length by done.
  replace (s ++ 13 :: 10 :: post) with ((s ++ [13]) ++ 10 :: post) by (by rewrite <- app_assoc).
  rewrite strchr_found; [|apply Forall_app; split; [eapply Forall_impl; [exact Hs|]; naive_solver|by repeat constructor]].
  cbn [obind]. assert (zlen (s ++ [13]) = zlen s + 1) as E by (by rewrite zlen_app). rewrite E.
  rewrite <- app_assoc. cbn [app].
  rewrite (mem_get_mid _ (pre ++ s) 13 (10 :: post)); [|by rewrite <- app_assoc|rewrite zlen_app; lia]. cbn [obind].
  change (13 =? 13) with true. cbv iota.
  rewrite (mem_write_mid _ (pre ++ s) [13] (10 :: post) [0]); [|by rewrite <- app_assoc|rewrite zlen_app; lia|done].
  cbn [obind]. rewrite (mem_write_mid _ (pre ++ s ++ [0]) [10] post [0]);
    [|by rewrite <- !app_assoc|rewrite !zlen_app; change (zlen [0]) with 1; lia|done].
  cbn [obind]. rewrite <- !app_assoc. cbn [app]. do 3 f_equal. lia.
Qed.

(** One line of either kind: its end is cleared, and the next one begins behind it. *)
Lemma config_line_ends pre l post :
  line_ok l -> (line_bytes l <> [10] \/ list.last pre = Some 0) ->
  exists n, config_line (pre ++ line_bytes l ++ post) (zlen pre)
  = Ret ((pre ++ l_text l ++ replicate (S n) 0) ++ post, Some (zlen (pre ++ l_text l ++ replicate (S n) 0))).
Proof.
  intros [Hl Hcr] Hp. unfold line_bytes at 1. rewrite <- !app_assoc. destruct (l_crlf l) eqn:Ec.
  - exists 1%nat. cbn [app replicate]. rewrite (config_line_crlf pre (l_text l)) by done. by rewrite !zlen_app, <- !app_assoc.
  - exists 0%nat. cbn [app replicate].
    assert (exists c, list.last (pre ++ l_text l) = Some c /\ c <> 13) as (c & Hc & Hne).
    { rewrite last_app. specialize (Hcr eq_refl).
      destruct (list.last (l_text l)) as [c|] eqn:El; [exists c; split; [done|congruence]|].
      apply last_None in El. destruct Hp as [Hp|Hp]; [|by exists 0]. unfold line_bytes in Hp. by rewrite El, Ec in Hp. }
    rewrite (config_line_lf pre (l_text l) c) by done. by rewrite !zlen_app, <- !app_assoc.
Qed.

Lemma run_lines_app stk sc ifidx a b d :
  run_lines stk sc ifidx (a ++ b) d = bind (run_lines stk sc ifidx a) (fun _ => run_lines stk sc ifidx b) d.
Proof.
  revert d. induction a as [|t a IH]; intros d; [done|]. cbn [app run_lines].
  set (m := match t with [] => ret tt | _ => _ end). unfold bind at 1 2 3. destruct (m d) as [[? d1]|]; [|done]. apply IH.
Qed.

(** The lines one by one; [k] is what the text behind the last line end does. *)
Lemma config_loop_ok stk sc ifidx ls rest tl k fuel pre d :
  (forall fuel pre d, config_loop stk sc (S fuel) ifidx (pre ++ rest ++ tl) (zlen pre) d = k d) ->
  Forall line_ok ls -> (length ls < fuel)%nat ->
  (match ls with l :: _ => line_bytes l <> [10] | [] => True end \/ list.last pre = Some 0) ->
  config_loop stk sc fuel ifidx (pre ++ config_text ls rest ++ tl) (zlen pre) d
  = bind (run_lines stk sc ifidx (map l_text ls)) (fun _ => k) d.
Proof.
  intros Hk Hls. revert fuel pre d. induction Hls as [|l ls [Hl Hcr] Hls IH]; intros fuel pre d Hf Hp.
  all: destruct fuel as [|fuel]; [simpl in Hf; lia|]. { apply Hk. }
  set (post := config_text ls rest ++ tl).
  destruct (config_line_ends pre l post (conj Hl Hcr) Hp) as (n & E).
  replace (pre ++ line_bytes l ++ post) with (pre ++ config_text (l :: ls) rest ++ tl) in E
    by (unfold post, config_text; cbn [map concat]; by rewrite <- !app_assoc).
  set (end_ := replicate (S n) 0) in E. assert (end_ = replicate (S n) 0) as En by done.
  cbn [config_loop map run_lines]. rewrite (bind_lift _ _ _ _ E). cbn [fst snd].
  assert (zdrop (zlen pre) ((pre ++ l_text l ++ end_) ++ post) = l_text l ++ end_ ++ post) as Ed
    by (rewrite <- !app_assoc; by apply zdrop_app_length).
  rewrite !Ed, En. cbn [replicate app].
  rewrite (bind_lift _ _ _ _ (strlen_app (l_text l) _ (no_eol_no_nul _ Hl))). rewrite set_proc_prefix.
  assert (forall m1 m2 : M hgicf_wdev unit, m1 d = m2 d ->
    bind m1 (fun _ => config_loop stk sc fuel ifidx ((pre ++ l_text l ++ 0 :: replicate n 0) ++ post)
       (zlen (pre ++ l_text l ++ 0 :: replicate n 0))) d
    = bind (bind m2 (fun _ => run_lines stk sc ifidx (map l_text ls))) (fun _ => k) d) as K.
  { intros m1 m2 Em. unfold bind at 1 3. rewrite Em. unfold bind at 1. destruct (m2 d) as [[[] d1]|]; [|done].
    apply IH; [simpl in Hf; lia|]. right. rewrite !last_app. change (0 :: replicate n 0) with (replicate (S n) 0).
    replace (replicate (S n) 0) with (replicate n 0 ++ [0]) by (symmetry; apply replicate_cons_app).
    by rewrite last_snoc. }
  apply K. destruct (l_text l) as [|b t]; [done|]. rewrite zlen_cons. pose proof (zlen_nonneg t).
  by destruct (Z.ltb_spec 0 (1 + zlen t)); [|lia].
Qed.

(** Behind the last line end: a terminator, or the end of the buffer. *)
Lemma config_loop_rest stk sc ifidx rest zs fuel pre d :
  no_eol rest ->
  config_loop stk sc (S fuel) ifidx (pre ++ rest ++ 0 :: zs) (zlen pre) d = run_lines stk sc ifidx [rest] d.
Proof.
  intros Hr. cbn [config_loop run_lines].
  assert (config_line (pre ++ rest ++ 0 :: zs) (zlen pre) = Ret (pre ++ rest ++ 0 :: zs, None)) as E.
  { unfold config_line. rewrite zdrop_app_length by done. by rewrite strchr_none by done. }
  rewrite (bind_lift _ _ _ _ E). cbn [fst snd]. rewrite zdrop_app_length by done.
  rewrite (bind_lift _ _ _ _ (strlen_app rest zs (no_eol_no_nul _ Hr))). rewrite set_proc_prefix.
  apply (f_equal (fun m => bind m (fun _ => ret tt) d)).
  destruct rest as [|b rest]; [done|]. rewrite zlen_cons. pose proof (zlen_nonneg rest).
  by destruct (Z.ltb_spec 0 (1 + zlen rest)); [|lia].
Qed.

Lemma strchr_unended s : no_eol s -> strchr s 10 = Fault OutOfBounds.
Proof.
  induction 1 as [|b l [H0 H1] _ IH]; [done|]. cbn [strchr].
  destruct (Z.eqb_spec b 10), (Z.eqb_spec b 0); try done. by rewrite IH.
Qed.

Lemma config_loop_overread stk sc ifidx rest fuel pre d :
  no_eol rest -> config_loop stk sc (S fuel) ifidx (pre ++ rest ++ []) (zlen pre) d = Fault OutOfBounds.
Proof.
  intros Hr. cbn [config_loop]. unfold config_line. rewrite zdrop_app_length, app_nil_r by done.
  unfold bind at 1, lift at 1. by rewrite strchr_unended.
Qed.

Lemma config_text_lines ls rest : (length ls <= length (config_text ls rest))%nat.
Proof.
  unfold config_text. rewrite length_app. induction ls as [|l ls IH]; cbn [map concat length]; [lia|].
  rewrite length_app. assert (1 <= length (line_bytes l))%nat
    by (unfold line_bytes; destruct (l_crlf l); rewrite length_app; simpl; lia). lia.
Qed.

(** ** Properties of the bring-up *)

(** C34. The configuration file: [ls] are the ended lines of its first 2048 bytes,
    each with either line end, and [rest] what follows them.  A file that begins
    with a line feed reads the byte before the buffer.  Otherwise a file of less
    than 2048 bytes is exactly its non-empty lines run as set commands, in order,
    whether or not the last line is ended; a failed command does not stop the rest.
    A longer file has its ended lines run, and is then read beyond the buffer, which
    has no terminator. *)
Theorem load_config_runs_lines stk sc text ls rest v d :
  Forall line_ok ls -> no_eol rest -> ztake 2048 text = config_text ls rest -> d_vif d = Some v ->
  let run := run_lines stk sc (v_fwifidx v) in
  hgicf_load_config stk sc (Some text) d
  = if bool_decide (head text = Some 10) then Fault OutOfBounds
    else if zlen text <? 2048 then run (map l_text ls ++ [rest]) d
    else (run (map l_text ls) ;;; fail OutOfBounds) d.
Proof.
  intros Hls Hr Ht Hv run. unfold hgicf_load_config, bind at 1, gets. rewrite Hv.
  rewrite (bind_lift _ _ _ v) by done. case_bool_decide as Hb.
  { destruct text as [|b text]; [done|]. injection Hb as ->.
    assert (config_line (resize 2048 0 (ztake 2048 (10 :: text))) 0 = Fault OutOfBounds) as E by reflexivity.
    remember 2048%nat as n eqn:En. cbn [config_loop]. unfold bind at 1. by rewrite E. }
  assert (match ls with l :: _ => line_bytes l <> [10] | [] => True end) as Hfirst.
  { destruct ls as [|l ls]; [done|]. intros E. apply Hb. unfold config_text in Ht. cbn [map concat] in Ht.
    rewrite E in Ht. by destruct text; [|injection Ht as ->]. }
  pose proof (config_text_lines ls rest) as Hlen.
  assert (length (ztake 2048 text) = Z.to_nat (Z.min 2048 (zlen text))) as Hz
    by (unfold ztake; rewrite length_take; unfold zlen; lia).
  rewrite resize_spec, take_ge, Ht by lia. rewrite Ht in Hz. destruct (Z.ltb_spec (zlen text) 2048).
  - replace (replicate (2048 - length (config_text ls rest)) 0)
      with (0 :: replicate (2047 - length (config_text ls rest)) 0)
      by (rewrite Hz; change (0 :: ?r) with (replicate 1 0 ++ r); rewrite <- replicate_add; f_equal; lia).
    unfold run. rewrite run_lines_app.
    apply (config_loop_ok stk sc (v_fwifidx v) ls rest _ (run [rest]) 2049 []); [|done|lia|by left].
    intros. by apply config_loop_rest.
  - replace (2048 - length (config_text ls rest))%nat with 0%nat by lia.
    apply (config_loop_ok stk sc (v_fwifidx v) ls rest [] (fail OutOfBounds) 2049 []); [|done|lia|by left].
    intros. by apply config_loop_overread.
Qed.

Definition demo_lines : list cline :=
  [Line (str "channel=3") true; Line [] false; Line (str "no_such_name") false; Line (str "tx_bw=2") false].

Lemma if_second {A} (b c : bool) (x y z : A) : b = false -> c = true -> (if b then x else if c then y else z) = y.
Proof. by intros -> ->. Qed.

(** Two of the lines are commands the table has: they reach the chip.  The other
    two files leave the buffer. *)
Lemma load_config_runs_lines_witness :
  let d := demo_dev [[ATx]; [ATx]] in
  (exists r, hgicf_load_config [] true (Some (config_text demo_lines [])) d = r /\
    r = run_lines [] true 1 [str "channel=3"; []; str "no_such_name"; str "tx_bw=2"; []] d /\
    match r with Ret (_, d') => length (w_sent (d_w d')) = 2%nat | Fault _ => False end) /\
  hgicf_load_config [] true (Some [10]) d = Fault OutOfBounds /\
  hgicf_load_config [] true (Some (replicate 3000 65)) d = Fault OutOfBounds.
Proof.
  split; [eexists; split; [|split; [reflexivity|]]|split].
  - assert (Forall line_ok demo_lines) as Hls
      by (unfold demo_lines; repeat apply Forall_cons_2; [..|apply Forall_nil_2];
        (split; [apply (bool_decide_unpack _); vm_compute; exact I|done])).
    pose proof (load_config_runs_lines [] true (config_text demo_lines []) demo_lines [] demo_vif (demo_dev [[ATx]; [ATx]])
      Hls (Forall_nil_2 _) ltac:(vm_compute; reflexivity) eq_refl) as H.
    cbv zeta in H. rewrite if_second in H by (vm_compute; reflexivity). exact H.
  - vm_compute. reflexivity.
  - refine (eq_trans (load_config_runs_lines [] true [10] [Line [] false] [] demo_vif (demo_dev [[ATx]; [ATx]]) _ _ _ eq_refl) _).
    + apply Forall_singleton. split; [apply Forall_nil_2|done].
    + apply Forall_nil_2.
    + vm_compute. reflexivity.
    + vm_compute. reflexivity.
  - refine (eq_trans (load_config_runs_lines [] true (replicate 3000 65) [] (replicate 2048 65) demo_vif (demo_dev [[ATx]; [ATx]])
      (Forall_nil_2 _) _ _ eq_refl) _).
    + by apply Forall_replicate.
    + vm_compute. reflexivity.
    + vm_compute. reflexivity.
Defined.

(** ** Loading the firmware *)
Lemma quiet_set_bit f w : quiet w -> quiet (on_ctrl (set_bit f) w).
Proof. intros []. by split. Qed.

Lemma on_boot_Ret {A} (m : M boot A) a b d :
  m (Boot (d_dl d) (d_w d)) = Ret (a, b) -> on_boot m d = Ret (a, set_d_w (b_w b) (set_d_dl (b_dl b) d)).
Proof. exact (on_part_Ret m d a b). Qed.

Lemma clear_bit_self f c : test_bit f (clear_bit f c) = false.
Proof.
  unfold test_bit, clear_bit. simpl. apply bool_decide_eq_false. rewrite list_elem_of_filter. by intros [? _].
Qed.

Definition enter_frame (mode cookie : Z) : list Z :=
  boot_cmd_frame mode cookie HG_BOOTDL_CMD_ENTER (str "@hug") (str "e-ic").

(** An ENTER inquiry: the state it reports, and what it leaves. *)
Lemma enter_on_device c rsp rd rsv check e d :
  quiet (d_w d) -> zlen rd = 4 ->
  w_env (d_w d) = answered_by (boot_resp (fc_cookie (w_ctrl (d_w d))) c rsp rd rsv check) :: e ->
  let mode := bd_checksum_mode (d_dl d) in
  let r := rsp_of mode HG_BOOTDL_CMD_ENTER c rsp rd rsv check in
  exists w', on_boot hgic_bootdl_cmd_enter d
    = Ret (if (r =? 0) || (r =? 255) then if r =? 255 then STATE_FW else STATE_BOOT else r,
           set_d_w w' (set_d_dl (set_last_cookie (fc_cookie (w_ctrl (d_w d))) (d_dl d)) d)) /\
    quiet w' /\ w_env w' = e /\ fc_cookie (w_ctrl w') = next (fc_cookie (w_ctrl (d_w d))) /\
    fc_bus (w_ctrl w') = fc_bus (w_ctrl (d_w d)) /\
    map skb_data (w_sent w') = map skb_data (w_sent (d_w d)) ++ [enter_frame mode (fc_cookie (w_ctrl (d_w d)))].
Proof.
  intros Hq Hrd He mode r.
  destruct (cmd_enter_spec c rsp rd rsv check e (Boot (d_dl d) (d_w d)) Hq Hrd He) as (s & E & Hs).
  rewrite (on_boot_Ret _ _ _ _ E). cbn [b_dl b_w boot_after] in *.
  exists (exchanged s (take_cookie (d_w d))). split; [done|]. split; [by apply quiet_exchanged, quiet_cookie|].
  split; [simpl; by rewrite He|]. split; [simpl; by rewrite next_cookie by apply (q_cookie _ Hq)|].
  split; [done|]. change (w_sent (exchanged s _)) with (w_sent (d_w d) ++ [s]). rewrite map_app. cbn [map]. by rewrite Hs.
Qed.

Section Download.
Variables (rf : list Z -> Z * list Z) (fw_file : list Z).

(** What both outcomes leave. *)
Record loaded (d d' : hgicf_wdev) (status : Z) (sent : list (list Z)) : Prop := {
  lo_state : d_fw_state d' = status;
  lo_inboot : bus_flag HGIC_BUS_FLAGS_INBOOT d' = false;
  lo_sent : map skb_data (w_sent (d_w d')) = map skb_data (w_sent (d_w d)) ++ sent;
  lo_timer : OUT_mod_timer ∈ d_out d' }.

(** ** A chip in its boot loader *)
(** The answer of a chip whose firmware runs. *)
Definition fw_answer (mode cookie : Z) (resp : list Z) : Prop :=
  exists rd rsv check, zlen rd = 4 /\ resp = boot_resp cookie HG_BOOTDL_CMD_ENTER HG_BOOTDL_RSP_ERR_IN_FW rd rsv check /\
    check = check_of mode ([HG_BOOTDL_CMD_ENTER; HG_BOOTDL_RSP_ERR_IN_FW] ++ rd ++ [rsv; check]).

Lemma enter_fw resp e d :
  let mode := bd_checksum_mode (d_dl d) in let c := fc_cookie (w_ctrl (d_w d)) in
  quiet (d_w d) -> fw_answer mode c resp -> w_env (d_w d) = answered_by resp :: e ->
  exists w', on_boot hgic_bootdl_cmd_enter d
    = Ret (STATE_FW, set_d_w w' (set_d_dl (set_last_cookie c (d_dl d)) d)) /\
    fc_bus (w_ctrl w') = fc_bus (w_ctrl (d_w d)) /\
    map skb_data (w_sent w') = map skb_data (w_sent (d_w d)) ++ [enter_frame mode c].
Proof.
  intros mode c Hq (rd & rsv & check & Hrd & -> & Hck) He.
  destruct (enter_on_device HG_BOOTDL_CMD_ENTER HG_BOOTDL_RSP_ERR_IN_FW rd rsv check e d Hq Hrd He)
    as (w' & E & _ & _ & _ & Hb & Hs).
  assert (rsp_of mode HG_BOOTDL_CMD_ENTER HG_BOOTDL_CMD_ENTER HG_BOOTDL_RSP_ERR_IN_FW rd rsv check = 255) as R
    by (unfold rsp_of; rewrite <- Hck, !Z.eqb_refl; done).
  fold mode in E, Hs. rewrite R in E. by exists w'.
Qed.

(** What the boot loop leaves after a download. *)
Record booted (d d' : hgicf_wdev) (sent : list (list Z)) (c : Z) (e : list (list action)) : Prop := {
  bt_quiet : quiet (d_w d');
  bt_env : w_env (d_w d') = e;
  bt_cookie : fc_cookie (w_ctrl (d_w d')) = c;
  bt_bus : fc_bus (w_ctrl (d_w d')) = fc_bus (w_ctrl (d_w d));
  bt_sent : map skb_data (w_sent (d_w d')) = map skb_data (w_sent (d_w d)) ++ sent;
  bt_fw : bd_fw (d_dl d') = None;
  bt_mode : bd_checksum_mode (d_dl d') = bd_checksum_mode (d_dl d);
  bt_apart : d_flags d' = d_flags d /\ d_reinit d' = d_reinit d }.

Definition boot_of (d : hgicf_wdev) : boot := Boot (d_dl d) (d_w d).

(** The frames of a bring-up: the inquiry and the image. *)
Definition load_frames (i : image) (d : hgicf_wdev) : list (list Z) :=
  let mode := bd_checksum_mode (d_dl d) in let c := fc_cookie (w_ctrl (d_w d)) in
  enter_frame mode c
  :: boot_frames (is_sdio (boot_of d)) mode (next c) (u32 (im_dl_addr i)) (frags_of i (boot_of d)) (run_frame mode (image_info i)).
Definition load_script (i : image) (d : hgicf_wdev) : list (list action) :=
  let mode := bd_checksum_mode (d_dl d) in let c := fc_cookie (w_ctrl (d_w d)) in
  answered_by (ok_resp mode c HG_BOOTDL_CMD_ENTER) :: boot_script mode (next c) (length (frags_of i (boot_of d))).
Definition load_cookie (i : image) (d : hgicf_wdev) : Z :=
  Nat.iter (S (length (frags_of i (boot_of d)))) next (next (fc_cookie (w_ctrl (d_w d)))).

Lemma boot_loop_loads i d e :
  can_download rf i fw_file (boot_of d) -> w_env (d_w d) = load_script i d ++ e ->
  if fills_blocks (boot_of d) (zlen (code_of i))
  then exists d', boot_loop rf fw_file 10 (-1) (-1) d = Ret ((STATE_BOOT, 0), d') /\
         booted d d' (load_frames i d) (load_cookie i d) e
  else boot_loop rf fw_file 10 (-1) (-1) d = Fault OutOfBounds.
Proof.
  intros Hc He. set (c := fc_cookie (w_ctrl (d_w d))).
  destruct (enter_on_device HG_BOOTDL_CMD_ENTER 0 [0; 0; 0; 0] _ _ _ d (cd_quiet _ _ _ _ Hc) eq_refl He)
    as (w' & E & Hq' & He' & Hk & Hbus & Hs).
  rewrite ok_rsp_of in E by done.
  change (if (0 =? 0) || (0 =? 255) then if 0 =? 255 then STATE_FW else STATE_BOOT else 0) with STATE_BOOT in E.
  fold c in E, Hk, Hs. set (d1 := set_d_w w' (set_d_dl (set_last_cookie c (d_dl d)) d)) in *.
  assert (is_sdio (boot_of d1) = is_sdio (boot_of d)) as Hsd by (unfold is_sdio; simpl; by rewrite Hbus).
  assert (fills_blocks (boot_of d1) (zlen (code_of i)) = fills_blocks (boot_of d) (zlen (code_of i))) as Hfi
    by (unfold fills_blocks; rewrite Hsd; simpl; by rewrite Hbus).
  pose proof (download_ok rf i fw_file (boot_of d1) e) as K. rewrite Hfi in K.
  assert (forall x, hgic_bootdl_download rf (Some fw_file) (boot_of d1) = x ->
    boot_loop rf fw_file 10 (-1) (-1) d
    = match x with
      | Ret (r, b) => boot_loop rf fw_file 9 STATE_BOOT r (set_d_w (b_w b) (set_d_dl (b_dl b) d1))
      | Fault g => Fault g
      end) as R.
  { intros x Hx. cbn [boot_loop]. change (-1 =? STATE_FW) with false. change (-1 =? 0) with false. cbv iota.
    rewrite (bind_Ret _ _ _ _ _ E). change (STATE_BOOT =? STATE_BOOT) with true. cbv iota.
    unfold bind at 1, on_boot, on_part, part, put_part, boot_in_wdev. fold (boot_of d1). rewrite Hx. by destruct x as [[r b]|]. }
  assert (w_env (d_w d1) = boot_script (bd_checksum_mode (d_dl d1)) (fc_cookie (w_ctrl (d_w d1)))
    (length (frags_of i (boot_of d1))) ++ e) as He1 by (change (d_w d1) with w'; rewrite He', Hk; done).
  assert (can_download rf i fw_file (boot_of d1)) as Hc1.
  { destruct Hc. split; try done. intros Hx. rewrite Hsd in Hx. simpl. rewrite Hbus. by apply cd_blk. }
  specialize (K Hc1 He1). destruct (fills_blocks (boot_of d) (zlen (code_of i))); [|by rewrite (R _ K)].
  destruct K as (b1 & K & [Ds De Dq Dc Db [k Dd]]). rewrite (R _ K). eexists. split; [reflexivity|].
  cbn [b_w b_dl on_dl boot_of] in *. change (d_w d1) with w' in *.
  split; try done.
  - simpl. rewrite Dc. simpl. by rewrite Hk.
  - simpl. by rewrite Db.
  - simpl. rewrite Ds. simpl. rewrite Hs, <- app_assoc.
    change (is_sdio (with_info i (boot_of d1))) with (is_sdio (boot_of d1)). by rewrite Hsd, Hk.
  - simpl. by rewrite Dd.
Qed.

(** The bus is reinitialised until that succeeds, and then the firmware answers. *)
Lemma reinit_answered n pre rest resp e d status :
  let mode := bd_checksum_mode (d_dl d) in let c := fc_cookie (w_ctrl (d_w d)) in
  Forall (fun r => r <> 0) pre -> (length pre < n)%nat -> d_reinit d = pre ++ 0 :: rest -> status <> STATE_FW ->
  dev_flag HGICF_DEV_FLAGS_RUNNING d = true -> quiet (d_w d) -> fw_answer mode c resp ->
  w_env (d_w d) = answered_by resp :: e ->
  exists d', reinit_loop n status d = Ret (STATE_FW, d') /\ d_flags d' = d_flags d /\
    fc_bus (w_ctrl (d_w d')) = fc_bus (w_ctrl (d_w d)) /\ bd_fw (d_dl d') = bd_fw (d_dl d) /\
    map skb_data (w_sent (d_w d')) = map skb_data (w_sent (d_w d)) ++ [enter_frame mode c].
Proof.
  intros mode c Hp. revert n d mode c. induction Hp as [|r pre Hr _ IH]; intros [|n] d mode c Hn Hre Hs Hrun Hq Ha He;
    try (cbn in Hn; lia); cbn [reinit_loop]; unfold bind at 1, gets at 1; rewrite Hrun;
    (destruct (Z.eqb_spec STATE_FW status) as [|_]; [by destruct Hs|]); cbn [negb andb];
    unfold bind at 1, bus_reinit; unfold bind at 1, gets at 1; rewrite Hre; cbn [app tail head default];
    unfold bind at 1 2, modify, ret at 1.
  - set (d1 := emit OUT_reinit _). change (0 =? 0) with true. cbv iota.
    destruct (enter_fw resp e d1 Hq Ha He) as (w' & E & Hb & Hse). rewrite (bind_Ret _ _ _ _ _ E).
    assert (forall d', reinit_loop n STATE_FW d' = Ret (STATE_FW, d')) as ->
      by (intros d'; destruct n; cbn [reinit_loop]; [done|]; unfold bind, gets; by rewrite andb_false_r).
    eexists. split; [reflexivity|]. split; [done|]. split; [exact Hb|]. split; [done|exact Hse].
  - set (d1 := emit OUT_reinit _). change (id r) with r. rewrite (proj2 (Z.eqb_neq r 0) Hr). unfold ret at 1.
    destruct (IH n d1) as (d' & E & F); try done. { cbn in Hn. lia. } exists d'. exact (conj E F).
Qed.

(** C32. Bring-up.  With [no_bootdl] or [qc_mode] set the firmware is taken to run,
    and nothing is sent.  Otherwise the chip is asked for its state.  If it answers
    as running firmware, that one frame is all.  If it is in its boot loader and
    accepts every frame, the whole image is sent exactly once -- every fragment of
    its code in order and the run command --, the device is marked as loaded and,
    unless the bus has to be reinitialised, left in STATE_BOOT and not ready:
    success is only reported by the inquiry of a later bring-up.  On a bus that is
    not polled and can be reinitialised, a running device reinitialises it until
    that succeeds (up to 50 times), and asks again: a chip that then answers as
    running firmware is ready.  On SDIO an image whose last fragment does not fill
    its last block is read beyond its end.  In each of these cases that returns, the driver
    has left the boot state and the watchdog timer is started. *)
Theorem download_fw_loads i d :
  (forall no_bootdl qc_mode, no_bootdl || qc_mode = true ->
     exists d', hgicf_download_fw rf fw_file no_bootdl qc_mode d = Ret (true, d') /\ loaded d d' STATE_FW []) /\
  (forall resp e, quiet (d_w d) -> fw_answer (bd_checksum_mode (d_dl d)) (fc_cookie (w_ctrl (d_w d))) resp ->
     w_env (d_w d) = answered_by resp :: e ->
     exists d', hgicf_download_fw rf fw_file false false d = Ret (true, d') /\
       loaded d d' STATE_FW [enter_frame (bd_checksum_mode (d_dl d)) (fc_cookie (w_ctrl (d_w d)))]) /\
  (forall e, can_download rf i fw_file (boot_of d) -> w_env (d_w d) = load_script i d ++ e ->
     let poll := has_reinit d && bus_flag HGIC_BUS_FLAGS_NOPOLL d in
     if fills_blocks (boot_of d) (zlen (code_of i)) then
       (poll = false ->
          exists d', hgicf_download_fw rf fw_file false false d = Ret (false, d') /\
          loaded d d' STATE_BOOT (load_frames i d) /\ dev_flag HGICF_DEV_FLAGS_BOOTDL d' = true /\ bd_fw (d_dl d') = None) /\
       (forall pre rest resp e', poll = true -> dev_flag HGICF_DEV_FLAGS_RUNNING d = true ->
          Forall (fun r => r <> 0) pre -> (length pre < 50)%nat -> d_reinit d = pre ++ 0 :: rest ->
          fw_answer (bd_checksum_mode (d_dl d)) (load_cookie i d) resp -> e = answered_by resp :: e' ->
          exists d', hgicf_download_fw rf fw_file false false d = Ret (true, d') /\
          loaded d d' STATE_FW (load_frames i d ++ [enter_frame (bd_checksum_mode (d_dl d)) (load_cookie i d)]) /\
          dev_flag HGICF_DEV_FLAGS_BOOTDL d' = true /\ bd_fw (d_dl d') = None)
     else hgicf_download_fw rf fw_file false false d = Fault OutOfBounds).
Proof.
  split; [|split].
  - intros no_bootdl qc_mode Hno. unfold hgicf_download_fw. rewrite Hno. unfold bind at 1, modify. unfold bind at 1.
    eexists. split; [reflexivity|]. split; simpl; [done|by apply clear_bit_self|by rewrite app_nil_r|].
    apply elem_of_app. right. by left.
  - intros resp e Hq Ha He. set (d0 := set_bus_flag HGIC_BUS_FLAGS_INBOOT d).
    destruct (enter_fw resp e d0 ltac:(by apply quiet_set_bit) Ha He) as (w' & E & _ & Hs).
    unfold hgicf_download_fw. cbn [orb]. unfold bind at 1, modify at 1. fold d0. cbn [boot_loop].
    change (-1 =? STATE_FW) with false. change (-1 =? 0) with false. cbv iota.
    unfold bind at 1 2. rewrite E. eexists. split; [reflexivity|].
    split; simpl; [done|by apply clear_bit_self|exact Hs|]. apply elem_of_app. right. by left.
  - intros e Hc He poll. set (d0 := set_bus_flag HGIC_BUS_FLAGS_INBOOT d).
    pose proof (boot_loop_loads i d0 e) as K.
    assert (can_download rf i fw_file (boot_of d0)) as Hc0 by (destruct Hc; split; try done; by apply quiet_set_bit).
    specialize (K Hc0 He). change (fills_blocks (boot_of d0)) with (fills_blocks (boot_of d)) in K.
    change (load_frames i d0) with (load_frames i d) in K. change (load_cookie i d0) with (load_cookie i d) in K.
    destruct (fills_blocks (boot_of d) (zlen (code_of i))); cycle 1.
    { unfold hgicf_download_fw. cbn [orb]. unfold bind at 1, modify at 1. fold d0. unfold bind at 1. by rewrite K. }
    destruct K as (d2 & K & B).
    set (d3 := set_dev_flag HGICF_DEV_FLAGS_BOOTDL (clear_bus_flag HGIC_BUS_FLAGS_INBOOT d2)).
    assert (has_reinit d3 && bus_flag HGIC_BUS_FLAGS_NOPOLL d3 = poll) as Hp.
    { unfold poll, has_reinit, bus_flag, d3. cbn [d_w set_dev_flag set_d_flags clear_bus_flag set_d_w].
      unfold on_ctrl. cbn [w_ctrl]. rewrite clear_bit_other by done. unfold test_bit. simpl. rewrite (bt_bus _ _ _ _ _ B).
      f_equal. apply bool_decide_ext. simpl. rewrite elem_of_cons. intuition discriminate. }
    assert (hgicf_download_fw rf fw_file false false d
      = (let! status := (if poll then reinit_loop 50 STATE_BOOT else ret STATE_BOOT) in
         modify (emit OUT_mod_timer) ;;; modify (set_d_fw_state (u8 status)) ;;; ret (status =? STATE_FW)) d3) as R.
    { unfold hgicf_download_fw. cbn [orb]. unfold bind at 1, modify at 1. fold d0. rewrite (bind_Ret _ _ _ _ _ K).
      cbn [fst snd]. unfold bind at 1, modify at 1. change ((STATE_BOOT =? STATE_BOOT) && (0 =? 0)) with true. cbv iota.
      unfold bind at 1 2 3, modify at 1, gets at 1. fold d3. rewrite Hp. done. }
    rewrite R. split.
    + intros ->. eexists. split; [reflexivity|]. split; [|split].
      * split; simpl; [done|by apply clear_bit_self|by rewrite (bt_sent _ _ _ _ _ B)|apply elem_of_app; right; by left].
      * apply bool_decide_eq_true. simpl. by left.
      * apply (bt_fw _ _ _ _ _ B).
    + intros pre rest resp e' -> Hrun Hpre Hlen Hre Ha ->.
      destruct B as [Bq Be Bc Bb Bs Bf Bm [Bfl Bre]].
      assert (load_cookie i d = fc_cookie (w_ctrl (d_w d3))) as Ek by exact (eq_sym Bc).
      assert (bd_checksum_mode (d_dl d) = bd_checksum_mode (d_dl d3)) as Em by exact (eq_sym Bm).
      rewrite Ek, Em in Ha |- *.
      destruct (reinit_answered 50 pre rest resp e' d3 STATE_BOOT) as (d4 & E & Hfl & Hbus & Hfw & Hs); try done.
      { change (d_reinit d3) with (d_reinit d2). by rewrite Bre. }
      { apply bool_decide_eq_true in Hrun. apply bool_decide_eq_true. unfold d3. simpl. rewrite Bfl. by right. }
      { destruct Bq. by split. }
      rewrite (bind_Ret _ _ _ _ _ E). eexists. split; [reflexivity|]. split; [|split].
      * split; [done| | |apply elem_of_app; right; by left].
        { unfold bus_flag. simpl. unfold test_bit. rewrite Hbus. by apply clear_bit_self. }
        { simpl. rewrite Hs. change (w_sent (d_w d3)) with (w_sent (d_w d2)). by rewrite Bs, <- app_assoc. }
      * unfold dev_flag. simpl. rewrite Hfl. apply bool_decide_eq_true. simpl. by left.
      * simpl. rewrite Hfw. exact Bf.
Qed.
End Download.

(** A device on the bus of the boot example. *)
Definition demo_bringup (scripts : list (list action)) : hgicf_wdev :=
  set_d_dl (b_dl (demo_boot [])) (demo_dev scripts).

(** The demo image over USB; over SDIO with a bus that is not polled, whose
    reinitialisation fails once; and over SDIO with blocks it does not fill. *)
Lemma download_fw_loads_witness :
  let rf := fun _ => (0, image_bytes demo_image) in
  let frags := [[49; 50; 51; 52]; [53; 54; 55; 56]; [57]] in
  let script := answered_by (ok_resp 2 0 0) :: boot_script 2 1 3 in
  let on_sdio := fun k scripts => set_d_w (demo_sdio k [HGIC_BUS_FLAGS_NOPOLL] scripts) (demo_bringup []) in
  (exists d', hgicf_download_fw rf [1] false false (demo_bringup script) = Ret (false, d') /\
    d_fw_state d' = STATE_BOOT /\
    map skb_data (w_sent (d_w d')) = enter_frame 2 0 :: boot_frames false 2 1 0x20000000 frags (run_frame 2 (image_info demo_image))) /\
  (exists d', hgicf_download_fw rf [1] false false
      (set_d_reinit [5; 0] (on_sdio 0 (script ++ [answered_by (boot_resp 5 0 255 [0; 0; 0; 0] 0 0xFD)]))) = Ret (true, d') /\
    d_fw_state d' = STATE_FW /\
    map skb_data (w_sent (d_w d')) = enter_frame 2 0 :: boot_frames true 2 1 0x20000000 frags (run_frame 2 (image_info demo_image))
      ++ [enter_frame 2 5]) /\
  hgicf_download_fw rf [1] false false (on_sdio 1 script) = Fault OutOfBounds.
Proof.
  intros rf frags script on_sdio. split; [|split].
  - destruct (proj2 (proj2 (download_fw_loads rf [1] demo_image (demo_bringup script))) []) as [H _].
    + apply (demo_can_download _ 0); [apply demo_quiet|lia|by right].
    + reflexivity.
    + destruct (H eq_refl) as (d' & E & L & _). exists d'.
      split; [exact E|]. split; [exact (lo_state _ _ _ _ L)|exact (lo_sent _ _ _ _ L)].
  - set (resp := boot_resp 5 0 255 [0; 0; 0; 0] 0 0xFD). set (d := set_d_reinit _ _).
    destruct (proj2 (proj2 (download_fw_loads rf [1] demo_image d)) [answered_by resp]) as [_ H].
    + apply (demo_can_download _ 0); [by split|lia|by left].
    + reflexivity.
    + destruct (H [5] [] resp [] eq_refl eq_refl ltac:(by repeat constructor) ltac:(cbn; lia) eq_refl) as (d' & E & L & _).
      * exists [0; 0; 0; 0], 0, 0xFD. by split.
      * reflexivity.
      * exists d'. split; [exact E|]. split; [exact (lo_state _ _ _ _ L)|exact (lo_sent _ _ _ _ L)].
  - apply (proj2 (proj2 (download_fw_loads rf [1] demo_image (on_sdio 1 script))) []); [|reflexivity].
    apply (demo_can_download _ 1); [by split|lia|by left].
Defined.

(** ** The watchdog *)
Definition due (timer : Z) (d : hgicf_wdev) : bool :=
  dev_flag HGICF_DEV_FLAGS_SUSPEND d || bus_flag HGIC_BUS_FLAGS_ERROR d || (d_last_rx d + timer <? d_now d).
Definition watched (timer : Z) (d : hgicf_wdev) : bool :=
  negb (bus_flag HGIC_BUS_FLAGS_SLEEP d) && dev_flag HGICF_DEV_FLAGS_RUNNING d && due timer d.

(** The results of inquiries made one after the other. *)
Inductive asked : list Z -> hgicf_wdev -> hgicf_wdev -> Prop :=
  | asked_nothing d : asked [] d d
  | asked_once r rs d d1 d2 : on_boot hgic_bootdl_cmd_enter d = Ret (r, d1) -> asked rs d1 d2 -> asked (r :: rs) d d2.
(** Up to four, until the firmware answers. *)
Definition asked_enough (n : nat) (rs : list Z) : Prop :=
  (exists pre, rs = pre ++ [STATE_FW] /\ (length pre < n)%nat /\ STATE_FW ∉ pre) \/ (length rs = n /\ STATE_FW ∉ rs).

(** Inquiries touch the control channel and the downloader only. *)
Lemma on_boot_apart r d d1 :
  on_boot hgic_bootdl_cmd_enter d = Ret (r, d1) -> exists w dl, d1 = set_d_w w (set_d_dl dl d).
Proof.
  unfold on_boot, on_part. destruct (hgic_bootdl_cmd_enter _) as [[r' b]|]; [|done]. intros [= _ <-]. by exists (b_w b), (b_dl b).
Qed.
Lemma asked_apart rs d d1 : asked rs d d1 -> exists w dl, d1 = set_d_w w (set_d_dl dl d).
Proof.
  induction 1 as [d|r rs d d1 d2 E _ (w & dl & ->)]; [exists (d_w d), (d_dl d); by destruct d|].
  destruct (on_boot_apart _ _ _ E) as (w1 & dl1 & ->). by exists w, dl.
Qed.

Lemma detect_loop_asked n rs d d1 status :
  asked rs d d1 -> asked_enough n rs -> status <> STATE_FW ->
  exists st, detect_loop n status d = Ret (st, d1) /\ (st = STATE_FW <-> STATE_FW ∈ rs).
Proof.
  intros Ha. revert n status. induction Ha as [d|r rs d d1 d2 E Hrest IH]; intros n status Hn Hs.
  - destruct Hn as [(pre & Hp & _)|[<- _]]; [by destruct pre|]. exists status. split; [done|]. by rewrite elem_of_nil.
  - destruct n as [|n]; [destruct Hn as [(? & _ & ? & _)|[? _]]; [lia|done]|]. cbn [detect_loop].
    rewrite (proj2 (Z.eqb_neq _ _) Hs), (bind_Ret _ _ _ _ _ E).
    destruct (decide (r = STATE_FW)) as [->|Hr].
    + assert (rs = []) as ->.
      { destruct Hn as [([|x pre] & Hp & _ & Hx)|[_ Hx]]; [by injection Hp|injection Hp as <- _; by destruct Hx; left|by destruct Hx; left]. }
      inversion Hrest. subst. exists STATE_FW. split; [by destruct n|]. split; [by left|done].
    + destruct (IH n r) as (st & E' & Hst); [|done|].
      { destruct Hn as [([|x pre] & Hp & Hl & Hx)|[Hl Hx]]; [by injection Hp|left|right].
        - injection Hp as <- ->. exists pre. cbn in Hl. split; [done|]. split; [lia|]. intros H. by destruct Hx; right.
        - cbn in Hl. split; [lia|]. intros H. by destruct Hx; right. }
      exists st. split; [done|]. rewrite Hst, elem_of_cons. naive_solver.
Qed.

Definition tick (d : hgicf_wdev) : hgicf_wdev := set_d_detect_tmr (u32 (d_detect_tmr d + 1)) d.

Lemma rearm_spec d :
  rearm d = Ret (tt, if dev_flag HGICF_DEV_FLAGS_RUNNING d then emit OUT_mod_timer d else d).
Proof. done. Qed.

Lemma detect_work_idle timer d :
  watched timer d = false -> hgicf_detect_work timer d = rearm (tick d).
Proof.
  intros Hw. unfold hgicf_detect_work. unfold bind at 1, modify. fold (tick d). unfold bind at 1, gets.
  change (watched timer (tick d) = false) in Hw. unfold watched, due in Hw. by rewrite Hw.
Qed.

Lemma watched_running timer d : watched timer d = true -> dev_flag HGICF_DEV_FLAGS_RUNNING d = true.
Proof. unfold watched. by intros [[_ ?]%andb_true_iff _]%andb_true_iff. Qed.

(** What a reload leaves of the device after the inquiries. *)
Definition reloaded (d1 : hgicf_wdev) : hgicf_wdev :=
  let d2 := set_d_tx_dataq [] (set_d_w (on_ctrl (set_txq []) (d_w d1)) d1) in
  let d3 := if has_reinit d2 then emit OUT_reinit (set_d_reinit (tail (d_reinit d2)) d2) else d2 in
  emit OUT_delay_init (set_dev_flag HGICF_DEV_FLAGS_SUSPEND (set_d_fw_state 255 (set_d_soft_fc false d3))).

Lemma detect_work_watched timer rs d d1 :
  watched timer d = true -> asked rs (tick d) d1 -> asked_enough 4 rs ->
  hgicf_detect_work timer d
  = Ret (tt, emit OUT_mod_timer
               (if bool_decide (STATE_FW ∈ rs) && (d_fw_state d =? STATE_FW) then d1 else reloaded d1)).
Proof.
  intros Hw Ha Hn. pose proof (watched_running _ _ Hw) as Hrun.
  destruct (detect_loop_asked 4 rs (tick d) d1 (-1) Ha Hn ltac:(done)) as (st & E & Hst).
  destruct (asked_apart _ _ _ Ha) as (w & dl & ->).
  unfold hgicf_detect_work. unfold bind at 1, modify at 1. fold (tick d). unfold bind at 1, gets at 1.
  change (watched timer (tick d) = true) in Hw. unfold watched, due in Hw. rewrite Hw.
  unfold bind at 1. rewrite (bind_Ret _ _ _ _ _ E). unfold bind at 1, gets at 1.
  change (d_fw_state (set_d_w w (set_d_dl dl (tick d)))) with (d_fw_state d).
  assert (bool_decide (STATE_FW ∈ rs) = (st =? STATE_FW)) as ->.
  { destruct (Z.eqb_spec st STATE_FW); [by apply bool_decide_true; apply Hst|apply bool_decide_false; tauto]. }
  rewrite <- negb_andb. set (d1 := set_d_w w (set_d_dl dl (tick d))).
  assert (dev_flag HGICF_DEV_FLAGS_RUNNING d1 = true) as Hr by exact Hrun.
  destruct ((st =? STATE_FW) && (d_fw_state d =? STATE_FW)); cbn [negb].
  - unfold ret at 1. by rewrite rearm_spec, Hr.
  - unfold reloaded. cbv zeta. unfold bind at 1 2, modify at 1 2. set (d2 := set_d_tx_dataq [] _).
    unfold bind at 1, gets at 1. assert (dev_flag HGICF_DEV_FLAGS_RUNNING d2 = true) as Hr2 by exact Hrun.
    unfold dev_flag in Hr2. destruct (has_reinit d2); unfold bind, gets, modify, ret, bus_reinit; cbn -[d2]; unfold bind, gets, modify, ret; cbn -[d2].
    all: unfold dev_flag; cbn -[d2]; rewrite ?Hr2; cbn -[d2]; rewrite rearm_spec; unfold dev_flag; cbn -[d2];
      rewrite bool_decide_true; [reflexivity|right; by apply bool_decide_eq_true in Hr2].
Qed.

(** Nobody answers: four inquiries fail. *)
Lemma asked_silent n d :
  silent (d_w d) -> exists d', asked (replicate n (-1)) d d' /\ w_sent (d_w d') = w_sent (d_w d) /\ has_reinit d' = has_reinit d.
Proof.
  revert d. induction n as [|n IH]; intros d Hs; cbn [replicate]; [exists d; by split; [constructor|]|].
  destruct (cmd_enter_silent (Boot (d_dl d) (d_w d)) Hs) as (b & E & Hb & Hbus & Hse).
  destruct (IH (set_d_w (b_w b) (set_d_dl (b_dl b) d)) Hb) as (d' & Ha & H1 & H2). exists d'.
  split; [econstructor; [exact (on_boot_Ret _ _ _ _ E)|exact Ha]|]. cbn in H1, H2. split; [by rewrite H1|].
  rewrite H2. unfold has_reinit. cbn. by rewrite Hbus.
Qed.

(** C35. The watchdog.  A chip that sleeps, or was heard within the period with no
    error or suspension recorded, is left alone.  Otherwise it is asked for its
    state, up to four times, until its firmware answers.  Only when the firmware
    answers and the driver has it for running is nothing changed; when it does
    not answer -- whatever else does -- or answers while the driver does not have
    it for running, both transmit queues are emptied, the bus is reinitialised if
    it can be, the device is suspended with no firmware state and without soft
    flow control, and the bring-up is scheduled.  The timer is started again as
    long as the device runs.  A chip that answers the first inquiry gets that one
    frame; one that never answers makes four inquiries fail. *)
Theorem detect_work_cases timer d :
  (watched timer d = false ->
     hgicf_detect_work timer d = Ret (tt, if dev_flag HGICF_DEV_FLAGS_RUNNING d then emit OUT_mod_timer (tick d) else tick d)) /\
  (forall rs d1, watched timer d = true -> asked rs (tick d) d1 -> asked_enough 4 rs ->
     exists d', hgicf_detect_work timer d = Ret (tt, d') /\
     if bool_decide (STATE_FW ∈ rs) && (d_fw_state d =? STATE_FW)
     then d' = emit OUT_mod_timer d1
     else ctrlq d' = [] /\ d_tx_dataq d' = [] /\ d_fw_state d' = 255 /\ d_soft_fc d' = false /\
          dev_flag HGICF_DEV_FLAGS_SUSPEND d' = true /\ d_vif d' = d_vif d /\ d_evt_list d' = d_evt_list d /\
          d_out d' = d_out d ++ (if has_reinit d1 then [OUT_reinit] else []) ++ [OUT_delay_init; OUT_mod_timer]) /\
  (forall rd rsv check e, let mode := bd_checksum_mode (d_dl d) in let cookie := fc_cookie (w_ctrl (d_w d)) in
     quiet (d_w d) -> zlen rd = 4 ->
     w_env (d_w d) = answered_by (boot_resp cookie HG_BOOTDL_CMD_ENTER HG_BOOTDL_RSP_ERR_IN_FW rd rsv check) :: e ->
     check = check_of mode ([HG_BOOTDL_CMD_ENTER; HG_BOOTDL_RSP_ERR_IN_FW] ++ rd ++ [rsv; check]) ->
     exists d1, asked [STATE_FW] (tick d) d1 /\
       map skb_data (w_sent (d_w d1)) = map skb_data (w_sent (d_w d)) ++ [enter_frame mode cookie] /\
       d_out d1 = d_out d /\ d_tx_dataq d1 = d_tx_dataq d /\ d_flags d1 = d_flags d) /\
  (silent (d_w d) -> exists d1, asked (replicate 4 (-1)) (tick d) d1 /\ has_reinit d1 = has_reinit d).
Proof.
  split; [|split; [|split]].
  - intros Hw. by rewrite (detect_work_idle _ _ Hw), rearm_spec.
  - intros rs d1 Hw Ha Hn. rewrite (detect_work_watched timer rs d d1 Hw Ha Hn). eexists. split; [reflexivity|].
    destruct (_ && _); [done|]. destruct (asked_apart _ _ _ Ha) as (w & dl & ->). unfold reloaded. cbv zeta.
    set (d2 := set_d_tx_dataq [] _). change (has_reinit d2) with (has_reinit (set_d_w w (set_d_dl dl (tick d)))).
    destruct (has_reinit _); (do 4 (split; [reflexivity|]); split; [apply bool_decide_eq_true; by left|];
      do 2 (split; [reflexivity|]); simpl; by rewrite <- !app_assoc).
  - intros rd rsv check e mode cookie Hq Hrd He Hck.
    destruct (enter_on_device HG_BOOTDL_CMD_ENTER HG_BOOTDL_RSP_ERR_IN_FW rd rsv check e (tick d) Hq Hrd He)
      as (w' & E & _ & _ & _ & _ & Hs). change (bd_checksum_mode (d_dl (tick d))) with mode in E, Hs.
    assert (rsp_of mode HG_BOOTDL_CMD_ENTER HG_BOOTDL_CMD_ENTER HG_BOOTDL_RSP_ERR_IN_FW rd rsv check = 255) as R
      by (unfold rsp_of; rewrite <- Hck, !Z.eqb_refl; done).
    rewrite R in E. eexists. split; [by econstructor; [exact E|constructor]|]. by split.
  - intros Hs. destruct (asked_silent 4 (tick d) Hs) as (d1 & Ha & _ & Hr). by exists d1.
Qed.

(** Silent for longer than the period, with a data frame queued: a reload.  An answer
    to a driver that waits for the firmware: a reload, too. *)
Lemma detect_work_cases_witness :
  let d := set_d_tx_dataq [demo_frame 7] (demo_dev []) in
  exists d', hgicf_detect_work 500 d = Ret (tt, d') /\ d_tx_dataq d' = [] /\
    d_out d' = [OUT_reinit; OUT_delay_init; OUT_mod_timer].
Proof.
  set (d := set_d_tx_dataq [demo_frame 7] (demo_dev [])).
  destruct (detect_work_cases 500 d) as (_ & K & _ & Hs). destruct (Hs (conj eq_refl eq_refl)) as (d1 & Ha & Hr).
  destruct (K _ d1 eq_refl Ha) as (d' & E & C); [right; split; [reflexivity|apply (bool_decide_unpack _); vm_compute; exact I]|].
  rewrite bool_decide_false in C by (apply (bool_decide_unpack _); vm_compute; exact I). cbn [andb] in C. rewrite Hr in C.
  destruct C as (_ & Q & _ & _ & _ & _ & _ & O). exists d'. split; [exact E|]. split; [exact Q|exact O].
Defined.
