(* ===== verification/IfTest.v ===== *)
(** * The interface traffic test (hgic_fmac/core.c)

    The work that fills the bus with test frames until the device stops running.
    What others do meanwhile comes in as one entry per test of the running flag:
    the time then, and whether the flag has been cleared. *)
From S2P Require Import Prelude Bytes CString Proto Skb FwInfo Utils FwCtrl BootDl Device Tx.

Record tick := Tick { tk_stop : bool; tk_now : Z }.
Definition look (t : tick) : M hgicf_wdev bool :=
  modify (set_d_now (tk_now t)) ;;;
  modify (fun d => if tk_stop t then clear_dev_flag HGICF_DEV_FLAGS_RUNNING d else d) ;;;
  gets (dev_flag HGICF_DEV_FLAGS_RUNNING).

Section Test.
(** 5000 milliseconds in jiffies. *)
Variable period : Z.

(** [start] is [test_jiff]; what is printed is left out. *)
Definition if_test_report (start : Z) : M hgicf_wdev Z :=
  let! now := gets d_now in
  if start + period <? now then
    modify (set_d_test_rx_len 0) ;;; modify (set_d_test_tx_len 0) ;;; ret now
  else ret start.

Definition test_type (if_test : Z) : Z := if if_test =? 1 then HGIC_HDR_TYPE_TEST else HGIC_HDR_TYPE_TEST2.
Definition fill_test_frm (cookie if_test : Z) (m : list Z) : outcome (list Z) :=
  leto m := put16_at m 0 HGIC_HDR_TX_MAGIC in
  leto m := put16_at m 4 1500 in
  leto m := put16_at m 6 cookie in
  leto m := put8_at m 2 (test_type if_test) in
  leto m := put_ifidx m 0 in
  if if_test =? 3 then mem_write m 8 (replicate 1492 0xAA) else Ret m.

Definition test_frm : M hgicf_wdev (option skb) :=
  let! room := gets (fun d => drv_tx_headroom (fc_bus (w_ctrl (d_w d)))) in
  let! s := on_world (dev_alloc_skb (1500 + room)) in
  match s with
  | None => ret None
  | Some s =>
      let! s := lift (skb_reserve s room) in
      let! cookie := hgicf_data_cookie in
      let! t := gets d_if_test in
      let! m := lift (fill_test_frm cookie t (skb_tail s)) in
      let! s := lift (skb_put (Skb (skb_head s) (skb_data s) m) 1500) in
      ret (Some s)
  end.

(** [s]: the frame that waits for the window in the inner loop. *)
Fixpoint test_loop (start : Z) (s : option skb) (ticks : list tick) : M hgicf_wdev unit :=
  match ticks with
  | [] => fail Diverges
  | t :: ticks =>
      let! run := look t in
      match s with
      | None =>
          if negb run then ret tt else
          let! start := if_test_report start in
          let! s := test_frm in
          test_loop start s ticks
      | Some s =>
          let! r := (if run then hgicf_check_txwnd TXWND_INIT_VAL else ret 0) in
          if negb (r =? 0) then test_loop start (Some s) ticks
          else tx_packet s ;;; test_loop start None ticks
      end
  end.

Definition hgicf_test_work (ticks : list tick) : M hgicf_wdev unit :=
  let! now := gets d_now in test_loop now None ticks.

(** ** The frames *)
(** What a frame holds when its memory held [m]: the flags nibble and, but for
    the third kind of test, everything behind the header are what was there. *)
Definition test_frame (if_test cookie : Z) (m : list Z) : list Z :=
  [0x2B; 0x1A; test_type if_test; Z.land (nth 3 m 0) 240]
  ++ put_unaligned_le16 1500 ++ put_unaligned_le16 cookie
  ++ (if if_test =? 3 then replicate 1492 0xAA else zdrop 8 m).
Fixpoint test_frames (if_test cookie : Z) (n : nat) : list (list Z) :=
  match n with
  | O => []
  | S n => test_frame if_test cookie (replicate 1500 0) :: test_frames if_test (u16 (cookie + 1)) n
  end.

Lemma test_frame_zlen t c m : zlen m = 1500 -> zlen (test_frame t c m) = 1500.
Proof.
  intros Hl. unfold test_frame. rewrite !zlen_app, !put_le16_zlen.
  destruct (t =? 3); [reflexivity|]. rewrite zlen_zdrop by lia. rewrite Hl. reflexivity.
Qed.

Lemma put_over pre a b post v off m :
  m = pre ++ [a; b] ++ post -> off = zlen pre -> put16_at m off v = Ret (pre ++ put_unaligned_le16 v ++ post).
Proof. intros -> -> . by apply mem_write_mid with [a; b]. Qed.
Lemma fill_test_frm_spec c t m : zlen m = 1500 -> fill_test_frm c t m = Ret (test_frame t c m).
Proof.
  intros Hl. destruct m as [|a0 [|a1 [|a2 [|a3 [|a4 [|a5 [|a6 [|a7 m]]]]]]]]; try (vm_compute in Hl; discriminate).
  rewrite !zlen_cons in Hl. unfold fill_test_frm, put_ifidx, put8_at, test_frame. cbn [nth].
  rewrite (put_over [] a0 a1 (a2 :: a3 :: a4 :: a5 :: a6 :: a7 :: m)) by done. cbn [obind].
  set (M := put_unaligned_le16 HGIC_HDR_TX_MAGIC).
  rewrite (put_over (M ++ [a2; a3]) a4 a5 (a6 :: a7 :: m)) by done. cbn [obind].
  set (L := put_unaligned_le16 1500).
  rewrite (put_over (M ++ [a2; a3] ++ L) a6 a7 m) by (rewrite ?zlen_app; done). cbn [obind].
  set (C := put_unaligned_le16 c). set (ty := test_type t).
  rewrite (mem_write_mid _ M [a2] ([a3] ++ L ++ C ++ m)) by (by rewrite <- ?app_assoc). cbn [obind].
  rewrite (mem_get_mid _ (M ++ [u8 (ty)]) a3 (L ++ C ++ m)) by (by rewrite <- ?app_assoc). cbn [obind].
  rewrite (mem_write_mid _ (M ++ [u8 (ty)]) [a3] (L ++ C ++ m)) by (by rewrite <- ?app_assoc). cbn [obind].
  rewrite Z.lor_0_r.
  replace (u8 (ty)) with (ty) by (unfold ty, test_type; by destruct (t =? 1)).
  destruct (t =? 3); [|by rewrite <- !app_assoc].
  replace ((M ++ [ty]) ++ [Z.land a3 240] ++ L ++ C ++ m) with ((M ++ [ty; Z.land a3 240] ++ L ++ C) ++ m ++ []) by (by rewrite app_nil_r, <- !app_assoc).
  rewrite (mem_write_mid _ _ m [] (replicate 1492 0xAA)) by (done || (change (zlen (replicate 1492 170)) with 1492; lia)).
  by rewrite app_nil_r, <- !app_assoc.
Qed.

(** The device runs, the bus accepts everything, there is memory and no flow control. *)
Record test_ready (d : hgicf_wdev) : Prop := {
  tr_run : dev_flag HGICF_DEV_FLAGS_RUNNING d = true;
  tr_env : Forall accepts_frame (d_bus_env d);
  tr_fc : d_soft_fc d = false;
  tr_alloc : w_alloc (d_w d) = [];
  tr_bus : bus_ok (d_w d) }.

Lemma test_frm_ok d :
  test_ready d ->
  exists s, test_frm d = Ret (Some s, set_d_data_cookie (u16 (d_data_cookie d + 1)) d) /\
    skb_data s = test_frame (d_if_test d) (d_data_cookie d) (replicate 1500 0).
Proof.
  intros []. unfold test_frm, bind at 1, gets. set (room := drv_tx_headroom _).
  assert (0 <= room < 2 ^ 20) as Hr by (unfold bus_ok in tr_bus0; subst room; lia).
  rewrite (bind_Ret _ _ _ _ _ (alloc_agg (1500 + room) d tr_alloc0 ltac:(lia))).
  assert (skb_reserve (Skb [] [] (replicate (Z.to_nat (1500 + room)) 0)) room
    = Ret (Skb (replicate (Z.to_nat room) 0) [] (replicate 1500 0))) as E.
  { unfold skb_reserve, skb_tailroom. cbn [skb_tail skb_data skb_head app].
    rewrite zlen_replicate by lia. destruct (Z.leb_spec 0 room), (Z.leb_spec room (1500 + room)); try lia. cbn [andb bool_decide].
    replace (Z.to_nat (1500 + room)) with (Z.to_nat room + 1500)%nat by lia. rewrite replicate_add.
    by rewrite ztake_app_length, zdrop_app_length by (symmetry; apply zlen_replicate; lia). }
  rewrite (bind_lift _ _ _ _ E). cbn [skb_head skb_data skb_tail].
  unfold hgicf_data_cookie, bind at 1 2 3 4, gets, modify. unfold ret at 1. cbn [d_if_test].
  set (d1 := set_d_data_cookie _ d). rewrite (bind_lift _ _ _ _ (fill_test_frm_spec (d_data_cookie d) (d_if_test d1) (replicate 1500 0) ltac:(reflexivity))).
  set (f := test_frame _ _ _). assert (zlen f = 1500) as Hf by (by apply test_frame_zlen).
  eexists. split.
  - erewrite bind_lift by (unfold skb_put, skb_tailroom; cbn [skb_tail]; rewrite Hf; reflexivity). reflexivity.
  - simpl. by rewrite ztake_all by (rewrite Hf; done).
Qed.

Lemma ready_kept d d' : kept d d' -> test_ready d -> test_ready d'.
Proof.
  intros K []. split.
  - unfold dev_flag. by rewrite (k_flags _ _ K).
  - destruct (k_env _ _ K) as (l & _ & ->). by apply Forall_drop.
  - by rewrite (k_fc _ _ K).
  - by rewrite (k_alloc _ _ K).
  - unfold bus_ok in *. by rewrite (k_room _ _ K).
Qed.

(** A step of the loop at which the flag is still set. *)
Lemma look_running t d : test_ready d -> tk_stop t = false -> exists d', look t d = Ret (true, d') /\ d' = set_d_now (tk_now t) d.
Proof. intros [] Ht. eexists. split; [|done]. unfold look, bind, modify, gets. rewrite Ht. by rewrite <- tr_run0. Qed.
Lemma look_stopped t d : tk_stop t = true -> exists d', look t d = Ret (false, d') /\ d' = clear_dev_flag HGICF_DEV_FLAGS_RUNNING (set_d_now (tk_now t) d).
Proof.
  intros Ht. eexists. split; [|done]. unfold look, bind, modify, gets. rewrite Ht. do 2 f_equal.
  apply bool_decide_false. simpl. intros [? _]%list_elem_of_filter. done.
Qed.

(** The outer loop with the flag set makes one frame. *)
Lemma test_loop_make start t r d :
  test_ready d -> tk_stop t = false ->
  exists start' s d', test_loop start None (t :: r) d = test_loop start' (Some s) r d' /\ test_ready d' /\
    skb_data s = test_frame (d_if_test d) (d_data_cookie d) (replicate 1500 0) /\
    d_bus_tx d' = d_bus_tx d /\ d_if_test d' = d_if_test d /\ d_data_cookie d' = u16 (d_data_cookie d + 1).
Proof.
  intros Hd Ht. cbn [test_loop]. destruct (look_running t d Hd Ht) as (d0 & E & H0). rewrite (bind_Ret _ _ _ _ _ E). cbn [negb].
  assert (exists start' d1, if_test_report start d0 = Ret (start', d1) /\ test_ready d1 /\ d_bus_tx d1 = d_bus_tx d /\
    d_if_test d1 = d_if_test d /\ d_data_cookie d1 = d_data_cookie d) as (start' & d1 & E1 & H1 & F1 & F2 & F3).
  { subst d0. unfold if_test_report, bind, gets, modify, ret. destruct (_ <? _); (do 2 eexists; split; [reflexivity|]; split; [|done]); by destruct Hd. }
  rewrite (bind_Ret _ _ _ _ _ E1). destruct (test_frm_ok d1 H1) as (s & E2 & Hs). rewrite (bind_Ret _ _ _ _ _ E2).
  do 3 eexists. split; [reflexivity|]. rewrite Hs, F2, F3. by split; [destruct H1|].
Qed.
(** The inner loop sends it, whether the flag is still set or not. *)
Lemma test_loop_send start s t r d :
  test_ready d ->
  exists d', test_loop start (Some s) (t :: r) d = test_loop start None r d' /\
    (if tk_stop t then dev_flag HGICF_DEV_FLAGS_RUNNING d' = false else test_ready d') /\
    d_bus_tx d' = d_bus_tx d ++ [s] /\ d_if_test d' = d_if_test d /\ d_data_cookie d' = d_data_cookie d.
Proof.
  intros Hd. cbn [test_loop]. destruct (tk_stop t) eqn:Ht.
  - destruct (look_stopped t d Ht) as (d0 & E & H0). rewrite (bind_Ret _ _ _ _ _ E), (bind_Ret (ret 0) _ d0 0 d0 eq_refl). cbn [negb Z.eqb].
    destruct (tx_packet_ok s d0) as (d' & E1 & K & F1 & F2 & F3 & F4); [subst d0; apply Hd|].
    pose proof (k_test _ _ K) as Ft.
    change (negb (0 =? 0)) with false; cbv iota. rewrite (bind_Ret _ _ _ _ _ E1). exists d'. split; [done|]. subst d0. split; [|done].
    unfold dev_flag. rewrite (k_flags _ _ K). apply bool_decide_false. simpl. by intros [? _]%list_elem_of_filter.
  - destruct (look_running t d Hd Ht) as (d0 & E & H0). rewrite (bind_Ret _ _ _ _ _ E).
    assert (hgicf_check_txwnd TXWND_INIT_VAL d0 = Ret (0, d0)) as C
      by (subst d0; unfold hgicf_check_txwnd, bind, gets; simpl; by rewrite (tr_fc d Hd)).
    rewrite (bind_Ret _ _ _ _ _ C). cbn [negb Z.eqb].
    destruct (tx_packet_ok s d0) as (d' & E1 & K & F1 & F2 & F3 & F4); [subst d0; apply Hd|].
    pose proof (k_test _ _ K) as Ft.
    change (negb (0 =? 0)) with false; cbv iota. rewrite (bind_Ret _ _ _ _ _ E1). exists d'. split; [done|]. subst d0. split; [|done].
    apply (ready_kept _ _ K). by destruct Hd.
Qed.

(** ** Properties *)
(** C37. With memory and a bus that accepts everything, the test sends a frame for
    every two tests of the flag, numbered on from the device's data cookie, of the
    type the kind of test asks for; once the flag is cleared it returns, after the
    one frame it may have under way. *)
Theorem test_work_sends pre stop rest d :
  test_ready d -> Forall (fun t => tk_stop t = false) pre -> tk_stop stop = true ->
  (Nat.odd (length pre) = true -> rest <> []) ->
  exists d', hgicf_test_work (pre ++ stop :: rest) d = Ret (tt, d') /\
    map skb_data (d_bus_tx d')
    = map skb_data (d_bus_tx d) ++ test_frames (d_if_test d) (d_data_cookie d) (Nat.div2 (S (length pre))) /\
    dev_flag HGICF_DEV_FLAGS_RUNNING d' = false.
Proof.
  unfold hgicf_test_work, bind at 1, gets. generalize (d_now d) as start.
  remember (length pre) as n eqn:Hn. revert pre Hn d.
  induction n as [n IH] using lt_wf_ind. intros [|t1 [|t2 pre]] -> d start Hd Hpre Hstop Hrest.
  - cbn [app test_loop length Nat.div2 test_frames]. rewrite app_nil_r. destruct (look_stopped stop d Hstop) as (d0 & E & H0).
    rewrite (bind_Ret _ _ _ _ _ E). exists d0. split; [done|]. subst d0. split; [done|].
    apply bool_decide_false. simpl. by intros [? _]%list_elem_of_filter.
  - inversion_clear Hpre as [|? ? H1 _]. cbn [app length Nat.div2 test_frames].
    destruct (test_loop_make start t1 (stop :: rest) d Hd H1) as (st & s & d1 & -> & Hd1 & Hs & F1 & F2 & F3).
    destruct (test_loop_send st s stop rest d1 Hd1) as (d2 & -> & H2 & G1 & G2 & G3). rewrite Hstop in H2.
    destruct rest as [|t rest]; [by destruct Hrest|]. cbn [test_loop].
    set (d3 := set_d_now (tk_now t) d2).
    assert (exists d4, look t d2 = Ret (false, d4) /\ d_bus_tx d4 = d_bus_tx d2 /\ dev_flag HGICF_DEV_FLAGS_RUNNING d4 = false) as (d4 & E & B4 & R4).
    { destruct (tk_stop t) eqn:Ht.
      - destruct (look_stopped t d2 Ht) as (d4 & E & ->). exists (clear_dev_flag HGICF_DEV_FLAGS_RUNNING d3). split; [done|]. split; [done|].
        apply bool_decide_false. simpl. by intros [? _]%list_elem_of_filter.
      - exists d3. unfold look, bind, modify, gets. rewrite Ht. split; [|done]. by rewrite <- H2. }
    rewrite (bind_Ret _ _ _ _ _ E). exists d4. split; [done|]. split; [|done].
    rewrite B4, G1, F1, map_app. simpl. by rewrite Hs.
  - inversion_clear Hpre as [|? ? H1 Hpre']. inversion_clear Hpre' as [|? ? H2 Hpre]. cbn [app length].
    destruct (test_loop_make start t1 (t2 :: pre ++ stop :: rest) d Hd H1) as (st & s & d1 & -> & Hd1 & Hs & F1 & F2 & F3).
    destruct (test_loop_send st s t2 (pre ++ stop :: rest) d1 Hd1) as (d2 & -> & Hd2 & G1 & G2 & G3). rewrite H2 in Hd2.
    destruct (IH (length pre) ltac:(simpl; lia) pre eq_refl d2 st Hd2 Hpre Hstop) as (d' & -> & E & R); [done|].
    exists d'. split; [done|]. split; [|done]. rewrite E, G1, F1, map_app, <- app_assoc, G2, F2, G3, F3.
    change (Nat.div2 (S (S (S (length pre))))) with (S (Nat.div2 (S (length pre)))). cbn [test_frames map app]. by rewrite Hs.
Qed.
End Test.

(** The flag is cleared while the second frame waits: it still goes out. *)
Lemma test_work_sends_witness :
  exists d', hgicf_test_work 500 [Tick false 10; Tick false 11; Tick false 12; Tick true 13; Tick false 14]
      (set_d_if_test 1 (demo_tx [] [])) = Ret (tt, d') /\
    map skb_data (d_bus_tx d') = test_frames 1 0 2 /\ dev_flag HGICF_DEV_FLAGS_RUNNING d' = false.
Proof.
  exact (test_work_sends 500 [Tick false 10; Tick false 11; Tick false 12] (Tick true 13) [Tick false 14] (set_d_if_test 1 (demo_tx [] []))
    ltac:(by split) ltac:(by repeat constructor) eq_refl ltac:(done)).
Defined.

(** The frames of the first two kinds carry what the memory held before: the flags
    nibble of the header and 1492 bytes go to the chip uninitialised. *)
Lemma test_frame_leaks c t m :
  zlen m = 1500 -> t <> 3 ->
  exists f, fill_test_frm c t m = Ret f /\ zdrop 8 f = zdrop 8 m /\ nth 3 f 0 = Z.land (nth 3 m 0) 240.
Proof.
  intros Hl Ht. rewrite fill_test_frm_spec by done. eexists. split; [done|]. split; [|done].
  unfold test_frame. apply Z.eqb_neq in Ht. rewrite Ht. done.
Qed.
