(* ===== verification/Entry.v ===== *)
(** * The entry points of the driver (hgic_fmac/ctrl.c, hgic_fmac/procfs.c)

    User space reaches the driver through ioctls of the network device and
    through files under /proc.  Both end in the text command interface; the
    [iwpriv] file adds a small language of its own, whose answers are written
    back into the buffer of the write call.  The user memory is explicit: what
    is mapped from the pointer on, and the count the caller declared. *)
From Stdlib Require Import String.
From S2P Require Import Prelude Bytes CString Proto Skb FwInfo Utils Format FwCtrl FwCmds Iwpriv IwprivGet Ota Device Core.

(** [copy_to_user]: what is mapped can be written; the rest is not copied. *)
Definition copy_to_user (mem : list Z) (off : Z) (bs : list Z) : list Z * bool :=
  let room := Z.max 0 (zlen mem - off) in
  if zlen bs <=? room then (ztake off mem ++ bs ++ zdrop (off + zlen bs) mem, true)
  else (ztake off mem ++ ztake room bs, false).


Section EntryPoints.
(** As for the commands: stack bytes, [char], user pointers, failing copies. *)
Context (stk : list Z) (signed_char : bool) (access_ok : Z -> bool) (unwritten : Z).

(** ** Ioctls *)
Definition SIOCGIWPRIV : Z := 0x8B0D.
Definition SIOCIWFIRSTPRIV : Z := 0x8BE0.
Definition HG_PRIV_IOCTL_GET : Z := SIOCIWFIRSTPRIV + 1.
Definition HG_PRIV_IOCTL_SET : Z := SIOCIWFIRSTPRIV + 2.
Definition HG_PRIV_IOCTL_STAT : Z := SIOCIWFIRSTPRIV + 3.
Definition HG_PRIV_IOCTL_SCAN : Z := SIOCIWFIRSTPRIV + 4.
Definition HG_PRIV_IOCTL_E2P : Z := SIOCIWFIRSTPRIV + 5.
Definition HG_PRIV_IOCTL_SAVE : Z := SIOCIWFIRSTPRIV + 6.

Definition IW_PRIV_TYPE_CHAR : Z := 0x2000.
(** struct iw_priv_args: a command, two argument descriptions, a name of 16 bytes. *)
Definition iw_priv_args (cmd set_args get_args : Z) (name : string) : list Z :=
  put_unaligned_le32 cmd ++ put_unaligned_le16 set_args ++ put_unaligned_le16 get_args ++ resize 16 0 (str name).
Definition hgicf_privtab : list (list Z) :=
  [ iw_priv_args HG_PRIV_IOCTL_SET (Z.lor IW_PRIV_TYPE_CHAR 1536) 0 "set";
    iw_priv_args HG_PRIV_IOCTL_GET (Z.lor IW_PRIV_TYPE_CHAR 1024) (Z.lor IW_PRIV_TYPE_CHAR 1024) "get";
    iw_priv_args HG_PRIV_IOCTL_SCAN (Z.lor IW_PRIV_TYPE_CHAR 1536) 0 "scan";
    iw_priv_args HG_PRIV_IOCTL_E2P (Z.lor IW_PRIV_TYPE_CHAR 1024) (Z.lor IW_PRIV_TYPE_CHAR 1024) "e2p";
    iw_priv_args HG_PRIV_IOCTL_STAT 0 (Z.lor IW_PRIV_TYPE_CHAR 1024) "stat";
    iw_priv_args HG_PRIV_IOCTL_SAVE (Z.lor IW_PRIV_TYPE_CHAR 1024) 0 "save" ].

(** The interface an ioctl arrives at exists; its index is the firmware's. *)
Definition fwifidx : M hgicf_wdev Z :=
  let! v := gets d_vif in let! v := lift (deref v) in ret (v_fwifidx v).

Definition hgicf_ioctl_set_proc (rq : iwreq) : M hgicf_wdev Z :=
  let! ifidx := fwifidx in on_world (hgic_iwpriv_set_proc stk signed_char ifidx rq).
Definition hgicf_ioctl_get_proc (rq : iwreq) : M hgicf_wdev (Z * iwreq) :=
  let! ifidx := fwifidx in on_world (hgic_iwpriv_get_proc stk signed_char access_ok unwritten ifidx rq).
Definition hgicf_ioctl_stat (rq : iwreq) : M hgicf_wdev Z := ret 0.
Definition hgicf_ioctl_e2p (rq : iwreq) : M hgicf_wdev Z := ret 0.
Definition hgicf_ioctl_savecfg (rq : iwreq) : M hgicf_wdev Z :=
  let! ifidx := fwifidx in on_world (hgic_fwctrl_save_cfg ifidx).
Definition hgicf_ioctl_scan (rq : iwreq) : M hgicf_wdev Z :=
  let! ifidx := fwifidx in on_world (hgic_fwctrl_scan ifidx 1).

(** The table of private ioctls, copied when the caller has room for it;
    [nonnull]: the request has a pointer. *)
Definition priv_table (nonnull : bool) (rq : iwreq) : Z * iwreq :=
  let n := zlen hgicf_privtab in
  let tab := concat hgicf_privtab in
  if nonnull && access_ok (zlen tab) && (n <=? iw_length rq) then
    let '(user, ok) := copy_to_user (iw_user rq) 0 tab in
    (if ok then 0 else zlen tab - zlen (iw_user rq), Iwreq n user (iw_uncopied rq))
  else (0, rq).

Definition hgicf_ioctl (nonnull : bool) (rq : iwreq) (cmd : Z) : M hgicf_wdev (Z * iwreq) :=
  if cmd =? SIOCGIWPRIV then ret (priv_table nonnull rq)
  else if cmd =? HG_PRIV_IOCTL_SET then let! r := hgicf_ioctl_set_proc rq in ret (r, rq)
  else if cmd =? HG_PRIV_IOCTL_GET then hgicf_ioctl_get_proc rq
  else if cmd =? HG_PRIV_IOCTL_SCAN then let! r := hgicf_ioctl_scan rq in ret (r, rq)
  else if cmd =? HG_PRIV_IOCTL_E2P then let! r := hgicf_ioctl_e2p rq in ret (r, rq)
  else if cmd =? HG_PRIV_IOCTL_STAT then let! r := hgicf_ioctl_stat rq in ret (r, rq)
  else if cmd =? HG_PRIV_IOCTL_SAVE then let! r := hgicf_ioctl_savecfg rq in ret (r, rq)
  else ret (0, rq).

(** As the interface's own operation: nothing while the device does not run. *)
Definition hgicf_netif_ioctl (nonnull : bool) (rq : iwreq) (cmd : Z) : M hgicf_wdev (Z * iwreq) :=
  let! run := gets (dev_flag HGICF_DEV_FLAGS_RUNNING) in
  if negb run then ret (0, rq) else hgicf_ioctl nonnull rq cmd.
Definition hgicf_netdev_get_stats (d : hgicf_wdev) : outcome (Z * Z * Z * Z) :=
  leto v := deref (d_vif d) in Ret (v_tx_bytes v, v_tx_dropped v, v_rx_bytes v, v_rx_dropped v).

(** ** The status file *)
Definition flag_bit (f : hgicf_dev_flags) : Z :=
  match f with
  | HGICF_DEV_FLAGS_INITED => 0 | HGICF_DEV_FLAGS_RUNNING => 1
  | HGICF_DEV_FLAGS_SUSPEND => 2 | HGICF_DEV_FLAGS_BOOTDL => 3
  end.
Definition bus_flag_bit (f : hgic_bus_flag) : Z :=
  match f with
  | HGIC_BUS_FLAGS_DISABLE_REINIT => 0 | HGIC_BUS_FLAGS_SLEEP => 1 | HGIC_BUS_FLAGS_INBOOT => 2
  | HGIC_BUS_FLAGS_NOPOLL => 3 | HGIC_BUS_FLAGS_SOFTFC => 4 | HGIC_BUS_FLAGS_ERROR => 5
  end.
(** The word [set_bit] and [clear_bit] work on. *)
Definition flag_word {A} (bit : A -> Z) (l : list A) : Z := fold_right (fun f w => Z.lor (Z.shiftl 1 (bit f)) w) 0 l.

Definition seq_printf (out : list Z) (fmt : list Z) (args : list farg) : outcome (list Z) :=
  leto t := format Text fmt args in Ret (out ++ t).
(** [if (qlen) seq_printf(seq, fmt, qlen)] *)
Definition show_queue {A} (out : list Z) (fmt : string) (q : list A) : outcome (list Z) :=
  if negb (zlen q =? 0) then seq_printf out (str fmt ++ crlf) [AInt (zlen q)] else Ret out.

Definition hgicf_status_show (d : hgicf_wdev) : outcome (list Z) :=
  let v := fi_version (d_fwinfo d) in
  leto out := seq_printf [] (str "fw info:%d.%d.%d.%d, svn version:%d, app:%d" ++ crlf)
    [AInt (Z.land (Z.shiftr v 24) 0xff); AInt (Z.land (Z.shiftr v 16) 0xff); AInt (Z.land (Z.shiftr v 8) 0xff);
     AInt (Z.land v 0xff); AInt (fi_svn_version (d_fwinfo d)); AInt (fi_app_version (d_fwinfo d))] in
  leto out := seq_printf out (str "hgicf status:" ++ crlf) [] in
  leto out := seq_printf out (str "    RADIO:%d, FW_STATE:%d, SOFT_FC:%d, TXWND:%d" ++ crlf)
    [AInt (fc_radio_onoff (w_ctrl (d_w d))); AInt (d_fw_state d); AInt (if d_soft_fc d then 1 else 0); AInt (d_txwnd d)] in
  leto out := seq_printf out
    (str "    FLAGS:%lx, BUS FLAGS:%lx, ALIVE_TMR:%d, TX_CTRL:%d, TX_DATA:%d, TX_FAIL:%d" ++ crlf)
    [AInt (flag_word flag_bit (d_flags d)); AInt (flag_word bus_flag_bit (bus_flags (fc_bus (w_ctrl (d_w d)))));
     AInt (d_detect_tmr d); AInt (d_tx_ctrl d); AInt (d_tx_data d); AInt (d_tx_fail d)] in
  leto out := show_queue out "    ctrl_rxq: %d" (fc_rxq (w_ctrl (d_w d))) in
  leto out := show_queue out "    ctrl_txq: %d" (fc_txq (w_ctrl (d_w d))) in
  leto out := show_queue out "    tx_dataq : %d" (d_tx_dataq d) in
  leto out := show_queue out "    evt_list   : %d" (d_evt_list d) in
  match d_vif d with
  | Some v => seq_printf out (str "    tx_bytes: %lu, rx_bytes: %lu, tx_dropped: %lu" ++ crlf)
                [AInt (v_tx_bytes v); AInt (v_rx_bytes v); AInt (v_tx_dropped v)]
  | None => Ret out
  end.

(** ** The ota file *)
(** A write names the image; [rf] is the firmware loader, [mem] what is mapped
    at the user pointer. *)
Definition hgicf_ota_send_data (rf : list Z -> Z * list Z) (tmo : Z) (mem : list Z) (count : Z) : M hgic_ota Z :=
  let! fw_path := on_world (kzalloc (count + 1)) in
  match fw_path with
  | None => ret (- ENOMEM)
  | Some fw_path =>
      if zlen mem <? count then ret (- EFAULT) else
      let! fw_path := lift (mem_write fw_path 0 (ztake count mem)) in
      let! fw_path := lift (hgic_strip_tail fw_path count) in
      let! r := hgic_ota_send_fw rf fw_path tmo in
      ret (if r =? 0 then count else - EIO)
  end.

(** ** The iwpriv file *)
(** The text without a blank: the list of all commands goes back behind the
    first four bytes, which get its length. *)
Definition iwpriv_dump (buf mem : list Z) (count : Z) : M hgicf_wdev (Z * list Z) :=
  let! r := on_world (hgic_iwpriv_dump stk signed_char (fun _ => false) 0 (Iwreq (u16 count) buf 0)) in
  let ret_ := fst r in
  let buf := iw_user (snd r) in
  let! c := (if negb (ret_ =? 0) then
               let! bs := lift (mem_read buf 0 (if ret_ <=? count then ret_ else count)) in
               ret (copy_to_user mem 4 bs)
             else ret (mem, true)) in
  if negb (snd c) then ret (- EINVAL, fst c) else
  let '(mem, ok) := copy_to_user (fst c) 0 (put_unaligned_le32 (u32 ret_)) in
  if negb ok then ret (- EINVAL, mem) else ret (count, mem).

(** One command: [cmd] is the text from the command on, [args] its arguments
    and their offset; the result, or [None] for an unknown command, and the
    user memory. *)
Definition iwpriv_command (cmd : list Z) (args : option (list Z)) (args_off : Z) (mem : list Z) (count : Z)
  : M hgicf_wdev (option Z * list Z * bool) :=
  let rq := match args with
            | Some a => Iwreq (u16 (count - args_off)) a 0
            | None => Iwreq 0 [] 0
            end in
  let! is_set := lift (strcasecmp_eq cmd (str "set" ++ [0])) in
  if is_set : bool then
    let! ifidx := fwifidx in
    let! r := on_world (hgic_iwpriv_set_proc stk signed_char ifidx rq) in ret (Some r, mem, true)
  else
  let! is_get := lift (strcasecmp_eq cmd (str "get" ++ [0])) in
  if is_get : bool then
    let! ifidx := fwifidx in
    let! r := on_world (hgic_iwpriv_get_proc stk signed_char (fun _ => false) 0 ifidx rq) in
    if (fst r =? 0) && negb (iw_length (snd r) =? 0) then
      let ret_ := iw_length (snd r) in
      let! bs := lift (mem_read (iw_user (snd r)) 0 (if ret_ <=? count then ret_ else count)) in
      let '(mem, ok) := copy_to_user mem 4 bs in ret (Some ret_, mem, ok)
    else ret (Some (fst r), mem, true)
  else
  let! is_scan := lift (strncasecmp_eq cmd (str "scan" ++ [0]) 4) in
  if is_scan : bool then
    let! p := lift (strchr cmd 61) in
    let! v := (match p with
               | Some k => let! x := lift (simple_strtol (zdrop (k + 1) cmd) 10) in ret (u8 x)
               | None => ret 1
               end) in
    let! ifidx := fwifidx in
    let! r := on_world (hgic_fwctrl_scan ifidx v) in ret (Some r, mem, true)
  else
  let! is_save := lift (strcasecmp_eq cmd (str "save" ++ [0])) in
  if is_save : bool then
    let! ifidx := fwifidx in
    let! r := on_world (hgic_fwctrl_save_cfg ifidx) in ret (Some r, mem, true)
  else ret (None, mem, true).

Definition hgicf_iwpriv_write (mem : list Z) (count : Z) : M hgicf_wdev (Z * list Z) :=
  if count <=? 0 then ret (-1, mem) else
  let! buf := on_world (kzalloc (count + 32)) in
  match buf with
  | None => ret (- ENOMEM, mem)
  | Some buf =>
      if zlen mem <? count then ret (- EINVAL, mem) else
      let! buf := lift (mem_write buf 0 (ztake count mem)) in
      let! c := lift (strchr buf 32) in
      match c with
      | None => iwpriv_dump buf mem count
      | Some i =>
          let cmd := zdrop (i + 1) buf in
          let! a := lift (strchr cmd 32) in
          let cmd := match a with Some j => ztake j cmd ++ 0 :: zdrop (j + 1) cmd | None => cmd end in
          let args := match a with Some j => Some (zdrop (j + 1) cmd) | None => None end in
          let off := match a with Some j => i + 1 + j + 1 | None => 0 end in
          let! r := iwpriv_command cmd args off mem count in
          match r with
          | (None, mem, _) => ret (- EINVAL, mem)
          | (Some ret_, mem, ok) =>
              if negb ok then ret (- EINVAL, mem) else
              let '(mem, ok) := copy_to_user mem 0 (put_unaligned_le32 (u32 ret_)) in
              if negb ok then ret (- EINVAL, mem) else ret (count, mem)
          end
      end
  end.
End EntryPoints.

(** ** Lemmas *)
Lemma on_world_fail {A} (m : M world A) (d : hgicf_wdev) :
  on_world m d = match m (d_w d) with Ret (a, w) => Ret (a, set_d_w w d) | Fault f => Fault f end.
Proof. unfold on_world, on_part. cbn. destruct (m (d_w d)) as [[a w]|f]; done. Qed.

Lemma zdrop_cons_app {A} (s : list A) x l : zdrop (zlen s + 1) (s ++ x :: l) = l.
Proof. rewrite (app_assoc s [x] l : s ++ x :: l = _). apply zdrop_app_length. by rewrite zlen_app. Qed.

Lemma no_blank_strchr s l : Forall (fun b => b <> 0 /\ b <> 32) s -> strchr (s ++ 32 :: l) 32 = Ret (Some (zlen s)).
Proof. apply strchr_found. Qed.

(** A user buffer: the interface name, a command, its arguments. *)
Definition procfs_text (ifname cmd args : list Z) : list Z := ifname ++ 32 :: cmd ++ 32 :: args.
Definition no_blank (s : list Z) : Prop := Forall (fun b => b <> 0 /\ b <> 32) s.

Section EntryLemmas.
Context (stk : list Z) (sc : bool).

Lemma kzalloc_dev n d :
  w_alloc (d_w d) = [] -> 0 <= n < 2 ^ 31 -> on_world (kzalloc n) d = Ret (Some (replicate (Z.to_nat n) 0), d).
Proof.
  intros Ha Hn. rewrite on_world_fail. unfold kzalloc, bind, alloc. rewrite u32_id by lia.
  destruct (Z.leb_spec (2 ^ 31) n); [lia|]. rewrite Ha. cbn. unfold ret. rewrite length_resize. by destruct d as [????????????????????? ??? ??[]]; cbn in *; subst.
Qed.

(** The write with its text taken apart. *)
Lemma iwpriv_write_command ifname cmd args rest d :
  w_alloc (d_w d) = [] -> no_blank ifname -> no_blank cmd ->
  let text := procfs_text ifname cmd args in
  let count := zlen text in
  count + 32 < 2 ^ 31 ->
  hgicf_iwpriv_write stk sc (text ++ rest) count d
  = (let! r := iwpriv_command stk sc (cmd ++ 0 :: args ++ replicate 32 0) (Some (args ++ replicate 32 0))
                 (count - zlen args) (text ++ rest) count in
     match r with
     | (None, mem, _) => ret (- EINVAL, mem)
     | (Some ret_, mem, ok) =>
         if negb ok then ret (- EINVAL, mem) else
         let '(mem, ok) := copy_to_user mem 0 (put_unaligned_le32 (u32 ret_)) in
         if negb ok then ret (- EINVAL, mem) else ret (count, mem)
     end) d.
Proof.
  intros Ha Hi Hc text count Hz. pose proof (zlen_nonneg ifname). pose proof (zlen_nonneg cmd). pose proof (zlen_nonneg args).
  assert (count = zlen ifname + 1 + zlen cmd + 1 + zlen args) as Ec.
  { unfold count, text, procfs_text. rewrite zlen_app, zlen_cons, zlen_app, zlen_cons. lia. }
  unfold hgicf_iwpriv_write. destruct (Z.leb_spec count 0); [lia|].
  rewrite (bind_Ret _ _ _ _ _ (kzalloc_dev (count + 32) d Ha ltac:(lia))).
  rewrite zlen_app. destruct (Z.ltb_spec (zlen text + zlen rest) count) as [Hl|_]; [pose proof (zlen_nonneg rest); fold count in Hl; lia|].
  rewrite ztake_app_length by done.
  erewrite bind_lift; [|apply mem_write_ok; [lia|rewrite zlen_replicate by lia; fold count; lia]].
  rewrite ztake_0. cbn [app]. fold count.
  replace (zdrop (0 + count) (replicate (Z.to_nat (count + 32)) 0)) with (replicate 32 0)
    by (unfold zdrop; rewrite drop_replicate; f_equal; lia).
  unfold text, procfs_text.
  repeat match goal with |- context [(ifname ++ 32 :: cmd ++ 32 :: args) ++ replicate 32 0] =>
    replace ((ifname ++ 32 :: cmd ++ 32 :: args) ++ replicate 32 0) with (ifname ++ 32 :: cmd ++ 32 :: args ++ replicate 32 0)
      by (repeat rewrite <- ?app_assoc, <- ?app_comm_cons; done) end.
  rewrite (bind_lift _ _ _ _ (no_blank_strchr ifname _ Hi)). cbv beta iota zeta.
  rewrite !(zdrop_cons_app ifname 32).
  rewrite (bind_lift _ _ _ _ (no_blank_strchr cmd _ Hc)). cbv beta iota zeta.
  rewrite ztake_app_length by done. rewrite !(zdrop_cons_app cmd).
  replace (zlen ifname + 1 + zlen cmd + 1) with (count - zlen args) by lia.
  apply bind_ext. intros [[[r|] mem] ok] d'; done.
Qed.

(** *** The list of access points in a kernel buffer *)
(** A line printed at [len]: it fits, and the text only grows. *)
Definition prints (line : list Z -> list Z -> Z -> outcome (Z * list Z)) : Prop :=
  (forall p buf len, only_bounds (line p buf len)) /\
  (forall p buf len n b, line p buf len = Ret (n, b) -> 0 <= n /\ len + n < zlen buf /\ zlen b = zlen buf).

Lemma sprintf_prints buf len fmt args n b :
  sprintf_at buf len fmt args = Ret (n, b) -> 0 <= n /\ len + n < zlen buf /\ zlen b = zlen buf.
Proof. intros H. apply sprintf_inv in H as (t & _ & -> & Hf & Hb). pose proof (zlen_nonneg t). lia. Qed.

Lemma get16_bounds l k : only_bounds (get16_at l k).
Proof.
  unfold get16_at. apply bounds_bind; [apply bounds_read|]. intros bs. unfold get_unaligned_le16.
  destruct bs as [|? [|]]; first [apply bounds_fault|apply bounds_Ret].
Qed.

Lemma bss_line_prints : prints bss_line.
Proof.
  split; intros p buf len; unfold bss_line.
  - do 3 (apply bounds_bind; [first [apply bounds_get|apply get16_bounds]|intros ?]). apply bounds_sprintf.
  - intros n b H. do 3 (apply obind_inv in H as (? & _ & H)). by apply sprintf_prints in H.
Qed.
Lemma bss1_line_prints : prints bss1_line.
Proof.
  split; intros p buf len; unfold bss1_line.
  - do 4 (apply bounds_bind; [first [apply bounds_get|apply get16_bounds]|intros ?]). apply bounds_sprintf.
  - intros n b H. do 4 (apply obind_inv in H as (? & _ & H)). by apply sprintf_prints in H.
Qed.

Lemma bss_loop_prints line size count : prints line ->
  (forall p buf len, only_bounds (bss_loop line size count p buf len)) /\
  (forall p buf len n b, bss_loop line size count p buf len = Ret (n, b) -> len < zlen buf -> len <= n < zlen buf).
Proof.
  intros [Hb Hp]. induction count as [|count [IH1 IH2]]; split; intros p buf len; cbn [bss_loop].
  - apply bounds_Ret.
  - intros n b [= <- <-]. lia.
  - apply bounds_bind; [apply Hb|]. intros r. apply IH1.
  - intros n b H Hl. apply obind_inv in H as ([k b1] & E & H). apply Hp in E as (Hk & Hf & Hz). cbn [fst snd] in H.
    apply IH2 in H; lia.
Qed.

(** The whole text: a title of at least 59 bytes, then the lines. *)
Lemma bss_text_prints title line size count p pb :
  prints line -> Forall (fun c => c <> 37) title ->
  let o := (leto t := sprintf_at pb 0 title [] in bss_loop line size count p (snd t) (fst t)) in
  only_bounds o /\ (forall n b, o = Ret (n, b) -> zlen title <= n < zlen pb).
Proof.
  intros Hl Ht o. destruct (bss_loop_prints line size count Hl) as [B1 B2]. split.
  - apply bounds_bind; [apply bounds_sprintf|]. intros t. apply B1.
  - intros n b H. apply obind_inv in H as ([k b1] & E & H). pose proof E as E'. apply sprintf_inv in E as (t & Et & -> & Hf & Hz).
    rewrite format_nil in Et by done. injection Et as <-. cbn [fst snd] in H. apply B2 in H; lia.
Qed.

(** A kernel buffer of 41 bytes, as the request of the iwpriv file has. *)
Lemma scan_list_faults ifidx ty id status body e zs w :
  quiet w -> is_response_type ty = true -> zlen body < 2 ^ 30 -> 0 < status < 2 ^ 15 -> status <= zlen body -> zlen zs = 32 ->
  w_env w = answered_by (resp_frame ty (fc_cookie (w_ctrl w)) id status body) :: e ->
  hgic_iwpriv_get_scan_list (fun _ => false) 0 ifidx (Iwreq 9 (str "scan_list" ++ zs) 0) w = Fault OutOfBounds.
Proof.
  intros Hq Hty Hz Hs Hb Hzs He. unfold hgic_iwpriv_get_scan_list.
  rewrite (bind_Ret _ _ _ _ _ (kzalloc_quiet 1024 w Hq ltac:(lia))), (bind_Ret _ _ _ _ _ (kzalloc_quiet 4096 w Hq ltac:(lia))).
  set (o := replicate (Z.to_nat 1024) 0). assert (zlen o = 1024) as Ho by (apply zlen_replicate; lia).
  unfold hgic_fwctrl_get_scan_list. change (u32 1024) with 1024.
  destruct (get_bytes_reply ifidx HGIC_CMD_GET_SCAN_LIST o 1024 ty id status body e w) as (s & w' & E & _);
    [done|done|done|lia|lia|lia|lia|lia|done|].
  cbv zeta in E. rewrite (bind_Ret _ _ _ _ _ E). cbn [fst snd]. destruct (Z.ltb_spec 0 status); [|lia].
  rewrite (bind_lift (deref (Some _)) _ w' _ eq_refl). set (buf := ztake _ body ++ _).
  assert (zlen buf = 1024) as Hbuf by (unfold buf; rewrite zlen_app, zlen_ztake, zlen_zdrop by lia; lia).
  unfold bind at 1, lift at 1. pose proof (bounds_get buf 38) as B38. destruct (mem_get buf 38) as [b38|f]; [|by rewrite (B38 f eq_refl)].
  set (pb := replicate (Z.to_nat 4096) 0). assert (zlen pb = 4096) as Hpb by (apply zlen_replicate; lia).
  unfold bind at 1, lift at 1.
  match goal with |- match match ?o with _ => _ end with _ => _ end = _ =>
    assert (only_bounds o /\ (forall n b, o = Ret (n, b) -> 59 <= n < 4096)) as [B1 B2]; [|destruct o as [[n b]|f]] end.
  - destruct (negb (Z.shiftr b38 6 =? 1));
      [destruct (bss_text_prints (bss_title ++ lf) bss_line sizeof_hgic_bss_info (Z.to_nat (status / sizeof_hgic_bss_info)) buf pb
         bss_line_prints ltac:(by repeat constructor)) as [B1 B2]
      |destruct (bss_text_prints (bss_title ++ tab ++ str "Country_region" ++ tab ++ str "BSS_BW" ++ lf) bss1_line sizeof_hgic_bss_info1
         (Z.to_nat (status / sizeof_hgic_bss_info1)) buf pb bss1_line_prints ltac:(by repeat constructor)) as [B1 B2]];
      (split; [exact B1|]; intros n b H0; apply B2 in H0; rewrite Hpb in H0; split; [|lia]; etransitivity; [|apply H0]; by vm_compute).
  - specialize (B2 n b eq_refl). cbn [fst snd iw_user iw_uncopied]. unfold answer, bind, lift, hgic_copyto_iwreq.
    cbn [iw_length iw_user]. rewrite u16_id by lia. rewrite Z.leb_refl. destruct (Z.ltb_spec 0 n); [|lia].
    pose proof (bounds_read b 0 n) as Br. destruct (mem_read b 0 n) as [bs|f] eqn:Eb; [|by rewrite (Br f eq_refl)].
    apply mem_read_inv in Eb as (_ & _ & _ & _ & Hl). cbn [obind]. unfold mem_write.
    assert (zlen (str "scan_list" ++ zs) = 41) as -> by (rewrite zlen_app, Hzs; done).
    destruct (Z.leb_spec (0 + zlen bs) 41); [lia|done].
  - by rewrite (B1 f eq_refl).
Qed.

Lemma copy_to_user_ok mem off bs :
  0 <= off -> off + zlen bs <= zlen mem -> copy_to_user mem off bs = (ztake off mem ++ bs ++ zdrop (off + zlen bs) mem, true).
Proof. intros H0 H. unfold copy_to_user. destruct (Z.leb_spec (zlen bs) (Z.max 0 (zlen mem - off))); [done|lia]. Qed.

Lemma set_proc_kernel ifidx text zs d :
  on_world (hgic_iwpriv_set_proc stk sc ifidx (Iwreq (zlen text) (text ++ zs) 0)) d
  = on_world (hgic_iwpriv_set_proc stk sc ifidx (text_req text)) (d : hgicf_wdev).
Proof. by rewrite set_proc_prefix. Qed.

(** A command that is none of the others. *)
Lemma command_set args off mem count tl d :
  iwpriv_command stk sc (str "set" ++ 0 :: tl) (Some args) off mem count d
  = (let! ifidx := fwifidx in
     let! r := on_world (hgic_iwpriv_set_proc stk sc ifidx (Iwreq (u16 (count - off)) args 0)) in
     ret (Some r, mem, true)) d.
Proof. done. Qed.

Lemma command_get args off mem count tl d :
  iwpriv_command stk sc (str "get" ++ 0 :: tl) (Some args) off mem count d
  = (let! ifidx := fwifidx in
     let! r := on_world (hgic_iwpriv_get_proc stk sc (fun _ => false) 0 ifidx (Iwreq (u16 (count - off)) args 0)) in
     if (fst r =? 0) && negb (iw_length (snd r) =? 0) then
       let ret_ := iw_length (snd r) in
       let! bs := lift (mem_read (iw_user (snd r)) 0 (if ret_ <=? count then ret_ else count)) in
       let '(mem, ok) := copy_to_user mem 4 bs in ret (Some ret_, mem, ok)
     else ret (Some (fst r), mem, true)) d.
Proof. done. Qed.
Lemma procfs_text_zlen ifname cmd text : zlen cmd = 3 -> zlen (procfs_text ifname cmd text) = zlen ifname + 5 + zlen text.
Proof. intros Hc. unfold procfs_text. rewrite zlen_app, zlen_cons, zlen_app, zlen_cons. lia. Qed.

(** A set command through the file is the ioctl and its result. *)
Lemma iwpriv_write_set ifname text rest d :
  w_alloc (d_w d) = [] -> no_blank ifname -> zlen text < 65536 -> zlen ifname < 2 ^ 20 ->
  let mem := procfs_text ifname (str "set") text ++ rest in
  let count := zlen (procfs_text ifname (str "set") text) in
  hgicf_iwpriv_write stk sc mem count d
  = match hgicf_ioctl_set_proc stk sc (text_req text) d with
    | Ret (r, d') => Ret ((count, put_unaligned_le32 (u32 r) ++ zdrop 4 mem), d')
    | Fault f => Fault f
    end.
Proof.
  intros Ha Hi Ht Hn mem count.
  pose proof (zlen_nonneg ifname). pose proof (zlen_nonneg text). pose proof (zlen_nonneg rest).
  pose proof (procfs_text_zlen ifname (str "set") text eq_refl) as Hc. fold count in Hc.
  unfold mem, count. rewrite iwpriv_write_command by (done || (by repeat constructor) || (fold count; lia)).
  fold count mem. unfold bind at 1. rewrite command_set. unfold bind at 1, hgicf_ioctl_set_proc.
  replace (count - (count - zlen text)) with (zlen text) by lia. rewrite u16_id by lia.
  unfold bind at 2. destruct (fwifidx d) as [[ifidx d1]|f]; [|done].
  unfold bind. rewrite set_proc_kernel. destruct (on_world _ d1) as [[r d2]|f]; [|done]. cbn [negb].
  unfold ret. cbn [negb]. rewrite copy_to_user_ok by (rewrite ?put_le32_zlen; unfold mem; rewrite ?zlen_app; lia).
  by rewrite ztake_0.
Qed.

(** A query that succeeds with an answer no longer than its text. *)
Lemma iwpriv_write_get ifname text rest d rq d' :
  w_alloc (d_w d) = [] -> no_blank ifname -> zlen text < 65536 -> zlen ifname < 2 ^ 20 ->
  hgicf_ioctl_get_proc stk sc (fun _ => false) 0 (Iwreq (zlen text) (text ++ replicate 32 0) 0) d = Ret ((0, rq), d') ->
  0 < iw_length rq <= zlen text -> iw_length rq <= zlen (iw_user rq) ->
  let mem := procfs_text ifname (str "get") text ++ rest in
  let count := zlen (procfs_text ifname (str "get") text) in
  hgicf_iwpriv_write stk sc mem count d
  = Ret ((count, put_unaligned_le32 (iw_length rq) ++ ztake (iw_length rq) (iw_user rq) ++ zdrop (4 + iw_length rq) mem), d').
Proof.
  intros Ha Hi Ht Hn E Hl Hu mem count.
  pose proof (zlen_nonneg ifname). pose proof (zlen_nonneg text). pose proof (zlen_nonneg rest).
  pose proof (procfs_text_zlen ifname (str "get") text eq_refl) as Hc. fold count in Hc.
  unfold mem, count. rewrite iwpriv_write_command by (done || (by repeat constructor) || (fold count; lia)).
  fold count mem. assert (zlen mem = count + zlen rest) as Hm by (unfold mem; by rewrite zlen_app).
  unfold bind at 1. rewrite command_get. unfold hgicf_ioctl_get_proc in E.
  apply bind_inv in E as (ifidx & d1 & E1 & E). rewrite (bind_Ret _ _ _ _ _ E1).
  replace (count - (count - zlen text)) with (zlen text) by lia. rewrite u16_id by lia.
  rewrite (bind_Ret _ _ _ _ _ E). cbn [fst snd]. change (0 =? 0) with true.
  destruct (Z.eqb_spec (iw_length rq) 0); [lia|]. cbn [andb negb]. destruct (Z.leb_spec (iw_length rq) count); [|lia].
  erewrite bind_lift; [|apply mem_read_ok; lia]. rewrite zdrop_0.
  assert (zlen (ztake (iw_length rq) (iw_user rq)) = iw_length rq) as Hk by (apply zlen_ztake; lia).
  rewrite copy_to_user_ok by lia. unfold ret at 1. cbn [negb].
  rewrite Hk. set (m := ztake 4 mem ++ _). assert (ztake 4 mem ++ zdrop 4 mem = mem) as E4 by apply ztake_zdrop.
  assert (zlen (ztake 4 mem) = 4) as H4 by (apply zlen_ztake; lia).
  assert (zlen m = zlen mem) as Hmm by (unfold m; rewrite !zlen_app, H4, Hk, zlen_zdrop by lia; lia).
  rewrite copy_to_user_ok by (rewrite ?put_le32_zlen; lia). cbn [negb]. unfold ret. rewrite ztake_0, put_le32_zlen. cbn [app].
  rewrite u32_id by lia. do 4 f_equal. unfold m. apply zdrop_app_length. by rewrite H4.
Qed.
End EntryLemmas.

(** ** Properties *)

(** C22. The iwpriv file is the ioctl in another dress.  Writing "<name> set
    <text>" does to the device exactly what the SET ioctl does with that text,
    and leaves its result, as a little-endian word, in the first four bytes of
    the user's buffer.  Writing "<name> get <text>" runs the GET ioctl's query on
    the text in a kernel buffer; when it succeeds with an answer of n bytes, the
    buffer holds n and then the answer.  Both return the count of the write. *)
Theorem iwpriv_file_is_ioctl stk sc ifname text rest d :
  w_alloc (d_w d) = [] -> no_blank ifname -> zlen text < 65536 -> zlen ifname < 2 ^ 20 ->
  (let mem := procfs_text ifname (str "set") text ++ rest in
   let count := zlen (procfs_text ifname (str "set") text) in
   hgicf_iwpriv_write stk sc mem count d
   = match hgicf_ioctl_set_proc stk sc (text_req text) d with
     | Ret (r, d') => Ret ((count, put_unaligned_le32 (u32 r) ++ zdrop 4 mem), d')
     | Fault f => Fault f
     end) /\
  (let mem := procfs_text ifname (str "get") text ++ rest in
   let count := zlen (procfs_text ifname (str "get") text) in
   forall rq d',
   hgicf_ioctl_get_proc stk sc (fun _ => false) 0 (Iwreq (zlen text) (text ++ replicate 32 0) 0) d = Ret ((0, rq), d') ->
   0 < iw_length rq <= zlen text -> iw_length rq <= zlen (iw_user rq) ->
   hgicf_iwpriv_write stk sc mem count d
   = Ret ((count, put_unaligned_le32 (iw_length rq) ++ ztake (iw_length rq) (iw_user rq) ++ zdrop (4 + iw_length rq) mem), d')).
Proof.
  intros Ha Hi Ht Hn. split; [by apply iwpriv_write_set|].
  intros mem count rq d' E Hl Hu. by apply iwpriv_write_get.
Qed.

Lemma iwpriv_file_is_ioctl_witness :
  let d := demo_dev [answered_by (resp_frame 3 0 0 3 (str "sta"))] in
  let text := resize 16 0 (str "mode") in
  exists d', hgicf_iwpriv_write [] true (procfs_text (str "hg0") (str "get") text ++ []) 24 d
    = Ret ((24, [3; 0; 0; 0] ++ str "sta" ++ zdrop 7 (procfs_text (str "hg0") (str "get") text)), d').
Proof.
  intros d text.
  assert (exists d', hgicf_ioctl_get_proc [] true (fun _ => false) 0 (Iwreq (zlen text) (text ++ replicate 32 0) 0) d
    = Ret ((0, Iwreq 3 (str "sta" ++ zdrop 3 (text ++ replicate 32 0)) 0), d')) as (d' & E) by (eexists; vm_compute; reflexivity).
  exists d'.
  destruct (iwpriv_file_is_ioctl [] true (str "hg0") text [] d) as [_ K];
    [reflexivity|by repeat constructor|by vm_compute|by vm_compute|].
  specialize (K _ d' E). etransitivity; [apply K; [split; by vm_compute|by vm_compute]|]. clear. by vm_compute.
Defined.

(** The list of all commands, for a text without a blank: the four bytes behind
    the buffer the caller declared are overwritten. *)
Lemma iwpriv_dump_overruns stk sc text rest d :
  quiet (d_w d) -> Forall (fun b => b <> 0 /\ b <> 32) text -> 4 <= zlen text <= 2000 -> 4 <= zlen rest ->
  let t := dump_text (map fst (hgpriv_sets stk sc)) (map fst (hgpriv_gets stk sc (fun _ => false) 0)) in
  hgicf_iwpriv_write stk sc (text ++ rest) (zlen text) d
  = Ret ((zlen text, put_unaligned_le32 (zlen t) ++ ztake (zlen text) t ++ zdrop 4 rest), d).
Proof.
  intros Hq Ht Hl Hr t. unfold hgicf_iwpriv_write. destruct (Z.leb_spec (zlen text) 0); [lia|].
  rewrite (bind_Ret _ _ _ _ _ (kzalloc_dev (zlen text + 32) d (q_alloc _ Hq) ltac:(lia))). rewrite zlen_app.
  destruct (Z.ltb_spec (zlen text + zlen rest) (zlen text)); [lia|]. rewrite ztake_app_length by done.
  erewrite bind_lift; [|apply mem_write_ok; [lia|rewrite zlen_replicate; lia]]. rewrite ztake_0. cbn [app].
  replace (zdrop (0 + zlen text) (replicate (Z.to_nat (zlen text + 32)) 0)) with (replicate 32 0)
    by (unfold zdrop; rewrite drop_replicate; f_equal; lia).
  rewrite (bind_lift _ _ _ _ (strchr_none text 32 (replicate 31 0) ltac:(done) Ht : strchr (text ++ replicate 32 0) 32 = _)).
  unfold iwpriv_dump. set (buf := text ++ replicate 32 0).
  assert (zlen buf = zlen text + 32) as Hb by (unfold buf; by rewrite zlen_app).
  rewrite u16_id by lia. set (rq := Iwreq (zlen text) buf 0).
  assert (request_ok rq) as Hrq by (split; [unfold rq; simpl; lia|unfold rq; cbn [iw_length iw_user]; lia|done]).
  destruct (dump_lists_all stk sc (fun _ => false) rq (d_w d) Hq Hrq) as [E Hn]. fold t in E, Hn.
  assert (zlen t = 2042) as Zt by (vm_compute; done).
  erewrite bind_Ret; [|rewrite on_world_fail, E; reflexivity]. cbn [fst snd].
  destruct (Z.eqb_spec (zlen t) 0); [lia|]. cbn [negb]. unfold put_answer. cbn [iw_length iw_user rq].
  rewrite Z.min_r by lia. destruct (Z.leb_spec (zlen t) (zlen text)); [lia|].
  assert (zlen (ztake (zlen text) t) = zlen text) as Hk by (apply zlen_ztake; lia).
  assert (mem_read (ztake (zlen text) t ++ zdrop (zlen text) buf) 0 (zlen text) = Ret (ztake (zlen text) t)) as Er
    by (by rewrite (mem_read_mid _ [] (ztake (zlen text) t) (zdrop (zlen text) buf))).
  erewrite bind_Ret; [|rewrite (bind_lift _ _ _ _ Er); rewrite copy_to_user_ok by (rewrite ?zlen_app; lia); reflexivity].
  cbn [fst snd negb]. rewrite Hk. 
  rewrite copy_to_user_ok; [|lia|rewrite put_le32_zlen, zlen_app, zlen_ztake by (rewrite zlen_app; lia);
    pose proof (zlen_nonneg (ztake (zlen text) t ++ zdrop (4 + zlen text) (text ++ rest))); lia].
  cbn [negb]. unfold ret. rewrite ztake_0, u32_id by lia. cbn [app].
  assert (set_d_w (d_w d) d = d) as -> by (by destruct d).
  do 3 f_equal. rewrite put_le32_zlen, Z.add_0_l. rewrite zdrop_app_length by (by rewrite zlen_ztake by (rewrite zlen_app; lia)).
  f_equal. replace (4 + zlen text) with (zlen text + 4) by lia. rewrite <- zdrop_zdrop by lia. by rewrite zdrop_app_length.
Qed.

(** "get scan_list" written to the iwpriv file overflows a kernel buffer.  The
    request lies in a block as long as the write and 32 bytes, and the handler
    replaces its length by the length of the list: whatever the chip found,
    the title alone is written behind the block. *)
Lemma iwpriv_scan_list_overflows stk sc ifname rest v ty id status body e d :
  quiet (d_w d) -> d_vif d = Some v -> no_blank ifname -> zlen ifname < 2 ^ 20 ->
  is_response_type ty = true -> zlen body < 2 ^ 30 -> 0 < status < 2 ^ 15 -> status <= zlen body ->
  w_env (d_w d) = answered_by (resp_frame ty (fc_cookie (w_ctrl (d_w d))) id status body) :: e ->
  let text := procfs_text ifname (str "get") (str "scan_list") in
  hgicf_iwpriv_write stk sc (text ++ rest) (zlen text) d = Fault OutOfBounds.
Proof.
  intros Hq Hv Hi Hn Hty Hz Hs Hb He text. assert (zlen text = zlen ifname + 14) as Hc.
  { unfold text, procfs_text. rewrite zlen_app, zlen_cons, zlen_app, zlen_cons. change (zlen (str "get")) with 3. change (zlen (str "scan_list")) with 9. lia. }
  pose proof (zlen_nonneg ifname). unfold text.
  rewrite iwpriv_write_command by (done || (by repeat constructor) || apply Hq || (fold text; lia)).
  fold text. unfold bind at 1. rewrite command_get. unfold fwifidx, bind, gets, lift. rewrite Hv. cbn [deref ret].
  replace (zlen text - (zlen text - zlen (str "scan_list"))) with 9 by (change (zlen (str "scan_list")) with 9; lia).
  change (u16 9) with 9. unfold ret. rewrite on_world_fail.
  rewrite (get_proc_says stk sc (fun _ => false) 0 _ _ (str "scan_list"));
    [|by split|split; [by repeat constructor|split; [done|]]; eexists; split; [reflexivity|by left]].
  rewrite (table_found _ "scan_list" (hgic_iwpriv_get_scan_list (fun _ => false) 0));
    [|apply gets_NoDup|by do 2 apply list_elem_of_further; apply list_elem_of_here].
  by rewrite (scan_list_faults _ ty id status body e) by done.
Qed.

Lemma iwpriv_scan_list_overflows_witness :
  let text := procfs_text (str "hg0") (str "get") (str "scan_list") in
  hgicf_iwpriv_write [] true (text ++ []) (zlen text) (demo_dev [answered_by (resp_frame 3 0 0 42 (replicate 42 0))]) = Fault OutOfBounds.
Proof.
  apply (iwpriv_scan_list_overflows [] true (str "hg0") [] demo_vif 3 0 42 (replicate 42 0) []);
    [apply demo_quiet|done|by repeat constructor|done..].
Defined.

(** The status file can always be read, whatever state the device is in. *)
Lemma seq_printf_total out fmt vs : ints_ok Text fmt (length vs) = true -> no_fault (seq_printf out fmt (map AInt vs)).
Proof. intros H. unfold seq_printf. destruct (format_ints fmt Text vs H) as [t ->]. by eexists. Qed.
Lemma show_queue_total {A} out fmt (q : list A) : ints_ok Text (str fmt ++ crlf) 1 = true -> no_fault (show_queue out fmt q).
Proof. intros H. unfold show_queue. destruct (negb _); [by apply (seq_printf_total out _ [_])|by eexists]. Qed.
Lemma no_fault_bind {A B} (o : outcome A) (k : A -> outcome B) : no_fault o -> (forall a, no_fault (k a)) -> no_fault (obind o k).
Proof. intros [a ->] Hk. apply Hk. Qed.

Lemma status_show_total d : no_fault (hgicf_status_show d).
Proof.
  unfold hgicf_status_show.
  apply no_fault_bind; [by apply (seq_printf_total [] _ [_; _; _; _; _; _])|intros o1].
  apply no_fault_bind; [by apply (seq_printf_total o1 _ [])|intros o2].
  apply no_fault_bind; [by apply (seq_printf_total o2 _ [_; _; _; _])|intros o3].
  apply no_fault_bind; [by apply (seq_printf_total o3 _ [_; _; _; _; _; _])|intros o4].
  do 4 (apply no_fault_bind; [by apply show_queue_total|intros ?]).
  destruct (d_vif d) as [v|]; [by apply (seq_printf_total _ _ [_; _; _])|by eexists].
Qed.

(** The table of private ioctls has six entries of 24 bytes, and is only given
    to a caller with room for it. *)
Lemma priv_table_size access_ok nonnull rq :
  iw_length rq < 6 -> priv_table access_ok nonnull rq = (0, rq).
Proof.
  intros H. unfold priv_table. change (zlen hgicf_privtab) with 6. destruct (Z.leb_spec 6 (iw_length rq)); [lia|].
  by rewrite andb_false_r.
Qed.
