(* ===== verification/AppLib.v ===== *)
(** * The application library (tools/test_app/iwpriv.c)

    The user-space half of the text interface: one function per setting, each
    of which prints a line, writes it to /proc/hgicf/iwpriv and takes the
    result, and the answer of a query, from the buffer the driver wrote back.
    The names are those of the C functions and often the same as the driver's
    handlers of the file [Iwpriv]; where both are in reach the latter are
    qualified.

    The state is the process and the device it drives: a write runs
    [hgicf_iwpriv_write] on the device with the memory of the process from the
    buffer on -- the block [malloc] gave, and the heap behind it, which the
    driver can reach.  Printing messages has no counterpart.  The functions that
    open a file of the driver by name are in the file [ProcFile], those that dump
    memory or ask for an address in the file [Dump]. *)
From Stdlib Require Import String.
From S2P Require Import Prelude Bytes CString Proto Skb FwInfo Utils Format Libc FwCtrl FwCmds Iwpriv IwprivGet Ota Device Core Entry.

(** The process: its device and the heap behind the block allocated last. *)
Record process := Process { p_dev : hgicf_wdev; p_heap : list Z }.
Definition set_p_dev (d : hgicf_wdev) (p : process) : process := Process d (p_heap p).
Definition set_p_heap (h : list Z) (p : process) : process := Process (p_dev p) h.
#[export] Instance wdev_in_process : Inside hgicf_wdev process.
Proof. by refine {| part := p_dev; put_part := set_p_dev |}; [|intros []|]. Defined.
Definition on_dev {A} (m : M hgicf_wdev A) : M process A := on_part m.

(** Sizes of the structures of hgic.h the library passes on. *)
Definition sizeof_tx_info : Z := 12.
Definition sizeof_freqinfo : Z := 38.
Definition sizeof_txq_param : Z := 8.
Definition sizeof_cca_ctl : Z := 4.
Definition sizeof_fw_info : Z := 28.
Definition sizeof_dhcp_result : Z := 24.
Definition sizeof_link_quality : Z := 44.
Definition sizeof_sta_info : Z := 12.

(** The text of a hardware state. *)
Definition hgic_hw_state (state : Z) : list Z :=
  str match state with
      | 0 => "Disconnect" | 1 => "DISABLED" | 2 => "INACTIVE" | 3 => "SCANNING" | 4 => "AUTHENTICATING"
      | 5 => "ASSOCIATING" | 6 => "ASSOCIATED" | 7 => "4WAY_HANDSHAKE" | 8 => "GROUP_HANDSHAKE" | 9 => "CONNECTED"
      | _ => "Unknown"
      end.

(** Whether there was an address, and the six bytes of [mac]. *)
Definition hgic_str2mac (mac_str : list Z) : outcome (Z * list Z) :=
  leto t := sscanf None MACSTR mac_str in
  Ret (if zlen t =? 6 then (1, map u8 t) else (0, replicate 6 0)).

(** The test for an address given as text, and the bytes of one that is not. *)
Definition mac_is_text (mac : list Z) : outcome bool :=
  leto n := strlen mac in
  if negb (n =? 17) then Ret false else
  leto c2 := mem_get mac 2 in leto c5 := mem_get mac 5 in leto c8 := mem_get mac 8 in
  leto c11 := mem_get mac 11 in leto c14 := mem_get mac 14 in
  Ret ((c2 =? 58) && (c5 =? 58) && (c8 =? 58) && (c11 =? 58) && (c14 =? 58)).
Definition MACARG (mac : list Z) : outcome (list farg) :=
  leto b := mem_read mac 0 6 in Ret (map (fun x => AInt (Z.land x 0xff)) b).

(** A line is printed into an array of [size] bytes, cleared before. *)
Definition print_cmd (size : Z) (fmt : list Z) (args : list farg) : outcome (list Z) :=
  leto r := sprintf_at (replicate (Z.to_nat size) 0) 0 fmt args in Ret (snd r).

(** The loop that prints numbers with commas between them from [off] on. *)
Fixpoint print_ints (buf : list Z) (off : Z) (first : bool) (vals : list Z) : outcome (list Z) :=
  match vals with
  | [] => Ret buf
  | val :: vals =>
      leto r := sprintf_at buf off (str (if first then "%d" else ",%d")) [AInt val] in
      print_ints (snd r) (off + fst r) false vals
  end.

(** "a.b.c.d" for an address in network order. *)
Definition inet_ntoa (ipaddr : Z) : outcome (list Z) :=
  let byte n := AInt (Z.land (Z.shiftr (u32 ipaddr) n) 0xff) in
  format Text (str "%d.%d.%d.%d") [byte 0; byte 8; byte 16; byte 24].

Definition HCI_OPCODE (ogf ocf : Z) : Z := Z.lor ocf (Z.shiftl ogf 10).

Section AppLib.
(** What the driver's handlers depend on: stack bytes and the signedness of
    [char].  [rootdir] is the name the driver created its directory under. *)
Context (stk : list Z) (signed_char : bool) (rootdir : list Z).
(** The global variables [HGIC] and [blenc_mode]; what an uninitialised array
    holds; [malloc], which gives the usable bytes of a block, at least as many as
    asked for, or nothing. *)
Context (HGIC : list Z) (blenc_mode : Z) (stack : list Z) (malloc : Z -> option (list Z)).

Definition array (n : Z) : list Z := resize (Z.to_nat n) 0 stack.
Definition block (n : Z) : option (list Z) := if n <? 0 then None else malloc n.

(** The result of [write] and the buffer afterwards. *)
Definition hgic_iwpriv_write (buff : list Z) (len : Z) : M process (Z * list Z) :=
  if len <=? 0 then ret (0, buff) else
  let! file := lift (print_cmd 32 (str "/proc/%s/iwpriv") [AMem HGIC]) in
  let! path := lift (cstr file) in
  if bool_decide (path = str "/proc/" ++ rootdir ++ str "/iwpriv") then
    let! heap := gets p_heap in
    let! r := on_dev (hgicf_iwpriv_write stk signed_char (buff ++ heap) len) in
    let '(n, mem) := r in
    modify (set_p_heap (zdrop (zlen buff) mem)) ;;;
    ret (if n <? 0 then -1 else n, ztake (zlen buff) mem)
  else ret (0, buff).

(** [in_] and [out] may be NULL; the second result is [out] afterwards. *)
Definition hgic_iwpriv_do (cmd : list Z) (in_ : option (list Z)) (in_len : Z) (out : option (list Z)) (out_len : Z)
  : M process (Z * option (list Z)) :=
  let! n := lift (strlen cmd) in
  let len := s32 (n + Z.max in_len out_len) in
  match block len with
  | None => ret (-1, out)
  | Some buff =>
      let! buff := lift (mem_write buff 0 (replicate (Z.to_nat len) 0)) in
      let! s := lift (cstr cmd) in
      let! buff := lift (mem_write buff 0 (s ++ [0])) in
      let! buff := (match in_ with
                    | Some in_ =>
                        if negb (in_len =? 0) then
                          let! bs := lift (mem_read in_ 0 in_len) in lift (mem_write buff n bs)
                        else ret buff
                    | None => ret buff
                    end) in
      let! r := hgic_iwpriv_write buff len in
      let '(ret_, buff) := r in
      if 0 <? ret_ then
        let! w := lift (get_unaligned_le32 buff) in
        let ret_ := s32 w in
        match out with
        | Some o =>
            if (0 <? ret_) && negb (out_len =? 0) then
              let len := if ret_ <=? out_len - 1 then ret_ else out_len - 1 in
              let! bs := lift (mem_read buff 4 len) in
              let! o := lift (mem_write o 0 bs) in
              let! o := lift (mem_write o len [0]) in
              ret (ret_, Some o)
            else ret (ret_, out)
        | None => ret (ret_, out)
        end
      else ret (ret_, out)
  end.

Definition do_cmd (cmd : list Z) : M process Z :=
  let! r := hgic_iwpriv_do cmd None 0 None 0 in ret (fst r).

Definition hgic_iwpriv_set_int (ifname name : list Z) (val : Z) : M process Z :=
  let! cmd := lift (print_cmd 64 (str "%s set %s=%d") [AMem ifname; AMem name; AInt val]) in
  do_cmd cmd.

Definition hgic_iwpriv_set_mac (ifname name mac : list Z) : M process Z :=
  let! text := lift (mac_is_text mac) in
  let! cmd := (if text : bool then lift (print_cmd 64 (str "%s set %s=%s") [AMem ifname; AMem name; AMem mac])
               else let! m := lift (MACARG mac) in
                    lift (print_cmd 64 (str "%s set %s=" ++ MACSTR) (AMem ifname :: AMem name :: m))) in
  do_cmd cmd.

(** The variable arguments are a list. *)
Definition hgic_iwpriv_set_ints (ifname name : list Z) (vals : list Z) : M process Z :=
  let! r := lift (sprintf_at (replicate 256 0) 0 (str "%s set %s=") [AMem ifname; AMem name]) in
  let! cmd := lift (print_ints (snd r) (fst r) true vals) in
  do_cmd cmd.

Definition hgic_iwpriv_set_intarray (ifname name : list Z) (vals : list Z) (cnt : Z) : M process Z :=
  let! r := lift (sprintf_at (replicate 512 0) 0 (str "%s set %s=") [AMem ifname; AMem name]) in
  let! _ := lift (oguard (cnt <=? zlen vals) OutOfBounds) in
  let! cmd := lift (print_ints (snd r) (fst r) true (ztake cnt vals)) in
  do_cmd cmd.

Definition hgic_iwpriv_set_bytes (ifname name data : list Z) (len : Z) : M process Z :=
  let! cmd := lift (print_cmd 128 (str "%s set %s=") [AMem ifname; AMem name]) in
  let! r := hgic_iwpriv_do cmd (Some data) len None 0 in ret (fst r).

(** A query whose answer replaces the line. *)
Definition ask (cmd : list Z) (size : Z) : M process (Z * list Z) :=
  let! r := hgic_iwpriv_do cmd None 0 (Some cmd) size in ret (fst r, default cmd (snd r)).
(** A query whose answer goes to a buffer of the caller. *)
Definition ask_to (cmd buff : list Z) (count : Z) : M process (Z * list Z) :=
  let! r := hgic_iwpriv_do cmd None 0 (Some buff) count in ret (fst r, default buff (snd r)).

Definition hgic_iwpriv_get_int (ifname name : list Z) : M process Z :=
  let! cmd := lift (print_cmd 128 (str "%s get %s") [AMem ifname; AMem name]) in
  let! r := ask cmd 128 in
  lift (atoi (snd r)).

Definition hgic_iwpriv_get_bytes (ifname name buff : list Z) (count : Z) : M process (Z * list Z) :=
  let! cmd := lift (print_cmd 128 (str "%s get %s") [AMem ifname; AMem name]) in
  ask_to cmd buff count.

Definition hgic_iwpriv_get_mac (ifname name : list Z) : M process (Z * list Z) :=
  let! cmd := lift (print_cmd 128 (str "%s get %s") [AMem ifname; AMem name]) in
  let! r := ask cmd 128 in
  if 0 <? fst r then let! m := lift (hgic_str2mac (snd r)) in ret (fst r, snd m)
  else ret (fst r, replicate 6 0).

(** ** One function per setting *)
(** [memcpy(dst + off, src, len)] *)
Definition copy_in (dst : list Z) (off : Z) (src : list Z) (len : Z) : M process (list Z) :=
  let! bs := lift (mem_read src 0 len) in lift (mem_write dst off bs).

(** A text printed into an array of [size] bytes is the value of blenc. *)
Definition print_blenc (ifname : list Z) (size : Z) (fmt : list Z) (args : list farg) : M process Z :=
  let! r := lift (sprintf_at (array size) 0 fmt args) in
  let! n := lift (strlen (snd r)) in
  hgic_iwpriv_set_bytes ifname (lit "blenc") (snd r) n.

(** A prefix, copied with its terminator, and data. *)
Definition send_blenc (ifname prefix data : list Z) (len : Z) : M process Z :=
  match block (s32 (zlen prefix + len)) with
  | None => ret (-1)
  | Some buff =>
      let! buff := lift (mem_write buff 0 (prefix ++ [0])) in
      let! buff := copy_in buff (zlen prefix) data len in
      hgic_iwpriv_set_bytes ifname (lit "blenc") buff (zlen prefix + len)
  end.

Definition hgic_iwpriv_open_dev (ifname : list Z) : M process Z :=
  let! cmd := lift (print_cmd 32 (str "%s open") [AMem ifname]) in do_cmd cmd.
Definition hgic_iwpriv_close_dev (ifname : list Z) : M process Z :=
  let! cmd := lift (print_cmd 32 (str "%s close") [AMem ifname]) in do_cmd cmd.
Definition hgic_iwpriv_set_ssid (ifname ssid : list Z) : M process Z :=
  let! n := lift (strlen ssid) in hgic_iwpriv_set_bytes ifname (lit "ssid") ssid n.
Definition hgic_iwpriv_set_bssid (ifname bssid : list Z) : M process Z :=
  hgic_iwpriv_set_mac ifname (lit "bssid") bssid.
Definition hgic_iwpriv_set_channel (ifname : list Z) (channel : Z) : M process Z :=
  hgic_iwpriv_set_int ifname (lit "channel") channel.
Definition hgic_iwpriv_set_keymgmt (ifname key_mgmt : list Z) : M process Z :=
  let! n := lift (strlen key_mgmt) in hgic_iwpriv_set_bytes ifname (lit "key_mgmt") key_mgmt n.
Definition hgic_iwpriv_set_wpapsk (ifname wpa_psk : list Z) : M process Z :=
  let! n := lift (strlen wpa_psk) in hgic_iwpriv_set_bytes ifname (lit "wpa_psk") wpa_psk n.
Definition hgic_iwpriv_set_freqrange (ifname : list Z) (freq_start freq_end bw : Z) : M process Z :=
  hgic_iwpriv_set_ints ifname (lit "freq_range") [freq_start; freq_end; bw].
Definition hgic_iwpriv_set_bss_bw (ifname : list Z) (bss_bw : Z) : M process Z :=
  hgic_iwpriv_set_int ifname (lit "bss_bw") bss_bw.
Definition hgic_iwpriv_set_tx_bw (ifname : list Z) (tx_bw : Z) : M process Z :=
  hgic_iwpriv_set_int ifname (lit "tx_bw") tx_bw.
Definition hgic_iwpriv_set_tx_mcs (ifname : list Z) (tx_mcs : Z) : M process Z :=
  hgic_iwpriv_set_int ifname (lit "tx_mcs") tx_mcs.
Definition hgic_iwpriv_set_max_txcnt (ifname : list Z) (max_txcnt : Z) : M process Z :=
  hgic_iwpriv_set_int ifname (lit "max_txcnt") max_txcnt.
Definition hgic_iwpriv_set_acs (ifname : list Z) (start tmo : Z) : M process Z :=
  hgic_iwpriv_set_ints ifname (lit "acs") [start; tmo].
Definition hgic_iwpriv_set_chan_list (ifname chan_list : list Z) (chan_count : Z) : M process Z :=
  hgic_iwpriv_set_intarray ifname (lit "chan_list") chan_list chan_count.
Definition hgic_iwpriv_set_mode (ifname mode : list Z) : M process Z :=
  let! n := lift (strlen mode) in hgic_iwpriv_set_bytes ifname (lit "mode") mode n.
Definition hgic_iwpriv_set_paired_stas (ifname paired_stas : list Z) : M process Z :=
  let! n := lift (strlen paired_stas) in hgic_iwpriv_set_bytes ifname (lit "paired_stas") paired_stas n.
Definition hgic_iwpriv_set_pairing (ifname : list Z) (pair_number : Z) : M process Z :=
  hgic_iwpriv_set_int ifname (lit "pairing") pair_number.
Definition hgic_iwpriv_set_beacon_int (ifname : list Z) (beacon_int : Z) : M process Z :=
  hgic_iwpriv_set_int ifname (lit "beacon_int") beacon_int.
Definition hgic_iwpriv_set_radio_onoff (ifname : list Z) (off : Z) : M process Z :=
  hgic_iwpriv_set_int ifname (lit "radio_onoff") off.
Definition hgic_iwpriv_set_join_group (ifname mcast_addr : list Z) (aid : Z) : M process Z :=
  let! m := lift (MACARG mcast_addr) in
  let! cmd := lift (print_cmd 64 (str "%s set join_group=" ++ MACSTR ++ str ",%d") ((AMem ifname :: m) ++ [AInt aid])) in
  do_cmd cmd.
Definition hgic_iwpriv_set_txpower (ifname : list Z) (txpower : Z) : M process Z :=
  hgic_iwpriv_set_int ifname (lit "txpower") txpower.
Definition hgic_iwpriv_set_ps_connect (ifname : list Z) (period roundup : Z) : M process Z :=
  hgic_iwpriv_set_ints ifname (lit "ps_connect") [period; roundup].
Definition hgic_iwpriv_set_bss_max_idle (ifname : list Z) (bss_max_idle : Z) : M process Z :=
  hgic_iwpriv_set_int ifname (lit "bss_max_idle") bss_max_idle.
Definition hgic_iwpriv_set_wkio_mode (ifname : list Z) (wkio_mode : Z) : M process Z :=
  hgic_iwpriv_set_int ifname (lit "wkio_mode") wkio_mode.
Definition hgic_iwpriv_set_dtim_period (ifname : list Z) (dtim_period : Z) : M process Z :=
  hgic_iwpriv_set_int ifname (lit "dtim_period") dtim_period.
Definition hgic_iwpriv_set_ps_mode (ifname : list Z) (ps_mode : Z) : M process Z :=
  hgic_iwpriv_set_int ifname (lit "ps_mode") ps_mode.
Definition hgic_iwpriv_set_aplost_time (ifname : list Z) (aplost_time : Z) : M process Z :=
  hgic_iwpriv_set_int ifname (lit "aplost_time") aplost_time.
Definition hgic_iwpriv_unpair (ifname mac : list Z) : M process Z :=
  hgic_iwpriv_set_mac ifname (lit "unpair") mac.
Definition hgic_iwpriv_scan (ifname : list Z) (scan_cmd : Z) : M process Z :=
  let! cmd := lift (print_cmd 32 (str "%s scan=%d") [AMem ifname; AInt scan_cmd]) in do_cmd cmd.
Definition hgic_iwpriv_save (ifname : list Z) : M process Z :=
  let! cmd := lift (print_cmd 32 (str "%s save") [AMem ifname]) in do_cmd cmd.
Definition hgic_iwpriv_set_auto_chswitch (ifname : list Z) (enable : Z) : M process Z :=
  hgic_iwpriv_set_int ifname (lit "auto_chswitch") enable.
Definition hgic_iwpriv_set_mcast_key (ifname mcast_key : list Z) : M process Z :=
  let! n := lift (strlen mcast_key) in hgic_iwpriv_set_bytes ifname (lit "mcast_key") mcast_key n.
Definition hgic_iwpriv_set_reassoc_wkhost (ifname : list Z) (enable : Z) : M process Z :=
  hgic_iwpriv_set_int ifname (lit "reassoc_wkhost") enable.
Definition hgic_iwpriv_set_wakeup_io (ifname : list Z) (wakeup_io edge : Z) : M process Z :=
  hgic_iwpriv_set_ints ifname (lit "wakeup_io") [wakeup_io; edge].
Definition hgic_iwpriv_set_dbginfo (ifname : list Z) (enable : Z) : M process Z :=
  hgic_iwpriv_set_int ifname (lit "dbginfo") enable.
Definition hgic_iwpriv_set_sysdbg (ifname sysdbg : list Z) : M process Z :=
  let! n := lift (strlen sysdbg) in hgic_iwpriv_set_bytes ifname (lit "sysdbg") sysdbg n.
Definition hgic_iwpriv_set_primary_chan (ifname : list Z) (primary_chan : Z) : M process Z :=
  hgic_iwpriv_set_int ifname (lit "primary_chan") primary_chan.
Definition hgic_iwpriv_set_autosleep_time (ifname : list Z) (autosleep_time : Z) : M process Z :=
  hgic_iwpriv_set_int ifname (lit "autosleep_time") autosleep_time.
Definition hgic_iwpriv_set_super_pwr (ifname : list Z) (enable : Z) : M process Z :=
  hgic_iwpriv_set_int ifname (lit "super_pwr") enable.
Definition hgic_iwpriv_set_repeater_ssid (ifname r_ssid : list Z) : M process Z :=
  let! n := lift (strlen r_ssid) in hgic_iwpriv_set_bytes ifname (lit "r_ssid") r_ssid n.
Definition hgic_iwpriv_set_repeater_psk (ifname r_psk : list Z) : M process Z :=
  let! n := lift (strlen r_psk) in hgic_iwpriv_set_bytes ifname (lit "r_psk") r_psk n.
Definition hgic_iwpriv_set_auto_save (ifname : list Z) (enable : Z) : M process Z :=
  hgic_iwpriv_set_int ifname (lit "auto_save") enable.
Definition hgic_iwpriv_set_pair_autostop (ifname : list Z) (enable : Z) : M process Z :=
  hgic_iwpriv_set_int ifname (lit "pair_autostop") enable.
Definition hgic_iwpriv_set_dcdc13 (ifname : list Z) (enable : Z) : M process Z :=
  hgic_iwpriv_set_int ifname (lit "dcdc13") enable.
Definition hgic_iwpriv_set_acktmo (ifname : list Z) (acktmo : Z) : M process Z :=
  hgic_iwpriv_set_int ifname (lit "acktmo") acktmo.
Definition hgic_iwpriv_get_sta_list (ifname sta_buf : list Z) (buf_size : Z) : M process (Z * list Z) :=
  hgic_iwpriv_get_bytes ifname (lit "sta_list=1") sta_buf buf_size.
Definition hgic_iwpriv_get_scan_list (ifname buff : list Z) (size : Z) : M process (Z * list Z) :=
  hgic_iwpriv_get_bytes ifname (lit "scan_list") buff size.
Definition hgic_iwpriv_get_ssid (ifname buff : list Z) (size : Z) : M process (Z * list Z) :=
  hgic_iwpriv_get_bytes ifname (lit "ssid") buff size.
Definition hgic_iwpriv_get_bssid (ifname mac : list Z) : M process (Z * list Z) :=
  let! r := hgic_iwpriv_get_bytes ifname (lit "bssid") (array 32) 32 in
  if 0 <? fst r then
    let! tmp := lift (sscanf None (MACSTR ++ str ",%d") (snd r)) in
    match tmp with
    | [b0; b1; b2; b3; b4; b5; aid] =>
        let! mac := lift (mem_write mac 0 (map u8 [b0; b1; b2; b3; b4; b5])) in ret (aid, mac)
    | _ => ret (-1, mac)
    end
  else ret (-1, mac).
Definition hgic_iwpriv_get_wpa_psk (ifname buff : list Z) (size : Z) : M process (Z * list Z) :=
  hgic_iwpriv_get_bytes ifname (lit "wpa_psk") buff size.
Definition hgic_iwpriv_get_txpower (ifname : list Z) : M process Z :=
  hgic_iwpriv_get_int ifname (lit "txpower").
Definition hgic_iwpriv_get_aggcnt (ifname : list Z) (tx_agg rx_agg : Z) : M process (Z * (Z * Z)) :=
  let! r := hgic_iwpriv_get_bytes ifname (lit "agg_cnt") (array 32) 32 in
  if 0 <? fst r then
    let! v := lift (sscanf None (str "tx:%d,rx:%d") (snd r)) in
    ret (0, (nth 0 v tx_agg, nth 1 v rx_agg))
  else ret (-1, (tx_agg, rx_agg)).
Definition hgic_iwpriv_set_aggcnt (ifname : list Z) (tx_agg rx_agg : Z) : M process Z :=
  hgic_iwpriv_set_ints ifname (lit "agg_cnt") [tx_agg; rx_agg].
Definition hgic_iwpriv_set_load_def (ifname : list Z) (reboot : Z) : M process Z :=
  hgic_iwpriv_set_int ifname (lit "loaddef") reboot.
Definition hgic_iwpriv_set_dbginfo_output (ifname : list Z) (enable : Z) : M process Z :=
  hgic_iwpriv_set_int ifname (lit "dbginfo") enable.
Definition hgic_iwpriv_get_bss_bw (ifname : list Z) : M process Z :=
  hgic_iwpriv_get_int ifname (lit "bss_bw").
Definition hgic_iwpriv_get_chan_list (ifname buff : list Z) (size : Z) : M process (Z * list Z) :=
  hgic_iwpriv_get_bytes ifname (lit "chan_list") buff size.
Definition hgic_iwpriv_get_freq_range (ifname buff : list Z) (size : Z) : M process (Z * list Z) :=
  hgic_iwpriv_get_bytes ifname (lit "freq_range") buff size.
Definition hgic_iwpriv_get_txq_param (ifname buff : list Z) (size : Z) : M process (Z * list Z) :=
  hgic_iwpriv_get_bytes ifname (lit "txq_param") buff size.
Definition hgic_iwpriv_get_key_mgmt (ifname buff : list Z) (size : Z) : M process (Z * list Z) :=
  hgic_iwpriv_get_bytes ifname (lit "key_mgmt") buff size.
Definition hgic_iwpriv_get_battery_level (ifname : list Z) : M process Z :=
  hgic_iwpriv_get_int ifname (lit "battery_level").
Definition hgic_iwpriv_get_module_type (ifname : list Z) : M process Z :=
  hgic_iwpriv_get_int ifname (lit "module_type").
Definition hgic_iwpriv_set_pa_pwrctrl_dis (ifname : list Z) (disable : Z) : M process Z :=
  hgic_iwpriv_set_int ifname (lit "pa_pwrctl_dis") disable.
Definition hgic_iwpriv_set_dhcpc (ifname : list Z) (enable : Z) : M process Z :=
  hgic_iwpriv_set_int ifname (lit "dhcpc") enable.
Definition hgic_iwpriv_get_disassoc_reason (ifname : list Z) : M process Z :=
  hgic_iwpriv_get_int ifname (lit "disassoc_reason").
Definition hgic_iwpriv_set_wkdata_save (ifname : list Z) (enable : Z) : M process Z :=
  hgic_iwpriv_set_int ifname (lit "wkdata_save") enable.
Definition hgic_iwpriv_set_mcast_txparam (ifname : list Z) (dupcnt tx_bw tx_mcs clearch : Z) : M process Z :=
  hgic_iwpriv_set_ints ifname (lit "mcast_txparam") [dupcnt; tx_bw; tx_mcs; clearch].
Definition hgic_iwpriv_reset_sta (ifname mac_addr : list Z) : M process Z :=
  hgic_iwpriv_set_mac ifname (lit "reset_sta") mac_addr.
Definition hgic_iwpriv_set_ant_sel (ifname : list Z) (ant : Z) : M process Z :=
  hgic_iwpriv_set_int ifname (lit "ant_sel") ant.
Definition hgic_iwpriv_get_ant_sel (ifname : list Z) : M process Z :=
  hgic_iwpriv_get_int ifname (lit "ant_sel").
Definition hgic_iwpriv_set_macfilter (ifname : list Z) (enable : Z) : M process Z :=
  hgic_iwpriv_set_int ifname (lit "macfilter") enable.
Definition hgic_iwpriv_send_atcmd (ifname atcmd : list Z) : M process Z :=
  let! n := lift (strlen atcmd) in hgic_iwpriv_set_bytes ifname (lit "atcmd") atcmd n.
Definition hgic_iwpriv_set_roaming (ifname : list Z) (enable same_freq threshold rssi_diff rssi_interval : Z) : M process Z :=
  hgic_iwpriv_set_ints ifname (lit "roaming") [enable; same_freq; threshold; rssi_diff; rssi_interval].
Definition hgic_iwpriv_get_conn_state (ifname : list Z) : M process Z :=
  hgic_iwpriv_get_int ifname (lit "conn_state").
Definition hgic_iwpriv_get_wkreason (ifname : list Z) : M process Z :=
  hgic_iwpriv_get_int ifname (lit "wkreason").
Definition hgic_iwpriv_set_rts_threshold (ifname : list Z) (rts_threshold : Z) : M process Z :=
  hgic_iwpriv_set_int ifname (lit "rts_threshold") rts_threshold.
Definition hgic_iwpriv_set_frag_threshold (ifname : list Z) (frag_threshold : Z) : M process Z :=
  hgic_iwpriv_set_int ifname (lit "frag_threshold") frag_threshold.
Definition hgic_iwpriv_set_heartbeat (ifname : list Z) (ipaddr port period timeout : Z) : M process Z :=
  let! ip := lift (inet_ntoa ipaddr) in
  let! r := lift (sprintf_at (array 64) 0 (str "%s,%d,%d,%d") [AMem (ip ++ [0]); AInt port; AInt period; AInt timeout]) in
  let! n := lift (strlen (snd r)) in
  hgic_iwpriv_set_bytes ifname (lit "heartbeat") (snd r) n.
Definition hgic_iwpriv_set_heartbeat_resp_data (ifname resp_data : list Z) (len : Z) : M process Z :=
  hgic_iwpriv_set_bytes ifname (lit "heartbeat_resp") resp_data len.
Definition hgic_iwpriv_set_wakeup_data (ifname wakeup_data : list Z) (len : Z) : M process Z :=
  hgic_iwpriv_set_bytes ifname (lit "wakeup_data") wakeup_data len.
Definition hgic_iwpriv_wakeup_sta (ifname addr : list Z) : M process Z :=
  hgic_iwpriv_set_mac ifname (lit "wakeup") addr.
Definition hgic_iwpriv_sleep (ifname : list Z) (sleep_type sleep_ms : Z) : M process Z :=
  hgic_iwpriv_set_ints ifname (lit "sleep") [sleep_type; sleep_ms].
Definition hgic_iwpriv_send_custmgmt (ifname dest txinfo data : list Z) (len : Z) : M process Z :=
  match block (s32 (len + sizeof_tx_info + 6)) with
  | None => ret (-1)
  | Some buf =>
      let! buf := copy_in buf 0 dest 6 in
      let! buf := copy_in buf 6 txinfo sizeof_tx_info in
      let! buf := copy_in buf (6 + sizeof_tx_info) data len in
      hgic_iwpriv_set_bytes ifname (lit "custmgmt") buf (len + 6 + sizeof_tx_info)
  end.
Definition hgic_iwpriv_send_mgmtframe (ifname txinfo mgmt : list Z) (len : Z) : M process Z :=
  match block (s32 (len + sizeof_tx_info)) with
  | None => ret (-1)
  | Some buf =>
      let! buf := copy_in buf 0 txinfo sizeof_tx_info in
      let! buf := copy_in buf sizeof_tx_info mgmt len in
      hgic_iwpriv_set_bytes ifname (lit "mgmtframe") buf (len + sizeof_tx_info)
  end.
Definition hgic_proc_set_wkdata_mask (ifname : list Z) (offset : Z) (mask : list Z) (mask_len : Z) : M process Z :=
  let mask_len := if 16 <? mask_len then 16 else mask_len in
  let! buff := lift (mem_write (array 128) 0 (put_unaligned_le16 offset)) in
  let! buff := copy_in buff 2 mask mask_len in
  hgic_iwpriv_set_bytes ifname (lit "wkdata_mask") buff (mask_len + 2).
Definition hgic_iwpriv_set_cust_driverdata (ifname buff : list Z) (len : Z) : M process Z :=
  if 1500 <? len then ret (-1) else
  hgic_iwpriv_set_bytes ifname (lit "driverdata") buff len.
Definition hgic_iwpriv_set_stafreqinfo (ifname : list Z) (sta_addr : option (list Z)) (freqinfo : list Z) : M process Z :=
  match block (6 + sizeof_freqinfo) with
  | None => ret (-1)
  | Some buff =>
      let! buff := lift (mem_write buff 0 (replicate (Z.to_nat (6 + sizeof_freqinfo)) 0)) in
      let! buff := (match sta_addr with Some a => copy_in buff 0 a 6 | None => ret buff end) in
      let! buff := copy_in buff 6 freqinfo sizeof_freqinfo in
      hgic_iwpriv_set_bytes ifname (lit "freqinfo") buff (6 + sizeof_freqinfo)
  end.
Definition hgic_iwpriv_blenc_start (ifname : list Z) (start channel : Z) : M process Z :=
  print_blenc ifname 8 (str "EN:%d,%d") [AInt start; AInt channel].
Definition hgic_iwpriv_send_blenc_data (ifname data : list Z) (len : Z) : M process Z :=
  send_blenc ifname (str "DATA:") data len.
Definition hgic_iwpriv_blenc_send_hcidata (ifname : list Z) (type : Z) (data : list Z) (len : Z) : M process Z :=
  match block (s32 (10 + len)) with
  | None => ret (-1)
  | Some buff =>
      let! buff := lift (mem_write buff 0 (str "HCI_DATA:" ++ [0])) in
      let! buff := lift (mem_write buff 9 [u8 type]) in
      let! buff := copy_in buff 10 data len in
      hgic_iwpriv_set_bytes ifname (lit "blenc") buff (10 + len)
  end.

(** A command of the host controller interface, in mode 3. *)
Definition send_hci_cmd (ifname : list Z) (opcode : Z) (data : list Z) (len : Z) : M process Z :=
  match block (s32 (3 + len)) with
  | None => ret (- ENOMEM)
  | Some cmd =>
      let! cmd := lift (mem_write cmd 0 (put_unaligned_le16 opcode ++ [u8 len])) in
      let! cmd := copy_in cmd 3 data len in
      hgic_iwpriv_blenc_send_hcidata ifname 1 cmd (3 + len)
  end.
Definition hgic_iwpriv_blenc_set_advdata (ifname adv_data : list Z) (len : Z) : M process Z :=
  if blenc_mode =? 3 then send_hci_cmd ifname (HCI_OPCODE 0x08 0x08) adv_data len
  else send_blenc ifname (str "ADV_DATA:") adv_data len.
Definition hgic_iwpriv_blenc_set_scanresp (ifname scan_resp : list Z) (len : Z) : M process Z :=
  if blenc_mode =? 3 then send_hci_cmd ifname (HCI_OPCODE 0x08 0x09) scan_resp len
  else send_blenc ifname (str "SCAN_RESP:") scan_resp len.
Definition hgic_iwpriv_blenc_set_devaddr (ifname addr : list Z) : M process Z :=
  if blenc_mode =? 3 then send_hci_cmd ifname (HCI_OPCODE 0x08 0x05) addr 6
  else
    let! s := lift (mem_write (array 16) 0 (str "DEV_ADDR:" ++ [0])) in
    let! s := copy_in s 9 addr 6 in
    hgic_iwpriv_set_bytes ifname (lit "blenc") s 15.
Definition hgic_iwpriv_blenc_set_adv_interval (ifname : list Z) (interval : Z) : M process Z :=
  if blenc_mode =? 3 then ret 0 else print_blenc ifname 16 (str "ADV_INT:%d") [AInt interval].
Definition hgic_iwpriv_blenc_set_adv_filter (ifname : list Z) (filter : Z) : M process Z :=
  if blenc_mode =? 3 then ret 0 else print_blenc ifname 16 (str "ADV_FILTER:%d") [AInt filter].
Definition hgic_iwpriv_blenc_start_adv (ifname : list Z) (start : Z) : M process Z :=
  if blenc_mode =? 3 then send_hci_cmd ifname (HCI_OPCODE 0x08 0x0A) [u8 start] 1
  else print_blenc ifname 16 (str "ADV_EN:%d") [AInt start].
Definition hgic_iwpriv_blenc_send_gatt_data (ifname att_data : list Z) (len : Z) : M process Z :=
  match block (s32 (8 + len)) with
  | None => ret (- ENOMEM)
  | Some data =>
      let! data := lift (mem_write data 0 (put_unaligned_le16 1 ++ put_unaligned_le16 (len + 4) ++
                                           put_unaligned_le16 len ++ put_unaligned_le16 4)) in
      let! data := copy_in data 8 att_data len in
      hgic_iwpriv_blenc_send_hcidata ifname 2 data (8 + len)
  end.
Definition hgic_iwpriv_set_hwscan (ifname : list Z) (period chan_tmo chan_bitmap max_cnt : Z) : M process Z :=
  hgic_iwpriv_set_ints ifname (lit "hwscan") [period; chan_tmo; chan_bitmap; max_cnt].
Definition hgic_iwpriv_set_user_edca (ifname : list Z) (ac : Z) (txq : list Z) : M process Z :=
  let! buf := lift (mem_write (array 32) 0 [u8 ac]) in
  let! buf := copy_in buf 1 txq sizeof_txq_param in
  hgic_iwpriv_set_bytes ifname (lit "user_edca") buf (1 + sizeof_txq_param).
Definition hgic_iwpriv_set_fix_txrate (ifname : list Z) (txrate : Z) : M process Z :=
  hgic_iwpriv_set_int ifname (lit "fix_txrate") txrate.
Definition hgic_iwpriv_set_nav_max (ifname : list Z) (nav_max : Z) : M process Z :=
  hgic_iwpriv_set_int ifname (lit "nav_max") nav_max.
Definition hgic_iwpriv_clear_nav (ifname : list Z) : M process Z :=
  hgic_iwpriv_set_int ifname (lit "clr_nav") 0.
Definition hgic_iwpriv_set_cca_param (ifname cca : list Z) : M process Z :=
  hgic_iwpriv_set_bytes ifname (lit "cca_param") cca sizeof_cca_ctl.
Definition hgic_iwpriv_set_tx_modulation_gain (ifname gain_table : list Z) (size : Z) : M process Z :=
  hgic_iwpriv_set_bytes ifname (lit "tx_modgain") gain_table size.
Definition hgic_iwpriv_get_nav (ifname : list Z) : M process Z :=
  hgic_iwpriv_get_int ifname (lit "nav").
Definition hgic_iwpriv_get_bgrssi (ifname : list Z) (channel : Z) (bgrssi : list Z) : M process (Z * list Z) :=
  let! cmd := lift (print_cmd 32 (str "%s get bgrssi=%d") [AMem ifname; AInt channel]) in
  let! r := ask cmd 32 in
  let! v := lift (sscanf None (str "%d,%d,%d") (snd r)) in
  let! bgrssi := lift (mem_write bgrssi 0 v) in
  ret (if zlen v =? 3 then 0 else -1, bgrssi).
Definition hgic_iwpriv_reset (ifname : list Z) : M process Z :=
  hgic_iwpriv_set_int ifname (lit "reset") 0.
Definition hgic_iwpriv_set_rts_duration (ifname : list Z) (duration_us : Z) : M process Z :=
  hgic_iwpriv_set_int ifname (lit "rts_duration") duration_us.
Definition hgic_iwpriv_set_disable_print (ifname : list Z) (disable : Z) : M process Z :=
  hgic_iwpriv_set_int ifname (lit "disable_print") disable.
Definition hgic_iwpriv_set_conn_paironly (ifname : list Z) (en : Z) : M process Z :=
  hgic_iwpriv_set_int ifname (lit "conn_paironly") en.
Definition hgic_iwpriv_get_center_freq (ifname : list Z) : M process Z :=
  hgic_iwpriv_get_int ifname (lit "center_freq").
Definition hgic_iwpriv_set_wait_psmode (ifname : list Z) (mode : Z) : M process Z :=
  hgic_iwpriv_set_int ifname (lit "wait_psmode") mode.
Definition hgic_iwpriv_set_diffcust_conn (ifname : list Z) (en : Z) : M process Z :=
  hgic_iwpriv_set_int ifname (lit "diffcust_conn") en.
Definition hgic_iwpriv_set_standby (ifname : list Z) (channel sleep_period : Z) : M process Z :=
  hgic_iwpriv_set_ints ifname (lit "standby") [channel; sleep_period].
Definition hgic_iwpriv_set_ap_chan_switch (ifname : list Z) (channel counter : Z) : M process Z :=
  hgic_iwpriv_set_ints ifname (lit "ap_chansw") [channel; counter].
Definition hgic_iwpriv_set_cca_for_ce (ifname : list Z) (enable : Z) : M process Z :=
  hgic_iwpriv_set_int ifname (lit "cca_ce") enable.
Definition hgic_iwpriv_set_rtc (ifname : list Z) (rtc : Z) : M process Z :=
  hgic_iwpriv_set_int ifname (lit "rtc") rtc.
Definition hgic_iwpriv_get_rtc (ifname : list Z) : M process Z :=
  hgic_iwpriv_get_int ifname (lit "rtc").
Definition hgic_iwpriv_set_apep_padding (ifname : list Z) (enable : Z) : M process Z :=
  hgic_iwpriv_set_int ifname (lit "apep_padding") enable.
Definition hgic_iwpriv_get_acs_result (ifname buff : list Z) (len : Z) : M process (Z * list Z) :=
  hgic_iwpriv_get_bytes ifname (lit "acs_result") buff len.
Definition hgic_iwpriv_get_reason_code (ifname : list Z) : M process Z :=
  hgic_iwpriv_get_int ifname (lit "reason_code").
Definition hgic_iwpriv_get_status_code (ifname : list Z) : M process Z :=
  hgic_iwpriv_get_int ifname (lit "status_code").
Definition hgic_iwpriv_set_watchdog (ifname : list Z) (enable : Z) : M process Z :=
  hgic_iwpriv_set_int ifname (lit "watchdog") enable.
Definition hgic_iwpriv_set_retry_fallback_cnt (ifname : list Z) (count : Z) : M process Z :=
  hgic_iwpriv_set_int ifname (lit "retry_fallback_cnt") count.
Definition hgic_iwpriv_set_fallback_mcs (ifname : list Z) (original_type original_mcs fallback_type fallback_mcs : Z) : M process Z :=
  hgic_iwpriv_set_ints ifname (lit "fallback_mcs") [original_type; original_mcs; fallback_type; fallback_mcs].
Definition hgic_iwpriv_get_xosc (ifname : list Z) : M process Z :=
  hgic_iwpriv_get_int ifname (lit "xosc").
Definition hgic_iwpriv_get_freq_offset (ifname : list Z) (mac_addr : option (list Z)) : M process Z :=
  let! cmd := (match mac_addr with
               | Some mac =>
                   let! text := lift (mac_is_text mac) in
                   if text : bool then lift (print_cmd 128 (str "%s get freq_offset=%s") [AMem ifname; AMem mac])
                   else let! m := lift (MACARG mac) in
                        lift (print_cmd 128 (str "%s get freq_offset=" ++ MACSTR) (AMem ifname :: m))
               | None => lift (print_cmd 128 (str "%s get freq_offset=00:00:00:00:00:00") [AMem ifname])
               end) in
  let! r := ask cmd 128 in
  lift (atoi (snd r)).
Definition hgic_iwpriv_set_xosc (ifname : list Z) (xosc : Z) : M process Z :=
  hgic_iwpriv_set_int ifname (lit "xosc") xosc.
Definition hgic_iwpriv_set_freq_cali_period (ifname : list Z) (period : Z) : M process Z :=
  hgic_iwpriv_set_int ifname (lit "freq_cali_period") period.
Definition hgic_iwpriv_set_customer_dvrdata (ifname : list Z) (cmd_id : Z) (data : list Z) (len : Z) : M process Z :=
  match block (s32 (2 + len)) with
  | None => ret (- ENOMEM)
  | Some buff =>
      let! buff := lift (mem_write buff 0 (put_unaligned_le16 cmd_id)) in
      let! buff := copy_in buff 2 data len in
      hgic_iwpriv_set_bytes ifname (lit "cust_drvdata") buff (2 + len)
  end.
Definition hgic_iwpriv_get_fwinfo (ifname out : list Z) : M process (Z * list Z) :=
  hgic_iwpriv_get_bytes ifname (lit "fwinfo") out sizeof_fw_info.
Definition hgic_iwpriv_set_disassoc_sta (ifname sta_mac : list Z) : M process Z :=
  hgic_iwpriv_set_mac ifname (lit "disassoc_sta") sta_mac.
Definition hgic_iwpriv_set_pa_pwrctl_dis (ifname : list Z) (disable : Z) : M process Z :=
  hgic_iwpriv_set_int ifname (lit "pa_pwrctl_dis") disable.
Definition hgic_iwpriv_set_ant_auto (ifname : list Z) (eanble : Z) : M process Z :=
  hgic_iwpriv_set_int ifname (lit "ant_auto") eanble.
Definition hgic_iwpriv_set_wkhost_reasons (ifname reasons_array : list Z) (array_count : Z) : M process Z :=
  hgic_iwpriv_set_intarray ifname (lit "wkhost_reason") reasons_array array_count.
Definition hgic_iwpriv_set_ap_hide (ifname : list Z) (hide : Z) : M process Z :=
  hgic_iwpriv_set_int ifname (lit "ap_hide") hide.
Definition hgic_iwpriv_set_assert_holdup (ifname : list Z) (hold : Z) : M process Z :=
  hgic_iwpriv_set_int ifname (lit "assert_holdup") hold.
Definition hgic_iwpriv_set_ap_psmode (ifname : list Z) (ap_psmode : Z) : M process Z :=
  hgic_iwpriv_set_int ifname (lit "ap_psmode") ap_psmode.
Definition hgic_iwpriv_set_dupfilter_en (ifname : list Z) (enable : Z) : M process Z :=
  hgic_iwpriv_set_int ifname (lit "dupfilter") enable.
Definition hgic_iwpriv_set_dis_1v1m2u (ifname : list Z) (disable : Z) : M process Z :=
  hgic_iwpriv_set_int ifname (lit "dis_1v1m2u") disable.
Definition hgic_iwpriv_set_dis_psconnect (ifname : list Z) (disable : Z) : M process Z :=
  hgic_iwpriv_set_int ifname (lit "dis_psconnect") disable.
Definition hgic_iwpriv_set_wkdata_mask (ifname : list Z) (offset : Z) (mask : list Z) (mask_len : Z) : M process Z :=
  let mask_len := if 32 <? mask_len then 32 else mask_len in
  let! buff := lift (mem_write (array 64) 0 [u8 offset]) in
  let! buff := copy_in buff 1 mask mask_len in
  hgic_iwpriv_set_bytes ifname (lit "wkdata_mask") buff (mask_len + 1).
Definition hgic_iwpriv_set_hbdata_mask (ifname : list Z) (offset : Z) (mask : list Z) (mask_len : Z) : M process Z :=
  let mask_len := if 64 <? mask_len then 64 else mask_len in
  let! buff := lift (mem_write (array 128) 0 [u8 offset; u8 mask_len]) in
  let! buff := copy_in buff 2 mask mask_len in
  hgic_iwpriv_set_bytes ifname (lit "hbdata_mask") buff (mask_len + 2).
Definition hgic_iwpriv_get_mode (ifname out : list Z) : M process (Z * list Z) :=
  hgic_iwpriv_get_bytes ifname (lit "mode") out 8.
Definition hgic_iwpriv_get_wkdata_buff (ifname buff : list Z) (buff_size : Z) : M process (Z * list Z) :=
  hgic_iwpriv_get_bytes ifname (lit "wkdata_buff") buff buff_size.
Definition hgic_iwpriv_get_temperature (ifname : list Z) : M process Z :=
  hgic_iwpriv_get_int ifname (lit "temperature").
Definition hgic_iwpriv_get_sta_count (ifname : list Z) : M process Z :=
  hgic_iwpriv_get_int ifname (lit "sta_count").
Definition hgic_iwpriv_get_dhcpc_result (ifname out : list Z) : M process (Z * list Z) :=
  hgic_iwpriv_get_bytes ifname (lit "dhcpc_result") out sizeof_dhcp_result.
Definition hgic_iwpriv_set_max_tx_delay (ifname : list Z) (tmo : Z) : M process Z :=
  hgic_iwpriv_set_int ifname (lit "max_txdelay") tmo.
Definition hgic_iwpriv_set_heartbeat_int (ifname : list Z) (interval_ms : Z) : M process Z :=
  hgic_iwpriv_set_int ifname (lit "heartbeat_int") interval_ms.
Definition hgic_iwpriv_get_sta_info (ifname : list Z) (mac_addr stainfo : option (list Z)) : M process (Z * option (list Z)) :=
  match mac_addr, stainfo with
  | Some mac, Some out =>
      let! text := lift (mac_is_text mac) in
      let! cmd := (if text : bool then lift (print_cmd 128 (str "%s get stainfo=%s,1") [AMem ifname; AMem mac])
                   else let! m := lift (MACARG mac) in
                        lift (print_cmd 128 (str "%s get stainfo=" ++ MACSTR ++ str ",1") (AMem ifname :: m))) in
      let! r := ask_to cmd out sizeof_sta_info in ret (fst r, Some (snd r))
  | _, _ => ret (-1, stainfo)
  end.
Definition hgic_iwpriv_get_signal (ifname : list Z) : M process Z :=
  hgic_iwpriv_get_int ifname (lit "signal").
Definition hgic_iwpriv_set_countryregion (ifname country : list Z) : M process Z :=
  hgic_iwpriv_set_bytes ifname (lit "country_region") country 2.
Definition hgic_iwpriv_set_sleep_roaming (ifname : list Z) (enable rssi : Z) : M process Z :=
  hgic_iwpriv_set_ints ifname (lit "sleep_roaming") [enable; rssi].
Definition hgic_iwpriv_set_roaming_bssid (ifname bssid : list Z) : M process Z :=
  hgic_iwpriv_set_mac ifname (lit "roaming_bssid") bssid.
Definition hgic_iwpriv_get_link_quality (ifname out : list Z) : M process (Z * list Z) :=
  hgic_iwpriv_get_bytes ifname (lit "link_quality=1") out sizeof_link_quality.
Definition hgic_iwpriv_set_bss_disabled (ifname : list Z) (disable : Z) (bssid : list Z) : M process Z :=
  let! text := lift (mac_is_text bssid) in
  let! cmd := (if text : bool then lift (print_cmd 128 (str "%s set bss_disable=%s,%d") [AMem ifname; AMem bssid; AInt disable])
               else let! m := lift (MACARG bssid) in
                    lift (print_cmd 128 (str "%s set bss_disable=" ++ MACSTR ++ str ",%d") ((AMem ifname :: m) ++ [AInt disable]))) in
  do_cmd cmd.
Definition hgic_iwpriv_set_kick_assoc (ifname : list Z) (enable : Z) : M process Z :=
  hgic_iwpriv_set_int ifname (lit "kick_assoc") enable.
Definition hgic_iwpriv_set_start_assoc (ifname : list Z) (start : Z) : M process Z :=
  hgic_iwpriv_set_int ifname (lit "start_assoc") start.
Definition hgic_iwpriv_set_rmesh_devmax (ifname : list Z) (devmax : Z) : M process Z :=
  hgic_iwpriv_set_int ifname (lit "rmesh_devmax") devmax.
Definition hgic_iwpriv_set_rmesh_aid (ifname : list Z) (aid : Z) : M process Z :=
  hgic_iwpriv_set_int ifname (lit "rmesh_aid") aid.
Definition hgic_iwpriv_set_rmesh_device (ifname : list Z) (aid : Z) (mac : list Z) : M process Z :=
  let! dev := copy_in (u8 aid :: array 6) 1 mac 6 in
  hgic_iwpriv_set_bytes ifname (lit "rmesh_device") dev 7.
Definition hgic_iwpriv_set_rmesh_notfw (ifname : list Z) (notfw : Z) : M process Z :=
  hgic_iwpriv_set_int ifname (lit "start_assoc") notfw.
Definition hgic_iwpriv_set_rmesh_rssimin (ifname : list Z) (rssi_min : Z) : M process Z :=
  hgic_iwpriv_set_int ifname (lit "rmesh_rssimin") rssi_min.
Definition hgic_iwpriv_get_rmesh_device (ifname dev_buf : list Z) (buf_size : Z) : M process (Z * list Z) :=
  hgic_iwpriv_get_bytes ifname (lit "rmesh_device=1") dev_buf buf_size.
Definition hgic_iwpriv_set_rmesh_meshid (ifname : list Z) (aid : Z) (meshid : list Z) : M process Z :=
  hgic_iwpriv_set_mac ifname (lit "rmesh_meshid") meshid.

(** The settings of one number, by the name they send. *)
Definition int_settings : list (string * (list Z -> Z -> M process Z)) :=
  [ ("channel"%string, hgic_iwpriv_set_channel); ("bss_bw"%string, hgic_iwpriv_set_bss_bw); ("tx_bw"%string, hgic_iwpriv_set_tx_bw);
    ("tx_mcs"%string, hgic_iwpriv_set_tx_mcs); ("max_txcnt"%string, hgic_iwpriv_set_max_txcnt); ("pairing"%string, hgic_iwpriv_set_pairing);
    ("beacon_int"%string, hgic_iwpriv_set_beacon_int); ("radio_onoff"%string, hgic_iwpriv_set_radio_onoff); ("txpower"%string, hgic_iwpriv_set_txpower);
    ("bss_max_idle"%string, hgic_iwpriv_set_bss_max_idle); ("wkio_mode"%string, hgic_iwpriv_set_wkio_mode); ("dtim_period"%string, hgic_iwpriv_set_dtim_period);
    ("ps_mode"%string, hgic_iwpriv_set_ps_mode); ("aplost_time"%string, hgic_iwpriv_set_aplost_time); ("auto_chswitch"%string, hgic_iwpriv_set_auto_chswitch);
    ("reassoc_wkhost"%string, hgic_iwpriv_set_reassoc_wkhost); ("dbginfo"%string, hgic_iwpriv_set_dbginfo); ("primary_chan"%string, hgic_iwpriv_set_primary_chan);
    ("autosleep_time"%string, hgic_iwpriv_set_autosleep_time); ("super_pwr"%string, hgic_iwpriv_set_super_pwr); ("auto_save"%string, hgic_iwpriv_set_auto_save);
    ("pair_autostop"%string, hgic_iwpriv_set_pair_autostop); ("dcdc13"%string, hgic_iwpriv_set_dcdc13); ("acktmo"%string, hgic_iwpriv_set_acktmo);
    ("loaddef"%string, hgic_iwpriv_set_load_def); ("dbginfo"%string, hgic_iwpriv_set_dbginfo_output); ("pa_pwrctl_dis"%string, hgic_iwpriv_set_pa_pwrctrl_dis);
    ("dhcpc"%string, hgic_iwpriv_set_dhcpc); ("wkdata_save"%string, hgic_iwpriv_set_wkdata_save); ("ant_sel"%string, hgic_iwpriv_set_ant_sel);
    ("macfilter"%string, hgic_iwpriv_set_macfilter); ("rts_threshold"%string, hgic_iwpriv_set_rts_threshold); ("frag_threshold"%string, hgic_iwpriv_set_frag_threshold);
    ("fix_txrate"%string, hgic_iwpriv_set_fix_txrate); ("nav_max"%string, hgic_iwpriv_set_nav_max); ("rts_duration"%string, hgic_iwpriv_set_rts_duration);
    ("disable_print"%string, hgic_iwpriv_set_disable_print); ("conn_paironly"%string, hgic_iwpriv_set_conn_paironly); ("wait_psmode"%string, hgic_iwpriv_set_wait_psmode);
    ("diffcust_conn"%string, hgic_iwpriv_set_diffcust_conn); ("cca_ce"%string, hgic_iwpriv_set_cca_for_ce); ("rtc"%string, hgic_iwpriv_set_rtc);
    ("apep_padding"%string, hgic_iwpriv_set_apep_padding); ("watchdog"%string, hgic_iwpriv_set_watchdog); ("retry_fallback_cnt"%string, hgic_iwpriv_set_retry_fallback_cnt);
    ("xosc"%string, hgic_iwpriv_set_xosc); ("freq_cali_period"%string, hgic_iwpriv_set_freq_cali_period); ("pa_pwrctl_dis"%string, hgic_iwpriv_set_pa_pwrctl_dis);
    ("ant_auto"%string, hgic_iwpriv_set_ant_auto); ("ap_hide"%string, hgic_iwpriv_set_ap_hide); ("assert_holdup"%string, hgic_iwpriv_set_assert_holdup);
    ("ap_psmode"%string, hgic_iwpriv_set_ap_psmode); ("dupfilter"%string, hgic_iwpriv_set_dupfilter_en); ("dis_1v1m2u"%string, hgic_iwpriv_set_dis_1v1m2u);
    ("dis_psconnect"%string, hgic_iwpriv_set_dis_psconnect); ("max_txdelay"%string, hgic_iwpriv_set_max_tx_delay); ("heartbeat_int"%string, hgic_iwpriv_set_heartbeat_int);
    ("kick_assoc"%string, hgic_iwpriv_set_kick_assoc); ("start_assoc"%string, hgic_iwpriv_set_start_assoc); ("rmesh_devmax"%string, hgic_iwpriv_set_rmesh_devmax);
    ("rmesh_aid"%string, hgic_iwpriv_set_rmesh_aid); ("start_assoc"%string, hgic_iwpriv_set_rmesh_notfw); ("rmesh_rssimin"%string, hgic_iwpriv_set_rmesh_rssimin) ].

(** The settings of a text. *)
Definition text_settings : list (string * (list Z -> list Z -> M process Z)) :=
  [ ("ssid"%string, hgic_iwpriv_set_ssid); ("key_mgmt"%string, hgic_iwpriv_set_keymgmt); ("wpa_psk"%string, hgic_iwpriv_set_wpapsk);
    ("mode"%string, hgic_iwpriv_set_mode); ("paired_stas"%string, hgic_iwpriv_set_paired_stas); ("mcast_key"%string, hgic_iwpriv_set_mcast_key);
    ("sysdbg"%string, hgic_iwpriv_set_sysdbg); ("r_ssid"%string, hgic_iwpriv_set_repeater_ssid); ("r_psk"%string, hgic_iwpriv_set_repeater_psk);
    ("atcmd"%string, hgic_iwpriv_send_atcmd) ].

(** The settings of an address. *)
Definition mac_settings : list (string * (list Z -> list Z -> M process Z)) :=
  [ ("bssid"%string, hgic_iwpriv_set_bssid); ("unpair"%string, hgic_iwpriv_unpair); ("reset_sta"%string, hgic_iwpriv_reset_sta);
    ("wakeup"%string, hgic_iwpriv_wakeup_sta); ("disassoc_sta"%string, hgic_iwpriv_set_disassoc_sta); ("roaming_bssid"%string, hgic_iwpriv_set_roaming_bssid) ].

(** The queries of one number. *)
Definition int_queries : list (string * (list Z -> M process Z)) :=
  [ ("txpower"%string, hgic_iwpriv_get_txpower); ("bss_bw"%string, hgic_iwpriv_get_bss_bw); ("battery_level"%string, hgic_iwpriv_get_battery_level);
    ("module_type"%string, hgic_iwpriv_get_module_type); ("disassoc_reason"%string, hgic_iwpriv_get_disassoc_reason); ("ant_sel"%string, hgic_iwpriv_get_ant_sel);
    ("conn_state"%string, hgic_iwpriv_get_conn_state); ("wkreason"%string, hgic_iwpriv_get_wkreason); ("nav"%string, hgic_iwpriv_get_nav);
    ("center_freq"%string, hgic_iwpriv_get_center_freq); ("rtc"%string, hgic_iwpriv_get_rtc); ("reason_code"%string, hgic_iwpriv_get_reason_code);
    ("status_code"%string, hgic_iwpriv_get_status_code); ("xosc"%string, hgic_iwpriv_get_xosc); ("temperature"%string, hgic_iwpriv_get_temperature);
    ("sta_count"%string, hgic_iwpriv_get_sta_count); ("signal"%string, hgic_iwpriv_get_signal) ].

End AppLib.
