(* ===== verification/AppFacts.v ===== *)
(** * What the application library does to the driver

    Every setting the library prints is the run of the driver's handler on the
    value, and every number it asks for is the number the chip reported: the
    lemmas follow a line from the array it is printed into through the buffer,
    the file and the driver back to the result.  [malloc] is a parameter that gives
    at least what it is asked for; a line without data needs a byte more, and the
    statements distinguish the two cases ([has_spare]).  The library also has other
    faults of its own, which the last properties and lemmas state. *)
From Stdlib Require Import String.
From S2P Require Import Prelude Bytes CString Proto Skb FwInfo Utils Format Libc FwCtrl FwCmds Iwpriv IwprivGet Ota Device Core Entry AppLib.

(** ** Lemmas *)
(** A text printed over zeros leaves zeros behind it. *)
Lemma sprintf_zeros pre k fmt args t :
  format Text fmt args = Ret t -> zlen t < k ->
  sprintf_at (pre ++ replicate (Z.to_nat k) 0) (zlen pre) fmt args
  = Ret (zlen t, (pre ++ t) ++ replicate (Z.to_nat (k - zlen t)) 0).
Proof.
  intros E Hl. pose proof (zlen_nonneg t). pose proof (zlen_nonneg pre).
  destruct (sprintf_ok (pre ++ replicate (Z.to_nat k) 0) (zlen pre) fmt args t E) as (b & Eb & _ & ->);
    [lia|rewrite zlen_app, zlen_replicate; lia|].
  rewrite Eb. do 2 f_equal. rewrite ztake_app_length by done. rewrite <- !app_assoc. do 2 f_equal.
  rewrite <- Z.add_assoc, <- zdrop_zdrop, zdrop_app_length by (done || lia).
  replace (Z.to_nat (k - zlen t)) with (S (Z.to_nat (k - zlen t - 1))) by lia. cbn [replicate app]. f_equal.
  unfold zdrop. rewrite drop_replicate. f_equal. lia.
Qed.

(** A line that fits the array it is printed into. *)
Lemma print_cmd_ok size fmt args t :
  format Text fmt args = Ret t -> zlen t < size ->
  print_cmd size fmt args = Ret (t ++ 0 :: replicate (Z.to_nat (size - zlen t - 1)) 0).
Proof.
  intros E Hl. unfold print_cmd. rewrite (sprintf_zeros [] size fmt args t E Hl : sprintf_at (replicate (Z.to_nat size) 0) 0 fmt args = _). cbn [obind snd app].
  by replace (Z.to_nat (size - zlen t)) with (S (Z.to_nat (size - zlen t - 1))) by lia.
Qed.

(** Numbers with commas between them. *)
Fixpoint ints_text (first : bool) (vals : list Z) : list Z :=
  match vals with
  | [] => []
  | v :: vals => (if first then [] else [44]) ++ signed_text (s32 v) ++ ints_text false vals
  end.

Lemma ints_text_no_nul first vals : no_nul (ints_text first vals).
Proof.
  revert first. induction vals as [|v vals IH]; intros first; [constructor|]. cbn [ints_text].
  apply Forall_app. split; [destruct first; by repeat constructor|]. apply Forall_app. split; [|apply IH].
  apply signed_text_no_nul. pose proof (s32_range v). lia.
Qed.

Lemma ints_text_zlen first vals : zlen (ints_text first vals) <= 12 * zlen vals.
Proof.
  revert first. induction vals as [|v vals IH]; intros first; cbn [ints_text]; [vm_compute; done|].
  rewrite !zlen_app, zlen_cons. specialize (IH false). pose proof (int_text_zlen (s32 v) (s32_range v)).
  assert (zlen (if first then [] else [44]) <= 1) by (destruct first; vm_compute; done). lia.
Qed.

Lemma print_ints_ok vals pre k first :
  zlen (ints_text first vals) < k ->
  print_ints (pre ++ replicate (Z.to_nat k) 0) (zlen pre) first vals
  = Ret ((pre ++ ints_text first vals) ++ replicate (Z.to_nat (k - zlen (ints_text first vals))) 0).
Proof.
  revert pre k first. induction vals as [|v vals IH]; intros pre k first Hk; cbn [print_ints ints_text] in *.
  - by rewrite app_nil_r, Z.sub_0_r.
  - rewrite (app_assoc (if first then [] else [44])) in Hk |- *. set (t := (if first then [] else [44]) ++ signed_text (s32 v)) in *.
    assert (format Text (str (if first then "%d" else ",%d")) [AInt v] = Ret t) as Ef.
    { unfold t. destruct first; cbn [app].
      - change (str "%d") with [37; 100]. rewrite format_d. cbn [format obind]. by rewrite app_nil_r.
      - change (str ",%d") with ([44] ++ [37; 100]). rewrite format_lit by (by repeat constructor). rewrite format_d.
        cbn [format obind]. by rewrite app_nil_r. }
    rewrite zlen_app in Hk. pose proof (zlen_nonneg (ints_text false vals)).
    rewrite (sprintf_zeros pre k _ _ _ Ef) by lia. cbn [obind fst snd]. rewrite <- zlen_app.
    rewrite IH by lia. rewrite (zlen_app t), Z.sub_add_distr. by rewrite <- !app_assoc.
Qed.

(** The lines of the library: an interface, a command and the rest. *)
Definition line (ifname cmd t : list Z) : list Z := procfs_text ifname cmd t.

Lemma format_line ifname m s cmd fmt args t :
  cstr m = Ret ifname -> no_nul cmd -> Forall (fun c => c <> 37) cmd -> cstr s = Ret t ->
  format Text (37 :: 115 :: 32 :: cmd ++ 32 :: 37 :: 115 :: fmt) (AMem m :: AMem s :: args)
  = (leto r := format Text fmt args in Ret (line ifname cmd (t ++ r))).
Proof.
  intros Hm Hc Hp Hs. rewrite (format_s m ifname) by done.
  rewrite (app_assoc (32 :: cmd) [32] _ : 32 :: cmd ++ 32 :: 37 :: 115 :: fmt = ((32 :: cmd) ++ [32]) ++ 37 :: 115 :: fmt).
  rewrite format_lit by (repeat first [apply Forall_app; split | constructor]; done).
  rewrite (format_s s t) by done. destruct (format Text fmt args) as [r|]; [|done]. cbn [obind].
  unfold line, procfs_text. by rewrite <- !app_assoc.
Qed.

Lemma line_no_nul ifname cmd t : no_nul ifname -> no_nul cmd -> no_nul t -> no_nul (line ifname cmd t).
Proof. intros. unfold line, procfs_text, no_nul. apply Forall_app. split; [done|]. constructor; [done|]. apply Forall_app. split; [done|]. by constructor. Qed.

(** What the theorems assume of the process: its variable names the driver's
    directory, and [malloc] succeeds with a block of at least the length asked
    for. *)
Record app_env (rootdir HGIC : list Z) (malloc : Z -> option (list Z)) : Prop := {
  ae_root : cstr HGIC = Ret rootdir;
  ae_len : zlen rootdir <= 18;
  ae_malloc : forall n, 0 <= n < 2 ^ 20 -> exists b, malloc n = Some b /\ n <= zlen b }.

(** Whether the block for [n] bytes has a byte behind them. *)
Definition has_spare (malloc : Z -> option (list Z)) (n : Z) : bool :=
  match malloc n with Some b => n <? zlen b | None => false end.

Section AppLemmas.
Context (stk : list Z) (sc : bool) (rootdir HGIC : list Z) (blenc_mode : Z) (stack : list Z) (malloc : Z -> option (list Z)).
Hypothesis Henv : app_env rootdir HGIC malloc.

#[local] Abbreviation iwpriv_do := (hgic_iwpriv_do stk sc rootdir HGIC malloc).

Lemma write_opens buff len p :
  0 < len ->
  hgic_iwpriv_write stk sc rootdir HGIC buff len p
  = (let! heap := gets p_heap in
     let! r := on_dev (hgicf_iwpriv_write stk sc (buff ++ heap) len) in
     let '(n, mem) := r in
     modify (set_p_heap (zdrop (zlen buff) mem)) ;;;
     ret (if n <? 0 then -1 else n, ztake (zlen buff) mem)) p.
Proof.
  intros Hl. unfold hgic_iwpriv_write. destruct (Z.leb_spec len 0); [lia|].
  destruct (cstr_inv _ _ (ae_root _ _ _ Henv)) as (_ & _ & Hn).
  assert (format Text (str "/proc/%s/iwpriv") [AMem HGIC] = Ret (str "/proc/" ++ rootdir ++ str "/iwpriv")) as Ef.
  { change (str "/proc/%s/iwpriv") with (str "/proc/" ++ 37 :: 115 :: str "/iwpriv").
    rewrite format_lit by (by repeat constructor). rewrite (format_s _ _ _ _ (ae_root _ _ _ Henv)). 
    by rewrite format_nil by (by repeat constructor). }
  pose proof (ae_len _ _ _ Henv).
  rewrite (bind_lift _ _ _ _ (print_cmd_ok 32 _ _ _ Ef ltac:(rewrite !zlen_app; change (zlen (str "/proc/")) with 6; change (zlen (str "/iwpriv")) with 7; lia))).
  erewrite bind_lift; [|apply cstr_app].
  - by rewrite bool_decide_true.
  - apply Forall_app. split; [by repeat constructor|]. apply Forall_app. split; [done|by repeat constructor].
Qed.

(** Filling the buffer: the line, the data, zeros up to the length.  The terminator
    of a line alone goes behind the length. *)
Lemma fill_buffer s z data in_ in_len out_len :
  no_nul s -> 0 <= in_len -> 0 <= out_len -> zlen s + Z.max in_len out_len < 2 ^ 20 ->
  0 < Z.max in_len out_len \/ has_spare malloc (zlen s) = true ->
  match in_ with Some d => data = ztake in_len d /\ in_len <= zlen d | None => data = [] /\ in_len = 0 end ->
  let len := zlen s + Z.max in_len out_len in
  exists b sl, block malloc (s32 len) = Some b /\
    (leto buff := mem_write b 0 (replicate (Z.to_nat (s32 len)) 0) in
     leto s' := cstr (s ++ 0 :: z) in
     leto buff := mem_write buff 0 (s' ++ [0]) in
     match in_ with
     | Some in_ => if negb (in_len =? 0) then leto bs := mem_read in_ 0 in_len in mem_write buff (zlen s) bs else Ret buff
     | None => Ret buff
     end) = Ret ((s ++ data ++ replicate (Z.to_nat (Z.max in_len out_len - in_len)) 0) ++ sl).
Proof.
  intros Hs Hi Ho Hl Hsp Hd len. pose proof (zlen_nonneg s). assert (0 <= len < 2 ^ 20) as Hlen by lia.
  destruct (ae_malloc _ _ _ Henv len Hlen) as (b & Eb & Hb). exists b.
  assert (zlen s + 1 <= zlen b) as Hb1.
  { destruct Hsp as [Hsp|Hsp]; [lia|]. destruct (Z.eqb_spec (Z.max in_len out_len) 0) as [E|]; [|lia].
    unfold len in Eb. rewrite E, Z.add_0_r in Eb. unfold has_spare in Hsp. rewrite Eb in Hsp. lia. }
  rewrite s32_id by lia. set (m := Z.max in_len out_len) in *. assert (0 <= m /\ in_len <= m) as [Hm0 Hmi] by lia. clearbody m.
  assert (forall n k, 0 <= n -> 0 <= k -> replicate (Z.to_nat (n + k)) 0 = replicate (Z.to_nat n) 0 ++ replicate (Z.to_nat k) 0) as Hrep.
  { intros n k Hn Hk. rewrite <- replicate_add. f_equal. lia. }
  assert (zlen (zdrop len b) = zlen b - len) as Hz by (apply zlen_zdrop; lia).
  set (sl := if m =? 0 then 0 :: zdrop 1 (zdrop len b) else zdrop len b). exists sl.
  split; [unfold block; by destruct (Z.ltb_spec len 0); [lia|]|].
  rewrite mem_write_ok by (rewrite ?zlen_replicate; lia). cbn [obind]. rewrite cstr_app by done. cbn [obind].
  rewrite ztake_0, zlen_replicate, Z.add_0_l by lia. cbn [app].
  assert (mem_write (replicate (Z.to_nat len) 0 ++ zdrop len b) 0 (s ++ [0]) = Ret (s ++ replicate (Z.to_nat m) 0 ++ sl)) as ->.
  { rewrite mem_write_ok; [|lia|rewrite !zlen_app, zlen_replicate by lia; change (zlen [0]) with 1; lia].
    rewrite ztake_0, zlen_app. change (zlen [0]) with 1. cbn [app]. f_equal. unfold len, sl.
    rewrite Hrep, <- app_assoc by lia. rewrite <- (app_assoc (replicate (Z.to_nat (zlen s)) 0)).
    replace (0 + (zlen s + 1)) with (zlen s + 1) by lia.
    rewrite <- zdrop_zdrop, zdrop_app_length by (rewrite ?zlen_replicate; lia).
    f_equal. destruct (Z.eqb_spec m 0) as [E|E]; [unfold len; rewrite E; reflexivity|].
    pose proof (Hrep 1 (m - 1) ltac:(lia) ltac:(lia)) as Em. replace (1 + (m - 1)) with m in Em by lia. by rewrite Em. }
  cbn [obind]. destruct in_ as [d|].
  - destruct Hd as [-> Hd]. destruct (Z.eqb_spec in_len 0) as [E|E]; cbn [negb].
    + rewrite E, ztake_0, Z.sub_0_r. cbn [app]. by rewrite <- app_assoc.
    + rewrite mem_read_ok by lia. cbn [obind]. rewrite zdrop_0.
      assert (zlen (ztake in_len d) = in_len) as Hk by (apply zlen_ztake; lia).
      replace m with (in_len + (m - in_len)) at 1 by lia. rewrite Hrep by lia. rewrite <- (app_assoc (replicate (Z.to_nat in_len) 0)).
      rewrite (mem_write_mid _ s (replicate (Z.to_nat in_len) 0) (replicate (Z.to_nat (m - in_len)) 0 ++ sl) (ztake in_len d)) by
        (done || (rewrite Hk, zlen_replicate; lia)).
      by rewrite <- !app_assoc.
  - destruct Hd as [-> ->]. rewrite Z.sub_0_r. cbn [app]. by rewrite <- app_assoc.
Qed.

(** The bind of outcomes inside the monad. *)
Lemma lift_binds b len s z in_ in_len (k : list Z -> M process (Z * option (list Z))) p buff :
  (leto buff := mem_write b 0 (replicate (Z.to_nat len) 0) in
   leto s' := cstr (s ++ 0 :: z) in
   leto buff := mem_write buff 0 (s' ++ [0]) in
   match in_ with
   | Some in_ => if negb (in_len =? 0) then leto bs := mem_read in_ 0 in_len in mem_write buff (zlen s) bs else Ret buff
   | None => Ret buff
   end) = Ret buff ->
  (let! buff := lift (mem_write b 0 (replicate (Z.to_nat len) 0)) in
   let! s' := lift (cstr (s ++ 0 :: z)) in
   let! buff := lift (mem_write buff 0 (s' ++ [0])) in
   let! buff := (match in_ with
                 | Some in_ =>
                     if negb (in_len =? 0) then
                       let! bs := lift (mem_read in_ 0 in_len) in lift (mem_write buff (zlen s) bs)
                     else ret buff
                 | None => ret buff
                 end) in k buff) p = k buff p.
Proof.
  intros H. apply obind_inv in H as (b1 & E1 & H). apply obind_inv in H as (s' & E2 & H). apply obind_inv in H as (b2 & E3 & H).
  rewrite (bind_lift _ _ _ _ E1), (bind_lift _ _ _ _ E2), (bind_lift _ _ _ _ E3).
  destruct in_ as [d|]; [destruct (negb (in_len =? 0)); [|by injection H as ->]|by injection H as ->].
  apply obind_inv in H as (bs & E4 & H). unfold bind at 1. rewrite (bind_lift _ _ _ _ E4). by rewrite H.
Qed.

(** What follows the write: the result and the answer. *)
Definition take_answer (out : option (list Z)) (out_len : Z) (r : Z * list Z) : M process (Z * option (list Z)) :=
  let '(ret_, buff) := r in
  if 0 <? ret_ then
    let! w := lift (get_unaligned_le32 buff) in
    let ret_ := s32 w in
    match out with
    | Some o =>
        if (0 <? ret_) && negb (out_len =? 0) then
          let len := if ret_ <=? out_len - 1 then ret_ else out_len - 1 in
          let! bs := lift (mem_read buff 4 len) in
          let! o := lift (mem_write o 0 bs) in
          let! o := lift (mem_write o len [0]) in
          ret (ret_, Some o)
        else ret (ret_, out)
    | None => ret (ret_, out)
    end
  else ret (ret_, out).

Lemma do_writes s z data in_ in_len out out_len p :
  no_nul s -> 0 < zlen s -> 0 <= in_len -> 0 <= out_len -> zlen s + Z.max in_len out_len < 2 ^ 20 ->
  0 < Z.max in_len out_len \/ has_spare malloc (zlen s) = true ->
  match in_ with Some d => data = ztake in_len d /\ in_len <= zlen d | None => data = [] /\ in_len = 0 end ->
  let text := s ++ data ++ replicate (Z.to_nat (Z.max in_len out_len - in_len)) 0 in
  zlen text = zlen s + Z.max in_len out_len /\
  exists sl, iwpriv_do (s ++ 0 :: z) in_ in_len out out_len p
  = match hgicf_iwpriv_write stk sc (text ++ sl ++ p_heap p) (zlen text) (p_dev p) with
    | Ret (n, mem, d') =>
        take_answer out out_len (if n <? 0 then -1 else n, ztake (zlen text + zlen sl) mem)
          (Process d' (zdrop (zlen text + zlen sl) mem))
    | Fault f => Fault f
    end.
Proof.
  intros Hs Hpos Hi Ho Hl Hsp Hd text.
  assert (zlen text = zlen s + Z.max in_len out_len) as Ht.
  { unfold text. rewrite !zlen_app, zlen_replicate by lia. destruct in_ as [d|].
    - destruct Hd as [-> Hd]. rewrite zlen_ztake by lia. lia.
    - destruct Hd as [-> ->]. simpl. rewrite zlen_nil. lia. }
  split; [done|]. destruct (fill_buffer s z data in_ in_len out_len Hs Hi Ho Hl Hsp Hd) as (b & sl & Eb & E). exists sl.
  unfold hgic_iwpriv_do. rewrite (bind_lift _ _ _ _ (strlen_app s z Hs)), Eb. 
  rewrite s32_id in E |- * by lia. rewrite <- Ht in E |- *.
  rewrite (lift_binds _ _ s z in_ in_len _ p _ E). fold text. rewrite (bind_ext _ _ (take_answer out out_len)) by (by intros [] ?).
  unfold bind at 1. rewrite write_opens by lia. unfold bind at 1, gets. unfold bind at 1. rewrite <- app_assoc.
  unfold on_dev, on_part. cbn [part wdev_in_process]. destruct (hgicf_iwpriv_write _ _ _ _ _) as [[[n mem] d']|f]; [|done].
  unfold bind, modify, ret. by rewrite zlen_app.
Qed.

Context (ifname : list Z) (p : process).
Hypothesis Hdev : w_alloc (d_w (p_dev p)) = [].
Hypothesis Hif : no_blank ifname.
Hypothesis Hifl : zlen ifname < 2 ^ 18.

Lemma ifname_no_nul : no_nul ifname.
Proof. eapply Forall_impl; [exact Hif|]. by intros ? []. Qed.

Lemma line_zlen cmd t : zlen cmd = 3 -> zlen (line ifname cmd t) = zlen ifname + 5 + zlen t.
Proof. apply procfs_text_zlen. Qed.

(** A setting is the driver's handling of its text. *)
Lemma do_set t z data in_ in_len :
  no_nul t -> 0 <= in_len -> zlen t + in_len < 65536 ->
  0 < in_len \/ has_spare malloc (zlen (line ifname (str "set") t)) = true ->
  match in_ with Some d => data = ztake in_len d /\ in_len <= zlen d | None => data = [] /\ in_len = 0 end ->
  iwpriv_do (line ifname (str "set") t ++ 0 :: z) in_ in_len None 0 p
  = match hgicf_ioctl_set_proc stk sc (text_req (t ++ data)) (p_dev p) with
    | Ret (r, d') => Ret (s32 r, None, set_p_dev d' p)
    | Fault f => Fault f
    end.
Proof.
  intros Ht Hi Hl Hsp Hd. pose proof (zlen_nonneg t). pose proof (zlen_nonneg ifname).
  pose proof (line_zlen (str "set") t eq_refl) as Hz.
  assert (zlen data = in_len) as Hdl.
  { destruct in_; [destruct Hd as [-> ?]; apply zlen_ztake; lia|by destruct Hd as [-> ->]]. }
  destruct (do_writes (line ifname (str "set") t) z data in_ in_len None 0 p) as (Htl & sl & ->);
    [by apply line_no_nul; [apply ifname_no_nul|repeat constructor|]|lia|lia|lia|lia|destruct Hsp; [left; lia|by right]|done|].
  pose proof (zlen_nonneg sl).
  rewrite Z.max_l in Htl |- * by lia. rewrite Z.sub_diag in Htl |- *. cbn [replicate Z.to_nat] in *. rewrite app_nil_r in Htl |- *.
  assert (line ifname (str "set") t ++ data = procfs_text ifname (str "set") (t ++ data)) as E
    by (unfold line, procfs_text; by rewrite <- !app_assoc, <- !app_comm_cons, <- !app_assoc).
  rewrite E in Htl |- *. rewrite iwpriv_write_set by (done || (rewrite ?zlen_app; lia)).
  destruct (hgicf_ioctl_set_proc _ _ _ _) as [[r d']|f]; [|done].
  unfold take_answer.
  set (text := procfs_text _ _ _) in *. set (mem := put_unaligned_le32 _ ++ _).
  assert (mem = put_unaligned_le32 (u32 r) ++ (zdrop 4 (text ++ sl)) ++ p_heap p) as Em.
  { unfold mem. f_equal. rewrite app_assoc. rewrite <- (ztake_zdrop 4 (text ++ sl)) at 1. rewrite <- app_assoc.
    apply zdrop_app_length. rewrite zlen_ztake; [done|]. rewrite zlen_app. lia. }
  rewrite app_assoc in Em. 
  assert (zlen (put_unaligned_le32 (u32 r) ++ zdrop 4 (text ++ sl)) = zlen text + zlen sl) as Ez.
  { rewrite zlen_app, put_le32_zlen, zlen_zdrop, zlen_app by (rewrite zlen_app; lia). lia. }
  rewrite Em, (ztake_app_length _ _ _ (eq_sym Ez)), (zdrop_app_length _ _ _ (eq_sym Ez)).
  replace (zlen text <? 0) with false by lia.
  destruct (Z.ltb_spec 0 (zlen text)); [|lia]. rewrite (bind_lift _ _ _ _ (get_put_le32 _ _)).
  rewrite u32_u32, s32_u32. reflexivity.
Qed.

(** An answer is cut to the buffer and ends with a terminator. *)
Lemma do_get t z o out_len rq d' :
  no_nul t -> 0 < out_len <= zlen o -> zlen t + out_len < 65536 ->
  hgicf_ioctl_get_proc stk sc (fun _ => false) 0
    (Iwreq (zlen t + out_len) ((t ++ replicate (Z.to_nat out_len) 0) ++ replicate 32 0) 0) (p_dev p) = Ret (0, rq, d') ->
  0 < iw_length rq <= zlen t + out_len -> iw_length rq <= zlen (iw_user rq) ->
  let k := Z.min (iw_length rq) (out_len - 1) in
  iwpriv_do (line ifname (str "get") t ++ 0 :: z) None 0 (Some o) out_len p
  = Ret (iw_length rq, Some (ztake k (iw_user rq) ++ 0 :: zdrop (k + 1) o), set_p_dev d' p).
Proof.
  intros Ht Ho Hl E Hn Hu k. pose proof (zlen_nonneg t). pose proof (zlen_nonneg ifname).
  pose proof (line_zlen (str "get") t eq_refl) as Hz.
  destruct (do_writes (line ifname (str "get") t) z [] None 0 (Some o) out_len p) as (Htl & sl & ->);
    [by apply line_no_nul; [apply ifname_no_nul|repeat constructor|]|lia|lia|lia|lia|left; lia|done|].
  pose proof (zlen_nonneg sl).
  rewrite Z.max_r, Z.sub_0_r in Htl |- * by lia. cbn [app] in Htl |- *. set (q := t ++ replicate (Z.to_nat out_len) 0) in *.
  assert (line ifname (str "get") t ++ replicate (Z.to_nat out_len) 0 = procfs_text ifname (str "get") q) as Eq
    by (unfold q, line, procfs_text; by rewrite <- !app_assoc, <- !app_comm_cons, <- !app_assoc).
  assert (zlen q = zlen t + out_len) as Hq by (unfold q; rewrite zlen_app, zlen_replicate; lia).
  rewrite Eq in Htl |- *. rewrite <- Hq in E. 
  rewrite (iwpriv_write_get stk sc ifname q (sl ++ p_heap p) (p_dev p) rq d') by (done || lia).
  set (text := procfs_text _ _ _) in *. set (n := iw_length rq) in *. set (ans := ztake n (iw_user rq)).
  assert (zlen ans = n) as Hans by (apply zlen_ztake; lia).
  assert (zdrop (4 + n) (text ++ sl ++ p_heap p) = zdrop (4 + n) (text ++ sl) ++ p_heap p) as Em.
  { rewrite app_assoc. rewrite <- (ztake_zdrop (4 + n) (text ++ sl)) at 1. rewrite <- app_assoc.
    apply zdrop_app_length. rewrite zlen_ztake; [done|]. rewrite zlen_app. lia. }
  rewrite Em, !app_assoc. set (buff := (put_unaligned_le32 n ++ ans) ++ zdrop (4 + n) (text ++ sl)).
  assert (zlen buff = zlen text + zlen sl) as Ez.
  { unfold buff. rewrite !zlen_app, put_le32_zlen, zlen_zdrop, zlen_app by (rewrite zlen_app; lia). lia. }
  rewrite (ztake_app_length _ _ _ (eq_sym Ez)), (zdrop_app_length _ _ _ (eq_sym Ez)).
  unfold take_answer. replace (zlen text <? 0) with false by lia. destruct (Z.ltb_spec 0 (zlen text)); [|lia].
  unfold buff. rewrite <- app_assoc, (bind_lift _ _ _ _ (get_put_le32 _ _)). cbv zeta.
  rewrite s32_u32, s32_id by lia. destruct (Z.ltb_spec 0 n); [|lia]. destruct (Z.eqb_spec out_len 0); [lia|]. cbn [andb negb].
  assert ((if n <=? out_len - 1 then n else out_len - 1) = k) as -> by (unfold k; destruct (Z.leb_spec n (out_len - 1)); lia).
  assert (mem_read (put_unaligned_le32 n ++ ans ++ zdrop (4 + n) (text ++ sl)) 4 k = Ret (ztake k (iw_user rq))) as Er.
  { rewrite <- (ztake_zdrop k ans), <- (app_assoc (ztake k ans)).
    rewrite (mem_read_mid _ (put_unaligned_le32 n) (ztake k ans) _ _ _ eq_refl) by (rewrite ?put_le32_zlen, ?zlen_ztake; lia).
    unfold ans, ztake. rewrite take_take. do 2 f_equal. lia. }
  rewrite (bind_lift _ _ _ _ Er). assert (zlen (ztake k (iw_user rq)) = k) as Hk by (apply zlen_ztake; lia).
  erewrite bind_lift; [|apply mem_write_ok; lia]. rewrite ztake_0, Hk. cbn [app].
  rewrite <- (ztake_zdrop 1 (zdrop (0 + k) o)).
  erewrite bind_lift; [|eapply mem_write_mid; [reflexivity|by rewrite Hk|rewrite zlen_ztake; [done|rewrite zlen_zdrop by lia; lia]]].
  rewrite zdrop_zdrop by lia. cbn [app]. reflexivity.
Qed.

(** What a setting does: the handler of the driver on the text of the value, its
    result as an int, and nothing to the memory of the process. *)
Definition setting_effect (h : Z -> option (list Z) -> Z -> M world Z) (value : list Z) (q : process) : outcome (Z * process) :=
  match (let! ifidx := fwifidx in on_world (h ifidx (Some (value ++ [0])) (zlen value))) (p_dev q) with
  | Ret (r, d') => Ret (s32 r, set_p_dev d' q)
  | Fault f => Fault f
  end.

Hypothesis Hq : quiet (d_w (p_dev p)).

Lemma set_proc_effect n h value :
  (n, h) ∈ hgpriv_sets stk sc -> zlen (str n) + zlen value < 65535 ->
  match hgicf_ioctl_set_proc stk sc (text_req (str n ++ 61 :: value)) (p_dev p) with
  | Ret (r, d') => Ret (s32 r, set_p_dev d' p)
  | Fault f => Fault f
  end = setting_effect h value p.
Proof.
  intros Hin Hl. unfold setting_effect, hgicf_ioctl_set_proc, fwifidx, bind, gets, lift.
  destruct (deref (d_vif (p_dev p))) as [v|f]; [|done]. unfold ret. rewrite !on_world_fail.
  pose proof (sets_clean stk sc) as Hc. rewrite Forall_forall in Hc. 
  rewrite set_proc_text by (done || by apply (Hc (n, h))).
  assert (NoDup (map fst (hgpriv_sets stk sc))) as Hnd by (apply distinctb_NoDup; vm_compute; done).
  by rewrite (table_found _ n h).
Qed.

(** The names are short, so every line fits the array it is printed into. *)
Lemma setting_name n h : (n, h) ∈ hgpriv_sets stk sc -> zlen (str n) <= 18 /\ no_nul (str n).
Proof.
  intros Hin. pose proof (sets_clean stk sc) as Hc. rewrite Forall_forall in Hc. split.
  - assert (Forall (fun k => zlen (str k) <= 18) (map fst (hgpriv_sets stk sc))) as Hf
      by (apply (bool_decide_unpack _); vm_compute; done).
    rewrite Forall_forall in Hf. apply Hf, list_elem_of_fmap. by exists (n, h).
  - by apply clean_no_nul, (Hc (n, h)).
Qed.

(** Without a byte behind the line its terminator is written outside the block. *)
Lemma do_overflows l z in_ out :
  no_nul l -> zlen l < 2 ^ 20 -> has_spare malloc (zlen l) = false -> iwpriv_do (l ++ 0 :: z) in_ 0 out 0 p = Fault OutOfBounds.
Proof.
  intros Hl Hz Hsp. pose proof (zlen_nonneg l). destruct (ae_malloc _ _ _ Henv (zlen l) ltac:(lia)) as (b & Eb & Hb).
  unfold has_spare in Hsp. rewrite Eb in Hsp. apply Z.ltb_ge in Hsp.
  unfold hgic_iwpriv_do. rewrite (bind_lift _ _ _ _ (strlen_app l _ Hl)).
  rewrite Z.max_id, Z.add_0_r, s32_id by lia. unfold block. destruct (Z.ltb_spec (zlen l) 0); [lia|]. rewrite Eb.
  erewrite bind_lift; [|apply mem_write_ok; rewrite ?zlen_replicate; lia]. rewrite (bind_lift _ _ _ _ (cstr_app l _ Hl)).
  set (b1 := _ ++ _ ++ _). assert (zlen b1 = zlen l) as Hb1.
  { unfold b1. rewrite !zlen_app, zlen_ztake, zlen_zdrop, zlen_replicate by (rewrite ?zlen_replicate; lia). lia. }
  unfold bind at 1, lift. unfold mem_write. rewrite zlen_app. change (zlen [0]) with 1.
  destruct (Z.leb_spec 0 0); [|lia]. by destruct (Z.leb_spec (0 + (zlen l + 1)) (zlen b1)); [lia|].
Qed.

(** A setting printed as a whole needs a byte behind its line; one whose data is
    copied behind the line does not. *)
Definition setting_line (n : string) (value : list Z) : list Z := line ifname (str "set") (str n ++ 61 :: value).
Definition with_spare (l : list Z) (o : outcome (Z * process)) : outcome (Z * process) :=
  if has_spare malloc (zlen l) then o else Fault OutOfBounds.

Lemma do_cmd_runs n h value z :
  (n, h) ∈ hgpriv_sets stk sc -> no_nul value -> zlen value < 2 ^ 15 ->
  do_cmd stk sc rootdir HGIC malloc (setting_line n value ++ 0 :: z) p = with_spare (setting_line n value) (setting_effect h value p).
Proof.
  intros Hin Hv Hl. destruct (setting_name n h Hin) as [Hn Hnn]. unfold with_spare, setting_line, do_cmd, bind.
  assert (no_nul (str n ++ 61 :: value)) as Ht by (by apply Forall_app; split; [|constructor]).
  destruct (has_spare _ _) eqn:Hsp.
  - rewrite <- (set_proc_effect n h value Hin) by lia.
    rewrite (do_set (str n ++ 61 :: value) z [] None 0); [|done|lia|rewrite zlen_app, zlen_cons; lia|by right|done].
    rewrite app_nil_r. destruct (hgicf_ioctl_set_proc _ _ _ _) as [[r d']|f]; done.
  - rewrite do_overflows; [done|by apply line_no_nul; [apply ifname_no_nul|repeat constructor|]| |done].
    rewrite line_zlen, zlen_app, zlen_cons by done. pose proof (zlen_nonneg ifname). lia.
Qed.

Context (m : list Z).
Hypothesis Hm : cstr m = Ret ifname.
Hypothesis Hmax : zlen ifname <= 15.

Lemma cstr_lit n : no_nul (str n) -> cstr (lit n) = Ret (str n).
Proof. intros H. by apply cstr_app. Qed.

(** "<interface> set <name>=" and what the rest of the format prints. *)
Lemma format_setting n h fmt args t :
  (n, h) ∈ hgpriv_sets stk sc -> format Text fmt args = Ret t ->
  format Text (str "%s set %s=" ++ fmt) (AMem m :: AMem (lit n) :: args) = Ret (line ifname (str "set") (str n ++ 61 :: t)).
Proof.
  intros Hin Ef. destruct (setting_name n h Hin) as [_ Hn].
  change (str "%s set %s=" ++ fmt) with (37 :: 115 :: 32 :: str "set" ++ 32 :: 37 :: 115 :: [61] ++ fmt).
  rewrite (format_line ifname m (lit n) (str "set") _ _ (str n)) by (done || (by apply cstr_lit) || (by repeat constructor)).
  by rewrite format_lit, Ef by (by repeat constructor).
Qed.

Lemma setting_line_zlen n h t : (n, h) ∈ hgpriv_sets stk sc -> zlen (line ifname (str "set") (str n ++ 61 :: t)) <= 39 + zlen t.
Proof. intros Hin. destruct (setting_name n h Hin). rewrite line_zlen, zlen_app, zlen_cons by done. lia. Qed.

Lemma set_int_runs n h v :
  (n, h) ∈ hgpriv_sets stk sc ->
  hgic_iwpriv_set_int stk sc rootdir HGIC malloc m (lit n) v p
  = with_spare (setting_line n (signed_text (s32 v))) (setting_effect h (signed_text (s32 v)) p).
Proof.
  intros Hin. pose proof (int_text_zlen (s32 v) (s32_range v)). pose proof (s32_range v).
  unfold hgic_iwpriv_set_int. change (str "%s set %s=%d") with (str "%s set %s=" ++ [37; 100]).
  assert (format Text [37; 100] [AInt v] = Ret (signed_text (s32 v))) as Ef by (rewrite format_d; cbn [format obind]; by rewrite app_nil_r).
  pose proof (setting_line_zlen n h (signed_text (s32 v)) Hin).
  rewrite (bind_lift _ _ _ _ (print_cmd_ok 64 _ _ _ (format_setting n h _ _ _ Hin Ef) ltac:(lia))).
  apply do_cmd_runs; [done|apply signed_text_no_nul; lia|lia].
Qed.

Lemma set_bytes_runs n h data len :
  (n, h) ∈ hgpriv_sets stk sc -> 0 <= len <= zlen data -> len < 2 ^ 15 ->
  hgic_iwpriv_set_bytes stk sc rootdir HGIC malloc m (lit n) data len p
  = if 0 <? len then setting_effect h (ztake len data) p else with_spare (setting_line n []) (setting_effect h [] p).
Proof.
  intros Hin Hd Hl. destruct (setting_name n h Hin) as [Hn Hnn]. unfold hgic_iwpriv_set_bytes.
  assert (zlen (ztake len data) = len) as Hk by (by apply zlen_ztake).
  pose proof (setting_line_zlen n h [] Hin) as Hz. rewrite zlen_nil in Hz.
  rewrite (bind_lift _ _ _ _ (print_cmd_ok 128 _ _ _ (format_setting n h [] [] [] Hin eq_refl) ltac:(lia))).
  assert (no_nul (str n ++ [61])) as Hnn1 by (by apply Forall_app; split; [|repeat constructor]).
  assert (0 < len \/ has_spare malloc (zlen (setting_line n [])) = true ->
    forall z, (let! r := iwpriv_do (setting_line n [] ++ 0 :: z) (Some data) len None 0 in ret (fst r)) p = setting_effect h (ztake len data) p) as K.
  { intros Hsp z. rewrite <- (set_proc_effect n h _ Hin) by lia. unfold bind, setting_line in *.
    rewrite (do_set (str n ++ [61]) _ (ztake len data) (Some data) len);
      [|done|lia|rewrite zlen_app; change (zlen [61]) with 1; lia|done|split; [done|lia]].
    rewrite <- app_assoc. cbn [app]. destruct (hgicf_ioctl_set_proc _ _ _ _) as [[r d']|f]; done. }
  destruct (Z.ltb_spec 0 len) as [|H0]; [by apply K; left|]. unfold with_spare.
  assert (len = 0) as -> by lia. destruct (has_spare _ _) eqn:Hsp; [rewrite K by (by right); by rewrite ztake_0|].
  unfold bind. fold (setting_line n []). rewrite do_overflows; [done|by apply line_no_nul; [apply ifname_no_nul|repeat constructor|]| |done].
  unfold setting_line in *. pose proof (zlen_nonneg ifname). lia.
Qed.

(** An address given as six bytes. *)
Lemma set_mac_runs n h mac b0 b1 b2 b3 b4 b5 :
  (n, h) ∈ hgpriv_sets stk sc -> Forall is_byte [b0; b1; b2; b3; b4; b5] ->
  mac_is_text mac = Ret false -> mem_read mac 0 6 = Ret [b0; b1; b2; b3; b4; b5] ->
  hgic_iwpriv_set_mac stk sc rootdir HGIC malloc m (lit n) mac p
  = with_spare (setting_line n (mac_text b0 b1 b2 b3 b4 b5)) (setting_effect h (mac_text b0 b1 b2 b3 b4 b5) p).
Proof.
  intros Hin Hb Ht Er. unfold hgic_iwpriv_set_mac. rewrite (bind_lift _ _ _ _ Ht).
  assert (MACARG mac = Ret (map AInt [b0; b1; b2; b3; b4; b5])) as Ea.
  { unfold MACARG. rewrite Er. cbn [obind map].
    repeat match goal with H : Forall _ (_ :: _) |- _ => apply Forall_cons in H as [? H] end.
    assert (forall b, is_byte b -> Z.land b 0xff = b) as K.
    { intros b Hb0. change 0xff with (Z.ones 8). rewrite Z.land_ones by lia. by apply Z.mod_small. }
    by rewrite !K by done. }
  assert (no_nul (mac_text b0 b1 b2 b3 b4 b5)) as Hnn.
  { repeat match goal with H : Forall _ (_ :: _) |- _ => apply Forall_cons in H as [? H] end. unfold mac_text.
    assert (forall b, is_byte b -> no_nul (hex_byte b)) as K.
    { intros b Hb0. eapply Forall_impl; [by apply hex_byte_no_colon|]. by intros ? []. }
    unfold no_nul in *. repeat first [apply Forall_app; split | by apply K | constructor; [done|]]. }
  assert (format Text MACSTR (map AInt [b0; b1; b2; b3; b4; b5]) = Ret (mac_text b0 b1 b2 b3 b4 b5)) as Ef.
  { pose proof (format_macstr b0 b1 b2 b3 b4 b5 [] [] Hb) as E. rewrite app_nil_r in E. rewrite app_nil_r in E. rewrite E. cbn [format obind].
    by rewrite app_nil_r. }
  pose proof (setting_line_zlen n h (mac_text b0 b1 b2 b3 b4 b5) Hin) as Hz. change (zlen (mac_text _ _ _ _ _ _)) with 17 in Hz.
  unfold bind at 1. rewrite (bind_lift _ _ _ _ Ea).
  rewrite (print_cmd_ok 64 _ _ _ (format_setting n h _ _ _ Hin Ef) ltac:(lia)). cbn [lift].
  apply do_cmd_runs; [done|done|change (zlen (mac_text _ _ _ _ _ _)) with 17; lia].
Qed.

(** Numbers with commas. *)
Lemma set_ints_runs n h vals :
  (n, h) ∈ hgpriv_sets stk sc -> zlen vals <= 18 ->
  hgic_iwpriv_set_ints stk sc rootdir HGIC malloc m (lit n) vals p
  = with_spare (setting_line n (ints_text true vals)) (setting_effect h (ints_text true vals) p).
Proof.
  intros Hin Hv. pose proof (ints_text_zlen true vals). pose proof (setting_line_zlen n h [] Hin) as Hz. rewrite zlen_nil in Hz.
  pose proof (zlen_nonneg vals). unfold hgic_iwpriv_set_ints.
  rewrite (bind_lift _ _ _ _ (sprintf_zeros [] 256 _ _ _ (format_setting n h [] [] [] Hin eq_refl) ltac:(lia))). cbn [fst snd app].
  set (l := line ifname _ _) in *.
  rewrite (bind_lift _ _ _ _ (print_ints_ok vals l (256 - zlen l) true ltac:(lia))). subst l.
  set (k := Z.to_nat _). assert (exists j, k = S j) as [j ->] by (exists (pred k); unfold k; lia). cbn [replicate].
  assert (line ifname (str "set") (str n ++ [61]) ++ ints_text true vals = line ifname (str "set") (str n ++ 61 :: ints_text true vals)) as ->.
  { unfold line, procfs_text. by rewrite <- !app_assoc, <- !app_comm_cons, <- !app_assoc, <- !app_comm_cons, <- !app_assoc. }
  apply do_cmd_runs; [done|apply ints_text_no_nul|lia].
Qed.

Lemma set_intarray_runs n h vals cnt :
  (n, h) ∈ hgpriv_sets stk sc -> 0 <= cnt <= zlen vals -> cnt <= 39 ->
  hgic_iwpriv_set_intarray stk sc rootdir HGIC malloc m (lit n) vals cnt p
  = with_spare (setting_line n (ints_text true (ztake cnt vals))) (setting_effect h (ints_text true (ztake cnt vals)) p).
Proof.
  intros Hin Hc Hv. pose proof (ints_text_zlen true (ztake cnt vals)) as Hl. rewrite zlen_ztake in Hl by lia.
  pose proof (setting_line_zlen n h [] Hin) as Hz. rewrite zlen_nil in Hz. unfold hgic_iwpriv_set_intarray.
  rewrite (bind_lift _ _ _ _ (sprintf_zeros [] 512 _ _ _ (format_setting n h [] [] [] Hin eq_refl) ltac:(lia))). cbn [fst snd app].
  assert (oguard (cnt <=? zlen vals) OutOfBounds = Ret tt) as Eg by (unfold oguard; destruct (Z.leb_spec cnt (zlen vals)); [done|lia]).
  rewrite (bind_lift _ _ _ _ Eg). set (l := line ifname _ _) in *.
  rewrite (bind_lift _ _ _ _ (print_ints_ok (ztake cnt vals) l (512 - zlen l) true ltac:(lia))). subst l.
  set (k := Z.to_nat _). assert (exists j, k = S j) as [j ->] by (exists (pred k); unfold k; lia). cbn [replicate].
  assert (line ifname (str "set") (str n ++ [61]) ++ ints_text true (ztake cnt vals)
    = line ifname (str "set") (str n ++ 61 :: ints_text true (ztake cnt vals))) as ->.
  { unfold line, procfs_text. by rewrite <- !app_assoc, <- !app_comm_cons, <- !app_assoc, <- !app_comm_cons, <- !app_assoc. }
  apply do_cmd_runs; [done|apply ints_text_no_nul|lia].
Qed.
End AppLemmas.

(** The state of the process the properties start from: the application's
    environment is set up, the channel is quiet, and [m] holds the name of the
    interface. *)
Record process_ok (rootdir HGIC : list Z) (malloc : Z -> option (list Z)) (m ifname : list Z) (p : process) : Prop := {
  po_env : app_env rootdir HGIC malloc;
  po_quiet : quiet (d_w (p_dev p));
  po_blank : no_blank ifname;
  po_name : cstr m = Ret ifname;
  po_max : zlen ifname <= 15 }.

(** *** Numbers from the application to the chip *)
Lemma ints_text_numerals vals :
  Forall (fun v => 0 < v < 2 ^ 31) vals -> vals <> [] ->
  ints_text true vals ++ [0] = numerals (map signed_text vals) 0 [].
Proof.
  assert (forall v, 0 < v < 2 ^ 31 -> s32 v = v) as K by (intros; apply s32_id; lia).
  intros H Hn. destruct H as [|v vals Hv H]; [done|]. clear Hn. cbn [ints_text map app]. rewrite K by done.
  revert v Hv. induction H as [|v' vals Hv' H IH]; intros v Hv; [cbn [ints_text map numerals]; by rewrite app_nil_r|].
  cbn [ints_text map numerals app]. rewrite K by done. rewrite <- app_assoc, <- app_comm_cons. f_equal. f_equal.
  by apply (IH v').
Qed.

Lemma number_value_numeral v : 0 < v < 2 ^ 31 -> value_numeral (signed_text v) /\ dec_val (signed_text v) = v.
Proof.
  intros Hv. unfold signed_text. destruct (Z.ltb_spec v 0); [lia|].
  destruct (unsigned_text_spec v ltac:(lia)) as (D & V & _ & L & _). split; [|done]. split; [done|]. split; [|lia].
  intros Hh. destruct D as [D Dn]. destruct (unsigned_text v) as [|c ds] eqn:E; [done|]. injection Hh as ->.
  apply Forall_cons in D as [_ D]. unfold dec_val in V. cbn [fold_left] in V. change (0 * 10 + (48 - 48)) with 0 in V.
  assert (forall ds a k, Forall (fun c => isdigit c = true) ds -> 0 <= a < k -> fold_left (fun a c => a * 10 + (c - 48)) ds a < k * 10 ^ zlen ds) as K.
  { clear. induction ds as [|c ds IH]; intros a k Hd Ha; cbn [fold_left]; [rewrite zlen_nil; lia|].
    apply Forall_cons in Hd as [Hc%isdigit_range Hd]. rewrite zlen_cons, Z.pow_add_r by (pose proof (zlen_nonneg ds); lia).
    pose proof (IH (a * 10 + (c - 48)) (k * 10) Hd ltac:(lia)). lia. }
  specialize (K ds 0 1 D ltac:(lia)). rewrite V in K. rewrite zlen_cons in L.
  destruct (Z_lt_ge_dec v 10) as [Hs|Hs].
  - assert (ds = []) as ->; [|cbn in V; lia].
    destruct (unsigned_text_spec v ltac:(lia)) as (_ & _ & _ & _ & L1). rewrite E, zlen_cons in L1. specialize (L1 Hs).
    destruct ds; [done|]. rewrite zlen_cons in L1. pose proof (zlen_nonneg ds). lia.
  - specialize (L ltac:(lia)). replace (1 + zlen ds - 1) with (zlen ds) in L by lia. lia.
Qed.

(** Numbers that were printed are picked from the text again. *)
Lemma picks_printed conv vals size (k : list Z * Z -> M world Z) w :
  Forall (fun n => 0 < n < 2 ^ 31) vals -> vals <> [] -> zlen vals <= size ->
  Iwpriv.nonempty (Some (ints_text true vals ++ [0]))
    (let! v := hgic_pick_values conv (Some (ints_text true vals ++ [0])) size in k v) w
  = k (map conv vals ++ replicate (Z.to_nat size - length vals) 0, zlen vals) w.
Proof.
  intros Hv Hne Hl. unfold Iwpriv.nonempty. rewrite (bind_lift _ _ _ _ (strlen_app _ [] (ints_text_no_nul true vals))).
  assert (Forall value_numeral (map signed_text vals) /\ map conv vals = map (fun s => conv (dec_val s)) (map signed_text vals)) as [K1 K2].
  { clear -Hv. induction Hv as [|n vals Hn _ [IH1 IH2]]; [done|]. destruct (number_value_numeral n Hn) as [N1 N2].
    split; [by constructor|]. cbn [map]. by rewrite N2, IH2. }
  destruct (Z.eqb_spec (zlen (ints_text true vals)) 0) as [E0|_].
  { exfalso. assert (zlen (ints_text true vals ++ [0]) = 1) as E1 by (rewrite zlen_app, E0; done).
    rewrite ints_text_numerals in E1 by done. destruct vals as [|n vals]; [done|]. cbn [map] in *.
    apply Forall_cons in K1 as [[[_ Kn] _] _]. destruct (signed_text n) as [|c t]; [done|].
    destruct vals; cbn [map numerals app] in E1; rewrite zlen_cons in E1; [rewrite zlen_app in E1; change (zlen [0]) with 1 in E1; pose proof (zlen_nonneg t); lia|].
    match type of E1 with 1 + zlen (_ ++ _ :: ?r) = _ => rewrite zlen_app, zlen_cons in E1; pose proof (zlen_nonneg r) end.
    pose proof (zlen_nonneg t). lia. }
  rewrite ints_text_numerals by done. rewrite (bind_Ret _ _ _ _ _ (pick_values_run conv _ size w K1 ltac:(by destruct vals) ltac:(unfold zlen in *; rewrite length_map; lia))).
  rewrite <- K2, length_map. unfold zlen. by rewrite length_map.
Qed.

Lemma put_chans_ok l pre old :
  zlen old = 2 * zlen l -> put_chans (pre ++ old) (zlen pre) l = Ret (pre ++ concat (map put_unaligned_le16 l)).
Proof.
  revert pre old. induction l as [|c l IH]; intros pre old Ho; cbn [put_chans map concat].
  - change (zlen (@nil Z)) with 0 in Ho. destruct old; [done|]. rewrite zlen_cons in Ho. pose proof (zlen_nonneg old). lia.
  - rewrite zlen_cons in Ho. pose proof (zlen_nonneg l). unfold put16_at.
    rewrite (mem_write_mid _ pre (ztake 2 old) (zdrop 2 old)) by (rewrite ?ztake_zdrop, ?zlen_ztake by lia; done). cbn [obind].
    rewrite app_assoc. replace (zlen pre + 2) with (zlen (pre ++ put_unaligned_le16 c)) by (by rewrite zlen_app).
    rewrite IH by (rewrite zlen_zdrop; lia). by rewrite <- app_assoc.
Qed.

Definition chan_list_payload (chans : list Z) : list Z :=
  put_unaligned_le16 (zlen chans) ++ concat (map put_unaligned_le16 chans).

Lemma concat_le16_zlen l : zlen (concat (map put_unaligned_le16 l)) = 2 * zlen l.
Proof. induction l as [|c l IH]; cbn [map concat]; [done|]. rewrite zlen_app, zlen_cons, IH. change (zlen (put_unaligned_le16 c)) with 2. lia. Qed.

Lemma chan_list_payload_zlen chans : zlen (chan_list_payload chans) = (1 + zlen chans) * 2.
Proof. unfold chan_list_payload. rewrite zlen_app, concat_le16_zlen. change (zlen (put_unaligned_le16 _)) with 2. lia. Qed.

Lemma set_chan_list_eq ifidx chans w :
  quiet w -> 0 < zlen chans <= 32 ->
  hgic_fwctrl_set_chan_list ifidx (chans ++ replicate (32 - length chans) 0) (zlen chans) w
  = hgic_fwctrl_set_bytes ifidx HGIC_CMD_SET_CHAN_LIST (Some (chan_list_payload chans)) (zlen (chan_list_payload chans)) w.
Proof.
  intros Hq Hl. unfold hgic_fwctrl_set_chan_list. rewrite (u32_id (zlen chans)), (u32_id (1 + zlen chans)) by lia.
  rewrite (bind_Ret _ _ _ _ _ (kzalloc_quiet ((1 + zlen chans) * 2) w Hq ltac:(lia))).
  set (old := replicate _ 0). assert (zlen old = (1 + zlen chans) * 2) as Ho by (apply zlen_replicate; lia).
  assert (put16_at old 0 (zlen chans) = Ret (put_unaligned_le16 (zlen chans) ++ zdrop 2 old)) as E1.
  { unfold put16_at. by rewrite (mem_write_mid _ [] (ztake 2 old) (zdrop 2 old)) by (rewrite ?zlen_ztake by lia; rewrite ?ztake_zdrop; done). }
  rewrite (bind_lift _ _ _ _ E1).
  rewrite (bind_lift _ _ _ _ (mem_read_mid _ [] chans (replicate (32 - length chans) 0) 0 (zlen chans) eq_refl eq_refl eq_refl)).
  rewrite (bind_lift _ _ _ _ (put_chans_ok chans (put_unaligned_le16 (zlen chans)) (zdrop 2 old) ltac:(rewrite zlen_zdrop by lia; lia))).
  by rewrite chan_list_payload_zlen.
Qed.

Lemma set_chan_list_emits ifidx chans w :
  quiet w -> w_env w = [] -> 0 < zlen chans <= 32 ->
  emits w (hgic_fwctrl_set_chan_list ifidx (chans ++ replicate (32 - length chans) 0) (zlen chans)) ifidx HGIC_CMD_SET_CHAN_LIST
    (chan_list_payload chans).
Proof.
  intros Hq He Hl. pose proof (chan_list_payload_zlen chans) as Hpl.
  destruct (set_bytes_emits ifidx HGIC_CMD_SET_CHAN_LIST (Some (chan_list_payload chans)) (zlen (chan_list_payload chans)) w)
    as (s & w' & a & E & Ht & Hs); [done|done|lia|simpl; lia|].
  exists s, w', a. rewrite set_chan_list_eq by done. split; [exact E|]. split; [done|]. rewrite Hs. unfold payload. by rewrite ztake_all by lia.
Qed.

(** ** Properties *)

(** C21. Every setting of the application library is the driver's handler of its
    name, when [malloc] gives the block it is asked for.  Each of the functions for
    a number, a text or an address names an entry of the driver's table, and calling
    it leaves the device exactly as that handler does on the decimal text, the bytes
    or the printed address, returns the handler's result, and leaves the memory of
    the process alone; so do the functions for several numbers, for every entry of
    the table.  But a line without data behind it -- that is every setting except a
    text that is not empty -- is copied with its terminator into a block of its
    length without it: unless the block happens to have a byte to spare, that is a
    write outside the block. *)
Theorem app_settings_run_handlers stk sc rootdir HGIC malloc m ifname p :
  process_ok rootdir HGIC malloc m ifname p ->
  let sets := hgpriv_sets stk sc in
  let alone n value h := if has_spare malloc (zlen (setting_line ifname n value)) then setting_effect h value p else Fault OutOfBounds in
  (forall n f, (n, f) ∈ int_settings stk sc rootdir HGIC malloc ->
     exists h, (n, h) ∈ sets /\ forall v, f m v p = alone n (signed_text (s32 v)) h) /\
  (forall n f, (n, f) ∈ text_settings stk sc rootdir HGIC malloc ->
     exists h, (n, h) ∈ sets /\ forall s t, cstr s = Ret t -> zlen t < 2 ^ 15 ->
       f m s p = if 0 <? zlen t then setting_effect h t p else alone n [] h) /\
  (forall n f, (n, f) ∈ mac_settings stk sc rootdir HGIC malloc ->
     exists h, (n, h) ∈ sets /\ forall mac b0 b1 b2 b3 b4 b5,
       Forall is_byte [b0; b1; b2; b3; b4; b5] -> mac_is_text mac = Ret false ->
       mem_read mac 0 6 = Ret [b0; b1; b2; b3; b4; b5] ->
       f m mac p = alone n (mac_text b0 b1 b2 b3 b4 b5) h) /\
  (forall n h vals, (n, h) ∈ sets -> zlen vals <= 18 ->
     hgic_iwpriv_set_ints stk sc rootdir HGIC malloc m (lit n) vals p = alone n (ints_text true vals) h).
Proof.
  intros [He Hq Hb Hm Hmax] sets alone.
  assert (forall {B} (l : list (string * B)) n f, (n, f) ∈ l -> forallb (fun k => existsb (String.eqb k) (map fst sets)) (map fst l) = true ->
    exists h, (n, h) ∈ sets) as K.
  { intros B l n f Hin Hl. rewrite forallb_forall in Hl. specialize (Hl n).
    assert (In n (map fst l)) as Hn by (apply list_elem_of_In, list_elem_of_fmap; by exists (n, f)).
    apply Hl, existsb_exists in Hn as (k & Hk & E%String.eqb_eq). subst k.
    apply list_elem_of_In, list_elem_of_fmap in Hk as ([n' h] & -> & Hk). by exists h. }
  split; [|split; [|split]].
  - intros n f Hin. destruct (K _ _ n f Hin ltac:(by vm_compute)) as [h Hh]. exists h. split; [done|]. intros v.
    assert (f m v p = hgic_iwpriv_set_int stk sc rootdir HGIC malloc m (lit n) v p) as ->.
    { unfold int_settings in Hin. repeat (apply elem_of_cons in Hin as [[= -> ->]|Hin]; [reflexivity|]). by apply not_elem_of_nil in Hin. }
    apply (set_int_runs stk sc rootdir HGIC malloc He ifname); done || lia || apply Hq.
  - intros n f Hin. destruct (K _ _ n f Hin ltac:(by vm_compute)) as [h Hh]. exists h. split; [done|]. intros s t Hs Ht.
    assert (f m s p = hgic_iwpriv_set_bytes stk sc rootdir HGIC malloc m (lit n) s (zlen t) p) as ->.
    { assert (strlen s = Ret (zlen t)) as Hl by (unfold strlen; by rewrite Hs).
      unfold text_settings in Hin. repeat (apply elem_of_cons in Hin as [[= -> ->]|Hin]; [exact (bind_lift _ _ _ _ Hl)|]). by apply not_elem_of_nil in Hin. }
    destruct (cstr_inv _ _ Hs) as (l & -> & _). pose proof (zlen_nonneg t).
    replace (setting_effect h t p) with (setting_effect h (ztake (zlen t) (t ++ 0 :: l)) p) by (by rewrite ztake_app_length).
    unfold alone. fold (with_spare malloc (setting_line ifname n []) (setting_effect h [] p)).
    apply (set_bytes_runs stk sc rootdir HGIC malloc He ifname); done || apply Hq || (rewrite ?zlen_app; pose proof (zlen_nonneg (0 :: l)); lia).
  - intros n f Hin. destruct (K _ _ n f Hin ltac:(by vm_compute)) as [h Hh]. exists h. split; [done|]. intros mac b0 b1 b2 b3 b4 b5 Hby Ht Er.
    assert (f m mac p = hgic_iwpriv_set_mac stk sc rootdir HGIC malloc m (lit n) mac p) as ->.
    { unfold mac_settings in Hin. repeat (apply elem_of_cons in Hin as [[= -> ->]|Hin]; [reflexivity|]). by apply not_elem_of_nil in Hin. }
    apply (set_mac_runs stk sc rootdir HGIC malloc He ifname); done || lia || apply Hq.
  - intros n h vals Hin Hl. apply (set_ints_runs stk sc rootdir HGIC malloc He ifname); done || lia || apply Hq.
Qed.

(** A process over the demonstration device. *)
Definition demo_malloc (n : Z) : option (list Z) := if n <? 2 ^ 30 then Some (replicate (Z.to_nat (n + 8)) 0) else None.
Definition demo_process (scripts : list (list action)) : process := Process (demo_dev scripts) [].
Lemma demo_env : app_env (str "hgicf") (lit "hgicf") demo_malloc.
Proof.
  split; [done|by vm_compute|]. intros n Hn. unfold demo_malloc. destruct (Z.ltb_spec n (2 ^ 30)); [|lia].
  eexists. split; [reflexivity|]. rewrite zlen_replicate; lia.
Qed.
Lemma demo_spare n : 0 <= n < 2 ^ 20 -> has_spare demo_malloc n = true.
Proof. intros Hn. unfold has_spare, demo_malloc. destruct (Z.ltb_spec n (2 ^ 30)); [|lia]. rewrite zlen_replicate; lia. Qed.
Lemma demo_process_ok scripts : process_ok (str "hgicf") (lit "hgicf") demo_malloc (lit "hg0") (str "hg0") (demo_process scripts).
Proof. split; [apply demo_env|apply demo_quiet|by repeat constructor|done|by vm_compute]. Qed.

(** An allocator without slack. *)
Definition exact_malloc (n : Z) : option (list Z) := if n <? 2 ^ 30 then Some (replicate (Z.to_nat n) 0) else None.
Lemma exact_process_ok scripts : process_ok (str "hgicf") (lit "hgicf") exact_malloc (lit "hg0") (str "hg0") (demo_process scripts).
Proof.
  split; [|apply demo_quiet|by repeat constructor|done|by vm_compute]. split; [done|by vm_compute|]. intros n Hn. unfold exact_malloc.
  destruct (Z.ltb_spec n (2 ^ 30)); [|lia]. eexists. split; [reflexivity|]. rewrite zlen_replicate; lia.
Qed.

Lemma app_settings_run_handlers_witness :
  let p := demo_process [] in
  (exists h, ("channel"%string, h) ∈ hgpriv_sets [] true /\
     hgic_iwpriv_set_channel [] true (str "hgicf") (lit "hgicf") demo_malloc (lit "hg0") 149 p = setting_effect h (str "149") p) /\
  hgic_iwpriv_set_freqrange [] true (str "hgicf") (lit "hgicf") demo_malloc (lit "hg0") 9080 9240 8 p
  = setting_effect Iwpriv.hgic_iwpriv_set_freq_range (str "9080,9240,8") p /\
  hgic_iwpriv_set_channel [] true (str "hgicf") (lit "hgicf") exact_malloc (lit "hg0") 149 p = Fault OutOfBounds.
Proof.
  intros p. destruct (app_settings_run_handlers [] true _ _ _ _ _ p (demo_process_ok [])) as (H1 & _ & _ & H4).
  destruct (app_settings_run_handlers [] true _ _ _ _ _ p (exact_process_ok [])) as (H1' & _). split; [|split].
  - destruct (H1 "channel"%string (hgic_iwpriv_set_channel [] true (str "hgicf") (lit "hgicf") demo_malloc)) as (h & Hh & E);
      [by apply list_elem_of_here|]. exists h. split; [done|exact (E 149)].
  - refine (H4 "freq_range"%string _ [9080; 9240; 8] _ _); [|by vm_compute]. do 9 apply list_elem_of_further. by apply list_elem_of_here.
  - destruct (H1' "channel"%string (hgic_iwpriv_set_channel [] true (str "hgicf") (lit "hgicf") exact_malloc)) as (h & _ & E);
      [by apply list_elem_of_here|]. exact (E 149).
Defined.

(** What the chip gets of a setting: one command frame. *)
Definition app_emits (f : M process Z) (p : process) (id : Z) (pl : list Z) : Prop :=
  exists v r s p', d_vif (p_dev p) = Some v /\ f p = Ret (r, p') /\ p_heap p' = p_heap p /\
    fc_txq (w_ctrl (d_w (p_dev p'))) = [s] /\
    skb_data s = cmd_frame (v_fwifidx v) id (fc_cookie (w_ctrl (d_w (p_dev p)))) pl.

Lemma effect_emits h value p v id pl :
  d_vif (p_dev p) = Some v -> emits (d_w (p_dev p)) (h (v_fwifidx v) (Some (value ++ [0])) (zlen value)) (v_fwifidx v) id pl ->
  app_emits (setting_effect h value) p id pl.
Proof.
  intros Hv (s & w' & r & E & Ht & Hs). exists v, (s32 r), s, (set_p_dev (set_d_w w' (p_dev p)) p). split; [done|].
  split; [|by destruct p as [[] ?]]. unfold setting_effect, fwifidx, bind, gets, lift, ret. rewrite Hv. cbn [deref].
  by rewrite on_world_fail, E.
Qed.

Lemma spare_setting stk sc malloc ifname n h value o :
  (forall n, 0 <= n < 2 ^ 20 -> has_spare malloc n = true) -> zlen ifname <= 15 -> (n, h) ∈ hgpriv_sets stk sc -> zlen value < 2 ^ 15 ->
  with_spare malloc (setting_line ifname n value) o = o.
Proof.
  intros Hsp Hmax Hin Hv. unfold with_spare. rewrite Hsp; [done|]. split; [apply zlen_nonneg|].
  pose proof (setting_line_zlen stk sc ifname Hmax n h value Hin). unfold setting_line. lia.
Qed.

(** Channels and frequencies travel from the application to the chip
    unchanged, when the blocks of [malloc] have a byte to spare.  The application's
    list of 1 to 32 channels is printed, parsed by the driver and sent as the count
    and the channels of one frame; the frequency range and its bandwidth as three
    words. *)
Lemma app_numbers_reach_firmware stk sc rootdir HGIC malloc m ifname p v :
  process_ok rootdir HGIC malloc m ifname p -> (forall n, 0 <= n < 2 ^ 20 -> has_spare malloc n = true) ->
  d_vif (p_dev p) = Some v -> w_env (d_w (p_dev p)) = [] ->
  (forall chans more, Forall (fun c => 0 < c < 2 ^ 16) chans -> 0 < zlen chans <= 32 ->
     app_emits (hgic_iwpriv_set_chan_list stk sc rootdir HGIC malloc m (chans ++ more) (zlen chans)) p
       HGIC_CMD_SET_CHAN_LIST (chan_list_payload chans)) /\
  (forall freq_start freq_end bw, Forall (fun n => 0 < n < 2 ^ 31) [freq_start; freq_end; bw] ->
     app_emits (hgic_iwpriv_set_freqrange stk sc rootdir HGIC malloc m freq_start freq_end bw) p
       HGIC_CMD_SET_FREQ_RANGE (concat (map put_unaligned_le32 [freq_start; freq_end; bw]))).
Proof.
  intros Hp Hsp Hv He. pose proof Hp as [Henv Hq Hb Hm Hmax]. pose proof (zlen_nonneg ifname).
  split.
  - intros chans more Hc Hl. pose proof (zlen_nonneg more).
    assert (Forall (fun n => 0 < n < 2 ^ 31) chans) as Hc' by (eapply Forall_impl; [exact Hc|]; simpl; lia).
    assert (hgic_iwpriv_set_chan_list stk sc rootdir HGIC malloc m (chans ++ more) (zlen chans) p
      = setting_effect Iwpriv.hgic_iwpriv_set_chan_list (ints_text true chans) p) as E.
    { assert (("chan_list"%string, Iwpriv.hgic_iwpriv_set_chan_list) ∈ hgpriv_sets stk sc) as Hin
        by (do 15 apply list_elem_of_further; by apply list_elem_of_here).
      rewrite <- (spare_setting stk sc malloc ifname _ _ (ints_text true chans) (setting_effect _ _ _) Hsp Hmax Hin ltac:(pose proof (ints_text_zlen true chans); lia)).
      replace (ints_text true chans) with (ints_text true (ztake (zlen chans) (chans ++ more))) by (by rewrite ztake_app_length).
      apply (set_intarray_runs stk sc rootdir HGIC malloc Henv ifname); try done; try apply Hq; rewrite ?zlen_app; lia. }
    unfold app_emits. rewrite E. apply (effect_emits _ _ _ v); [done|]. unfold emits, Iwpriv.hgic_iwpriv_set_chan_list.
    rewrite picks_printed by (done || lia || (intros E0; rewrite E0 in Hl; by destruct Hl)). cbn [fst snd].
    assert (map u16 chans = chans) as -> by (clear -Hc; induction Hc as [|c l Hc _ IH]; [done|]; cbn [map]; by rewrite IH, u16_id by lia).
    by apply set_chan_list_emits.
  - intros freq_start freq_end bw Hn.
    assert (hgic_iwpriv_set_freqrange stk sc rootdir HGIC malloc m freq_start freq_end bw p
      = setting_effect Iwpriv.hgic_iwpriv_set_freq_range (ints_text true [freq_start; freq_end; bw]) p) as E.
    { assert (("freq_range"%string, Iwpriv.hgic_iwpriv_set_freq_range) ∈ hgpriv_sets stk sc) as Hin
        by (do 9 apply list_elem_of_further; by apply list_elem_of_here).
      rewrite <- (spare_setting stk sc malloc ifname _ _ (ints_text true [freq_start; freq_end; bw]) (setting_effect _ _ _) Hsp Hmax Hin
        ltac:(pose proof (ints_text_zlen true [freq_start; freq_end; bw]) as Hz; change (zlen [freq_start; freq_end; bw]) with 3 in Hz; lia)).
      apply (set_ints_runs stk sc rootdir HGIC malloc Henv ifname); done || lia || apply Hq. }
    unfold app_emits. rewrite E. apply (effect_emits _ _ _ v); [done|]. unfold emits, Iwpriv.hgic_iwpriv_set_freq_range.
    rewrite picks_printed by done. cbn [fst snd map]. 
    pose proof (set_bytes_emits (v_fwifidx v) HGIC_CMD_SET_FREQ_RANGE (Some (concat (map put_unaligned_le32 [u32 freq_start; u32 freq_end; u32 bw])))
      12 (d_w (p_dev p)) Hq He ltac:(lia) ltac:(by vm_compute)) as A.
    repeat match goal with H : Forall _ (_ :: _) |- _ => apply Forall_cons in H as [? H] end. rewrite !u32_id in * by lia. exact A.
Qed.

Lemma app_numbers_reach_firmware_witness :
  let p := demo_process [] in
  app_emits (hgic_iwpriv_set_chan_list [] true (str "hgicf") (lit "hgicf") demo_malloc (lit "hg0") ([9080; 9160; 9240] ++ [7]) 3) p
    HGIC_CMD_SET_CHAN_LIST (put_unaligned_le16 3 ++ put_unaligned_le16 9080 ++ put_unaligned_le16 9160 ++ put_unaligned_le16 9240) /\
  app_emits (hgic_iwpriv_set_freqrange [] true (str "hgicf") (lit "hgicf") demo_malloc (lit "hg0") 9080 9240 8) p
    HGIC_CMD_SET_FREQ_RANGE (put_unaligned_le32 9080 ++ put_unaligned_le32 9240 ++ put_unaligned_le32 8).
Proof.
  intros p. destruct (app_numbers_reach_firmware [] true _ _ _ _ _ p demo_vif (demo_process_ok []) demo_spare eq_refl eq_refl) as [H1 H2]. split.
  - apply (H1 [9080; 9160; 9240] [7]); [repeat constructor|by vm_compute].
  - apply (H2 9080 9240 8). repeat constructor.
Defined.

Section Queries.
Context (stk : list Z) (sc : bool) (rootdir HGIC : list Z) (malloc : Z -> option (list Z)) (m ifname : list Z) (p : process).
Hypothesis Hp : process_ok rootdir HGIC malloc m ifname p.

(** The line of a query, in an array of 128 bytes. *)
Lemma query_line n t :
  cstr n = Ret t -> zlen t <= 100 ->
  print_cmd 128 (str "%s get %s") [AMem m; AMem n]
  = Ret (line ifname (str "get") t ++ 0 :: replicate (Z.to_nat (128 - zlen (line ifname (str "get") t) - 1)) 0) /\
  zlen (line ifname (str "get") t) < 128.
Proof.
  intros Hn Ht. destruct Hp as [_ _ _ Hm Hmax].
  assert (zlen (line ifname (str "get") t) < 128) as Hl by (unfold line; rewrite procfs_text_zlen by done; lia).
  split; [|done]. apply print_cmd_ok; [|done].
  change (str "%s get %s") with (37 :: 115 :: 32 :: str "get" ++ 32 :: 37 :: 115 :: []).
  rewrite (format_line ifname m n (str "get") [] [] t) by (done || by repeat constructor). cbn [format obind]. by rewrite app_nil_r.
Qed.

(** A query answered with a text: the application gets the text. *)
Lemma query_answer n t a rest d' :
  cstr n = Ret t -> zlen t <= 100 -> zlen a <= 100 -> 0 < zlen a ->
  hgicf_ioctl_get_proc stk sc (fun _ => false) 0
    (Iwreq (zlen t + 128) ((t ++ replicate 128 0) ++ replicate 32 0) 0) (p_dev p) = Ret (0, Iwreq (zlen a) (a ++ rest) 0, d') ->
  exists l, (let! cmd := lift (print_cmd 128 (str "%s get %s") [AMem m; AMem n]) in ask stk sc rootdir HGIC malloc cmd 128) p
    = Ret (zlen a, a ++ 0 :: l, set_p_dev d' p).
Proof.
  intros Hn Ht Ha Ha0 E. destruct (query_line n t Hn Ht) as [Eq Hq]. destruct Hp as [Henv Hqu Hb Hm Hmax].
  rewrite (bind_lift _ _ _ _ Eq). set (z := replicate (Z.to_nat (128 - zlen (line ifname (str "get") t) - 1)) 0).
  assert (zlen z = 128 - zlen (line ifname (str "get") t) - 1) as Hz by (apply zlen_replicate; lia).
  destruct (cstr_inv _ _ Hn) as (_ & _ & Hnn).
  pose proof (zlen_nonneg t). pose proof (zlen_nonneg rest).
  pose proof (do_get stk sc rootdir HGIC malloc Henv ifname p (q_alloc _ Hqu) Hb ltac:(lia) t z
    (line ifname (str "get") t ++ 0 :: z) 128 _ d' Hnn ltac:(rewrite zlen_app, zlen_cons; lia) ltac:(lia) E) as D.
  cbv zeta in D. cbn [iw_length iw_user] in D. specialize (D ltac:(lia) ltac:(rewrite zlen_app; lia)).
  eexists. unfold ask. rewrite (bind_Ret _ _ _ _ _ D).
  cbn [fst snd iw_length iw_user default]. rewrite Z.min_l by lia. by rewrite ztake_app_length.
Qed.
End Queries.

(** A number asked for in a request with room for the answer. *)
Lemma number_ioctl stk sc d v name cmd size off ty id status body e room :
  quiet (d_w d) -> d_vif d = Some v -> (name, cmd, size, off) ∈ number_getters ->
  is_response_type ty = true -> zlen body < 2 ^ 30 ->
  w_env (d_w d) = answered_by (resp_frame ty (fc_cookie (w_ctrl (d_w d))) id status body) :: e ->
  let n := s16 status - off in
  let t := str name in
  size = 12%nat \/ -100 < n < 1000 -> 12 <= room < 60000 ->
  - 2 ^ 20 <= n < 2 ^ 20 /\ 0 < zlen (signed_text n) <= 11 /\ zlen t <= 15 /\ no_nul t /\
  exists s w' u,
    hgicf_ioctl_get_proc stk sc (fun _ => false) 0
      (Iwreq (zlen t + room) ((t ++ replicate (Z.to_nat room) 0) ++ replicate 32 0) 0) d
    = Ret (0, Iwreq (zlen (signed_text n)) (signed_text n ++ u) 0, set_d_w w' d) /\
    skb_data s = cmd_frame (number_ifidx name (v_fwifidx v)) cmd (fc_cookie (w_ctrl (d_w d))) [] /\
    w_sent w' = w_sent (d_w d) ++ [s].
Proof.
  intros Hq Hv Hin Hty Hb He n t Hn Hroom. pose proof (s16_range status) as Hs.
  destruct (number_getter_handler stk sc (fun _ => false) 0 name cmd size off Hin) as (_ & _ & Hsize & Hoff & _ & Hc & Hl & _).
  assert (zlen t <= 15) as Hl15.
  { clear -Hin. unfold number_getters in Hin. repeat (apply elem_of_cons in Hin as [[= -> _ _ _]|Hin]; [by vm_compute|]). by apply not_elem_of_nil in Hin. }
  set (rq := Iwreq (zlen t + room) ((t ++ replicate (Z.to_nat room) 0) ++ replicate 32 0) 0). pose proof (zlen_nonneg t).
  assert (request_ok rq) as Hrq.
  { split; cbn [rq iw_length iw_user iw_uncopied]; [lia| |done]. rewrite !zlen_app, zlen_replicate by lia. change (zlen (replicate 32 0)) with 32. lia. }
  assert (says rq t) as Hsays.
  { split; [done|]. split; [lia|]. exists (replicate (Z.to_nat room) 0 ++ replicate 32 0). split; [by rewrite app_assoc|]. right.
    replace (Z.to_nat room) with (S (Z.to_nat (room - 1))) by lia.
    exists 0, (replicate (Z.to_nat (room - 1)) 0 ++ replicate 32 0). split; [done|]. split; [by left|]. cbn [rq iw_length]. lia. }
  destruct (number_get_proc stk sc (fun _ => false) name cmd size off (v_fwifidx v) rq ty id status body e _ Hin Hq Hrq Hsays Hty Hb He)
    as (s & w' & E & Hd & Hse). fold n in E.
  assert (zlen (signed_text n) < Z.of_nat size) as Hfit.
  { pose proof (signed_text_zlen n 3 ltac:(lia) ltac:(lia)) as H3. change (10 ^ (3 - 1)) with 100 in H3. change (10 ^ 3) with 1000 in H3.
    pose proof (int_text_zlen n ltac:(lia)). destruct Hsize as [-> | ->]; lia. }
  rewrite answer_int_ok in E by (done || lia). destruct (Z.ltb_spec (zlen (signed_text n)) (Z.of_nat size)); [|lia].
  assert (0 < zlen (signed_text n) <= 11) as Ha by (split; [apply signed_text_nonempty; lia|apply int_text_zlen; lia]).
  split; [lia|]. split; [done|]. split; [done|]. split; [by apply clean_no_nul|].
  assert (put_answer rq (signed_text n) = Iwreq (zlen (signed_text n)) (signed_text n ++ zdrop (zlen (signed_text n)) (iw_user rq)) 0) as Epa.
  { unfold put_answer. rewrite Z.min_l by (cbn [rq iw_length]; lia). by rewrite ztake_all by lia. }
  rewrite Epa in E. exists s, w', (zdrop (zlen (signed_text n)) (iw_user rq)). split; [|done].
  unfold hgicf_ioctl_get_proc, fwifidx, bind, gets, lift, ret. rewrite Hv. cbn [deref]. rewrite on_world_fail. fold rq. by rewrite E.
Qed.

(** A number asked for is the number the chip reported.  For each query of
    the library that the driver answers with one number: one frame of its
    command goes out, and when the chip answers with a status the function
    returns that 16-bit value (less 0x1000 for the signal), negative ones as well,
    and leaves the memory of the process alone; only the three numbers the driver
    prints into four bytes are limited to what fits. *)
Lemma app_queries_return_number stk sc rootdir HGIC malloc m ifname p v name f cmd size off ty id status body e :
  process_ok rootdir HGIC malloc m ifname p -> d_vif (p_dev p) = Some v ->
  (name, cmd, size, off) ∈ number_getters -> (name, f) ∈ int_queries stk sc rootdir HGIC malloc ->
  is_response_type ty = true -> zlen body < 2 ^ 30 ->
  w_env (d_w (p_dev p)) = answered_by (resp_frame ty (fc_cookie (w_ctrl (d_w (p_dev p)))) id status body) :: e ->
  let n := s16 status - off in
  size = 12%nat \/ -100 < n < 1000 ->
  exists s p', f m p = Ret (n, p') /\ p_heap p' = p_heap p /\
    skb_data s = cmd_frame (number_ifidx name (v_fwifidx v)) cmd (fc_cookie (w_ctrl (d_w (p_dev p)))) [] /\
    w_sent (d_w (p_dev p')) = w_sent (d_w (p_dev p)) ++ [s].
Proof.
  intros Hp Hv Hin Hf Hty Hb He n Hn. pose proof (s16_range status) as Hs.
  assert (f m p = hgic_iwpriv_get_int stk sc rootdir HGIC malloc m (lit name) p) as ->.
  { unfold int_queries in Hf. repeat (apply elem_of_cons in Hf as [[= -> ->]|Hf]; [reflexivity|]). by apply not_elem_of_nil in Hf. }
  destruct (number_ioctl stk sc (p_dev p) v name cmd size off ty id status body e 128 (po_quiet _ _ _ _ _ _ Hp) Hv Hin Hty Hb He Hn ltac:(lia))
    as (Hr & Ha & Hl15 & Hnn & s & w' & u & E & Hd & Hse). fold n in Hr, Ha, E.
  destruct (query_answer stk sc rootdir HGIC malloc m ifname p Hp (lit name) (str name) (signed_text n) u
    (set_d_w w' (p_dev p))) as (l & El); [by apply cstr_app|lia|lia|lia|exact E|].
  exists s, (set_p_dev (set_d_w w' (p_dev p)) p). split; [|by destruct p as [[] ?]].
  unfold hgic_iwpriv_get_int. unfold bind in El |- *. destruct (lift (print_cmd _ _ _) p) as [[cmdl p1]|f0]; [|done].
  rewrite El. cbn [snd]. unfold lift. by rewrite atoi_signed_text by (done || lia).
Qed.

Lemma app_queries_return_number_witness :
  let p := demo_process [answered_by (resp_frame 3 0 0 5 [])] in
  exists s p', hgic_iwpriv_get_signal [] true (str "hgicf") (lit "hgicf") demo_malloc (lit "hg0") p = Ret (-4091, p') /\
    p_heap p' = [] /\ skb_data s = cmd_frame 1 HGIC_CMD_GET_SIGNAL 0 [] /\ w_sent (d_w (p_dev p')) = [s].
Proof.
  intros p.
  apply (app_queries_return_number [] true (str "hgicf") (lit "hgicf") demo_malloc (lit "hg0") (str "hg0") p demo_vif "signal" _
    HGIC_CMD_GET_SIGNAL 12 0x1000 3 0 5 [] []); [apply demo_process_ok|done| | |done..|by left].
  - do 13 apply list_elem_of_further. by apply list_elem_of_here.
  - do 16 apply list_elem_of_further. by apply list_elem_of_here.
Defined.

(** *** Other faults of the library *)
(** A MAC address printed by the library is read back. *)
Lemma str2mac_roundtrip b0 b1 b2 b3 b4 b5 rest :
  Forall is_byte [b0; b1; b2; b3; b4; b5] ->
  hgic_str2mac (mac_text b0 b1 b2 b3 b4 b5 ++ rest) = Ret (1, [b0; b1; b2; b3; b4; b5]).
Proof.
  intros H. unfold hgic_str2mac. pose proof (sscanf_mac b0 b1 b2 b3 b4 b5 [] rest H) as E. rewrite app_nil_r in E. rewrite E.
  cbn [sscanf obind]. change (zlen [b0; b1; b2; b3; b4; b5]) with 6. change (6 =? 6) with true. cbn [map].
  repeat match goal with H : Forall _ (_ :: _) |- _ => apply Forall_cons in H as [? H] end. by rewrite !u8_id by done.
Qed.

(** An address of six bytes is searched for a terminator it need not have. *)
Lemma set_mac_overread stk sc rootdir HGIC malloc m n mac p :
  no_nul mac -> hgic_iwpriv_set_mac stk sc rootdir HGIC malloc m n mac p = Fault OutOfBounds.
Proof.
  intros H. assert (cstr mac = Fault OutOfBounds) as E.
  { clear -H. induction H as [|b l Hb _ IH]; [done|]. cbn [cstr]. destruct (Z.eqb_spec b 0); [done|]. by rewrite IH. }
  unfold hgic_iwpriv_set_mac, bind, lift, mac_is_text, strlen. by rewrite E.
Qed.

(** The texts for the Bluetooth commands leave their arrays. *)
Lemma blenc_texts_overflow stk sc rootdir HGIC blenc_mode stack malloc m p :
  hgic_iwpriv_blenc_start stk sc rootdir HGIC stack malloc m 1 2402 p = Fault OutOfBounds /\
  (blenc_mode <> 3 -> hgic_iwpriv_blenc_set_adv_filter stk sc rootdir HGIC blenc_mode stack malloc m 65535 p = Fault OutOfBounds).
Proof.
  assert (forall size fmt args t, format Text fmt args = Ret t -> 0 <= size <= zlen t ->
    print_blenc stk sc rootdir HGIC stack malloc m size fmt args p = Fault OutOfBounds) as K.
  { intros size fmt args t E Hl. unfold print_blenc, bind, lift.
    rewrite (sprintf_overflow (array stack size) 0 fmt args t E); [done|lia|unfold array; rewrite zlen_resize; lia]. }
  split; [apply (K 8 _ _ (str "EN:1,2402")); [reflexivity|by vm_compute]|].
  intros Hb. unfold hgic_iwpriv_blenc_set_adv_filter. destruct (Z.eqb_spec blenc_mode 3); [done|].
  apply (K 16 _ _ (str "ADV_FILTER:65535")); [reflexivity|by vm_compute].
Qed.

(** The answer of a query for a structure is cut by one byte, which becomes 0. *)
Lemma structures_lose_last_byte stk sc rootdir HGIC malloc m ifname p out rq d' :
  process_ok rootdir HGIC malloc m ifname p -> zlen out = 28 ->
  hgicf_ioctl_get_proc stk sc (fun _ => false) 0
    (Iwreq (6 + 28) ((str "fwinfo" ++ replicate 28 0) ++ replicate 32 0) 0) (p_dev p) = Ret (0, rq, d') ->
  iw_length rq = 28 -> 28 <= zlen (iw_user rq) ->
  hgic_iwpriv_get_fwinfo stk sc rootdir HGIC malloc m out p = Ret (28, ztake 27 (iw_user rq) ++ [0], set_p_dev d' p).
Proof.
  intros Hp Ho E Hl Hu. destruct (query_line rootdir HGIC malloc m ifname p Hp (lit "fwinfo") (str "fwinfo") eq_refl ltac:(by vm_compute)) as [Eq Hq].
  destruct Hp as [Henv Hqu Hb Hm Hmax]. unfold hgic_iwpriv_get_fwinfo, hgic_iwpriv_get_bytes. rewrite (bind_lift _ _ _ _ Eq).
  pose proof (do_get stk sc rootdir HGIC malloc Henv ifname p (q_alloc _ Hqu) Hb ltac:(lia) (str "fwinfo")
    (replicate (Z.to_nat (128 - zlen (line ifname (str "get") (str "fwinfo")) - 1)) 0) out 28 rq d' ltac:(by repeat constructor) ltac:(lia)
    ltac:(by vm_compute) E ltac:(rewrite Hl; split; by vm_compute) ltac:(lia)) as D.
  cbv zeta in D. unfold ask_to, sizeof_fw_info. rewrite (bind_Ret _ _ _ _ _ D). rewrite Hl. change (Z.min 28 (28 - 1)) with 27. cbn [fst snd default].
  by rewrite (zdrop_all (27 + 1) out) by lia.
Qed.

(** A command the driver does not know. *)
Lemma unknown_command_fails stk sc rootdir HGIC malloc m ifname p c z :
  process_ok rootdir HGIC malloc m ifname p -> no_blank c -> 0 < zlen c <= 5 -> has_spare malloc (zlen (ifname ++ 32 :: c)) = true ->
  (forall tl mem count, iwpriv_command stk sc (c ++ 0 :: tl) None 0 mem count (p_dev p) = Ret (None, mem, true, p_dev p)) ->
  do_cmd stk sc rootdir HGIC malloc ((ifname ++ 32 :: c) ++ 0 :: z) p = Ret (-1, p).
Proof.
  intros [Henv Hq Hb Hm Hmax] Hc Hl Hsp Hcmd. pose proof (zlen_nonneg ifname).
  assert (no_nul ifname) as Hnn by (eapply Forall_impl; [exact Hb|]; by intros ? []).
  assert (no_nul c) as Hcn by (eapply Forall_impl; [exact Hc|]; by intros ? []).
  destruct (do_writes stk sc rootdir HGIC malloc Henv (ifname ++ 32 :: c) z [] None 0 None 0 p) as (Hz & sl & E);
    [apply Forall_app; split; [done|by constructor]|rewrite zlen_app, zlen_cons; lia|lia|lia|rewrite zlen_app, zlen_cons; lia|by right|done|].
  pose proof (zlen_nonneg sl).
  change (Z.to_nat (Z.max 0 0 - 0)) with 0%nat in Hz, E. cbn [replicate] in Hz, E. rewrite !app_nil_r in Hz, E.
  set (text := ifname ++ 32 :: c) in *. unfold do_cmd, bind at 1. rewrite E.
  assert (hgicf_iwpriv_write stk sc (text ++ sl ++ p_heap p) (zlen text) (p_dev p) = Ret (- EINVAL, text ++ sl ++ p_heap p, p_dev p)) as ->.
  { assert (zlen text = zlen ifname + 1 + zlen c) as Ht by (unfold text; rewrite zlen_app, zlen_cons; lia).
    unfold hgicf_iwpriv_write. destruct (Z.leb_spec (zlen text) 0); [lia|].
    rewrite (bind_Ret _ _ _ _ _ (kzalloc_dev (zlen text + 32) (p_dev p) (q_alloc _ Hq) ltac:(lia))).
    rewrite zlen_app. pose proof (zlen_nonneg (sl ++ p_heap p)). destruct (Z.ltb_spec (zlen text + zlen (sl ++ p_heap p)) (zlen text)); [lia|].
    rewrite ztake_app_length by done. erewrite bind_lift; [|apply mem_write_ok; [lia|rewrite zlen_replicate; lia]]. rewrite ztake_0. cbn [app].
    replace (zdrop (0 + zlen text) (replicate (Z.to_nat (zlen text + 32)) 0)) with (replicate 32 0)
      by (unfold zdrop; rewrite drop_replicate; f_equal; lia).
    unfold text. rewrite <- (app_assoc ifname), <- app_comm_cons.
    rewrite (bind_lift _ _ _ _ (no_blank_strchr ifname _ Hb)), zdrop_cons_app.
    rewrite (bind_lift _ _ _ _ (strchr_none c 32 (replicate 31 0) ltac:(done) Hc : strchr (c ++ replicate 32 0) 32 = _)).
    by rewrite (bind_Ret _ _ _ _ _ (Hcmd (replicate 31 0) _ _)). }
  unfold take_answer. change (- EINVAL <? 0) with true. cbv iota. change (0 <? -1) with false. unfold ret. cbv iota. cbn [fst].
  assert (zlen (text ++ sl) = zlen text + zlen sl) as Ez by apply zlen_app. rewrite app_assoc. rewrite zdrop_app_length by done. by destruct p.
Qed.

(** The commands open and close, which the driver has compiled out, fail. *)
Lemma open_close_fail stk sc rootdir HGIC malloc m ifname p :
  process_ok rootdir HGIC malloc m ifname p -> (forall n, 0 <= n < 2 ^ 20 -> has_spare malloc n = true) ->
  hgic_iwpriv_open_dev stk sc rootdir HGIC malloc m p = Ret (-1, p) /\
  hgic_iwpriv_close_dev stk sc rootdir HGIC malloc m p = Ret (-1, p).
Proof.
  intros Hp Hsp. pose proof Hp as [_ _ _ Hm Hmax]. pose proof (zlen_nonneg ifname).
  assert (forall c, zlen c <= 5 -> has_spare malloc (zlen (ifname ++ 32 :: c)) = true) as Hs
    by (intros c Hc; apply Hsp; rewrite zlen_app, zlen_cons; pose proof (zlen_nonneg c); lia).
  assert (forall c, Forall (fun x => x <> 37) c -> format Text (37 :: 115 :: 32 :: c) [AMem m] = Ret (ifname ++ 32 :: c)) as Ef.
  { intros c Hc. rewrite (format_s m ifname) by done. by rewrite (format_nil (32 :: c)) by (by constructor). }
  assert (forall c, Forall (fun x => x <> 37) c -> zlen c <= 5 ->
    print_cmd 32 (37 :: 115 :: 32 :: c) [AMem m] = Ret ((ifname ++ 32 :: c) ++ 0 :: replicate (Z.to_nat (32 - zlen (ifname ++ 32 :: c) - 1)) 0)) as Ep.
  { intros c Hc Hl. apply print_cmd_ok; [by apply Ef|]. rewrite zlen_app, zlen_cons. lia. }
  split.
  - unfold hgic_iwpriv_open_dev. rewrite (bind_lift _ _ _ _ (Ep (str "open") ltac:(by repeat constructor) ltac:(by vm_compute))).
    by apply (unknown_command_fails stk sc rootdir HGIC malloc m); [|repeat constructor|split; vm_compute|apply Hs; vm_compute|].
  - unfold hgic_iwpriv_close_dev. rewrite (bind_lift _ _ _ _ (Ep (str "close") ltac:(by repeat constructor) ltac:(by vm_compute))).
    by apply (unknown_command_fails stk sc rootdir HGIC malloc m); [|repeat constructor|split; vm_compute|apply Hs; vm_compute|].
Qed.
