(* ===== verification/ProcFile.v ===== *)
(** * The files under /proc (hgic_fmac/procfs.c; test_app/iwpriv.c)

    The driver makes a directory with four files when its interface comes up and
    takes them away with it; the application library has helpers that open such
    a file by name, one of which starts an update.  The kernel's part of it --
    whether an entry could be made, which file an open finds -- is a script and
    the table of the four files; the calls that make and remove entries are a
    log. *)
From Stdlib Require Import String.
From stdpp Require Import gmap sets.
From S2P Require Import Prelude Bytes CString Proto Skb FwInfo Utils Format Libc FwCtrl FwCmds Iwpriv IwprivGet Ota Device Core Entry AppLib AppFacts.

(** ** The entries *)
(** The calls: a directory in the root, a file in that directory, and the removal
    of either; with what the kernel answered. *)
Inductive proc_call :=
  | ProcMkdir (name : list Z) (ok : bool)
  | ProcCreate (name : list Z) (mode : Z) (ok : bool)
  | ProcRemove (in_dir : bool) (name : list Z).

Record hgicf_procfs := Procfs {
  pf_rootdir : bool; pf_status : bool; pf_ota : bool; pf_iwpriv : bool;   (* whether the pointer is not NULL *)
  pf_iwpriv_buf : list Z; pf_iwpriv_result : Z;
  pf_fwevent : bool }.

Record proc_state := ProcState {
  ps_proc : hgicf_procfs;
  ps_answers : list bool;     (* of the kernel; yes when used up *)
  ps_calls : list proc_call }.

Definition log_proc (c : proc_call) : M proc_state unit :=
  modify (fun s => ProcState (ps_proc s) (ps_answers s) (ps_calls s ++ [c])).
Definition proc_answer : M proc_state bool := fun s =>
  Ret (hd true (ps_answers s), ProcState (ps_proc s) (tail (ps_answers s)) (ps_calls s)).
Definition proc_mkdir (name : list Z) : M proc_state bool :=
  let! ok := proc_answer in log_proc (ProcMkdir name ok) ;;; ret ok.
Definition proc_create_data (name : string) (mode : Z) : M proc_state bool :=
  let! ok := proc_answer in log_proc (ProcCreate (str name) mode ok) ;;; ret ok.
Definition remove_proc_entry (in_dir : bool) (name : list Z) : M proc_state unit := log_proc (ProcRemove in_dir name).

Definition on_proc (f : hgicf_procfs -> hgicf_procfs) : M proc_state unit :=
  modify (fun s => ProcState (f (ps_proc s)) (ps_answers s) (ps_calls s)).
Definition set_rootdir (b : bool) (p : hgicf_procfs) : hgicf_procfs :=
  Procfs b (pf_status p) (pf_ota p) (pf_iwpriv p) (pf_iwpriv_buf p) (pf_iwpriv_result p) (pf_fwevent p).
Definition set_status (b : bool) (p : hgicf_procfs) : hgicf_procfs :=
  Procfs (pf_rootdir p) b (pf_ota p) (pf_iwpriv p) (pf_iwpriv_buf p) (pf_iwpriv_result p) (pf_fwevent p).
Definition set_ota (b : bool) (p : hgicf_procfs) : hgicf_procfs :=
  Procfs (pf_rootdir p) (pf_status p) b (pf_iwpriv p) (pf_iwpriv_buf p) (pf_iwpriv_result p) (pf_fwevent p).
Definition set_iwpriv (b : bool) (p : hgicf_procfs) : hgicf_procfs :=
  Procfs (pf_rootdir p) (pf_status p) (pf_ota p) b (pf_iwpriv_buf p) (pf_iwpriv_result p) (pf_fwevent p).
Definition set_fwevent (b : bool) (p : hgicf_procfs) : hgicf_procfs :=
  Procfs (pf_rootdir p) (pf_status p) (pf_ota p) (pf_iwpriv p) (pf_iwpriv_buf p) (pf_iwpriv_result p) b.

(** The directory's name: the module parameter decides between the interface's
    name now and a fixed one. *)
Definition dir_name (proc_dev : Z) (ndev_name : list Z) : list Z :=
  if negb (proc_dev =? 0) then ndev_name else str "hgicf".

(** [file = proc_create_data(name, mode, rootdir, ...)] *)
Definition create_file (name : string) (mode : Z) (store : bool -> hgicf_procfs -> hgicf_procfs) : M proc_state unit :=
  let! ok := proc_create_data name mode in on_proc (store ok).
Definition hgicf_create_procfs (proc_dev : Z) (ndev_name : list Z) : M proc_state unit :=
  let! ok := proc_mkdir (dir_name proc_dev ndev_name) in
  on_proc (set_rootdir ok) ;;;
  if negb ok then ret tt else
  create_file "status" 0x0444 set_status ;;;
  create_file "ota" 0x0666 set_ota ;;;
  create_file "iwpriv" 0x0666 set_iwpriv ;;;
  create_file "fwevnt" 0x0444 set_fwevent.

(** [if (file) { remove_proc_entry(name, rootdir); file = NULL; }] *)
Definition remove_file (there : hgicf_procfs -> bool) (name : string) (clear : hgicf_procfs -> hgicf_procfs) : M proc_state unit :=
  let! b := gets (fun s => there (ps_proc s)) in
  if b : bool then remove_proc_entry true (str name) ;;; on_proc clear else ret tt.
Definition hgicf_delete_procfs (proc_dev : Z) (ndev_name : list Z) : M proc_state unit :=
  let! dir := gets (fun s => pf_rootdir (ps_proc s)) in
  if dir : bool then
    remove_file pf_status "status" (set_status false) ;;;
    remove_file pf_ota "ota" (set_ota false) ;;;
    remove_file pf_iwpriv "iwpriv" (set_iwpriv false) ;;;
    remove_file pf_fwevent "fwevnt" (set_fwevent false) ;;;
    remove_proc_entry false (dir_name proc_dev ndev_name) ;;;
    on_proc (set_rootdir false)
  else ret tt.

(** What the calls leave under /proc: names in the root and names in the directory. *)
Definition entry_step (c : proc_call) (l : gset (bool * list Z)) : gset (bool * list Z) :=
  match c with
  | ProcMkdir name true => {[ (false, name) ]} ∪ l
  | ProcCreate name _ true => {[ (true, name) ]} ∪ l
  | ProcMkdir _ false | ProcCreate _ _ false => l
  | ProcRemove d name => l ∖ {[ (d, name) ]}
  end.
Definition entries (l : list proc_call) : gset (bool * list Z) := foldl (fun e c => entry_step c e) ∅ l.

Definition no_files (p : hgicf_procfs) : Prop :=
  pf_rootdir p = false /\ pf_status p = false /\ pf_ota p = false /\ pf_iwpriv p = false /\ pf_fwevent p = false.
(** Every removal is of an entry that is there, the directory's when it is empty. *)
Fixpoint removals_ok (e : gset (bool * list Z)) (l : list proc_call) : Prop :=
  match l with
  | [] => True
  | c :: l =>
      match c with
      | ProcRemove true name => (true, name) ∈ e
      | ProcRemove false name => (false, name) ∈ e /\ forall f : list Z, (true, f) ∉ e
      | _ => True
      end /\ removals_ok (entry_step c e) l
  end.

(** What [remove_file] and the creations do to the log. *)
Lemma remove_file_run there name clear s :
  remove_file there name clear s
  = Ret (tt, if there (ps_proc s) then ProcState (clear (ps_proc s)) (ps_answers s) (ps_calls s ++ [ProcRemove true (str name)]) else s).
Proof. unfold remove_file, bind, gets. by destruct (there (ps_proc s)). Qed.

Definition created (a1 a2 a3 a4 : bool) (dir : list Z) : list proc_call :=
  [ProcMkdir dir true; ProcCreate (str "status") 0x0444 a1; ProcCreate (str "ota") 0x0666 a2;
   ProcCreate (str "iwpriv") 0x0666 a3; ProcCreate (str "fwevnt") 0x0444 a4].
Definition files (a1 a2 a3 a4 : bool) : list (list Z) :=
  (if a1 then [str "status"] else []) ++ (if a2 then [str "ota"] else []) ++
  (if a3 then [str "iwpriv"] else []) ++ (if a4 then [str "fwevnt"] else []).
Definition removed (fs : list (list Z)) (dir : list Z) : list proc_call := map (ProcRemove true) fs ++ [ProcRemove false dir].

(** A directory with the files [fs], made in this order. *)
Definition tree (fs : list (list Z)) (dir : list Z) : gset (bool * list Z) :=
  foldl (fun e f => {[ (true, f) ]} ∪ e) ({[ (false, dir) ]} ∪ ∅) fs.
Lemma elem_of_tree fs dir x : x ∈ tree fs dir <-> x = (false, dir) \/ exists f, f ∈ fs /\ x = (true, f).
Proof.
  unfold tree. induction fs as [|f fs IH] using rev_ind; cbn [foldl].
  - rewrite elem_of_union, elem_of_singleton. split; [intros [->|H]; [by left|by apply not_elem_of_empty in H]|].
    intros [->|(f & H & _)]; [by left|by apply not_elem_of_nil in H].
  - rewrite foldl_app. cbn [foldl]. rewrite elem_of_union, elem_of_singleton, IH. split.
    + intros [->|[->|(g & Hg & ->)]]; [right; exists f|by left|right; exists g]; (split; [apply elem_of_app|done]); [right; by left|by left].
    + intros [->|(g & [Hg| ->%list_elem_of_singleton]%elem_of_app & ->)]; [right; by left|right; right; by exists g|by left].
Qed.
Lemma files_nodup a1 a2 a3 a4 : NoDup (files a1 a2 a3 a4).
Proof. apply (bool_decide_unpack _). destruct a1, a2, a3, a4; vm_compute; exact I. Qed.
Lemma entries_created a1 a2 a3 a4 dir l :
  foldl (fun e c => entry_step c e) ∅ (created a1 a2 a3 a4 dir ++ l) = foldl (fun e c => entry_step c e) (tree (files a1 a2 a3 a4) dir) l.
Proof.
  rewrite foldl_app. f_equal. by destruct a1, a2, a3, a4.
Qed.
Lemma created_removals_ok a1 a2 a3 a4 dir l :
  removals_ok (tree (files a1 a2 a3 a4) dir) l -> removals_ok ∅ (created a1 a2 a3 a4 dir ++ l).
Proof.
  pose proof (entries_created a1 a2 a3 a4 dir []) as E. rewrite app_nil_r in E. cbn [foldl] in E. rewrite <- E.
  unfold created. cbn [foldl app removals_ok]. tauto.
Qed.
Lemma removed_all fs dir :
  NoDup fs -> foldl (fun e c => entry_step c e) (tree fs dir) (removed fs dir) = ∅ /\ removals_ok (tree fs dir) (removed fs dir).
Proof.
  induction 1 as [|f fs Hf _ [IH1 IH2]]; unfold removed; cbn [map app foldl removals_ok entry_step].
  - split; [apply leibniz_equiv; intros x; rewrite elem_of_difference, elem_of_tree, elem_of_singleton; split; [|done];
      intros [[->|(f & []%elem_of_nil & _)] H]; by destruct H|].
    split; [|done]. split; [apply elem_of_tree; by left|]. intros f [[=]|(g & []%elem_of_nil & _)]%elem_of_tree.
  - assert (tree (f :: fs) dir ∖ {[ (true, f) ]} = tree fs dir) as ->.
    { apply leibniz_equiv. intros x. rewrite elem_of_difference, !elem_of_tree, elem_of_singleton. split.
      - intros [[->|(g & [->|Hg]%elem_of_cons & ->)] H]; [by left|done|right; by exists g].
      - intros [->|(g & Hg & ->)]; (split; [|congruence]); [by left|right; exists g; by split; [right|]]. }
    split; [done|]. split; [|done]. apply elem_of_tree. right. exists f. split; [by left|done].
Qed.

Lemma create_file_run name mode store s :
  let ok := hd true (ps_answers s) in
  create_file name mode store s
  = Ret (tt, ProcState (store ok (ps_proc s)) (tail (ps_answers s)) (ps_calls s ++ [ProcCreate (str name) mode ok])).
Proof. reflexivity. Qed.

Lemma create_run pd name s : exists (ok a1 a2 a3 a4 : bool) s',
  hgicf_create_procfs pd name s = Ret (tt, s') /\
  (if ok then ps_proc s' = Procfs true a1 a2 a3 (pf_iwpriv_buf (ps_proc s)) (pf_iwpriv_result (ps_proc s)) a4 /\
              ps_calls s' = ps_calls s ++ created a1 a2 a3 a4 (dir_name pd name)
   else ps_proc s' = set_rootdir false (ps_proc s) /\ ps_calls s' = ps_calls s ++ [ProcMkdir (dir_name pd name) false]).
Proof.
  unfold hgicf_create_procfs, proc_mkdir. unfold bind at 1 2, proc_answer at 1. unfold bind at 1, log_proc at 1, modify at 1, ret at 1.
  unfold bind at 1, on_proc at 1, modify at 1. cbn [ps_answers ps_proc ps_calls]. destruct (hd true (ps_answers s)); cbn [negb].
  - do 3 (unfold bind at 1; rewrite create_file_run). rewrite create_file_run. cbn [ps_answers ps_proc ps_calls].
    eexists true, _, _, _, _, _. split; [reflexivity|]. cbn [ps_proc ps_calls set_rootdir set_status set_ota set_iwpriv set_fwevent
      pf_rootdir pf_status pf_ota pf_iwpriv pf_fwevent pf_iwpriv_buf pf_iwpriv_result]. rewrite <- !app_assoc. by split.
  - eexists false, true, true, true, true, _. split; [reflexivity|by split].
Qed.

Lemma delete_run pd name s a1 a2 a3 a4 b r :
  ps_proc s = Procfs true a1 a2 a3 b r a4 ->
  exists s', hgicf_delete_procfs pd name s = Ret (tt, s') /\ ps_proc s' = Procfs false false false false b r false /\
    ps_calls s' = ps_calls s ++ removed (files a1 a2 a3 a4) (dir_name pd name).
Proof.
  destruct s as [p ans calls]. cbn [ps_proc]. intros ->.
  destruct a1, a2, a3, a4; eexists; (split; [reflexivity|]); cbn; rewrite <- ?app_assoc; by split.
Qed.

(** C26. What the driver puts under /proc it takes away again.  Whatever the kernel
    answers when the directory and the four files are made, the removal takes
    away exactly what was made, each file while it is there and the directory
    when it is empty, leaves no entry and no pointer, and a second removal does
    nothing -- as long as the directory has the same name. *)
Theorem procfs_removed_as_created pd name s :
  no_files (ps_proc s) -> ps_calls s = [] ->
  exists s1 s2, hgicf_create_procfs pd name s = Ret (tt, s1) /\ hgicf_delete_procfs pd name s1 = Ret (tt, s2) /\
    entries (ps_calls s2) = ∅ /\ removals_ok ∅ (ps_calls s2) /\ no_files (ps_proc s2) /\
    hgicf_delete_procfs pd name s2 = Ret (tt, s2).
Proof.
  intros Hn Hc. destruct (create_run pd name s) as (ok & a1 & a2 & a3 & a4 & s1 & E1 & K). exists s1. destruct ok; destruct K as [Kp Kc].
  - destruct (delete_run pd name s1 _ _ _ _ _ _ Kp) as (s2 & E2 & Ep & Ec). exists s2. split; [done|]. split; [done|].
    rewrite Ec, Kc, Hc. generalize (dir_name pd name). intros dir.
    destruct (removed_all _ dir (files_nodup a1 a2 a3 a4)) as [H1 H2].
    split; [by rewrite <- H1, <- entries_created|]. split; [by apply created_removals_ok|]. split; [by rewrite Ep|].
    unfold hgicf_delete_procfs, bind at 1, gets. by rewrite Ep.
  - exists s1. assert (hgicf_delete_procfs pd name s1 = Ret (tt, s1)) as E2.
    { unfold hgicf_delete_procfs, bind at 1, gets. by rewrite Kp. }
    split; [done|]. split; [done|]. rewrite Kc, Hc, Kp. split; [done|]. split; [done|]. split; [|done].
    destruct Hn as (_ & ? & ? & ? & ?). by split_and!.
Qed.

Definition no_procfs (buf : list Z) : hgicf_procfs := Procfs false false false false buf 0 false.
(** The second file cannot be made. *)
Lemma procfs_removed_as_created_witness :
  exists s1 s2, hgicf_create_procfs 0 [] (ProcState (no_procfs [0]) [true; true; false] []) = Ret (tt, s1) /\
    hgicf_delete_procfs 0 [] s1 = Ret (tt, s2) /\ entries (ps_calls s2) = ∅ /\ length (ps_calls s2) = 9%nat.
Proof.
  destruct (procfs_removed_as_created 0 [] (ProcState (no_procfs [0]) [true; true; false] [])) as (s1 & s2 & E1 & E2 & H & _); [done..|].
  exists s1, s2. split; [exact E1|]. split; [exact E2|]. split; [exact H|]. vm_compute in E1. injection E1 as <-.
  vm_compute in E2. injection E2 as <-. reflexivity.
Defined.

(** With the module parameter set, the interface's name is read again at the
    removal.  After a change of name an entry is removed that is not there, and
    the directory stays. *)
Lemma removed_other fs n1 n2 e :
  n1 <> n2 -> (false, n1) ∈ e -> (false, n2) ∉ e ->
  (false, n1) ∈ foldl (fun e c => entry_step c e) e (removed fs n2) /\ ~ removals_ok e (removed fs n2).
Proof.
  intros Hn. revert e. induction fs as [|f fs IH]; intros e H1 H2; unfold removed; cbn [map app foldl removals_ok entry_step].
  - split; [|tauto]. apply elem_of_difference. split; [done|]. by intros [= E]%elem_of_singleton.
  - destruct (IH (e ∖ {[ (true, f) ]})) as [K1 K2]; [|by intros [H _]%elem_of_difference|split; [done|tauto]].
    apply elem_of_difference. split; [done|]. by intros [=]%elem_of_singleton.
Qed.
Lemma procfs_renamed_leaks pd n1 n2 s s1 :
  pd <> 0 -> n1 <> n2 -> ps_calls s = [] -> hgicf_create_procfs pd n1 s = Ret (tt, s1) -> pf_rootdir (ps_proc s1) = true ->
  exists s2, hgicf_delete_procfs pd n2 s1 = Ret (tt, s2) /\
    (false, n1) ∈ entries (ps_calls s2) /\ ~ removals_ok ∅ (ps_calls s2).
Proof.
  intros Hpd Hn Hc E Hr. destruct (create_run pd n1 s) as (ok & a1 & a2 & a3 & a4 & s1' & E1 & K). rewrite E in E1. injection E1 as <-.
  destruct ok; destruct K as [Kp Kc]; [|by rewrite Kp in Hr].
  destruct (delete_run pd n2 s1 _ _ _ _ _ _ Kp) as (s2 & E2 & _ & Ec). exists s2. split; [done|]. rewrite Ec, Kc, Hc.
  unfold dir_name. rewrite (proj2 (Z.eqb_neq pd 0) Hpd). cbn [negb app].
  destruct (removed_other (files a1 a2 a3 a4) n1 n2 (tree (files a1 a2 a3 a4) n1) Hn) as [K1 K2].
  { apply elem_of_tree. by left. }
  { intros [[= H]|(f & _ & [=])]%elem_of_tree. by rewrite H in Hn. }
  split; [unfold entries; by rewrite entries_created|]. intros H. apply K2.
  pose proof (entries_created a1 a2 a3 a4 n1 []) as Et. rewrite app_nil_r in Et. cbn [foldl] in Et. rewrite <- Et.
  unfold created in H |- *. cbn [foldl app removals_ok] in H |- *. tauto.
Qed.

(** The modes are written in hexadecimal: for the owner, the group and the others
    they give other rights than their digits say -- the owner may not read, and
    the set-user or set-group bit and the sticky bit are on. *)
Definition rights (mode : Z) : Z * Z * Z * Z :=
  (Z.shiftr mode 9, Z.land (Z.shiftr mode 6) 7, Z.land (Z.shiftr mode 3) 7, Z.land mode 7).
Lemma procfs_modes_are_hexadecimal : rights 0x0666 = (3, 1, 4, 6) /\ rights 0x0444 = (2, 1, 0, 4).
Proof. by split. Qed.

(** ** The tools' side *)
(** A process, the update's state in the device -- its firmware information and its
    channel are the device's -- and which files there are. *)
Record ota_part := OtaPart { op_inited : Z; op_dataq : list skb; op_frag_size : Z; op_fw_len : Z; op_held : Z }.
Record proc_system := ProcSystem { sy_p : process; sy_ota : ota_part; sy_files : hgicf_procfs }.

#[export] Instance process_in_system : Inside process proc_system.
Proof.
  by refine {| part := sy_p; put_part p s := ProcSystem p (sy_ota s) (sy_files s) |}; [|intros []|].
Defined.
Definition ota_of (s : proc_system) : hgic_ota :=
  let o := sy_ota s in
  Ota (op_inited o) (op_dataq o) (op_frag_size o) (op_fw_len o) (d_fwinfo (p_dev (sy_p s))) (op_held o) (d_w (p_dev (sy_p s))).
#[export] Instance ota_in_system : Inside hgic_ota proc_system.
Proof.
  refine {| part := ota_of;
    put_part o s := ProcSystem (set_p_dev (set_d_w (o_w o) (set_d_fwinfo (o_fwinfo o) (p_dev (sy_p s)))) (sy_p s))
      (OtaPart (o_inited o) (o_dataq o) (o_frag_size o) (o_fw_len o) (o_held o)) (sy_files s) |}.
  - by intros [] s.
  - by intros [[[] h] [] f].
  - done.
Defined.

Inductive proc_file := ProcStatus | ProcOta | ProcIwpriv | ProcFwevnt.
#[export] Instance proc_file_eq_dec : EqDecision proc_file.
Proof. solve_decision. Defined.
Definition file_name (f : proc_file) : list Z :=
  str match f with ProcStatus => "status" | ProcOta => "ota" | ProcIwpriv => "iwpriv" | ProcFwevnt => "fwevnt" end.
Definition exists_file (f : proc_file) (p : hgicf_procfs) : bool :=
  pf_rootdir p && match f with ProcStatus => pf_status p | ProcOta => pf_ota p | ProcIwpriv => pf_iwpriv p | ProcFwevnt => pf_fwevent p end.

Definition HG_OTA_WRITE_MEM_TMO : Z := 5000.

(** The text of the iwpriv file. *)
Definition hgicf_iwpriv_show (p : hgicf_procfs) : outcome (list Z) :=
  if 0 <? pf_iwpriv_result p then mem_read (pf_iwpriv_buf p) 0 (pf_iwpriv_result p) else Ret [].

Section ProcFiles.
(** As for the application library: stack bytes, the signedness of [char], the name
    of the driver's directory, the library's name for it; and the firmware loader. *)
Context (stk : list Z) (sc : bool) (rootdir HGIC : list Z) (stack : list Z) (rf : list Z -> Z * list Z).

Definition on_process {A} (m : M process A) : M proc_system A := on_part m.
Definition on_ota {A} (m : M hgic_ota A) : M proc_system A := on_part m.

(** The file an open of a path finds, for a caller with the rights to it. *)
Definition open_path (path : list Z) (p : hgicf_procfs) : option proc_file :=
  List.find (fun f => exists_file f p && bool_decide (path = str "/proc/" ++ rootdir ++ str "/" ++ file_name f))
    [ProcStatus; ProcOta; ProcIwpriv; ProcFwevnt].
Definition proc_open (name : list Z) : M proc_system (option proc_file) :=
  let! file := lift (print_cmd 32 (str "/proc/%s/%s") [AMem HGIC; AMem name]) in
  let! path := lift (cstr file) in
  gets (fun s => open_path path (sy_files s)).

(** A write of [count] bytes at [mem]: its result and the memory afterwards.  The
    kernel refuses a file without a write function, and a negative count. *)
Definition file_write (f : proc_file) (mem : list Z) (count : Z) : M proc_system (Z * list Z) :=
  if count <? 0 then ret (- EINVAL, mem) else
  match f with
  | ProcOta => let! r := on_ota (hgicf_ota_send_data rf HG_OTA_WRITE_MEM_TMO mem count) in ret (r, mem)
  | ProcIwpriv => on_process (on_dev (hgicf_iwpriv_write stk sc mem count))
  | ProcStatus | ProcFwevnt => ret (- EIO, mem)
  end.

(** What an open of each file gives to [single_open]: the function that shows its
    text, or none. *)
Definition show_fn : Type := option (proc_system -> outcome (list Z)).
Definition hgicf_status_open : show_fn := Some (fun s => hgicf_status_show (p_dev (sy_p s))).
Definition hgicf_ota_open : show_fn := None.
Definition hgicf_iwpriv_open : show_fn := Some (fun s => hgicf_iwpriv_show (sy_files s)).
Definition hgicf_fwevent_open : show_fn := None.

(** A read of [count] bytes to [mem]: its result and the memory afterwards.  The
    kernel's [seq_read] calls the show function of the open file and copies what
    fits; the event file copies by itself. *)
Definition seq_read (show : show_fn) (mem : list Z) (count : Z) : M proc_system (Z * list Z) :=
  match show with
  | Some show =>
      let! s := gets (fun s => s) in
      let! text := lift (show s) in
      let bs := ztake count text in
      let '(mem, ok) := copy_to_user mem 0 bs in ret ((if ok : bool then zlen bs else - EFAULT), mem)
  | None => fail NullDeref
  end.
Definition file_read (f : proc_file) (mem : list Z) (count : Z) : M proc_system (Z * list Z) :=
  match f with
  | ProcStatus => seq_read hgicf_status_open mem count
  | ProcOta => seq_read hgicf_ota_open mem count
  | ProcIwpriv => seq_read hgicf_iwpriv_open mem count
  | ProcFwevnt =>
      let! bs := on_process (on_dev hgicf_fwevent_read) in
      let '(mem, ok) := copy_to_user mem 0 bs in ret ((if ok : bool then zlen bs else 0), mem)
  end.

(** The heap behind a buffer is in reach of the driver. *)
Definition with_heap (buff : list Z) (m : list Z -> M proc_system (Z * list Z)) : M proc_system (Z * list Z) :=
  let! heap := gets (fun s => p_heap (sy_p s)) in
  let! r := m (buff ++ heap) in
  on_process (modify (set_p_heap (zdrop (zlen buff) (snd r)))) ;;;
  ret ((if fst r <? 0 then -1 else fst r), ztake (zlen buff) (snd r)).

(** The buffers are not NULL; the second result is the buffer afterwards. *)
Definition hgic_proc_read_bytes (name buff : list Z) (len : Z) : M proc_system (Z * list Z) :=
  if len <=? 0 then ret (0, buff) else
  let! buff := lift (mem_write buff 0 (replicate (Z.to_nat len) 0)) in
  let! f := proc_open name in
  match f with
  | Some f => with_heap buff (fun mem => file_read f mem len)
  | None => ret (0, buff)
  end.
Definition hgic_proc_write_bytes (name buff : list Z) (len : Z) : M proc_system Z :=
  if len =? 0 then ret 0 else
  let! f := proc_open name in
  match f with
  | Some f => let! r := with_heap buff (fun mem => file_write f mem len) in ret (if 0 <? fst r then 1 else 0)
  | None => ret 0
  end.

Definition hgic_proc_read_int (name : list Z) : M proc_system Z :=
  let! r := hgic_proc_read_bytes name (array stack 32) 32 in lift (atoi (snd r)).
Definition hgic_proc_read_mac (name : list Z) : M proc_system (Z * list Z) :=
  let! r := hgic_proc_read_bytes name (array stack 32) 32 in lift (hgic_str2mac (snd r)).
(** [write_bytes(name, text, strlen(text))] *)
Definition write_text (name text : list Z) : M proc_system Z :=
  let! n := lift (strlen text) in hgic_proc_write_bytes name text n.
Definition hgic_proc_write_int (name : list Z) (val : Z) : M proc_system Z :=
  let! buff := lift (print_cmd 12 (str "%d") [AInt val]) in write_text name buff.
Definition hgic_proc_write_mac (name mac : list Z) : M proc_system Z :=
  let! text := lift (mac_is_text mac) in
  let! buf := (if text : bool then let! bs := lift (mem_read mac 0 17) in lift (mem_write (replicate 18 0) 0 bs)
               else let! m := lift (MACARG mac) in lift (print_cmd 18 MACSTR m)) in
  write_text name buf.
Definition hgic_proc_write_ints (name vals : list Z) : M proc_system Z :=
  let! buff := lift (print_ints (replicate 512 0) 0 true vals) in write_text name buff.
Definition hgic_proc_write_intarray (name values : list Z) (cnt : Z) : M proc_system Z :=
  let! _ := lift (oguard (cnt <=? zlen values) OutOfBounds) in
  let! buff := lift (print_ints (replicate 512 0) 0 true (ztake cnt values)) in write_text name buff.
Definition hgic_proc_ota (fw_file : list Z) : M proc_system Z := write_text (lit "ota") fw_file.
End ProcFiles.

(** ** An update through the file *)
Section Update.
Context (stk : list Z) (sc : bool) (rootdir HGIC : list Z) (rf : list Z -> Z * list Z).
Hypothesis Hroot : cstr HGIC = Ret rootdir.
Hypothesis Hlen : zlen rootdir <= 18.

Lemma proc_open_finds f z s :
  exists_file f (sy_files s) = true -> proc_open rootdir HGIC (file_name f ++ 0 :: z) s = Ret (Some f, s).
Proof.
  intros He. destruct (cstr_inv _ _ Hroot) as (_ & _ & Hn). set (path := str "/proc/" ++ rootdir ++ str "/" ++ file_name f).
  assert (no_nul (file_name f) /\ zlen (file_name f) <= 6) as [Hf Hfl] by (destruct f; split; by repeat constructor).
  assert (no_nul path) as Hp.
  { apply Forall_app. split; [by repeat constructor|]. apply Forall_app. split; [done|]. apply Forall_app. split; [by repeat constructor|done]. }
  assert (format Text (str "/proc/%s/%s") [AMem HGIC; AMem (file_name f ++ 0 :: z)] = Ret path) as Ef.
  { change (str "/proc/%s/%s") with (str "/proc/" ++ 37 :: 115 :: str "/" ++ 37 :: 115 :: []).
    rewrite format_lit by (by repeat constructor). rewrite (format_s _ _ _ _ Hroot).
    rewrite format_lit by (by repeat constructor). rewrite (format_s _ _ _ _ (cstr_app _ z Hf)). cbn [format obind]. by rewrite app_nil_r. }
  unfold proc_open. rewrite (bind_lift _ _ _ _ (print_cmd_ok 32 _ _ path Ef ltac:(unfold path; rewrite !zlen_app;
    change (zlen (str "/proc/")) with 6; change (zlen (str "/")) with 1; lia))).
  rewrite (bind_lift _ _ _ _ (cstr_app path _ Hp)). unfold gets. do 2 f_equal.
  unfold open_path. assert (forall g, bool_decide (path = str "/proc/" ++ rootdir ++ str "/" ++ file_name g) = bool_decide (g = f)) as Ed.
  { intros g. apply bool_decide_ext. unfold path. split; [|by intros ->]. intros E. do 3 apply app_inv_head in E. by destruct f, g. }
  cbn [List.find]. rewrite !Ed. destruct f; cbn [bool_decide] in *; rewrite ?bool_decide_false, ?andb_false_r, ?bool_decide_true by done;
    by rewrite He.
Qed.

(** A path without a line end at its end is what the driver asks for. *)
Lemma strip_tail_nothing s c : c <> 13 -> c <> 10 -> zlen s < 2 ^ 31 -> hgic_strip_tail (s ++ [c; 0]) (zlen s + 1) = Ret (s ++ [c; 0]).
Proof.
  intros H1 H2 Hl. pose proof (zlen_nonneg s). unfold hgic_strip_tail. cbn [strip_loop].
  rewrite u32_id by lia. replace (zlen s + 1 - 1) with (zlen s) by lia.
  rewrite (mem_get_mid _ s c [0]) by done. cbn [obind].
  by rewrite (proj2 (Z.eqb_neq c 13) H1), (proj2 (Z.eqb_neq c 10) H2).
Qed.

Lemma ota_write_runs tmo pre c z o :
  quiet (o_w o) -> c <> 13 -> c <> 10 -> zlen pre + 2 < 2 ^ 31 ->
  hgicf_ota_send_data rf tmo (pre ++ c :: z) (zlen pre + 1) o
  = (let! r := hgic_ota_send_fw rf (pre ++ [c; 0]) tmo in ret (if r =? 0 then zlen pre + 1 else - EIO)) o.
Proof.
  intros Hq H1 H2 Hl. pose proof (zlen_nonneg pre). pose proof (zlen_nonneg z). unfold hgicf_ota_send_data.
  assert (on_world (kzalloc (zlen pre + 1 + 1)) o = Ret (Some (replicate (Z.to_nat (zlen pre + 1 + 1)) 0), o)) as E.
  { unfold on_world. rewrite (on_part_Ret _ _ _ _ (kzalloc_quiet (zlen pre + 1 + 1) (o_w o) Hq ltac:(lia))). do 2 f_equal. by destruct o. }
  rewrite (bind_Ret _ _ _ _ _ E). rewrite zlen_app, zlen_cons. destruct (Z.ltb_spec (zlen pre + (1 + zlen z)) (zlen pre + 1)); [lia|].
  assert (ztake (zlen pre + 1) (pre ++ c :: z) = pre ++ [c]) as ->.
  { rewrite (app_assoc pre [c] z : pre ++ c :: z = _). apply ztake_app_length. rewrite zlen_app. by change (zlen [c]) with 1. }
  erewrite bind_lift; [|apply mem_write_ok; [lia|rewrite zlen_app, zlen_replicate by lia; change (zlen [c]) with 1; lia]].
  rewrite ztake_0. cbn [app]. rewrite zlen_app. change (zlen [c]) with 1.
  replace (zdrop (0 + (zlen pre + 1)) (replicate (Z.to_nat (zlen pre + 1 + 1)) 0)) with [0]
    by (unfold zdrop; rewrite drop_replicate; replace (Z.to_nat (zlen pre + 1 + 1) - Z.to_nat (0 + (zlen pre + 1)))%nat with 1%nat by lia; done).
  rewrite <- app_assoc. cbn [app]. by rewrite (bind_lift _ _ _ _ (strip_tail_nothing pre c H1 H2 ltac:(lia))).
Qed.

(** The library's call is the driver's update, with its result as a flag. *)
Lemma proc_ota_runs pre c z s :
  exists_file ProcOta (sy_files s) = true -> quiet (d_w (p_dev (sy_p s))) ->
  no_nul (pre ++ [c]) -> c <> 13 -> c <> 10 -> zlen pre + 2 < 2 ^ 31 ->
  hgic_proc_ota stk sc rootdir HGIC rf (pre ++ c :: 0 :: z) s
  = match hgic_ota_send_fw rf (pre ++ [c; 0]) HG_OTA_WRITE_MEM_TMO (ota_of s) with
    | Ret (r, o) => Ret (if r =? 0 then 1 else 0, put_part o s)
    | Fault f => Fault f
    end.
Proof.
  intros He Hq Hn H1 H2 Hl. pose proof (zlen_nonneg pre). unfold hgic_proc_ota, write_text.
  assert (pre ++ c :: 0 :: z = (pre ++ [c]) ++ 0 :: z) as Em by by rewrite <- app_assoc.
  rewrite Em at 1. rewrite (bind_lift _ _ _ _ (strlen_app _ z Hn)). rewrite zlen_app. change (zlen [c]) with 1.
  unfold hgic_proc_write_bytes. rewrite (proj2 (Z.eqb_neq (zlen pre + 1) 0)) by lia.
  rewrite (bind_Ret _ _ _ _ _ (proc_open_finds ProcOta [] s He)). unfold with_heap, bind at 1, bind at 1, gets.
  unfold file_write. destruct (Z.ltb_spec (zlen pre + 1) 0); [lia|]. rewrite <- app_assoc. cbn [app].
  unfold bind at 1, bind at 1, on_ota, on_part at 1. cbn [part ota_in_system].
  rewrite (ota_write_runs _ pre c _ (ota_of s) Hq H1 H2 Hl). unfold bind at 1.
  destruct (hgic_ota_send_fw rf (pre ++ [c; 0]) HG_OTA_WRITE_MEM_TMO (ota_of s)) as [[r o]|f]; [|done].
  unfold ret at 1, bind, ret, on_process, on_part, modify. cbn [fst snd]. rewrite (app_assoc (pre) (c :: 0 :: z) (p_heap (sy_p s)) : pre ++ c :: 0 :: z ++ _ = _).
  rewrite zdrop_app_length by done. do 2 f_equal.
  destruct (Z.eqb_spec r 0); [|done]. destruct (Z.ltb_spec (zlen pre + 1) 0); [lia|]. by destruct (Z.ltb_spec 0 (zlen pre + 1)); [|lia].
Qed.
End Update.

(** C13. An update by the name of an image in the file system, from the library's call
    to the chip.  The call finds the driver's file, the driver takes the name out
    of the user's memory, loads the image and sends it: the chip gets the OTA
    frames of consecutive fragments that concatenate to exactly the image, and
    the call returns 1.  When the chip refuses a packet or stops answering, the
    call returns 0 and what was sent is what came before.  Nothing stays queued. *)
Theorem proc_ota_delivers stk sc rootdir HGIC rf pre c z i s :
  cstr HGIC = Ret rootdir -> zlen rootdir <= 18 -> exists_file ProcOta (sy_files s) = true ->
  no_nul (pre ++ [c]) -> c <> 13 -> c <> 10 -> zlen pre + 2 < 2 ^ 31 ->
  updatable rf i (pre ++ [c; 0]) (ota_of s) -> same_chip i (d_fwinfo (p_dev (sy_p s))) ->
  let size := op_frag_size (sy_ota s) in
  let w := d_w (p_dev (sy_p s)) in
  let frames := image_frames i size (d_fwinfo (p_dev (sy_p s))) in
  concat (image_frags i size) = image_bytes i /\
  (w_env w = replicate (length (image_frags i size)) (answered_by (ota_resp 0)) ->
   exists s', hgic_proc_ota stk sc rootdir HGIC rf (pre ++ c :: 0 :: z) s = Ret (1, s') /\
     map skb_data (w_sent (d_w (p_dev (sy_p s')))) = map skb_data (w_sent w) ++ map ota_packet frames /\
     op_dataq (sy_ota s') = [] /\ op_held (sy_ota s') = op_held (sy_ota s)) /\
  (forall k f rest, frames = k ++ f :: rest ->
     (exists err e, u16 err <> 0 /\ w_env w = replicate (length k) (answered_by (ota_resp 0)) ++ answered_by (ota_resp err) :: e) \/
     w_env w = replicate (length k) (answered_by (ota_resp 0)) ->
   exists s' sent, hgic_proc_ota stk sc rootdir HGIC rf (pre ++ c :: 0 :: z) s = Ret (0, s') /\
     map skb_data (w_sent (d_w (p_dev (sy_p s')))) = map skb_data (w_sent w) ++ map ota_packet sent /\
     (sent = k \/ sent = k ++ [f]) /\ op_dataq (sy_ota s') = []).
Proof.
  intros Hr Hl He Hn H1 H2 Hz Hu Hs size w frames.
  pose proof (proc_ota_runs stk sc rootdir HGIC rf Hr Hl pre c z s He (up_quiet _ _ _ _ Hu) Hn H1 H2 Hz) as ->.
  assert (HG_OTA_WRITE_MEM_TMO <> 0) as Ht by done. split; [apply fragments_concat; [apply Hu|unfold zlen; lia]|]. split.
  - intros Hw. destruct (ota_delivers_image rf i _ HG_OTA_WRITE_MEM_TMO (ota_of s) Hu Hs Ht Hw) as (_ & o' & -> & Hp & Hq & Hh).
    eexists. split; [reflexivity|]. split; [exact Hp|by split].
  - intros k f rest Hf Hw. destruct Hw as [(err & e & Herr & Hw)|Hw].
    + destruct (proj1 (ota_stops_at_error rf i _ HG_OTA_WRITE_MEM_TMO (ota_of s) k f rest err e Hu Hs Ht Hf) Hw Herr) as (o' & -> & Hq & Hp).
      rewrite (proj2 (Z.eqb_neq _ _) Herr). eexists _, _. split; [reflexivity|]. split; [exact Hp|]. split; [by right|done].
    + destruct (proj2 (ota_stops_at_error rf i _ HG_OTA_WRITE_MEM_TMO (ota_of s) k f rest 0 [] Hu Hs Ht Hf) Hw) as (o' & -> & Hq & Hp).
      eexists _, _. split; [reflexivity|]. split; [exact Hp|]. split; [by left|done].
Qed.

Definition all_files : hgicf_procfs := Procfs true true true true [] 0 true.
Definition demo_system (scripts : list (list action)) : proc_system :=
  ProcSystem (Process (demo_dev scripts) [9; 9; 9; 9; 9; 9]) (OtaPart 1 [] 100 0 0) all_files.

Lemma demo_updatable_as name scripts :
  updatable (fun _ => (0, image_bytes demo_image)) demo_image name (ota_of (demo_system scripts)).
Proof. change (ota_of (demo_system scripts)) with (demo_ota scripts). destruct (demo_updatable scripts). split; assumption. Qed.

(** "/fw.bin", an image of two packets. *)
Lemma proc_ota_delivers_witness :
  exists s', hgic_proc_ota [] true (str "hgicf") (lit "hgicf") (fun _ => (0, image_bytes demo_image)) (lit "/fw.bin")
    (demo_system (replicate 2 (answered_by (ota_resp 0)))) = Ret (1, s') /\
  map skb_data (w_sent (d_w (p_dev (sy_p s')))) = map ota_packet (image_frames demo_image 100 demo_fwinfo) /\
  op_dataq (sy_ota s') = [].
Proof.
  pose proof (proc_ota_delivers [] true (str "hgicf") (lit "hgicf") (fun _ => (0, image_bytes demo_image)) (str "/fw.bi") 110 [] demo_image
    (demo_system (replicate 2 (answered_by (ota_resp 0)))) eq_refl ltac:(vm_compute; discriminate) eq_refl) as K.
  destruct K as (_ & H & _); [apply (bool_decide_unpack _); vm_compute; exact I|lia|lia|vm_compute; reflexivity|apply demo_updatable_as|
    apply (demo_same_chip [])|].
  destruct H as (s' & E & Hp & Hq & _); [vm_compute; reflexivity|]. exists s'. split; [exact E|]. split; [exact Hp|exact Hq].
Defined.


(** ** Reading *)
Lemma zdrop_app_le {A} n (l k : list A) : 0 <= n <= zlen l -> zdrop n (l ++ k) = zdrop n l ++ k.
Proof. intros H. unfold zdrop, zlen in *. rewrite drop_app_le; [done|lia]. Qed.

(** The kernel copies to a buffer with a heap behind it. *)
Lemma copy_to_buffer b heap bs :
  zlen bs <= zlen b -> copy_to_user (b ++ heap) 0 bs = ((bs ++ zdrop (zlen bs) b) ++ heap, true).
Proof.
  intros H. pose proof (zlen_nonneg bs). pose proof (zlen_nonneg heap). unfold copy_to_user. rewrite zlen_app, Z.sub_0_r, ztake_0.
  destruct (Z.leb_spec (zlen bs) (Z.max 0 (zlen b + zlen heap))); [|lia]. cbn [app]. rewrite Z.add_0_l, zdrop_app_le by lia.
  by rewrite app_assoc.
Qed.

(** The status file: as much of the text as was asked for, and zeros behind it. *)
Lemma proc_read_status rootdir HGIC z len buff text s :
  cstr HGIC = Ret rootdir -> zlen rootdir <= 18 -> exists_file ProcStatus (sy_files s) = true ->
  hgicf_status_show (p_dev (sy_p s)) = Ret text -> 0 < len <= zlen buff ->
  let got := ztake len text in
  hgic_proc_read_bytes rootdir HGIC (lit "status" ++ z) buff len s
  = Ret ((zlen got, got ++ zdrop (zlen got) (replicate (Z.to_nat len) 0 ++ zdrop len buff)), s).
Proof.
  intros Hr Hl He Ht Hlen got. unfold hgic_proc_read_bytes. destruct (Z.leb_spec len 0); [lia|].
  assert (zlen (replicate (Z.to_nat len) 0) = len) as Hz by (apply zlen_replicate; lia).
  rewrite (bind_lift _ _ _ _ (mem_write_ok buff 0 (replicate (Z.to_nat len) 0) ltac:(lia) ltac:(lia))). rewrite Hz, ztake_0, Z.add_0_l. cbn [app].
  rewrite (bind_Ret _ _ _ _ _ (proc_open_finds rootdir HGIC Hr Hl ProcStatus z s He)).
  set (b := replicate (Z.to_nat len) 0 ++ zdrop len buff).
  assert (zlen b = zlen buff) as Hb by (unfold b; rewrite zlen_app, zlen_zdrop, Hz by lia; lia).
  assert (zlen got <= len) as Hg by (unfold got, ztake, zlen; rewrite length_take; lia). pose proof (zlen_nonneg got).
  unfold with_heap, bind at 1, gets, bind at 1, file_read, seq_read, hgicf_status_open, bind at 1, gets. rewrite (bind_lift _ _ _ _ Ht).
  fold got. rewrite copy_to_buffer by lia. unfold ret at 1. cbn [fst snd].
  assert (zlen (got ++ zdrop (zlen got) b) = zlen b) as Hn by (rewrite zlen_app, zlen_zdrop by lia; lia).
  rewrite zdrop_app_length, ztake_app_length by done. destruct (Z.ltb_spec (zlen got) 0); [lia|].
  unfold bind, on_process, on_part, modify, ret. cbn. do 2 f_equal. by destruct s as [[d h] u f].
Qed.

(** Nothing ever sets the length of the iwpriv file's text: it reads as empty. *)
Lemma iwpriv_file_reads_empty p : pf_iwpriv_result p = 0 -> hgicf_iwpriv_show p = Ret [].
Proof. intros E. unfold hgicf_iwpriv_show. by rewrite E. Qed.

(** The ota file is opened without a show function, and its read function calls it. *)
Lemma proc_ota_read_faults rootdir HGIC z len buff s :
  cstr HGIC = Ret rootdir -> zlen rootdir <= 18 -> exists_file ProcOta (sy_files s) = true -> 0 < len <= zlen buff ->
  hgic_proc_read_bytes rootdir HGIC (lit "ota" ++ z) buff len s = Fault NullDeref.
Proof.
  intros Hr Hl He Hlen. unfold hgic_proc_read_bytes. destruct (Z.leb_spec len 0); [lia|].
  assert (zlen (replicate (Z.to_nat len) 0) = len) as Hz by (apply zlen_replicate; lia).
  rewrite (bind_lift _ _ _ _ (mem_write_ok buff 0 (replicate (Z.to_nat len) 0) ltac:(lia) ltac:(lia))).
  by rewrite (bind_Ret _ _ _ _ _ (proc_open_finds rootdir HGIC Hr Hl ProcOta z s He)).
Qed.

(** The event file copies the whole event, whatever was asked for: what lies behind
    the buffer is overwritten. *)
Definition with_event (ev : list Z) (s : proc_system) : proc_system :=
  ProcSystem (Process (set_d_evt_sema 1 (set_d_evt_list [Skb [] ev []] (p_dev (sy_p s)))) (p_heap (sy_p s))) (sy_ota s) (sy_files s).
Lemma proc_event_read_overflows : exists s',
  hgic_proc_read_bytes (str "hgicf") (lit "hgicf") (lit "fwevnt") [0; 0] 2 (with_event [1; 2; 3; 4; 5] (demo_system [])) = Ret ((5, [1; 2]), s') /\
  p_heap (sy_p s') = [3; 4; 5; 9; 9; 9].
Proof. eexists. split; vm_compute; reflexivity. Qed.

(** Forty-three numbers overflow the 512 bytes they are printed into. *)
Lemma proc_write_ints_overflows :
  hgic_proc_write_ints [] true (str "hgicf") (lit "hgicf") (fun _ => (0, [])) (lit "x") (replicate 43 (- 2 ^ 31)) (demo_system []) = Fault OutOfBounds.
Proof. vm_compute. reflexivity. Qed.
(** One fewer is written, to a file that is not there. *)
Lemma proc_write_ints_fits : exists s',
  hgic_proc_write_ints [] true (str "hgicf") (lit "hgicf") (fun _ => (0, [])) (lit "x") (replicate 42 (- 2 ^ 31)) (demo_system []) = Ret (0, s').
Proof. eexists. vm_compute. reflexivity. Qed.
