(* ===== verification/HgTools.v ===== *)
(** * The command tool and the event daemon (tools/test_app/hgpriv.c, hgicf.c)

    hgpriv passes its arguments to the driver as one text command and prints the
    result and the answer; hgicf reads the events the driver has queued and prints
    what each says.  Both include the application library (file [AppLib]) and run
    here over the modelled device; what they print is part of the state. *)
From Stdlib Require Import String.
From S2P Require Import Prelude Bytes CString Proto Skb FwInfo Utils Format Libc FwCtrl FwCmds Iwpriv IwprivGet Ota Device Core Entry AppLib AppFacts.

(** A process and what it has printed. *)
Record console := Console { co_proc : process; co_out : list Z }.
#[export] Instance process_in_console : Inside process console.
Proof. by refine {| part := co_proc; put_part := fun p c => Console p (co_out c) |}; [|intros []|]. Defined.
Definition on_proc {A} (m : M process A) : M console A := on_part m.
Definition say (fmt : string) (args : list farg) : M console unit :=
  let! t := lift (format Text (str fmt) args) in
  modify (fun c => Console (co_proc c) (co_out c ++ t ++ crlf)).

Section Tools.
Context (stk : list Z) (signed_char : bool) (rootdir : list Z) (stack : list Z) (malloc : Z -> option (list Z)).

(** ** hgpriv *)
(** The loop over the arguments: the array and the length reached. *)
Fixpoint join_args (cmd : list Z) (len : Z) (args : list (list Z)) : outcome (list Z * Z) :=
  match args with
  | [] => Ret (cmd, len)
  | a :: args => leto r := sprintf_at cmd len (str "%s ") [AMem a] in join_args (snd r) (len + fst r) args
  end.

(** The exit code. *)
Definition hgpriv_main (argv : list (list Z)) : M console Z :=
  match argv with
  | _ :: (_ :: _) as args =>
      match malloc 4096 with
      | None => say "no mem" [] ;;; ret (-1)
      | Some buff =>
          let smac := bool_decide (rootdir = str "hgics") in
          if negb (smac || bool_decide (rootdir = str "hgicf")) then say "open iwpriv file fail" [] ;;; ret (-1) else
          let HGIC := if smac then lit "hgics" else lit "hgicf" in
          let! r := lift (join_args (array stack 512) 0 args) in
          let! cmd := lift (mem_write (fst r) (snd r - 1) [0]) in
          let! buff := lift (mem_write buff 0 (replicate 4096 0)) in
          let! r := on_proc (hgic_iwpriv_do stk signed_char rootdir HGIC malloc cmd None 0 (Some buff) 4096) in
          say "RESP:%d" [AInt (fst r)] ;;;
          say "%s" [AMem (default buff (snd r))] ;;;
          ret 0
      end
  | _ => ret (-1)
  end.

(** ** hgicf *)
Definition IFNAME : list Z := lit "hg0".
#[local] Abbreviation HGIC := (lit "hgicf").

(** Until there is nothing more; the chip says how often. *)
Fixpoint wakeupdata_loop (fuel : nat) (buff : list Z) : M console unit :=
  match fuel with
  | O => fail Diverges
  | S fuel =>
      let! r := on_proc (hgic_iwpriv_get_wkdata_buff stk signed_char rootdir HGIC malloc IFNAME buff 4096) in
      if 0 <? fst r then
        let! buff := lift (mem_write (snd r) (fst r) [0]) in
        say "get wkdata, len:%d, %s" [AInt (fst r); AMem (zdrop 42 buff)] ;;;
        wakeupdata_loop fuel buff
      else ret tt
  end.
Definition hgic_test_read_wakeupdata (fuel : nat) : M console unit :=
  let! buff := lift (deref (malloc 4096)) in wakeupdata_loop fuel buff.

Definition mac_args (data : list Z) (off : Z) : outcome (list farg) := MACARG (zdrop off data).
Definition say_mac (pre : string) (data : list Z) (post : string) : M console unit :=
  let! m := lift (mac_args data 0) in
  let! t := lift (format Text (str pre ++ MACSTR ++ str post) m) in
  modify (fun c => Console (co_proc c) (co_out c ++ t ++ crlf)).
(** for (i = 0; i * 6 < data_len; i++), in [unsigned int]. *)
Fixpoint pair_list (n : nat) (i : Z) (data : list Z) : M console unit :=
  match n with
  | O => ret tt
  | S n =>
      let! m := lift (mac_args data (6 * i)) in
      (let! t := lift (format Text (str "  sta%d:" ++ MACSTR) (AInt i :: m)) in
       modify (fun c => Console (co_proc c) (co_out c ++ t ++ crlf))) ;;;
      pair_list n (i + 1) data
  end.
Definition IPSTR : list Z := str "%d.%d.%d.%d".
Definition IPARG (a : Z) : list farg := map (fun k => AInt (Z.land (Z.shiftr a k) 0xff)) [24; 16; 8; 0].
Definition dhcp_text (data : list Z) : outcome (list Z) :=
  leto ip := get32_at data 0 in leto mask := get32_at data 4 in leto svr := get32_at data 8 in
  leto router := get32_at data 12 in leto dns1 := get32_at data 16 in leto dns2 := get32_at data 20 in
  format Text (str "fw dhcpc result: ipaddr:" ++ IPSTR ++ str ", netmask:" ++ IPSTR ++ str ", svrip:" ++ IPSTR
               ++ str ", router:" ++ IPSTR ++ str ", dns:" ++ IPSTR ++ str "/" ++ IPSTR)
    (IPARG ip ++ IPARG mask ++ IPARG svr ++ IPARG router ++ IPARG dns1 ++ IPARG dns2).

Definition say_exception (data : list Z) : M console unit :=
  let! num := lift (get32_at data 0) in
  match s32 num with
  | 4 => say "*wireless tx blocked, maybe need reset wifi module*" []
  | 5 | 6 =>
      let! mx := lift (get32_at data 4) in
      let! avg := lift (get32_at data 8) in
      let! mn := lift (get32_at data 12) in
      if s32 num =? 5 then say "*wireless txdelay too loog, %d:%d:%d *" [AInt mx; AInt mn; AInt avg]
      else say "*detect strong backgroud noise. %d:%d:%d *" [AInt mx; AInt mn; AInt avg]
  | 7 => let! temp := lift (get32_at data 4) in say "*chip temperature too overtop: %d *" [AInt temp]
  | 8 => say "*password maybe is wrong *" []
  | _ => ret tt
  end.

(** [event_data] is the memory from the buffer on. *)
Definition hgicf_fwevent_parse (fuel : nat) (event_data : list Z) (event_len : Z) : M console unit :=
  let data := zdrop sizeof_hgic_ctrl_hdr event_data in
  let data_len := u32 (event_len - sizeof_hgic_ctrl_hdr) in
  let! evt_id := lift (HDR_EVTID event_data) in
  say "recv firmware event %d" [AInt evt_id] ;;;
  match malloc 4096 with
  | None => ret tt
  | Some buff =>
      if evt_id =? HGIC_EVENT_SCANNING then say "start scan ..." []
      else if evt_id =? HGIC_EVENT_SCAN_DONE then
        say "scan done!" [] ;;;
        let! r := on_proc (hgic_iwpriv_get_scan_list stk signed_char rootdir HGIC malloc IFNAME buff 4096) in
        say "%s" [AMem (snd r)]
      else if evt_id =? HGIC_EVENT_TX_BITRATE then
        let! v := lift (get32_at data 0) in say "estimate tx bitrate:%dKbps" [AInt v]
      else if evt_id =? HGIC_EVENT_PAIR_START then say "start pairing ..." []
      else if evt_id =? HGIC_EVENT_PAIR_SUCCESS then
        say_mac "pairing success! [" data "]" ;;;
        let! _ := on_proc (hgic_iwpriv_set_pairing stk signed_char rootdir HGIC malloc IFNAME 0) in ret tt
      else if evt_id =? HGIC_EVENT_PAIR_DONE then
        say "pairing done!" [] ;;; pair_list (Z.to_nat ((data_len + 5) / 6)) 0 data
      else if evt_id =? HGIC_EVENT_CONECT_START then say "start connecting ..." []
      else if evt_id =? HGIC_EVENT_CONECTED then
        say_mac "new sta " data " connected!" ;;; hgic_test_read_wakeupdata fuel
      else if evt_id =? HGIC_EVENT_ROAM_CONECTED then say_mac "roam success to " data "!"
      else if evt_id =? HGIC_EVENT_DISCONECTED then say_mac "sta " data " disconnected"
      else if evt_id =? HGIC_EVENT_SIGNAL then
        let! rssi := lift (mem_get data 0) in
        let! evm := lift (mem_get data 1) in
        say "signal changed: rssi:%d, evm:%d" [AInt (s8 rssi); AInt (s8 evm)]
      else if evt_id =? HGIC_EVENT_CUSTOMER_MGMT then
        let! m := lift (mac_args data 0) in
        let! t := lift (format Text (str "rx customer mgmt frame from " ++ MACSTR ++ str ", %d bytes ") (m ++ [AInt (u32 (data_len - 6))])) in
        modify (fun c => Console (co_proc c) (co_out c ++ t ++ crlf))
      else if evt_id =? HGIC_EVENT_DHCPC_DONE then
        let! t := lift (dhcp_text data) in modify (fun c => Console (co_proc c) (co_out c ++ t ++ crlf))
      else if evt_id =? HGIC_EVENT_CONNECT_FAIL then
        let! c := lift (mem_get data 0) in
        say "connect fail, status_code=%d" [AInt (if signed_char then s8 c else c)]
      else if evt_id =? HGIC_EVENT_CUST_DRIVER_DATA then say "rx customer driver data %d bytes" [AInt data_len]
      else if evt_id =? HGIC_EVENT_UNPAIR_STA then say_mac "unpair sta:" data ""
      else if evt_id =? HGIC_EVENT_EXCEPTION_INFO then say_exception data
      else ret tt
  end.

(** Reads of the events file, which the driver creates as /proc/hgicf/fwevnt. *)
Fixpoint hgicf_reads (fuel : nat) (n : nat) (buff : list Z) : M console unit :=
  match n with
  | O => ret tt
  | S n =>
      let! bs := on_proc (on_dev hgicf_fwevent_read) in
      let! buff := lift (mem_write buff 0 bs) in
      (if 0 <? zlen bs then hgicf_fwevent_parse fuel buff (zlen bs) else ret tt) ;;;
      hgicf_reads fuel n buff
  end.
(** The first [n] rounds of the daemon's loop once the file is open. *)
Definition hgicf_main (fuel n : nat) : M console Z :=
  match malloc 4096 with
  | None => say "malloc fail" [] ;;; ret (-1)
  | Some buff => hgicf_reads fuel n buff ;;; ret 0
  end.
End Tools.

(** ** What the daemon prints *)
(** The events whose text is all that happens; an address is its six bytes. *)
Inductive fw_event :=
  | EvScanning | EvBitrate (kbps : Z) | EvPairStart | EvPairDone (stas : list (list Z)) | EvConnectStart
  | EvRoam (mac : list Z) | EvDisconnected (mac : list Z) | EvSignal (rssi evm : Z) | EvUnpair (mac : list Z)
  | EvDriverData (data : list Z) | EvTemperature (temp : Z) | EvOther (id : Z).
Definition event_id (e : fw_event) : Z :=
  match e with
  | EvScanning => event_code HGIC_EVENT_SCANNING | EvBitrate _ => event_code HGIC_EVENT_TX_BITRATE | EvPairStart => event_code HGIC_EVENT_PAIR_START
  | EvPairDone _ => event_code HGIC_EVENT_PAIR_DONE | EvConnectStart => event_code HGIC_EVENT_CONECT_START | EvRoam _ => event_code HGIC_EVENT_ROAM_CONECTED
  | EvDisconnected _ => event_code HGIC_EVENT_DISCONECTED | EvSignal _ _ => event_code HGIC_EVENT_SIGNAL | EvUnpair _ => event_code HGIC_EVENT_UNPAIR_STA
  | EvDriverData _ => event_code HGIC_EVENT_CUST_DRIVER_DATA | EvTemperature _ => event_code HGIC_EVENT_EXCEPTION_INFO | EvOther id => id
  end.
Definition event_payload (e : fw_event) : list Z :=
  match e with
  | EvBitrate v => put_unaligned_le32 v
  | EvPairDone ms => concat ms
  | EvRoam m | EvDisconnected m | EvUnpair m => m
  | EvSignal r v => [r; v]
  | EvDriverData d => d
  | EvTemperature t => put_unaligned_le32 7 ++ put_unaligned_le32 t
  | _ => []
  end.
Definition event_frame (cookie : Z) (e : fw_event) : list Z :=
  [0x1A; 0x2B; type_code HGIC_HDR_TYPE_EVENT; 1] ++ put_unaligned_le16 (12 + zlen (event_payload e)) ++ put_unaligned_le16 cookie
  ++ [event_id e; 0; 0; 0] ++ event_payload e.

Fixpoint pair_lines (i : Z) (ms : list (list Z)) : list Z :=
  match ms with [] => [] | m :: ms => str "  sta" ++ signed_text (s32 i) ++ [58] ++ mac_str m ++ crlf ++ pair_lines (i + 1) ms end.
Definition event_lines (e : fw_event) : list Z :=
  match e with
  | EvScanning => str "start scan ..." ++ crlf
  | EvBitrate v => str "estimate tx bitrate:" ++ signed_text (s32 v) ++ str "Kbps" ++ crlf
  | EvPairStart => str "start pairing ..." ++ crlf
  | EvPairDone ms => str "pairing done!" ++ crlf ++ pair_lines 0 ms
  | EvConnectStart => str "start connecting ..." ++ crlf
  | EvRoam m => str "roam success to " ++ mac_str m ++ str "!" ++ crlf
  | EvDisconnected m => str "sta " ++ mac_str m ++ str " disconnected" ++ crlf
  | EvSignal r v => str "signal changed: rssi:" ++ signed_text (s8 r) ++ str ", evm:" ++ signed_text (s8 v) ++ crlf
  | EvUnpair m => str "unpair sta:" ++ mac_str m ++ crlf
  | EvDriverData d => str "rx customer driver data " ++ signed_text (zlen d) ++ str " bytes" ++ crlf
  | EvTemperature t => str "*chip temperature too overtop: " ++ signed_text (s32 t) ++ str " *" ++ crlf
  | EvOther _ => []
  end.
Definition event_text (e : fw_event) : list Z :=
  str "recv firmware event " ++ signed_text (event_id e) ++ crlf ++ event_lines e.

(** An event of another kind has an id that is none of those. *)
Definition known_ids : list Z :=
  [5; 6; 7; 8; 9; 10; 11; 12; 13; 14; 18; 19; 21; 22; 23; 24; 27; 32].
Definition event_ok (e : fw_event) : Prop :=
  zlen (event_payload e) <= 4000 /\
  match e with
  | EvPairDone ms => Forall mac_ok ms
  | EvRoam m | EvDisconnected m | EvUnpair m => mac_ok m
  | EvOther id => is_byte id /\ id ∉ known_ids
  | _ => True
  end.

Definition print (t : list Z) (c : console) : console := Console (co_proc c) (co_out c ++ t).
Lemma print_print t u c : print t (print u c) = print (u ++ t) c.
Proof. unfold print. simpl. by rewrite app_assoc. Qed.
Lemma say_ok fmt args t c : format Text (str fmt) args = Ret t -> say fmt args c = Ret (tt, print (t ++ crlf) c).
Proof. intros E. unfold say. by rewrite (bind_lift _ _ _ _ E). Qed.
Lemma format_d_end v : format Text [37; 100] [AInt v] = Ret (signed_text (s32 v)).
Proof. rewrite format_d. cbn [format obind]. by rewrite app_nil_r. Qed.

(** Text, a number, text. *)
Lemma format_text_d pre v post :
  Forall (fun c => c <> 37) pre -> Forall (fun c => c <> 37) post ->
  format Text (pre ++ 37 :: 100 :: post) [AInt v] = Ret (pre ++ signed_text (s32 v) ++ post).
Proof. intros H1 H2. by rewrite format_lit, format_d, format_nil. Qed.
Definition plain (s : string) : bool := forallb (fun c => negb (c =? 37)) (str s).
Lemma plain_spec s : plain s = true -> Forall (fun c => c <> 37) (str s).
Proof. unfold plain. rewrite forallb_forall, Forall_forall. intros H c Hc. by apply list_elem_of_In, H, negb_true_iff, Z.eqb_neq in Hc. Qed.
Lemma say_text fmt c : plain fmt = true -> say fmt [] c = Ret (tt, print (str fmt ++ crlf) c).
Proof. intros H. by apply say_ok, format_nil, plain_spec. Qed.
Lemma say_d fmt pre post v c :
  str fmt = str pre ++ 37 :: 100 :: str post -> plain pre = true -> plain post = true ->
  say fmt [AInt v] c = Ret (tt, print (str pre ++ signed_text (s32 v) ++ str post ++ crlf) c).
Proof.
  intros E H1 H2. rewrite (say_ok fmt _ (str pre ++ signed_text (s32 v) ++ str post)) by (rewrite E; by apply format_text_d; apply plain_spec).
  by rewrite <- !app_assoc.
Qed.
Lemma MACARG_ok m rest : mac_ok m -> MACARG (m ++ rest) = Ret (map (fun b => AInt (Z.land b 0xff)) m).
Proof. intros [Hl _]. unfold MACARG. by rewrite (mem_read_mid _ [] m rest). Qed.
Lemma say_mac_ok pre m post rest c :
  mac_ok m -> plain pre = true -> plain post = true ->
  say_mac pre (m ++ rest) post c = Ret (tt, print (str pre ++ mac_str m ++ str post ++ crlf) c).
Proof.
  intros Hm H1%plain_spec H2%plain_spec. unfold say_mac, mac_args. rewrite zdrop_0, (bind_lift _ _ _ _ (MACARG_ok m rest Hm)).
  pose proof (format_mac_args m (str post) [] Hm) as F. rewrite app_nil_r, (format_nil (str post) []) in F by done. cbn [obind] in F.
  erewrite bind_lift by (rewrite format_lit, F by done; reflexivity). unfold print, modify. by rewrite <- !app_assoc.
Qed.
Lemma pair_list_ok ms i data pre rest c :
  Forall mac_ok ms -> data = pre ++ concat ms ++ rest -> zlen pre = 6 * i ->
  pair_list (length ms) i data c = Ret (tt, print (pair_lines i ms) c).
Proof.
  intros H. revert i pre c. induction H as [|m ms Hm H IH]; intros i pre c Ed Hp; cbn [length pair_list pair_lines].
  - unfold print. rewrite app_nil_r. by destruct c.
  - assert (mac_args data (6 * i) = Ret (map (fun b => AInt (Z.land b 0xff)) m)) as Em.
    { unfold mac_args. rewrite Ed, zdrop_app_length by done. cbn [concat]. rewrite <- app_assoc. by apply MACARG_ok. }
    rewrite (bind_lift _ _ _ _ Em).
    pose proof (format_mac_args m [] [] Hm) as F. rewrite !app_nil_r in F. cbn [format obind] in F. rewrite app_nil_r in F.
    erewrite bind_Ret.
    2: { erewrite bind_lift.
      - reflexivity.
      - change (str "  sta%d:" ++ MACSTR) with (str "  sta" ++ 37 :: 100 :: [58] ++ MACSTR).
        rewrite format_lit, format_d, format_lit, F by (by repeat constructor). reflexivity. }
    rewrite (IH (i + 1) (pre ++ m)); [|by rewrite Ed; cbn [concat]; rewrite <- !app_assoc|rewrite zlen_app; destruct Hm; lia].
    unfold print. cbn [co_proc co_out]. rewrite <- !app_assoc. reflexivity.
Qed.

Lemma event_frame_zlen cookie e : zlen (event_frame cookie e) = 12 + zlen (event_payload e).
Proof. unfold event_frame. rewrite !zlen_app, !put_le16_zlen, !zlen_cons, !zlen_nil. lia. Qed.
Lemma event_frame_id cookie e rest : HDR_EVTID (event_frame cookie e ++ rest) = Ret (event_id e).
Proof. reflexivity. Qed.
Lemma event_frame_data cookie e rest : zdrop 12 (event_frame cookie e ++ rest) = event_payload e ++ rest.
Proof. reflexivity. Qed.
Lemma not_known id k : k ∈ known_ids -> id ∉ known_ids -> (id =? k) = false.
Proof. intros H1 H2. apply Z.eqb_neq. by intros ->. Qed.

(** Decides comparisons of literals. *)
Ltac decide_tests :=
  repeat match goal with |- context [Zpos ?a =? Zpos ?b] =>
    let v := eval vm_compute in (Zpos a =? Zpos b) in change (Zpos a =? Zpos b) with v end; cbv iota.

Section Daemon.
Context (stk : list Z) (signed_char : bool) (malloc : Z -> option (list Z)) (rootdir : list Z) (fuel : nat).
Hypothesis Hmalloc : malloc 4096 <> None.

Lemma event_id_byte e : event_ok e -> s32 (event_id e) = event_id e.
Proof.
  intros [_ H]. apply s32_id. destruct e; cbn [event_id event_code]; try lia. destruct H as [H _]. unfold is_byte in H. lia.
Qed.
Lemma parse_prints cookie e rest c :
  event_ok e ->
  hgicf_fwevent_parse stk signed_char rootdir malloc fuel (event_frame cookie e ++ rest) (zlen (event_frame cookie e)) c
  = Ret (tt, print (event_text e) c).
Proof.
  intros He. unfold hgicf_fwevent_parse. change sizeof_hgic_ctrl_hdr with 12. rewrite event_frame_data, event_frame_zlen.
  rewrite (bind_lift _ _ _ _ (event_frame_id cookie e rest)).
  rewrite (bind_Ret _ _ _ _ _ (say_d "recv firmware event %d" "recv firmware event " "" (event_id e) c eq_refl eq_refl eq_refl)).
  rewrite event_id_byte by done. change (str "") with (@nil Z). cbn [app].
  destruct (malloc 4096) as [buff|]; [|done]. cbv zeta.
  replace (12 + zlen (event_payload e) - 12) with (zlen (event_payload e)) by lia.
  destruct He as [Hl He]. pose proof (zlen_nonneg (event_payload e)).
  rewrite u32_id by lia.
  assert (print (event_text e) c = print (event_lines e) (print (str "recv firmware event " ++ signed_text (event_id e) ++ crlf) c)) as ->
    by (unfold event_text; by rewrite print_print, <- !app_assoc).
  set (c1 := print (str "recv firmware event " ++ _) c).
  clearbody c1. destruct e as [|v| |ms| |m|m|r v|m|dat|t|id]; cbn [event_id event_payload event_lines] in *;
    [cbn [event_code]; decide_tests..|].
  - by apply say_text.
  - rewrite (bind_lift _ _ _ _ (get32_at_here v rest 0 eq_refl)).
    rewrite (say_d "estimate tx bitrate:%dKbps" "estimate tx bitrate:" "Kbps") by done. by rewrite s32_u32.
  - by apply say_text.
  - rewrite (bind_Ret _ _ _ _ _ (say_text "pairing done!" c1 eq_refl)).
    assert (zlen (concat ms) = 6 * zlen ms) as E.
    { clear -He. induction He as [|m ms [Hm _] _ IH]; [done|]. cbn [concat]. rewrite zlen_app, zlen_cons. lia. }
    rewrite E. replace (Z.to_nat ((6 * zlen ms + 5) / 6)) with (length ms).
    2: { replace (6 * zlen ms + 5) with (5 + zlen ms * 6) by lia. rewrite Z.div_add by lia. unfold zlen. change (5 / 6) with 0. lia. }
    rewrite (pair_list_ok ms 0 _ [] rest) by done. by rewrite print_print, <- !app_assoc.
  - by apply say_text.
  - by apply say_mac_ok.
  - by apply say_mac_ok.
  - rewrite (bind_lift _ _ _ _ (mem_get_mid _ [] r ([v] ++ rest) 0 eq_refl eq_refl)).
    rewrite (bind_lift _ _ _ _ (mem_get_mid _ [r] v rest 1 eq_refl eq_refl)).
    rewrite (say_ok _ _ (str "signal changed: rssi:" ++ signed_text (s8 r) ++ str ", evm:" ++ signed_text (s8 v))); [by rewrite <- !app_assoc|].
    change (str "signal changed: rssi:%d, evm:%d") with (str "signal changed: rssi:" ++ 37 :: 100 :: str ", evm:" ++ 37 :: 100 :: []).
    rewrite format_lit, format_d, format_lit, format_d by (by apply plain_spec). cbn [format obind].
    pose proof (Z.mod_pos_bound (r + 2 ^ 7) (2 ^ 8) eq_refl). pose proof (Z.mod_pos_bound (v + 2 ^ 7) (2 ^ 8) eq_refl).
    rewrite !s32_id, app_nil_r by (unfold s8; lia). done.
  - rewrite (say_mac_ok "unpair sta:" m "" rest) by done. done.
  - rewrite (say_d "rx customer driver data %d bytes" "rx customer driver data " " bytes") by done. by rewrite s32_id by lia.
  - unfold say_exception. rewrite <- app_assoc, (bind_lift _ _ _ _ (get32_at_here 7 _ 0 eq_refl)). change (s32 (u32 7)) with 7. cbv iota.
    rewrite (bind_lift _ _ _ _ (get32_at_mid _ (put_unaligned_le32 7) t rest 4 eq_refl eq_refl)).
    rewrite (say_d "*chip temperature too overtop: %d *" "*chip temperature too overtop: " " *") by done. by rewrite s32_u32.
  - destruct He as [_ He].
    repeat match goal with |- context [id =? event_code ?k] =>
      rewrite (not_known id (event_code k)) by (done || (apply (bool_decide_unpack _); vm_compute; exact I)) end.
    unfold print. rewrite app_nil_r. by destruct c1.
Qed.

(** *** From the chip to the screen *)
Definition console_dev (c : console) : hgicf_wdev := p_dev (co_proc c).
Definition is_frame (s : skb) (ev : Z * fw_event) : Prop := skb_data s = event_frame (fst ev) (snd ev).

Lemma read_none c :
  d_evt_list (console_dev c) = [] ->
  exists c', on_proc (on_dev hgicf_fwevent_read) c = Ret ([], c') /\ co_out c' = co_out c /\ d_evt_list (console_dev c') = [].
Proof.
  unfold on_proc, on_dev, on_part, hgicf_fwevent_read, console_dev. destruct c as [[d h] o]. cbn. intros H.
  destruct (d_evt_sema d <=? 0); [by eexists|]. rewrite H. by eexists.
Qed.
Lemma read_one c s l :
  d_evt_list (console_dev c) = s :: l -> 0 < d_evt_sema (console_dev c) ->
  exists c', on_proc (on_dev hgicf_fwevent_read) c = Ret (skb_data s, c') /\ co_out c' = co_out c /\ d_evt_list (console_dev c') = l /\
    d_evt_sema (console_dev c') = d_evt_sema (console_dev c) - 1.
Proof.
  unfold on_proc, on_dev, on_part, hgicf_fwevent_read, console_dev. destruct c as [[d h] o]. cbn. intros H Hs.
  destruct (Z.leb_spec (d_evt_sema d) 0); [lia|]. rewrite H. by eexists.
Qed.
Lemma put_block buff bs : zlen bs <= zlen buff -> exists rest, mem_write buff 0 bs = Ret (bs ++ rest) /\ zlen (bs ++ rest) = zlen buff.
Proof.
  intros H. pose proof (zlen_nonneg bs). rewrite mem_write_ok by lia. eexists. split; [reflexivity|].
  rewrite zlen_app, zlen_zdrop; lia.
Qed.
Lemma reads_nothing k buff c :
  d_evt_list (console_dev c) = [] -> 0 <= zlen buff ->
  exists c', hgicf_reads stk signed_char rootdir malloc fuel k buff c = Ret (tt, c') /\ co_out c' = co_out c /\ d_evt_list (console_dev c') = [].
Proof.
  revert buff c. induction k as [|k IH]; intros buff c Hl Hb; [by exists c|]. cbn [hgicf_reads].
  destruct (read_none c Hl) as (c1 & E & E1 & E2). rewrite (bind_Ret _ _ _ _ _ E).
  destruct (put_block buff [] Hb) as (r & E3 & Hr). rewrite (bind_lift _ _ _ _ E3). rewrite (bind_Ret (ret tt) _ c1 tt c1 eq_refl).
  destruct (IH ([] ++ r) c1) as (c2 & E4 & E5 & E6); [done|rewrite Hr; done|]. exists c2. by rewrite E5.
Qed.

Lemma reads_print ss evs k buff c :
  Forall2 is_frame ss evs -> Forall event_ok (map snd evs) -> d_evt_list (console_dev c) = ss ->
  zlen ss <= d_evt_sema (console_dev c) -> 4096 <= zlen buff ->
  exists c', hgicf_reads stk signed_char rootdir malloc fuel (length evs + k) buff c = Ret (tt, c') /\
    co_out c' = co_out c ++ concat (map event_text (map snd evs)) /\ d_evt_list (console_dev c') = [].
Proof.
  intros F. revert buff c. induction F as [|s [ck e] ss evs Hs F IH]; intros buff c He Hl Hsema Hb.
  - cbn [length Nat.add map concat]. rewrite app_nil_r. apply reads_nothing; [done|lia].
  - inversion_clear He as [|? ? He1 He2]. cbn [length Nat.add hgicf_reads map concat]. unfold is_frame in Hs. cbn [fst snd] in Hs, He1 |- *.
    rewrite zlen_cons in Hsema. pose proof (zlen_nonneg ss). pose proof (event_frame_zlen ck e) as Z. destruct (He1) as [Hz _].
    destruct (read_one c s ss Hl ltac:(lia)) as (c1 & E & E1 & E2 & E3). rewrite (bind_Ret _ _ _ _ _ E), Hs.
    destruct (put_block buff (event_frame ck e)) as (r & E4 & Hr); [lia|]. rewrite (bind_lift _ _ _ _ E4).
    pose proof (zlen_nonneg (event_payload e)). destruct (Z.ltb_spec 0 (zlen (event_frame ck e))); [|lia].
    rewrite (bind_Ret _ _ _ _ _ (parse_prints ck e r c1 He1)).
    destruct (IH (event_frame ck e ++ r) (print (event_text e) c1)) as (c2 & -> & E5 & E6); [done|done|change (zlen ss <= d_evt_sema (console_dev c1)); lia|lia|].
    exists c2. split; [done|]. split; [|done]. rewrite E5. cbn [print co_out]. by rewrite E1, <- app_assoc.
Qed.
End Daemon.

(** Events the bus delivers one after another. *)
Fixpoint arrive_all (ss : list skb) : M hgicf_wdev unit :=
  match ss with [] => ret tt | s :: ss => hgicf_rx_fw_event s ;;; arrive_all ss end.
Lemma known_not_dbg e : event_ok e -> event_id e <> HGIC_EVENT_FWDBG_INFO.
Proof.
  intros [_ H]. destruct e; cbn [event_id event_code]; try lia. intros ->. apply (proj2 H), (bool_decide_unpack _). vm_compute. exact I.
Qed.
Lemma arrive_all_ok ss evs d :
  Forall2 is_frame ss evs -> Forall event_ok (map snd evs) -> zlen (d_evt_list d) + zlen ss <= 17 ->
  exists d', arrive_all ss d = Ret (tt, d') /\ d_evt_list d' = d_evt_list d ++ ss /\ d_evt_sema d' = d_evt_sema d + zlen ss.
Proof.
  intros F. revert d. induction F as [|s [ck e] ss evs Hs F IH]; intros d He Hl; cbn [arrive_all].
  - exists d. rewrite app_nil_r. split; [done|]. split; [done|]. change (zlen []) with 0. lia.
  - inversion_clear He as [|? ? He1 He2]. cbn [fst snd] in *. unfold is_frame in Hs. cbn [fst snd] in Hs.
    rewrite zlen_cons in Hl. pose proof (zlen_nonneg ss). pose proof (zlen_nonneg (event_payload e)).
    assert (hgicf_rx_fw_event s d = Ret (tt, event_enqueue s d)) as E.
    { apply rx_event_kept. split; [unfold skb_len; rewrite Hs, event_frame_zlen; change sizeof_hgic_ctrl_hdr with 12; lia|].
      exists (event_id e). rewrite Hs, event_frame_id. split; [done|]. by apply known_not_dbg. }
    rewrite (bind_Ret _ _ _ _ _ E).
    assert (d_evt_list (event_enqueue s d) = d_evt_list d ++ [s]) as El.
    { unfold event_enqueue, HGIC_EVENT_MAX. simpl. destruct (Z.ltb_spec 16 (zlen (d_evt_list d))); [lia|done]. }
    destruct (IH (event_enqueue s d)) as (d' & E1 & E2 & E3); [done|rewrite El, zlen_app, zlen_cons, zlen_nil; lia|].
    exists d'. split; [done|]. rewrite E2, E3, El, <- app_assoc, zlen_cons. split; [done|].
    change (d_evt_sema (event_enqueue s d)) with (d_evt_sema d + 1). lia.
Qed.

(** C25. Up to 16 events (HGIC_EVENT_MAX) that arrive from the chip while the daemon is
    elsewhere are all printed by its next reads, each once, in the order they came,
    each as the text of its own data; more reads print nothing.  The events are those
    the daemon only prints -- the begin of a scan, the bit rate, begin and end of
    pairing, the begin of a connection, roaming, disconnection, signal, driver data,
    removal of a pairing, over-temperature, and the ids it does not know -- with up
    to 4000 bytes of data, and six in an address; not those for which it calls the
    driver again (end of a scan, successful pairing, connection), nor the remaining
    texts (management frames, DHCP results, connection failures, other
    exceptions). *)
Theorem events_reach_screen stk sc rootdir malloc fuel ss evs k c b :
  Forall2 is_frame ss evs -> Forall event_ok (map snd evs) -> zlen ss <= HGIC_EVENT_MAX ->
  d_evt_list (console_dev c) = [] -> 0 <= d_evt_sema (console_dev c) -> malloc 4096 = Some b -> 4096 <= zlen b ->
  exists c', (on_proc (on_dev (arrive_all ss)) ;;; hgicf_main stk sc rootdir malloc fuel (length ss + k)) c = Ret (0, c') /\
    co_out c' = co_out c ++ concat (map event_text (map snd evs)) /\ d_evt_list (console_dev c') = [].
Proof.
  intros F He Hn Hl Hs Hm Hb.
  destruct (arrive_all_ok ss evs (console_dev c) F He) as (d & E & E1 & E2); [rewrite Hl; unfold HGIC_EVENT_MAX, zlen in *; simpl; lia|].
  set (c1 := Console (Process d (p_heap (co_proc c))) (co_out c)).
  assert (on_proc (on_dev (arrive_all ss)) c = Ret (tt, c1)) as E3.
  { unfold on_proc, on_dev, on_part. cbn [part process_in_console wdev_in_process]. unfold console_dev in E. by rewrite E. }
  rewrite (bind_Ret _ _ _ _ _ E3). unfold hgicf_main. rewrite Hm.
  destruct (reads_print stk sc malloc rootdir fuel ltac:(by rewrite Hm) ss evs k b c1) as (c2 & E4 & E5 & E6); [done|done| |cbn; lia|done|].
  - change (d_evt_list (console_dev c1)) with (d_evt_list d). by rewrite E1, Hl.
  - exists c2. split; [|done]. rewrite (Forall2_length _ _ _ F). by rewrite (bind_Ret _ _ _ _ _ E4).
Qed.
Lemma events_reach_screen_witness :
  let mac := [2; 0; 0; 0; 0; 7] in
  let evs := [(1, EvPairDone [mac; mac]); (2, EvSignal 0xC4 20); (3, EvDisconnected mac); (4, EvOther 200)] in
  exists c', (on_proc (on_dev (arrive_all (map (fun ev => Skb [] (event_frame (fst ev) (snd ev)) []) evs))) ;;;
      hgicf_main [] true (str "hgicf") demo_malloc 1 6) (Console (demo_process []) []) = Ret (0, c') /\
    co_out c' = concat (map (fun l => str l ++ crlf)
      ["recv firmware event 10"; "pairing done!"; "  sta0:02:00:00:00:00:07"; "  sta1:02:00:00:00:00:07"; "recv firmware event 14";
       "signal changed: rssi:-60, evm:20"; "recv firmware event 13"; "sta 02:00:00:00:00:07 disconnected"; "recv firmware event 200"]%string) /\
    d_evt_list (console_dev c') = [].
Proof.
  intros mac evs.
  exact (events_reach_screen [] true (str "hgicf") demo_malloc 1 (map (fun ev => Skb [] (event_frame (fst ev) (snd ev)) []) evs) evs 2
    (Console (demo_process []) []) _ ltac:(by repeat constructor)
    ltac:(repeat constructor; first [by vm_compute | (apply (bool_decide_unpack _); vm_compute; exact I)])
    ltac:(by vm_compute) eq_refl ltac:(by vm_compute) eq_refl ltac:(by vm_compute)).
Defined.

(** ** What hgpriv passes on *)
(** Words with blanks between them. *)
Fixpoint words (ts : list (list Z)) : list Z :=
  match ts with [] => [] | [t] => t | t :: ts => t ++ 32 :: words ts end.
Lemma words_blank ts : ts <> [] -> concat (map (fun t => t ++ [32]) ts) = words ts ++ [32].
Proof.
  induction ts as [|t [|t2 ts] IH]; [done|intros _; cbn; by rewrite app_nil_r|]. intros _.
  change (concat (map (fun t => t ++ [32]) (t :: t2 :: ts))) with ((t ++ [32]) ++ concat (map (fun t => t ++ [32]) (t2 :: ts))).
  rewrite IH by done. change (words (t :: t2 :: ts)) with (t ++ 32 :: words (t2 :: ts)). by rewrite <- !app_assoc.
Qed.
Lemma join_args_ok ts pre rest :
  Forall no_nul ts -> zlen (concat (map (fun t => t ++ [32]) ts)) < zlen rest ->
  exists rest', join_args (pre ++ rest) (zlen pre) (map (fun t => t ++ [0]) ts)
    = Ret ((pre ++ concat (map (fun t => t ++ [32]) ts)) ++ rest', zlen (pre ++ concat (map (fun t => t ++ [32]) ts))) /\
    zlen rest' = zlen rest - zlen (concat (map (fun t => t ++ [32]) ts)).
Proof.
  intros H. revert pre rest. induction H as [|t ts Ht H IH]; intros pre rest Hl; cbn [map join_args concat] in *.
  - exists rest. rewrite app_nil_r. split; [done|]. change (zlen []) with 0. lia.
  - set (w := t ++ [32]) in *. rewrite zlen_app in Hl. pose proof (zlen_nonneg (concat (map (fun t => t ++ [32]) ts))).
    assert (format Text (str "%s ") [AMem (t ++ [0])] = Ret w) as F.
    { change (str "%s ") with (37 :: 115 :: [32]). by rewrite (format_s _ t) by by apply cstr_app. }
    pose proof (zlen_nonneg w).
    destruct (split_at (zlen w + 1) rest) as (a & b & -> & Ha & Hb); [lia|].
    assert (sprintf_at (pre ++ a ++ b) (zlen pre) (str "%s ") [AMem (t ++ [0])] = Ret (zlen w, (pre ++ w) ++ [0] ++ b)) as ->.
    { unfold sprintf_at. rewrite F. cbn [obind]. rewrite (mem_write_mid _ pre a b (w ++ [0])) by (done || (rewrite Ha, zlen_app; done)).
      cbn [obind]. by rewrite <- !app_assoc. }
    cbn [obind fst snd]. rewrite <- zlen_app. rewrite zlen_app in Hl.
    destruct (IH (pre ++ w) ([0] ++ b)) as (r & E & Hr); [rewrite zlen_app; change (zlen [0]) with 1; lia|].
    exists r. rewrite E, <- !app_assoc. split; [done|]. rewrite Hr, !zlen_app. change (zlen [0]) with 1. lia.
Qed.

Section Hgpriv.
Context (stk : list Z) (sc : bool) (stack : list Z) (malloc : Z -> option (list Z)).
Context (block : list Z).
Hypothesis Hmalloc : malloc 4096 = Some block.
Hypothesis Hblock : 4096 <= zlen block.

Lemma hgpriv_runs prog ts c :
  Forall no_nul ts -> ts <> [] -> zlen (words ts) <= 510 ->
  exists z buff, 4096 <= zlen buff /\
  hgpriv_main stk sc (str "hgicf") stack malloc (prog :: map (fun t => t ++ [0]) ts) c
  = (let! r := on_proc (hgic_iwpriv_do stk sc (str "hgicf") (lit "hgicf") malloc (words ts ++ 0 :: z) None 0 (Some buff) 4096) in
     say "RESP:%d" [AInt (fst r)] ;;;
     say "%s" [AMem (default buff (snd r))] ;;;
     ret 0) c.
Proof.
  intros Ht Hne Hl. unfold hgpriv_main. destruct (map (fun t => t ++ [0]) ts) as [|a args] eqn:Em; [by destruct ts|].
  rewrite Hmalloc, (bool_decide_false (str "hgicf" = str "hgics")) by done. rewrite (bool_decide_true (str "hgicf" = str "hgicf")) by done.
  cbn [negb orb]. cbv zeta. cbv iota.
  assert (zlen (array stack 512) = 512) as Ha by (unfold array, zlen; by rewrite length_resize).
  destruct (join_args_ok ts [] (array stack 512)) as (rest & E & Hr); [done|rewrite words_blank, zlen_app, Ha by done; change (zlen [32]) with 1; lia|].
  cbn [app] in E. rewrite words_blank in E, Hr by done. rewrite <- Em. change 0 with (zlen (@nil Z)) at 1. rewrite (bind_lift _ _ _ _ E). cbn [fst snd].
  rewrite zlen_app. change (zlen [32]) with 1. replace (zlen (words ts) + 1 - 1) with (zlen (words ts)) by lia.
  rewrite <- app_assoc. erewrite bind_lift by (by apply (mem_write_mid _ (words ts) [32] rest [0])).
  destruct (put_block block (replicate 4096 0)) as (r2 & E2 & Hr2); [change (zlen (replicate 4096 0)) with 4096; lia|].
  rewrite (bind_lift _ _ _ _ E2). exists rest, (replicate 4096 0 ++ r2). split; [lia|done].
Qed.

(** An argument too many for the array of 512 bytes runs out of it. *)
Lemma hgpriv_overflows prog t c :
  no_nul t -> 511 <= zlen t -> hgpriv_main stk sc (str "hgicf") stack malloc [prog; t ++ [0]] c = Fault OutOfBounds.
Proof.
  intros Ht Hl. unfold hgpriv_main. rewrite Hmalloc, (bool_decide_false (str "hgicf" = str "hgics")) by done. rewrite (bool_decide_true (str "hgicf" = str "hgicf")) by done.
  cbn [negb orb]. cbv zeta. cbv iota.
  assert (zlen (array stack 512) = 512) as Ha by (unfold array, zlen; by rewrite length_resize).
  assert (sprintf_at (array stack 512) 0 (str "%s ") [AMem (t ++ [0])] = Fault OutOfBounds) as E.
  { apply sprintf_overflow with (t ++ [32]).
    - change (str "%s ") with (37 :: 115 :: [32]). by rewrite (format_s _ t) by by apply cstr_app.
    - lia.
    - rewrite Ha, zlen_app. change (zlen [32]) with 1. lia. }
  cbn [join_args]. rewrite E. done.
Qed.
End Hgpriv.

(** C24. hgpriv with the name of an interface, "get" and a number the driver can ask for
    -- when [malloc] gives the blocks it is asked for -- sends the chip one frame of
    that command and prints the number the chip reports, behind the length of its
    text; for the three numbers the driver prints into four bytes, as long as they
    fit.  (The interface name has at most 15 characters.) *)
Theorem hgpriv_prints_number stk sc stack malloc b prog ifname c v name cmd size off ty id status body e :
  app_env (str "hgicf") (lit "hgicf") malloc -> malloc 4096 = Some b -> no_blank ifname -> zlen ifname <= 15 ->
  quiet (d_w (console_dev c)) -> d_vif (console_dev c) = Some v ->
  (name, cmd, size, off) ∈ number_getters -> is_response_type ty = true -> zlen body < 2 ^ 30 ->
  w_env (d_w (console_dev c)) = answered_by (resp_frame ty (fc_cookie (w_ctrl (d_w (console_dev c)))) id status body) :: e ->
  let n := s16 status - off in
  size = 12%nat \/ -100 < n < 1000 ->
  exists s c', hgpriv_main stk sc (str "hgicf") stack malloc [prog; ifname ++ [0]; str "get" ++ [0]; str name ++ [0]] c = Ret (0, c') /\
    co_out c' = co_out c ++ str "RESP:" ++ signed_text (zlen (signed_text n)) ++ crlf ++ signed_text n ++ crlf /\
    skb_data s = cmd_frame (number_ifidx name (v_fwifidx v)) cmd (fc_cookie (w_ctrl (d_w (console_dev c)))) [] /\
    w_sent (d_w (console_dev c')) = w_sent (d_w (console_dev c)) ++ [s].
Proof.
  intros Henv Hm Hb Hbl Hq Hv Hin Hty Hbody He n Hn.
  assert (4096 <= zlen b) as Hmz by (destruct (ae_malloc _ _ _ Henv 4096 ltac:(lia)) as (b' & Eb & Hz); rewrite Hm in Eb; injection Eb as <-; lia).
  destruct (number_ioctl stk sc (console_dev c) v name cmd size off ty id status body e 4096 Hq Hv Hin Hty Hbody He Hn ltac:(lia))
    as (Hr & Ha & Hl15 & Hnn & s & w' & u & E & Hd & Hse). fold n in Hr, Ha, E.
  assert (no_nul ifname) as Hif by (eapply Forall_impl; [exact Hb|]; by intros ? []).
  pose proof (zlen_nonneg ifname). pose proof (zlen_nonneg (str name)).
  destruct (hgpriv_runs stk sc stack malloc b Hm Hmz prog [ifname; str "get"; str name] c) as (z & buff & Hbz & Erun);
    [repeat constructor; done|done|cbn [words]; rewrite !zlen_app, !zlen_cons, zlen_app, !zlen_cons; change (zlen (str "get")) with 3; lia|].
  cbn [map] in Erun. rewrite Erun.
  change (words [ifname; str "get"; str name]) with (line ifname (str "get") (str name)).
  pose proof (do_get stk sc (str "hgicf") (lit "hgicf") malloc Henv ifname (co_proc c) (q_alloc _ Hq) Hb ltac:(lia) (str name) z buff 4096 _ _
    Hnn ltac:(lia) ltac:(lia) E) as D.
  cbv zeta in D. cbn [iw_length iw_user] in D. pose proof (zlen_nonneg u). specialize (D ltac:(lia) ltac:(rewrite zlen_app; lia)).
  rewrite Z.min_l, ztake_app_length in D by lia.
  set (c1 := Console (set_p_dev (set_d_w w' (console_dev c)) (co_proc c)) (co_out c)).
  erewrite bind_Ret by (unfold on_proc, on_part; cbn [part process_in_console]; rewrite D; reflexivity). cbn [fst snd default].
  fold c1. rewrite (bind_Ret _ _ _ _ _ (say_d "RESP:%d" "RESP:" "" (zlen (signed_text n)) c1 eq_refl eq_refl eq_refl)).
  rewrite s32_id by lia. change (str "") with (@nil Z).
  set (c2 := print _ c1).
  assert (say "%s" [AMem (signed_text n ++ 0 :: zdrop (zlen (signed_text n) + 1) buff)] c2 = Ret (tt, print (signed_text n ++ crlf) c2)) as E2.
  { apply say_ok. change (str "%s") with (37 :: 115 :: @nil Z). rewrite (format_s _ (signed_text n)) by (apply cstr_app, signed_text_no_nul; lia).
    cbn [format obind]. by rewrite app_nil_r. }
  exists s. eexists. split; [erewrite bind_Ret by exact E2; reflexivity|]. split; [|split; [done|]].
  - cbn [print co_out c2 c1]. by rewrite <- !app_assoc.
  - cbn. by rewrite Hse.
Qed.
Lemma hgpriv_prints_number_witness :
  let c := Console (demo_process [answered_by (resp_frame 3 0 0 5 [])]) [] in
  exists s c', hgpriv_main [] true (str "hgicf") [] exact_malloc [lit "hgpriv"; lit "hg0"; lit "get"; lit "signal"] c = Ret (0, c') /\
    co_out c' = [] ++ str "RESP:5" ++ crlf ++ str "-4091" ++ crlf /\ skb_data s = cmd_frame 1 HGIC_CMD_GET_SIGNAL 0 [] /\
    w_sent (d_w (console_dev c')) = [s].
Proof.
  intros c.
  apply (hgpriv_prints_number [] true [] exact_malloc (replicate 4096 0) (lit "hgpriv") (str "hg0") c demo_vif "signal" HGIC_CMD_GET_SIGNAL 12 0x1000 3 0 5 [] []);
    [apply (po_env _ _ _ _ _ _ (exact_process_ok []))|done|by repeat constructor|by vm_compute|apply demo_quiet|done| |done..|by left].
  do 13 apply list_elem_of_further. by apply list_elem_of_here.
Defined.

(** The answer buffer is part of what is written: the value of a setting reaches its
    handler with 4096 zeros behind it, and one that is passed on by its length is
    too long to be sent. *)
Lemma hgpriv_pads_value :
  exists c', hgpriv_main [] true (str "hgicf") [] demo_malloc [lit "hgpriv"; lit "hg0"; lit "set"; lit "driverdata=abc"] (Console (demo_process []) []) = Ret (0, c') /\
    co_out c' = str "RESP:-22" ++ crlf ++ crlf /\ fc_txq (w_ctrl (d_w (console_dev c'))) = [] /\ w_sent (d_w (console_dev c')) = [].
Proof. eexists. split; [vm_compute; reflexivity|]. vm_compute. done. Qed.

(** Wake-up data of 4096 bytes fills the buffer, and the terminator is written
    behind it. *)
Lemma wakeupdata_overflows :
  hgic_test_read_wakeupdata [] true (str "hgicf") (fun n => if n =? 4096 then Some (replicate 4096 0) else demo_malloc n) 3
    (Console (demo_process [answered_by (resp_frame 3 0 0 4096 (replicate 4096 65))]) []) = Fault OutOfBounds.
Proof. vm_compute. done. Qed.
