(* ===== verification/Invariant.v ===== *)
(** * What every operation preserves

    The invariant of the control channel under every command and every line of
    text, and the invariant of the device under every sequence of its
    operations: transmitting, receiving, events, the watchdog, bring-up, power
    management and commands, with anything the environment does between them. *)
From Stdlib Require Import String.
From stdpp Require Import relations.
From S2P Require Import Prelude Bytes CString Proto Skb FwInfo Utils FwCtrl FwCmds Iwpriv IwprivGet BootDl Device Tx Core.

(** ** The control channel *)
Section Channel.
(** What is known of the frames the bus delivers. *)
Variable F : list Z -> Prop.

Section Bounded.
(** A bound of the control queue. *)
Variable B : Z.
Hypothesis HB : 5 <= B.

Record channel_ok (w : world) : Prop := {
  cn_ctrl : ctrl_ok F B (w_ctrl w);
  cn_own : has_thread 0 (fc_pd_list (w_ctrl w)) = false;
  cn_env : Forall (Forall (action_ok F)) (w_env w) }.

(** Changes that touch neither the pending list, the queues nor the cookie. *)
Lemma channel_ok_same w w' :
  fc_pd_list (w_ctrl w') = fc_pd_list (w_ctrl w) -> fc_rxq (w_ctrl w') = fc_rxq (w_ctrl w) ->
  fc_txq (w_ctrl w') = fc_txq (w_ctrl w) -> fc_cookie (w_ctrl w') = fc_cookie (w_ctrl w) ->
  w_env w' = w_env w -> channel_ok w -> channel_ok w'.
Proof. intros E1 E2 E3 E4 E5 [[] Ho He]. split; [split|..]; rewrite ?E1, ?E2, ?E3, ?E4, ?E5; done. Qed.

Lemma work_loop_env q w : post (work_loop q) w (fun _ w' => w_env w' = w_env w).
Proof.
  revert w. induction q as [|s q IH]; intros w; [by apply post_ret|]. cbn [work_loop].
  apply post_bind, post_modify, post_bind, post_lift. intros t _. apply post_bind.
  assert (forall (m : M world unit), post m (on_ctrl (set_rxq q) w) (fun _ w' => w_env w' = w_env w) ->
    post m (on_ctrl (set_rxq q) w) (fun _ w' => post (work_loop q) w' (fun _ w'' => w_env w'' = w_env w))) as K.
  { intros m Hm. eapply post_mono; [exact Hm|]. intros ? w' E. cbn beta in E. rewrite <- E. apply IH. }
  apply K. destruct (is_response_type t).
  - unfold hgic_fwctrl_rx_response. apply post_bind, post_gets, post_bind, post_lift. intros r _. by apply post_modify.
  - destruct (is_event_type t); [by apply post_modify|by apply post_ret].
Qed.

Lemma run_action_env a w : post (run_action a) w (fun _ w' => w_env w' = w_env w).
Proof.
  destruct a as [|d| | |t c s|t| |b]; cbn [run_action].
  - intros r w'. by destruct (fc_txq (w_ctrl w)); intros [= <- <-].
  - unfold hgic_fwctrl_rx. apply post_bind, post_gets. destruct (fc_wq (w_ctrl w)); [|by apply post_ret].
    apply post_bind. unfold dev_alloc_skb. apply post_bind. intros b w1 E.
    assert (w_env w1 = w_env w) as Ew.
    { unfold alloc in E. destruct (2 ^ 31 <=? u32 (zlen d)); [by injection E as <- <-|].
      by destruct (w_alloc w) as [|[]]; injection E as <- <-. }
    apply post_ret. destruct (skb_of_block <$> b) as [s|]; [|by apply post_ret].
    apply post_bind, post_lift. intros bs _. apply post_bind, post_lift. intros s1 _. apply post_bind, post_lift.
    intros s2 _. by apply post_modify.
  - apply post_bind, post_gets, work_loop_env.
  - unfold hgic_ctrl_cookie. apply post_bind, post_bind, post_gets, post_bind, post_modify, post_ret. by apply post_ret.
  - intros r w'. destruct (has_thread (S t) (fc_pd_list (w_ctrl w))); by intros [= <- <-].
  - apply post_bind. intros r w' E. injection E as <- <-. by apply post_ret.
  - by apply post_modify.
  - by apply post_modify.
Qed.

Lemma run_actions_env l w : post (run_actions l) w (fun _ w' => w_env w' = w_env w).
Proof.
  revert w. induction l as [|a l IH]; intros w; [by apply post_ret|]. cbn [run_actions]. apply post_bind.
  eapply post_mono; [apply run_action_env|]. intros ? w' E. cbn beta in E. rewrite <- E. apply IH.
Qed.

Lemma send_data_keeps s c tmo : keeps channel_ok (hgic_fwctrl_send_data s c tmo).
Proof.
  intros w [Hc Ho He] r w' H.
  assert (Forall (action_ok F) (script w)) as Hs by (unfold script; destruct He; [done|by simpl]).
  destruct (send_data_ok B HB F s c tmo w w' r H Hs Hc Ho) as (Hc' & Ho' & _). split; [done..|].
  unfold hgic_fwctrl_send_data in H. apply bind_inv in H as ([] & w1 & H1 & H). injection H1 as <-.
  apply bind_inv in H as ([] & w2 & H2 & H3).
  assert (Forall (Forall (action_ok F)) (w_env w2)) as He2; [|by injection H3 as _ <-].
  destruct (tmo =? 0); [by injection H2 as <-|]. unfold wait in H2. simpl in H2.
  destruct (w_env w) as [|l e] eqn:Ee; [injection H2 as <-; simpl; by rewrite Ee|].
  apply run_actions_env in H2. simpl in H2. rewrite H2. by apply Forall_cons in He as [_ He].
Qed.

Lemma alloc_keeps n : keeps channel_ok (alloc n).
Proof.
  intros w Hw r w' H. apply (channel_ok_same w); [..|done]; unfold alloc in H;
    (destruct (2 ^ 31 <=? u32 n); [by injection H as <- <-|]; by destruct (w_alloc w) as [|[]]; injection H as <- <-).
Qed.

Lemma cookie_keeps : keeps channel_ok hgic_ctrl_cookie.
Proof.
  intros w [[] Ho He]. unfold hgic_ctrl_cookie. apply post_bind, post_gets, post_bind, post_modify, post_ret.
  split; [split|..]; try done. cbn [w_ctrl on_ctrl set_cookie fc_cookie]. rewrite next_cookie by done.
  unfold HGIC_TX_COOKIE_MASK. pose proof (Z.mod_pos_bound (fc_cookie (w_ctrl w) + 1) (2 ^ 15)). lia.
Qed.
#[local] Hint Resolve send_data_keeps alloc_keeps cookie_keeps : keeps.

Lemma do_cmd_keeps ifidx id inp n out m : keeps channel_ok (hgic_fwctrl_do_cmd ifidx id inp n out m).
Proof. keeps_tac. Qed.
#[local] Hint Resolve do_cmd_keeps : keeps.

Lemma modify_keeps (g : hgic_fwctrl -> hgic_fwctrl) :
  (forall c, fc_pd_list (g c) = fc_pd_list c /\ fc_rxq (g c) = fc_rxq c /\ fc_txq (g c) = fc_txq c /\
     fc_cookie (g c) = fc_cookie c) ->
  forall w, channel_ok w -> channel_ok (on_ctrl g w).
Proof. intros Hg w. destruct (Hg (w_ctrl w)) as (E1 & E2 & E3 & E4). by apply channel_ok_same. Qed.

Lemma log_keeps o w : channel_ok w -> channel_ok (log_call o w).
Proof. by apply channel_ok_same. Qed.
#[local] Hint Resolve modify_keeps log_keeps : keeps.

(** A computation on the channel that sends commands and changes flags. *)
Ltac channel_tac := keeps_tac; try (intros; apply modify_keeps; [by intros|done]); try (intros; by apply log_keeps).

Lemma handlers_keep stk sc :
  Forall (fun p => fst p <> "blenc"%string -> forall ifidx data count, keeps channel_ok (snd p ifidx data count))
    (hgpriv_sets stk sc).
Proof.
  unfold hgpriv_sets. repeat (apply Forall_cons_2; [cbn [fst snd]; intros Hne ifidx data count; try done; channel_tac|]).
  apply Forall_nil_2.
Qed.

Lemma lookup_set_in {A} buff (t : list (string * A)) h :
  lookup_set buff t = Ret (Some h) -> exists n, (n, h) ∈ t.
Proof.
  induction t as [|[n g] t IH]; cbn [lookup_set]; [done|].
  destruct (strcmp_eq buff (str n ++ [0])) as [[]|]; cbn [obind]; [|intros H|done].
  - intros [= ->]. exists n. by left.
  - destruct (IH H) as [n' Hn]. exists n'. by right.
Qed.

Lemma getters_keep stk sc acc unw p ifidx rq :
  p ∈ hgpriv_gets stk sc acc unw -> keeps channel_ok (snd p ifidx rq).
Proof.
  unfold hgpriv_gets. intros Hp.
  repeat (apply elem_of_cons in Hp as [->|Hp]; [cbn [snd]; channel_tac|]). by apply not_elem_of_nil in Hp.
Qed.

Lemma get_proc_keeps stk sc acc unw ifidx rq : keeps channel_ok (hgic_iwpriv_get_proc stk sc acc unw ifidx rq).
Proof.
  unfold hgic_iwpriv_get_proc. apply keeps_bind; [apply keeps_lift|]. intros c. destruct (fst c =? 0); [|apply keeps_ret].
  apply keeps_bind; [apply keeps_lift|]. intros ptr. cbv zeta.
  intros w Hw. apply post_bind, post_lift. intros [h|] Hh; [|by apply post_ret].
  destruct (lookup_set_in _ _ _ Hh) as [n Hn]. by apply (getters_keep stk sc acc unw (n, h)).
Qed.

Lemma dump_keeps stk sc acc unw rq : keeps channel_ok (hgic_iwpriv_dump stk sc acc unw rq).
Proof. channel_tac. Qed.
End Bounded.

(** With some bound of the control queue. *)
Definition channel_live (w : world) : Prop := exists B, 5 <= B /\ channel_ok B w.

Lemma keeps_live {A} (m : M world A) : (forall B, 5 <= B -> keeps (channel_ok B) m) -> keeps channel_live m.
Proof. intros Hm w (B & HB & Hw). eapply post_mono; [by apply (Hm B)|]. intros a w' Hw'. by exists B. Qed.

Lemma do_cmd_live ifidx id inp n out m : keeps channel_live (hgic_fwctrl_do_cmd ifidx id inp n out m).
Proof. apply keeps_live. intros. by apply do_cmd_keeps. Qed.
Lemma alloc_live n : keeps channel_live (alloc n).
Proof. apply keeps_live. intros. by apply alloc_keeps. Qed.
Lemma send_data_live s c tmo : keeps channel_live (hgic_fwctrl_send_data s c tmo).
Proof. apply keeps_live. intros. by apply send_data_keeps. Qed.
Lemma cookie_live : keeps channel_live hgic_ctrl_cookie.
Proof. apply keeps_live. intros. apply cookie_keeps. Qed.
#[local] Hint Resolve do_cmd_live alloc_live send_data_live cookie_live : keeps.

Lemma txq_live (g : list skb -> list skb) w :
  channel_live w -> channel_live (on_ctrl (fun c => set_txq (g (fc_txq c)) c) w).
Proof.
  intros (B & HB & [[? ? ? Hq ?] Ho He]). exists (Z.max B (zlen (g (fc_txq (w_ctrl w))))). split; [lia|].
  split; [split; simpl; try done; lia|done..].
Qed.

Lemma modify_live (g : hgic_fwctrl -> hgic_fwctrl) :
  (forall c, fc_pd_list (g c) = fc_pd_list c /\ fc_rxq (g c) = fc_rxq c /\ fc_txq (g c) = fc_txq c /\
     fc_cookie (g c) = fc_cookie c) ->
  forall w, channel_live w -> channel_live (on_ctrl g w).
Proof. intros Hg w (B & HB & Hw). exists B. split; [done|]. by apply modify_keeps. Qed.

Lemma log_live o w : channel_live w -> channel_live (log_call o w).
Proof. intros (B & HB & Hw). exists B. split; [done|]. by apply log_keeps. Qed.

Ltac live_tac := keeps_tac; try (intros; first [apply (txq_live (fun q => q ++ _)); done | by apply log_live | apply modify_live; [by intros|done]]).

Lemma blenc_live ifidx data count : keeps channel_live (hgic_iwpriv_set_blenc ifidx data count).
Proof. live_tac. Qed.
#[local] Hint Resolve blenc_live : keeps.

Lemma handlers_live stk sc p ifidx data count :
  p ∈ hgpriv_sets stk sc -> keeps channel_live (snd p ifidx data count).
Proof.
  intros Hp. destruct (String.eqb_spec (fst p) "blenc"%string) as [E|E].
  - assert (Forall (fun p => fst p = "blenc"%string -> snd p = hgic_iwpriv_set_blenc) (hgpriv_sets stk sc)) as K
      by (unfold hgpriv_sets; repeat (apply Forall_cons_2; [by intros|]); apply Forall_nil_2).
    rewrite Forall_forall in K. rewrite (K p Hp E). apply blenc_live.
  - apply keeps_live. intros B HB. pose proof (handlers_keep B HB stk sc) as K. rewrite Forall_forall in K.
    by apply (K p Hp).
Qed.

Lemma set_proc_live stk sc ifidx rq : keeps channel_live (hgic_iwpriv_set_proc stk sc ifidx rq).
Proof.
  unfold hgic_iwpriv_set_proc, kmalloc. apply keeps_bind; [apply alloc_live|]. intros [buff|]; [|apply keeps_ret].
  apply keeps_bind; [apply keeps_lift|]. intros c. destruct (negb (fst c =? 0)); [apply keeps_ret|].
  apply keeps_bind; [apply keeps_lift|]. intros [i|]; [|apply keeps_ret].
  intros w Hw. apply post_bind, post_lift. intros [h|] Hh; [|by apply post_ret].
  destruct (lookup_set_in _ _ _ Hh) as [n Hn]. by apply (handlers_live stk sc (n, h)).
Qed.

Lemma get_proc_live stk sc acc unw ifidx rq : keeps channel_live (hgic_iwpriv_get_proc stk sc acc unw ifidx rq).
Proof. apply keeps_live. intros. by apply get_proc_keeps. Qed.
End Channel.

(** C9. No text command damages the control channel.  Whatever the text, the
    interleaving, the memory and the frames the bus delivers: when the command
    returns, every pending response carries the cookie of its call, no two calls
    share a response structure, none of the caller's own is left behind and the
    cookie is in range.  Every command but [blenc], and every query, also keeps
    any bound of at least five on the queue of control frames. *)
Theorem text_commands_keep_channel F stk sc :
  (forall ifidx rq w r w', channel_live F w -> hgic_iwpriv_set_proc stk sc ifidx rq w = Ret (r, w') -> channel_live F w') /\
  (forall B p ifidx data count w r w', 5 <= B -> p ∈ hgpriv_sets stk sc -> fst p <> "blenc"%string ->
     channel_ok F B w -> snd p ifidx data count w = Ret (r, w') -> channel_ok F B w') /\
  (forall B access_ok unwritten ifidx rq w r w', 5 <= B -> channel_ok F B w ->
     hgic_iwpriv_get_proc stk sc access_ok unwritten ifidx rq w = Ret (r, w') -> channel_ok F B w').
Proof.
  split; [|split].
  - intros ifidx rq w r w' Hw. exact (set_proc_live F stk sc ifidx rq w Hw r w').
  - intros B p ifidx data count w r w' HB Hp Hne Hw.
    pose proof (handlers_keep F B HB stk sc) as K. rewrite Forall_forall in K. by apply (K p Hp Hne).
  - intros B acc unw ifidx rq w r w' HB Hw. by apply (get_proc_keeps F B HB stk sc acc unw ifidx rq w Hw).
Qed.

Lemma demo_channel_ok scripts : channel_ok (fun _ => True) 5 (demo_world scripts).
Proof.
  split; [split; simpl; try constructor; try done; vm_compute; done|done|].
  apply Forall_true. intros l. apply Forall_true. by intros [].
Qed.

Lemma text_commands_keep_channel_witness :
  exists r w', hgic_iwpriv_set_proc [] true 1 (text_req (str "channel=3"))
      (demo_world [[ATx; ARx (resp_frame 3 0 63 4 [1; 2; 3; 4]); AWork]]) = Ret (r, w') /\ channel_live (fun _ => True) w'.
Proof.
  destruct (hgic_iwpriv_set_proc [] true 1 (text_req (str "channel=3"))
      (demo_world [[ATx; ARx (resp_frame 3 0 63 4 [1; 2; 3; 4]); AWork]])) as [[r w']|] eqn:E; [|by vm_compute in E].
  exists r, w'. split; [done|].
  refine (proj1 (text_commands_keep_channel (fun _ => True) [] true) 1 _ _ r w' _ E).
  exists 5. split; [done|apply demo_channel_ok].
Defined.

(** The command that bypasses the limit of five: the queue holds six frames. *)
Lemma blenc_exceeds_limit :
  exists w', hgic_iwpriv_set_proc [] true 1 (text_req (str "blenc=HCI_DATA:1abc"))
      (on_ctrl (set_txq (replicate 5 (Skb [] [0] []))) (demo_world [])) = Ret (0, w') /\ zlen (fc_txq (w_ctrl w')) = 6.
Proof. eexists. split; vm_compute; reflexivity. Qed.
