(* ===== verification/System.v ===== *)
(** * The device as a whole

    Everything that can happen to a device, in any order, as a step relation:
    the network stack transmits, the works run, the bus reports back and
    delivers, the firmware reports, user space reads, configures and suspends,
    time passes and the environment changes its mind.  An invariant of every reachable state. *)
From Stdlib Require Import String.
From stdpp Require Import relations.
From S2P Require Import Prelude Bytes CString Proto Skb FwInfo Utils FwCtrl FwCmds Iwpriv IwprivGet BootDl Device Tx Core Entry Invariant.

(** Nothing is assumed of the frames the bus delivers. *)
Definition any_frame (d : list Z) : Prop := True.

(** ** The invariant *)
Record dev_ok (Q : Z) (d : hgicf_wdev) : Prop := {
  dv_channel : channel_live any_frame (d_w d);
  dv_cookie : 0 <= d_data_cookie d < 2 ^ 16;
  dv_state : 0 <= d_fw_state d < 256;
  dv_events : events_ok d;
  dv_queue : zlen (d_tx_dataq d) <= Q;
  dv_inited : dev_flag HGICF_DEV_FLAGS_INITED d = true ->
    exists v, d_vif d = Some v /\ v_fwifidx v = HGIC_WDEV_ID_STA }.

Lemma dev_ok_mono Q Q' d : Q <= Q' -> dev_ok Q d -> dev_ok Q' d.
Proof. intros HQ []. split; try done. lia. Qed.

(** Changes of what the invariant does not speak of. *)
Lemma dev_ok_same Q d d' :
  d_w d' = d_w d -> d_data_cookie d' = d_data_cookie d -> d_fw_state d' = d_fw_state d ->
  d_evt_list d' = d_evt_list d -> d_evt_sema d' = d_evt_sema d -> d_tx_dataq d' = d_tx_dataq d ->
  d_flags d' = d_flags d -> d_vif d' = d_vif d -> dev_ok Q d -> dev_ok Q d'.
Proof.
  intros E1 E2 E3 E4 E5 E6 E7 E8 [? ? ? [] ? Hi].
  split; [| | |split| |]; unfold dev_flag in *; rewrite ?E1, ?E2, ?E3, ?E4, ?E5, ?E6, ?E7, ?E8; done.
Qed.

Lemma dev_ok_vif Q g d : (forall v, v_fwifidx (g v) = v_fwifidx v) -> dev_ok Q d -> dev_ok Q (on_vif g d).
Proof.
  intros Hg [? ? ? [] ? Hi]. split; try done. intros Hf. destruct (Hi Hf) as (v & Hv & E).
  exists (g v). split; [simpl; by rewrite Hv|]. by rewrite Hg.
Qed.

Lemma dev_ok_world Q w d : channel_live any_frame w -> dev_ok Q d -> dev_ok Q (set_d_w w d).
Proof. intros Hw [? ? ? [] ? Hi]. by split. Qed.

Lemma dev_ok_ctrl Q g d :
  (forall c, fc_pd_list (g c) = fc_pd_list c /\ fc_rxq (g c) = fc_rxq c /\ fc_txq (g c) = fc_txq c /\
     fc_cookie (g c) = fc_cookie c) ->
  dev_ok Q d -> dev_ok Q (set_d_w (on_ctrl g (d_w d)) d).
Proof. intros Hg Hd. apply dev_ok_world; [|done]. by apply modify_live, Hd. Qed.

Lemma dev_ok_txq Q q d : dev_ok Q d -> dev_ok Q (set_d_w (on_ctrl (set_txq q) (d_w d)) d).
Proof. intros Hd. apply dev_ok_world; [|done]. apply (txq_live any_frame (fun _ => q)), Hd. Qed.

Lemma dev_ok_flag Q f d : f <> HGICF_DEV_FLAGS_INITED -> dev_ok Q d -> dev_ok Q (set_dev_flag f d).
Proof.
  intros Hf [? ? ? [] ? Hi]. split; try done. intros H. apply Hi. unfold dev_flag in *. simpl in H.
  apply bool_decide_eq_true in H. apply bool_decide_eq_true. by apply elem_of_cons in H as [H|H].
Qed.
Lemma dev_ok_clear Q f d : dev_ok Q d -> dev_ok Q (clear_dev_flag f d).
Proof.
  intros [? ? ? [] ? Hi]. split; try done. intros H. apply Hi. unfold dev_flag in *. simpl in H.
  apply bool_decide_eq_true in H. apply bool_decide_eq_true. by apply list_elem_of_filter in H as [_ H].
Qed.

Lemma on_world_keeps {A} Q (m : M world A) : keeps (channel_live any_frame) m -> keeps (dev_ok Q) (on_world m).
Proof.
  intros Hm. unfold on_world. apply (keeps_on_part (channel_live any_frame)); [done|by intros d []|].
  intros d w Hd Hw. by apply dev_ok_world.
Qed.

(** What the device does not hold on to. *)
Ltac dev_modify :=
  intros ? ?;
  repeat match goal with |- dev_ok _ (if ?b then _ else _) => destruct b end;
  first
  [ assumption
  | solve [by (eapply dev_ok_same; [..|eassumption])]
  | solve [by apply dev_ok_vif]
  | solve [by apply dev_ok_ctrl]
  | solve [by apply dev_ok_txq]
  | solve [by apply dev_ok_flag]
  | solve [by apply dev_ok_clear] ].
Ltac dev_tac :=
  repeat lazymatch goal with
         | |- keeps (dev_ok _) (on_world _) => first [solve [eauto 3 with keeps nocore] | apply on_world_keeps]
         | |- _ => keeps_step
         end; try dev_modify.

(** ** The receive side *)
Lemma rx_live m len : keeps (channel_live any_frame) (hgic_fwctrl_rx m len).
Proof.
  unfold hgic_fwctrl_rx, dev_alloc_skb. keeps_tac; [apply alloc_live|].
  intros w (B & HB & [[? ? ? ? ?] Ho He]). exists B. split; [done|]. split; [split; simpl; try done|done..].
  by apply Forall_true.
Qed.
#[export] Hint Resolve rx_live alloc_live do_cmd_live send_data_live cookie_live on_world_keeps : keeps.

Section Device.
Variable Q : Z.

Lemma rx_single_keeps m len : keeps (dev_ok Q) (hgicf_rx_single_frm m len).
Proof. dev_tac. Qed.
#[local] Hint Resolve rx_single_keeps : keeps.

Lemma rx_agg_loop_keeps fuel m len : keeps (dev_ok Q) (rx_agg_loop fuel m len).
Proof.
  revert m len. induction fuel as [|fuel IH]; intros m len; cbn [rx_agg_loop]; dev_tac.
Qed.
#[local] Hint Resolve rx_agg_loop_keeps : keeps.

Lemma rx_data_keeps buf len : keeps (dev_ok Q) (hgicf_rx_data buf len).
Proof. dev_tac. Qed.
#[local] Hint Resolve rx_data_keeps : keeps.

Lemma rx_event_keeps s : keeps (dev_ok Q) (hgicf_rx_fw_event s).
Proof.
  dev_tac. intros d [? ? ? He ? ?]. destruct (enqueue_ok s d He) as [He' _]. split; try done.
Qed.

Lemma event_read_keeps : keeps (dev_ok Q) hgicf_fwevent_read.
Proof.
  intros d [? ? ? [Hb Hs] ? ?] bs d'. unfold hgicf_fwevent_read. destruct (d_evt_sema d <=? 0) eqn:E; [by intros [= <- <-]|].
  cbn [d_evt_list set_d_evt_sema]. destruct (d_evt_list d) as [|s l] eqn:El; intros [= <- <-]; (split; try done); 
    (split; simpl; rewrite ?El, ?zlen_cons in *; try done); try lia.
  change (zlen []) with 0. lia.
Qed.

(** ** The transmit side *)
Lemma tx_complete_keeps s b : keeps (dev_ok Q) (hgicf_tx_complete s b).
Proof. dev_tac. Qed.
#[local] Hint Resolve tx_complete_keeps : keeps.

Lemma hear_keeps l : keeps (dev_ok Q) (hear l).
Proof. induction l as [|[] l IH]; cbn [hear]; dev_tac. Qed.
#[local] Hint Resolve hear_keeps : keeps.

Lemma tx_packet_keeps s : keeps (dev_ok Q) (tx_packet s).
Proof. dev_tac. Qed.
#[local] Hint Resolve tx_packet_keeps : keeps.

Lemma check_txwnd_keeps n : keeps (dev_ok Q) (hgicf_check_txwnd n).
Proof. dev_tac. Qed.
#[local] Hint Resolve check_txwnd_keeps : keeps.

Lemma data_cookie_keeps : keeps (dev_ok Q) hgicf_data_cookie.
Proof.
  dev_tac. intros d [? ? ? [] ? ?]. split; try done. pose proof (u16_range (a + 1)). simpl. lia.
Qed.
#[local] Hint Resolve data_cookie_keeps : keeps.

Lemma tx_single_keeps s : keeps (dev_ok Q) (hgicf_tx_single_frm s).
Proof. dev_tac. Qed.
#[local] Hint Resolve tx_single_keeps : keeps.

Lemma tx_ctrl_keeps : keeps (dev_ok Q) hgicf_tx_ctrl_frm.
Proof. dev_tac. Qed.
End Device.
#[export] Hint Resolve rx_single_keeps rx_data_keeps rx_event_keeps event_read_keeps tx_complete_keeps
  tx_packet_keeps check_txwnd_keeps data_cookie_keeps tx_single_keeps tx_ctrl_keeps : keeps.

Lemma dev_ok_dataq Q Q' q d : dev_ok Q d -> zlen q <= Q' -> dev_ok Q' (set_d_tx_dataq q d).
Proof. intros [? ? ? [] ? ?] Hq. by split. Qed.

Lemma agg_loop_post if_agg fuel s m len Q d :
  dev_ok Q d -> post (agg_loop if_agg fuel s m len) d (fun _ => dev_ok (Q + 1)).
Proof.
  revert s m len d. induction fuel as [|fuel IH]; intros s m len d Hd; [apply post_fail|]. cbn [agg_loop].
  apply post_bind, post_lift. intros cpylen _. destruct (if_agg <? len + align32 cpylen 4).
  { apply post_bind, post_modify, post_ret. apply (dev_ok_dataq Q); [done|]. rewrite zlen_cons. destruct Hd. lia. }
  apply post_bind, post_lift. intros s1 _. apply (post_bind_keeps (dev_ok Q)); [auto with keeps|done|]. intros c d1 Hd1.
  do 4 (apply post_bind, post_lift; intros ? _). apply post_bind, post_lift. intros m2 _.
  apply (post_bind_keeps (dev_ok Q)); [auto with keeps|done|]. intros _ d2 Hd2.
  apply post_bind, post_gets. destruct (d_tx_dataq d2) as [|s' q] eqn:Eq.
  { apply post_ret. apply (dev_ok_mono Q); [lia|done]. }
  apply post_bind, post_modify. apply IH. apply (dev_ok_dataq Q); [done|].
  pose proof (dv_queue _ _ Hd2) as H. rewrite Eq, zlen_cons in H. lia.
Qed.

Lemma tx_agg_post if_agg s Q d : dev_ok Q d -> post (hgicf_tx_agg_frm if_agg s) d (fun _ => dev_ok (Q + 1)).
Proof.
  intros Hd. unfold hgicf_tx_agg_frm. apply post_bind, post_gets.
  apply (post_bind_keeps (dev_ok Q)); [dev_tac|done|]. intros [agg|] d1 Hd1.
  - apply (post_bind_keeps (dev_ok Q)); [auto with keeps|done|]. intros c d2 Hd2.
    apply post_bind, post_lift. intros m _. apply post_bind, post_gets, post_bind.
    eapply post_mono; [by apply agg_loop_post|]. intros r d3 Hd3. cbn beta in *.
    eapply post_keeps; [|exact Hd3|done]. dev_tac.
  - eapply post_keeps; [|exact Hd1|]; [auto with keeps|]. intros. apply (dev_ok_mono Q); [lia|done].
Qed.

Lemma tx_work_keeps if_agg fuel Q : keeps (dev_ok Q) (hgicf_tx_work if_agg fuel).
Proof.
  induction fuel as [|fuel IH]; [apply keeps_fail|]. cbn [hgicf_tx_work]. intros d Hd. apply post_bind, post_gets.
  destruct (fc_txq (w_ctrl (d_w d))) as [|c cq].
  2: { destruct (_ || _).
    - apply post_bind, post_modify. apply IH. by apply dev_ok_txq.
    - apply (post_bind_keeps (dev_ok Q)); [auto with keeps|done|]. intros _ d1 Hd1. by apply IH. }
  destruct (d_tx_dataq d) as [|s0 q0] eqn:Eq0; [by apply post_ret|].
  destruct (_ && _); [|by apply post_ret].
  destruct (_ || _).
  { apply post_bind, post_modify. apply IH. apply (dev_ok_dataq Q); [done|]. pose proof (zlen_nonneg q0).
    pose proof (dv_queue _ _ Hd) as H1. rewrite Eq0, zlen_cons in H1. change (zlen []) with 0. lia. }
  apply (post_bind_keeps (dev_ok Q)); [auto with keeps|done|]. intros r d1 Hd1.
  destruct (negb (r =? 0)); [by apply IH|]. apply post_bind, post_gets, post_bind.
  enough (post (match d_tx_dataq d1 with
    | [] => ret tt
    | s :: q => modify (set_d_tx_dataq q) ;;;
        match q with [] => hgicf_tx_single_frm s
        | _ :: _ => if negb (if_agg =? 0) then hgicf_tx_agg_frm if_agg s else hgicf_tx_single_frm s end
    end) d1 (fun _ => dev_ok Q)) as K by (eapply post_mono; [exact K|]; intros ? d2 Hd2; by apply IH).
  destruct (d_tx_dataq d1) as [|s q] eqn:Eq; [by apply post_ret|].
  apply post_bind, post_modify. assert (dev_ok (Q - 1) (set_d_tx_dataq q d1)) as Hd2.
  { apply (dev_ok_dataq Q); [done|]. pose proof (dv_queue _ _ Hd1) as H1. rewrite Eq, zlen_cons in H1. lia. }
  assert (post (hgicf_tx_single_frm s) (set_d_tx_dataq q d1) (fun _ => dev_ok Q)) as K.
  { eapply post_keeps; [|exact Hd2|]; [auto with keeps|]. intros. apply (dev_ok_mono (Q - 1)); [lia|done]. }
  destruct q as [|s2 q]; [exact K|]. destruct (negb (if_agg =? 0)); [|exact K].
  replace Q with (Q - 1 + 1) by lia. by apply tx_agg_post.
Qed.

Lemma xmit_keeps txq_size s Q : u32 txq_size + 1 <= Q -> keeps (dev_ok Q) (hgicf_netif_xmit txq_size s).
Proof.
  intros HQ d Hd. unfold hgicf_netif_xmit. apply post_bind, post_gets, post_bind, post_lift. intros v Hv.
  destruct (negb (dev_flag HGICF_DEV_FLAGS_RUNNING d) || (u32 txq_size <? zlen (d_tx_dataq d))
     || bus_flag HGIC_BUS_FLAGS_SLEEP d) eqn:E; [apply post_modify; by apply dev_ok_vif|].
  apply orb_false_iff in E as [[_ E]%orb_false_iff _]. apply Z.ltb_ge in E.
  assert (dev_ok (Q - 1) d) as Hd1 by (destruct Hd; split; try done; lia).
  apply (post_bind_keeps (dev_ok (Q - 1))); [unfold skb_copy_expand, dev_alloc_skb; dev_tac|done|].
  intros [s1|] d1 Hd2; [|apply post_ret, (dev_ok_mono (Q - 1)); [lia|done]].
  do 2 (apply post_bind, post_lift; intros ? _). apply post_bind, post_modify.
  assert (dev_ok Q (set_d_tx_dataq (d_tx_dataq d1 ++ [a0]) d1)) as Hd3.
  { apply (dev_ok_dataq (Q - 1)); [done|]. rewrite zlen_app. change (zlen [a0]) with 1. destruct Hd2. lia. }
  eapply post_keeps; [|exact Hd3|done]. dev_tac.
Qed.

(** ** The boot loader *)
Definition boot_live (b : boot) : Prop := channel_live any_frame (b_w b).

Lemma boot_world_keeps {A} (m : M world A) : keeps (channel_live any_frame) m -> keeps boot_live (on_world m).
Proof. intros Hm. unfold on_world. by apply (keeps_on_part (channel_live any_frame)). Qed.

Ltac boot_tac :=
  repeat lazymatch goal with
         | |- keeps boot_live (on_world _) => apply boot_world_keeps
         | |- _ => keeps_step
         end; try solve [intros ? ?; done].

Lemma enter_live : keeps boot_live hgic_bootdl_cmd_enter.
Proof. boot_tac. Qed.
Lemma send_fw_live s tmo : keeps boot_live (hgic_bootdl_send_fw s tmo).
Proof. boot_tac. Qed.
Lemma write_memory_live a n : keeps boot_live (hgic_bootdl_cmd_write_memory a n).
Proof. boot_tac. Qed.
Lemma cmd_run_live : keeps boot_live hgic_bootdl_cmd_run.
Proof. boot_tac. Qed.
#[export] Hint Resolve enter_live send_fw_live write_memory_live cmd_run_live : keeps.

Lemma download_loop_live fuel a n off : keeps boot_live (download_loop fuel a n off).
Proof. revert a n off. induction fuel as [|fuel IH]; intros a n off; cbn [download_loop]; boot_tac. Qed.
#[export] Hint Resolve download_loop_live : keeps.

Lemma parse_fw_live rf path : keeps boot_live (hgic_bootdl_parse_fw rf path).
Proof. unfold hgic_bootdl_parse_fw, on_info. boot_tac. Qed.
#[export] Hint Resolve parse_fw_live : keeps.

Lemma download_live rf path : keeps boot_live (hgic_bootdl_download rf path).
Proof. boot_tac. Qed.

Lemma on_boot_keeps {A} Q (m : M boot A) : keeps boot_live m -> keeps (dev_ok Q) (on_boot m).
Proof.
  intros Hm. apply (keeps_on_part boot_live); [done|by intros d []|].
  intros d b Hd Hb. apply dev_ok_world; [exact Hb|]. by apply (dev_ok_same Q d).
Qed.
#[export] Hint Resolve download_live on_boot_keeps : keeps.

(** ** Bring-up, supervision and configuration *)
Section BringUp.
Variables (rf : list Z -> Z * list Z) (fw_file stk : list Z) (sc : bool).
Variable Q : Z.

Lemma boot_loop_keeps n status err : keeps (dev_ok Q) (boot_loop rf fw_file n status err).
Proof. revert status err. induction n as [|n IH]; intros status err; cbn [boot_loop]; dev_tac. Qed.
Lemma reinit_loop_keeps n status : keeps (dev_ok Q) (reinit_loop n status).
Proof. revert status. induction n as [|n IH]; intros status; cbn [reinit_loop]; dev_tac. Qed.
Lemma detect_loop_keeps n status : keeps (dev_ok Q) (detect_loop n status).
Proof. revert status. induction n as [|n IH]; intros status; cbn [detect_loop]; dev_tac. Qed.
#[local] Hint Resolve boot_loop_keeps reinit_loop_keeps detect_loop_keeps : keeps.

Lemma fw_state_ok v d : dev_ok Q d -> dev_ok Q (set_d_fw_state (u8 v) d).
Proof. intros [? ? ? [] ? ?]. split; try done. apply u8_range. Qed.

Lemma download_fw_keeps no_bootdl qc_mode : keeps (dev_ok Q) (hgicf_download_fw rf fw_file no_bootdl qc_mode).
Proof. dev_tac. intros d. apply fw_state_ok. Qed.
#[local] Hint Resolve download_fw_keeps : keeps.

Lemma detect_work_keeps timer : 0 <= Q -> keeps (dev_ok Q) (hgicf_detect_work timer).
Proof.
  intros HQ. dev_tac; [intros d Hd; by apply (dev_ok_dataq Q)|intros d; apply fw_state_ok].
Qed.

Lemma set_proc_keeps ifidx rq : keeps (dev_ok Q) (on_world (hgic_iwpriv_set_proc stk sc ifidx rq)).
Proof. apply on_world_keeps, set_proc_live. Qed.
#[local] Hint Resolve set_proc_keeps : keeps.

Lemma config_loop_keeps fuel ifidx conf pos : keeps (dev_ok Q) (config_loop stk sc fuel ifidx conf pos).
Proof. revert conf pos. induction fuel as [|fuel IH]; intros conf pos; cbn [config_loop]; dev_tac. Qed.
#[local] Hint Resolve config_loop_keeps : keeps.

Lemma load_config_keeps file : keeps (dev_ok Q) (hgicf_load_config stk sc file).
Proof. unfold hgicf_load_config. dev_tac. Qed.
#[local] Hint Resolve load_config_keeps : keeps.

Lemma suspend_keeps : keeps (dev_ok Q) hgicf_core_suspend.
Proof. dev_tac. Qed.
Lemma resume_keeps : keeps (dev_ok Q) hgicf_core_resume.
Proof. dev_tac. Qed.
Lemma open_keeps : keeps (dev_ok Q) hgicf_netif_open.
Proof. dev_tac. Qed.
Lemma stop_keeps : keeps (dev_ok Q) hgicf_netif_stop.
Proof. dev_tac. Qed.
Lemma change_mac_keeps r addr : keeps (dev_ok Q) (hgicf_netif_change_mac r addr).
Proof. dev_tac. Qed.
End BringUp.

(** The interface exists: the initialised flag may be set. *)
Definition iface_up (Q : Z) (d : hgicf_wdev) : Prop :=
  dev_ok Q d /\ exists v, d_vif d = Some v /\ v_fwifidx v = HGIC_WDEV_ID_STA.

Lemma iface_up_world {A} Q (m : M world A) : keeps (channel_live any_frame) m -> keeps (iface_up Q) (on_world m).
Proof.
  intros Hm. unfold on_world. apply (keeps_on_part (channel_live any_frame)); [done|by intros d [[] _]|].
  intros d w [Hd Hv] Hw. split; [by apply dev_ok_world|done].
Qed.

Lemma iface_up_same Q d d' :
  d_w d' = d_w d -> d_data_cookie d' = d_data_cookie d -> d_fw_state d' = d_fw_state d ->
  d_evt_list d' = d_evt_list d -> d_evt_sema d' = d_evt_sema d -> d_tx_dataq d' = d_tx_dataq d ->
  d_flags d' = d_flags d -> d_vif d' = d_vif d -> iface_up Q d -> iface_up Q d'.
Proof. intros E1 E2 E3 E4 E5 E6 E7 E8 [Hd Hv]. split; [by apply (dev_ok_same Q d)|by rewrite E8]. Qed.

Lemma init_iface_post if_test iface_ok Q d :
  dev_ok Q d -> dev_flag HGICF_DEV_FLAGS_INITED d = false -> post (init_iface if_test iface_ok) d (fun _ => dev_ok Q).
Proof.
  intros Hd Hi. unfold init_iface, hgicf_create_iface.
  apply post_bind, post_bind, post_gets, post_modify. set (d1 := set_d_vif _ d).
  assert (forall o, dev_ok Q (set_d_vif o d)) as Hv by (intros o; destruct Hd as [? ? ? [] ? ?]; split; try done;
    unfold dev_flag in *; cbn [d_flags set_d_vif]; by rewrite Hi).
  apply post_bind, post_gets. destruct (d_vif d1) as [v|] eqn:Ev; [|apply post_ret, Hv].
  apply post_bind, post_modify. set (d2 := set_d_vif _ d1).
  assert (iface_up Q d2) as H2 by (split; [exact (Hv _)|by eexists]).
  apply (post_bind_keeps (iface_up Q)); [apply iface_up_world; keeps_tac|exact H2|]. intros r d3 H3.
  apply (post_bind_keeps (iface_up Q)); [|exact H3|].
  { destruct (r =? 9); [|apply keeps_ret]. apply keeps_modify. intros x. by apply iface_up_same. }
  intros _ d4 H4. apply (post_bind_keeps (iface_up Q)); [|exact H4|].
  { destruct (negb (if_test =? 0)); [|apply keeps_ret]. apply keeps_bind; [|intros _]; apply keeps_modify; intros x; by apply iface_up_same. }
  intros _ d5 [H5 Hv5]. apply post_bind, post_modify, post_ret. destruct H5 as [? ? ? [] ? ?]. by split.
Qed.

Lemma delay_init_keeps rf fw_file no_bootdl qc_mode if_test stk sc file iface_ok Q :
  keeps (dev_ok Q) (hgicf_delay_init rf fw_file no_bootdl qc_mode if_test stk sc file iface_ok).
Proof.
  intros d Hd. unfold hgicf_delay_init. apply post_bind, post_gets.
  destruct (negb (dev_flag HGICF_DEV_FLAGS_RUNNING d)); [by apply post_ret|].
  assert (keeps (dev_ok Q) init_again) as Ha by dev_tac.
  apply (post_bind_keeps (dev_ok Q)); [apply download_fw_keeps|done|]. intros up d1 H1.
  apply post_bind, post_modify. destruct (negb up); [by apply Ha, dev_ok_clear|].
  apply (post_bind_keeps (dev_ok Q)); [dev_tac|by apply dev_ok_clear|]. intros _ d2 H2. apply post_bind, post_gets.
  apply (post_bind_keeps (dev_ok Q)); [apply on_world_keeps; keeps_tac|done|]. intros r d3 H3.
  apply (post_bind_keeps (dev_ok Q)); [dev_tac|done|]. intros _ d4 H4. destruct (fst r <=? 0); [by apply Ha|].
  do 2 (apply (post_bind_keeps (dev_ok Q)); [dev_tac|eassumption|]; intros ? ? ?).
  apply (post_bind_keeps (dev_ok Q)); [apply keeps_modify; intros x Hx; destruct (_ <? _); by apply dev_ok_ctrl|done|].
  intros _ d7 H7. apply post_bind, post_gets, post_bind.
  assert (post (if negb (dev_flag HGICF_DEV_FLAGS_INITED d7) then init_iface if_test iface_ok else ret true) d7 (fun _ => dev_ok Q)) as K.
  { destruct (dev_flag HGICF_DEV_FLAGS_INITED d7) eqn:Ei; [by apply post_ret|by apply init_iface_post]. }
  eapply post_mono; [exact K|]. intros ok d8 H8. cbn beta in *. destruct (negb ok); [by apply Ha|].
  destruct (negb qc_mode); [by apply load_config_keeps|by apply post_ret].
Qed.

(** ** The entry points *)
Section EntryPoints.
Context (stk : list Z) (sc : bool) (acc : Z -> bool) (unw : Z) (Q : Z).

Lemma kzalloc_live n : keeps (channel_live any_frame) (kzalloc n).
Proof. keeps_tac. Qed.
Lemma dump_live a u rq : keeps (channel_live any_frame) (hgic_iwpriv_dump stk sc a u rq).
Proof. apply keeps_live. intros. by apply dump_keeps. Qed.
#[local] Hint Resolve kzalloc_live dump_live set_proc_live get_proc_live : keeps.

Lemma ioctl_keeps nonnull rq cmd : keeps (dev_ok Q) (hgicf_ioctl stk sc acc unw nonnull rq cmd).
Proof. unfold hgicf_ioctl. dev_tac. Qed.
Lemma iwpriv_write_keeps mem count : keeps (dev_ok Q) (hgicf_iwpriv_write stk sc mem count).
Proof. dev_tac. Qed.
End EntryPoints.

(** ** Everything that can happen *)
Section Steps.
(** The firmware loader, the module parameters, the timer, and what C leaves open. *)
Variables (rf : list Z -> Z * list Z) (fw_file stk : list Z) (sc no_bootdl qc_mode : bool).
Variables (txq_size if_agg if_test timer : Z).

(** The environment: new scripts for what other threads and the bus will do,
    allocations, time. *)
Definition environment (env : list (list action)) (al : list (option (list Z))) (be : list bus_reply) (re : list Z)
    (dt : Z) (d : hgicf_wdev) : hgicf_wdev :=
  let d := set_d_w (World (w_ctrl (d_w d)) env al (w_sent (d_w d)) (w_calls (d_w d))) d in
  set_d_now (d_now d + dt) (set_d_reinit re (set_d_bus_env be d)).

Inductive dev_step : hgicf_wdev -> hgicf_wdev -> Prop :=
  | DS_xmit s d d' : hgicf_netif_xmit txq_size s d = Ret (tt, d') -> dev_step d d'
  | DS_tx_work fuel d d' : hgicf_tx_work if_agg fuel d = Ret (tt, d') -> dev_step d d'
  | DS_rx buf len r d d' : hgicf_rx_data buf len d = Ret (r, d') -> dev_step d d'
  | DS_complete s ok d d' : hgicf_tx_complete s ok d = Ret (tt, d') -> dev_step d d'
  | DS_ctrl_work d d' : on_world hgic_fwctrl_work d = Ret (tt, d') -> dev_step d d'
  | DS_event s d d' : hgicf_rx_fw_event s d = Ret (tt, d') -> dev_step d d'
  | DS_read bs d d' : hgicf_fwevent_read d = Ret (bs, d') -> dev_step d d'
  | DS_delay_init file iface_ok d d' :
      hgicf_delay_init rf fw_file no_bootdl qc_mode if_test stk sc file iface_ok d = Ret (tt, d') -> dev_step d d'
  | DS_detect d d' : hgicf_detect_work timer d = Ret (tt, d') -> dev_step d d'
  | DS_timer d : dev_step d (hgicf_detect_timer d)
  | DS_command ifidx rq r d d' : on_world (hgic_iwpriv_set_proc stk sc ifidx rq) d = Ret (r, d') -> dev_step d d'
  | DS_query acc unw ifidx rq r d d' : on_world (hgic_iwpriv_get_proc stk sc acc unw ifidx rq) d = Ret (r, d') -> dev_step d d'
  | DS_ioctl acc unw nonnull rq cmd r d d' : hgicf_ioctl stk sc acc unw nonnull rq cmd d = Ret (r, d') -> dev_step d d'
  | DS_procfs mem count r d d' : hgicf_iwpriv_write stk sc mem count d = Ret (r, d') -> dev_step d d'
  | DS_suspend r d d' : hgicf_core_suspend d = Ret (r, d') -> dev_step d d'
  | DS_resume r d d' : hgicf_core_resume d = Ret (r, d') -> dev_step d d'
  | DS_open r d d' : hgicf_netif_open d = Ret (r, d') -> dev_step d d'
  | DS_stop r d d' : hgicf_netif_stop d = Ret (r, d') -> dev_step d d'
  | DS_mac k addr r d d' : hgicf_netif_change_mac k addr d = Ret (r, d') -> dev_step d d'
  | DS_environment env al be re dt d : dev_step d (environment env al be re dt d).

Lemma environment_ok Q env al be re dt d : dev_ok Q d -> dev_ok Q (environment env al be re dt d).
Proof.
  intros Hd. apply (dev_ok_same Q (set_d_w (World (w_ctrl (d_w d)) env al (w_sent (d_w d)) (w_calls (d_w d))) d)); try done.
  apply dev_ok_world; [|done]. destruct (dv_channel _ _ Hd) as (B & HB & [Hc Ho _]). exists B. split; [done|].
  split; [done..|]. apply Forall_true. intros l. apply Forall_true. by intros [].
Qed.

Lemma ctrl_work_live : keeps (channel_live any_frame) hgic_fwctrl_work.
Proof.
  intros w (B & HB & [Hc Ho He]) r w' H. pose proof H as H2. unfold hgic_fwctrl_work in H2.
  apply bind_inv in H2 as (q & w1 & E & H2). injection E as <- <-.
  destruct (work_loop_ok B any_frame _ _ _ _ H2) as [Hc' Hp]; [by apply Forall_true|done|].
  exists B. split; [done|]. split; [done| |].
  - apply not_true_iff_false. intros (e & He1 & He2)%existsb_exists. apply list_elem_of_In in He1.
    assert ((pe_thread e, pe_cookie e) ∈ pending w') as Hin by (unfold pending; by apply (list_elem_of_fmap_2 (fun e => (pe_thread e, pe_cookie e)))).
    rewrite Hp in Hin. unfold pending in Hin. apply list_elem_of_fmap in Hin as (x & [= E1 E2] & Hx).
    assert (has_thread 0 (fc_pd_list (w_ctrl w)) = true) as K; [|by rewrite K in Ho].
    apply existsb_exists. exists x. split; [by apply list_elem_of_In|]. unfold is_thread in *. by rewrite <- E1.
  - by rewrite (work_loop_env _ _ _ _ H2).
Qed.

Lemma dev_step_ok Q d d' : u32 txq_size + 1 <= Q -> dev_step d d' -> dev_ok Q d -> dev_ok Q d'.
Proof.
  intros HQ Hs Hd. pose proof (u32_range txq_size). destruct Hs; try by apply environment_ok.
  - by apply (xmit_keeps txq_size s Q HQ d Hd tt).
  - by apply (tx_work_keeps if_agg fuel Q d Hd tt).
  - by apply (rx_data_keeps Q buf len d Hd r).
  - by apply (tx_complete_keeps Q s ok d Hd tt).
  - by apply (on_world_keeps Q _ ctrl_work_live d Hd tt).
  - by apply (rx_event_keeps Q s d Hd tt).
  - by apply (event_read_keeps Q d Hd bs).
  - by apply (delay_init_keeps rf fw_file no_bootdl qc_mode if_test stk sc file iface_ok Q d Hd tt).
  - apply (detect_work_keeps Q timer ltac:(lia) d Hd tt). done.
  - unfold hgicf_detect_timer. destruct (dev_flag _ d); [by apply (dev_ok_same Q d)|done].
  - by apply (set_proc_keeps stk sc Q ifidx rq d Hd r).
  - by apply (on_world_keeps Q _ (get_proc_live any_frame stk sc acc unw ifidx rq) d Hd r).
  - by apply (ioctl_keeps stk sc acc unw Q nonnull rq cmd d Hd r).
  - by apply (iwpriv_write_keeps stk sc Q mem count d Hd r).
  - by apply (suspend_keeps Q d Hd r).
  - by apply (resume_keeps Q d Hd r).
  - by apply (open_keeps Q d Hd r).
  - by apply (stop_keeps Q d Hd r).
  - by apply (change_mac_keeps Q k addr d Hd r).
Qed.

(** C2. Every state the device can reach, by any sequence of its operations with
    any environment between them, is well-formed: the control channel's
    invariant holds, at most txq_size + 1 data frames are queued, at most 17
    events are kept and the semaphore counts them, the data cookie and the
    firmware state fit their fields, and the initialised flag implies that the
    interface exists, as the station's. *)
Theorem reachable_states_ok d d' :
  rtc dev_step d d' -> dev_ok (u32 txq_size + 1) d -> dev_ok (u32 txq_size + 1) d'.
Proof.
  induction 1 as [d|d d1 d' Hs _ IH]; intros Hd; [done|].
  apply IH. by apply (dev_step_ok (u32 txq_size + 1) d d1).
Qed.
End Steps.

Lemma demo_dev_ok scripts : dev_ok 1025 (demo_dev scripts).
Proof.
  split; try (vm_compute; done); try (vm_compute; split; done).
  exists 5. split; [done|]. apply demo_channel_ok.
Qed.

(** The interface is opened (the chip does not answer), a frame is transmitted, the firmware
    reports and the watchdog's timer goes off. *)
Lemma reachable_states_ok_witness :
  exists d', rtc (dev_step (fun _ => (0, [])) [] [] true false false 1024 0 0 10) (demo_dev []) d' /\ dev_ok (u32 1024 + 1) d' /\ zlen (d_tx_dataq d') = 1.
Proof.
  assert (exists d', rtc (dev_step (fun _ => (0, [])) [] [] true false false 1024 0 0 10) (demo_dev []) d' /\ zlen (d_tx_dataq d') = 1) as (d' & Hr & Hq).
  { eexists. split.
    - eapply rtc_l; [eapply (DS_open _ _ _ _ _ _ _ _ _ _ (-1)); vm_compute; reflexivity|].
      eapply rtc_l; [eapply (DS_xmit _ _ _ _ _ _ _ _ _ _ (Skb (replicate 64 0) (replicate 60 7) [])); vm_compute; reflexivity|].
      eapply rtc_l; [eapply (DS_read _ _ _ _ _ _ _ _ _ _ []); vm_compute; reflexivity|].
      eapply rtc_l; [apply DS_timer|]. apply rtc_refl.
    - vm_compute. reflexivity. }
  exists d'. split; [exact Hr|]. split; [|exact Hq].
  eapply reachable_states_ok; [exact Hr|]. apply demo_dev_ok.
Defined.
