(* ===== verification/Lifecycle.v ===== *)
(** * Set-up and removal of a device (hgic_fmac/core.c)

    The probe and remove functions of the driver.  The first builds a device; what
    it builds satisfies the invariant of file [System].  The second takes a device
    apart while its timer and its four work items may be queued or running, on
    other processors, and may queue each other: here a step function over an
    explicit list of events, in which the steps of the removal are interleaved with
    everything the others can do.  What each work item can queue is proved of its
    definition in files [Core] and [Tx]. *)
From stdpp Require Import relations.
From S2P Require Import Prelude Bytes CString Proto Skb FwInfo Utils FwCtrl BootDl Device Tx Core IfTest Invariant System.

(** ** Probe *)
Definition zero_fwinfo : hgic_fw_info := FwInfo 0 0 0 0 (replicate 6 0) 0 0.
(** The device as [kzalloc] gives it, with the control channel of the bus. *)
Definition zero_wdev (w : world) : hgicf_wdev :=
  Wdev [] 0 0 0 false 0 zero_fwinfo None [] [] 0 0 0 0 0 0 0 0 0 0 (BootDl (BootFwInfo 0 0 0 0 0 0 0) 0 0 0 None) [] [] [] [] [] w.

(** The fields that are set. *)
Definition new_wdev (ctrl_wq : bool) (qc_mode : Z) (bus : hgic_bus) (w : world) : hgicf_wdev :=
  let d := zero_wdev (on_ctrl (fun c => FwCtrl 0 [] [] [] false (u8 qc_mode) 0 None bus) w) in
  let d := set_d_fw_state (u8 (-1)) d in
  let d := set_d_w (on_ctrl (fun _ => hgic_fwctrl_init bus ctrl_wq) (d_w d)) d in
  let d := set_d_dl (hgic_bootdl_init bus) d in
  let d := set_d_evt_sema 0 d in
  set_d_txwnd TXWND_INIT_VAL d.

(** The result, and the device when there is one.  [alloc_ok], [wq_ok] and
    [ctrl_wq]: whether the device and the two work queues could be allocated; [w]:
    the surroundings.  On failure everything is taken back by the removal. *)
Definition hgicf_core_probe (alloc_ok wq_ok ctrl_wq : bool) (qc_mode dev_id : Z) (bus : hgic_bus) (w : world) : Z * option hgicf_wdev :=
  if negb (hgicf_match_devid dev_id) then (-1, None) else
  if negb alloc_ok then (-1, None) else
  let d := new_wdev ctrl_wq qc_mode bus w in
  if negb wq_ok then (-1, None) else
  (0, Some (set_dev_flag HGICF_DEV_FLAGS_RUNNING d)).

(** ** Removal *)
Inductive item := DetectTmr | DelayInit | DetectWork | TxWork | TestWork.
#[export] Instance item_eq_dec : EqDecision item.
Proof. solve_decision. Defined.

(** What an item can queue or arm while it runs: directly, by a frame that the bus
    fails, or by a command, for which the transmit work is queued. *)
Definition may_queue (i : item) : list item :=
  match i with
  | DetectTmr => [DetectWork]
  | DelayInit => [DetectTmr; DelayInit; TestWork; TxWork]
  | DetectWork => [DetectTmr; DelayInit; DetectWork; TxWork]
  | TxWork => [DetectWork]
  | TestWork => [DetectWork]
  end.
(** What a call from outside -- the network stack, an ioctl, the bus -- can. *)
Definition call_may_queue : list item := [TxWork; DetectWork].

Inductive rstep :=
  | ClearRunning | StopQueue | CancelSync (i : item) | DeleteProcfs | ReleaseCtrl | ReleaseOta | ReleaseBootdl
  | DestroyWq | Unregister | ClearQueues | FreeDev.
Definition cancel_round : list rstep := map CancelSync [DetectTmr; DelayInit; DetectWork; TxWork; TestWork].
Definition remove_end : list rstep := [DeleteProcfs; ReleaseCtrl; ReleaseOta; ReleaseBootdl; DestroyWq; Unregister; ClearQueues; FreeDev].
Definition hgicf_core_remove : list rstep := ClearRunning :: StopQueue :: cancel_round ++ cancel_round ++ remove_end.

(** [lf_live]: the running items with the value the flag had when they began;
    [lf_calls]: calls from outside that have found the flag set and not returned;
    [lf_bad]: something was queued on a work queue that is gone or in a device
    that is freed, or ran there. *)
Record life := Life {
  lf_running : bool; lf_pending : list item; lf_live : list (item * bool); lf_calls : nat;
  lf_wq : bool; lf_netdev : bool; lf_freed : bool; lf_bad : bool; lf_todo : list rstep }.
Definition set_running v s := Life v (lf_pending s) (lf_live s) (lf_calls s) (lf_wq s) (lf_netdev s) (lf_freed s) (lf_bad s) (lf_todo s).
Definition set_pending v s := Life (lf_running s) v (lf_live s) (lf_calls s) (lf_wq s) (lf_netdev s) (lf_freed s) (lf_bad s) (lf_todo s).
Definition set_live v s := Life (lf_running s) (lf_pending s) v (lf_calls s) (lf_wq s) (lf_netdev s) (lf_freed s) (lf_bad s) (lf_todo s).
Definition set_calls v s := Life (lf_running s) (lf_pending s) (lf_live s) v (lf_wq s) (lf_netdev s) (lf_freed s) (lf_bad s) (lf_todo s).
Definition set_wq v s := Life (lf_running s) (lf_pending s) (lf_live s) (lf_calls s) v (lf_netdev s) (lf_freed s) (lf_bad s) (lf_todo s).
Definition set_netdev v s := Life (lf_running s) (lf_pending s) (lf_live s) (lf_calls s) (lf_wq s) v (lf_freed s) (lf_bad s) (lf_todo s).
Definition set_freed v s := Life (lf_running s) (lf_pending s) (lf_live s) (lf_calls s) (lf_wq s) (lf_netdev s) v (lf_bad s) (lf_todo s).
Definition set_bad v s := Life (lf_running s) (lf_pending s) (lf_live s) (lf_calls s) (lf_wq s) (lf_netdev s) (lf_freed s) v (lf_todo s).
Definition set_todo v s := Life (lf_running s) (lf_pending s) (lf_live s) (lf_calls s) (lf_wq s) (lf_netdev s) (lf_freed s) (lf_bad s) v.

Definition is_live (i : item) (s : life) : bool := bool_decide (i ∈ map fst (lf_live s)).
Definition on_tx_wq (i : item) : bool := match i with TxWork | TestWork => true | _ => false end.
Definition queue (i : item) (s : life) : life :=
  if lf_freed s || (on_tx_wq i && negb (lf_wq s)) then set_bad true s else set_pending (i :: lf_pending s) s.

(** A step of the removal: it waits for what it cancels or destroys. *)
Definition can_remove (r : rstep) (s : life) : bool :=
  match r with
  | CancelSync i => negb (is_live i s)
  | DestroyWq => forallb (fun i => negb (is_live i s) && negb (bool_decide (i ∈ lf_pending s))) [TxWork; TestWork]
  | Unregister => (lf_calls s =? 0)%nat
  | _ => true
  end.
Definition do_remove (r : rstep) (s : life) : life :=
  match r with
  | ClearRunning => set_running false s
  | CancelSync i => set_pending (filter (fun j => j <> i) (lf_pending s)) s
  | DestroyWq => set_wq false s
  | Unregister => set_netdev false s
  | FreeDev => set_freed true s
  | _ => s
  end.

Inductive event :=
  | Fire (i : item)             (* a queued item begins *)
  | Queue (i j : item)          (* a running one queues another *)
  | Finish (i : item)
  | Enter                       (* a call finds the flag set *)
  | CallQueue (j : item)
  | Leave
  | Remove.                     (* the next step of the removal *)

Definition life_step (e : event) (s : life) : option life :=
  match e with
  | Fire i =>
      if bool_decide (i ∈ lf_pending s) && negb (is_live i s) then
        let s' := set_live ((i, lf_running s) :: lf_live s) (set_pending (filter (fun j => j <> i) (lf_pending s)) s) in
        Some (if lf_freed s then set_bad true s' else s')
      else None
  | Queue i j => if bool_decide ((i, true) ∈ lf_live s) && bool_decide (j ∈ may_queue i) then Some (queue j s) else None
  | Finish i => Some (set_live (filter (fun p => fst p <> i) (lf_live s)) s)
  | Enter => if lf_running s then Some (set_calls (S (lf_calls s)) s) else None
  | CallQueue j => if (0 <? lf_calls s)%nat && bool_decide (j ∈ call_may_queue) then Some (queue j s) else None
  | Leave => Some (set_calls (pred (lf_calls s)) s)
  | Remove =>
      match lf_todo s with
      | r :: t => if can_remove r s then Some (do_remove r (set_todo t s)) else None
      | [] => None
      end
  end.
Fixpoint life_run (es : list event) (s : life) : option life :=
  match es with [] => Some s | e :: es => life_step e s ≫= life_run es end.

Ltac life_simpl :=
  cbn [do_remove set_running set_pending set_live set_calls set_wq set_netdev set_freed set_bad set_todo
       lf_running lf_pending lf_live lf_calls lf_wq lf_netdev lf_freed lf_bad lf_todo map fst].

(** ** The invariant of a removal *)
Definition order : list item := [DetectTmr; DelayInit; DetectWork; TxWork; TestWork].
Lemma all_items i : i ∈ order.
Proof. apply (bool_decide_unpack _). by destruct i; vm_compute. Qed.
Definition rest_steps : list rstep := tail hgicf_core_remove.

(** After [k] steps of the rest, no call being under way: the first round of
    cancellations has waited for every run that began with the flag set, and what
    the second has cancelled stays away. *)
Record removing (k : nat) (s : life) : Prop := {
  rm_k : (k <= 19)%nat;
  rm_todo : lf_todo s = drop k rest_steps;
  rm_running : lf_running s = false;
  rm_calls : lf_calls s = 0%nat;
  rm_bad : lf_bad s = false;
  rm_wq : lf_wq s = (k <=? 15)%nat;
  rm_freed : lf_freed s = (19 <=? k)%nat;
  rm_netdev : (17 <= k)%nat -> lf_netdev s = false;
  rm_old : forall i b, i ∈ take (k - 1) order -> (i, b) ∈ lf_live s -> b = false;
  rm_gone : forall i, i ∈ take (k - 6) order -> (i ∉ lf_pending s) /\ (i ∉ map fst (lf_live s)) }.

Lemma no_elements {A} (l : list A) : (forall x, x ∉ l) -> l = [].
Proof. destruct l as [|x l]; [done|]. intros H. destruct (H x). by left. Qed.
Lemma take_all_order n : (5 <= n)%nat -> take n order = order.
Proof. intros H. by apply take_ge. Qed.
Lemma live_fst i b s : (i, b) ∈ lf_live s -> i ∈ map fst (lf_live s).
Proof. intros H. apply list_elem_of_fmap. by exists (i, b). Qed.
Lemma elem_filter_ne (i j : item) (l : list item) : i ∈ filter (fun x => x <> j) l -> i ∈ l /\ i <> j.
Proof. intros H. apply list_elem_of_filter in H. tauto. Qed.

(** A run that began with the flag set is one the first round still waits for. *)
Lemma old_early k s i : removing k s -> (i, true) ∈ lf_live s -> (k <= 5)%nat.
Proof.
  intros [] H. destruct (le_lt_dec k 5); [done|]. assert (true = false); [|done].
  apply (rm_old0 i true); [|done]. rewrite take_all_order by lia. apply all_items.
Qed.

Lemma removing_fire k s i s' : removing k s -> life_step (Fire i) s = Some s' -> removing k s'.
Proof.
  intros [] E. cbn [life_step] in E. destruct (bool_decide_reflect (i ∈ lf_pending s)) as [Hp|]; [|done].
  unfold is_live in E. destruct (bool_decide_reflect (i ∈ map fst (lf_live s))) as [|Hl]; [done|]. cbn [andb negb] in E.
  assert (i ∉ take (k - 6) order) as Hi by (intros K; by destruct (rm_gone0 i K)).
  assert ((k < 19)%nat) as Hk by (destruct (le_lt_dec 19 k); [|done]; destruct Hi; rewrite take_all_order by lia; apply all_items).
  assert ((19 <=? k)%nat = false) as Ek by (apply Nat.leb_gt; lia). rewrite rm_freed0, Ek in E. injection E as <-. split; life_simpl; try done.
  - intros j b Hj [[= -> ->]|Hb]%elem_of_cons; [done|]. by apply (rm_old0 j).
  - intros j Hj. destruct (rm_gone0 j Hj) as [K1 K2]. split; [by intros [? _]%elem_filter_ne|].
    life_simpl. intros [->|K]%elem_of_cons; done.
Qed.
Lemma removing_queue k s i j s' : removing k s -> life_step (Queue i j) s = Some s' -> removing k s'.
Proof.
  intros Hs E. cbn [life_step] in E. destruct (bool_decide_reflect ((i, true) ∈ lf_live s)) as [Hl|]; [|done].
  pose proof (old_early k s i Hs Hl) as Hk. destruct Hs. cbn [andb] in E. destruct (bool_decide (j ∈ may_queue i)); [|done].
  injection E as <-. unfold queue. assert ((19 <=? k)%nat = false) as E1 by (apply Nat.leb_gt; lia).
  assert ((k <=? 15)%nat = true) as E2 by (apply Nat.leb_le; lia). rewrite rm_freed0, rm_wq0, E1, E2, andb_false_r. cbn [orb]. split; life_simpl; try done. intros x Hx. replace (k - 6)%nat with 0%nat in Hx by lia. by apply elem_of_nil in Hx.
Qed.
Lemma removing_finish k s i s' : removing k s -> life_step (Finish i) s = Some s' -> removing k s'.
Proof.
  intros [] [= <-]. split; life_simpl; try done.
  - intros j b Hj [_ Hb]%list_elem_of_filter. by apply (rm_old0 j).
  - intros j Hj. destruct (rm_gone0 j Hj) as [K1 K2]. split; [done|]. intros K. apply K2.
    apply list_elem_of_fmap in K as (p & -> & [_ K]%list_elem_of_filter). apply list_elem_of_fmap. by exists p.
Qed.
(** Which step is the [k]-th: a cancellation of either round, or another one. *)
Lemma rest_step k r :
  rest_steps !! k = Some r ->
  (exists i, r = CancelSync i /\ order !! (k - 1)%nat = Some i /\ (1 <= k <= 5)%nat) \/
  (exists i, r = CancelSync i /\ order !! (k - 6)%nat = Some i /\ (6 <= k <= 10)%nat) \/
  ((k = 0 \/ 11 <= k <= 18)%nat /\ forall i, r <> CancelSync i).
Proof.
  intros H. do 11 (destruct k as [|k]; [injection H as <-; first [by right; right; split; [lia|] | left; eexists; split; [done|]; split; [done|lia]
    | right; left; eexists; split; [done|]; split; [done|lia]]|]).
  do 8 (destruct k as [|k]; [injection H as <-; by right; right; split; [lia|]|]). done.
Qed.
Lemma is_live_false i s : is_live i s = false -> i ∉ map fst (lf_live s).
Proof. unfold is_live. by destruct (bool_decide_reflect (i ∈ map fst (lf_live s))). Qed.

Lemma removing_step k s s' : removing k s -> life_step Remove s = Some s' -> removing (S k) s'.
Proof.
  intros [] E. cbn [life_step] in E. rewrite rm_todo0 in E. destruct (rest_steps !! k) as [r|] eqn:Hr.
  2: { apply lookup_ge_None in Hr. rewrite drop_ge in E by done. done. }
  rewrite (drop_S _ _ _ Hr) in E. destruct (can_remove r s) eqn:Hc; [|done]. injection E as <-.
  destruct (rest_step k r Hr) as [(i & -> & Hi & Hk)|[(i & -> & Hi & Hk)|[Hk Hno]]].
  - apply negb_true_iff, is_live_false in Hc. split; life_simpl; try done; try lia.
    + rewrite rm_wq0. destruct (Nat.leb_spec k 15), (Nat.leb_spec (S k) 15); lia || done.
    + rewrite rm_freed0. destruct (Nat.leb_spec 19 k), (Nat.leb_spec 19 (S k)); lia || done.
    + intros j b Hj Hb. replace (S k - 1)%nat with (S (k - 1)) in Hj by lia. rewrite (take_S_r _ _ i Hi) in Hj.
      apply elem_of_app in Hj as [Hj| ->%list_elem_of_singleton]; [by apply (rm_old0 j)|]. by destruct Hc; apply (live_fst i b).
    + intros j Hj. replace (S k - 6)%nat with 0%nat in Hj by lia. by apply elem_of_nil in Hj.
  - apply negb_true_iff, is_live_false in Hc. split; life_simpl; try done; try lia.
    + rewrite rm_wq0. destruct (Nat.leb_spec k 15), (Nat.leb_spec (S k) 15); lia || done.
    + rewrite rm_freed0. destruct (Nat.leb_spec 19 k), (Nat.leb_spec 19 (S k)); lia || done.
    + intros j b Hj. apply rm_old0. rewrite take_all_order by lia. apply all_items.
    + intros j Hj. replace (S k - 6)%nat with (S (k - 6)) in Hj by lia. rewrite (take_S_r _ _ i Hi) in Hj.
      apply elem_of_app in Hj as [Hj| ->%list_elem_of_singleton].
      * destruct (rm_gone0 j Hj) as [K1 K2]. split; [by intros [? _]%elem_filter_ne|done].
      * split; [by intros [_ ?]%elem_filter_ne|done].
  - assert (take (S k - 1) order = take (k - 1) order) as E1 by (destruct Hk as [->|]; [done|by rewrite !take_all_order by lia]).
    assert (forall j, j ∈ take (S k - 6) order -> j ∈ take (k - 6) order) as E2.
    { intros j Hj. destruct Hk as [->|Hk]; [done|]. destruct (decide (k = 11)%nat) as [->|]; [done|]. rewrite take_all_order by lia. apply all_items. }
    assert (lf_wq s = (k <=? 15)%nat /\ lf_freed s = (19 <=? k)%nat) as [W F] by done.
    assert (k ∈ [0; 11; 12; 13; 14; 15; 16; 17; 18]%nat) as Hin by (destruct Hk as [->|Hk]; [by left|]; apply list_elem_of_In; simpl; lia).
    repeat (apply elem_of_cons in Hin as [->|Hin]; [injection Hr as <-; split; life_simpl;
      first [done | lia | by rewrite W | by rewrite F | by intros; apply rm_netdev0; lia
             | by intros j b Hj; rewrite E1 in Hj; apply (rm_old0 j) | by intros j Hj; apply rm_gone0, E2]|]).
    by apply elem_of_nil in Hin.
Qed.
Lemma removing_event k s e s' :
  removing k s -> life_step e s = Some s' -> removing k s' \/ removing (S k) s'.
Proof.
  intros Hs E. destruct e as [i|i j|i| |j| |].
  - left. by apply (removing_fire k s i).
  - left. by apply (removing_queue k s i j).
  - left. by apply (removing_finish k s i).
  - cbn in E. by rewrite (rm_running _ _ Hs) in E.
  - cbn in E. by rewrite (rm_calls _ _ Hs) in E.
  - left. injection E as <-. destruct Hs. split; life_simpl; try done. by rewrite rm_calls0.
  - right. by apply (removing_step k s).
Qed.
Lemma removing_run es : forall k s s', removing k s -> life_run es s = Some s' -> exists k', removing k' s'.
Proof.
  induction es as [|e es IH]; intros k s s' Hs E; [injection E as <-; by exists k|].
  cbn [life_run] in E. apply bind_Some in E as (s1 & E1 & E2). destruct (removing_event k s e s1 Hs E1); by eapply IH.
Qed.

(** *** It can always go on *)
Lemma life_run_app es es' s s' : life_run es s = Some s' -> life_run (es ++ es') s = life_run es' s'.
Proof.
  revert s. induction es as [|e es IH]; intros s E; [by injection E as <-|]. cbn [life_run app] in *.
  apply bind_Some in E as (s1 & E1 & E2). rewrite E1. by apply IH.
Qed.
Lemma finish_all k s : removing k s -> exists s', life_run (map Finish order) s = Some s' /\ removing k s' /\ lf_live s' = [].
Proof.
  intros Hs. eexists. split; [reflexivity|]. split.
  - do 5 (eapply removing_finish; [|reflexivity]). done.
  - life_simpl. apply no_elements. intros p Hp. repeat (apply list_elem_of_filter in Hp as [? Hp]). destruct p as [[] b]; done.
Qed.
Lemma step_idle k s : removing k s -> lf_live s = [] -> (k < 19)%nat -> exists s', life_step Remove s = Some s' /\ lf_live s' = [].
Proof.
  intros [] Hl Hk. cbn [life_step]. rewrite rm_todo0. destruct (lookup_lt_is_Some_2 rest_steps k Hk) as [r Hr].
  rewrite (drop_S _ _ _ Hr).
  assert (forall i, is_live i s = false) as Hi by (intros i; unfold is_live; by rewrite Hl).
  assert (can_remove r s = true) as ->.
  { destruct r; try done; simpl; rewrite ?Hi, ?rm_calls0; try done.
    assert (k = 15)%nat as -> by (do 19 (destruct k as [|k]; [try (injection Hr; discriminate); try done|]); lia).
    destruct (rm_gone0 TxWork ltac:(rewrite take_all_order by lia; apply all_items)) as [K1 _].
    destruct (rm_gone0 TestWork ltac:(rewrite take_all_order by lia; apply all_items)) as [K2 _].
    by rewrite !bool_decide_false by done. }
  eexists. split; [reflexivity|]. by destruct r.
Qed.
Lemma removing_completes n : forall k s, (19 - k = n)%nat -> removing k s -> lf_live s = [] ->
  exists es s', life_run es s = Some s' /\ removing 19 s'.
Proof.
  induction n as [|n IH]; intros k s Hn Hs Hl.
  - exists [], s. split; [done|]. replace 19%nat with k; [done|]. pose proof (rm_k _ _ Hs). lia.
  - destruct (step_idle k s Hs Hl ltac:(lia)) as (s1 & E1 & L1).
    destruct (IH (S k) s1) as (es & s' & E & H); [lia|by apply (removing_step k s)|done|].
    exists (Remove :: es), s'. split; [|done]. cbn [life_run]. by rewrite E1.
Qed.

(** ** Properties *)
(** The device when the removal has cleared the flag and no call from outside is
    between its test of the flag and its end; items may be queued and running. *)
Record flag_cleared (s : life) : Prop := {
  fl_todo : lf_todo s = rest_steps;
  fl_running : lf_running s = false;
  fl_calls : lf_calls s = 0%nat;
  fl_wq : lf_wq s = true;
  fl_freed : lf_freed s = false;
  fl_bad : lf_bad s = false }.

(** C10. Whatever timer and works are queued or running when the flag is cleared,
    and however their steps interleave with those of the removal: nothing is ever
    queued on the destroyed work queue or in the freed device, nor runs there; a
    removal that is through has left nothing queued, nothing running, no work queue
    and no network device; and it can always get through. *)
Theorem remove_safe es s s' :
  flag_cleared s -> life_run es s = Some s' ->
  lf_bad s' = false /\
  (lf_todo s' = [] -> lf_pending s' = [] /\ lf_live s' = [] /\ lf_wq s' = false /\ lf_netdev s' = false /\ lf_freed s' = true) /\
  exists es' s'', life_run es' s' = Some s'' /\ lf_todo s'' = [].
Proof.
  intros [] E. assert (removing 0 s) as H0.
  { split; try done; try lia; intros i; [intros b|]; by intros ?%elem_of_nil. }
  destruct (removing_run es 0 s s' H0 E) as [k Hk]. split; [by apply Hk|]. split.
  - intros Ht. assert (k = 19)%nat as ->.
    { pose proof (rm_k _ _ Hk). pose proof (rm_todo _ _ Hk) as T. rewrite Ht in T. symmetry in T. apply (f_equal length) in T.
      rewrite length_drop in T. change (length rest_steps) with 19%nat in T. simpl in T. lia. }
    destruct Hk. assert (forall i, (i ∉ lf_pending s') /\ (i ∉ map fst (lf_live s'))) as G.
    { intros i. apply rm_gone0. rewrite take_all_order by lia. apply all_items. }
    split; [apply no_elements; intros i Hi; by destruct (G i)|].
    split; [apply no_elements; intros [i b] Hi; destruct (G i) as [_ G2]; by apply G2, (live_fst i b)|].
    split; [by rewrite rm_wq0|]. split; [apply rm_netdev0; lia|by rewrite rm_freed0].
  - destruct (finish_all k s' Hk) as (s1 & E1 & H1 & L1).
    destruct (removing_completes (19 - k) k s1 eq_refl H1 L1) as (es' & s2 & E2 & H2).
    exists (map Finish order ++ es'), s2. split; [by rewrite (life_run_app _ _ _ _ E1)|]. by rewrite (rm_todo _ _ H2).
Qed.

(** The watchdog has begun before and queues the initialisation and its timer when
    both were cancelled; the second round removes them again. *)
Definition busy_device : life := Life false [DetectTmr; TxWork] [(DetectWork, true)] 0 true true false false rest_steps.
Definition late_queueing : list event :=
  replicate 3 Remove ++ [Queue DetectWork DelayInit; Queue DetectWork DetectTmr; Finish DetectWork] ++ replicate 16 Remove.
Lemma remove_safe_witness :
  exists s', life_run late_queueing busy_device = Some s' /\ lf_bad s' = false /\ lf_todo s' = [] /\ lf_pending s' = [] /\ lf_live s' = [].
Proof.
  destruct (life_run late_queueing busy_device) as [s'|] eqn:E; [|vm_compute in E; discriminate].
  destruct (remove_safe late_queueing busy_device s') as (B & K & _); [by split|exact E|].
  assert (lf_todo s' = []) as T by (vm_compute in E; by injection E as <-).
  destruct (K T) as (P & L & _). exists s'. split; [reflexivity|]. split; [exact B|]. split; [exact T|]. split; [exact P|exact L].
Defined.

(** One round would not do: with the second left out the same run ends with the
    initialisation and the timer queued in a freed device. *)
Lemma one_round_leaks :
  let s := set_todo (StopQueue :: cancel_round ++ remove_end) busy_device in
  exists s', life_run (replicate 3 Remove ++ [Queue DetectWork DelayInit; Queue DetectWork DetectTmr; Finish DetectWork] ++ replicate 11 Remove) s = Some s' /\
    lf_freed s' = true /\ lf_pending s' = [DetectTmr; DelayInit] /\ life_run [Fire DelayInit] s' ≫= (fun t => Some (lf_bad t)) = Some true.
Proof. eexists. split; [vm_compute; reflexivity|]. vm_compute. done. Qed.

(** A call from outside that has found the flag set is not waited for before the
    work queue is destroyed: an ioctl or a frame of the network stack that is this
    far queues its work there. *)
Lemma remove_races_call :
  let s := Life true [] [] 0 true true false false hgicf_core_remove in
  exists s', life_run (Enter :: replicate 17 Remove ++ [CallQueue TxWork]) s = Some s' /\ lf_wq s' = false /\ lf_bad s' = true.
Proof. eexists. split; [vm_compute; reflexivity|]. vm_compute. done. Qed.

(** *** Probe *)
Lemma new_wdev_ok ctrl_wq qc_mode bus w :
  Forall (Forall (action_ok any_frame)) (w_env w) ->
  dev_ok 0 (set_dev_flag HGICF_DEV_FLAGS_RUNNING (new_wdev ctrl_wq qc_mode bus w)).
Proof.
  intros He. split; simpl; try done; try (by split); try lia.
  exists 5. split; [done|]. split; simpl; [|done|done]. split; simpl; try done; try lia; constructor.
Qed.
(** C11. A probe succeeds exactly for a known chip when everything could be
    allocated; the device it builds satisfies the invariant of the device, is
    marked running and not initialised, has no interface, no firmware state and a
    window of three frames, and nothing has been queued or sent. *)
Theorem probe_establishes_invariant alloc_ok wq_ok ctrl_wq qc_mode dev_id bus w :
  w_sent w = [] -> Forall (Forall (action_ok any_frame)) (w_env w) ->
  let p := hgicf_core_probe alloc_ok wq_ok ctrl_wq qc_mode dev_id bus w in
  (fst p = 0 <-> (dev_id = 0x4002 \/ dev_id = 0x8400) /\ alloc_ok = true /\ wq_ok = true) /\
  (fst p <> 0 -> p = (-1, None)) /\
  forall d, snd p = Some d ->
    dev_ok 0 d /\ dev_flag HGICF_DEV_FLAGS_RUNNING d = true /\ dev_flag HGICF_DEV_FLAGS_INITED d = false /\
    d_vif d = None /\ d_fw_state d = 255 /\ d_txwnd d = 3 /\ d_out d = [] /\ d_bus_tx d = [] /\ w_sent (d_w d) = [].
Proof.
  intros Hw He p. subst p. unfold hgicf_core_probe, hgicf_match_devid.
  destruct (Z.eqb_spec dev_id 0x4002), (Z.eqb_spec dev_id 0x8400), alloc_ok, wq_ok; cbn [orb negb fst snd]; (split; [split; [intros ?; try lia; tauto|intros (? & ? & ?); (done || lia)]|]); (split; [done|]);
    intros d; try done; intros [= <-]; (split; [by apply new_wdev_ok|]); by rewrite <- Hw.
Qed.
Lemma probe_establishes_invariant_witness :
  exists d, hgicf_core_probe true true true 0 0x4002 (fc_bus (w_ctrl (demo_world []))) (demo_world []) = (0, Some d) /\ dev_ok 0 d.
Proof.
  destruct (hgicf_core_probe true true true 0 0x4002 (fc_bus (w_ctrl (demo_world []))) (demo_world [])) as [r o] eqn:E.
  destruct (probe_establishes_invariant true true true 0 0x4002 (fc_bus (w_ctrl (demo_world []))) (demo_world []) eq_refl ltac:(by repeat constructor))
    as (_ & _ & K). rewrite E in K. vm_compute in E. injection E as <- <-. eexists. split; [reflexivity|]. exact (proj1 (K _ eq_refl)).
Defined.

(** ** What the works queue *)
(** The steps of the removal rest on [may_queue]: what the definitions of each item
    queue (the transmit work that a command queues is part of the control channel),
    and that a run which begins with the flag cleared queues and sends nothing. *)
Definition item_of (o : output) : option item :=
  match o with
  | OUT_detect_work => Some DetectWork | OUT_delay_init => Some DelayInit | OUT_tx_work => Some TxWork
  | OUT_test_work => Some TestWork | OUT_mod_timer => Some DetectTmr | OUT_reinit | OUT_carrier_on => None
  end.
Definition within (l : list item) (base : list output) (d : hgicf_wdev) : Prop :=
  exists outs, d_out d = base ++ outs /\ Forall (fun o => forall j, item_of o = Some j -> j ∈ l) outs.
Lemma within_refl l d : within l (d_out d) d.
Proof. exists []. by rewrite app_nil_r. Qed.
Lemma within_emit l base o d : within l base d -> (forall j, item_of o = Some j -> j ∈ l) -> within l base (emit o d).
Proof.
  intros (outs & E & F) Ho. exists (outs ++ [o]). simpl. rewrite E, app_assoc. split; [done|]. apply Forall_app. by repeat constructor.
Qed.
Lemma on_world_within {A} l base (m : M world A) : keeps (within l base) (on_world m).
Proof. unfold on_world. by apply (keeps_on_part (fun _ => True)); [intros w _ a w' _| |]. Qed.
Lemma on_boot_within {A} l base (m : M boot A) : keeps (within l base) (on_boot m).
Proof. unfold on_boot. by apply (keeps_on_part (fun _ => True)); [intros w _ a w' _| |]. Qed.
#[local] Hint Resolve on_world_within on_boot_within : keeps.
Ltac within_modify :=
  intros ? ?; unfold bus_reinit in *;
  repeat match goal with |- within _ _ (if ?b then _ else _) => destruct b | |- within _ _ ((if ?b then _ else _) _) => destruct b end;
  first [ assumption | apply within_emit; [assumption|intros ? [= <-]; apply (bool_decide_unpack _); vm_compute; exact I]
        | apply within_emit; [assumption|by intros ? [= <-]] | apply within_emit; [assumption|intros ? [=]] ].
Ltac within_tac := keeps_tac; try within_modify.

Section Works.
Variables (rf : list Z -> Z * list Z) (fw_file stk : list Z) (sc no_bootdl qc_mode : bool) (if_test timer if_agg : Z).

Lemma boot_loop_within l base retry status err : keeps (within l base) (boot_loop rf fw_file retry status err).
Proof. revert status err. induction retry as [|retry IH]; intros status err; cbn [boot_loop]; within_tac. Qed.
Lemma reinit_loop_within l base retry status : keeps (within l base) (reinit_loop retry status).
Proof. revert status. induction retry as [|retry IH]; intros status; cbn [reinit_loop]; within_tac. Qed.
Lemma detect_loop_within l base retry status : keeps (within l base) (detect_loop retry status).
Proof. revert status. induction retry as [|retry IH]; intros status; cbn [detect_loop]; within_tac. Qed.
#[local] Hint Resolve boot_loop_within reinit_loop_within detect_loop_within : keeps.
Lemma detect_work_within base : keeps (within (may_queue DetectWork) base) (hgicf_detect_work timer).
Proof. within_tac. Qed.

Lemma config_loop_within l base fuel ifidx conf pos : keeps (within l base) (config_loop stk sc fuel ifidx conf pos).
Proof. revert conf pos. induction fuel as [|fuel IH]; intros conf pos; cbn [config_loop]; within_tac. Qed.
#[local] Hint Resolve config_loop_within : keeps.
Lemma delay_init_within base file iface_ok :
  keeps (within (may_queue DelayInit) base) (hgicf_delay_init rf fw_file no_bootdl qc_mode if_test stk sc file iface_ok).
Proof. within_tac. Qed.

Lemma tx_complete_within l base s ok : DetectWork ∈ l -> keeps (within l base) (hgicf_tx_complete s ok).
Proof. intros Hl. within_tac. Qed.
Lemma rx_agg_loop_within l base fuel m len : keeps (within l base) (rx_agg_loop fuel m len).
Proof. revert m len. induction fuel as [|fuel IH]; intros m len; cbn [rx_agg_loop]; within_tac. Qed.
#[local] Hint Resolve tx_complete_within rx_agg_loop_within : keeps.
Lemma hear_within l base es : DetectWork ∈ l -> keeps (within l base) (hear es).
Proof. intros Hl. induction es as [|[] es IH]; cbn [hear]; within_tac. Qed.
#[local] Hint Resolve hear_within : keeps.
Lemma tx_packet_within l base s : DetectWork ∈ l -> keeps (within l base) (tx_packet s).
Proof. intros Hl. within_tac. Qed.
#[local] Hint Resolve tx_packet_within : keeps.
Lemma agg_loop_within l base fuel s m len : DetectWork ∈ l -> keeps (within l base) (agg_loop if_agg fuel s m len).
Proof. intros Hl. revert s m len. induction fuel as [|fuel IH]; intros s m len; cbn [agg_loop]; within_tac. Qed.
#[local] Hint Resolve agg_loop_within : keeps.
Lemma tx_work_within base fuel : keeps (within (may_queue TxWork) base) (hgicf_tx_work if_agg fuel).
Proof.
  assert (DetectWork ∈ may_queue TxWork) by by left.
  induction fuel as [|fuel IH]; cbn [hgicf_tx_work]; within_tac.
Qed.
Lemma test_work_within base period ticks : keeps (within (may_queue TestWork) base) (hgicf_test_work period ticks).
Proof.
  assert (DetectWork ∈ may_queue TestWork) by by left. unfold hgicf_test_work. apply keeps_bind; [by apply keeps_gets|].
  intros start. generalize (@None skb) as s. revert start. induction ticks as [|t ticks IH]; intros start s; cbn [test_loop]; within_tac.
Qed.

(** *** With the flag cleared *)
Definition quiet (d d' : hgicf_wdev) : Prop :=
  d_out d' = d_out d /\ d_bus_tx d' = d_bus_tx d /\ w_calls (d_w d') = w_calls (d_w d) /\
  (ctrlq d' = ctrlq d \/ ctrlq d' = []).
Lemma stopped_tx_work fuel d :
  dev_flag HGICF_DEV_FLAGS_RUNNING d = false -> exists d', hgicf_tx_work if_agg (S (S fuel)) d = Ret (tt, d') /\ quiet d d'.
Proof.
  intros Hr.
  assert (forall n d, dev_flag HGICF_DEV_FLAGS_RUNNING d = false -> ctrlq d = [] -> hgicf_tx_work if_agg (S n) d = Ret (tt, d)) as H0.
  { intros n e He Hq. cbn [hgicf_tx_work]. unfold bind at 1, gets. fold (ctrlq e). rewrite Hq, He.
    destruct (d_tx_dataq e); [done|]. by rewrite andb_false_r. }
  destruct (ctrlq d) as [|s q] eqn:Hq; [exists d; rewrite H0 by done; by repeat split; left|].
  cbn [hgicf_tx_work]. unfold bind at 1, gets. fold (ctrlq d). rewrite Hq, Hr, orb_true_r.
  unfold bind at 1, modify. set (d' := set_d_w _ d). exists d'. split; [|by repeat split; right].
  exact (H0 fuel d' Hr eq_refl).
Qed.
Lemma stopped_works d :
  dev_flag HGICF_DEV_FLAGS_RUNNING d = false ->
  hgicf_detect_timer d = d /\
  (forall file ok, hgicf_delay_init rf fw_file no_bootdl qc_mode if_test stk sc file ok d = Ret (tt, d)) /\
  (exists d', hgicf_detect_work timer d = Ret (tt, d') /\ quiet d d') /\
  (forall period t ticks, exists d', hgicf_test_work period (t :: ticks) d = Ret (tt, d') /\ quiet d d').
Proof.
  intros Hr. split; [unfold hgicf_detect_timer; by rewrite Hr|]. split; [|split].
  - intros file ok. unfold hgicf_delay_init, bind at 1, gets. by rewrite Hr.
  - set (d1 := set_d_detect_tmr (u32 (d_detect_tmr d + 1)) d). exists d1. split; [|by repeat split; left].
    assert (dev_flag HGICF_DEV_FLAGS_RUNNING d1 = false) as Hr1 by done.
    unfold hgicf_detect_work, rearm, bind, modify, gets. fold d1. rewrite Hr1, andb_false_r. cbn [andb]. unfold ret. by rewrite Hr1.
  - intros period t ticks. eexists. split.
    + unfold hgicf_test_work, bind at 1, gets. cbn [test_loop]. unfold look, bind, modify, gets.
      set (d1 := if tk_stop t then _ else _).
      assert (dev_flag HGICF_DEV_FLAGS_RUNNING d1 = false) as ->; [|reflexivity].
      unfold d1. destruct (tk_stop t); [|done]. apply bool_decide_false. simpl. by intros [? _]%list_elem_of_filter.
    + destruct (tk_stop t); by repeat split; left.
Qed.
End Works.
