(* ===== verification/Usb.v ===== *)
(** * The USB transport (utils/if_usb.c)

    A pool of transmit and one of receive buffers, each with an URB; a buffer is
    on the free list of its kind or on the list of used ones, and a semaphore
    counts the transmit buffers a sender may take.  [hgic_usb] is [struct
    hgic_usb]; the URB's own state -- with the USB core or not, and the bytes to
    send -- is a field of the buffer, which the code reaches through [buf->urb].

    The USB core, other threads and the allocator are scripts: what each
    submission returns, what completes while a sender sleeps, and what each
    allocation gives.  The calls of the bus callbacks, the bytes of every
    accepted transmission and the references taken and dropped are logs.  A
    completion runs the code's handler; [usb_kill_urb] returns when the handler
    has. *)
From S2P Require Import Prelude Bytes Proto Skb Entry.

Record usb_buf := UsbBuf {
  ub_id : Z;                     (* which buffer *)
  ub_rx : bool;                  (* HGIC_USB_BUF_FLAG_RX *)
  ub_flag_used : bool;           (* HGIC_USB_BUF_FLAG_USED *)
  ub_skb : option skb;           (* [data] of a transmit buffer *)
  ub_txbuff : option (list Z);   (* the aligned copy, where one was made *)
  ub_flight : option (list Z) }. (* with the USB core; the bytes to send *)

(** What the USB core and the rest of the system do meanwhile. *)
Inductive usb_event :=
  | TxDone (id : Z) (ok : bool)      (* the transmission of the buffer ends *)
  | RxDone (id : Z) (bs : list Z)    (* the buffer was filled *)
  | Stopped.                         (* the first two steps of a disconnection *)

Inductive usb_call := CallProbe | CallProbePost | CallRemove | GetDev | PutDev | UnlinkUrb (id : Z).

Record hgic_usb := Usb {
  u_ep_in : Z; u_ep_out : Z; u_ep_out_size : Z; u_ep_in_size : Z;
  u_stop : bool;                 (* HGIC_USB_STATUS_STOP *)
  u_err : bool;                  (* HGIC_USB_STATUS_ERR *)
  u_tx_freeq : list usb_buf; u_rx_freeq : list usb_buf; u_used : list usb_buf;
  u_tx_sema : Z;
  u_submit : list Z;                      (* results of usb_submit_urb, 0 when used up *)
  u_alloc : list (option (list Z));       (* allocations, as for the channel *)
  u_wait : list (list usb_event);         (* what happens during each sleep *)
  u_sent : list (list Z);                 (* transfers accepted by the core *)
  u_done : list (skb * bool);             (* calls of bus.tx_complete *)
  u_received : list (list Z);             (* calls of bus.rx_packet *)
  u_calls : list usb_call }.

Definition set_u_eps (i o os is_ : Z) (u : hgic_usb) : hgic_usb :=
  Usb i o os is_ (u_stop u) (u_err u) (u_tx_freeq u) (u_rx_freeq u) (u_used u) (u_tx_sema u) (u_submit u) (u_alloc u)
    (u_wait u) (u_sent u) (u_done u) (u_received u) (u_calls u).
Definition set_u_status (stop err : bool) (u : hgic_usb) : hgic_usb :=
  Usb (u_ep_in u) (u_ep_out u) (u_ep_out_size u) (u_ep_in_size u) stop err (u_tx_freeq u) (u_rx_freeq u) (u_used u)
    (u_tx_sema u) (u_submit u) (u_alloc u) (u_wait u) (u_sent u) (u_done u) (u_received u) (u_calls u).
Definition set_u_queues (t r us : list usb_buf) (u : hgic_usb) : hgic_usb :=
  Usb (u_ep_in u) (u_ep_out u) (u_ep_out_size u) (u_ep_in_size u) (u_stop u) (u_err u) t r us
    (u_tx_sema u) (u_submit u) (u_alloc u) (u_wait u) (u_sent u) (u_done u) (u_received u) (u_calls u).
Definition set_u_tx_sema (n : Z) (u : hgic_usb) : hgic_usb :=
  Usb (u_ep_in u) (u_ep_out u) (u_ep_out_size u) (u_ep_in_size u) (u_stop u) (u_err u) (u_tx_freeq u) (u_rx_freeq u) (u_used u)
    n (u_submit u) (u_alloc u) (u_wait u) (u_sent u) (u_done u) (u_received u) (u_calls u).
Definition set_u_scripts (s : list Z) (a : list (option (list Z))) (w : list (list usb_event)) (u : hgic_usb) : hgic_usb :=
  Usb (u_ep_in u) (u_ep_out u) (u_ep_out_size u) (u_ep_in_size u) (u_stop u) (u_err u) (u_tx_freeq u) (u_rx_freeq u) (u_used u)
    (u_tx_sema u) s a w (u_sent u) (u_done u) (u_received u) (u_calls u).
Definition set_u_logs (s : list (list Z)) (d : list (skb * bool)) (r : list (list Z)) (c : list usb_call) (u : hgic_usb) : hgic_usb :=
  Usb (u_ep_in u) (u_ep_out u) (u_ep_out_size u) (u_ep_in_size u) (u_stop u) (u_err u) (u_tx_freeq u) (u_rx_freeq u) (u_used u)
    (u_tx_sema u) (u_submit u) (u_alloc u) (u_wait u) s d r c.

Definition HGIC_PKT_MAX_LEN : Z := 2 * 1024 + 512.
Definition HGIC_TX_URB_CNT : nat := 16.
Definition HGIC_RX_URB_CNT : nat := 32.
Definition USB_DMA_ALIGN : Z := 4.
Definition ETIME : Z := 62.

(** ** The environment *)
Definition usb_alloc (n : Z) : M hgic_usb (option (list Z)) := fun u =>
  let u' := set_u_scripts (u_submit u) (tail (u_alloc u)) (u_wait u) u in
  match u_alloc u with
  | [] => Ret (Some (replicate (Z.to_nat n) 0), u')
  | None :: _ => Ret (None, u')
  | Some junk :: _ => Ret (Some (resize (Z.to_nat n) 0 junk), u')
  end.
Definition next_submit : M hgic_usb Z := fun u =>
  Ret (hd 0 (u_submit u), set_u_scripts (tail (u_submit u)) (u_alloc u) (u_wait u) u).
Definition log_done (s : skb) (ok : bool) : M hgic_usb unit :=
  modify (fun u => set_u_logs (u_sent u) (u_done u ++ [(s, ok)]) (u_received u) (u_calls u) u).
Definition log_call (c : usb_call) : M hgic_usb unit :=
  modify (fun u => set_u_logs (u_sent u) (u_done u) (u_received u) (u_calls u ++ [c]) u).
Definition usb_up : M hgic_usb unit := modify (fun u => set_u_tx_sema (u_tx_sema u + 1) u).

(** ** The lists *)
Definition other (b x : usb_buf) : bool := negb (ub_id x =? ub_id b).
(** [list_del] takes the buffer out of the list it is on. *)
Definition without (b : usb_buf) (l : list usb_buf) : list usb_buf := List.filter (other b) l.
(** A store to a buffer on the list of used ones. *)
Definition store (b : usb_buf) : M hgic_usb unit :=
  modify (fun u => set_u_queues (u_tx_freeq u) (u_rx_freeq u)
                     (map (fun x => if ub_id x =? ub_id b then b else x) (u_used u)) u).

Definition mark_used (f : bool) (b : usb_buf) : usb_buf :=
  UsbBuf (ub_id b) (ub_rx b) f (ub_skb b) (ub_txbuff b) (ub_flight b).
Definition set_flight (t : option (list Z)) (b : usb_buf) : usb_buf :=
  UsbBuf (ub_id b) (ub_rx b) (ub_flag_used b) (ub_skb b) (ub_txbuff b) t.
Definition set_data (s : option skb) (t : option (list Z)) (b : usb_buf) : usb_buf :=
  UsbBuf (ub_id b) (ub_rx b) (ub_flag_used b) s t (ub_flight b).

(** [rx]: the receive queue is meant, else the transmit queue. *)
Definition hgic_usb_deq (rx : bool) : M hgic_usb (option usb_buf) := fun u =>
  match (if rx then u_rx_freeq u else u_tx_freeq u) with
  | [] => Ret (None, u)
  | b :: q =>
      let b := mark_used true b in
      Ret (Some b, if rx then set_u_queues (u_tx_freeq u) q (u_used u ++ [b]) u
                   else set_u_queues q (u_rx_freeq u) (u_used u ++ [b]) u)
  end.

Definition hgic_usb_enq (b : usb_buf) (rx : bool) : M hgic_usb unit :=
  let b := mark_used false b in
  modify (fun u =>
    let t := without b (u_tx_freeq u) in
    let r := without b (u_rx_freeq u) in
    let us := without b (u_used u) in
    if rx then set_u_queues t (r ++ [b]) us u else set_u_queues (t ++ [b]) r us u).

(** Unlinking asks the core for an early completion. *)
Definition hgic_usb_cancle : M hgic_usb unit :=
  let! used := gets u_used in
  modify (fun u => set_u_logs (u_sent u) (u_done u) (u_received u) (u_calls u ++ map (fun b => UnlinkUrb (ub_id b)) used) u).

(** ** Receiving *)
Definition hgic_usb_submit_rx_urb (b : usb_buf) : M hgic_usb Z :=
  let! bad := gets (fun u => u_stop u || u_err u) in
  if bad : bool then hgic_usb_enq b true ;;; ret (-1) else
  let! r := next_submit in
  if negb (r =? 0) then
    hgic_usb_enq b true ;;;
    modify (fun u => set_u_status (u_stop u) true u) ;;;
    hgic_usb_cancle ;;;
    ret (-1)
  else store (set_flight (Some []) b) ;;; ret 0.

(** One round per free buffer and one that finds none. *)
Fixpoint submit_rx_loop (fuel : nat) (r : Z) : M hgic_usb Z :=
  match fuel with
  | O => fail Diverges
  | S fuel =>
      let! b := hgic_usb_deq true in
      match b with
      | None => ret r
      | Some b =>
          let! r := hgic_usb_submit_rx_urb b in
          if negb (r =? 0) then ret r else submit_rx_loop fuel r
      end
  end.
Definition hgic_usb_submit_rx_urbs : M hgic_usb Z :=
  let! n := gets (fun u => length (u_rx_freeq u)) in submit_rx_loop (S n) 0.

(** The completion of a receive URB with [bs] received. *)
Definition hgic_usb_receive (b : usb_buf) (bs : list Z) : M hgic_usb unit :=
  let! stop := gets u_stop in
  if stop : bool then hgic_usb_enq b true else
  (if 0 <? zlen bs then
     modify (fun u => set_u_logs (u_sent u) (u_done u) (u_received u ++ [bs]) (u_calls u) u)
   else ret tt) ;;;
  let! _ := hgic_usb_submit_rx_urb b in ret tt.

(** ** Transmitting *)
Definition hgic_usb_tx_complete (b : usb_buf) (ok : bool) : M hgic_usb unit :=
  let! s := lift (deref (ub_skb b)) in
  log_done s ok ;;;
  hgic_usb_enq (set_data None None b) false ;;;
  usb_up.

(** A completion concerns a URB the core has. *)
Definition find_flight (rx : bool) (id : Z) (u : hgic_usb) : option usb_buf :=
  List.find (fun b => (ub_id b =? id) && eqb (ub_rx b) rx && bool_decide (is_Some (ub_flight b))) (u_used u).

Definition usb_event_step (e : usb_event) : M hgic_usb unit :=
  match e with
  | TxDone id ok =>
      let! b := gets (find_flight false id) in
      match b with
      | Some b => store (set_flight None b) ;;; hgic_usb_tx_complete (set_flight None b) ok
      | None => ret tt
      end
  | RxDone id bs =>
      let! b := gets (find_flight true id) in
      match b with
      | Some b => store (set_flight None b) ;;; hgic_usb_receive (set_flight None b) bs
      | None => ret tt
      end
  | Stopped => modify (fun u => set_u_status true (u_err u) u) ;;; usb_up
  end.
Fixpoint usb_events (l : list usb_event) : M hgic_usb unit :=
  match l with
  | [] => ret tt
  | e :: l => usb_event_step e ;;; usb_events l
  end.

(** [down_timeout]: what happens before the token is taken, or the time is up. *)
Definition down_timeout : M hgic_usb Z :=
  let! l := gets (fun u => hd [] (u_wait u)) in
  modify (fun u => set_u_scripts (u_submit u) (u_alloc u) (tail (u_wait u)) u) ;;;
  usb_events l ;;;
  let! n := gets u_tx_sema in
  if 0 <? n then modify (set_u_tx_sema (n - 1)) ;;; ret 0 else ret (- ETIME).

Section Transmit.
(** CONFIG_USB_ZERO_PACKET. *)
Context (zero_packet : bool).

(** The label __fail. *)
Definition tx_fail (b : option usb_buf) (s : skb) (r : Z) : M hgic_usb Z :=
  (match b with
   | Some b => hgic_usb_enq (set_data None None b) false
   | None => ret tt
   end) ;;;
  log_done s false ;;;
  ret r.

Definition align4 (n : Z) : Z := Z.land (n + 3) (Z.lnot 3).
Definition tx_len (ep_out_size : Z) (s : skb) : Z :=
  let len := align4 (skb_len s) in
  if zero_packet && (Z.land len (ep_out_size - 1) =? 0) then len + 4 else len.

(** The submission and what follows it. *)
Definition tx_submit (s : skb) (b : usb_buf) (txbuff : option (list Z)) (bs : list Z) : M hgic_usb Z :=
  store (set_data (Some s) txbuff b) ;;;
  let! r := next_submit in
  if negb (r =? 0) then tx_fail (Some b) s r else
  store (set_flight (Some bs) (set_data (Some s) txbuff b)) ;;;
  modify (fun u => set_u_logs (u_sent u ++ [bs]) (u_done u) (u_received u) (u_calls u) u) ;;;
  ret r.

(** [addr] is the address of the data. *)
Definition hgic_usb_tx_packet (addr : Z) (s : skb) : M hgic_usb Z :=
  let! len := gets (fun u => tx_len (u_ep_out_size u) s) in
  let! bad := gets (fun u => u_stop u || u_err u) in
  if bad : bool then tx_fail None s (- EIO) else
  let! r := down_timeout in
  if negb (r =? 0) then tx_fail None s (- EIO) else
  let! bad := gets (fun u => u_stop u || u_err u) in
  if bad : bool then tx_fail None s (- EIO) else
  let! b := hgic_usb_deq false in
  match b with
  | None => tx_fail None s (- ENOMEM)
  | Some b =>
      let! copy := (if addr mod USB_DMA_ALIGN =? 0 then ret (Some None)
                    else let! p := usb_alloc (len + USB_DMA_ALIGN) in
                         match p with
                         | None => ret None
                         | Some p => let! p := lift (mem_write p 0 (skb_data s)) in ret (Some (Some p))
                         end) in
      match copy with
      | None => log_done s false ;;; ret (-1)
      | Some txbuff =>
          let! bs := lift (match txbuff with Some p => mem_read p 0 len | None => skb_read s 0 len end) in
          tx_submit s b txbuff bs
      end
  end.
End Transmit.

(** ** Set-up and removal *)
(** [id0] numbers the buffers; the result is how many there are. *)
Fixpoint hgic_usb_qinit (qsize : nat) (max_pkt_len id0 : Z) (rx : bool) (i : Z) : M hgic_usb Z :=
  match qsize with
  | O => ret i
  | S qsize =>
      let! m := usb_alloc 0 in
      match m with
      | None => ret i
      | Some _ =>
          let! urb := usb_alloc 0 in
          match urb with
          | None => ret i
          | Some _ =>
              let! rxbuff := (if rx then usb_alloc max_pkt_len else ret (Some [])) in
              match rxbuff with
              | None => ret i
              | Some _ =>
                  let b := UsbBuf (id0 + i) rx false None None None in
                  modify (fun u => if rx then set_u_queues (u_tx_freeq u) (u_rx_freeq u ++ [b]) (u_used u) u
                                   else set_u_queues (u_tx_freeq u ++ [b]) (u_rx_freeq u) (u_used u) u) ;;;
                  hgic_usb_qinit qsize max_pkt_len id0 rx (i + 1)
              end
          end
      end
  end.

(** Everything is freed with [qlock] held; the handler of an URB that is still
    with the core takes the lock, and [usb_kill_urb] waits for the handler. *)
Definition hgic_usb_free : M hgic_usb unit :=
  let! used := gets u_used in
  if existsb (fun b => bool_decide (is_Some (ub_flight b))) used then fail Diverges
  else modify (set_u_queues [] [] []).

Record endpoint := Endpoint { ep_bulk_in : bool; ep_bulk_out : bool; ep_num : Z; ep_max_packet : Z }.
Definition use_endpoint (u : hgic_usb) (e : endpoint) : hgic_usb :=
  if ep_bulk_in e then set_u_eps (ep_num e) (u_ep_out u) (u_ep_out_size u) (ep_max_packet e) u
  else if ep_bulk_out e then set_u_eps (u_ep_in u) (ep_num e) (ep_max_packet e) (u_ep_in_size u) u
  else u.

(** The driver's probe leaves the callbacks it registers: whether it gave a
    private structure, and has a remove and a post-probe function. *)
Definition probe_failed (has_remove : bool) : M hgic_usb Z :=
  (if has_remove then log_call CallRemove else ret tt) ;;;
  log_call PutDev ;;;
  hgic_usb_free ;;;
  ret (-1).

Definition hgic_usb_probe (max_pkt_len : Z) (eps : list endpoint) (has_priv has_remove has_post : bool) : M hgic_usb Z :=
  let! m := usb_alloc 0 in
  match m with
  | None => ret (- ENOMEM)
  | Some _ =>
      modify (fun u => fold_left use_endpoint eps u) ;;;
      modify (set_u_queues [] [] []) ;;;
      let! n := hgic_usb_qinit HGIC_TX_URB_CNT max_pkt_len 0 false 0 in
      modify (set_u_tx_sema n) ;;;
      let! _ := hgic_usb_qinit HGIC_RX_URB_CNT max_pkt_len 1000 true 0 in
      log_call CallProbe ;;;
      if negb has_priv then probe_failed has_remove else
      log_call GetDev ;;;
      let! r := hgic_usb_submit_rx_urbs in
      if negb (r =? 0) then probe_failed has_remove else
      (if has_post : bool then log_call CallProbePost else ret tt) ;;;
      ret r
  end.

Definition hgic_usb_disconnect (has_remove : bool) : M hgic_usb unit :=
  modify (fun u => set_u_status true (u_err u) u) ;;;
  usb_up ;;;
  (if has_remove then log_call CallRemove else ret tt) ;;;
  log_call PutDev ;;;
  hgic_usb_free.

(** ** Invariant *)
Definition bufs (u : hgic_usb) : list usb_buf := u_tx_freeq u ++ u_rx_freeq u ++ u_used u.

Definition tx_free_ok (b : usb_buf) : Prop := ub_rx b = false /\ ub_flight b = None /\ ub_skb b = None.
Definition rx_free_ok (b : usb_buf) : Prop := ub_rx b = true /\ ub_flight b = None /\ ub_skb b = None.
(** A used buffer that sends has its frame; one that receives has none. *)
Definition used_ok (b : usb_buf) : Prop :=
  if ub_rx b then ub_skb b = None else is_Some (ub_flight b) <-> is_Some (ub_skb b).

(** Every buffer is on one list; a token stands for a free transmit buffer,
    until the device is stopped. *)
Record usb_ok (u : hgic_usb) : Prop := {
  uo_ids : NoDup (map ub_id (bufs u));
  uo_tx : Forall tx_free_ok (u_tx_freeq u);
  uo_rx : Forall rx_free_ok (u_rx_freeq u);
  uo_used : Forall used_ok (u_used u);
  uo_sema : 0 <= u_tx_sema u;
  uo_tokens : u_stop u = false -> u_tx_sema u <= zlen (u_tx_freeq u) }.

(** The frames the USB core has. *)
Definition in_flight (l : list usb_buf) : list skb := omap ub_skb l.

Lemma in_flight_app l k : in_flight (l ++ k) = in_flight l ++ in_flight k.
Proof. apply omap_app. Qed.

(** ** Lemmas on the lists *)
Lemma without_fresh b l : ub_id b ∉ map ub_id l -> without b l = l.
Proof.
  induction l as [|x l IH]; [done|]. cbn [map]. intros [Hx Hl]%not_elem_of_cons. unfold without, other in *. cbn [List.filter].
  destruct (Z.eqb_spec (ub_id x) (ub_id b)); [by destruct Hx|]. cbn [negb]. by rewrite IH.
Qed.

Lemma without_middle b x l k :
  ub_id x = ub_id b -> NoDup (map ub_id (l ++ x :: k)) -> without b (l ++ x :: k) = l ++ k.
Proof.
  intros E H. rewrite map_app in H. cbn [map] in H. apply NoDup_app in H as (_ & H1 & [H2 _]%NoDup_cons).
  unfold without. rewrite List.filter_app. cbn [List.filter]. unfold other at 2. rewrite (proj2 (Z.eqb_eq _ _) E). cbn [negb].
  fold (without b l) (without b k). rewrite !without_fresh; [done|by rewrite <- E|].
  rewrite <- E. intros Hi. apply (H1 _ Hi), elem_of_cons. by left.
Qed.

Lemma map_middle b x l k :
  ub_id x = ub_id b -> NoDup (map ub_id (l ++ x :: k)) ->
  map (fun y => if ub_id y =? ub_id b then b else y) (l ++ x :: k) = l ++ b :: k.
Proof.
  intros E H. rewrite map_app in H. cbn [map] in H. apply NoDup_app in H as (_ & H1 & [H2 _]%NoDup_cons).
  assert (forall l, ub_id b ∉ map ub_id l -> map (fun y => if ub_id y =? ub_id b then b else y) l = l) as K.
  { clear. induction l as [|y l IH]; [done|]. cbn [map]. intros [Hy Hl]%not_elem_of_cons. rewrite IH by done.
    by destruct (Z.eqb_spec (ub_id y) (ub_id b)); [by destruct Hy|]. }
  rewrite map_app. cbn [map]. rewrite (proj2 (Z.eqb_eq _ _) E), !K; [done|by rewrite <- E|].
  rewrite <- E. intros Hi. apply (H1 _ Hi), elem_of_cons. by left.
Qed.

Lemma NoDup_used u : NoDup (map ub_id (bufs u)) -> NoDup (map ub_id (u_used u)).
Proof. unfold bufs. rewrite !map_app. by intros (_ & _ & (_ & _ & H)%NoDup_app)%NoDup_app. Qed.

Lemma NoDup_not_free u x : NoDup (map ub_id (bufs u)) -> x ∈ u_used u ->
  (ub_id x ∉ map ub_id (u_tx_freeq u)) /\ (ub_id x ∉ map ub_id (u_rx_freeq u)).
Proof.
  unfold bufs. rewrite !map_app. intros (_ & H1 & (_ & H2 & _)%NoDup_app)%NoDup_app Hx.
  assert (ub_id x ∈ map ub_id (u_used u)) as Hi by (apply list_elem_of_fmap; by exists x).
  split; intros H; [apply (H1 _ H), elem_of_app; by right|by apply (H2 _ H)].
Qed.

(** Where a used buffer goes when it is put back, and when it is changed. *)
Lemma enq_used b x l k rx u :
  NoDup (map ub_id (bufs u)) -> u_used u = l ++ x :: k -> ub_id x = ub_id b ->
  hgic_usb_enq b rx u
  = Ret (tt, if rx then set_u_queues (u_tx_freeq u) (u_rx_freeq u ++ [mark_used false b]) (l ++ k) u
             else set_u_queues (u_tx_freeq u ++ [mark_used false b]) (u_rx_freeq u) (l ++ k) u).
Proof.
  intros Hn Hu E. unfold hgic_usb_enq, modify. 
  assert (x ∈ u_used u) as Hx by (rewrite Hu; apply elem_of_app; right; by left).
  destruct (NoDup_not_free u x Hn Hx) as [H1 H2]. pose proof (NoDup_used u Hn) as H3. rewrite Hu in H3 |- *.
  rewrite (without_middle (mark_used false b) x l k E H3).
  rewrite (without_fresh (mark_used false b) (u_tx_freeq u)) by (by rewrite E in H1).
  by rewrite (without_fresh (mark_used false b) (u_rx_freeq u)) by (by rewrite E in H2).
Qed.

Lemma store_used b x l k u :
  NoDup (map ub_id (bufs u)) -> u_used u = l ++ x :: k -> ub_id x = ub_id b ->
  store b u = Ret (tt, set_u_queues (u_tx_freeq u) (u_rx_freeq u) (l ++ b :: k) u).
Proof.
  intros Hn Hu E. unfold store, modify. pose proof (NoDup_used u Hn) as H. rewrite Hu in H |- *. by rewrite (map_middle b x l k E H).
Qed.

(** The identities stay the same when a buffer moves. *)
Lemma ids_move t r l x k b : ub_id x = ub_id b ->
  NoDup (map ub_id (t ++ r ++ l ++ x :: k)) ->
  NoDup (map ub_id ((t ++ [b]) ++ r ++ l ++ k)) /\ NoDup (map ub_id (t ++ (r ++ [b]) ++ l ++ k)) /\
  NoDup (map ub_id (t ++ r ++ l ++ b :: k)).
Proof.
  intros E H.
  assert (forall m, map ub_id m ≡ₚ map ub_id (t ++ r ++ l ++ x :: k) -> NoDup (map ub_id m)) as K by (intros m Em; by rewrite Em).
  split; [|split]; apply K; rewrite !map_app; cbn [map]; rewrite ?E; solve_Permutation.
Qed.

(** ** What every step keeps *)
(** Of the frames [g] given to the transport, each has been completed or is with
    the USB core, once. *)
Definition accounted (g : list skb) (u : hgic_usb) : Prop :=
  usb_ok u /\ g ≡ₚ map fst (u_done u) ++ in_flight (u_used u).

Lemma find_flight_inv rx id u b :
  find_flight rx id u = Some b ->
  exists l k t, u_used u = l ++ b :: k /\ ub_id b = id /\ ub_rx b = rx /\ ub_flight b = Some t.
Proof.
  intros H. apply List.find_some in H as [Hin Hb]. apply List.in_split in Hin as (l & k & E).
  apply andb_true_iff in Hb as [[H1 H2]%andb_true_iff [t H3]%bool_decide_eq_true]. exists l, k, t.
  split; [done|]. split; [lia|]. by apply eqb_prop in H2.
Qed.

(** Only the lists, the status and the scripts matter to the invariant. *)
Lemma accounted_logs g s d r c u : map fst d = map fst (u_done u) -> accounted g u -> accounted g (set_u_logs s d r c u).
Proof. intros E [[] Hp]. split; [by split|]. cbn [set_u_logs u_done u_used]. by rewrite E. Qed.
Lemma accounted_scripts g s a w u : accounted g u -> accounted g (set_u_scripts s a w u).
Proof. intros [[] Hp]. split; [by split|done]. Qed.
Lemma accounted_err g stop err u : (stop = false -> u_stop u = false) -> accounted g u -> accounted g (set_u_status stop err u).
Proof. intros Hs [[] Hp]. split; [|done]. split; try done. cbn. auto. Qed.

(** A receive buffer goes back to its list, or to the core. *)
Lemma rx_enq_accounted g u b x l k :
  accounted g u -> u_used u = l ++ x :: k -> ub_id x = ub_id b -> ub_rx x = true -> rx_free_ok b ->
  exists u', hgic_usb_enq b true u = Ret (tt, u') /\ accounted g u' /\ u_stop u' = u_stop u /\ u_err u' = u_err u.
Proof.
  intros [[Hids Htx Hrx Hus Hs Ht] Hp] Eu Ei Hx Hb. rewrite (enq_used b x l k true u Hids Eu Ei). eexists. split; [reflexivity|].
  split; [|done]. unfold bufs in Hids. rewrite Eu in Hids, Hus, Hp.
  destruct (ids_move _ _ l x k (mark_used false b) Ei Hids) as (_ & Hids' & _).
  apply Forall_app in Hus as [Hl Hk]. apply Forall_cons in Hk as [Hxx Hk].
  split; [split|]; cbn [set_u_queues u_tx_freeq u_rx_freeq u_used u_tx_sema u_stop u_done]; try done.
  - apply Forall_app. split; [done|]. by repeat constructor; destruct Hb as (? & ? & ?).
  - by apply Forall_app.
  - rewrite Hp, !in_flight_app. unfold used_ok in Hxx. rewrite Hx in Hxx. unfold in_flight at 4. simpl. by rewrite Hxx.
Qed.

Lemma submit_rx_accounted g u b x l k :
  accounted g u -> u_used u = l ++ x :: k -> ub_id x = ub_id b -> ub_rx x = true -> rx_free_ok b ->
  exists r u', hgic_usb_submit_rx_urb b u = Ret (r, u') /\ accounted g u' /\ u_stop u' = u_stop u /\
    (r = 0 -> u_rx_freeq u' = u_rx_freeq u).
Proof.
  intros Ha Eu Ei Hx Hb. unfold hgic_usb_submit_rx_urb, bind at 1, gets.
  destruct (u_stop u || u_err u) eqn:Es.
  { destruct (rx_enq_accounted g u b x l k Ha Eu Ei Hx Hb) as (u' & E & Ha' & Hs & _). exists (-1), u'. unfold bind. rewrite E. done. }
  unfold bind at 1, next_submit. set (u1 := set_u_scripts _ _ _ _). assert (accounted g u1) as H1 by by apply accounted_scripts.
  destruct (negb (hd 0 (u_submit u) =? 0)).
  - destruct (rx_enq_accounted g u1 b x l k H1 Eu Ei Hx Hb) as (u' & E & Ha' & Hs & _).
    eexists (-1), _. unfold bind at 1. rewrite E. split; [reflexivity|]. split; [|by split]. apply accounted_logs; [done|]. by apply accounted_err.
  - destruct H1 as [[Hids Htx Hrx Hus Hs Ht] Hp].
    eexists 0, _. unfold bind at 1. rewrite (store_used (set_flight (Some []) b) x l k u1 Hids Eu Ei). split; [reflexivity|]. split; [|by split].
    unfold bufs in Hids. change (u_used u1) with (u_used u) in *. rewrite Eu in Hids, Hus, Hp.
    destruct (ids_move _ _ l x k (set_flight (Some []) b) Ei Hids) as (_ & _ & Hids').
    apply Forall_app in Hus as [Hl Hk]. apply Forall_cons in Hk as [Hxx Hk]. destruct Hb as (Hb1 & Hb2 & Hb3).
    split; [split|]; cbn [set_u_queues u_tx_freeq u_rx_freeq u_used u_tx_sema u_stop u_done]; try done.
    + apply Forall_app. split; [done|]. constructor; [|done]. unfold used_ok. cbn [set_flight ub_rx ub_skb]. by rewrite Hb1.
    + rewrite Hp, !in_flight_app. unfold used_ok in Hxx. rewrite Hx in Hxx. unfold in_flight at 2 4. simpl. by rewrite Hxx, Hb3.
Qed.

Lemma tx_done_accounted g id ok u :
  accounted g u -> exists u', usb_event_step (TxDone id ok) u = Ret (tt, u') /\ accounted g u'.
Proof.
  intros Ha. cbn [usb_event_step].
  unfold bind at 1, gets. destruct (find_flight false id u) as [b|] eqn:Ef; [|by exists u].
  apply find_flight_inv in Ef as (l & k & t & Eu & _ & Hrx & Hf). destruct Ha as [[Hids Htx Hr Hus Hs Ht] Hp].
  assert (used_ok b) as Hb by (rewrite Eu in Hus; by apply Forall_app in Hus as [_ [? _]%Forall_cons]).
  unfold used_ok in Hb. rewrite Hrx in Hb. destruct (proj1 Hb (ex_intro _ _ Hf)) as [s Hsk].
  unfold bind at 1. rewrite (store_used (set_flight None b) b l k u Hids Eu eq_refl). set (u1 := set_u_queues _ _ _ _).
  unfold hgic_usb_tx_complete, bind at 1, lift. cbn [set_flight ub_skb]. rewrite Hsk. cbn [deref].
  unfold bind at 1, log_done, modify. set (u2 := set_u_logs _ _ _ _ _).
  assert (NoDup (map ub_id (bufs u2))) as Hids2.
  { unfold bufs in *. cbn. rewrite Eu in Hids. by destruct (ids_move _ _ l b k (set_flight None b) eq_refl Hids) as (_ & _ & ?). }
  unfold bind at 1. rewrite (enq_used (set_data None None (set_flight None b)) (set_flight None b) l k false u2 Hids2 eq_refl eq_refl).
  eexists. split; [reflexivity|]. unfold bufs in Hids. rewrite Eu in Hids, Hus, Hp.
  destruct (ids_move _ _ l b k (mark_used false (set_data None None (set_flight None b))) eq_refl Hids) as (Hids' & _ & _).
  apply Forall_app in Hus as [Hl Hk]. apply Forall_cons in Hk as [_ Hk].
  split; [split|]; cbn [set_u_tx_sema set_u_queues u_tx_freeq u_rx_freeq u_used u_tx_sema u_stop u_done u2 u1 set_u_logs]; try done.
  + apply Forall_app. split; [done|]. by repeat constructor.
  + by apply Forall_app.
  + lia.
  + intros Hst. rewrite zlen_app. change (zlen [_]) with 1. specialize (Ht Hst). lia.
  + rewrite Hp, map_app, !in_flight_app. unfold in_flight at 2. simpl. rewrite Hsk. cbn [app]. fold (in_flight k). solve_Permutation.
Qed.

Lemma rx_done_accounted g id bs u :
  accounted g u -> exists u', usb_event_step (RxDone id bs) u = Ret (tt, u') /\ accounted g u'.
Proof.
  intros Ha. cbn [usb_event_step].
  unfold bind at 1, gets. destruct (find_flight true id u) as [b|] eqn:Ef; [|by exists u].
  apply find_flight_inv in Ef as (l & k & t & Eu & _ & Hrx & Hf). pose proof Ha as [[Hids Htx Hr Hus Hs Ht] Hp].
  assert (used_ok b) as Hb by (rewrite Eu in Hus; by apply Forall_app in Hus as [_ [? _]%Forall_cons]).
  unfold used_ok in Hb. rewrite Hrx in Hb.
  unfold bind at 1. rewrite (store_used (set_flight None b) b l k u Hids Eu eq_refl). set (u1 := set_u_queues _ _ _ _).
  assert (accounted g u1) as Ha1.
  { unfold bufs in Hids. rewrite Eu in Hids, Hus, Hp. destruct (ids_move _ _ l b k (set_flight None b) eq_refl Hids) as (_ & _ & Hids').
    apply Forall_app in Hus as [Hl Hk]. apply Forall_cons in Hk as [_ Hk].
    split; [split|]; cbn [u1 set_u_queues u_tx_freeq u_rx_freeq u_used u_tx_sema u_stop u_done]; try done.
    - apply Forall_app. split; [done|]. constructor; [|done]. unfold used_ok. cbn [set_flight ub_rx ub_skb]. by rewrite Hrx.
    - rewrite Hp, !in_flight_app. unfold in_flight at 2 4. simpl. by rewrite Hb. }
  assert (rx_free_ok (set_flight None b)) as Hfree by done.
  unfold hgic_usb_receive, bind at 1, gets. destruct (u_stop u1) eqn:Est.
  { by destruct (rx_enq_accounted g u1 (set_flight None b) (set_flight None b) l k Ha1 eq_refl eq_refl Hrx Hfree) as (u' & E & Ha' & _); exists u'. }
  set (u2 := if 0 <? zlen bs then set_u_logs (u_sent u1) (u_done u1) (u_received u1 ++ [bs]) (u_calls u1) u1 else u1).
  assert (accounted g u2 /\ u_used u2 = l ++ set_flight None b :: k) as [Ha2 Eu2] by (unfold u2; destruct (0 <? zlen bs); [by split; [apply accounted_logs|]|done]).
  destruct (submit_rx_accounted g u2 (set_flight None b) (set_flight None b) l k Ha2 Eu2 eq_refl Hrx Hfree) as (r & u' & E & Ha' & _).
  exists u'. split; [|done]. unfold bind at 1. assert ((if 0 <? zlen bs then modify (fun u => set_u_logs (u_sent u) (u_done u) (u_received u ++ [bs]) (u_calls u) u) else ret tt) u1 = Ret (tt, u2)) as ->
    by (unfold u2; by destruct (0 <? zlen bs)).
  unfold bind. by rewrite E.
Qed.

Lemma event_accounted g e u :
  accounted g u -> exists u', usb_event_step e u = Ret (tt, u') /\ accounted g u'.
Proof.
  intros Ha. destruct e as [id ok|id bs|]; [by apply tx_done_accounted|by apply rx_done_accounted|].
  eexists. split; [reflexivity|]. destruct Ha as [[Hids Htx Hrx Hus Hs Ht] Hp]. split; [split|]; try done. cbn. lia.
Qed.

Lemma events_accounted g l u :
  accounted g u -> exists u', usb_events l u = Ret (tt, u') /\ accounted g u'.
Proof.
  revert u. induction l as [|e l IH]; intros u Ha; [by exists u|]. cbn [usb_events].
  destruct (event_accounted g e u Ha) as (u1 & E & Ha1). destruct (IH u1 Ha1) as (u' & E' & Ha'). exists u'. unfold bind. by rewrite E.
Qed.

Lemma down_accounted g u :
  accounted g u -> exists r u', down_timeout u = Ret (r, u') /\
    (if r =? 0 then accounted g (set_u_tx_sema (u_tx_sema u' + 1) u') /\ 0 <= u_tx_sema u' else accounted g u').
Proof.
  intros Ha. unfold down_timeout, bind at 1, gets, bind at 1, modify.
  destruct (events_accounted g (hd [] (u_wait u)) _ (accounted_scripts g (u_submit u) (u_alloc u) (tail (u_wait u)) u Ha)) as (u1 & E & Ha1).
  unfold bind at 1. rewrite E. unfold bind at 1. destruct (Z.ltb_spec 0 (u_tx_sema u1)).
  - eexists 0, _. split; [reflexivity|]. change (0 =? 0) with true. cbv iota. cbn [set_u_tx_sema u_tx_sema].
    replace (u_tx_sema u1 - 1 + 1) with (u_tx_sema u1) by lia. split; [by destruct u1|lia].
  - by exists (- ETIME), u1.
Qed.

(** A token less leaves the rest as it was. *)
Lemma accounted_token g n u :
  accounted g (set_u_tx_sema n u) -> 0 <= u_tx_sema u <= n -> accounted g u.
Proof. intros [[Hids Htx Hrx Hus Hs Ht] Hp] Hn. split; [split|]; try done; [lia|]. cbn in Ht. intros Hst. specialize (Ht Hst). lia. Qed.

(** One more frame that is handed back. *)
Lemma log_done_accounted g s ok u :
  accounted g u -> exists u', log_done s ok u = Ret (tt, u') /\ accounted (s :: g) u'.
Proof.
  intros [[] Hp]. eexists. split; [reflexivity|]. split; [by split|]. cbn [set_u_logs u_done u_used]. rewrite map_app, Hp. cbn [map fst]. solve_Permutation.
Qed.

Lemma tx_fail_none g s r u :
  accounted g u -> exists u', tx_fail None s r u = Ret (r, u') /\ accounted (s :: g) u'.
Proof.
  intros Ha. destruct (log_done_accounted g s false u Ha) as (u' & E & Ha'). exists u'. unfold tx_fail, bind, ret. by rewrite E.
Qed.

Lemma align4_bounds n : 0 <= n -> n <= align4 n < n + 4 /\ align4 n mod 4 = 0.
Proof.
  intros Hn. assert (align4 n = (n + 3) / 4 * 4) as ->.
  { unfold align4. change (Z.land (n + 3) (Z.lnot (Z.ones 2)) = (n + 3) / 4 * 4). rewrite <- Z.ldiff_land, Z.ldiff_ones_r by lia.
    by rewrite Z.shiftl_mul_pow2, Z.shiftr_div_pow2 by lia. }
  pose proof (Z.div_mod (n + 3) 4). pose proof (Z.mod_pos_bound (n + 3) 4). split; [lia|]. by rewrite Z.mod_mul.
Qed.

Lemma tx_len_bounds zp size s : skb_len s <= tx_len zp size s < skb_len s + 8.
Proof.
  pose proof (align4_bounds (skb_len s) ltac:(apply zlen_nonneg)). unfold tx_len. cbv zeta. destruct (zp && _); lia.
Qed.

(** Taking a free buffer pays for the token. *)
Lemma deq_accounted g u b q :
  accounted g (set_u_tx_sema (u_tx_sema u + 1) u) -> 0 <= u_tx_sema u -> u_tx_freeq u = b :: q ->
  let b' := mark_used true b in
  exists u', hgic_usb_deq false u = Ret (Some b', u') /\ accounted g u' /\ u_used u' = u_used u ++ [b'] /\
    ub_rx b = false /\ ub_flight b = None /\ ub_skb b = None /\ u_tx_freeq u' = q /\ u_tx_sema u' = u_tx_sema u.
Proof.
  intros [[Hids Htx Hrx Hus Hs Ht] Hp] Hn Eq b'. unfold hgic_usb_deq. rewrite Eq. eexists. split; [reflexivity|].
  cbn [set_u_tx_sema u_tx_freeq u_rx_freeq u_used u_tx_sema u_stop u_done] in *. unfold bufs in Hids.
  cbn [set_u_tx_sema u_tx_freeq u_rx_freeq u_used] in Hids. rewrite Eq in Hids, Htx, Ht. apply Forall_cons in Htx as [(Hb1 & Hb2 & Hb3) Htx].
  split; [|done]. split; [split|]; cbn [set_u_queues u_tx_freeq u_rx_freeq u_used u_tx_sema u_stop u_done]; try done.
  - assert (map ub_id (q ++ u_rx_freeq u ++ u_used u ++ [b']) ≡ₚ map ub_id ((b :: q) ++ u_rx_freeq u ++ u_used u)) as E
      by (rewrite !map_app; cbn [map]; change (ub_id b') with (ub_id b); solve_Permutation).
    change (NoDup (map ub_id (q ++ u_rx_freeq u ++ u_used u ++ [b']))). by rewrite E.
  - apply Forall_app. split; [done|]. constructor; [|done]. unfold used_ok, b'. cbn [mark_used ub_rx ub_flight ub_skb]. by rewrite Hb1, Hb2, Hb3.
  - intros Hst. specialize (Ht Hst). rewrite zlen_cons in Ht. lia.
  - rewrite Hp, in_flight_app. unfold in_flight at 3. simpl. rewrite Hb3. by rewrite app_nil_r.
Qed.

Lemma tx_submit_accounted g s b l txbuff bs u :
  accounted g u -> u_used u = l ++ [b] -> ub_rx b = false -> ub_flight b = None -> ub_skb b = None ->
  exists r u', tx_submit s b txbuff bs u = Ret (r, u') /\ accounted (s :: g) u' /\ r = hd 0 (u_submit u) /\
    u_submit u' = tail (u_submit u) /\
    (if r =? 0 then
       u_sent u' = u_sent u ++ [bs] /\ u_used u' = l ++ [set_flight (Some bs) (set_data (Some s) txbuff b)] /\ u_done u' = u_done u /\
       u_tx_freeq u' = u_tx_freeq u /\ u_tx_sema u' = u_tx_sema u
     else u_sent u' = u_sent u /\ u_used u' = l /\ u_done u' = u_done u ++ [(s, false)] /\
       u_tx_freeq u' = u_tx_freeq u ++ [mark_used false (set_data None None b)] /\ u_tx_sema u' = u_tx_sema u).
Proof.
  intros [[Hids Htx Hr Hus Hs Ht] Hp] Eu Hrx Hf Hsk. unfold tx_submit, bind at 1.
  rewrite (store_used (set_data (Some s) txbuff b) b l [] u Hids Eu eq_refl). unfold bind at 1, next_submit.
  cbn [set_u_queues u_submit u_alloc u_wait]. set (r := hd 0 (u_submit u)). set (u1 := set_u_scripts _ _ _ _).
  pose proof Hids as Hids0. unfold bufs in Hids. rewrite Eu in Hids, Hus, Hp.
  assert (NoDup (map ub_id (bufs u1))) as Hids1 by (unfold bufs, u1; cbn; by destruct (ids_move _ _ l b [] (set_data (Some s) txbuff b) eq_refl Hids) as (_ & _ & ?)).
  apply Forall_app in Hus as [Hl Hk].
  destruct (Z.eqb_spec r 0) as [Er|Er]; cbn [negb].
  - eexists 0, _. unfold bind at 1.
    rewrite (store_used (set_flight (Some bs) (set_data (Some s) txbuff b)) (set_data (Some s) txbuff b) l [] u1 Hids1 eq_refl eq_refl).
    split; [rewrite Er; reflexivity|]. split; [|by change (0 =? 0) with true].
    split; [split|]; cbn [set_u_logs set_u_queues u1 set_u_scripts u_tx_freeq u_rx_freeq u_used u_tx_sema u_stop u_done]; try done.
    + unfold bufs. cbn. by destruct (ids_move _ _ l b [] (set_flight (Some bs) (set_data (Some s) txbuff b)) eq_refl Hids) as (_ & _ & ?).
    + apply Forall_app. split; [done|]. constructor; [|done]. unfold used_ok. cbn [set_flight set_data ub_rx ub_flight ub_skb]. by rewrite Hrx.
    + rewrite Hp, !in_flight_app. unfold in_flight at 2 4. simpl. rewrite Hsk. rewrite app_nil_r. solve_Permutation.
  - eexists r, _. unfold tx_fail, bind at 1 2.
    rewrite (enq_used (set_data None None b) (set_data (Some s) txbuff b) l [] false u1 Hids1 eq_refl eq_refl).
    unfold bind, log_done, modify, ret. split; [reflexivity|]. rewrite (proj2 (Z.eqb_neq r 0) Er).
    split; [|split; [done|split; [done|split; [done|split; [apply app_nil_r|done]]]]].
    split; [split|]; cbn [set_u_logs set_u_queues u1 set_u_scripts u_tx_freeq u_rx_freeq u_used u_tx_sema u_stop u_done]; try done.
    + unfold bufs. cbn. by destruct (ids_move _ _ l b [] (mark_used false (set_data None None b)) eq_refl Hids) as (? & _ & _).
    + apply Forall_app. split; [done|]. by repeat constructor.
    + apply Forall_app. by split.
    + intros Hst. rewrite zlen_app. change (zlen [_]) with 1. specialize (Ht Hst). lia.
    + rewrite Hp, map_app, !in_flight_app. unfold in_flight at 2. simpl. rewrite Hsk. rewrite !app_nil_r. solve_Permutation.
Qed.

(** The bytes behind the frame that the controller reads are the frame's. *)
Definition padded (zp : bool) (size addr : Z) (s : skb) : Prop :=
  addr mod USB_DMA_ALIGN = 0 -> tx_len zp size s <= skb_len s + skb_tailroom s.

Lemma send_bytes zp size s (p : list Z) :
  zlen p = tx_len zp size s + USB_DMA_ALIGN ->
  exists p' pad, mem_write p 0 (skb_data s) = Ret p' /\ mem_read p' 0 (tx_len zp size s) = Ret (skb_data s ++ pad) /\
    zlen (skb_data s ++ pad) = tx_len zp size s.
Proof.
  intros Hp. pose proof (tx_len_bounds zp size s) as Hl. unfold skb_len, USB_DMA_ALIGN in *. apply copy_padded; lia.
Qed.


Lemma usb_alloc_accounted n g u :
  0 <= n -> accounted g u ->
  exists p u', usb_alloc n u = Ret (p, u') /\ accounted g u' /\ u_used u' = u_used u /\ (if p is Some p then zlen p = n else True).
Proof.
  intros Hn Ha. unfold usb_alloc. destruct (u_alloc u) as [|[junk|] a]; eexists _, _; (split; [reflexivity|]).
  - split; [by apply accounted_scripts|]. split; [done|]. by apply zlen_replicate.
  - split; [by apply accounted_scripts|]. split; [done|]. by apply zlen_resize.
  - by split; [apply accounted_scripts|].
Qed.

Lemma tx_accounted zp addr g s u :
  padded zp (u_ep_out_size u) addr s -> accounted g u ->
  exists r u', hgic_usb_tx_packet zp addr s u = Ret (r, u') /\ accounted (s :: g) u'.
Proof.
  intros Hpad Ha. unfold hgic_usb_tx_packet, bind at 1, gets, bind at 1.
  destruct (u_stop u || u_err u); [destruct (tx_fail_none g s (- EIO) u Ha) as (u' & ?); by eexists _, u'|].
  unfold bind at 1. destruct (down_accounted g u Ha) as (r & u1 & E & H1). rewrite E.
  destruct (Z.eqb_spec r 0) as [->|Hr]; cbn [negb]; [|destruct (tx_fail_none g s (- EIO) u1 H1) as (u' & ?); by eexists _, u'].
  destruct H1 as [H1 Hn]. pose proof (accounted_token _ _ _ H1 ltac:(lia)) as H1'. unfold bind at 1.
  destruct (u_stop u1 || u_err u1); [destruct (tx_fail_none g s (- EIO) u1 H1') as (u' & ?); by eexists _, u'|].
  unfold bind at 1. destruct (u_tx_freeq u1) as [|b q] eqn:Eq.
  { unfold hgic_usb_deq at 1. rewrite Eq. destruct (tx_fail_none g s (- ENOMEM) u1 H1') as (u' & ?). by eexists _, u'. }
  destruct (deq_accounted g u1 b q H1 Hn Eq) as (u2 & E2 & H2 & Eu & Hrx & Hf & Hsk & _). rewrite E2. unfold bind at 1.
  destruct (Z.eqb_spec (addr mod USB_DMA_ALIGN) 0) as [Hal|_].
  - specialize (Hpad Hal). pose proof (tx_len_bounds zp (u_ep_out_size u) s). unfold ret at 1, bind at 1, lift, skb_read.
    destruct (read_padded (skb_data s) (skb_tail s) (tx_len zp (u_ep_out_size u) s)) as (pad & -> & _).
    { unfold skb_len, skb_tailroom in *. rewrite zlen_app. lia. }
    destruct (tx_submit_accounted g s (mark_used true b) (u_used u1) None (skb_data s ++ pad) u2 H2 Eu Hrx Hf Hsk) as (r & u' & E3 & H3 & _).
    by exists r, u'.
  - assert (0 <= tx_len zp (u_ep_out_size u) s + USB_DMA_ALIGN) as Hlen.
    { pose proof (tx_len_bounds zp (u_ep_out_size u) s). pose proof (zlen_nonneg (skb_data s)). unfold skb_len, USB_DMA_ALIGN in *. lia. }
    unfold bind at 1. unfold bind at 1. destruct (usb_alloc_accounted _ g u2 Hlen H2) as (p & u3 & -> & H3 & Eu3 & Hp).
    destruct p as [p|]; [|unfold ret at 1, bind; destruct (log_done_accounted g s false u3 H3) as (u' & -> & ?); by eexists _, u'].
    destruct (send_bytes zp (u_ep_out_size u) s p Hp) as (p' & pad & E3 & E4 & _).
    unfold bind at 1, lift. rewrite E3. unfold ret at 1. rewrite E4. rewrite <- Eu3 in Eu.
    destruct (tx_submit_accounted g s (mark_used true b) (u_used u1) (Some p') (skb_data s ++ pad) u3 H3) as (r & u' & E5 & H5 & _); try done.
    by exists r, u'.
Qed.

(** Setting up: the receive buffers are handed to the core one by one. *)
Lemma deq_rx_accounted g u b q :
  accounted g u -> u_rx_freeq u = b :: q ->
  let b' := mark_used true b in
  exists u', hgic_usb_deq true u = Ret (Some b', u') /\ accounted g u' /\ u_used u' = u_used u ++ [b'] /\
    rx_free_ok b' /\ u_rx_freeq u' = q /\ u_stop u' = u_stop u.
Proof.
  intros [[Hids Htx Hrx Hus Hs Ht] Hp] Eq b'. unfold hgic_usb_deq. rewrite Eq. eexists. split; [reflexivity|].
  unfold bufs in Hids. rewrite Eq in Hids, Hrx. apply Forall_cons in Hrx as [(Hb1 & Hb2 & Hb3) Hrx].
  split; [|done]. split; [split|]; cbn [set_u_queues u_tx_freeq u_rx_freeq u_used u_tx_sema u_stop u_done]; try done.
  - assert (map ub_id (u_tx_freeq u ++ q ++ u_used u ++ [b']) ≡ₚ map ub_id (u_tx_freeq u ++ (b :: q) ++ u_used u)) as E
      by (rewrite !map_app; cbn [map]; change (ub_id b') with (ub_id b); solve_Permutation).
    change (NoDup (map ub_id (u_tx_freeq u ++ q ++ u_used u ++ [b']))). by rewrite E.
  - apply Forall_app. split; [done|]. constructor; [|done]. unfold used_ok, b'. cbn [mark_used ub_rx ub_flight ub_skb]. by rewrite Hb1.
  - rewrite Hp, in_flight_app. unfold in_flight at 3. simpl. rewrite Hb3. by rewrite app_nil_r.
Qed.

Lemma submit_loop_accounted g fuel r u :
  (length (u_rx_freeq u) < fuel)%nat -> accounted g u ->
  exists r' u', submit_rx_loop fuel r u = Ret (r', u') /\ accounted g u'.
Proof.
  revert r u. induction fuel as [|fuel IH]; intros r u Hf Ha; [lia|]. cbn [submit_rx_loop]. unfold bind at 1.
  destruct (u_rx_freeq u) as [|b q] eqn:Eq; [unfold hgic_usb_deq; rewrite Eq; by exists r, u|].
  destruct (deq_rx_accounted g u b q Ha Eq) as (u1 & -> & H1 & Eu & Hb & Eq1 & _). unfold bind at 1.
  destruct (submit_rx_accounted g u1 (mark_used true b) _ (u_used u) [] H1 Eu eq_refl (proj1 Hb) Hb) as (r1 & u2 & -> & H2 & _ & Hr).
  destruct (Z.eqb_spec r1 0) as [->|_]; cbn [negb]; [|by exists r1, u2].
  apply IH; [|done]. rewrite Hr, Eq1 by done. cbn [length] in Hf. lia.
Qed.

(** The buffers that a set-up makes. *)
Definition fresh_buf (id0 : Z) (rx : bool) (i : Z) : usb_buf := UsbBuf (id0 + i) rx false None None None.
Definition add_fresh (rx : bool) (l : list usb_buf) (u : hgic_usb) : hgic_usb :=
  if rx then set_u_queues (u_tx_freeq u) (u_rx_freeq u ++ l) (u_used u) u
  else set_u_queues (u_tx_freeq u ++ l) (u_rx_freeq u) (u_used u) u.

Lemma usb_alloc_scripts n u : exists p a, usb_alloc n u = Ret (p, set_u_scripts (u_submit u) a (u_wait u) u).
Proof. unfold usb_alloc. destruct (u_alloc u) as [|[junk|] a]; by eexists _, _. Qed.

Lemma usb_alloc_again n s a w u : exists p a', usb_alloc n (set_u_scripts s a w u) = Ret (p, set_u_scripts s a' w u).
Proof. unfold usb_alloc. cbn [set_u_scripts u_alloc]. destruct a as [|[junk|] a]; by eexists _, _. Qed.

Lemma qinit_stops k rx i u a id0 : 0 <= k ->
  exists n a', 0 <= n <= k /\
    Ret (i, set_u_scripts (u_submit u) a (u_wait u) u)
    = Ret (i + n, set_u_scripts (u_submit u) a' (u_wait u) (add_fresh rx (map (fresh_buf id0 rx) (seqZ i n)) u)).
Proof.
  intros Hk. exists 0, a. split; [lia|]. rewrite Z.add_0_r. unfold add_fresh. change (seqZ i 0) with (@nil Z). cbn [map]. rewrite !app_nil_r.
  by destruct u, rx.
Qed.

Lemma qinit_adds qsize m id0 rx i u :
  exists n a, 0 <= n <= Z.of_nat qsize /\
    hgic_usb_qinit qsize m id0 rx i u
    = Ret (i + n, set_u_scripts (u_submit u) a (u_wait u) (add_fresh rx (map (fresh_buf id0 rx) (seqZ i n)) u)).
Proof.
  revert i u. induction qsize as [|k IH]; intros i u.
  { destruct (qinit_stops (Z.of_nat 0) rx i u (u_alloc u) id0 ltac:(lia)) as (n & a & Hn & E). exists n, a. split; [done|]. rewrite <- E. by destruct u. }
  cbn [hgic_usb_qinit]. unfold bind at 1. destruct (usb_alloc_scripts 0 u) as ([p|] & a & ->); [|apply qinit_stops; lia].
  unfold bind at 1. destruct (usb_alloc_again 0 (u_submit u) a (u_wait u) u) as ([p1|] & a1 & ->); [|apply (qinit_stops _ rx i u a1); lia].
  assert (exists q a2, (if rx then usb_alloc m else ret (Some [])) (set_u_scripts (u_submit u) a1 (u_wait u) u)
    = Ret (q, set_u_scripts (u_submit u) a2 (u_wait u) u)) as (q & a2 & E2).
  { destruct rx; [|by eexists _, _]. destruct (usb_alloc_again m (u_submit u) a1 (u_wait u) u) as (q & a2 & ->). by exists q, a2. }
  unfold bind at 1. rewrite E2. destruct q as [q|]; [|apply (qinit_stops _ rx i u a2); lia].
  unfold bind at 1, modify.
  destruct (IH (i + 1) (add_fresh rx [fresh_buf id0 rx i] (set_u_scripts (u_submit u) a2 (u_wait u) u))) as (n & a3 & Hn & E3).
  exists (n + 1), a3. split; [lia|].
  assert (seqZ i (n + 1) = i :: seqZ (i + 1) n) as -> by (rewrite (seqZ_cons i (n + 1)) by lia; do 2 f_equal; lia).
  etransitivity; [exact E3|]. unfold add_fresh. cbn [map]. destruct rx; cbn; rewrite <- app_assoc; do 2 f_equal; lia.
Qed.

Lemma fresh_buf_ids id0 rx n : map ub_id (map (fresh_buf id0 rx) (seqZ 0 n)) = map (Z.add id0) (seqZ 0 n).
Proof. rewrite map_map. by apply map_ext. Qed.

Lemma fresh_accounted n k a u :
  0 <= n <= 16 -> u_done u = [] ->
  accounted [] (set_u_scripts (u_submit u) a (u_wait u)
    (set_u_tx_sema n (set_u_queues (map (fresh_buf 0 false) (seqZ 0 n)) (map (fresh_buf 1000 true) (seqZ 0 k)) [] u))).
Proof.
  intros Hn Hd. split; [|cbn; by rewrite Hd].
  split; cbn [set_u_scripts set_u_tx_sema set_u_queues u_tx_freeq u_rx_freeq u_used u_tx_sema]; [| | |done|lia|].
  - unfold bufs. cbn [set_u_scripts set_u_tx_sema set_u_queues u_tx_freeq u_rx_freeq u_used]. rewrite app_nil_r, map_app, !fresh_buf_ids.
    apply NoDup_app. split; [apply NoDup_fmap_2; [intros ???; lia|apply NoDup_seqZ]|]. split; [|apply NoDup_fmap_2; [intros ???; lia|apply NoDup_seqZ]].
    intros x (i & -> & Hi)%list_elem_of_fmap (j & E & Hj)%list_elem_of_fmap. apply elem_of_seqZ in Hi, Hj. lia.
  - apply Forall_map, Forall_true. done.
  - apply Forall_map, Forall_true. done.
  - intros _. unfold zlen. rewrite length_map, length_seqZ. lia.
Qed.

Lemma probe_failed_inv h u r u' : probe_failed h u = Ret (r, u') -> r = -1.
Proof.
  unfold probe_failed, bind, log_call, modify, ret, hgic_usb_free, gets. destruct h; cbn; destruct (existsb _ _); cbn; congruence.
Qed.

(** A device whose set-up succeeded. *)
Lemma probe_accounted m eps p h po u u' :
  u_done u = [] -> hgic_usb_probe m eps p h po u = Ret (0, u') -> accounted [] u'.
Proof.
  intros Hd. unfold hgic_usb_probe, bind at 1. destruct (usb_alloc_scripts 0 u) as ([q|] & a & ->); [|by intros [=]].
  unfold bind at 1 2, modify at 1 2. set (u1 := set_u_queues [] [] [] _).
  assert (u_done u1 = []) as Hd1.
  { unfold u1. cbn [set_u_queues u_done]. assert (forall v, u_done (fold_left use_endpoint eps v) = u_done v) as ->; [|done].
    induction eps as [|e l IH]; intros v; [done|]. cbn [fold_left]. rewrite IH. unfold use_endpoint. by destruct (ep_bulk_in e), (ep_bulk_out e). }
  unfold bind at 1. destruct (qinit_adds HGIC_TX_URB_CNT m 0 false 0 u1) as (n & a1 & Hn & ->). rewrite Z.add_0_l.
  unfold bind at 1, modify at 1. unfold bind at 1. set (u2 := set_u_tx_sema n _).
  destruct (qinit_adds HGIC_RX_URB_CNT m 1000 true 0 u2) as (k & a2 & Hk & ->).
  unfold bind at 1, log_call at 1, modify at 1.
  destruct p; cbn [negb]; [|intros H%probe_failed_inv; lia].
  unfold bind at 1, log_call at 1, modify at 1. set (u3 := set_u_logs _ _ _ _ (set_u_logs _ _ _ _ _)).
  assert (accounted [] u3) as H3.
  { apply accounted_logs; [done|]. apply accounted_logs; [done|]. exact (fresh_accounted n k a2 u1 Hn Hd1). }
  unfold bind at 1. unfold hgic_usb_submit_rx_urbs, bind at 1, gets.
  destruct (submit_loop_accounted [] (S (length (u_rx_freeq u3))) 0 u3 ltac:(lia) H3) as (r & u4 & -> & H4).
  destruct (Z.eqb_spec r 0) as [->|Hr]; cbn [negb]; [|intros H%probe_failed_inv; lia].
  destruct po; unfold bind, log_call, modify, ret; intros [= <-]; [by apply accounted_logs|done].
Qed.

(** ** Histories of a device *)
(** [usb_run zp u0 g u]: since the set-up that ended in [u0] the frames [g] were
    given to the transport, last first, other things happened, and [u] is the
    state now.  Between the steps the environment changes its mind. *)
Inductive usb_run (zp : bool) (u0 : hgic_usb) : list skb -> hgic_usb -> Prop :=
  | UrStart : usb_run zp u0 [] u0
  | UrSend g u addr s r u' :
      usb_run zp u0 g u -> padded zp (u_ep_out_size u) addr s ->
      hgic_usb_tx_packet zp addr s u = Ret (r, u') -> usb_run zp u0 (s :: g) u'
  | UrEvent g u e u' : usb_run zp u0 g u -> usb_event_step e u = Ret (tt, u') -> usb_run zp u0 g u'
  | UrEnv g u s a w : usb_run zp u0 g u -> usb_run zp u0 g (set_u_scripts s a w u).

Lemma run_accounted zp u0 g u : accounted [] u0 -> usb_run zp u0 g u -> accounted g u.
Proof.
  intros H0 H. induction H as [|g u addr s r u' _ IH Hp E|g u e u' _ IH E|g u s a w _ IH]; [done| | |by apply accounted_scripts].
  - destruct (tx_accounted zp addr g s u Hp IH) as (r1 & u1 & E1 & H1). congruence.
  - destruct (event_accounted g e u IH) as (u1 & E1 & H1). congruence.
Qed.

(** The length of a transfer. *)
Lemma tx_len_spec zp size s :
  skb_len s <= tx_len zp size s < skb_len s + 8 /\ tx_len zp size s mod 4 = 0 /\
  (forall k, zp = true -> 3 <= k -> size = 2 ^ k -> tx_len zp size s mod size <> 0).
Proof.
  split; [apply tx_len_bounds|]. pose proof (align4_bounds (skb_len s) ltac:(apply zlen_nonneg)) as [_ Hm].
  unfold tx_len. cbv zeta. set (n := align4 (skb_len s)) in *. split.
  - destruct (zp && _); [|done]. by rewrite Z.add_mod, Hm.
  - intros k -> Hk ->. cbn [andb]. replace (2 ^ k - 1) with (Z.ones k) by (rewrite Z.ones_equiv; lia). rewrite Z.land_ones by lia.
    destruct (Z.eqb_spec (n mod 2 ^ k) 0) as [E|]; [|done].
    assert (2 ^ 3 <= 2 ^ k) by (apply Z.pow_le_mono_r; lia). rewrite Z.add_mod, E, Z.add_0_l, Z.mod_mod by lia. rewrite Z.mod_small by lia. lia.
Qed.

(** A packet given while a buffer and a token are free. *)
Lemma tx_ready zp addr g s u b q :
  padded zp (u_ep_out_size u) addr s -> accounted g u -> u_stop u || u_err u = false -> hd [] (u_wait u) = [] ->
  0 < u_tx_sema u -> u_tx_freeq u = b :: q -> (addr mod USB_DMA_ALIGN <> 0 -> hd (Some []) (u_alloc u) <> None) ->
  exists txbuff pad u', hgic_usb_tx_packet zp addr s u = tx_submit s (mark_used true b) txbuff (skb_data s ++ pad) u' /\
    zlen (skb_data s ++ pad) = tx_len zp (u_ep_out_size u) s /\
    accounted g u' /\ u_used u' = u_used u ++ [mark_used true b] /\ ub_rx b = false /\ ub_flight b = None /\ ub_skb b = None /\
    u_tx_freeq u' = q /\ u_tx_sema u' = u_tx_sema u - 1 /\ u_submit u' = u_submit u /\ u_sent u' = u_sent u /\ u_done u' = u_done u.
Proof.
  intros Hpad Ha Hst Hw Hn Eq Hal. unfold hgic_usb_tx_packet, bind at 1, gets, bind at 1. rewrite Hst.
  set (u1 := set_u_tx_sema (u_tx_sema u - 1) (set_u_scripts (u_submit u) (u_alloc u) (tail (u_wait u)) u)).
  assert (down_timeout u = Ret (0, u1)) as E1.
  { unfold down_timeout, bind, gets, modify. rewrite Hw. cbn. by rewrite (proj2 (Z.ltb_lt _ _) Hn). }
  unfold bind at 1. rewrite E1. change (negb (0 =? 0)) with false. cbv iota. unfold bind at 1.
  change (u_stop u1 || u_err u1) with (u_stop u || u_err u). rewrite Hst.
  assert (accounted g (set_u_tx_sema (u_tx_sema u1 + 1) u1)) as H1.
  { assert (set_u_tx_sema (u_tx_sema u1 + 1) u1 = set_u_scripts (u_submit u) (u_alloc u) (tail (u_wait u)) u) as ->
      by (change (u_tx_sema u1 + 1) with (u_tx_sema u - 1 + 1); replace (u_tx_sema u - 1 + 1) with (u_tx_sema u) by lia; by destruct u). by apply accounted_scripts. }
  destruct (deq_accounted g u1 b q H1 ltac:(cbn; lia) Eq) as (u2 & E2 & H2 & Eu & Hrx & Hf & Hsk & Eq2 & Es2).
  assert (u2 = set_u_queues q (u_rx_freeq u) (u_used u ++ [mark_used true b]) u1) as ->.
  { unfold hgic_usb_deq in E2. change (u_tx_freeq u1) with (u_tx_freeq u) in E2. rewrite Eq in E2. by injection E2 as <-. }
  unfold bind at 1. rewrite E2. unfold bind at 1. pose proof (tx_len_spec zp (u_ep_out_size u) s) as (Hl & _).
  destruct (Z.eqb_spec (addr mod USB_DMA_ALIGN) 0) as [Hz|Hz].
  - specialize (Hpad Hz). destruct (read_padded (skb_data s) (skb_tail s) (tx_len zp (u_ep_out_size u) s)) as (pad & E3 & E4).
    { unfold skb_len, skb_tailroom in *. rewrite zlen_app. lia. }
    eexists None, pad, _. unfold ret at 1, bind at 1, lift, skb_read. rewrite E3. by split.
  - set (u2 := set_u_queues _ _ _ u1) in *. set (n := tx_len zp (u_ep_out_size u) s) in *.
    assert (0 <= n + USB_DMA_ALIGN) as Hlen by (pose proof (zlen_nonneg (skb_data s)); unfold skb_len, USB_DMA_ALIGN in *; lia).
    destruct (usb_alloc_accounted _ g u2 Hlen H2) as (p & u3 & E3 & H3 & Eu3 & Hp).
    assert (p <> None /\ u_tx_freeq u3 = q /\ u_tx_sema u3 = u_tx_sema u - 1 /\ u_submit u3 = u_submit u /\ u_sent u3 = u_sent u /\ u_done u3 = u_done u)
      as [Hsome Hf3].
    { specialize (Hal Hz). unfold usb_alloc in E3. change (u_alloc u2) with (u_alloc u) in E3.
      destruct (u_alloc u) as [|[junk|] l]; [|..]; by injection E3 as <- <-. }
    destruct p as [p|]; [|done]. destruct (send_bytes zp (u_ep_out_size u) s p Hp) as (p' & pad & E4 & E5 & E6).
    exists (Some p'), pad, u3. unfold bind at 1, bind at 1. rewrite E3. unfold bind at 1, lift. rewrite E4. unfold ret at 1. fold n in E5. rewrite E5.
    split; [done|]. split; [done|]. split; [done|]. by rewrite Eu3.
Qed.

(** ** Starvation *)
(** What is done to a device: a packet, with what happens while it waits for a
    token, or something else. *)
Inductive usb_op := OpSend (addr : Z) (s : skb) (wait : list usb_event) | OpEvent (e : usb_event).

(** The results of the packets. *)
Fixpoint usb_ops (zp : bool) (l : list usb_op) : M hgic_usb (list Z) :=
  match l with
  | [] => ret []
  | OpSend addr s wait :: l =>
      modify (fun u => set_u_scripts (u_submit u) (u_alloc u) [wait] u) ;;;
      let! r := hgic_usb_tx_packet zp addr s in
      let! rs := usb_ops zp l in ret (r :: rs)
  | OpEvent e :: l => usb_event_step e ;;; usb_ops zp l
  end.

Definition no_stop (e : usb_event) : Prop := e <> Stopped.
Definition op_no_stop (o : usb_op) : Prop :=
  match o with OpSend _ _ wait => Forall no_stop wait | OpEvent e => no_stop e end.
Definition is_send (o : usb_op) : bool := match o with OpSend _ _ _ => true | OpEvent _ => false end.
Definition sends (l : list usb_op) : nat := length (List.filter is_send l).

(** No token, and no transmission whose end would give one. *)
Definition not_sending (b : usb_buf) : Prop := ub_rx b = false -> ub_flight b = None.
Definition starved (sent : list (list Z)) (u : hgic_usb) : Prop :=
  u_tx_sema u = 0 /\ Forall not_sending (u_used u) /\ u_sent u = sent.

Lemma starved_store sent b u : starved sent u -> not_sending b -> exists u', store b u = Ret (tt, u') /\ starved sent u'.
Proof.
  intros (Hs & Hu & Hl) Hb. eexists. split; [reflexivity|]. split; [done|]. split; [|done]. cbn. apply Forall_map.
  eapply Forall_impl; [exact Hu|]. intros x Hx. cbn. by destruct (ub_id x =? ub_id b).
Qed.
Lemma starved_enq sent b u : starved sent u -> exists u', hgic_usb_enq b true u = Ret (tt, u') /\ starved sent u'.
Proof.
  intros (Hs & Hu & Hl). eexists. split; [reflexivity|]. split; [done|]. split; [|done]. cbn. unfold without. clear Hl.
  induction Hu as [|x l Hx _ IH]; [constructor|]. cbn [List.filter]. by destruct (other _ x); [constructor|].
Qed.

Lemma starved_submit_rx sent b u : starved sent u -> ub_rx b = true -> exists r u', hgic_usb_submit_rx_urb b u = Ret (r, u') /\ starved sent u'.
Proof.
  intros Hu Hb. unfold hgic_usb_submit_rx_urb, bind at 1, gets. destruct (u_stop u || u_err u).
  { destruct (starved_enq sent b u Hu) as (u' & E & H). exists (-1), u'. unfold bind. by rewrite E. }
  unfold bind at 1, next_submit. set (u1 := set_u_scripts _ _ _ _). assert (starved sent u1) as H1 by done.
  destruct (negb _).
  - destruct (starved_enq sent b u1 H1) as (u2 & E & H). eexists (-1), _. unfold bind at 1. rewrite E. by split.
  - destruct (starved_store sent (set_flight (Some []) b) u1 H1) as (u2 & E & H); [unfold not_sending; cbn; congruence|].
    exists 0, u2. unfold bind. by rewrite E.
Qed.

Lemma starved_event sent e u : starved sent u -> no_stop e -> exists u', usb_event_step e u = Ret (tt, u') /\ starved sent u'.
Proof.
  intros Hu He. destruct e as [id ok|id bs|]; [| |done]; cbn [usb_event_step]; unfold bind at 1, gets.
  - destruct (find_flight false id u) as [b|] eqn:Ef; [|by exists u]. apply find_flight_inv in Ef as (l & k & t & Eu & _ & Hrx & Hf).
    destruct Hu as (_ & Hu & _). rewrite Eu in Hu. apply Forall_app in Hu as [_ [Hb _]%Forall_cons]. specialize (Hb Hrx). congruence.
  - destruct (find_flight true id u) as [b|] eqn:Ef; [|by exists u]. apply find_flight_inv in Ef as (l & k & t & Eu & _ & Hrx & Hf).
    destruct (starved_store sent (set_flight None b) u Hu) as (u1 & E1 & H1); [by intros _|]. unfold bind at 1. rewrite E1.
    unfold hgic_usb_receive, bind at 1, gets. destruct (u_stop u1); [by apply starved_enq|].
    assert (exists u2, (if 0 <? zlen bs then modify (fun u => set_u_logs (u_sent u) (u_done u) (u_received u ++ [bs]) (u_calls u) u) else ret tt) u1
      = Ret (tt, u2) /\ starved sent u2) as (u2 & E2 & H2) by (destruct (0 <? zlen bs); (eexists; split; [reflexivity|exact H1])).
    unfold bind at 1. rewrite E2. destruct (starved_submit_rx sent (set_flight None b) u2 H2 Hrx) as (r & u3 & E3 & H3).
    exists u3. unfold bind. by rewrite E3.
Qed.

Lemma starved_events sent l u : starved sent u -> Forall no_stop l -> exists u', usb_events l u = Ret (tt, u') /\ starved sent u'.
Proof.
  intros Hu Hl. revert u Hu. induction Hl as [|e l He _ IH]; intros u Hu; [by exists u|]. cbn [usb_events].
  destruct (starved_event sent e u Hu He) as (u1 & E & H1). unfold bind. rewrite E. by apply IH.
Qed.

Lemma starved_tx_fail sent s r u : starved sent u -> exists u', tx_fail None s r u = Ret (r, u') /\ starved sent u'.
Proof. intros (Hs & Hu & Hl). by eexists. Qed.

(** A packet given to a starved device. *)
Lemma starved_send sent zp addr s u :
  starved sent u -> Forall no_stop (hd [] (u_wait u)) ->
  exists u', hgic_usb_tx_packet zp addr s u = Ret (- EIO, u') /\ starved sent u'.
Proof.
  intros Hu Hw. unfold hgic_usb_tx_packet, bind at 1, gets, bind at 1.
  destruct (u_stop u || u_err u); [by apply starved_tx_fail|].
  destruct (starved_events sent _ (set_u_scripts (u_submit u) (u_alloc u) (tail (u_wait u)) u) Hu Hw) as (u1 & E & H1).
  assert (down_timeout u = Ret (- ETIME, u1)) as E1.
  { unfold down_timeout, bind, gets, modify. rewrite E. by rewrite (proj1 H1). }
  unfold bind at 1. rewrite E1. by apply starved_tx_fail.
Qed.


(** A packet given while the device works, a token and a buffer are free, is
    sent as the frame and padding up to a multiple of four -- with the zero-packet
    option never a multiple of the endpoint's packet size --, and the result is
    the core's: when it accepts, the transfer is recorded and the frame is kept
    until its completion, otherwise the frame is handed back and its buffer is
    free again, but the token stays taken. *)
Lemma usb_packet_sent zp addr s g u b q :
  padded zp (u_ep_out_size u) addr s -> accounted g u -> u_stop u || u_err u = false -> hd [] (u_wait u) = [] ->
  0 < u_tx_sema u -> u_tx_freeq u = b :: q -> (addr mod USB_DMA_ALIGN <> 0 -> hd (Some []) (u_alloc u) <> None) ->
  exists pad u', hgic_usb_tx_packet zp addr s u = Ret (hd 0 (u_submit u), u') /\
    skb_len s <= zlen (skb_data s ++ pad) < skb_len s + 8 /\ zlen (skb_data s ++ pad) mod 4 = 0 /\
    (forall k, zp = true -> 3 <= k -> u_ep_out_size u = 2 ^ k -> zlen (skb_data s ++ pad) mod u_ep_out_size u <> 0) /\
    u_tx_sema u' = u_tx_sema u - 1 /\
    if hd 0 (u_submit u) =? 0 then
      u_sent u' = u_sent u ++ [skb_data s ++ pad] /\ u_done u' = u_done u /\ u_tx_freeq u' = q /\
      in_flight (u_used u') = in_flight (u_used u) ++ [s]
    else
      u_sent u' = u_sent u /\ u_done u' = u_done u ++ [(s, false)] /\ u_used u' = u_used u /\
      map ub_id (u_tx_freeq u') = map ub_id q ++ [ub_id b].
Proof.
  intros Hpad Ha Hst Hw Hn Eq Hal.
  destruct (tx_ready zp addr g s u b q Hpad Ha Hst Hw Hn Eq Hal) as (t & pad & u1 & E & El & H1 & Eu & Hrx & Hf & Hsk & Eq1 & Es1 & Esub & Esent & Edone).
  destruct (tx_submit_accounted g s (mark_used true b) (u_used u) t (skb_data s ++ pad) u1 H1 Eu Hrx Hf Hsk) as (r & u2 & E2 & _ & -> & _ & K).
  rewrite Esub in E2, K. exists pad, u2. rewrite E. split; [done|]. rewrite El. destruct (tx_len_spec zp (u_ep_out_size u) s) as (L1 & L2 & L3).
  split; [done|]. split; [done|]. split; [done|]. destruct (hd 0 (u_submit u) =? 0); destruct K as (K1 & K2 & K3 & K4 & K5).
  - split; [congruence|]. split; [congruence|]. split; [congruence|]. split; [congruence|]. by rewrite K2, in_flight_app.
  - split; [congruence|]. split; [congruence|]. split; [congruence|]. split; [done|]. by rewrite K4, Eq1, map_app.
Qed.

(** The tokens of failed submissions are lost: once none is left and no
    transmission is with the core -- all transmit buffers may be free --, every
    packet fails with -EIO and nothing is sent, whatever else happens, until the
    device is removed. *)
Lemma usb_starves zp l sent u :
  starved sent u -> Forall op_no_stop l ->
  exists u', usb_ops zp l u = Ret (replicate (sends l) (- EIO), u') /\ u_sent u' = sent.
Proof.
  intros Hu Hl. revert u Hu. induction Hl as [|[addr s w|e] l Ho _ IH]; intros u Hu; cbn [usb_ops]; [by exists u; destruct Hu as (_ & _ & ?)| |].
  - destruct (starved_send sent zp addr s (set_u_scripts (u_submit u) (u_alloc u) [w] u) Hu Ho) as (u1 & E1 & H1).
    destruct (IH u1 H1) as (u2 & E2 & H2). exists u2. unfold bind at 1, modify, bind at 1. rewrite E1. unfold bind. by rewrite E2.
  - destruct (starved_event sent e u Hu Ho) as (u1 & E1 & H1). destruct (IH u1 H1) as (u2 & E2 & H2). exists u2. unfold bind. by rewrite E1.
Qed.

(** *** Concrete devices *)
Definition demo_usb0 (submits : list Z) : hgic_usb :=
  Usb 0 0 0 0 false false [] [] [] 0 submits [] [] [] [] [] [].
Definition demo_eps : list endpoint := [Endpoint true false 1 512; Endpoint false true 2 512].
Definition state_of {S A} (d : S) (o : outcome (A * S)) : S := match o with Ret (_, s) => s | Fault _ => d end.
Definition demo_usb : hgic_usb :=
  state_of (demo_usb0 []) (hgic_usb_probe HGIC_PKT_MAX_LEN demo_eps true true true (demo_usb0 [])).
Definition demo_frame (n : Z) : skb := Skb [] (replicate (Z.to_nat n) 7) (replicate 8 0).

Lemma demo_padded zp size n : padded zp size 0 (demo_frame (Z.abs n)).
Proof.
  intros _. pose proof (tx_len_bounds zp size (demo_frame (Z.abs n))). change (skb_tailroom (demo_frame (Z.abs n))) with 8. lia.
Qed.

(** Two packets, of which the first is complete, and data received. *)
Definition demo_usb1 : hgic_usb := state_of demo_usb (hgic_usb_tx_packet true 0 (demo_frame 508) demo_usb).
Definition demo_usb2 : hgic_usb := state_of demo_usb (hgic_usb_tx_packet true 0 (demo_frame 9) demo_usb1).
Definition demo_usb3 : hgic_usb := state_of demo_usb (usb_event_step (TxDone 0 true) demo_usb2).
Definition demo_usb4 : hgic_usb := state_of demo_usb (usb_event_step (RxDone 1003 [1; 2]) demo_usb3).

Lemma demo_run : usb_run true demo_usb [demo_frame 9; demo_frame 508] demo_usb4.
Proof.
  apply UrEvent with demo_usb3 (RxDone 1003 [1; 2]); [|by vm_compute]. apply UrEvent with demo_usb2 (TxDone 0 true); [|by vm_compute].
  apply UrSend with demo_usb1 0 0; [|exact (demo_padded true _ 9)|by vm_compute].
  apply UrSend with demo_usb 0 0; [constructor|exact (demo_padded true _ 508)|by vm_compute].
Qed.


Lemma demo_accounted : accounted [demo_frame 9; demo_frame 508] demo_usb4.
Proof.
  eapply run_accounted; [|exact demo_run].
  apply (probe_accounted HGIC_PKT_MAX_LEN demo_eps true true true (demo_usb0 [])); vm_compute; reflexivity.
Qed.

(** A frame that fills the endpoint's packets gets four more bytes. *)
Lemma usb_packet_sent_witness :
  exists pad u', hgic_usb_tx_packet true 0 (demo_frame 510) demo_usb4 = Ret (0, u') /\
    zlen (skb_data (demo_frame 510) ++ pad) mod 512 <> 0 /\ u_tx_sema u' = 14.
Proof.
  destruct (usb_packet_sent true 0 (demo_frame 510) [demo_frame 9; demo_frame 508] demo_usb4
    (fresh_buf 0 false 2) (tail (u_tx_freeq demo_usb4)) (demo_padded true _ 510) demo_accounted)
    as (pad & u' & E & _ & _ & H & Hs & _); [vm_compute; reflexivity..|by intros []|].
  exists pad, u'. split; [exact E|]. split; [by apply (H 9)|]. exact Hs.
Defined.

(** Sixteen failures leave all buffers free and no token. *)
Definition demo_starved : hgic_usb :=
  state_of demo_usb (usb_ops false (replicate 16 (OpSend 0 (demo_frame 9) []))
    (set_u_scripts (replicate 16 (-19)) [] [] demo_usb)).

Lemma usb_starves_witness :
  length (u_tx_freeq demo_starved) = 16%nat /\
  exists u', usb_ops false [OpSend 0 (demo_frame 9) [RxDone 1001 [1]]; OpEvent (RxDone 1000 []); OpSend 1 (demo_frame 1) []] demo_starved
    = Ret ([- EIO; - EIO], u') /\ u_sent u' = [].
Proof.
  split; [by vm_compute|].
  apply (usb_starves false [OpSend 0 (demo_frame 9) [RxDone 1001 [1]]; OpEvent (RxDone 1000 []); OpSend 1 (demo_frame 1) []] [] demo_starved).
  - split; [by vm_compute|]. split; [|by vm_compute]. vm_compute. repeat (constructor; [intros [=]|]). constructor.
  - repeat constructor; intros [=].
Defined.

(** *** Removal and failures *)
(** A packet whose copy cannot be allocated is handed back, but neither its buffer
    nor its token: the buffer stays on the list of used ones, with nothing in it. *)
Lemma usb_copy_failure_leaks :
  exists u', hgic_usb_tx_packet false 1 (demo_frame 9) (set_u_scripts [] [None] [] demo_usb) = Ret (-1, u') /\
    length (u_tx_freeq u') = 15%nat /\ u_tx_sema u' = 15 /\ u_done u' = [(demo_frame 9, false)].
Proof. eexists. split; [vm_compute; reflexivity|]. by vm_compute. Qed.

(** A driver that gives no private structure: the reference is dropped that was
    not yet taken. *)
Lemma usb_probe_puts_unheld :
  u_calls (state_of demo_usb (hgic_usb_probe HGIC_PKT_MAX_LEN demo_eps false false true (demo_usb0 []))) = [CallProbe; PutDev].
Proof. by vm_compute. Qed.

(** A set-up whose second receive submission fails, and a removal, while a
    transfer is still with the core: [usb_kill_urb] waits, with [qlock] held, for
    a handler that takes [qlock]. *)
Lemma usb_probe_failure_hangs :
  hgic_usb_probe HGIC_PKT_MAX_LEN demo_eps true true true (demo_usb0 [0; -12]) = Fault Diverges.
Proof. by vm_compute. Qed.

Lemma usb_disconnect_hangs h u b : b ∈ u_used u -> is_Some (ub_flight b) -> hgic_usb_disconnect h u = Fault Diverges.
Proof.
  intros Hb Hf. assert (existsb (fun b => bool_decide (is_Some (ub_flight b))) (u_used u) = true) as E.
  { apply existsb_exists. exists b. split; [by apply list_elem_of_In|by apply bool_decide_eq_true]. }
  unfold hgic_usb_disconnect, hgic_usb_free, bind, modify, log_call, usb_up, gets, ret. destruct h; cbn; by rewrite E.
Qed.

(** With nothing in flight the removal ends and every buffer is released. *)
Lemma usb_disconnect_done h u :
  Forall (fun b => ub_flight b = None) (u_used u) -> exists u', hgic_usb_disconnect h u = Ret (tt, u') /\ bufs u' = [] /\ u_stop u' = true.
Proof.
  intros Hf. assert (existsb (fun b => bool_decide (is_Some (ub_flight b))) (u_used u) = false) as E.
  { induction Hf as [|b l Hb _ IH]; [done|]. cbn [existsb]. by rewrite Hb. }
  unfold hgic_usb_disconnect, hgic_usb_free, bind, modify, log_call, usb_up, gets, ret.
  destruct h; cbn; rewrite E; eexists; (split; [reflexivity|by split]).
Qed.
