(* ===== verification/AhFreq.v ===== *)
(** * The regional frequency table (utils/ah_freqinfo.c)

    The channels, the bandwidth and the transmit power a country allows, and the
    function that configures the interface hg0 with them through the application
    library.  The table and the selection are the source's; what they promise is
    that every selection is a consistent channel plan, and that it reaches the
    chip. *)
From Stdlib Require Import String.
From S2P Require Import Prelude Bytes CString Proto Skb Utils Format Libc FwCtrl FwCmds Iwpriv Device Core Entry AppLib AppFacts.

Record ieee80211_ah_freqinfo := FreqInfo {
  s1g_opclass : Z; fi_type : Z; max_txpower : Z; freq_count : Z; freqlist : list Z }.

(** The sixteen entries of an array of which the first are given. *)
Definition freqs (l : list Z) : list Z := resize 16 0 l.

Definition ah_freqs : list ieee80211_ah_freqinfo := [
  FreqInfo 1 1 22 6 (freqs [9055; 9095; 9135; 9175; 9215; 9255]);
  FreqInfo 2 1 22 6 (freqs [9050; 9090; 9130; 9170; 9210; 9250]);
  FreqInfo 3 1 22 5 (freqs [9060; 9100; 9140; 9180; 9220]);
  FreqInfo 4 1 22 3 (freqs [9080; 9160; 9240]);
  FreqInfo 6 1 6 5 (freqs [8635; 8645; 8655; 8665; 8675]);
  FreqInfo 8 1 6 1 (freqs [8660]);
  FreqInfo 14 1 10 6 (freqs [9180; 9190; 9200; 9210; 9220; 9230]);
  FreqInfo 15 1 10 3 (freqs [9185; 9205; 9225]);
  FreqInfo 16 1 10 1 (freqs [9215]);
  FreqInfo 17 1 20 5 (freqs [9205; 9215; 9225; 9235; 9245]);
  FreqInfo 19 1 20 2 (freqs [9215; 9235]);
  FreqInfo 21 1 20 1 (freqs [9225]);
  FreqInfo 22 1 22 6 (freqs [9165; 9185; 9205; 9225; 9245; 9265]);
  FreqInfo 23 1 22 6 (freqs [9160; 9180; 9210; 9230; 9250; 9270]);
  FreqInfo 24 1 22 3 (freqs [9170; 9220; 9260]);
  FreqInfo 25 1 22 1 (freqs [9240]);
  FreqInfo 26 1 28 4 (freqs [9245; 9255; 9265; 9275]);
  FreqInfo 27 1 28 2 (freqs [9250; 9270]);
  FreqInfo 28 1 28 1 (freqs [9260]);
  FreqInfo 29 1 5 1 (freqs [9190]);
  FreqInfo 30 1 20 2 (freqs [9210; 9220]);
  FreqInfo 31 1 20 1 (freqs [9215]);
  FreqInfo 32 1 8 5 (freqs [9180; 9200; 9220; 9240; 9260]);
  FreqInfo 33 1 8 3 (freqs [9220; 9240; 9260]);
  FreqInfo 34 1 8 1 (freqs [9240]);
  FreqInfo 35 1 20 5 (freqs [9195; 9205; 9215; 9225; 9235]);
  FreqInfo 36 1 20 2 (freqs [9205; 9225]);
  FreqInfo 37 1 20 1 (freqs [9215]);
  FreqInfo 38 1 10 5 (freqs [9205; 9215; 9225; 9235; 9245]);
  FreqInfo 39 1 10 2 (freqs [9215; 9235]);
  FreqInfo 40 1 10 1 (freqs [9225]) ].

(** The selection of the operating class: a chain of comparisons, each with a
    switch over the bandwidth, whose cases are listed here. *)
Definition opclasses : list (string * list (Z * Z)) := [
  ("US"%string, [(1, 1); (2, 2); (4, 3); (8, 4)]);
  ("EU"%string, [(1, 6); (2, 8)]);
  ("KR"%string, [(1, 14); (2, 15); (4, 16)]);
  ("SG"%string, [(1, 17); (2, 19); (4, 21)]);
  ("AU"%string, [(1, 22); (2, 23); (4, 24); (8, 25)]);
  ("NZ"%string, [(1, 26); (2, 27); (4, 28); (8, 29)]);
  ("ID"%string, [(1, 30); (2, 31)]);
  ("JP"%string, [(1, 32); (2, 33); (4, 34)]);
  ("MY"%string, [(1, 35); (2, 36); (4, 37)]);
  ("TH"%string, [(1, 38); (2, 39); (4, 40)]) ].

Fixpoint switch (bw : Z) (cases : list (Z * Z)) : Z :=
  match cases with
  | [] => 0
  | (b, c) :: cases => if bw =? b then c else switch bw cases
  end.
Fixpoint opclass_of (country_code : list Z) (bw : Z) (chain : list (string * list (Z * Z))) : outcome Z :=
  match chain with
  | [] => Ret 0
  | (name, cases) :: chain =>
      leto same := strcmp_eq country_code (lit name) in
      if same : bool then Ret (switch bw cases) else opclass_of country_code bw chain
  end.

(** The arguments of type [char]. *)
Definition hgic_get_ah_freqinfo (country_code : option (list Z)) (bw type : Z) : outcome (option ieee80211_ah_freqinfo) :=
  match country_code with
  | None => Ret None
  | Some country_code =>
      leto s1g := opclass_of country_code bw opclasses in
      Ret (if s1g =? 0 then None
           else List.find (fun f => (s1g_opclass f =? s1g) && (fi_type f =? type)) ah_freqs)
  end.

Section Region.
Context (stk : list Z) (signed_char : bool) (rootdir HGIC : list Z) (malloc : Z -> option (list Z)).

Definition hgic_ah_set_country_region (country_code : option (list Z)) (bw type : Z) : M process Z :=
  let! freqinfo := lift (hgic_get_ah_freqinfo country_code bw type) in
  match freqinfo with
  | None => ret (-1)
  | Some f =>
      let! r1 := hgic_iwpriv_set_chan_list stk signed_char rootdir HGIC malloc (lit "hg0") (freqlist f) (freq_count f) in
      let! r2 := hgic_iwpriv_set_bss_bw stk signed_char rootdir HGIC malloc (lit "hg0") bw in
      let! r3 := hgic_iwpriv_set_txpower stk signed_char rootdir HGIC malloc (lit "hg0") (max_txpower f) in
      ret (Z.lor (Z.lor (Z.lor 0 r1) r2) r3)
  end.
End Region.

(** ** The plans *)
(** The channels of an entry, in units of 100 kHz. *)
Definition channels (f : ieee80211_ah_freqinfo) : list Z := ztake (freq_count f) (freqlist f).

(** Neighbouring channels of a bandwidth of [bw] MHz do not overlap. *)
Fixpoint spaced (bw : Z) (l : list Z) : bool :=
  match l with
  | a :: (b :: _) as t => (a + 10 * bw <=? b) && spaced bw t
  | _ => true
  end.
Definition in_band (bw : Z) (c : Z) : bool := (8630 <=? c - 5 * bw) && (c + 5 * bw <=? 9280).

Definition plan_ok (bw : Z) (f : ieee80211_ah_freqinfo) : bool :=
  (0 <? freq_count f) && (freq_count f <=? 16) && (zlen (freqlist f) =? 16) && spaced bw (channels f) &&
  forallb (in_band bw) (channels f) && (0 <? max_txpower f) && (max_txpower f <=? 30).

(** The countries and bandwidths with a plan, and its operating class. *)
Definition plans_of (chain : list (string * list (Z * Z))) : list (string * Z * Z) :=
  flat_map (fun e => map (fun c => (fst e, fst c, snd c)) (snd e)) chain.
Definition region_plans : list (string * Z * Z) := plans_of opclasses.

Lemma switch_spec bw cases :
  (switch bw cases = 0 /\ forall c, (bw, c) ∈ cases -> c = 0) \/ (bw, switch bw cases) ∈ cases.
Proof.
  induction cases as [|[b c] cases [[IH1 IH2]|IH]]; [left; split; [done|]; by intros c ?%elem_of_nil| |].
  - cbn [switch]. destruct (Z.eqb_spec bw b) as [->|Hb]; [right; apply elem_of_cons; by left|]. left. split; [done|].
    intros c' [[= ? ?]|Hc]%elem_of_cons; [done|by apply IH2].
  - right. cbn [switch]. destruct (Z.eqb_spec bw b) as [->|Hb]; apply elem_of_cons; [by left|by right].
Qed.

Lemma opclass_of_spec s rest bw chain :
  no_nul s -> Forall (fun n => no_nul (str n)) (map fst chain) -> NoDup (map fst chain) ->
  exists c, opclass_of (s ++ 0 :: rest) bw chain = Ret c /\
    ((c = 0 /\ forall n c', str n = s -> (n, bw, c') ∈ plans_of chain -> c' = 0) \/
     (exists n, str n = s /\ (n, bw, c) ∈ plans_of chain)).
Proof.
  intros Hs. induction chain as [|[n cases] chain IH]; intros Hn Hd; cbn [opclass_of].
  { exists 0. split; [done|]. left. split; [done|]. by intros ????%elem_of_nil. }
  cbn [map fst] in Hn, Hd. apply Forall_cons in Hn as [Hn1 Hn]. apply NoDup_cons in Hd as [Hd1 Hd].
  unfold lit. rewrite (strcmp_eq_spec s (str n) rest [] Hs Hn1). cbn [obind].
  assert (forall m c', (m, bw, c') ∈ plans_of ((n, cases) :: chain) <-> (m = n /\ (bw, c') ∈ cases) \/ (m, bw, c') ∈ plans_of chain) as K.
  { intros m c'. unfold plans_of. cbn [flat_map fst snd]. rewrite elem_of_app. apply Morphisms_Prop.or_iff_morphism; [|done].
    rewrite list_elem_of_fmap. split; [intros ([b c] & [= -> -> ->] & H); by split|intros [-> H]; by exists (bw, c')]. }
  assert (forall m c', (m, bw, c') ∈ plans_of chain -> m ∈ map fst chain) as Km.
  { intros m c'. unfold plans_of. clear. induction chain as [|[n cases] chain IH]; [by intros ?%elem_of_nil|]. cbn [flat_map map fst snd].
    intros [H|H]%elem_of_app; apply elem_of_cons; [left|right; by apply IH]. by apply list_elem_of_fmap in H as ([b c] & [= -> _ _] & _). }
  case_bool_decide as E.
  - exists (switch bw cases). split; [done|]. destruct (switch_spec bw cases) as [[E0 H0]|H0].
    + left. split; [done|]. intros m c' <- [[_ H]|H]%K; [by apply H0|]. apply str_inj in E as ->. by apply Km in H.
    + right. exists n. split; [done|]. apply K. by left.
  - destruct (IH Hn Hd) as (c & Ec & H). exists c. split; [done|]. destruct H as [[-> H]|(m & Em & H)].
    + left. split; [done|]. intros m c' Em [[-> _]|H']%K; [by destruct E|by apply (H m)].
    + right. exists m. split; [done|]. apply K. by right.
Qed.

(** Every plan, looked up with the type 1. *)
Definition plan_found (e : string * Z * Z) : bool :=
  negb (snd e =? 0) &&
  match List.find (fun f => (s1g_opclass f =? snd e) && (fi_type f =? 1)) ah_freqs with
  | Some f => plan_ok (snd (fst e)) f
  | None => false
  end.

Lemma plans_found : Forall plan_found region_plans.
Proof. apply (bool_decide_unpack _). by vm_compute. Qed.

Lemma types_one c type : type <> 1 -> List.find (fun f => (s1g_opclass f =? c) && (fi_type f =? type)) ah_freqs = None.
Proof.
  intros Ht. assert (Forall (fun f => fi_type f = 1) ah_freqs) as H by (repeat constructor).
  induction H as [|f l Hf _ IH]; [done|]. cbn [List.find]. rewrite Hf, (proj2 (Z.eqb_neq 1 type)) by done. by rewrite andb_false_r.
Qed.

(** The selection of a channel plan: for the type 1 and a country and
    bandwidth of the table the result is an entry, whose channels are between 1
    and 16, do not overlap for that bandwidth, lie with it between 863 and
    928 MHz and have a transmit power of at most 30 dBm; for every other country,
    bandwidth or type, and for no country, there is none. *)
Lemma region_plan_valid s rest bw type :
  no_nul s ->
  hgic_get_ah_freqinfo None bw type = Ret None /\
  exists o, hgic_get_ah_freqinfo (Some (s ++ 0 :: rest)) bw type = Ret o /\
    ((exists f n c, o = Some f /\ type = 1 /\ str n = s /\ (n, bw, c) ∈ region_plans /\ s1g_opclass f = c /\ plan_ok bw f = true) \/
     (o = None /\ (type <> 1 \/ forall n c, str n = s -> (n, bw, c) ∉ region_plans))).
Proof.
  intros Hs. split; [done|]. unfold hgic_get_ah_freqinfo.
  assert (Forall (fun n => no_nul (str n)) (map fst opclasses)) as Hn by (apply (bool_decide_unpack _); by vm_compute).
  assert (NoDup (map fst opclasses)) as Hd by (apply distinctb_NoDup; by vm_compute).
  destruct (opclass_of_spec s rest bw opclasses Hs Hn Hd) as (c & -> & Hc). cbn [obind]. eexists. split; [reflexivity|].
  destruct (decide (type = 1)) as [->|Ht]; [|right; split; [by destruct (c =? 0); [|rewrite types_one]|by left]].
  pose proof plans_found as F. rewrite Forall_forall in F. destruct Hc as [[-> Hc]|(n & En & Hc)].
  - right. split; [done|]. right. intros n c' En Hin. specialize (Hc n c' En Hin). subst c'.
    by specialize (F _ Hin).
  - left. specialize (F _ Hc). unfold plan_found in F. cbn [fst snd] in F. destruct (c =? 0); [done|]. cbn [negb andb] in F.
    destruct (List.find _ _) as [f|] eqn:Ef; [|done]. exists f, n, c. apply List.find_some in Ef as [_ [Ef _]%andb_true_iff].
    split; [done|]. split; [done|]. split; [done|]. split; [done|]. split; [lia|]. by apply Is_true_eq_true.
Qed.

Lemma region_plan_valid_witness :
  exists o, hgic_get_ah_freqinfo (Some (str "AU" ++ [0; 7])) 4 1 = Ret o /\ (exists f, o = Some f /\ channels f = [9170; 9220; 9260]).
Proof.
  destruct (region_plan_valid (str "AU") [7] 4 1 ltac:(by repeat constructor)) as (_ & o & E & _). exists o. split; [exact E|].
  vm_compute in E. injection E as <-. by eexists.
Defined.

(** ** Configuring an interface *)
(** A command that the chip accepts: one frame, the result 0, and the channel as
    it was, with the next cookie. *)
Definition accepted (m : M world Z) (ifidx id : Z) (pl : list Z) (w w' : world) : Prop :=
  exists s, m w = Ret (0, w') /\ skb_data s = cmd_frame ifidx id (fc_cookie (w_ctrl w)) pl /\
    w_sent w' = w_sent w ++ [s] /\ quiet w' /\ w_env w' = tail (w_env w) /\
    fc_cookie (w_ctrl w') = (fc_cookie (w_ctrl w) + 1) mod 2 ^ 15.

Definition accepts (ty id c : Z) : list action := answered_by (resp_frame ty c id 0 []).

Lemma do_cmd_accepted ifidx (c : hgic_cmd) inp n ty id e w :
  quiet w -> 0 <= n <= 2000 -> input_ok inp n -> is_response_type ty = true ->
  w_env w = accepts ty id (fc_cookie (w_ctrl w)) :: e ->
  exists w', accepted (let! r := hgic_fwctrl_do_cmd ifidx c inp n None 0 in ret (fst r)) ifidx c (payload inp n) w w'.
Proof.
  intros Hq Hn Hi Hty He.
  destruct (do_cmd_exchange ifidx c inp n None 0 ty id 0 [] e w Hq Hn Hi ltac:(lia) He Hty ltac:(done)) as (s & w' & E & Hs & Hsent & _ & Hq' & He' & Hc).
  exists w', s. unfold bind. rewrite E. unfold cmd_result. cbn [skb_data]. rewrite resp_frame_status. cbn [obind lift].
  split; [done|]. split; [by rewrite Hs, cmd_code_u16|]. split; [done|]. split; [done|]. split; [by rewrite He', He|done].
Qed.

(** The effect on a process of a setting whose command is accepted. *)
Lemma effect_accepted h value p v id pl w' :
  d_vif (p_dev p) = Some v ->
  accepted (h (v_fwifidx v) (Some (value ++ [0])) (zlen value)) (v_fwifidx v) id pl (d_w (p_dev p)) w' ->
  setting_effect h value p = Ret (0, set_p_dev (set_d_w w' (p_dev p)) p).
Proof.
  intros Hv (s & E & _). unfold setting_effect, fwifidx, bind, gets, lift, ret. rewrite Hv. cbn [deref].
  by rewrite on_world_fail, E.
Qed.

Section Accepted.
Context (ifidx ty id : Z) (e : list (list action)) (w : world).
Hypothesis Hq : quiet w.
Hypothesis Hty : is_response_type ty = true.
Hypothesis He : w_env w = accepts ty id (fc_cookie (w_ctrl w)) :: e.

Lemma chan_list_accepted chans :
  Forall (fun c => 0 < c < 2 ^ 16) chans -> 0 < zlen chans <= 32 ->
  exists w', accepted (Iwpriv.hgic_iwpriv_set_chan_list ifidx (Some (ints_text true chans ++ [0])) (zlen (ints_text true chans)))
    ifidx HGIC_CMD_SET_CHAN_LIST (chan_list_payload chans) w w'.
Proof.
  intros Hc Hl. pose proof (chan_list_payload_zlen chans) as Hz. set (pl := chan_list_payload chans) in *.
  destruct (do_cmd_accepted ifidx HGIC_CMD_SET_CHAN_LIST (Some pl) (zlen pl) ty id e w Hq ltac:(lia) ltac:(simpl; lia) Hty He) as (w' & s & E & Hs & K).
  exists w', s. unfold payload in Hs. rewrite ztake_all in Hs by lia. split; [|by rewrite Hs].
  unfold Iwpriv.hgic_iwpriv_set_chan_list.
  rewrite picks_printed; [|eapply Forall_impl; [exact Hc|]; simpl; lia|intros ->; by destruct Hl|lia]. cbn [fst snd].
  assert (map u16 chans = chans) as -> by (clear -Hc; induction Hc as [|c l Hc _ IH]; [done|]; cbn [map]; by rewrite IH, u16_id by lia).
  rewrite set_chan_list_eq by done. exact E.
Qed.

Lemma strtol_printed n (k : Z -> M world Z) :
  - 2 ^ 31 <= n < 2 ^ 31 -> (let! v := strtol (Some (signed_text n ++ [0])) 10 in k v) w = k n w.
Proof.
  intros Hn. unfold strtol, bind, lift. cbn [deref]. unfold ret.
  by rewrite (strtol_signed_text n 0 []) by (lia || done).
Qed.

Lemma bss_bw_accepted bw :
  0 <= bw < 256 ->
  exists w', accepted (Iwpriv.hgic_iwpriv_set_bss_bw ifidx (Some (signed_text (s32 bw) ++ [0])) (zlen (signed_text (s32 bw))))
    ifidx HGIC_CMD_SET_BSS_BW [bw] w w'.
Proof.
  intros Hb. rewrite s32_id by lia.
  destruct (do_cmd_accepted ifidx HGIC_CMD_SET_BSS_BW (Some [u8 (u8 (u8 bw))]) 1 ty id e w Hq ltac:(lia) ltac:(done) Hty He) as (w' & s & E & Hs & K).
  exists w', s. unfold Iwpriv.hgic_iwpriv_set_bss_bw. rewrite strtol_printed by lia. split; [exact E|]. 
  rewrite Hs. assert (u8 (u8 (u8 bw)) = bw) as -> by (by rewrite !(u8_id bw) by lia). by split.
Qed.

Lemma txpower_accepted n :
  0 <= n < 2 ^ 15 ->
  exists w', accepted (Iwpriv.hgic_iwpriv_set_txpower ifidx (Some (signed_text (s32 n) ++ [0])) (zlen (signed_text (s32 n))))
    ifidx HGIC_CMD_SET_TX_POWER (put_unaligned_le32 n) w w'.
Proof.
  intros Hb. rewrite s32_id by lia.
  destruct (do_cmd_accepted ifidx HGIC_CMD_SET_TX_POWER (Some (put_unaligned_le32 (u32 (u32 (u16 n))))) 4 ty id e w Hq ltac:(lia) ltac:(done) Hty He)
    as (w' & s & E & Hs & K).
  exists w', s. unfold Iwpriv.hgic_iwpriv_set_txpower, nonnull. rewrite strtol_printed by lia. split; [exact E|].
  rewrite Hs. assert (u32 (u32 (u16 n)) = n) as -> by (by rewrite (u16_id n), !(u32_id n) by lia). by split.
Qed.
End Accepted.

#[local] Ltac find_setting := unfold hgpriv_sets; repeat first [apply list_elem_of_here | apply list_elem_of_further].

Section Steps.
Context (stk : list Z) (sc : bool) (rootdir HGIC : list Z) (malloc : Z -> option (list Z)) (v : hgicf_vif) (ty id : Z).
Hypothesis Hty : is_response_type ty = true.

(** The process whose channel is [w']. *)
Definition with_world (w' : world) (p : process) : process := set_p_dev (set_d_w w' (p_dev p)) p.

#[local] Abbreviation ready p := (process_ok rootdir HGIC malloc (lit "hg0") (str "hg0") p /\ d_vif (p_dev p) = Some v).

Lemma ready_after p w' : ready p -> quiet w' -> ready (with_world w' p).
Proof. intros [[] Hv] Hq. by destruct p as [[] ?]. Qed.

(** One function of the application library whose command is accepted. *)
Definition step_done (m : M process Z) (cmd : hgic_cmd) (pl : list Z) (p : process) (e : list (list action)) : Prop :=
  exists s w', m p = Ret (0, with_world w' p) /\ quiet w' /\ w_env w' = e /\ w_sent w' = w_sent (d_w (p_dev p)) ++ [s] /\
    skb_data s = cmd_frame (v_fwifidx v) cmd (fc_cookie (w_ctrl (d_w (p_dev p)))) pl /\
    fc_cookie (w_ctrl w') = (fc_cookie (w_ctrl (d_w (p_dev p))) + 1) mod 2 ^ 15.

Lemma setting_done m h value (cmd : hgic_cmd) pl p e x w' :
  ready p -> m p = setting_effect h value p -> w_env (d_w (p_dev p)) = x :: e ->
  accepted (h (v_fwifidx v) (Some (value ++ [0])) (zlen value)) (v_fwifidx v) cmd pl (d_w (p_dev p)) w' ->
  step_done m cmd pl p e.
Proof.
  intros [_ Hv] Em He Ha. pose proof (effect_accepted h value p v _ _ w' Hv Ha) as E. destruct Ha as (s & _ & Hs & Hsent & Hq & He' & Hc).
  exists s, w'. rewrite Em, E. rewrite He' , He. by repeat (split; [done|]).
Qed.

Lemma chan_list_runs p chans more :
  ready p -> 0 < zlen chans <= 32 ->
  hgic_iwpriv_set_chan_list stk sc rootdir HGIC malloc (lit "hg0") (chans ++ more) (zlen chans) p
  = with_spare malloc (setting_line (str "hg0") "chan_list" (ints_text true chans))
      (setting_effect Iwpriv.hgic_iwpriv_set_chan_list (ints_text true chans) p).
Proof.
  intros [[Henv Hq Hb Hm Hmax] _] Hl. pose proof (zlen_nonneg more).
  replace (ints_text true chans) with (ints_text true (ztake (zlen chans) (chans ++ more))) by (by rewrite ztake_app_length).
  apply (set_intarray_runs stk sc rootdir HGIC malloc Henv (str "hg0")); try done; try apply Hq; try (rewrite ?zlen_app; lia). find_setting.
Qed.

Lemma chan_list_step p e chans more :
  ready p -> w_env (d_w (p_dev p)) = accepts ty id (fc_cookie (w_ctrl (d_w (p_dev p)))) :: e ->
  Forall (fun c => 0 < c < 2 ^ 16) chans -> 0 < zlen chans <= 32 ->
  has_spare malloc (zlen (setting_line (str "hg0") "chan_list" (ints_text true chans))) = true ->
  step_done (hgic_iwpriv_set_chan_list stk sc rootdir HGIC malloc (lit "hg0") (chans ++ more) (zlen chans))
    HGIC_CMD_SET_CHAN_LIST (chan_list_payload chans) p e.
Proof.
  intros Hr He Hc Hl Hsp. pose proof Hr as [[Henv Hq Hb Hm Hmax] Hv].
  destruct (chan_list_accepted (v_fwifidx v) ty id e _ Hq Hty He chans Hc Hl) as (w' & Ha).
  refine (setting_done _ Iwpriv.hgic_iwpriv_set_chan_list (ints_text true chans) _ _ p e _ w' Hr _ He Ha).
  rewrite chan_list_runs by done. unfold with_spare. by rewrite Hsp.
Qed.

Lemma int_runs p n h k :
  ready p -> (n, h) ∈ hgpriv_sets stk sc ->
  hgic_iwpriv_set_int stk sc rootdir HGIC malloc (lit "hg0") (lit n) k p
  = with_spare malloc (setting_line (str "hg0") n (signed_text (s32 k))) (setting_effect h (signed_text (s32 k)) p).
Proof.
  intros [[Henv Hq Hb Hm Hmax] _] Hin.
  apply (set_int_runs stk sc rootdir HGIC malloc Henv (str "hg0")); done || lia || apply Hq.
Qed.

Lemma int_step p e n h (cmd : hgic_cmd) k pl :
  ready p -> w_env (d_w (p_dev p)) = accepts ty id (fc_cookie (w_ctrl (d_w (p_dev p)))) :: e ->
  (n, h) ∈ hgpriv_sets stk sc -> has_spare malloc (zlen (setting_line (str "hg0") n (signed_text (s32 k)))) = true ->
  (exists w', accepted (h (v_fwifidx v) (Some (signed_text (s32 k) ++ [0])) (zlen (signed_text (s32 k)))) (v_fwifidx v) cmd pl (d_w (p_dev p)) w') ->
  step_done (hgic_iwpriv_set_int stk sc rootdir HGIC malloc (lit "hg0") (lit n) k) cmd pl p e.
Proof.
  intros Hr He Hin Hsp [w' Ha]. refine (setting_done _ h (signed_text (s32 k)) _ _ p e _ w' Hr _ He Ha).
  rewrite (int_runs p n h) by done. unfold with_spare. by rewrite Hsp.
Qed.
End Steps.

(** The regions of the table are what the chip can be given. *)
Lemma plan_values bw f :
  0 <= bw -> plan_ok bw f = true ->
  Forall (fun c => 0 < c < 2 ^ 16) (channels f) /\ 0 < zlen (channels f) <= 16 /\ freqlist f = channels f ++ zdrop (freq_count f) (freqlist f) /\
  zlen (channels f) = freq_count f /\ 0 <= max_txpower f < 2 ^ 15.
Proof.
  intros Hbw H. unfold plan_ok in H. rewrite !andb_true_iff in H. destruct H as [[[[[[H1 H2] H3] H4] H5] H6] H7].
  assert (zlen (channels f) = freq_count f) as Hz by (apply zlen_ztake; lia).
  split; [|split; [lia|split; [unfold channels; by rewrite ztake_zdrop|split; [done|lia]]]].
  rewrite forallb_forall in H5. apply Forall_forall. intros x Hx%list_elem_of_In. specialize (H5 x Hx). unfold in_band in H5. lia.
Qed.

(** The lines of the three settings. *)
Definition region_lines (f : ieee80211_ah_freqinfo) (bw : Z) : list (list Z) :=
  [setting_line (str "hg0") "chan_list" (ints_text true (channels f)); setting_line (str "hg0") "bss_bw" (signed_text (s32 bw));
   setting_line (str "hg0") "txpower" (signed_text (s32 (max_txpower f)))].

(** C23. Configuring a region: with a chip that accepts the commands, setting the
    region of a country and bandwidth of the table through the application library
    sends exactly three frames -- the channels of its plan, the bandwidth, the
    transmit power -- and returns 0, as long as the blocks [malloc] gives for the
    lines of the three settings have a byte to spare: a block of the length asked
    for is overrun by the terminator of the line.  For anything else it returns -1
    and the device is not touched. *)
Theorem region_reaches_chip stk sc rootdir HGIC malloc v ty id e p c bw type :
  process_ok rootdir HGIC malloc (lit "hg0") (str "hg0") p -> d_vif (p_dev p) = Some v -> is_response_type ty = true ->
  let w := d_w (p_dev p) in
  let cookie k := (fc_cookie (w_ctrl w) + k) mod 2 ^ 15 in
  w_env w = accepts ty id (cookie 0) :: accepts ty id (cookie 1) :: accepts ty id (cookie 2) :: e ->
  (forall f, hgic_get_ah_freqinfo c bw type = Ret (Some f) -> plan_ok bw f = true -> 0 <= bw < 128 ->
     if forallb (fun l => has_spare malloc (zlen l)) (region_lines f bw) then
       exists s1 s2 s3 w', hgic_ah_set_country_region stk sc rootdir HGIC malloc c bw type p = Ret (0, with_world w' p) /\
       w_sent w' = w_sent w ++ [s1; s2; s3] /\ quiet w' /\ w_env w' = e /\
       skb_data s1 = cmd_frame (v_fwifidx v) HGIC_CMD_SET_CHAN_LIST (cookie 0) (chan_list_payload (channels f)) /\
       skb_data s2 = cmd_frame (v_fwifidx v) HGIC_CMD_SET_BSS_BW (cookie 1) [bw] /\
       skb_data s3 = cmd_frame (v_fwifidx v) HGIC_CMD_SET_TX_POWER (cookie 2) (put_unaligned_le32 (max_txpower f))
     else hgic_ah_set_country_region stk sc rootdir HGIC malloc c bw type p = Fault OutOfBounds) /\
  (hgic_get_ah_freqinfo c bw type = Ret None ->
     hgic_ah_set_country_region stk sc rootdir HGIC malloc c bw type p = Ret (-1, p)).
Proof.
  intros Hp Hv Hty w cookie He. assert (process_ok rootdir HGIC malloc (lit "hg0") (str "hg0") p /\ d_vif (p_dev p) = Some v) as Hr by done. split.
  - intros f Ef Hok Hbw. destruct (plan_values bw f ltac:(lia) Hok) as (Hc & Hl & Efl & Ez & Ht).
    assert (forall k, (cookie k + 1) mod 2 ^ 15 = cookie (k + 1)) as Hk by (intros k; unfold cookie; rewrite Zplus_mod_idemp_l; f_equal; lia).
    assert (cookie 0 = fc_cookie (w_ctrl w)) as H0.
    { destruct Hp as [_ [] _ _ _]. unfold cookie, w, HGIC_TX_COOKIE_MASK in *. rewrite Z.add_0_r, Z.mod_small; lia. }
    rewrite H0 in He. unfold hgic_ah_set_country_region. rewrite (bind_lift _ _ _ _ Ef). cbn [forallb region_lines].
    pose proof (chan_list_runs stk sc rootdir HGIC malloc v p (channels f) (zdrop (freq_count f) (freqlist f)) Hr ltac:(lia)) as R1.
    rewrite <- Efl, Ez in R1. unfold with_spare in R1.
    destruct (has_spare malloc _) eqn:S1 in R1 |- *; cbn [andb]; [|unfold bind at 1; by rewrite R1]. clear R1.
    destruct (chan_list_step stk sc rootdir HGIC malloc v ty id Hty p _ (channels f) (zdrop (freq_count f) (freqlist f)) Hr He Hc ltac:(lia) S1)
      as (s1 & w1 & E1 & Q1 & En1 & Se1 & D1 & C1). fold w in C1, D1, Se1. rewrite <- H0, Hk in C1. change (0 + 1) with 1 in C1. rewrite <- Efl, Ez in E1. rewrite (bind_Ret _ _ _ _ _ E1).
    pose proof (ready_after rootdir HGIC malloc v p w1 Hr Q1) as Hr1. rewrite <- C1 in En1.
    unfold hgic_iwpriv_set_bss_bw.
    pose proof (int_runs stk sc rootdir HGIC malloc v (with_world w1 p) "bss_bw"%string _ bw Hr1 ltac:(find_setting)) as R2. unfold with_spare in R2.
    destruct (has_spare malloc _) eqn:S2 in R2 |- *; cbn [andb]; [|unfold bind at 1; by rewrite R2]. clear R2.
    destruct (int_step stk sc rootdir HGIC malloc v ty id (with_world w1 p) _ "bss_bw"%string _ HGIC_CMD_SET_BSS_BW bw [bw] Hr1 En1
      ltac:(find_setting) S2 (bss_bw_accepted _ ty id _ _ Q1 Hty En1 bw ltac:(lia))) as (s2 & w2 & E2 & Q2 & En2 & Se2 & D2 & C2).
    change (d_w (p_dev (with_world w1 p))) with w1 in *. rewrite C1, Hk in C2. rewrite (bind_Ret _ _ _ _ _ E2).
    pose proof (ready_after rootdir HGIC malloc v _ w2 Hr1 Q2) as Hr2. change (1 + 1) with 2 in C2. rewrite <- C2 in En2.
    unfold hgic_iwpriv_set_txpower.
    pose proof (int_runs stk sc rootdir HGIC malloc v (with_world w2 (with_world w1 p)) "txpower"%string _ (max_txpower f) Hr2 ltac:(find_setting)) as R3.
    unfold with_spare in R3. destruct (has_spare malloc _) eqn:S3 in R3 |- *; cbn [andb]; [|unfold bind at 1; by rewrite R3]. clear R3.
    destruct (int_step stk sc rootdir HGIC malloc v ty id (with_world w2 (with_world w1 p)) _ "txpower"%string _ HGIC_CMD_SET_TX_POWER (max_txpower f)
      (put_unaligned_le32 (max_txpower f)) Hr2 En2
      ltac:(find_setting) S3 (txpower_accepted _ ty id _ _ Q2 Hty En2 _ Ht)) as (s3 & w3 & E3 & Q3 & En3 & Se3 & D3 & C3).
    change (d_w (p_dev (with_world w2 (with_world w1 p)))) with w2 in *. rewrite (bind_Ret _ _ _ _ _ E3).
    exists s1, s2, s3, w3. split; [done|]. split; [rewrite Se3, Se2, Se1; by rewrite <- !app_assoc|].
    rewrite H0, <- C2, <- C1. done.
  - intros Ef. unfold hgic_ah_set_country_region. by rewrite (bind_lift _ _ _ _ Ef).
Qed.

Lemma region_reaches_chip_witness :
  let p := demo_process [accepts 3 63 0; accepts 3 63 1; accepts 3 63 2] in
  (exists s1 s2 s3 w', hgic_ah_set_country_region [] true (str "hgicf") (lit "hgicf") demo_malloc (Some (lit "US")) 8 1 p = Ret (0, with_world w' p) /\
     w_sent w' = [s1; s2; s3] /\ skb_data s2 = cmd_frame (v_fwifidx demo_vif) HGIC_CMD_SET_BSS_BW 1 [8]) /\
  hgic_ah_set_country_region [] true (str "hgicf") (lit "hgicf") exact_malloc (Some (lit "US")) 8 1 p = Fault OutOfBounds /\
  hgic_ah_set_country_region [] true (str "hgicf") (lit "hgicf") demo_malloc (Some (lit "CN")) 8 1 p = Ret (-1, p).
Proof.
  intros p.
  destruct (region_reaches_chip [] true (str "hgicf") (lit "hgicf") demo_malloc demo_vif 3 63 [] p (Some (lit "US")) 8 1) as [H _];
    [apply demo_process_ok|done..|].
  destruct (region_reaches_chip [] true (str "hgicf") (lit "hgicf") demo_malloc demo_vif 3 63 [] p (Some (lit "CN")) 8 1) as [_ H'];
    [apply demo_process_ok|done..|].
  destruct (region_reaches_chip [] true (str "hgicf") (lit "hgicf") exact_malloc demo_vif 3 63 [] p (Some (lit "US")) 8 1) as [Hx _];
    [apply exact_process_ok|done..|].
  split; [|split; [|by apply H'; vm_compute]]; cycle 1.
  { apply (Hx (FreqInfo 4 1 22 3 (freqs [9080; 9160; 9240]))); [vm_compute; reflexivity|vm_compute; reflexivity|lia]. }
  destruct (H (FreqInfo 4 1 22 3 (freqs [9080; 9160; 9240]))) as (s1 & s2 & s3 & w' & E & Hs & _ & _ & _ & D2 & _);
    [vm_compute; reflexivity|vm_compute; reflexivity|lia|]. exists s1, s2, s3, w'. split; [exact E|]. split; [exact Hs|exact D2].
Defined.
