(* ===== verification/Sdio.v ===== *)
(** * The SDIO transport (utils/if_sdio.c)

    Everything the transport does is a conversation with its surroundings: the
    MMC host (commands, registers, block transfers, settings), the driver above
    the bus (received and completed packets), the scheduler.  A [request] is one
    such call, and the surroundings are a parameter: a state of any type and a
    function from a request to its [answer] and the next state.  An answer may
    also replace the flags that other threads and the removal set, at any call.
    The theorems hold for all surroundings; the state keeps the log of the
    requests in order.

    The constants are those of the SD and SDIO specifications that the kernel's
    headers give names to.  The flags of a command, which say how the host waits
    for its response, depend on its opcode only and are left out. *)
From S2P Require Import Prelude Bytes Proto Skb Entry Ota.

Definition ERANGE : Z := 34.
Definition SDIO_BLOCK_SIZE : Z := 64.
Definition SDIO_DATA_ADDR : Z := 0x0.
Definition SDIO_TRANS_COUNT_ADDR : Z := 0x1C.
Definition SDIO_INIT_STATUS_ADDR : Z := 0x04.
Definition SDIO_INIT_STATUS_ADDR2 : Z := 0x48.
Definition SDIO_TRANS_COUNT_ADDR2 : Z := 0x49.
Definition SDIO_BUSY_ADDR2 : Z := 0x4c.
Definition SDIO_INIT_STATUS_DATA_READY : Z := 1.
Definition SDIO_INIT_STATUS_BUSY : Z := 8.
Definition SDIO_DMA_ALIGN : Z := 4.
Definition HGIC_WLAN_4002 : Z := 0x4002.
Definition SDIO_CCCR_IENx : Z := 0x04.
Definition SDIO_CCCR_ABORT : Z := 0x06.
Definition SDIO_CCCR_IF : Z := 0x07.
Definition SDIO_CCCR_SPEED : Z := 0x13.

(** How the bus is driven. *)
Inductive bus_timing := TIMING_LEGACY | TIMING_SD_HS.

(** The calls that leave the file. *)
Inductive request :=
  | MmcCmd (opcode arg : Z) (retries : Z)        (* mmc_wait_for_cmd *)
  | ReadB (fn addr : Z) | WriteB (fn addr b : Z)  (* sdio_readb, sdio_writeb *)
  | FromIo (addr count : Z) | ToIo (addr : Z) (bs : list Z)  (* sdio_memcpy_fromio, _toio *)
  | SetClock (hz : Z) | SetTiming (t : bus_timing) | SetWidth (w : Z) | SetMaxBlk (n : Z) | SetSpiCrc (b : Z)
  | SetBlockSize (n : Z) | EnableFunc | ClaimIrq | ReleaseIrq | WakeIrqThread
  | ClaimHost | ReleaseHost
  | Delay (us : Z) | Schedule | WaitBusy (ms : Z) | CompleteBusy
  | Alloc (n : Z)                              (* kmalloc: the block, if any *)
  | RxPacket (bs : list Z) | TxComplete (s : skb) (ok : bool)
  | BusProbe | ProbePost | BusRemove | BusSuspend | BusResume.

(** [a_err]: the error or result; [a_resp]: the words of a response, or the byte
    read; [a_bytes]: what was read, or the block; [a_flags]: flags changed
    meanwhile: whether the device is stopped, and the bus flags. *)
Record answer := Answer {
  a_err : Z; a_resp : list Z; a_bytes : option (list Z); a_flags : option (bool * list hgic_bus_flag) }.

(** What the host and the card can do. *)
Record mmc_host := Host {
  h_is_spi : bool; h_cap_irq : bool; h_cap_poll : bool; h_highspeed : bool; h_4bit : bool; h_f_max : Z; h_irq_thread : bool;
  c_disable_cd : bool; c_cccr_highspeed : bool; c_low_no_wide : bool; c_highspeed : bool; c_max_dtr : Z; f_num : Z }.

Section Transport.
Context {C : Type} (react : request -> C -> answer * C).
(** The host, CONFIG_SDIO_REINIT, and the size of the receive buffer. *)
Context (host : mmc_host) (reinit : bool) (max_pkt_len : Z).

Record hgic_sdio := SdioDev {
  sd_env : C; sd_log : list request;
  sd_bound : bool;               (* the function has the device as its data *)
  sd_stop : bool;                (* SDIO_STATUS_STOP *)
  sd_flags : list hgic_bus_flag;
  sd_dev_id : Z;
  sd_data_addr : Z; sd_trans_cnt_addr : Z; sd_int_status_addr : Z;
  sd_rx_retry : Z; sd_busypd : bool }.

Definition set_busypd (b : bool) (s : hgic_sdio) : hgic_sdio :=
  SdioDev (sd_env s) (sd_log s) (sd_bound s) (sd_stop s) (sd_flags s) (sd_dev_id s) (sd_data_addr s) (sd_trans_cnt_addr s)
    (sd_int_status_addr s) (sd_rx_retry s) b.
Definition set_bound (b : bool) (s : hgic_sdio) : hgic_sdio :=
  SdioDev (sd_env s) (sd_log s) b (sd_stop s) (sd_flags s) (sd_dev_id s) (sd_data_addr s) (sd_trans_cnt_addr s)
    (sd_int_status_addr s) (sd_rx_retry s) (sd_busypd s).
Definition set_sd_flags (stop : bool) (f : list hgic_bus_flag) (s : hgic_sdio) : hgic_sdio :=
  SdioDev (sd_env s) (sd_log s) (sd_bound s) stop f (sd_dev_id s) (sd_data_addr s) (sd_trans_cnt_addr s)
    (sd_int_status_addr s) (sd_rx_retry s) (sd_busypd s).
Definition after_request (r : request) (c : C) (f : option (bool * list hgic_bus_flag)) (s : hgic_sdio) : hgic_sdio :=
  let '(stop, flags) := default (sd_stop s, sd_flags s) f in
  SdioDev c (sd_log s ++ [r]) (sd_bound s) stop flags (sd_dev_id s) (sd_data_addr s) (sd_trans_cnt_addr s)
    (sd_int_status_addr s) (sd_rx_retry s) (sd_busypd s).

Definition sd_ask (r : request) : M hgic_sdio answer := fun s =>
  let '(a, c) := react r (sd_env s) in Ret (a, after_request r c (a_flags a) s).
Definition sd_do (r : request) : M hgic_sdio unit := let! _ := sd_ask r in ret tt.
(** A call with a result only. *)
Definition sd_try (r : request) : M hgic_sdio Z := let! a := sd_ask r in ret (a_err a).
Definition resp_word (i : nat) (a : answer) : Z := u32 (nth i (a_resp a) 0).
Definition sd_test_bit (f : hgic_bus_flag) : M hgic_sdio bool := gets (fun s => bool_decide (f ∈ sd_flags s)).

(** ** Settings of the host *)
Definition hgic_mmc_set_clock (hz : Z) : M hgic_sdio unit :=
  sd_do (SetClock (if negb (h_f_max host =? 0) && (h_f_max host <? hz) then h_f_max host else hz)).
Definition hgic_mmc_set_timing (t : bus_timing) : M hgic_sdio unit := sd_do (SetTiming t).
Definition hgic_mmc_set_bus_width (w : Z) : M hgic_sdio unit := sd_do (SetWidth w).
Definition hgic_mmc_set_blk_size (n : Z) : M hgic_sdio unit := sd_do (SetMaxBlk n).
Definition hgic_mmc_send_cmd (opcode arg retries : Z) : M hgic_sdio answer := sd_ask (MmcCmd opcode (u32 arg) retries).

(** ** Commands *)
(** The error, and the byte stored in [out]. *)
Definition hgic_mmc_io_rw_direct (write : bool) (fn addr in_ : Z) (out : bool) : M hgic_sdio (Z * option Z) :=
  if negb (Z.land addr (Z.lnot 0x1FFFF) =? 0) then ret (- EINVAL, None) else
  let arg := if write then 0x80000000 else 0x00000000 in
  let arg := Z.lor arg (Z.shiftl fn 28) in
  let arg := Z.lor arg (if write && out then 0x08000000 else 0x00000000) in
  let arg := Z.lor arg (Z.shiftl addr 9) in
  let arg := Z.lor arg in_ in
  let! cmd := hgic_mmc_send_cmd 52 arg 0 in
  if negb (a_err cmd =? 0) then ret (a_err cmd, None) else
  if negb (h_is_spi host) && Z.testbit (resp_word 0 cmd) 11 then ret (- EIO, None) else
  if negb (h_is_spi host) && Z.testbit (resp_word 0 cmd) 9 then ret (- EINVAL, None) else
  if negb (h_is_spi host) && Z.testbit (resp_word 0 cmd) 8 then ret (- ERANGE, None) else
  ret (0, if out then Some (if h_is_spi host then Z.land (Z.shiftr (resp_word 0 cmd) 8) 0xFF else Z.land (resp_word 0 cmd) 0xFF) else None).

Definition hgic_sdio_reset : M hgic_sdio Z :=
  let! r := hgic_mmc_io_rw_direct false 0 SDIO_CCCR_ABORT 0 true in
  let! abort := (if negb (fst r =? 0) then ret 0x08 else let! abort := lift (deref (snd r)) in ret (Z.lor abort 0x08)) in
  let! r := hgic_mmc_io_rw_direct true 0 SDIO_CCCR_ABORT abort false in
  ret (fst r).

Definition hgic_sdio_go_idle : M hgic_sdio Z :=
  let! cmd := hgic_mmc_send_cmd 0 0 0 in
  sd_do (Delay 1000) ;;;
  sd_do (SetSpiCrc 0) ;;;
  ret (a_err cmd).

Definition hgic_mmc_send_if_cond (ocr : Z) : M hgic_sdio Z :=
  let test_pattern := 0xAA in
  let! cmd := hgic_mmc_send_cmd 8 (Z.lor (Z.shiftl (Z.b2z (negb (Z.land ocr 0xFF8000 =? 0))) 8) test_pattern) 0 in
  if negb (a_err cmd =? 0) then ret (a_err cmd) else
  let result_pattern := Z.land (if h_is_spi host then resp_word 1 cmd else resp_word 0 cmd) 0xFF in
  if negb (result_pattern =? test_pattern) then ret (- EIO) else ret 0.

(** [i] rounds are left; the error and the last response. *)
Fixpoint io_op_loop (i : nat) (ocr err resp : Z) : M hgic_sdio (Z * Z) :=
  match i with
  | O => ret (err, resp)
  | S i =>
      let! cmd := hgic_mmc_send_cmd 5 ocr 3 in
      let resp := if h_is_spi host then resp_word 1 cmd else resp_word 0 cmd in
      if negb (a_err cmd =? 0) then ret (a_err cmd, resp) else
      if ocr =? 0 then ret (0, resp) else
      if Z.testbit resp 31 then ret (0, resp) else
      sd_do (Delay 10000) ;;;
      io_op_loop i ocr (- ETIMEDOUT) resp
  end.
Definition hgic_send_io_op_cond (ocr : Z) : M hgic_sdio (Z * Z) := io_op_loop 10 ocr 0 0.

Definition hgic_sdio_get_card_addr (rca : Z) : M hgic_sdio (Z * Z) :=
  let! cmd := hgic_mmc_send_cmd 3 0 3 in
  if negb (a_err cmd =? 0) then ret (a_err cmd, rca) else ret (0, Z.shiftr (resp_word 0 cmd) 16).

(** The result is unsigned. *)
Definition hgic_sdio_set_highspeed (enable : bool) : M hgic_sdio Z :=
  if negb (h_highspeed host) then ret 0 else
  if negb (c_cccr_highspeed host) then ret 0 else
  let! r := hgic_mmc_io_rw_direct false 0 SDIO_CCCR_SPEED 0 true in
  if negb (fst r =? 0) then ret (u32 (fst r)) else
  let! speed := lift (deref (snd r)) in
  let speed := if enable then Z.lor speed 2 else Z.land speed (Z.lnot 2) in
  let! r := hgic_mmc_io_rw_direct true 0 SDIO_CCCR_SPEED speed false in
  if negb (fst r =? 0) then ret (u32 (fst r)) else ret 1.

Definition hgic_sdio_disable_cd : M hgic_sdio Z :=
  if negb (c_disable_cd host) then ret 0 else
  let! r := hgic_mmc_io_rw_direct false 0 SDIO_CCCR_IF 0 true in
  if negb (fst r =? 0) then ret (fst r) else
  let! ctrl := lift (deref (snd r)) in
  let! r := hgic_mmc_io_rw_direct true 0 SDIO_CCCR_IF (Z.lor ctrl 0x80) false in
  ret (fst r).

Definition hgic_sdio_set_wire_width : M hgic_sdio Z :=
  if negb (h_4bit host) then ret 0 else
  if c_low_no_wide host then ret 0 else
  let! r := hgic_mmc_io_rw_direct false 0 SDIO_CCCR_IF 0 true in
  if negb (fst r =? 0) then ret (fst r) else
  let! ctrl := lift (deref (snd r)) in
  let ctrl := Z.lor (Z.land ctrl (Z.lnot 3)) 2 in
  let! r := hgic_mmc_io_rw_direct true 0 SDIO_CCCR_IF ctrl false in
  if negb (fst r =? 0) then ret (fst r) else
  hgic_mmc_set_bus_width 4 ;;; ret 1.

Definition hgic_sdio_select_card (rca : Z) : M hgic_sdio Z :=
  let! cmd := hgic_mmc_send_cmd 7 (Z.shiftl rca 16) 3 in
  ret (u32 (a_err cmd)).

Definition hgic_sdio_int_enable (enable : bool) : M hgic_sdio Z :=
  let dat := if enable then Z.lor (u8 (Z.shiftl 1 (f_num host))) 1 else 1 in
  let! r := hgic_mmc_io_rw_direct true 0 SDIO_CCCR_IENx dat true in ret (fst r).

Definition hgic_mmc_spi_set_crc (use_crc : Z) : M hgic_sdio Z :=
  let! cmd := hgic_mmc_send_cmd 59 use_crc 0 in
  (if a_err cmd =? 0 then sd_do (SetSpiCrc use_crc) else ret tt) ;;;
  ret (a_err cmd).

(** ** Bringing the card up again *)
(** [goto __RETRY] unless the call returned 0. *)
Definition zero_or_retry (m : M hgic_sdio Z) (k : M hgic_sdio bool) : M hgic_sdio bool :=
  let! r := m in if negb (r =? 0) then ret false else k.
Definition neg_or_retry (m : M hgic_sdio Z) (k : M hgic_sdio bool) : M hgic_sdio bool :=
  let! r := m in if r <? 0 then ret false else k.

(** One round: whether the end was reached. *)
Definition reinit_round : M hgic_sdio bool :=
  hgic_mmc_set_clock 400000 ;;;
  hgic_mmc_set_timing TIMING_LEGACY ;;;
  hgic_mmc_set_bus_width 1 ;;;
  let! r := hgic_sdio_get_card_addr 0 in
  let rca := snd r in
  (if fst r =? 0 then let! _ := hgic_sdio_select_card rca in ret tt else ret tt) ;;;
  let! _ := hgic_sdio_reset in
  let! _ := hgic_sdio_go_idle in
  let! _ := hgic_mmc_send_if_cond 0 in
  let! r := hgic_send_io_op_cond 0 in
  if negb (fst r =? 0) then ret false else
  let! r := hgic_send_io_op_cond (snd r) in
  if negb (fst r =? 0) then ret false else
  let rest :=
    neg_or_retry (hgic_sdio_set_highspeed true) (
    hgic_mmc_set_clock (if c_highspeed host then 50000000 else c_max_dtr host) ;;;
    hgic_mmc_set_timing TIMING_SD_HS ;;;
    hgic_mmc_set_blk_size SDIO_BLOCK_SIZE ;;;
    neg_or_retry hgic_sdio_set_wire_width (
    zero_or_retry (sd_try (SetBlockSize SDIO_BLOCK_SIZE)) (
    zero_or_retry (hgic_sdio_int_enable true) (
    zero_or_retry (sd_try EnableFunc) (
    (if h_irq_thread host then sd_do WakeIrqThread else ret tt) ;;;
    ret true))))) in
  if h_is_spi host then zero_or_retry (hgic_mmc_spi_set_crc 1) rest
  else
    let! r := hgic_sdio_get_card_addr rca in
    if negb (fst r =? 0) then ret false else
    zero_or_retry (hgic_sdio_select_card (snd r)) (
    neg_or_retry hgic_sdio_disable_cd rest).

(** [retry] rounds are over; [fuel] bounds the jumps back. *)
Fixpoint sdio_reinit_loop (fuel : nat) (retry : Z) : M hgic_sdio Z :=
  match fuel with
  | O => fail Diverges
  | S fuel =>
      let! bound := gets sd_bound in
      let! no := sd_test_bit HGIC_BUS_FLAGS_DISABLE_REINIT in
      let! sleep := sd_test_bit HGIC_BUS_FLAGS_SLEEP in
      if negb bound || no || sleep then ret (-1) else
      if 2 <? retry then ret (-1) else
      let! done_ := reinit_round in
      if done_ : bool then ret 0 else sdio_reinit_loop fuel (retry + 1)
  end.
Definition hgic_sdio_reinit_card : M hgic_sdio Z :=
  if reinit then sdio_reinit_loop 5 0 else ret 0.

Definition hgic_sdio_reinit : M hgic_sdio Z :=
  sd_do ClaimHost ;;;
  let! r := hgic_sdio_reinit_card in
  sd_do ReleaseHost ;;;
  ret r.

(** ** Registers and blocks *)
(** The byte and the error of the last read. *)
Definition sdio_readb (fn addr : Z) : M hgic_sdio (Z * Z) :=
  let! a := sd_ask (ReadB fn addr) in ret (u8 (nth 0 (a_resp a) 0), a_err a).

Fixpoint readb_retry (retry : nat) (fn addr : Z) (r : Z * Z) : M hgic_sdio (Z * Z) :=
  match retry with
  | O => ret r
  | S retry =>
      if negb (snd r =? 0) then let! r := sdio_readb fn addr in readb_retry retry fn addr r
      else ret r
  end.
Definition hgic_sdio_readb (fn addr : Z) : M hgic_sdio (Z * Z) :=
  let! r := sdio_readb fn addr in readb_retry 2 fn addr r.

Fixpoint writeb_retry (retry : nat) (fn b addr : Z) : M hgic_sdio Z :=
  let! err := sd_try (WriteB fn addr b) in
  match retry with
  | O => ret err
  | S retry => if negb (err =? 0) then writeb_retry retry fn b addr else ret err
  end.
Definition hgic_sdio_writeb (fn b addr : Z) : M hgic_sdio Z := writeb_retry 4 fn b addr.

(** The bytes read and the error. *)
Definition hgic_sdio_copy_fromio (dest : list Z) (addr count : Z) : M hgic_sdio (Z * list Z) :=
  let! _ := lift (oguard (count <=? zlen dest) OutOfBounds) in
  let! a := sd_ask (FromIo addr count) in
  let bs := resize (Z.to_nat count) 0 (default [] (a_bytes a)) in
  (if negb (a_err a =? 0) then let! _ := hgic_sdio_reinit_card in ret tt else ret tt) ;;;
  ret (a_err a, bs).

Definition hgic_sdio_copy_toio (addr : Z) (bs : list Z) : M hgic_sdio Z :=
  let! err := sd_try (ToIo addr bs) in
  if negb (err =? 0) then
    let! r := hgic_sdio_reinit_card in
    if r =? 0 then sd_try (ToIo addr bs) else ret err
  else ret err.

Definition hgic_sdio_abort : M hgic_sdio Z := hgic_sdio_writeb 0 1 6.

Definition hgic_sdio_read_cccr : M hgic_sdio (Z * Z) := hgic_sdio_readb 0 0x5.

Definition hgic_sdio_get_datalen (addr : Z) : M hgic_sdio Z :=
  let! lo := hgic_sdio_readb (f_num host) (u8 addr) in
  if negb (snd lo =? 0) then ret 0xffffffff else
  let! hi := hgic_sdio_readb (f_num host) (u8 addr + 1) in
  if negb (snd hi =? 0) then ret 0xffffffff else
  ret (Z.lor (fst lo) (Z.shiftl (fst hi) 8)).

Definition hgic_sdio_data_len : M hgic_sdio Z :=
  let! inboot := sd_test_bit HGIC_BUS_FLAGS_INBOOT in
  let! len := (if negb inboot then
                 let! id := gets sd_dev_id in
                 if id =? HGIC_WLAN_4002 then hgic_sdio_get_datalen SDIO_TRANS_COUNT_ADDR2
                 else let! r := sdio_readb (f_num host) SDIO_TRANS_COUNT_ADDR2 in
                      ret (fst r * SDIO_BLOCK_SIZE)
               else ret 0) in
  let! len := (if (len =? 0) || (len =? 0xffffffff) then
                 let! addr := gets sd_trans_cnt_addr in hgic_sdio_get_datalen addr
               else ret len) in
  let! len := (if len =? 0 then
                 let! inboot := sd_test_bit HGIC_BUS_FLAGS_INBOOT in
                 ret (if inboot : bool then 16 else 0xFFFFFFFF)
               else ret len) in
  ret (if (0 <? len) && (len <? 8) then len * SDIO_BLOCK_SIZE else len).

(** ** The interrupt *)
Definition hgic_sdio_int_status : M hgic_sdio Z :=
  let! p := hgic_sdio_read_cccr in
  let '(pending, err) := p in
  if (err =? 0) && negb (Z.land pending 2 =? 0) then
    let! addr := gets sd_int_status_addr in
    let! r := hgic_sdio_readb (f_num host) addr in
    let '(int_status1, err) := r in
    let! inboot := sd_test_bit HGIC_BUS_FLAGS_INBOOT in
    let! int_status1 := (if (err =? 0) && (int_status1 =? 0) && negb inboot then
                           let! r := hgic_sdio_readb (f_num host) SDIO_INIT_STATUS_ADDR2 in ret (fst r)
                         else ret int_status1) in
    (if int_status1 =? 0 then let! _ := hgic_sdio_abort in ret tt else ret tt) ;;;
    ret int_status1
  else ret 0.

(** What a round of the handler ends with: a return, or [ret] and [read_more]. *)
Inductive round := Leave | Round (r read_more : Z).

(** The received data, when the status says there are some. *)
Definition interrupt_data : M hgic_sdio (option Z) :=
  let! len := hgic_sdio_data_len in
  if len =? 0xFFFFFFFF then
    let! _ := hgic_sdio_abort in let! _ := hgic_sdio_reinit_card in ret None
  else if 0 <? len then
    if max_pkt_len <? len then let! _ := hgic_sdio_abort in ret None else
    let! addr := gets sd_data_addr in
    let! r := hgic_sdio_copy_fromio (replicate (Z.to_nat max_pkt_len) 0) addr len in
    if negb (fst r =? 0) then ret None else
    let! r := sd_try (RxPacket (snd r)) in
    (if negb (r =? 0) then let! _ := hgic_sdio_abort in ret tt else ret tt) ;;;
    ret (Some r)
  else let! _ := hgic_sdio_abort in ret (Some 0).

Definition interrupt_round (read_more : Z) : M hgic_sdio round :=
  let! int_status := hgic_sdio_int_status in
  let! r := (if negb (Z.land int_status SDIO_INIT_STATUS_DATA_READY =? 0) then
               let! more := gets sd_rx_retry in
               let! r := interrupt_data in
               ret (match r with Some r => Round r more | None => Leave end)
             else ret (Round 0 read_more)) in
  match r with
  | Leave => ret Leave
  | Round r read_more =>
      let! busypd := gets sd_busypd in
      (if negb (Z.land int_status SDIO_INIT_STATUS_BUSY =? 0) && busypd then sd_do CompleteBusy else ret tt) ;;;
      (if (int_status =? 0) && (0 <? read_more) then sd_do (Delay 20) else ret tt) ;;;
      ret (Round r read_more)
  end.

(** The rounds; as long as the card has data there is another one. *)
Fixpoint interrupt_loop (fuel : nat) (read_more : Z) : M hgic_sdio unit :=
  match fuel with
  | O => fail Diverges
  | S fuel =>
      let! r := interrupt_round read_more in
      match r with
      | Leave => ret tt
      | Round r read_more => if (r =? 0) && (0 <? read_more) then interrupt_loop fuel (read_more - 1) else ret tt
      end
  end.
Definition hgic_sdio_interrupt (fuel : nat) : M hgic_sdio unit :=
  let! off := gets (fun s => negb (sd_bound s) || sd_stop s) in
  if off : bool then ret tt else
  let! read_more := gets sd_rx_retry in
  interrupt_loop fuel read_more.

(** ** Transmitting *)
Definition hgic_sdio_is_busy : M hgic_sdio bool :=
  let! r := hgic_sdio_readb (f_num host) SDIO_BUSY_ADDR2 in
  let '(val, err) := r in
  (if negb (err =? 0) then let! _ := hgic_sdio_reinit_card in ret tt else ret tt) ;;;
  ret (negb (err =? 0) || negb (Z.land val 0x01 =? 0)).

(** The device is stopped or the bus asleep. *)
Definition off : M hgic_sdio bool :=
  let! stop := gets sd_stop in
  let! sleep := sd_test_bit HGIC_BUS_FLAGS_SLEEP in
  ret (stop || sleep).

(** Waiting for the card: whether the frame may be sent; otherwise it was handed
    back. *)
Fixpoint busy_loop (fuel : nat) (s : skb) (busy : bool) (loop : Z) : M hgic_sdio bool :=
  match fuel with
  | O => fail Diverges
  | S fuel =>
      let! softfc := sd_test_bit HGIC_BUS_FLAGS_SOFTFC in
      if negb busy || softfc then ret true else
      let! busy := hgic_sdio_is_busy in
      if busy : bool then
        if 5 <? loop then
          modify (set_busypd true) ;;;
          sd_do ReleaseHost ;;;
          sd_do (WaitBusy 10) ;;;
          sd_do ClaimHost ;;;
          modify (set_busypd false) ;;;
          let! o := off in
          if o : bool then
            sd_do (TxComplete s false) ;;;
            sd_do ReleaseHost ;;;
            ret false
          else busy_loop fuel s true 0
        else busy_loop fuel s true (loop + 1)
      else busy_loop fuel s false loop
  end.

Definition align (n a : Z) : Z := Z.land (n + (a - 1)) (Z.lnot (a - 1)).
Definition sdio_tx_len (s : skb) : Z :=
  if SDIO_BLOCK_SIZE <? skb_len s then align (skb_len s) SDIO_BLOCK_SIZE else align (skb_len s) 4.

(** The bytes to send: from the frame, or from an aligned copy that may not be
    had.  [addr] is the address of the data. *)
Definition tx_bytes (addr : Z) (s : skb) : M hgic_sdio (option (list Z)) :=
  let len := sdio_tx_len s in
  if addr mod SDIO_DMA_ALIGN =? 0 then let! bs := lift (skb_read s 0 len) in ret (Some bs) else
  let! a := sd_ask (Alloc (len + SDIO_DMA_ALIGN)) in
  match a_bytes a with
  | None => ret None
  | Some p =>
      let p := resize (Z.to_nat (len + SDIO_DMA_ALIGN)) 0 p in
      let! p := lift (mem_write p 0 (skb_data s)) in
      let! bs := lift (mem_read p 0 len) in ret (Some bs)
  end.

Definition hgic_sdio_tx_packet (fuel : nat) (addr : Z) (s : skb) : M hgic_sdio Z :=
  sd_do Schedule ;;;
  sd_do ClaimHost ;;;
  let! o := off in
  if o : bool then
    sd_do (TxComplete s false) ;;;
    sd_do ReleaseHost ;;;
    ret (-1)
  else
    let! go := busy_loop fuel s true 0 in
    if negb go then ret (-1) else
    let! bs := tx_bytes addr s in
    match bs with
    | None =>
        sd_do ReleaseHost ;;;
        sd_do (TxComplete s false) ;;;
        ret (-1)
    | Some bs =>
        let! data_addr := gets sd_data_addr in
        let! r := hgic_sdio_copy_toio data_addr bs in
        sd_do ReleaseHost ;;;
        sd_do (TxComplete s (r =? 0)) ;;;
        ret r
    end.

(** ** Set-up and removal *)
Definition hgic_sdio_enable : M hgic_sdio Z :=
  sd_do ClaimHost ;;;
  hgic_mmc_set_blk_size SDIO_BLOCK_SIZE ;;;
  let! r := sd_try (SetBlockSize SDIO_BLOCK_SIZE) in
  let! r := (if negb (r =? 0) then ret r else
             let! r := sd_try ClaimIrq in
             if negb (r =? 0) then ret r else
             let! r := sd_try EnableFunc in
             (if negb (r =? 0) then sd_do ReleaseIrq else ret tt) ;;;
             ret r) in
  sd_do ReleaseHost ;;;
  ret r.

(** The label __failed, with the result so far. *)
Definition sdio_probe_failed (has_remove : bool) (r : Z) : M hgic_sdio Z :=
  modify (set_bound false) ;;;
  (if has_remove then sd_do BusRemove else ret tt) ;;;
  ret r.

(** The device a probe makes; the surroundings and the log go on. *)
Definition new_sdio (dev_id : Z) (s : hgic_sdio) : hgic_sdio :=
  SdioDev (sd_env s) (sd_log s) false false (if negb (h_cap_poll host) then [HGIC_BUS_FLAGS_NOPOLL] else []) dev_id
    SDIO_DATA_ADDR SDIO_TRANS_COUNT_ADDR SDIO_INIT_STATUS_ADDR (if h_cap_irq host then 0 else 5) false.

(** The driver's probe leaves the callbacks it registers: whether it gave a
    private structure, and has a remove and a post-probe function. *)
Definition hgic_sdio_probe (dev_id : Z) (has_priv has_remove has_post : bool) : M hgic_sdio Z :=
  if negb (f_num host =? 1) then ret (- ENODEV) else
  let! m := sd_ask (Alloc 0) in
  match a_bytes m with
  | None => ret (- ENOMEM)
  | Some _ =>
      let! rxbuf := sd_ask (Alloc max_pkt_len) in
      match a_bytes rxbuf with
      | None => sdio_probe_failed false 0
      | Some _ =>
          modify (new_sdio dev_id) ;;;
          sd_do BusProbe ;;;
          if negb has_priv then sdio_probe_failed has_remove 0 else
          modify (set_bound true) ;;;
          let! r := hgic_sdio_enable in
          if negb (r =? 0) then sdio_probe_failed has_remove r else
          (if has_post : bool then sd_do ProbePost else ret tt) ;;;
          ret r
      end
  end.

Definition hgic_sdio_remove (has_remove : bool) : M hgic_sdio unit :=
  let! bound := gets sd_bound in
  if negb bound then ret tt else
  modify (fun s => set_sd_flags (sd_stop s) (HGIC_BUS_FLAGS_DISABLE_REINIT :: sd_flags s) s) ;;;
  modify (fun s => set_sd_flags true (sd_flags s) s) ;;;
  sd_do ClaimHost ;;;
  sd_do ReleaseIrq ;;;
  sd_do ReleaseHost ;;;
  (if has_remove then sd_do BusRemove else ret tt) ;;;
  sd_do ClaimHost ;;;
  modify (set_bound false) ;;;
  sd_do ReleaseHost.

(** The function has its device as data. *)
Definition hgic_sdio_suspend (has_suspend : bool) : M hgic_sdio Z := if has_suspend then sd_try BusSuspend else ret 0.
Definition hgic_sdio_resume (has_resume : bool) : M hgic_sdio Z := if has_resume then sd_try BusResume else ret 0.

(** ** What every operation respects *)
(** [sat R Q m]: wherever [m] is run it ends without fault, the states before and
    after are related by [R], and the result satisfies [Q]. *)
Definition sat (R : hgic_sdio -> hgic_sdio -> Prop) {A} (Q : A -> Prop) (m : M hgic_sdio A) : Prop :=
  forall s, match m s with Ret (a, s') => R s s' /\ Q a | Fault _ => False end.

(** The requests of the helpers: commands, single registers, settings. *)
Definition card_request (r : request) : bool :=
  match r with
  | MmcCmd _ _ _ | ReadB _ _ | WriteB _ _ _ | SetClock _ | SetTiming _ | SetWidth _ | SetMaxBlk _ | SetSpiCrc _
  | SetBlockSize _ | EnableFunc | WakeIrqThread | Delay _ => true
  | _ => false
  end.

Section Respects.
Context (R : hgic_sdio -> hgic_sdio -> Prop) `{!PreOrder R}.

Lemma sat_ret {A} (Q : A -> Prop) a : Q a -> sat R Q (ret a).
Proof. intros H s. by split. Qed.
Lemma sat_gets {A} (Q : A -> Prop) f : (forall s, Q (f s)) -> sat R Q (gets f).
Proof. intros H s. by split. Qed.
Lemma sat_bind {A B} (Q1 : A -> Prop) (Q : B -> Prop) m k :
  sat R Q1 m -> (forall a, Q1 a -> sat R Q (k a)) -> sat R Q (bind m k).
Proof.
  intros Hm Hk s. specialize (Hm s). unfold bind. destruct (m s) as [[a s1]|f]; [|done]. destruct Hm as [H1 Ha].
  specialize (Hk a Ha s1). destruct (k a s1) as [[b s2]|f]; [|done]. destruct Hk as [H2 Hb]. split; [by transitivity s1|done].
Qed.
Lemma sat_weaken {A} (Q Q' : A -> Prop) m : sat R Q m -> (forall a, Q a -> Q' a) -> sat R Q' m.
Proof. intros H HQ s. specialize (H s). destruct (m s) as [[a s1]|f]; [|done]. destruct H. auto. Qed.
Lemma sat_lift {A} (Q : A -> Prop) (o : outcome A) a : o = Ret a -> Q a -> sat R Q (lift o).
Proof. intros -> H s. by split. Qed.

Hypothesis Hask : forall r, card_request r = true -> sat R (fun _ => True) (sd_ask r).

Lemma sat_do r : card_request r = true -> sat R (fun _ => True) (sd_do r).
Proof. intros H. eapply sat_bind; [by apply Hask|]. intros. by apply sat_ret. Qed.
Lemma sat_try r : card_request r = true -> sat R (fun _ => True) (sd_try r).
Proof. intros H. eapply sat_bind; [by apply Hask|]. intros. by apply sat_ret. Qed.
Lemma sat_bit f : sat R (fun _ => True) (sd_test_bit f).
Proof. by apply sat_gets. Qed.

Create HintDb sat.
#[local] Hint Resolve sat_bit : sat.
#[local] Hint Extern 2 (sat _ _ (ret _)) => (apply sat_ret; exact I) : sat.
#[local] Hint Extern 2 (sat _ _ (sd_ask _)) => (apply Hask; reflexivity) : sat.
#[local] Hint Extern 2 (sat _ _ (sd_do _)) => (apply sat_do; reflexivity) : sat.
#[local] Hint Extern 2 (sat _ _ (sd_try _)) => (apply sat_try; reflexivity) : sat.
#[local] Hint Extern 3 (sat _ _ (gets _)) => (apply sat_gets; intros; exact I) : sat.
(** Down to the helpers, through the branches. *)
Ltac sat :=
  repeat first
    [ solve [eauto 2 with sat]
    | match goal with
      | |- sat _ _ (bind _ _) => eapply (sat_bind (fun _ => True)); [|intros ? ?]
      | |- sat _ _ (if ?b then _ else _) => destruct b
      | |- sat _ _ (match ?x with _ => _ end) => destruct x
      | |- sat _ _ (let x := _ in _) => cbv zeta
      end ].

(** A register read that reports no error has a byte. *)
Lemma sat_rw write fn addr in_ out :
  sat R (fun r => fst r = 0 -> out = true -> is_Some (snd r)) (hgic_mmc_io_rw_direct write fn addr in_ out).
Proof.
  unfold hgic_mmc_io_rw_direct. destruct (negb _); [by apply sat_ret|]. cbv zeta.
  eapply sat_bind; [by apply Hask|]. intros cmd _. destruct (Z.eqb_spec (a_err cmd) 0) as [E|E]; [|by apply sat_ret]. cbn [negb].
  repeat (match goal with |- sat _ _ (if ?b then _ else _) => destruct b end; [by apply sat_ret|]).
  apply sat_ret. intros _ ->. by eexists.
Qed.
Lemma sat_rw_any write fn addr in_ out : sat R (fun _ => True) (hgic_mmc_io_rw_direct write fn addr in_ out).
Proof. by eapply sat_weaken; [apply sat_rw|]. Qed.
#[local] Hint Resolve sat_rw_any : sat.

(** Reading a register and using its value. *)
Lemma sat_read_reg {A} (Q : A -> Prop) fn addr (k1 : Z * option Z -> M hgic_sdio A) (k2 : Z -> M hgic_sdio A) :
  (forall r, sat R Q (k1 r)) -> (forall v, sat R Q (k2 v)) ->
  sat R Q (let! r := hgic_mmc_io_rw_direct false fn addr 0 true in
           if negb (fst r =? 0) then k1 r else let! v := lift (deref (snd r)) in k2 v).
Proof.
  intros H1 H2. eapply sat_bind; [apply sat_rw|]. intros [e o] Hr. cbn [fst snd] in *. destruct (Z.eqb_spec e 0) as [->|]; cbn [negb]; [|done].
  destruct (Hr eq_refl eq_refl) as [v ->]. by eapply (sat_bind (fun _ => True)); [eapply sat_lift|].
Qed.

Lemma sat_reset : sat R (fun _ => True) hgic_sdio_reset.
Proof.
  unfold hgic_sdio_reset. eapply sat_bind; [apply sat_rw|]. intros [e o] Hr. cbn [fst snd] in *.
  eapply (sat_bind (fun _ => True)); [|intros; sat]. destruct (Z.eqb_spec e 0) as [->|]; cbn [negb]; [|sat].
  destruct (Hr eq_refl eq_refl) as [v ->]. eapply (sat_bind (fun _ => True)); [by eapply sat_lift|intros; sat].
Qed.
Lemma sat_go_idle : sat R (fun _ => True) hgic_sdio_go_idle.
Proof. unfold hgic_sdio_go_idle, hgic_mmc_send_cmd. sat. Qed.
Lemma sat_if_cond ocr : sat R (fun _ => True) (hgic_mmc_send_if_cond ocr).
Proof. unfold hgic_mmc_send_if_cond, hgic_mmc_send_cmd. sat. Qed.
Lemma sat_io_op_loop i ocr err resp : sat R (fun _ => True) (io_op_loop i ocr err resp).
Proof. revert err resp. induction i; intros; cbn [io_op_loop]; unfold hgic_mmc_send_cmd; sat. Qed.
Lemma sat_io_op ocr : sat R (fun _ => True) (hgic_send_io_op_cond ocr).
Proof. apply sat_io_op_loop. Qed.
Lemma sat_card_addr rca : sat R (fun _ => True) (hgic_sdio_get_card_addr rca).
Proof. unfold hgic_sdio_get_card_addr, hgic_mmc_send_cmd. sat. Qed.
Lemma sat_select rca : sat R (fun _ => True) (hgic_sdio_select_card rca).
Proof. unfold hgic_sdio_select_card, hgic_mmc_send_cmd. sat. Qed.
Lemma sat_int_enable e : sat R (fun _ => True) (hgic_sdio_int_enable e).
Proof. unfold hgic_sdio_int_enable. sat. Qed.
Lemma sat_spi_crc c : sat R (fun _ => True) (hgic_mmc_spi_set_crc c).
Proof. unfold hgic_mmc_spi_set_crc, hgic_mmc_send_cmd. sat. Qed.
(** The result of an unsigned function is never negative. *)
Lemma sat_highspeed e : sat R (fun r => 0 <= r) (hgic_sdio_set_highspeed e).
Proof.
  assert (forall v, 0 <= u32 v) as Hu by (intros v; unfold u32; apply Z.mod_pos_bound; lia).
  unfold hgic_sdio_set_highspeed. destruct (negb _); [by apply sat_ret|]. destruct (negb _); [by apply sat_ret|].
  apply sat_read_reg; [intros r; by apply sat_ret|]. intros v. cbv zeta. eapply sat_bind; [apply sat_rw_any|]. intros r _.
  by destruct (negb _); apply sat_ret.
Qed.
Lemma sat_disable_cd : sat R (fun _ => True) hgic_sdio_disable_cd.
Proof. unfold hgic_sdio_disable_cd. destruct (negb _); [sat|]. apply sat_read_reg; intros; sat. Qed.
Lemma sat_wire_width : sat R (fun _ => True) hgic_sdio_set_wire_width.
Proof.
  unfold hgic_sdio_set_wire_width. destruct (negb _); [sat|]. destruct (c_low_no_wide host); [sat|].
  apply sat_read_reg; intros; unfold hgic_mmc_set_bus_width; sat.
Qed.
#[local] Hint Resolve sat_reset sat_go_idle sat_if_cond sat_io_op sat_card_addr sat_select sat_int_enable sat_spi_crc
  sat_disable_cd sat_wire_width : sat.

Lemma sat_zero m k : sat R (fun _ => True) m -> sat R (fun _ => True) k -> sat R (fun _ => True) (zero_or_retry m k).
Proof. intros Hm Hk. unfold zero_or_retry. sat. Qed.
Lemma sat_neg m k : sat R (fun _ => True) m -> sat R (fun _ => True) k -> sat R (fun _ => True) (neg_or_retry m k).
Proof. intros Hm Hk. unfold neg_or_retry. sat. Qed.

Lemma sat_reinit_round : sat R (fun _ => True) reinit_round.
Proof.
  assert (sat R (fun _ => True) (hgic_sdio_set_highspeed true)) by by eapply sat_weaken; [apply sat_highspeed|].
  unfold reinit_round, hgic_mmc_set_clock, hgic_mmc_set_timing, hgic_mmc_set_bus_width, hgic_mmc_set_blk_size.
  repeat first [progress sat | apply sat_zero | apply sat_neg].
Qed.

(** Three rounds at most. *)
Lemma sat_reinit_loop_result fuel retry :
  (0 < fuel)%nat -> 4 - retry <= Z.of_nat fuel -> sat R (fun r => r = 0 \/ r = -1) (sdio_reinit_loop fuel retry).
Proof.
  revert retry. induction fuel as [|fuel IH]; intros retry Hf Hr; [lia|]. cbn [sdio_reinit_loop].
  eapply (sat_bind (fun _ => True)); [by apply sat_gets|]. intros bound _.
  eapply (sat_bind (fun _ => True)); [apply sat_bit|]. intros no _. eapply (sat_bind (fun _ => True)); [apply sat_bit|]. intros sleep _.
  destruct (_ || _); [apply sat_ret; auto|]. destruct (Z.ltb_spec 2 retry); [apply sat_ret; auto|].
  eapply (sat_bind (fun _ => True)); [apply sat_reinit_round|]. intros [] _; [apply sat_ret; auto|]. apply IH; lia.
Qed.
Lemma sat_reinit_result : sat R (fun r => r = 0 \/ r = -1) hgic_sdio_reinit_card.
Proof. unfold hgic_sdio_reinit_card. destruct reinit; [apply sat_reinit_loop_result; lia|apply sat_ret; auto]. Qed.
Lemma sat_reinit : sat R (fun _ => True) hgic_sdio_reinit_card.
Proof. by eapply sat_weaken; [apply sat_reinit_result|]. Qed.

Lemma sat_sdio_readb fn addr : sat R (fun r => is_byte (fst r)) (sdio_readb fn addr).
Proof. unfold sdio_readb. eapply sat_bind; [by apply Hask|]. intros a _. apply sat_ret. apply u8_range. Qed.
Lemma sat_readb fn addr : sat R (fun r => is_byte (fst r)) (hgic_sdio_readb fn addr).
Proof.
  unfold hgic_sdio_readb. eapply sat_bind; [apply sat_sdio_readb|]. intros r Hr. generalize 2%nat as k. revert r Hr.
  enough (forall k r, is_byte (fst r) -> sat R (fun r => is_byte (fst r)) (readb_retry k fn addr r)) as K by (intros; by apply K).
  induction k as [|k IH]; intros r Hr; cbn [readb_retry]; [by apply sat_ret|].
  destruct (negb _); [|by apply sat_ret]. eapply sat_bind; [apply sat_sdio_readb|]. intros. by apply IH.
Qed.
Lemma sat_readb_any fn addr : sat R (fun _ => True) (hgic_sdio_readb fn addr).
Proof. by eapply sat_weaken; [apply sat_readb|]. Qed.
Lemma sat_writeb fn b addr : sat R (fun _ => True) (hgic_sdio_writeb fn b addr).
Proof. unfold hgic_sdio_writeb. generalize 4%nat as k. induction k; cbn [writeb_retry]; sat. Qed.
Lemma sat_abort : sat R (fun _ => True) hgic_sdio_abort.
Proof. apply sat_writeb. Qed.
#[local] Hint Resolve sat_reinit sat_readb_any sat_abort : sat.

Lemma sat_datalen addr : sat R (fun n => 0 <= n) (hgic_sdio_get_datalen addr).
Proof.
  unfold hgic_sdio_get_datalen. eapply sat_bind; [apply sat_readb|]. intros lo Hlo. destruct (negb _); [by apply sat_ret|].
  eapply sat_bind; [apply sat_readb|]. intros hi Hhi. destruct (negb _); apply sat_ret; [done|]. unfold is_byte in *.
  apply Z.lor_nonneg. split; [lia|]. apply Z.shiftl_nonneg. lia.
Qed.
Lemma sat_data_len : sat R (fun n => 0 <= n) hgic_sdio_data_len.
Proof.
  unfold hgic_sdio_data_len. eapply sat_bind; [apply sat_bit|]. intros inboot _.
  eapply (sat_bind (fun n => 0 <= n)).
  { destruct inboot; cbn [negb]; [by apply sat_ret|]. eapply (sat_bind (fun _ => True)); [by apply sat_gets|]. intros id _.
    destruct (id =? _); [apply sat_datalen|]. eapply sat_bind; [apply sat_sdio_readb|]. intros r Hr. apply sat_ret. unfold is_byte, SDIO_BLOCK_SIZE in *. lia. }
  intros n Hn. eapply (sat_bind (fun n => 0 <= n)).
  { destruct (_ || _); [|by apply sat_ret]. eapply (sat_bind (fun _ => True)); [by apply sat_gets|]. intros addr _. apply sat_datalen. }
  intros n1 Hn1. eapply (sat_bind (fun n => 0 <= n)).
  { destruct (n1 =? 0); [|by apply sat_ret]. eapply sat_bind; [apply sat_bit|]. intros b _. apply sat_ret. by destruct b. }
  intros n2 Hn2. apply sat_ret. unfold SDIO_BLOCK_SIZE. destruct (_ && _); lia.
Qed.
Lemma sat_int_status : sat R (fun _ => True) hgic_sdio_int_status.
Proof.
  unfold hgic_sdio_int_status, hgic_sdio_read_cccr. eapply sat_bind; [apply sat_readb_any|]. intros [p e] _.
  destruct (_ && _); [|sat]. eapply (sat_bind (fun _ => True)); [by apply sat_gets|]. intros addr _. sat.
Qed.
Lemma sat_is_busy : sat R (fun _ => True) hgic_sdio_is_busy.
Proof. unfold hgic_sdio_is_busy. sat. Qed.
Lemma sat_off : sat R (fun _ => True) off.
Proof. unfold off. eapply (sat_bind (fun _ => True)); [by apply sat_gets|]. intros o _. sat. Qed.
End Respects.

(** ** Traces *)
(** [traces m T]: what [m] adds to the log, with its result, satisfies [T]; it ends
    without fault or runs out of fuel. *)
Definition traces {A} (m : M hgic_sdio A) (T : A -> list request -> Prop) : Prop :=
  forall s, match m s with Ret (a, s') => exists l, sd_log s' = sd_log s ++ l /\ T a l | Fault f => f = Diverges end.

Lemma traces_bind {A B} (T1 : A -> list request -> Prop) (T : B -> list request -> Prop) m k :
  traces m T1 -> (forall a l, T1 a l -> traces (k a) (fun b l' => T b (l ++ l'))) -> traces (bind m k) T.
Proof.
  intros Hm Hk s. specialize (Hm s). unfold bind. destruct (m s) as [[a s1]|f]; [|done]. destruct Hm as (l & E & Ha).
  specialize (Hk a l Ha s1). destruct (k a s1) as [[b s2]|f]; [|done]. destruct Hk as (l' & E' & Hb). exists (l ++ l').
  split; [by rewrite E', E, app_assoc|done].
Qed.
Lemma traces_ret {A} (T : A -> list request -> Prop) a : T a [] -> traces (ret a) T.
Proof. intros H s. exists []. by rewrite app_nil_r. Qed.
Lemma traces_weaken {A} (T T' : A -> list request -> Prop) m : traces m T -> (forall a l, T a l -> T' a l) -> traces m T'.
Proof. intros H HT s. specialize (H s). destruct (m s) as [[a s1]|f]; [|done]. destruct H as (l & E & H). eauto. Qed.
Lemma traces_ask r : traces (sd_ask r) (fun _ l => l = [r]).
Proof.
  intros s. unfold sd_ask. destruct (react r (sd_env s)) as [a c]. exists [r]. split; [|done].
  unfold after_request. by destruct (default _ _).
Qed.
Lemma traces_do r : traces (sd_do r) (fun _ l => l = [r]).
Proof. eapply traces_bind; [apply traces_ask|]. intros a l ->. by apply traces_ret. Qed.
Lemma traces_try r : traces (sd_try r) (fun _ l => l = [r]).
Proof. eapply traces_bind; [apply traces_ask|]. intros a l ->. by apply traces_ret. Qed.
Lemma traces_gets {A} f : traces (A := A) (gets f) (fun _ l => l = []).
Proof. intros s. exists []. by rewrite app_nil_r. Qed.
Lemma traces_modify f : (forall s, sd_log (f s) = sd_log s) -> traces (modify f) (fun _ l => l = []).
Proof. intros H s. exists []. rewrite app_nil_r. by split; [apply H|]. Qed.
Lemma traces_lift {A} (o : outcome A) a (T : A -> list request -> Prop) : o = Ret a -> T a [] -> traces (lift o) T.
Proof. intros -> H s. exists []. by rewrite app_nil_r. Qed.
Lemma traces_diverges {A} (T : A -> list request -> Prop) : traces (fail Diverges) T.
Proof. done. Qed.

(** The helpers only make requests to the card. *)
Definition fields (s : hgic_sdio) := (sd_bound s, sd_dev_id s, sd_data_addr s, sd_trans_cnt_addr s, sd_int_status_addr s, sd_rx_retry s).
Definition adds (P : request -> bool) (s s' : hgic_sdio) : Prop :=
  (exists l, sd_log s' = sd_log s ++ l /\ Forall P l) /\ fields s' = fields s.
#[export] Instance adds_preorder P : PreOrder (adds P).
Proof.
  split; [intros s; split; [exists []; by rewrite app_nil_r|done]|]. intros s1 s2 s3 [(l & E & Hl) F] [(l' & E' & Hl') F'].
  split; [|congruence]. exists (l ++ l'). rewrite E', E, app_assoc. split; [done|]. by apply Forall_app.
Qed.
Lemma asked_adds (P : request -> bool) r c f s : P r = true -> adds P s (after_request r c f s).
Proof.
  intros Hr. unfold after_request. destruct (default _ _). split; [|done]. exists [r]. split; [done|]. constructor; [by rewrite Hr|constructor].
Qed.
Lemma card_ask r : card_request r = true -> sat (adds card_request) (fun _ => True) (sd_ask r).
Proof. intros Hr s. unfold sd_ask. destruct (react r (sd_env s)) as [a c]. split; [by apply asked_adds|done]. Qed.
Lemma traces_card {A} (Q : A -> Prop) m : sat (adds card_request) Q m -> traces m (fun a l => Forall card_request l /\ Q a).
Proof. intros H s. specialize (H s). destruct (m s) as [[a s1]|f]; [|done]. destruct H as [[(l & E & Hl) _] Ha]. by exists l. Qed.

(** Whether the host is held along a trace: everything that touches the bus or the
    interrupt needs it, and it is claimed and released in turn. *)
Definition needs_host (r : request) : bool :=
  match r with
  | FromIo _ _ | ToIo _ _ | ClaimIrq | ReleaseIrq => true
  | _ => card_request r
  end.
Fixpoint host_held (held : bool) (l : list request) : option bool :=
  match l with
  | [] => Some held
  | ClaimHost :: l => if held then None else host_held true l
  | ReleaseHost :: l => if held then host_held false l else None
  | r :: l => if needs_host r && negb held then None else host_held held l
  end.
Lemma host_held_app held l k :
  host_held held (l ++ k) = match host_held held l with Some h => host_held h k | None => None end.
Proof.
  revert held. induction l as [|r l IH]; intros held; [done|]. cbn [app host_held].
  destruct r; try (by rewrite IH); destruct held; cbn [needs_host card_request andb negb]; done || by rewrite IH.
Qed.
Lemma host_held_card l : Forall card_request l -> host_held true l = Some true.
Proof. induction 1 as [|r l Hr _ IH]; [done|]. by destruct r. Qed.

Definition completed (l : list request) : list (skb * bool) :=
  omap (fun r => match r with TxComplete s ok => Some (s, ok) | _ => None end) l.
Definition written (l : list request) : list (list Z) := omap (fun r => match r with ToIo _ bs => Some bs | _ => None end) l.
Lemma completed_app l k : completed (l ++ k) = completed l ++ completed k.
Proof. apply omap_app. Qed.
Lemma written_app l k : written (l ++ k) = written l ++ written k.
Proof. apply omap_app. Qed.
Lemma card_nothing l : Forall card_request l -> completed l = [] /\ written l = [].
Proof. induction 1 as [|r l Hr _ [IH1 IH2]]; [done|]. by destruct r. Qed.

(** A trace in short: the host before and after it, the packets completed and the
    transfers made.  [tr h m P]: from a state in which the host is held as [h]
    says, [m] makes a trace and a result that satisfy [P]. *)
Definition io (h : bool) (l : list request) (h' : bool) (c : list (skb * bool)) (w : list (list Z)) : Prop :=
  host_held h l = Some h' /\ completed l = c /\ written l = w.
Definition tr (h : bool) {A} (m : M hgic_sdio A) (P : A -> bool -> list (skb * bool) -> list (list Z) -> Prop) : Prop :=
  traces m (fun a l => exists h' c w, io h l h' c w /\ P a h' c w).

Lemma tr_bind {A B} h P1 P (m : M hgic_sdio A) (k : A -> M hgic_sdio B) :
  tr h m P1 -> (forall a h1 c1 w1, P1 a h1 c1 w1 -> tr h1 (k a) (fun b h' c w => P b h' (c1 ++ c) (w1 ++ w))) -> tr h (bind m k) P.
Proof.
  intros Hm Hk. eapply traces_bind; [exact Hm|]. intros a l (h1 & c1 & w1 & (H1 & Hc1 & Hw1) & Ha).
  eapply traces_weaken; [exact (Hk a h1 c1 w1 Ha)|]. intros b k' (h2 & c2 & w2 & (H2 & Hc2 & Hw2) & Hb).
  exists h2, (c1 ++ c2), (w1 ++ w2). split; [|done]. split; [by rewrite host_held_app, H1|].
  by rewrite completed_app, written_app, Hc1, Hc2, Hw1, Hw2.
Qed.
Lemma tr_ret {A} h (a : A) (P : A -> bool -> list (skb * bool) -> list (list Z) -> Prop) : P a h [] [] -> tr h (ret a) P.
Proof. intros H. apply traces_ret. by exists h, [], []. Qed.
(** Steps that leave no packet and no transfer behind. *)
Definition plain {A} (h' : bool) (a : A) (h : bool) (c : list (skb * bool)) (w : list (list Z)) : Prop := h = h' /\ c = [] /\ w = [].
Lemma tr_card {A} Q (m : M hgic_sdio A) : sat (adds card_request) Q m -> tr true m (plain true).
Proof.
  intros H. eapply traces_weaken; [exact (traces_card Q m H)|]. intros a l [Hl _]. destruct (card_nothing l Hl).
  exists true, [], []. split; [|done]. split; [by apply host_held_card|done].
Qed.
Lemma tr_ask h h' c w r : io h [r] h' c w -> tr h (sd_ask r) (fun _ h1 c1 w1 => h1 = h' /\ c1 = c /\ w1 = w).
Proof. intros H. eapply traces_weaken; [apply traces_ask|]. intros a l ->. by exists h', c, w. Qed.
Lemma tr_do h h' c w r : io h [r] h' c w -> tr h (sd_do r) (fun _ h1 c1 w1 => h1 = h' /\ c1 = c /\ w1 = w).
Proof. intros H. eapply traces_weaken; [apply traces_do|]. intros a l ->. by exists h', c, w. Qed.
Lemma tr_try h h' c w r : io h [r] h' c w -> tr h (sd_try r) (fun _ h1 c1 w1 => h1 = h' /\ c1 = c /\ w1 = w).
Proof. intros H. eapply traces_weaken; [apply traces_try|]. intros a l ->. by exists h', c, w. Qed.
Lemma tr_gets h {A} (f : hgic_sdio -> A) : tr h (gets f) (plain h).
Proof. eapply traces_weaken; [apply traces_gets|]. intros a l ->. by exists h, [], []. Qed.
Lemma tr_modify h f : (forall s, sd_log (f s) = sd_log s) -> tr h (modify f) (plain h).
Proof. intros H. eapply traces_weaken; [by apply traces_modify|]. intros a l ->. by exists h, [], []. Qed.
Lemma tr_off h : tr h off (plain h).
Proof.
  unfold off. eapply tr_bind; [apply tr_gets|]. intros stop h1 c1 w1 (-> & -> & ->).
  eapply tr_bind; [apply tr_gets|]. intros b h1 c1 w1 (-> & -> & ->). by apply tr_ret.
Qed.

(** One step of such a proof: a call whose trace is known. *)
Tactic Notation "tr_step" uconstr(lem) "as" ident(a) := eapply tr_bind; [by eapply lem|]; intros a ? ? ? (-> & -> & ->); cbn [app].
Ltac tr_call := eapply tr_bind; [by eapply tr_do|]; intros _ ? ? ? (-> & -> & ->); cbn [app].
Ltac tr_set := eapply tr_bind; [by apply tr_modify|]; intros _ ? ? ? (-> & -> & ->); cbn [app].

Lemma tr_busy_loop fuel s busy loop :
  tr true (busy_loop fuel s busy loop)
    (fun go h c w => h = go /\ c = (if go : bool then [] else [(s, false)]) /\ w = []).
Proof.
  revert busy loop. induction fuel as [|fuel IH]; intros busy loop; [apply traces_diverges|]. cbn [busy_loop].
  tr_step tr_gets as softfc. destruct (negb busy || softfc); [by apply tr_ret|].
  eapply tr_bind; [eapply tr_card, sat_is_busy; [apply _|apply card_ask]|]. intros b h1 c1 w1 (-> & -> & ->). cbn [app].
  destruct b; [|apply IH]. destruct (5 <? loop); [|apply IH].
  tr_set. tr_call. tr_call. tr_call. tr_set.
  tr_step tr_off as o. destruct o; [|apply IH]. tr_call. tr_call. by apply tr_ret.
Qed.

(** The bytes sent are the frame with padding behind it. *)
Definition carries (s : skb) (bs : list Z) : Prop := exists pad, bs = skb_data s ++ pad /\ zlen bs = sdio_tx_len s.

Lemma tr_copy_toio addr bs :
  tr true (hgic_sdio_copy_toio addr bs) (fun r h c w => h = true /\ c = [] /\ Forall (eq bs) w /\ w <> []).
Proof.
  unfold hgic_sdio_copy_toio. tr_step tr_try as err. destruct (negb _); [|apply tr_ret; cbn; split_and!; [done..|by repeat constructor|done]].
  eapply tr_bind; [eapply tr_card, sat_reinit; [apply _|apply card_ask]|]. intros r ? ? ? (-> & -> & ->). cbn [app].
  destruct (r =? 0); [|apply tr_ret; cbn; split_and!; [done..|by repeat constructor|done]].
  eapply traces_weaken; [exact (tr_try true true [] [bs] (ToIo addr bs) ltac:(done))|]. intros e l (h' & c & w & Hio & -> & -> & ->). exists true, [], [bs]. split; [done|]. cbn. split_and!; [done..|by repeat constructor|done].
Qed.

Definition sdio_padded (addr : Z) (s : skb) : Prop :=
  addr mod SDIO_DMA_ALIGN = 0 -> sdio_tx_len s <= skb_len s + skb_tailroom s.

Lemma align_bounds n k : 0 <= n -> 0 <= k -> n <= align n (2 ^ k) < n + 2 ^ k /\ align n (2 ^ k) mod 2 ^ k = 0.
Proof.
  intros Hn Hk. pose proof (Z.pow_pos_nonneg 2 k ltac:(lia) Hk). set (p := 2 ^ k) in *.
  assert (align n p = (n + (p - 1)) / p * p) as ->.
  { unfold align. replace (Z.lnot (p - 1)) with (Z.lnot (Z.ones k)) by (rewrite Z.ones_equiv; done).
    rewrite <- Z.ldiff_land, Z.ldiff_ones_r by done. by rewrite Z.shiftl_mul_pow2, Z.shiftr_div_pow2 by done. }
  pose proof (Z.div_mod (n + (p - 1)) p). pose proof (Z.mod_pos_bound (n + (p - 1)) p). split; [lia|]. by rewrite Z.mod_mul by lia.
Qed.

(** The length of a transfer: whole blocks from 65 bytes on, whole words below. *)
Lemma sdio_tx_len_spec s :
  skb_len s <= sdio_tx_len s < skb_len s + 64 /\ sdio_tx_len s mod 4 = 0 /\ (64 < skb_len s -> sdio_tx_len s mod 64 = 0).
Proof.
  pose proof (zlen_nonneg (skb_data s)) as Hn. fold (skb_len s) in Hn. unfold sdio_tx_len, SDIO_BLOCK_SIZE.
  destruct (align_bounds (skb_len s) 6 Hn ltac:(lia)) as [H1 H2]. destruct (align_bounds (skb_len s) 2 Hn ltac:(lia)) as [H3 H4].
  change (2 ^ 6) with 64 in *. change (2 ^ 2) with 4 in *. destruct (Z.ltb_spec 64 (skb_len s)); [|lia].
  split; [lia|]. split; [|done]. rewrite (Z.div_mod (align (skb_len s) 64) 64), H2, Z.add_0_r by lia.
  replace (64 * _) with (16 * (align (skb_len s) 64 / 64) * 4) by lia. by rewrite Z.mod_mul.
Qed.

Lemma tr_tx_bytes addr s :
  sdio_padded addr s ->
  tr true (tx_bytes addr s) (fun o h c w => h = true /\ c = [] /\ w = [] /\ forall bs, o = Some bs -> carries s bs).
Proof.
  intros Hp. pose proof (sdio_tx_len_spec s) as (Hl & _). pose proof (zlen_nonneg (skb_data s)) as Hn. unfold skb_len in *. unfold tx_bytes.
  destruct (Z.eqb_spec (addr mod SDIO_DMA_ALIGN) 0) as [Ha|Ha].
  - specialize (Hp Ha). destruct (read_padded (skb_data s) (skb_tail s) (sdio_tx_len s)) as (pad & E1 & E2).
    { unfold skb_len, skb_tailroom in *. rewrite zlen_app. lia. }
    unfold skb_read. rewrite E1. apply tr_ret. split_and!; [done..|]. intros bs [= <-]. by exists pad.
  - tr_step tr_ask as a. destruct (a_bytes a) as [p|]; [|apply tr_ret; by split_and!].
    destruct (copy_padded (skb_data s) (resize (Z.to_nat (sdio_tx_len s + SDIO_DMA_ALIGN)) 0 p) (sdio_tx_len s)) as (p' & pad & E1 & E2 & E3).
    { unfold SDIO_DMA_ALIGN. rewrite zlen_resize; lia. }
    rewrite E1. eapply tr_bind; [by apply (tr_ret true p' (fun b h c w => b = p' /\ h = true /\ c = [] /\ w = []))|].
    intros b ? ? ? (-> & -> & -> & ->). rewrite E2. apply tr_ret. split_and!; [done..|]. intros bs [= <-]. by exists pad.
Qed.

(** What a transmission leaves behind. *)
Definition tx_outcome (s : skb) (r : Z) (h : bool) (c : list (skb * bool)) (w : list (list Z)) : Prop :=
  h = false /\ c = [(s, r =? 0)] /\ Forall (carries s) w /\ (r = 0 -> w <> []).

(** The two parts of a transmission: until the frame may be sent -- whether it
    may; otherwise it was handed back -- and the sending. *)
Definition tx_wait (fuel : nat) (s : skb) : M hgic_sdio bool :=
  sd_do Schedule ;;; sd_do ClaimHost ;;;
  let! o := off in
  if o : bool then sd_do (TxComplete s false) ;;; sd_do ReleaseHost ;;; ret false else busy_loop fuel s true 0.

Definition tx_send (addr : Z) (s : skb) : M hgic_sdio Z :=
  let! bs := tx_bytes addr s in
  match bs with
  | None => sd_do ReleaseHost ;;; sd_do (TxComplete s false) ;;; ret (-1)
  | Some bs =>
      let! data_addr := gets sd_data_addr in
      let! r := hgic_sdio_copy_toio data_addr bs in
      sd_do ReleaseHost ;;; sd_do (TxComplete s (r =? 0)) ;;; ret r
  end.

Lemma tx_packet_parts fuel addr s st :
  hgic_sdio_tx_packet fuel addr s st = bind (tx_wait fuel s) (fun go => if negb go then ret (-1) else tx_send addr s) st.
Proof.
  unfold hgic_sdio_tx_packet, tx_wait, tx_send, bind.
  repeat (match goal with |- context [match ?m with Ret _ => _ | Fault _ => _ end] => destruct m as [[[] ?]|] eqn:? end; try done).
Qed.

Lemma tr_tx_wait fuel s :
  tr false (tx_wait fuel s) (fun go h c w => h = go /\ c = (if go : bool then [] else [(s, false)]) /\ w = []).
Proof.
  unfold tx_wait. tr_call. tr_call. tr_step tr_off as o. destruct o; [|apply tr_busy_loop]. tr_call. tr_call. by apply tr_ret.
Qed.

Lemma tr_tx_packet fuel addr s : sdio_padded addr s -> tr false (hgic_sdio_tx_packet fuel addr s) (tx_outcome s).
Proof.
  intros Hp.
  assert (tr false (bind (tx_wait fuel s) (fun go => if negb go then ret (-1) else tx_send addr s)) (tx_outcome s)) as K;
    [|intros st; rewrite tx_packet_parts; exact (K st)].
  eapply tr_bind; [apply tr_tx_wait|]. intros go ? ? ? (-> & -> & ->). destruct go; cbn [negb app]; [|by apply tr_ret].
  eapply tr_bind; [by apply tr_tx_bytes|]. intros bs ? ? ? (-> & -> & -> & Hbs). cbn [app].
  destruct bs as [bs|]; [|tr_call; tr_call; by apply tr_ret]. specialize (Hbs bs eq_refl).
  tr_step tr_gets as data_addr. eapply tr_bind; [apply tr_copy_toio|]. intros r ? ? w (-> & -> & Hw & Hne). cbn [app].
  tr_call. tr_call. apply tr_ret. unfold tx_outcome. cbn. split; [done|]. split; [done|]. split.
  - repeat (apply Forall_app; split; [|by constructor]). eapply Forall_impl; [exact Hw|]. by intros ? <-.
  - intros _ H. apply app_eq_nil in H as [H _]. done.
Qed.

(** No room for the padding: the transfer would read behind the buffer. *)
Lemma tx_send_overreads addr s st : ~ sdio_padded addr s -> tx_send addr s st = Fault OutOfBounds.
Proof.
  intros Hp. unfold sdio_padded, skb_len, skb_tailroom in Hp. unfold tx_send, tx_bytes.
  destruct (Z.eqb_spec (addr mod SDIO_DMA_ALIGN) 0) as [Ha|Ha]; [|tauto].
  unfold skb_read, bind, lift, mem_read. rewrite zlen_app.
  destruct (Z.leb_spec (0 + sdio_tx_len s) (zlen (skb_data s) + zlen (skb_tail s))); [exfalso; apply Hp; lia|].
  by rewrite andb_false_r.
Qed.

(** ** Progress *)
(** A card that is not busy for ever: a number that no call increases and that
    every poll that finds the card busy, or fails, decreases. *)
Definition poll_busy (a : answer) : bool := negb (a_err a =? 0) || negb (Z.land (u8 (nth 0 (a_resp a) 0)) 0x01 =? 0).
Record becomes_free (rank : C -> nat) : Prop := {
  bf_any : forall r c, (rank (snd (react r c)) <= rank c)%nat;
  bf_poll : forall c, poll_busy (fst (react (ReadB (f_num host) SDIO_BUSY_ADDR2) c)) = true ->
              (rank (snd (react (ReadB (f_num host) SDIO_BUSY_ADDR2) c)) < rank c)%nat }.

Section Progress.
Context (rank : C -> nat).
Hypothesis Hrank : becomes_free rank.

Definition lower (s s' : hgic_sdio) : Prop := (rank (sd_env s') <= rank (sd_env s))%nat.
#[local] Instance lower_preorder : PreOrder lower.
Proof. split; [intros s|intros s1 s2 s3]; unfold lower; lia. Qed.
Lemma after_env r c f s : sd_env (after_request r c f s) = c.
Proof. unfold after_request. by destruct (default _ _). Qed.
Lemma lower_ask r : sat lower (fun _ => True) (sd_ask r).
Proof.
  intros s. unfold sd_ask. pose proof (bf_any rank Hrank r (sd_env s)) as H. destruct (react r (sd_env s)) as [a c].
  split; [|done]. unfold lower. by rewrite after_env.
Qed.
Lemma lower_do r : sat lower (fun _ => True) (sd_do r).
Proof. eapply sat_bind; [apply _|apply lower_ask|]. intros. by apply sat_ret; [apply _|]. Qed.
Lemma lower_try r : sat lower (fun _ => True) (sd_try r).
Proof. eapply sat_bind; [apply _|apply lower_ask|]. intros. by apply sat_ret; [apply _|]. Qed.
Lemma lower_modify f : (forall s, sd_env (f s) = sd_env s) -> sat lower (fun _ => True) (modify f).
Proof. intros H s. split; [|done]. unfold lower. by rewrite H. Qed.

(** A poll that finds the card busy has decreased the rank. *)
Lemma is_busy_lowers s :
  exists b s', hgic_sdio_is_busy s = Ret (b, s') /\ lower s s' /\ (b = true -> (rank (sd_env s') < rank (sd_env s))%nat).
Proof.
  set (bad := fun r : Z * Z => negb (snd r =? 0) || negb (Z.land (fst r) 0x01 =? 0)).
  assert (forall s, exists r s', sdio_readb (f_num host) SDIO_BUSY_ADDR2 s = Ret (r, s') /\ lower s s' /\
    (bad r = true -> (rank (sd_env s') < rank (sd_env s))%nat)) as H1.
  { intros s1. unfold sdio_readb, bind, sd_ask. pose proof (bf_any rank Hrank (ReadB (f_num host) SDIO_BUSY_ADDR2) (sd_env s1)) as Ha.
    pose proof (bf_poll rank Hrank (sd_env s1)) as Hb. destruct (react _ (sd_env s1)) as [a c]. eexists _, _. split; [reflexivity|].
    unfold lower. rewrite after_env. split; [done|]. exact Hb. }
  assert (forall k r s1, lower s s1 -> (bad r = true -> (rank (sd_env s1) < rank (sd_env s))%nat) ->
    exists r' s', readb_retry k (f_num host) SDIO_BUSY_ADDR2 r s1 = Ret (r', s') /\ lower s s' /\
      (bad r' = true -> (rank (sd_env s') < rank (sd_env s))%nat)) as H2.
  { induction k as [|k IH]; intros r s1 Hl Hb; cbn [readb_retry]; [by exists r, s1|]. destruct (negb (snd r =? 0)); [|by exists r, s1].
    destruct (H1 s1) as (r1 & s2 & E & Hl2 & Hb2). unfold bind. rewrite E. apply IH; unfold lower in *; [lia|]. intros Hb1. specialize (Hb2 Hb1). lia. }
  unfold hgic_sdio_is_busy, hgic_sdio_readb. destruct (H1 s) as (r0 & s0 & E0 & Hl0 & Hb0). destruct (H2 2%nat r0 s0 Hl0 Hb0) as ([val err] & s1 & E1 & Hl1 & Hb1).
  unfold bind at 1. unfold bind at 1. rewrite E0, E1. unfold bind.
  destruct (negb (err =? 0)) eqn:Ee.
  - pose proof (sat_reinit lower (fun r _ => lower_ask r) s1) as K. destruct (hgic_sdio_reinit_card s1) as [[x s2]|f]; [|done]. destruct K as [K _].
    eexists _, s2. split; [reflexivity|]. specialize (Hb1 ltac:(unfold bad; cbn [fst snd]; by rewrite Ee)). unfold lower in *. split; [lia|]. intros _. lia.
  - eexists _, s1. split; [reflexivity|]. split; [done|]. cbn [orb]. intros Hv. apply Hb1. unfold bad. cbn [fst snd]. by rewrite Ee.
Qed.

Lemma busy_loop_ends s fuel busy loop st :
  (rank (sd_env st) + 1 < fuel)%nat \/ (busy = false /\ 0 < fuel)%nat ->
  exists go st', busy_loop fuel s busy loop st = Ret (go, st') /\ lower st st'.
Proof.
  revert busy loop st. induction fuel as [|fuel IH]; intros busy loop st Hf; [lia|]. cbn [busy_loop].
  unfold bind at 1, sd_test_bit at 1, gets at 1. destruct (negb busy || _) eqn:Eb; [by exists true, st|].
  destruct Hf as [Hf|[-> _]]; [|done].
  destruct (is_busy_lowers st) as (b & s1 & E & Hl & Hb). unfold bind at 1. rewrite E.
  assert (forall busy loop st2, lower s1 st2 -> ((rank (sd_env st2) + 1 < fuel)%nat \/ (busy = false /\ 0 < fuel)%nat) ->
    exists go st', busy_loop fuel s busy loop st2 = Ret (go, st') /\ lower st st') as K.
  { intros bb ll st2 Hl2 H2. destruct (IH bb ll st2 H2) as (go & st' & E' & Hl'). exists go, st'. split; [done|]. unfold lower in *. lia. }
  destruct b; [|apply K; [unfold lower; lia|right; split; [done|lia]]]. specialize (Hb eq_refl).
  destruct (5 <? loop); [|apply K; [unfold lower; lia|left; lia]].
  unfold bind at 1, modify at 1. set (s2 := set_busypd true s1).
  pose proof (lower_do ReleaseHost s2) as R1. unfold bind at 1. destruct (sd_do ReleaseHost s2) as [[[] s3]|]; [|done].
  pose proof (lower_do (WaitBusy 10) s3) as R2. unfold bind at 1. destruct (sd_do (WaitBusy 10) s3) as [[[] s4]|]; [|done].
  pose proof (lower_do ClaimHost s4) as R3. unfold bind at 1. destruct (sd_do ClaimHost s4) as [[[] s5]|]; [|done].
  unfold bind at 1, modify at 1. set (s6 := set_busypd false s5).
  pose proof (sat_off lower s6) as R4. unfold bind at 1. destruct (off s6) as [[o s7]|]; [|done].
  assert (lower s1 s7) as H7 by (unfold lower in *; cbn [sd_env set_busypd s2 s6] in *; lia).
  destruct o; [|apply K; [done|left; unfold lower in *; lia]].
  pose proof (lower_do (TxComplete s false) s7) as R5. unfold bind at 1. destruct (sd_do (TxComplete s false) s7) as [[[] s8]|]; [|done].
  pose proof (lower_do ReleaseHost s8) as R6. unfold bind at 1. destruct (sd_do ReleaseHost s8) as [[[] s9]|]; [|done].
  exists false, s9. split; [done|]. unfold lower in *. lia.
Qed.

Lemma tx_bytes_total addr s : sdio_padded addr s -> sat lower (fun _ => True) (tx_bytes addr s).
Proof.
  intros Hp. pose proof (sdio_tx_len_spec s) as (Hl & _). pose proof (zlen_nonneg (skb_data s)) as Hn. unfold skb_len in *. unfold tx_bytes.
  destruct (Z.eqb_spec (addr mod SDIO_DMA_ALIGN) 0) as [Ha|Ha].
  - specialize (Hp Ha). destruct (read_padded (skb_data s) (skb_tail s) (sdio_tx_len s)) as (pad & E1 & E2).
    { unfold skb_len, skb_tailroom in *. rewrite zlen_app. lia. }
    unfold skb_read. rewrite E1. by apply sat_ret; [apply _|].
  - eapply sat_bind; [apply _|apply lower_ask|]. intros a _. destruct (a_bytes a) as [p|]; [|by apply sat_ret; [apply _|]].
    destruct (copy_padded (skb_data s) (resize (Z.to_nat (sdio_tx_len s + SDIO_DMA_ALIGN)) 0 p) (sdio_tx_len s)) as (p' & pad & E1 & E2 & E3).
    { unfold SDIO_DMA_ALIGN. rewrite zlen_resize; lia. }
    rewrite E1. eapply (sat_bind _ (fun b => b = p')); [by apply sat_ret; [apply _|]|]. intros b ->. rewrite E2. by apply sat_ret; [apply _|].
Qed.

Lemma tx_wait_ends fuel s st :
  (rank (sd_env st) + 1 < fuel)%nat -> exists go st', tx_wait fuel s st = Ret (go, st').
Proof.
  intros Hf. unfold tx_wait.
  pose proof (lower_do Schedule st) as R1. unfold bind at 1. destruct (sd_do Schedule st) as [[[] s1]|]; [|done].
  pose proof (lower_do ClaimHost s1) as R2. unfold bind at 1. destruct (sd_do ClaimHost s1) as [[[] s2]|]; [|done].
  pose proof (sat_off lower s2) as R3. unfold bind at 1. destruct (off s2) as [[o s3]|]; [|done]. destruct o.
  - pose proof (lower_do (TxComplete s false) s3) as R4. unfold bind at 1. destruct (sd_do (TxComplete s false) s3) as [[[] s4]|]; [|done].
    pose proof (lower_do ReleaseHost s4) as R5. unfold bind at 1. destruct (sd_do ReleaseHost s4) as [[[] s5]|]; [|done]. by exists false, s5.
  - destruct (busy_loop_ends s fuel true 0 s3) as (go & s4 & E & _); [left; unfold lower in *; lia|]. by exists go, s4.
Qed.

Lemma tx_ends fuel addr s st :
  sdio_padded addr s -> (rank (sd_env st) + 1 < fuel)%nat -> exists r st', hgic_sdio_tx_packet fuel addr s st = Ret (r, st').
Proof.
  intros Hp Hf. rewrite tx_packet_parts. destruct (tx_wait_ends fuel s st Hf) as (go & s4 & E). rewrite (bind_Ret _ _ _ _ _ E).
  destruct go; cbn [negb]; [|by exists (-1), s4].
  assert (sat lower (fun _ => True) (tx_send addr s)) as Hrest.
  { unfold tx_send. eapply sat_bind; [apply _|by apply tx_bytes_total|]. intros [bs|] _.
    - eapply (sat_bind _ (fun _ => True)); [by apply sat_gets; [apply _|]|]. intros a _.
      eapply (sat_bind _ (fun _ => True)).
      + unfold hgic_sdio_copy_toio. eapply (sat_bind _ (fun _ => True)); [apply lower_try|]. intros e _. destruct (negb _); [|by apply sat_ret; [apply _|]].
        eapply sat_bind; [apply _|apply (sat_reinit lower (fun r _ => lower_ask r))|]. intros r _. destruct (r =? 0); [apply lower_try|by apply sat_ret; [apply _|]].
      + intros r _. do 2 (eapply (sat_bind _ (fun _ => True)); [apply lower_do|intros ? _]). by apply sat_ret; [apply _|].
    - do 2 (eapply (sat_bind _ (fun _ => True)); [apply lower_do|intros ? _]). by apply sat_ret; [apply _|]. }
  specialize (Hrest s4). destruct (tx_send addr s s4) as [[r s5]|]; [by exists r, s5|done].
Qed.
End Progress.

(** ** Receiving *)
(** Every transfer from the card fits the receive buffer. *)
Definition rx_ok (r : request) : bool :=
  match r with
  | FromIo _ n => (0 <? n) && (n <=? max_pkt_len)
  | RxPacket bs => (0 <? zlen bs) && (zlen bs <=? max_pkt_len)
  | CompleteBusy => true
  | _ => card_request r
  end.
Lemma rx_ask r : rx_ok r = true -> sat (adds rx_ok) (fun _ => True) (sd_ask r).
Proof. intros Hr s. unfold sd_ask. destruct (react r (sd_env s)) as [a c]. split; [by apply asked_adds|done]. Qed.
Lemma rx_card_ask r : card_request r = true -> sat (adds rx_ok) (fun _ => True) (sd_ask r).
Proof. intros H. apply rx_ask. by destruct r. Qed.

Lemma interrupt_data_ok : sat (adds rx_ok) (fun _ => True) interrupt_data.
Proof.
  assert (sat (adds rx_ok) (fun _ => True) hgic_sdio_abort) as Ha by apply (sat_abort _ rx_card_ask).
  assert (sat (adds rx_ok) (fun _ => True) hgic_sdio_reinit_card) as Hr by apply (sat_reinit _ rx_card_ask).
  unfold interrupt_data. eapply sat_bind; [apply _|apply (sat_data_len _ rx_card_ask)|]. intros n Hn.
  destruct (n =? _).
  { do 2 (eapply sat_bind; [apply _|eassumption|intros ? _]). by apply sat_ret; [apply _|]. }
  destruct (Z.ltb_spec 0 n); [|eapply sat_bind; [apply _|exact Ha|intros ? _]; by apply sat_ret; [apply _|]].
  destruct (Z.ltb_spec max_pkt_len n); [eapply sat_bind; [apply _|exact Ha|intros ? _]; by apply sat_ret; [apply _|]|].
  eapply (sat_bind _ (fun _ => True)); [by apply sat_gets; [apply _|]|]. intros addr _.
  eapply (sat_bind _ (fun r => zlen (snd r) = n)).
  { unfold hgic_sdio_copy_fromio. rewrite zlen_replicate by lia.
    eapply (sat_bind _ (fun _ => True)); [eapply sat_lift; [apply _| |done]; unfold oguard; by rewrite (proj2 (Z.leb_le n max_pkt_len))|]. intros _ _.
    eapply (sat_bind _ (fun _ => True)); [apply rx_ask; cbn; by rewrite (proj2 (Z.ltb_lt 0 n)), (proj2 (Z.leb_le n max_pkt_len))|]. intros a _.
    eapply (sat_bind _ (fun _ => True)).
    - destruct (negb _); [eapply sat_bind; [apply _|exact Hr|intros ? _]|]; by apply sat_ret; [apply _|].
    - intros _ _. apply sat_ret; [apply _|]. cbn [snd]. apply zlen_resize. lia. }
  intros [e bs] Hbs. cbn [fst snd] in *. destruct (negb _); [by apply sat_ret; [apply _|]|].
  eapply (sat_bind _ (fun _ => True)).
  { eapply sat_bind; [apply _|apply rx_ask; cbn; rewrite Hbs, (proj2 (Z.ltb_lt 0 n)), (proj2 (Z.leb_le n max_pkt_len)) by done; done|].
    intros ? _. by apply sat_ret; [apply _|]. }
  intros r _. eapply (sat_bind _ (fun _ => True)); [|intros _ _; by apply sat_ret; [apply _|]].
  destruct (negb _); [eapply sat_bind; [apply _|exact Ha|intros ? _]|]; by apply sat_ret; [apply _|].
Qed.

(** Data or nothing more: what a round reports. *)
Lemma interrupt_round_ok rm s :
  match interrupt_round rm s with
  | Ret (r, s') => adds rx_ok s s' /\ match r with Leave => True | Round _ m => m = rm \/ m = sd_rx_retry s end
  | Fault _ => False
  end.
Proof.
  unfold interrupt_round. pose proof (sat_int_status _ rx_card_ask s) as K1. unfold bind at 1.
  destruct (hgic_sdio_int_status s) as [[st s1]|]; [|done]. destruct K1 as [K1 _].
  assert (forall r m s2, adds rx_ok s s2 -> (m = rm \/ m = sd_rx_retry s) ->
    match (let! busypd := gets sd_busypd in
      (if negb (Z.land st SDIO_INIT_STATUS_BUSY =? 0) && busypd then sd_do CompleteBusy else ret tt) ;;;
      (if (st =? 0) && (0 <? m) then sd_do (Delay 20) else ret tt) ;;; ret (Round r m)) s2 with
    | Ret (r, s') => adds rx_ok s s' /\ match r with Leave => True | Round _ m => m = rm \/ m = sd_rx_retry s end
    | Fault _ => False
    end) as Hend.
  { intros r m s2 H2 Hm.
    assert (forall q, rx_ok q = true -> sat (adds rx_ok) (fun _ => True) (sd_do q)) as Hdo.
    { intros q Hq. eapply sat_bind; [apply _|by apply rx_ask|]. intros ? _. by apply sat_ret; [apply _|]. }
    assert (sat (adds rx_ok) (fun x => x = Round r m) (let! busypd := gets sd_busypd in
      (if negb (Z.land st SDIO_INIT_STATUS_BUSY =? 0) && busypd then sd_do CompleteBusy else ret tt) ;;;
      (if (st =? 0) && (0 <? m) then sd_do (Delay 20) else ret tt) ;;; ret (Round r m))) as K.
    { eapply (sat_bind _ (fun _ => True)); [by apply sat_gets; [apply _|]|]. intros b _.
      eapply (sat_bind _ (fun _ => True)); [destruct (_ && _); [by apply Hdo|by apply sat_ret; [apply _|]]|]. intros _ _.
      eapply (sat_bind _ (fun _ => True)); [destruct (_ && _); [by apply Hdo|by apply sat_ret; [apply _|]]|]. intros _ _. by apply sat_ret; [apply _|]. }
    specialize (K s2). match goal with |- match ?x s2 with _ => _ end => destruct (x s2) as [[r' s3]|]; [|done] end.
    destruct K as [K ->]. split; [by transitivity s2|done]. }
  destruct (negb (Z.land st SDIO_INIT_STATUS_DATA_READY =? 0)).
  - unfold bind at 1, bind at 1, gets at 1. pose proof (interrupt_data_ok s1) as K2. unfold bind at 1.
    destruct (interrupt_data s1) as [[o s2]|]; [|done]. destruct K2 as [K2 _]. assert (adds rx_ok s s2) as H2 by by transitivity s1.
    destruct o as [r|]; [|by split]. unfold ret at 1. apply Hend; [done|]. right.
    destruct K1 as [_ F]. unfold fields in F. congruence.
  - unfold bind at 1, ret at 1. apply Hend; [done|by left].
Qed.

Lemma interrupt_loop_ok fuel rm s :
  match interrupt_loop fuel rm s with
  | Ret (_, s') => adds rx_ok s s'
  | Fault f => f = Diverges /\ (0 < rm \/ 0 < sd_rx_retry s \/ fuel = O)
  end.
Proof.
  revert rm s. induction fuel as [|fuel IH]; intros rm s; cbn [interrupt_loop]; [split; [done|by right; right]|].
  pose proof (interrupt_round_ok rm s) as K. unfold bind. destruct (interrupt_round rm s) as [[r s1]|]; [|done]. destruct K as [K Hm].
  destruct r as [|r m]; [done|]. destruct ((r =? 0) && (0 <? m)) eqn:E; [|done]. specialize (IH (m - 1) s1).
  destruct (interrupt_loop fuel (m - 1) s1) as [[x s2]|f]; [by transitivity s1|]. destruct IH as [-> _]. split; [done|].
  destruct Hm as [->| ->]; lia.
Qed.

Lemma reinit_total st : exists r st', hgic_sdio_reinit st = Ret (r, st').
Proof.
  unfold hgic_sdio_reinit, sd_do, sd_ask, bind, ret. destruct (react ClaimHost (sd_env st)) as [a c].
  pose proof (sat_reinit_result _ card_ask (after_request ClaimHost c (a_flags a) st)) as K.
  destruct (hgic_sdio_reinit_card _) as [[r s1]|]; [|done]. destruct (react ReleaseHost (sd_env s1)) as [a1 c1]. by eexists _, _.
Qed.

(** ** Properties *)
#[export] Instance sdio_padded_dec addr s : Decision (sdio_padded addr s).
Proof. unfold sdio_padded. apply _. Defined.

(** C15. A packet given to the SDIO transport.  Whatever the host, the card and the
    other threads do: if the function returns, [tx_complete] was called once for the
    packet, with success exactly when the result is 0; the host was claimed and
    released in turn, held for every access to the card, and released at the end;
    every transfer was the frame with padding up to whole words, or whole blocks for
    more than 64 bytes, and success has had one.  With a card that does not stay
    busy for ever it returns, unless the padding does not fit: it is read from the
    frame's own buffer when the data are at an aligned address, without a look at
    the tail room.  Such a frame -- a command of the driver of more than 64 bytes,
    which has four bytes behind it, unless it nearly fills its last block -- is
    handed back unsent, or read beyond its buffer. *)
Theorem sdio_tx_completes fuel addr s st :
  match hgic_sdio_tx_packet fuel addr s st with
  | Ret (r, st') => (exists l, sd_log st' = sd_log st ++ l /\ host_held false l = Some false /\
      completed l = [(s, r =? 0)] /\ Forall (carries s) (written l) /\ (r = 0 -> written l <> []) /\
      (~ sdio_padded addr s -> r = -1 /\ written l = []))
  | Fault f => f = Diverges \/ (f = OutOfBounds /\ ~ sdio_padded addr s)
  end /\
  (forall rank, becomes_free rank -> (rank (sd_env st) + 1 < fuel)%nat ->
     (exists r st', hgic_sdio_tx_packet fuel addr s st = Ret (r, st')) \/
     (hgic_sdio_tx_packet fuel addr s st = Fault OutOfBounds /\ ~ sdio_padded addr s)) /\
  skb_len s <= sdio_tx_len s < skb_len s + 64 /\ sdio_tx_len s mod 4 = 0 /\ (64 < skb_len s -> sdio_tx_len s mod 64 = 0).
Proof.
  split; [|split; [|apply sdio_tx_len_spec]].
  - destruct (decide (sdio_padded addr s)) as [Hp|Hp].
    + pose proof (tr_tx_packet fuel addr s Hp st) as K. destruct (hgic_sdio_tx_packet fuel addr s st) as [[r st']|f]; [|by left].
      destruct K as (l & E & h & c & w & (H1 & <- & <-) & (-> & Hc & Hw & Hne)). exists l. by split_and!.
    + rewrite tx_packet_parts. pose proof (tr_tx_wait fuel s st) as K. unfold bind.
      destruct (tx_wait fuel s st) as [[go s1]|f]; [|by left]. destruct K as (l & E & h & c & w & (H1 & <- & <-) & (-> & Hc & Hw)).
      destruct go; cbn [negb]; [rewrite tx_send_overreads by done; by right|]. exists l. rewrite Hc, Hw. by split_and!.
  - intros rank Hr Hf. destruct (decide (sdio_padded addr s)) as [Hp|Hp]; [left; by apply (tx_ends rank)|].
    rewrite tx_packet_parts. destruct (tx_wait_ends rank Hr fuel s st Hf) as (go & s1 & E). rewrite (bind_Ret _ _ _ _ _ E).
    destruct go; cbn [negb]; [right; by rewrite tx_send_overreads|left; by exists (-1), s1].
Qed.

(** C16. Receiving never exceeds its buffer.  Whatever the card reports, the
    interrupt handler reads between 1 and [max_pkt_len] bytes at a time into the
    receive buffer of that size and passes on packets of such a length; it faults
    nowhere, and without polling it is one round that always ends. *)
Theorem sdio_interrupt_bounds fuel st :
  match hgic_sdio_interrupt fuel st with
  | Ret (_, st') => exists l, sd_log st' = sd_log st ++ l /\ Forall rx_ok l
  | Fault f => f = Diverges /\ (0 < sd_rx_retry st \/ fuel = O)
  end.
Proof.
  unfold hgic_sdio_interrupt, bind, gets. destruct (negb (sd_bound st) || sd_stop st).
  { exists []. rewrite app_nil_r. by split. }
  pose proof (interrupt_loop_ok fuel (sd_rx_retry st) st) as K. destruct (interrupt_loop fuel (sd_rx_retry st) st) as [[x st']|f].
  - destruct K as [K _]. exact K.
  - destruct K as [-> K]. split; [done|]. tauto.
Qed.

(** Bringing the card up again ends, whatever the card answers: after at most
    three rounds the result is 0 or -1, the host was held for every access and is
    released; while re-initialisation is disabled or the bus asleep, or the
    device is gone, nothing is sent and the result is -1. *)
Lemma sdio_reinit_ends st :
  (exists r st', hgic_sdio_reinit st = Ret (r, st') /\ (r = 0 \/ r = -1) /\
     exists l, sd_log st' = sd_log st ++ l /\ host_held false l = Some false /\ completed l = [] /\ written l = []) /\
  (forall s', reinit = true -> sd_bound s' = false \/ HGIC_BUS_FLAGS_DISABLE_REINIT ∈ sd_flags s' \/ HGIC_BUS_FLAGS_SLEEP ∈ sd_flags s' ->
     hgic_sdio_reinit_card s' = Ret (-1, s')).
Proof.
  split.
  - assert (tr false hgic_sdio_reinit (fun r h c w => (r = 0 \/ r = -1) /\ h = false /\ c = [] /\ w = [])) as K.
    { unfold hgic_sdio_reinit. tr_call. eapply (tr_bind _ (fun r h c w => (r = 0 \/ r = -1) /\ h = true /\ c = [] /\ w = [])).
      - eapply traces_weaken; [exact (traces_card _ _ (sat_reinit_result _ card_ask))|]. intros r l [Hl Hr]. destruct (card_nothing l Hl).
        exists true, [], []. split; [|done]. split; [by apply host_held_card|done].
      - intros r ? ? ? (Hr & -> & -> & ->). cbn [app]. tr_call. by apply tr_ret. }
    specialize (K st). pose proof (reinit_total st) as (r & st' & E). rewrite E in K. destruct K as (l & El & h & c & w & (H1 & <- & <-) & Hr & -> & Hc & Hw).
    exists r, st'. split; [done|]. split; [done|]. by exists l.
  - intros s' Hr Hs. unfold hgic_sdio_reinit_card. rewrite Hr. cbn [sdio_reinit_loop]. unfold bind, gets, sd_test_bit, gets.
    assert (negb (sd_bound s') || bool_decide (HGIC_BUS_FLAGS_DISABLE_REINIT ∈ sd_flags s') || bool_decide (HGIC_BUS_FLAGS_SLEEP ∈ sd_flags s') = true) as ->; [|done].
    destruct Hs as [->|[Hs|Hs]]; [done|by rewrite (bool_decide_eq_true_2 _ Hs), orb_true_r|by rewrite (bool_decide_eq_true_2 _ Hs), orb_true_r].
Qed.

(** ** Set-up *)
Lemma any_ask r : sat (adds (fun _ => true)) (fun _ => True) (sd_ask r).
Proof. intros s. unfold sd_ask. destruct (react r (sd_env s)) as [a c]. split; [by apply asked_adds|done]. Qed.
Lemma any_do r : sat (adds (fun _ => true)) (fun _ => True) (sd_do r).
Proof. eapply sat_bind; [apply _|apply any_ask|]. intros. by apply sat_ret; [apply _|]. Qed.
Lemma any_try r : sat (adds (fun _ => true)) (fun _ => True) (sd_try r).
Proof. eapply sat_bind; [apply _|apply any_ask|]. intros. by apply sat_ret; [apply _|]. Qed.

Lemma enable_fields : sat (adds (fun _ => true)) (fun _ => True) hgic_sdio_enable.
Proof.
  unfold hgic_sdio_enable, hgic_mmc_set_blk_size.
  do 2 (eapply (sat_bind _ (fun _ => True)); [apply any_do|intros _ _]).
  eapply (sat_bind _ (fun _ => True)); [apply any_try|intros r _].
  eapply (sat_bind _ (fun _ => True)); [|intros x _; eapply (sat_bind _ (fun _ => True)); [apply any_do|intros _ _; by apply sat_ret; [apply _|]]].
  destruct (negb _); [by apply sat_ret; [apply _|]|]. eapply (sat_bind _ (fun _ => True)); [apply any_try|intros r1 _].
  destruct (negb _); [by apply sat_ret; [apply _|]|]. eapply (sat_bind _ (fun _ => True)); [apply any_try|intros r2 _].
  eapply (sat_bind _ (fun _ => True)); [destruct (negb _); [apply any_do|by apply sat_ret; [apply _|]]|intros _ _; by apply sat_ret; [apply _|]].
Qed.
Lemma enable_tr : tr false hgic_sdio_enable (plain false).
Proof.
  unfold hgic_sdio_enable, hgic_mmc_set_blk_size. tr_call. tr_call. tr_step tr_try as r.
  eapply (tr_bind _ (plain true)); [|intros x ? ? ? (-> & -> & ->); cbn [app]; tr_call; by apply tr_ret].
  destruct (negb _); [by apply tr_ret|]. tr_step tr_try as r1. destruct (negb _); [by apply tr_ret|]. tr_step tr_try as r2.
  destruct (negb _); [tr_call|]; by apply tr_ret.
Qed.

Definition probe_result (has_priv : bool) (r : Z) (bound : bool) (l : list request) : Prop :=
  host_held false l = Some false /\ (bound = true -> r = 0 /\ has_priv = true) /\
  (BusProbe ∉ l -> bound = false /\ (r = - ENOMEM \/ r = 0)) /\
  (BusProbe ∈ l -> has_priv = false -> bound = false /\ r = 0).

Lemma probe_failed_run hr r s l :
  exists s' l', sdio_probe_failed hr r s = Ret (r, s') /\ sd_bound s' = false /\ sd_log s' = sd_log s ++ l' /\
    (host_held false l = Some false -> host_held false (l ++ l') = Some false) /\ (BusProbe ∉ l').
Proof.
  unfold sdio_probe_failed, bind, modify. set (s1 := set_bound false s). destruct hr.
  - pose proof (traces_do BusRemove s1) as K. pose proof (any_do BusRemove s1) as F. destruct (sd_do BusRemove s1) as [[[] s2]|]; [|done].
    destruct K as (k & E & ->). destruct F as [[_ F] _]. exists s2, [BusRemove]. split; [done|]. split; [unfold fields in F; cbn in F; congruence|].
    split; [done|]. split; [intros H; by rewrite host_held_app, H|]. by intros [=]%list_elem_of_singleton.
  - exists s1, []. rewrite !app_nil_r. split; [done|]. split; [done|]. split; [done|]. split; [done|]. by intros ?%elem_of_nil.
Qed.

(** Setting up an SDIO function.  The device is registered only with result 0
    and a driver that accepted it, and the host is released on every path; but
    without memory for the receive buffer, or when the driver refuses the device,
    the result is 0 as well -- success, with nothing registered. *)
Lemma sdio_probe_cases dev_id has_priv has_remove has_post st :
  f_num host = 1 -> sd_bound st = false ->
  exists r st' l, hgic_sdio_probe dev_id has_priv has_remove has_post st = Ret (r, st') /\ sd_log st' = sd_log st ++ l /\
    probe_result has_priv r (sd_bound st') l.
Proof.
  intros Hf Hb. unfold hgic_sdio_probe. rewrite Hf. change (negb (1 =? 1)) with false. cbv iota.
  assert (forall r s, exists a s', sd_ask r s = Ret (a, s') /\ sd_log s' = sd_log s ++ [r] /\ sd_bound s' = sd_bound s) as Hask.
  { intros r s. pose proof (traces_ask r s) as K. pose proof (any_ask r s) as F. destruct (sd_ask r s) as [[a s']|]; [|done].
    destruct K as (k & E & ->). destruct F as [[_ F] _]. exists a, s'. unfold fields in F. split; [done|]. split; [done|congruence]. }
  destruct (Hask (Alloc 0) st) as (a1 & s1 & E1 & L1 & B1). unfold bind at 1. rewrite E1.
  destruct (a_bytes a1) as [b1|]; [|exists (- ENOMEM), s1, [Alloc 0]; split; [done|]; split; [done|]; rewrite B1, Hb; split; [done|]; split; [done|];
    split; [by split; [|left]|by intros [=]%list_elem_of_singleton]].
  destruct (Hask (Alloc max_pkt_len) s1) as (a2 & s2 & E2 & L2 & B2). unfold bind at 1. rewrite E2.
  destruct (a_bytes a2) as [b2|].
  2: { destruct (probe_failed_run false 0 s2 [Alloc 0; Alloc max_pkt_len]) as (s3 & l3 & E3 & B3 & L3 & H3 & N3).
    exists 0, s3, ([Alloc 0; Alloc max_pkt_len] ++ l3). split; [done|]. split; [by rewrite L3, L2, L1, <- !app_assoc|]. rewrite B3. split; [by apply H3|].
    split; [done|]. split; [by split; [|right]|]. intros [H|H]%elem_of_app; [|done]. by repeat (apply elem_of_cons in H as [[=]|H]); apply elem_of_nil in H. }
  unfold bind at 1, modify at 1. set (s3 := new_sdio dev_id s2).
  assert (forall r s, exists s', sd_do r s = Ret (tt, s') /\ sd_log s' = sd_log s ++ [r] /\ sd_bound s' = sd_bound s) as Hdo.
  { intros r s. destruct (Hask r s) as (a & s' & E & L & B). exists s'. unfold sd_do, bind. by rewrite E. }
  destruct (Hdo BusProbe s3) as (s4 & E4 & L4 & B4). unfold bind at 1. rewrite E4.
  set (l4 := [Alloc 0; Alloc max_pkt_len; BusProbe]).
  assert (sd_log s4 = sd_log st ++ l4) as L4' by (rewrite L4; cbn [s3 new_sdio sd_log]; by rewrite L2, L1, <- !app_assoc).
  assert (BusProbe ∈ l4) as Hin by (unfold l4; by do 2 apply list_elem_of_further; apply list_elem_of_here).
  destruct has_priv; cbn [negb].
  - unfold bind at 1, modify at 1. set (s5 := set_bound true s4). pose proof (enable_fields s5) as F. pose proof (enable_tr s5) as T.
    unfold bind at 1. destruct (hgic_sdio_enable s5) as [[r s6]|]; [|done]. destruct F as [[_ F] _]. destruct T as (l6 & L6 & h & c & w & (H6 & _) & (-> & _)).
    assert (host_held false (l4 ++ l6) = Some false) as H46 by (rewrite host_held_app; exact H6).
    assert (sd_bound s6 = true) as B6 by (unfold fields in F; cbn in F; congruence).
    destruct (Z.eqb_spec r 0) as [->|Hr]; cbn [negb].
    + assert (forall l, BusProbe ∈ (l4 ++ l6) ++ l) as Hp by (intros l; apply elem_of_app; left; apply elem_of_app; by left).
      destruct has_post.
      * destruct (Hdo ProbePost s6) as (s7 & E7 & L7 & B7). unfold bind. rewrite E7. exists 0, s7, ((l4 ++ l6) ++ [ProbePost]). split; [done|].
        split; [rewrite L7, L6; cbn [s5 set_bound sd_log]; by rewrite L4', <- !app_assoc|].
        split; [by rewrite host_held_app, H46|]. split; [done|]. split; [by intros []|done].
      * exists 0, s6, (l4 ++ l6). split; [done|]. split; [rewrite L6; cbn [s5 set_bound sd_log]; by rewrite L4', <- !app_assoc|].
        split; [done|]. split; [done|]. split; [|done]. intros []. specialize (Hp []). by rewrite app_nil_r in Hp.
    + destruct (probe_failed_run has_remove r s6 (l4 ++ l6)) as (s7 & l7 & E7 & B7 & L7 & H7 & N7). rewrite E7. exists r, s7, ((l4 ++ l6) ++ l7).
      split; [done|]. split; [rewrite L7, L6; cbn [s5 set_bound sd_log]; by rewrite L4', <- !app_assoc|]. rewrite B7. split; [by apply H7|].
      split; [done|]. split; [|done]. intros []. apply elem_of_app. left. apply elem_of_app. by left.
  - destruct (probe_failed_run has_remove 0 s4 l4) as (s7 & l7 & E7 & B7 & L7 & H7 & N7). rewrite E7. exists 0, s7, (l4 ++ l7).
    split; [done|]. split; [by rewrite L7, L4', <- app_assoc|]. rewrite B7. split; [by apply H7|]. split; [done|]. split; [|done].
    intros []. apply elem_of_app. by left.
Qed.
End Transport.

(** ** Concrete cards *)
(** A card that is busy for [c] polls and has 128 bytes of data. *)
Definition demo_host : mmc_host := Host false true true true true 50000000 true true true false true 25000000 1.
Definition demo_card (r : request) (c : nat) : answer * nat :=
  match r with
  | ReadB 1 0x4c => (Answer 0 [match c with O => 0 | S _ => 1 end] None None, Nat.pred c)
  | ReadB 0 5 => (Answer 0 [2] None None, c)
  | ReadB 1 4 => (Answer 0 [1] None None, c)
  | ReadB 1 0x49 => (Answer 0 [2] None None, c)
  | FromIo _ n => (Answer 0 [] (Some (replicate (Z.to_nat n) 7)) None, c)
  | MmcCmd 5 _ _ => (Answer 0 [0x80FF8000] None None, c)
  | MmcCmd 3 _ _ => (Answer 0 [0x10000] None None, c)
  | _ => (Answer 0 [0xAA] (Some []) None, c)
  end.
Definition demo_sdio (polls : nat) : hgic_sdio := SdioDev polls [] true false [] 0x4104 0 0x1C 4 0 false.
Definition demo_skb (n : nat) : skb := Skb [] (replicate n 9) (replicate 64 0).

Lemma demo_becomes_free : becomes_free demo_card demo_host (fun c => c).
Proof.
  split.
  - intros r c. unfold demo_card. repeat case_match; cbn; lia.
  - intros c. cbn. destruct c; cbn; [done|lia].
Qed.

(** Nine polls, with one wait after the seventh, and one transfer of two blocks; a
    command of 100 bytes, with four bytes behind it, is read beyond its buffer. *)
Lemma sdio_tx_completes_witness :
  (exists st', hgic_sdio_tx_packet demo_card demo_host true 12 0 (demo_skb 100) (demo_sdio 9) = Ret (0, st') /\
    map zlen (written (sd_log st')) = [128] /\ length (sd_log st') = 18%nat) /\
  hgic_sdio_tx_packet demo_card demo_host true 12 0 (Skb [] (replicate 100 9) (replicate 4 0)) (demo_sdio 9) = Fault OutOfBounds.
Proof.
  split.
  - destruct (sdio_tx_completes demo_card demo_host true 12 0 (demo_skb 100) (demo_sdio 9)) as (_ & H & _).
    destruct (H (fun c => c) demo_becomes_free) as [(r & st' & E)|[_ H']]; [cbn; lia| |destruct H'; by intros _].
    exists st'. vm_compute in E. injection E as <- <-. by vm_compute.
  - set (s := Skb _ _ _).
    destruct (sdio_tx_completes demo_card demo_host true 12 0 s (demo_sdio 9)) as (_ & H & _).
    destruct (H (fun c => c) demo_becomes_free) as [(r & st' & E)|[E _]]; [cbn; lia|by vm_compute in E|exact E].
Defined.

Lemma sdio_probe_cases_witness :
  exists st', hgic_sdio_probe demo_card demo_host 8192 0x4104 false true true (SdioDev 0%nat [] false false [] 0 0 0 0 0 false) = Ret (0, st') /\
    sd_bound st' = false.
Proof.
  destruct (sdio_probe_cases demo_card demo_host 8192 0x4104 false true true (SdioDev 0%nat [] false false [] 0 0 0 0 0 false) eq_refl eq_refl)
    as (r & st' & l & E & _ & _ & H & _). exists st'. vm_compute in E. injection E as <- <-. by vm_compute.
Defined.

(** The commands of a successful round: reset, the two inquiries of the operating
    conditions, selection, card detection, speed, width, block size, interrupt. *)
Lemma sdio_reinit_sequence :
  exists st', hgic_sdio_reinit_card demo_card demo_host true (demo_sdio 0) = Ret (0, st') /\
    sd_log st' =
      [SetClock 400000; SetTiming TIMING_LEGACY; SetWidth 1; MmcCmd 3 0 3; MmcCmd 7 0x10000 3;
       MmcCmd 52 0xC00 0; MmcCmd 52 0x80000CAA 0; MmcCmd 0 0 0; Delay 1000; SetSpiCrc 0; MmcCmd 8 0xAA 0;
       MmcCmd 5 0 3; MmcCmd 5 0x80FF8000 3; MmcCmd 3 0 3; MmcCmd 7 0x10000 3;
       MmcCmd 52 0xE00 0; MmcCmd 52 0x80000EAA 0; MmcCmd 52 0x2600 0; MmcCmd 52 0x800026AA 0;
       SetClock 50000000; SetTiming TIMING_SD_HS; SetMaxBlk 64; MmcCmd 52 0xE00 0; MmcCmd 52 0x80000EAA 0; SetWidth 4;
       SetBlockSize 64; MmcCmd 52 0x88000803 0; EnableFunc; WakeIrqThread].
Proof. eexists. split; [vm_compute; reflexivity|]. by vm_compute. Qed.

(** The result of the high-speed switch is unsigned, so its failure never takes the
    branch that starts another round: the card is driven at full speed without
    the switch. *)
Lemma sdio_highspeed_never_retries {C} (react : request -> C -> answer * C) host k :
  forall s, neg_or_retry (hgic_sdio_set_highspeed react host true) k s =
    (let! _ := hgic_sdio_set_highspeed react host true in k) s.
Proof.
  intros s. unfold neg_or_retry, bind.
  pose proof (sat_highspeed react host (adds (fun _ => true)) (fun r _ => any_ask react r) true s) as K.
  destruct (hgic_sdio_set_highspeed react host true s) as [[r s']|]; [|done]. destruct K as [_ K]. by destruct (Z.ltb_spec r 0); [lia|].
Qed.

Definition no_speed_card (r : request) (c : nat) : answer * nat :=
  match r with MmcCmd 52 0x2600 _ => (Answer (-110) [] None None, c) | _ => demo_card r c end.
Lemma sdio_highspeed_failure_ignored :
  exists st', hgic_sdio_reinit_card no_speed_card demo_host true (demo_sdio 0) = Ret (0, st') /\
    MmcCmd 52 0x2600 0 ∈ sd_log st' /\ (MmcCmd 52 0x800026AA 0 ∉ sd_log st') /\ SetTiming TIMING_SD_HS ∈ sd_log st'.
Proof.
  eexists. split; [vm_compute; reflexivity|]. cbn [sd_log]. split; [|split].
  - do 17 apply list_elem_of_further. apply list_elem_of_here.
  - intros H. repeat (apply elem_of_cons in H as [H|H]; [discriminate H|]). by apply elem_of_nil in H.
  - do 19 apply list_elem_of_further. apply list_elem_of_here.
Qed.

(** A failed read gives 0xff, and the status register that cannot be read is taken
    for one that announces data. *)
Definition deaf_card (r : request) (c : nat) : answer * nat :=
  match r with ReadB 1 4 => (Answer (-110) [0xff] None None, c) | _ => demo_card r c end.
Lemma sdio_failed_status_is_data :
  exists st', hgic_sdio_interrupt deaf_card demo_host true 8192 1 (demo_sdio 0) = Ret (tt, st') /\
    sd_log st' = [ReadB 0 5; ReadB 1 4; ReadB 1 4; ReadB 1 4; ReadB 1 0x49; FromIo 0 128; RxPacket (replicate 128 7)].
Proof. eexists. split; [vm_compute; reflexivity|]. by vm_compute. Qed.

(** A card that stays busy: the wait has no bound. *)
Definition busy_card (r : request) (c : unit) : answer * unit := (Answer 0 [1] None None, c).
Lemma sdio_busy_for_ever host reinit fuel s loop st :
  sd_stop st = false -> sd_flags st = [] -> busy_loop busy_card host reinit fuel s true loop st = Fault Diverges.
Proof.
  assert (forall st, exists st1, hgic_sdio_is_busy busy_card host reinit st = Ret (true, st1) /\ sd_stop st1 = sd_stop st /\ sd_flags st1 = sd_flags st) as Hp
    by (intros st1; eexists; split; [reflexivity|done]).
  assert (forall r st, exists st1, sd_do busy_card r st = Ret (tt, st1) /\ sd_stop st1 = sd_stop st /\ sd_flags st1 = sd_flags st) as Hd
    by (intros r st1; eexists; split; [reflexivity|done]).
  revert loop st. induction fuel as [|fuel IH]; intros loop st Hs Hf; [done|]. cbn [busy_loop].
  unfold bind at 1, sd_test_bit at 1, gets at 1. rewrite Hf. change (negb true || bool_decide (HGIC_BUS_FLAGS_SOFTFC ∈ [])) with false. cbv iota.
  destruct (Hp st) as (s1 & E1 & S1 & F1). unfold bind at 1. rewrite E1. destruct (5 <? loop); [|apply IH; congruence].
  unfold bind at 1, modify at 1. destruct (Hd ReleaseHost (set_busypd true s1)) as (s2 & E2 & S2 & F2). unfold bind at 1. rewrite E2.
  destruct (Hd (WaitBusy 10) s2) as (s3 & E3 & S3 & F3). unfold bind at 1. rewrite E3.
  destruct (Hd ClaimHost s3) as (s4 & E4 & S4 & F4). unfold bind at 1. rewrite E4. unfold bind at 1, modify at 1.
  cbn [set_busypd sd_stop sd_flags] in *. unfold bind at 1, off, bind, gets, sd_test_bit, gets, ret. cbn [set_busypd sd_stop sd_flags].
  rewrite S4, S3, S2, S1, Hs, F4, F3, F2, F1, Hf. change (false || bool_decide (HGIC_BUS_FLAGS_SLEEP ∈ [])) with false. cbv iota.
  apply IH; cbn [set_busypd sd_stop sd_flags]; congruence.
Qed.
