(* ===== verification/Bus.v ===== *)
(** * The driver on its bus (hgic.h: struct hgic_bus; hgic_fmac/core.c on utils/if_usb.c and utils/if_sdio.c)

    [Tx] models the driver with the bus as a script of replies; [Usb] and [Sdio]
    model the transports with the driver as a log of callbacks.  Here they meet:
    [Transport] is what a transport promises to the driver, [LiveTransport] that
    it answers; both transports are instances.  The driver's transmit path is
    shown to use its bus only by asking it frame by frame, so that whatever holds
    for every script holds over a transport, and the two run together as a system
    whose every run is a run of [System] and that loses no frame. *)
From Stdlib Require Import String.
From stdpp Require Import relations.
From S2P Require Import Prelude Bytes CString Proto Skb FwInfo Utils FwCtrl BootDl Device Tx Core IfTest System Usb Sdio.

(** ** The callbacks of a conversation *)
Definition dones (l : list bus_event) : list (skb * bool) :=
  omap (fun e => match e with BusDone s ok => Some (s, ok) | BusRx _ => None end) l.
Definition gots (l : list bus_event) : list (list Z) :=
  omap (fun e => match e with BusDone _ _ => None | BusRx m => Some m end) l.

(** Some order in which the callbacks can have been made. *)
Definition in_some_order (c : list (skb * bool)) (r : list (list Z)) : list bus_event :=
  map (fun x => BusDone (fst x) (snd x)) c ++ map BusRx r.
Lemma in_some_order_dones c r : dones (in_some_order c r) = c.
Proof.
  unfold dones, in_some_order. rewrite omap_app. induction c as [|[s ok] c IH]; cbn; [by induction r|]. by rewrite IH.
Qed.
Lemma in_some_order_gots c r : gots (in_some_order c r) = r.
Proof.
  unfold gots, in_some_order. rewrite omap_app. induction c as [|[s ok] c IH]; cbn; [|done]. induction r as [|m r IH]; cbn; [done|].
  by rewrite IH.
Qed.

(** ** What a transport promises *)
Class Transport (B : Type) := {
  (* one call of the transmit function, and what happens without one *)
  bus_sends : skb -> B -> Z -> B -> Prop;
  bus_moves : B -> B -> Prop;
  (* the callbacks made so far, and the frames not answered for *)
  bus_done : B -> list (skb * bool);
  bus_got : B -> list (list Z);
  bus_held : B -> list skb;
  (* an invariant of transports that were given the frames of a list *)
  bus_inv : list skb -> B -> Prop;
  sends_inv g s b r b' : bus_inv g b -> bus_sends s b r b' -> bus_inv (s :: g) b';
  moves_inv g b b' : bus_inv g b -> bus_moves b b' -> bus_inv g b';
  inv_frames g b : bus_inv g b -> g ≡ₚ map fst (bus_done b) ++ bus_held b;
  inv_perm g g' b : g ≡ₚ g' -> bus_inv g b -> bus_inv g' b;
  (* callbacks are not taken back *)
  sends_grow s b r b' : bus_sends s b r b' ->
    bus_done b `prefix_of` bus_done b' /\ bus_got b `prefix_of` bus_got b' }.

(** It answers every frame that has room for the padding. *)
Class LiveTransport (B : Type) `{Transport B} := {
  bus_fits : skb -> B -> bool;
  sends_total g s b : bus_inv g b -> bus_fits s b = true -> exists r b', bus_sends s b r b' }.

(** ** The driver asks its bus frame by frame *)
(** The part of a computation that begins when [tx] was sent, as a function of the
    replies that are still to come. *)
Definition with_replies {A} (be : list bus_reply) (o : outcome (A * hgicf_wdev)) : outcome (A * hgicf_wdev) :=
  match o with Ret (a, d) => Ret (a, set_d_bus_env be d) | Fault f => Fault f end.
Definition next_reply (s : skb) (be : list bus_reply) : bus_reply :=
  match be with [] => Reply 0 [BusDone s true] | r :: _ => r end.

Inductive asks {A} (tx : list skb) (f : list bus_reply -> outcome (A * hgicf_wdev)) : Prop :=
  | asks_none o : (forall be, f be = with_replies be o) -> (forall a d, o = Ret (a, d) -> d_bus_tx d = tx) -> asks tx f
  | asks_send s k : (forall be, f be = k (next_reply s be) (tail be)) -> (forall r, asks (tx ++ [s]) (k r)) -> asks tx f.

Definition driven {A} (m : M hgicf_wdev A) : Prop :=
  forall d, asks (d_bus_tx d) (fun be => m (set_d_bus_env be d)).

Lemma asks_ext {A} tx (f g : list bus_reply -> outcome (A * hgicf_wdev)) : (forall be, g be = f be) -> asks tx f -> asks tx g.
Proof.
  intros E [o Ho Ht|s k Hk Hr].
  - apply (asks_none _ _ o); [|done]. intros be. by rewrite E.
  - apply (asks_send _ _ s k); [|done]. intros be. by rewrite E.
Qed.

Create HintDb driven discriminated.

Lemma asks_bind {A C} tx f (k : A -> M hgicf_wdev C) :
  asks tx f -> (forall a, driven (k a)) ->
  asks tx (fun be => match f be with Ret (a, d) => k a d | Fault e => Fault e end).
Proof.
  intros Hf Hk. induction Hf as [tx f o Ho Ht|tx f s j Hj _ IH].
  - destruct o as [[a d1]|e].
    + rewrite <- (Ht a d1 eq_refl). apply (asks_ext _ (fun be => k a (set_d_bus_env be d1))); [|apply Hk].
      intros be. by rewrite Ho.
    + apply (asks_none _ _ (Fault e)); [|done]. intros be. by rewrite Ho.
  - apply (asks_send _ _ s (fun r be => match j r be with Ret (a, d') => k a d' | Fault e => Fault e end)).
    + intros be. by rewrite Hj.
    + exact IH.
Qed.
Lemma driven_bind {A C} (m : M hgicf_wdev A) (k : A -> M hgicf_wdev C) :
  driven m -> (forall a, driven (k a)) -> driven (bind m k).
Proof. intros Hm Hk d. exact (asks_bind _ _ k (Hm d) Hk). Qed.
Lemma driven_ret {A} (a : A) : driven (ret a).
Proof. intros d. by apply (asks_none _ _ (Ret (a, d))); [|intros ? ? [= _ <-]]. Qed.
Lemma driven_fail {A} f : driven (fail (A := A) f).
Proof. intros d. by apply (asks_none _ _ (Fault f)). Qed.
Lemma driven_lift {A} (o : outcome A) : driven (lift o).
Proof.
  intros d. destruct o as [a|f]; [apply (asks_none _ _ (Ret (a, d)))|apply (asks_none _ _ (Fault f))]; try done. by intros ? ? [= _ <-].
Qed.
(** What is read of the device does not depend on the replies. *)
Lemma driven_gets {A C} (g : hgicf_wdev -> A) (k : A -> M hgicf_wdev C) :
  (forall be d, k (g (set_d_bus_env be d)) = k (g d)) -> (forall a, driven (k a)) -> driven (bind (gets g) k).
Proof.
  intros E Hk d. apply (asks_ext _ (fun be => k (g d) (set_d_bus_env be d))); [|apply Hk]. intros be. unfold bind, gets. by rewrite E.
Qed.
Lemma driven_read {A} (g : hgicf_wdev -> A) : (forall be d, g (set_d_bus_env be d) = g d) -> driven (gets g).
Proof. intros E d. apply (asks_none _ _ (Ret (g d, d))); [|by intros ? ? [= _ <-]]. intros be. unfold gets. by rewrite E. Qed.
Lemma driven_modify g :
  (forall be d, g (set_d_bus_env be d) = set_d_bus_env be (g d)) -> (forall d, d_bus_tx (g d) = d_bus_tx d) -> driven (modify g).
Proof.
  intros E Ht d. apply (asks_none _ _ (Ret (tt, g d))); [|by intros ? ? [= _ <-]]. intros be. unfold modify. by rewrite E.
Qed.
Lemma driven_on_world {A} (m : M world A) : driven (on_world m).
Proof.
  intros d. unfold on_world, on_part. destruct (m (d_w d)) as [[a w]|f] eqn:E.
  - apply (asks_none _ _ (Ret (a, set_d_w w d))); [|by intros ? ? [= _ <-]]. intros be. cbn. by rewrite E.
  - apply (asks_none _ _ (Fault f)); [|done]. intros be. cbn. by rewrite E.
Qed.
#[export] Hint Resolve driven_ret driven_fail driven_lift driven_on_world : driven.

Ltac driven_step :=
  lazymatch goal with
  | |- driven (bind (gets _) _) => apply driven_gets; [intros; reflexivity|intros ?]
  | |- driven (bind _ _) => apply driven_bind; [|intros ?]
  | |- driven (match ?x with _ => _ end) => destruct x
  | |- driven (let _ := _ in _) => cbv zeta
  | |- driven (gets _) => apply driven_read; reflexivity
  | |- driven (modify _) =>
      apply driven_modify; intros; unfold dev_flag, bus_flag; simpl;
      repeat lazymatch goal with |- context [if ?b then _ else _] => destruct b end; reflexivity
  | |- driven ?m => first [solve [eauto 3 with driven nocore] | let h := head_of m in progress unfold h; cbv beta]
  end.
Ltac driven_tac := repeat driven_step.

Lemma driven_rx_agg_loop fuel m len : driven (rx_agg_loop fuel m len).
Proof. revert m len. induction fuel as [|fuel IH]; intros m len; cbn [rx_agg_loop]; driven_tac. Qed.
#[export] Hint Resolve driven_rx_agg_loop : driven.
Lemma driven_rx_data m len : driven (hgicf_rx_data m len).
Proof. driven_tac. Qed.
#[export] Hint Resolve driven_rx_data : driven.
Lemma driven_hear l : driven (hear l).
Proof. induction l as [|[] l IH]; cbn [hear]; driven_tac. Qed.
#[export] Hint Resolve driven_hear : driven.

(** The one place where a frame is given to the bus. *)
Lemma driven_tx_packet s : driven (tx_packet s).
Proof.
  intros d. set (d1 := set_d_bus_tx (d_bus_tx d ++ [s]) d).
  apply (asks_send _ _ s (fun r be => (hear (br_heard r) ;;; ret (br_ret r)) (set_d_bus_env be d1))); [by intros []|].
  intros r. assert (driven (hear (br_heard r) ;;; ret (br_ret r))) as K by (apply driven_bind; auto with driven).
  exact (K d1).
Qed.
#[export] Hint Resolve driven_tx_packet : driven.

Lemma driven_agg_loop if_agg fuel s m len : driven (agg_loop if_agg fuel s m len).
Proof. revert s m len. induction fuel as [|fuel IH]; intros s m len; cbn [agg_loop]; driven_tac. Qed.
#[export] Hint Resolve driven_agg_loop : driven.
Lemma driven_tx_work if_agg fuel : driven (hgicf_tx_work if_agg fuel).
Proof. induction fuel as [|fuel IH]; cbn [hgicf_tx_work]; driven_tac. Qed.
Lemma driven_test_work period ticks : driven (hgicf_test_work period ticks).
Proof.
  unfold hgicf_test_work. apply driven_gets; [done|]. intros start. generalize (@None skb). revert start.
  induction ticks as [|t ticks IH]; intros start s; cbn [test_loop]; driven_tac.
Qed.

(** ** A conversation with a transport *)
Section Conversation.
Context {B : Type} `{Transport B}.

(** The transport made the callbacks [l], in this order. *)
Definition between (b : B) (l : list bus_event) (b' : B) : Prop :=
  bus_done b' = bus_done b ++ dones l /\ bus_got b' = bus_got b ++ gots l.

(** Given the frames one after the other, it answers with the replies. *)
Inductive answers : B -> list skb -> list bus_reply -> B -> Prop :=
  | answers_end b : answers b [] [] b
  | answers_send b s ss r rs b1 b2 :
      bus_sends s b (br_ret r) b1 -> between b (br_heard r) b1 -> answers b1 ss rs b2 -> answers b (s :: ss) (r :: rs) b2.

Lemma answers_inv b ss rs b' g : answers b ss rs b' -> bus_inv g b -> bus_inv (g ++ ss) b'.
Proof.
  intros Ha. revert g. induction Ha as [b|b s ss r rs b1 b2 Hs _ _ IH]; intros g Hg; [by rewrite app_nil_r|].
  apply (inv_perm (s :: g ++ ss)); [apply Permutation_middle|]. exact (IH (s :: g) (sends_inv g s b _ b1 Hg Hs)).
Qed.

Lemma sends_between s b r b' : bus_sends s b r b' -> exists l, between b l b'.
Proof.
  intros Hs. destruct (sends_grow s b r b' Hs) as [[c Hc] [m Hm]]. exists (in_some_order c m).
  split; [by rewrite in_some_order_dones|by rewrite in_some_order_gots].
Qed.

Lemma asks_grow {A} tx (f : list bus_reply -> outcome (A * hgicf_wdev)) be a d :
  asks tx f -> f be = Ret (a, d) -> tx `prefix_of` d_bus_tx d.
Proof.
  intros Hf. revert be. induction Hf as [tx f o Ho Ht|tx f s k Hk _ IH]; intros be.
  - rewrite Ho. destruct o as [[a1 d1]|]; [|done]. intros [= -> <-]. by rewrite <- (Ht a d1 eq_refl).
  - rewrite Hk. intros E. transitivity (tx ++ [s]); [by eexists|]. exact (IH _ _ E).
Qed.

(** A transport that answers: the replies that a computation needs. *)
Lemma asks_answered `{!LiveTransport B} {A} tx (f : list bus_reply -> outcome (A * hgicf_wdev)) g b :
  asks tx f -> bus_inv g b ->
  exists ss be b', answers b ss be b' /\
    ((forall be', f (be ++ be') = with_replies be' (f be)) /\ (forall a d', f be = Ret (a, d') -> d_bus_tx d' = tx ++ ss) \/
     exists s, bus_fits s b' = false /\ forall be' a d', f (be ++ be') = Ret (a, d') -> tx ++ ss ++ [s] `prefix_of` d_bus_tx d').
Proof.
  intros Hf. revert g b. induction Hf as [tx f o Ho Ht|tx f s k Hk Hr IH]; intros g b Hg.
  - exists [], [], b. split; [constructor|]. left. split.
    + intros be'. rewrite !Ho. by destruct o as [[]|].
    + intros a d'. rewrite Ho. destruct o as [[a1 d1]|]; [|done]. intros [= -> <-]. rewrite app_nil_r. exact (Ht a d1 eq_refl).
  - destruct (bus_fits s b) eqn:Es.
    + destruct (sends_total g s b Hg Es) as (r & b1 & Hs). destruct (sends_between _ _ _ _ Hs) as (l & Hl).
      destruct (IH (Reply r l) (s :: g) b1 (sends_inv _ _ _ _ _ Hg Hs)) as (ss & be & b2 & Ha & K).
      exists (s :: ss), (Reply r l :: be), b2. split; [by econstructor|]. destruct K as [[K1 K2]|(s' & Hs' & K)]; [left|right].
      * split; [intros be'; cbn [app]; rewrite !Hk; exact (K1 be')|]. intros a d'. rewrite Hk. intros E.
        rewrite (K2 a d' E). by rewrite <- app_assoc.
      * exists s'. split; [done|]. intros be' a d'. cbn [app]. rewrite Hk. intros E. specialize (K be' a d' E).
        by rewrite <- app_assoc in K.
    + exists [], [], b. split; [constructor|]. right. exists s. split; [done|]. intros be' a d'. cbn [app]. rewrite Hk.
      apply asks_grow, Hr.
Qed.
End Conversation.

(** ** The driver and its transport *)
Section Joint.
(** As for [System.dev_step]: the firmware loader, the module parameters, the timer,
    and what C leaves open. *)
Variables (rf : list Z -> Z * list Z) (fw_file stk : list Z) (sc no_bootdl qc_mode : bool).
Variables (txq_size if_agg if_test timer : Z).
Context {B : Type} `{Transport B}.

Definition driver_step : hgicf_wdev -> hgicf_wdev -> Prop :=
  dev_step rf fw_file stk sc no_bootdl qc_mode txq_size if_agg if_test timer.

(** Something happens to the driver, and the transport answers every frame it
    gives to the bus meanwhile; or the transport moves, and the driver hears of it. *)
Inductive joint_step : hgicf_wdev * B -> hgicf_wdev * B -> Prop :=
  | JS_driver be ss d b d' b' :
      driver_step (set_d_bus_env be d) d' -> d_bus_env d' = [] -> d_bus_tx d' = d_bus_tx d ++ ss -> answers b ss be b' ->
      joint_step (d, b) (d', b')
  | JS_bus l d b d' b' :
      bus_moves b b' -> between b l b' -> hear l d = Ret (tt, d') -> joint_step (d, b) (d', b').

Lemma with_replies_is_environment be d :
  set_d_bus_env be d = environment (w_env (d_w d)) (w_alloc (d_w d)) be (d_reinit d) 0 d.
Proof.
  destruct d. unfold environment. cbn. rewrite Z.add_0_r.
  match goal with w : world |- _ => by destruct w end.
Qed.

Lemma hear_steps l d d' : hear l d = Ret (tt, d') -> rtc driver_step d d'.
Proof.
  revert d. induction l as [|[s ok|m] l IH]; intros d; cbn [hear]; [by intros [= <-]; apply rtc_refl| |].
  - intros ([] & d1 & E1 & E2)%bind_inv. eapply rtc_l; [by apply (DS_complete _ _ _ _ _ _ _ _ _ _ s ok)|by apply IH].
  - intros (r & d1 & E1 & E2)%bind_inv. eapply rtc_l; [by eapply DS_rx|by apply IH].
Qed.
Ltac sends_nothing :=
  keeps_tac; try (intros ? ?; repeat match goal with |- context [if ?b then _ else _] => destruct b end; assumption).
Lemma on_world_sends_nothing {A} tx (m : M world A) : keeps (fun d => d_bus_tx d = tx) (on_world m).
Proof. unfold on_world. by apply (keeps_on_part (fun _ => True)); [intros w _ a w' _| |]. Qed.
#[local] Hint Resolve on_world_sends_nothing : keeps.
Lemma rx_agg_sends_nothing tx fuel m len : keeps (fun d => d_bus_tx d = tx) (rx_agg_loop fuel m len).
Proof. revert m len. induction fuel as [|fuel IH]; intros m len; cbn [rx_agg_loop]; sends_nothing. Qed.
#[local] Hint Resolve rx_agg_sends_nothing : keeps.
Lemma hear_sends_nothing tx l : keeps (fun d => d_bus_tx d = tx) (hear l).
Proof. induction l as [|[s ok|m] l IH]; cbn [hear]; sends_nothing. Qed.

(** What the driver and the transport have together: the driver's invariant, and
    the transport's for the frames the driver has given to the bus. *)
Definition joint_ok (x : hgicf_wdev * B) : Prop :=
  dev_ok (u32 txq_size + 1) (fst x) /\ bus_inv (d_bus_tx (fst x)) (snd x).

Lemma joint_step_ok x y : joint_step x y -> joint_ok x -> rtc driver_step (fst x) (fst y) /\ joint_ok y.
Proof.
  intros Hs [Hd Hb]. assert (rtc driver_step (fst x) (fst y)) as Hr.
  { destruct Hs as [be ss d b d' b' Hs _ _ _|l d b d' b' _ _ Hh]; [|exact (hear_steps l d d' Hh)]. cbn [fst].
    eapply rtc_l; [|by apply rtc_once]. rewrite with_replies_is_environment. apply DS_environment. }
  split; [exact Hr|]. split.
  { clear -Hr Hd. induction Hr as [d|d d1 d2 Hs _ IH]; [done|]. apply IH. by eapply dev_step_ok. }
  destruct Hs as [be ss d b d' b' _ _ E Ha|l d b d' b' Hm _ Hh]; cbn [fst snd] in *.
  - rewrite E. by apply (answers_inv b ss be).
  - rewrite (hear_sends_nothing (d_bus_tx d) l d eq_refl tt d' Hh). by apply (moves_inv _ b).
Qed.

(** C3. Driver and transport together refine the driver's own step relation and lose
    nothing: every run of the two -- the driver's operations with the frames they
    give to the bus answered by the transport, the transport's own events and
    their callbacks -- is a run of the driver over scripted replies, so the
    driver's invariant holds in every state; and the frames the driver has given
    to the bus are, each once, those reported back to it and those that the
    transport still holds. *)
Theorem transport_refines_scripts x y :
  rtc joint_step x y -> dev_ok (u32 txq_size + 1) (fst x) -> bus_inv (d_bus_tx (fst x)) (snd x) ->
  rtc driver_step (fst x) (fst y) /\ dev_ok (u32 txq_size + 1) (fst y) /\
  d_bus_tx (fst y) ≡ₚ map fst (bus_done (snd y)) ++ bus_held (snd y).
Proof.
  intros Hr Hd Hb. assert (rtc driver_step (fst x) (fst y) /\ joint_ok y) as (H1 & H2 & H3).
  { assert (joint_ok x) as Hok by done. clear Hd Hb. induction Hr as [x|x x1 y Hs _ IH]; [by split; [apply rtc_refl|]|].
    destruct (joint_step_ok x x1 Hs Hok) as [Hr1 Hok1]. destruct (IH Hok1) as [Hr2 Hok2]. split; [by transitivity (fst x1)|done]. }
  split; [done|]. split; [done|]. by apply inv_frames.
Qed.

(** Over a transport that answers, the transmit work is never left without a
    reply: either the transport's answers are all it asks for -- no further reply
    would change what it does, and when it returns driver and transport have made
    a joint step -- or the next frame it gives to the bus, whatever the replies
    are from there on, is one without room for the transport's padding. *)
Lemma transmit_work_answered `{!LiveTransport B} fuel g d b :
  bus_inv g b ->
  let work be := hgicf_tx_work if_agg fuel (set_d_bus_env be d) in
  exists ss be b', answers b ss be b' /\ bus_inv (g ++ ss) b' /\
  ((forall be', work (be ++ be') = with_replies be' (work be)) /\
   (forall d', work be = Ret (tt, d') -> joint_step (d, b) (d', b')) \/
   exists s, bus_fits s b' = false /\
     forall be' d', work (be ++ be') = Ret (tt, d') -> d_bus_tx d ++ ss ++ [s] `prefix_of` d_bus_tx d').
Proof.
  intros Hb work. destruct (asks_answered _ _ g b (driven_tx_work if_agg fuel d) Hb) as (ss & be & b' & Ha & K).
  exists ss, be, b'. split; [done|]. split; [by apply (answers_inv b ss be)|].
  destruct K as [[K1 K2]|(s & Hs & K)]; [left; split; [exact K1|]|right; exists s; split; [done|intros be' d'; apply K]].
  intros d' E. apply (JS_driver be ss); [by apply DS_tx_work with fuel| |by apply (K2 tt)|done].
  specialize (K1 []). rewrite app_nil_r in K1. unfold work in E. rewrite E in K1. injection K1 as ->. done.
Qed.
End Joint.

(** ** USB is a transport *)
Section UsbTransport.
Context (zero_packet : bool).

Definition usb_grown (u u' : hgic_usb) : Prop := u_done u `prefix_of` u_done u' /\ u_received u `prefix_of` u_received u'.
Lemma usb_grown_refl u : usb_grown u u.
Proof. by split. Qed.

Lemma usb_alloc_grows u n : keeps (usb_grown u) (usb_alloc n).
Proof. intros v Hv p v' E. destruct (usb_alloc_scripts n v) as (q & a & E'). rewrite E in E'. by injection E' as _ ->. Qed.
Lemma next_submit_grows u : keeps (usb_grown u) next_submit.
Proof. by intros v Hv r v' [= _ <-]. Qed.
Lemma deq_grows u rx : keeps (usb_grown u) (hgic_usb_deq rx).
Proof. intros v Hv r v'. unfold hgic_usb_deq. destruct rx, (u_tx_freeq v), (u_rx_freeq v); by intros [= _ <-]. Qed.
#[local] Hint Resolve usb_alloc_grows next_submit_grows deq_grows : keeps.
Lemma log_done_grows u s ok : keeps (usb_grown u) (log_done s ok).
Proof. apply keeps_modify. intros v [H1 H2]. split; cbn; [by apply prefix_app_r|done]. Qed.
#[local] Hint Resolve log_done_grows : keeps.
Lemma receive_grows u b bs : keeps (usb_grown u) (hgic_usb_receive b bs).
Proof. keeps_tac; try done. intros v [H1 H2]. split; cbn; [done|by apply prefix_app_r]. Qed.
#[local] Hint Resolve receive_grows : keeps.
Lemma usb_event_grows u e : keeps (usb_grown u) (usb_event_step e).
Proof. keeps_tac; done. Qed.
#[local] Hint Resolve usb_event_grows : keeps.
Lemma usb_events_grow u l : keeps (usb_grown u) (usb_events l).
Proof. induction l as [|e l IH]; cbn [usb_events]; keeps_tac. Qed.
#[local] Hint Resolve usb_events_grow : keeps.
Lemma usb_tx_grows u addr s : keeps (usb_grown u) (hgic_usb_tx_packet zero_packet addr s).
Proof. keeps_tac; done. Qed.

(** The submission's address is the network stack's; events of the core and of
    others, and new scripts, come at any time. *)
Definition usb_sends (s : skb) (u : hgic_usb) (r : Z) (u' : hgic_usb) : Prop :=
  exists addr, padded zero_packet (u_ep_out_size u) addr s /\ hgic_usb_tx_packet zero_packet addr s u = Ret (r, u').
Definition usb_moves (u u' : hgic_usb) : Prop :=
  (exists e, usb_event_step e u = Ret (tt, u')) \/ exists s a w, u' = set_u_scripts s a w u.
Definition usb_fits (s : skb) (u : hgic_usb) : bool := tx_len zero_packet (u_ep_out_size u) s <=? skb_len s + skb_tailroom s.

#[export] Instance usb_transport : Transport hgic_usb.
Proof.
  refine {| bus_sends := usb_sends; bus_moves := usb_moves; bus_done := u_done; bus_got := u_received;
            bus_held u := in_flight (u_used u); bus_inv := accounted |}.
  - intros g s u r u' Hu (addr & Hp & E). destruct (tx_accounted _ addr g s u Hp Hu) as (r1 & u1 & E1 & H1). congruence.
  - intros g u u' Hu [(e & E)|(s & a & w & ->)]; [|by apply accounted_scripts].
    destruct (event_accounted g e u Hu) as (u1 & E1 & H1). congruence.
  - by intros g u [_ H].
  - intros g g' u E [Hu H]. split; [done|]. by rewrite <- E.
  - intros s u r u' (addr & _ & E). exact (usb_tx_grows u addr s u (usb_grown_refl u) r u' E).
Defined.

#[export] Instance usb_live : LiveTransport hgic_usb.
Proof.
  refine {| bus_fits := usb_fits |}. intros g s u Hu Hf.
  assert (padded zero_packet (u_ep_out_size u) 0 s) as Hp by (intros _; by apply Z.leb_le).
  destruct (tx_accounted _ 0 g s u Hp Hu) as (r & u' & E & _). by exists r, u', 0.
Defined.
End UsbTransport.

(** ** SDIO is a transport *)
(** It answers for a frame before its transmit function returns, and delivers what
    it receives from its interrupt handler. *)
Section SdioTransport.
Context {C : Type} (react : request -> C -> answer * C) (host : mmc_host) (reinit : bool) (max_pkt_len : Z).

Definition received_blocks (l : list request) : list (list Z) :=
  omap (fun r => match r with RxPacket bs => Some bs | _ => None end) l.
Definition sdio_sends (s : skb) (u : hgic_sdio) (r : Z) (u' : hgic_sdio) : Prop :=
  exists fuel addr, sdio_padded addr s /\ hgic_sdio_tx_packet react host reinit fuel addr s u = Ret (r, u').
(** An interrupt, a change of the flags the driver shares with it, and changes of
    the surroundings. *)
Definition sdio_moves (u u' : hgic_sdio (C := C)) : Prop :=
  (exists fuel, hgic_sdio_interrupt react host reinit max_pkt_len fuel u = Ret (tt, u')) \/
  (exists stop f, u' = set_sd_flags stop f u).
Definition sdio_inv (g : list skb) (u : hgic_sdio (C := C)) : Prop := g ≡ₚ map fst (completed (sd_log u)).

Lemma interrupt_completes_nothing fuel u u' :
  hgic_sdio_interrupt react host reinit max_pkt_len fuel u = Ret (tt, u') -> completed (sd_log u') = completed (sd_log u).
Proof.
  unfold hgic_sdio_interrupt, bind, gets. destruct (_ || _); [by intros [= <-]|]. intros E.
  pose proof (interrupt_loop_ok react host reinit max_pkt_len fuel (sd_rx_retry u) u) as K. rewrite E in K.
  destruct K as [(l & El & Hl) _]. rewrite El, completed_app. assert (completed l = []) as ->; [|apply app_nil_r].
  clear -Hl. induction Hl as [|r l Hr _ IH]; [done|]. by destruct r.
Qed.

#[export] Instance sdio_transport : Transport (hgic_sdio (C := C)).
Proof.
  refine {| bus_sends := sdio_sends; bus_moves := sdio_moves; bus_done u := completed (sd_log u);
            bus_got u := received_blocks (sd_log u); bus_held _ := []; bus_inv := sdio_inv |}.
  - intros g s u r u' Hu (fuel & addr & Hp & E). pose proof (tr_tx_packet react host reinit fuel addr s Hp u) as K. rewrite E in K.
    destruct K as (l & El & h & c & w & (_ & Hc & _) & (_ & -> & _)). unfold sdio_inv in *.
    rewrite El, completed_app, map_app, Hc, Hu. cbn. apply Permutation_cons_append.
  - intros g u u' Hu [(fuel & E)|(stop & f & ->)]; [|done]. unfold sdio_inv. by rewrite (interrupt_completes_nothing fuel u u' E).
  - intros g u Hu. by rewrite app_nil_r.
  - intros g g' u E Hu. unfold sdio_inv in *. by rewrite <- E.
  - intros s u r u' (fuel & addr & Hp & E). pose proof (tr_tx_packet react host reinit fuel addr s Hp u) as K. rewrite E in K.
    destruct K as (l & El & _). rewrite El. unfold received_blocks. rewrite completed_app, omap_app. split; by eexists.
Defined.

(** With a card that does not stay busy for ever. *)
Lemma sdio_live (rank : C -> nat) : becomes_free react host rank -> LiveTransport (hgic_sdio (C := C)).
Proof.
  intros Hr. refine {| bus_fits s _ := sdio_tx_len s <=? skb_len s + skb_tailroom s |}. intros g s u _ Hf.
  assert (sdio_padded 0 s) as Hp by (intros _; by apply Z.leb_le).
  destruct (tx_ends react host reinit rank Hr (S (S (rank (sd_env u)))) 0 s u Hp ltac:(lia)) as (r & u' & E).
  by exists r, u', (S (S (rank (sd_env u)))), 0.
Defined.
End SdioTransport.

(** ** A driver over USB, and one over SDIO *)
Definition joint_frame : skb := Skb (replicate 64 0) (replicate 60 7) (replicate 16 0).
Definition joint_dev : hgicf_wdev := Eval vm_compute in
  match hgicf_netif_xmit 1024 joint_frame (set_d_fw_state STATE_FW (demo_dev [])) with Ret (_, d) => d | Fault _ => demo_dev [] end.
Definition usb_joint : hgicf_wdev * hgic_usb -> hgicf_wdev * hgic_usb -> Prop :=
  @joint_step (fun _ => (0, [])) [] [] true false false 1024 0 0 10 _ (usb_transport true).

Lemma joint_dev_ok : dev_ok (u32 1024 + 1) joint_dev.
Proof.
  assert (dev_ok (u32 1024 + 1) (set_d_fw_state STATE_FW (demo_dev []))) as H.
  { change STATE_FW with (u8 STATE_FW). apply fw_state_ok, demo_dev_ok. }
  refine (xmit_keeps 1024 joint_frame (u32 1024 + 1) ltac:(lia) _ H tt joint_dev _). by vm_compute.
Qed.

(** The queued frame goes out, its transmission ends, a block arrives. *)
Lemma transport_refines_scripts_witness :
  exists d u, rtc usb_joint (joint_dev, demo_usb) (d, u) /\
    dev_ok (u32 1024 + 1) d /\ d_bus_tx d ≡ₚ map fst (u_done u) ++ in_flight (u_used u) /\
    length (u_done u) = 1%nat /\ d_tx_data d = 1.
Proof.
  assert (exists d u, rtc usb_joint (joint_dev, demo_usb) (d, u) /\
    length (u_done u) = 1%nat /\ d_tx_data d = 1) as (d & u & Hr & K).
  { eexists _, _. split.
    - eapply rtc_l; [eapply (JS_driver _ _ _ _ _ _ _ _ _ _ [Reply 0 []])|].
      + apply (DS_tx_work _ _ _ _ _ _ _ _ _ _ 3). vm_compute. reflexivity.
      + reflexivity.
      + cbn [d_bus_tx]. vm_compute. reflexivity.
      + eapply answers_send; [exists 0; split; [intros _; vm_compute; discriminate|vm_compute; reflexivity]|by split|constructor].
      + eapply rtc_l; [eapply (JS_bus _ _ _ _ _ _ _ _ _ _ [BusDone _ true])|apply rtc_refl].
        * left. exists (TxDone 0 true). vm_compute. reflexivity.
        * split; vm_compute; reflexivity.
        * vm_compute. reflexivity.
    - by vm_compute. }
  exists d, u. split; [exact Hr|].
  destruct (transport_refines_scripts _ _ _ _ _ _ _ _ _ _ _ _ Hr joint_dev_ok) as (_ & H1 & H2).
  - eapply (probe_accounted HGIC_PKT_MAX_LEN demo_eps true true true (demo_usb0 [])); vm_compute; reflexivity.
  - split; [exact H1|]. split; [exact H2|exact K].
Defined.

(** A card that is busy for nine polls takes the frame, which has no room for the
    padding of a second block and is copied. *)
Definition sdio_joint : hgicf_wdev * hgic_sdio -> hgicf_wdev * hgic_sdio -> Prop :=
  @joint_step (fun _ => (0, [])) [] [] true false false 1024 0 0 10 _ (sdio_transport demo_card demo_host true 2048).
Lemma sdio_takes_frame :
  exists d u, sdio_joint (joint_dev, demo_sdio 9) (d, u) /\ map fst (completed (sd_log u)) = d_bus_tx d /\ d_tx_data d = 1.
Proof.
  eexists _, _. split.
  - eapply (JS_driver _ _ _ _ _ _ _ _ _ _ [Reply 0 [BusDone _ true]]).
    + apply (DS_tx_work _ _ _ _ _ _ _ _ _ _ 3). vm_compute. reflexivity.
    + reflexivity.
    + cbn [d_bus_tx]. vm_compute. reflexivity.
    + eapply answers_send; [exists 30%nat, 1; split; [intros H; vm_compute in H; discriminate|vm_compute; reflexivity]|split; vm_compute; reflexivity|constructor].
  - split; vm_compute; reflexivity.
Qed.
