(* ===== verification/Wire.v ===== *)
(** * From the queues to the wire (hgic_fmac/core.c on utils/if_usb.c)

    The driver and its USB transport on a good day: the chip is awake and runs its
    firmware, the USB core accepts what is submitted and there is memory.  Then the
    transmit work, over the transport, puts every queued frame on the wire; and
    what a receive URB completes with reaches the network stack. *)
From Stdlib Require Import String.
From stdpp Require Import relations.
From S2P Require Import Prelude Bytes CString Proto Skb FwInfo Utils FwCtrl BootDl Device Tx Core IfTest System Usb Bus.

(** ** A computation and more replies than it asks for *)
Lemma asks_extend {A} tx (f : list bus_reply -> outcome (A * hgicf_wdev)) be more a d :
  asks tx f -> f be = Ret (a, d) -> length (d_bus_tx d) = (length tx + length be)%nat ->
  f (be ++ more) = with_replies more (f be).
Proof.
  intros Hf. revert be. induction Hf as [tx f o Ho Ht|tx f s k Hk Hr IH]; intros be; rewrite !Ho || rewrite !Hk.
  - destruct o as [[a1 d1]|]; [|done]. intros [= -> <-] El. cbn [d_bus_tx set_d_bus_env] in El. rewrite (Ht a d1 eq_refl) in El.
    destruct be; [done|cbn in El; lia].
  - destruct be as [|r be]; cbn [next_reply tail app].
    + intros E El. destruct (asks_grow _ _ _ _ _ (Hr _) E) as [l E']. rewrite E', !length_app in El. cbn in El. lia.
    + intros E El. apply IH; [done|]. rewrite El, length_app. cbn. lia.
Qed.

Section Answers.
Context {B : Type} `{Transport B}.
Lemma answers_length b ss rs b' : answers b ss rs b' -> length rs = length ss.
Proof. induction 1; cbn; congruence. Qed.
Lemma answers_split b ss1 ss2 rs b' :
  answers b (ss1 ++ ss2) rs b' -> exists rs1 rs2 b1, rs = rs1 ++ rs2 /\ answers b ss1 rs1 b1 /\ answers b1 ss2 rs2 b'.
Proof.
  revert b rs. induction ss1 as [|s ss1 IH]; intros b rs Ha; [exists [], rs, b; repeat split; [constructor|done]|].
  cbn [app] in Ha. inversion_clear Ha as [|? ? ? r rs0 b1 ? Hs Hl Ha'].
  destruct (IH b1 rs0 Ha') as (rs1 & rs2 & b2 & -> & H1 & H2). exists (r :: rs1), rs2, b2.
  split; [done|]. split; [by econstructor|done].
Qed.
End Answers.

(** ** USB on a good day *)
Section Wire.
Context (zp : bool).
#[local] Notation usb_answers := (@answers hgic_usb (usb_transport zp)).

(** Nothing is refused, and there are [n] tokens. *)
Record usb_ready (n : nat) (u : hgic_usb) : Prop := {
  ur_go : u_stop u || u_err u = false;
  ur_wait : u_wait u = [];
  ur_submit : u_submit u = [];
  ur_alloc : u_alloc u = [];
  ur_tokens : Z.of_nat n <= u_tx_sema u }.

(** What a packet leaves alone then. *)
Definition at_ease (u v : hgic_usb) : Prop :=
  u_stop v = u_stop u /\ u_err v = u_err u /\ u_wait v = [] /\ u_submit v = [] /\ u_alloc v = [] /\
  u_received v = u_received u /\ u_ep_out_size v = u_ep_out_size u.
Lemma at_ease_refl n u : usb_ready n u -> at_ease u u.
Proof. by intros []. Qed.

Lemma usb_alloc_at_ease u n : keeps (at_ease u) (usb_alloc n).
Proof. intros v (? & ? & ? & ? & E & ? & ?) p v'. unfold usb_alloc. rewrite E. intros [= _ <-]. by repeat split. Qed.
Lemma next_submit_at_ease u : keeps (at_ease u) next_submit.
Proof. intros v (? & ? & ? & E & ? & ? & ?) p v'. unfold next_submit. rewrite E. intros [= _ <-]. by repeat split. Qed.
Lemma deq_at_ease u rx : keeps (at_ease u) (hgic_usb_deq rx).
Proof. intros v Hv r v'. unfold hgic_usb_deq. destruct rx, (u_tx_freeq v), (u_rx_freeq v); by intros [= _ <-]. Qed.
Lemma down_timeout_at_ease u : keeps (at_ease u) down_timeout.
Proof.
  intros v Hv r v'. destruct Hv as (? & ? & E & ? & ? & ? & ?). unfold down_timeout, bind, gets, modify. rewrite E. cbn.
  destruct (_ <? _); intros [= _ <-]; by repeat split.
Qed.
#[local] Hint Resolve usb_alloc_at_ease next_submit_at_ease deq_at_ease down_timeout_at_ease : keeps.
Lemma tx_packet_at_ease u addr s : keeps (at_ease u) (hgic_usb_tx_packet zp addr s).
Proof. keeps_tac; done. Qed.

(** A frame on the wire: itself and a few bytes behind it, in words, and not in full
    packets only when the transport sees to that. *)
Definition on_wire (size : Z) (m w : list Z) : Prop :=
  exists pad, w = m ++ pad /\ zlen pad < 8 /\ zlen w mod 4 = 0 /\
    forall k, zp = true -> 3 <= k -> size = 2 ^ k -> zlen w mod size <> 0.

Lemma ready_sends n g s u addr :
  usb_ready (S n) u -> accounted g u -> padded zp (u_ep_out_size u) addr s ->
  exists w u', hgic_usb_tx_packet zp addr s u = Ret (0, u') /\ usb_ready n u' /\ at_ease u u' /\
    on_wire (u_ep_out_size u) (skb_data s) w /\ u_sent u' = u_sent u ++ [w] /\ u_done u' = u_done u /\
    in_flight (u_used u') = in_flight (u_used u) ++ [s].
Proof.
  intros R Ha Hp. pose proof (at_ease_refl _ _ R) as R0. destruct R as [Hg Hw Hs Hl Ht].
  assert (u_stop u = false) as Hst by (by apply orb_false_iff in Hg as [? _]).
  pose proof (uo_tokens u (proj1 Ha) Hst) as Hz. destruct (u_tx_freeq u) as [|b q] eqn:Eq; [change (zlen []) with 0 in Hz; lia|].
  destruct (usb_packet_sent zp addr s g u b q) as (pad & u' & E & L1 & L2 & L3 & Et & K); try done; [by rewrite Hw|lia|by rewrite Hl|].
  rewrite Hs in E, K. cbn in E. change (hd 0 [] =? 0) with true in K. cbv iota in K. destruct K as (K1 & K2 & K3 & K4).
  pose proof (tx_packet_at_ease u addr s u R0 0 u' E) as (A1 & A2 & A3 & A4 & A5 & A6 & A7).
  exists (skb_data s ++ pad), u'. split; [done|]. split; [split; [by rewrite A1, A2|done..|lia]|]. split; [done|].
  split; [|done]. exists pad. split; [done|]. rewrite zlen_app in L1. unfold skb_len in L1. split; [lia|done].
Qed.

(** What it answers to the frames, and what it does with them. *)
Lemma ready_answers n g ss rs u u' :
  usb_answers u ss rs u' -> usb_ready n u -> accounted g u -> (length ss <= n)%nat ->
  rs = replicate (length ss) (Reply 0 []) /\ u_done u' = u_done u /\ in_flight (u_used u') = in_flight (u_used u) ++ ss /\
  exists ws, u_sent u' = u_sent u ++ ws /\ Forall2 (on_wire (u_ep_out_size u)) (map skb_data ss) ws.
Proof.
  intros Ha. revert n g. induction Ha as [u|u s ss [r l] rs u1 u2 (addr & Hp & Hs) [Hb1 Hb2] _ IH]; intros n g R Hu Hn; cbn [length] in Hn.
  - rewrite app_nil_r. do 3 (split; [done|]). exists []. rewrite app_nil_r. by split.
  - destruct n as [|n]; [lia|]. destruct (ready_sends n g s u addr R Hu Hp) as (w & v & E & R1 & A & W & K1 & K2 & K3).
    cbn [br_ret br_heard] in *. rewrite E in Hs. injection Hs as <- <-.
    destruct (tx_accounted zp addr g s u Hp Hu) as (? & ? & E' & Hu1). rewrite E in E'. injection E' as <- <-.
    destruct A as (_ & _ & _ & _ & _ & A6 & A7). cbn [bus_done bus_got usb_transport] in Hb1, Hb2.
    rewrite K2 in Hb1. rewrite A6 in Hb2. rewrite <- (app_nil_r (u_done u)) in Hb1 at 1. rewrite <- (app_nil_r (u_received u)) in Hb2 at 1.
    apply app_inv_head in Hb1, Hb2. assert (l = []) as -> by (by destruct l as [|[]]).
    destruct (IH n (s :: g) R1 Hu1 ltac:(lia)) as (-> & F1 & F2 & ws & F3 & F4). split; [done|]. split; [congruence|].
    split; [by rewrite F2, K3, <- app_assoc|]. exists (w :: ws). split; [by rewrite F3, K1, <- app_assoc|].
    cbn [map]. constructor; [done|]. by rewrite <- A7.
Qed.
Lemma ready_takes n g ss u :
  usb_ready n u -> accounted g u -> (length ss <= n)%nat -> exists u', usb_answers u ss (replicate (length ss) (Reply 0 [])) u'.
Proof.
  revert n g u. induction ss as [|s ss IH]; intros n g u R Hu Hn; cbn [length replicate] in *; [exists u; constructor|].
  destruct n as [|n]; [lia|]. assert (padded zp (u_ep_out_size u) 1 s) as Hp by (by intros H).
  destruct (ready_sends n g s u 1 R Hu Hp) as (w & u1 & E & R1 & A & _ & K1 & K2 & K3).
  destruct (tx_accounted zp 1 g s u Hp Hu) as (? & ? & E' & Hu1). rewrite E in E'. injection E' as <- <-.
  destruct (IH n (s :: g) u1 R1 Hu1 ltac:(lia)) as (u2 & H2). exists u2. econstructor; [by exists 1| |done].
  destruct A as (_ & _ & _ & _ & _ & A6 & _). split; cbn; by rewrite app_nil_r.
Qed.

(** ** The transmit work over USB *)
(** The data of the frames it has to send, in their order. *)
Definition outgoing (d : hgicf_wdev) : list (list Z) :=
  map skb_data (ctrlq d) ++ numbered (d_data_cookie d) (map skb_data (d_tx_dataq d)).
(** One run, with the transport's answers to the frames the work gives it. *)
Definition transmits (d : hgicf_wdev) (u : hgic_usb) (d' : hgicf_wdev) (u' : hgic_usb) : Prop :=
  exists ss be, usb_answers u ss be u' /\
    hgicf_tx_work 0 (length (ctrlq d) + (length (d_tx_dataq d) + 1)) (set_d_bus_env be d) = Ret (tt, d') /\
    d_bus_env d' = [] /\ d_bus_tx d' = d_bus_tx d ++ ss.
Lemma transmits_is_joint rf fw_file stk sc no_bootdl qc_mode txq_size if_test timer d u d' u' :
  transmits d u d' u' ->
  @joint_step rf fw_file stk sc no_bootdl qc_mode txq_size 0 if_test timer _ (usb_transport zp) (d, u) (d', u').
Proof. intros (ss & be & Ha & E & He & Ht). apply (JS_driver _ _ _ _ _ _ _ _ _ _ be ss); try done. by eapply DS_tx_work. Qed.

Lemma flowing_env be d : flowing (set_d_bus_env [] d) -> Forall accepts_frame be -> flowing (set_d_bus_env be d).
Proof. by intros [[]] H. Qed.
Lemma numbered_length c l : length (numbered c l) = length l.
Proof. revert c. induction l as [|m l IH]; intros c; cbn; [done|]. by rewrite IH. Qed.
Lemma all_accepted n : Forall accepts_frame (replicate n (Reply 0 [])).
Proof. apply Forall_replicate. by split. Qed.

(** The work with exactly as many replies as it needs. *)
Lemma work_with_replies be d :
  flowing (set_d_bus_env [] d) -> Forall awake (ctrlq d) -> Forall (fun s => 8 <= zlen (skb_data s)) (d_tx_dataq d) ->
  Forall accepts_frame be ->
  exists d' l, hgicf_tx_work 0 (length (ctrlq d) + (length (d_tx_dataq d) + 1)) (set_d_bus_env be d) = Ret (tt, d') /\
    d_bus_tx d' = d_bus_tx d ++ l /\ map skb_data l = outgoing d /\ d_bus_env d' = drop (length l) be /\
    d_tx_dataq d' = [] /\ ctrlq d' = [].
Proof.
  intros Hd Hc Hl Hbe. destruct (tx_work_run (set_d_bus_env be d) (flowing_env be d Hd Hbe) Hc Hl) as (d' & E & F1 & F2 & F3 & K).
  destruct (k_env _ _ K) as (l & El & Ee). exists d', l. split; [exact E|]. split; [exact El|]. split; [|done].
  rewrite El, map_app in F1. by apply app_inv_head in F1.
Qed.

(** C4. What is queued goes out.  With the chip awake and its firmware running, a USB
    core that accepts what is submitted, memory, and a token for every queued
    frame, the transmit work over USB can run, and however it runs the wire
    carries exactly the queued frames in order, control frames first, data frames
    numbered consecutively, each padded to words and, with the zero-packet
    option, never in full packets only; both queues are empty after it, and the
    frames are the transport's until their transmission ends. *)
Theorem queues_reach_wire d g u :
  flowing (set_d_bus_env [] d) -> Forall awake (ctrlq d) -> Forall (fun s => 8 <= zlen (skb_data s)) (d_tx_dataq d) ->
  accounted g u -> usb_ready (length (outgoing d)) u ->
  (exists d' u', transmits d u d' u') /\
  forall d' u', transmits d u d' u' ->
    d_tx_dataq d' = [] /\ ctrlq d' = [] /\
    exists ws ss, u_sent u' = u_sent u ++ ws /\ Forall2 (on_wire (u_ep_out_size u)) (outgoing d) ws /\
      map skb_data ss = outgoing d /\ in_flight (u_used u') = in_flight (u_used u) ++ ss /\ u_done u' = u_done u.
Proof.
  intros Hd Hc Hl Hu R. set (n := length (outgoing d)) in *. split.
  - destruct (work_with_replies (replicate n (Reply 0 [])) d Hd Hc Hl (all_accepted n)) as (d' & l & E & El & Em & Ee & _).
    assert (length l = n) as Hn by (unfold n; by rewrite <- Em, length_map).
    destruct (ready_takes n g l u R Hu ltac:(lia)) as (u' & Ha). rewrite Hn in Ha. exists d', u', l, (replicate n (Reply 0 [])).
    do 2 (split; [done|]). split; [|done]. rewrite Ee, Hn. apply drop_ge. by rewrite length_replicate.
  - intros d' u' (ss & be & Ha & E & He & Ht).
    assert (length ss <= n)%nat as Hn.
    { destruct (Nat.le_gt_cases (length ss) n) as [|Hgt]; [done|exfalso].
      rewrite <- (take_drop n ss) in Ha. destruct (answers_split u _ _ be u' Ha) as (be1 & be2 & u1 & -> & H1 & _).
      assert (length (take n ss) = n) as H0 by (rewrite length_take; lia).
      destruct (ready_answers n g _ _ _ _ H1 R Hu ltac:(lia)) as (Eb & _). rewrite H0 in Eb.
      destruct (work_with_replies be1 d Hd Hc Hl) as (d1 & l & E1 & El & Em & _); [rewrite Eb; apply all_accepted|].
      assert (length l = n) as Hll by (unfold n; by rewrite <- Em, length_map).
      pose proof (asks_extend _ _ be1 be2 tt d1 (driven_tx_work 0 _ d) E1) as X. rewrite X, E1 in E.
      - injection E as <-. cbn in Ht. rewrite El in Ht. apply app_inv_head in Ht. subst l. lia.
      - by rewrite El, Eb, length_app, length_replicate, Hll. }
    destruct (ready_answers n g _ _ _ _ Ha R Hu Hn) as (Eb & Hdone & Hfl & ws & Hs & Hw).
    destruct (work_with_replies be d Hd Hc Hl) as (d1 & l & E1 & El & Em & _ & Eq & Ec); [rewrite Eb; apply all_accepted|].
    rewrite E in E1. injection E1 as <-. rewrite Ht in El. apply app_inv_head in El. subst l.
    split; [done|]. split; [done|]. exists ws, ss. rewrite <- Em at 1. by split.
Qed.
End Wire.

(** ** From the wire to the network stack *)
(** What an URB that is submitted again leaves alone. *)
Lemma next_submit_calls_nothing l k : keeps (fun u => u_received u = l /\ u_done u = k) next_submit.
Proof. by intros v Hv r v' [= _ <-]. Qed.
#[local] Hint Resolve next_submit_calls_nothing : keeps.
Lemma resubmit_calls_nothing l k b : keeps (fun u => u_received u = l /\ u_done u = k) (hgic_usb_submit_rx_urb b).
Proof. keeps_tac; done. Qed.

Lemma received_is_passed_on g id bs u b :
  accounted g u -> u_stop u = false -> find_flight true id u = Some b -> 0 < zlen bs ->
  exists u', usb_event_step (RxDone id bs) u = Ret (tt, u') /\ accounted g u' /\
    u_received u' = u_received u ++ [bs] /\ u_done u' = u_done u.
Proof.
  intros Hu Hst Hf Hbs. destruct (event_accounted g (RxDone id bs) u Hu) as (u' & E & Hu'). exists u'. split; [done|]. split; [done|].
  revert E. cbn [usb_event_step]. unfold bind at 1, gets. rewrite Hf. unfold bind at 1, store, modify, hgic_usb_receive.
  unfold bind at 1, gets. cbn [u_stop set_u_queues]. rewrite Hst, (proj2 (Z.ltb_lt _ _) Hbs). unfold bind at 1.
  intros E0. apply bind_inv in E0 as (r & u2 & E & [= <-]).
  eapply (resubmit_calls_nothing (u_received u ++ [bs]) (u_done u)); [|exact E]. by split.
Qed.

(** C5. What arrives is delivered.  A receive URB that completes with an aggregated
    block -- behind up to three padding bytes, and whatever follows it in the
    buffer -- makes a joint step of driver and transport after which the network
    stack has exactly the payloads of the block's sub-frames, in their order; the
    transport answers for no frame by it and has all its frames still. *)
Theorem block_reaches_stack rf fw_file stk sc no_bootdl qc_mode txq_size if_agg if_test timer zp
    g id u b (k : nat) cookie fs tail junk d :
  accounted g u -> u_stop u = false -> find_flight true id u = Some b ->
  can_receive d -> d_if_test d = 0 -> (k <= 3)%nat -> 0 <= cookie < 2 ^ 16 ->
  Forall sf_ok fs -> zlen tail <= 8 -> zlen (agg_block cookie fs tail) < 2 ^ 16 ->
  let bs := replicate k 255 ++ agg_block cookie fs tail ++ junk in
  exists d' u', usb_event_step (RxDone id bs) u = Ret (tt, u') /\
    @joint_step rf fw_file stk sc no_bootdl qc_mode txq_size if_agg if_test timer _ (usb_transport zp) (d, u) (d', u') /\
    d_netif d' = d_netif d ++ map sf_payload fs /\ accounted g u' /\ u_done u' = u_done u.
Proof.
  intros Hu Hst Hf Hd Hit Hk Hc Hfs Ht Hz bs. pose proof (zlen_nonneg junk).
  assert (zlen bs = Z.of_nat k + zlen (agg_block cookie fs tail) + zlen junk) as Hl.
  { unfold bs. rewrite !zlen_app. unfold zlen at 1. rewrite length_replicate. lia. }
  assert (0 < zlen (agg_block cookie fs tail)) as H0.
  { unfold agg_block. rewrite zlen_app. change (zlen [_; _; _; _]) with 4. match goal with |- 0 < 4 + zlen ?l => pose proof (zlen_nonneg l) end. lia. }
  destruct (received_is_passed_on g id bs u b Hu Hst Hf ltac:(lia)) as (u' & E & Hu' & Er & Ed).
  destruct (rx_agg_delivers k cookie fs tail junk (zlen bs) d Hd Hit Hk Hc Hfs Ht Hz ltac:(lia)) as (d' & Erx & Hn & _).
  exists d', u'. split; [done|]. split; [|done]. apply (JS_bus _ _ _ _ _ _ _ _ _ _ [BusRx bs]).
  - left. by exists (RxDone id bs).
  - split; cbn; [by rewrite app_nil_r|done].
  - cbn [hear]. by rewrite (bind_Ret _ _ _ _ _ Erx).
Qed.

(** Two payloads in a block. *)
Lemma block_reaches_stack_witness :
  exists d' u', usb_joint (joint_dev, demo_usb) (d', u') /\ d_netif d' = [[1; 2; 3; 4; 5]; [6; 7; 8; 9]].
Proof.
  assert (exists b, find_flight true 1000 demo_usb = Some b) as [b Ef] by (eexists; vm_compute; reflexivity).
  destruct (block_reaches_stack (fun _ => (0, [])) [] [] true false false 1024 0 0 10 true (d_bus_tx joint_dev) 1000 demo_usb b 2 6
    [Sub 7 1 [1; 2; 3; 4; 5] [0; 0; 0]; Sub 8 1 [6; 7; 8; 9] []] [0; 0] [9; 9; 9] joint_dev) as (d' & u' & _ & J & N & _).
  - eapply (probe_accounted HGIC_PKT_MAX_LEN demo_eps true true true (demo_usb0 [])); vm_compute; reflexivity.
  - reflexivity.
  - exact Ef.
  - split; [reflexivity|]. eexists. split; [vm_compute; reflexivity|]. vm_compute. repeat split; discriminate.
  - reflexivity.
  - lia.
  - lia.
  - repeat constructor; vm_compute; done.
  - done.
  - by vm_compute.
  - exists d', u'. split; [exact J|exact N].
Defined.

(** A command and two data frames. *)
Lemma queues_reach_wire_witness :
  exists ws, length ws = 3%nat /\
  Forall2 (on_wire true 512) [skb_data (demo_cmd 1); [0x2B; 0x1A; 9; 1; 10; 0; 0; 0; 7; 7]; [0x2B; 0x1A; 9; 1; 10; 0; 1; 0; 8; 8]] ws /\
  exists d' u', transmits true (demo_tx [demo_cmd 1] [Tx.demo_frame 7; Tx.demo_frame 8]) demo_usb d' u' /\ u_sent u' = ws.
Proof.
  destruct (queues_reach_wire true (demo_tx [demo_cmd 1] [Tx.demo_frame 7; Tx.demo_frame 8]) [] demo_usb) as [(d' & u' & E) K].
  - apply demo_flowing.
  - repeat constructor; exists 3, 0; repeat split; done.
  - repeat constructor; vm_compute; done.
  - eapply (probe_accounted HGIC_PKT_MAX_LEN demo_eps true true true (demo_usb0 [])); vm_compute; reflexivity.
  - split; vm_compute; done.
  - destruct (K d' u' E) as (_ & _ & ws & ss & Hs & Hw & _). exists ws.
    split; [by rewrite <- (Forall2_length _ _ _ Hw)|]. split; [exact Hw|]. exists d', u'. split; [exact E|exact Hs].
Defined.
