(* ===== verification/MmcSpi.v ===== *)
(** * The MMC host over an SPI controller (utils/mmc_spi.c)

    A chip on SPI is driven by the kernel's MMC core through this host: it frames
    commands and data blocks, looks for responses and tokens in the bytes that
    come back, and puts together again what arrives a few bits late.

    Messages are built from five [spi_transfer]s of the host that point into its
    buffers, as in the source: a message is a list of the transfers' names, and
    what is sent is read through the pointers when it is sent.  The scratch buffer
    is [struct scratch], 32 bytes.  A segment of the request's memory is the list
    of bytes from its offset on.

    The surroundings -- the SPI core and controller with the card behind it, the
    platform's callbacks, the MMC core -- are a parameter: a state of any type and
    a function from a [request] to its [answer] and the next state.  Time is
    counted in units of which a jiffy has [tick].  The CRCs and the conversion
    of microseconds are the kernel's library and parameters as well.  Messages, and
    the pulse that marks a CRC error on a GPIO, are left out. *)
From S2P Require Import Prelude Bytes Proto.

Definition ENOSYS : Z := 38.
Definition EPROTO : Z := 71.
Definition EILSEQ : Z := 84.
Definition SPI_RESPONSE_ACCEPTED : Z := Z.lor (Z.shiftl 2 1) 1.
Definition SPI_RESPONSE_CRC_ERR : Z := Z.lor (Z.shiftl 5 1) 1.
Definition SPI_RESPONSE_WRITE_ERR : Z := Z.lor (Z.shiftl 6 1) 1.
Definition SPI_TOKEN_SINGLE : Z := 0xfe.
Definition SPI_TOKEN_MULTI_WRITE : Z := 0xfc.
Definition SPI_TOKEN_STOP_TRAN : Z := 0xfd.
Definition MMC_SPI_BLOCKSIZE : Z := 512.
Definition MMC_SPI_BLOCKSATONCE : Z := 128.

(** What the kernel's headers name: response flags, data flags, the bits of the
    first response byte, power modes, bits of the SPI mode. *)
Definition MMC_RSP_BUSY : Z := 0x8.
Definition MMC_RSP_SPI_S1 : Z := 0x80.
Definition MMC_RSP_SPI_S2 : Z := 0x100.
Definition MMC_RSP_SPI_B4 : Z := 0x200.
Definition MMC_RSP_SPI_BUSY : Z := 0x400.
Definition MMC_RSP_SPI_R1 : Z := MMC_RSP_SPI_S1.
Definition MMC_RSP_SPI_R1B : Z := Z.lor MMC_RSP_SPI_S1 MMC_RSP_SPI_BUSY.
Definition MMC_RSP_SPI_R2 : Z := Z.lor MMC_RSP_SPI_S1 MMC_RSP_SPI_S2.
Definition MMC_RSP_SPI_R3 : Z := Z.lor MMC_RSP_SPI_S1 MMC_RSP_SPI_B4.
Definition MMC_RSP_R1B : Z := 0x1d.
Definition MMC_DATA_READ : Z := 0x200.
Definition MMC_STOP_TRANSMISSION : Z := 12.
Definition MMC_TYPE_SDIO : Z := 2.
Definition MMC_POWER_OFF : Z := 0.
Definition MMC_POWER_UP : Z := 1.
Definition MMC_POWER_ON : Z := 2.
Definition SPI_CPHA : Z := 1.
Definition SPI_CPOL : Z := 2.
Definition SPI_CS_HIGH : Z := 4.

(** ** Data *)
(** What a pointer of a transfer points into. *)
Inductive spi_buf :=
  | Ones                        (* [host->ones] *)
  | Stack                       (* the array [tx] of mmc_spi_command_send *)
  | Scratch (off : Z)           (* [host->data] *)
  | Mem (seg : nat) (off : Z).  (* a segment of the request *)

Record spi_transfer := Xfer {
  x_tx : option spi_buf; x_rx : option spi_buf; x_len : Z; x_speed_hz : Z; x_cs_change : bool }.
Definition no_xfer : spi_transfer := Xfer None None 0 0 false.

(** The transfers of the host. *)
Inductive xname := XToken | XT | XCrc | XEarly | XStatus.
#[export] Instance xname_eq_dec : EqDecision xname.
Proof. solve_decision. Defined.

Record mmc_command := Cmd {
  c_opcode : Z; c_arg : Z; c_flags : Z; c_resp0 : Z; c_resp1 : Z; c_error : Z }.
Definition set_resp0 (r : Z) (c : mmc_command) : mmc_command :=
  Cmd (c_opcode c) (c_arg c) (c_flags c) r (c_resp1 c) (c_error c).
Definition set_resp1 (r : Z) (c : mmc_command) : mmc_command :=
  Cmd (c_opcode c) (c_arg c) (c_flags c) (c_resp0 c) r (c_error c).
Definition set_cmd_error (e : Z) (c : mmc_command) : mmc_command :=
  Cmd (c_opcode c) (c_arg c) (c_flags c) (c_resp0 c) (c_resp1 c) e.

(** [d_sg]: the lengths of the segments. *)
Record mmc_data := Data {
  d_blksz : Z; d_blocks : Z; d_flags : Z; d_timeout_ns : Z; d_timeout_clks : Z; d_sg : list Z;
  d_error : Z; d_xfered : Z }.
Definition set_data_error (e : Z) (d : mmc_data) : mmc_data :=
  Data (d_blksz d) (d_blocks d) (d_flags d) (d_timeout_ns d) (d_timeout_clks d) (d_sg d) e (d_xfered d).
Definition add_xfered (n : Z) (d : mmc_data) : mmc_data :=
  Data (d_blksz d) (d_blocks d) (d_flags d) (d_timeout_ns d) (d_timeout_clks d) (d_sg d) (d_error d)
    (u32 (d_xfered d + n)).

Record mmc_request := Req { r_cmd : mmc_command; r_data : option mmc_data; r_stop : option mmc_command }.

Record mmc_ios := Ios { i_power_mode : Z; i_vdd : Z; i_clock : Z }.

(** What the MMC core is told of the host. *)
Record mmc_caps := Caps { max_blk_size : Z; max_segs : Z; max_req_size : Z; max_blk_count : Z;
  m_f_min : Z; m_f_max : Z; m_ocr_avail : Z; m_caps : Z; m_caps2 : Z }.

(** The calls that leave the file.  A message is the bytes of each transfer and
    whether the chip select changes behind it. *)
Inductive request :=
  | SpiSync (m : list (list Z * bool)) | SpiSetup (mode speed : Z) | SpiWrite (bs : list Z)
  | BusLock | BusUnlock | RequestDone | Schedule | Msleep (ms : Z) | SetPower (vdd : Z)
  | GpioRequest (n : Z) | Kmalloc (n : Z) | Kfree_ones | Kfree_data | MmcAllocHost | MmcFreeHost
  | PdataInit | PdataExit | PutPdata | SetDrvdata (b : bool)
  | MmcAddHost (caps : mmc_caps) | MmcRemoveHost | GpioRequestCd | GpioRequestCdIrq | GpioRequestRo | DetectChange (ms : Z).

(** [a_rx]: the bytes received in the course of a message; what is missing was
    not stored. *)
Record answer := Answer { a_status : Z; a_rx : list Z; a_elapsed : Z }.

Record platform := Platform {
  p_setpower : bool; p_powerup_msecs : Z; p_detect_delay : Z; p_ocr_mask : Z; p_caps : Z; p_caps2 : Z;
  p_init : bool; p_exit : bool; p_cd_gpio : bool; p_ro_gpio : bool }.

Section Host.
Context {C : Type} (react : request -> C -> answer * C) (tick : Z).
Context (crc7_be : Z -> list Z -> Z) (crc_itu_t : Z -> list Z -> Z) (usecs_to_jiffies : Z -> Z) (HZ : Z).
(** [mmc->use_spi_crc], [mmc->card] and the platform data. *)
Context (use_spi_crc : bool) (card : option Z) (pdata : option platform).

Definition r1b_timeout : Z := HZ * 3.

Record mmc_spi_host := Host {
  h_env : C; h_log : list request; h_now : Z;
  h_power_mode : Z; h_powerup_msecs : Z;
  h_x : xname -> spi_transfer; h_m : list xname;
  h_data : list Z; h_tx : list Z; h_mem : list (list Z);
  h_mode : Z; h_speed : Z }.

Definition set_x (n : xname) (x : spi_transfer) (s : mmc_spi_host) : mmc_spi_host :=
  Host (h_env s) (h_log s) (h_now s) (h_power_mode s) (h_powerup_msecs s)
    (fun k => if decide (k = n) then x else h_x s k) (h_m s) (h_data s) (h_tx s) (h_mem s) (h_mode s) (h_speed s).
Definition set_m (m : list xname) (s : mmc_spi_host) : mmc_spi_host :=
  Host (h_env s) (h_log s) (h_now s) (h_power_mode s) (h_powerup_msecs s)
    (h_x s) m (h_data s) (h_tx s) (h_mem s) (h_mode s) (h_speed s).
Definition set_scratch (d : list Z) (s : mmc_spi_host) : mmc_spi_host :=
  Host (h_env s) (h_log s) (h_now s) (h_power_mode s) (h_powerup_msecs s)
    (h_x s) (h_m s) d (h_tx s) (h_mem s) (h_mode s) (h_speed s).
Definition set_tx (tx : list Z) (s : mmc_spi_host) : mmc_spi_host :=
  Host (h_env s) (h_log s) (h_now s) (h_power_mode s) (h_powerup_msecs s)
    (h_x s) (h_m s) (h_data s) tx (h_mem s) (h_mode s) (h_speed s).
Definition set_mem (mem : list (list Z)) (s : mmc_spi_host) : mmc_spi_host :=
  Host (h_env s) (h_log s) (h_now s) (h_power_mode s) (h_powerup_msecs s)
    (h_x s) (h_m s) (h_data s) (h_tx s) mem (h_mode s) (h_speed s).
Definition set_power_mode (p : Z) (s : mmc_spi_host) : mmc_spi_host :=
  Host (h_env s) (h_log s) (h_now s) p (h_powerup_msecs s)
    (h_x s) (h_m s) (h_data s) (h_tx s) (h_mem s) (h_mode s) (h_speed s).
Definition set_spi (mode speed : Z) (s : mmc_spi_host) : mmc_spi_host :=
  Host (h_env s) (h_log s) (h_now s) (h_power_mode s) (h_powerup_msecs s)
    (h_x s) (h_m s) (h_data s) (h_tx s) (h_mem s) mode speed.
Definition after_call (r : request) (c : C) (elapsed : Z) (s : mmc_spi_host) : mmc_spi_host :=
  Host c (h_log s ++ [r]) (h_now s + Z.max 0 elapsed) (h_power_mode s) (h_powerup_msecs s)
    (h_x s) (h_m s) (h_data s) (h_tx s) (h_mem s) (h_mode s) (h_speed s).

Definition spi_ask (r : request) : M mmc_spi_host answer := fun s =>
  let '(a, c) := react r (h_env s) in Ret (a, after_call r c (a_elapsed a) s).
Definition spi_do (r : request) : M mmc_spi_host unit := let! _ := spi_ask r in ret tt.
Definition spi_try (r : request) : M mmc_spi_host Z := let! a := spi_ask r in ret (s32 (a_status a)).

Definition jiffies (s : mmc_spi_host) : Z := h_now s / tick.

(** ** Messages *)
Definition segment (s : mmc_spi_host) (k : nat) : outcome (list Z) :=
  match h_mem s !! k with Some m => Ret m | None => Fault OutOfBounds end.
Definition buf_read (s : mmc_spi_host) (b : spi_buf) (n : Z) : outcome (list Z) :=
  match b with
  | Ones => mem_read (replicate (Z.to_nat MMC_SPI_BLOCKSIZE) 0xff) 0 n
  | Stack => mem_read (h_tx s) 0 n
  | Scratch off => mem_read (h_data s) off n
  | Mem k off => leto seg := segment s k in mem_read seg off n
  end.
Definition buf_write (b : spi_buf) (bs : list Z) (s : mmc_spi_host) : outcome mmc_spi_host :=
  match b with
  | Scratch off => leto d := mem_write (h_data s) off bs in Ret (set_scratch d s)
  | Mem k off => leto seg := segment s k in leto seg := mem_write seg off bs in
                 Ret (set_mem (<[k := seg]> (h_mem s)) s)
  | Stack => leto d := mem_write (h_tx s) 0 bs in Ret (set_tx d s)
  | Ones => Fault OutOfBounds
  end.

(** The bytes of a message: of a transfer without any, zeros are sent. *)
Fixpoint gather (s : mmc_spi_host) (m : list xname) : outcome (list (list Z * bool)) :=
  match m with
  | [] => Ret []
  | n :: m =>
      let x := h_x s n in
      leto bs := (match x_tx x with Some b => buf_read s b (x_len x) | None => Ret (replicate (Z.to_nat (x_len x)) 0) end) in
      leto l := gather s m in
      Ret ((bs, x_cs_change x) :: l)
  end.
(** The bytes received go where the transfers' pointers say; there must be room
    for all that a transfer can receive. *)
Fixpoint store (m : list xname) (rx : list Z) (s : mmc_spi_host) : outcome mmc_spi_host :=
  match m with
  | [] => Ret s
  | n :: m =>
      let x := h_x s n in
      leto s' := (match x_rx x with
                  | Some b => leto _ := buf_read s b (x_len x) in buf_write b (ztake (x_len x) rx) s
                  | None => Ret s
                  end) in
      store m (zdrop (x_len x) rx) s'
  end.
Definition spi_sync_locked (m : list xname) : M mmc_spi_host Z := fun s =>
  match gather s m with
  | Fault f => Fault f
  | Ret txs =>
      let '(a, c) := react (SpiSync txs) (h_env s) in
      match store m (map u8 (a_rx a)) (after_call (SpiSync txs) c (a_elapsed a) s) with
      | Ret s' => Ret (s32 (a_status a), s')
      | Fault f => Fault f
      end
  end.

Definition put_x (n : xname) (x : spi_transfer) : M mmc_spi_host unit := modify (set_x n x).
Definition get_x (n : xname) : M mmc_spi_host spi_transfer := gets (fun s => h_x s n).
Definition put_len (n : xname) (len : Z) : M mmc_spi_host unit :=
  let! x := get_x n in put_x n (Xfer (x_tx x) (x_rx x) len (x_speed_hz x) (x_cs_change x)).
(** A byte and several bytes of the scratch buffer. *)
Definition peek (i : Z) : M mmc_spi_host Z := fun s => lift (mem_get (h_data s) i) s.
Definition scratch_read (off n : Z) : M mmc_spi_host (list Z) := fun s => lift (mem_read (h_data s) off n) s.
Definition scratch_write (off : Z) (bs : list Z) : M mmc_spi_host unit := fun s =>
  match mem_write (h_data s) off bs with Ret d => Ret (tt, set_scratch d s) | Fault f => Fault f end.

(** ** Reading *)
Definition mmc_cs_off : M mmc_spi_host Z :=
  let! mode := gets h_mode in let! speed := gets h_speed in spi_try (SpiSetup mode speed).

Definition mmc_spi_readbytes (len : Z) : M mmc_spi_host Z :=
  if 32 <? len then ret (- EIO) else
  put_len XStatus len ;;;
  spi_sync_locked [XStatus].

Fixpoint skip_loop (fuel : nat) (start timeout n byte : Z) : M mmc_spi_host Z :=
  match fuel with
  | O => fail Diverges
  | S fuel =>
      let! status := mmc_spi_readbytes n in
      if status <? 0 then ret status else
      let! bs := scratch_read 0 n in
      match list_find (fun b => b <> byte) bs with
      | Some (_, b) => ret b
      | None =>
          let! now := gets jiffies in
          if start + timeout <? now then ret (- ETIMEDOUT) else
          (if start + 1 <? now then spi_do Schedule else ret tt) ;;;
          skip_loop fuel start timeout n byte
      end
  end.
(** Every round takes a unit of time or more. *)
Definition skip_fuel (timeout : Z) : nat := Z.to_nat ((timeout + 2) * tick).
Definition mmc_spi_skip (timeout n byte : Z) : M mmc_spi_host Z :=
  let! start := gets jiffies in skip_loop (skip_fuel timeout) start timeout n byte.
Definition mmc_spi_wait_unbusy (timeout : Z) : M mmc_spi_host Z := mmc_spi_skip timeout 29 0.
Definition mmc_spi_readtoken (timeout : Z) : M mmc_spi_host Z := mmc_spi_skip timeout 1 0xff.

(** ** Responses *)
Definition mmc_spi_resp_type (cmd : mmc_command) : Z :=
  Z.land (c_flags cmd) (Z.lor (Z.lor MMC_RSP_SPI_S1 MMC_RSP_SPI_BUSY) (Z.lor MMC_RSP_SPI_S2 MMC_RSP_SPI_B4)).

(** [done:] the error is recorded and the chip select released. *)
Definition response_done (cmd : mmc_command) (value : Z) : M mmc_spi_host (Z * mmc_command) :=
  let! _ := mmc_cs_off in
  ret (value, if value <? 0 then set_cmd_error value cmd else cmd).

(** The byte at [cp], read from the card first when [cp] is the end; [value] is
    overwritten by that read. *)
Definition next_byte (cmd : mmc_command) (value cp end_ : Z)
    (k : Z -> Z -> Z -> M mmc_spi_host (Z * mmc_command)) : M mmc_spi_host (Z * mmc_command) :=
  if cp =? end_ then
    let! value := mmc_spi_readbytes 1 in
    if value <? 0 then response_done cmd value else k value 0 1
  else k value cp end_.

(** [while (cp < end && *cp == byte) cp++], [k] bytes from the end. *)
Fixpoint skip_bytes (k : nat) (byte cp : Z) : M mmc_spi_host Z :=
  match k with
  | O => ret cp
  | S k => let! b := peek cp in if b =? byte then skip_bytes k byte (cp + 1) else ret cp
  end.

(** [while (rotator & 0x8000)]: sixteen shifts empty it. *)
Fixpoint shift_out (fuel : nat) (bitshift rotator : Z) : Z * Z :=
  match fuel with
  | O => (bitshift, rotator)
  | S fuel => if Z.testbit rotator 15 then shift_out fuel (bitshift + 1) (u16 (Z.shiftl rotator 1)) else (bitshift, rotator)
  end.

(** The error a status byte stands for: PARAMETER and ADDRESS, ILLEGAL_COMMAND,
    COM_CRC, ERASE_SEQ and ERASE_RESET. *)
Definition r1_value (r1 value : Z) : Z :=
  if r1 =? 0 then value
  else if negb (Z.land 0x60 r1 =? 0) then - EFAULT
  else if negb (Z.land 0x04 r1 =? 0) then - ENOSYS
  else if negb (Z.land 0x08 r1 =? 0) then - EILSEQ
  else if negb (Z.land 0x12 r1 =? 0) then - EIO
  else value.

(** The end of the function, behind the switch. *)
Definition response_end (cmd : mmc_command) (cs_on : bool) (value : Z) : M mmc_spi_host (Z * mmc_command) :=
  if (0 <=? value) && cs_on then ret (value, cmd) else response_done cmd value.

(** The four bytes of an R3, [i] of them left. *)
Fixpoint r3_bytes (i : nat) (cs_on : bool) (bitshift rotator : Z) (cmd : mmc_command) (value cp end_ : Z) :
    M mmc_spi_host (Z * mmc_command) :=
  match i with
  | O => response_end cmd cs_on value
  | S i =>
      let resp := u32 (Z.shiftl (c_resp1 cmd) 8) in
      next_byte (set_resp1 resp cmd) value cp end_ (fun value cp end_ =>
        let! c := peek cp in
        if negb (bitshift =? 0) then
          let rotator := u16 (Z.lor rotator (Z.shiftl c bitshift)) in
          r3_bytes i cs_on bitshift (u16 (Z.shiftl rotator 8))
            (set_resp1 (Z.lor resp (Z.shiftr rotator 8)) cmd) value (cp + 1) end_
        else r3_bytes i cs_on bitshift rotator (set_resp1 (Z.lor resp c) cmd) value (cp + 1) end_)
  end.

(** From the status byte in [resp[0]] on. *)
Definition after_status (cs_on : bool) (bitshift leftover : Z) (cmd : mmc_command) (value cp end_ : Z) :
    M mmc_spi_host (Z * mmc_command) :=
  let cmd := set_cmd_error 0 cmd in
  let value := r1_value (c_resp0 cmd) value in
  let type := mmc_spi_resp_type cmd in
  if type =? MMC_RSP_SPI_R1B then
    let! cp := skip_bytes (Z.to_nat (end_ - cp)) 0 cp in
    (if cp =? end_ then let! _ := mmc_spi_wait_unbusy r1b_timeout in ret tt else ret tt) ;;;
    response_end cmd cs_on value
  else if type =? MMC_RSP_SPI_R2 then
    next_byte cmd value cp end_ (fun value cp end_ =>
      let! c := peek cp in
      let resp := if negb (bitshift =? 0)
                  then Z.land (u16 (Z.lor (u16 (Z.shiftl leftover 8)) (Z.shiftl c bitshift))) 0xFF00
                  else Z.shiftl c 8 in
      response_end (set_resp0 (Z.lor (c_resp0 cmd) resp) cmd) cs_on value)
  else if type =? MMC_RSP_SPI_R3 then
    r3_bytes 4 cs_on bitshift (u16 (Z.shiftl leftover 8)) (set_resp1 0 cmd) value cp end_
  else if type =? MMC_RSP_SPI_R1 then response_end cmd cs_on value
  else response_done cmd (if 0 <=? value then - EINVAL else value).

Definition checkstatus (cs_on : bool) (cmd : mmc_command) (value cp end_ : Z) : M mmc_spi_host (Z * mmc_command) :=
  let! c := peek cp in
  if Z.testbit c 7 then
    next_byte cmd value (cp + 1) end_ (fun value cp end_ =>
      let! c2 := peek cp in
      let '(bitshift, rotator) := shift_out 16 0 (Z.lor (u16 (Z.shiftl c 8)) c2) in
      after_status cs_on bitshift (u8 rotator) (set_resp0 (Z.shiftr rotator 8) cmd) value (cp + 1) end_)
  else after_status cs_on 0 0 (set_resp0 c cmd) value (cp + 1) end_.

(** A byte at a time, [i] of them, until one is not 0xff. *)
Fixpoint status_loop (i : nat) (cs_on : bool) (cmd : mmc_command) : M mmc_spi_host (Z * mmc_command) :=
  match i with
  | O => response_done cmd (- ETIMEDOUT)
  | S i =>
      let! value := mmc_spi_readbytes 1 in
      if value <? 0 then response_done cmd value else
      let! b := peek 0 in
      if negb (b =? 0xff) then checkstatus cs_on cmd value 0 1 else status_loop i cs_on cmd
  end.

Definition mmc_spi_response_get (cmd : mmc_command) (cs_on : bool) : M mmc_spi_host (Z * mmc_command) :=
  let! t := get_x XT in
  let end_ := x_len t in
  let! cp := skip_bytes (Z.to_nat (end_ - 8)) 0xff 8 in
  if cp =? end_ then status_loop 14 cs_on cmd
  else checkstatus cs_on cmd 0 cp end_.

(** ** Commands *)
Definition put_unaligned_be32 (v : Z) : list Z := rev (put_unaligned_le32 v).
Definition get_unaligned_be32 (p : list Z) : outcome Z :=
  match p with b0 :: b1 :: b2 :: b3 :: _ => get_unaligned_le32 [b3; b2; b1; b0] | _ => Fault OutOfBounds end.

(** Opcode, argument and CRC of a command. *)
Definition command_frame (cmd : mmc_command) : list Z :=
  let body := u8 (Z.lor 0x40 (c_opcode cmd)) :: put_unaligned_be32 (c_arg cmd) in
  body ++ [u8 (Z.lor (crc7_be 0 body) 0x01)].

Definition command_len (data : option mmc_data) (cmd : mmc_command) (cs_on : bool) : outcome Z :=
  leto read := (if cs_on then leto d := deref data in Ret (negb (Z.land (d_flags d) MMC_DATA_READ =? 0)) else Ret false) in
  Ret (if read : bool then 9
       else if negb (Z.land (c_flags cmd) MMC_RSP_SPI_S2 =? 0) then 18
       else if negb (Z.land (c_flags cmd) MMC_RSP_SPI_B4 =? 0) then 21
       else if negb (Z.land (c_flags cmd) MMC_RSP_BUSY =? 0) then 29
       else 17).

Definition mmc_spi_command_send (data : option mmc_data) (cmd : mmc_command) (cs_on : bool) :
    M mmc_spi_host (Z * mmc_command) :=
  let! len := lift (command_len data cmd cs_on) in
  modify (set_tx ([0xff] ++ command_frame cmd ++ replicate 22 0xff)) ;;;
  modify (set_m []) ;;;
  put_x XT (Xfer (Some Stack) (Some (Scratch 0)) len 0 true) ;;;
  modify (set_m [XT]) ;;;
  let! m := gets h_m in
  let! status := spi_sync_locked m in
  if status <? 0 then ret (status, set_cmd_error status cmd)
  else mmc_spi_response_get cmd cs_on.

(** ** Data blocks *)
Definition msg_add (n : xname) : M mmc_spi_host unit := modify (fun s => set_m (h_m s ++ [n]) s).

Definition mmc_spi_setup_data_message (multiple to_device : bool) : M mmc_spi_host unit :=
  modify (set_m []) ;;;
  (if to_device then
     scratch_write 29 [if multiple then SPI_TOKEN_MULTI_WRITE else SPI_TOKEN_SINGLE] ;;;
     put_x XToken (Xfer (Some (Scratch 29)) None 1 0 false) ;;;
     msg_add XToken
   else ret tt) ;;;
  put_x XT (Xfer (Some Ones) None 0 0 false) ;;;
  msg_add XT ;;;
  put_x XCrc (if to_device then Xfer (Some (Scratch 30)) None 2 0 false
              else Xfer (Some Ones) (Some (Scratch 30)) 2 0 false) ;;;
  msg_add XCrc ;;;
  (if multiple || to_device then
     put_x XEarly (Xfer (Some Ones) (Some (Scratch 0)) (if to_device then 29 else 1) 0 true) ;;;
     msg_add XEarly
   else ret tt).

(** [while (pattern & 0x80000000) pattern <<= 1]: at most 32 times. *)
Fixpoint left_adjust (fuel : nat) (pattern : Z) : Z :=
  match fuel with
  | O => pattern
  | S fuel => if Z.testbit pattern 31 then left_adjust fuel (u32 (Z.shiftl pattern 1)) else pattern
  end.
(** The answer to a block from the first four bytes behind it. *)
Definition data_response (first : Z) : Z :=
  let pattern := Z.lor first 0xE0000000 in
  let pattern := Z.shiftr (left_adjust 32 pattern) 27 in
  if pattern =? SPI_RESPONSE_ACCEPTED then 0
  else if pattern =? SPI_RESPONSE_CRC_ERR then - EILSEQ
  else if pattern =? SPI_RESPONSE_WRITE_ERR then - EIO
  else - EPROTO.

(** Advancing the pointer of the transfer in use. *)
Definition buf_add (n : Z) (b : spi_buf) : spi_buf :=
  match b with Mem k off => Mem k (off + n) | Scratch off => Scratch (off + n) | b => b end.
Definition advance_tx : M mmc_spi_host unit :=
  let! t := get_x XT in
  put_x XT (Xfer (buf_add (x_len t) <$> x_tx t) (x_rx t) (x_len t) (x_speed_hz t) (x_cs_change t)).
Definition advance_rx : M mmc_spi_host unit :=
  let! t := get_x XT in
  put_x XT (Xfer (x_tx t) (buf_add (x_len t) <$> x_rx t) (x_len t) (x_speed_hz t) (x_cs_change t)).

Definition block_read (b : option spi_buf) (n : Z) : M mmc_spi_host (list Z) := fun s =>
  lift (leto b := deref b in buf_read s b n) s.
Definition block_write (b : option spi_buf) (bs : list Z) : M mmc_spi_host unit := fun s =>
  match (leto b := deref b in buf_write b bs s) with Ret s' => Ret (tt, s') | Fault f => Fault f end.

Definition mmc_spi_writeblock (timeout : Z) : M mmc_spi_host Z :=
  let! t := get_x XT in
  (if use_spi_crc then
     let! bs := block_read (x_tx t) (x_len t) in
     let crc := u16 (crc_itu_t 0 bs) in
     scratch_write 30 [Z.shiftr crc 8; u8 crc]
   else ret tt) ;;;
  let! m := gets h_m in
  let! status := spi_sync_locked m in
  if negb (status =? 0) then ret status else
  let! first := scratch_read 0 4 in
  let! pattern := lift (get_unaligned_be32 first) in
  let status := data_response pattern in
  if negb (status =? 0) then ret status else
  advance_tx ;;;
  let! rest := scratch_read 4 25 in
  if existsb Z.odd rest then ret 0 else mmc_spi_wait_unbusy timeout.

(** The shift of the first byte that is not all ones: the data starts behind its
    first zero bit.  And the bits of it behind that. *)
Fixpoint token_shift (fuel : nat) (bitshift status : Z) : Z * Z :=
  match fuel with
  | O => (bitshift, status)
  | S fuel => if Z.testbit status 7 then token_shift fuel (bitshift - 1) (Z.shiftl status 1) else (bitshift, status)
  end.
(** [temp] runs through the bytes, [leftover] through the bits of the previous. *)
Fixpoint realign (bitshift leftover : Z) (bs : list Z) : list Z :=
  match bs with
  | [] => []
  | temp :: bs =>
      Z.lor leftover (Z.shiftr temp bitshift) :: realign bitshift (u8 (Z.shiftl temp (8 - bitshift))) bs
  end.

Definition mmc_spi_readblock (timeout : Z) : M mmc_spi_host Z :=
  let! t := get_x XT in
  let! status := mmc_spi_readbytes 1 in
  if status <? 0 then ret status else
  let! status := peek 0 in
  let! status := (if (status =? 0xff) || (status =? 0) then mmc_spi_readtoken timeout else ret status) in
  if status <? 0 then ret status else
  let '(bitshift, status) := token_shift 8 7 status in
  let leftover := u8 (Z.shiftl status 1) in
  let! m := gets h_m in
  let! _ := spi_sync_locked m in
  (if negb (bitshift =? 0) then
     let! bs := block_read (x_rx t) (x_len t) in
     let! crc := scratch_read 30 2 in
     let bs' := realign bitshift leftover (bs ++ crc) in
     block_write (x_rx t) (ztake (x_len t) bs') ;;;
     scratch_write 30 (zdrop (x_len t) bs')
   else ret tt) ;;;
  let! bad := (if use_spi_crc then
                 let! bs := block_read (x_rx t) (x_len t) in
                 let crc := u16 (crc_itu_t 0 bs) in
                 let! hi := peek 30 in
                 let! lo := peek 31 in
                 let crc_val := Z.lor (Z.shiftl hi 8) lo in
                 scratch_write 30 (put_unaligned_le16 crc_val) ;;;
                 ret (negb (crc_val =? crc))
               else ret false) in
  if bad : bool then ret (- EILSEQ) else
  advance_rx ;;; ret 0.

(** [while (length)] over one segment; the last status. *)
Fixpoint block_loop (fuel : nat) (to_device multiple : bool) (blk_size timeout : Z) (status length : Z) (data : mmc_data) :
    M mmc_spi_host (Z * mmc_data) :=
  match fuel with
  | O => fail Diverges
  | S fuel =>
      if length =? 0 then ret (status, data) else
      let len := Z.min length blk_size in
      put_len XT len ;;;
      let! status := (if to_device then mmc_spi_writeblock timeout else mmc_spi_readblock timeout) in
      if status <? 0 then ret (status, data) else
      let data := add_xfered len data in
      if negb multiple then ret (status, data) else
      block_loop fuel to_device multiple blk_size timeout status (length - len) data
  end.

(** The segments from number [k] on. *)
Fixpoint sg_loop (to_device multiple : bool) (blk_size timeout : Z) (k : nat) (sgs : list Z) (data : mmc_data) :
    M mmc_spi_host mmc_data :=
  match sgs with
  | [] => ret data
  | length :: sgs =>
      let! t := get_x XT in
      put_x XT (if to_device then Xfer (Some (Mem k 0)) (x_rx t) (x_len t) (x_speed_hz t) (x_cs_change t)
                else Xfer (x_tx t) (Some (Mem k 0)) (x_len t) (x_speed_hz t) (x_cs_change t)) ;;;
      let! r := block_loop (S (Z.to_nat length)) to_device multiple blk_size timeout 0 length data in
      let '(status, data) := r in
      if status <? 0 then ret (set_data_error status data)
      else sg_loop to_device multiple blk_size timeout (S k) sgs data
  end.

(** Behind the blocks of a write of several. *)
Definition stop_tran (timeout : Z) (data : mmc_data) : M mmc_spi_host mmc_data :=
  modify (set_m [XEarly]) ;;;
  scratch_write 0 (replicate 29 0xff) ;;;
  scratch_write 0 [SPI_TOKEN_STOP_TRAN] ;;;
  let! e := get_x XEarly in
  put_x XEarly (Xfer (x_rx e) (x_rx e) 29 (x_speed_hz e) (x_cs_change e)) ;;;
  let! m := gets h_m in
  let! tmp := spi_sync_locked m in
  if tmp <? 0 then ret (if d_error data =? 0 then set_data_error tmp data else data) else
  let! rest := scratch_read 2 27 in
  if existsb (fun b => negb (b =? 0)) rest then ret data else
  let! tmp := mmc_spi_wait_unbusy timeout in
  ret (if (tmp <? 0) && (d_error data =? 0) then set_data_error tmp data else data).

(** The timeout of a block in jiffies; 32-bit arithmetic. *)
Definition block_timeout (clock_rate : Z) (data : mmc_data) : outcome Z :=
  if clock_rate =? 0 then Fault Overflow else
  let timeout := u32 (d_timeout_ns data + u32 (d_timeout_clks data * 1000000) / clock_rate) in
  Ret (usecs_to_jiffies (timeout / 1000) + 1).

Definition mmc_spi_data_do (data : mmc_data) (blk_size : Z) : M mmc_spi_host mmc_data :=
  let multiple := 1 <? d_blocks data in
  let to_device := Z.land (d_flags data) MMC_DATA_READ =? 0 in
  mmc_spi_setup_data_message multiple to_device ;;;
  let! t := get_x XT in
  let! speed := gets h_speed in
  let! timeout := lift (block_timeout (if negb (x_speed_hz t =? 0) then x_speed_hz t else speed) data) in
  let! data := sg_loop to_device multiple blk_size timeout 0 (d_sg data) data in
  if to_device && multiple then stop_tran timeout data else ret data.

(** ** Requests *)
Definition stop_command : mmc_command :=
  Cmd MMC_STOP_TRANSMISSION 0 (Z.lor MMC_RSP_SPI_R1B MMC_RSP_R1B) 0 0 0.

(** The stop command, or the chip select released. *)
Definition finish_data (cmd : mmc_command) (data : mmc_data) (stop : option mmc_command) : M mmc_spi_host mmc_request :=
  match stop with
  | Some stop => let! r := mmc_spi_command_send (Some data) stop false in ret (Req cmd (Some data) (Some (snd r)))
  | None => let! _ := mmc_cs_off in ret (Req cmd (Some data) None)
  end.

(** [crc_recover:] on; the retries left are the fuel. *)
Fixpoint crc_recover (crc_retry : nat) (mrq : mmc_request) : M mmc_spi_host mmc_request :=
  let! r := mmc_spi_command_send (r_data mrq) (r_cmd mrq) (bool_decide (is_Some (r_data mrq))) in
  let '(status, cmd) := r in
  match r_data mrq with
  | Some data =>
      if negb (status =? 0) then ret (Req cmd (r_data mrq) (r_stop mrq)) else
      let! data := mmc_spi_data_do data (d_blksz data) in
      let finish := finish_data cmd data (r_stop mrq) in
      match crc_retry with
      | S crc_retry =>
          if d_error data =? - EILSEQ then
            let! type := lift (deref card) in
            if negb (type =? MMC_TYPE_SDIO) then
              let! _ := mmc_spi_command_send (Some data) stop_command false in
              crc_recover crc_retry (Req cmd (Some (set_data_error 0 data)) (r_stop mrq))
            else finish
          else finish
      | O => finish
      end
  | None => ret (Req cmd None (r_stop mrq))
  end.

Definition mmc_spi_request (mrq : mmc_request) : M mmc_spi_host mmc_request :=
  spi_do BusLock ;;;
  let! mrq := crc_recover 5 mrq in
  spi_do BusUnlock ;;;
  spi_do RequestDone ;;;
  ret mrq.

(** ** Settings *)
Definition set_mode (mode : Z) : M mmc_spi_host unit := modify (fun s => set_spi mode (h_speed s) s).
Definition spi_setup : M mmc_spi_host Z := mmc_cs_off.

Definition mmc_spi_initsequence : M mmc_spi_host unit :=
  let! _ := mmc_spi_wait_unbusy r1b_timeout in
  let! _ := mmc_spi_readbytes 10 in
  let! mode := gets h_mode in
  set_mode (Z.lor mode SPI_CS_HIGH) ;;;
  let! r := spi_setup in
  let! mode := gets h_mode in
  if negb (r =? 0) then set_mode (Z.land mode (Z.lnot SPI_CS_HIGH)) else
  let! _ := mmc_spi_readbytes 18 in
  set_mode (Z.land mode (Z.lnot SPI_CS_HIGH)) ;;;
  let! _ := spi_setup in ret tt.

Definition canpower : bool := match pdata with Some p => p_setpower p | None => false end.

Definition ground_inputs : M mmc_spi_host unit :=
  let! mode := gets h_mode in
  set_mode (Z.land mode (Z.lnot (Z.lor SPI_CPOL SPI_CPHA))) ;;;
  let! mres := spi_setup in
  let! _ := spi_try (SpiWrite [0]) in
  spi_do (Msleep 10) ;;;
  if mres =? 0 then
    let! mode := gets h_mode in
    set_mode (Z.lor mode (Z.lor SPI_CPOL SPI_CPHA)) ;;;
    let! _ := spi_setup in ret tt
  else ret tt.

Definition mmc_spi_set_ios (ios : mmc_ios) : M mmc_spi_host unit :=
  let! mode := gets h_power_mode in
  (if negb (mode =? i_power_mode ios) then
     (if canpower && ((i_power_mode ios =? MMC_POWER_OFF) || (i_power_mode ios =? MMC_POWER_UP)) then
        spi_do (SetPower (i_vdd ios)) ;;;
        (if i_power_mode ios =? MMC_POWER_UP then let! ms := gets h_powerup_msecs in spi_do (Msleep ms) else ret tt)
      else ret tt) ;;;
     (if i_power_mode ios =? MMC_POWER_ON then mmc_spi_initsequence else ret tt) ;;;
     (if canpower && (i_power_mode ios =? MMC_POWER_OFF) then ground_inputs else ret tt) ;;;
     modify (set_power_mode (i_power_mode ios))
   else ret tt) ;;;
  let! speed := gets h_speed in
  if negb (speed =? i_clock ios) && negb (i_clock ios =? 0) then
    modify (fun s => set_spi (h_mode s) (i_clock ios) s) ;;;
    let! _ := spi_setup in ret tt
  else ret tt.

(** The card-detect interrupt: only requested through the platform data. *)
Definition mmc_spi_detect_irq : M mmc_spi_host unit :=
  let! p := lift (deref pdata) in
  spi_do (DetectChange (Z.max (p_detect_delay p) 100)).

(** ** Probe and removal *)
Definition MMC_CAP_SPI : Z := 0x10.
Definition MMC_CAP_NEEDS_POLL : Z := 0x20.
Definition MMC_VDD_32_34 : Z := 0x300000.

Definition powerup_msecs : Z :=
  match pdata with
  | Some p => if p_setpower p then
                if (p_powerup_msecs p =? 0) || (250 <? p_powerup_msecs p) then 250 else p_powerup_msecs p
              else 0
  | None => 0
  end.
Definition probe_caps (speed : Z) : mmc_caps :=
  let ocr := match pdata with Some p => p_ocr_mask p | None => 0 end in
  let '(c, c2) := match pdata with Some p => (Z.lor MMC_CAP_SPI (p_caps p), p_caps2 p) | None => (MMC_CAP_SPI, 0) end in
  Caps MMC_SPI_BLOCKSIZE MMC_SPI_BLOCKSATONCE (MMC_SPI_BLOCKSATONCE * MMC_SPI_BLOCKSIZE) MMC_SPI_BLOCKSATONCE
    400000 speed (if ocr =? 0 then MMC_VDD_32_34 else ocr) (Z.land c (Z.lnot MMC_CAP_NEEDS_POLL)) c2.

(** The host as the allocation gives it, with the readback message. *)
Definition readback_xfer : spi_transfer := Xfer (Some Ones) (Some (Scratch 0)) 0 0 true.
Definition new_host (data : list Z) (s : mmc_spi_host) : mmc_spi_host :=
  Host (h_env s) (h_log s) (h_now s) 0 powerup_msecs
    (fun n => if decide (n = XStatus) then readback_xfer else no_xfer) [] (resize 32 0 data) [] [] (h_mode s) (h_speed s).

(** The labels of the error path, from the last to the first. *)
Definition nomem (status : Z) : M mmc_spi_host Z := spi_do Kfree_ones ;;; ret status.
Definition fail_nobuf1 (status : Z) : M mmc_spi_host Z :=
  spi_do MmcFreeHost ;;; spi_do PutPdata ;;; spi_do (SetDrvdata false) ;;; nomem status.
Definition fail_glue_init (status : Z) : M mmc_spi_host Z := spi_do Kfree_data ;;; fail_nobuf1 status.
Definition fail_add_host (status : Z) : M mmc_spi_host Z := spi_do MmcRemoveHost ;;; fail_glue_init status.

(** From the call of mmc_add_host on. *)
Definition probe_add_host : M mmc_spi_host Z :=
  let! speed := gets h_speed in
  let! status := spi_try (MmcAddHost (probe_caps speed)) in
  if negb (status =? 0) then fail_add_host status else
  let cd := match pdata with Some p => p_cd_gpio p | None => false end in
  let! status := (if cd then spi_try GpioRequestCd else ret 0) in
  if negb (status =? 0) then fail_add_host status else
  (if cd then spi_do GpioRequestCdIrq else ret tt) ;;;
  spi_do (DetectChange 0) ;;;
  let ro := match pdata with Some p => p_ro_gpio p | None => false end in
  let! status := (if ro then spi_try GpioRequestRo else ret 0) in
  if negb (status =? 0) then fail_add_host status else ret 0.

(** An allocation succeeds with status 0; its contents are [a_rx]. *)
Definition mmc_spi_probe (half_duplex : bool) : M mmc_spi_host Z :=
  spi_do (GpioRequest 66) ;;;
  if half_duplex then ret (- EINVAL) else
  let! mode := gets h_mode in
  (if negb (mode =? Z.lor SPI_CPOL SPI_CPHA) then set_mode 0 else ret tt) ;;;
  let! status := spi_setup in
  if status <? 0 then ret status else
  let! ones := spi_ask (Kmalloc MMC_SPI_BLOCKSIZE) in
  if negb (a_status ones =? 0) then nomem (- ENOMEM) else
  let! mmc := spi_ask MmcAllocHost in
  if negb (a_status mmc =? 0) then nomem (- ENOMEM) else
  spi_do (SetDrvdata true) ;;;
  let! data := spi_ask (Kmalloc 32) in
  if negb (a_status data =? 0) then fail_nobuf1 (- ENOMEM) else
  modify (new_host (a_rx data)) ;;;
  let! status := (match pdata with
                  | Some p => if p_init p then spi_try PdataInit else ret 0
                  | None => ret 0
                  end) in
  if negb (status =? 0) then fail_glue_init status else probe_add_host.

(** [bound]: the device has driver data; [f_max] of the host. *)
Definition mmc_spi_remove (bound : bool) (f_max : Z) : M mmc_spi_host Z :=
  (if bound then
     (match pdata with Some p => if p_exit p then spi_do PdataExit else ret tt | None => ret tt end) ;;;
     spi_do MmcRemoveHost ;;;
     spi_do Kfree_data ;;;
     spi_do Kfree_ones ;;;
     modify (fun s => set_spi (h_mode s) f_max s) ;;;
     spi_do MmcFreeHost ;;;
     spi_do PutPdata ;;;
     spi_do (SetDrvdata false)
   else ret tt) ;;;
  ret 0.

(** * Every request ends *)
(** A run that returns. *)
Definition total {A} (m : M mmc_spi_host A) (s : mmc_spi_host) (Q : A -> mmc_spi_host -> Prop) : Prop :=
  exists a s', m s = Ret (a, s') /\ Q a s'.

Lemma total_ret {A} (a : A) s (Q : A -> mmc_spi_host -> Prop) : Q a s -> total (ret a) s Q.
Proof. intros H. by exists a, s. Qed.
Lemma total_bind {A B} (m : M mmc_spi_host A) (k : A -> M mmc_spi_host B) s Q :
  total m s (fun a s' => total (k a) s' Q) -> total (bind m k) s Q.
Proof. intros (a & s1 & E & b & s2 & E2 & HQ). exists b, s2. split; [|done]. unfold bind. by rewrite E. Qed.
Lemma total_mono {A} (m : M mmc_spi_host A) s (Q Q' : A -> mmc_spi_host -> Prop) :
  total m s Q -> (forall a s', Q a s' -> Q' a s') -> total m s Q'.
Proof. intros (a & s' & E & HQ) H. exists a, s'. eauto. Qed.
Lemma total_gets {A} (g : mmc_spi_host -> A) s (Q : A -> mmc_spi_host -> Prop) : Q (g s) s -> total (gets g) s Q.
Proof. intros H. by exists (g s), s. Qed.
Lemma total_modify (g : mmc_spi_host -> mmc_spi_host) s (Q : unit -> mmc_spi_host -> Prop) :
  Q tt (g s) -> total (modify g) s Q.
Proof. intros H. by exists tt, (g s). Qed.
Lemma total_if {A} (b : bool) (m n : M mmc_spi_host A) s Q :
  (b = true -> total m s Q) -> (b = false -> total n s Q) -> total (if b then m else n) s Q.
Proof. destruct b; auto. Qed.
(** A step that established [Q], and what follows it. *)
Lemma total_then {A B} (m : M mmc_spi_host A) (k : A -> M mmc_spi_host B) s Q R :
  total m s Q -> (forall a s', Q a s' -> total (k a) s' R) -> total (bind m k) s R.
Proof. intros H1 H2. apply total_bind. exact (total_mono _ _ _ _ H1 H2). Qed.

(** The calls a request makes while it has the bus. *)
Definition on_bus (r : request) : Prop :=
  match r with SpiSync _ | SpiSetup _ _ | Schedule => True | _ => False end.

(** The scratch buffer is there, and the readback message is as the probe left it. *)
Definition ok (s : mmc_spi_host) : Prop :=
  zlen (h_data s) = 32 /\ x_tx (h_x s XStatus) = Some Ones /\ x_rx (h_x s XStatus) = Some (Scratch 0).

(** What reading from the card leaves alone: all but the scratch buffer, the
    readback transfer's length, the log and the time. *)
Record reads (s s' : mmc_spi_host) : Prop := Reads {
  rd_ok : ok s';
  rd_x n : n <> XStatus -> h_x s' n = h_x s n;
  rd_m : h_m s' = h_m s; rd_tx : h_tx s' = h_tx s; rd_mem : h_mem s' = h_mem s;
  rd_mode : h_mode s' = h_mode s; rd_speed : h_speed s' = h_speed s;
  rd_now : h_now s <= h_now s';
  rd_log : exists l, h_log s' = h_log s ++ l /\ Forall on_bus l }.

Lemma reads_refl s : ok s -> reads s s.
Proof. intros H. split; try done. exists []. by rewrite app_nil_r. Qed.
Lemma reads_trans s1 s2 s3 : reads s1 s2 -> reads s2 s3 -> reads s1 s3.
Proof.
  intros [H1 H2 H3 H4 H5 H6 H7 H8 (l & E & F)] [K1 K2 K3 K4 K5 K6 K7 K8 (l' & E' & F')].
  split; try congruence; [|lia|].
  - intros n Hn. by rewrite K2, H2.
  - exists (l ++ l'). rewrite E', E, app_assoc. split; [done|by apply Forall_app].
Qed.

Lemma spi_ask_total r s :
  ok s -> on_bus r -> total (spi_ask r) s (fun _ s' => reads s s').
Proof.
  intros H Hr. unfold total, spi_ask. destruct (react r (h_env s)) as [a c]. eexists _, _. split; [done|].
  split; try done; cbn; [lia|]. exists [r]. by split; [|constructor].
Qed.
Lemma spi_try_total r s : ok s -> on_bus r -> total (spi_try r) s (fun _ s' => reads s s').
Proof. intros H Hr. eapply total_then; [by apply spi_ask_total|]. intros a s' R. by apply total_ret. Qed.
Lemma spi_do_total r s : ok s -> on_bus r -> total (spi_do r) s (fun _ s' => reads s s').
Proof. intros H Hr. eapply total_then; [by apply spi_ask_total|]. intros a s' R. by apply total_ret. Qed.
Lemma cs_off_total s : ok s -> total mmc_cs_off s (fun _ s' => reads s s').
Proof. intros H. do 2 (apply total_bind, total_gets). by apply spi_try_total. Qed.

Lemma peek_total i s : ok s -> 0 <= i < 32 -> total (peek i) s (fun _ s' => s' = s).
Proof.
  intros [H _] Hi. unfold total, peek, lift, mem_get. destruct (Z.leb_spec 0 i); [|lia].
  destruct (lookup_lt_is_Some_2 (h_data s) (Z.to_nat i)) as [b ->]; [unfold zlen in H; lia|]. eauto.
Qed.
Lemma scratch_read_total off n s :
  ok s -> 0 <= off -> 0 <= n -> off + n <= 32 -> total (scratch_read off n) s (fun bs s' => s' = s /\ zlen bs = n).
Proof.
  intros [H _] H1 H2 H3. unfold total, scratch_read, lift. rewrite mem_read_ok by lia. eexists _, _. split; [done|].
  split; [done|]. rewrite zlen_ztake; [done|]. rewrite zlen_zdrop; lia.
Qed.

(** ** One readback *)
Section Ends.
Context (Htick : 0 < tick) (HHZ : 0 <= HZ).
(** A message takes time. *)
Context (Htime : forall m c, 1 <= a_elapsed (react (SpiSync m) c).1).

Lemma zlen_ztake_le {A} n (l : list A) : 0 <= n -> zlen (ztake n l) <= n.
Proof. intros. unfold zlen, ztake. rewrite length_take. lia. Qed.

Lemma scratch_store_ok s off n bs :
  zlen (h_data s) = 32 -> 0 <= off -> 0 <= n -> off + n <= 32 -> zlen bs <= n ->
  exists d, (leto _ := buf_read s (Scratch off) n in buf_write (Scratch off) bs s) = Ret (set_scratch d s) /\ zlen d = 32.
Proof.
  intros Hd H1 H2 H3 H4. pose proof (zlen_nonneg bs). cbn [buf_read buf_write]. rewrite mem_read_ok by lia. cbn [obind].
  destruct (mem_write (h_data s) off bs) as [d|] eqn:E; [|by rewrite mem_write_ok in E by lia].
  exists d. split; [done|]. apply mem_write_length in E. lia.
Qed.

Lemma mmc_spi_readbytes_total n s :
  ok s -> 0 <= n <= 32 ->
  total (mmc_spi_readbytes n) s (fun _ s' => reads s s' /\ h_now s + 1 <= h_now s').
Proof.
  intros (Hd & Htx & Hrx) Hn. unfold mmc_spi_readbytes. destruct (Z.ltb_spec 32 n); [lia|].
  apply total_bind, total_bind, total_gets, total_modify. rewrite Htx, Hrx.
  set (x := Xfer _ _ _ _ _). set (s1 := set_x XStatus x s).
  unfold total, spi_sync_locked. cbn [gather]. replace (h_x s1 XStatus) with x by done. cbn [x_tx x_len x x_cs_change buf_read].
  rewrite mem_read_ok by (rewrite ?zlen_replicate; unfold MMC_SPI_BLOCKSIZE; lia). cbn [obind].
  set (txs := [_]). destruct (react (SpiSync txs) (h_env s1)) as [a c] eqn:E.
  pose proof (Htime txs (h_env s1)) as T. rewrite E in T. cbn [fst] in T.
  set (s2 := after_call _ _ _ s1). cbn [store]. replace (h_x s2 XStatus) with x by done. cbn [x_rx x_len x].
  destruct (scratch_store_ok s2 0 n (ztake n (map u8 (a_rx a)))) as (d & -> & Ed); [done|lia..|apply zlen_ztake_le; lia|].
  eexists _, _. split; [done|]. split; [|cbn; lia]. split; try done; cbn.
  - intros k Hk. by rewrite decide_False.
  - lia.
  - exists [SpiSync txs]. by split; [|constructor].
Qed.

Lemma skip_loop_total fuel start timeout n byte s :
  ok s -> 0 <= n <= 32 ->
  (start + timeout + 1) * tick - h_now s < Z.of_nat fuel -> 0 < Z.of_nat fuel ->
  total (skip_loop fuel start timeout n byte) s (fun _ s' => reads s s').
Proof.
  revert s. induction fuel as [|fuel IH]; intros s Hs Hn Hf Hf0; [lia|]. cbn [skip_loop].
  eapply total_then; [by apply mmc_spi_readbytes_total|]. intros status s1 [R1 T1]. destruct (status <? 0); [by apply total_ret|].
  eapply total_then; [by apply scratch_read_total; [apply R1|lia..]|]. intros bs s2 [-> Hbs].
  destruct (list_find _ bs) as [[i b]|]; [by apply total_ret|]. apply total_bind, total_gets.
  destruct (Z.ltb_spec (start + timeout) (jiffies s1)) as [|L]; [by apply total_ret|].
  assert (h_now s1 < (start + timeout + 1) * tick) as L1.
  { unfold jiffies in L. pose proof (Z.mul_succ_div_gt (h_now s1) tick Htick). nia. }
  destruct (start + 1 <? jiffies s1).
  - eapply total_then; [by apply spi_do_total; [apply R1|]|]. intros [] s2 R2. pose proof (rd_now _ _ R2).
    eapply total_mono; [apply IH; [apply R2|done|lia..]|]. intros v s3 R3. cbn in R3. eauto using reads_trans.
  - apply total_bind, total_ret. eapply total_mono; [apply IH; [apply R1|done|lia..]|]. intros v s3 R3. cbn in R3. eauto using reads_trans.
Qed.

(** Waiting ends, with a byte, an error of the controller or the timeout. *)
Lemma mmc_spi_skip_total timeout n byte s :
  ok s -> 0 <= n <= 32 -> 0 <= timeout -> total (mmc_spi_skip timeout n byte) s (fun _ s' => reads s s').
Proof.
  intros Hs Hn Ht. apply total_bind, total_gets.
  assert (jiffies s * tick <= h_now s) by (unfold jiffies; pose proof (Z.mul_div_le (h_now s) tick Htick); lia).
  apply skip_loop_total; [done..| |]; unfold skip_fuel; nia.
Qed.

(** ** Responses *)
(** A run that returns and only reads from the card. *)
Definition returns {A} (m : M mmc_spi_host A) (s : mmc_spi_host) : Prop := total m s (fun _ s' => reads s s').

Lemma returns_ret {A} (a : A) s : ok s -> returns (ret a) s.
Proof. intros H. apply total_ret. by apply reads_refl. Qed.
Lemma returns_bind {A B} (m : M mmc_spi_host A) (k : A -> M mmc_spi_host B) s :
  returns m s -> (forall a s', reads s s' -> returns (k a) s') -> returns (bind m k) s.
Proof.
  intros H1 H2. eapply total_then; [exact H1|]. intros a s1 R1. cbn in R1.
  eapply total_mono; [by apply H2|]. intros b s2 R2. cbn in R2. eauto using reads_trans.
Qed.
Lemma returns_peek {B} i (k : Z -> M mmc_spi_host B) s :
  ok s -> 0 <= i < 32 -> (forall b, returns (k b) s) -> returns (bind (peek i) k) s.
Proof. intros H Hi Hk. eapply total_then; [by apply peek_total|]. intros b s' ->. apply Hk. Qed.
Lemma returns_gets {A B} (g : mmc_spi_host -> A) (k : A -> M mmc_spi_host B) s :
  returns (k (g s)) s -> returns (bind (gets g) k) s.
Proof. intros H. by apply total_bind, total_gets. Qed.

Lemma returns_readbytes n s : ok s -> 0 <= n <= 32 -> returns (mmc_spi_readbytes n) s.
Proof. intros. eapply total_mono; [by apply mmc_spi_readbytes_total|]. by intros ? ? []. Qed.
Lemma returns_cs_off s : ok s -> returns mmc_cs_off s.
Proof. apply cs_off_total. Qed.
Lemma returns_done cmd value s : ok s -> returns (response_done cmd value) s.
Proof. intros H. apply returns_bind; [by apply returns_cs_off|]. intros a s' R. apply returns_ret, R. Qed.
Lemma returns_end cmd cs_on value s : ok s -> returns (response_end cmd cs_on value) s.
Proof. intros H. unfold response_end. destruct (_ && _); [by apply returns_ret|by apply returns_done]. Qed.

Lemma returns_next_byte cmd value cp end_ k s :
  ok s -> 0 <= cp <= end_ -> end_ <= 32 ->
  (forall v j e s', reads s s' -> 0 <= j < e -> e <= 32 -> returns (k v j e) s') ->
  returns (next_byte cmd value cp end_ k) s.
Proof.
  intros H H1 H2 Hk. unfold next_byte. destruct (Z.eqb_spec cp end_); [|apply Hk; [by apply reads_refl|lia..]].
  apply returns_bind; [by apply returns_readbytes|]. intros v s' R.
  destruct (v <? 0); [by apply returns_done, R|]. eapply total_mono; [apply Hk; [done|lia..]|]. done.
Qed.

Lemma skip_bytes_total k byte cp end_ s :
  ok s -> 0 <= cp -> cp + Z.of_nat k <= end_ -> end_ <= 32 ->
  total (skip_bytes k byte cp) s (fun cp' s' => s' = s /\ cp <= cp' <= end_).
Proof.
  revert cp. induction k as [|k IH]; intros cp H H1 H2 H3; cbn [skip_bytes]; [apply total_ret; split; [done|lia]|].
  eapply total_then; [apply peek_total; [done|lia]|]. intros b s' ->. destruct (b =? byte); [|apply total_ret; split; [done|lia]].
  eapply total_mono; [apply IH; [done|lia..]|]. intros c s' [-> ?]. split; [done|lia].
Qed.

Lemma returns_r3 i cs_on b rot cmd value cp end_ s :
  ok s -> 0 <= cp <= end_ -> end_ <= 32 -> returns (r3_bytes i cs_on b rot cmd value cp end_) s.
Proof.
  revert rot cmd value cp end_ s. induction i as [|i IH]; intros rot cmd value cp end_ s H H1 H2; cbn [r3_bytes]; [by apply returns_end|].
  apply returns_next_byte; [done..|]. intros v j e s' R Hj He. apply returns_peek; [apply R|lia|]. intros c.
  destruct (negb _); apply IH; try apply R; lia.
Qed.

Lemma returns_after_status cs_on b lo cmd value cp end_ s :
  ok s -> 0 <= cp <= end_ -> end_ <= 32 -> returns (after_status cs_on b lo cmd value cp end_) s.
Proof.
  intros H H1 H2. unfold after_status. cbv zeta. set (v := r1_value _ _).
  destruct (_ =? MMC_RSP_SPI_R1B); [|destruct (_ =? MMC_RSP_SPI_R2); [|destruct (_ =? MMC_RSP_SPI_R3); [|destruct (_ =? MMC_RSP_SPI_R1)]]].
  - eapply total_then; [apply (skip_bytes_total _ _ _ end_); [done|lia..]|]. intros cp' s' [-> ?].
    apply returns_bind; [|intros [] s' R; apply returns_end, R]. destruct (cp' =? end_); [|by apply returns_ret].
    apply returns_bind; [apply mmc_spi_skip_total; [done|lia|unfold r1b_timeout; lia]|]. intros w s' R. apply returns_ret, R.
  - apply returns_next_byte; [done..|]. intros w j e s' R Hj He. apply returns_peek; [apply R|lia|]. intros c. apply returns_end, R.
  - by apply returns_r3.
  - by apply returns_end.
  - by apply returns_done.
Qed.

Lemma returns_checkstatus cs_on cmd value cp end_ s :
  ok s -> 0 <= cp < end_ -> end_ <= 32 -> returns (checkstatus cs_on cmd value cp end_) s.
Proof.
  intros H H1 H2. unfold checkstatus. apply returns_peek; [done|lia|]. intros c.
  destruct (Z.testbit c 7); [|by apply returns_after_status; [|lia..]].
  apply returns_next_byte; [done|lia..|]. intros v j e s' R Hj He. apply returns_peek; [apply R|lia|]. intros c2.
  destruct (shift_out _ _ _). apply returns_after_status; [apply R|lia..].
Qed.

Lemma returns_status_loop i cs_on cmd s : ok s -> returns (status_loop i cs_on cmd) s.
Proof.
  revert s. induction i as [|i IH]; intros s H; cbn [status_loop]; [by apply returns_done|].
  apply returns_bind; [by apply returns_readbytes|]. intros v s' R. destruct (v <? 0); [by apply returns_done, R|].
  apply returns_peek; [apply R|lia|]. intros b. destruct (negb _); [apply returns_checkstatus; [apply R|lia..]|apply IH, R].
Qed.

Lemma returns_response_get cmd cs_on s :
  ok s -> 8 <= x_len (h_x s XT) <= 32 -> returns (mmc_spi_response_get cmd cs_on) s.
Proof.
  intros H H1. apply returns_gets.
  eapply total_then; [apply (skip_bytes_total _ _ _ (x_len (h_x s XT))); [done|lia..]|]. intros cp s' [-> ?].
  destruct (Z.eqb_spec cp (x_len (h_x s XT))); [by apply returns_status_loop|apply returns_checkstatus; [done|lia..]].
Qed.

(** ** Messages *)
(** The sizes of what pointers point into: [mem] those of the segments. *)
Record sizes (tx : Z) (mem : list Z) (s : mmc_spi_host) : Prop := Sizes {
  sz_data : zlen (h_data s) = 32; sz_tx : zlen (h_tx s) = tx; sz_mem : zlen <$> h_mem s = mem }.

(** [n] bytes behind the pointer. *)
Definition fits (tx : Z) (mem : list Z) (b : spi_buf) (n : Z) : Prop :=
  match b with
  | Ones => n <= MMC_SPI_BLOCKSIZE
  | Stack => n <= tx
  | Scratch off => 0 <= off /\ off + n <= 32
  | Mem k off => 0 <= off /\ exists len, mem !! k = Some len /\ off + n <= len
  end.
Definition xfer_fits (tx : Z) (mem : list Z) (x : spi_transfer) : Prop :=
  0 <= x_len x /\ (forall b, x_tx x = Some b -> fits tx mem b (x_len x)) /\
  (forall b, x_rx x = Some b -> fits tx mem b (x_len x) /\ b <> Ones).

Section Messages.
Context (tx : Z) (mem : list Z).

Lemma segment_ok s k len : sizes tx mem s -> mem !! k = Some len -> exists seg, segment s k = Ret seg /\ h_mem s !! k = Some seg /\ zlen seg = len.
Proof.
  intros S Hk. unfold segment. pose proof (sz_mem _ _ _ S) as E. rewrite <- E, list_lookup_fmap in Hk.
  destruct (h_mem s !! k) as [seg|]; [|done]. injection Hk as <-. by exists seg.
Qed.

Lemma buf_read_ok s b n : sizes tx mem s -> 0 <= n -> fits tx mem b n -> exists bs, buf_read s b n = Ret bs /\ zlen bs = n.
Proof.
  intros S Hn F. assert (forall l off, 0 <= off -> off + n <= zlen l -> exists bs, mem_read l off n = Ret bs /\ zlen bs = n) as R.
  { intros l off H1 H2. rewrite mem_read_ok by lia. eexists. split; [done|]. rewrite zlen_ztake; [done|]. rewrite zlen_zdrop; lia. }
  destruct b as [| |off|k off]; cbn in F |- *.
  - apply R; [lia|]. unfold MMC_SPI_BLOCKSIZE in *. rewrite zlen_replicate; lia.
  - apply R; [lia|]. rewrite (sz_tx _ _ _ S). lia.
  - apply R; [lia|]. rewrite (sz_data _ _ _ S). lia.
  - destruct F as [F1 (len & F2 & F3)]. destruct (segment_ok _ _ _ S F2) as (seg & -> & _ & E). apply R; lia.
Qed.

(** Writing changes no size, and nothing but the memory. *)
Definition written (s s' : mmc_spi_host) : Prop :=
  sizes tx mem s' /\ exists d t m, s' = set_mem m (set_tx t (set_scratch d s)).
Lemma written_trans s1 s2 s3 : written s1 s2 -> written s2 s3 -> written s1 s3.
Proof. intros (S1 & d1 & t1 & m1 & ->) (S2 & d2 & t2 & m2 & ->). split; [done|]. by exists d2, t2, m2. Qed.
Lemma written_refl s : sizes tx mem s -> written s s.
Proof. intros S. split; [done|]. exists (h_data s), (h_tx s), (h_mem s). by destruct s. Qed.

Lemma buf_write_ok s b n bs :
  sizes tx mem s -> 0 <= n -> fits tx mem b n -> b <> Ones -> zlen bs <= n -> exists s', buf_write b bs s = Ret s' /\ written s s'.
Proof.
  intros S Hn F Hb Hl. pose proof (zlen_nonneg bs). destruct S as [S1 S2 S3].
  assert (forall l off, 0 <= off -> off + n <= zlen l -> exists d, mem_write l off bs = Ret d /\ zlen d = zlen l) as R.
  { intros l off H1 H2. destruct (mem_write l off bs) as [d|] eqn:E; [|by rewrite mem_write_ok in E by lia].
    exists d. split; [done|by apply mem_write_length in E]. }
  destruct b as [| |off|k off]; cbn in F |- *; [done|..].
  - destruct (R (h_tx s) 0) as (d & -> & Ed); [lia..|]. eexists. split; [done|]. split; [by split; cbn; [|lia|]|].
    exists (h_data s), d, (h_mem s). by destruct s.
  - destruct (R (h_data s) off) as (d & -> & Ed); [lia..|]. eexists. split; [done|]. split; [by split; cbn; [lia|..]|].
    exists d, (h_tx s), (h_mem s). by destruct s.
  - destruct F as [F1 (len & F2 & F3)]. destruct (segment_ok s _ _ (Sizes _ _ _ S1 S2 S3) F2) as (seg & -> & Ek & E). cbn [obind].
    destruct (R seg off) as (d & -> & Ed); [lia..|]. eexists. split; [done|]. split.
    + split; cbn; [done..|]. rewrite list_fmap_insert, S3, Ed. apply list_insert_id. by rewrite E.
    + exists (h_data s), (h_tx s), (<[k:=d]> (h_mem s)). by destruct s.
Qed.

Lemma gather_ok s m : sizes tx mem s -> Forall (fun n => xfer_fits tx mem (h_x s n)) m -> exists txs, gather s m = Ret txs.
Proof.
  intros S. induction 1 as [|n m [L [T _]] _ [txs IH]]; cbn [gather]; [by exists []|]. rewrite IH.
  destruct (x_tx (h_x s n)) as [b|]; [|cbn; eauto].
  destruct (buf_read_ok s b (x_len (h_x s n))) as (bs & -> & _); [done|done|auto|]. cbn. eauto.
Qed.

Lemma store_ok m rx s :
  sizes tx mem s -> Forall (fun n => xfer_fits tx mem (h_x s n)) m -> exists s', store m rx s = Ret s' /\ written s s'.
Proof.
  intros S F. revert rx s S F. induction m as [|n m IH]; intros rx s S F; cbn [store]; [exists s; split; [done|by apply written_refl]|].
  apply Forall_cons in F as [(L & _ & R) F]. destruct (x_rx (h_x s n)) as [b|] eqn:E; [|cbn [obind]; by apply IH].
  destruct (R b eq_refl) as [R1 R2]. destruct (buf_read_ok s b (x_len (h_x s n))) as (bs & -> & _); [done..|]. cbn [obind].
  destruct (buf_write_ok s b (x_len (h_x s n)) (ztake (x_len (h_x s n)) rx)) as (s1 & -> & W1); [done..|by apply zlen_ztake_le|]. cbn [obind].
  destruct (IH (zdrop (x_len (h_x s n)) rx) s1) as (s2 & -> & W2); [apply W1|by destruct W1 as (_ & d & t & k & ->)|].
  exists s2. split; [done|]. by eapply written_trans.
Qed.

(** A message whose transfers fit is exchanged, whatever the card answers. *)
Lemma sync_total m s :
  sizes tx mem s -> Forall (fun n => xfer_fits tx mem (h_x s n)) m ->
  total (spi_sync_locked m) s (fun _ s' => sizes tx mem s' /\ (forall n, h_x s' n = h_x s n) /\ h_m s' = h_m s /\ h_speed s' = h_speed s /\
    exists l, h_log s' = h_log s ++ l /\ Forall on_bus l).
Proof.
  intros S F. unfold total, spi_sync_locked. destruct (gather_ok s m S F) as [txs ->].
  destruct (react (SpiSync txs) (h_env s)) as [a c]. set (s1 := after_call _ _ _ s).
  destruct (store_ok m (map u8 (a_rx a)) s1) as (s2 & -> & W & d & t & k & ->); [by destruct S|done|].
  eexists _, _. split; [done|]. split; [done|]. do 3 (split; [done|]). exists [SpiSync txs]. by split; [|constructor].
Qed.
End Messages.

(** ** Commands and blocks *)
(** From [s0] to [s] with the bus held: segments of the same sizes, and only
    calls to the controller. *)
Record held (mem : list Z) (s0 s : mmc_spi_host) : Prop := Held {
  hd_ok : ok s; hd_mem : zlen <$> h_mem s = mem; hd_speed : h_speed s = h_speed s0;
  hd_log : exists l, h_log s = h_log s0 ++ l /\ Forall on_bus l }.

Section Held.
Context (mem : list Z) (s0 : mmc_spi_host).

Lemma held_log s s' l : held mem s0 s -> ok s' -> zlen <$> h_mem s' = mem -> h_speed s' = h_speed s ->
  h_log s' = h_log s ++ l -> Forall on_bus l -> held mem s0 s'.
Proof.
  intros [H1 H2 H3 (k & E & F)] K1 K2 K3 E' F'. split; [done..|congruence|]. exists (k ++ l).
  rewrite E', E, app_assoc. split; [done|by apply Forall_app].
Qed.
Lemma held_reads s s' : held mem s0 s -> reads s s' -> held mem s0 s'.
Proof. intros H R. destruct (rd_log _ _ R) as (l & E & F). eapply held_log; [exact H|..]; try apply R; try done. rewrite (rd_mem _ _ R). apply H. Qed.
Lemma held_same s s' : held mem s0 s -> ok s' -> zlen <$> h_mem s' = mem -> h_speed s' = h_speed s -> h_log s' = h_log s -> held mem s0 s'.
Proof. intros H K1 K2 K3 K4. eapply held_log with (l := []); rewrite ?app_nil_r; done. Qed.
Lemma held_sizes s : held mem s0 s -> sizes (zlen (h_tx s)) mem s.
Proof. intros H. split; [apply H|done|apply H]. Qed.

Lemma held_sync m s :
  held mem s0 s -> Forall (fun n => xfer_fits (zlen (h_tx s)) mem (h_x s n)) m ->
  total (spi_sync_locked m) s (fun _ s' => held mem s0 s' /\ (forall n, h_x s' n = h_x s n) /\ h_m s' = h_m s).
Proof.
  intros H F. eapply total_mono; [apply (sync_total (zlen (h_tx s)) mem); [by apply held_sizes|done]|].
  intros v s' (S & X & Em & Es & l & E & Fl). split; [|done].
  eapply held_log; [done| |apply S|done..]. split; [apply S|]. rewrite X. apply H.
Qed.

Lemma command_send_total data cmd cs_on s :
  held mem s0 s -> (cs_on = true -> is_Some data) ->
  total (mmc_spi_command_send data cmd cs_on) s (fun _ s' => held mem s0 s').
Proof.
  intros H Hd. unfold mmc_spi_command_send.
  assert (exists len, command_len data cmd cs_on = Ret len /\ 9 <= len <= 29) as (len & El & Hl).
  { unfold command_len. destruct cs_on; [destruct Hd as [d ->]; [done|]|]; cbn [obind deref]; eexists; (split; [done|]); repeat case_match; lia. }
  rewrite El. apply total_bind. exists len, s. split; [done|]. do 4 (apply total_bind, total_modify).
  apply total_bind, total_gets. cbn [h_m set_m].
  set (s1 := set_m [XT] _).
  assert (held mem s0 s1) as H1 by (eapply held_same; [done| |apply H|done|done]; apply H).
  eapply total_then; [apply (held_sync [XT] s1); [done|]|].
  { assert (zlen (h_tx s1) = 29) as Et by done. constructor; [|constructor].
    replace (h_x s1 XT) with (Xfer (Some Stack) (Some (Scratch 0)) len 0 true) by done. split; [cbn; lia|].
    split; intros b [= <-]; cbn [fits x_len]; rewrite ?Et; [lia|]. split; [lia|done]. }
  intros status s2 (H2 & X & _). cbn beta. destruct (status <? 0); [by apply total_ret|].
  eapply total_mono; [apply returns_response_get; [apply H2|rewrite X; change (8 <= len <= 32); lia]|]. intros v s' R. by eapply held_reads.
Qed.

(** The message of a data stage, and its transfers but the block's. *)
Definition data_msg (multiple to_device : bool) : list xname :=
  (if to_device then [XToken] else []) ++ [XT; XCrc] ++ (if multiple || to_device then [XEarly] else []).
Definition data_x (to_device : bool) (n : xname) : spi_transfer :=
  match n with
  | XToken => Xfer (Some (Scratch 29)) None 1 0 false
  | XCrc => if to_device then Xfer (Some (Scratch 30)) None 2 0 false else Xfer (Some Ones) (Some (Scratch 30)) 2 0 false
  | _ => Xfer (Some Ones) (Some (Scratch 0)) (if to_device then 29 else 1) 0 true
  end.
Definition block_x (to_device : bool) (k : nat) (off len : Z) : spi_transfer :=
  if to_device then Xfer (Some (Mem k off)) None len 0 false else Xfer (Some Ones) (Some (Mem k off)) len 0 false.
Record ready (multiple to_device : bool) (s : mmc_spi_host) : Prop := Ready {
  ry_m : h_m s = data_msg multiple to_device;
  ry_x n : n ∈ data_msg multiple to_device -> n <> XT -> h_x s n = data_x to_device n }.

Lemma data_msg_elem multiple to_device n : n ∈ data_msg multiple to_device ->
  n <> XStatus /\ (n = XToken -> to_device = true) /\ (n = XEarly -> multiple || to_device = true).
Proof.
  intros Hn. assert (Forall (fun n => n <> XStatus /\ (n = XToken -> to_device = true) /\ (n = XEarly -> multiple || to_device = true))
    (data_msg multiple to_device)) as F by (destruct multiple, to_device; by repeat constructor).
  rewrite Forall_forall in F. by apply F.
Qed.

Lemma ready_reads multiple to_device s s' : ready multiple to_device s -> reads s s' -> ready multiple to_device s'.
Proof.
  intros [H1 H2] R. split; [by rewrite (rd_m _ _ R)|]. intros n Hn HT. rewrite (rd_x _ _ R); [by apply H2|by apply data_msg_elem in Hn as []].
Qed.
Lemma ready_same multiple to_device s s' :
  ready multiple to_device s -> h_m s' = h_m s -> (forall n, n <> XT -> h_x s' n = h_x s n) -> ready multiple to_device s'.
Proof. intros [H1 H2] E X. split; [by rewrite E|]. intros n Hn HT. rewrite X by done. by apply H2. Qed.

Lemma ready_fits multiple to_device s k off len L :
  ready multiple to_device s -> h_x s XT = block_x to_device k off len ->
  mem !! k = Some L -> 0 <= off -> 0 <= len -> off + len <= L -> (to_device = false -> len <= 512) ->
  Forall (fun n => xfer_fits (zlen (h_tx s)) mem (h_x s n)) (h_m s).
Proof.
  intros [H1 H2] HT Hk Ho Hl HL Hb. rewrite H1. apply Forall_forall. intros n Hn. destruct (decide (n = XT)) as [->|N].
  - rewrite HT. destruct to_device; (split; [cbn; lia|]); cbn; (split; intros b [=]); subst b; cbn; unfold MMC_SPI_BLOCKSIZE; eauto with lia.
    all: try (split; [|done]); split; [lia|]; exists L; split; [done|lia].
  - rewrite (H2 n Hn N). destruct n, to_device; (split; [cbn; lia|]); cbn; (split; intros b [=]); subst b; cbn; unfold MMC_SPI_BLOCKSIZE; try (split; [|done]); lia.
Qed.

Lemma scratch_write_total off bs s :
  ok s -> 0 <= off -> off + zlen bs <= 32 -> total (scratch_write off bs) s (fun _ s' => exists d, zlen d = 32 /\ s' = set_scratch d s).
Proof.
  intros [H _] H1 H2. unfold total, scratch_write. destruct (mem_write (h_data s) off bs) as [d|] eqn:E; [|by rewrite mem_write_ok in E by lia].
  eexists _, _. split; [done|]. exists d. split; [|done]. apply mem_write_length in E. lia.
Qed.
Lemma held_scratch s d : zlen d = 32 -> held mem s0 s -> held mem s0 (set_scratch d s).
Proof. intros E H. eapply held_same; [done| |apply H|done|done]. split; [done|apply H]. Qed.
Lemma held_x s n x : n <> XStatus -> held mem s0 s -> held mem s0 (set_x n x s).
Proof.
  intros E H. eapply held_same; [done| |apply H|done|done]. destruct (hd_ok _ _ _ H) as (? & ? & ?). unfold ok. cbn.
  by rewrite decide_False.
Qed.
Lemma held_m s m : held mem s0 s -> held mem s0 (set_m m s).
Proof. intros H. eapply held_same; [done| |apply H|done|done]. apply H. Qed.

Lemma setup_total multiple to_device s :
  held mem s0 s -> total (mmc_spi_setup_data_message multiple to_device) s (fun _ s' =>
    held mem s0 s' /\ ready multiple to_device s' /\ h_x s' XT = Xfer (Some Ones) None 0 0 false).
Proof.
  intros H. unfold mmc_spi_setup_data_message. apply total_bind, total_modify.
  assert (held mem s0 (set_m [] s)) as H0 by by apply held_m.
  eapply (total_then _ _ _ (fun _ s1 => held mem s0 s1 /\ h_m s1 = (if to_device then [XToken] else []) /\
    (to_device = true -> h_x s1 XToken = data_x true XToken))).
  { destruct to_device; [|by apply total_ret]. eapply total_then; [apply scratch_write_total; [apply H0|done|done]|].
    intros [] s1 (d & Ed & ->). apply total_bind, total_modify, total_modify.
    split; [|done]. by apply held_m, held_x, held_scratch. }
  intros [] s1 (H1 & E1 & T1). do 4 (apply total_bind, total_modify).
  set (s2 := set_m _ (set_x XCrc _ _)).
  assert (held mem s0 s2) as H2 by (by apply held_m, held_x, held_m, held_x).
  assert (h_m s2 = (if to_device then [XToken] else []) ++ [XT; XCrc]) as E2 by (cbn; by rewrite E1, <- app_assoc).
  assert (forall n, n ∈ data_msg multiple to_device -> n <> XT -> n <> XEarly -> h_x s2 n = data_x to_device n) as X2.
  { intros n (Hs & Ht & _)%data_msg_elem HT HE. destruct n; try done; rewrite Ht in * by done; by apply T1. }
  destruct (multiple || to_device) eqn:Em.
  - apply total_bind, total_modify, total_modify. split; [by apply held_m, held_x|]. split; [|done].
    split; [cbn [h_m set_m set_x]; unfold data_msg; by rewrite E2, Em, <- app_assoc|].
    intros n Hn HT. destruct (decide (n = XEarly)) as [->|N]; [done|]. cbn. rewrite decide_False by done. by apply X2.
  - apply total_ret. split; [done|]. split; [|done]. split; [unfold data_msg; by rewrite E2, Em|].
    intros n Hn HT. apply X2; [done..|]. intros ->. apply data_msg_elem in Hn as (_ & _ & Hn). by rewrite Hn in Em.
Qed.

(** A block at offset [off] of segment [k], of which there is enough memory. *)
Record at_block (multiple to_device : bool) (k : nat) (off len : Z) (s : mmc_spi_host) : Prop := AtBlock {
  ab_held : held mem s0 s; ab_ready : ready multiple to_device s; ab_x : h_x s XT = block_x to_device k off len }.

Lemma at_block_reads multiple to_device k off len s s' :
  at_block multiple to_device k off len s -> reads s s' -> at_block multiple to_device k off len s'.
Proof.
  intros [H1 H2 H3] R. split; [by eapply held_reads|by eapply ready_reads|]. by rewrite (rd_x _ _ R).
Qed.
Lemma at_block_scratch multiple to_device k off len s d :
  at_block multiple to_device k off len s -> zlen d = 32 -> at_block multiple to_device k off len (set_scratch d s).
Proof. intros [H1 H2 H3] E. split; [by apply held_scratch|by eapply ready_same|done]. Qed.
Lemma at_block_sync multiple to_device k off len L s :
  at_block multiple to_device k off len s -> mem !! k = Some L -> 0 <= off -> 0 <= len -> off + len <= L ->
  (to_device = false -> len <= 512) ->
  total (let! m := gets h_m in spi_sync_locked m) s (fun _ s' => at_block multiple to_device k off len s').
Proof.
  intros [H1 H2 H3] Hk Ho Hl HL Hb. apply total_bind, total_gets.
  eapply total_mono; [apply held_sync; [done|by eapply ready_fits]|]. intros v s' (K1 & K2 & K3).
  split; [done|by eapply ready_same|by rewrite K2].
Qed.
Lemma at_block_move multiple to_device k off len off' len' s :
  at_block multiple to_device k off len s -> at_block multiple to_device k off' len' (set_x XT (block_x to_device k off' len') s).
Proof. intros [H1 H2 H3]. split; [by apply held_x|eapply ready_same; [done..|]|done]. intros n Hn. cbn. by rewrite decide_False. Qed.

Lemma block_buf_ok multiple to_device k off len L s :
  at_block multiple to_device k off len s -> mem !! k = Some L -> 0 <= off -> 0 <= len -> off + len <= L ->
  exists bs, buf_read s (Mem k off) len = Ret bs /\ zlen bs = len.
Proof.
  intros [H1 _ _] Hk Ho Hl HL. eapply buf_read_ok; [by apply held_sizes|done|]. split; [done|]. exists L. split; [done|lia].
Qed.

Lemma wait_unbusy_total timeout s : ok s -> 0 <= timeout -> returns (mmc_spi_wait_unbusy timeout) s.
Proof. intros. by apply mmc_spi_skip_total. Qed.

(** What a block leaves: the pointer moved on by no more than the block. *)
Definition block_done (multiple to_device : bool) (k : nat) (off len v : Z) (s : mmc_spi_host) : Prop :=
  held mem s0 s /\ ready multiple to_device s /\
  (0 <= v -> exists off', off <= off' <= off + len /\ at_block multiple to_device k off' len s).
Lemma block_done_at multiple to_device k off len v s :
  0 <= len -> at_block multiple to_device k off len s -> block_done multiple to_device k off len v s.
Proof. intros Hl B. split; [apply B|]. split; [apply B|]. intros _. exists off. split; [lia|done]. Qed.
Lemma block_done_next multiple to_device k off len v s :
  0 <= len -> at_block multiple to_device k (off + len) len s -> block_done multiple to_device k off len v s.
Proof. intros Hl B. split; [apply B|]. split; [apply B|]. intros _. exists (off + len). split; [lia|done]. Qed.

Lemma writeblock_total multiple k off len L timeout s :
  at_block multiple true k off len s -> mem !! k = Some L -> 0 <= off -> 0 <= len -> off + len <= L -> 0 <= timeout ->
  total (mmc_spi_writeblock timeout) s (block_done multiple true k off len).
Proof.
  intros B Hk Ho Hl HL Ht. unfold mmc_spi_writeblock. apply total_bind, total_gets. rewrite (ab_x _ _ _ _ _ _ B). cbn [block_x x_tx x_len].
  eapply (total_then _ _ _ (fun _ s1 => at_block multiple true k off len s1)).
  { destruct use_spi_crc; [|by apply total_ret]. destruct (block_buf_ok _ _ _ _ _ _ _ B Hk Ho Hl HL) as (bs & E & _).
    apply total_bind. exists bs, s. split; [unfold block_read, lift; cbn [deref obind]; by rewrite E|].
    eapply total_mono; [apply scratch_write_total; [apply B|done|done]|]. intros [] s1 (d & Ed & ->). by apply at_block_scratch. }
  intros [] s1 B1. cbn beta in B1. pose proof (at_block_sync _ _ _ _ _ _ _ B1 Hk Ho Hl HL ltac:(done)) as S.
  unfold total at 1, bind at 1, gets at 1 in S. apply total_bind, total_gets. eapply total_then; [exact S|]. clear S.
  intros status s2 B2. cbn beta in B2. destruct (Z.eqb_spec status 0) as [->|Ns]; cbn [negb]; [|by apply total_ret, block_done_at].
  eapply total_then; [apply scratch_read_total; [apply B2|lia..]|]. intros first s3 [-> El].
  destruct first as [|b0 [|b1 [|b2 [|b3 [|]]]]]; try (unfold zlen in El; cbn in El; lia). cbn [get_unaligned_be32].
  apply total_bind. unfold get_unaligned_le32. eexists _, s2. split; [done|]. set (p := data_response _).
  destruct (negb (p =? 0)); [by apply total_ret, block_done_at|].
  unfold advance_tx. do 2 apply total_bind. apply total_gets, total_modify. rewrite (ab_x _ _ _ _ _ _ B2). cbn [block_x x_tx x_rx x_len x_speed_hz x_cs_change fmap option_fmap option_map buf_add].
  set (s3 := set_x XT _ s2). assert (at_block multiple true k (off + len) len s3) as B3 by exact (at_block_move _ true _ _ _ _ _ _ B2).
  eapply total_then; [apply (scratch_read_total 4 25); [apply B3|lia..]|]. intros rest s4 [-> _].
  destruct (existsb Z.odd rest); [by apply total_ret, block_done_next|].
  eapply total_mono; [apply wait_unbusy_total; [apply B3|done]|]. intros v s4 R. cbn in R.
  apply block_done_next; [done|]. by eapply at_block_reads.
Qed.


Lemma zlen_realign b lo bs : zlen (realign b lo bs) = zlen bs.
Proof. revert lo. induction bs as [|x bs IH]; intros lo; cbn [realign]; [done|]. by rewrite !zlen_cons, IH. Qed.

(** Writing the block back in place. *)
Lemma block_write_total multiple to_device k off len L bs s :
  at_block multiple to_device k off len s -> mem !! k = Some L -> 0 <= off -> off + zlen bs <= L ->
  total (block_write (Some (Mem k off)) bs) s (fun _ s' => at_block multiple to_device k off len s').
Proof.
  intros [H R X] Hk Ho HL. pose proof (zlen_nonneg bs).
  destruct (buf_write_ok (zlen (h_tx s)) mem s (Mem k off) (zlen bs) bs) as (s1 & E & (S & d & t & m & Es));
    [by apply held_sizes|done|split; [done|eauto]|done|done|].
  eexists tt, s1. split; [unfold block_write; cbn [deref obind]; by rewrite E|]. subst s1.
  split; [|by eapply ready_same|done]. eapply held_same; [exact H| |apply S|done|done]. split; [apply S|apply H].
Qed.

Lemma readblock_total multiple k off len L timeout s :
  at_block multiple false k off len s -> mem !! k = Some L -> 0 <= off -> 0 <= len <= 512 -> off + len <= L -> 0 <= timeout ->
  total (mmc_spi_readblock timeout) s (block_done multiple false k off len).
Proof.
  intros B Hk Ho Hl HL Ht. unfold mmc_spi_readblock. apply total_bind, total_gets.
  rewrite (ab_x _ _ _ _ _ _ B). cbn [block_x x_rx x_len].
  eapply total_then; [apply returns_readbytes; [apply B|lia]|]. intros v s1 R1. cbn in R1.
  pose proof (at_block_reads _ _ _ _ _ _ _ B R1) as B1. destruct (v <? 0); [apply total_ret, block_done_at; [lia|done]|].
  eapply total_then; [apply peek_total; [apply B1|lia]|]. intros st s2 ->.
  eapply (total_then _ _ _ (fun _ s2 => at_block multiple false k off len s2)).
  { destruct (_ || _); [|by apply total_ret]. eapply total_mono; [by apply mmc_spi_skip_total; [apply B1|lia|]|].
    intros w s2 R. by eapply at_block_reads. }
  intros st' s2 B2. cbn beta in B2. destruct (st' <? 0); [apply total_ret, block_done_at; [lia|done]|].
  destruct (token_shift 8 7 st') as [b st2]. set (lo := u8 _).
  pose proof (at_block_sync _ _ _ _ _ _ _ B2 Hk Ho (proj1 Hl) HL ltac:(lia)) as S.
  unfold total at 1, bind at 1, gets at 1 in S. apply total_bind, total_gets. eapply total_then; [exact S|]. clear S.
  intros w s3 B3. cbn beta in B3.
  eapply (total_then _ _ _ (fun _ s4 => at_block multiple false k off len s4)).
  { destruct (negb _); [|by apply total_ret]. destruct (block_buf_ok _ _ _ _ _ _ _ B3 Hk Ho (proj1 Hl) HL) as (bs & E & El).
    apply total_bind. exists bs, s3. split; [unfold block_read, lift; cbn [deref obind]; by rewrite E|].
    eapply total_then; [apply (scratch_read_total 30 2); [apply B3|lia..]|]. intros crc s4 [-> Ec].
    set (bs' := realign b lo (bs ++ crc)). assert (zlen bs' = len + 2) as Eb by (unfold bs'; rewrite zlen_realign, zlen_app; lia).
    eapply total_then; [eapply block_write_total; [done..|rewrite zlen_ztake; lia]|]. intros [] s4 B4. cbn beta in B4.
    eapply total_mono; [apply scratch_write_total; [apply B4|done|rewrite zlen_zdrop; lia]|]. intros [] s5 (d & Ed & ->). by apply at_block_scratch. }
  intros [] s4 B4. cbn beta in B4.
  eapply (total_then _ _ _ (fun _ s5 => at_block multiple false k off len s5)).
  { destruct use_spi_crc; [|by apply total_ret]. destruct (block_buf_ok _ _ _ _ _ _ _ B4 Hk Ho (proj1 Hl) HL) as (bs & E & El).
    apply total_bind. exists bs, s4. split; [unfold block_read, lift; cbn [deref obind]; by rewrite E|].
    do 2 (eapply total_then; [apply peek_total; [apply B4|lia]|]; intros ? ? ->).
    eapply total_then; [apply scratch_write_total; [apply B4|done|done]|]. intros [] s5 (d & Ed & ->). by apply total_ret, at_block_scratch. }
  intros bad s5 B5. cbn beta in B5. destruct bad; [apply total_ret, block_done_at; [lia|done]|].
  unfold advance_rx. do 2 apply total_bind. apply total_gets, total_modify, total_ret.
  rewrite (ab_x _ _ _ _ _ _ B5). apply block_done_next; [lia|]. exact (at_block_move _ false _ _ _ _ _ _ B5).
Qed.

(** The data stage changes the result fields of the data only. *)
Definition same_data (d d' : mmc_data) : Prop :=
  exists e x, d' = Data (d_blksz d) (d_blocks d) (d_flags d) (d_timeout_ns d) (d_timeout_clks d) (d_sg d) e x.
Lemma same_data_refl d : same_data d d.
Proof. exists (d_error d), (d_xfered d). by destruct d. Qed.
Lemma same_data_trans d1 d2 d3 : same_data d1 d2 -> same_data d2 d3 -> same_data d1 d3.
Proof. intros (e & x & ->) (e' & x' & ->). by exists e', x'. Qed.
Lemma same_data_error e d : same_data d (set_data_error e d).
Proof. by exists e, (d_xfered d). Qed.
Lemma same_data_xfered n d : same_data d (add_xfered n d).
Proof. by eexists _, _. Qed.

(** The block transfer between segments. *)
Definition block_form (to_device : bool) (x : spi_transfer) : Prop :=
  x_speed_hz x = 0 /\ x_cs_change x = false /\ (if to_device then x_rx x = None else x_tx x = Some Ones).
Definition between (multiple to_device : bool) (s : mmc_spi_host) : Prop :=
  held mem s0 s /\ ready multiple to_device s /\ block_form to_device (h_x s XT).
Lemma at_block_between multiple to_device k off len s : at_block multiple to_device k off len s -> between multiple to_device s.
Proof. intros [H1 H2 H3]. split; [done|]. split; [done|]. rewrite H3. by destruct to_device. Qed.

Lemma block_loop_total fuel multiple to_device blk timeout status length data k off len L s :
  at_block multiple to_device k off len s -> mem !! k = Some L -> 0 <= off -> off + length <= L ->
  0 <= length < Z.of_nat fuel -> 0 < blk -> (to_device = false -> blk <= 512) -> 0 <= timeout ->
  total (block_loop fuel to_device multiple blk timeout status length data) s (fun r s' =>
    same_data data r.2 /\ held mem s0 s' /\ ready multiple to_device s' /\ (0 <= r.1 -> between multiple to_device s')).
Proof.
  revert status length data off len s. induction fuel as [|fuel IH]; intros status length data off len s B Hk Ho HL Hf Hb Hr Ht; [lia|].
  cbn [block_loop]. destruct (Z.eqb_spec length 0) as [->|N].
  { apply total_ret. split; [apply same_data_refl|]. split; [apply B|]. split; [apply B|]. intros _. by eapply at_block_between. }
  set (n := Z.min length blk). apply total_bind. unfold put_len. apply total_bind, total_gets, total_modify.
  assert (at_block multiple to_device k off n (set_x XT (block_x to_device k off n) s)) as B1 by by eapply at_block_move.
  replace (Xfer _ _ n _ _) with (block_x to_device k off n) by (rewrite (ab_x _ _ _ _ _ _ B); by destruct to_device).
  eapply (total_then _ _ _ (block_done multiple to_device k off n)).
  { destruct to_device; [eapply writeblock_total|eapply readblock_total]; try done; lia. }
  intros v s1 (H1 & R1 & D1). destruct (Z.ltb_spec v 0).
  { apply total_ret. split; [apply same_data_refl|]. split; [done|]. split; [done|]. cbn. lia. }
  destruct (D1 ltac:(lia)) as (off' & Ho' & B2). destruct (negb multiple).
  { apply total_ret. split; [apply same_data_xfered|]. split; [done|]. split; [done|]. intros _. by eapply at_block_between. }
  eapply total_mono; [eapply (IH v (length - n) (add_xfered n data) off'); [done..|lia|lia|lia|done|done|done]|].
  intros r s2 (S2 & P2). split; [|done]. eapply same_data_trans; [apply same_data_xfered|done].
Qed.

Definition segs_ok (k : nat) (sgs : list Z) : Prop :=
  forall i length, sgs !! i = Some length -> exists L, mem !! (k + i)%nat = Some L /\ 0 <= length <= L.

Lemma sg_loop_total multiple to_device blk timeout k sgs data s :
  between multiple to_device s -> segs_ok k sgs -> 0 < blk -> (to_device = false -> blk <= 512) -> 0 <= timeout ->
  total (sg_loop to_device multiple blk timeout k sgs data) s (fun d s' =>
    same_data data d /\ held mem s0 s' /\ ready multiple to_device s').
Proof.
  revert k data s. induction sgs as [|length sgs IH]; intros k data s B Hs Hb Hr Ht; cbn [sg_loop].
  { apply total_ret. split; [apply same_data_refl|]. split; apply B. }
  destruct B as (H & R & F1 & F2 & F3). apply total_bind, total_gets, total_bind, total_modify.
  destruct (Hs 0%nat length eq_refl) as (L & Hk & Hl). rewrite Nat.add_0_r in Hk.
  set (n := x_len (h_x s XT)). set (s1 := set_x XT _ s).
  assert (at_block multiple to_device k 0 n s1) as B1.
  { split; [by apply held_x|eapply ready_same; [exact R|done|]; intros m Hm; cbn; by rewrite decide_False|].
    cbn. rewrite F1, F2. destruct to_device; [by rewrite F3|by rewrite F3]. }
  eapply total_then; [eapply (block_loop_total _ _ _ _ _ _ _ _ _ _ _ L); [exact B1|done|lia|lia|lia|done..]|].
  intros [v d] s2 (S2 & H2 & R2 & D2). cbn in S2, D2. destruct (Z.ltb_spec v 0).
  { apply total_ret. split; [|done]. eapply same_data_trans; [done|apply same_data_error]. }
  eapply total_mono; [apply IH; [apply D2; lia| |done..]|].
  - intros i len Hi. destruct (Hs (S i) len Hi) as (L' & E & ?). exists L'. split; [|done]. by rewrite Nat.add_succ_r in E.
  - intros d' s3 (S3 & P3). split; [|done]. by eapply same_data_trans.
Qed.

Lemma stop_tran_total multiple timeout data s :
  multiple = true -> held mem s0 s -> ready multiple true s -> 0 <= timeout ->
  total (stop_tran timeout data) s (fun d s' => same_data data d /\ held mem s0 s').
Proof.
  intros -> H R Ht. unfold stop_tran. apply total_bind, total_modify.
  eapply total_then; [apply scratch_write_total; [apply H|done|done]|]. intros [] s1 (d1 & E1 & ->).
  eapply total_then; [apply scratch_write_total; [|done|done]; by split; [|apply H]|]. intros [] s2 (d2 & E2 & ->).
  apply total_bind, total_gets, total_bind, total_modify, total_bind, total_gets. cbn [h_x set_scratch set_m].
  rewrite (ry_x _ _ _ R XEarly) by (cbn; repeat constructor || done). cbn [data_x x_rx x_speed_hz x_cs_change h_m set_x set_scratch set_m].
  set (s3 := set_x XEarly _ _). assert (held mem s0 s3) as H3 by (by apply held_x, held_scratch, held_scratch, held_m).
  eapply total_then; [apply held_sync; [exact H3|]|].
  { constructor; [|constructor].
    replace (h_x s3 XEarly) with (Xfer (Some (Scratch 0)) (Some (Scratch 0)) 29 0 true) by done.
    split; [cbn; lia|]. split; intros b [= <-]; [|split; [|done]]; cbn; lia. }
  intros v s4 (H4 & _ & _). destruct (v <? 0).
  { apply total_ret. split; [|done]. destruct (d_error data =? 0); [apply same_data_error|apply same_data_refl]. }
  eapply total_then; [apply (scratch_read_total 2 27); [apply H4|lia..]|]. intros rest s5 [-> _].
  destruct (existsb _ rest); [apply total_ret; split; [apply same_data_refl|done]|].
  eapply total_then; [apply wait_unbusy_total; [apply H4|done]|]. intros w s5 R5. cbn in R5. apply total_ret.
  split; [|by eapply held_reads]. destruct (_ && _); [apply same_data_error|apply same_data_refl].
Qed.

(** What the MMC core promises of a request: blocks no larger than the host
    said, and segments with memory behind them. *)
Record data_ok (d : mmc_data) : Prop := DataOk {
  do_blk : 0 < d_blksz d; do_read : negb (Z.land (d_flags d) MMC_DATA_READ =? 0) = true -> d_blksz d <= 512; do_sg : segs_ok 0 (d_sg d) }.
Lemma data_ok_same d d' : data_ok d -> same_data d d' -> data_ok d'.
Proof. intros [H1 H2 H3] (e & x & ->). by split. Qed.

Context (Hspeed : h_speed s0 <> 0) (Husecs : forall us, 0 <= usecs_to_jiffies us).

Lemma data_do_total d s :
  held mem s0 s -> data_ok d -> total (mmc_spi_data_do d (d_blksz d)) s (fun d' s' => same_data d d' /\ held mem s0 s').
Proof.
  intros H [Db Dr Dg]. unfold mmc_spi_data_do. set (multiple := 1 <? d_blocks d). set (dev := Z.land _ _ =? 0).
  eapply total_then; [by apply setup_total|]. intros [] s1 (H1 & R1 & X1).
  apply total_bind, total_gets, total_bind, total_gets. rewrite X1. cbn [x_speed_hz negb Z.eqb].
  change (negb (0 =? 0)) with false. cbv iota. rewrite (hd_speed _ _ _ H1).
  set (timeout := usecs_to_jiffies (u32 (d_timeout_ns d + u32 (d_timeout_clks d * 1000000) / h_speed s0) / 1000) + 1).
  assert (0 <= timeout) as Ht by (unfold timeout; match goal with |- context [usecs_to_jiffies ?u] => pose proof (Husecs u) end; lia).
  apply total_bind. exists timeout, s1. split.
  { unfold lift, block_timeout. by destruct (Z.eqb_spec (h_speed s0) 0). }
  eapply total_then; [apply sg_loop_total; [|done|done| |done]|].
  - split; [done|]. split; [done|]. rewrite X1. by destruct dev.
  - intros E. apply Dr. unfold dev in E. by rewrite E.
  - intros d' s2 (S2 & H2 & R2). destruct (dev && multiple) eqn:E; [|by apply total_ret].
    apply andb_true_iff in E as [E1 E2]. rewrite E1 in R2. eapply total_mono; [by apply (stop_tran_total multiple)|].
    intros d2 s3 [S3 H3]. split; [by eapply same_data_trans|done].
Qed.

Lemma finish_data_total cmd d stop s : held mem s0 s -> total (finish_data cmd d stop) s (fun _ s' => held mem s0 s').
Proof.
  intros H. unfold finish_data. destruct stop as [stop|].
  - eapply total_then; [by apply command_send_total|]. intros r s' H'. by apply total_ret.
  - eapply total_then; [by apply cs_off_total, H|]. intros r s' R. apply total_ret. by eapply held_reads.
Qed.

(** The card accepts the command, and its data end with a CRC error. *)
Definition crc_failed (mrq : mmc_request) (s : mmc_spi_host) : Prop :=
  exists d cmd s1 d' s2, r_data mrq = Some d /\ mmc_spi_command_send (Some d) (r_cmd mrq) true s = Ret ((0, cmd), s1) /\
    mmc_spi_data_do d (d_blksz d) s1 = Ret (d', s2) /\ d_error d' = - EILSEQ.

Lemma crc_recover_total n mrq s :
  is_Some card \/ ~ crc_failed mrq s ->
  held mem s0 s -> (forall d, r_data mrq = Some d -> data_ok d) -> total (crc_recover n mrq) s (fun _ s' => held mem s0 s').
Proof.
  revert mrq s. induction n as [|n IH]; intros mrq s Hc H D; cbn [crc_recover];
    (destruct (command_send_total (r_data mrq) (r_cmd mrq) (bool_decide (is_Some (r_data mrq))) s H) as ([status cmd] & s1 & E1 & H1);
      [by intros ?%bool_decide_eq_true|]);
    apply total_bind; exists (status, cmd), s1; (split; [exact E1|]);
    (destruct (r_data mrq) as [d|] eqn:Ed; [|by apply total_ret]); (destruct (Z.eqb_spec status 0) as [->|]; cbn [negb]; [|by apply total_ret]);
    (destruct (data_do_total d s1 H1 (D d eq_refl)) as (d' & s2 & E2 & S2 & H2)); apply total_bind; exists d', s2; (split; [exact E2|]);
    pose proof (finish_data_total cmd d' (r_stop mrq) s2 H2) as Hf; cbv zeta.
  - done.
  - destruct (Z.eqb_spec (d_error d') (- EILSEQ)) as [Ee|]; [|done]. destruct card as [ty|] eqn:Ec.
    + apply total_bind. exists ty, s2. split; [done|].
      destruct (negb _); [|done]. eapply total_then; [by apply command_send_total|]. intros r s3 H3. cbn beta in H3.
      apply IH; [left; by exists ty|done|]. intros d2 [= <-]. eapply data_ok_same; [by apply D|]. eapply same_data_trans; [done|apply same_data_error].
    + destruct Hc as [[? Hx]|Hc]; [congruence|]. destruct Hc. by exists d, cmd, s1, d', s2.
Qed.
End Held.

(** A CRC error while the core does not know the card yet is a NULL dereference. *)
Lemma crc_error_without_card n mrq s : card = None -> crc_failed mrq s -> crc_recover (S n) mrq s = Fault NullDeref.
Proof.
  intros Hc (d & cmd & s1 & d' & s2 & Hd & E1 & E2 & E3). cbn [crc_recover]. rewrite Hd. change (bool_decide (is_Some (Some d))) with true.
  rewrite (bind_Ret _ _ _ _ _ E1). cbn [negb]. change (negb (0 =? 0)) with false. cbv iota. rewrite (bind_Ret _ _ _ _ _ E2).
  cbv zeta. rewrite E3, Hc. done.
Qed.

(** C17. A request ends, whatever controller and card answer, when there is memory
    behind its segments and its blocks have at most the announced size.  If the core
    knows the card, or the data of the first attempt do not end with a CRC error, it
    returns in bounded time without leaving its buffers, and calls the bus lock, only
    the controller while the lock is held, the unlock and the completion once each.
    If the core does not know the card yet -- it reads blocks before it does -- and
    they do, the type of the card is read through a NULL pointer.  (Time passes in a
    message; a block write is not limited in size.) *)
Theorem mmc_spi_request_ends mrq s :
  ok s -> h_speed s <> 0 -> (forall us, 0 <= usecs_to_jiffies us) ->
  (forall d, r_data mrq = Some d -> data_ok (zlen <$> h_mem s) d) ->
  exists locked, spi_do BusLock s = Ret (tt, locked) /\
  (is_Some card \/ ~ crc_failed mrq locked ->
     exists mrq' s' l, mmc_spi_request mrq s = Ret (mrq', s') /\
     h_log s' = h_log s ++ [BusLock] ++ l ++ [BusUnlock; RequestDone] /\ Forall on_bus l /\
     ok s' /\ zlen <$> h_mem s' = zlen <$> h_mem s /\ h_speed s' = h_speed s) /\
  (card = None -> crc_failed mrq locked -> mmc_spi_request mrq s = Fault NullDeref).
Proof.
  intros Hs Hsp Hu Hd. unfold mmc_spi_request, spi_do at 1, spi_ask at 1, bind at 1.
  destruct (react BusLock (h_env s)) as [a1 c1] eqn:E1. set (s1 := after_call BusLock c1 (a_elapsed a1) s). exists s1. split; [done|].
  assert (forall k : unit -> M mmc_spi_host mmc_request, bind (spi_do BusLock) k s = k tt s1) as L
    by (intros k; unfold bind, spi_do, spi_ask, bind; by rewrite E1). rewrite L. split.
  - intros Hc.
    destruct (crc_recover_total (zlen <$> h_mem s) s1 Hsp Hu 5 mrq s1 Hc) as (mrq' & s2 & E2 & [K1 K2 K3 (l & K4 & K5)]); [split; try done|done|].
    { exists []. by rewrite app_nil_r. }
    destruct (react BusUnlock (h_env s2)) as [a3 c3] eqn:E3. set (s3 := after_call BusUnlock c3 (a_elapsed a3) s2).
    destruct (react RequestDone (h_env s3)) as [a4 c4] eqn:E4. set (s4 := after_call RequestDone c4 (a_elapsed a4) s3).
    exists mrq', s4, l. split.
    { rewrite (bind_Ret _ _ _ _ _ E2). unfold spi_do, spi_ask. unfold bind at 1 2. rewrite E3. fold s3. cbn [ret].
      unfold bind at 1 2. rewrite E4. done. }
    split; [cbn; rewrite K4; cbn; by rewrite <- !app_assoc|]. done.
  - intros Hc Hf. unfold bind at 1. by rewrite (crc_error_without_card 4).
Qed.
End Ends.

(** * What arrives late *)
(** The bytes of a stream of bits in which [bs] begins [b] bits before the end of
    the byte that came before; [next] follows. *)
Fixpoint late (b : Z) (bs : list Z) (next : Z) : list Z :=
  match bs with
  | [] => []
  | d :: bs => (d mod 2 ^ (8 - b)) * 2 ^ b + hd next bs / 2 ^ (8 - b) :: late b bs next
  end.
(** The byte with the token: ones, a zero, and the first [b] bits of the data. *)
Definition token_byte (b d0 : Z) : Z := 256 - 2 ^ (b + 1) + d0 / 2 ^ (8 - b).

Lemma pow_split b : 0 <= b <= 8 -> 2 ^ (8 - b) * 2 ^ b = 256 /\ 0 < 2 ^ b /\ 0 < 2 ^ (8 - b).
Proof. intros H. rewrite <- Z.pow_add_r by lia. replace (8 - b + b) with 8 by lia. repeat split; apply Z.pow_pos_nonneg; lia. Qed.
(** A byte is its upper [b] bits and the rest. *)
Lemma byte_parts b d : 0 <= b <= 8 -> is_byte d ->
  d = d / 2 ^ (8 - b) * 2 ^ (8 - b) + d mod 2 ^ (8 - b) /\ 0 <= d / 2 ^ (8 - b) < 2 ^ b /\ 0 <= d mod 2 ^ (8 - b) < 2 ^ (8 - b).
Proof.
  intros Hb Hd. destruct (pow_split b Hb) as (E & P1 & P2). unfold is_byte in Hd. split; [rewrite Z.mul_comm; apply Z.div_mod; lia|].
  split; [|apply Z.mod_pos_bound; lia]. split; [apply Z.div_pos; lia|]. apply Z.div_lt_upper_bound; lia.
Qed.

Lemma zlen_late b bs next : zlen (late b bs next) = zlen bs.
Proof. induction bs as [|d bs IH]; cbn [late]; [done|]. by rewrite !zlen_cons, IH. Qed.
Lemma hd_byte next bs : is_byte next -> is_bytes bs -> is_byte (hd next bs).
Proof. intros H. by intros []. Qed.
Lemma late_bytes b bs next : 0 <= b <= 8 -> is_byte next -> is_bytes bs -> is_bytes (late b bs next).
Proof.
  intros Hb Hn. induction 1 as [|d bs Hd Hbs IH]; cbn [late]; [by constructor|]. constructor; [|exact IH].
  destruct (pow_split b Hb) as (E & P1 & P2). destruct (byte_parts b d Hb Hd) as (_ & _ & H1).
  destruct (byte_parts b _ Hb (hd_byte next bs Hn Hbs)) as (_ & H2 & _). unfold is_byte. nia.
Qed.

Lemma realign_late b d0 bs next : 0 <= b <= 8 -> is_byte next -> is_bytes (d0 :: bs) ->
  realign b (d0 / 2 ^ (8 - b) * 2 ^ (8 - b)) (late b (d0 :: bs) next) = d0 :: bs.
Proof.
  intros Hb Hn. revert d0. induction bs as [|d1 bs IH]; intros d0 H; apply Forall_cons in H as [H0 H1]; cbn [late realign hd].
  all: destruct (pow_split b Hb) as (E & P1 & P2); destruct (byte_parts b d0 Hb H0) as (D0 & U0 & L0).
  - f_equal. destruct (byte_parts b next Hb Hn) as (_ & U1 & _).
    rewrite Z.shiftr_div_pow2, Z.div_add_l, (Z.div_small (next / _)), Z.add_0_r by lia.
    rewrite Z.lor_comm, <- Z.shiftl_mul_pow2, lor_shiftl_add by lia. lia.
  - apply Forall_cons in H1 as [H1 H2]. destruct (byte_parts b d1 Hb H1) as (_ & U1 & _). f_equal.
    + rewrite Z.shiftr_div_pow2, Z.div_add_l, (Z.div_small (d1 / _)), Z.add_0_r by lia.
      rewrite Z.lor_comm, <- Z.shiftl_mul_pow2, lor_shiftl_add by lia. lia.
    + replace (u8 _) with (d1 / 2 ^ (8 - b) * 2 ^ (8 - b)); [apply IH; by constructor|].
      unfold u8. rewrite Z.shiftl_mul_pow2 by lia. change (2 ^ 8) with 256.
      rewrite Z.mul_add_distr_r, <- Z.mul_assoc, (Z.mul_comm (2 ^ b)), E, Z.add_comm, Z.mod_add by lia.
      symmetry. apply Z.mod_small. nia.
Qed.

Lemma late_0 bs next : is_bytes bs -> is_byte next -> late 0 bs next = bs.
Proof.
  intros H Hn. induction H as [|d bs Hd Hbs IH]; cbn [late]; [done|]. rewrite IH.
  pose proof (hd_byte next bs Hn Hbs) as Hh. unfold is_byte in *. change (2 ^ (8 - 0)) with 256. change (2 ^ 0) with 1.
  rewrite Z.mod_small, (Z.div_small (hd next bs)) by lia. f_equal. lia.
Qed.

(** The shift of the token is found, and the bits of the data in its byte. *)
Definition token_check : bool :=
  forallb (fun b => forallb (fun d =>
    bool_decide (fst (token_shift 8 7 (token_byte (Z.of_nat b) (Z.of_nat d))) = Z.of_nat b /\
    u8 (Z.shiftl (snd (token_shift 8 7 (token_byte (Z.of_nat b) (Z.of_nat d)))) 1) = Z.of_nat d / 2 ^ (8 - Z.of_nat b) * 2 ^ (8 - Z.of_nat b) /\
    0 <= token_byte (Z.of_nat b) (Z.of_nat d) < 255)) (seq 0 256)) (seq 0 8).
Lemma token_found b d : 0 <= b < 8 -> is_byte d ->
  fst (token_shift 8 7 (token_byte b d)) = b /\
  u8 (Z.shiftl (snd (token_shift 8 7 (token_byte b d))) 1) = d / 2 ^ (8 - b) * 2 ^ (8 - b) /\ 0 <= token_byte b d < 255.
Proof.
  intros Hb Hd. assert (token_check = true) as E by by vm_compute. unfold token_check in E.
  rewrite forallb_forall in E. specialize (E (Z.to_nat b)). rewrite forallb_forall in E.
  specialize (E ltac:(apply in_seq; lia) (Z.to_nat d) ltac:(unfold is_byte in Hd; apply in_seq; lia)).
  apply bool_decide_eq_true in E. rewrite !Z2Nat.id in E by (unfold is_byte in Hd; lia). exact E.
Qed.

(** ** A block *)
(** What the controller answers to a message. *)
Definition answers (c : C) (m : list (list Z * bool)) (rx : list Z) (c' : C) : Prop :=
  exists e, react (SpiSync m) c = (Answer 0 rx e, c').
Definition read_msg (n : Z) (cs : bool) : list (list Z * bool) := [(replicate (Z.to_nat n) 0xff, cs)].

(** A readback that is answered in full replaces the beginning of the scratch buffer. *)
Lemma readbytes_timed n rx e c' s :
  ok s -> 0 <= n <= 32 -> zlen rx = n -> react (SpiSync (read_msg n (x_cs_change (h_x s XStatus)))) (h_env s) = (Answer 0 rx e, c') ->
  exists s', mmc_spi_readbytes n s = Ret (0, s') /\ reads s s' /\ h_env s' = c' /\
    h_data s' = map u8 rx ++ zdrop n (h_data s) /\ x_cs_change (h_x s' XStatus) = x_cs_change (h_x s XStatus) /\
    h_now s' = h_now s + Z.max 0 e.
Proof.
  intros (Hd & Htx & Hrx) Hn El E. unfold mmc_spi_readbytes. destruct (Z.ltb_spec 32 n); [lia|].
  unfold put_len, get_x, put_x, bind, gets, modify. rewrite Htx, Hrx. set (x := Xfer _ _ _ _ _). set (s1 := set_x XStatus x s).
  unfold spi_sync_locked. cbn [gather]. replace (h_x s1 XStatus) with x by done. cbn [x_tx x_len x x_cs_change buf_read].
  assert (mem_read (replicate (Z.to_nat MMC_SPI_BLOCKSIZE) 255) 0 n = Ret (replicate (Z.to_nat n) 255)) as ->.
  { rewrite mem_read_ok by (rewrite ?zlen_replicate; unfold MMC_SPI_BLOCKSIZE; lia). rewrite zdrop_0. unfold ztake.
    rewrite take_replicate. do 2 f_equal. unfold MMC_SPI_BLOCKSIZE. lia. }
  cbn [obind]. change (h_env s1) with (h_env s). unfold read_msg in E. rewrite E. cbn [a_rx a_elapsed a_status store].
  set (s2 := after_call _ _ _ s1). replace (h_x s2 XStatus) with x by done. cbn [x_rx x_len x buf_read buf_write].
  change (h_data s2) with (h_data s). rewrite mem_read_ok by lia. cbn [obind].
  assert (zlen (map u8 rx) = n) as Em by (unfold zlen in *; by rewrite length_map).
  rewrite ztake_all by lia. rewrite mem_write_ok by lia. cbn [obind ztake]. rewrite Em, Z.add_0_l.
  eexists. split; [done|]. split; [|by split_and!]. split; try done; cbn.
  - split; [cbn [h_data set_scratch]; change (ztake 0 (h_data s)) with (@nil Z); rewrite !zlen_app, zlen_zdrop, Em by lia; unfold zlen at 1; cbn; lia|done].
  - intros k Hk. by rewrite decide_False.
  - lia.
  - eexists. split; [done|]. by constructor.
Qed.

Lemma readbytes_answered n rx c' s :
  ok s -> 0 <= n <= 32 -> zlen rx = n -> answers (h_env s) (read_msg n (x_cs_change (h_x s XStatus))) rx c' ->
  exists s', mmc_spi_readbytes n s = Ret (0, s') /\ reads s s' /\ h_env s' = c' /\
    h_data s' = map u8 rx ++ zdrop n (h_data s) /\ x_cs_change (h_x s' XStatus) = x_cs_change (h_x s XStatus).
Proof.
  intros Hs Hn El [e E]. destruct (readbytes_timed n rx e c' s Hs Hn El E) as (s' & H1 & H2 & H3 & H4 & H5 & _). by exists s'.
Qed.

Lemma map_u8_id bs : is_bytes bs -> map u8 bs = bs.
Proof. induction 1 as [|b bs Hb _ IH]; cbn; [done|]. by rewrite IH, u8_id. Qed.

(** The message of a block that is read. *)
Definition block_msg (multiple : bool) (len : Z) : list (list Z * bool) :=
  [(replicate (Z.to_nat len) 0xff, false); ([0xff; 0xff], false)] ++ (if multiple then [([0xff], true)] else []).

(** Memory with a block at the place a read puts it. *)
Record block_at (multiple : bool) (k : nat) (pre old post : list Z) (s : mmc_spi_host) : Prop := BlockAt {
  bl_ok : ok s; bl_ready : ready multiple false s; bl_x : h_x s XT = block_x false k (zlen pre) (zlen old);
  bl_mem : h_mem s !! k = Some (pre ++ old ++ post); bl_len : zlen old <= 512 }.

Lemma block_at_reads multiple k pre old post s s' : block_at multiple k pre old post s -> reads s s' -> block_at multiple k pre old post s'.
Proof.
  intros [H1 H2 H3 H4 H5] R. split; [apply R|by eapply ready_reads|by rewrite (rd_x _ _ R)|by rewrite (rd_mem _ _ R)|done].
Qed.

Lemma ones_read n : 0 <= n <= 512 -> mem_read (replicate (Z.to_nat MMC_SPI_BLOCKSIZE) 255) 0 n = Ret (replicate (Z.to_nat n) 255).
Proof.
  intros Hn. rewrite mem_read_ok by (rewrite ?zlen_replicate; unfold MMC_SPI_BLOCKSIZE; lia). rewrite zdrop_0. unfold ztake.
  rewrite take_replicate. do 2 f_equal. unfold MMC_SPI_BLOCKSIZE. lia.
Qed.

Lemma block_gather multiple k pre old post s : block_at multiple k pre old post s -> gather s (data_msg multiple false) = Ret (block_msg multiple (zlen old)).
Proof.
  intros [H1 [Hm Hx] H3 H4 H5]. pose proof (zlen_nonneg old).
  assert (forall n, n ∈ data_msg multiple false -> n <> XT -> h_x s n = data_x false n) as X by exact Hx.
  assert (h_x s XCrc = data_x false XCrc) as XC by (apply X; [destruct multiple; cbn; repeat constructor|done]).
  destruct multiple; cbn [data_msg app orb gather]; rewrite H3, XC; cbn [block_x data_x x_tx x_len x_cs_change buf_read]; rewrite !ones_read by lia; cbn [obind].
  - rewrite (X XEarly) by (cbn; repeat constructor || done). cbn [data_x x_tx x_len x_cs_change buf_read]. by rewrite ones_read.
  - done.
Qed.

(** What a transfer stores in a block and in the scratch buffer. *)
Lemma store_mem s k pre old post d rest :
  h_x s XT = block_x false k (zlen pre) (zlen old) -> h_mem s !! k = Some (pre ++ old ++ post) -> zlen d = zlen old ->
  (match x_rx (h_x s XT) with
   | Some b => leto _ := buf_read s b (x_len (h_x s XT)) in buf_write b (ztake (x_len (h_x s XT)) (d ++ rest)) s
   | None => Ret s
   end) = Ret (set_mem (<[k := pre ++ d ++ post]> (h_mem s)) s).
Proof.
  intros -> Hk Ed. cbn [block_x x_rx x_len buf_read buf_write]. unfold segment. rewrite Hk. cbn [obind].
  rewrite (mem_read_mid _ pre old post) by done. cbn [obind]. rewrite ztake_app_length by done.
  by rewrite (mem_write_mid _ pre old post d) by done.
Qed.
Lemma store_scratch s off n bs :
  zlen (h_data s) = 32 -> 0 <= off -> 0 <= n -> off + n <= 32 -> zlen bs <= n ->
  (leto _ := buf_read s (Scratch off) n in buf_write (Scratch off) bs s)
  = Ret (set_scratch (ztake off (h_data s) ++ bs ++ zdrop (off + zlen bs) (h_data s)) s).
Proof.
  intros Hd H1 H2 H3 H4. cbn [buf_read buf_write]. rewrite mem_read_ok by lia. cbn [obind]. by rewrite mem_write_ok by lia.
Qed.

Lemma block_received multiple k pre old post d hi lo e c' s :
  block_at multiple k pre old post s -> zlen d = zlen old -> zlen e = (if multiple then 1 else 0) ->
  is_bytes d -> is_byte hi -> is_byte lo ->
  answers (h_env s) (block_msg multiple (zlen old)) (d ++ [hi; lo] ++ e) c' ->
  exists s' scr, spi_sync_locked (h_m s) s = Ret (0, s') /\ h_env s' = c' /\ zlen scr = 30 /\ h_data s' = scr ++ [hi; lo] /\
    block_at multiple k pre d post s'.
Proof.
  intros B Ed Ee Hd Hhi Hlo [el E]. pose proof (block_gather _ _ _ _ _ _ B) as G. destruct B as [H1 [Hm Hx] H3 H4 H5].
  unfold spi_sync_locked. rewrite Hm, G, E. cbn [a_rx a_elapsed a_status]. set (s1 := after_call _ _ _ s). rewrite !map_app.
  rewrite (map_u8_id d) by done. cbn [map]. rewrite (u8_id hi), (u8_id lo) by done.
  assert (forall n, n ∈ data_msg multiple false -> n <> XT -> h_x s n = data_x false n) as X by exact Hx.
  pose proof (zlen_nonneg old). pose proof (zlen_nonneg pre). pose proof (zlen_nonneg post).
  change (data_msg multiple false) with (XT :: XCrc :: (if multiple || false then [XEarly] else [])). cbn [store].
  rewrite (store_mem s1 k pre old post) by done. cbn [obind]. set (s2 := set_mem _ s1).
  replace (h_x s2 XCrc) with (data_x false XCrc) by (symmetry; apply X; [destruct multiple; cbn; repeat constructor|done]).
  cbn [data_x x_rx x_len]. replace (x_len (h_x s1 XT)) with (zlen d) by (change (h_x s1 XT) with (h_x s XT); rewrite H3; cbn; lia).
  rewrite zdrop_app_length, ztake_app_length by done.
  rewrite (store_scratch s2 30 2 [hi; lo]) by (done || lia || apply H1). cbn [obind]. set (s3 := set_scratch _ s2).
  rewrite (zdrop_app_length 2 [hi; lo]) by done.
  assert (block_at multiple k pre d post s3) as B3.
  { split; [|split; done| | |lia].
    - split; [|apply H1]. cbn [h_data s3 set_scratch]. pose proof (proj1 H1) as Hd1. change (h_data s2) with (h_data s).
      rewrite !zlen_app, zlen_ztake, zlen_zdrop by (change (zlen [hi; lo]) with 2; lia). change (zlen [hi; lo]) with 2. lia.
    - cbn. by rewrite H3, Ed.
    - cbn. rewrite list_lookup_insert_eq; [done|]. by eapply lookup_lt_Some. }
  assert (h_data s3 = ztake 30 (h_data s) ++ [hi; lo]) as D3.
  { cbn. f_equal. f_equal. change (h_data s2) with (h_data s). rewrite zdrop_all; [done|]. destruct H1 as [-> _]. done. }
  assert (zlen (ztake 30 (h_data s)) = 30) as Z30 by (rewrite zlen_ztake; [done|]; destruct H1 as [-> _]; done).
  destruct multiple; cbn [orb store].
  - destruct e as [|e0 [|]]; try (unfold zlen in Ee; cbn in Ee; lia).
    replace (h_x s3 XEarly) with (data_x false XEarly) by (symmetry; apply X; [cbn; repeat constructor|done]).
    cbn [data_x x_rx x_len map]. change (ztake 1 [u8 e0]) with [u8 e0].
    rewrite (store_scratch s3 0 1 [u8 e0]) by (done || apply B3). cbn [obind].
    eexists _, (u8 e0 :: zdrop 1 (ztake 30 (h_data s))). split; [done|]. split; [done|].
    split; [rewrite zlen_cons, zlen_zdrop, Z30; lia|]. split.
    + cbn [h_data set_scratch]. rewrite D3. change (ztake 0 _) with (@nil Z). cbn [app]. f_equal.
      change (0 + zlen [u8 e0]) with 1. unfold zdrop. rewrite drop_app_le; [done|]. unfold zlen in Z30. lia.
    + destruct B3 as [K1 [K2 K2'] K3 K4 K5]. split; [|by split|done..].
      split; [|apply K1]. cbn [h_data set_scratch]. change (ztake 0 _) with (@nil Z). change (0 + zlen [u8 e0]) with 1.
      pose proof (proj1 K1) as Hd1. rewrite !zlen_app, zlen_zdrop by lia. change (zlen [u8 e0]) with 1. change (zlen []) with 0. lia.
  - eexists s3, _. split; [done|]. split; [done|]. split; [exact Z30|]. by split.
Qed.


(** The card is idle: from a time and a state of the surroundings to a later one it
    sends all ones, in messages that take time, the last of them before [deadline];
    from a unit of time after [start] on the driver yields the CPU in between. *)
Inductive idle (start deadline : Z) (msg : list (list Z * bool)) : Z -> C -> Z -> C -> Prop :=
  | idle_end now c : idle start deadline msg now c now c
  | idle_byte now c e c1 now' c' :
      react (SpiSync msg) c = (Answer 0 [0xff] e, c1) -> 1 <= e -> (now + e) / tick <= deadline ->
      let y := react Schedule c1 in let yields := start + 1 <? (now + e) / tick in
      idle start deadline msg (if yields then now + e + Z.max 0 (a_elapsed y.1) else now + e) (if yields then y.2 else c1) now' c' ->
      idle start deadline msg now c now' c'.

Lemma skip_loop_idle fuel start timeout v c2 s now' c' :
  idle start (start + timeout) (read_msg 1 (x_cs_change (h_x s XStatus))) (h_now s) (h_env s) now' c' ->
  ok s -> 0 < tick -> (start + timeout + 1) * tick - h_now s < Z.of_nat fuel -> 0 < Z.of_nat fuel -> 0 <= v < 255 ->
  answers c' (read_msg 1 (x_cs_change (h_x s XStatus))) [v] c2 ->
  exists s', skip_loop fuel start timeout 1 255 s = Ret (v, s') /\ reads s s' /\ h_env s' = c2.
Proof.
  remember (read_msg 1 (x_cs_change (h_x s XStatus))) as msg eqn:Em. remember (h_now s) as now eqn:En. remember (h_env s) as c eqn:Ec.
  intros Hi. revert fuel s Em En Ec. induction Hi as [now c|now c e c1 now' c' E He Hd y yields Hrest IH]; intros fuel s -> -> ->.
  - intros Hs Ht Hf Hf0 Hv Ha. destruct fuel as [|fuel]; [lia|]. cbn [skip_loop].
    destruct (readbytes_answered 1 [v] c2 s) as (s1 & E1 & R1 & Ec1 & Ed & _); [done|lia|done..|].
    rewrite (bind_Ret _ _ _ _ _ E1). destruct (Z.ltb_spec 0 0); [lia|]. unfold bind, scratch_read, lift. rewrite Ed. cbn [map app].
    rewrite (u8_id v), (mem_read_mid _ [] [v] (zdrop 1 (h_data s))) by (done || lia).
    cbn [list_find]. rewrite decide_True by lia. by exists s1.
  - intros Hs Ht Hf Hf0 Hv Ha. destruct fuel as [|fuel]; [lia|]. cbn [skip_loop].
    destruct (readbytes_timed 1 [0xff] e c1 s) as (s1 & E1 & R1 & Ec1 & Ed & Ex & En); [done|lia|done..|].
    rewrite (bind_Ret _ _ _ _ _ E1). destruct (Z.ltb_spec 0 0); [lia|]. rewrite Z.max_r in En by lia.
    rewrite (bind_Ret _ _ s1 [255] s1) by (unfold scratch_read, lift; rewrite Ed; by rewrite (mem_read_mid _ [] [u8 255] (zdrop 1 (h_data s)))).
    cbn [list_find]. rewrite decide_False by lia. cbn [fmap option_fmap option_map].
    rewrite (bind_Ret _ _ s1 (jiffies s1) s1) by done. unfold jiffies. rewrite En. destruct (Z.ltb_spec (start + timeout) ((h_now s + e) / tick)); [lia|].
    assert (h_now s + e < (start + timeout + 1) * tick) as Hlt by (pose proof (Z.mul_succ_div_gt (h_now s + e) tick Ht); nia). fold yields. destruct yields eqn:Ey.
    + set (s2 := after_call Schedule y.2 (a_elapsed y.1) s1).
      rewrite (bind_Ret _ _ s1 tt s2) by (unfold spi_do, spi_ask, bind; rewrite Ec1; unfold s2, y; by destruct (react Schedule c1)).
      assert (reads s1 s2) as R2.
      { split; try done; [apply R1|cbn; lia|]. exists [Schedule]. by split; [|constructor]. }
      destruct (IH fuel s2) as (s3 & E3 & R3 & Ec3); try done.
      { by rewrite <- Ex. } { cbn. by rewrite En. } { apply R2. } { lia. } { lia. }
      exists s3. split; [exact E3|]. split; [|done]. eauto using reads_trans.
    + rewrite (bind_Ret _ _ s1 tt s1) by done.
      destruct (IH fuel s1) as (s3 & E3 & R3 & Ec3); try done.
      { by rewrite <- Ex. } { apply R1. } { lia. } { lia. }
      exists s3. split; [exact E3|]. split; [|done]. eauto using reads_trans.
Qed.

(** The last steps of a read: the block in place, the CRC compared. *)
Lemma block_crc multiple k pre d post scr hi lo s :
  block_at multiple k pre d post s -> zlen scr = 30 -> h_data s = scr ++ [hi; lo] -> is_byte hi -> is_byte lo ->
  exists s', (let! bad := (if use_spi_crc then
                 let! bs := block_read (Some (Mem k (zlen pre))) (zlen d) in
                 let crc := u16 (crc_itu_t 0 bs) in
                 let! hi := peek 30 in
                 let! lo := peek 31 in
                 let crc_val := Z.lor (Z.shiftl hi 8) lo in
                 scratch_write 30 (put_unaligned_le16 crc_val) ;;;
                 ret (negb (crc_val =? crc))
               else ret false) in
  if bad : bool then ret (- EILSEQ) else
  advance_rx ;;; ret 0) s
  = Ret (if use_spi_crc && negb (hi * 256 + lo =? u16 (crc_itu_t 0 d)) then - EILSEQ else 0, s') /\
  h_mem s' = h_mem s /\ h_env s' = h_env s.
Proof.
  intros B Es Ed Hhi Hlo. destruct use_spi_crc; cbn [andb].
  - unfold block_read, peek, scratch_write, lift, bind, ret. cbn [deref obind buf_read]. unfold segment.
    rewrite (bl_mem _ _ _ _ _ _ B). cbn [obind]. rewrite (mem_read_mid _ pre d post) by done. rewrite Ed.
    rewrite mem_get_skip, Es by lia. change (mem_get [hi; lo] (30 - 30)) with (Ret hi). cbv beta iota.
    rewrite Ed, mem_get_skip, Es by lia. change (mem_get [hi; lo] (31 - 30)) with (Ret lo). cbv beta iota.
    rewrite Ed, (mem_write_mid (scr ++ [hi; lo]) scr [hi; lo] []) by done.
    assert (Z.lor (Z.shiftl hi 8) lo = hi * 256 + lo) as -> by (rewrite Z.lor_comm, lor_shiftl_add by (unfold is_byte in *; lia); lia).
    destruct (negb _); [by eexists|]. unfold advance_rx, bind, get_x, put_x, gets, modify. by eexists.
  - unfold bind, ret, advance_rx, bind, get_x, put_x, gets, modify. by eexists.
Qed.

(** The bytes of the block and the CRC put together again, where they are. *)
Lemma block_realigned multiple k pre d post d0 ds hi lo x y b next scr s :
  block_at multiple k pre d post s -> zlen scr = 30 -> h_data s = scr ++ [x; y] -> 0 <= b < 8 -> is_byte next ->
  is_bytes ((d0 :: ds) ++ [hi; lo]) -> zlen (d0 :: ds) = zlen d -> late b ((d0 :: ds) ++ [hi; lo]) next = d ++ [x; y] ->
  exists s' scr', (if negb (b =? 0) then
     let! bs := block_read (Some (Mem k (zlen pre))) (zlen d) in
     let! crc := scratch_read 30 2 in
     let bs' := realign b (d0 / 2 ^ (8 - b) * 2 ^ (8 - b)) (bs ++ crc) in
     block_write (Some (Mem k (zlen pre))) (ztake (zlen d) bs') ;;;
     scratch_write 30 (zdrop (zlen d) bs')
   else ret tt) s = Ret (tt, s') /\ block_at multiple k pre (d0 :: ds) post s' /\ zlen scr' = 30 /\
    h_data s' = scr' ++ [hi; lo] /\ h_env s' = h_env s.
Proof.
  intros B Zs Ed Hb Hn Hall El EL. destruct (Z.eqb_spec b 0) as [->|Nb]; cbn [negb].
  - exists s, scr. split; [done|]. rewrite late_0 in EL by done.
    apply app_inj_2 in EL as [-> [= -> ->]]; [|done]. done.
  - unfold block_read, scratch_read, block_write, scratch_write, lift, bind. cbn [deref obind buf_read buf_write]. unfold segment.
    rewrite (bl_mem _ _ _ _ _ _ B). cbn [obind]. rewrite (mem_read_mid _ pre d post) by done.
    rewrite Ed, (mem_read_mid (scr ++ [x; y]) scr [x; y] []), <- EL, <- app_comm_cons, realign_late by (done || lia).
    rewrite app_comm_cons. rewrite ztake_app_length, zdrop_app_length by done.
    rewrite (bl_mem _ _ _ _ _ _ B). cbn [obind]. rewrite (mem_write_mid _ pre d post (d0 :: ds)) by (done || lia).
    cbn [obind]. cbn [h_data set_mem]. rewrite Ed, (mem_write_mid (scr ++ [x; y]) scr [x; y] [] [hi; lo]) by done.
    eexists _, scr. split; [done|]. split; [|done]. destruct B as [K1 [K2 K3] K4 K5 K6].
    split; [|by split|cbn; by rewrite K4, El| |lia].
    + split; [|apply K1]. cbn [h_data set_scratch]. rewrite zlen_app, Zs. done.
    + cbn. rewrite list_lookup_insert_eq; [done|]. by eapply lookup_lt_Some.
Qed.

(** The byte with the token arrives: at once, unless it is 0; or behind a byte of ones
    or zeros and then as many idle bytes as the timeout allows. *)
Definition token_arrives (timeout : Z) (s : mmc_spi_host) (v : Z) (c2 : C) : Prop :=
  let msg := read_msg 1 (x_cs_change (h_x s XStatus)) in
  (v <> 0 /\ answers (h_env s) msg [v] c2) \/
  (exists first e c1 now c', (first = 0xff \/ first = 0) /\ react (SpiSync msg) (h_env s) = (Answer 0 [first] e, c1) /\
     let now1 := h_now s + Z.max 0 e in let start := now1 / tick in
     idle start (start + timeout) msg now1 c1 now c' /\ answers c' msg [v] c2).

Lemma token_read timeout v c2 s (k : Z -> M mmc_spi_host Z) :
  ok s -> 0 < tick -> 0 <= timeout -> 0 <= v < 255 -> token_arrives timeout s v c2 ->
  exists s', reads s s' /\ h_env s' = c2 /\
    (let! status := mmc_spi_readbytes 1 in
     if status <? 0 then ret status else
     let! status := peek 0 in
     let! status := (if (status =? 0xff) || (status =? 0) then mmc_spi_readtoken timeout else ret status) in
     if status <? 0 then ret status else k status) s = k v s'.
Proof.
  intros Hs Ht Hto Hv [[Hn A]|(first & e & c1 & now & c' & Hf & E & Hi & A)].
  - destruct (readbytes_answered 1 [v] c2 s) as (s1 & E1 & R1 & Ec1 & Ed1 & _); [done|lia|done..|].
    exists s1. split; [done|]. split; [done|]. rewrite (bind_Ret _ _ _ _ _ E1). destruct (Z.ltb_spec 0 0); [lia|].
    rewrite (bind_Ret _ _ s1 v s1) by (unfold peek, lift; rewrite Ed1; cbn; by rewrite u8_id by lia).
    destruct (Z.eqb_spec v 255), (Z.eqb_spec v 0); try lia. cbn [orb]. unfold bind, ret. by destruct (Z.ltb_spec v 0); [lia|].
  - destruct (readbytes_timed 1 [first] e c1 s) as (s1 & E1 & R1 & Ec1 & Ed1 & Ecs1 & En1); [done|lia|done..|].
    rewrite <- En1, <- Ec1, <- Ecs1 in Hi. rewrite <- Ecs1 in A.
    destruct (skip_loop_idle (skip_fuel timeout) (jiffies s1) timeout v c2 s1 now c' Hi) as (s2 & E2 & R2 & Ec2);
      [apply R1|done| | |done|done|].
    { unfold skip_fuel, jiffies. pose proof (Z.mul_div_le (h_now s1) tick Ht). nia. }
    { unfold skip_fuel. nia. }
    exists s2. split; [by eapply reads_trans|]. split; [done|]. rewrite (bind_Ret _ _ _ _ _ E1). destruct (Z.ltb_spec 0 0); [lia|].
    rewrite (bind_Ret _ _ s1 first s1) by (unfold peek, lift; rewrite Ed1; by destruct Hf as [-> | ->]).
    replace ((first =? 255) || (first =? 0)) with true by by destruct Hf as [-> | ->].
    assert (mmc_spi_readtoken timeout s1 = Ret (v, s2)) as E3 by exact E2.
    rewrite (bind_Ret _ _ _ _ _ E3). by destruct (Z.ltb_spec v 0); [lia|].
Qed.

(** C18. A block that a card sends [b] bits late, from none to seven: if its token comes
    behind a first byte of ones -- or the zeros some cards send first -- and then any
    number of idle bytes within the timeout, or comes at once and is not in a byte of
    zeros, the block is put where the request wants it exactly as sent, with nothing
    around it changed, and its CRC is the one that is compared; the block is refused
    only for a CRC that differs.  (A first byte of zeros that holds the token already
    is taken for an idle one; the other bytes are.) *)
Theorem readblock_realigns multiple k pre old post data hi lo b next e c2 c3 timeout s :
  block_at multiple k pre old post s -> zlen data = zlen old -> 0 < zlen data -> is_bytes data -> is_byte hi -> is_byte lo -> is_byte next ->
  0 <= b < 8 -> zlen e = (if multiple then 1 else 0) -> 0 < tick -> 0 <= timeout ->
  token_arrives timeout s (token_byte b (hd 0 data)) c2 ->
  answers c2 (block_msg multiple (zlen old)) (late b (data ++ [hi; lo]) next ++ e) c3 ->
  exists s', mmc_spi_readblock timeout s
             = Ret (if use_spi_crc && negb (hi * 256 + lo =? u16 (crc_itu_t 0 data)) then - EILSEQ else 0, s') /\
    h_mem s' !! k = Some (pre ++ data ++ post) /\ h_env s' = c3.
Proof.
  intros B El Hl Hd Hhi Hlo Hn Hb He Ht Hto A2 A3.
  destruct data as [|d0 ds]; [unfold zlen in Hl; cbn in Hl; lia|]. cbn [hd] in A2. set (data := d0 :: ds) in *.
  assert (is_byte d0) as Hd0 by by apply Forall_cons in Hd as [].
  destruct (token_found b d0 Hb Hd0) as (T1 & T2 & T3).
  unfold mmc_spi_readblock. rewrite (bind_Ret _ _ s (h_x s XT) s) by done. rewrite (bl_x _ _ _ _ _ _ B). cbn [block_x x_rx x_len].
  edestruct (token_read timeout (token_byte b d0) c2 s) as (s2 & R2 & Ec2 & E2); [apply B|done..|]. rewrite E2. clear E2.
  destruct (token_shift 8 7 (token_byte b d0)) as [b' st]. cbn [fst snd] in T1, T2. subst b'. rewrite T2.
  pose proof (block_at_reads _ _ _ _ _ _ _ B R2) as B2.
  rewrite (bind_Ret _ _ s2 (h_m s2) s2) by done.
  set (L := late b (data ++ [hi; lo]) next) in *.
  assert (is_bytes (data ++ [hi; lo])) as Hall by (apply is_bytes_app; [done|constructor; [done|constructor; [done|constructor]]]).
  assert (is_bytes L) as HL by (by apply late_bytes; [lia|..]).
  assert (zlen L = zlen old + 2) as ZL by (unfold L; rewrite zlen_late, zlen_app, El; done).
  destruct (split_at (zlen old) L) as (d & c & EL & Zd & Zc); [pose proof (zlen_nonneg old); lia|].
  destruct c as [|x [|y [|]]]; try (unfold zlen in *; cbn in *; lia).
  rewrite EL in HL. apply Forall_app in HL as [Hd' Hc]. apply Forall_cons in Hc as [Hx Hc]. apply Forall_cons in Hc as [Hy _].
  rewrite EL, <- app_assoc, <- Ec2 in A3.
  destruct (block_received multiple k pre old post d x y e c3 s2) as (s3 & scr & E3 & Ec3 & Zs & Ed3 & B3); [done..|].
  rewrite (bind_Ret _ _ _ _ _ E3).
  destruct (block_realigned multiple k pre d post d0 ds hi lo x y b next scr s3) as (s4 & scr' & E4 & B4 & Zs4 & Ed4 & Ec4); [done..|by rewrite Zd|done|].
  fold data in B4. rewrite Zd in E4. rewrite (bind_Ret _ _ _ _ _ E4).
  destruct (block_crc _ _ _ _ _ _ _ _ _ B4 Zs4 Ed4 Hhi Hlo) as (s5 & E5 & Em5 & Ec5).
  rewrite El in E5. exists s5. split; [exact E5|]. rewrite Em5, Ec5, Ec4. split; [apply (bl_mem _ _ _ _ _ _ B4)|done].
Qed.

(** ** A response *)
Lemma peek_at s A x B i : h_data s = A ++ x :: B -> i = zlen A -> peek i s = Ret (x, s).
Proof.
  intros E ->. unfold peek, lift. rewrite E, mem_get_skip by lia. by rewrite Z.sub_diag.
Qed.
Lemma skip_bytes_run k n byte cp s A x B :
  h_data s = A ++ replicate n byte ++ x :: B -> cp = zlen A -> x <> byte -> (n < k)%nat ->
  skip_bytes k byte cp s = Ret (cp + Z.of_nat n, s).
Proof.
  revert k cp A. induction n as [|n IH]; intros [|k] cp A E Ec Hx Hk; try lia; cbn [skip_bytes replicate app] in *.
  - rewrite (bind_Ret _ _ _ _ _ (peek_at _ _ _ _ _ E Ec)). destruct (Z.eqb_spec x byte); [done|]. unfold ret. do 2 f_equal. lia.
  - rewrite (bind_Ret _ _ _ _ _ (peek_at _ _ _ _ _ E Ec)). rewrite Z.eqb_refl.
    rewrite (IH k (cp + 1) (A ++ [byte])); [do 2 f_equal; lia| |rewrite zlen_app; unfold zlen at 2; cbn; lia|done|lia].
    by rewrite E, <- app_assoc.
Qed.

Lemma land_low_high x y n : 0 <= n -> 0 <= x < 2 ^ n -> Z.land x (Z.shiftl y n) = 0.
Proof. intros Hn Hx. pose proof (lor_shiftl_add x y n Hn Hx). pose proof (Z.add_lor_land x (Z.shiftl y n)). rewrite Z.shiftl_mul_pow2 in * by done. lia. Qed.
Lemma high_byte r y : is_byte r -> 0 <= y < 256 -> Z.land (y + r * 256) 0xFF00 = r * 256.
Proof.
  intros Hr Hy. change 256 with (2 ^ 8) at 1. rewrite <- lor_shiftl_add by lia. change 0xFF00 with (Z.shiftl 255 8).
  rewrite Z.land_lor_distr_l, land_low_high, Z.lor_0_l by lia. rewrite <- Z.shiftl_land. change 255 with (Z.ones 8).
  unfold is_byte in Hr. rewrite Z.land_ones, Z.mod_small, Z.shiftl_mul_pow2 by lia. done.
Qed.

(** [b] ones in front are shifted out. *)
Lemma shift_out_run b fuel acc w :
  (b < fuel)%nat -> 0 <= w < 2 ^ (15 - Z.of_nat b) -> (b <= 7)%nat ->
  shift_out fuel acc ((2 ^ Z.of_nat b - 1) * 2 ^ (16 - Z.of_nat b) + w) = (acc + Z.of_nat b, w * 2 ^ Z.of_nat b).
Proof.
  revert fuel acc w. induction b as [|b IH]; intros [|fuel] acc w Hf Hw Hb; try lia; cbn [shift_out].
  - change ((2 ^ Z.of_nat 0 - 1) * _ + w) with w. change (2 ^ Z.of_nat 0) with 1. change (15 - Z.of_nat 0) with 15 in Hw.
    assert (Z.testbit w 15 = false) as ->.
    { destruct (decide (w = 0)) as [->|]; [apply Z.bits_0|]. apply Z.bits_above_log2; [lia|]. apply Z.log2_lt_pow2; lia. }
    f_equal; lia.
  - replace (Z.of_nat (S b)) with (Z.of_nat b + 1) in * by lia. set (n := Z.of_nat b) in *.
    assert (0 < 2 ^ n) as P1 by (apply Z.pow_pos_nonneg; lia).
    assert (0 < 2 ^ (15 - n - 1)) as P2 by (apply Z.pow_pos_nonneg; lia).
    assert (2 ^ (15 - n) = 2 * 2 ^ (15 - n - 1)) as E1 by (rewrite <- Z.pow_succ_r by lia; f_equal; lia).
    assert (2 ^ (16 - n) = 4 * 2 ^ (15 - n - 1)) as E3 by (change 4 with (2 ^ 2); rewrite <- Z.pow_add_r by lia; f_equal; lia).
    assert (2 ^ n * 2 ^ (15 - n - 1) = 16384) as E2 by (rewrite <- Z.pow_add_r by lia; replace (n + (15 - n - 1)) with 14 by lia; done).
    replace (15 - (n + 1)) with (15 - n - 1) in * by lia. replace (16 - (n + 1)) with (15 - n) by lia.
    rewrite Z.pow_add_r, E1 by lia. change (2 ^ 1) with 2. set (q := 2 ^ (15 - n - 1)) in *. set (p := 2 ^ n) in *.
    assert (Z.testbit ((p * 2 - 1) * (2 * q) + w) 15 = true) as ->.
    { apply Z.testbit_true; [lia|]. change (2 ^ 15) with 32768. replace (((p * 2 - 1) * (2 * q) + w) / 32768) with 1; [done|].
      apply Z.div_unique with ((p * 2 - 1) * (2 * q) + w - 32768); nia. }
    replace (u16 _) with ((p - 1) * 2 ^ (16 - n) + 2 * w).
    + rewrite (IH fuel (acc + 1) (2 * w)); [|lia|rewrite E1; lia|lia]. f_equal; lia.
    + unfold u16. rewrite E3, Z.shiftl_mul_pow2 by lia. change (2 ^ 1) with 2. change (2 ^ 16) with 65536.
      replace (((p * 2 - 1) * (2 * q) + w) * 2) with ((p - 1) * (4 * q) + 2 * w + 1 * 65536) by nia.
      rewrite Z.mod_add by lia. symmetry. apply Z.mod_small. nia.
Qed.

Lemma lor_byte v r : is_byte r -> Z.lor (u32 (Z.shiftl v 8)) r = u32 (v * 256) + r.
Proof.
  intros Hr. rewrite Z.shiftl_mul_pow2 by lia. change (2 ^ 8) with 256.
  assert (u32 (v * 256) = Z.shiftl (v mod 2 ^ 24) 8) as E.
  { unfold u32. change (2 ^ 32) with (2 ^ 24 * 256). rewrite Z.mul_mod_distr_r by done. by rewrite Z.shiftl_mul_pow2. }
  rewrite E, Z.lor_comm, lor_shiftl_add by (unfold is_byte in Hr; lia). rewrite Z.shiftl_mul_pow2 by lia. lia.
Qed.

Lemma r3_step i cs_on b rot cmd value cp end_ :
  r3_bytes (S i) cs_on b rot cmd value cp end_ =
  let resp := u32 (Z.shiftl (c_resp1 cmd) 8) in
  next_byte (set_resp1 resp cmd) value cp end_ (fun value cp end_ =>
    let! c := peek cp in
    if negb (b =? 0) then
      let rot := u16 (Z.lor rot (Z.shiftl c b)) in
      r3_bytes i cs_on b (u16 (Z.shiftl rot 8)) (set_resp1 (Z.lor resp (Z.shiftr rot 8)) cmd) value (cp + 1) end_
    else r3_bytes i cs_on b rot (set_resp1 (Z.lor resp c) cmd) value (cp + 1) end_).
Proof. done. Qed.

(** What a response of these bytes means. *)
Definition be_word (v0 : Z) (rs : list Z) : Z := fold_left (fun v r => u32 (v * 256) + r) rs v0.
Definition decoded (cmd : mmc_command) (rs : list Z) : mmc_command :=
  let type := mmc_spi_resp_type cmd in
  let cmd := set_cmd_error 0 (set_resp0 (hd 0 rs) cmd) in
  if type =? MMC_RSP_SPI_R2 then set_resp0 (hd 0 rs + nth 1 rs 0 * 256) cmd
  else if type =? MMC_RSP_SPI_R3 then set_resp1 (be_word 0 (tl rs)) cmd
  else cmd.
Definition resp_len (type : Z) : Z := if type =? MMC_RSP_SPI_R2 then 2 else if type =? MMC_RSP_SPI_R3 then 5 else 1.

(** The byte on the wire between two bytes of a stream that is [b] bits late. *)
Definition wire (b r r' : Z) : Z := (r mod 2 ^ b) * 2 ^ (8 - b) + r' / 2 ^ b.
Lemma late_wire b r rs next : late (8 - b) (r :: rs) next = wire b r (hd next rs) :: late (8 - b) rs next.
Proof. cbn [late]. unfold wire. by replace (8 - (8 - b)) with b by lia. Qed.
Lemma late_8 r rs next : is_bytes rs -> late (8 - 0) (r :: rs) next = rs ++ [next].
Proof.
  intros H. revert r. induction H as [|x rs Hx _ IH]; intros r; rewrite late_wire; unfold wire; change (2 ^ 0) with 1; rewrite Z.mod_1_r, Z.div_1_r; [done|].
  cbn [hd app]. f_equal. apply IH.
Qed.

Section Late.
Context (b : Z) (Hb : 1 <= b <= 7).
Lemma wire_pow : 2 ^ b * 2 ^ (8 - b) = 256 /\ 2 <= 2 ^ b /\ 2 <= 2 ^ (8 - b).
Proof.
  destruct (pow_split b ltac:(lia)) as (E & P1 & P2). split; [lia|].
  split; (apply Z.le_trans with (2 ^ 1); [done|]; apply Z.pow_le_mono_r; lia).
Qed.
Lemma wire_parts r : is_byte r -> r = r / 2 ^ b * 2 ^ b + r mod 2 ^ b /\ 0 <= r / 2 ^ b < 2 ^ (8 - b) /\ 0 <= r mod 2 ^ b < 2 ^ b.
Proof.
  intros Hr. pose proof (byte_parts (8 - b) r ltac:(lia) Hr) as H. replace (8 - (8 - b)) with b in H by lia. done.
Qed.
Lemma wire_byte r r' : is_byte r -> is_byte r' -> is_byte (wire b r r').
Proof.
  intros H1 H2. destruct wire_pow as (E & P1 & P2). destruct (wire_parts r H1) as (_ & _ & L). destruct (wire_parts r' H2) as (_ & U & _).
  unfold is_byte, wire. nia.
Qed.

(** The bits of the previous byte and those of the next one. *)
Lemma rotate_late r r' : is_byte r -> is_byte r' ->
  u16 (Z.lor (u16 (Z.shiftl (r / 2 ^ b * 2 ^ b) 8)) (Z.shiftl (wire b r r') b)) = r' / 2 ^ b * 2 ^ b + r * 256.
Proof.
  intros H1 H2. destruct wire_pow as (E & P1 & P2). destruct (wire_parts r H1) as (D & U & L). destruct (wire_parts r' H2) as (D' & U' & L').
  pose proof (wire_byte r r' H1 H2) as W. unfold is_byte in *.
  assert (u16 (Z.shiftl (r / 2 ^ b * 2 ^ b) 8) = Z.shiftl (r / 2 ^ b) (8 + b)) as ->.
  { rewrite !Z.shiftl_mul_pow2, Z.pow_add_r by lia. change (2 ^ 8) with 256. rewrite u16_id by nia. nia. }
  rewrite (Z.shiftl_mul_pow2 (wire b r r')), Z.lor_comm, lor_shiftl_add by (rewrite ?Z.pow_add_r by lia; change (2 ^ 8) with 256; nia).
  rewrite Z.pow_add_r by lia. change (2 ^ 8) with 256. unfold wire. rewrite u16_id by nia. nia.
Qed.

Lemma r3_late rs r1 cmd cs_on value cp end_ s A next post :
  is_byte r1 -> is_bytes rs -> is_byte next -> h_data s = A ++ late (8 - b) (r1 :: rs) next ++ post -> cp = zlen A -> cp + 1 + zlen rs <= end_ ->
  r3_bytes (length (r1 :: rs)) cs_on b (u16 (Z.shiftl (r1 / 2 ^ b * 2 ^ b) 8)) cmd value cp end_ s
  = response_end (set_resp1 (be_word (c_resp1 cmd) (r1 :: rs)) cmd) cs_on value s.
Proof.
  revert r1 cmd cp A. induction rs as [|r2 rs IH]; intros r1 cmd cp A H1 Hrs Hn E Ec He; rewrite late_wire in E; cbn [length] in *; rewrite r3_step;
    unfold next_byte; (destruct (Z.eqb_spec cp end_); [pose proof (zlen_nonneg (@nil Z)); rewrite ?zlen_cons in He; try pose proof (zlen_nonneg rs); lia|]);
    rewrite (bind_Ret _ _ _ _ _ (peek_at _ _ _ _ _ E Ec)); (destruct (Z.eqb_spec b 0); [lia|]); cbn [negb].
  - cbn [hd]. rewrite rotate_late by done. destruct (wire_parts next Hn) as (D & U & L). destruct wire_pow as (Ep & P1 & P2).
    rewrite Z.shiftr_div_pow2, Z.div_add, (Z.div_small (_ * _)), Z.add_0_l by (change (2 ^ 8) with 256; unfold is_byte in *; nia).
    by rewrite lor_byte.
  - apply Forall_cons in Hrs as [H2 Hrs]. cbn [hd] in *. rewrite rotate_late by done.
    destruct (wire_parts r2 H2) as (D & U & L). destruct wire_pow as (Ep & P1 & P2).
    rewrite Z.shiftr_div_pow2, Z.div_add, (Z.div_small (_ * _)), Z.add_0_l by (change (2 ^ 8) with 256; unfold is_byte in *; nia).
    rewrite lor_byte by done.
    replace (u16 (Z.shiftl (r2 / 2 ^ b * 2 ^ b + r1 * 256) 8)) with (u16 (Z.shiftl (r2 / 2 ^ b * 2 ^ b) 8)).
    + rewrite (IH r2 _ (cp + 1) (A ++ [wire b r1 r2])); [done|done|done|done| | |rewrite zlen_cons in He; lia].
      * by rewrite E, <- app_assoc.
      * rewrite zlen_app, Ec. done.
    + unfold u16. rewrite !Z.shiftl_mul_pow2 by lia. change (2 ^ 16) with 65536. change (2 ^ 8) with 256.
      replace ((r2 / 2 ^ b * 2 ^ b + r1 * 256) * 256) with (r2 / 2 ^ b * 2 ^ b * 256 + r1 * 65536) by lia. by rewrite Z.mod_add.
Qed.
End Late.

Lemma r3_plain rs cmd cs_on rot value cp end_ s A post :
  is_bytes rs -> h_data s = A ++ rs ++ post -> cp = zlen A -> cp + zlen rs <= end_ ->
  r3_bytes (length rs) cs_on 0 rot cmd value cp end_ s = response_end (set_resp1 (be_word (c_resp1 cmd) rs) cmd) cs_on value s.
Proof.
  revert cmd cp A. induction rs as [|r rs IH]; intros cmd cp A Hrs E Ec He; cbn [length r3_bytes]; [by destruct cmd|].
  apply Forall_cons in Hrs as [Hr Hrs]. rewrite zlen_cons in He. pose proof (zlen_nonneg rs). unfold next_byte. destruct (Z.eqb_spec cp end_); [lia|].
  rewrite (bind_Ret _ _ _ _ _ (peek_at _ _ _ _ _ E Ec)). change (negb (0 =? 0)) with false. cbv iota.
  rewrite lor_byte by done. rewrite (IH _ (cp + 1) (A ++ [r])); [done|done| | |lia].
  - by rewrite E, <- app_assoc.
  - rewrite zlen_app, Ec. done.
Qed.

Lemma resp_type_cases cmd : (mmc_spi_resp_type cmd = MMC_RSP_SPI_R1 \/ mmc_spi_resp_type cmd = MMC_RSP_SPI_R2 \/ mmc_spi_resp_type cmd = MMC_RSP_SPI_R3) ->
  forall (A : Type) (w x y z v : A),
  (if mmc_spi_resp_type cmd =? MMC_RSP_SPI_R1B then w else if mmc_spi_resp_type cmd =? MMC_RSP_SPI_R2 then x
   else if mmc_spi_resp_type cmd =? MMC_RSP_SPI_R3 then y else if mmc_spi_resp_type cmd =? MMC_RSP_SPI_R1 then z else v)
  = (if mmc_spi_resp_type cmd =? MMC_RSP_SPI_R2 then x else if mmc_spi_resp_type cmd =? MMC_RSP_SPI_R3 then y else z).
Proof. by intros [-> | [-> | ->]]. Qed.

(** The bytes behind the status byte, on time or late. *)
Definition behind (b : Z) (rt : list Z) (next : Z) : list Z := if b =? 0 then rt ++ [next] else late (8 - b) rt next.
Lemma after_status_late b rt next cmd cs_on value cp end_ s A post :
  (mmc_spi_resp_type cmd = MMC_RSP_SPI_R1 \/ mmc_spi_resp_type cmd = MMC_RSP_SPI_R2 \/ mmc_spi_resp_type cmd = MMC_RSP_SPI_R3) ->
  zlen rt + 1 = resp_len (mmc_spi_resp_type cmd) -> is_bytes rt -> is_byte next -> is_byte (c_resp0 cmd) -> 0 <= b <= 7 ->
  h_data s = A ++ behind b rt next ++ post -> cp = zlen A -> cp + zlen rt <= end_ ->
  after_status cs_on b (if b =? 0 then 0 else hd next rt / 2 ^ b * 2 ^ b) cmd value cp end_ s
  = response_end (decoded cmd (c_resp0 cmd :: rt)) cs_on (r1_value (c_resp0 cmd) value) s.
Proof.
  intros Ht Hl Hrt Hn H0 Hb E Ec He. unfold after_status, decoded. cbv zeta. change (mmc_spi_resp_type (set_cmd_error 0 cmd)) with (mmc_spi_resp_type cmd).
  rewrite (resp_type_cases cmd Ht). unfold resp_len in Hl. set (v := r1_value _ _). cbn [hd tl nth].
  destruct (mmc_spi_resp_type cmd =? MMC_RSP_SPI_R2); [|destruct (mmc_spi_resp_type cmd =? MMC_RSP_SPI_R3); [|by destruct cmd]].
  - destruct rt as [|r1 [|]]; try (unfold zlen in Hl; cbn in Hl; lia). apply Forall_cons in Hrt as [H1 _]. change (zlen [r1]) with 1 in He.
    unfold next_byte. destruct (Z.eqb_spec cp end_); [lia|]. unfold behind in E. destruct (Z.eqb_spec b 0) as [->|Nb]; cbn [negb].
    + cbn [app] in E. rewrite (bind_Ret _ _ _ _ _ (peek_at _ _ _ _ _ E Ec)).
      rewrite lor_shiftl_add by (unfold is_byte in H0; cbn; lia). by destruct cmd.
    + rewrite late_wire in E. cbn [app] in E. rewrite (bind_Ret _ _ _ _ _ (peek_at _ _ _ _ _ E Ec)). cbn [hd]. rewrite rotate_late by (done || lia).
      destruct (wire_parts b ltac:(lia) next Hn) as (D & U & L). destruct (wire_pow b ltac:(lia)) as (Ep & P1 & P2).
      rewrite high_byte by (try done; unfold is_byte in Hn; nia).
      pose proof (lor_shiftl_add (c_resp0 cmd) r1 8 ltac:(lia) ltac:(unfold is_byte in H0; lia)) as E2.
      rewrite Z.shiftl_mul_pow2 in E2 by lia. change (2 ^ 8) with 256 in E2.
      cbn [c_resp0 set_cmd_error]. rewrite E2. by destruct cmd.
  - unfold behind in E. destruct rt as [|r1 rt]; [unfold zlen in Hl; cbn in Hl; lia|].
    assert (length (r1 :: rt) = 4%nat) as El by (unfold zlen in Hl; lia). rewrite <- El. destruct (Z.eqb_spec b 0) as [->|Nb].
    + rewrite <- app_assoc in E. rewrite (r3_plain _ _ _ _ _ _ _ _ A ([next] ++ post)); [by destruct cmd|done..].
    + apply Forall_cons in Hrt as [H1 Hrt]. cbn [hd]. rewrite zlen_cons in He.
      rewrite (r3_late b ltac:(lia) rt r1 _ _ _ _ _ _ A next post); [by destruct cmd|done..|lia].
Qed.

Lemma checkstatus_plain rt r0 next A post cmd cs_on value cp end_ s :
  (mmc_spi_resp_type cmd = MMC_RSP_SPI_R1 \/ mmc_spi_resp_type cmd = MMC_RSP_SPI_R2 \/ mmc_spi_resp_type cmd = MMC_RSP_SPI_R3) ->
  1 + zlen rt = resp_len (mmc_spi_resp_type cmd) -> is_byte r0 -> r0 < 128 -> is_bytes rt -> is_byte next ->
  h_data s = A ++ r0 :: behind 0 rt next ++ post -> cp = zlen A -> cp + 1 + zlen rt <= end_ ->
  checkstatus cs_on cmd value cp end_ s = response_end (decoded cmd (r0 :: rt)) cs_on (r1_value r0 value) s.
Proof.
  intros Ht Hl H0 H1 Hrt Hn E Ec He. unfold checkstatus. rewrite (bind_Ret _ _ _ _ _ (peek_at _ _ _ _ _ E Ec)).
  assert (Z.testbit r0 7 = false) as ->.
  { destruct (decide (r0 = 0)) as [->|]; [apply Z.bits_0|]. unfold is_byte in H0. apply Z.bits_above_log2; [lia|]. apply Z.log2_lt_pow2; lia. }
  pose proof (after_status_late 0 rt next (set_resp0 r0 cmd) cs_on value (cp + 1) end_ s (A ++ [r0]) post) as L.
  change (if 0 =? 0 then 0 else _) with 0 in L. rewrite L; [by destruct cmd|done|by rewrite Z.add_comm|done..|lia| | |lia].
  - by rewrite E, <- app_assoc.
  - by rewrite zlen_app, Ec.
Qed.

Lemma checkstatus_late b rt r0 next A post cmd cs_on value cp end_ s :
  1 <= b <= 7 ->
  (mmc_spi_resp_type cmd = MMC_RSP_SPI_R1 \/ mmc_spi_resp_type cmd = MMC_RSP_SPI_R2 \/ mmc_spi_resp_type cmd = MMC_RSP_SPI_R3) ->
  1 + zlen rt = resp_len (mmc_spi_resp_type cmd) -> is_byte r0 -> r0 < 128 -> is_bytes rt -> is_byte next ->
  h_data s = A ++ wire b 0xff r0 :: behind b (r0 :: rt) next ++ post -> cp = zlen A -> cp + 2 + zlen rt <= end_ ->
  checkstatus cs_on cmd value cp end_ s = response_end (decoded cmd (r0 :: rt)) cs_on (r1_value r0 value) s.
Proof.
  intros Hb Ht Hl H0 H1 Hrt Hn E Ec He. pose proof (zlen_nonneg rt). unfold checkstatus. rewrite (bind_Ret _ _ _ _ _ (peek_at _ _ _ _ _ E Ec)).
  destruct (wire_pow b Hb) as (Ep & P1 & P2). destruct (wire_parts b Hb 255 ltac:(by split)) as (Df & Uf & Lf).
  destruct (wire_parts b Hb r0 H0) as (D0 & U0 & L0). set (r1 := hd next rt). assert (is_byte r1) as Hr1 by by apply hd_byte.
  destruct (wire_parts b Hb r1 Hr1) as (D1 & U1 & L1). pose proof (wire_byte b Hb 255 r0 ltac:(by split) H0) as W.
  pose proof (wire_byte b Hb r0 r1 H0 Hr1) as W1. unfold is_byte in *.
  assert (255 mod 2 ^ b = 2 ^ b - 1) as F by (symmetry; apply Z.mod_unique with (2 ^ (8 - b) - 1); nia).
  assert (wire b 255 r0 = (2 ^ b - 1) * 2 ^ (8 - b) + r0 / 2 ^ b) as Ew by (unfold wire; by rewrite F).
  assert (Z.testbit (wire b 255 r0) 7 = true) as ->.
  { apply Z.testbit_true; [lia|]. change (2 ^ 7) with 128. replace (wire b 255 r0 / 128) with 1; [done|].
    apply Z.div_unique with (wire b 255 r0 - 128); [nia|lia]. }
  unfold next_byte. destruct (Z.eqb_spec (cp + 1) end_); [lia|].
  assert (h_data s = (A ++ [wire b 255 r0]) ++ wire b r0 r1 :: late (8 - b) rt next ++ post) as E'.
  { rewrite E, <- app_assoc. unfold behind. destruct (Z.eqb_spec b 0); [lia|]. by rewrite late_wire. }
  assert (cp + 1 = zlen (A ++ [wire b 255 r0])) as Zc by by rewrite zlen_app, Ec.
  rewrite (bind_Ret _ _ _ _ _ (peek_at _ _ _ _ _ E' Zc)).
  assert (Z.lor (u16 (Z.shiftl (wire b 255 r0) 8)) (wire b r0 r1) = (2 ^ b - 1) * 2 ^ (16 - b) + (r0 * 2 ^ (8 - b) + r1 / 2 ^ b)) as ->.
  { rewrite u16_id by (rewrite Z.shiftl_mul_pow2 by lia; change (2 ^ 8) with 256; lia).
    rewrite Z.lor_comm, lor_shiftl_add by lia. replace (16 - b) with (8 - b + 8) by lia. rewrite Z.pow_add_r by lia.
    change (2 ^ 8) with 256. rewrite Ew. unfold wire. nia. }
  assert (Z.of_nat (Z.to_nat b) = b) as Eb by lia. pose proof (shift_out_run (Z.to_nat b) 16 0 (r0 * 2 ^ (8 - b) + r1 / 2 ^ b)) as S.
  rewrite Eb in S. rewrite S; [|lia| |lia]; [|replace (15 - b) with (8 - b + 7) by lia; rewrite Z.pow_add_r by lia; change (2 ^ 7) with 128; nia].
  rewrite Z.add_0_l. replace ((r0 * 2 ^ (8 - b) + r1 / 2 ^ b) * 2 ^ b) with (r1 / 2 ^ b * 2 ^ b + r0 * 256) by nia.
  rewrite Z.shiftr_div_pow2, Z.div_add, (Z.div_small (_ * _)), Z.add_0_l by (change (2 ^ 8) with 256; nia).
  replace (u8 _) with (r1 / 2 ^ b * 2 ^ b) by (unfold u8; change (2 ^ 8) with 256; rewrite Z.mod_add by lia; symmetry; apply Z.mod_small; nia).
  pose proof (after_status_late b rt next (set_resp0 r0 cmd) cs_on value (cp + 1 + 1) end_ s ((A ++ [wire b 255 r0]) ++ [wire b r0 r1]) post) as L.
  destruct (Z.eqb_spec b 0); [lia|]. fold r1 in L. rewrite L; [by destruct cmd|done|by rewrite Z.add_comm|done..|lia| | |lia].
  - rewrite E'. unfold behind. destruct (Z.eqb_spec b 0); [lia|]. by rewrite <- !app_assoc.
  - rewrite zlen_app, <- Zc. done.
Qed.

Lemma response_in_message rs b n A next post cmd cs_on s :
  (mmc_spi_resp_type cmd = MMC_RSP_SPI_R1 \/ mmc_spi_resp_type cmd = MMC_RSP_SPI_R2 \/ mmc_spi_resp_type cmd = MMC_RSP_SPI_R3) ->
  zlen rs = resp_len (mmc_spi_resp_type cmd) -> is_bytes rs -> is_byte next -> hd 0 rs < 128 -> 0 <= b <= 7 ->
  h_data s = A ++ replicate n 0xff ++ late (8 - b) (0xff :: rs) next ++ post -> zlen A = 8 ->
  8 + Z.of_nat n + zlen rs + 1 <= x_len (h_x s XT) ->
  mmc_spi_response_get cmd cs_on s = response_end (decoded cmd rs) cs_on (r1_value (hd 0 rs) 0) s.
Proof.
  intros Ht Hl Hrs Hn Hr0 Hb E HA He. unfold mmc_spi_response_get. rewrite (bind_Ret _ _ s (h_x s XT) s) by done.
  set (end_ := x_len (h_x s XT)) in *. destruct rs as [|r0 rt].
  { unfold resp_len in Hl. change (zlen []) with 0 in Hl. repeat case_match; lia. }
  apply Forall_cons in Hrs as [H0 Hrt]. cbn [hd] in *. rewrite zlen_cons in *. pose proof (zlen_nonneg rt).
  assert (exists x, late (8 - b) (255 :: r0 :: rt) next = x :: behind b (if b =? 0 then rt else r0 :: rt) next /\ x <> 255 /\
    (b = 0 -> x = r0) /\ (b <> 0 -> x = wire b 255 r0)) as (x & EL & Hx & Hx0 & Hx1).
  { unfold behind. destruct (Z.eqb_spec b 0) as [->|Nb].
    - exists r0. rewrite late_8 by (by constructor). split; [done|]. split; [lia|]. by split.
    - exists (wire b 255 r0). rewrite late_wire. split; [done|]. split; [|by split].
      destruct (wire_pow b ltac:(lia)) as (Ep & P1 & P2). destruct (wire_parts b ltac:(lia) 255 ltac:(by split)) as (D & U & L).
      unfold wire. unfold is_byte in H0.
      assert (r0 / 2 ^ b < 2 ^ (8 - b) - 1) by (apply Z.div_lt_upper_bound; nia). nia. }
  rewrite EL in E.
  assert (skip_bytes (Z.to_nat (end_ - 8)) 255 8 s = Ret (8 + Z.of_nat n, s)) as Es by (eapply skip_bytes_run; [exact E|lia|done|lia]).
  rewrite (bind_Ret _ _ _ _ _ Es).
  destruct (Z.eqb_spec (8 + Z.of_nat n) end_); [lia|].
  assert (h_data s = (A ++ replicate n 255) ++ x :: behind b (if b =? 0 then rt else r0 :: rt) next ++ post) as E' by (by rewrite E, <- app_assoc).
  assert (8 + Z.of_nat n = zlen (A ++ replicate n 255)) as Zc by (rewrite zlen_app; unfold zlen at 2; rewrite length_replicate; lia).
  destruct (Z.eqb_spec b 0) as [->|Nb].
  - rewrite (checkstatus_plain rt r0 next (A ++ replicate n 255) post) by (done || lia || by rewrite <- Hx0). done.
  - rewrite (checkstatus_late b rt r0 next (A ++ replicate n 255) post) by (done || lia || by rewrite <- Hx1). done.
Qed.

(** The message of a block read ends with the first byte of the response. *)
Lemma first_byte cmd cs_on r0 A post s :
  is_byte r0 -> r0 < 128 -> h_data s = A ++ r0 :: post -> zlen A = 8 -> x_len (h_x s XT) = 9 ->
  mmc_spi_response_get cmd cs_on s = after_status cs_on 0 0 (set_resp0 r0 cmd) 0 9 9 s.
Proof.
  intros H0 H0' E HA Hx. unfold mmc_spi_response_get. rewrite (bind_Ret _ _ s (h_x s XT) s) by done. rewrite Hx.
  assert (skip_bytes (Z.to_nat (9 - 8)) 255 8 s = Ret (8, s)) as Es
    by (eapply (skip_bytes_run _ 0 255 8 s A r0 post); [exact E|lia|lia|lia]).
  rewrite (bind_Ret _ _ _ _ _ Es). change (8 =? 9) with false. cbv iota. unfold checkstatus.
  rewrite (bind_Ret _ _ _ _ _ (peek_at _ _ _ _ 8 E ltac:(lia))).
  assert (Z.testbit r0 7 = false) as ->; [|done].
  destruct (decide (r0 = 0)) as [->|]; [apply Z.bits_0|]. unfold is_byte in H0. apply Z.bits_above_log2; [lia|]. apply Z.log2_lt_pow2; lia.
Qed.

(** The second byte is read on its own, and the result of that read takes the place
    of the error. *)
Lemma read_drops_command_error cmd cs_on r0 r1 A post c' s :
  ok s -> mmc_spi_resp_type cmd = MMC_RSP_SPI_R2 -> is_byte r0 -> r0 < 128 -> is_byte r1 ->
  h_data s = A ++ r0 :: post -> zlen A = 8 -> x_len (h_x s XT) = 9 ->
  answers (h_env s) (read_msg 1 (x_cs_change (h_x s XStatus))) [r1] c' ->
  exists s', reads s s' /\ h_env s' = c' /\ mmc_spi_response_get cmd cs_on s = response_end (decoded cmd [r0; r1]) cs_on 0 s'.
Proof.
  intros Hs Ht H0 H0' H1 E HA Hx Ha. rewrite (first_byte cmd cs_on r0 A post) by done.
  unfold after_status, decoded. cbv zeta. change (mmc_spi_resp_type (set_cmd_error 0 (set_resp0 r0 cmd))) with (mmc_spi_resp_type cmd).
  rewrite Ht. change (MMC_RSP_SPI_R2 =? MMC_RSP_SPI_R1B) with false. change (MMC_RSP_SPI_R2 =? MMC_RSP_SPI_R2) with true. cbv iota.
  unfold next_byte. change (9 =? 9) with true. cbv iota.
  destruct (readbytes_answered 1 [r1] c' s) as (s1 & E1 & R1 & Ec1 & Ed1 & _); [done|lia|done..|].
  rewrite (bind_Ret _ _ _ _ _ E1). destruct (Z.ltb_spec 0 0); [lia|].
  rewrite (bind_Ret _ _ s1 r1 s1) by (unfold peek, lift; rewrite Ed1; cbn; by rewrite u8_id).
  change (negb (0 =? 0)) with false. cbn [hd nth c_resp0 set_cmd_error set_resp0].
  rewrite lor_shiftl_add by (unfold is_byte in H0; lia). by exists s1.
Qed.

(** C19. How a response is decoded.  A response of one, two or five bytes that is within
    the message of its command -- as it is for every command but a block read -- may
    come up to seven bits late and behind any number of idle bytes: the command gets
    the bytes the card sent, that is the status byte, the second byte and the word in
    network order, and the error the status stands for.  The message of a block read
    ends with the first byte of the response: when that is the status, a response of
    one byte gives its error as well, but for a response of two bytes the second is
    read on its own, and the result of that read takes the place of the error, so a
    command the card refused counts as accepted. *)
Theorem response_realigned cmd cs_on s A :
  zlen A = 8 ->
  (forall rs b n next post,
     (mmc_spi_resp_type cmd = MMC_RSP_SPI_R1 \/ mmc_spi_resp_type cmd = MMC_RSP_SPI_R2 \/ mmc_spi_resp_type cmd = MMC_RSP_SPI_R3) ->
     zlen rs = resp_len (mmc_spi_resp_type cmd) -> is_bytes rs -> is_byte next -> hd 0 rs < 128 -> 0 <= b <= 7 ->
     h_data s = A ++ replicate n 0xff ++ late (8 - b) (0xff :: rs) next ++ post ->
     8 + Z.of_nat n + zlen rs + 1 <= x_len (h_x s XT) ->
     mmc_spi_response_get cmd cs_on s = response_end (decoded cmd rs) cs_on (r1_value (hd 0 rs) 0) s) /\
  (forall r0 post, is_byte r0 -> r0 < 128 -> h_data s = A ++ r0 :: post -> x_len (h_x s XT) = 9 ->
     (mmc_spi_resp_type cmd = MMC_RSP_SPI_R1 ->
        mmc_spi_response_get cmd cs_on s = response_end (decoded cmd [r0]) cs_on (r1_value r0 0) s) /\
     (forall r1 c', ok s -> mmc_spi_resp_type cmd = MMC_RSP_SPI_R2 -> is_byte r1 ->
        answers (h_env s) (read_msg 1 (x_cs_change (h_x s XStatus))) [r1] c' ->
        exists s', reads s s' /\ h_env s' = c' /\
          mmc_spi_response_get cmd cs_on s = response_end (decoded cmd [r0; r1]) cs_on 0 s')).
Proof.
  intros HA. split; [intros; by eapply response_in_message|]. intros r0 post H0 H0' E Hx. split.
  - intros Ht. rewrite (first_byte cmd cs_on r0 A post) by done. unfold after_status, decoded. cbv zeta.
    change (mmc_spi_resp_type (set_cmd_error 0 (set_resp0 r0 cmd))) with (mmc_spi_resp_type cmd). by rewrite Ht.
  - intros r1 c' Hs Ht H1 Ha. by eapply read_drops_command_error.
Qed.

(** * Writing several blocks *)
Lemma be32_take l v : get_unaligned_be32 l = Ret v -> get_unaligned_be32 (ztake 4 l) = Ret v.
Proof. destruct l as [|? [|? [|? [|]]]]; try done. Qed.

Section Write.
(** A card that accepts every block, and is ready again when it says so. *)
Context (acc : list Z) (Hcrc : use_spi_crc = true).
Definition accepting : Prop :=
  is_bytes acc /\ zlen acc = 29 /\ (exists first, get_unaligned_be32 acc = Ret first /\ data_response first = 0) /\
  existsb Z.odd (zdrop 4 acc) = true /\
  forall m c, exists e c', react (SpiSync m) c = (Answer 0 (replicate (Z.to_nat (zlen (concat (map fst m)) - 29)) 0xff ++ acc) e, c').
Context (Hacc : accepting).

Definition crc_bytes (blk : list Z) : list Z := let crc := u16 (crc_itu_t 0 blk) in [Z.shiftr crc 8; u8 crc].
Definition write_msg (blk : list Z) : list (list Z * bool) :=
  [([SPI_TOKEN_MULTI_WRITE], false); (blk, false); (crc_bytes blk, false); (replicate 29 0xff, true)].
Definition stop_msg : list (list Z * bool) := [(SPI_TOKEN_STOP_TRAN :: replicate 28 0xff, true)].

Record write_at (k : nat) (off len : Z) (s : mmc_spi_host) : Prop := WriteAt {
  wa_ok : ok s; wa_ready : ready true true s; wa_x : h_x s XT = block_x true k off len;
  wa_tok : exists sc cc, h_data s = sc ++ [SPI_TOKEN_MULTI_WRITE] ++ cc /\ zlen sc = 29 /\ zlen cc = 2 }.

(** The message of a block: what goes out, and where the answer is stored. *)
Lemma write_msg_gathers k pre blk post sc s :
  ready true true s -> h_x s XT = block_x true k (zlen pre) (zlen blk) -> h_mem s !! k = Some (pre ++ blk ++ post) ->
  h_data s = sc ++ [SPI_TOKEN_MULTI_WRITE] ++ crc_bytes blk -> zlen sc = 29 -> gather s (data_msg true true) = Ret (write_msg blk).
Proof.
  intros [_ X] HT Hk Hd Zs. cbn [data_msg app orb gather].
  rewrite HT, (X XToken), (X XCrc), (X XEarly) by (cbn; repeat constructor || done).
  cbn [block_x data_x x_tx x_len x_cs_change buf_read]. unfold segment. rewrite Hk. cbn [obind].
  rewrite (mem_read_mid (pre ++ blk ++ post) pre blk post) by done. rewrite Hd.
  rewrite (mem_read_mid (sc ++ [SPI_TOKEN_MULTI_WRITE] ++ crc_bytes blk) sc [SPI_TOKEN_MULTI_WRITE] (crc_bytes blk)) by done.
  rewrite (mem_read_mid (sc ++ [SPI_TOKEN_MULTI_WRITE] ++ crc_bytes blk) (sc ++ [SPI_TOKEN_MULTI_WRITE]) (crc_bytes blk) [])
    by (rewrite ?app_nil_r, ?zlen_app, ?Zs; done || by rewrite <- app_assoc).
  rewrite ones_read by lia. done.
Qed.
Lemma write_msg_stores k off blk sc s :
  ready true true s -> h_x s XT = block_x true k off (zlen blk) ->
  h_data s = sc ++ [SPI_TOKEN_MULTI_WRITE] ++ crc_bytes blk -> zlen sc = 29 -> is_bytes acc -> zlen acc = 29 ->
  store (data_msg true true) (map u8 (replicate (Z.to_nat (zlen (concat (map fst (write_msg blk))) - 29)) 0xff ++ acc)) s
  = Ret (set_scratch (acc ++ [SPI_TOKEN_MULTI_WRITE] ++ crc_bytes blk) s).
Proof.
  intros [_ X] HT Hd Zs Ab Al. set (rx := map u8 _).
  assert (exists fill, rx = fill ++ acc /\ zlen fill = 1 + zlen blk + 2) as (fill & Er & Zf).
  { eexists. split; [unfold rx; rewrite map_app, (map_u8_id acc) by done; reflexivity|].
    unfold zlen at 1. rewrite length_map, length_replicate. cbn [write_msg map fst concat]. rewrite !zlen_app. change (zlen [SPI_TOKEN_MULTI_WRITE]) with 1.
    change (zlen (replicate 29 255)) with 29. change (zlen (crc_bytes blk)) with 2. change (zlen (@nil Z)) with 0. pose proof (zlen_nonneg blk). lia. }
  change (data_msg true true) with [XToken; XT; XCrc; XEarly]. cbn [store].
  rewrite (X XToken) by (cbn; repeat constructor || done). cbn [data_x x_rx x_len obind].
  rewrite HT. cbn [block_x x_rx x_len obind].
  rewrite (X XCrc) by (cbn; repeat constructor || done). cbn [data_x x_rx x_len obind].
  rewrite (X XEarly) by (cbn; repeat constructor || done). cbn [data_x x_rx x_len obind].
  pose proof (zlen_nonneg blk). rewrite !zdrop_zdrop by lia. rewrite Er, zdrop_app_length by lia. rewrite ztake_all by lia.
  rewrite store_scratch; [|rewrite Hd, !zlen_app, Zs; done|lia..]. cbn [obind]. change (ztake 0 (h_data s)) with (@nil Z).
  rewrite Hd, zdrop_app_length by lia. done.
Qed.

Lemma writeblock_accepted k pre blk post timeout s :
  write_at k (zlen pre) (zlen blk) s -> h_mem s !! k = Some (pre ++ blk ++ post) ->
  exists s', mmc_spi_writeblock timeout s = Ret (0, s') /\ write_at k (zlen pre + zlen blk) (zlen blk) s' /\
    h_mem s' = h_mem s /\ h_speed s' = h_speed s /\ h_log s' = h_log s ++ [SpiSync (write_msg blk)].
Proof.
  intros [Hok [Hm Hx] HT (sc & cc & Ed & Zs & Zc)] Hk. destruct Hacc as (Ab & Al & (first & Af & Ar) & Ao & Ac).
  unfold mmc_spi_writeblock. rewrite (bind_Ret _ _ s (h_x s XT) s) by done. rewrite HT, Hcrc. cbn [block_x x_tx x_len].
  set (s1 := set_scratch (sc ++ [SPI_TOKEN_MULTI_WRITE] ++ crc_bytes blk) s).
  rewrite (bind_Ret _ _ s tt s1).
  2: { unfold block_read, lift, bind, scratch_write. cbn [deref obind buf_read]. unfold segment. rewrite Hk. cbn [obind].
       rewrite (mem_read_mid (pre ++ blk ++ post) pre blk post) by done. rewrite Ed, app_assoc.
       rewrite (mem_write_mid _ (sc ++ [SPI_TOKEN_MULTI_WRITE]) cc []) by (rewrite ?app_nil_r, ?zlen_app, ?Zs; done).
       by rewrite app_nil_r, <- app_assoc. }
  rewrite (bind_Ret _ _ s1 (h_m s) s1) by done. rewrite Hm.
  unfold bind at 1, spi_sync_locked. rewrite (write_msg_gathers k pre blk post sc s1) by done.
  destruct (Ac (write_msg blk) (h_env s1)) as (el & c' & ->). cbn [a_status a_rx a_elapsed].
  set (s2 := after_call _ _ _ s1). set (s3 := set_scratch (acc ++ [SPI_TOKEN_MULTI_WRITE] ++ crc_bytes blk) s2).
  rewrite (write_msg_stores k (zlen pre) blk sc s2) by done. fold s3.
  change (s32 0) with 0. cbv iota beta. change (negb (0 =? 0)) with false. cbv iota.
  assert (h_data s3 = acc ++ [SPI_TOKEN_MULTI_WRITE] ++ crc_bytes blk) as D3 by done.
  assert (acc = ztake 4 acc ++ zdrop 4 acc) as Eacc by (symmetry; apply ztake_zdrop).
  rewrite (bind_Ret _ _ s3 (ztake 4 acc) s3).
  2: { unfold scratch_read, lift. rewrite (mem_read_mid _ [] (ztake 4 acc) (zdrop 4 acc ++ [SPI_TOKEN_MULTI_WRITE] ++ crc_bytes blk)); [done| |done|].
       - rewrite D3, Eacc at 1. by rewrite <- app_assoc.
       - rewrite zlen_ztake; lia. }
  rewrite (bind_lift _ _ _ _ (be32_take _ _ Af)). rewrite Ar. change (negb (0 =? 0)) with false. cbv iota zeta.
  set (s4 := set_x XT (block_x true k (zlen pre + zlen blk) (zlen blk)) s3).
  rewrite (bind_Ret _ _ s3 tt s4) by (unfold advance_tx, bind, get_x, put_x, gets, modify; change (h_x s3) with (h_x s); by rewrite HT).
  rewrite (bind_Ret _ _ s4 (zdrop 4 acc) s4).
  2: { unfold scratch_read, lift. change (h_data s4) with (acc ++ [SPI_TOKEN_MULTI_WRITE] ++ crc_bytes blk).
       rewrite (mem_read_mid _ (ztake 4 acc) (zdrop 4 acc) ([SPI_TOKEN_MULTI_WRITE] ++ crc_bytes blk)); [done| | |].
       - by rewrite Eacc at 1; rewrite <- app_assoc.
       - rewrite zlen_ztake; lia.
       - rewrite zlen_zdrop; lia. }
  rewrite Ao. exists s4. split; [done|]. split; [|done]. split.
  - split; [cbn; rewrite !zlen_app, Al; done|apply Hok].
  - split; [done|]. intros n Hn HnT. cbn. rewrite decide_False by done. by apply Hx.
  - done.
  - by exists acc, (crc_bytes blk).
Qed.

(** The blocks of a segment, each in a message of its own. *)
Lemma block_loop_accepted fuel blksz timeout status d k pre content post len s :
  write_at k (zlen pre) len s -> h_mem s !! k = Some (pre ++ content ++ post) -> 0 < blksz -> zlen content < Z.of_nat fuel -> 0 <= status ->
  d_xfered d = u32 (d_xfered d) ->
  exists s' off' len' st, block_loop fuel true true blksz timeout status (zlen content) d s
    = Ret (st, Data (d_blksz d) (d_blocks d) (d_flags d) (d_timeout_ns d) (d_timeout_clks d) (d_sg d) (d_error d) (u32 (d_xfered d + zlen content)), s') /\
    0 <= st /\ write_at k off' len' s' /\ h_mem s' = h_mem s /\ h_speed s' = h_speed s /\
    h_log s' = h_log s ++ map (fun blk => SpiSync (write_msg blk)) (fragments fuel blksz content).
Proof.
  revert status d pre content len s. induction fuel as [|fuel IH]; intros status d pre content len s W Hk Hb Hf Hs Hd; [pose proof (zlen_nonneg content); lia|].
  cbn [block_loop]. destruct (Z.eqb_spec (zlen content) 0) as [E|N].
  { exists s, (zlen pre), len, status. rewrite E, Z.add_0_r, <- Hd. split; [by destruct d|]. do 4 (split; [done|]).
    cbn [fragments]. rewrite E. change (0 =? 0) with true. cbn. by rewrite app_nil_r. }
  pose proof (zlen_nonneg content). set (n := Z.min (zlen content) blksz).
  set (blk := ztake blksz content). set (rest := zdrop blksz content).
  assert (content = blk ++ rest) as Ec by (symmetry; apply ztake_zdrop).
  assert (zlen blk = n) as Zb.
  { unfold blk, n. destruct (Z.le_gt_cases (zlen content) blksz); [rewrite ztake_all; lia|rewrite zlen_ztake; lia]. }
  assert (zlen content = zlen blk + zlen rest) as Zr by (rewrite Ec at 1; apply zlen_app).
  set (s1 := set_x XT (block_x true k (zlen pre) n) s).
  assert (write_at k (zlen pre) n s1) as W1.
  { destruct W as [W1 [W2 W3] W4 W5]. split; [done| |done|done]. split; [done|]. intros m Hm HT. cbn. rewrite decide_False by done. by apply W3. }
  rewrite (bind_Ret _ _ s tt s1) by (unfold put_len, bind, get_x, put_x, gets, modify; by rewrite (wa_x _ _ _ _ W)).
  rewrite <- Zb in W1.
  destruct (writeblock_accepted k pre blk (rest ++ post) timeout s1) as (s2 & E2 & W2 & M2 & S2 & L2); [done|cbn; rewrite Hk, Ec; by rewrite <- app_assoc|].
  rewrite (bind_Ret _ _ _ _ _ E2). destruct (Z.ltb_spec 0 0); [lia|]. cbn [negb]. cbv zeta.
  replace (zlen content - n) with (zlen rest) by lia.
  destruct (IH 0 (add_xfered n d) (pre ++ blk) rest (zlen blk) s2) as (s3 & off' & len' & st & E3 & Hst & W3 & M3 & S3 & L3).
  - by rewrite zlen_app.
  - rewrite M2. cbn. rewrite Hk, Ec. by rewrite <- !app_assoc.
  - done.
  - unfold n in *. lia.
  - done.
  - cbn. unfold u32. by rewrite Z.mod_mod.
  - exists s3, off', len', st. split; [|split; [done|split; [done|]]].
    + rewrite E3. cbn [add_xfered d_blksz d_blocks d_flags d_timeout_ns d_timeout_clks d_sg d_error d_xfered].
      replace (u32 (u32 (d_xfered d + n) + zlen rest)) with (u32 (d_xfered d + zlen content)); [done|].
      unfold u32. rewrite Zplus_mod_idemp_l. f_equal. lia.
    + split; [by rewrite M3, M2|]. split; [by rewrite S3, S2|]. rewrite L3, L2. cbn [fragments].
      destruct (Z.eqb_spec (zlen content) 0); [done|]. cbn [map]. fold blk rest. change (h_log s1) with (h_log s). by rewrite <- app_assoc.
Qed.

(** Between the segments. *)
Record writing (s : mmc_spi_host) : Prop := Writing {
  wg_ok : ok s; wg_ready : ready true true s; wg_x : block_form true (h_x s XT);
  wg_tok : exists sc cc, h_data s = sc ++ [SPI_TOKEN_MULTI_WRITE] ++ cc /\ zlen sc = 29 /\ zlen cc = 2 }.
Lemma write_at_writing k off len s : write_at k off len s -> writing s.
Proof. intros [H1 H2 H3 H4]. split; [done..| |done]. by rewrite H3. Qed.

Definition done_data (d : mmc_data) (n : Z) : mmc_data :=
  Data (d_blksz d) (d_blocks d) (d_flags d) (d_timeout_ns d) (d_timeout_clks d) (d_sg d) (d_error d) (u32 (d_xfered d + n)).
Definition blocks_of (blksz : Z) (cs : list (list Z)) : list (list Z) :=
  concat (map (fun c => fragments (S (Z.to_nat (zlen c))) blksz c) cs).
Lemma blocks_concat blksz cs : 0 < blksz -> concat (blocks_of blksz cs) = concat cs.
Proof.
  intros Hb. unfold blocks_of. induction cs as [|c cs IH]; cbn [map concat]; [done|].
  rewrite concat_app, IH, fragments_concat by (unfold zlen; lia). done.
Qed.

Lemma sg_loop_accepted blksz timeout d k cs s :
  writing s -> 0 < blksz -> (forall i c, cs !! i = Some c -> exists rest, h_mem s !! (k + i)%nat = Some (c ++ rest)) ->
  d_xfered d = u32 (d_xfered d) ->
  exists s', sg_loop true true blksz timeout k (map zlen cs) d s = Ret (done_data d (zlen (concat cs)), s') /\
    writing s' /\ h_mem s' = h_mem s /\ h_speed s' = h_speed s /\
    h_log s' = h_log s ++ map (fun blk => SpiSync (write_msg blk)) (blocks_of blksz cs).
Proof.
  revert d k s. induction cs as [|c cs IH]; intros d k s W Hb Hc Hd; cbn [map sg_loop].
  { exists s. unfold done_data, ret. rewrite Z.add_0_r, <- Hd. split; [by destruct d|]. do 3 (split; [done|]). cbn. by rewrite app_nil_r. }
  destruct (Hc 0%nat c eq_refl) as (rest & Hk). rewrite Nat.add_0_r in Hk.
  destruct W as [W1 [W2 W2'] (F1 & F2 & F3) W4]. rewrite (bind_Ret _ _ s (h_x s XT) s) by done. cbv zeta.
  set (s1 := set_x XT (block_x true k 0 (x_len (h_x s XT))) s).
  rewrite (bind_Ret _ _ s tt s1) by (unfold put_x, modify; by rewrite F1, F2, F3).
  assert (write_at k 0 (x_len (h_x s XT)) s1) as A1.
  { split; [done| |done|done]. split; [done|]. intros m Hm HT. cbn. rewrite decide_False by done. by apply W2'. }
  destruct (block_loop_accepted (S (Z.to_nat (zlen c))) blksz timeout 0 d k [] c rest _ s1 A1) as (s2 & off' & len' & st & E2 & Hst & A2 & M2 & S2 & L2);
    [done|done|unfold zlen; lia|done|done|].
  rewrite (bind_Ret _ _ _ _ _ E2). destruct (Z.ltb_spec st 0); [lia|].
  destruct (IH (done_data d (zlen c)) (S k) s2) as (s3 & E3 & W3 & M3 & S3 & L3).
  - by eapply write_at_writing.
  - done.
  - intros i c' Hi. destruct (Hc (S i) c' Hi) as (rest' & Hr). exists rest'. rewrite M2. cbn. by rewrite Nat.add_succ_r in Hr.
  - cbn. unfold u32. by rewrite Z.mod_mod.
  - exists s3. split; [|split; [done|split; [by rewrite M3, M2|split; [by rewrite S3, S2|]]]].
    + unfold done_data at 1 in E3. cbn [d_blksz d_blocks d_flags d_timeout_ns d_timeout_clks d_sg d_error d_xfered] in E3. rewrite E3.
      unfold done_data. cbn [d_blksz d_blocks d_flags d_timeout_ns d_timeout_clks d_sg d_error d_xfered concat].
      rewrite zlen_app. unfold u32. by rewrite Zplus_mod_idemp_l, Z.add_assoc.
    + rewrite L3, L2. unfold blocks_of. cbn [map concat]. rewrite map_app. change (h_log s1) with (h_log s). by rewrite <- app_assoc.
Qed.

Lemma stop_tran_accepted timeout d s :
  writing s -> exists s', stop_tran timeout d s = Ret (d, s') /\ h_mem s' = h_mem s /\ h_log s' = h_log s ++ [SpiSync stop_msg].
Proof.
  intros [(Hd & Hok) [Hm Hx] _ _]. destruct Hacc as (Ab & Al & _ & Ao & Ac).
  assert (h_x s XEarly = data_x true XEarly) as XE by (apply Hx; [cbn; repeat constructor|done]).
  destruct (split_at 29 (h_data s)) as (sc & tail & Ed & Zs & Zt); [lia|].
  set (s1 := set_scratch ((SPI_TOKEN_STOP_TRAN :: replicate 28 255) ++ tail) (set_m [XEarly] s)).
  set (s2 := set_x XEarly (Xfer (Some (Scratch 0)) (Some (Scratch 0)) 29 0 true) s1).
  unfold stop_tran. rewrite (bind_Ret _ _ s tt (set_m [XEarly] s)) by done.
  rewrite (bind_Ret _ _ _ tt (set_scratch (replicate 29 255 ++ tail) (set_m [XEarly] s))).
  2: { unfold scratch_write. cbn [h_data set_m]. by rewrite Ed, (mem_write_mid _ [] sc tail (replicate 29 255)). }
  rewrite (bind_Ret _ _ _ tt s1).
  2: { unfold scratch_write. cbn [h_data set_scratch]. by rewrite (mem_write_mid _ [] [255] (replicate 28 255 ++ tail) [SPI_TOKEN_STOP_TRAN]). }
  rewrite (bind_Ret _ _ s1 (data_x true XEarly) s1) by (unfold get_x, gets; change (h_x s1) with (h_x s); by rewrite XE).
  rewrite (bind_Ret _ _ s1 tt s2) by done. rewrite (bind_Ret _ _ s2 [XEarly] s2) by done.
  assert (gather s2 [XEarly] = Ret stop_msg) as G.
  { cbn [gather]. replace (h_x s2 XEarly) with (Xfer (Some (Scratch 0)) (Some (Scratch 0)) 29 0 true) by done.
    cbn [x_tx x_len x_cs_change buf_read]. change (h_data s2) with ((SPI_TOKEN_STOP_TRAN :: replicate 28 255) ++ tail).
    by rewrite (mem_read_mid _ [] (SPI_TOKEN_STOP_TRAN :: replicate 28 255) tail). }
  destruct (Ac stop_msg (h_env s2)) as (el & c' & E). set (s3 := set_scratch (acc ++ tail) (after_call (SpiSync stop_msg) c' el s2)).
  rewrite (bind_Ret _ _ s2 0 s3).
  2: { unfold spi_sync_locked. rewrite G, E. cbn [a_rx a_elapsed a_status store]. change (Z.to_nat (zlen (concat (map fst stop_msg)) - 29)) with 0%nat.
       cbn [replicate app]. rewrite map_u8_id by done. set (s2' := after_call _ _ _ s2).
       replace (h_x s2' XEarly) with (Xfer (Some (Scratch 0)) (Some (Scratch 0)) 29 0 true) by done. cbn [x_rx x_len].
       rewrite ztake_all by lia. assert (h_data s2' = (SPI_TOKEN_STOP_TRAN :: replicate 28 255) ++ tail) as D by done.
       rewrite store_scratch; [|rewrite D, zlen_app, Zt, Hd; done|lia..]. cbn [obind]. change (ztake 0 (h_data s2')) with (@nil Z).
       rewrite D, zdrop_app_length by (rewrite Al; done). done. }
  destruct (Z.ltb_spec 0 0); [lia|]. rewrite (bind_Ret _ _ s3 (zdrop 2 acc) s3).
  2: { unfold scratch_read, lift. change (h_data s3) with (acc ++ tail). rewrite (mem_read_mid _ (ztake 2 acc) (zdrop 2 acc) tail); [done| | |].
       - by rewrite app_assoc, ztake_zdrop.
       - rewrite zlen_ztake; lia.
       - rewrite zlen_zdrop; lia. }
  rewrite (proj2 (existsb_exists _ _)); [by exists s3|].
  apply existsb_exists in Ao as (x & Hin & Hodd). exists x. split.
  - rewrite <- (ztake_zdrop 2 (zdrop 2 acc)). apply in_or_app. right. by rewrite zdrop_zdrop.
  - destruct (Z.eqb_spec x 0) as [->|]; done.
Qed.

Lemma setup_writing s : ok s -> exists s', mmc_spi_setup_data_message true true s = Ret (tt, s') /\ writing s' /\
  x_speed_hz (h_x s' XT) = 0 /\ h_mem s' = h_mem s /\ h_speed s' = h_speed s /\ h_log s' = h_log s.
Proof.
  intros [Hd Hok]. destruct (split_at 29 (h_data s)) as (sc & tail & Ed & Zs & Zt); [lia|].
  destruct tail as [|t0 cc]; [rewrite Hd in Zt; done|]. rewrite zlen_cons in Zt.
  unfold mmc_spi_setup_data_message, msg_add, put_x, scratch_write, bind, modify. cbn [h_data set_m orb].
  rewrite Ed, (mem_write_mid _ sc [t0] cc [SPI_TOKEN_MULTI_WRITE]) by done.
  eexists. split; [done|]. split; [|done]. split.
  - split; [|done]. cbn [h_data set_m set_x set_scratch]. rewrite !zlen_app, Zs. change (zlen [SPI_TOKEN_MULTI_WRITE]) with 1. lia.
  - split; [done|]. intros n Hn HT. apply data_msg_elem in Hn as (Hs & _). by destruct n.
  - by split.
  - exists sc, cc. split; [done|]. split; [done|lia].
Qed.
End Write.

(** C20. A write of several blocks to a card that accepts them: every segment is cut
    into blocks of the announced size, each sent once, in order, in a message of its
    token, its bytes, its CRC and 29 ones; the blocks are what the segments hold,
    the stop token follows, and the bytes transferred are counted. *)
Theorem data_do_writes acc cs d s :
  use_spi_crc = true -> accepting acc -> ok s -> h_speed s <> 0 -> d_sg d = map zlen cs ->
  (forall i c, cs !! i = Some c -> exists rest, h_mem s !! i = Some (c ++ rest)) ->
  Z.land (d_flags d) MMC_DATA_READ = 0 -> 1 < d_blocks d -> 0 < d_blksz d -> d_xfered d = 0 ->
  exists s' blocks, mmc_spi_data_do d (d_blksz d) s = Ret (done_data d (zlen (concat cs)), s') /\
    h_log s' = h_log s ++ map (fun blk => SpiSync (write_msg blk)) blocks ++ [SpiSync stop_msg] /\
    concat blocks = concat cs /\ Forall (fun blk => 0 < zlen blk <= d_blksz d) blocks /\ h_mem s' = h_mem s.
Proof.
  intros Hcrc Hacc Hok Hsp Hsg Hmem Hw Hb Hbs Hx. unfold mmc_spi_data_do. rewrite Hw. change (0 =? 0) with true.
  destruct (Z.ltb_spec 1 (d_blocks d)); [|lia]. cbn [andb].
  destruct (setup_writing s Hok) as (s1 & E1 & W1 & X1 & M1 & S1 & L1). rewrite (bind_Ret _ _ _ _ _ E1).
  rewrite (bind_Ret _ _ s1 (h_x s1 XT) s1), (bind_Ret _ _ s1 (h_speed s1) s1) by done. rewrite X1, S1. change (negb (0 =? 0)) with false. cbv iota.
  assert (exists timeout, block_timeout (h_speed s) d = Ret timeout) as [timeout Et]
    by (unfold block_timeout; destruct (Z.eqb_spec (h_speed s) 0); [done|by eexists]).
  rewrite (bind_lift _ _ _ _ Et), Hsg.
  destruct (sg_loop_accepted acc Hcrc Hacc (d_blksz d) timeout d 0 cs s1) as (s2 & E2 & W2 & M2 & S2 & L2); [done|done| |by rewrite Hx|].
  { intros i c Hi. rewrite M1. by apply Hmem. }
  rewrite (bind_Ret _ _ _ _ _ E2). destruct (stop_tran_accepted acc Hacc timeout (done_data d (zlen (concat cs))) s2 W2) as (s3 & E3 & M3 & L3).
  exists s3, (blocks_of (d_blksz d) cs). split; [done|]. split; [by rewrite L3, L2, L1, <- app_assoc|]. split; [by apply blocks_concat|].
  split; [|by rewrite M3, M2, M1]. unfold blocks_of. apply Forall_concat, Forall_map, Forall_forall. intros c _. by apply fragments_sizes.
Qed.

(** * Probe *)
(** What a probe acquires and releases, in order. *)
Definition is_resource (r : request) : bool :=
  match r with
  | Kmalloc _ | Kfree_ones | Kfree_data | MmcAllocHost | MmcFreeHost | PdataInit | PdataExit | PutPdata | SetDrvdata _
  | MmcAddHost _ | MmcRemoveHost => true
  | _ => false
  end.
Definition probe_trace (speed r : Z) (l : list request) : Prop :=
  let start := [Kmalloc 512; MmcAllocHost; SetDrvdata true; Kmalloc 32] in
  let init := match pdata with Some p => if p_init p then [PdataInit] else [] | None => [] end in
  let free := [MmcFreeHost; PutPdata; SetDrvdata false; Kfree_ones] in
  (r = 0 /\ l = start ++ init ++ [MmcAddHost (probe_caps speed)]) \/
  (r <> 0 /\ (l = [] \/ l = [Kmalloc 512; Kfree_ones] \/ l = [Kmalloc 512; MmcAllocHost; Kfree_ones] \/ l = start ++ free \/
              l = start ++ init ++ [Kfree_data] ++ free \/
              l = start ++ init ++ [MmcAddHost (probe_caps speed); MmcRemoveHost; Kfree_data] ++ free)).

Lemma spi_ask_log r s : exists a s', spi_ask r s = Ret (a, s') /\ h_log s' = h_log s ++ [r].
Proof. unfold spi_ask. destruct (react r (h_env s)) as [a c]. by eexists _, _. Qed.

(** [m] ends with a result and a log that [Q] holds of, the log so far being [l]. *)
Definition logs {A} (l : list request) (m : M mmc_spi_host A) (Q : A -> list request -> Prop) : Prop :=
  forall s, h_log s = l -> exists a s', m s = Ret (a, s') /\ Q a (h_log s').
Lemma logs_ret {A} l (a : A) (Q : A -> list request -> Prop) : Q a l -> logs l (ret a) Q.
Proof. intros H s <-. by exists a, s. Qed.
Lemma logs_bind {A B} l (m : M mmc_spi_host A) (k : A -> M mmc_spi_host B) Q :
  logs l m (fun a l' => logs l' (k a) Q) -> logs l (bind m k) Q.
Proof. intros H s Hs. destruct (H s Hs) as (a & s1 & E & H1). destruct (H1 s1 eq_refl) as (b & s2 & E2 & HQ). exists b, s2. by rewrite (bind_Ret _ _ _ _ _ E). Qed.
Lemma logs_ask l r (Q : answer -> list request -> Prop) : (forall a, Q a (l ++ [r])) -> logs l (spi_ask r) Q.
Proof. intros H s <-. destruct (spi_ask_log r s) as (a & s' & E & L). exists a, s'. rewrite L. auto. Qed.
Lemma logs_do l r (Q : unit -> list request -> Prop) : Q tt (l ++ [r]) -> logs l (spi_do r) Q.
Proof. intros H. apply logs_bind, logs_ask. intros a. by apply logs_ret. Qed.
Lemma logs_try l r (Q : Z -> list request -> Prop) : (forall v, Q v (l ++ [r])) -> logs l (spi_try r) Q.
Proof. intros H. apply logs_bind, logs_ask. intros a. by apply logs_ret. Qed.
Lemma logs_gets {A} l (g : mmc_spi_host -> A) (Q : A -> list request -> Prop) : (forall a, Q a l) -> logs l (gets g) Q.
Proof. intros H s <-. by exists (g s), s. Qed.
Lemma logs_modify l g (Q : unit -> list request -> Prop) : (forall s, h_log (g s) = h_log s) -> Q tt l -> logs l (modify g) Q.
Proof. intros Hg H s <-. exists tt, (g s). by rewrite Hg. Qed.
Lemma logs_setup l (Q : Z -> list request -> Prop) : (forall v m sp, Q v (l ++ [SpiSetup m sp])) -> logs l spi_setup Q.
Proof. intros H. apply logs_bind, logs_gets. intros m. apply logs_bind, logs_gets. intros sp. apply logs_try. auto. Qed.

Ltac logs_tac :=
  repeat match goal with
  | |- logs _ (bind _ _) _ => apply logs_bind
  | |- logs _ (ret _) _ => apply logs_ret
  | |- logs _ (spi_ask _) _ => apply logs_ask; intros ?
  | |- logs _ (spi_do _) _ => apply logs_do
  | |- logs _ (spi_try _) _ => apply logs_try; intros ?
  | |- logs _ (gets _) _ => apply logs_gets; intros ?
  | |- logs _ (modify _) _ => apply logs_modify; [done|]
  | |- logs _ (set_mode _) _ => apply logs_modify; [done|]
  | |- logs _ spi_setup _ => apply logs_setup; intros ? ? ?
  | |- logs _ (if ?b then _ else _) _ => destruct b eqn:?
  | |- logs _ (match ?x with _ => _ end) _ => destruct x eqn:?
  | |- logs _ (fail_add_host _) _ => unfold fail_add_host
  | |- logs _ (fail_glue_init _) _ => unfold fail_glue_init
  | |- logs _ (fail_nobuf1 _) _ => unfold fail_nobuf1
  | |- logs _ (nomem _) _ => unfold nomem
  | |- logs _ probe_add_host _ => unfold probe_add_host
  | |- logs _ (let _ := _ in _) _ => cbv zeta
  end.

(** Whatever fails, a probe ends with what it acquired released in the opposite
    order, but for two things: what [init] of the platform set up stays, and
    a host that could not be added is removed. *)
Lemma mmc_spi_probe_releases half_duplex s :
  exists r s' l speed, mmc_spi_probe half_duplex s = Ret (r, s') /\ h_log s' = h_log s ++ l /\ probe_trace speed r (List.filter is_resource l).
Proof.
  enough (logs (h_log s) (mmc_spi_probe half_duplex) (fun r l' => exists l, l' = h_log s ++ l /\ exists speed, probe_trace speed r (List.filter is_resource l))) as H.
  { destruct (H s eq_refl) as (r & s' & E & l & El & speed & P). by exists r, s', l, speed. }
  unfold mmc_spi_probe. logs_tac;
    (eexists; split; [rewrite <- ?app_assoc; reflexivity|]);
    (match goal with |- context [probe_caps ?x] => exists x | _ => exists 0 end); unfold probe_trace, MMC_SPI_BLOCKSIZE;
    repeat match goal with H : pdata = _ |- _ => rewrite H; clear H | H : p_init _ = _ |- _ => rewrite H; clear H end;
    cbn [app List.filter is_resource];
    repeat match goal with
    | H : negb (?x =? 0) = true |- _ => apply negb_true_iff, Z.eqb_neq in H
    | H : (?x <? 0) = true |- _ => apply Z.ltb_lt in H
    end;
    first [left; split; reflexivity|right; split; [first [done|lia]|]; tauto].
Qed.

(** * Powering up *)
(** The burst with the chip select high ends, and leaves its polarity active low --
    also on a board where it was active high. *)
Lemma initsequence_mode s :
  0 < tick -> 0 <= HZ -> (forall m c, 1 <= a_elapsed (react (SpiSync m) c).1) -> ok s ->
  exists s', mmc_spi_initsequence s = Ret (tt, s') /\ h_mode s' = Z.land (h_mode s) (Z.lnot SPI_CS_HIGH).
Proof.
  intros Ht Hz Hti Hs. unfold mmc_spi_initsequence.
  assert (forall m, Z.land (Z.lor m SPI_CS_HIGH) (Z.lnot SPI_CS_HIGH) = Z.land m (Z.lnot SPI_CS_HIGH)) as Em.
  { intros m. rewrite Z.land_lor_distr_l, (Z.land_lnot_diag SPI_CS_HIGH). apply Z.lor_0_r. }
  assert (forall mode s, ok s -> exists v s', spi_setup (set_spi mode (h_speed s) s) = Ret (v, s') /\ ok s' /\ h_mode s' = mode) as St.
  { intros mode s1 H1. destruct (cs_off_total (set_spi mode (h_speed s1) s1) H1) as (v & s2 & E & R).
    exists v, s2. split; [exact E|]. split; [apply R|by rewrite (rd_mode _ _ R)]. }
  destruct (mmc_spi_skip_total Ht Hti r1b_timeout 29 0 s Hs ltac:(lia) ltac:(unfold r1b_timeout; lia)) as (v1 & s1 & E1 & R1).
  unfold mmc_spi_wait_unbusy. rewrite (bind_Ret _ _ _ _ _ E1).
  destruct (returns_readbytes Hti 10 s1 (rd_ok _ _ R1) ltac:(lia)) as (v2 & s2 & E2 & R2). rewrite (bind_Ret _ _ _ _ _ E2).
  rewrite (bind_Ret _ _ s2 (h_mode s2) s2), (bind_Ret _ _ s2 tt (set_spi (Z.lor (h_mode s2) SPI_CS_HIGH) (h_speed s2) s2)) by done.
  destruct (St (Z.lor (h_mode s2) SPI_CS_HIGH) s2 (rd_ok _ _ R2)) as (v3 & s3 & E3 & O3 & M3). rewrite (bind_Ret _ _ _ _ _ E3).
  rewrite (bind_Ret _ _ s3 (h_mode s3) s3) by done. rewrite M3, Em, (rd_mode _ _ R2), (rd_mode _ _ R1).
  destruct (negb _); [by eexists|]. destruct (returns_readbytes Hti 18 s3 O3 ltac:(lia)) as (v4 & s4 & E4 & R4). rewrite (bind_Ret _ _ _ _ _ E4).
  rewrite (bind_Ret _ _ s4 tt (set_spi (Z.land (h_mode s) (Z.lnot SPI_CS_HIGH)) (h_speed s4) s4)) by done.
  destruct (St (Z.land (h_mode s) (Z.lnot SPI_CS_HIGH)) s4 (rd_ok _ _ R4)) as (v5 & s5 & E5 & O5 & M5). rewrite (bind_Ret _ _ _ _ _ E5). by exists s5.
Qed.
End Host.

(** * Concrete runs *)
(** A controller that plays back what it receives, a unit of time for each message. *)
Definition playback (r : request) (c : list (list Z)) : answer * list (list Z) :=
  match r, c with
  | SpiSync _, rx :: c => (Answer 0 rx 1, c)
  | SpiSync _, [] => (Answer 0 [] 1, [])
  | _, c => (Answer 0 [] 0, c)
  end.
(** A card that accepts every block, and is busy for a byte. *)
Definition accept_answer : list Z := [0xE5; 0; 0; 0; 0] ++ replicate 24 0xff.
Definition accepts (r : request) (c : unit) : answer * unit :=
  match r with
  | SpiSync m => (Answer 0 (replicate (Z.to_nat (zlen (concat (map fst m)) - 29)) 0xff ++ accept_answer) 1, tt)
  | _ => (Answer 0 [] 0, tt)
  end.
(** A checksum, in place of the CRCs. *)
Definition sum16 (c : Z) (bs : list Z) : Z := fold_left (fun a b => a + b * 257) bs c.
Definition some_host {C : Type} (c : C) (x : spi_transfer) (m : list xname) (data : list Z) (mem : list (list Z)) : mmc_spi_host :=
  Host c [] 0 MMC_POWER_ON 0 (fun n => match n with XStatus => readback_xfer | XT => x | n => data_x false n end) m data [] mem 3 400000.
Definition read_cmd : mmc_command := Cmd 17 0 MMC_RSP_SPI_R1 0 0 0.
Definition some_data (flags blocks blksz : Z) (sg : list Z) : mmc_data := Data blksz blocks flags 1000000 0 sg 0 0.

(** The card accepts the command, and sends a block with a wrong CRC. *)
Definition bad_crc_card : list (list Z) := [replicate 8 0xff ++ [0]; [0xff]; [0xfe]; [1; 2; 3; 4; 0; 0]].
Lemma mmc_spi_request_ends_witness :
  let mrq := Req read_cmd (Some (some_data MMC_DATA_READ 1 4 [4])) None in
  let s := some_host bad_crc_card no_xfer [] (replicate 32 0) [replicate 4 0] in
  (exists mrq' s' l, mmc_spi_request playback 4 sum16 sum16 Z.abs 100 true (Some 0) mrq s = Ret (mrq', s') /\
    h_log s' = [] ++ [BusLock] ++ l ++ [BusUnlock; RequestDone] /\ Forall on_bus l /\
    ok s' /\ zlen <$> h_mem s' = [4] /\ h_speed s' = 400000) /\
  mmc_spi_request playback 4 sum16 sum16 Z.abs 100 true None mrq s = Fault NullDeref.
Proof.
  intros mrq s.
  assert (forall d, r_data mrq = Some d -> data_ok (zlen <$> h_mem s) d) as Hd.
  { intros d [= <-]. split; [done|done|]. intros [|i] len; [intros [= <-]; by exists 4|done]. }
  assert (forall us, 0 <= Z.abs us) as Hu by (intros us; apply Z.abs_nonneg). split.
  - destruct (mmc_spi_request_ends playback 4 sum16 sum16 Z.abs 100 true (Some 0)) with (mrq := mrq) (s := s)
      as (locked & _ & H & _); [try done; by intros m [|]..|]. apply H. by left.
  - destruct (mmc_spi_request_ends playback 4 sum16 sum16 Z.abs 100 true None) with (mrq := mrq) (s := s)
      as (locked & E & _ & H); [try done; by intros m [|]..|]. apply H; [done|].
    injection E as <-. do 5 eexists. split; [reflexivity|]. split; [vm_compute; reflexivity|]. split; [vm_compute; reflexivity|done].
Defined.

(** A block of two bytes, three bits late behind two idle bytes, and at once. *)
Definition late_stream : list (list Z) := [[token_byte 3 0xA5]; late 3 ([0xA5; 0x3C] ++ [0xE1; 0x5B]) 0xff].
Definition late_host (c : list (list Z)) : mmc_spi_host :=
  some_host c (block_x false 0 0 2) [XT; XCrc] (replicate 32 0) [[7; 7] ++ [9]].
Lemma late_host_block c : block_at false 0 [] [7; 7] [9] (late_host c).
Proof. split; try done. split; [done|]. intros n Hn HT. apply data_msg_elem in Hn as (Hs & Ht & _). by destruct n. Qed.
Definition late_read (lead : list (list Z)) : Prop := exists s',
  mmc_spi_readblock playback 4 sum16 true 10 (late_host (lead ++ late_stream))
  = Ret (if true && negb (0xE1 * 256 + 0x5B =? u16 (sum16 0 [0xA5; 0x3C])) then - EILSEQ else 0, s') /\
  h_mem s' !! 0%nat = Some ([] ++ [0xA5; 0x3C] ++ [9]) /\ h_env s' = [].
Lemma readblock_realigns_witness : late_read [[0xff]; [0xff]] /\ late_read [].
Proof.
  assert (forall lead, lead = [[0xff]; [0xff]] \/ lead = [] -> late_read lead) as K; [intros lead Hlead|split; apply K; tauto].
  apply (readblock_realigns playback 4 sum16 true false 0 [] [7; 7] [9] [0xA5; 0x3C] 0xE1 0x5B 3 0xff [] (tail late_stream) []); try done.
  - apply late_host_block.
  - by repeat constructor.
  - destruct Hlead as [-> | ->].
    + right. exists 0xff, 1, ([0xff] :: late_stream), 2, late_stream. split; [by left|]. split; [done|]. cbv zeta. split; [|by exists 1].
      apply (idle_byte _ _ _ _ _ _ _ 1 late_stream); [done|done|done|]. apply idle_end.
    + left. split; [done|]. by exists 1.
  - by exists 1.
Defined.

(** The response to READ_OCR, five bits late. *)
Definition ocr_cmd : mmc_command := Cmd 58 0 MMC_RSP_SPI_R3 0 0 0.
Definition ocr_host : mmc_spi_host :=
  some_host (@nil (list Z)) (Xfer (Some Stack) (Some (Scratch 0)) 21 0 true) [XT]
    (replicate 8 0 ++ replicate 3 0xff ++ late (8 - 5) (0xff :: [0x01; 0x00; 0xFF; 0x80; 0x12]) 0xff ++ replicate 15 0) [].
(** And an SDIO response to a block read: illegal command, and a second byte. *)
Definition sdio_read_cmd : mmc_command := Cmd 53 0 MMC_RSP_SPI_R2 0 0 0.
Definition sdio_read_host : mmc_spi_host :=
  some_host [[0x20]] (Xfer (Some Stack) (Some (Scratch 0)) 9 0 true) [XT] (replicate 8 0xff ++ [0x04] ++ replicate 23 0) [].
Lemma response_realigned_witness :
  mmc_spi_response_get playback 4 100 ocr_cmd true ocr_host
  = response_end playback (decoded ocr_cmd [0x01; 0x00; 0xFF; 0x80; 0x12]) true (r1_value 0x01 0) ocr_host /\
  exists s', mmc_spi_response_get playback 4 100 sdio_read_cmd true sdio_read_host
             = Ret (0, decoded sdio_read_cmd [0x04; 0x20], s').
Proof.
  split.
  - apply (proj1 (response_realigned playback 4 100 ocr_cmd true ocr_host (replicate 8 0) eq_refl)
      [0x01; 0x00; 0xFF; 0x80; 0x12] 5 3%nat 0xff (replicate 15 0)); try done; try lia.
    + right. by right.
    + by repeat constructor.
  - destruct (proj2 (response_realigned playback 4 100 sdio_read_cmd true sdio_read_host (replicate 8 0xff) eq_refl) 0x04 (replicate 23 0))
      as [_ H]; [done..|].
    destruct (H 0x20 []) as (s' & _ & _ & E); [done|done|done|by exists 1|]. by exists s'.
Defined.
Example decoded_ocr : c_resp1 (decoded ocr_cmd [0x01; 0x00; 0xFF; 0x80; 0x12]) = 0x00FF8012.
Proof. done. Qed.

Definition write_data : mmc_data := some_data 0x100 3 2 [4; 2].
Definition write_host : mmc_spi_host := some_host tt no_xfer [] (replicate 32 0) [[1; 2; 3; 4]; [5; 6; 7]].
Lemma data_do_writes_witness : exists s' blocks,
  mmc_spi_data_do accepts 4 sum16 Z.abs true write_data 2 write_host = Ret (done_data write_data 6, s') /\
  h_log s' = [] ++ map (fun blk => SpiSync (write_msg sum16 blk)) blocks ++ [SpiSync stop_msg] /\
  concat blocks = [1; 2; 3; 4; 5; 6] /\ Forall (fun blk => 0 < zlen blk <= 2) blocks /\ h_mem s' = h_mem write_host.
Proof.
  apply (data_do_writes accepts 4 sum16 Z.abs true accept_answer [[1; 2; 3; 4]; [5; 6]] write_data write_host); try done.
  - split; [by repeat constructor|]. split; [done|]. split; [by exists 0xE5000000|]. split; [done|]. intros m []. by exists 1, tt.
  - intros [|[|i]] c; cbn; [intros [= <-]; by exists []|intros [= <-]; by exists [7]|done].
Defined.
