(* ===== verification/LibOta.v ===== *)
(** * Updating over the network: the library (tools/test_app/libota.c, fwinfo.c)

    The user-space tool hgota updates chips over raw Ethernet frames.  This file
    holds its library: the table of the stations that answered a scan, the frames
    it sends -- with all fields but the flags of a reboot in network order -- and
    what it does with a frame it received; and the tool's copy of the reader of
    firmware headers, which differs from the driver's (file [FwInfo]) in names
    and in one function more.

    The state is the library's, the tool's buffers and address, and the socket:
    what is received next is a script, what was sent a log.  A received frame
    overwrites the beginning of a buffer that is never cleared, and the library
    reads what it expects there whatever the length.  Messages printed for the
    user are left out. *)
From S2P Require Import Prelude Bytes CString Proto FwInfo Ota.

(** ** Firmware headers (fwinfo.c) *)
Definition fwinfo_crc16 (data : list Z) (length : Z) : outcome Z :=
  leto l := mem_read data 0 length in Ret (crc_loop 0xA001 0xffff l).
Definition fwinfo_crc32 (data : list Z) (length : Z) : outcome Z :=
  leto l := mem_read data 0 length in Ret (Z.lxor (crc_loop 0xEDB88320 0xffffffff l) 0xffffffff).

Definition fwinfo_check_fwinfo_hdr (data : option (list Z)) : outcome Z :=
  match data with
  | None => Ret (- EINVAL)
  | Some d =>
      leto b := boot_flag d in
      if negb (b =? 0x5a69) then Ret (- EINVAL) else
      leto f := fw_func_code d in
      if negb (f =? 0x2) then Ret (- EINVAL) else
      leto s := spi_func_code d in
      if negb (s =? 0x1) then Ret (- EINVAL) else Ret 0
  end.

(** Every getter gives its field and the error code. *)
Definition fwinfo_get (conv : Z -> Z) (field : list Z -> outcome Z) (data : option (list Z)) : outcome (Z * Z) :=
  leto ret := fwinfo_check_fwinfo_hdr data in
  if negb (ret =? 0) then Ret (conv (-1), ret) else
  leto d := deref data in
  leto v := field d in Ret (conv v, 0).
Definition fwinfo_get_fw_aes_en := fwinfo_get u16 mode_aes_en.
Definition fwinfo_get_fw_crc_en := fwinfo_get u16 mode_crc_en.
Definition fwinfo_get_fw_dl_addr := fwinfo_get u32 boot_to_sram_addr.
Definition fwinfo_get_fw_run_addr := fwinfo_get u32 run_sram_addr.
Definition fwinfo_get_fw_code_offset := fwinfo_get u32 boot_code_offset_addr.
Definition fwinfo_get_fw_local_crc32 := fwinfo_get u32 fw_code_crc32.
Definition fwinfo_get_fw_sdk_version := fwinfo_get u32 fw_sdk_version.
Definition fwinfo_get_fw_svn_version := fwinfo_get u32 fw_svn_version.
Definition fwinfo_get_fw_chipid := fwinfo_get u16 fw_chip_id.
Definition fwinfo_get_fw_cpuid := fwinfo_get u8 fw_cpu_id.
Definition fwinfo_get_fw_length := fwinfo_get u32 (fun d =>
  leto l := get32_at d 16 in leto o := boot_code_offset_addr d in Ret (l + o)).

Definition fwinfo_get_fw_code_checksum (data : option (list Z)) (len : Z) : outcome Z :=
  leto l := fwinfo_get_fw_local_crc32 data in
  if negb (snd l =? 0) then Ret (snd l) else
  leto o := fwinfo_get_fw_code_offset data in
  if negb (snd o =? 0) then Ret (snd o) else
  let code_len := s32 (len - fst o) in
  if code_len <? 0 then Ret (- EINVAL) else
  leto d := deref data in
  leto code := mem_read d (fst o) code_len in
  leto cur := fwinfo_crc32 code code_len in
  if negb (cur =? fst l) && negb (Z.lxor cur 0xffffffff =? fst l) then Ret (- EFAULT) else Ret 0.

(** ** Data *)
Definition OTA_STA_COUNT : nat := 32.
Definition ETH_P_OTA : Z := 0x4847.
Definition ETH_P_OTA_REBOOT : Z := 1.
Definition ETH_P_OTA_SCAN : Z := 2.
Definition ETH_P_OTA_SCAN_REPORT : Z := 3.
Definition ETH_P_OTA_FW_DATA : Z := 4.
Definition ETH_P_OTA_FW_DATA_RESPONE : Z := 5.
Definition ETH_P_OTA_FW_GET_PARAM : Z := 6.
Definition ETH_P_OTA_FW_GET_PARAM_RESP : Z := 7.
Definition ETH_P_OTA_FW_SET_PARAM : Z := 8.
Definition ETH_P_OTA_FW_SET_PARAM_RESP : Z := 9.
Definition HGIC_OTA_RESP_ERR_OK : Z := 0.
Definition HGIC_OTA_RESP_ERR_CHECKSUM : Z := 1.
Definition HGIC_OTA_RESP_ERR_WRITE : Z := 2.
Definition HGOTA_STATUS_NEW_STA : Z := 1.
Definition HGOTA_STATUS_FW_STATUS : Z := 2.
Definition HGOTA_STATUS_CONFIG_GOT : Z := 3.
Definition HGOTA_STATUS_CONFIG_UPDATED : Z := 4.

(** [struct eth_ota_hdr]: dest 0, src 6, proto 12, stype 14, status 15.  [struct
    eth_ota_scan_report]: version 16, chipid 20, svn_version 24.  [struct
    eth_ota_fw_data]: version 16, off 20, tot_len 24, len 28, checksum 30, chipid
    32, data 34, and 36 bytes by its size.  [struct eth_ota_fwparam_hdr]: len 16,
    checksum 18, param 20. *)
Definition sizeof_eth_ota_hdr : Z := 16.
Definition sizeof_eth_ota_fw_data : Z := 36.
Definition sizeof_eth_ota_fwparam : Z := 140.

Record hgota_sta := Sta {
  st_addr : list Z; st_chipid : Z; st_version : Z; st_svn_version : Z; st_online : Z; st_next_off : Z; st_param : list Z }.
Definition zero_sta : hgota_sta := Sta (replicate 6 0) 0 0 0 0 0 (replicate 140 0).
Definition set_next_off (n : Z) (s : hgota_sta) : hgota_sta :=
  Sta (st_addr s) (st_chipid s) (st_version s) (st_svn_version s) (st_online s) n (st_param s).
Definition set_param (p : list Z) (s : hgota_sta) : hgota_sta :=
  Sta (st_addr s) (st_chipid s) (st_version s) (st_svn_version s) (st_online s) (st_next_off s) p.

Record hgota_fw_info := FwImage { fi_chipid : Z; fi_version : Z; fi_svn_version : Z; fi_tot_len : Z }.

(** The library, the tool and the socket.  [ho_rx]: what each wait for a frame
    brings, nothing when used up; [ho_alloc]: what each allocation gives. *)
Record hgota := HgOta {
  ho_stas : list hgota_sta; ho_sta_count : Z;
  ho_rxbuf : list Z; ho_mac_addr : list Z;
  ho_rx : list (option (list Z)); ho_alloc : list (option (list Z)); ho_sent : list (list Z);
  ho_file : option (list hgota_sta) }.          (* /tmp/hgota.tmp *)
Definition set_stas (l : list hgota_sta) (n : Z) (h : hgota) : hgota :=
  HgOta l n (ho_rxbuf h) (ho_mac_addr h) (ho_rx h) (ho_alloc h) (ho_sent h) (ho_file h).
Definition set_rx (b : list Z) (r : list (option (list Z))) (h : hgota) : hgota :=
  HgOta (ho_stas h) (ho_sta_count h) b (ho_mac_addr h) r (ho_alloc h) (ho_sent h) (ho_file h).
Definition set_alloc (a : list (option (list Z))) (h : hgota) : hgota :=
  HgOta (ho_stas h) (ho_sta_count h) (ho_rxbuf h) (ho_mac_addr h) (ho_rx h) a (ho_sent h) (ho_file h).
Definition set_mac (m : list Z) (h : hgota) : hgota :=
  HgOta (ho_stas h) (ho_sta_count h) (ho_rxbuf h) m (ho_rx h) (ho_alloc h) (ho_sent h) (ho_file h).
Definition set_sent (l : list (list Z)) (h : hgota) : hgota :=
  HgOta (ho_stas h) (ho_sta_count h) (ho_rxbuf h) (ho_mac_addr h) (ho_rx h) (ho_alloc h) l (ho_file h).
Definition set_file (f : option (list hgota_sta)) (h : hgota) : hgota :=
  HgOta (ho_stas h) (ho_sta_count h) (ho_rxbuf h) (ho_mac_addr h) (ho_rx h) (ho_alloc h) (ho_sent h) f.

(** Network order. *)
Definition htons (v : Z) : list Z := [u8 (Z.shiftr v 8); u8 v].
Definition htonl (v : Z) : list Z := [u8 (Z.shiftr v 24); u8 (Z.shiftr v 16); u8 (Z.shiftr v 8); u8 v].
Definition ntohs (m : list Z) (off : Z) : outcome Z :=
  leto a := mem_get m off in leto b := mem_get m (off + 1) in Ret (a * 256 + b).
Definition ntohl (m : list Z) (off : Z) : outcome Z :=
  leto a := mem_get m off in leto b := mem_get m (off + 1) in leto c := mem_get m (off + 2) in leto d := mem_get m (off + 3) in
  Ret (a * 16777216 + b * 65536 + c * 256 + d).

(** ** The socket (hgota.c): the sender's address is put into the frame, which goes
    out.  Nothing in the tool looks at the result. *)
Definition raw_sock_send (data : list Z) (len : Z) : M hgota Z :=
  let! mac := gets ho_mac_addr in
  let! data := lift (mem_write data 6 mac) in
  let! bs := lift (mem_read data 0 len) in
  modify (fun h => set_sent (ho_sent h ++ [bs]) h) ;;;
  ret len.
Definition ota_malloc (n : Z) : M hgota (option (list Z)) := fun h =>
  let h' := set_alloc (tail (ho_alloc h)) h in
  match ho_alloc h with
  | [] => Ret (Some (replicate (Z.to_nat n) 0), h')
  | None :: _ => Ret (None, h')
  | Some junk :: _ => Ret (Some (resize (Z.to_nat n) 0 junk), h')
  end.

Section Library.
(** Whether [char] is signed. *)
Context (signed_char : bool).

(** ** The checksum *)
(** Words in host order, a last odd byte as a [char]. *)
Fixpoint sum_chars (l : list Z) : Z :=
  match l with
  | a :: b :: l => (a + b * 256) + sum_chars l
  | [a] => if signed_char then s8 a else a
  | [] => 0
  end.
Definition libota_check_sum (m : list Z) (off count : Z) : outcome Z :=
  leto bs := mem_read m off count in
  leto s := fold_sum 3 (sum_chars bs) in
  Ret (u16 (Z.lnot s)).

(** ** The table of stations *)
Definition libota_new_sta (stas : list hgota_sta) : option nat :=
  fst <$> list_find (fun s => st_online s = 0) stas.
Definition libota_find_sta (stas : list hgota_sta) (mac : option (list Z)) : outcome (option nat) :=
  match mac with
  | None => Ret None
  | Some mac => leto a := mem_read mac 0 6 in Ret (fst <$> list_find (fun s => st_addr s = a) stas)
  end.
(** A store to a station of the table. *)
Definition upd_sta (i : nat) (f : hgota_sta -> hgota_sta) : M hgota unit :=
  modify (fun h => set_stas (alter f i (ho_stas h)) (ho_sta_count h) h).

(** Chip, version and revision of a report. *)
Definition report_fields (report : list Z) : outcome (Z * Z * Z) :=
  leto chipid := ntohs report 20 in
  leto version := ntohl report 16 in
  leto svn := ntohl report 24 in
  Ret (chipid, s32 version, s32 svn).
Definition libota_add_sta (report : list Z) : M hgota Z :=
  let! stas := gets ho_stas in
  let! src := lift (mem_read report 6 6) in
  let! sta := lift (libota_find_sta stas (Some src)) in
  match sta with
  | Some i =>
      let! f := lift (report_fields report) in
      upd_sta i (fun s => Sta (st_addr s) (fst (fst f)) (snd (fst f)) (snd f) 1 (st_next_off s) (st_param s)) ;;;
      ret 1
  | None =>
      match libota_new_sta stas with
      | Some i =>
          let! f := lift (report_fields report) in
          upd_sta i (fun _ => Sta src (fst (fst f)) (snd (fst f)) (snd f) 1 0 (replicate 140 0)) ;;;
          modify (fun h => set_stas (ho_stas h) (ho_sta_count h + 1) h) ;;;
          ret 1
      | None => ret 0
      end
  end.

Definition libota_clear_sta : M hgota unit := modify (set_stas (replicate OTA_STA_COUNT zero_sta) 0).

Definition libota_clear_sta_nexoff (sta_mac : option (list Z)) : M hgota unit :=
  let! stas := gets ho_stas in
  let! sta := lift (libota_find_sta stas sta_mac) in
  match sta with Some i => upd_sta i (set_next_off 0) | None => ret tt end.

Definition libota_sta_nexoff (sta_mac : option (list Z)) : M hgota Z :=
  let! stas := gets ho_stas in
  let! sta := lift (libota_find_sta stas sta_mac) in
  ret (match sta with Some i => default 0 (st_next_off <$> stas !! i) | None => 0 end).

(** ** Sending *)
(** The header of a frame of [n] bytes that is otherwise [blk]. *)
Definition eth_hdr (blk dest : list Z) (stype : Z) : outcome (list Z) :=
  leto b := mem_write blk 0 dest in
  leto b := mem_write b 12 (htons ETH_P_OTA) in
  mem_write b 14 [stype].

Definition libota_reboot (sta_mac : option (list Z)) (flags : Z) : M hgota Z :=
  match sta_mac with
  | None => ret (-1)
  | Some mac =>
      let! dest := lift (mem_read mac 0 6) in
      let! reboot := lift (eth_hdr (replicate 20 0) dest ETH_P_OTA_REBOOT) in
      let! reboot := lift (mem_write reboot 16 (put_unaligned_le32 (u32 flags))) in
      raw_sock_send reboot 20
  end.

Definition libota_scan (clear : bool) : M hgota Z :=
  (if clear then libota_clear_sta else ret tt) ;;;
  let! scan := lift (eth_hdr (replicate 16 0) (replicate 6 0xff) ETH_P_OTA_SCAN) in
  raw_sock_send scan sizeof_eth_ota_hdr.

(** The fields of a data frame; [data] is the memory from the fragment on. *)
Definition fill_fw_data (fw dest : list Z) (info : hgota_fw_info) (off : Z) (data : list Z) (len : Z) : outcome (list Z) :=
  leto fw := eth_hdr fw dest ETH_P_OTA_FW_DATA in
  leto fw := mem_write fw 15 [0] in
  leto fw := mem_write fw 16 (htonl (fi_version info)) in
  leto fw := mem_write fw 24 (htonl (fi_tot_len info)) in
  leto fw := mem_write fw 20 (htonl off) in
  leto fw := mem_write fw 28 (htons len) in
  leto fw := mem_write fw 32 (htons (fi_chipid info)) in
  leto sum := libota_check_sum data 0 len in
  leto fw := mem_write fw 30 (htons sum) in
  leto bs := mem_read data 0 len in
  mem_write fw 34 bs.
Definition libota_send_fw_data (sta_mac : option (list Z)) (info : option hgota_fw_info) (off : Z) (data : option (list Z)) (len : Z)
  : M hgota Z :=
  let! stas := gets ho_stas in
  let! sta := lift (libota_find_sta stas sta_mac) in
  match data, sta_mac, info with
  | Some data, Some mac, Some info =>
      (match sta with Some i => upd_sta i (set_next_off 0) | None => ret tt end) ;;;
      let! fw := ota_malloc (sizeof_eth_ota_fw_data + len) in
      match fw with
      | None => ret 0
      | Some fw =>
          let! dest := lift (match sta with
                             | Some i => Ret (default [] (st_addr <$> stas !! i))
                             | None => mem_read mac 0 6
                             end) in
          let! fw := lift (fill_fw_data fw dest info off data len) in
          raw_sock_send fw (sizeof_eth_ota_fw_data + len)
      end
  | _, _, _ => ret 0
  end.

(** The address is not used. *)
Definition libota_query_config (sta_mac : list Z) : M hgota Z :=
  let! req := lift (eth_hdr (replicate 16 0) (replicate 6 0xff) ETH_P_OTA_FW_GET_PARAM) in
  raw_sock_send req sizeof_eth_ota_hdr.

Definition libota_update_config (sta_mac param : list Z) : M hgota Z :=
  let data_len := sizeof_eth_ota_fwparam in
  let! checksum := lift (libota_check_sum param 0 data_len) in
  let! dest := lift (mem_read sta_mac 0 6) in
  let! req := lift (eth_hdr (replicate 160 0) dest ETH_P_OTA_FW_SET_PARAM) in
  let! req := lift (mem_write req 16 (htons data_len)) in
  let! req := lift (mem_write req 18 (htons checksum)) in
  let! bs := lift (mem_read param 0 data_len) in
  let! req := lift (mem_write req 20 bs) in
  raw_sock_send req 160.

(** The result, and [param] afterwards. *)
Definition libota_sta_config (sta_mac : option (list Z)) (param : list Z) : M hgota (Z * list Z) :=
  let! stas := gets ho_stas in
  let! sta := lift (libota_find_sta stas sta_mac) in
  match sta with
  | Some i => ret (1, default param (st_param <$> stas !! i))
  | None => ret (0, param)
  end.

(** ** Receiving *)
Definition libota_rx_proc (buff : option (list Z)) (len : Z) : M hgota Z :=
  match buff with
  | None => ret 0
  | Some buff =>
      if len <=? 0 then ret 0 else
      let! stas := gets ho_stas in
      let! src := lift (mem_read buff 6 6) in
      let! sta := lift (libota_find_sta stas (Some src)) in
      let! proto := lift (ntohs buff 12) in
      if negb (proto =? ETH_P_OTA) then ret 0 else
      let! stype := lift (mem_get buff 14) in
      let! status := lift (mem_get buff 15) in
      if stype =? ETH_P_OTA_SCAN_REPORT then
        let! r := libota_add_sta buff in
        ret (if negb (r =? 0) then HGOTA_STATUS_NEW_STA else 0)
      else if stype =? ETH_P_OTA_FW_DATA_RESPONE then
        (match sta with
         | Some i =>
             if negb (status =? 0xff) then
               let! off := lift (ntohl buff 20) in
               let! n := lift (ntohs buff 28) in
               upd_sta i (set_next_off (s32 (u32 (off + n))))
             else ret tt
         | None => ret tt
         end) ;;;
        ret HGOTA_STATUS_FW_STATUS
      else if stype =? ETH_P_OTA_FW_GET_PARAM_RESP then
        let! checksum := lift (libota_check_sum buff 20 sizeof_eth_ota_fwparam) in
        let! sum := lift (ntohs buff 18) in
        match sta with
        | Some i =>
            if sum =? checksum then
              let! p := lift (mem_read buff 20 sizeof_eth_ota_fwparam) in
              upd_sta i (set_param p) ;;;
              ret HGOTA_STATUS_CONFIG_GOT
            else ret 0
        | None => ret 0
        end
      else if stype =? ETH_P_OTA_FW_SET_PARAM_RESP then
        match sta with
        | Some _ => ret (if negb (status =? 0xff) then HGOTA_STATUS_CONFIG_UPDATED else 0)
        | None => ret 0
        end
      else ret 0
  end.

(** The table is cleared; the send function is the tool's. *)
Definition libota_init : M hgota unit := modify (set_stas (replicate OTA_STA_COUNT zero_sta) 0).
End Library.

(** ** Network order *)
Lemma ntohs_prefix f rest off v : ntohs f off = Ret v -> ntohs (f ++ rest) off = Ret v.
Proof.
  unfold ntohs. intros (a & Ea & (b & Eb & [= <-])%obind_inv)%obind_inv.
  by rewrite (mem_get_prefix _ _ _ _ Ea), (mem_get_prefix _ _ _ _ Eb).
Qed.
Lemma ntohl_prefix f rest off v : ntohl f off = Ret v -> ntohl (f ++ rest) off = Ret v.
Proof.
  unfold ntohl. intros (a & Ea & (b & Eb & (c & Ec & (d & Ed & [= <-])%obind_inv)%obind_inv)%obind_inv)%obind_inv.
  by rewrite (mem_get_prefix _ _ _ _ Ea), (mem_get_prefix _ _ _ _ Eb), (mem_get_prefix _ _ _ _ Ec), (mem_get_prefix _ _ _ _ Ed).
Qed.

Lemma mem_get_byte m off : is_bytes m -> 0 <= off < zlen m -> exists b, mem_get m off = Ret b /\ is_byte b.
Proof.
  intros Hm Ho. unfold mem_get. destruct (Z.leb_spec 0 off); [|lia].
  destruct (m !! Z.to_nat off) as [b|] eqn:E; [|apply lookup_ge_None in E; unfold zlen in *; lia].
  exists b. split; [done|]. exact (proj1 (Forall_lookup is_byte m) Hm _ _ E).
Qed.
Lemma ntohs_ok m off : is_bytes m -> 0 <= off -> off + 2 <= zlen m -> exists v, ntohs m off = Ret v /\ 0 <= v < 2 ^ 16.
Proof.
  intros Hm H1 H2. unfold ntohs.
  destruct (mem_get_byte m off Hm) as (a & -> & Ha); [lia|]. destruct (mem_get_byte m (off + 1) Hm) as (b & -> & Hb); [lia|].
  eexists. split; [reflexivity|]. unfold is_byte in *. lia.
Qed.
Lemma ntohl_ok m off : is_bytes m -> 0 <= off -> off + 4 <= zlen m -> exists v, ntohl m off = Ret v /\ 0 <= v < 2 ^ 32.
Proof.
  intros Hm H1 H2. unfold ntohl.
  destruct (mem_get_byte m off Hm) as (a & -> & Ha); [lia|]. destruct (mem_get_byte m (off + 1) Hm) as (b & -> & Hb); [lia|].
  destruct (mem_get_byte m (off + 2) Hm) as (c & -> & Hc); [lia|]. destruct (mem_get_byte m (off + 3) Hm) as (d & -> & Hd); [lia|].
  eexists. split; [reflexivity|]. unfold is_byte in *. lia.
Qed.

(** ** The checksum *)
(** With a signed last byte the sum can be slightly negative; the folding ends
    all the same. *)
Definition char_checksum (signed_char : bool) (bs : list Z) : Z :=
  match fold_sum 3 (sum_chars signed_char bs) with Ret s => u16 (Z.lnot s) | Fault _ => 0 end.

Lemma sum_chars_words sc l :
  is_bytes l -> exists d, sum_chars sc l = sum_words l - d /\ (d = 0 \/ d = 256) /\ (d = 256 -> sum_words l >= 128).
Proof.
  unfold is_bytes. assert (forall n l, (length l <= n)%nat -> Forall is_byte l ->
    exists d, sum_chars sc l = sum_words l - d /\ (d = 0 \/ d = 256) /\ (d = 256 -> sum_words l >= 128)) as H;
    [|by apply (H (length l))].
  clear l. induction n as [|n IH]; intros [|a [|b l]] Hn Hl; simpl in Hn |- *; try lia; try (exists 0; lia).
  - inversion_clear Hl as [|? ? Ha _]. unfold is_byte in Ha. destruct sc; [|exists 0; lia].
    destruct (Z.lt_ge_cases a 128) as [H|H].
    + exists 0. unfold s8. rewrite Z.mod_small by lia. lia.
    + exists 256. unfold s8. replace (a + 2 ^ 7) with (a - 128 + 1 * 2 ^ 8) by lia. rewrite Z.mod_add, Z.mod_small by lia. lia.
  - inversion_clear Hl as [|? ? Ha Hl']. inversion_clear Hl' as [|? ? Hb Hl]. unfold is_byte in *.
    destruct (IH l ltac:(lia) Hl) as (d & -> & H1 & H2). exists d. lia.
Qed.

Lemma fold_sum_ends x : - 128 <= x < 2 ^ 31 -> exists s, fold_sum 3 x = Ret s /\ 0 <= s < 65536.
Proof.
  intros Hx. destruct (Z.lt_ge_cases x 0) as [H|H].
  - assert (x / 65536 = -1 /\ x mod 65536 = x + 65536) as [D E].
    { split; [symmetry; apply (Z.div_unique_pos _ _ _ (x + 65536)); lia
      |symmetry; apply (Z.mod_unique_pos _ _ (-1)); lia]. }
    exists (x + 65535). cbn [fold_sum]. rewrite !shiftr_16, land_ffff, D, E. cbn [Z.eqb].
    replace (x + 65536 + -1) with (x + 65535) by lia. rewrite (Z.div_small (x + 65535)) by lia. split; [done|lia].
  - destruct (fold_sum_spec x ltac:(lia)) as (s & E & Hs & _). by exists s.
Qed.

Lemma char_check_sum_ok sc m pre bs post off n :
  m = pre ++ bs ++ post -> off = zlen pre -> n = zlen bs -> is_bytes bs -> zlen bs <= 65535 ->
  libota_check_sum sc m off n = Ret (char_checksum sc bs).
Proof.
  intros Em Eo En Hb Hl. unfold libota_check_sum. rewrite (mem_read_mid _ pre bs post) by done. cbn [obind].
  destruct (sum_chars_words sc bs Hb) as (d & E & Hd & Hd'). pose proof (sum_words_bound bs Hb).
  destruct (fold_sum_ends (sum_chars sc bs)) as (s & Es & _); [lia|]. unfold char_checksum. by rewrite Es.
Qed.

(** ** Frames *)
Lemma htons_zlen v : zlen (htons v) = 2. Proof. done. Qed.
Lemma htonl_zlen v : zlen (htonl v) = 4. Proof. done. Qed.

(** A data frame: the last two bytes are the padding of the structure, which the
    allocation left as it was. *)
Definition fw_data_frame (sc : bool) (src dest : list Z) (info : hgota_fw_info) (off : Z) (bs pad : list Z) : list Z :=
  concat [dest; src; htons ETH_P_OTA; [ETH_P_OTA_FW_DATA]; [0]; htonl (fi_version info); htonl off; htonl (fi_tot_len info);
          htons (zlen bs); htons (char_checksum sc bs); htons (fi_chipid info); bs; pad].

(** One write into the [i]-th chunk, the sizes from the context. *)
Ltac chunk_sizes := cbn [take concat]; rewrite ?app_nil_r, ?zlen_app, ?htons_zlen, ?htonl_zlen; unfold zlen in *; cbn [length] in *; rewrite ?length_replicate; lia.
Ltac chunk_write i := erewrite (mem_write_chunk _ i); [cbn [insert list_insert obind]|reflexivity|chunk_sizes|chunk_sizes].

Lemma split_chunks (ns l : list Z) :
  Forall (fun n => 0 <= n) ns -> zlen l = foldr Z.add 0 ns ->
  exists cs, l = concat cs /\ Forall2 (fun n c => zlen c = n) ns cs.
Proof.
  intros Hns. revert l. induction Hns as [|n ns Hn Hns IH]; intros l Hl; cbn [foldr] in Hl.
  - exists []. split; [|constructor]. by destruct l; [|rewrite zlen_cons in Hl; pose proof (zlen_nonneg l); lia].
  - assert (0 <= foldr Z.add 0 ns) by (clear -Hns; induction Hns; cbn; lia).
    destruct (IH (zdrop n l)) as (cs & E & Hcs); [rewrite zlen_zdrop; lia|].
    exists (ztake n l :: cs). cbn [concat]. rewrite <- E, ztake_zdrop. split; [done|].
    constructor; [apply zlen_ztake; lia|done].
Qed.
Lemma zdrop_concat i ls n : n = zlen (concat (take i ls)) -> zdrop n (concat ls) = concat (drop i ls) :> list Z.
Proof. intros ->. rewrite <- (take_drop i ls) at 2. rewrite concat_app. by apply zdrop_app_length. Qed.
Lemma eth_hdr_chunks d m p t rest dest stype :
  zlen d = 6 -> zlen dest = 6 -> zlen m = 6 -> zlen p = 2 -> zlen t = 1 ->
  eth_hdr (concat (d :: m :: p :: t :: rest)) dest stype = Ret (concat (dest :: m :: htons ETH_P_OTA :: [stype] :: rest)).
Proof.
  intros Hd He Hm Hp Ht. unfold eth_hdr. chunk_write 0%nat. chunk_write 2%nat. chunk_write 3%nat. done.
Qed.
Lemma raw_sock_send_chunks d m rest n h :
  zlen d = 6 -> zlen m = 6 -> zlen (ho_mac_addr h) = 6 -> n = zlen (concat (d :: m :: rest)) ->
  raw_sock_send (concat (d :: m :: rest)) n h
  = Ret (n, set_sent (ho_sent h ++ [concat (d :: ho_mac_addr h :: rest)]) h).
Proof.
  intros Hd Hm Hmac ->. unfold raw_sock_send, bind at 1, gets. unfold bind at 1, lift at 1. chunk_write 1%nat.
  erewrite bind_lift; [reflexivity|]. erewrite (mem_read_mid _ [] _ []); [reflexivity|by rewrite app_nil_r|done|].
  cbn [concat]. rewrite !zlen_app. lia.
Qed.

(** *** The table *)
Definition find_addr (stas : list hgota_sta) (a : list Z) : option nat := fst <$> list_find (fun s => st_addr s = a) stas.

Lemma find_sta_eq stas mac : 6 <= zlen mac -> libota_find_sta stas (Some mac) = Ret (find_addr stas (ztake 6 mac)).
Proof. intros H. unfold libota_find_sta. by rewrite mem_read_ok, zdrop_0 by lia. Qed.
Lemma find_addr_Some stas a i :
  find_addr stas a = Some i <-> exists s, stas !! i = Some s /\ st_addr s = a /\ forall j t, stas !! j = Some t -> (j < i)%nat -> st_addr t <> a.
Proof.
  unfold find_addr. split.
  - intros ([k s] & E & [= <-])%fmap_Some_1. apply list_find_Some in E as (H1 & H2 & H3). exists s.
    split; [done|]. split; [done|]. intros j t. apply H3.
  - intros (s & H1 & H2 & H3). apply fmap_Some. exists (i, s). split; [|done]. apply list_find_Some. naive_solver.
Qed.
Lemma find_addr_None stas a : find_addr stas a = None <-> a ∉ (st_addr <$> stas).
Proof.
  unfold find_addr. rewrite fmap_None, list_find_None, Forall_forall, list_elem_of_fmap. naive_solver.
Qed.

(** The first thing a sent fragment does to the table. *)
Definition reset_sta (mac : list Z) (h : hgota) : hgota :=
  match find_addr (ho_stas h) (ztake 6 mac) with
  | Some i => set_stas (alter (set_next_off 0) i (ho_stas h)) (ho_sta_count h) h
  | None => h
  end.

Lemma fill_fw_data_ok sc fw dest info off data n :
  zlen fw = 36 + n -> zlen dest = 6 -> is_bytes data -> 0 <= n <= 65535 -> n <= zlen data ->
  exists src, zlen src = 6 /\
    fill_fw_data sc fw dest info off data n = Ret (fw_data_frame sc src dest info off (ztake n data) (zdrop (34 + n) fw)).
Proof.
  intros Hf Hd Hb Hn Hl.
  assert (zlen (ztake n data) = n) as Hz by (apply zlen_ztake; lia).
  assert (libota_check_sum sc data 0 n = Ret (char_checksum sc (ztake n data))) as Hc.
  { apply (char_check_sum_ok _ _ [] (ztake n data) (zdrop n data)); [cbn; by rewrite ztake_zdrop|done|done|by apply is_bytes_take|lia]. }
  destruct (split_chunks [6; 6; 2; 1; 1; 4; 4; 4; 2; 2; 2; n; 2] fw) as (cs & -> & Hcs); [repeat constructor; lia|cbn; lia|].
  repeat match goal with H : Forall2 _ (_ :: _) _ |- _ => inversion_clear H end.
  match goal with H : Forall2 _ [] _ |- _ => inversion_clear H end. subst.
  match goal with |- context [concat (?d :: ?s :: _)] => exists s; split; [done|] end.
  unfold fill_fw_data. rewrite Hc. rewrite mem_read_ok, zdrop_0 by lia.
  rewrite eth_hdr_chunks by done. cbn [obind].
  chunk_write 4%nat. chunk_write 5%nat. chunk_write 7%nat. chunk_write 6%nat. chunk_write 8%nat. chunk_write 10%nat.
  chunk_write 9%nat. chunk_write 11%nat. unfold fw_data_frame. rewrite Hz.
  rewrite (zdrop_concat 12) by chunk_sizes. cbn [drop concat app]. rewrite !app_nil_r. reflexivity.
Qed.

Lemma reset_sta_same mac h :
  ho_mac_addr (reset_sta mac h) = ho_mac_addr h /\ ho_sent (reset_sta mac h) = ho_sent h /\
  ho_alloc (reset_sta mac h) = ho_alloc h /\ ho_rx (reset_sta mac h) = ho_rx h /\ ho_rxbuf (reset_sta mac h) = ho_rxbuf h /\
  ho_sta_count (reset_sta mac h) = ho_sta_count h /\ ho_file (reset_sta mac h) = ho_file h.
Proof. unfold reset_sta. by destruct (find_addr _ _). Qed.
Lemma dest_ok stas mac i : find_addr stas (ztake 6 mac) = Some i -> default [] (st_addr <$> stas !! i) = ztake 6 mac.
Proof. intros (s & -> & E & _)%find_addr_Some. done. Qed.
Lemma fill_and_send sc fw dest info off data n h :
  zlen fw = 36 + n -> zlen dest = 6 -> zlen (ho_mac_addr h) = 6 -> is_bytes data -> 0 <= n <= 65535 -> n <= zlen data ->
  (let! fw := lift (fill_fw_data sc fw dest info off data n) in raw_sock_send fw (36 + n)) h
  = Ret (36 + n, set_sent (ho_sent h ++ [fw_data_frame sc (ho_mac_addr h) dest info off (ztake n data) (zdrop (34 + n) fw)]) h).
Proof.
  intros Hf Hdest Hs Hb Hn Hd. assert (zlen (ztake n data) = n) as Hz by (apply zlen_ztake; lia).
  destruct (fill_fw_data_ok sc fw dest info off data n) as (src & Hsrc & F); [lia|done|done|lia|lia|].
  rewrite (bind_lift _ _ _ _ F). unfold fw_data_frame at 1. rewrite raw_sock_send_chunks; [done|done|done|done|].
  assert (zlen (zdrop (34 + n) fw) = 2) by (rewrite zlen_zdrop; lia). rewrite Hz. chunk_sizes.
Qed.

(** Sending a fragment puts one data frame on the wire, or none when there is no
    memory, and resets the offset the station has acknowledged. *)
Lemma send_fw_data_ok sc mac info off data n h :
  6 <= zlen mac -> zlen (ho_mac_addr h) = 6 -> is_bytes data -> 0 <= n <= 65535 -> n <= zlen data ->
  exists r fs, libota_send_fw_data sc (Some mac) (Some info) off (Some data) n h
    = Ret (r, set_sent (ho_sent h ++ fs) (set_alloc (tail (ho_alloc h)) (reset_sta mac h))) /\
  (ho_alloc h = [] -> fs = [fw_data_frame sc (ho_mac_addr h) (ztake 6 mac) info off (ztake n data) [0; 0]]) /\
  (fs = [] \/ exists pad, zlen pad = 2 /\ fs = [fw_data_frame sc (ho_mac_addr h) (ztake 6 mac) info off (ztake n data) pad]).
Proof.
  intros Hm Hs Hb Hn Hd. unfold libota_send_fw_data, bind at 1, gets. rewrite (bind_lift _ _ _ _ (find_sta_eq _ _ Hm)).
  assert ((match find_addr (ho_stas h) (ztake 6 mac) with Some i => upd_sta i (set_next_off 0) | None => ret tt end) h
    = Ret (tt, reset_sta mac h)) as R by (unfold reset_sta; by destruct (find_addr _ _)).
  rewrite (bind_Ret _ _ _ _ _ R). clear R.
  assert (match find_addr (ho_stas h) (ztake 6 mac) with
          | Some i => Ret (default [] (st_addr <$> ho_stas h !! i)) | None => mem_read mac 0 6 end = Ret (ztake 6 mac)) as D.
  { destruct (find_addr _ _) eqn:E; [by rewrite (dest_ok _ _ _ E)|]. by rewrite mem_read_ok, zdrop_0 by lia. }
  destruct (reset_sta_same mac h) as (E1 & E2 & E3 & _). revert E1 E2 E3. generalize (reset_sta mac h). intros g E1 E2 E3.
  assert (zlen (ztake 6 mac) = 6) as Hz by (apply zlen_ztake; lia).
  assert (zlen (zdrop (34 + n) (replicate (Z.to_nat (36 + n)) 0)) = 2).
  { rewrite zlen_zdrop; rewrite zlen_replicate; lia. }
  unfold bind at 1, ota_malloc, sizeof_eth_ota_fw_data. rewrite E3.
  destruct (ho_alloc h) as [|[junk|] a] eqn:Ea; cbn [tail] in *.
  - rewrite (bind_lift _ _ _ _ D), fill_and_send by (try apply zlen_replicate; simpl; rewrite ?E1; done || lia).
    simpl. rewrite E1, E2. eexists _, _. split; [reflexivity|]. split; [|right; eexists; split; [|done]; done].
    intros _. do 2 f_equal. unfold zdrop. rewrite drop_replicate.
    replace (Z.to_nat (36 + n) - Z.to_nat (34 + n))%nat with 2%nat by lia. done.
  - rewrite (bind_lift _ _ _ _ D), fill_and_send by (try apply zlen_resize; simpl; rewrite ?E1; done || lia).
    simpl. rewrite E1, E2. eexists _, _. split; [reflexivity|]. split; [done|]. right. eexists. split; [|done].
    rewrite zlen_zdrop; rewrite zlen_resize; lia.
  - exists 0, []. rewrite app_nil_r. split; [|split; [done|by left]]. unfold ret. destruct g. simpl in *. by rewrite E2.
Qed.

(** ** Received frames *)
Record frame_of (f src : list Z) (stype status : Z) : Prop := {
  fo_src : mem_read f 6 6 = Ret src;
  fo_proto : ntohs f 12 = Ret ETH_P_OTA;
  fo_stype : mem_get f 14 = Ret stype;
  fo_status : mem_get f 15 = Ret status }.
Lemma frame_of_prefix f rest src stype status : frame_of f src stype status -> frame_of (f ++ rest) src stype status.
Proof. intros []. split; [by apply mem_read_prefix|by apply ntohs_prefix|by apply mem_get_prefix..]. Qed.

(** An answer that a station has a fragment up to offset [o]. *)
Definition acks (src : list Z) (o : Z) (f : list Z) : Prop :=
  exists status a n, frame_of f src ETH_P_OTA_FW_DATA_RESPONE status /\ status <> 0xff /\
    ntohl f 20 = Ret a /\ ntohs f 28 = Ret n /\ o = a + n.

Lemma find_src_eq stas f src : mem_read f 6 6 = Ret src -> libota_find_sta stas (Some src) = Ret (find_addr stas src).
Proof.
  intros (_ & _ & _ & _ & H)%mem_read_inv. rewrite find_sta_eq by lia. by rewrite ztake_all by lia.
Qed.

(** The state after an answer. *)
Definition acked (src : list Z) (o : Z) (h : hgota) : hgota :=
  match find_addr (ho_stas h) src with
  | Some i => set_stas (alter (set_next_off (s32 (u32 o))) i (ho_stas h)) (ho_sta_count h) h
  | None => h
  end.
(** Brings a run of the receive function to the case of a frame's type. *)
Ltac rx_case F Hl :=
  unfold libota_rx_proc; lazymatch goal with |- context [?l <=? 0] => destruct (Z.leb_spec l 0) as [?|_]; [lia|] end; unfold bind at 1, gets;
  rewrite (bind_lift _ _ _ _ (fo_src _ _ _ _ F)), (bind_lift _ _ _ _ (find_src_eq _ _ _ (fo_src _ _ _ _ F))),
    (bind_lift _ _ _ _ (fo_proto _ _ _ _ F)), Z.eqb_refl; cbn [negb]; cbv iota;
  rewrite (bind_lift _ _ _ _ (fo_stype _ _ _ _ F)), (bind_lift _ _ _ _ (fo_status _ _ _ _ F));
  unfold ETH_P_OTA_SCAN_REPORT, ETH_P_OTA_FW_DATA_RESPONE, ETH_P_OTA_FW_GET_PARAM_RESP, ETH_P_OTA_FW_SET_PARAM_RESP;
  repeat match goal with |- context [Zpos ?a =? Zpos ?b] =>
    let v := eval vm_compute in (Zpos a =? Zpos b) in change (Zpos a =? Zpos b) with v end;
  cbv iota.

Lemma rx_ack sc f src o len h :
  acks src o f -> 0 < len -> libota_rx_proc sc (Some f) len h = Ret (HGOTA_STATUS_FW_STATUS, acked src o h).
Proof.
  intros (st & a & n & F & Hst & Ha & Hn & ->) Hl. rx_case F Hl. unfold acked.
  destruct (find_addr (ho_stas h) src) as [i|]; [|done]. destruct (Z.eqb_spec st 0xff) as [?|_]; [done|]. cbn [negb].
  unfold bind at 1. by rewrite (bind_lift _ _ _ _ Ha), (bind_lift _ _ _ _ Hn).
Qed.
(** The errors a station reports are taken for success. *)
Lemma error_answers_are_progress sc f src status a n len h :
  status = HGIC_OTA_RESP_ERR_CHECKSUM \/ status = HGIC_OTA_RESP_ERR_WRITE ->
  frame_of f src ETH_P_OTA_FW_DATA_RESPONE status -> ntohl f 20 = Ret a -> ntohs f 28 = Ret n -> 0 < len ->
  libota_rx_proc sc (Some f) len h = Ret (HGOTA_STATUS_FW_STATUS, acked src (a + n) h).
Proof. intros Hst F Ha Hn Hl. apply rx_ack; [|done]. exists status, a, n. by destruct Hst as [-> | ->]. Qed.
Lemma rx_response_unknown sc f src status len h :
  frame_of f src ETH_P_OTA_FW_DATA_RESPONE status -> find_addr (ho_stas h) src = None -> 0 < len ->
  libota_rx_proc sc (Some f) len h = Ret (HGOTA_STATUS_FW_STATUS, h).
Proof. intros F Hf Hl. rx_case F Hl. by rewrite Hf. Qed.

(** *** Whatever is received *)
(** A computation that returns and changes nothing but the table. *)
Definition table_step {A} (m : M hgota A) : Prop := forall h, exists r l n, m h = Ret (r, set_stas l n h).
Create HintDb table discriminated.
Lemma table_ret {A} (a : A) : table_step (ret a).
Proof. intros h. exists a, (ho_stas h), (ho_sta_count h). by destruct h. Qed.
Lemma table_gets {A} (g : hgota -> A) : table_step (gets g).
Proof. intros h. exists (g h), (ho_stas h), (ho_sta_count h). by destruct h. Qed.
Lemma table_lift {A} (o : outcome A) : no_fault o -> table_step (lift o).
Proof. intros [a ->] h. exists a, (ho_stas h), (ho_sta_count h). by destruct h. Qed.
Lemma table_modify (f : hgota -> list hgota_sta) (g : hgota -> Z) : table_step (modify (fun h => set_stas (f h) (g h) h)).
Proof. intros h. by eexists _, _, _. Qed.
Lemma table_upd i f : table_step (upd_sta i f).
Proof. intros h. by eexists _, _, _. Qed.
Lemma table_bind {A B} (m : M hgota A) (k : A -> M hgota B) :
  table_step m -> (forall a, table_step (k a)) -> table_step (bind m k).
Proof.
  intros Hm Hk h. destruct (Hm h) as (a & l & n & E). destruct (Hk a (set_stas l n h)) as (b & l' & n' & E').
  exists b, l', n'. by rewrite (bind_Ret _ _ _ _ _ E), E'.
Qed.
#[export] Hint Resolve table_ret table_gets table_upd table_modify : table.

Section Received.
Context (sc : bool) (b : list Z) (Hb : is_bytes b) (Hl : 160 <= zlen b).
Lemma read_nf off n : 0 <= off -> 0 <= n -> off + n <= 160 -> no_fault (mem_read b off n).
Proof using Hl. intros. rewrite mem_read_ok by lia. apply no_fault_Ret. Qed.
Lemma get_nf off : 0 <= off < 160 -> no_fault (mem_get b off).
Proof using Hb Hl. intros. destruct (mem_get_byte b off Hb) as (v & -> & _); [lia|]. apply no_fault_Ret. Qed.
Lemma ntohs_nf off : 0 <= off -> off + 2 <= 160 -> no_fault (ntohs b off).
Proof using Hb Hl. intros. destruct (ntohs_ok b off Hb) as (v & -> & _); [lia..|]. apply no_fault_Ret. Qed.
Lemma ntohl_nf off : 0 <= off -> off + 4 <= 160 -> no_fault (ntohl b off).
Proof using Hb Hl. intros. destruct (ntohl_ok b off Hb) as (v & -> & _); [lia..|]. apply no_fault_Ret. Qed.
Lemma report_nf : no_fault (report_fields b).
Proof using Hb Hl.
  unfold report_fields. destruct (ntohs_nf 20) as [? ->]; [lia..|]. destruct (ntohl_nf 16) as [? ->]; [lia..|].
  destruct (ntohl_nf 24) as [? ->]; [lia..|]. apply no_fault_Ret.
Qed.
Lemma check_sum_nf : no_fault (libota_check_sum sc b 20 140).
Proof using Hb Hl.
  erewrite (char_check_sum_ok _ _ (ztake 20 b) (ztake 140 (zdrop 20 b)) (zdrop 140 (zdrop 20 b))); [apply no_fault_Ret| | | | |].
  - by rewrite !ztake_zdrop.
  - rewrite zlen_ztake; lia.
  - rewrite zlen_ztake; [lia|rewrite zlen_zdrop; lia].
  - by apply is_bytes_take, is_bytes_drop.
  - rewrite zlen_ztake; [lia|rewrite zlen_zdrop; lia].
Qed.
(** A buffer of 160 bytes is never left, whatever it holds. *)
Lemma rx_total len : table_step (libota_rx_proc sc (Some b) len).
Proof using Hb Hl.
  assert (forall stas (k : list Z -> option nat -> M hgota Z), (forall a r, table_step (k a r)) ->
    table_step (let! src := lift (mem_read b 6 6) in let! sta := lift (libota_find_sta stas (Some src)) in k src sta)) as Hf.
  { intros stas k Hk h. destruct (read_nf 6 6) as [src E]; [lia..|]. rewrite (bind_lift _ _ _ _ E), (bind_lift _ _ _ _ (find_src_eq _ _ _ E)).
    apply Hk. }
  unfold libota_rx_proc, libota_add_sta, sizeof_eth_ota_fwparam.
  repeat first [apply Hf; intros ? ? | apply table_bind; [|intros ?] | apply table_lift | solve [eauto with table nocore]
    | apply read_nf; lia | apply get_nf; lia | apply ntohs_nf; lia | apply ntohl_nf; lia | apply report_nf | apply check_sum_nf
    | match goal with |- table_step (if ?c then _ else _) => destruct c
                    | |- table_step (match ?c with Some _ => _ | None => _ end) => destruct c end].
Qed.
End Received.
