(* ===== verification/OtaTool.v ===== *)
(** * Updating over the network: the tool (tools/test_app/hgota.c)

    The commands of hgota: a scan for stations, a reboot with or without the
    default configuration, the update of one station from a firmware file, and
    the question for a configuration.  The library is file [LibOta]; what the
    tool calls of the system is a parameter: the files, the interface's index and
    address, and whether sockets can be had.  [stack] is the memory from the
    local array [mac] on, six bytes in the source: the conversions store four
    bytes each, so that a complete address does not fit ([mac_array_overflows]).
    The update is therefore stated for [ota_update], the part of
    [hgic_ota_device] behind the conversion, with an address of six bytes;
    [address_converts] says when [hgic_ota_device] gets there.  What is printed
    is a result where something depends on it.

    A frame the socket receives overwrites the beginning of the buffer; a failed
    receive is treated as none in every command.  The update loop has fuel, and
    [loop_total] shows how much is enough: a round for every frame still to
    come and ten more. *)
From Stdlib Require Import String.
From S2P Require Import Prelude Bytes CString Proto Utils Format Libc FwInfo Ota LibOta.

(** ** Definitions *)
Definition ETH_P_REBOOT_FLAGS_LOADDEF : Z := 1.
Definition sizeof_rxbuf : Z := 2048.

Definition hgic_get_device (stas : list hgota_sta) (addr : list Z) : outcome (option hgota_sta) :=
  leto a := mem_read addr 0 6 in Ret (snd <$> list_find (fun s => st_addr s = a) stas).
Definition hgic_save_device : M hgota unit := modify (fun h => set_file (Some (ho_stas h)) h).
Definition hgic_read_device : M hgota unit :=
  modify (fun h => match ho_file h with
                   | Some f => set_stas (take OTA_STA_COUNT f ++ drop (length f) (ho_stas h)) (ho_sta_count h) h
                   | None => h
                   end).

(** The length received, 0 for none. *)
Definition hgic_sock_recv : M hgota Z := fun h =>
  match ho_rx h with
  | [] => Ret (0, h)
  | None :: rx => Ret (0, set_rx (ho_rxbuf h) rx h)
  | Some f :: rx =>
      let f := ztake sizeof_rxbuf f in
      leto b := mem_write (ho_rxbuf h) 0 f in
      Ret (zlen f, set_rx b rx h)
  end.

(** Each conversion stores an [int]. *)
Fixpoint store_ints (m : list Z) (off : Z) (vs : list Z) : outcome (list Z) :=
  match vs with
  | [] => Ret m
  | v :: vs => leto m := mem_write m off (put_unaligned_le32 v) in store_ints m (off + 1) vs
  end.

(** The report that is printed of a configuration. *)
Record config := Config {
  c_bss_bw : Z; c_tx_mcs : Z; c_encrypt : Z; c_forward : Z; c_ssid : list Z; c_key_set : Z; c_mkey_set : Z;
  c_freq_start : Z; c_freq_end : Z; c_chan_list : list Z }.
Definition print_config (param : list Z) : outcome config :=
  leto bw := mem_get param 0 in
  leto mcs := mem_get param 138 in
  leto flags := mem_get param 1 in
  leto ssid := cstr (zdrop 40 param) in
  leto fs := get16_at param 4 in
  leto fe := get16_at param 6 in
  leto cnt := mem_get param 2 in
  leto c := get16_at param 8 in
  let bit i := Z.land (Z.shiftr flags i) 1 in
  Ret (Config bw mcs (bit 0) (bit 1) ssid (bit 2) (bit 3) fs fe (if c =? 0 then [] else replicate (Z.to_nat cnt) c)).

(** The receive rounds of a scan; [i] counts from 1. *)
Fixpoint scan_rounds (signed_char : bool) (n : nat) (i : Z) : M hgota unit :=
  match n with
  | O => ret tt
  | S n =>
      let! _ := (if Z.land i 0xf =? 0 then libota_scan false else ret 0) in
      let! recv_len := hgic_sock_recv in
      let! _ := (if 0 <? recv_len
                 then let! b := gets ho_rxbuf in libota_rx_proc signed_char (Some b) recv_len else ret 0) in
      scan_rounds signed_char n (i + 1)
  end.
(** The number of devices that is printed. *)
Definition hgic_scan_device (signed_char : bool) : M hgota Z :=
  let! _ := libota_scan true in
  scan_rounds signed_char 10 1 ;;;
  hgic_save_device ;;;
  gets ho_sta_count.

(** The rounds of an update, from an offset: send, wait, take the offset from the
    table.  The result is the offset at the end. *)
Fixpoint ota_loop (signed_char : bool) (fuel : nat) (mac : list Z) (info : hgota_fw_info) (fwdata : list Z) (ota_off retry : Z)
  : M hgota Z :=
  if negb ((ota_off <? fi_tot_len info) && (retry <? 10)) then ret ota_off else
  match fuel with
  | O => fail Diverges
  | S fuel =>
      let rest := u32 (fi_tot_len info - ota_off) in
      let! _ := libota_send_fw_data signed_char (Some mac) (Some info) ota_off (Some (zdrop ota_off fwdata))
                  (if 1460 <? rest then 1460 else rest) in
      let! rx_len := hgic_sock_recv in
      let! r := (if 0 <? rx_len
                 then let! b := gets ho_rxbuf in libota_rx_proc signed_char (Some b) rx_len else ret 0) in
      let! off := libota_sta_nexoff (Some mac) in
      ota_loop signed_char fuel mac info fwdata (u32 off)
        (if (0 <? rx_len) && (r =? HGOTA_STATUS_FW_STATUS) then 0 else retry + 1)
  end.

Section Tool.
Context (signed_char : bool) (stack : list Z).
Context (read_file : list Z -> option (list Z)).
Context (ioctl_ifindex : list Z -> option Z) (ioctl_ifhwaddr : list Z -> option (list Z)) (sock_ok raw_ok : bool).

Definition hgic_sock_init (ifname : list Z) : M hgota Z :=
  if negb sock_ok then ret 0 else
  let! name := lift (cstr ifname) in
  let! ifr_name := lift (mem_write (replicate 16 0) 0 name) in
  let req := replicate 24 0 in
  let! req := lift (match ioctl_ifindex ifr_name with Some i => mem_write req 0 (put_unaligned_le32 i) | None => Ret req end) in
  let! req := lift (match ioctl_ifhwaddr ifr_name with Some a => mem_write req 0 a | None => Ret req end) in
  let! mac := lift (mem_read req 2 6) in
  modify (set_mac mac) ;;;
  ret (Z.b2z raw_ok).

(** The address in an argument, when all of it is there. *)
Definition scan_mac (addr : list Z) : outcome (option (list Z)) :=
  leto vs := sscanf None MACSTR addr in
  leto m := store_ints stack 0 vs in
  Ret (if (length vs =? 6)%nat then Some m else None).

Definition hgic_reboot_device (addr : list Z) : M hgota unit :=
  let! mac := lift (scan_mac addr) in
  match mac with
  | Some mac => let! _ := libota_reboot (Some mac) 0 in ret tt
  | None => ret tt
  end.
Definition hgic_loaddef_device (addr : list Z) : M hgota unit :=
  let! mac := lift (scan_mac addr) in
  match mac with
  | Some mac => let! _ := libota_reboot (Some mac) ETH_P_REBOOT_FLAGS_LOADDEF in ret tt
  | None => ret tt
  end.

(** The image, if it is accepted, and what is read of its header. *)
Definition hgic_read_firmware (path : list Z) (fwinfo : hgota_fw_info) : M hgota (option (list Z) * hgota_fw_info) :=
  match read_file path with
  | None => ret (None, fwinfo)
  | Some f =>
      let! p := ota_malloc (zlen f) in
      match p with
      | None => ret (None, fwinfo)
      | Some _ =>
          let d := Some f in
          let! chipid := lift (fwinfo_get_fw_chipid d) in
          let! tot_len := lift (fwinfo_get_fw_length d) in
          let! version := lift (fwinfo_get_fw_sdk_version d) in
          let! svn := lift (fwinfo_get_fw_svn_version d) in
          let info := FwImage (fst chipid) (fst version) (fst svn) (fst tot_len) in
          let! r := lift (fwinfo_get_fw_code_checksum d (s32 (fi_tot_len info))) in
          ret (if r =? 0 then d else None, info)
      end
  end.

(** The percentage printed at the end, if one is. *)
Definition percent (info : hgota_fw_info) (off : Z) : option Z :=
  if 0 <? fi_tot_len info then Some (u32 (off * 100) / fi_tot_len info) else None.
(** What is done with the address, and with the information in [fwinfo]. *)
Definition ota_update (fuel : nat) (mac fw : list Z) (fwinfo : hgota_fw_info) : M hgota (option Z) :=
  let! stas := gets ho_stas in
  let! sta := lift (hgic_get_device stas mac) in
  let! r := hgic_read_firmware fw fwinfo in
  let fwinfo := snd r in
  match fst r with
  | None => ret (percent fwinfo 0)
  | Some fwdata =>
      if match sta with Some s => u32 (st_svn_version s) =? fi_svn_version fwinfo | None => false end then ret None else
      let! ota_off := ota_loop signed_char fuel mac fwinfo fwdata 0 0 in
      ret (percent fwinfo ota_off)
  end.
Definition hgic_ota_device (fuel : nat) (addr fw : list Z) : M hgota (option Z) :=
  let fwinfo := FwImage 0 0 0 0 in
  let! mac := lift (scan_mac addr) in
  match mac with
  | None => ret (percent fwinfo 0)
  | Some mac => ota_update fuel mac fw fwinfo
  end.

(** [param] is the local structure as it is found. *)
Definition hgic_get_config (param addr : list Z) : M hgota (option config) :=
  let! mac := lift (scan_mac addr) in
  match mac with
  | None => ret None
  | Some mac =>
      let! _ := libota_query_config mac in
      let! rx_len := hgic_sock_recv in
      if negb (0 <? rx_len) then ret None else
      let! b := gets ho_rxbuf in
      let! r := libota_rx_proc signed_char (Some b) rx_len in
      if negb (r =? HGOTA_STATUS_CONFIG_GOT) then ret None else
      let! c := libota_sta_config (Some mac) param in
      let! t := lift (print_config (snd c)) in
      ret (Some t)
  end.

Definition main (fuel : nat) (param : list Z) (argv : list (list Z)) : M hgota Z :=
  let argc := zlen argv in
  match argv with
  | _ :: ifname :: cmd :: args =>
      libota_init ;;;
      hgic_read_device ;;;
      let! ok := hgic_sock_init ifname in
      if ok =? 0 then ret (-1) else
      let! scan := lift (strcmp_eq cmd (lit "SCAN")) in
      if scan : bool then let! _ := hgic_scan_device signed_char in ret 0 else
      let! reboot := lift (strcmp_eq cmd (lit "REBOOT")) in
      if reboot : bool then (match args with [a] => hgic_reboot_device a | _ => ret tt end) ;;; ret 0 else
      let! lddef := lift (strcmp_eq cmd (lit "LDDEF")) in
      if lddef : bool then (match args with [a] => hgic_loaddef_device a | _ => ret tt end) ;;; ret 0 else
      let! ota := lift (strcmp_eq cmd (lit "OTA")) in
      if ota : bool then let! _ := (match args with [a; f] => hgic_ota_device fuel a f | _ => ret None end) in ret 0 else
      let! getcfg := lift (strcmp_eq cmd (lit "GETCFG")) in
      if getcfg : bool then let! _ := (match args with [a] => hgic_get_config param a | _ => ret None end) in ret 0 else
      ret 0
  | _ => ret (-1)
  end.
End Tool.

(** ** The socket *)
(** The buffer and the address have their sizes, and what comes is bytes. *)
Record tool_ok (h : hgota) : Prop := {
  to_size : zlen (ho_rxbuf h) = sizeof_rxbuf;
  to_bytes : is_bytes (ho_rxbuf h);
  to_mac : zlen (ho_mac_addr h) = 6;
  to_rx : Forall (fun f => is_bytes (default [] f)) (ho_rx h) }.

(** What a wait brings, nothing being the empty frame. *)
Definition arrived (h : hgota) : list Z := match ho_rx h with Some f :: _ => ztake sizeof_rxbuf f | _ => [] end.

Lemma recv_ok h :
  tool_ok h -> exists rest, let b := arrived h ++ rest in
    hgic_sock_recv h = Ret (zlen (arrived h), set_rx b (tail (ho_rx h)) h) /\ tool_ok (set_rx b (tail (ho_rx h)) h).
Proof.
  intros [H1 H2 H3 H4]. unfold hgic_sock_recv, arrived. destruct h as [l n b mac rx al se fi]. simpl in *.
  destruct rx as [|[f|] rx]; simpl.
  - exists b. done.
  - inversion_clear H4 as [|? ? Hf Hr]. simpl in Hf. assert (zlen (ztake sizeof_rxbuf f) <= sizeof_rxbuf) as L.
    { destruct (Z.le_gt_cases sizeof_rxbuf (zlen f)); [rewrite zlen_ztake; unfold sizeof_rxbuf in *; lia|].
      rewrite ztake_all by lia. lia. }
    pose proof (zlen_nonneg (ztake sizeof_rxbuf f)). rewrite mem_write_ok by lia.
    rewrite ztake_0, Z.add_0_l. cbn [app]. eexists. split; [reflexivity|].
    split; simpl; try done.
    + rewrite zlen_app, zlen_zdrop; lia.
    + apply is_bytes_app; [by apply is_bytes_take|by apply is_bytes_drop].
  - inversion_clear H4. exists b. done.
Qed.

Lemma find_addr_addrs l l' a : st_addr <$> l = st_addr <$> l' -> find_addr l a = find_addr l' a.
Proof.
  revert l'. induction l as [|s l IH]; intros [|s' l'] E; try done. injection E as E1 E2. unfold find_addr in *. cbn [list_find].
  do 2 case_decide; try congruence; [done|]. specialize (IH l' E2). destruct (list_find _ l) as [[]|], (list_find _ l') as [[]|]; simpl in *; naive_solver.
Qed.
Lemma addrs_alter (f : hgota_sta -> hgota_sta) (i : nat) (l : list hgota_sta) :
  (forall s, st_addr (f s) = st_addr s) -> st_addr <$> alter f i l = st_addr <$> l.
Proof.
  intros H. apply list_eq. intros j. rewrite !list_lookup_fmap. destruct (decide (i = j)) as [<-|].
  - rewrite list_lookup_alter_eq. destruct (l !! i); simpl; [by rewrite H|done].
  - by rewrite list_lookup_alter_ne.
Qed.
Lemma reset_sta_addrs mac h : st_addr <$> ho_stas (reset_sta mac h) = st_addr <$> ho_stas h.
Proof. unfold reset_sta. destruct (find_addr _ _); [|done]. by apply addrs_alter. Qed.

(** ** Rounds of an update *)
Section Update.
Context (sc : bool) (mac : list Z) (info : hgota_fw_info) (d : list Z).
Context (Hmac : 6 <= zlen mac) (Hd : is_bytes d) (Htot : 0 <= fi_tot_len info <= zlen d) (Hbig : fi_tot_len info < 2 ^ 31).
#[local] Abbreviation T := (fi_tot_len info).
#[local] Abbreviation addr := (ztake 6 mac).

(** The bytes of a round, and what the table holds of the station. *)
Definition frag (off : Z) : list Z := ztake (Z.min 1460 (T - off)) (zdrop off d).
Definition next_off_of (h : hgota) : Z :=
  match find_addr (ho_stas h) addr with Some i => default 0 (st_next_off <$> ho_stas h !! i) | None => 0 end.

Lemma nexoff_eq h : libota_sta_nexoff (Some mac) h = Ret (next_off_of h, h).
Proof using Hmac. unfold libota_sta_nexoff, bind at 1, gets. by rewrite (bind_lift _ _ _ _ (find_sta_eq _ _ Hmac)). Qed.
Lemma reset_next_off h : next_off_of (reset_sta mac h) = 0.
Proof.
  unfold next_off_of. rewrite (find_addr_addrs _ _ _ (reset_sta_addrs mac h)). unfold reset_sta.
  destruct (find_addr (ho_stas h) addr) as [i|] eqn:E; [|done]. apply find_addr_Some in E as (s & Hs & _).
  simpl. by rewrite list_lookup_alter_eq, Hs.
Qed.

(** A round: a frame is sent, or none without memory; then nothing has come, and
    the update starts again, or the library has looked at what has. *)
Lemma round_runs fuel off retry h :
  tool_ok h -> 0 <= off < T -> retry < 10 ->
  exists fs g, (ho_alloc h = [] -> fs = [fw_data_frame sc (ho_mac_addr h) addr info off (frag off) [0; 0]]) /\
    tool_ok g /\ ho_sent g = ho_sent h ++ fs /\ ho_alloc g = tail (ho_alloc h) /\ ho_mac_addr g = ho_mac_addr h /\
    ho_rx g = tail (ho_rx h) /\ st_addr <$> ho_stas g = st_addr <$> ho_stas h /\ next_off_of g = 0 /\
    (arrived h = [] -> ota_loop sc (S fuel) mac info d off retry h = ota_loop sc fuel mac info d 0 (retry + 1) g) /\
    (arrived h <> [] -> (exists rest, ho_rxbuf g = arrived h ++ rest) /\ forall r g',
       libota_rx_proc sc (Some (ho_rxbuf g)) (zlen (arrived h)) g = Ret (r, g') ->
       ota_loop sc (S fuel) mac info d off retry h
       = ota_loop sc fuel mac info d (u32 (next_off_of g')) (if r =? HGOTA_STATUS_FW_STATUS then 0 else retry + 1) g').
Proof using Hmac Hd Htot Hbig.
  intros Hok Ho Hr. cbn [ota_loop]. destruct (Z.ltb_spec off T); [|lia]. destruct (Z.ltb_spec retry 10); [|lia]. cbn [andb negb].
  cbv zeta. rewrite u32_id by lia.
  assert ((if 1460 <? T - off then 1460 else T - off) = Z.min 1460 (T - off)) as -> by (destruct (Z.ltb_spec 1460 (T - off)); lia).
  destruct (send_fw_data_ok sc mac info off (zdrop off d) (Z.min 1460 (T - off)) h) as (r & fs & E & F & _);
    [done|apply Hok|by apply is_bytes_drop|lia|rewrite zlen_zdrop; lia|].
  rewrite (bind_Ret _ _ _ _ _ E). clear E. destruct (reset_sta_same mac h) as (R1 & R2 & R3 & R4 & R5 & _).
  set (h1 := set_sent (ho_sent h ++ fs) (set_alloc (tail (ho_alloc h)) (reset_sta mac h))).
  assert (tool_ok h1) as Hok1 by (destruct Hok; split; simpl; by rewrite ?R1, ?R4, ?R5).
  assert (arrived h1 = arrived h) as Ea by (unfold arrived; simpl; by rewrite R4).
  destruct (recv_ok h1 Hok1) as (rest & E & Hok2). cbv zeta in E, Hok2. rewrite (bind_Ret _ _ _ _ _ E). clear E.
  rewrite Ea in *. exists fs, (set_rx (arrived h ++ rest) (tail (ho_rx h1)) h1).
  assert (next_off_of (set_rx (arrived h ++ rest) (tail (ho_rx h1)) h1) = 0) as Hn by exact (reset_next_off h).
  split; [done|]. split; [done|]. split; [done|]. split; [done|]. split; [done|]. split; [simpl; by rewrite R4|].
  split; [exact (reset_sta_addrs mac h)|]. split; [done|]. split.
  - intros E0. rewrite E0 in *. change (0 <? zlen (@nil Z)) with false. cbv iota. unfold bind at 1, ret at 1.
    rewrite (bind_Ret _ _ _ _ _ (nexoff_eq _)), Hn. done.
  - intros E0. split; [by exists rest|]. intros r' g' E.
    assert (0 < zlen (arrived h)) as Hz by (destruct (arrived h); [done|rewrite zlen_cons; pose proof (zlen_nonneg l); lia]).
    destruct (Z.ltb_spec 0 (zlen (arrived h))); [|lia].
    by rewrite (bind_Ret (bind (gets ho_rxbuf) (fun b => libota_rx_proc sc (Some b) _)) _ _ _ _ E), (bind_Ret _ _ _ _ _ (nexoff_eq _)).
Qed.

(** Whatever happens in a round, it ends and uses up one wait. *)
Lemma round_total fuel off retry h :
  tool_ok h -> 0 <= off < T -> 0 <= retry < 10 ->
  exists off' retry' h', ota_loop sc (S fuel) mac info d off retry h = ota_loop sc fuel mac info d off' retry' h' /\
    0 <= off' /\ tool_ok h' /\ ho_rx h' = tail (ho_rx h) /\ 0 <= retry' <= 10 /\ (ho_rx h = [] -> retry' = retry + 1).
Proof using Hmac Hd Htot Hbig.
  intros Hok Ho Hr.
  destruct (round_runs fuel off retry h Hok Ho ltac:(lia)) as (fs & g & _ & Hg & _ & _ & _ & Erx & _ & _ & S0 & S1).
  destruct (decide (arrived h = [])) as [E|E].
  - exists 0, (retry + 1), g. split; [by apply S0|]. repeat (split; [done || lia|]). lia.
  - destruct (S1 E) as [_ K].
    destruct (rx_total sc (ho_rxbuf g) (to_bytes _ Hg) ltac:(rewrite (to_size _ Hg); unfold sizeof_rxbuf; lia) (zlen (arrived h)) g)
      as (r & l & n & R).
    rewrite (K _ _ R). eexists _, _, _. split; [reflexivity|]. split; [apply u32_range|].
    split; [by destruct Hg; split|]. split; [done|]. split; [destruct (_ =? _); lia|]. intros En. unfold arrived in E. by rewrite En in E.
Qed.

(** A round is left for every wait the script still has, and ten more. *)
Lemma loop_total fuel : forall off retry h,
  tool_ok h -> 0 <= off -> 0 <= retry <= 10 ->
  ((if bool_decide (ho_rx h = []) then Z.to_nat (10 - retry) else length (ho_rx h) + 10) <= fuel)%nat ->
  exists off' h', ota_loop sc fuel mac info d off retry h = Ret (off', h') /\ 0 <= off'.
Proof using Hmac Hd Htot Hbig.
  induction fuel as [|fuel IH]; intros off retry h Hok Ho Hr Hf;
    (destruct (decide (off < T /\ retry < 10)) as [[H1 H2]|H];
      [|exists off, h; cbn [ota_loop]; split; [|done];
        destruct (Z.ltb_spec off T), (Z.ltb_spec retry 10); simpl; done || lia]).
  - exfalso. case_bool_decide; lia.
  - destruct (round_total fuel off retry h Hok ltac:(lia) ltac:(lia)) as (off' & retry' & h' & -> & ? & ? & Erx & ? & E0).
    apply IH; [done..|]. rewrite Erx. revert Hf E0. destruct (ho_rx h) as [|x rx]; simpl; [intros ? ->; [lia|done]|].
    intros Hf _. case_bool_decide; lia.
Qed.

(** *** Answered rounds *)
(** What a successful part of an update leaves as it was, and what it sent. *)
Record after (h h' : hgota) (fs : list (list Z)) (n : nat) : Prop := {
  af_ok : tool_ok h';
  af_sent : ho_sent h' = ho_sent h ++ fs;
  af_rx : ho_rx h' = drop n (ho_rx h);
  af_alloc : ho_alloc h' = [];
  af_mac : ho_mac_addr h' = ho_mac_addr h;
  af_addrs : st_addr <$> ho_stas h' = st_addr <$> ho_stas h }.
Lemma after_refl h : tool_ok h -> ho_alloc h = [] -> after h h [] 0.
Proof. intros H1 H2. split; try done. by rewrite app_nil_r. Qed.
Lemma after_trans h1 h2 h3 fs fs' n m : after h1 h2 fs n -> after h2 h3 fs' m -> after h1 h3 (fs ++ fs') (n + m).
Proof.
  intros [] []. split; try congruence.
  - by rewrite af_sent1, af_sent0, app_assoc.
  - by rewrite af_rx1, af_rx0, drop_drop.
Qed.

Definition the_frame (h : hgota) (off : Z) (bs : list Z) : list Z := fw_data_frame sc (ho_mac_addr h) addr info off bs [0; 0].
(** An answer without an error that the buffer has room for. *)
Definition good_answer (o : Z) (f : list Z) : Prop :=
  acks addr o f /\ mem_get f 15 = Ret HGIC_OTA_RESP_ERR_OK /\ zlen f <= sizeof_rxbuf /\ 0 <= o < 2 ^ 31.

Lemma round_acked fuel off retry h o f rx :
  tool_ok h -> ho_alloc h = [] -> addr ∈ st_addr <$> ho_stas h -> 0 <= off < T -> retry < 10 ->
  ho_rx h = Some f :: rx -> good_answer o f ->
  exists h', ota_loop sc (S fuel) mac info d off retry h = ota_loop sc fuel mac info d o 0 h' /\
    after h h' [the_frame h off (frag off)] 1.
Proof using Hmac Hd Htot Hbig.
  intros Hok Hal Hin Ho Hr Erx (Hack & _ & Hlen & Hoo).
  destruct (round_runs fuel off retry h Hok Ho Hr) as (fs & g & Hfs & Hg & Es & Ea & Em & Er & Ead & _ & _ & S1).
  assert (0 < zlen f) as Hf. { destruct Hack as (st & a & n & F & _). destruct (mem_read_inv _ _ _ _ (fo_src _ _ _ _ F)). lia. }
  assert (arrived h = f) as Earr by (unfold arrived; rewrite Erx; by apply ztake_all).
  destruct S1 as [(rest & Eb) K]; [rewrite Earr; intros ->; unfold zlen in Hf; simpl in Hf; lia|]. rewrite Earr in *.
  assert (acks addr o (f ++ rest)) as Hack'.
  { destruct Hack as (st & a & n & F & H1 & H2 & H3 & H4). exists st, a, n. split; [by apply frame_of_prefix|].
    split; [done|]. split; [by apply ntohl_prefix|]. split; [by apply ntohs_prefix|done]. }
  pose proof (rx_ack sc _ addr o (zlen f) g Hack' Hf) as R. rewrite <- Eb in R. rewrite (K _ _ R).
  change (HGOTA_STATUS_FW_STATUS =? HGOTA_STATUS_FW_STATUS) with true. cbv iota.
  destruct (find_addr (ho_stas g) addr) as [i|] eqn:Ei; [|apply find_addr_None in Ei; rewrite Ead in Ei; done].
  unfold acked. rewrite Ei. eexists. split.
  - f_equal. unfold next_off_of. simpl. rewrite (find_addr_addrs _ (ho_stas g)) by (by apply addrs_alter). rewrite Ei, list_lookup_alter_eq.
    apply find_addr_Some in Ei as (s & -> & _). simpl. rewrite u32_s32, !u32_id; [done|lia|]. rewrite u32_id; lia.
  - split; simpl; rewrite ?Hal, ?Erx in *; try done; [by destruct Hg; split|by rewrite Es, Hfs|by rewrite addrs_alter].
Qed.

Lemma round_silent fuel off retry h :
  tool_ok h -> ho_alloc h = [] -> 0 <= off < T -> retry < 10 -> arrived h = [] ->
  exists h', ota_loop sc (S fuel) mac info d off retry h = ota_loop sc fuel mac info d 0 (retry + 1) h' /\
    after h h' [the_frame h off (frag off)] 1.
Proof using Hmac Hd Htot Hbig.
  intros Hok Hal Ho Hr E. destruct (round_runs fuel off retry h Hok Ho Hr) as (fs & g & Hfs & Hg & Es & Ea & Em & Er & Ead & _ & S0 & _).
  exists g. split; [by apply S0|]. rewrite Hal in *. split; try done. by rewrite Es, Hfs.
Qed.

(** A station that is not in the table: its answers are taken for progress, and
    the update stays where it is. *)
Lemma round_unknown fuel off retry h f rx src status :
  tool_ok h -> ho_alloc h = [] -> addr ∉ st_addr <$> ho_stas h -> 0 <= off < T -> retry < 10 ->
  ho_rx h = Some f :: rx -> zlen f <= sizeof_rxbuf -> frame_of f src ETH_P_OTA_FW_DATA_RESPONE status ->
  src ∉ st_addr <$> ho_stas h ->
  exists h', ota_loop sc (S fuel) mac info d off retry h = ota_loop sc fuel mac info d 0 0 h' /\
    after h h' [the_frame h off (frag off)] 1.
Proof using Hmac Hd Htot Hbig.
  intros Hok Hal Hin Ho Hr Erx Hlen F Hsrc.
  destruct (round_runs fuel off retry h Hok Ho Hr) as (fs & g & Hfs & Hg & Es & Ea & Em & Er & Ead & En & _ & S1).
  assert (0 < zlen f) as Hf by (destruct (mem_read_inv _ _ _ _ (fo_src _ _ _ _ F)); lia).
  assert (arrived h = f) as Earr by (unfold arrived; rewrite Erx; by apply ztake_all).
  destruct S1 as [(rest & Eb) K]; [rewrite Earr; intros ->; unfold zlen in Hf; simpl in Hf; lia|]. rewrite Earr in *.
  pose proof (rx_response_unknown sc _ src status (zlen f) g (frame_of_prefix _ rest _ _ _ F)) as R. rewrite <- Eb in R.
  exists g. split; [rewrite (K _ _ (R ltac:(apply find_addr_None; by rewrite Ead) Hf)), En; done|].
  rewrite Hal in *. split; try done. by rewrite Es, Hfs.
Qed.
(** *** Many rounds *)
(** The fragments from an offset, and where each ends. *)
Fixpoint cut_from (off : Z) (frs : list (list Z)) : Prop :=
  match frs with [] => True | x :: r => off < T /\ x = frag off /\ cut_from (off + zlen x) r end.
Fixpoint ends (off : Z) (frs : list (list Z)) : list Z :=
  match frs with [] => [] | x :: r => off + zlen x :: ends (off + zlen x) r end.
Fixpoint frames (h : hgota) (off : Z) (frs : list (list Z)) : list (list Z) :=
  match frs with [] => [] | x :: r => the_frame h off x :: frames h (off + zlen x) r end.

Lemma frag_zlen off : 0 <= off < T -> 0 < zlen (frag off) <= T - off.
Proof using Htot. intros. unfold frag. rewrite zlen_ztake; [lia|]. rewrite zlen_zdrop; lia. Qed.
Lemma frames_mac h h' off frs : ho_mac_addr h = ho_mac_addr h' -> frames h off frs = frames h' off frs.
Proof. intros E. revert off. induction frs as [|x frs IH]; intros off; cbn; [done|]. unfold the_frame. by rewrite E, IH. Qed.
Lemma frames_app h off l k : frames h off (l ++ k) = frames h off l ++ frames h (off + zlen (concat l)) k.
Proof using mac.
  revert off. induction l as [|x l IH]; intros off; cbn; [by rewrite Z.add_0_r|]. rewrite IH, zlen_app. do 3 f_equal. lia.
Qed.
Lemma cut_from_app off l k : cut_from off (l ++ k) <-> cut_from off l /\ cut_from (off + zlen (concat l)) k.
Proof.
  revert off. induction l as [|x l IH]; intros off; cbn; [rewrite Z.add_0_r; tauto|]. rewrite IH, zlen_app.
  replace (off + zlen x + zlen (concat l)) with (off + (zlen x + zlen (concat l))) by lia. tauto.
Qed.

(** The fragments of the image, as the tool cuts them. *)
Definition image_cut : list (list Z) := fragments (length d) 1460 (ztake T d).
Lemma fragments_cut k off : 0 <= off <= T -> cut_from off (fragments k 1460 (zdrop off (ztake T d))).
Proof using Htot.
  revert off. induction k as [|k IH]; intros off Ho; cbn [fragments cut_from]; [done|].
  assert (zlen (zdrop off (ztake T d)) = T - off) as L by (rewrite zlen_zdrop; rewrite zlen_ztake; lia).
  rewrite L. destruct (Z.eqb_spec (T - off) 0) as [E|E]; [done|]. cbn [cut_from]. split; [lia|].
  assert (ztake 1460 (zdrop off (ztake T d)) = frag off) as Ef.
  { unfold frag, ztake, zdrop. rewrite skipn_firstn_comm, take_take. f_equal. lia. }
  rewrite Ef. split; [done|]. rewrite zdrop_zdrop by lia.
  assert (zlen (frag off) = Z.min 1460 (T - off)) as Lf by (unfold frag; rewrite zlen_ztake; [lia|rewrite zlen_zdrop; lia]).
  destruct (Z.le_gt_cases 1460 (T - off)).
  - rewrite Lf, Z.min_l by lia. apply IH. lia.
  - rewrite zdrop_all by (rewrite zlen_ztake; lia). by rewrite fragments_end.
Qed.
Lemma image_cut_ok : cut_from 0 image_cut /\ concat image_cut = ztake T d.
Proof using Htot mac.
  split; [pose proof (fragments_cut (length d) 0 ltac:(lia)) as H; by rewrite zdrop_0 in H|].
  apply fragments_concat; [lia|]. rewrite zlen_ztake by lia. unfold zlen in *. lia.
Qed.

Lemma loop_acked m frs : forall off retry h fs rx,
  cut_from off frs -> Forall2 good_answer (ends off frs) fs -> ho_rx h = map Some fs ++ rx ->
  tool_ok h -> ho_alloc h = [] -> addr ∈ st_addr <$> ho_stas h -> 0 <= off -> 0 <= retry < 10 ->
  exists retry' h', ota_loop sc (length frs + m) mac info d off retry h = ota_loop sc m mac info d (off + zlen (concat frs)) retry' h' /\
    0 <= retry' <= retry /\ after h h' (frames h off frs) (length frs).
Proof using Hmac Hd Htot Hbig.
  induction frs as [|x frs IH]; intros off retry h fs rx Hc Hfs Erx Hok Hal Hin Ho Hr.
  - exists retry, h. cbn. rewrite Z.add_0_r. split; [done|]. split; [lia|]. by apply after_refl.
  - destruct Hc as (Ho' & -> & Hc). apply Forall2_cons_inv_l in Hfs as (f & fs' & Hf & Hfs & ->).
    destruct (round_acked (length frs + m) off retry h _ f (map Some fs' ++ rx) Hok Hal Hin ltac:(lia) ltac:(lia) Erx Hf)
      as (h1 & E1 & A1).
    destruct (IH (off + zlen (frag off)) 0 h1 fs' rx) as (retry' & h2 & E2 & Hr' & A2);
      [done|done|by rewrite (af_rx _ _ _ _ A1), Erx|apply A1|apply A1|by rewrite (af_addrs _ _ _ _ A1)
      |pose proof (frag_zlen off ltac:(lia)); lia|lia|].
    exists retry', h2. cbn [length Nat.add concat]. rewrite E1, E2, zlen_app. split; [f_equal; lia|]. split; [lia|].
    rewrite (frames_mac h1 h) in A2 by apply A1. exact (after_trans _ _ _ _ _ _ _ A1 A2).
Qed.
Lemma loop_unknown m fs : forall h rx,
  tool_ok h -> ho_alloc h = [] -> addr ∉ st_addr <$> ho_stas h -> 0 < T -> ho_rx h = map Some fs ++ rx ->
  Forall (fun f => zlen f <= sizeof_rxbuf /\ exists src status, frame_of f src ETH_P_OTA_FW_DATA_RESPONE status /\
            src ∉ st_addr <$> ho_stas h) fs ->
  exists h', ota_loop sc (length fs + m) mac info d 0 0 h = ota_loop sc m mac info d 0 0 h' /\
    after h h' (replicate (length fs) (the_frame h 0 (frag 0))) (length fs).
Proof using Hmac Hd Htot Hbig.
  induction fs as [|f fs IH]; intros h rx Hok Hal Hin Ht Erx Hfs; [exists h; split; [done|by apply after_refl]|].
  apply Forall_cons in Hfs as [(Hl & src & st & F & Hs) Hfs].
  destruct (round_unknown (length fs + m) 0 0 h f (map Some fs ++ rx) src st Hok Hal Hin ltac:(lia) ltac:(lia) Erx Hl F Hs) as (h1 & E1 & A1).
  destruct (IH h1 rx) as (h2 & E2 & A2); [apply A1|apply A1|by rewrite (af_addrs _ _ _ _ A1)|done
    |by rewrite (af_rx _ _ _ _ A1), Erx|by rewrite (af_addrs _ _ _ _ A1)|].
  exists h2. cbn [length Nat.add]. rewrite E1, E2. split; [done|].
  replace (the_frame h1 0 (frag 0)) with (the_frame h 0 (frag 0)) in A2 by (unfold the_frame; by rewrite (af_mac _ _ _ _ A1)).
  exact (after_trans _ _ _ _ _ _ _ A1 A2).
Qed.
End Update.

(** ** The arguments of an update *)
Lemma store_ints_zlen m off vs m' : store_ints m off vs = Ret m' -> zlen m' = zlen m /\ (vs <> [] -> off + zlen vs + 3 <= zlen m).
Proof.
  revert m off. induction vs as [|v vs IH]; intros m off; cbn [store_ints]; [by intros [= <-]|].
  intros (m1 & W & R)%obind_inv. pose proof (mem_write_length _ _ _ _ W) as L. destruct (IH _ _ R) as [E H].
  apply mem_write_inv in W as (H1 & H2 & _). change (zlen (put_unaligned_le32 v)) with 4 in H2. rewrite zlen_cons. split; [lia|]. intros _.
  destruct vs; [change (zlen (@nil Z)) with 0; lia|]. specialize (H ltac:(done)). lia.
Qed.

Lemma scan_mac_zlen stack addr mac : scan_mac stack addr = Ret (Some mac) -> 9 <= zlen mac.
Proof.
  unfold scan_mac. generalize (sscanf None MACSTR addr). intros o (vs & _ & (m & R & E)%obind_inv)%obind_inv. destruct (length vs =? 6)%nat eqn:L; [|done]. injection E as <-.
  apply Nat.eqb_eq in L. destruct (store_ints_zlen _ _ _ _ R) as [-> H].
  assert (zlen vs = 6) by (unfold zlen; lia). specialize (H ltac:(by intros ->)). lia.
Qed.
Lemma store_ints_bytes vs : forall m off,
  Forall is_byte vs -> 0 <= off -> off + zlen vs + 3 <= zlen m ->
  exists m', store_ints m off vs = Ret m' /\ ztake (off + zlen vs) m' = ztake off m ++ vs.
Proof.
  induction vs as [|v vs IH]; intros m off Hb Ho Hm; cbn [store_ints].
  - exists m. by rewrite Z.add_0_r, app_nil_r.
  - apply Forall_cons in Hb as [Hv Hb]. rewrite zlen_cons in *. pose proof (zlen_nonneg vs).
    change (zlen (put_unaligned_le32 v)) with 4 in *. rewrite mem_write_ok by (change (zlen (put_unaligned_le32 v)) with 4; lia). cbn [obind].
    destruct (IH (ztake off m ++ put_unaligned_le32 v ++ zdrop (off + 4) m) (off + 1)) as (m' & E & T);
      [done|lia|rewrite !zlen_app, zlen_ztake, zlen_zdrop by lia; change (zlen (put_unaligned_le32 v)) with 4; lia|].
    exists m'. split; [exact E|]. replace (off + (1 + zlen vs)) with (off + 1 + zlen vs) by lia. rewrite T.
    change (put_unaligned_le32 v ++ zdrop (off + 4) m) with ([u8 v] ++ tail (put_unaligned_le32 v) ++ zdrop (off + 4) m).
    rewrite app_assoc, ztake_app_length by (rewrite zlen_app, zlen_ztake by lia; done).
    rewrite u8_id by done. by rewrite <- app_assoc.
Qed.

(** An address in its usual form is read into the first six bytes, with room for
    nine; without, the conversions leave the array. *)
Lemma scan_mac_text stack b0 b1 b2 b3 b4 b5 l :
  Forall is_byte [b0; b1; b2; b3; b4; b5] ->
  scan_mac stack (mac_text b0 b1 b2 b3 b4 b5 ++ l)
  = (leto m := store_ints stack 0 [b0; b1; b2; b3; b4; b5] in Ret (Some m)).
Proof.
  intros Hb. unfold scan_mac. pose proof (sscanf_mac b0 b1 b2 b3 b4 b5 [] l Hb) as E. rewrite app_nil_r in E. by rewrite E.
Qed.
Lemma bounds_store_ints m off vs : only_bounds (store_ints m off vs).
Proof.
  revert m off. induction vs as [|v vs IH]; intros m off; [apply bounds_Ret|].
  apply bounds_bind; [apply bounds_write|intros m'; apply IH].
Qed.
Lemma mac_array_overflows stack b0 b1 b2 b3 b4 b5 l :
  Forall is_byte [b0; b1; b2; b3; b4; b5] -> zlen stack = 6 ->
  scan_mac stack (mac_text b0 b1 b2 b3 b4 b5 ++ l) = Fault OutOfBounds.
Proof.
  intros Hb Hs. rewrite scan_mac_text by done. destruct (store_ints stack 0 _) as [m|f] eqn:E; simpl.
  - destruct (store_ints_zlen _ _ _ _ E) as [_ H]. specialize (H ltac:(done)). unfold zlen in *. simpl in H. lia.
  - by rewrite (bounds_store_ints _ _ _ f E).
Qed.

(** The two cases of the tool's own conversion. *)
Lemma address_converts sc rf fw h stack fuel b0 b1 b2 b3 b4 b5 l :
  Forall is_byte [b0; b1; b2; b3; b4; b5] ->
  (zlen stack = 6 -> hgic_ota_device sc stack rf fuel (mac_text b0 b1 b2 b3 b4 b5 ++ l) fw h = Fault OutOfBounds) /\
  (9 <= zlen stack -> exists m, ztake 6 m = [b0; b1; b2; b3; b4; b5] /\
     hgic_ota_device sc stack rf fuel (mac_text b0 b1 b2 b3 b4 b5 ++ l) fw h = ota_update sc rf fuel m fw (FwImage 0 0 0 0) h).
Proof.
  intros Hb. split; intros Hs; unfold hgic_ota_device.
  - unfold bind at 1, lift. by rewrite mac_array_overflows.
  - destruct (store_ints_bytes _ stack 0 Hb) as (m & E & T); [lia|by change (zlen [b0; b1; b2; b3; b4; b5]) with 6|].
    exists m. split; [exact T|]. erewrite bind_lift; [|rewrite scan_mac_text by done; by rewrite E]. done.
Qed.

(** What an accepted file says. *)
Lemma fwinfo_get_range conv f d v :
  (forall x, 0 <= conv x < 2 ^ 32) -> fwinfo_get conv f d = Ret v -> 0 <= fst v < 2 ^ 32.
Proof.
  intros Hc. unfold fwinfo_get. intros (r & _ & E)%obind_inv. destruct (negb (r =? 0)); [injection E as <-; apply Hc|].
  destruct d as [d|]; [|done]. cbn [deref obind] in E. apply obind_inv in E as (x & _ & [= <-]). apply Hc.
Qed.
Lemma checksum_range d len :
  - 2 ^ 31 <= len < 2 ^ 31 -> zlen d < 2 ^ 31 -> fwinfo_get_fw_code_checksum (Some d) len = Ret 0 -> 0 <= len <= zlen d.
Proof.
  intros Hlen Hd. unfold fwinfo_get_fw_code_checksum. intros (l & Hl & E)%obind_inv.
  destruct (Z.eqb_spec (snd l) 0) as [H0|H0]; [|injection E; done]. cbn [negb] in E.
  apply obind_inv in E as (o & Ho & E). destruct (Z.eqb_spec (snd o) 0) as [H1|H1]; [|injection E; done]. cbn [negb deref obind] in E.
  destruct (Z.ltb_spec (s32 (len - fst o)) 0) as [H2|H2]; [done|].
  apply obind_inv in E as (c & (H3 & _ & H4 & _)%mem_read_inv & _).
  assert (fst o < 2 ^ 32) by (apply (fwinfo_get_range _ _ _ _ u32_range Ho)).
  unfold s32 in *. pose proof (Z.div_mod (len - fst o + 2 ^ 31) (2 ^ 32) ltac:(lia)). 
  assert ((len - fst o + 2 ^ 31) / 2 ^ 32 = 0 \/ (len - fst o + 2 ^ 31) / 2 ^ 32 <> 0) as [Q|Q] by lia; [lia|].
  pose proof (Z.mod_pos_bound (len - fst o + 2 ^ 31) (2 ^ 32) ltac:(lia)). nia.
Qed.
Lemma lift_inv {S A} (o : outcome A) (s : S) a s' : lift o s = Ret (a, s') -> o = Ret a /\ s' = s.
Proof. destruct o; [|done]. by intros [= -> ->]. Qed.
Lemma read_firmware_inv rf path i0 h d info h1 :
  hgic_read_firmware rf path i0 h = Ret ((Some d, info), h1) ->
  rf path = Some d /\ h1 = set_alloc (tail (ho_alloc h)) h /\ (zlen d < 2 ^ 31 -> 0 <= fi_tot_len info <= zlen d).
Proof.
  unfold hgic_read_firmware. destruct (rf path) as [f|]; [|done]. intros (p & h2 & Ha & K)%bind_inv.
  assert (h2 = set_alloc (tail (ho_alloc h)) h) as ->.
  { unfold ota_malloc in Ha. destruct (ho_alloc h) as [|[]]; by injection Ha. }
  destruct p; [|done]. run_inv. repeat match goal with H : lift _ _ = Ret _ |- _ => apply lift_inv in H as [? ->] end.
  destruct (Z.eqb_spec a3 0) as [->|]; [|done]. injection H1 as <-. split; [done|]. split; [done|]. intros Hd. cbn [fi_tot_len] in *.
  assert (0 <= fst a0 < 2 ^ 32) by (by eapply (fwinfo_get_range u32); [apply u32_range|]).
  pose proof (checksum_range _ _ (s32_range _) Hd ltac:(eassumption)) as R.
  destruct (Z.lt_ge_cases (fst a0) (2 ^ 31)); [by rewrite s32_id in R by lia|].
  unfold s32 in R. replace (fst a0 + 2 ^ 31) with (fst a0 - 2 ^ 31 + 1 * 2 ^ 32) in R by lia.
  rewrite Z.mod_add, Z.mod_small in R by lia. lia.
Qed.

(** The tool has an address and a file it accepts; the station, if it is known,
    runs another revision. *)
Record update_args (rf : list Z -> option (list Z)) (fw : list Z) (h : hgota) (mac d : list Z) (info : hgota_fw_info) : Prop := {
  ua_ok : tool_ok h;
  ua_mac : zlen mac = 6;
  ua_fw : hgic_read_firmware rf fw (FwImage 0 0 0 0) h = Ret ((Some d, info), set_alloc (tail (ho_alloc h)) h);
  ua_bytes : is_bytes d;
  ua_size : zlen d < 2 ^ 31;
  ua_new : forall s, hgic_get_device (ho_stas h) mac = Ret (Some s) -> u32 (st_svn_version s) <> fi_svn_version info }.

Section Device.
Context (sc : bool) (rf : list Z -> option (list Z)) (fw : list Z) (h : hgota) (mac d : list Z) (info : hgota_fw_info).
Context (U : update_args rf fw h mac d info).

Lemma update_facts : 6 <= zlen mac /\ 0 <= fi_tot_len info <= zlen d /\ fi_tot_len info < 2 ^ 31.
Proof using U.
  destruct U as [_ Hm Hf _ Hs _]. destruct (read_firmware_inv _ _ _ _ _ _ _ Hf) as (_ & _ & H'). specialize (H' Hs). lia.
Qed.
Lemma update_eq fuel :
  ota_update sc rf fuel mac fw (FwImage 0 0 0 0) h
  = (let! off := ota_loop sc fuel mac info d 0 0 in ret (percent info off)) (set_alloc (tail (ho_alloc h)) h).
Proof using U.
  destruct update_facts as (Hl & _). destruct U as [_ _ Hf _ _ Hn]. unfold ota_update.
  unfold bind at 1, gets. unfold hgic_get_device in *. rewrite mem_read_ok in * by lia. cbn [obind] in *.
  unfold bind at 1, lift. rewrite (bind_Ret _ _ _ _ _ Hf). cbn [fst snd].
  destruct (snd <$> list_find _ (ho_stas h)) as [s|]; [|done].
  destruct (Z.eqb_spec (u32 (st_svn_version s)) (fi_svn_version info)) as [E|_]; [by destruct (Hn s eq_refl)|done].
Qed.
Lemma update_runs fuel r h' :
  ota_loop sc fuel mac info d 0 0 (set_alloc (tail (ho_alloc h)) h) = Ret (r, h') ->
  ota_update sc rf fuel mac fw (FwImage 0 0 0 0) h = Ret (percent info r, h').
Proof using U. intros L. by rewrite update_eq, (bind_Ret _ _ _ _ _ L). Qed.
End Device.

(** ** Properties *)

(** A tool that knows one station, and a file of two fragments for it. *)
Definition demo_addr : list Z := [2; 0; 0; 0; 0; 1].
Definition demo_arg : list Z := mac_text 2 0 0 0 0 1 ++ [0].
Definition demo_file : list Z :=
  let code := replicate 1400 7 in
  image_bytes (Image 0x20000000 0x20000101 131 0xC00 0x02010001 4321 0x4002 0
    (match fwinfo_crc32 code 1400 with Ret c => c | Fault _ => 0 end)
    [2; 30] (put_unaligned_le32 1400 ++ replicate 6 0) (replicate 4 0) (replicate 73 9) 25 (replicate 4 0) (replicate 4 0 ++ code)).
Definition demo_read (path : list Z) : option (list Z) := Some demo_file.
Definition demo_info : hgota_fw_info := FwImage 0x4002 0x02010001 4321 1531.
Definition demo_tool (known : list Z) (rx : list (option (list Z))) : hgota :=
  HgOta (Sta known 0x4002 0x02010000 4000 1 0 (replicate 140 0) :: replicate 31 zero_sta) 1 (replicate 2048 0) [2; 0; 0; 0; 0; 9] rx [] [] None.
Definition demo_ack (off n : Z) : list Z :=
  concat [[2; 0; 0; 0; 0; 9]; demo_addr; htons ETH_P_OTA; [ETH_P_OTA_FW_DATA_RESPONE; 0]; [0; 0; 0; 0]; htonl off; [0; 0; 0; 0]; htons n; replicate 30 0].

Lemma demo_args known rx :
  forallb (fun f => bytesb (default [] f)) rx = true ->
  update_args demo_read [] (demo_tool known rx) demo_addr demo_file demo_info.
Proof.
  intros Hrx. split.
  - split; [vm_compute; reflexivity|apply bytesb_spec; vm_compute; reflexivity|vm_compute; reflexivity|].
    simpl. apply Forall_forall. intros f Hf. apply bytesb_spec. rewrite forallb_forall in Hrx. apply Hrx. by apply list_elem_of_In.
  - vm_compute. reflexivity.
  - vm_compute. reflexivity.
  - apply bytesb_spec. vm_compute. reflexivity.
  - vm_compute. reflexivity.
  - intros s. unfold hgic_get_device. change (mem_read demo_addr 0 6) with (Ret demo_addr). cbn [obind].
    cbn. case_decide; cbn; intros E; injection E; [intros <-; done|done].
Qed.
Lemma demo_answer off n :
  bytesb (demo_ack off n) = true -> ntohl (demo_ack off n) 20 = Ret off -> ntohs (demo_ack off n) 28 = Ret n -> 0 <= off + n < 2 ^ 31 ->
  good_answer demo_addr (off + n) (demo_ack off n).
Proof.
  intros _ H1 H2 H3. split; [|split; [vm_compute; done|done]].
  exists 0, off, n. split; [split; vm_compute; reflexivity|]. done.
Qed.

Definition demo_whole : list (option (list Z)) := [Some (demo_ack 0 1460); Some (demo_ack 1460 71)].
Definition demo_lost : list (option (list Z)) := [Some (demo_ack 0 1460); None; Some (demo_ack 0 1460); Some (demo_ack 1460 71)].
Definition demo_stray : list (option (list Z)) := replicate 3 (Some (demo_ack 0 1460)).
Lemma demo_ends : ends 0 (image_cut demo_info demo_file) = [1460; 1531].
Proof. vm_compute. reflexivity. Qed.
Lemma demo_answers : Forall2 (good_answer demo_addr) (ends 0 (image_cut demo_info demo_file)) [demo_ack 0 1460; demo_ack 1460 71].
Proof.
  rewrite demo_ends. constructor; [exact (demo_answer 0 1460 eq_refl eq_refl eq_refl ltac:(lia))|].
  constructor; [exact (demo_answer 1460 71 eq_refl eq_refl eq_refl ltac:(lia))|constructor].
Qed.

(** C27. Behind the conversion of the address: whatever is received -- answers of
    this station or others, garbage, nothing --, an update with an accepted file
    ends and never leaves a buffer: a round for every frame that comes and ten
    more are enough.  The conversion itself stores four bytes for each pair: into
    the six bytes of [mac] no complete address can be converted. *)
Theorem ota_tool_ends sc rf fw h mac d info :
  update_args rf fw h mac d info ->
  (exists r h', ota_update sc rf (length (ho_rx h) + 10) mac fw (FwImage 0 0 0 0) h = Ret (r, h')) /\
  forall stack fuel b0 b1 b2 b3 b4 b5 l,
    Forall is_byte [b0; b1; b2; b3; b4; b5] ->
    (zlen stack = 6 -> hgic_ota_device sc stack rf fuel (mac_text b0 b1 b2 b3 b4 b5 ++ l) fw h = Fault OutOfBounds) /\
    (9 <= zlen stack -> exists m, ztake 6 m = [b0; b1; b2; b3; b4; b5] /\
       hgic_ota_device sc stack rf fuel (mac_text b0 b1 b2 b3 b4 b5 ++ l) fw h = ota_update sc rf fuel m fw (FwImage 0 0 0 0) h).
Proof.
  intros U. split; [|intros stack fuel b0 b1 b2 b3 b4 b5 l Hb; by apply address_converts].
  destruct (update_facts _ _ _ _ _ _ U) as (Hm & Ht & Hb).
  destruct (loop_total sc mac info d Hm (ua_bytes _ _ _ _ _ _ U) Ht Hb (length (ho_rx h) + 10) 0 0 (set_alloc (tail (ho_alloc h)) h))
    as (r & h' & E & _); [by destruct (ua_ok _ _ _ _ _ _ U); split|lia|lia| |].
  - simpl. case_bool_decide; simpl; lia.
  - exists (percent info r), h'. by apply (update_runs _ _ _ _ mac d info U).
Qed.

Lemma ota_tool_ends_witness :
  let h := demo_tool demo_addr [Some [1; 2; 3]; None] in
  (exists r h', ota_update true demo_read 12 demo_addr [] (FwImage 0 0 0 0) h = Ret (r, h')) /\
  hgic_ota_device true (replicate 6 0) demo_read 12 demo_arg [] h = Fault OutOfBounds.
Proof.
  intros h. destruct (ota_tool_ends true demo_read [] h demo_addr demo_file demo_info) as [E C];
    [apply demo_args; reflexivity|]. split; [exact E|].
  apply (C (replicate 6 0) 12%nat 2 0 0 0 0 1 [0]); [|reflexivity].
  repeat constructor; unfold is_byte; vm_compute; done.
Defined.

(** C28. Behind the conversion of the address, with memory for every frame: an
    update of a known station that answers every fragment with status 0 (no
    error) sends frames with the consecutive fragments of the image, which
    concatenate to the length its header gives, and reports the whole as done. *)
Theorem ota_tool_delivers sc rf fw h mac d info fs :
  update_args rf fw h mac d info -> ho_alloc h = [] -> ztake 6 mac ∈ st_addr <$> ho_stas h ->
  let frs := image_cut info d in
  ho_rx h = map Some fs -> Forall2 (good_answer mac) (ends 0 frs) fs ->
  concat frs = ztake (fi_tot_len info) d /\
  exists h', ota_update sc rf (length frs) mac fw (FwImage 0 0 0 0) h = Ret (percent info (fi_tot_len info), h') /\
    ho_sent h' = ho_sent h ++ frames sc mac info h 0 frs.
Proof.
  intros U Hal Hin frs Hrx Hfs. destruct (update_facts _ _ _ _ _ _ U) as (Hm & Ht & Hb).
  destruct (image_cut_ok mac info d Ht) as [Hc Hcc]. fold frs in Hc, Hcc. split; [done|].
  destruct (loop_acked sc mac info d Hm (ua_bytes _ _ _ _ _ _ U) Ht Hb 0 frs 0 0 (set_alloc (tail (ho_alloc h)) h) fs [])
    as (retry & h' & E & Hr & A); [done|done|by rewrite app_nil_r|by destruct (ua_ok _ _ _ _ _ _ U); split|by rewrite Hal|done|lia|lia|].
  exists h'. split.
  - apply (update_runs _ _ _ _ mac d info U). rewrite Nat.add_0_r in E. rewrite E, Hcc, zlen_ztake by lia. cbn [ota_loop].
    by rewrite Z.ltb_irrefl.
  - rewrite (af_sent _ _ _ _ A). simpl. by rewrite (frames_mac _ _ _ _ h).
Qed.

Lemma ota_tool_delivers_witness :
  exists h', ota_update true demo_read 2 demo_addr [] (FwImage 0 0 0 0) (demo_tool demo_addr demo_whole)
    = Ret (Some 100, h') /\ length (ho_sent h') = 2%nat.
Proof.
  destruct (ota_tool_delivers true demo_read [] (demo_tool demo_addr demo_whole)
    demo_addr demo_file demo_info [demo_ack 0 1460; demo_ack 1460 71] (demo_args demo_addr demo_whole eq_refl) eq_refl)
    as (_ & h' & E & S); [by apply list_elem_of_here|reflexivity|apply demo_answers|].
  exists h'. split; [exact E|]. rewrite S. vm_compute. reflexivity.
Defined.

(** A lost answer costs everything that was delivered: after it the first
    fragment is sent again, and all that follow, though the station had answered
    [length pre] of them. *)
Lemma ota_tool_restarts sc rf fw h mac d info fs1 fs2 pre x post :
  update_args rf fw h mac d info -> ho_alloc h = [] -> ztake 6 mac ∈ st_addr <$> ho_stas h ->
  let frs := image_cut info d in
  frs = pre ++ x :: post ->
  ho_rx h = map Some fs1 ++ None :: map Some fs2 ->
  Forall2 (good_answer mac) (ends 0 pre) fs1 -> Forall2 (good_answer mac) (ends 0 frs) fs2 ->
  exists h', ota_update sc rf (length pre + (1 + length frs)) mac fw (FwImage 0 0 0 0) h = Ret (percent info (fi_tot_len info), h') /\
    ho_sent h' = ho_sent h ++ frames sc mac info h 0 (pre ++ [x]) ++ frames sc mac info h 0 frs.
Proof.
  intros U Hal Hin frs Hsplit Hrx Hfs1 Hfs2. destruct (update_facts _ _ _ _ _ _ U) as (Hm & Ht & Hb).
  destruct (image_cut_ok mac info d Ht) as [Hc Hcc]. fold frs in Hc, Hcc.
  pose proof Hc as Hc'. rewrite Hsplit in Hc'. apply cut_from_app in Hc' as [Hc1 (Hx & Ex & _)].
  pose proof (ua_bytes _ _ _ _ _ _ U) as Hd. rewrite Z.add_0_l in *.
  destruct (loop_acked sc mac info d Hm Hd Ht Hb (1 + length frs) pre 0 0 (set_alloc (tail (ho_alloc h)) h) fs1 (None :: map Some fs2))
    as (retry & h1 & E1 & Hr & A1); [done|done|done|by destruct (ua_ok _ _ _ _ _ _ U); split|by rewrite Hal|done|lia|lia|].
  rewrite Z.add_0_l in E1. pose proof (zlen_nonneg (concat pre)).
  assert (ho_rx h1 = None :: map Some fs2) as Erx1.
  { rewrite (af_rx _ _ _ _ A1). simpl. rewrite Hrx. apply drop_app_length'. rewrite length_map. 
    pose proof (Forall2_length _ _ _ Hfs1) as L. rewrite <- L. clear. generalize 0. induction pre as [|y l IH]; intros z; cbn; [done|]. by rewrite (IH (z + zlen y)). }
  destruct (round_silent sc mac info d Hm Hd Ht Hb (length frs) (zlen (concat pre)) retry h1) as (h2 & E2 & A2);
    [apply A1|apply A1|lia|lia|unfold arrived; by rewrite Erx1|].
  pose proof (after_trans _ _ _ _ _ _ _ A1 A2) as A12.
  destruct (loop_acked sc mac info d Hm Hd Ht Hb 0 frs 0 (retry + 1) h2 fs2 [])
    as (retry' & h3 & E3 & Hr' & A3);
    [done|done|by rewrite app_nil_r, (af_rx _ _ _ _ A2), Erx1|apply A2|apply A2|by rewrite (af_addrs _ _ _ _ A12)|lia|lia|].
  exists h3. split.
  - apply (update_runs _ _ _ _ mac d info U).
    change (S (length frs)) with (1 + length frs)%nat in E2. rewrite E1, E2. rewrite Nat.add_0_r in E3. rewrite E3, Hcc, zlen_ztake by lia.
    cbn [ota_loop]. by rewrite Z.ltb_irrefl.
  - rewrite (af_sent _ _ _ _ (after_trans _ _ _ _ _ _ _ A12 A3)). simpl. f_equal. f_equal; [|apply frames_mac, A12].
    rewrite frames_app. cbn [frames]. rewrite Z.add_0_l, Ex. unfold the_frame. rewrite (af_mac _ _ _ _ A1). simpl.
    by rewrite (frames_mac _ _ _ _ h).
  - exact Ht.
Qed.

Lemma ota_tool_restarts_witness :
  exists h', ota_update true demo_read 4 demo_addr [] (FwImage 0 0 0 0)
      (demo_tool demo_addr demo_lost)
    = Ret (Some 100, h') /\ length (ho_sent h') = 4%nat.
Proof.
  destruct (image_cut demo_info demo_file) as [|x [|y [|]]] eqn:E; [vm_compute in E; discriminate..| |vm_compute in E; discriminate].
  destruct (ota_tool_restarts true demo_read []
    (demo_tool demo_addr demo_lost)
    demo_addr demo_file demo_info [demo_ack 0 1460] [demo_ack 0 1460; demo_ack 1460 71] [x] y [] (demo_args demo_addr demo_lost eq_refl) eq_refl)
    as (h' & R & S); [by apply list_elem_of_here|done|reflexivity| |apply demo_answers|].
  - pose proof demo_answers as A. rewrite E in A. apply Forall2_cons in A as [A _]. constructor; [exact A|constructor].
  - rewrite E in R, S. exists h'. split; [exact R|]. rewrite S. reflexivity.
Defined.

(** An update of a station that is not in the table never gets on: however
    many answers come, it is where it began, has sent its first fragment once for
    each, and no failed round is counted. *)
Lemma ota_tool_unknown_station sc rf fw h mac d info fs rx m :
  update_args rf fw h mac d info -> ho_alloc h = [] -> ztake 6 mac ∉ st_addr <$> ho_stas h -> 0 < fi_tot_len info ->
  ho_rx h = map Some fs ++ rx ->
  Forall (fun f => zlen f <= sizeof_rxbuf /\ exists src status, frame_of f src ETH_P_OTA_FW_DATA_RESPONE status /\
            src ∉ st_addr <$> ho_stas h) fs ->
  exists h', ota_update sc rf (length fs + m) mac fw (FwImage 0 0 0 0) h = (let! off := ota_loop sc m mac info d 0 0 in ret (percent info off)) h' /\
    ho_sent h' = ho_sent h ++ replicate (length fs) (the_frame sc mac info h 0 (frag info d 0)) /\ ho_rx h' = rx.
Proof.
  intros U Hal Hin Ht Erx Hfs. destruct (update_facts _ _ _ _ _ _ U) as (Hm & Htot & Hb).
  destruct (loop_unknown sc mac info d Hm (ua_bytes _ _ _ _ _ _ U) Htot Hb m fs (set_alloc (tail (ho_alloc h)) h) rx)
    as (h' & E & A); [by destruct (ua_ok _ _ _ _ _ _ U); split|by rewrite Hal|done..|].
  exists h'. split; [|split].
  - rewrite (update_eq _ _ _ _ mac d info U). unfold bind at 1. by rewrite E.
  - by rewrite (af_sent _ _ _ _ A).
  - rewrite (af_rx _ _ _ _ A). simpl. rewrite Erx. apply drop_app_length'. by rewrite length_map.
Qed.

Lemma ota_tool_unknown_station_witness :
  exists h', ota_update true demo_read 3 demo_addr [] (FwImage 0 0 0 0) (demo_tool [2; 0; 0; 0; 0; 7] demo_stray)
    = (let! off := ota_loop true 0 demo_addr demo_info demo_file 0 0 in ret (percent demo_info off)) h' /\
    length (ho_sent h') = 3%nat.
Proof.
  assert (demo_addr ∉ st_addr <$> ho_stas (demo_tool [2; 0; 0; 0; 0; 7] [])) as N by (apply (bool_decide_unpack _); vm_compute; exact I).
  destruct (ota_tool_unknown_station true demo_read [] (demo_tool [2; 0; 0; 0; 0; 7] demo_stray)
    demo_addr demo_file demo_info (replicate 3 (demo_ack 0 1460)) [] 0 (demo_args [2; 0; 0; 0; 0; 7] demo_stray eq_refl) eq_refl N)
    as (h' & R & S & _); [reflexivity|reflexivity| |].
  - apply Forall_replicate. split; [vm_compute; done|]. exists demo_addr, 0. split; [split; vm_compute; reflexivity|exact N].
  - exists h'. split; [exact R|]. rewrite S. reflexivity.
Defined.

(** ** Set-up and files that are refused *)
(** The results of the two requests for the interface are not looked at: with an
    unknown interface the tool goes on with address 0. *)
Lemma sock_init_unknown_interface raw_ok name rest h :
  no_nul name -> zlen name <= 16 ->
  hgic_sock_init (fun _ => None) (fun _ => None) true raw_ok (name ++ 0 :: rest) h = Ret (Z.b2z raw_ok, set_mac (replicate 6 0) h).
Proof.
  intros Hn Hl. unfold hgic_sock_init. cbn [negb]. cbv iota. rewrite (bind_lift _ _ _ _ (cstr_app _ _ Hn)).
  erewrite bind_lift; [|apply mem_write_ok; [lia|change (zlen (replicate 16 0)) with 16; lia]]. done.
Qed.
(** A name of more than sixteen bytes is copied all the same. *)
Lemma sock_init_long_name ii ih raw_ok name rest h :
  no_nul name -> 16 < zlen name -> hgic_sock_init ii ih true raw_ok (name ++ 0 :: rest) h = Fault OutOfBounds.
Proof.
  intros Hn Hl. unfold hgic_sock_init. cbn [negb]. cbv iota. rewrite (bind_lift _ _ _ _ (cstr_app _ _ Hn)). unfold bind at 1, lift, mem_write.
  change (zlen (replicate 16 0)) with 16. destruct (Z.leb_spec (0 + zlen name) 16); [lia|]. done.
Qed.
(** A file shorter than a header is read beyond its end. *)
Lemma short_firmware_overread rf path f i0 h :
  rf path = Some f -> zlen f < 2 -> ho_alloc h = [] -> hgic_read_firmware rf path i0 h = Fault OutOfBounds.
Proof.
  intros Hf Hl Ha. unfold hgic_read_firmware. rewrite Hf. unfold bind at 1, ota_malloc. rewrite Ha.
  destruct f as [|a [|b f]]; [done|done|]. rewrite !zlen_cons in Hl. pose proof (zlen_nonneg f). lia.
Qed.
