(* ===== verification/OtaTable.v ===== *)
(** * Updating over the network: the stations found and their configuration

    The table of the library as the set of stations it stands for: a scan fills it
    with the sources of the reports that arrive, in the order they first do, and
    no other frame adds, removes or renames one.  And the configuration of a
    station, which is stored as it was sent, or not at all.  The definitions are in
    files [LibOta] and [OtaTool]; the picture of the table on the screen is here. *)
From Stdlib Require Import String.
From S2P Require Import Prelude Bytes CString Proto FwInfo Utils Format Libc Ota LibOta OtaTool.

(** ** The table on the screen *)
(** One line per station in use, between two rules. *)
Definition show_line (s : hgota_sta) : outcome (list Z) :=
  leto m := mem_read (st_addr s) 0 6 in
  let v := st_version s in
  format Text (str "| " ++ MACSTR ++ str ", chipid:%x, version:%d.%d.%d.%d-%d |" ++ crlf)
    (map (fun b => AInt (Z.land b 0xff)) m ++
     [AInt (st_chipid s); AInt (Z.land (Z.shiftr v 24) 0xff); AInt (Z.land (Z.shiftr v 16) 0xff);
      AInt (Z.land (Z.shiftr v 8) 0xff); AInt (Z.land v 0xff); AInt (st_svn_version s)]).
Fixpoint show_lines (stas : list hgota_sta) : outcome (list Z) :=
  match stas with
  | [] => Ret []
  | s :: stas =>
      leto t := (if negb (st_online s =? 0) then show_line s else Ret []) in
      leto r := show_lines stas in Ret (t ++ r)
  end.
Definition rule : list Z := replicate 66 45 ++ crlf.
Definition hgic_show_device (stas : list hgota_sta) : outcome (list Z) :=
  leto t := show_lines stas in Ret (crlf ++ rule ++ t ++ rule).

(** ** The table as a set *)
Definition no_addr : list Z := replicate 6 0.
(** Stations [l] in use, in front of entries that are not. *)
Record holds (l : list hgota_sta) (h : hgota) : Prop := {
  ho_table : ho_stas h = l ++ replicate (OTA_STA_COUNT - length l) zero_sta;
  ho_room : (length l <= OTA_STA_COUNT)%nat;
  ho_online : Forall (fun s => st_online s = 1) l;
  ho_distinct : NoDup (st_addr <$> l);
  ho_real : no_addr ∉ st_addr <$> l;
  ho_number : ho_sta_count h = Z.of_nat (length l) }.
(** The table stands for the addresses [as_]. *)
Definition table_of (as_ : list (list Z)) (h : hgota) : Prop := exists l, st_addr <$> l = as_ /\ holds l h.

(** The screen shows the stations of the table, each on a line of its own, in their
    order. *)
Lemma show_lines_app l k : show_lines k = Ret [] -> show_lines (l ++ k) = show_lines l.
Proof. intros Hk. induction l as [|s l IH]; [done|]. cbn [app show_lines]. by rewrite IH. Qed.
Lemma show_lines_of_table l h :
  holds l h ->
  show_lines (ho_stas h) = fold_right (fun s r => leto t := show_line s in leto r := r in Ret (t ++ r)) (Ret []) l.
Proof.
  intros [-> _ Ho _ _ _]. rewrite show_lines_app.
  - induction Ho as [|s l Hs _ IH]; [done|]. cbn [show_lines fold_right]. by rewrite Hs, IH.
  - generalize (OTA_STA_COUNT - length l)%nat. intros k. induction k as [|k IH]; [done|]. cbn [replicate show_lines]. by rewrite IH.
Qed.

(** What a report adds. *)
Definition learn (as_ : list (list Z)) (a : list Z) : list (list Z) :=
  if decide (a ∈ as_) then as_ else if decide (length as_ < OTA_STA_COUNT)%nat then as_ ++ [a] else as_.
Definition reporter (f : list Z) : option (list Z) :=
  match mem_read f 6 6, ntohs f 12, mem_get f 14 with
  | Ret a, Ret p, Ret t => if (p =? ETH_P_OTA) && (t =? ETH_P_OTA_SCAN_REPORT) then Some a else None
  | _, _, _ => None
  end.

Lemma find_in_use l n a : a <> no_addr -> find_addr (l ++ replicate n zero_sta) a = find_addr l a.
Proof.
  intros Ha. induction l as [|s l IH]; cbn.
  - unfold find_addr. induction n as [|n IH]; cbn; [done|]. rewrite decide_False by done. by destruct (list_find _ (replicate n zero_sta)).
  - unfold find_addr in *. cbn. case_decide; [done|]. destruct (list_find _ (l ++ _)) as [[]|], (list_find _ l) as [[]|]; simpl in *; naive_solver.
Qed.
Lemma new_in_use l n :
  Forall (fun s => st_online s = 1) l -> libota_new_sta (l ++ replicate n zero_sta) = if decide (0 < n)%nat then Some (length l) else None.
Proof.
  intros Hl. unfold libota_new_sta. induction Hl as [|s l Hs Hl IH]; cbn.
  - destruct n; cbn; [done|]. by rewrite decide_True by lia.
  - rewrite decide_False by lia. destruct (list_find _ (l ++ _)) as [[]|]; simpl in *; case_decide; naive_solver.
Qed.

Lemma list_alter_end (f : hgota_sta -> hgota_sta) l k : alter f (length l) (l ++ k) = l ++ alter f 0%nat k.
Proof. induction l as [|x l IH]; [done|]. cbn. f_equal. exact IH. Qed.

(** Changes to an entry in use. *)
Lemma holds_alter l h f i n :
  holds l h -> (i < length l)%nat -> (forall s, st_addr (f s) = st_addr s /\ (st_online s = 1 -> st_online (f s) = 1)) -> n = ho_sta_count h ->
  holds (alter f i l) (set_stas (alter f i (ho_stas h)) n h).
Proof.
  intros [H1 H2 H3 H4 H5 H6] Hi Hf ->. split; simpl; rewrite ?length_alter; try done.
  - by rewrite H1, alter_app_l.
  - apply Forall_alter; [done|]. intros s _. apply Hf.
  - by rewrite addrs_alter by apply Hf.
  - by rewrite addrs_alter by apply Hf.
Qed.
Lemma find_holds l h a :
  holds l h -> a <> no_addr ->
  match find_addr (ho_stas h) a with Some i => (i < length l)%nat /\ a ∈ st_addr <$> l | None => a ∉ st_addr <$> l end.
Proof.
  intros [H1 _ _ _ _ _] Ha. rewrite H1, find_in_use by done. destruct (find_addr l a) as [i|] eqn:E; [|by apply find_addr_None].
  apply find_addr_Some in E as (s & Hs & <- & _). split; [by eapply lookup_lt_Some|]. apply list_elem_of_fmap.
  exists s. split; [done|]. by eapply list_elem_of_lookup_2.
Qed.

(** ** A frame and the table *)
Section Received.
Context (sc : bool) (b src : list Z) (ty : Z) (Hb : is_bytes b) (Hl : 160 <= zlen b).
Context (Hsrc : mem_read b 6 6 = Ret src) (Hreal : src <> no_addr).

(** What the table becomes, and that nothing else changes. *)
Definition becomes (as_ : list (list Z)) (h : hgota) (m : M hgota Z) : Prop :=
  exists r l n, m h = Ret (r, set_stas l n h) /\ table_of as_ (set_stas l n h).

Lemma becomes_same l h r : holds l h -> becomes (st_addr <$> l) h (ret r).
Proof. intros H. exists r, (ho_stas h), (ho_sta_count h). split; [by destruct h|]. exists l. split; [done|]. by destruct h. Qed.
Lemma becomes_upd l h f i r :
  holds l h -> (i < length l)%nat -> (forall s, st_addr (f s) = st_addr s /\ (st_online s = 1 -> st_online (f s) = 1)) ->
  becomes (st_addr <$> l) h (upd_sta i f ;;; ret r).
Proof.
  intros H Hi Hf. exists r, (alter f i (ho_stas h)), (ho_sta_count h). split; [done|]. exists (alter f i l).
  split; [by apply addrs_alter, Hf|]. by apply holds_alter.
Qed.

Lemma becomes_head as_ h (k : list hgota_sta -> option nat -> M hgota Z) :
  becomes as_ h (k (ho_stas h) (find_addr (ho_stas h) src)) ->
  becomes as_ h (let! stas := gets ho_stas in let! src := lift (mem_read b 6 6) in
    let! sta := lift (libota_find_sta stas (Some src)) in k stas sta).
Proof using Hsrc.
  unfold becomes. unfold bind at 1, gets. by rewrite (bind_lift _ _ _ _ Hsrc), (bind_lift _ _ _ _ (find_src_eq _ _ _ Hsrc)).
Qed.

Lemma add_sta_table l h : holds l h -> becomes (learn (st_addr <$> l) src) h (libota_add_sta b).
Proof using Hb Hl Hsrc Hreal.
  intros H. pose proof (find_holds l h src H Hreal) as F. destruct (report_nf b Hb Hl) as [f Ef].
  unfold becomes, libota_add_sta. unfold bind at 1, gets.
  rewrite (bind_lift _ _ _ _ Hsrc), (bind_lift _ _ _ _ (find_src_eq _ _ _ Hsrc)). unfold learn.
  destruct (find_addr (ho_stas h) src) as [i|]; [rewrite decide_True by apply F|rewrite decide_False by apply F].
  - rewrite (bind_lift _ _ _ _ Ef). apply becomes_upd; [done|apply F|done].
  - rewrite (ho_table _ _ H), new_in_use by apply H. rewrite length_fmap.
    destruct (decide (0 < OTA_STA_COUNT - length l)%nat) as [R|R];
      [rewrite decide_True by lia|rewrite decide_False by (pose proof (ho_room _ _ H); lia); by apply becomes_same].
    rewrite (bind_lift _ _ _ _ Ef). set (s := Sta src (fst (fst f)) (snd (fst f)) (snd f) 1 0 (replicate 140 0)).
    exists 1, (alter (fun _ => s) (length l) (ho_stas h)), (ho_sta_count h + 1). split; [done|].
    exists (l ++ [s]). rewrite fmap_app. split; [done|]. destruct H as [H1 H2 H3 H4 H5 H6]. split; simpl; rewrite ?length_app, ?fmap_app.
    + rewrite H1. rewrite list_alter_end.
      destruct (OTA_STA_COUNT - length l)%nat as [|n] eqn:En; [lia|]. simpl. rewrite <- app_assoc. simpl. do 3 f_equal. lia.
    + simpl. lia.
    + apply Forall_app. split; [done|]. by repeat constructor.
    + apply NoDup_app. split; [done|]. split; [|apply NoDup_singleton]. intros a Ha ->%list_elem_of_singleton. done.
    + intros [Ha|Ha]%elem_of_app; [done|]. by apply list_elem_of_singleton in Ha.
    + simpl. lia.
Qed.

(** Whatever a frame is, it adds at most the source of a report. *)
Lemma rx_table len l h :
  holds l h -> 0 < len ->
  becomes (match reporter b with Some a => learn (st_addr <$> l) a | None => st_addr <$> l end) h (libota_rx_proc sc (Some b) len).
Proof using Hb Hl Hsrc Hreal.
  intros H Hlen. pose proof (find_holds l h src H Hreal) as F.
  destruct (ntohs_nf b Hb Hl 12) as [p Ep]; [lia..|]. destruct (get_nf b Hb Hl 14) as [t Et]; [lia|]. destruct (get_nf b Hb Hl 15) as [st Est]; [lia|].
  unfold reporter. rewrite Hsrc, Ep, Et. unfold libota_rx_proc. destruct (Z.leb_spec len 0); [lia|].
  apply becomes_head. unfold becomes. rewrite (bind_lift _ _ _ _ Ep). destruct (p =? ETH_P_OTA); cbn [negb andb]; [|by apply becomes_same].
  rewrite (bind_lift _ _ _ _ Et), (bind_lift _ _ _ _ Est).
  destruct (t =? ETH_P_OTA_SCAN_REPORT).
  { destruct (add_sta_table l h H) as (r & l' & n & E & T). rewrite (bind_Ret _ _ _ _ _ E). by eexists _, l', n. }
  destruct (t =? ETH_P_OTA_FW_DATA_RESPONE).
  { destruct (find_addr _ _) as [i|]; [|by apply becomes_same]. destruct (negb (st =? 255)); [|by apply becomes_same].
    destruct (ntohl_nf b Hb Hl 20) as [o Eo]; [lia..|]. destruct (ntohs_nf b Hb Hl 28) as [n En]; [lia..|].
    unfold bind at 1. rewrite (bind_lift _ _ _ _ Eo), (bind_lift _ _ _ _ En). apply becomes_upd; [done|apply F|done]. }
  destruct (t =? ETH_P_OTA_FW_GET_PARAM_RESP).
  { destruct (check_sum_nf sc b Hb Hl) as [c Ec]. destruct (ntohs_nf b Hb Hl 18) as [q Eq]; [lia..|].
    unfold sizeof_eth_ota_fwparam. rewrite (bind_lift _ _ _ _ Ec), (bind_lift _ _ _ _ Eq).
    destruct (find_addr _ _) as [i|]; [|by apply becomes_same]. destruct (q =? c); [|by apply becomes_same].
    destruct (read_nf b Hl 20 140) as [pa Ea]; [lia..|]. rewrite (bind_lift _ _ _ _ Ea). apply becomes_upd; [done|apply F|done]. }
  destruct (t =? ETH_P_OTA_FW_SET_PARAM_RESP); [destruct (find_addr _ _)|]; by apply becomes_same.
Qed.
End Received.

(** ** A scan *)
(** A frame as long as a report, from a station with an address. *)
Definition scannable (f : option (list Z)) : Prop :=
  match f with
  | Some f => 28 <= zlen f <= sizeof_rxbuf /\ mem_read f 6 6 <> Ret no_addr
  | None => True
  end.
Definition reporters (fs : list (option (list Z))) : list (list Z) := omap (fun f => f ≫= reporter) fs.

Lemma reporter_prefix f rest : is_bytes f -> 28 <= zlen f -> reporter (f ++ rest) = reporter f.
Proof.
  intros Hb Hl. unfold reporter.
  assert (mem_read f 6 6 = Ret (ztake 6 (zdrop 6 f))) as E by (apply mem_read_ok; lia).
  destruct (ntohs_ok f 12 Hb) as (p & Ep & _); [lia..|]. destruct (mem_get_byte f 14 Hb) as (t & Et & _); [lia|].
  by rewrite E, Ep, Et, (mem_read_prefix _ _ _ _ _ E), (ntohs_prefix _ _ _ _ Ep), (mem_get_prefix _ _ _ _ Et).
Qed.

Lemma scan_round sc i as_ h :
  tool_ok h -> table_of as_ h -> 1 <= i <= 15 -> Forall scannable (ho_rx h) ->
  exists h', (forall n, scan_rounds sc (S n) i h = scan_rounds sc n (i + 1) h') /\
    table_of (fold_left learn (reporters (take 1 (ho_rx h))) as_) h' /\
    tool_ok h' /\ ho_sent h' = ho_sent h /\ ho_rx h' = tail (ho_rx h).
Proof.
  intros Hok (l & <- & H) Hi Hs.
  assert ((Z.land i 0xf =? 0) = false) as E15.
  { change 0xf with (Z.ones 4). rewrite Z.land_ones, Z.mod_small by lia. apply Z.eqb_neq. lia. }
  destruct (recv_ok h Hok) as (rest & Er & Hok'). cbv zeta in Er, Hok'. set (g := set_rx (arrived h ++ rest) (tail (ho_rx h)) h) in *.
  assert (holds l g) as Hg by (by destruct H; split).
  assert (forall n, scan_rounds sc (S n) i h =
    bind (if 0 <? zlen (arrived h) then bind (gets ho_rxbuf) (fun b => libota_rx_proc sc (Some b) (zlen (arrived h))) else ret 0)
      (fun _ => scan_rounds sc n (i + 1)) g) as R.
  { intros n. cbn [scan_rounds]. rewrite E15. unfold bind at 1, ret at 1. by rewrite (bind_Ret _ _ _ _ _ Er). }
  assert (arrived h = [] -> exists h', (forall n, scan_rounds sc (S n) i h = scan_rounds sc n (i + 1) h') /\
    table_of (st_addr <$> l) h' /\ tool_ok h' /\ ho_sent h' = ho_sent h /\ ho_rx h' = tail (ho_rx h)) as Hnone.
  { intros E. exists g. rewrite E in *. split; [intros n; by rewrite R|]. split; [by exists l|done]. }
  destruct (ho_rx h) as [|[f|] rx] eqn:Erx; [apply Hnone; unfold arrived; by rewrite Erx| |apply Hnone; unfold arrived; by rewrite Erx].
  clear Hnone. apply Forall_cons in Hs as [[Hl Hf] _].
  assert (arrived h = f) as Ea by (unfold arrived; rewrite Erx; apply ztake_all; lia). rewrite Ea in *.
  assert (is_bytes f) as Hfb by (pose proof (to_rx _ Hok) as T; rewrite Erx in T; by apply Forall_cons in T as [T _]).
  assert (mem_read f 6 6 = Ret (ztake 6 (zdrop 6 f))) as Es by (apply mem_read_ok; lia).
  assert (ho_rxbuf g = f ++ rest) as Eg by (subst g; simpl; by rewrite Ea).
  pose proof (to_size _ Hok') as Sz. pose proof (to_bytes _ Hok') as Sb. rewrite Eg in Sz, Sb. unfold sizeof_rxbuf in Sz.
  destruct (rx_table sc (f ++ rest) _ Sb ltac:(lia) (mem_read_prefix _ _ _ _ _ Es)
    ltac:(intros E; rewrite E in Es; done) (zlen f) l g Hg ltac:(lia)) as (r & l' & n & E & T).
  exists (set_stas l' n g). split; [intros k; rewrite R|].
  - destruct (Z.ltb_spec 0 (zlen f)); [|lia].
    rewrite (bind_Ret (bind (gets ho_rxbuf) (fun b => libota_rx_proc sc (Some b) (zlen f))) _ g r (set_stas l' n g)); [done|].
    unfold bind, gets. by rewrite Eg.
  - rewrite reporter_prefix in T by (done || lia). split; [|split; [by destruct Hok'; split|done]].
    unfold reporters. cbn. destruct (reporter f); exact T.
Qed.

Lemma scan_rounds_table sc n : forall i as_ h,
  tool_ok h -> table_of as_ h -> 1 <= i -> i + Z.of_nat n <= 16 -> Forall scannable (ho_rx h) ->
  exists h', scan_rounds sc n i h = Ret (tt, h') /\ table_of (fold_left learn (reporters (take n (ho_rx h))) as_) h' /\
    ho_sent h' = ho_sent h.
Proof.
  induction n as [|n IH]; intros i as_ h Hok Ht Hi Hn Hs; [by exists h|].
  destruct (scan_round sc i as_ h Hok Ht ltac:(lia) Hs) as (h1 & E1 & T1 & Hok1 & S1 & R1).
  destruct (IH (i + 1) _ h1 Hok1 T1) as (h2 & E2 & T2 & S2); [lia..|rewrite R1; by destruct Hs|].
  exists h2. rewrite E1, E2. split; [done|]. split; [|congruence]. rewrite R1 in T2.
  destruct (ho_rx h) as [|x rx]; [simpl in T2 |- *; rewrite take_nil in T2; exact T2|]. simpl in *. unfold reporters in *. simpl in *. 
  destruct (x ≫= reporter); exact T2.
Qed.

Definition scan_frame (mac : list Z) : list Z := concat [replicate 6 0xff; mac; htons ETH_P_OTA; [ETH_P_OTA_SCAN]; [0]].
Lemma libota_scan_ok clear h :
  zlen (ho_mac_addr h) = 6 ->
  libota_scan clear h = Ret (16, set_sent (ho_sent h ++ [scan_frame (ho_mac_addr h)])
                                   (if clear then set_stas (replicate OTA_STA_COUNT zero_sta) 0 h else h)).
Proof.
  intros Hm. unfold libota_scan. set (g := if clear then _ else h).
  assert ((if clear then libota_clear_sta else ret tt) h = Ret (tt, g)) as E by (subst g; by destruct clear).
  rewrite (bind_Ret _ _ _ _ _ E). change (replicate 16 0) with (concat [replicate 6 0; replicate 6 0; [0; 0]; [0]; [0]]).
  assert (eth_hdr (concat [replicate 6 0; replicate 6 0; [0; 0]; [0]; [0]]) (replicate 6 0xff) ETH_P_OTA_SCAN
    = Ret (concat [replicate 6 0xff; replicate 6 0; htons ETH_P_OTA; [ETH_P_OTA_SCAN]; [0]])) as Eh by (by apply eth_hdr_chunks).
  rewrite (bind_lift _ _ _ _ Eh).
  assert (ho_mac_addr g = ho_mac_addr h /\ ho_sent g = ho_sent h) as [E1 E2] by (subst g; by destruct clear).
  rewrite raw_sock_send_chunks; [by rewrite E1, E2|done|done|by rewrite E1|done].
Qed.

(** *** Properties *)

(** C29. A scan: one request goes out, and whatever arrives in the ten waits, the
    stations in the table afterwards are exactly the senders of the reports, each
    once and in the order of its first report; their number is printed, and the
    table is written to the file. *)
Theorem scan_finds_reporters sc h :
  tool_ok h -> Forall scannable (ho_rx h) ->
  let found := fold_left learn (reporters (take 10 (ho_rx h))) [] in
  exists h', hgic_scan_device sc h = Ret (Z.of_nat (length found), h') /\ NoDup found /\
    st_addr <$> filter (fun s => st_online s <> 0) (ho_stas h') = found /\
    ho_file h' = Some (ho_stas h') /\ ho_sent h' = ho_sent h ++ [scan_frame (ho_mac_addr h)].
Proof.
  intros Hok Hs found. unfold hgic_scan_device. rewrite (bind_Ret _ _ _ _ _ (libota_scan_ok true h (to_mac _ Hok))).
  set (h1 := set_sent _ _).
  assert (table_of [] h1) as T1 by (exists []; split; [done|]; split; try done; cbn; (lia || by constructor || by intros ?%elem_of_nil)).
  destruct (scan_rounds_table sc 10 1 [] h1) as (h2 & E & (l & El & H) & S); [by destruct Hok; split|done|lia|lia|done|].
  rewrite (bind_Ret _ _ _ _ _ E). change (ho_rx h1) with (ho_rx h) in El. fold found in El.
  eexists. split; [unfold bind, hgic_save_device, modify, gets; simpl; rewrite (ho_number _ _ H), <- El, length_fmap; reflexivity|].
  split; [rewrite <- El; apply H|]. simpl. split; [|by rewrite S].
  rewrite (ho_table _ _ H), filter_app, <- El, fmap_app.
  assert (filter (fun s => st_online s <> 0) l = l) as ->.
  { pose proof (ho_online _ _ H) as O. clear -O. induction O as [|s l Hs O IH]; [done|]. rewrite filter_cons_True by lia. by rewrite IH. }
  assert (forall n, filter (fun s => st_online s <> 0) (replicate n zero_sta) = []) as ->; [|apply app_nil_r].
  intros n. induction n as [|n IH]; [done|]. simpl. by rewrite filter_cons_False by (simpl; lia).
Qed.

(** Three reports, two of them of the same station, and a frame of another kind. *)
Definition demo_report (ty x : Z) : list Z := concat [replicate 6 0xff; [2; 0; 0; 0; 0; x]; htons ETH_P_OTA; [ty; 0]; replicate 44 0].
Definition demo_scan : list (option (list Z)) :=
  [Some (demo_report 3 7); None; Some (demo_report 5 4); Some (demo_report 3 8); Some (demo_report 3 7)].
Lemma scan_finds_reporters_witness :
  exists h', hgic_scan_device true (demo_tool demo_addr demo_scan) = Ret (2, h') /\
    st_addr <$> filter (fun s => st_online s <> 0) (ho_stas h') = [[2; 0; 0; 0; 0; 7]; [2; 0; 0; 0; 0; 8]].
Proof.
  destruct (scan_finds_reporters true (demo_tool demo_addr demo_scan)) as (h' & E & _ & A & _).
  - apply (ua_ok _ _ _ _ _ _ (demo_args demo_addr demo_scan eq_refl)).
  - repeat constructor; vm_compute; done.
  - exists h'. split; [exact E|exact A].
Defined.

(** The stations of the table change only with a report: after any frame the
    table stands for the same addresses, or for one more, that of the sender of a
    report, and only while there is room. *)
Lemma rx_refines_set sc b src len as_ h :
  table_of as_ h -> is_bytes b -> 160 <= zlen b -> mem_read b 6 6 = Ret src -> src <> no_addr -> 0 < len ->
  exists r h', libota_rx_proc sc (Some b) len h = Ret (r, h') /\
    table_of (match reporter b with Some a => learn as_ a | None => as_ end) h' /\
    ho_rx h' = ho_rx h /\ ho_sent h' = ho_sent h /\ ho_rxbuf h' = ho_rxbuf h.
Proof.
  intros (l & <- & H) Hb Hl Hs Hr Hlen. destruct (rx_table sc b src Hb Hl Hs Hr len l h H Hlen) as (r & l' & n & E & T).
  exists r, (set_stas l' n h). done.
Qed.

Lemma rx_refines_set_witness :
  exists r h', libota_rx_proc true (Some (demo_report 3 7 ++ replicate 100 0)) 60 (set_stas (replicate OTA_STA_COUNT zero_sta) 0 (demo_tool demo_addr [])) = Ret (r, h') /\
    table_of [[2; 0; 0; 0; 0; 7]] h'.
Proof.
  destruct (rx_refines_set true (demo_report 3 7 ++ replicate 100 0) [2; 0; 0; 0; 0; 7] 60 []
    (set_stas (replicate OTA_STA_COUNT zero_sta) 0 (demo_tool demo_addr []))) as (r & h' & E & T & _).
  - exists []. split; [done|]. split; try done; cbn; (lia || by constructor || by intros ?%elem_of_nil).
  - apply bytesb_spec. reflexivity.
  - vm_compute. done.
  - reflexivity.
  - done.
  - lia.
  - exists r, h'. split; [exact E|exact T].
Defined.

(** ** Configurations *)
Definition config_frame (sc : bool) (dest src : list Z) (ty : Z) (p : list Z) : list Z :=
  concat [dest; src; htons ETH_P_OTA; [ty]; [0]; htons 140; htons (char_checksum sc p); p].

Lemma update_config_ok sc mac p h :
  6 <= zlen mac -> zlen (ho_mac_addr h) = 6 -> zlen p = 140 -> is_bytes p ->
  libota_update_config sc mac p h
  = Ret (160, set_sent (ho_sent h ++ [config_frame sc (ztake 6 mac) (ho_mac_addr h) ETH_P_OTA_FW_SET_PARAM p]) h).
Proof.
  intros Hm Hs Hp Hb. unfold libota_update_config, sizeof_eth_ota_fwparam.
  assert (libota_check_sum sc p 0 140 = Ret (char_checksum sc p)) as Ec
    by (apply (char_check_sum_ok _ _ [] p []); rewrite ?app_nil_r; done || lia).
  rewrite (bind_lift _ _ _ _ Ec).
  assert (mem_read mac 0 6 = Ret (ztake 6 mac)) as Ed by (by rewrite mem_read_ok, zdrop_0 by lia). rewrite (bind_lift _ _ _ _ Ed).
  assert (zlen (ztake 6 mac) = 6) as Hz by (apply zlen_ztake; lia).
  change (replicate 160 0) with (concat [replicate 6 0; replicate 6 0; [0; 0]; [0]; [0]; [0; 0]; [0; 0]; replicate 140 0]).
  erewrite bind_lift; [|by apply eth_hdr_chunks].
  erewrite bind_lift; [|chunk_write 5%nat; reflexivity]. erewrite bind_lift; [|chunk_write 6%nat; reflexivity].
  assert (mem_read p 0 140 = Ret p) as Er by (rewrite <- Hp; apply mem_read_all). rewrite (bind_lift _ _ _ _ Er).
  erewrite bind_lift; [|chunk_write 7%nat; reflexivity].
  rewrite raw_sock_send_chunks; [done|done|done|done|]. chunk_sizes.
Qed.

Lemma ntohs_mid m pre v post off : m = pre ++ htons v ++ post -> off = zlen pre -> ntohs m off = Ret (u16 v).
Proof.
  intros -> ->. unfold ntohs. pose proof (zlen_nonneg pre). rewrite (mem_get_skip pre _ (zlen pre)), (mem_get_skip pre _ (zlen pre + 1)) by lia. rewrite Z.sub_diag.
  replace (zlen pre + 1 - zlen pre) with 1 by lia. unfold htons, u8, u16. cbn [app]. rewrite Z.shiftr_div_pow2 by lia.
  change (2 ^ 16) with (2 ^ 8 * 2 ^ 8). rewrite (Z.rem_mul_r v) by lia.
  match goal with |- context [mem_get (?a :: ?b :: ?l) 0] =>
    change (mem_get (a :: b :: l) 0) with (Ret a); change (mem_get (a :: b :: l) 1) with (Ret b) end.
  cbn [obind]. f_equal. lia.
Qed.

(** Of a block of even length the sign of a [char] makes no difference. *)
Lemma char_checksum_even sc bs : Z.even (zlen bs) = true -> char_checksum sc bs = checksum bs.
Proof.
  intros He. unfold char_checksum, checksum. enough (sum_chars sc bs = sum_words bs) as -> by done. revert He.
  assert (forall n l, (length l <= n)%nat -> Z.even (zlen l) = true -> sum_chars sc l = sum_words l) as H; [|by apply (H (length bs))].
  clear bs. induction n as [|n IH]; intros [|a [|b l]] Hn He; simpl in Hn |- *; try lia; try done.
  rewrite IH; [done|lia|]. rewrite !zlen_cons in He. replace (1 + (1 + zlen l)) with (zlen l + 2 * 1) in He by lia. by rewrite Z.even_add_mul_2 in He.
Qed.

Lemma mem_get_chunk ls i x off : ls !! i = Some [x] -> off = zlen (concat (take i ls)) -> mem_get (concat ls) off = Ret x.
Proof.
  intros Hi ->. rewrite <- (take_drop_middle ls i [x] Hi) at 1. rewrite concat_app. pose proof (zlen_nonneg (concat (take i ls))).
  by rewrite mem_get_skip, Z.sub_diag by lia.
Qed.

(** What the library reads of an answer with a configuration and some checksum. *)
Section Answer.
Context (sc : bool) (dest src p rest : list Z) (c : Z).
Context (Hd : zlen dest = 6) (Hs : zlen src = 6) (Hp : zlen p = 140) (Hb : is_bytes p).
Definition config_answer : list Z :=
  concat [dest; src; htons ETH_P_OTA; [ETH_P_OTA_FW_GET_PARAM_RESP]; [0]; htons 140; htons c; p] ++ rest.

Lemma answer_frame : frame_of config_answer src ETH_P_OTA_FW_GET_PARAM_RESP 0.
Proof using Hd Hs.
  split.
  - apply mem_read_prefix. apply (mem_read_chunk _ 1); [done|chunk_sizes|done].
  - apply (ntohs_mid _ (dest ++ src) ETH_P_OTA (concat [[ETH_P_OTA_FW_GET_PARAM_RESP]; [0]; htons 140; htons c; p] ++ rest)).
    + unfold config_answer. cbn [concat]. by rewrite <- !app_assoc.
    + rewrite zlen_app. lia.
  - apply mem_get_prefix, (mem_get_chunk _ 3); [done|chunk_sizes].
  - apply mem_get_prefix, (mem_get_chunk _ 4); [done|chunk_sizes].
Qed.
Lemma answer_param : mem_read config_answer 20 140 = Ret p.
Proof using Hd Hs Hp. apply mem_read_prefix. apply (mem_read_chunk _ 7); [done|chunk_sizes|done]. Qed.
Lemma answer_sum : ntohs config_answer 18 = Ret (u16 c).
Proof using Hd Hs.
  unfold config_answer. apply (ntohs_mid _ (concat [dest; src; htons ETH_P_OTA; [ETH_P_OTA_FW_GET_PARAM_RESP]; [0]; htons 140]) _ (p ++ rest)); [|chunk_sizes].
  cbn [concat]. by rewrite ?app_nil_r, <- !app_assoc.
Qed.
Lemma answer_checksum : libota_check_sum sc config_answer 20 140 = Ret (checksum p).
Proof using Hd Hs Hp Hb.
  rewrite <- (char_checksum_even sc) by (by rewrite Hp).
  apply (char_check_sum_ok _ _ (concat [dest; src; htons ETH_P_OTA; [ETH_P_OTA_FW_GET_PARAM_RESP]; [0]; htons 140; htons c]) p rest);
    [|chunk_sizes|done|done|lia].
  unfold config_answer. cbn [concat]. by rewrite ?app_nil_r, <- !app_assoc.
Qed.

(** It is kept when the checksum is right, and dropped when not. *)
Lemma rx_config h i len :
  find_addr (ho_stas h) src = Some i -> 0 < len -> 0 <= c < 65536 ->
  libota_rx_proc sc (Some config_answer) len h
  = if decide (c = checksum p) then Ret (HGOTA_STATUS_CONFIG_GOT, set_stas (alter (set_param p) i (ho_stas h)) (ho_sta_count h) h) else Ret (0, h).
Proof using Hd Hs Hp Hb.
  intros Hi Hl Hc. pose proof answer_frame as F. rx_case F Hl. unfold sizeof_eth_ota_fwparam.
  rewrite (bind_lift _ _ _ _ answer_checksum), (bind_lift _ _ _ _ answer_sum), Hi, u16_id by lia.
  destruct (Z.eqb_spec c (checksum p)); case_decide; try done. by rewrite (bind_lift _ _ _ _ answer_param).
Qed.
End Answer.

(** C30. A configuration: what the library sends to set one is the configuration
    behind its length and checksum; an answer that carries one like this is stored
    for its sender, whatever follows it in the buffer, and read back unchanged;
    and the same answer with one byte of the configuration wrong is dropped. *)
Theorem config_roundtrip sc mac h pre x y post rest len dest src i :
  let p := pre ++ x :: post in
  is_bytes p -> zlen p = 140 -> is_byte y -> x <> y -> zlen dest = 6 -> zlen src = 6 ->
  6 <= zlen mac -> zlen (ho_mac_addr h) = 6 -> find_addr (ho_stas h) src = Some i -> 0 < len ->
  libota_update_config sc mac p h
    = Ret (160, set_sent (ho_sent h ++ [config_frame sc (ztake 6 mac) (ho_mac_addr h) ETH_P_OTA_FW_SET_PARAM p]) h) /\
  (exists h', libota_rx_proc sc (Some (config_frame sc dest src ETH_P_OTA_FW_GET_PARAM_RESP p ++ rest)) len h = Ret (HGOTA_STATUS_CONFIG_GOT, h') /\
     forall p0, libota_sta_config (Some src) p0 h' = Ret ((1, p), h')) /\
  libota_rx_proc sc (Some (config_answer dest src (pre ++ y :: post) rest (char_checksum sc p))) len h = Ret (0, h).
Proof.
  intros p Hb Hp Hy Hxy Hd Hs Hm Hmac Hi Hl.
  assert (is_bytes pre /\ is_byte x /\ is_bytes post) as (Hpre & Hx & Hpost).
  { pose proof Hb as H. unfold p, is_bytes in H. apply Forall_app in H as [H1 H2]. by apply Forall_cons in H2 as [H2 H3]. }
  assert (zlen (pre ++ y :: post) = 140) as Hp' by (unfold p in Hp; rewrite zlen_app, zlen_cons in *; lia).
  assert (is_bytes (pre ++ y :: post)) as Hb' by (apply is_bytes_app; [done|by constructor]).
  assert (char_checksum sc p = checksum p) as Ec by (apply char_checksum_even; by rewrite Hp).
  destruct (checksum_spec p Hb ltac:(lia)) as (s & _ & Es & Hs1 & _).
  split; [by apply update_config_ok|]. split.
  - pose proof (rx_config sc dest src p rest (char_checksum sc p) Hd Hs Hp Hb h i len Hi Hl ltac:(lia)) as R.
    rewrite decide_True in R by done. eexists. split; [exact R|]. intros p0. unfold libota_sta_config. unfold bind at 1, gets.
    rewrite (bind_lift _ _ _ _ (find_sta_eq _ src ltac:(lia))). rewrite (ztake_all 6) by lia. simpl.
    rewrite (find_addr_addrs _ (ho_stas h)) by (by apply addrs_alter). rewrite Hi, list_lookup_alter_eq.
    apply find_addr_Some in Hi as (t & -> & _). done.
  - rewrite (rx_config sc dest src (pre ++ y :: post) rest (char_checksum sc p) Hd Hs Hp' Hb' h i len Hi Hl ltac:(lia)). rewrite decide_False; [done|].
    rewrite Ec. unfold p. rewrite zlen_app, zlen_cons in Hp'.
    destruct (ota_checksum_detects_one_byte pre post x y Hpre Hpost Hx Hy Hxy ltac:(lia)) as (c & c' & E1 & E2 & _ & _ & N).
    assert (forall z, is_byte z -> hgic_ota_check_sum (pre ++ z :: post) 0 (zlen (pre ++ z :: post)) = Ret (checksum (pre ++ z :: post))) as K.
    { intros z Hz. apply (check_sum_ok _ [] _ []); rewrite ?app_nil_r; try done; [apply is_bytes_app; [done|by constructor]|].
      rewrite zlen_app, zlen_cons. lia. }
    rewrite K in E1, E2 by done.
    congruence.
Qed.

Lemma config_roundtrip_witness :
  let p := replicate 100 1 ++ 2 :: replicate 39 3 in
  exists h', libota_rx_proc true (Some (config_frame true [2; 0; 0; 0; 0; 9] demo_addr ETH_P_OTA_FW_GET_PARAM_RESP p ++ [])) 160 (demo_tool demo_addr [])
    = Ret (HGOTA_STATUS_CONFIG_GOT, h') /\ libota_sta_config (Some demo_addr) [] h' = Ret ((1, p), h').
Proof.
  destruct (config_roundtrip true demo_addr (demo_tool demo_addr []) (replicate 100 1) 2 5 (replicate 39 3) [] 160 [2; 0; 0; 0; 0; 9] demo_addr 0)
    as (_ & (h' & E & K) & _);
    [apply bytesb_spec; vm_compute; reflexivity|vm_compute; reflexivity|by split|done|done|done|done|done|vm_compute; reflexivity|lia|].
  exists h'. split; [exact E|exact (K [])].
Defined.

(** The answer that comes is the one that is taken: the question goes to all
    stations, and when another known one answers, what is printed for a station
    that is not known is the local structure as it was found. *)
Lemma get_config_takes_any_answer sc stack param addr mac h p other i dest c :
  tool_ok h -> scan_mac stack addr = Ret (Some mac) -> find_addr (ho_stas h) (ztake 6 mac) = None ->
  find_addr (ho_stas h) other = Some i -> zlen other = 6 -> zlen dest = 6 -> zlen p = 140 -> is_bytes p ->
  ho_rx h = [Some (config_answer dest other p [] (checksum p))] -> print_config param = Ret c ->
  exists h', hgic_get_config sc stack param addr h = Ret (Some c, h').
Proof.
  intros Hok Hm Hn Ho Hlo Hld Hp Hb Erx Hc. pose proof (scan_mac_zlen _ _ _ Hm).
  destruct (checksum_spec p Hb ltac:(lia)) as (s & _ & Es & Hs & _).
  unfold hgic_get_config. rewrite (bind_lift _ _ _ _ Hm). unfold libota_query_config.
  assert (eth_hdr (concat [replicate 6 0; replicate 6 0; [0; 0]; [0]; [0]]) (replicate 6 0xff) ETH_P_OTA_FW_GET_PARAM
    = Ret (concat [replicate 6 0xff; replicate 6 0; htons ETH_P_OTA; [ETH_P_OTA_FW_GET_PARAM]; [0]])) as Eh by (by apply eth_hdr_chunks).
  change (replicate 16 0) with (concat [replicate 6 0; replicate 6 0; [0; 0]; [0]; [0]]).
  unfold bind at 1. rewrite (bind_lift _ _ _ _ Eh), raw_sock_send_chunks by (try done; apply Hok).
  set (h1 := set_sent _ h). assert (tool_ok h1) as Hok1 by (by destruct Hok).
  destruct (recv_ok h1 Hok1) as (rest & Er & Hok2). cbv zeta in Er, Hok2. rewrite (bind_Ret _ _ _ _ _ Er).
  assert (arrived h1 = config_answer dest other p [] (checksum p)) as Ea.
  { unfold arrived. simpl. rewrite Erx. apply ztake_all. unfold config_answer. rewrite app_nil_r. unfold sizeof_rxbuf. chunk_sizes. }
  set (g := set_rx (arrived h1 ++ rest) (tail (ho_rx h1)) h1).
  assert (zlen (config_answer dest other p [] (checksum p)) = 160) as Lz by (unfold config_answer; rewrite app_nil_r; chunk_sizes).
  rewrite Ea, Lz. change (negb (0 <? 160)) with false. cbv iota. unfold bind at 1, gets.
  assert (ho_rxbuf g = config_answer dest other p rest (checksum p)) as Eg
    by (subst g; simpl; rewrite Ea; unfold config_answer; by rewrite app_nil_r).
  pose proof (rx_config sc dest other p rest (checksum p) Hld Hlo Hp Hb g i 160 Ho ltac:(lia) ltac:(lia)) as R.
  rewrite decide_True in R by done. rewrite Eg, (bind_Ret _ _ _ _ _ R). change (negb (HGOTA_STATUS_CONFIG_GOT =? HGOTA_STATUS_CONFIG_GOT)) with false.
  cbv iota. unfold libota_sta_config. unfold bind at 1, bind at 1, gets.
  rewrite (bind_lift _ _ _ _ (find_sta_eq _ mac ltac:(lia))). rewrite (find_addr_addrs _ (ho_stas h)) by (by apply addrs_alter).
  rewrite Hn. unfold ret at 1. rewrite (bind_lift _ _ _ _ Hc). by eexists.
Qed.
