(* ===== verification/Netat.v ===== *)
(** * AT commands over the network (tools/test_app/libnetat.c, libnetat_cli.c)

    The library that finds a chip by broadcast and sends it AT commands in UDP
    datagrams, its interactive program, and the one-shot program that includes the
    library's source.

    The state is the library's structure, the socket -- what comes next is a
    script, what was sent a log -- and what was printed on the standard output.
    Whether the socket can be had and bound and what [rand] gives are parameters;
    messages about errors of the system and on the error output, and the waiting
    times, are left out. *)
From Stdlib Require Import String.
From S2P Require Import Prelude Bytes CString Proto Utils Format Libc FwInfo Ota LibOta.

(** ** Data *)
Definition NETAT_BUFF_SIZE : Z := 1024.
Definition WNB_NETAT_CMD_SCAN_REQ : Z := 1.
Definition WNB_NETAT_CMD_SCAN_RESP : Z := 2.
Definition WNB_NETAT_CMD_AT_REQ : Z := 3.
Definition WNB_NETAT_CMD_AT_RESP : Z := 4.
Definition sizeof_wnb_netat_cmd : Z := 15.
Definition MACSTR_OF (m : list Z) : list farg := map (fun b => AInt (Z.land b 0xff)) m.

(** A wait: a datagram, or nothing and what [select] or [recvfrom] returns. *)
Inductive arrival := Gram (bs : list Z) | NoGram (ret : Z).
Record netat_mgr := Netat {
  na_sock : Z; na_dest : list Z; na_cookie : list Z; na_recvbuf : list Z;
  na_rx : list arrival; na_sent : list (list Z); na_out : list Z }.
Definition set_sock v n := Netat v (na_dest n) (na_cookie n) (na_recvbuf n) (na_rx n) (na_sent n) (na_out n).
Definition set_dest v n := Netat (na_sock n) v (na_cookie n) (na_recvbuf n) (na_rx n) (na_sent n) (na_out n).
Definition set_cookie_na v n := Netat (na_sock n) (na_dest n) v (na_recvbuf n) (na_rx n) (na_sent n) (na_out n).
Definition set_recv b rx n := Netat (na_sock n) (na_dest n) (na_cookie n) b rx (na_sent n) (na_out n).
Definition log_sent m n := Netat (na_sock n) (na_dest n) (na_cookie n) (na_recvbuf n) (na_rx n) (na_sent n ++ [m]) (na_out n).
Definition print_na t n := Netat (na_sock n) (na_dest n) (na_cookie n) (na_recvbuf n) (na_rx n) (na_sent n) (na_out n ++ t).
Definition printf (fmt : string) (args : list farg) : M netat_mgr unit :=
  let! t := lift (format Text (str fmt) args) in modify (print_na t).

(** ** The library *)
Definition sock_send (data : list Z) : M netat_mgr unit := modify (log_sent data).
(** Into the cleared receive buffer; what does not fit of a datagram is lost. *)
Definition sock_recv : M netat_mgr Z := fun n =>
  let b := replicate (Z.to_nat NETAT_BUFF_SIZE) 0 in
  match na_rx n with
  | [] => Ret (0, set_recv b [] n)
  | NoGram r :: rx => Ret (r, set_recv b rx n)
  | Gram f :: rx =>
      let f := ztake NETAT_BUFF_SIZE f in
      leto b := mem_write b 0 f in Ret (zlen f, set_recv b rx n)
  end.
Definition cmd_code_of (b : list Z) : outcome Z := mem_get b 0.
Definition cmd_dest (b : list Z) : outcome (list Z) := mem_read b 3 6.
Definition cmd_src (b : list Z) : outcome (list Z) := mem_read b 9 6.
Definition cmd_data (b : list Z) : list Z := zdrop 15 b.

Definition netat_scan : M netat_mgr unit :=
  let! n := gets (fun n => n) in
  sock_send ([WNB_NETAT_CMD_SCAN_REQ; 0; 0] ++ replicate 6 0xff ++ na_cookie n).

(** [malloc]: whether there is memory. *)
Definition netat_send (malloc : bool) (atcmd : list Z) : M netat_mgr unit :=
  let! text := lift (cstr atcmd) in
  if malloc then
    let! n := gets (fun n => n) in
    sock_send ([WNB_NETAT_CMD_AT_REQ] ++ htons (zlen text) ++ na_dest n ++ na_cookie n ++ text)
  else ret tt.

(** [strncpy]: the text of [src] up to its end, filled up with zeros. *)
Fixpoint strncpy_bytes (src : list Z) (n : nat) : outcome (list Z) :=
  match n, src with
  | O, _ => Ret []
  | S n, [] => Fault OutOfBounds
  | S n, c :: src => if c =? 0 then Ret (replicate (S n) 0) else leto r := strncpy_bytes src n in Ret (c :: r)
  end.

(** The sizes are compared as [size_t]: an error is a large one. *)
Definition at_least (ret n : Z) : bool := n <=? ret mod 2 ^ 64.

(** The rounds of [netat_recv]: [buff] and the offset reached in it. *)
Fixpoint netat_recv_loop (fuel : nat) (buff : option (list Z)) (off : Z) : M netat_mgr (option (list Z) * Z) :=
  match fuel with
  | O => fail Diverges
  | S fuel =>
      let! r := sock_recv in
      let! n := gets (fun n => n) in
      let b := na_recvbuf n in
      let! next := (if at_least r sizeof_wnb_netat_cmd then
        let! dest := lift (cmd_dest b) in
        if bool_decide (dest = na_cookie n) then
          let! cmd := lift (cmd_code_of b) in
          if cmd =? WNB_NETAT_CMD_SCAN_RESP then
            let! src := lift (cmd_src b) in
            modify (set_dest src) ;;;
            printf "auto select device " [] ;;;
            (let! t := lift (format Text MACSTR (MACSTR_OF src)) in modify (print_na (t ++ crlf))) ;;;
            ret (buff, off)
          else if cmd =? WNB_NETAT_CMD_AT_RESP then
            match buff with
            | Some m =>
                let len := (r - sizeof_wnb_netat_cmd) mod 2 ^ 64 in
                let! t := lift (strncpy_bytes (cmd_data b) (Z.to_nat len)) in
                let! m := lift (mem_write m off t) in
                ret (Some m, s32 (off + len))
            | None =>
                let! t := lift (cstr (cmd_data b)) in
                modify (print_na (t ++ crlf)) ;;; ret (buff, off)
            end
          else ret (buff, off)
        else ret (buff, off)
      else ret (buff, off)) in
      if 0 <? r then netat_recv_loop fuel (fst next) (snd next) else ret next
  end.
(** The buffer it leaves; the function returns no value.  One round per arrival
    and one more are enough. *)
Definition netat_recv (buff : option (list Z)) : M netat_mgr (option (list Z)) :=
  let! rx := gets na_rx in
  let! r := netat_recv_loop (S (length rx)) buff 0 in
  match fst r with
  | Some m => let! m := lift (mem_write m (snd r) [0]) in ret (Some m)
  | None => ret None
  end.

Section System.
Context (socket_fd : Z) (so_broadcast so_bindtodevice bind_ok malloc : bool) (random : list Z).

Definition libnetat_init (ifname : list Z) : M netat_mgr Z :=
  modify (set_dest (replicate 6 0xff)) ;;;
  modify (set_sock socket_fd) ;;;
  if socket_fd <? 0 then ret (-1) else
  if negb so_broadcast then modify (set_sock 0) ;;; ret (-1) else
  let! name := lift (cstr ifname) in
  let! _ := lift (mem_write (replicate 16 0) 0 (name ++ [0])) in
  if negb so_bindtodevice then modify (set_sock 0) ;;; ret (-1) else
  if negb bind_ok then ret (-1) else
  modify (set_cookie_na (ztake 6 random)) ;;;
  netat_scan ;;;
  netat_recv None ;;;
  ret 0.

Definition dest_unknown (n : netat_mgr) : bool := negb (Z.land (nth 0 (na_dest n) 0) 1 =? 0).
(** The result is -1, or none where the function has no value to return; and the
    buffer. *)
Definition libnetat_send (atcmd resp_buff : list Z) : M netat_mgr (option Z * list Z) :=
  let! sock := gets na_sock in
  if sock =? 0 then printf "libnetat is not inited!" [] ;;; modify (print_na crlf) ;;; ret (Some (-1), resp_buff) else
  let! unknown := gets dest_unknown in
  (if unknown then netat_scan ;;; netat_recv None ;;; ret tt else ret tt) ;;;
  let! unknown := gets dest_unknown in
  if unknown : bool then printf "not detect device!" [] ;;; modify (print_na [13; 13]) ;;; ret (Some (-1), resp_buff) else
  netat_send malloc atcmd ;;;
  let! b := netat_recv (Some resp_buff) in
  ret (None, default resp_buff b).

(** ** The interactive program *)
(** What [fgets] leaves of a line in the cleared input: the line with its feed, cut
    to 255 bytes. *)
Definition input_of (line : list Z) : list Z := resize 256 0 (ztake 255 line).
(** The lines typed so far; at their end the program waits on. *)
Fixpoint shell (lines : list (list Z)) (response : list Z) : M netat_mgr (list Z) :=
  match lines with
  | [] => ret response
  | line :: lines =>
      let input := input_of line in
      modify (print_na [13; 10; 62; 58]) ;;;
      let! n := lift (strlen input) in
      let! response := (if 0 <? n then
        let! c := lift (mem_read input 0 2) in
        if bool_decide (c = str "at") || bool_decide (c = str "AT") then
          let! r := libnetat_send input response in
          let! t := lift (cstr (snd r)) in
          modify (print_na t) ;;; ret (snd r)
        else ret response
      else ret response) in
      shell lines response
  end.
(** [response]: the local array as it is found. *)
Definition netat_main (argv : list (list Z)) (lines : list (list Z)) (response : list Z) : M netat_mgr (option Z) :=
  match argv with
  | [_; ifname] =>
      let! r := libnetat_init ifname in
      if negb (r =? 0) then ret (Some (-1)) else
      let! _ := shell lines response in ret None
  | _ => ret (Some (-1))
  end.

(** ** The one-shot program *)
Definition cli_init_socket (ifname : list Z) : M netat_mgr Z :=
  modify (set_dest (replicate 6 0xff)) ;;;
  modify (set_sock socket_fd) ;;;
  if socket_fd <? 0 then ret (-1) else
  if negb so_broadcast then ret (-1) else
  let! name := lift (cstr ifname) in
  let! _ := lift (mem_write (replicate 16 0) 0 (ztake 15 name)) in
  if negb so_bindtodevice then ret (-1) else
  if negb bind_ok then ret (-1) else
  modify (set_cookie_na (ztake 6 random)) ;;;
  ret 0.

(** The result and the address. *)
Definition cli_parse_mac (mac_str : list Z) : outcome (Z * list Z) :=
  leto v := sscanf None MACSTR mac_str in
  if negb (length v =? 6)%nat then Ret (-1, []) else Ret (0, map u8 v).

Fixpoint cli_scan_loop (fuel : nat) (devices : list (list Z)) : M netat_mgr (list (list Z)) :=
  match fuel with
  | O => fail Diverges
  | S fuel =>
      let! r := sock_recv in
      let! b := gets na_recvbuf in
      let! devices := (if sizeof_wnb_netat_cmd <=? r then
        let! cmd := lift (cmd_code_of b) in
        if (cmd =? WNB_NETAT_CMD_SCAN_RESP) && (zlen devices <? 128) then
          let! src := lift (cmd_src b) in ret (devices ++ [src])
        else ret devices
      else ret devices) in
      if 0 <? r then cli_scan_loop fuel devices else ret devices
  end.
Fixpoint print_devices (l : list (list Z)) : M netat_mgr unit :=
  match l with
  | [] => ret tt
  | d :: l => (let! t := lift (format Text MACSTR (MACSTR_OF d)) in modify (print_na (t ++ lf))) ;;; print_devices l
  end.
Definition cli_scan : M netat_mgr Z :=
  netat_scan ;;;
  let! rx := gets na_rx in
  let! devices := cli_scan_loop (S (length rx)) [] in
  if zlen devices =? 0 then ret 0 else
  print_devices devices ;;; ret (zlen devices).

Fixpoint cli_discover_loop (fuel : nat) : M netat_mgr Z :=
  match fuel with
  | O => fail Diverges
  | S fuel =>
      let! r := sock_recv in
      let! b := gets na_recvbuf in
      let! found := (if sizeof_wnb_netat_cmd <=? r then
        let! cmd := lift (cmd_code_of b) in
        if cmd =? WNB_NETAT_CMD_SCAN_RESP then
          let! src := lift (cmd_src b) in modify (set_dest src) ;;; ret true
        else ret false
      else ret false) in
      if found : bool then ret 1 else
      if 0 <? r then cli_discover_loop fuel else ret 0
  end.
Definition cli_discover : M netat_mgr Z :=
  netat_scan ;;;
  let! rx := gets na_rx in cli_discover_loop (S (length rx)).

Fixpoint cli_recv_loop (fuel : nat) (bufsize : Z) (buff : list Z) (off : Z) : M netat_mgr (list Z * Z) :=
  match fuel with
  | O => fail Diverges
  | S fuel =>
      let! r := sock_recv in
      let! n := gets (fun n => n) in
      let b := na_recvbuf n in
      let! next := (if sizeof_wnb_netat_cmd <=? r then
        let! dest := lift (cmd_dest b) in
        let! cmd := lift (cmd_code_of b) in
        if bool_decide (dest = na_cookie n) && (cmd =? WNB_NETAT_CMD_AT_RESP) then
          let datalen := r - sizeof_wnb_netat_cmd in
          if (0 <? datalen) && (off + datalen <? bufsize - 1) then
            let! t := lift (mem_read (cmd_data b) 0 datalen) in
            let! buff := lift (mem_write buff off t) in
            ret (buff, off + datalen)
          else ret (buff, off)
        else ret (buff, off)
      else ret (buff, off)) in
      if 0 <? r then cli_recv_loop fuel bufsize (fst next) (snd next) else ret next
  end.
(** The number of bytes, and the buffer. *)
Definition cli_recv_at (buff : list Z) (bufsize : Z) : M netat_mgr (Z * list Z) :=
  let! rx := gets na_rx in
  let! r := cli_recv_loop (S (length rx)) bufsize buff 0 in
  let! buff := lift (mem_write (fst r) (snd r) [0]) in
  ret (snd r, buff).

(** [response]: the local array as it is found; [lines]: what is typed in the
    interactive mode. *)
Definition cli_main (argv : list (list Z)) (lines : list (list Z)) (response : list Z) : M netat_mgr (option Z) :=
  match argv with
  | prog :: ifname :: cmd :: rest =>
      let! parsed := (match rest with
                      | mac :: _ =>
                          let! p := lift (cli_parse_mac mac) in
                          if fst p <? 0 then ret false else modify (set_dest (snd p)) ;;; ret true
                      | [] => ret true
                      end) in
      if negb parsed then ret (Some 1) else
      let! r := cli_init_socket ifname in
      if r <? 0 then ret (Some 1) else
      let! scan := lift (strcmp_eq cmd (lit "scan")) in
      if scan : bool then let! r := cli_scan in ret (Some (if 0 <? r then 0 else 1)) else
      let! unknown := gets dest_unknown in
      let! found := (if unknown : bool then cli_discover else ret 1) in
      if found =? 0 then ret (Some 1) else
      netat_send malloc cmd ;;;
      let! r := cli_recv_at response NETAT_BUFF_SIZE in
      if fst r <=? 0 then ret (Some 1) else
      let! t := lift (cstr (snd r)) in
      modify (print_na t) ;;; ret (Some 0)
  | [prog; ifname] => netat_main argv lines response
  | _ => ret (Some 1)
  end.
End System.

(** ** What a script of arrivals amounts to *)
(** A datagram long enough for the header: its command, destination, source and data. *)
Record at_msg := AtMsg { am_cmd : Z; am_dest : list Z; am_src : list Z; am_data : list Z }.
Definition parse (f : list Z) : option at_msg :=
  if sizeof_wnb_netat_cmd <=? zlen f
  then Some (AtMsg (nth 0 f 0) (ztake 6 (zdrop 3 f)) (ztake 6 (zdrop 9 f)) (zdrop 15 f)) else None.
Definition gram (a : arrival) : list Z := match a with Gram f => ztake NETAT_BUFF_SIZE f | NoGram _ => [] end.
Definition got (a : arrival) : Z := match a with Gram _ => zlen (gram a) | NoGram r => r end.
Definition filled (f : list Z) : list Z := f ++ replicate (Z.to_nat (NETAT_BUFF_SIZE - zlen f)) 0.

(** What comes until a wait brings nothing, and what is left after that. *)
Fixpoint heard (rx : list arrival) : list (list Z) :=
  match rx with a :: rx => if 0 <? got a then gram a :: heard rx else [] | [] => [] end.
Fixpoint unheard (rx : list arrival) : list arrival :=
  match rx with a :: rx => if 0 <? got a then unheard rx else rx | [] => [] end.
(** A wait without a datagram returns no positive number. *)
Definition arrival_ok (a : arrival) : Prop := match a with Gram _ => True | NoGram r => r <= 0 end.

Lemma gram_zlen a : 0 <= zlen (gram a) <= NETAT_BUFF_SIZE.
Proof.
  destruct a as [f|r]; simpl; [|by vm_compute]. split; [apply zlen_nonneg|]. unfold NETAT_BUFF_SIZE.
  destruct (Z.le_gt_cases 1024 (zlen f)); [rewrite zlen_ztake by lia; lia|]. rewrite ztake_all by lia. lia.
Qed.
Lemma filled_zlen f : zlen f <= NETAT_BUFF_SIZE -> zlen (filled f) = NETAT_BUFF_SIZE.
Proof. intros H. unfold filled. rewrite zlen_app, zlen_replicate by lia. lia. Qed.
Lemma recv_step a rx n : na_rx n = a :: rx -> sock_recv n = Ret (got a, set_recv (filled (gram a)) rx n).
Proof.
  intros E. unfold sock_recv. rewrite E. destruct a as [f|r]; [|done]. pose proof (gram_zlen (Gram f)) as L. cbn [got gram] in *. cbv zeta.
  rewrite mem_write_ok; [|lia|rewrite zlen_replicate by (unfold NETAT_BUFF_SIZE; lia); lia]. cbn [obind]. rewrite ztake_0. cbn [app].
  unfold filled. do 3 f_equal. rewrite Z.add_0_l. unfold zdrop. f_equal.
  rewrite drop_replicate. f_equal. unfold NETAT_BUFF_SIZE in *. lia.
Qed.
Lemma recv_end n : na_rx n = [] -> sock_recv n = Ret (0, set_recv (filled []) [] n).
Proof. intros E. unfold sock_recv. by rewrite E. Qed.

Lemma parse_fields f m rest :
  parse f = Some m ->
  cmd_code_of (f ++ rest) = Ret (am_cmd m) /\ cmd_dest (f ++ rest) = Ret (am_dest m) /\ cmd_src (f ++ rest) = Ret (am_src m) /\
  mem_read (cmd_data (f ++ rest)) 0 (zlen f - 15) = Ret (am_data m) /\ zlen (am_data m) = zlen f - 15 /\ zlen (am_src m) = 6.
Proof.
  unfold parse, sizeof_wnb_netat_cmd. destruct (Z.leb_spec 15 (zlen f)) as [L|]; [|done]. intros [= <-]. cbn [am_cmd am_dest am_src am_data].
  split; [|split; [|split; [|split; [|split]]]].
  - unfold cmd_code_of. destruct f as [|b f]; [by vm_compute in L|]. apply mem_get_head.
  - apply mem_read_prefix, mem_read_ok; lia.
  - apply mem_read_prefix, mem_read_ok; lia.
  - unfold cmd_data. destruct (split_at 15 f ltac:(lia)) as (h & d & -> & Hh & Hd). rewrite <- app_assoc, !zdrop_app_length by done.
    by rewrite (mem_read_mid _ [] d rest).
  - rewrite zlen_zdrop; lia.
  - rewrite zlen_ztake; [done|]. rewrite zlen_zdrop; lia.
Qed.
(** A wait, with nothing at the end of the script. *)
Definition first (rx : list arrival) : arrival := default (NoGram 0) (head rx).
Lemma recv_first n : sock_recv n = Ret (got (first (na_rx n)), set_recv (filled (gram (first (na_rx n)))) (tail (na_rx n)) n).
Proof. destruct (na_rx n) as [|a rx] eqn:E; [by apply recv_end|by apply recv_step]. Qed.
Lemma heard_first rx : heard rx = if 0 <? got (first rx) then gram (first rx) :: heard (tail rx) else [].
Proof. by destruct rx. Qed.
Lemma unheard_first rx : unheard rx = if 0 <? got (first rx) then unheard (tail rx) else tail rx.
Proof. by destruct rx. Qed.
(** A received length that covers the header is that of a datagram. *)
Lemma got_header a : arrival_ok a -> (sizeof_wnb_netat_cmd <=? got a) = bool_decide (is_Some (parse (gram a))).
Proof.
  unfold parse, sizeof_wnb_netat_cmd. destruct a as [f|r]; cbn [arrival_ok got gram]; intros H.
  - destruct (15 <=? zlen (ztake NETAT_BUFF_SIZE f)); symmetry; [by apply bool_decide_true|]. apply bool_decide_false. by intros [].
  - destruct (Z.leb_spec 15 r); [lia|]. symmetry. apply bool_decide_false. vm_compute. by intros [].
Qed.
Lemma first_ok rx : Forall arrival_ok rx -> arrival_ok (first rx).
Proof. by destruct 1. Qed.
Lemma tail_ok rx : Forall arrival_ok rx -> Forall arrival_ok (tail rx).
Proof. by destruct 1. Qed.
Lemma parse_got a m : arrival_ok a -> parse (gram a) = Some m -> got a = zlen (gram a).
Proof. destruct a; [done|]. intros _ E. vm_compute in E. done. Qed.
Lemma more_left rx fuel : (length rx < S fuel)%nat -> 0 < got (first rx) -> (length (tail rx) < fuel)%nat.
Proof. destruct rx; simpl; lia. Qed.

Lemma parse_nothing a : (0 <? got a) = false -> parse (gram a) = None.
Proof.
  destruct a as [f|r]; [|done]. cbn [got]. unfold parse, sizeof_wnb_netat_cmd. intros H%Z.ltb_ge.
  by destruct (Z.leb_spec 15 (zlen (gram (Gram f)))); [lia|].
Qed.

(** ** The one-shot program *)
(** An answer that is still collected behind [acc]. *)
Definition take_answer (cookie : list Z) (size : Z) (acc f : list Z) : list Z :=
  match parse f with
  | Some m =>
      if bool_decide (am_dest m = cookie) && (am_cmd m =? WNB_NETAT_CMD_AT_RESP)
         && ((0 <? zlen (am_data m)) && (zlen acc + zlen (am_data m) <? size - 1))
      then acc ++ am_data m else acc
  | None => acc
  end.
Definition answers (cookie : list Z) (size : Z) (fs : list (list Z)) : list Z := foldl (take_answer cookie size) [] fs.

Lemma cli_recv_loop_ok fuel size n buff acc junk :
  Forall arrival_ok (na_rx n) -> (length (na_rx n) < fuel)%nat -> buff = acc ++ junk -> zlen buff = size -> zlen acc < size ->
  exists acc' junk' b, cli_recv_loop fuel size buff (zlen acc) n = Ret ((acc' ++ junk', zlen acc'), set_recv b (unheard (na_rx n)) n) /\
    acc' = foldl (take_answer (na_cookie n) size) acc (heard (na_rx n)) /\ zlen (acc' ++ junk') = size /\ zlen acc' < size.
Proof.
  revert n buff acc junk. induction fuel as [|fuel IH]; intros n buff acc junk Ho Hf -> Hs Ha; [lia|].
  cbn [cli_recv_loop]. rewrite (bind_Ret _ _ _ _ _ (recv_first n)), heard_first, unheard_first.
  set (a := first (na_rx n)) in *. set (n1 := set_recv _ _ n). unfold bind at 1, gets at 1.
  rewrite got_header by (by apply first_ok).
  assert (exists acc' junk', (if bool_decide (is_Some (parse (gram a))) then
        let! dest := lift (cmd_dest (na_recvbuf n1)) in
        let! cmd := lift (cmd_code_of (na_recvbuf n1)) in
        if bool_decide (dest = na_cookie n1) && (cmd =? WNB_NETAT_CMD_AT_RESP) then
          let datalen := got a - sizeof_wnb_netat_cmd in
          if (0 <? datalen) && (zlen acc + datalen <? size - 1) then
            let! t := lift (mem_read (cmd_data (na_recvbuf n1)) 0 datalen) in
            let! buff := lift (mem_write (acc ++ junk) (zlen acc) t) in
            ret (buff, zlen acc + datalen)
          else ret (acc ++ junk, zlen acc)
        else ret (acc ++ junk, zlen acc)
      else ret (acc ++ junk, zlen acc)) n1 = Ret ((acc' ++ junk', zlen acc'), n1) /\
      acc' = take_answer (na_cookie n) size acc (gram a) /\ zlen (acc' ++ junk') = size /\ zlen acc' < size) as (acc1 & junk1 & E & E1 & E2 & E3).
  { unfold take_answer. destruct (parse (gram a)) as [m|] eqn:Em; [|by exists acc, junk].
    rewrite bool_decide_true by done.
    destruct (parse_fields _ m (replicate (Z.to_nat (NETAT_BUFF_SIZE - zlen (gram a))) 0) Em) as (F1 & F2 & _ & F4 & F5 & _).
    rewrite (bind_lift _ _ _ _ F2), (bind_lift _ _ _ _ F1). change (na_cookie n1) with (na_cookie n).
    destruct (bool_decide _ && _); [|by exists acc, junk]. cbv zeta. cbn [andb].
    assert (got a - sizeof_wnb_netat_cmd = zlen (am_data m)) as ->
      by (rewrite (parse_got a m) by (done || by apply first_ok); unfold sizeof_wnb_netat_cmd; lia).
    rewrite <- F5 in F4.
    destruct ((0 <? zlen (am_data m)) && (zlen acc + zlen (am_data m) <? size - 1)) eqn:Hc; [|by exists acc, junk].
    apply andb_prop in Hc as [H1%Z.ltb_lt H2%Z.ltb_lt].
    rewrite (bind_lift _ _ _ _ F4). rewrite zlen_app in Hs.
    destruct (split_at (zlen (am_data m)) junk) as (old & junk' & -> & Ho' & Hj); [lia|].
    erewrite bind_lift by (by apply (mem_write_mid _ acc old junk' (am_data m))).
    exists (acc ++ am_data m), junk'. rewrite !zlen_app in *. split; [by rewrite <- app_assoc|]. split; [done|]. lia. }
  rewrite (bind_Ret _ _ _ _ _ E). cbn [fst snd]. destruct (0 <? got a) eqn:Hg.
  - destruct (IH n1 (acc1 ++ junk1) acc1 junk1) as (acc' & junk' & b & -> & K); [by apply tail_ok|by apply more_left, Z.ltb_lt|done|done|done|].
    exists acc', junk', b. split; [done|]. cbn [foldl]. by rewrite <- E1.
  - assert (acc1 = acc) as -> by (rewrite E1; unfold take_answer; by rewrite parse_nothing).
    by exists acc, junk1, (filled (gram a)).
Qed.

(** The collected answers stand at the beginning of the buffer, terminated, whatever comes. *)
Lemma cli_recv_at_ok n buff :
  Forall arrival_ok (na_rx n) -> zlen buff = NETAT_BUFF_SIZE ->
  let acc := answers (na_cookie n) NETAT_BUFF_SIZE (heard (na_rx n)) in
  zlen acc < NETAT_BUFF_SIZE /\
  exists b junk, cli_recv_at buff NETAT_BUFF_SIZE n = Ret ((zlen acc, acc ++ 0 :: junk), set_recv b (unheard (na_rx n)) n) /\
    zlen (acc ++ 0 :: junk) = NETAT_BUFF_SIZE.
Proof.
  intros Ho Hl. unfold cli_recv_at, bind at 1, gets.
  destruct (cli_recv_loop_ok (S (length (na_rx n))) NETAT_BUFF_SIZE n buff [] buff) as (acc & junk & b & E & -> & Hs & Ha);
    [done|lia|done|done|by vm_compute|].
  cbv zeta. unfold answers. set (acc := foldl _ _ _) in *. split; [done|].
  change 0 with (zlen (@nil Z)) at 1. rewrite (bind_Ret _ _ _ _ _ E). cbn [fst snd].
  destruct junk as [|x junk]; [rewrite app_nil_r in Hs; lia|].
  erewrite bind_lift by (by apply (mem_write_mid _ acc [x] junk [0])). exists b, junk. split; [done|].
  rewrite !zlen_app, !zlen_cons in *. lia.
Qed.

(** The first answer to a scan, and what has not been received then. *)
Fixpoint first_response (rx : list arrival) : option (list Z) * list arrival :=
  match rx with
  | [] => (None, [])
  | a :: rx =>
      match parse (gram a) with
      | Some m => if am_cmd m =? WNB_NETAT_CMD_SCAN_RESP then (Some (am_src m), rx) else first_response rx
      | None => if 0 <? got a then first_response rx else (None, rx)
      end
  end.
Lemma cli_discover_loop_ok fuel n :
  Forall arrival_ok (na_rx n) -> (length (na_rx n) < fuel)%nat ->
  exists b, let r := first_response (na_rx n) in
    cli_discover_loop fuel n = Ret (match fst r with
      | Some src => (1, set_dest src (set_recv b (snd r) n)) | None => (0, set_recv b (snd r) n) end).
Proof.
  revert n. induction fuel as [|fuel IH]; intros n Ho Hf; [lia|]. cbn [cli_discover_loop].
  rewrite (bind_Ret _ _ _ _ _ (recv_first n)). unfold bind at 1, gets.
  destruct (na_rx n) as [|a rx] eqn:Hrx; [by exists (filled [])|]. change (first (a :: rx)) with a. cbn [tail].
  inversion_clear Ho as [|? ? Ha Ho']. rewrite got_header by done. cbn [first_response].
  destruct (parse (gram a)) as [m|] eqn:Em.
  - rewrite bool_decide_true by done. destruct (parse_fields _ m (replicate (Z.to_nat (NETAT_BUFF_SIZE - zlen (gram a))) 0) Em) as (F1 & _ & F3 & _).
    set (n1 := set_recv _ _ n).
    change (na_recvbuf n1) with (gram a ++ replicate (Z.to_nat (NETAT_BUFF_SIZE - zlen (gram a))) 0).
    destruct (am_cmd m =? WNB_NETAT_CMD_SCAN_RESP) eqn:Hc.
    + erewrite bind_Ret by (rewrite (bind_lift _ _ _ _ F1), Hc, (bind_lift _ _ _ _ F3); reflexivity). by eexists.
    + erewrite bind_Ret by (rewrite (bind_lift _ _ _ _ F1), Hc; reflexivity). cbv iota.
      assert (0 < got a) as G.
      { rewrite (parse_got a m) by done. unfold parse, sizeof_wnb_netat_cmd in Em. destruct (Z.leb_spec 15 (zlen (gram a))); [lia|done]. }
      rewrite (proj2 (Z.ltb_lt _ _) G). destruct (IH n1) as (b & E); [done|simpl in *; lia|]. exists b.
      cbv zeta in *. rewrite E. by destruct (fst _).
  - rewrite bool_decide_false by (by intros []). erewrite bind_Ret by reflexivity. cbv iota. destruct (0 <? got a).
    + set (n1 := set_recv _ _ n). destruct (IH n1) as (b & E); [done|simpl in *; lia|]. exists b. cbv zeta in *. rewrite E. by destruct (fst _).
    + by eexists.
Qed.

(** *** A command *)
Fixpoint until_nul (l : list Z) : list Z :=
  match l with [] => [] | c :: l => if c =? 0 then [] else c :: until_nul l end.
Lemma cstr_until_nul l junk : cstr (l ++ 0 :: junk) = Ret (until_nul l).
Proof. induction l as [|c l IH]; [done|]. cbn [app cstr until_nul]. destruct (c =? 0); [done|]. by rewrite IH. Qed.
Definition scan_req (cookie : list Z) : list Z := [WNB_NETAT_CMD_SCAN_REQ; 0; 0] ++ replicate 6 0xff ++ cookie.
Definition at_req (dest cookie text : list Z) : list Z := [WNB_NETAT_CMD_AT_REQ] ++ htons (zlen text) ++ dest ++ cookie ++ text.

Lemma cli_init_socket_ok fd random ifname n :
  0 <= fd -> no_nul ifname ->
  cli_init_socket fd true true true random (ifname ++ [0]) n
  = Ret (0, set_cookie_na (ztake 6 random) (set_sock fd (set_dest (replicate 6 0xff) n))).
Proof.
  intros Hfd Hn. unfold cli_init_socket, bind at 1 2, modify. destruct (Z.ltb_spec fd 0); [lia|]. cbn [negb].
  rewrite (bind_lift _ _ _ _ (cstr_app ifname [] Hn)).
  assert (zlen (ztake 15 ifname) <= 16).
  { destruct (Z.le_gt_cases 15 (zlen ifname)); [rewrite zlen_ztake; lia|]. rewrite ztake_all; lia. }
  erewrite bind_lift by (apply mem_write_ok; [lia|exact H0]). reflexivity.
Qed.

Lemma cli_discover_ok n :
  Forall arrival_ok (na_rx n) ->
  exists b, let r := first_response (na_rx n) in
    cli_discover n = Ret (match fst r with
      | Some src => (1, set_dest src (set_recv b (snd r) (log_sent (scan_req (na_cookie n)) n)))
      | None => (0, set_recv b (snd r) (log_sent (scan_req (na_cookie n)) n)) end).
Proof.
  intros Ho. destruct (cli_discover_loop_ok (S (length (na_rx n))) (log_sent (scan_req (na_cookie n)) n)) as (b & E); [done|simpl; lia|].
  exists b. exact E.
Qed.

Lemma first_response_rest rx : Forall arrival_ok rx -> Forall arrival_ok (snd (first_response rx)).
Proof.
  induction 1 as [|a rx Ha Hr IH]; [constructor|]. cbn [first_response].
  destruct (parse (gram a)); [by destruct (_ =? _)|by destruct (0 <? got a)].
Qed.
Lemma netat_send_ok cmd n :
  no_nul cmd -> netat_send true (cmd ++ [0]) n = Ret (tt, log_sent (at_req (na_dest n) (na_cookie n) cmd) n).
Proof. intros H. unfold netat_send. by rewrite (bind_lift _ _ _ _ (cstr_app cmd [] H)). Qed.

(** C31. The one-shot program with an AT command, on a system that gives it its
    socket and whatever arrives: it asks by broadcast; without an answer it fails
    and sends nothing more; otherwise it sends the command, with its length and
    its cookie, to the first chip that answered, and prints the answers to its
    cookie that fit in 1024 bytes, in the order they came, succeeding exactly
    when there are any.  It never leaves the buffer. *)
Theorem cli_sends_command fd random lines prog ifname cmd response n :
  0 <= fd -> no_nul ifname -> no_nul cmd -> cmd <> str "scan" -> Forall arrival_ok (na_rx n) -> zlen response = NETAT_BUFF_SIZE ->
  let cookie := ztake 6 random in
  let r := first_response (na_rx n) in
  let text := answers cookie NETAT_BUFF_SIZE (heard (snd r)) in
  exists n', cli_main fd true true true true random [prog; ifname ++ [0]; cmd ++ [0]] lines response n
    = Ret (Some (match fst r with Some _ => if zlen text <=? 0 then 1 else 0 | None => 1 end), n') /\
    na_sent n' = na_sent n ++ scan_req cookie :: match fst r with Some src => [at_req src cookie cmd] | None => [] end /\
    na_out n' = na_out n ++ match fst r with Some _ => until_nul text | None => [] end.
Proof.
  intros Hfd Hif Hcmd Hscan Ho Hresp cookie r text. unfold cli_main.
  erewrite bind_Ret by reflexivity. cbn [negb]. rewrite (bind_Ret _ _ _ _ _ (cli_init_socket_ok fd random ifname n Hfd Hif)).
  change (0 <? 0) with false. cbv iota. set (n1 := set_cookie_na _ _).
  rewrite (bind_lift _ _ _ _ (strcmp_eq_spec cmd (str "scan") [] [] Hcmd ltac:(apply (bool_decide_unpack _); vm_compute; exact I))).
  rewrite bool_decide_false by done. unfold bind at 1, gets. change (dest_unknown n1) with true. cbv iota.
  destruct (cli_discover_ok n1 Ho) as (b & E). change (na_rx n1) with (na_rx n) in E. change (na_cookie n1) with cookie in E.
  fold r in E. cbv zeta in E. destruct (fst r) as [src|] eqn:Hr; rewrite (bind_Ret _ _ _ _ _ E).
  2: { eexists. split; [reflexivity|]. by rewrite app_nil_r. }
  set (n2 := set_dest src _). change (1 =? 0) with false. cbv iota. rewrite (bind_Ret _ _ _ _ _ (netat_send_ok cmd n2 Hcmd)).
  set (n3 := log_sent _ n2).
  destruct (cli_recv_at_ok n3 response) as (Ht & b2 & junk & E2 & _); [by apply first_response_rest|done|].
  change (answers (na_cookie n3) NETAT_BUFF_SIZE (heard (na_rx n3))) with text in E2. rewrite (bind_Ret _ _ _ _ _ E2). cbn [fst snd].
  destruct (Z.leb_spec (zlen text) 0) as [H0|H0].
  - eexists. split; [reflexivity|]. pose proof (zlen_nonneg text). assert (text = []) as -> by (destruct text; [done|rewrite zlen_cons in *; pose proof (zlen_nonneg text); lia]).
    split; [|by rewrite app_nil_r]. simpl. by rewrite <- app_assoc.
  - rewrite (bind_lift _ _ _ _ (cstr_until_nul text junk)). eexists. split; [reflexivity|]. split; [|done].
    simpl. by rewrite <- app_assoc.
Qed.
Definition demo_netat (rx : list arrival) : netat_mgr := Netat 0 [] [] [] rx [] [].
Definition demo_cookie : list Z := [11; 12; 13; 14; 15; 16].
Definition demo_chip : list Z := [2; 0; 0; 0; 0; 7].
Definition response_gram (cmd : Z) (dest data : list Z) : arrival := Gram ([cmd; 0; 0] ++ dest ++ demo_chip ++ data).
(** The request itself comes back first, then an answer to another program. *)
Definition demo_rx : list arrival :=
  [Gram (scan_req demo_cookie); response_gram 2 demo_cookie []; response_gram 4 demo_chip [90];
   response_gram 4 demo_cookie (str "+OK"); response_gram 4 demo_cookie [13; 10]; NoGram 0; response_gram 4 demo_cookie [90]].
Lemma cli_sends_command_witness :
  exists n', cli_main 3 true true true true demo_cookie [lit "cli"; lit "hg0"; lit "at+ver"] [] (replicate 1024 7) (demo_netat demo_rx) = Ret (Some 0, n') /\
    na_sent n' = [scan_req demo_cookie; at_req demo_chip demo_cookie (str "at+ver")] /\ na_out n' = str "+OK" ++ [13; 10].
Proof.
  exact (cli_sends_command 3 demo_cookie [] (lit "cli") (str "hg0") (str "at+ver") (replicate 1024 7)
    (demo_netat demo_rx)
    ltac:(lia) ltac:(apply (bool_decide_unpack _); vm_compute; exact I) ltac:(apply (bool_decide_unpack _); vm_compute; exact I)
    ltac:(done) ltac:(by repeat constructor) eq_refl).
Defined.

(** A destination given on the command line is forgotten again: what the program
    does is what it does without. *)
Lemma cli_forgets_destination fd so sb bi ma random prog ifname cmd mac more m lines response n :
  cli_parse_mac mac = Ret (0, m) ->
  cli_main fd so sb bi ma random (prog :: ifname :: cmd :: mac :: more) lines response n
  = cli_main fd so sb bi ma random [prog; ifname; cmd] lines response n.
Proof.
  intros E. unfold cli_main. erewrite bind_Ret by (rewrite (bind_lift _ _ _ _ E); reflexivity).
  erewrite (bind_Ret (ret true)) by reflexivity. reflexivity.
Qed.
Lemma destination_parses : cli_parse_mac (lit "02:00:00:00:00:09") = Ret (0, [2; 0; 0; 0; 0; 9]).
Proof. vm_compute. done. Qed.

(** *** A scan *)
Definition devices_of (fs : list (list Z)) : list (list Z) :=
  omap (fun f => m ← parse f; if am_cmd m =? WNB_NETAT_CMD_SCAN_RESP then Some (am_src m) else None) fs.
Lemma cli_scan_loop_ok fuel n devices :
  Forall arrival_ok (na_rx n) -> (length (na_rx n) < fuel)%nat -> (length devices <= 128)%nat ->
  exists b, cli_scan_loop fuel devices n = Ret (take 128 (devices ++ devices_of (heard (na_rx n))), set_recv b (unheard (na_rx n)) n).
Proof.
  revert n devices. induction fuel as [|fuel IH]; intros n devices Ho Hf Hd; [lia|].
  cbn [cli_scan_loop]. rewrite (bind_Ret _ _ _ _ _ (recv_first n)), heard_first, unheard_first.
  set (a := first (na_rx n)) in *. set (n1 := set_recv _ _ n). unfold bind at 1, gets.
  rewrite got_header by (by apply first_ok).
  pose (new := devices_of [gram a]).
  assert (exists b, (if 0 <? got a then cli_scan_loop fuel (take 128 (devices ++ new)) else ret (take 128 (devices ++ new))) n1 =
    Ret (take 128 (devices ++ devices_of (if 0 <? got a then gram a :: heard (tail (na_rx n)) else [])), 
         set_recv b (if 0 <? got a then unheard (tail (na_rx n)) else tail (na_rx n)) n)) as [b E].
  { destruct (0 <? got a) eqn:Hg.
    - destruct (IH n1 (take 128 (devices ++ new))) as [b E]; [by apply tail_ok|by apply more_left, Z.ltb_lt|rewrite length_take; lia|].
      exists b. rewrite E. do 2 f_equal. 
      change (devices_of (gram a :: heard (tail (na_rx n)))) with (devices_of ([gram a] ++ heard (tail (na_rx n)))).
      unfold devices_of at 2. rewrite omap_app. fold (devices_of [gram a]). fold new. fold (devices_of (heard (tail (na_rx n)))).
      rewrite app_assoc. rewrite (take_app (devices ++ new)), take_app, take_take, Nat.min_id. f_equal. f_equal. rewrite length_take. lia.
    - exists (filled (gram a)). do 2 f_equal. unfold new, devices_of. cbn [omap list_omap]. rewrite parse_nothing by done. done. }
  exists b. rewrite <- E. erewrite bind_Ret; [reflexivity|]. clear E. unfold new, devices_of. cbn [omap list_omap].
  destruct (parse (gram a)) as [m|] eqn:Em; [|rewrite bool_decide_false by (by intros []); by rewrite app_nil_r, take_ge by lia].
  rewrite bool_decide_true by done. cbn [mbind option_bind].
  destruct (parse_fields _ m (replicate (Z.to_nat (NETAT_BUFF_SIZE - zlen (gram a))) 0) Em) as (F1 & _ & F3 & _).
  rewrite (bind_lift _ _ _ _ F1). destruct (am_cmd m =? WNB_NETAT_CMD_SCAN_RESP); [|by rewrite app_nil_r, take_ge by lia].
  cbn [andb]. destruct (Z.ltb_spec (zlen devices) 128) as [H|H]; unfold zlen in H.
  - rewrite (bind_lift _ _ _ _ F3). rewrite take_ge by (rewrite length_app; simpl; lia). done.
  - rewrite take_app_le by lia. by rewrite take_ge by lia.
Qed.
Definition mac_line (d : list Z) : list Z := mac_str d ++ lf.
Lemma print_devices_ok l n : Forall mac_ok l -> print_devices l n = Ret (tt, print_na (concat (map mac_line l)) n).
Proof.
  intros H. revert n. induction H as [|d l Hd H IH]; intros n; cbn [print_devices map concat].
  - unfold print_na. rewrite app_nil_r. by destruct n.
  - pose proof (format_mac_args d [] [] Hd) as F. rewrite !app_nil_r in F. cbn [format obind] in F.
    erewrite bind_Ret by (unfold MACSTR_OF; rewrite (bind_lift _ _ _ _ F); reflexivity). rewrite IH. unfold mac_line, print_na.
    cbn [na_sock na_dest na_cookie na_recvbuf na_rx na_sent na_out]. by rewrite app_nil_r, <- !app_assoc.
Qed.
Lemma devices_of_ok fs : Forall is_bytes fs -> Forall mac_ok (devices_of fs).
Proof.
  induction 1 as [|f fs Hf H IH]; [constructor|]. unfold devices_of. cbn [omap list_omap].
  destruct (parse f) as [m|] eqn:Em; [|exact IH]. cbn [mbind option_bind].
  destruct (am_cmd m =? WNB_NETAT_CMD_SCAN_RESP); [|exact IH]. constructor; [|exact IH].
  split; [by apply (parse_fields f m [])|]. unfold parse in Em. destruct (_ <=? _); [|done]. injection Em as <-. cbn [am_src].
  by apply is_bytes_take, is_bytes_drop.
Qed.
Lemma heard_bytes rx : Forall (fun a => is_bytes (gram a)) rx -> Forall is_bytes (heard rx).
Proof. induction 1 as [|a rx Ha H IH]; [constructor|]. cbn [heard]. destruct (0 <? got a); [by constructor|constructor]. Qed.

Lemma cli_scan_ok n :
  Forall arrival_ok (na_rx n) -> Forall (fun a => is_bytes (gram a)) (na_rx n) ->
  let found := take 128 (devices_of (heard (na_rx n))) in
  exists n', cli_scan n = Ret (zlen found, n') /\ na_sent n' = na_sent n ++ [scan_req (na_cookie n)] /\
    na_out n' = na_out n ++ concat (map mac_line found).
Proof.
  intros Ho Hb found. unfold cli_scan. set (n2 := log_sent (scan_req (na_cookie n)) n).
  rewrite (bind_Ret netat_scan _ n tt n2 eq_refl). rewrite (bind_Ret (gets na_rx) _ n2 (na_rx n) n2 eq_refl).
  destruct (cli_scan_loop_ok (S (length (na_rx n))) n2 []) as (b & E); [done|simpl; lia|simpl; lia|].
  change (na_rx n2) with (na_rx n) in E. cbn [app] in E. fold found in E. rewrite (bind_Ret _ _ _ _ _ E).
  destruct (Z.eqb_spec (zlen found) 0) as [H0|H0].
  - eexists. rewrite H0. split; [reflexivity|]. assert (found = []) as -> by (by destruct found). by rewrite app_nil_r.
  - erewrite bind_Ret by (apply print_devices_ok, Forall_take, devices_of_ok, heard_bytes, Hb). by eexists.
Qed.

(** The scan of the one-shot program prints, one line each, the addresses of
    the first 128 chips that answer before it gets silent, in the order they do,
    for one request, and succeeds exactly when there is one. *)
Lemma cli_scan_lists fd random lines prog ifname response n :
  0 <= fd -> no_nul ifname -> Forall arrival_ok (na_rx n) -> Forall (fun a => is_bytes (gram a)) (na_rx n) ->
  let found := take 128 (devices_of (heard (na_rx n))) in
  exists n', cli_main fd true true true true random [prog; ifname ++ [0]; lit "scan"] lines response n
    = Ret (Some (match found with [] => 1 | _ => 0 end), n') /\
    na_sent n' = na_sent n ++ [scan_req (ztake 6 random)] /\ na_out n' = na_out n ++ concat (map mac_line found).
Proof.
  intros Hfd Hif Ho Hb found. unfold cli_main.
  erewrite bind_Ret by reflexivity. cbn [negb]. rewrite (bind_Ret _ _ _ _ _ (cli_init_socket_ok fd random ifname n Hfd Hif)).
  change (0 <? 0) with false. cbv iota. set (n1 := set_cookie_na _ _).
  erewrite bind_lift by (vm_compute; reflexivity). cbv iota.
  destruct (cli_scan_ok n1 Ho Hb) as (n' & E & E1 & E2). rewrite (bind_Ret _ _ _ _ _ E). exists n'. split; [|done].
  unfold ret. do 3 f_equal. change (na_rx n1) with (na_rx n). fold found. by destruct found.
Qed.
Lemma cli_scan_lists_witness :
  exists n', cli_main 3 true true true true demo_cookie [lit "cli"; lit "hg0"; lit "scan"] [] []
      (demo_netat [Gram (scan_req demo_cookie); response_gram 2 demo_cookie []; NoGram (-1)]) = Ret (Some 0, n') /\
    na_sent n' = [scan_req demo_cookie] /\ na_out n' = str "02:00:00:00:00:07" ++ lf.
Proof.
  exact (cli_scan_lists 3 demo_cookie [] (lit "cli") (str "hg0") [] (demo_netat [Gram (scan_req demo_cookie); response_gram 2 demo_cookie []; NoGram (-1)])
    ltac:(lia) ltac:(apply (bool_decide_unpack _); vm_compute; exact I) ltac:(by repeat constructor)
    ltac:(repeat constructor; (vm_compute; done))).
Defined.

(** ** Faults of the library *)
(** The size of the buffer is not looked at: a second answer of 600 bytes runs out
    of a buffer of 1024, and so does the terminator behind one that fills it. *)
Lemma netat_recv_overflows :
  let n rx := set_cookie_na demo_cookie (demo_netat rx) in
  netat_recv (Some (replicate 1024 0)) (n (replicate 2 (response_gram 4 demo_cookie (replicate 600 65)))) = Fault OutOfBounds /\
  netat_recv (Some (replicate 1024 0)) (n (replicate 2 (response_gram 4 demo_cookie (replicate 512 65)))) = Fault OutOfBounds.
Proof. vm_compute. done. Qed.
(** A printed answer that fills the receive buffer has no end. *)
Lemma netat_recv_prints_past_buffer :
  netat_recv None (set_cookie_na demo_cookie (demo_netat [response_gram 4 demo_cookie (replicate 1009 65)])) = Fault OutOfBounds.
Proof. vm_compute. done. Qed.
(** A command that finds no chip prints what the array for the answer held before:
    here what it was found with. *)
Lemma shell_prints_stale_answer :
  exists r n', shell true [str "at+ver" ++ lf] (str "old" ++ replicate 1021 0)
      (set_cookie_na demo_cookie (set_dest (replicate 6 0xff) (set_sock 3 (demo_netat [])))) = Ret (r, n') /\
    na_sent n' = [scan_req demo_cookie] /\ na_out n' = [13; 10; 62; 58] ++ str "not detect device!" ++ [13; 13] ++ str "old".
Proof. eexists _, _. split; [vm_compute; reflexivity|]. vm_compute. done. Qed.
(** An interface name of sixteen characters runs out of the request. *)
Lemma netat_init_long_name :
  libnetat_init 3 true true true demo_cookie (lit "interface0123456") (demo_netat []) = Fault OutOfBounds.
Proof. vm_compute. done. Qed.
